(* ===== verification/_CoqProject ===== *)
-Q . S2P
Prelude.v
Errno.v
CList.v
Utils.v
Physical.v
VMalloc.v
PageMap.v
InlineAsm.v
HTable.v
Region.v
UserPage.v
UserSpace.v
Context.v
ContextSpec.v
PageFault.v
FaultSpec.v
MemInit.v
InitSpec.v
BootSpec.v
BootMachine.v
Sched.v
WaitQueue.v
Signal.v
Timer.v
Tls.v
Fs.v
Mode.v
IoContext.v
Open.v
Mount.v
DevFs.v
BCache.v
BCacheSpec.v
Log.v
LogSpec.v
Process.v
ProcessInv.v
Small.v
Lifecycle.v
Slab.v
SlabInv.v
SlabSpec.v
SlabPhys.v
Interrupt.v
Asm.v
Loader.v
SchedAsm.v
IntrAsm.v
CpuAsm.v
KMain.v
KMainSpec.v
KMainMachine.v
