(* ===== verification/Prelude.v ===== *)
(** * The Chaff kernel, a verification development

    Chaff is a small 32-bit i386 kernel written in C (src/kernel). This
    library models it from the boot loader's entry to the first thread and beyond:
    memory management, hash tables, processes, scheduler, signals, interrupts,
    timers, files, filesystems, the block cache, output formatting and the
    assembly between them, and proves the properties that make these parts
    correct. Where the code does not do what its comments say, the theorem
    states what the code does.

    ** The program's parts and the files that model them

    The parts lean on each other from the bottom up: everything uses the
    intrusive lists and the memory functions; the virtual allocator uses the
    page mapper and the physical allocator; memory contexts are regions and
    page tables made of physical pages, and the page fault handler fills them;
    at boot the page state table and the kernel's directory are made from the
    boot loader's memory map; hash tables get their bucket
    arrays from the virtual allocator; the scheduler switches memory contexts
    and FPU state; wait queues, signals and timers block and wake threads
    through the scheduler; files are used from the current process: a path is
    looked up through the mounted filesystems, opening it makes a file object
    with the operations of its node, and devfs passes these on to a device's
    driver or to the block cache in front of it. Processes
    are made of slab objects, physical pages and contexts, found through the
    hash tables, and end through signals, the scheduler and the reaper;
    interrupts run handlers, preempt and deliver signals. kMain puts the
    initialisers of all of these in order; stacks are switched, interrupts
    entered and the processor identified in assembly.

    - Prelude.v: machine integers ([u32], [s32], ...), the [outcome] monad,
      tactics, and arrays indexed by C integers.
    - CList.v: include/list.h. A store of [ListHead]s; [ListAddBefore],
      [ListDelete], [ListDeleteInit] and the others as loads and stores, the
      iteration macros as loops with a body that may change the store. The
      relation [rep] says which sequence a list head denotes. Other files use
      the sequences themselves, which the refinement theorems justify.
    - Utils.v: src/utils.c over byte-addressed memory: [memset] with its three
      loops, [memcpy], [memmove], [memcmp], [StrLen], [strcmp], [StrDup].
    - Physical.v: src/mm/physical.c: page states, the three zones,
      [MemPhysicalAlloc], [MemPhysicalAddRef], [MemPhysicalDeleteRef],
      [MemPhysicalFree], [MemPhysicalInit].
    - VMalloc.v: src/mm/vmalloc.c over the class [PageSource], which states
      what the allocator needs of pages; [MemVirtualReserve],
      [MemVirtualUnReserve], [MemVirtualAlloc], [MemVirtualZAlloc],
      [MemVirtualFree].
    - PageMap.v: the bit fields of include/mm/pagingInt.h and [MemMapPage] and
      [MemUnmapPage] of src/mm/pageMapping.c.
    - InlineAsm.v: include/inlineasm.h: the control registers, the ports, and
      [invlpg] with the processor's cache of translations, under which
      [MemMapPage] and [MemUnmapPage] are looked at again. Toggling paging
      empties the cache, loading CR3 keeps the global entries only with
      CR4.PGE, the processor may evict entries at any time ([evict]), and it
      reads the entry that the directory made at boot leads to ([boot_slot]).
    - UserPage.v: the user part of src/mm/pageMapping.c and of
      include/mm/pagingInt.h: [MemIntMapUserPage], [MemIntUnmapUserPage] and
      the counters of page tables, over physical memory as words. [translate]
      is what the processor reads from the tables, [space_ok] a well-formed user
      space. UserSpace.v has what follows for several spaces, for the regions
      of Region.v, and where mask and counters go wrong.
    - Context.v: [MemContextInit], [MemContextClone] and [MemContextDelete] of
      src/mm/region.c; ContextSpec.v shows what a new, a cloned and a deleted
      context is.
    - PageFault.v: src/mm/pageFault.c, whole. The accesses that the handler
      itself makes can fault too and then run the handler again. FaultSpec.v:
      copy on write, demand paging and errors, and a write after a fork.
    - MemInit.v: src/mm/memInit.c over the boot loader's tables as bytes in
      memory (include/multiboot.h). InitSpec.v: the place of the page state
      table; BootSpec.v: the kernel's address space and the page allocator
      after [MemManagerInit]; BootMachine.v: these at small machines.
    - HTable.v: src/htable.c, whole, with chains through an item store and
      keys as byte ranges of memory; bucket arrays come through the class
      [BucketMemory], which the virtual allocator implements.
    - Region.v: src/mm/region.c ([MemRegionFind], [MemRegionCreate],
      [MemRegionResize], [MemRegionFreePages], [MemRegionDelete]) and the
      user pointer checks of src/mm/check.c, with page unmapping through the
      class [UserPages].
    - Sched.v: the thread and process records of include/process.h,
      src/process/scheduler.c and the lazy FPU switching of src/cpu.c. The
      state [sys] holds the threads, processes, memory contexts, the ready
      queue, the current thread, the FPU and the timer's quantum. A switch of
      stacks is the change of the current thread; a function that blocks is
      split there, and its second half ([ProcYieldBlock_return] and the like)
      is what it returns when its thread runs again.
    - WaitQueue.v: src/process/waitqueue.c and [ProcIntReaperAdd].
    - Signal.v: src/process/signal.c: sending, masks, actions, delivery, the
      frame for a user handler and the return from it.
    - Timer.v: src/timer.c (sleep and alarm queues, the interrupt, the
      speaker) and src/hwTime.c (the CMOS clock).
    - Tls.v, Mode.v: src/process/tls.c and src/io/mode.c.
    - Fs.v: the structures of include/io/fs.h and include/io/device.h. The
      operations of files, filesystems and devices are records of functions
      on a world of their own.
    - IoContext.v: src/io/iocontext.c: descriptors sharing file objects in a
      store, reference counts, reading, writing, ioctl, truncation, directory
      reading, duplication and closing.
    - Open.v: src/io/open.c: [IoLookupPath] on a path in byte memory, [IoOpen]
      with its checks; [resolve], what a path means.
    - Mount.v: src/io/mount.c: the list of filesystem types, mounting and
      unmounting.
    - DevFs.v: src/io/devfs.c: the table of devices and its filesystem, as the
      operations tables that Open.v and IoContext.v call.
    - BCache.v: src/io/bcache.c: blocks, reference counts, reading and writing
      through the cache; the class [BlockMem] is what it takes from the
      allocators. BCacheSpec.v has the invariant that cached blocks agree with
      the disk ([coherent]), for drivers and allocators that keep their laws
      ([block_device], [BlockMemLaws]), and a disk in memory that keeps them.
    - Process.v: src/process/process.c and the thread of
      src/process/reaper.c: [ProcInit], [ProcCreateProcess],
      [ProcCreateUserThread], [ProcFork], [ProcWaitProcess],
      [ProcWaitThread], [ProcExitProcess], [ProcExitThread], reaping. The
      class [ProcEnv] is what processes take from memory and files.
      ProcessInv.v has the invariant of the tables over all operations,
      Small.v decision procedures for it and a concrete instance of the
      interface, Lifecycle.v the behaviour of the operations.
    - Slab.v: src/mm/slab.c, with free chains running through memory; the
      class [SlabPages] is filled by the physical allocator. SlabInv.v has the
      allocator's invariant, SlabSpec.v what allocation and freeing promise,
      from the laws [SlabPagesLaws] of the pages below; SlabPhys.v shows that
      the page allocator of Physical.v keeps these laws.
    - Interrupt.v: src/interrupt.c and src/exceptions.c: the gates, the
      dispatch table with its chains, registration, handling. What
      [IntrHandler] does is recorded in its order ([events]): handlers,
      acknowledgement, yield, signals.
    - Asm.v: the instructions that the kernel's assembly uses, as steps of a
      processor with registers, selectors, flags, control registers and a
      memory of words; what differs between processors (which flags can be
      changed, what CPUID says) is the class [Processor]. Loader.v:
      src/loader.s over physical memory, with the processor's translation of
      addresses, also of the code's own, and its descriptor tables. SchedAsm.v:
      src/process/schedulerAsm.s; IntrAsm.v: src/interruptAsm.s, with the
      processor's own part of an interrupt; CpuAsm.v: src/cpuAsm.s.
    - KMain.v: src/kMain.c, [CpuInitLate] of src/cpu.c, [IoBlockCacheInit] of
      src/io/bcache.c and the caches of [ProcInit], over one state [kernel];
      the interfaces [ProcEnv] and [IntrMem] are filled by the slab allocator,
      that by the page allocator, and [CpuInit] runs the machine code.
      KMainSpec.v shows that the kernel boots, KMainMachine.v boots a small
      machine.
    - Errno.v: the error numbers of include/errno.h.
    - Log.v: src/log.c: the printf engine [DoStringFormat], the buffer
      printers, the text screen and the stack trace of a panic. LogSpec.v: a
      screen of lines and cells ([type_text]), the text of a message with its
      numbers, and what a panic leaves in the video memory.

    ** How the code is represented

    Fallible and non-returning code has type [outcome]: [Ret], [Panic] (the
    kernel's fatal error), [Fault] (an access the program has no right to
    make) and [NoFuel]. Integers are [Z] with the wrap-around of their C type
    written out. Assembly is a list of instructions per function; a run ends
    where it leaves them. State is passed explicitly, in records with the source's
    field names.

    ** Fuel

    A loop that is not bounded by its own data takes fuel, and a theorem that
    such a loop returns has fuel as a hypothesis, a number the data gives: the
    length of the list for iteration over lists, the number of items for hash
    table chains ([itemCount t]), the pages of a zone for the page search, the
    length of the format string for [DoStringFormat], the number of bits for
    the digits of a number, the ids in use for the search of a new id, the
    entries of a vector for interrupt handlers, the characters of a path, the
    bytes of a request to the block cache, the entries of the memory map, the
    reserved zones, the frames of a stack. A run of assembly takes the number
    of its instructions, and ends by itself when it leaves them. The page fault handler takes the
    depth of handlers inside handlers and the tries of one access; one handler
    is enough where its own accesses do not fault. [MemSlabAlloc] takes the depth
    of its nesting, and 2 is enough: headers come from a cache whose own
    headers are inside its slabs. Theorems that a loop never ends
    ([MemPhysicalAlloc_full_zone_diverges], [HashTableReserve_empty_diverges])
    hold for every fuel.

    ** What the theorems show

    - Refinement: list functions implement sequences
      ([ListAddBefore_refines], [ListDeleteInit_refines]); the hash table
      implements a finite map from keys to items, also while it grows
      ([HashTableInsert_refines], [HashTableFind_refines],
      [HashTableRemove_refines], [HashTableRemoveItem_refines]); the slab
      allocator hands out fresh objects that overlap no other and takes them
      back ([MemSlabAlloc_fresh], [MemSlabFree_takes_back]); registration
      implements a sequence of handlers per interrupt
      ([IntrRegister_refines], [IntrUnRegister_refines]); the block cache
      implements the disk behind it ([IoBlockCacheReadBuffer_reads],
      [IoBlockCacheWriteBuffer_writes]);
      mapping and unmapping user pages implement insertion in and removal from
      the processor's map ([MemIntMapUserPage_inserts],
      [MemIntUnmapUserPage_removes]); cloning shares every frame
      ([MemContextClone_shares]); the page allocator keeps the laws that the
      slab allocator asks for ([phys_slab_laws]); the frame that the interrupt
      entries push is the IntrContext that C reads
      ([interrupt_builds_context]).
    - Equivalence: path lookup follows the names of the path one by one
      ([IoLookupPath_resolves]); the day count of the clock is the calendar's
      ([DaysDiff_correct]).
    - Invariants: the process and thread tables from [ProcInit] on, over kMain's
      end, the idle thread and the reaper too
      ([process_tables_invariant]), the ready queue and CR3 over all steps of
      the scheduler ([scheduler_invariant]), the slab allocator ([MemSlabInit_establishes]),
      the page accounting over all operations ([accounting_invariant]), the
      tables of devfs ([devfs_invariant]), the
      regions of a context ([MemRegionCreate_ok]), the timer queue
      ([AddTimerToQueue_sorted]).
    - Types: the regions of a context ([regions_type_preserved]).
    - Boot: kMain gets through all initialisers and runs the idle thread
      ([kMain_boots]); without a multiboot loader it panics ([kMain_refuses]).
    - Machine code: the loader calls kMain in the high half, with the low copy
      unmapped ([loader_hands_over]); a thread that was switched away goes on where it was
      ([switched_out_thread_resumes]), new threads start as their stacks were
      made ([new_user_thread_enters], [new_kernel_thread_runs]), interrupts are
      invisible to what they interrupt ([interrupt_transparent]), CpuInit finds
      out what the processor can do ([CpuInit_identifies]) and refuses a 386
      ([CpuInit_refuses_386]).
    - Behaviour: round-robin fairness, blocking and waking, FPU transparency,
      first-fit reservation, region search and shrinking, signals that end a
      wait, file reads, descriptor numbers, printing of numbers, forking,
      exiting and waiting for children, size classes, the handlers of an
      interrupt, opening, mounting, registering devices.
    - Memory: address spaces are isolated ([address_spaces_isolated]); a write
      after a fork is private where the temporary page works and a panic
      where it does not, as on the booted kernel ([fork_write_outcome]); first accesses see
      zeroes ([demand_paging_zeroes]); the page state table is placed on free
      memory and describes it ([GetPhysicalTableLocation_finds],
      [MemManagerInit_page_table]); the direct map shows every page
      ([MemManagerInit_address_space]). Those about page tables are for
      addresses where the index mask does no harm (directory entries that are
      multiples of four), those about copying a page for a temporary page that
      the processor and MemMapPage agree on; what happens otherwise is stated
      too ([MemIntMapUserPage_elsewhere], [copy_on_write_temp_unseen],
      [boot_temp_unseen]).
    - Composition: a registered device is opened and read through its path,
      from IoOpen to the driver ([device_open_read]); IoRead on a block device
      gives the disk's bytes through devfs and the cache ([block_file_read]).
    - Errors: refusals of [ProcWaitProcess], each exception of the kernel and of
      user programs ([exception_outcome]), what IoOpen leaves when it fails ([IoOpen_outcome]), reads
      into bad buffers ([IoBlockCacheReadBuffer_faults]), page faults that
      cannot be handled ([page_fault_errors]).
    - Round trips: reserve and unreserve, map and unmap, clone and delete,
      memory maps and their bytes, mount and unmount, switching away and back,
      signal frame and return, printed digits and their value.
    - Bounds: the log stays on the screen ([log_stays_on_screen]); digits fit
      the conversion buffer. A panic's message and stack trace can be read on
      the screen ([panic_output_prints]).
    - Where the code departs from its comments: the page search that does not
      end, runs that leave their zone, sign extension in memset, the reserve
      loop of an empty table, a shrink that does nothing, pointer checks that
      accept holes, growth over a neighbour, the descriptor kept by a close,
      the sleep queue's order, the TLS base, the owner and world bits, the
      signal masks, the unchecked buffer of SPrintF, the exit of an orphan,
      slabs that are freed but kept, the mask bit of IRQ 8, paths that end in
      '.', descriptors that stay reserved, types that are forgotten, devices
      hidden by the root directory, offsets beyond 4 GiB, references and blocks
      that the block cache loses; page tables entered beyond their end, freed
      while in use and kept when empty, the first page of a read-only region,
      the temporary page that the processor never sees after boot, the direct
      map of large machines and of those without 4 MB pages, boot modules, the
      free pages that the kernel is counted among; a page that is unmapped and
      still seen ([unmapped_page_stays_visible]), a 486 without CPUID
      ([CpuInit_without_cpuid_is_lost]), and the ports that the task state
      segment leaves to user programs ([user_ports_open]).

    ** Not modelled

    What runs before src/loader.s, whose memory and tables are what [booted],
    [loaded] and [boot_ok] ask for; the inline functions inw, ind and outd,
    which do not assemble; the accessed and dirty bits that the processor sets
    in page table entries. Outside of InlineAsm.v there are no translation
    caches: every access is as if invlpg and the reloads of CR3 had been made
    wherever they are needed. Page tables
    are in memory that the allocators of these files share, but the general
    allocator's addresses are not: the structures of contexts and regions are
    values. In KMain.v the bytes of memory (names, boot tables, the screen),
    the words of kernel stacks and the words of CpuInit's variables are
    separate maps, and memory contexts and descriptor tables, of which none is
    made at boot, come from the class [ContextOps]. Filesystems other than
    devfs are tables of operations. A thread that waits for a block of the
    cache finds the state that the parameter [others] leaves; the theorems
    about the cache are for drivers that answer at once, allocators with room,
    and devices of at most 4 GB whose size is a multiple of the block size. *)
From stdpp Require Export base numbers list gmap strings.
From Stdlib Require Export ZArith Lia.

#[export] Set Warnings "-clear-no-such-hyp".
#[global] Open Scope Z_scope.

(** ** Machine integers

    A w-bit C integer is a [Z] kept in range by writing the wrap-around out
    at each operation that can leave the range. *)

Declare Scope chaff_scope.
Delimit Scope chaff_scope with chaff.

Definition u8 (x : Z) : Z := x mod 256.
Definition u32 (x : Z) : Z := x mod 4294967296.
Definition u64 (x : Z) : Z := x mod 18446744073709551616.

(** Two's complement reading of the low bits (i386: [int] has 32 bits, [char] 8 and is signed). *)
Definition s8 (x : Z) : Z := (x + 128) mod 256 - 128.
Definition s32 (x : Z) : Z := (x + 2147483648) mod 4294967296 - 2147483648.
Definition s64 (x : Z) : Z :=
  (x + 9223372036854775808) mod 18446744073709551616 - 9223372036854775808.

(** Range predicates of the C types. *)
Definition is_u32 (x : Z) : Prop := 0 <= x < 4294967296.
Definition is_s32 (x : Z) : Prop := -2147483648 <= x < 2147483648.

Notation "x +₃₂ y" := (u32 (x + y)) (at level 50, left associativity) : chaff_scope.
Notation "x -₃₂ y" := (u32 (x - y)) (at level 50, left associativity) : chaff_scope.
#[global] Open Scope chaff_scope.

(** C's test of an integer as a condition. *)
Definition truth (x : Z) : bool := negb (x =? 0).

(** ** Outcomes of kernel code

    [Panic] is the kernel's own fatal error (Panic() never returns), [Fault]
    an access the C program has no right to make (a null or wild pointer, an
    index outside its array), [NoFuel] a loop that was still running when the
    fuel of the model ran out. *)
Inductive outcome (A : Type) : Type :=
| Ret (a : A)
| Panic (msg : string)
| Fault
| NoFuel.
Arguments Ret {A} a.
Arguments Panic {A} msg.
Arguments Fault {A}.
Arguments NoFuel {A}.

#[export] Instance outcome_ret : MRet outcome := @Ret.
#[export] Instance outcome_bind : MBind outcome := fun A B f m =>
  match m with
  | Ret a => f a
  | Panic msg => Panic msg
  | Fault => Fault
  | NoFuel => NoFuel
  end.

(** An access that faults when there is nothing there. *)
Definition or_fault {A} (o : option A) : outcome A :=
  match o with Some a => Ret a | None => Fault end.

(** ** Tactics *)

(** Linear arithmetic with division and remainder by constants. *)
Ltac zlia := Z.div_mod_to_equations; lia.
Ltac u32_lia := unfold u32, is_u32, s32, is_s32 in *; zlia.

(** Equality of results, component by component. *)
Ltac tuple_eq :=
  lazymatch goal with
  | |- Ret _ = Ret _ => apply f_equal; tuple_eq
  | |- (_, _) = (_, _) => apply pair_equal_spec; split; tuple_eq
  | |- _ => try done; try zlia
  end.

(** What a computation that returns has done. *)
Lemma bind_Ret_inv {A B} (m : outcome A) (k : A -> outcome B) y :
  (m ≫= k) = Ret y -> exists x, m = Ret x /\ k x = Ret y.
Proof. destruct m; [|done..]. eauto. Qed.

Lemma or_fault_inv {A} (o : option A) x : or_fault o = Ret x -> o = Some x.
Proof. destruct o; [|done]. by intros [= ->]. Qed.

Lemma or_fault_Some {A} (o : option A) x : o = Some x -> or_fault o = Ret x.
Proof. by intros ->. Qed.

Lemma Ret_inj {A} (x y : A) : Ret x = Ret y -> x = y.
Proof. by intros [= ->]. Qed.

(** Take a computation that returned apart, step by step. *)
Ltac ret_step :=
  match goal with
  | H : Ret _ = Ret _ |- _ => apply Ret_inj in H; subst
  | H : (_, _) = (_, _) |- _ => apply pair_equal_spec in H as [H ?]; subst
  | H : Panic _ = Ret _ |- _ => discriminate H
  | H : Fault = Ret _ |- _ => discriminate H
  | H : NoFuel = Ret _ |- _ => discriminate H
  | H : or_fault _ = Ret _ |- _ => apply or_fault_inv in H
  | H : mbind _ _ = Ret _ |- _ => apply bind_Ret_inv in H as (? & ? & H); cbv beta in H
  | H : (let '(_, _) := ?p in _) = Ret _ |- _ => destruct p
  | H : (if ?b then _ else _) = Ret _ |- _ => destruct b eqn:?
  | H : match ?x with _ => _ end = Ret _ |- _ => destruct x eqn:?
  end.
Ltac ret_inv := repeat ret_step.

(** Split every boolean comparison of the goal into its two cases. *)
Ltac bool_cases :=
  repeat match goal with
  | |- context [Z.eqb ?a ?b] => destruct (Z.eqb_spec a b)
  | |- context [Z.ltb ?a ?b] => destruct (Z.ltb_spec a b)
  | |- context [Z.leb ?a ?b] => destruct (Z.leb_spec a b)
  end; simpl in *; try (exfalso; lia).

(** The same for the comparisons of the hypotheses. *)
Ltac bool_hyps :=
  repeat match goal with
  | H : context [Z.eqb ?a ?b] |- _ => destruct (Z.eqb_spec a b)
  | H : context [Z.ltb ?a ?b] |- _ => destruct (Z.ltb_spec a b)
  | H : context [Z.leb ?a ?b] |- _ => destruct (Z.leb_spec a b)
  end; simpl in *; try (exfalso; lia).

(** Equality of integers bit by bit, with the comparisons of bit positions
    decided by arithmetic. *)
Ltac bits_norm :=
  repeat first
    [ rewrite Z.land_spec | rewrite Z.lor_spec | rewrite Z.lxor_spec | rewrite Z.bits_0
    | rewrite Z.testbit_neg_r by lia
    | rewrite Z.lnot_spec by lia | rewrite Z.shiftr_spec by lia
    | rewrite Z.shiftl_spec by lia | rewrite Z.testbit_ones by lia ].

Ltac bits_same_index :=
  repeat match goal with
  | |- context [Z.testbit ?w ?a] =>
      match goal with
      | |- context [Z.testbit w ?b] =>
          lazymatch a with b => fail | _ => replace (Z.testbit w a) with (Z.testbit w b) by (f_equal; lia) end
      end
  end.

Ltac bits :=
  apply Z.bits_inj'; let i := fresh "i" in let H := fresh "H" in intros i H;
  bits_norm; bool_cases; bits_norm; bits_same_index;
  rewrite ?andb_true_r, ?andb_false_r, ?orb_false_r, ?orb_false_l, ?andb_true_l, ?orb_true_r; try done.

(** ** Filters that keep all or nothing *)

Lemma filter_all {A} (P : A -> Prop) `{forall x, Decision (P x)} (l : list A) :
  (forall x, x ∈ l -> P x) -> filter P l = l.
Proof.
  induction l as [|x l IH]; intros Hl; [done|].
  rewrite filter_cons_True by (apply Hl; by left). f_equal. apply IH. intros y Hy. apply Hl. by right.
Qed.

Lemma filter_none {A} (P : A -> Prop) `{forall x, Decision (P x)} (l : list A) :
  (forall x, x ∈ l -> ~ P x) -> filter P l = [].
Proof.
  induction l as [|x l IH]; intros Hl; [done|].
  rewrite filter_cons_False by (apply Hl; by left). apply IH. intros y Hy. apply Hl. by right.
Qed.

(** ** Arrays indexed by C integers *)
Section Arrays.
Context {A : Type}.
Implicit Types (l : list A) (i j : Z) (x y : A).

Definition zlen l : Z := Z.of_nat (length l).

(** [l[i]]: nothing outside the array. *)
Definition zget l i : option A := if i <? 0 then None else l !! Z.to_nat i.

(** [l[i] = x]: no change outside the array (the models test the index first). *)
Definition zset l i x : list A := if i <? 0 then l else <[Z.to_nat i := x]> l.

Lemma zlen_nonneg l : 0 <= zlen l.
Proof. unfold zlen. lia. Qed.

Lemma zget_Some_iff l i : is_Some (zget l i) <-> 0 <= i < zlen l.
Proof.
  unfold zget, zlen. destruct (Z.ltb_spec i 0).
  - split; [intros [? [=]] | lia].
  - rewrite lookup_lt_is_Some. lia.
Qed.

Lemma zget_range l i x : zget l i = Some x -> 0 <= i < zlen l.
Proof. intros H. apply zget_Some_iff. eauto. Qed.

Lemma zget_in_range l i : 0 <= i < zlen l -> exists x, zget l i = Some x.
Proof. intros H. apply zget_Some_iff in H as [x Hx]. eauto. Qed.

Lemma zlen_zset l i x : zlen (zset l i x) = zlen l.
Proof. unfold zlen, zset. destruct (i <? 0); rewrite ?length_insert; done. Qed.

Lemma zget_zset_eq l i x : 0 <= i < zlen l -> zget (zset l i x) i = Some x.
Proof.
  unfold zget, zset, zlen. intros. bool_cases.
  apply list_lookup_insert_eq. lia.
Qed.

Lemma zget_zset_ne l i j x : i <> j -> zget (zset l i x) j = zget l j.
Proof.
  unfold zget, zset. intros. bool_cases; try done.
  apply list_lookup_insert_ne. lia.
Qed.

Lemma zget_zset l i j x :
  zget (zset l i x) j = if (i =? j) && (i <? zlen l) && (0 <=? i) then Some x else zget l j.
Proof.
  destruct (Z.eqb_spec i j) as [<-|]; simpl; [|by apply zget_zset_ne].
  destruct (Z.leb_spec 0 i), (Z.ltb_spec i (zlen l)); simpl.
  - by apply zget_zset_eq.
  - unfold zget, zset. bool_cases. unfold zlen in *.
    rewrite list_insert_ge; [done|lia].
  - unfold zget, zset. by bool_cases.
  - unfold zget, zset. by bool_cases.
Qed.

Lemma zset_zset_ne l i j x y : i <> j -> zset (zset l i x) j y = zset (zset l j y) i x.
Proof.
  unfold zset. intros. bool_cases; try done.
  apply list_insert_insert_ne. lia.
Qed.

Lemma zset_id l i x : zget l i = Some x -> zset l i x = l.
Proof.
  unfold zget, zset. destruct (i <? 0); [done|]. apply list_insert_id.
Qed.

Lemma zget_ext l l' : zlen l = zlen l' -> (forall i, zget l i = zget l' i) -> l = l'.
Proof.
  intros Hlen H. apply list_eq. intros n. specialize (H (Z.of_nat n)).
  unfold zget in H. bool_hyps. by rewrite !Nat2Z.id in H.
Qed.

Lemma zget_replicate (n : nat) x i : zget (replicate n x) i = Some x <-> 0 <= i < Z.of_nat n.
Proof.
  unfold zget. destruct (Z.ltb_spec i 0).
  - split; [done|lia].
  - rewrite lookup_replicate. split; [intros [_ ?]|intros; split; [done|]]; lia.
Qed.

Lemma zlen_replicate (n : nat) x : zlen (replicate n x) = Z.of_nat n.
Proof. unfold zlen. by rewrite length_replicate. Qed.
End Arrays.

Create Rewrite HintDb arrays.
#[export] Hint Rewrite @zlen_zset @zlen_replicate : arrays.
