(* ===== verification/CList.v ===== *)
(** * Circular linked lists (include/list.h)

    The pointer-level model: a store maps the address of a [ListHead] to its
    two fields, the list functions are sequences of loads and stores in the
    order of the source, and [rep] says which sequence of items a list head
    denotes. The theorems show that every list function implements the
    operation on sequences that its comment promises; the components that
    only use lists through these functions model them as Rocq lists. *)
From S2P Require Import Prelude.

(** ** The data *)

(** [struct ListHead]; addresses are integers. *)
Record ListHead := mkListHead { next : Z; prev : Z }.

(** The part of memory that holds list heads and list items. *)
Abbreviation store := (gmap Z ListHead).

Definition load_next (h : store) (p : Z) : outcome Z := n ← or_fault (h !! p); Ret (next n).
Definition load_prev (h : store) (p : Z) : outcome Z := n ← or_fault (h !! p); Ret (prev n).
Definition store_next (h : store) (p v : Z) : outcome store :=
  n ← or_fault (h !! p); Ret (<[p := mkListHead v (prev n)]> h).
Definition store_prev (h : store) (p v : Z) : outcome store :=
  n ← or_fault (h !! p); Ret (<[p := mkListHead (next n) v]> h).

(** ** The functions of list.h *)

Definition ListHeadInit (h : store) (head : Z) : outcome store :=
  h1 ← store_next h head head;
  store_prev h1 head head.

Definition ListEmpty (h : store) (head : Z) : outcome bool :=
  n ← load_next h head; Ret (n =? head).

(** newItem->next = item; newItem->prev = item->prev;
    item->prev->next = newItem; item->prev = newItem; *)
Definition ListAddBefore (h : store) (newItem item : Z) : outcome store :=
  h1 ← store_next h newItem item;
  p1 ← load_prev h1 item;
  h2 ← store_prev h1 newItem p1;
  p2 ← load_prev h2 item;
  h3 ← store_next h2 p2 newItem;
  store_prev h3 item newItem.

(** newItem->prev = item; newItem->next = item->next;
    item->next->prev = newItem; item->next = newItem; *)
Definition ListAddAfter (h : store) (newItem item : Z) : outcome store :=
  h1 ← store_prev h newItem item;
  n1 ← load_next h1 item;
  h2 ← store_next h1 newItem n1;
  n2 ← load_next h2 item;
  h3 ← store_prev h2 n2 newItem;
  store_next h3 item newItem.

Definition ListHeadAddFirst (h : store) (newItem head : Z) : outcome store :=
  ListAddAfter h newItem head.

Definition ListHeadAddLast (h : store) (newItem head : Z) : outcome store :=
  ListAddBefore h newItem head.

(** item->prev->next = item->next; item->next->prev = item->prev; *)
Definition ListDelete (h : store) (item : Z) : outcome store :=
  p ← load_prev h item;
  n ← load_next h item;
  h1 ← store_next h p n;
  n' ← load_next h1 item;
  p' ← load_prev h1 item;
  store_prev h1 n' p'.

Definition ListDeleteInit (h : store) (item : Z) : outcome store :=
  h1 ← ListDelete h item;
  ListHeadInit h1 item.

(** Container of a list head at byte offset [offset] of its structure. *)
Definition ListEntry (item offset : Z) : Z := u32 (item - offset).

Arguments ListHeadInit : simpl never.
Arguments ListAddBefore : simpl never.
Arguments ListAddAfter : simpl never.
Arguments ListDelete : simpl never.

(** The iterators, with a loop body that may change the memory and may leave
    the loop ([break] / [return]): the body gets the memory and the loop
    variable, and says whether to go on. [body] sees list heads; the Entry
    forms apply [ListEntry] to the same loop variable. The forms without an
    entry take their first item with [(head).next] and compare with [(head)],
    which no C type of [head] allows and nothing uses; here they take a
    pointer like the Entry forms. *)
Section Iterators.
Context {S : Type}.
Variable body : Z -> store -> S -> outcome (store * S * bool).

(** for(var = (head)->next; var != (head); var = var->next) *)
Fixpoint ListForEach_loop (fuel : nat) (head var : Z) (h : store) (s : S) : outcome (store * S) :=
  if var =? head then Ret (h, s)
  else match fuel with
  | O => NoFuel
  | Datatypes.S f =>
      '(h1, s1, go) ← body var h s;
      if (go : bool) then
        n ← load_next h1 var;
        ListForEach_loop f head n h1 s1
      else Ret (h1, s1)
  end.

Definition ListForEach (fuel : nat) (head : Z) (h : store) (s : S) : outcome (store * S) :=
  var ← load_next h head;
  ListForEach_loop fuel head var h s.

(** for(var = (head)->next, tmpVar = var->next; var != (head);
        var = tmpVar, tmpVar = tmpVar->next) *)
Fixpoint ListForEachSafe_loop (fuel : nat) (head var tmpVar : Z) (h : store) (s : S)
  : outcome (store * S) :=
  if var =? head then Ret (h, s)
  else match fuel with
  | O => NoFuel
  | Datatypes.S f =>
      '(h1, s1, go) ← body var h s;
      if (go : bool) then
        n ← load_next h1 tmpVar;
        ListForEachSafe_loop f head tmpVar n h1 s1
      else Ret (h1, s1)
  end.

Definition ListForEachSafe (fuel : nat) (head : Z) (h : store) (s : S) : outcome (store * S) :=
  var ← load_next h head;
  tmp ← load_next h var;
  ListForEachSafe_loop fuel head var tmp h s.

(** for(var = (head)->prev; var != (head); var = var->prev) *)
Fixpoint ListForEachReverse_loop (fuel : nat) (head var : Z) (h : store) (s : S) : outcome (store * S) :=
  if var =? head then Ret (h, s)
  else match fuel with
  | O => NoFuel
  | Datatypes.S f =>
      '(h1, s1, go) ← body var h s;
      if (go : bool) then
        n ← load_prev h1 var;
        ListForEachReverse_loop f head n h1 s1
      else Ret (h1, s1)
  end.

Definition ListForEachReverse (fuel : nat) (head : Z) (h : store) (s : S) : outcome (store * S) :=
  var ← load_prev h head;
  ListForEachReverse_loop fuel head var h s.

(** for(var = (head)->prev, tmpVar = var->prev; var != (head);
        var = tmpVar, tmpVar = tmpVar->prev) *)
Fixpoint ListForEachSafeReverse_loop (fuel : nat) (head var tmpVar : Z) (h : store) (s : S)
  : outcome (store * S) :=
  if var =? head then Ret (h, s)
  else match fuel with
  | O => NoFuel
  | Datatypes.S f =>
      '(h1, s1, go) ← body var h s;
      if (go : bool) then
        n ← load_prev h1 tmpVar;
        ListForEachSafeReverse_loop f head tmpVar n h1 s1
      else Ret (h1, s1)
  end.

Definition ListForEachSafeReverse (fuel : nat) (head : Z) (h : store) (s : S) : outcome (store * S) :=
  var ← load_prev h head;
  tmp ← load_prev h var;
  ListForEachSafeReverse_loop fuel head var tmp h s.
End Iterators.

(** ** What a list denotes *)

(** [seg h a xs b]: following [next] from [a] visits [xs] and then [b], and
    [prev] undoes each of these steps. *)
Fixpoint seg (h : store) (a : Z) (xs : list Z) (b : Z) : Prop :=
  match xs with
  | [] => (next <$> h !! a) = Some b /\ (prev <$> h !! b) = Some a
  | x :: xs' => (next <$> h !! a) = Some x /\ (prev <$> h !! x) = Some a /\ seg h x xs' b
  end.

(** The list with head [hd] holds exactly the items [xs], in this order. *)
Definition rep (h : store) (hd : Z) (xs : list Z) : Prop :=
  NoDup (hd :: xs) /\ seg h hd xs hd.

(** ** Field view of the store *)

Definition nx (h : store) (p : Z) : option Z := next <$> h !! p.
Definition pv (h : store) (p : Z) : option Z := prev <$> h !! p.

Lemma nx_Some h p v : nx h p = Some v -> exists n, h !! p = Some n /\ next n = v.
Proof. unfold nx. intros (n & H & ->)%fmap_Some. eauto. Qed.

Lemma pv_Some h p v : pv h p = Some v -> exists n, h !! p = Some n /\ prev n = v.
Proof. unfold pv. intros (n & H & ->)%fmap_Some. eauto. Qed.

(** What one field store does to the two field views. *)
Lemma store_next_spec h p v :
  is_Some (h !! p) -> exists h', store_next h p v = Ret h' /\
    (forall q, nx h' q = if q =? p then Some v else nx h q) /\
    (forall q, pv h' q = pv h q) /\ (forall q, is_Some (h' !! q) <-> is_Some (h !! q)).
Proof.
  intros [n Hn]. unfold store_next. rewrite Hn. simpl. eexists. split; [done|].
  unfold nx, pv. split_and!; intros q.
  - destruct (Z.eqb_spec q p) as [->|]; by simplify_map_eq.
  - destruct (decide (q = p)) as [->|]; simplify_map_eq; by rewrite ?Hn.
  - destruct (decide (q = p)) as [->|]; simplify_map_eq; split; eauto.
Qed.

Lemma store_prev_spec h p v :
  is_Some (h !! p) -> exists h', store_prev h p v = Ret h' /\
    (forall q, pv h' q = if q =? p then Some v else pv h q) /\
    (forall q, nx h' q = nx h q) /\ (forall q, is_Some (h' !! q) <-> is_Some (h !! q)).
Proof.
  intros [n Hn]. unfold store_prev. rewrite Hn. simpl. eexists. split; [done|].
  unfold nx, pv. split_and!; intros q.
  - destruct (Z.eqb_spec q p) as [->|]; by simplify_map_eq.
  - destruct (decide (q = p)) as [->|]; simplify_map_eq; by rewrite ?Hn.
  - destruct (decide (q = p)) as [->|]; simplify_map_eq; split; eauto.
Qed.

Lemma load_next_spec h p v : nx h p = Some v -> load_next h p = Ret v.
Proof. intros (n & H & <-)%nx_Some. unfold load_next. by rewrite H. Qed.

Lemma load_prev_spec h p v : pv h p = Some v -> load_prev h p = Ret v.
Proof. intros (n & H & <-)%pv_Some. unfold load_prev. by rewrite H. Qed.

Lemma nx_alloc h p v : nx h p = Some v -> is_Some (h !! p).
Proof. intros (n & H & _)%nx_Some. eauto. Qed.

Lemma pv_alloc h p v : pv h p = Some v -> is_Some (h !! p).
Proof. intros (n & H & _)%pv_Some. eauto. Qed.

#[local] Hint Resolve nx_alloc pv_alloc : core.

(** Run the next field store of the goal and name its effect on the views. *)
Ltac do_store :=
  match goal with
  | |- context [store_next ?h ?p ?v] =>
      let h' := fresh "h" in let E := fresh "E" in
      let N := fresh "N" in let P := fresh "P" in let A := fresh "A" in
      destruct (store_next_spec h p v) as (h' & E & N & P & A);
      [ | rewrite E; clear E; simpl ]
  | |- context [store_prev ?h ?p ?v] =>
      let h' := fresh "h" in let E := fresh "E" in
      let N := fresh "N" in let P := fresh "P" in let A := fresh "A" in
      destruct (store_prev_spec h p v) as (h' & E & P & N & A);
      [ | rewrite E; clear E; simpl ]
  end.

(** Rewrite the views of the last store back to those of the first one. *)
Ltac views :=
  repeat match goal with
  | H : forall q, nx ?h q = _ |- context [nx ?h _] => rewrite !H
  | H : forall q, pv ?h q = _ |- context [pv ?h _] => rewrite !H
  | H : forall q, is_Some (?h !! q) <-> _ |- context [is_Some (?h !! _)] => rewrite !H
  end.

Ltac zcases :=
  repeat match goal with |- context [?a =? ?b] => destruct (Z.eqb_spec a b); subst end;
  try congruence; try done.

(** The complete effect of each list function on the views. *)
Lemma ListHeadInit_effect h p :
  is_Some (h !! p) -> exists h', ListHeadInit h p = Ret h' /\
    (forall q, nx h' q = if q =? p then Some p else nx h q) /\
    (forall q, pv h' q = if q =? p then Some p else pv h q) /\
    (forall q, is_Some (h' !! q) <-> is_Some (h !! q)).
Proof.
  intros Hp. unfold ListHeadInit. do_store; [done|]. do_store; [by views|].
  eexists. split; [done|]. split_and!; intros; views; try done.
Qed.

Lemma ListAddBefore_effect h new item p0 :
  is_Some (h !! new) -> pv h item = Some p0 -> is_Some (h !! p0) ->
  new <> item -> new <> p0 ->
  exists h', ListAddBefore h new item = Ret h' /\
    (forall q, nx h' q = if q =? p0 then Some new else if q =? new then Some item else nx h q) /\
    (forall q, pv h' q = if q =? item then Some new else if q =? new then Some p0 else pv h q) /\
    (forall q, is_Some (h' !! q) <-> is_Some (h !! q)).
Proof.
  intros Hnew Hp Hp0 Hni Hnp. unfold ListAddBefore.
  do_store; [done|]. rewrite (load_prev_spec _ _ p0) by (by views). simpl.
  do_store; [by views|]. rewrite (load_prev_spec _ _ p0) by (views; zcases). simpl.
  do_store; [by views|]. do_store; [views; eauto|].
  eexists. split; [done|]. split_and!; intros; views; try done; zcases.
Qed.

Lemma ListAddAfter_effect h new item n0 :
  is_Some (h !! new) -> nx h item = Some n0 -> is_Some (h !! n0) ->
  new <> item -> new <> n0 ->
  exists h', ListAddAfter h new item = Ret h' /\
    (forall q, pv h' q = if q =? n0 then Some new else if q =? new then Some item else pv h q) /\
    (forall q, nx h' q = if q =? item then Some new else if q =? new then Some n0 else nx h q) /\
    (forall q, is_Some (h' !! q) <-> is_Some (h !! q)).
Proof.
  intros Hnew Hp Hp0 Hni Hnp. unfold ListAddAfter.
  do_store; [done|]. rewrite (load_next_spec _ _ n0) by (by views). simpl.
  do_store; [by views|]. rewrite (load_next_spec _ _ n0) by (views; zcases). simpl.
  do_store; [by views|]. do_store; [views; eauto|].
  eexists. split; [done|]. split_and!; intros; views; try done; zcases.
Qed.

Lemma ListDelete_effect h item p0 n0 :
  pv h item = Some p0 -> nx h item = Some n0 ->
  is_Some (h !! p0) -> is_Some (h !! n0) -> p0 <> item ->
  exists h', ListDelete h item = Ret h' /\
    (forall q, nx h' q = if q =? p0 then Some n0 else nx h q) /\
    (forall q, pv h' q = if q =? n0 then Some p0 else pv h q) /\
    (forall q, is_Some (h' !! q) <-> is_Some (h !! q)).
Proof.
  intros Hp Hn Hp0 Hn0 Hne. unfold ListDelete.
  rewrite (load_prev_spec _ _ _ Hp), (load_next_spec _ _ _ Hn). simpl.
  do_store; [done|].
  rewrite (load_next_spec _ _ n0) by (views; zcases). simpl.
  rewrite (load_prev_spec _ _ p0) by (by views). simpl.
  do_store; [by views|].
  eexists. split; [done|]. split_and!; intros; views; try done.
Qed.

(** ** Segments *)

Lemma seg_app h a l x r b : seg h a (l ++ x :: r) b <-> seg h a l x /\ seg h x r b.
Proof.
  revert a. induction l as [|y l IH]; intros a; simpl.
  - tauto.
  - rewrite IH. tauto.
Qed.

Lemma seg_snoc h a l x b :
  seg h a (l ++ [x]) b <-> seg h a l x /\ nx h x = Some b /\ pv h b = Some x.
Proof. rewrite seg_app. done. Qed.

Lemma seg_frame h h' a l b :
  seg h a l b ->
  (forall q, q ∈ a :: l -> nx h' q = nx h q) ->
  (forall q, q ∈ l ++ [b] -> pv h' q = pv h q) ->
  seg h' a l b.
Proof.
  revert a. induction l as [|x l IH]; intros a; simpl; fold (nx h) (pv h) (nx h') (pv h').
  - intros [H1 H2] HN HP. split; [rewrite <- H1; apply HN | rewrite <- H2; apply HP]; set_solver.
  - intros (H1 & H2 & H3) HN HP. split_and!.
    + rewrite <- H1. apply HN. set_solver.
    + rewrite <- H2. apply HP. set_solver.
    + apply IH; [done| |]; intros q Hq; [apply HN | apply HP]; set_solver.
Qed.

Lemma seg_alloc h a l b q : seg h a l b -> q ∈ a :: l ++ [b] -> is_Some (h !! q).
Proof.
  revert a. induction l as [|x l IH]; intros a; simpl; fold (nx h) (pv h).
  - intros [H1 H2] [->|[->|?%not_elem_of_nil]%elem_of_cons]%elem_of_cons; eauto; done.
  - intros (H1 & H2 & H3) [->|Hq]%elem_of_cons; eauto.
Qed.

(** The item before [b] at the end of a segment. *)
Definition last_or (a : Z) (l : list Z) : Z := default a (last l).
(** The item after the front of a list, or its head. *)
Definition first_or (b : Z) (r : list Z) : Z := default b (head r).

Lemma last_or_snoc a l x : last_or a (l ++ [x]) = x.
Proof. unfold last_or. by rewrite last_snoc. Qed.

Lemma seg_last h a l b : seg h a l b -> pv h b = Some (last_or a l) /\ nx h (last_or a l) = Some b.
Proof.
  destruct l as [|x l _] using rev_ind.
  - intros [H1 H2]. done.
  - rewrite seg_snoc, last_or_snoc. intros (_ & H1 & H2). done.
Qed.

Lemma seg_first h a r b : seg h a r b -> nx h a = Some (first_or b r) /\ pv h (first_or b r) = Some a.
Proof. destruct r; simpl; unfold first_or, nx, pv; simpl; tauto. Qed.

(** Redirecting the end of a segment to a new node. *)
Lemma seg_retarget h h' a l b c :
  seg h a l b -> NoDup (a :: l) -> b ∉ l -> c ∉ l ->
  nx h' (last_or a l) = Some c -> pv h' c = Some (last_or a l) ->
  (forall q, q ∈ a :: l -> q <> last_or a l -> nx h' q = nx h q) ->
  (forall q, q ∈ l -> pv h' q = pv h q) ->
  seg h' a l c.
Proof.
  destruct l as [|x l _] using rev_ind; [done|].
  rewrite last_or_snoc, !seg_snoc. intros (Hs & _) Hnd Hb Hc Hn Hp HN HP.
  split_and!; [|done|done].
  apply (seg_frame h); [done| |].
  - intros q Hq. apply HN; [set_solver|]. intros ->.
    apply (NoDup_app (a :: l) [x]) in Hnd. set_solver.
  - intros q Hq. apply HP. set_solver.
Qed.

(** ** Refinement of the sequence operations *)

(** Nothing outside [D] was changed. *)
Definition same_outside (D : list Z) (h h' : store) : Prop :=
  forall q, q ∉ D -> nx h' q = nx h q /\ pv h' q = pv h q.

(** Lists that share no node with the changed ones keep their contents. *)
Lemma rep_frame D h h' hd xs :
  rep h hd xs -> same_outside D h h' -> (forall q, q ∈ hd :: xs -> q ∉ D) -> rep h' hd xs.
Proof.
  intros [Hnd Hs] HD Hdis. split; [done|].
  apply (seg_frame h); [done| |]; intros q Hq; apply HD, Hdis; set_solver.
Qed.

Lemma rep_alloc h hd xs q : rep h hd xs -> q ∈ hd :: xs -> is_Some (h !! q).
Proof. intros [_ Hs] Hq. eapply seg_alloc; [done|]. set_solver. Qed.

(** A list splits at any position into two segments. *)
Lemma rep_split h hd l r :
  rep h hd (l ++ r) <->
  NoDup (hd :: l ++ r) /\ seg h hd l (first_or hd r) /\
  match r with [] => True | x :: r' => seg h x r' hd end.
Proof.
  unfold rep. destruct r as [|x r]; simpl.
  - rewrite app_nil_r. tauto.
  - rewrite seg_app. tauto.
Qed.

Lemma NoDup_insert (new hd : Z) l r :
  NoDup (hd :: l ++ r) -> new ∉ hd :: l ++ r -> NoDup (hd :: l ++ new :: r).
Proof.
  rewrite !NoDup_cons, !NoDup_app, NoDup_cons. intros (H1 & H2 & H3 & H4) H. set_solver.
Qed.

Lemma first_or_notin (hd : Z) (r l : list Z) :
  hd ∉ l -> (forall q, q ∈ l -> q ∉ r) -> first_or hd r ∉ l.
Proof. destruct r as [|y r]; unfold first_or; simpl; [done|]. intros _ H Hy. specialize (H y Hy). set_solver. Qed.

Lemma NoDup_halves (hd : Z) l y r :
  NoDup (hd :: l ++ y :: r) ->
  (forall q, q ∈ hd :: l -> (q ∈ (y :: r) -> False)) /\ (y ∉ r) /\ (y <> hd).
Proof.
  rewrite NoDup_cons, NoDup_app, NoDup_cons. intros (H1 & H2 & H3 & H4 & H5).
  split_and!; [|done|set_solver]. intros q Hq. apply elem_of_cons in Hq as [->|Hq]; set_solver.
Qed.

Lemma ListAddBefore_rep h hd l r new :
  rep h hd (l ++ r) -> new ∉ hd :: l ++ r -> is_Some (h !! new) ->
  exists h', ListAddBefore h new (first_or hd r) = Ret h' /\
    rep h' hd (l ++ new :: r) /\ same_outside (new :: hd :: l ++ r) h h'.
Proof.
  intros Hrep Hnew Hal. pose proof Hrep as (Hnd & Hl & Hr)%rep_split.
  pose proof (seg_last _ _ _ _ Hl) as [Hp Hn].
  assert (last_or hd l ∈ hd :: l) as Hlast.
  { destruct l as [|x l _] using rev_ind; [set_solver|]. rewrite last_or_snoc. set_solver. }
  assert (first_or hd r ∈ hd :: r) as Hfirst by (destruct r; set_solver).
  assert (first_or hd r ∉ l) as Hfl.
  { apply NoDup_cons in Hnd as [? Hnd]. apply NoDup_app in Hnd as (? & Hd & ?).
    apply first_or_notin; [set_solver|done]. }
  destruct (ListAddBefore_effect h new (first_or hd r) (last_or hd l))
    as (h' & E & HN & HP & HA); eauto; [set_solver..|].
  exists h'. split; [done|]. split.
  - apply rep_split. split; [by apply NoDup_insert|]. split.
    + apply (seg_retarget h h' hd l (first_or hd r)); simpl; [done| | done | set_solver | ..].
      * apply NoDup_cons in Hnd as [? Hnd]. apply NoDup_app in Hnd as (? & ? & ?).
        apply NoDup_cons. set_solver.
      * rewrite HN. by rewrite Z.eqb_refl.
      * unfold first_or at 1. simpl. rewrite HP. zcases. set_solver.
      * intros q Hq Hne. rewrite HN. zcases. set_solver.
      * intros q Hq. rewrite HP. zcases. set_solver.
    + assert (nx h' new = Some (first_or hd r)) as Hn1 by (rewrite HN; zcases; set_solver).
      assert (pv h' (first_or hd r) = Some new) as Hp1 by (rewrite HP; zcases).
      destruct r as [|y r]; simpl; fold (nx h') (pv h'); [done|]. split_and!; [done|done|].
      destruct (NoDup_halves _ _ _ _ Hnd) as (Hd & Hyr & Hyh).
      apply (seg_frame h); [done| |]; intros q Hq.
      * rewrite HN. assert (q <> last_or hd l) by (intros ->; by eapply Hd).
        assert (q <> new) by (clear -Hq Hnew; set_solver). zcases.
      * rewrite HP. assert (q <> y) by (clear -Hq Hyr Hyh; set_solver).
        assert (q <> new) by (clear -Hq Hnew; set_solver). zcases.
  - intros q Hq. rewrite HN, HP.
    assert (q <> new) by (clear -Hq; set_solver).
    assert (q <> last_or hd l) by (clear -Hq Hlast; set_solver).
    assert (q <> first_or hd r) by (clear -Hq Hfirst; set_solver). split; zcases.
Qed.

Lemma ListAddAfter_rep h hd l r new :
  rep h hd (l ++ r) -> new ∉ hd :: l ++ r -> is_Some (h !! new) ->
  exists h', ListAddAfter h new (last_or hd l) = Ret h' /\
    rep h' hd (l ++ new :: r) /\ same_outside (new :: hd :: l ++ r) h h'.
Proof.
  intros Hrep Hnew Hal. pose proof Hrep as (Hnd & Hl & Hr)%rep_split.
  pose proof (seg_last _ _ _ _ Hl) as [Hp Hn].
  assert (last_or hd l ∈ hd :: l) as Hlast.
  { destruct l as [|x l _] using rev_ind; [set_solver|]. rewrite last_or_snoc. set_solver. }
  assert (first_or hd r ∈ hd :: r) as Hfirst by (destruct r; set_solver).
  destruct (ListAddAfter_effect h new (last_or hd l) (first_or hd r))
    as (h' & E & HP & HN & HA); eauto; [set_solver..|].
  destruct (ListAddBefore_rep h hd l r new) as (h2 & E2 & Hrep2 & HD2); [done..|].
  destruct (ListAddBefore_effect h new (first_or hd r) (last_or hd l))
    as (h3 & E3 & HN3 & HP3 & HA3); eauto; [set_solver..|].
  assert (h3 = h2) as -> by congruence.
  exists h'. split; [done|]. split.
  - destruct Hrep2 as [? Hs2]. split; [done|]. apply (seg_frame h2); [done| |];
      intros q _; [rewrite HN, HN3 | rewrite HP, HP3]; done.
  - intros q Hq. destruct (HD2 q Hq) as [<- <-]. by rewrite HN, HN3, HP, HP3.
Qed.

Lemma ListDelete_rep h hd l x r :
  rep h hd (l ++ x :: r) ->
  exists h', ListDelete h x = Ret h' /\
    rep h' hd (l ++ r) /\ same_outside (hd :: l ++ r) h h' /\
    (forall q, is_Some (h' !! q) <-> is_Some (h !! q)) /\ nx h' x = nx h x.
Proof.
  intros Hrep. pose proof Hrep as (Hnd & Hl & Hr)%rep_split. simpl in *.
  pose proof (seg_last _ _ _ _ Hl) as [Hp Hn].
  pose proof (seg_first _ _ _ _ Hr) as [Hn1 Hp1].
  apply NoDup_cons in Hnd as [Hhd Hnd]. apply NoDup_app in Hnd as (Hndl & Hd & Hndr).
  apply NoDup_cons in Hndr as [Hxr Hndr].
  assert (last_or hd l ∈ hd :: l) as Hlast.
  { destruct l as [|y l _] using rev_ind; [set_solver|]. rewrite last_or_snoc. set_solver. }
  assert (first_or hd r ∈ hd :: r) as Hfirst by (destruct r; set_solver).
  assert (first_or hd r ∉ l) as Hfl.
  { apply first_or_notin; [set_solver|]. intros q Hq. specialize (Hd q Hq). set_solver. }
  destruct (ListDelete_effect h x (last_or hd l) (first_or hd r))
    as (h' & E & HN & HP & HA); eauto; [set_solver|].
  exists h'. split; [done|]. split_and!.
  - apply rep_split. split; [|split].
    + apply NoDup_cons. rewrite NoDup_app. clear -Hhd Hndl Hd Hndr. set_solver.
    + apply (seg_retarget h h' hd l x); [done| | set_solver | | ..].
      * apply NoDup_cons. set_solver.
      * done.
      * rewrite HN. by rewrite Z.eqb_refl.
      * rewrite HP. by rewrite Z.eqb_refl.
      * intros q Hq Hne. rewrite HN. zcases.
      * intros q Hq. rewrite HP.
        assert (q <> first_or hd r) by (intros ->; done). zcases.
    + destruct r as [|y r]; [done|]. destruct Hr as (_ & _ & Hr).
      destruct (NoDup_halves hd l y r) as (Hd' & Hyr & Hyh).
      { apply NoDup_cons. rewrite NoDup_app. clear -Hhd Hndl Hd Hndr. set_solver. }
      apply (seg_frame h); [done| |]; intros q Hq.
      * rewrite HN. assert (q <> last_or hd l) by (intros ->; by eapply Hd'). zcases.
      * rewrite HP. assert (q <> y) by (clear -Hq Hyr Hyh; set_solver). zcases.
  - intros q Hq. rewrite HN, HP.
    assert (q <> last_or hd l) by (clear -Hq Hlast; set_solver).
    assert (q <> first_or hd r) by (clear -Hq Hfirst; set_solver). split; zcases.
  - done.
  - rewrite HN. assert (x <> last_or hd l) by (intros ->; clear -Hlast Hd Hhd; set_solver). zcases.
Qed.

(** ** Iteration *)

(** A loop body that inspects each item without touching the list: the state
    it computes is a left fold with early exit over the items. *)
Fixpoint fold_break {S} (f : Z -> S -> S * bool) (xs : list Z) (s : S) : S :=
  match xs with
  | [] => s
  | x :: xs' => let '(s', go) := f x s in if (go : bool) then fold_break f xs' s' else s'
  end.

Section Iteration.
Context {S : Type}.
Variable f : Z -> S -> S * bool.

Definition pure_body (var : Z) (h : store) (s : S) : outcome (store * S * bool) :=
  Ret (h, fst (f var s), snd (f var s)).

Lemma ListForEach_loop_seg hd xs fuel a h s :
  seg h a xs hd -> hd ∉ xs -> (length xs <= fuel)%nat ->
  (v ← load_next h a; ListForEach_loop pure_body fuel hd v h s) =
  Ret (h, fold_break f xs s).
Proof.
  revert fuel a s. induction xs as [|x xs IH]; intros fuel a s Hs Hhd Hf.
  - destruct Hs as [Hn _]. rewrite (load_next_spec _ _ _ Hn). simpl.
    destruct fuel; simpl; by rewrite Z.eqb_refl.
  - destruct Hs as (Hn & _ & Hs). rewrite (load_next_spec _ _ _ Hn). simpl.
    destruct fuel as [|fuel]; [simpl in Hf; lia|]. simpl.
    destruct (Z.eqb_spec x hd) as [->|]; [set_solver|].
    destruct (f x s) as [s' go]; simpl. destruct go; [|done].
    apply IH; [done|set_solver|simpl in Hf; lia].
Qed.
End Iteration.

(** *** Reverse iteration

    Following [prev] in a store is following [next] in its mirror image, where
    the list denotes the items in the opposite order. *)
Definition mirror_node (n : ListHead) : ListHead := mkListHead (prev n) (next n).
Definition mirror (h : store) : store := mirror_node <$> h.

Lemma mirror_involutive h : mirror (mirror h) = h.
Proof. apply map_eq. intros p. unfold mirror. rewrite !lookup_fmap. by destruct (h !! p) as [[]|]. Qed.

Lemma nx_mirror h p : nx (mirror h) p = pv h p.
Proof. unfold nx, pv, mirror. rewrite lookup_fmap. by destruct (h !! p). Qed.
Lemma pv_mirror h p : pv (mirror h) p = nx h p.
Proof. unfold nx, pv, mirror. rewrite lookup_fmap. by destruct (h !! p). Qed.
Lemma load_next_mirror h p : load_next (mirror h) p = load_prev h p.
Proof. unfold load_next, load_prev, mirror. rewrite lookup_fmap. by destruct (h !! p). Qed.

Lemma seg_mirror h xs : forall a b, seg h a xs b -> seg (mirror h) b (reverse xs) a.
Proof.
  induction xs as [|x xs IH]; intros a b.
  - intros [H1 H2]. split; [by rewrite <- H2; apply nx_mirror|by rewrite <- H1; apply pv_mirror].
  - intros (H1 & H2 & Hs). rewrite reverse_cons. apply seg_app. split; [by apply IH|].
    split; [by rewrite <- H2; apply nx_mirror|by rewrite <- H1; apply pv_mirror].
Qed.

Lemma rep_mirror h hd xs : rep h hd xs -> rep (mirror h) hd (reverse xs).
Proof.
  intros [Hnd Hs]. split; [|by apply seg_mirror]. apply NoDup_cons in Hnd as [Hh Hnd].
  apply NoDup_cons. by rewrite elem_of_reverse, reverse_Permutation.
Qed.

(** A loop that changes no memory runs backwards as the forward loop runs on
    the mirror image. *)
Lemma ListForEachReverse_loop_mirror {S} (f : Z -> S -> S * bool) hd fuel : forall var h s s',
  ListForEach_loop (pure_body f) fuel hd var (mirror h) s = Ret (mirror h, s') ->
  ListForEachReverse_loop (pure_body f) fuel hd var h s = Ret (h, s').
Proof.
  induction fuel as [|fuel IH]; intros var h s s'; simpl; destruct (var =? hd); try congruence.
  destruct (f var s) as [s1 []]; simpl; [|congruence]. rewrite load_next_mirror.
  destruct (load_prev h var); simpl; [apply IH|discriminate..].
Qed.

(** The body of a loop that removes the current item and forgets it. *)
Definition delete_body (var : Z) (h : store) (s : list Z) : outcome (store * list Z * bool) :=
  h1 ← ListDelete h var;
  Ret (delete var h1, s ++ [var], true).

Lemma rep_delete_node h hd xs x : rep h hd xs -> x ∉ hd :: xs -> rep (delete x h) hd xs.
Proof.
  intros Hrep Hx. apply (rep_frame [x] h); [done| |set_solver].
  intros q Hq. unfold nx, pv. rewrite lookup_delete_ne by set_solver. done.
Qed.

Lemma ListForEachSafe_delete_loop hd xs fuel h acc t :
  rep h hd xs -> nx h (first_or hd xs) = Some t -> (length xs <= fuel)%nat ->
  exists h', ListForEachSafe_loop delete_body fuel hd (first_or hd xs) t h acc = Ret (h', acc ++ xs) /\
    rep h' hd [] /\ (forall q, q ∈ xs \/ h !! q = None -> h' !! q = None).
Proof.
  revert fuel h acc t. induction xs as [|x xs IH]; intros fuel h acc t Hrep Ht Hf.
  - exists h. rewrite app_nil_r. split_and!; [|done|set_solver].
    destruct fuel; simpl; by rewrite Z.eqb_refl.
  - destruct fuel as [|fuel]; [simpl in Hf; lia|].
    pose proof Hrep as [Hnd Hs]. apply NoDup_cons in Hnd as [Hhd Hnd].
    apply NoDup_cons in Hnd as [Hx Hnd].
    unfold first_or in *. simpl in *. destruct (Z.eqb_spec x hd) as [->|Hne]; [set_solver|].
    destruct (ListDelete_rep h hd [] x xs Hrep) as (h1 & E1 & Hrep1 & _ & HA & _).
    assert (delete_body x h acc = Ret (delete x h1, acc ++ [x], true)) as ->
      by (unfold delete_body; by rewrite E1).
    simpl in *.
    assert (rep (delete x h1) hd xs) as Hrep2 by (apply rep_delete_node; [done|set_solver]).
    assert (t = first_or hd xs) as ->.
    { destruct Hs as (_ & _ & Hs). apply seg_first in Hs as [Hn _]. congruence. }
    assert (first_or hd xs ∈ hd :: xs) as Hin by (destruct xs; set_solver).
    destruct (rep_alloc _ _ _ _ Hrep2 Hin) as [n Hn].
    rewrite (load_next_spec _ _ (next n)) by (unfold nx; by rewrite Hn). simpl.
    destruct (IH fuel (delete x h1) (acc ++ [x]) (next n)) as (h' & E & Hr & Hdel);
      [done | unfold nx, first_or in *; by rewrite Hn | lia |].
    fold (first_or hd xs) in E. exists h'. rewrite E, <- app_assoc. simpl. split_and!; [done..|].
    intros q [[->|Hq]%elem_of_cons|Hq]; apply Hdel; [right|by left|right].
    + apply lookup_delete_eq.
    + destruct (decide (x = q)) as [->|]; [apply lookup_delete_eq|].
      rewrite lookup_delete_ne by done. apply eq_None_not_Some. rewrite HA, Hq.
      intros [? [=]].
Qed.

Lemma ListForEachSafeReverse_delete_loop hd xs : forall fuel h acc t,
  rep h hd xs -> pv h (last_or hd xs) = Some t -> (length xs <= fuel)%nat ->
  exists h', ListForEachSafeReverse_loop delete_body fuel hd (last_or hd xs) t h acc = Ret (h', acc ++ reverse xs) /\
    rep h' hd [] /\ (forall q, q ∈ xs \/ h !! q = None -> h' !! q = None).
Proof.
  induction xs as [|x xs IH] using rev_ind; intros fuel h acc t Hrep Ht Hf.
  - exists h. rewrite app_nil_r. split_and!; [|done|set_solver]. destruct fuel; simpl; by rewrite Z.eqb_refl.
  - rewrite length_app in Hf. simpl in Hf. destruct fuel as [|fuel]; [lia|].
    destruct (ListDelete_rep h hd xs x [] Hrep) as (h1 & E1 & Hrep1 & _ & HA & _). rewrite app_nil_r in Hrep1.
    pose proof Hrep as [Hnd Hs]. apply NoDup_cons in Hnd as [Hhd Hnd]. apply NoDup_app in Hnd as (_ & Hx & _).
    rewrite last_or_snoc in *. simpl. destruct (Z.eqb_spec x hd) as [->|Hne]; [set_solver|].
    assert (delete_body x h acc = Ret (delete x h1, acc ++ [x], true)) as ->
      by (unfold delete_body; by rewrite E1).
    simpl. assert (rep (delete x h1) hd xs) as Hrep2.
    { apply rep_delete_node; [done|]. intros [->|Hin]%elem_of_cons; [done|]. apply (Hx x Hin). by left. }
    assert (t = last_or hd xs) as ->.
    { apply seg_app in Hs as [Hs _]. apply seg_last in Hs as [Hp _]. congruence. }
    destruct (rep_alloc _ _ _ (last_or hd xs) Hrep2) as [n Hn].
    { unfold last_or. destruct (last xs) eqn:El; [|by left]. right. by apply last_Some_elem_of. }
    rewrite (load_prev_spec _ _ (prev n)) by (unfold pv; by rewrite Hn). simpl.
    destruct (IH fuel (delete x h1) (acc ++ [x]) (prev n)) as (h' & E & Hr & Hdel);
      [done | unfold pv; by rewrite Hn | lia |].
    exists h'. rewrite E, reverse_app, <- app_assoc. split_and!; [done..|].
    intros q [[Hq| ->%list_elem_of_singleton]%elem_of_app|Hq]; apply Hdel; [by left|right..].
    + apply lookup_delete_eq.
    + destruct (decide (x = q)) as [->|]; [apply lookup_delete_eq|].
      rewrite lookup_delete_ne by done. apply eq_None_not_Some. rewrite HA, Hq. intros [? [=]].
Qed.

(** ** Properties *)

(** Inserting with [ListAddBefore] in front of any position of a list (of
    the first item of [r], or of the head itself when [r] is empty, which is
    [ListHeadAddLast]) yields the list with the new item at that position,
    and no node of any other list is changed. *)
Theorem ListAddBefore_refines h hd l r new :
  rep h hd (l ++ r) -> new ∉ hd :: l ++ r -> is_Some (h !! new) ->
  exists h', ListAddBefore h new (first_or hd r) = Ret h' /\
    rep h' hd (l ++ new :: r) /\
    (forall hd2 ys, rep h hd2 ys -> (forall q, q ∈ hd2 :: ys -> q ∉ new :: hd :: l ++ r) ->
       rep h' hd2 ys).
Proof.
  intros H1 H2 H3. destruct (ListAddBefore_rep h hd l r new H1 H2 H3) as (h' & E & Hr & Hf).
  eauto using rep_frame.
Qed.

(** A list with head 1 and the one item 2, and a node 3 outside it. *)
Definition small_list : store :=
  <[1 := mkListHead 2 2]> (<[2 := mkListHead 1 1]> (<[3 := mkListHead 0 0]> ∅)).

Lemma ListAddBefore_refines_witness :
  exists h', ListAddBefore small_list 3 1 = Ret h' /\ rep h' 1 [2; 3].
Proof.
  destruct (ListAddBefore_refines small_list 1 [2] [] 3) as (h' & E & R & _).
  - split; [repeat (constructor; [set_solver|]); constructor|]. repeat split.
  - set_solver.
  - by eexists.
  - exists h'. split; [exact E|exact R].
Defined.

(** Deleting an item with [ListDeleteInit] yields the list without it,
    leaves the item as an empty list of its own, and changes no other list. *)
Theorem ListDeleteInit_refines h hd l x r :
  rep h hd (l ++ x :: r) ->
  exists h', ListDeleteInit h x = Ret h' /\ rep h' hd (l ++ r) /\ rep h' x [] /\
    (forall hd2 ys, rep h hd2 ys -> (forall q, q ∈ hd2 :: ys -> q ∉ hd :: l ++ x :: r) ->
       rep h' hd2 ys).
Proof.
  intros Hrep. destruct (ListDelete_rep h hd l x r Hrep) as (h1 & E1 & Hr1 & Hf1 & HA & _).
  unfold ListDeleteInit. rewrite E1. simpl.
  destruct (ListHeadInit_effect h1 x) as (h' & E & HN & HP & _).
  { apply HA. eapply rep_alloc; [done|set_solver]. }
  assert (x ∉ hd :: l ++ r) as Hx.
  { destruct Hrep as [Hnd _]. apply (NoDup_Permutation_proper (hd :: l ++ x :: r) (x :: hd :: l ++ r)) in Hnd.
    - by apply NoDup_cons in Hnd as [? _].
    - rewrite <- Permutation_middle. apply Permutation_swap. }
  assert (same_outside [x] h1 h') as Hf2.
  { intros q Hq. rewrite HN, HP. assert (q <> x) by set_solver. split; zcases. }
  exists h'. split_and!; [done| | |].
  - apply (rep_frame [x] h1); [done..|set_solver].
  - split; [apply NoDup_singleton|]. simpl. fold (nx h' x) (pv h' x). rewrite HN, HP. by rewrite Z.eqb_refl.
  - intros hd2 ys H2 Hd. apply (rep_frame [x] h1); [|done|].
    + eapply rep_frame; [done..|]. intros q Hq. specialize (Hd q Hq). set_solver.
    + intros q Hq. specialize (Hd q Hq). set_solver.
Qed.

Lemma ListDeleteInit_refines_witness :
  exists h', ListDeleteInit small_list 2 = Ret h' /\ rep h' 1 [] /\ rep h' 2 [].
Proof.
  destruct (ListDeleteInit_refines small_list 1 [] 2 []) as (h' & E & R & R' & _).
  - split; [repeat (constructor; [set_solver|]); constructor|]. repeat split.
  - exists h'. split; [exact E|]. split; [exact R|exact R'].
Defined.

(** [ListForEachSafe] with a body that deletes and frees the current item
    visits every item exactly once in list order, ends with an empty list,
    and needs no more iterations than there are items. *)
Theorem ListForEachSafe_frees_all h hd xs fuel :
  rep h hd xs -> (length xs <= fuel)%nat ->
  exists h', ListForEachSafe delete_body fuel hd h [] = Ret (h', xs) /\
    rep h' hd [] /\ (forall q, q ∈ xs -> h' !! q = None).
Proof.
  intros Hrep Hf. pose proof Hrep as [_ Hs]. apply seg_first in Hs as [Hn _].
  unfold ListForEachSafe. rewrite (load_next_spec _ _ _ Hn). simpl.
  destruct (rep_alloc h hd xs (first_or hd xs) Hrep) as [n Hn2]; [destruct xs; set_solver|].
  assert (nx h (first_or hd xs) = Some (next n)) as Ht by (unfold nx; by rewrite Hn2).
  rewrite (load_next_spec _ _ _ Ht). simpl.
  destruct (ListForEachSafe_delete_loop hd xs fuel h [] (next n)) as (h' & E & H1 & H2); eauto.
  exists h'. eauto.
Qed.

Lemma ListForEachSafe_frees_all_witness :
  exists h', ListForEachSafe delete_body 5 1 small_list [] = Ret (h', [2]) /\ rep h' 1 [].
Proof.
  destruct (ListForEachSafe_frees_all small_list 1 [2] 5) as (h' & E & R & _).
  - split; [repeat (constructor; [set_solver|]); constructor|]. repeat split.
  - simpl. lia.
  - exists h'. split; [exact E|exact R].
Defined.

(** [ListForEachReverse] with a body that changes no memory visits the items
    from the last to the first, up to the one its body stops at. *)
Theorem ListForEachReverse_visits {S} (f : Z -> S -> S * bool) h hd xs fuel s :
  rep h hd xs -> (length xs <= fuel)%nat ->
  ListForEachReverse (pure_body f) fuel hd h s = Ret (h, fold_break f (reverse xs) s).
Proof.
  intros Hrep Hf. pose proof (rep_mirror _ _ _ Hrep) as [Hnd Hs]. apply NoDup_cons in Hnd as [Hhd _].
  pose proof (ListForEach_loop_seg f hd (reverse xs) fuel hd (mirror h) s Hs Hhd) as E.
  rewrite length_reverse in E. specialize (E Hf). unfold ListForEachReverse. rewrite load_next_mirror in E.
  destruct (load_prev h hd); simpl in *; [|discriminate..]. by apply ListForEachReverse_loop_mirror.
Qed.

Lemma ListForEachReverse_visits_witness :
  ListForEachReverse (pure_body (fun x l => (l ++ [x], true))) 5 1 small_list [] = Ret (small_list, [2]).
Proof.
  apply (ListForEachReverse_visits (fun x l => (l ++ [x], true)) small_list 1 [2] 5).
  - split; [repeat (constructor; [set_solver|]); constructor|]. repeat split.
  - simpl. lia.
Defined.

(** [ListForEachSafeReverse] with a body that deletes and frees the current
    item visits every item exactly once, from the last to the first, and ends
    with an empty list. *)
Theorem ListForEachSafeReverse_frees_all h hd xs fuel :
  rep h hd xs -> (length xs <= fuel)%nat ->
  exists h', ListForEachSafeReverse delete_body fuel hd h [] = Ret (h', reverse xs) /\
    rep h' hd [] /\ (forall q, q ∈ xs -> h' !! q = None).
Proof.
  intros Hrep Hf. pose proof Hrep as [_ Hs]. apply seg_last in Hs as [Hp _].
  unfold ListForEachSafeReverse. rewrite (load_prev_spec _ _ _ Hp). simpl.
  destruct (rep_alloc h hd xs (last_or hd xs) Hrep) as [n Hn].
  { unfold last_or. destruct (last xs) eqn:El; [|by left]. right. by apply last_Some_elem_of. }
  assert (pv h (last_or hd xs) = Some (prev n)) as Ht by (unfold pv; by rewrite Hn).
  rewrite (load_prev_spec _ _ _ Ht). simpl.
  destruct (ListForEachSafeReverse_delete_loop hd xs fuel h [] (prev n)) as (h' & E & H1 & H2); eauto.
  exists h'. eauto.
Qed.

Lemma ListForEachSafeReverse_frees_all_witness :
  exists h', ListForEachSafeReverse delete_body 5 1 small_list [] = Ret (h', [2]) /\ rep h' 1 [].
Proof.
  destruct (ListForEachSafeReverse_frees_all small_list 1 [2] 5) as (h' & E & R & _).
  - split; [repeat (constructor; [set_solver|]); constructor|]. repeat split.
  - simpl. lia.
  - exists h'. split; [exact E|exact R].
Defined.
