(* ===== verification/Utils.v ===== *)
(** * Memory and string functions (src/utils.c)

    Byte memory is a finite map from addresses to byte values 0..255; reading
    or writing an address outside the map is a [Fault]. A [char] is signed on
    this target, so a byte read through a [char *] is sign-extended with [s8]. *)
From S2P Require Import Prelude.

Abbreviation memory := (gmap Z Z).

(** ** Loads and stores *)

Definition load8 (m : memory) (a : Z) : outcome Z := or_fault (m !! a).
Definition loadc (m : memory) (a : Z) : outcome Z := b ← load8 m a; Ret (s8 b).
Definition store8 (m : memory) (a v : Z) : outcome memory :=
  _ ← load8 m a; Ret (<[a := u8 v]> m).

(** Little-endian store of a 32-bit word. *)
Definition store32 (m : memory) (a v : Z) : outcome memory :=
  m1 ← store8 m a v;
  m2 ← store8 m1 (a + 1) (Z.shiftr v 8);
  m3 ← store8 m2 (a + 2) (Z.shiftr v 16);
  store8 m3 (a + 3) (Z.shiftr v 24).

(** ** The functions *)

(** for(; i > 0 && length > 0; --i) { *charPtr++ = value; --length; } *)
Fixpoint memset_head (fuel : nat) (m : memory) (charPtr value length : Z) (i : Z)
  : outcome (memory * Z * Z) :=
  if (0 <? i) && (0 <? length) then
    match fuel with
    | O => NoFuel
    | S f => m1 ← store8 m charPtr value; memset_head f m1 (charPtr + 1) value (length - 1) (i - 1)
    end
  else Ret (m, charPtr, length).

(** for(; length >= 4; length -= 4) { *((unsigned int * ) charPtr) = valueLong; charPtr += 4; } *)
Fixpoint memset_words (fuel : nat) (m : memory) (charPtr valueLong length : Z)
  : outcome (memory * Z * Z) :=
  if 4 <=? length then
    match fuel with
    | O => NoFuel
    | S f => m1 ← store32 m charPtr valueLong; memset_words f m1 (charPtr + 4) valueLong (length - 4)
    end
  else Ret (m, charPtr, length).

(** for(; length > 0; --length) { *charPtr++ = value; } *)
Fixpoint memset_tail (fuel : nat) (m : memory) (charPtr value length : Z) : outcome memory :=
  if 0 <? length then
    match fuel with
    | O => NoFuel
    | S f => m1 ← store8 m charPtr value; memset_tail f m1 (charPtr + 1) value (length - 1)
    end
  else Ret m.

(** value | value << 8 | value << 16 | value << 24, on [int], stored in an [unsigned int]. *)
Definition memset_valueLong (value : Z) : Z :=
  u32 (Z.lor (Z.lor (Z.lor value (Z.shiftl value 8)) (Z.shiftl value 16)) (Z.shiftl value 24)).

(** Every loop of [memset] runs at most [length] times, which is the fuel it gets. *)
Definition memset (m : memory) (ptr value length : Z) : outcome memory :=
  let value := s8 value in
  let fuel := Z.to_nat length in
  '(m1, charPtr, len1) ←
    (if 8 <=? length then
       '(m1, p1, l1) ← memset_head fuel m ptr value length (u32 ptr mod 4);
       memset_words fuel m1 p1 (memset_valueLong value) l1
     else Ret (m, ptr, length));
  memset_tail fuel m1 charPtr value len1.

(** for(; length > 0; --length) *destChar++ = *srcChar++; *)
Fixpoint copy_forward (length : nat) (m : memory) (dest src : Z) : outcome memory :=
  match length with
  | O => Ret m
  | S n => b ← load8 m src; m1 ← store8 m dest b; copy_forward n m1 (dest + 1) (src + 1)
  end.

(** for(; length > 0; --length) *(--destChar) = *(--srcChar);  (the pointers start past the end) *)
Fixpoint copy_backward (length : nat) (m : memory) (dest src : Z) : outcome memory :=
  match length with
  | O => Ret m
  | S n => b ← load8 m (src - 1); m1 ← store8 m (dest - 1) b; copy_backward n m1 (dest - 1) (src - 1)
  end.

Definition memcpy (m : memory) (dest src length : Z) : outcome memory :=
  copy_forward (Z.to_nat length) m dest src.

Definition memmove (m : memory) (dest src length : Z) : outcome memory :=
  if src <? dest then copy_backward (Z.to_nat length) m (dest + length) (src + length)
  else if dest <? src then copy_forward (Z.to_nat length) m dest src
  else Ret m.

Fixpoint memcmp_loop (length : nat) (m : memory) (p1 p2 : Z) : outcome Z :=
  match length with
  | O => Ret 0
  | S n =>
      c1 ← loadc m p1; c2 ← loadc m p2;
      if negb (c1 =? c2) then Ret (if c1 <? c2 then -1 else 1)
      else memcmp_loop n m (p1 + 1) (p2 + 1)
  end.

Definition memcmp (m : memory) (ptr1 ptr2 length : Z) : outcome Z :=
  memcmp_loop (Z.to_nat length) m ptr1 ptr2.

(** while(maxLen > 0 && *s) { ++s; --maxLen; }  return s - strStart; *)
Fixpoint StrLen_loop (maxLen : nat) (m : memory) (s : Z) : outcome Z :=
  match maxLen with
  | O => Ret s
  | S n => c ← loadc m s; if c =? 0 then Ret s else StrLen_loop n m (s + 1)
  end.

Definition StrLen (m : memory) (s maxLen : Z) : outcome Z :=
  e ← StrLen_loop (Z.to_nat maxLen) m s; Ret (e - s).

(** while( *s1 && *s1 == *s2) { s1++; s2++; } *)
Fixpoint strcmp_loop (fuel : nat) (m : memory) (s1 s2 : Z) : outcome Z :=
  c1 ← loadc m s1;
  c2 ← (if c1 =? 0 then Ret 0 else loadc m s2);
  if negb (c1 =? 0) && (c1 =? c2) then
    match fuel with O => NoFuel | S f => strcmp_loop f m (s1 + 1) (s2 + 1) end
  else
    c2' ← loadc m s2;
    Ret (if c1 =? c2' then 0 else if c1 <? c2' then -1 else 1).

Definition strcmp (fuel : nat) (m : memory) (s1 s2 : Z) : outcome Z := strcmp_loop fuel m s1 s2.

(** [StrDup] over the kernel's general allocator: [MemKAlloc m n x], in the
    allocator's state [x], gives the address of [n] fresh bytes (0 for NULL),
    the memory that holds them and the allocator's new state. *)
Definition StrDup {A : Type} (MemKAlloc : memory -> Z -> A -> outcome (Z * memory * A))
    (m : memory) (s maxLen : Z) (x : A) : outcome (Z * memory * A) :=
  len ← StrLen m s maxLen;
  let lenWithNull := u32 (len + 1) in
  '(newData, m1, x1) ← MemKAlloc m lenWithNull x;
  m2 ← memcpy m1 newData s lenWithNull;
  m3 ← store8 m2 (newData + lenWithNull - 1) 0;
  Ret (newData, m3, x1).

(** ** Filling a range of addresses *)

Definition writable (m : memory) (p n : Z) : Prop := forall a, p <= a < p + n -> is_Some (m !! a).

(** [m'] is [m] with the [n] bytes from [p] replaced by [f 0 .. f (n-1)]. *)
Definition filled (m m' : memory) (p n : Z) (f : Z -> Z) : Prop :=
  forall a, m' !! a = if (p <=? a) && (a <? p + n) then Some (f (a - p)) else m !! a.

Lemma filled_nil m p f : filled m m p 0 f.
Proof. intros a. by bool_cases. Qed.

Lemma filled_app m m1 m2 p n k f :
  0 <= n -> 0 <= k ->
  filled m m1 p n f -> filled m1 m2 (p + n) k (fun i => f (n + i)) -> filled m m2 p (n + k) f.
Proof.
  intros Hn Hk H1 H2 a. rewrite H2, H1. bool_cases; try done. do 2 f_equal. lia.
Qed.

Lemma filled_writable m m' p n f q k : filled m m' p n f -> writable m q k -> writable m' q k.
Proof. intros H Hw a Ha. rewrite H. destruct (_ && _); eauto. Qed.

Lemma filled_ext m m' p n f g :
  (forall i, 0 <= i < n -> f i = g i) -> filled m m' p n f -> filled m m' p n g.
Proof. intros He H a. rewrite H. bool_cases; try done. f_equal. apply He. lia. Qed.

Lemma writable_sub m p n q k : writable m p n -> p <= q -> q + k <= p + n -> writable m q k.
Proof. intros H H1 H2 a Ha. apply H. lia. Qed.

Lemma store8_spec m a v :
  is_Some (m !! a) -> exists m', store8 m a v = Ret m' /\ filled m m' a 1 (fun _ => u8 v).
Proof.
  intros [b Hb]. unfold store8, load8. rewrite Hb. simpl. eexists. split; [done|].
  intros c. bool_cases.
  - assert (c = a) as -> by lia. by simplify_map_eq.
  - by rewrite lookup_insert_ne by lia.
  - by rewrite lookup_insert_ne by lia.
Qed.

(** Run one byte store of the goal. *)
Ltac do_store8 :=
  match goal with
  | |- context [store8 ?m ?a ?v] =>
      let m' := fresh "m" in let E := fresh "E" in let F := fresh "F" in
      destruct (store8_spec m a v) as (m' & E & F); [| rewrite E; clear E; simpl ]
  end.

Lemma filled_step m m1 m2 p n v :
  0 <= n -> filled m m1 p 1 (fun _ => v) -> filled m1 m2 (p + 1) n (fun _ => v) ->
  filled m m2 p (n + 1) (fun _ => v).
Proof. intros. rewrite Z.add_comm. apply (filled_app m m1); [lia..|done|done]. Qed.

Lemma memset_tail_spec fuel m p v n :
  0 <= n <= Z.of_nat fuel -> writable m p n ->
  exists m', memset_tail fuel m p v n = Ret m' /\ filled m m' p n (fun _ => u8 v).
Proof.
  revert m p n. induction fuel as [|fuel IH]; intros m p n Hn Hw; simpl.
  - bool_cases. exists m. split; [done|]. assert (n = 0) as -> by lia. apply filled_nil.
  - destruct (Z.ltb_spec 0 n).
    + do_store8; [apply Hw; lia|].
      destruct (IH m0 (p + 1) (n - 1)) as (m' & E & Hm'); [lia| |].
      { eapply writable_sub; [eapply filled_writable|..]; [done..|lia|lia]. }
      exists m'. split; [done|]. replace n with (n - 1 + 1) by lia.
      eapply filled_step; [lia|done|done].
    + exists m. split; [done|]. assert (n = 0) as -> by lia. apply filled_nil.
Qed.

(** The alignment loop stores [min i length] bytes. *)
Lemma memset_head_spec fuel m p v n i :
  0 <= n <= Z.of_nat fuel -> 0 <= i -> writable m p n ->
  exists m', memset_head fuel m p v n i = Ret (m', p + Z.min i n, n - Z.min i n) /\
    filled m m' p (Z.min i n) (fun _ => u8 v).
Proof.
  revert m p n i. induction fuel as [|fuel IH]; intros m p n i Hn Hi Hw; simpl.
  - bool_cases; exists m; (split; [tuple_eq|]); replace (Z.min i n) with 0 by lia;
      apply filled_nil.
  - destruct (Z.ltb_spec 0 i); simpl; [destruct (Z.ltb_spec 0 n)|].
    + do_store8; [apply Hw; lia|].
      destruct (IH m0 (p + 1) (n - 1) (i - 1)) as (m' & E & Hm'); [lia|lia| |].
      { eapply writable_sub; [eapply filled_writable|..]; [done..|lia|lia]. }
      exists m'. rewrite E. split; [tuple_eq|].
      replace (Z.min i n) with (Z.min (i - 1) (n - 1) + 1) by lia.
      eapply filled_step; [lia|done|done].
    + exists m. split; [tuple_eq|]. replace (Z.min i n) with 0 by lia. apply filled_nil.
    + exists m. split; [tuple_eq|]. replace (Z.min i n) with 0 by lia. apply filled_nil.
Qed.

(** Byte [i] of a little-endian word. *)
Definition byte_of (v i : Z) : Z := u8 (Z.shiftr v (8 * i)).

Lemma store32_spec m p v :
  writable m p 4 -> exists m', store32 m p v = Ret m' /\ filled m m' p 4 (byte_of v).
Proof.
  intros Hw. unfold store32.
  do_store8; [apply Hw; lia|].
  assert (writable m0 p 4) as Hw0 by (eapply filled_writable; done).
  do_store8; [apply Hw0; lia|].
  assert (writable m1 p 4) as Hw1 by (eapply filled_writable; done).
  do_store8; [apply Hw1; lia|].
  assert (writable m2 p 4) as Hw2 by (eapply filled_writable; done).
  do_store8; [apply Hw2; lia|].
  eexists. split; [done|]. intros a. rewrite F2, F1, F0, F. unfold byte_of.
  bool_cases; try done.
  all: first [ by replace (a - p) with 0 by lia | by replace (a - p) with 1 by lia
             | by replace (a - p) with 2 by lia | by replace (a - p) with 3 by lia ].
Qed.

(** The word loop stores whole words and leaves fewer than four bytes. *)
Lemma memset_words_spec fuel m p v n :
  0 <= n <= Z.of_nat fuel -> writable m p n ->
  exists m', memset_words fuel m p v n = Ret (m', p + 4 * (n / 4), n mod 4) /\
    filled m m' p (4 * (n / 4)) (fun i => byte_of v (i mod 4)).
Proof.
  revert m p n. induction fuel as [|fuel IH]; intros m p n Hn Hw; simpl.
  - assert (n = 0) as -> by lia. exists m. split; [|apply filled_nil].
    change (4 <=? 0) with false. cbv iota. tuple_eq.
  - destruct (Z.leb_spec 4 n).
    + destruct (store32_spec m p v) as (m1 & E & F).
      { eapply writable_sub; [done|lia|lia]. }
      rewrite E. simpl. destruct (IH m1 (p + 4) (n - 4)) as (m' & E' & F'); [lia| |].
      { eapply writable_sub; [eapply filled_writable|..]; [done..|lia|lia]. }
      exists m'. rewrite E'. split; [tuple_eq|].
      replace (4 * (n / 4)) with (4 + 4 * ((n - 4) / 4)) by zlia.
      apply (filled_app m m1); [lia|zlia| |].
      * eapply filled_ext, F. intros i Hi. f_equal. zlia.
      * eapply filled_ext, F'. intros i Hi. simpl. f_equal. zlia.
    + exists m. replace (n / 4) with 0 by zlia. replace (n mod 4) with n by zlia.
      split; [tuple_eq|]. apply filled_nil.
Qed.

(** A byte value below 128 repeated by the word of [memset_valueLong]. *)
Lemma memset_valueLong_small v i :
  0 <= v < 128 -> 0 <= i < 4 -> byte_of (memset_valueLong v) i = u8 v.
Proof.
  intros Hv Hi.
  assert (forall k, 0 <= k < 128 -> forallb (fun j => byte_of (memset_valueLong k) j =? u8 k) [0;1;2;3] = true) as H.
  { intros k Hk. cut (forallb (fun k => forallb (fun j => byte_of (memset_valueLong k) j =? u8 k) [0;1;2;3])
                        (seqZ 0 128) = true).
    - intros Hall. apply forallb_forall with (x := k) in Hall; [done|].
      apply list_elem_of_In, elem_of_seqZ. lia.
    - vm_compute. reflexivity. }
  specialize (H v Hv). apply forallb_forall with (x := i) in H; [by apply Z.eqb_eq|].
  simpl. lia.
Qed.

(** A negative [char] is sign-extended before it is repeated, so the upper
    bytes of the word are all ones. *)
Lemma memset_valueLong_negative v :
  -128 <= v < 0 -> byte_of (memset_valueLong v) 1 = 255.
Proof.
  intros Hv.
  cut (forallb (fun k => byte_of (memset_valueLong k) 1 =? 255) (seqZ (-128) 128) = true).
  - intros Hall. apply forallb_forall with (x := v) in Hall; [by apply Z.eqb_eq|].
    apply list_elem_of_In, elem_of_seqZ. lia.
  - vm_compute. reflexivity.
Qed.

(** ** Copying *)

Lemma copy_forward_spec n m dest src :
  dest <= src \/ src + Z.of_nat n <= dest ->
  writable m src (Z.of_nat n) -> writable m dest (Z.of_nat n) ->
  (forall a b, m !! a = Some b -> 0 <= b < 256) ->
  exists m', copy_forward n m dest src = Ret m' /\
    filled m m' dest (Z.of_nat n) (fun i => default 0 (m !! (src + i))).
Proof.
  revert m dest src. induction n as [|n IH]; intros m dest src Hd Hs Hw Hb.
  - exists m. split; [done|]. apply filled_nil.
  - destruct (Hs src) as [b Hsrc]; [lia|]. simpl. unfold load8 at 1. rewrite Hsrc. simpl.
    do_store8; [apply Hw; lia|].
    destruct (IH m0 (dest + 1) (src + 1)) as (m' & E & F').
    + lia.
    + eapply writable_sub; [eapply (filled_writable _ _ _ _ _ _ _ F Hs)|lia|lia].
    + eapply writable_sub; [eapply (filled_writable _ _ _ _ _ _ _ F Hw)|lia|lia].
    + intros a c. rewrite F. bool_cases; try apply Hb. intros [= <-]. unfold u8. zlia.
    + exists m'. split; [done|]. replace (Z.of_nat (S n)) with (1 + Z.of_nat n) by lia.
      apply (filled_app m m0); [lia..| |].
      * eapply filled_ext, F. intros i Hi. simpl. replace (src + i) with src by lia.
        rewrite Hsrc. simpl. unfold u8. apply Z.mod_small. by eapply Hb.
      * eapply filled_ext, F'. intros i Hi. simpl. rewrite F.
        replace (src + 1 + i) with (src + (1 + i)) by lia. bool_cases; done.
Qed.

Lemma copy_backward_spec n m dest src :
  src <= dest ->
  writable m (src - Z.of_nat n) (Z.of_nat n) -> writable m (dest - Z.of_nat n) (Z.of_nat n) ->
  (forall a b, m !! a = Some b -> 0 <= b < 256) ->
  exists m', copy_backward n m dest src = Ret m' /\
    filled m m' (dest - Z.of_nat n) (Z.of_nat n) (fun i => default 0 (m !! (src - Z.of_nat n + i))).
Proof.
  revert m dest src. induction n as [|n IH]; intros m dest src Hd Hs Hw Hb.
  - exists m. split; [done|]. apply filled_nil.
  - destruct (Hs (src - 1)) as [b Hsrc]; [lia|]. simpl copy_backward. unfold load8 at 1. rewrite Hsrc.
    simpl. do_store8; [apply Hw; lia|].
    destruct (IH m0 (dest - 1) (src - 1)) as (m' & E & F').
    + lia.
    + eapply writable_sub; [eapply (filled_writable _ _ _ _ _ _ _ F Hs)|lia|lia].
    + eapply writable_sub; [eapply (filled_writable _ _ _ _ _ _ _ F Hw)|lia|lia].
    + intros a c. rewrite F. bool_cases; try apply Hb. intros [= <-]. unfold u8. zlia.
    + exists m'. split; [done|]. intros a. rewrite F', !F.
      replace (src - 1 - Z.of_nat n + (a - (dest - 1 - Z.of_nat n)))
        with (src - Z.of_nat (S n) + (a - (dest - Z.of_nat (S n)))) by lia.
      bool_cases; try done.
      all: replace (src - Z.of_nat (S n) + (a - (dest - Z.of_nat (S n)))) with (src - 1) by lia.
      all: rewrite Hsrc; simpl; unfold u8; f_equal; apply Z.mod_small; by eapply Hb.
Qed.

(** ** Strings *)

(** The bytes of a range, when all of it is mapped. *)
Fixpoint bytes_at (m : memory) (p : Z) (n : nat) : option (list Z) :=
  match n with
  | O => Some []
  | S n' => b ← m !! p; bs ← bytes_at m (p + 1) n'; Some (b :: bs)
  end.

Lemma s8_inj a b : 0 <= a < 256 -> 0 <= b < 256 -> s8 a = s8 b -> a = b.
Proof. unfold s8. intros. zlia. Qed.

Lemma memcmp_loop_spec n m p q l1 l2 :
  bytes_at m p n = Some l1 -> bytes_at m q n = Some l2 ->
  (forall a b, m !! a = Some b -> 0 <= b < 256) ->
  exists r, memcmp_loop n m p q = Ret r /\ (r = 0 <-> l1 = l2).
Proof.
  intros H1 H2 Hb. revert p q l1 l2 H1 H2.
  induction n as [|n IH]; intros p q l1 l2 H1 H2; simpl in *.
  - simplify_eq. exists 0. done.
  - apply bind_Some in H1 as (b1 & Hb1 & (bs1 & Hbs1 & [= <-])%bind_Some).
    apply bind_Some in H2 as (b2 & Hb2 & (bs2 & Hbs2 & [= <-])%bind_Some).
    unfold loadc, load8. rewrite Hb1, Hb2. simpl.
    destruct (Z.eqb_spec (s8 b1) (s8 b2)) as [He|He]; simpl.
    + apply s8_inj in He as ->; [|by eapply Hb..].
      destruct (IH _ _ _ _ Hbs1 Hbs2) as (r & -> & Hr). exists r. split; [done|].
      rewrite Hr. split; [by intros ->|by intros [= ->]].
    + eexists. split; [done|]. split; [destruct (_ <? _); lia|]. intros [= -> _]. done.
Qed.

Lemma StrLen_loop_spec n m s k :
  0 <= k <= Z.of_nat n ->
  (forall i, 0 <= i < k -> exists b, m !! (s + i) = Some b /\ s8 b <> 0) ->
  (k < Z.of_nat n -> exists b, m !! (s + k) = Some b /\ s8 b = 0) ->
  StrLen_loop n m s = Ret (s + k).
Proof.
  revert s k. induction n as [|n IH]; intros s k Hk Hpre Hend.
  - simpl. f_equal. lia.
  - simpl. unfold loadc, load8. destruct (Z.eqb_spec k 0) as [->|Hk0].
    + destruct Hend as (b & Hb & Hz); [lia|]. rewrite Z.add_0_r in *. rewrite Hb. simpl.
      by rewrite Hz.
    + destruct (Hpre 0) as (b & Hb & Hz); [lia|]. rewrite Z.add_0_r in Hb. rewrite Hb. simpl.
      destruct (Z.eqb_spec (s8 b) 0); [done|].
      replace (s + k) with (s + 1 + (k - 1)) by lia. apply IH; [lia| |].
      * intros i Hi. replace (s + 1 + i) with (s + (i + 1)) by lia. apply Hpre. lia.
      * intros Hlt. replace (s + 1 + (k - 1)) with (s + k) by lia. apply Hend. lia.
Qed.

(** The three loops of a long [memset]: [k] bytes up to a boundary, [w]
    bytes in whole words, the rest bytewise. *)
Lemma memset_phases m ptr v length :
  8 <= length -> length < 4294967296 -> writable m ptr length ->
  exists k w m1 m2 m3,
    k = u32 ptr mod 4 /\ 0 <= k <= 3 /\ 0 <= w <= length - k /\ 4 <= w /\
    memset_head (Z.to_nat length) m ptr v length (u32 ptr mod 4) = Ret (m1, ptr + k, length - k) /\
    memset_words (Z.to_nat length) m1 (ptr + k) (memset_valueLong v) (length - k)
      = Ret (m2, ptr + k + w, length - k - w) /\
    memset_tail (Z.to_nat length) m2 (ptr + k + w) v (length - k - w) = Ret m3 /\
    filled m m1 ptr k (fun _ => u8 v) /\
    filled m1 m2 (ptr + k) w (fun i => byte_of (memset_valueLong v) (i mod 4)) /\
    filled m2 m3 (ptr + k + w) (length - k - w) (fun _ => u8 v).
Proof.
  intros Hbig Hl Hw.
  destruct (memset_head_spec (Z.to_nat length) m ptr v length (u32 ptr mod 4))
    as (m1 & E1 & F1); [lia|zlia|done|].
  rewrite Z.min_l in E1, F1 by zlia. set (k := u32 ptr mod 4) in *.
  assert (0 <= k <= 3) as Hk by (unfold k; zlia).
  destruct (memset_words_spec (Z.to_nat length) m1 (ptr + k) (memset_valueLong v) (length - k))
    as (m2 & E2 & F2); [lia| |].
  { eapply writable_sub; [eapply (filled_writable _ _ _ _ _ _ _ F1 Hw)|lia|lia]. }
  set (w := 4 * ((length - k) / 4)) in *.
  assert (4 <= w <= length - k /\ (length - k) mod 4 = length - k - w) as [Hw0 Hw1] by (unfold w; zlia).
  rewrite Hw1 in E2.
  destruct (memset_tail_spec (Z.to_nat length) m2 (ptr + k + w) v (length - k - w))
    as (m3 & E3 & F3); [zlia| |].
  { eapply filled_writable; [exact F2|]. eapply filled_writable; [exact F1|].
    eapply writable_sub; [done|lia|zlia]. }
  exists k, w, m1, m2, m3. split_and!; done || lia.
Qed.

(** ** Properties *)

(** [memset] with a byte value below 128 (the values the kernel clears
    memory with) returns, stores that byte in every one of the [length] bytes
    from [ptr], for every alignment of [ptr], and changes no other byte. *)
Theorem memset_fills m ptr value length :
  0 <= length < 4294967296 -> 0 <= s8 value -> writable m ptr length ->
  exists m', memset m ptr value length = Ret m' /\ filled m m' ptr length (fun _ => u8 value).
Proof.
  intros Hl Hv Hw. unfold memset.
  assert (u8 (s8 value) = u8 value) as Hu by (unfold u8, s8; zlia).
  assert (0 <= s8 value < 128) as Hr by (unfold s8 in *; zlia).
  destruct (Z.leb_spec 8 length) as [Hbig|Hsmall]; simpl.
  - destruct (memset_phases m ptr (s8 value) length Hbig ltac:(lia) Hw)
      as (k & w & m1 & m2 & m3 & Hk & Hk3 & Hw0 & Hw1 & E1 & E2 & E3 & F1 & F2 & F3).
    rewrite E1. simpl. rewrite E2. simpl. rewrite E3.
    exists m3. split; [done|]. rewrite Hu in *.
    intros a. rewrite F3, F2, F1. bool_cases; try done.
    f_equal. rewrite memset_valueLong_small by zlia. done.
  - destruct (memset_tail_spec (Z.to_nat length) m ptr (s8 value) length) as (m1 & E1 & F1); [lia|done|].
    exists m1. rewrite Hu in F1. done.
Qed.

(** Sixteen bytes of memory from address 8 on, holding 1, 2, 3 and so on. *)
Definition small_memory : memory := list_to_map (zip (seqZ 8 16) (seqZ 1 16)).

Lemma small_memory_writable p n : 8 <= p -> p + n <= 24 -> writable small_memory p n.
Proof.
  intros Hp Hn a Ha.
  assert (forallb (fun a => bool_decide (is_Some (small_memory !! a))) (seqZ 8 16) = true) as H by (vm_compute; reflexivity).
  rewrite forallb_forall in H. specialize (H a). rewrite <- list_elem_of_In, elem_of_seqZ in H.
  specialize (H ltac:(lia)). by apply bool_decide_eq_true in H.
Qed.

Lemma memset_fills_witness :
  exists m', memset small_memory 9 0 13 = Ret m' /\ filled small_memory m' 9 13 (fun _ => 0).
Proof.
  destruct (memset_fills small_memory 9 0 13) as (m' & E & F).
  - lia.
  - reflexivity || (vm_compute; discriminate).
  - apply small_memory_writable; lia.
  - exists m'. split; [exact E|exact F].
Defined.

(** [memmove] copies the original contents of the source range to the
    destination range whatever the overlap of the two, and changes nothing
    else. *)
Theorem memmove_copies m dest src length :
  0 <= length ->
  writable m src length -> writable m dest length ->
  (forall a b, m !! a = Some b -> 0 <= b < 256) ->
  exists m', memmove m dest src length = Ret m' /\
    filled m m' dest length (fun i => default 0 (m !! (src + i))).
Proof.
  intros Hl Hs Hw Hb. unfold memmove.
  destruct (Z.ltb_spec src dest); [|destruct (Z.ltb_spec dest src)].
  - destruct (copy_backward_spec (Z.to_nat length) m (dest + length) (src + length)) as (m' & E & F);
      [lia|eapply writable_sub; [exact Hs|lia|lia]|eapply writable_sub; [exact Hw|lia|lia]|done|].
    exists m'. split; [done|]. rewrite Z2Nat.id in F by lia.
    by replace (dest + length - length) with dest in F by lia;
       replace (src + length - length) with src in F by lia.
  - destruct (copy_forward_spec (Z.to_nat length) m dest src) as (m' & E & F);
      [lia|by rewrite Z2Nat.id by lia..|done|].
    exists m'. split; [done|]. by rewrite Z2Nat.id in F by lia.
  - assert (dest = src) as -> by lia. exists m. split; [done|]. intros a.
    bool_cases; try done. replace (src + (a - src)) with a by lia.
    destruct (Hs a) as [b Hab]; [lia|]. by rewrite Hab.
Qed.

Lemma small_memory_bytes a b : small_memory !! a = Some b -> 0 <= b < 256.
Proof.
  intros H. assert (map_Forall (fun (_ : Z) (b : Z) => 0 <= b < 256) small_memory) as HF.
  { apply (bool_decide_eq_true_1 _). vm_compute. reflexivity. }
  exact (HF a b H).
Qed.

Lemma memmove_copies_witness :
  exists m', memmove small_memory 10 8 6 = Ret m' /\
    filled small_memory m' 10 6 (fun i => default 0 (small_memory !! (8 + i))).
Proof.
  destruct (memmove_copies small_memory 10 8 6) as (m' & E & F).
  - lia.
  - apply small_memory_writable; lia.
  - apply small_memory_writable; lia.
  - exact small_memory_bytes.
  - exists m'. split; [exact E|exact F].
Defined.

(** [memset] with a byte value of 128 or more does not fill memory with
    that value: for a range of at least 8 bytes the second byte after the
    alignment bytes becomes 0xFF, whatever the value asked for. *)
Theorem memset_high_value m ptr value length :
  8 <= length < 4294967296 -> s8 value < 0 -> writable m ptr length ->
  exists m', memset m ptr value length = Ret m' /\ m' !! (ptr + u32 ptr mod 4 + 1) = Some 255.
Proof.
  intros Hl Hv Hw. unfold memset.
  assert (-128 <= s8 value < 0) as Hr by (unfold s8 in *; zlia).
  destruct (memset_phases m ptr (s8 value) length ltac:(lia) ltac:(lia) Hw)
    as (k & w & m1 & m2 & m3 & -> & Hk3 & Hw0 & Hw1 & E1 & E2 & E3 & F1 & F2 & F3).
  destruct (Z.leb_spec 8 length); [|lia]. rewrite E1. simpl. rewrite E2. simpl. rewrite E3.
  exists m3. split; [done|]. rewrite F3, F2. bool_cases.
  f_equal. replace ((_ + 1 - _) mod 4) with 1 by zlia. by apply memset_valueLong_negative.
Qed.

Lemma memset_high_value_witness :
  exists m', memset small_memory 8 0x80 8 = Ret m' /\ m' !! 9 = Some 255.
Proof.
  destruct (memset_high_value small_memory 8 0x80 8) as (m' & E & F).
  - lia.
  - reflexivity || (vm_compute; reflexivity).
  - apply small_memory_writable; lia.
  - exists m'. split; [exact E|exact F].
Defined.

(** On mapped ranges [memcmp] returns, and returns 0 exactly when the two
    ranges hold the same bytes. *)
Theorem memcmp_equal m p q n l1 l2 :
  bytes_at m p n = Some l1 -> bytes_at m q n = Some l2 ->
  (forall a b, m !! a = Some b -> 0 <= b < 256) ->
  exists r, memcmp m p q (Z.of_nat n) = Ret r /\ (r = 0 <-> l1 = l2).
Proof. unfold memcmp. rewrite Nat2Z.id. apply memcmp_loop_spec. Qed.
