(* ===== verification/Physical.v ===== *)
(** * Physical page allocator (src/mm/physical.c, include/mm/physical.h)

    The page state table is an array of [MemPage]; the zone pointers into it
    are page numbers. [zones[zone].headPtr] is where the next search starts. *)
From S2P Require Import Prelude.

(** ** Constants *)

Definition INVALID_PAGE : Z := -1.
Definition PAGE_SIZE : Z := 4096.
Definition KERNEL_VIRTUAL_BASE : Z := 0xC0000000.
Definition MEM_KFIXED_MAX : Z := 0xF0000000.
Definition MEM_KFIXED_MAX_PAGE : Z := (MEM_KFIXED_MAX - KERNEL_VIRTUAL_BASE) / PAGE_SIZE.
Definition MEM_DMA : Z := 0.
Definition MEM_KERNEL : Z := 1.
Definition MEM_HIGHMEM : Z := 2.

(** ** State *)

Record MemPage := mkMemPage { refCount : Z; slab : Z }.
Record MemPhysicalZone := mkZone { headPtr : Z; start : Z; end_ : Z }.

Record phys := mkPhys {
  MemPageStateTable : list MemPage;
  zones : list MemPhysicalZone;
  MemPhysicalTotalPages : Z;
  MemPhysicalFreePages : Z
}.

Definition set_table (st : phys) t := mkPhys t (zones st) (MemPhysicalTotalPages st) (MemPhysicalFreePages st).
Definition set_zones (st : phys) z := mkPhys (MemPageStateTable st) z (MemPhysicalTotalPages st) (MemPhysicalFreePages st).
Definition set_free (st : phys) n := mkPhys (MemPageStateTable st) (zones st) (MemPhysicalTotalPages st) n.

Definition set_refCount (p : MemPage) (n : Z) : MemPage := mkMemPage n (slab p).

(** ** Addresses of the direct map *)

Definition MemPhys2Virt (page : Z) : Z := u32 (KERNEL_VIRTUAL_BASE + page * PAGE_SIZE).
(** A pointer difference is a signed [int], and C division truncates. *)
Definition MemVirt2Phys (addr : Z) : Z := Z.quot (s32 (addr - KERNEL_VIRTUAL_BASE)) PAGE_SIZE.

Definition MemPhysicalRefCount (st : phys) (page : Z) : outcome Z :=
  p ← or_fault (zget (MemPageStateTable st) page); Ret (refCount p).

(** ** Initialisation *)

(** Zone pointers that the function leaves alone keep their old value. *)
Definition MemPhysicalInit (st : phys) : outcome phys :=
  let highestPage := zlen (MemPageStateTable st) in
  z1 ← or_fault (zget (zones st) MEM_KERNEL);
  z2 ← or_fault (zget (zones st) MEM_HIGHMEM);
  Ret (set_zones st
    (if highestPage <=? 0x1000 then [mkZone 0 0 highestPage; z1; z2]
     else if highestPage <=? MEM_KFIXED_MAX_PAGE then
       [mkZone 0 0 0x1000; mkZone 0x1000 0x1000 highestPage; z2]
     else
       [mkZone 0 0 0x1000; mkZone 0x1000 0x1000 MEM_KFIXED_MAX_PAGE;
        mkZone MEM_KFIXED_MAX_PAGE MEM_KFIXED_MAX_PAGE highestPage])).

(** ** Allocation *)

(** The do-while search of one zone: [Some (firstFree, head)] when a run of
    [number] free pages was counted, [None] when the search came back to
    [headPtr]. [firstFree] is [None] for the NULL pointer. *)
Fixpoint alloc_scan (fuel : nat) (tbl : list MemPage) (z : MemPhysicalZone) (number : Z)
    (head : Z) (firstFree : option Z) (freeLength : Z) : outcome (option (Z * Z)) :=
  match fuel with
  | O => NoFuel
  | S f =>
      let head := if end_ z <=? head then start z else head in
      pg ← or_fault (zget tbl head);
      let continue_ (ff : option Z) (fl : Z) :=
        if head + 1 =? headPtr z then Ret None
        else alloc_scan f tbl z number (head + 1) ff fl in
      if refCount pg =? 0 then
        let '(ff, fl) :=
          match firstFree with
          | None => (head, 1)
          | Some p => (p, u32 (freeLength + 1))
          end in
        if fl =? number then Ret (Some (ff, head))
        else continue_ (Some ff) fl
      else continue_ None freeLength
  end.

(** for(page = firstFree; number > 0; ++page, --number) page->refCount = 1; *)
Fixpoint alloc_mark (number : nat) (tbl : list MemPage) (page : Z) : outcome (list MemPage) :=
  match number with
  | O => Ret tbl
  | S n =>
      p ← or_fault (zget tbl page);
      alloc_mark n (zset tbl page (set_refCount p 1)) (page + 1)
  end.

(** for(; zone >= MEM_DMA; --zone): [k] zones are left, the first is zone [k - 1]. *)
Fixpoint alloc_zones (fuel : nat) (number : Z) (k : nat) (st : phys) : outcome (Z * phys) :=
  match k with
  | O => Panic "MemPhysicalAlloc: Out of memory"
  | S k' =>
      let zone := Z.of_nat k' in
      z ← or_fault (zget (zones st) zone);
      if start z <? end_ z then
        r ← alloc_scan fuel (MemPageStateTable st) z number (headPtr z) None 0;
        match r with
        | Some (firstFree, head) =>
            let st1 := set_free st (u32 (MemPhysicalFreePages st - number)) in
            tbl ← alloc_mark (Z.to_nat number) (MemPageStateTable st1) firstFree;
            Ret (firstFree,
                 set_zones (set_table st1 tbl)
                   (zset (zones st1) zone (mkZone head (start z) (end_ z))))
        | None => alloc_zones fuel number k' st
        end
      else alloc_zones fuel number k' st
  end.

Definition MemPhysicalAlloc (fuel : nat) (number zone : Z) (st : phys) : outcome (Z * phys) :=
  if number =? 0 then Ret (INVALID_PAGE, st)
  else if (zone <? MEM_DMA) || (MEM_HIGHMEM <? zone) then Ret (INVALID_PAGE, st)
  else alloc_zones fuel number (Z.to_nat (zone + 1)) st.

(** ** Reference counts *)

Fixpoint addref_loop (number : nat) (page : Z) (st : phys) : outcome phys :=
  match number with
  | O => Ret st
  | S n =>
      p ← or_fault (zget (MemPageStateTable st) page);
      addref_loop n (page + 1)
        (set_table st (zset (MemPageStateTable st) page (set_refCount p (u32 (refCount p + 1)))))
  end.

Definition MemPhysicalAddRef (page number : Z) (st : phys) : outcome phys :=
  addref_loop (Z.to_nat number) page st.

Fixpoint deleteref_loop (number : nat) (page : Z) (st : phys) : outcome phys :=
  match number with
  | O => Ret st
  | S n =>
      p ← or_fault (zget (MemPageStateTable st) page);
      let st1 :=
        if 0 <? refCount p then
          let c := refCount p - 1 in
          let st0 := set_table st (zset (MemPageStateTable st) page (set_refCount p c)) in
          if c =? 0 then set_free st0 (u32 (MemPhysicalFreePages st0 + 1)) else st0
        else st in
      deleteref_loop n (page + 1) st1
  end.

Definition MemPhysicalDeleteRef (page number : Z) (st : phys) : outcome phys :=
  deleteref_loop (Z.to_nat number) page st.

Fixpoint free_loop (number : nat) (page : Z) (st : phys) : outcome phys :=
  match number with
  | O => Ret st
  | S n =>
      p ← or_fault (zget (MemPageStateTable st) page);
      let st0 := set_table st (zset (MemPageStateTable st) page (set_refCount p 0)) in
      free_loop n (page + 1) (set_free st0 (u32 (MemPhysicalFreePages st0 + 1)))
  end.

Definition MemPhysicalFree (page number : Z) (st : phys) : outcome phys :=
  free_loop (Z.to_nat number) page st.

(** ** Free pages *)

Definition page_free (p : MemPage) : bool := refCount p =? 0.
Definition is_free (tbl : list MemPage) (i : Z) : bool :=
  match zget tbl i with Some p => page_free p | None => false end.

Definition free_count (tbl : list MemPage) : Z := zlen (List.filter page_free tbl).

(** Every page in use is in use in the table, none twice. *)
Definition in_use (tbl : list MemPage) (i : Z) : Prop :=
  exists p, zget tbl i = Some p /\ 0 < refCount p.

(** The counter of free pages is ahead of the table by [extra] pages (by none
    when it is right; at boot by the pages of the kernel). *)
Definition counted (extra : Z) (st : phys) : Prop :=
  MemPhysicalFreePages st = u32 (free_count (MemPageStateTable st) + extra) /\
  zlen (MemPageStateTable st) < 4294967296 /\
  Forall (fun p => 0 <= refCount p < 4294967296) (MemPageStateTable st).

(** A zone with pages: the search starts inside it. *)
Definition zone_wf (tbl : list MemPage) (z : MemPhysicalZone) : Prop :=
  end_ z <= start z \/ (0 <= start z <= headPtr z /\ headPtr z < end_ z <= zlen tbl).

Definition phys_wf (st : phys) : Prop :=
  zlen (zones st) = 3 /\ Forall (zone_wf (MemPageStateTable st)) (zones st).

Definition has_free (tbl : list MemPage) (z : MemPhysicalZone) : Prop :=
  exists i, start z <= i < end_ z /\ is_free tbl i = true.

Definition exhausted (tbl : list MemPage) (z : MemPhysicalZone) : Prop :=
  forall i, start z <= i < end_ z -> is_free tbl i = false.

(** ** The search for one page *)

Section Scan.
Context (tbl : list MemPage) (z : MemPhysicalZone).

Hypothesis Hzone : 0 <= start z <= headPtr z /\ headPtr z < end_ z <= zlen tbl.

Lemma scan_used f h ff fl n :
  start z <= h < end_ z -> is_free tbl h = false -> h + 1 <> headPtr z ->
  alloc_scan (S f) tbl z n h ff fl = alloc_scan f tbl z n (h + 1) None fl.
Proof.
  intros Hh Hf Hne. simpl. destruct (Z.leb_spec (end_ z) h); [lia|].
  destruct (zget_in_range tbl h) as [p Hp]; [lia|]. unfold is_free in Hf. rewrite Hp in *.
  unfold page_free in Hf. simpl. rewrite Hf. destruct (Z.eqb_spec (h + 1) (headPtr z)); done.
Qed.

Lemma scan_wrap f ff fl n :
  alloc_scan f tbl z n (end_ z) ff fl = alloc_scan f tbl z n (start z) ff fl.
Proof.
  destruct f; [done|]. simpl. rewrite Z.leb_refl.
  destruct (Z.leb_spec (end_ z) (start z)); [lia|done].
Qed.

Lemma scan_found f h fl :
  start z <= h < end_ z -> is_free tbl h = true ->
  alloc_scan (S f) tbl z 1 h None fl = Ret (Some (h, h)).
Proof.
  intros Hh Hf. simpl. destruct (Z.leb_spec (end_ z) h); [lia|].
  destruct (zget_in_range tbl h) as [p Hp]; [lia|]. unfold is_free in Hf. rewrite Hp in *.
  unfold page_free in Hf. simpl. by rewrite Hf.
Qed.

(** Skipping a stretch of used pages that does not pass the start of the search. *)
Lemma scan_walk (k : nat) f h fl n :
  start z <= h -> h + Z.of_nat k <= end_ z ->
  (forall i, h <= i < h + Z.of_nat k -> is_free tbl i = false) ->
  (headPtr z <= h \/ h + Z.of_nat k < headPtr z) ->
  alloc_scan (k + f) tbl z n h None fl = alloc_scan f tbl z n (h + Z.of_nat k) None fl.
Proof.
  revert h. induction k as [|k IH]; intros h H1 H2 Hu Hp.
  - simpl. f_equal. lia.
  - simpl (S k + f)%nat. rewrite scan_used; [|lia|apply Hu; lia|lia].
    rewrite IH; [f_equal; lia|lia|lia|intros; apply Hu; lia|lia].
Qed.

(** A bounded search finds the first free page or shows there is none. *)
Lemma first_free (k : nat) h :
  (exists j, h <= j < h + Z.of_nat k /\ is_free tbl j = true /\
     forall i, h <= i < j -> is_free tbl i = false) \/
  (forall i, h <= i < h + Z.of_nat k -> is_free tbl i = false).
Proof.
  revert h. induction k as [|k IH]; intros h; [right; lia|].
  destruct (is_free tbl h) eqn:E; [left; exists h; split_and!; [lia|lia|done|lia]|].
  destruct (IH (h + 1)) as [(j & Hj & Hf & Hl)|Hn]; [left|right].
  - exists j. split_and!; [lia|lia|done|]. intros i Hi.
    destruct (Z.eq_dec i h) as [->|]; [done|]. apply Hl. lia.
  - intros i Hi. destruct (Z.eq_dec i h) as [->|]; [done|]. apply Hn. lia.
Qed.

Lemma scan_free_page f :
  has_free tbl z -> end_ z - start z < Z.of_nat f ->
  exists p, alloc_scan f tbl z 1 (headPtr z) None 0 = Ret (Some (p, p)) /\
    start z <= p < end_ z /\ is_free tbl p = true.
Proof.
  intros (i & Hi & Hfree) Hf.
  destruct (first_free (Z.to_nat (end_ z - headPtr z)) (headPtr z)) as [(j & Hj & Hjf & Hjl)|Hnone].
  - exists j. split; [|split; [lia|done]].
    replace f with (Z.to_nat (j - headPtr z) + S (f - Z.to_nat (j - headPtr z) - 1))%nat by lia.
    rewrite scan_walk; [|lia|lia|intros; apply Hjl; lia|lia].
    replace (headPtr z + Z.of_nat _) with j by lia. apply scan_found; [lia|done].
  - destruct (first_free (Z.to_nat (headPtr z - start z)) (start z)) as [(j & Hj & Hjf & Hjl)|Hnone2].
    2: { exfalso. destruct (Z.lt_ge_cases i (headPtr z)).
         - rewrite Hnone2 in Hfree; [done|lia].
         - rewrite Hnone in Hfree; [done|lia]. }
    exists j. split; [|split; [lia|done]].
    replace f with (Z.to_nat (end_ z - headPtr z) + (Z.to_nat (j - start z) +
      S (f - Z.to_nat (end_ z - headPtr z) - Z.to_nat (j - start z) - 1)))%nat by lia.
    rewrite scan_walk; [|lia|lia|intros; apply Hnone; lia|lia].
    replace (headPtr z + Z.of_nat _) with (end_ z) by lia. rewrite scan_wrap.
    rewrite scan_walk; [|lia|lia|intros; apply Hjl; lia|lia].
    replace (start z + Z.of_nat _) with j by lia. apply scan_found; [lia|done].
Qed.

Lemma scan_exhausted f :
  exhausted tbl z -> start z < headPtr z -> end_ z - start z < Z.of_nat f ->
  forall n, alloc_scan f tbl z n (headPtr z) None 0 = Ret None.
Proof.
  intros He Hs Hf n.
  replace f with (Z.to_nat (end_ z - headPtr z) + (Z.to_nat (headPtr z - start z - 1) +
      S (f - Z.to_nat (end_ z - headPtr z) - Z.to_nat (headPtr z - start z - 1) - 1)))%nat by lia.
  rewrite scan_walk; [|lia|lia|intros; apply He; lia|lia].
  replace (headPtr z + Z.of_nat _) with (end_ z) by lia. rewrite scan_wrap.
  rewrite scan_walk; [|lia|lia|intros; apply He; lia|lia].
  replace (start z + Z.of_nat _) with (headPtr z - 1) by lia.
  simpl. destruct (Z.leb_spec (end_ z) (headPtr z - 1)); [lia|].
  assert (is_free tbl (headPtr z - 1) = false) as Hu by (apply He; lia).
  unfold is_free, page_free in Hu. destruct (zget_in_range tbl (headPtr z - 1)) as [p Hp]; [lia|].
  rewrite Hp in *. simpl. rewrite Hu. replace (headPtr z - 1 + 1) with (headPtr z) by lia.
  by rewrite Z.eqb_refl.
Qed.

(** With the search pointer at the start of the zone, the end test of the
    loop never holds: the search of a full zone does not end. *)
Lemma scan_diverges f n h fl :
  exhausted tbl z -> headPtr z = start z -> start z <= h <= end_ z ->
  alloc_scan f tbl z n h None fl = NoFuel.
Proof.
  intros He Hs. revert h fl. induction f as [|f IH]; intros h fl Hh; [done|].
  destruct (Z.eq_dec h (end_ z)) as [->|].
  - rewrite scan_wrap. rewrite scan_used; [|lia|apply He; lia|lia]. apply IH. lia.
  - rewrite scan_used; [|lia|apply He; lia|lia]. apply IH. lia.
Qed.
End Scan.

(** ** From one zone to the zone list *)

Lemma wf_zone st k z :
  phys_wf st -> zget (zones st) k = Some z -> zone_wf (MemPageStateTable st) z.
Proof.
  intros [_ HF] Hz. unfold zget in Hz. destruct (k <? 0); [done|].
  eapply Forall_lookup_1; [done|exact Hz].
Qed.

Lemma wf_zone_exists st k : phys_wf st -> 0 <= k <= 2 -> exists z, zget (zones st) k = Some z.
Proof. intros [Hl _] Hk. apply zget_in_range. lia. Qed.

(** A zone the search passes over: it has no page, or it has no free page and
    the search pointer is past its start. *)
Definition passed_over (tbl : list MemPage) (z : MemPhysicalZone) : Prop :=
  end_ z <= start z \/ (exhausted tbl z /\ start z < headPtr z).

Definition enough_fuel (st : phys) (fuel : nat) : Prop :=
  zlen (MemPageStateTable st) < Z.of_nat fuel.

Lemma zones_skip st fuel n k z :
  phys_wf st -> enough_fuel st fuel -> zget (zones st) (Z.of_nat k) = Some z ->
  passed_over (MemPageStateTable st) z ->
  alloc_zones fuel n (S k) st = alloc_zones fuel n k st.
Proof.
  intros Hwf Hfuel Hz Hp. simpl. rewrite Hz. simpl.
  destruct (Z.ltb_spec (start z) (end_ z)); [|done].
  destruct Hp as [|[He Hs]]; [lia|]. destruct (wf_zone _ _ _ Hwf Hz) as [|Hzw]; [lia|].
  rewrite scan_exhausted; [done..|]. unfold enough_fuel in Hfuel. lia.
Qed.

Lemma zones_skip_to st fuel n (k j : nat) :
  phys_wf st -> enough_fuel st fuel -> (j <= k <= 3)%nat ->
  (forall i z, (j <= i < k)%nat -> zget (zones st) (Z.of_nat i) = Some z ->
     passed_over (MemPageStateTable st) z) ->
  alloc_zones fuel n k st = alloc_zones fuel n j st.
Proof.
  intros Hwf Hfuel Hk Hp. induction k as [|k IH]; [by replace j with O by lia|].
  destruct (decide (j = S k)) as [->|]; [done|].
  destruct (wf_zone_exists st (Z.of_nat k) Hwf) as [z Hz]; [lia|].
  rewrite (zones_skip st fuel n k z); [|done..|apply (Hp k); [lia|done]].
  apply IH; [lia|]. intros i z' Hi. apply Hp. lia.
Qed.

Lemma mark_one tbl p pg :
  zget tbl p = Some pg -> alloc_mark 1 tbl p = Ret (zset tbl p (set_refCount pg 1)).
Proof. intros H. simpl. by rewrite H. Qed.

Lemma zone_wf_table tbl tbl' z : zlen tbl = zlen tbl' -> zone_wf tbl z -> zone_wf tbl' z.
Proof. unfold zone_wf. intros ->. done. Qed.

Lemma phys_wf_move st st' k z h :
  phys_wf st -> zlen (MemPageStateTable st') = zlen (MemPageStateTable st) ->
  zget (zones st) k = Some z -> start z <= h < end_ z ->
  zones st' = zset (zones st) k (mkZone h (start z) (end_ z)) -> phys_wf st'.
Proof.
  intros Hwf Hlen Hz Hh Hzs. pose proof (wf_zone _ _ _ Hwf Hz) as Hzw.
  destruct Hwf as [H3 HF]. split; rewrite Hzs.
  - by rewrite zlen_zset.
  - unfold zset. destruct (k <? 0); [eapply Forall_impl; [exact HF|]; intros; by eapply zone_wf_table|].
    apply Forall_insert.
    + eapply Forall_impl; [exact HF|]. intros. by eapply zone_wf_table.
    + destruct Hzw as [|Hzw]; [simpl; lia|]. right. simpl. lia.
Qed.

(** ** Counting free pages *)

Lemma free_count_zset tbl i p p' :
  zget tbl i = Some p ->
  free_count (zset tbl i p') =
  free_count tbl - Z.b2z (page_free p) + Z.b2z (page_free p').
Proof.
  unfold zget, zset, free_count, zlen. destruct (i <? 0); [done|].
  generalize (Z.to_nat i). clear i. intros n. revert n.
  induction tbl as [|q tbl IH]; intros [|n] Hp; simpl in *; simplify_eq.
  - destruct (page_free p), (page_free p'); simpl; lia.
  - specialize (IH n Hp). destruct (page_free q); simpl; lia.
Qed.

Lemma free_count_bound tbl : 0 <= free_count tbl <= zlen tbl.
Proof.
  unfold free_count, zlen. split; [lia|].
  apply inj_le. induction tbl; simpl; [lia|]. destruct (page_free _); simpl; lia.
Qed.

Lemma Forall_zset {A} (P : A -> Prop) l i x : Forall P l -> P x -> Forall P (zset l i x).
Proof. intros. unfold zset. destruct (i <? 0); [done|]. by apply Forall_insert. Qed.

Lemma Forall_zget {A} (P : A -> Prop) l i x : Forall P l -> zget l i = Some x -> P x.
Proof. unfold zget. intros HF H. destruct (i <? 0); [done|]. by eapply Forall_lookup_1. Qed.

(** One update of the table and of the counter that moves both together. *)
Lemma accounting_step {x} st i p c n :
  counted x st -> zget (MemPageStateTable st) i = Some p -> 0 <= c < 4294967296 ->
  n = u32 (MemPhysicalFreePages st - Z.b2z (page_free p) + Z.b2z (c =? 0)) ->
  counted x (set_free (set_table st (zset (MemPageStateTable st) i (set_refCount p c))) n).
Proof.
  intros (Hc & Hlen & HF) Hp Hrange ->. split_and!; simpl.
  - rewrite (free_count_zset _ _ _ _ Hp), Hc. unfold page_free at 3. simpl. u32_lia.
  - by rewrite zlen_zset.
  - by apply Forall_zset.
Qed.

Lemma used_not_free p : 0 < refCount p -> page_free p = false.
Proof. intros. unfold page_free. by apply Z.eqb_neq; lia. Qed.

(** The counter is a number of 32 bits. *)
Lemma counted_u32 {x} st : counted x st -> u32 (MemPhysicalFreePages st) = MemPhysicalFreePages st.
Proof. intros (-> & _). u32_lia. Qed.

Lemma deleteref_step {x} st i p :
  counted x st -> zget (MemPageStateTable st) i = Some p ->
  counted x
    (if 0 <? refCount p then
       let c := refCount p - 1 in
       let st0 := set_table st (zset (MemPageStateTable st) i (set_refCount p c)) in
       if c =? 0 then set_free st0 (u32 (MemPhysicalFreePages st0 + 1)) else st0
     else st).
Proof.
  intros Ha Hp. pose proof Ha as (Hc & Hlen & HF). pose proof (Forall_zget _ _ _ _ HF Hp) as Hr. simpl in Hr.
  destruct (Z.ltb_spec 0 (refCount p)) as [Hpos|]; [|done]. cbv zeta.
  pose proof (used_not_free p Hpos) as Hu.
  destruct (Z.eqb_spec (refCount p - 1) 0) as [E|E].
  - apply (accounting_step st i p); [done..|lia|]. rewrite Hu, E. simpl. f_equal. lia.
  - assert (forall s, s = set_free s (MemPhysicalFreePages s)) as Hid by (intros []; done).
    rewrite Hid. apply (accounting_step st i p); [done..|lia|]. rewrite Hu. simpl.
    destruct (Z.eqb_spec (refCount p - 1) 0); [lia|]. simpl.
    rewrite Z.sub_0_r, Z.add_0_r. by rewrite (counted_u32 st Ha).
Qed.

Lemma deleteref_accounting {x} n page st :
  counted x st -> 0 <= page -> page + Z.of_nat n <= zlen (MemPageStateTable st) ->
  exists st', deleteref_loop n page st = Ret st' /\ counted x st' /\ zones st' = zones st /\
    zlen (MemPageStateTable st') = zlen (MemPageStateTable st).
Proof.
  revert page st. induction n as [|n IH]; intros page st Ha H0 Hn; [by exists st|].
  destruct (zget_in_range (MemPageStateTable st) page) as [p Hp]; [lia|].
  cbn [deleteref_loop]. rewrite Hp. cbn [or_fault mbind outcome_bind].
  pose proof (deleteref_step st page p Ha Hp) as Hs.
  match type of Hs with counted _ ?s => set (st1 := s) in * end.
  assert (zones st1 = zones st /\ zlen (MemPageStateTable st1) = zlen (MemPageStateTable st)) as [Hz Hl].
  { unfold st1. cbv zeta. destruct (0 <? _); [|done]. destruct (_ =? 0); simpl; by rewrite zlen_zset. }
  destruct (IH (page + 1) st1) as (st' & E & ? & ? & ?); [done|lia|lia|].
  exists st'. split_and!; [done|done|congruence|congruence].
Qed.

(** Freeing pages that are all in use. *)
Lemma free_accounting {x} n page st :
  counted x st -> (forall i, page <= i < page + Z.of_nat n -> in_use (MemPageStateTable st) i) ->
  exists st', free_loop n page st = Ret st' /\ counted x st' /\ zones st' = zones st /\
    zlen (MemPageStateTable st') = zlen (MemPageStateTable st) /\
    MemPhysicalFreePages st' = u32 (MemPhysicalFreePages st + Z.of_nat n) /\
    (forall i, is_free (MemPageStateTable st') i =
       is_free (MemPageStateTable st) i || ((page <=? i) && (i <? page + Z.of_nat n))).
Proof.
  revert page st. induction n as [|n IH]; intros page st Ha Hu.
  - exists st. split_and!; [done..|by rewrite Z.add_0_r, (counted_u32 st Ha)|]. intros i. bool_cases; by rewrite orb_false_r.
  - destruct (Hu page) as (p & Hp & Hpos); [lia|]. simpl. rewrite Hp. simpl.
    set (st1 := set_free _ _).
    assert (counted x st1) as Ha1.
    { apply (accounting_step st page p); [done..|lia|]. rewrite (used_not_free p Hpos). simpl.
      f_equal. lia. }
    destruct (IH (page + 1) st1) as (st' & E & Ha' & Hz & Hl & Hf & Hfree); [done| |].
    { intros i Hi. destruct (Hu i) as (q & Hq & Hqpos); [lia|]. exists q. split; [|done].
      unfold st1. simpl. by rewrite zget_zset_ne by lia. }
    exists st'. split_and!; [done|done|done| | |].
    + rewrite Hl. unfold st1. simpl. by rewrite zlen_zset.
    + rewrite Hf. unfold st1. simpl. u32_lia.
    + intros i. rewrite Hfree. unfold is_free, st1. simpl. rewrite zget_zset.
      pose proof (zget_range _ _ _ Hp). bool_cases; subst; rewrite ?Hp; simpl; try done.
      all: try (by rewrite ?orb_true_r, ?orb_false_r); try lia.
Qed.

Lemma addref_accounting {x} n page st :
  counted x st ->
  (forall i, page <= i < page + Z.of_nat n -> in_use (MemPageStateTable st) i /\
     forall p, zget (MemPageStateTable st) i = Some p -> refCount p + 1 < 4294967296) ->
  exists st', addref_loop n page st = Ret st' /\ counted x st' /\ zones st' = zones st /\
    MemPhysicalFreePages st' = MemPhysicalFreePages st.
Proof.
  revert page st. induction n as [|n IH]; intros page st Ha Hu.
  - by exists st.
  - destruct (Hu page) as ((p & Hp & Hpos) & Hmax); [lia|]. simpl. rewrite Hp. simpl.
    specialize (Hmax p Hp). set (st1 := set_table _ _).
    assert (u32 (refCount p + 1) = refCount p + 1) as Hw by (apply Z.mod_small; lia).
    assert (counted x st1) as Ha1.
    { assert (st1 = set_free st1 (MemPhysicalFreePages st1)) as -> by (by destruct st1).
      apply (accounting_step st page p); [done..|lia|]. rewrite (used_not_free p Hpos), Hw. simpl.
      destruct (Z.eqb_spec (refCount p + 1) 0); [lia|]. simpl.
      rewrite Z.sub_0_r, Z.add_0_r. by rewrite (counted_u32 st Ha). }
    destruct (IH (page + 1) st1) as (st' & E & Ha' & Hz & Hf); [done| |].
    { intros i Hi. unfold st1. simpl. unfold in_use. rewrite zget_zset_ne by lia. apply Hu. lia. }
    exists st'. split_and!; done.
Qed.

(** ** Single-page allocation keeps the invariant *)

Lemma scan_one_sound tbl z f h fl p q :
  zone_wf tbl z -> start z < end_ z -> start z <= h ->
  alloc_scan f tbl z 1 h None fl = Ret (Some (p, q)) ->
  p = q /\ start z <= p < end_ z /\ is_free tbl p = true.
Proof.
  intros Hzw Hne. revert h. induction f as [|f IH]; intros h Hh; [done|]. simpl.
  set (h' := if end_ z <=? h then start z else h).
  assert (start z <= h' < end_ z) as Hh' by (unfold h'; bool_cases; lia).
  destruct (zget tbl h') as [pg|] eqn:Hpg; [|done]. simpl.
  destruct (Z.eqb_spec (refCount pg) 0) as [E|E]; simpl.
  - intros [= <- <-]. unfold is_free, page_free. rewrite Hpg, E. split_and!; done || lia.
  - destruct (_ =? headPtr z); [done|]. apply IH. lia.
Qed.

Lemma alloc_one_keeps {x} fuel k st p st' :
  phys_wf st -> counted x st -> alloc_zones fuel 1 k st = Ret (p, st') ->
  phys_wf st' /\ counted x st'.
Proof.
  intros Hwf Ha. revert st' p. induction k as [|k IH]; intros st' p; [done|]. cbn [alloc_zones].
  destruct (zget (zones st) (Z.of_nat k)) as [z|] eqn:Hz; [|done]. simpl.
  destruct (Z.ltb_spec (start z) (end_ z)) as [Hne|]; [|apply IH].
  pose proof (wf_zone _ _ _ Hwf Hz) as Hzw.
  destruct (alloc_scan _ _ _ _ _ _ _) as [[[a b]|]| | |] eqn:Hs; try done; [|apply IH].
  apply scan_one_sound in Hs as (<- & Hab & Hf); [|done..|destruct Hzw; lia]. simpl.
  destruct (zget (MemPageStateTable st) a) as [pg|] eqn:Hpg; [|done]. simpl. intros [= <- <-].
  unfold is_free in Hf. rewrite Hpg in Hf. split.
  - eapply (phys_wf_move st _ (Z.of_nat k) z a); simpl; [done|by rewrite zlen_zset|done|done|done].
  - apply (accounting_step st a pg 1 (u32 (MemPhysicalFreePages st - 1))); [done..|lia|].
    rewrite Hf. simpl. f_equal. lia.
Qed.

(** What a request for one page that returned has done. *)
Lemma alloc_zones_sound fuel k st p st' :
  phys_wf st -> alloc_zones fuel 1 k st = Ret (p, st') ->
  exists j z pg, (j < k)%nat /\ zget (zones st) (Z.of_nat j) = Some z /\ start z <= p < end_ z /\
    zget (MemPageStateTable st) p = Some pg /\ refCount pg = 0 /\
    st' = mkPhys (zset (MemPageStateTable st) p (set_refCount pg 1))
            (zset (zones st) (Z.of_nat j) (mkZone p (start z) (end_ z)))
            (MemPhysicalTotalPages st) (u32 (MemPhysicalFreePages st - 1)).
Proof.
  intros Hwf. induction k as [|k IH]; [done|]. cbn [alloc_zones].
  assert (alloc_zones fuel 1 k st = Ret (p, st') -> exists j z pg, (j < S k)%nat /\
    zget (zones st) (Z.of_nat j) = Some z /\ start z <= p < end_ z /\
    zget (MemPageStateTable st) p = Some pg /\ refCount pg = 0 /\
    st' = mkPhys (zset (MemPageStateTable st) p (set_refCount pg 1))
            (zset (zones st) (Z.of_nat j) (mkZone p (start z) (end_ z)))
            (MemPhysicalTotalPages st) (u32 (MemPhysicalFreePages st - 1))) as Hrec.
  { intros (j & z & pg & ? & ?)%IH. exists j, z, pg. split; [lia|done]. }
  destruct (zget (zones st) (Z.of_nat k)) as [z|] eqn:Hz; [|done]. simpl.
  destruct (Z.ltb_spec (start z) (end_ z)) as [Hne|]; [|exact Hrec].
  pose proof (wf_zone _ _ _ Hwf Hz) as Hzw.
  destruct (alloc_scan _ _ _ _ _ _ _) as [[[a b]|]| | |] eqn:Hs; try done.
  apply scan_one_sound in Hs as (<- & Hab & Hf); [|done..|destruct Hzw; lia]. simpl.
  unfold is_free, page_free in Hf. destruct (zget (MemPageStateTable st) a) as [pg|] eqn:Hpg; [|done]. simpl.
  intros [= <- <-]. apply Z.eqb_eq in Hf. exists k, z, pg. split_and!; try done; lia.
Qed.

(** The zones below MEM_HIGHMEM are inside the direct map of the kernel. *)
Definition low_zones (st : phys) : Prop :=
  forall k z, k <= MEM_KERNEL -> zget (zones st) k = Some z -> 0 <= start z /\ end_ z <= MEM_KFIXED_MAX_PAGE.

Definition phys_ok (st : phys) : Prop := phys_wf st /\ (exists extra, counted extra st) /\ low_zones st.

Lemma alloc_keeps_zone fuel zone st p st' :
  phys_wf st -> MemPhysicalAlloc fuel 1 zone st = Ret (p, st') ->
  forall k z, zget (zones st) k = Some z ->
    exists z', zget (zones st') k = Some z' /\ start z' = start z /\ end_ z' = end_ z.
Proof.
  intros Hwf H k z Hk. unfold MemPhysicalAlloc in H. simpl in H. destruct (_ || _).
  { injection H as <- <-. eauto. }
  apply alloc_zones_sound in H as (j & z0 & pg & _ & Hz0 & _ & _ & _ & ->); [|done]. simpl.
  rewrite zget_zset. destruct (_ && _) eqn:E; [|eauto]. apply andb_true_iff in E as [[E _]%andb_true_iff _].
  apply Z.eqb_eq in E. subst k. eexists. split; [done|]. simpl. split; congruence.
Qed.

Lemma alloc_one_sound fuel zone st p st' :
  phys_ok st -> MEM_DMA <= zone <= MEM_HIGHMEM -> MemPhysicalAlloc fuel 1 zone st = Ret (p, st') ->
  exists pg, zget (MemPageStateTable st) p = Some pg /\ refCount pg = 0 /\
    MemPageStateTable st' = zset (MemPageStateTable st) p (set_refCount pg 1) /\ phys_ok st' /\
    (zone <= MEM_KERNEL -> 0 <= p < MEM_KFIXED_MAX_PAGE).
Proof.
  unfold phys_ok, MEM_DMA, MEM_HIGHMEM. intros (Hwf & [x Ha] & Hlow) Hzone. unfold MemPhysicalAlloc. simpl.
  unfold MEM_DMA, MEM_HIGHMEM. assert ((zone <? 0) || (2 <? zone) = false) as -> by (bool_cases; done). intros H.
  pose proof (alloc_one_keeps _ _ _ _ _ Hwf Ha H) as [Hwf' Ha'].
  apply alloc_zones_sound in H as (j & z & pg & Hj & Hz & Hp & Hpg & Hrc & ->); [|done].
  exists pg. split_and!; try done; [by exists x| |].
  - intros k z' Hk. simpl. rewrite zget_zset. destruct (_ && _) eqn:E; [|by apply Hlow].
    apply andb_true_iff in E as [[<-%Z.eqb_eq _]%andb_true_iff _]. intros [= <-]. exact (Hlow _ _ Hk Hz).
  - intros. eapply Hlow in Hz; [|lia]. lia.
Qed.

Lemma in_use_zset tbl p pg :
  zget tbl p = Some pg -> refCount pg = 0 ->
  ~ in_use tbl p /\ forall q, in_use (zset tbl p (set_refCount pg 1)) q <-> in_use tbl q \/ q = p.
Proof.
  intros Hp H0. pose proof (zget_range _ _ _ Hp) as Hr. unfold in_use. split.
  - intros (x & Hx & ?). assert (x = pg) as -> by congruence. lia.
  - intros q. destruct (Z.eq_dec q p) as [->|Hne].
    + rewrite zget_zset_eq by done. split; [auto|]. intros _. exists (set_refCount pg 1). simpl. split; [done|lia].
    + rewrite zget_zset_ne by done. tauto.
Qed.

Lemma phys_wf_same st st' :
  phys_wf st -> zones st' = zones st ->
  zlen (MemPageStateTable st') = zlen (MemPageStateTable st) -> phys_wf st'.
Proof.
  intros [H3 HF] Hz Hl. split; rewrite Hz; [done|].
  eapply Forall_impl; [exact HF|]. intros. by eapply zone_wf_table.
Qed.


Lemma addref_length n page st st' :
  addref_loop n page st = Ret st' -> zlen (MemPageStateTable st') = zlen (MemPageStateTable st).
Proof.
  revert page st. induction n as [|n IH]; intros page st; simpl; [by intros [= ->]|].
  destruct (zget _ _); [|done]. simpl. intros ->%IH. simpl. by rewrite zlen_zset.
Qed.


(** *** One page at a time *)

Lemma phys_ok_same {x} st st' :
  phys_ok st -> counted x st' -> zones st' = zones st ->
  zlen (MemPageStateTable st') = zlen (MemPageStateTable st) -> phys_ok st'.
Proof.
  intros (Hwf & _ & Hlow) Ha Hz Hl. split_and!; [by eapply phys_wf_same|by exists x|].
  intros k z. rewrite Hz. apply Hlow.
Qed.

Lemma free_one p st :
  phys_ok st -> in_use (MemPageStateTable st) p ->
  exists st', MemPhysicalFree p 1 st = Ret st' /\ phys_ok st' /\
    zlen (MemPageStateTable st') = zlen (MemPageStateTable st) /\
    forall q, in_use (MemPageStateTable st') q <-> in_use (MemPageStateTable st) q /\ q <> p.
Proof.
  intros Hok Hu. pose proof Hok as (Hwf & [extra Ha] & Hlow).
  destruct (free_accounting 1 p st Ha) as (st' & E & Ha' & Hz & Hl & _).
  { intros i Hi. by assert (i = p) as -> by lia. }
  exists st'. split; [done|]. split; [by eapply phys_ok_same|]. split; [done|].
  destruct Hu as (pg & Hpg & Hpos). pose proof (zget_range _ _ _ Hpg) as Hr.
  cbn [free_loop] in E. rewrite Hpg in E. apply Ret_inj in E. subst st'. intros q. unfold in_use. simpl.
  destruct (Z.eq_dec q p) as [->|Hne].
  - rewrite zget_zset_eq by done. split; [intros (x & [= <-] & Hx); simpl in Hx; lia|tauto].
  - rewrite zget_zset_ne by done. tauto.
Qed.

Lemma deleteref_one p st :
  phys_ok st -> 0 <= p < zlen (MemPageStateTable st) ->
  exists st' pg, MemPhysicalDeleteRef p 1 st = Ret st' /\ phys_ok st' /\
    zget (MemPageStateTable st) p = Some pg /\
    MemPageStateTable st' = zset (MemPageStateTable st) p (set_refCount pg (Z.max 0 (refCount pg - 1))).
Proof.
  intros Hok Hr. pose proof Hok as (Hwf & [extra Ha] & Hlow).
  destruct (deleteref_accounting 1 p st Ha) as (st' & E & Ha' & Hz & Hl); [lia|lia|].
  destruct (zget_in_range _ _ Hr) as [pg Hpg]. exists st', pg.
  split; [done|]. split; [by eapply phys_ok_same|]. split; [done|].
  cbn [deleteref_loop] in E. rewrite Hpg in E. apply Ret_inj in E. subst st'.
  destruct Ha as (_ & _ & HF). pose proof (Forall_zget _ _ _ _ HF Hpg) as Hc. simpl in Hc.
  destruct (Z.ltb_spec 0 (refCount pg)).
  - rewrite Z.max_r by lia. cbv zeta. by destruct (_ =? 0).
  - rewrite Z.max_l by lia. rewrite zset_id; [done|]. assert (refCount pg = 0) as H0 by lia.
    rewrite Hpg. unfold set_refCount. rewrite <- H0. by destruct pg.
Qed.

Lemma addref_one p st :
  phys_ok st -> in_use (MemPageStateTable st) p ->
  (forall pg, zget (MemPageStateTable st) p = Some pg -> refCount pg + 1 < 4294967296) ->
  exists st' pg, MemPhysicalAddRef p 1 st = Ret st' /\ phys_ok st' /\
    zget (MemPageStateTable st) p = Some pg /\
    MemPageStateTable st' = zset (MemPageStateTable st) p (set_refCount pg (refCount pg + 1)).
Proof.
  intros Hok Hu Hmax. pose proof Hok as (Hwf & [extra Ha] & Hlow).
  destruct (addref_accounting 1 p st Ha) as (st' & E & Ha' & Hz & _).
  { intros i Hi. by assert (i = p) as -> by lia. }
  destruct Hu as (pg & Hpg & Hpos). exists st', pg. split; [done|].
  split; [eapply phys_ok_same; [done..|]; by eapply addref_length|]. split; [done|].
  cbn [addref_loop] in E. rewrite Hpg in E. apply Ret_inj in E. subst st'. simpl. do 2 f_equal.
  apply Z.mod_small. specialize (Hmax pg Hpg). lia.
Qed.

(** A page that a request for [zone] can have: the first zone of the request
    that is not passed over has a free one. *)
Definition page_available (fuel : nat) (zone : Z) (st : phys) : Prop :=
  enough_fuel st fuel /\
  exists j z, 0 <= j <= zone /\ zget (zones st) j = Some z /\ start z < end_ z /\
    has_free (MemPageStateTable st) z /\
    forall i z', j < i <= zone -> zget (zones st) i = Some z' -> passed_over (MemPageStateTable st) z'.

(** The calls the rest of the kernel makes, with what they owe: references
    are only added to pages in use, and only pages in use are freed. *)
Inductive phys_step (st : phys) : phys -> Prop :=
| step_alloc fuel zone p st' :
    MemPhysicalAlloc fuel 1 zone st = Ret (p, st') -> phys_step st st'
| step_addref page number st' :
    (forall i, page <= i < page + number -> in_use (MemPageStateTable st) i /\
       forall p, zget (MemPageStateTable st) i = Some p -> refCount p + 1 < 4294967296) ->
    MemPhysicalAddRef page number st = Ret st' -> phys_step st st'
| step_deleteref page number st' :
    0 <= page -> page + number <= zlen (MemPageStateTable st) ->
    MemPhysicalDeleteRef page number st = Ret st' -> phys_step st st'
| step_free page number st' :
    (forall i, page <= i < page + number -> in_use (MemPageStateTable st) i) ->
    MemPhysicalFree page number st = Ret st' -> phys_step st st'.

Lemma phys_step_keeps {x} st st' :
  phys_step st st' -> phys_wf st /\ counted x st -> phys_wf st' /\ counted x st'.
Proof.
  intros Hstep [Hwf Ha]. destruct Hstep as [fuel zone p st' E|page n st' Hu E|page n st' H0 Hn E|page n st' Hu E].
  - unfold MemPhysicalAlloc in E. simpl in E. destruct (_ || _); [by simplify_eq|].
    by eapply alloc_one_keeps.
  - unfold MemPhysicalAddRef in E. destruct (addref_accounting (Z.to_nat n) page st Ha)
      as (s & E' & Ha' & Hz & _); [intros; apply Hu; lia|].
    assert (s = st') as -> by congruence. split; [|done].
    eapply phys_wf_same; [done..|]. by eapply addref_length.
  - unfold MemPhysicalDeleteRef in E. destruct (Z.le_gt_cases n 0).
    + replace (Z.to_nat n) with O in E by lia. by simplify_eq/=.
    + destruct (deleteref_accounting (Z.to_nat n) page st Ha) as (s & E' & Ha' & Hz & Hl); [lia..|].
      assert (s = st') as -> by congruence. split; [|done]. by eapply phys_wf_same.
  - unfold MemPhysicalFree in E. destruct (free_accounting (Z.to_nat n) page st Ha)
      as (s & E' & Ha' & Hz & Hl & _); [intros; apply Hu; lia|].
    assert (s = st') as -> by congruence. split; [|done]. by eapply phys_wf_same.
Qed.

(** ** Properties *)

(** One page from the first zone of the request that has one free. *)
Lemma alloc_one {x} st fuel zone j z :
  phys_wf st -> counted x st -> enough_fuel st fuel ->
  0 <= j <= zone -> zone <= MEM_HIGHMEM ->
  zget (zones st) j = Some z -> start z < end_ z -> has_free (MemPageStateTable st) z ->
  (forall i z', j < i <= zone -> zget (zones st) i = Some z' -> passed_over (MemPageStateTable st) z') ->
  exists p pg st', MemPhysicalAlloc fuel 1 zone st = Ret (p, st') /\
    start z <= p < end_ z /\ zget (MemPageStateTable st) p = Some pg /\ refCount pg = 0 /\
    MemPageStateTable st' = zset (MemPageStateTable st) p (set_refCount pg 1) /\
    MemPhysicalFreePages st' = u32 (MemPhysicalFreePages st - 1) /\
    counted x st' /\ phys_wf st'.
Proof.
  intros Hwf Ha Hfuel Hj Hzone Hz Hne Hfree Hpass. unfold MemPhysicalAlloc, MEM_DMA, MEM_HIGHMEM in *.
  assert ((zone <? 0) || (2 <? zone) = false) as -> by (bool_cases; done). simpl.
  rewrite (zones_skip_to st fuel 1 _ (Z.to_nat (j + 1))); [|done|done|lia|].
  2: { intros i z' Hi. apply Hpass. lia. }
  replace (Z.to_nat (j + 1)) with (S (Z.to_nat j)) by lia. cbn [alloc_zones].
  rewrite Z2Nat.id by lia. rewrite Hz. simpl. destruct (Z.ltb_spec (start z) (end_ z)); [|lia].
  destruct (wf_zone _ _ _ Hwf Hz) as [|Hzw]; [lia|].
  destruct (scan_free_page _ _ Hzw fuel Hfree) as (p & -> & Hp & Hpf); [unfold enough_fuel in *; lia|].
  simpl. destruct (zget_in_range (MemPageStateTable st) p) as [pg Hpg]; [lia|]. rewrite Hpg. simpl.
  unfold is_free in Hpf. rewrite Hpg in Hpf. pose proof Hpf as Hrc. apply Z.eqb_eq in Hrc.
  exists p, pg. eexists. split; [done|]. split_and!; [lia|lia|done|done|done|done| |].
  - apply (accounting_step st p pg 1 (u32 (MemPhysicalFreePages st - 1))); [done..|lia|].
    rewrite Hpf. simpl. f_equal. lia.
  - eapply (phys_wf_move st _ j z p); simpl; [done|by rewrite zlen_zset|done|done|done].
Qed.

Lemma alloc_available fuel zone st :
  phys_ok st -> zone <= MEM_HIGHMEM -> page_available fuel zone st ->
  exists p st', MemPhysicalAlloc fuel 1 zone st = Ret (p, st').
Proof.
  intros (Hwf & [x Ha] & _) Hz (Hf & j & z & ? & ? & ? & ? & ?).
  destruct (alloc_one (x := x) st fuel zone j z) as (p & _ & st' & E & _); [done..|]. eauto.
Qed.

(** A request for one page succeeds whenever a zone that the request may
    use has a free page and every zone tried before it is passed over; the
    page returned was free, lies in that zone, is in use afterwards, no other
    page changes, and the free-page counter and the zone invariant are kept. *)
Theorem MemPhysicalAlloc_one x st fuel zone j z :
  phys_wf st -> counted x st -> enough_fuel st fuel ->
  0 <= j <= zone -> zone <= MEM_HIGHMEM ->
  zget (zones st) j = Some z -> start z < end_ z -> has_free (MemPageStateTable st) z ->
  (forall i z', j < i <= zone -> zget (zones st) i = Some z' -> passed_over (MemPageStateTable st) z') ->
  exists p pg st', MemPhysicalAlloc fuel 1 zone st = Ret (p, st') /\
    start z <= p < end_ z /\ zget (MemPageStateTable st) p = Some pg /\ refCount pg = 0 /\
    MemPageStateTable st' = zset (MemPageStateTable st) p (set_refCount pg 1) /\
    MemPhysicalFreePages st' = u32 (MemPhysicalFreePages st - 1) /\
    counted x st' /\ phys_wf st'.
Proof. apply alloc_one. Qed.

(** Two DMA pages, the first in use; the other zones are empty. *)
Definition small_phys : phys :=
  mkPhys [mkMemPage 1 0; mkMemPage 0 0] [mkZone 0 0 2; mkZone 2 2 2; mkZone 2 2 2] 2 1.

Lemma small_phys_wf : phys_wf small_phys /\ counted 0 small_phys.
Proof.
  split.
  - split; [reflexivity|]. repeat (apply Forall_cons; split); [..|done];
    unfold zone_wf, zlen; simpl; lia.
  - split_and!; [reflexivity|reflexivity|]. repeat (apply Forall_cons; split); cbn; done || lia.
Qed.

Lemma MemPhysicalAlloc_one_witness :
  exists p st', MemPhysicalAlloc 10 1 MEM_KERNEL small_phys = Ret (p, st') /\ 0 <= p < 2 /\
    MemPhysicalFreePages st' = 0 /\ counted 0 st'.
Proof.
  destruct (MemPhysicalAlloc_one 0 small_phys 10 MEM_KERNEL 0 (mkZone 0 0 2))
    as (p & pg & st' & E & Hp & _ & _ & _ & Hf & Ha & _).
  - apply small_phys_wf.
  - apply small_phys_wf.
  - reflexivity.
  - unfold MEM_KERNEL. lia.
  - unfold MEM_KERNEL, MEM_HIGHMEM. lia.
  - reflexivity.
  - cbn. lia.
  - exists 1. split; [cbn; lia|reflexivity].
  - intros i z' Hi Hz. assert (i = 1) as -> by (unfold MEM_KERNEL in Hi; lia). injection Hz as <-. left. cbn. lia.
  - exists p, st'. split; [exact E|]. split; [exact Hp|]. split; [exact Hf|exact Ha].
Defined.

(** When every zone up to the requested one is passed over, the request
    ends in the kernel's out-of-memory panic. *)
Theorem MemPhysicalAlloc_out_of_memory st fuel number zone :
  phys_wf st -> enough_fuel st fuel -> number <> 0 -> 0 <= zone <= MEM_HIGHMEM ->
  (forall i z, 0 <= i <= zone -> zget (zones st) i = Some z -> passed_over (MemPageStateTable st) z) ->
  MemPhysicalAlloc fuel number zone st = Panic "MemPhysicalAlloc: Out of memory".
Proof.
  intros Hwf Hfuel Hn Hzone Hpass. unfold MemPhysicalAlloc, MEM_DMA, MEM_HIGHMEM in *.
  destruct (Z.eqb_spec number 0); [done|].
  assert ((zone <? 0) || (2 <? zone) = false) as -> by (bool_cases; done). simpl.
  rewrite (zones_skip_to st fuel number _ 0); [done|done|done|lia|].
  intros i z' Hi. apply Hpass. lia.
Qed.

(** When the requested zone has pages but no free one and its search
    pointer is at its start (where initialisation puts it), the search loop
    of the allocator never ends: no amount of fuel gives a result, so neither
    the fallback to a lower zone nor the out-of-memory panic is reached. *)
Theorem MemPhysicalAlloc_full_zone_diverges st number zone z :
  phys_wf st -> number <> 0 -> 0 <= zone <= MEM_HIGHMEM ->
  zget (zones st) zone = Some z -> start z < end_ z -> headPtr z = start z ->
  exhausted (MemPageStateTable st) z ->
  forall fuel, MemPhysicalAlloc fuel number zone st = NoFuel.
Proof.
  intros Hwf Hn Hzone Hz Hne Hs He fuel. unfold MemPhysicalAlloc, MEM_DMA, MEM_HIGHMEM in *.
  destruct (Z.eqb_spec number 0); [done|].
  assert ((zone <? 0) || (2 <? zone) = false) as -> by (bool_cases; done). simpl.
  replace (Z.to_nat (zone + 1)) with (S (Z.to_nat zone)) by lia. cbn [alloc_zones].
  rewrite Z2Nat.id by lia. rewrite Hz. simpl. destruct (Z.ltb_spec (start z) (end_ z)); [|lia].
  destruct (wf_zone _ _ _ Hwf Hz) as [|Hzw]; [lia|].
  rewrite (scan_diverges _ _ Hzw); [done|done|done|lia].
Qed.

(** The one page of the DMA zone in use. *)
Definition full_phys : phys := mkPhys [mkMemPage 1 0] [mkZone 0 0 1; mkZone 1 1 1; mkZone 1 1 1] 1 0.

Lemma MemPhysicalAlloc_full_zone_diverges_witness :
  MemPhysicalAlloc 1000 1 MEM_DMA full_phys = NoFuel.
Proof.
  apply (MemPhysicalAlloc_full_zone_diverges full_phys 1 MEM_DMA (mkZone 0 0 1)).
  - split; [reflexivity|]. repeat (apply Forall_cons; split); [..|done];
    unfold zone_wf, zlen; simpl; lia.
  - discriminate.
  - unfold MEM_DMA, MEM_HIGHMEM. lia.
  - reflexivity.
  - cbn. lia.
  - reflexivity.
  - intros i Hi. cbn in Hi. assert (i = 0) as -> by lia. reflexivity.
Defined.

(** C30: after any sequence of single-page allocations, references added to pages
    in use (without overflow of their counts), references deleted inside the
    table, and frees of pages in use, the free-page counter is as far ahead of the number of free pages in the table as it was
    at the start (and equal to it when it was), and every zone's search pointer
    is inside the zone. *)
Theorem accounting_invariant extra st st' :
  rtc phys_step st st' -> phys_wf st -> counted extra st -> phys_wf st' /\ counted extra st'.
Proof.
  intros Hs. induction Hs as [|st1 st2 st3 H1 _ IH]; [done|].
  intros Hwf Ha. destruct (phys_step_keeps (x := extra) st1 st2 H1) as [? ?]; auto.
Qed.

Lemma accounting_invariant_witness :
  exists st', MemPhysicalFree 0 1 small_phys = Ret st' /\ phys_wf st' /\ counted 0 st'.
Proof.
  eexists. split; [reflexivity|]. refine (accounting_invariant 0 small_phys _ _ _ _).
  - eapply rtc_once, (step_free _ 0 1); [|reflexivity].
    intros i Hi. assert (i = 0) as -> by lia. exists (mkMemPage 1 0). split; [reflexivity|cbn; lia].
  - apply small_phys_wf.
  - apply small_phys_wf.
Defined.

(** A request for several pages can return a run that leaves its zone: a
    run counted across the end of the zone continues at its start, but the
    pages marked are the ones after the zone. Here the DMA zone is pages 0-3,
    page 4 is in use with three references, and a request for four pages
    returns pages 2-5 and overwrites the reference count of page 4. *)
Theorem MemPhysicalAlloc_run_leaves_zone :
  exists st st' p4,
    phys_wf st /\ counted 0 st /\
    zget (MemPageStateTable st) 4 = Some p4 /\ refCount p4 = 3 /\
    MemPhysicalAlloc 100 4 MEM_DMA st = Ret (2, st') /\
    zget (MemPageStateTable st') 4 = Some (mkMemPage 1 0).
Proof.
  exists (mkPhys [mkMemPage 0 0; mkMemPage 0 0; mkMemPage 0 0; mkMemPage 0 0; mkMemPage 3 0; mkMemPage 1 0]
            [mkZone 2 0 4; mkZone 4 4 6; mkZone 0 0 0] 6 4).
  eexists. eexists. split_and!; [ | | | |vm_compute; reflexivity|vm_compute; reflexivity].
  - split; [done|]. repeat constructor; unfold zone_wf; simpl; unfold zlen; simpl; lia.
  - split_and!; [done|unfold zlen; simpl; lia|]. repeat constructor; simpl; lia.
  - vm_compute. reflexivity.
  - done.
Qed.
