(* ===== verification/VMalloc.v ===== *)
(** * Kernel virtual allocator (src/mm/vmalloc.c)

    [allocData] is the array of page descriptors of the virtual region that
    starts at 0xF0000000. The functions are written over the interface
    [PageSource] of what they need from the page mapper and the physical
    allocator; PageMap.v and Physical.v model these. *)
From S2P Require Import Prelude Physical.

(** ** Data *)

Record VirtualPage := mkVirtualPage { allocated : bool; firstPage : bool }.

Definition VIRT_PAGES : Z := 0xFFFC.
Definition VIRT_BASE : Z := 0xF0000000.

Abbreviation vtable := (list VirtualPage).

(** The static array, all zero when the kernel starts. *)
Definition allocData_init : vtable := replicate (Z.to_nat VIRT_PAGES) (mkVirtualPage false false).

(** ** Reserving *)

(** for(; i > firstPage; --i) allocData[i].allocated = 1; *)
Fixpoint mark_others (fuel : nat) (tbl : vtable) (i first : Z) : vtable :=
  match fuel with
  | O => tbl
  | S f =>
      if first <? i then
        mark_others f
          (match zget tbl i with
           | Some p => zset tbl i (mkVirtualPage true (firstPage p))
           | None => tbl
           end) (i - 1) first
      else tbl
  end.

(** The search loop from page [i] with [pagesSoFar] free pages counted since
    [first]; [k] pages are left. *)
Fixpoint reserve_loop (k : nat) (tbl : vtable) (pages i first pagesSoFar : Z) : outcome (Z * vtable) :=
  match k with
  | O => Ret (0, tbl)
  | S k' =>
      p ← or_fault (zget tbl i);
      if negb (allocated p) then
        let first' := if pagesSoFar =? 0 then i else first in
        let soFar' := u32 (pagesSoFar + 1) in
        if soFar' =? pages then
          let tbl1 := zset tbl first' (mkVirtualPage true true) in
          let tbl2 := mark_others (Z.to_nat (i - first')) tbl1 i first' in
          Ret (u32 (first' * PAGE_SIZE + VIRT_BASE), tbl2)
        else reserve_loop k' tbl pages (i + 1) first' soFar'
      else reserve_loop k' tbl pages (i + 1) first 0
  end.

(** Address of the reserved pages, 0 (NULL) when there are none. *)
Definition MemVirtualReserve (bytes : Z) (tbl : vtable) : outcome (Z * vtable) :=
  if bytes =? 0 then Ret (0, tbl)
  else
    let pages := u32 (bytes + PAGE_SIZE - 1) / PAGE_SIZE in
    reserve_loop (Z.to_nat VIRT_PAGES) tbl pages 0 0 0.

(** ** The other components, as an interface *)

(** What the allocator needs of the page mapper and the physical allocator:
    [S] is the state of the two together. *)
Class PageSource (S : Type) := {
  ps_map : Z -> Z -> S -> outcome (bool * S);      (* MemMapPage(address, page) *)
  ps_unmap : Z -> S -> outcome (Z * S);            (* MemUnmapPage(address) *)
  ps_alloc : Z -> Z -> S -> outcome (Z * S);       (* MemPhysicalAlloc(number, zone) *)
  ps_free : Z -> Z -> S -> outcome S;              (* MemPhysicalFree(page, number) *)
  ps_zero : Z -> Z -> S -> outcome S               (* MemSet(data, 0, bytes) *)
}.

Section WithPages.
Context {S : Type} {PS : PageSource S}.

(** ** Releasing *)

(** for(; index < VIRT_PAGES; ++index) *)
Fixpoint unreserve_loop (k : nat) (freePages : bool) (index : Z) (tbl : vtable) (s : S)
  : outcome (vtable * S) :=
  match k with
  | O => Ret (tbl, s)
  | Datatypes.S k' =>
      p ← or_fault (zget tbl index);
      if firstPage p || negb (allocated p) then Ret (tbl, s)
      else
        let tbl1 := zset tbl index (mkVirtualPage false (firstPage p)) in
        s1 ← (if freePages then
                '(page, s1) ← ps_unmap (u32 (index * PAGE_SIZE + VIRT_BASE)) s;
                ps_free page 1 s1
              else Ret s);
        unreserve_loop k' freePages (index + 1) tbl1 s1
  end.

Definition DoUnreserve (ptr : Z) (freePages : bool) (tbl : vtable) (s : S) : outcome (vtable * S) :=
  if ptr =? 0 then Ret (tbl, s)
  else
    let index := u32 (ptr - VIRT_BASE) / PAGE_SIZE in
    p ← or_fault (zget tbl index);
    if negb (firstPage p) then Ret (tbl, s)
    else
      let tbl1 := zset tbl index (mkVirtualPage (allocated p) false) in
      unreserve_loop (Z.to_nat (VIRT_PAGES - index)) freePages index tbl1 s.

Definition MemVirtualUnReserve (ptr : Z) (tbl : vtable) (s : S) : outcome (vtable * S) :=
  DoUnreserve ptr false tbl s.

Definition MemVirtualFree (ptr : Z) (tbl : vtable) (s : S) : outcome (vtable * S) :=
  DoUnreserve ptr true tbl s.

(** ** Allocating *)

(** for(off = 0; off < bytes; off += PAGE_SIZE) MemMapPage(data + off, MemPhysicalAlloc(1, MEM_HIGHMEM)); *)
Fixpoint map_loop (fuel : nat) (data off bytes : Z) (s : S) : outcome S :=
  if off <? bytes then
    match fuel with
    | O => NoFuel
    | Datatypes.S f =>
        '(page, s1) ← ps_alloc 1 MEM_HIGHMEM s;
        '(_, s2) ← ps_map (u32 (data + off)) page s1;
        map_loop f data (u32 (off + PAGE_SIZE)) bytes s2
    end
  else Ret s.

Definition MemVirtualAlloc (fuel : nat) (bytes : Z) (tbl : vtable) (s : S) : outcome (Z * vtable * S) :=
  '(data, tbl1) ← MemVirtualReserve bytes tbl;
  s1 ← map_loop fuel data 0 bytes s;
  Ret (data, tbl1, s1).

Definition MemVirtualZAlloc (fuel : nat) (bytes : Z) (tbl : vtable) (s : S) : outcome (Z * vtable * S) :=
  '(data, tbl1, s1) ← MemVirtualAlloc fuel bytes tbl s;
  if negb (data =? 0) then
    s2 ← ps_zero data bytes s1;
    Ret (data, tbl1, s2)
  else Ret (data, tbl1, s1).
End WithPages.

(** ** Runs of pages *)

Definition is_alloc (tbl : vtable) (i : Z) : bool :=
  match zget tbl i with Some p => allocated p | None => false end.
Definition is_first (tbl : vtable) (i : Z) : bool :=
  match zget tbl i with Some p => firstPage p | None => false end.

(** Reserved pages come in runs: a first page is allocated, and an allocated
    page that is not a first page follows an allocated page. *)
Definition runs_wf (tbl : vtable) : Prop :=
  zlen tbl = VIRT_PAGES /\
  (forall i, is_first tbl i = true -> is_alloc tbl i = true) /\
  (forall i, is_alloc tbl i = true -> is_first tbl i = false -> is_alloc tbl (i - 1) = true).

(** [tbl'] is [tbl] with the run of [n] pages at [f] reserved. *)
Definition reserved (tbl tbl' : vtable) (f n : Z) : Prop :=
  zlen tbl' = zlen tbl /\
  forall i, zget tbl' i =
    if i =? f then Some (mkVirtualPage true true)
    else if (f <? i) && (i <? f + n) then Some (mkVirtualPage true false)
    else zget tbl i.

Definition free_run (tbl : vtable) (f n : Z) : Prop :=
  forall i, f <= i < f + n -> zget tbl i = Some (mkVirtualPage false false).

Lemma mark_others_spec (n : nat) tbl first :
  0 <= first -> first + Z.of_nat n < zlen tbl ->
  (forall i, first < i <= first + Z.of_nat n -> zget tbl i = Some (mkVirtualPage false false)) ->
  zlen (mark_others n tbl (first + Z.of_nat n) first) = zlen tbl /\
  forall i, zget (mark_others n tbl (first + Z.of_nat n) first) i =
    if (first <? i) && (i <=? first + Z.of_nat n) then Some (mkVirtualPage true false) else zget tbl i.
Proof.
  revert tbl. induction n as [|n IH]; intros tbl H0 Hn Hf.
  - simpl. split; [done|]. intros i. by bool_cases.
  - cbn [mark_others]. destruct (Z.ltb_spec first (first + Z.of_nat (S n))); [|lia].
    rewrite Hf by lia. cbn [firstPage].
    replace (first + Z.of_nat (S n) - 1) with (first + Z.of_nat n) by lia.
    destruct (IH (zset tbl (first + Z.of_nat (S n)) (mkVirtualPage true false))) as [IHl IHg];
      [done|rewrite zlen_zset; lia| |].
    + intros i Hi. rewrite zget_zset_ne by lia. apply Hf. lia.
    + split; [by rewrite IHl, zlen_zset|]. intros i. rewrite IHg, zget_zset. bool_cases; done.
Qed.

(** The state of the search before page [i]. *)
Definition search_inv (tbl : vtable) (pages i first soFar : Z) : Prop :=
  0 <= soFar < pages /\ soFar <= i /\ (soFar = 0 \/ first = i - soFar) /\
  free_run tbl (i - soFar) soFar /\
  (forall g, 0 <= g < i - soFar -> ~ free_run tbl g pages).

Lemma reserve_loop_spec k tbl pages i first soFar :
  runs_wf tbl -> Z.of_nat k = VIRT_PAGES - i -> pages < 4294967296 ->
  search_inv tbl pages i first soFar ->
  (exists f tbl', reserve_loop k tbl pages i first soFar = Ret (u32 (f * PAGE_SIZE + VIRT_BASE), tbl') /\
     0 <= f /\ f + pages <= VIRT_PAGES /\ free_run tbl f pages /\ reserved tbl tbl' f pages /\
     (forall g, 0 <= g < f -> ~ free_run tbl g pages)) \/
  (reserve_loop k tbl pages i first soFar = Ret (0, tbl) /\
   forall g, 0 <= g -> g + pages <= VIRT_PAGES -> ~ free_run tbl g pages).
Proof.
  intros Hwf Hk Hpg. pose proof Hwf as (Hlen & Hfa & _).
  revert i first soFar Hk. induction k as [|k IH]; intros i first soFar Hk (Hs & Hi & Hfirst & Hrun & Hno).
  - right. split; [done|]. intros g Hg Hge. apply Hno. lia.
  - cbn [reserve_loop]. destruct (zget_in_range tbl i) as [p Hp]; [lia|]. rewrite Hp. simpl.
    unfold VIRT_PAGES in *. assert (u32 (soFar + 1) = soFar + 1) as -> by (apply Z.mod_small; lia).
    destruct (allocated p) eqn:Ha; simpl.
    + apply IH; [lia|]. split_and!; [lia|lia|lia|by left|intros j; lia|].
      intros g Hg Hfr. destruct (Z.lt_ge_cases g (i - soFar)) as [Hlt|Hge].
      * apply (Hno g); [lia|done].
      * rewrite (Hfr i) in Hp by lia. by simplify_eq.
    + assert (p = mkVirtualPage false false) as ->.
      { destruct p as [a [|]]; simpl in *; [|by subst]. specialize (Hfa i).
        unfold is_first, is_alloc in Hfa. rewrite Hp in Hfa. simpl in Hfa. rewrite Hfa in Ha; done. }
      assert ((if soFar =? 0 then i else first) = i - soFar) as -> by (bool_cases; lia).
      assert (free_run tbl (i - soFar) (soFar + 1)) as Hrun'.
      { intros j Hj. destruct (Z.eq_dec j i) as [->|]; [done|]. apply Hrun. lia. }
      destruct (Z.eqb_spec (soFar + 1) pages) as [E|E].
      * left. exists (i - soFar). eexists. split; [done|].
        split_and!; [lia|lia|by rewrite <- E| |done].
        replace (i - (i - soFar)) with soFar by lia. pose proof (zlen_zset tbl (i - soFar) (mkVirtualPage true true)).
        destruct (mark_others_spec (Z.to_nat soFar) (zset tbl (i - soFar) (mkVirtualPage true true)) (i - soFar))
          as [Hl Hg]; [lia|lia| |].
        { intros j Hj. rewrite zget_zset_ne by lia. apply Hrun'. lia. }
        replace (i - soFar + Z.of_nat (Z.to_nat soFar)) with i in * by lia.
        split; [by rewrite Hl|]. intros j. rewrite Hg, zget_zset. bool_cases; done || lia.
      * apply IH; [lia|]. split_and!; [lia|lia|lia|right; lia|..].
        { by replace (i + 1 - (soFar + 1)) with (i - soFar) by lia. }
        intros g Hg. apply Hno. lia.
Qed.

Lemma reserved_wf tbl tbl' f n :
  runs_wf tbl -> 1 <= n -> free_run tbl f n -> reserved tbl tbl' f n -> runs_wf tbl'.
Proof.
  intros (Hlen & Hfa & Hrun) Hn Hfree [Hl Hg]. split_and!.
  - congruence.
  - intros i. unfold is_first, is_alloc. rewrite Hg. bool_cases; try done; apply Hfa.
  - intros i. unfold is_first, is_alloc. rewrite !Hg. bool_cases; try done.
    all: intros Ha1 Ha2; apply (Hrun i Ha1 Ha2).
Qed.

Section WithPagesProofs.
Context {S : Type} {PS : PageSource S}.

Lemma unreserve_run (n : nat) k i tbl (s : S) :
  zlen tbl = VIRT_PAGES -> 0 <= i -> Z.of_nat k = VIRT_PAGES - i ->
  (forall j, i <= j < i + Z.of_nat n -> zget tbl j = Some (mkVirtualPage true false)) ->
  (i + Z.of_nat n = VIRT_PAGES \/
   exists p, zget tbl (i + Z.of_nat n) = Some p /\ firstPage p || negb (allocated p) = true) ->
  exists tbl', unreserve_loop k false i tbl s = Ret (tbl', s) /\ zlen tbl' = zlen tbl /\
    forall j, zget tbl' j =
      if (i <=? j) && (j <? i + Z.of_nat n) then Some (mkVirtualPage false false) else zget tbl j.
Proof.
  revert k i tbl. induction n as [|n IH]; intros k i tbl Hl H0 Hk Hr He.
  - exists tbl. split_and!; [|done|intros j; by bool_cases].
    destruct k as [|k]; [done|]. simpl in *. destruct He as [|(p & Hp & Hstop)]; [lia|].
    rewrite Z.add_0_r in Hp. rewrite Hp. simpl. by rewrite Hstop.
  - assert (i < VIRT_PAGES) as Hlt.
    { rewrite <- Hl. apply (zget_range tbl i (mkVirtualPage true false)), Hr. lia. }
    destruct k as [|k]; [lia|]. cbn [unreserve_loop]. rewrite Hr by lia. simpl.
    destruct (IH k (i + 1) (zset tbl i (mkVirtualPage false false))) as (tbl' & E & Hl' & Hg).
    + by rewrite zlen_zset.
    + lia.
    + lia.
    + intros j Hj. rewrite zget_zset_ne by lia. apply Hr. lia.
    + replace (i + 1 + Z.of_nat n) with (i + Z.of_nat (Datatypes.S n)) by lia.
      destruct He as [|He]; [by left|right]. by rewrite zget_zset_ne by lia.
    + exists tbl'. split_and!; [done|by rewrite Hl', zlen_zset|].
      intros j. rewrite Hg, zget_zset. bool_cases; done || lia.
Qed.

(** Releasing a run restores the table it was reserved from. *)
Lemma unreserve_reserved tbl tbl' f n (s : S) :
  runs_wf tbl -> 1 <= n -> 0 <= f -> f + n <= VIRT_PAGES -> free_run tbl f n -> reserved tbl tbl' f n ->
  DoUnreserve (u32 (f * PAGE_SIZE + VIRT_BASE)) false tbl' s = Ret (tbl, s).
Proof.
  intros (Hlen & Hfa & Hrun) Hn H0 Hfn Hfree [Hl Hg]. unfold DoUnreserve, PAGE_SIZE, VIRT_BASE, VIRT_PAGES in *.
  assert (u32 (f * 4096 + 4026531840) = f * 4096 + 4026531840) as -> by (apply Z.mod_small; lia).
  destruct (Z.eqb_spec (f * 4096 + 4026531840) 0); [lia|].
  assert (u32 (f * 4096 + 4026531840 - 4026531840) / 4096 = f) as -> by (unfold u32; zlia).
  rewrite Hg, Z.eqb_refl. simpl.
  destruct (unreserve_run (Z.to_nat n) (Z.to_nat (65532 - f)) f (zset tbl' f (mkVirtualPage true false)) s)
    as (tbl'' & E & Hl'' & Hg'').
  - rewrite zlen_zset. unfold VIRT_PAGES. lia.
  - lia.
  - unfold VIRT_PAGES. lia.
  - intros j Hj. rewrite zget_zset, Hg. bool_cases; done || lia.
  - rewrite Z2Nat.id by lia. unfold VIRT_PAGES. destruct (Z.eq_dec (f + n) 65532) as [|Hne]; [by left|right].
    rewrite zget_zset_ne by lia. destruct (zget_in_range tbl (f + n)) as [p Hp]; [lia|].
    exists p. split; [rewrite Hg; bool_cases; done || lia|].
    specialize (Hrun (f + n)). unfold is_alloc, is_first in Hrun. rewrite Hp in Hrun.
    rewrite (Hfree (f + n - 1)) in Hrun by lia. simpl in Hrun.
    destruct (allocated p), (firstPage p); try done. by discriminate Hrun.
  - rewrite E. f_equal. f_equal. apply zget_ext; [rewrite Hl'', zlen_zset; lia|].
    intros j. rewrite Hg'', zget_zset, Hg, Z2Nat.id by lia.
    bool_cases; try done; try lia; symmetry; apply Hfree; lia.
Qed.
End WithPagesProofs.

(** Pages needed for a size that does not wrap around. *)
Lemma pages_of_bytes bytes :
  0 < bytes <= 0xFFFFF000 ->
  u32 (bytes + PAGE_SIZE - 1) / PAGE_SIZE = (bytes + 4095) / 4096.
Proof. intros. unfold u32, PAGE_SIZE. rewrite Z.mod_small by lia. f_equal. lia. Qed.

Lemma search_inv_start tbl pages : 1 <= pages -> search_inv tbl pages 0 0 0.
Proof. intros. split_and!; [lia|lia|lia|by left|intros i; lia|intros; lia]. Qed.

(** ** Properties *)

(** Reserving is first fit: with [n] the number of pages that [bytes]
    need, the call returns the address of the lowest run of [n] free pages,
    marks exactly these pages and keeps the run structure of the table; it
    returns NULL and changes nothing only when there is no such run. *)
Theorem MemVirtualReserve_first_fit bytes tbl :
  runs_wf tbl -> 0 < bytes <= 0xFFFFF000 ->
  let n := (bytes + 4095) / 4096 in
  (exists f tbl', MemVirtualReserve bytes tbl = Ret (f * PAGE_SIZE + VIRT_BASE, tbl') /\
     0 <= f /\ f + n <= VIRT_PAGES /\ free_run tbl f n /\ reserved tbl tbl' f n /\ runs_wf tbl' /\
     (forall g, 0 <= g < f -> ~ free_run tbl g n)) \/
  (MemVirtualReserve bytes tbl = Ret (0, tbl) /\
   forall g, 0 <= g -> g + n <= VIRT_PAGES -> ~ free_run tbl g n).
Proof.
  intros Hwf Hb n. unfold MemVirtualReserve. destruct (Z.eqb_spec bytes 0); [lia|].
  rewrite pages_of_bytes by done. fold n. assert (1 <= n < 4294967296) by (unfold n; zlia).
  destruct (reserve_loop_spec (Z.to_nat VIRT_PAGES) tbl n 0 0 0 Hwf) as [(f & tbl' & E & H0 & Hf & Hfr & Hr & Hmin)|];
    [unfold VIRT_PAGES; lia|lia|apply search_inv_start; lia| |by right].
  left. exists f, tbl'. split_and!; try done; [|by apply (reserved_wf tbl tbl' f n); [done|lia|..]].
  rewrite E. do 2 f_equal. unfold PAGE_SIZE, VIRT_BASE, VIRT_PAGES in *. apply Z.mod_small. lia.
Qed.

Lemma allocData_init_free i : is_alloc allocData_init i = false /\ is_first allocData_init i = false.
Proof.
  unfold is_alloc, is_first. destruct (zget allocData_init i) as [p|] eqn:E; [|done].
  pose proof (zget_range _ _ _ E) as Hr. unfold allocData_init in *. rewrite zlen_replicate in Hr.
  assert (zget (replicate (Z.to_nat VIRT_PAGES) (mkVirtualPage false false)) i = Some (mkVirtualPage false false)) as E'
    by (by apply zget_replicate).
  rewrite E' in E. injection E as <-. done.
Qed.

Lemma allocData_init_wf : runs_wf allocData_init.
Proof.
  split_and!.
  - unfold allocData_init. rewrite zlen_replicate. reflexivity.
  - intros i H. destruct (allocData_init_free i) as [_ E]. by rewrite E in H.
  - intros i H. destruct (allocData_init_free i) as [E _]. by rewrite E in H.
Qed.

Lemma MemVirtualReserve_first_fit_witness :
  (exists f tbl', MemVirtualReserve 5000 allocData_init = Ret (f * PAGE_SIZE + VIRT_BASE, tbl') /\ runs_wf tbl') \/
  MemVirtualReserve 5000 allocData_init = Ret (0, allocData_init).
Proof.
  destruct (MemVirtualReserve_first_fit 5000 allocData_init allocData_init_wf) as [(f & tbl' & E & _ & _ & _ & _ & R & _)|[E _]].
  - lia.
  - left. exists f, tbl'. split; [exact E|exact R].
  - right. exact E.
Defined.

(** Unreserving the pointer that a reservation returned restores the
    descriptor table exactly (and touches no physical page), whatever the
    neighbours of the run are. *)
Theorem MemVirtualReserve_UnReserve {S} {PS : PageSource S} bytes tbl ptr tbl' (s : S) :
  runs_wf tbl -> 0 < bytes <= 0xFFFFF000 ->
  MemVirtualReserve bytes tbl = Ret (ptr, tbl') -> ptr <> 0 ->
  MemVirtualUnReserve ptr tbl' s = Ret (tbl, s).
Proof.
  intros Hwf Hb E Hp. unfold MemVirtualReserve in E. destruct (Z.eqb_spec bytes 0); [lia|].
  rewrite pages_of_bytes in E by done. assert (1 <= (bytes + 4095) / 4096 < 4294967296) by zlia.
  destruct (reserve_loop_spec (Z.to_nat VIRT_PAGES) tbl ((bytes + 4095) / 4096) 0 0 0 Hwf)
    as [(f & t & E' & H0 & Hf & Hfr & Hr & Hmin)|[E' _]];
    [unfold VIRT_PAGES; lia|lia|apply search_inv_start; lia| |congruence].
  rewrite E' in E. injection E as <- <-. unfold MemVirtualUnReserve.
  eapply unreserve_reserved; [done|..|done|done]; lia.
Qed.

(** A page source that is never asked for anything. *)
Definition no_pages : PageSource unit :=
  {| ps_map _ _ s := Ret (true, s); ps_unmap _ s := Ret (0, s); ps_alloc _ _ s := Ret (0, s);
     ps_free _ _ s := Ret s; ps_zero _ _ s := Ret s |}.

Lemma MemVirtualReserve_UnReserve_witness :
  exists ptr tbl', MemVirtualReserve 5000 allocData_init = Ret (ptr, tbl') /\
    @MemVirtualUnReserve unit no_pages ptr tbl' tt = Ret (allocData_init, tt).
Proof.
  assert (match MemVirtualReserve 5000 allocData_init with Ret (p, _) => p =? 0 | _ => true end = false) as H
    by (vm_compute; reflexivity).
  destruct (MemVirtualReserve 5000 allocData_init) as [[ptr tbl']| | |] eqn:E; [|done..].
  exists ptr, tbl'. split; [reflexivity|].
  apply (@MemVirtualReserve_UnReserve unit no_pages 5000 allocData_init ptr tbl' tt allocData_init_wf).
  - lia.
  - exact E.
  - by apply Z.eqb_neq.
Defined.
