(* ===== verification/PageMap.v ===== *)
(** * Page tables (src/mm/pageMapping.c, include/mm/pagingInt.h)

    Page directory and page table entries are 32-bit words with bit fields.
    The kernel part of MemMapPage and MemUnmapPage is modelled: pages of the
    virtual region, mapped through the array [MemVirtualPageTables]. *)
From S2P Require Import Prelude Physical.

(** ** Bit fields *)

(** Field of [width] bits at bit [lo] of a word. *)
Definition field (w lo width : Z) : Z := Z.land (Z.shiftr w lo) (Z.ones width).
Definition set_field (w lo width v : Z) : Z :=
  Z.lor (Z.land w (Z.lnot (Z.shiftl (Z.ones width) lo))) (Z.shiftl (Z.land v (Z.ones width)) lo).

(** The fields of [MemPageTable] (and of [MemPageDirectory], which has
    [hugePage] at bit 7 and no [tableCount]). *)
Definition present (e : Z) : Z := field e 0 1.
Definition writable (e : Z) : Z := field e 1 1.
Definition userMode (e : Z) : Z := field e 2 1.
Definition cacheDisable (e : Z) : Z := field e 4 1.
Definition global (e : Z) : Z := field e 8 1.
Definition tableCount (e : Z) : Z := field e 9 3.
(** [MemPhysPage pageID : 20] is a signed 20-bit field. *)
Definition pageID_raw (e : Z) : Z := field e 12 20.
Definition pageID (e : Z) : Z := (pageID_raw e + 524288) mod 1048576 - 524288.

Definition set_present (e v : Z) : Z := set_field e 0 1 v.
Definition set_writable (e v : Z) : Z := set_field e 1 1 v.
Definition set_userMode (e v : Z) : Z := set_field e 2 1 v.
Definition set_cacheDisable (e v : Z) : Z := set_field e 4 1 v.
Definition set_global (e v : Z) : Z := set_field e 8 1 v.
Definition set_tableCount (e v : Z) : Z := set_field e 9 3 v.
Definition set_pageID (e v : Z) : Z := set_field e 12 20 v.

(** ** Kernel mappings *)

Abbreviation vptables := (list Z).
Definition MemVirtualPageTables_len : Z := 64 * 1024.

Definition page_align (address : Z) : Z := Z.land address 0xFFFFF000.

Definition MemMapPage (address page : Z) (t : vptables) : outcome (bool * vptables) :=
  let addr := page_align address in
  if (addr <? MEM_KFIXED_MAX) || (addr =? 0xFFFFF000) then Ret (false, t)
  else
    let i := (addr - MEM_KFIXED_MAX) / 4096 in
    e ← or_fault (zget t i);
    if truth (present e) then Ret (false, t)
    else
      let e' := set_pageID (set_global (set_writable (set_present 0 1) 1) 1) page in
      Ret (true, zset t i e').

Definition MemUnmapPage (address : Z) (t : vptables) : outcome (Z * vptables) :=
  let addr := page_align address in
  if addr <? MEM_KFIXED_MAX then Ret (INVALID_PAGE, t)
  else
    let i := (addr - MEM_KFIXED_MAX) / 4096 in
    e ← or_fault (zget t i);
    if truth (present e) then Ret (pageID e, zset t i 0)
    else Ret (INVALID_PAGE, t).

(** ** Reading back a field *)

Lemma field_set_same w lo width v :
  0 <= lo -> 0 <= width -> field (set_field w lo width v) lo width = Z.land v (Z.ones width).
Proof. intros. unfold field, set_field. bits. Qed.

Lemma field_set_other w lo width v lo' width' :
  0 <= lo -> 0 <= width -> 0 <= lo' -> 0 <= width' -> lo + width <= lo' \/ lo' + width' <= lo ->
  field (set_field w lo width v) lo' width' = field w lo' width'.
Proof. intros. unfold field, set_field. bits. Qed.

Lemma land_high_mask a : Z.land a 0xFFFFF000 = Z.shiftl (Z.land (Z.shiftr a 12) (Z.ones 20)) 12.
Proof.
  change 0xFFFFF000 with (Z.shiftl (Z.ones 20) 12). bits.
Qed.

Lemma page_align_spec a : is_u32 a -> page_align a = 4096 * (a / 4096).
Proof.
  intros Ha. unfold page_align, is_u32 in *. rewrite land_high_mask, Z.shiftl_mul_pow2, Z.land_ones, Z.shiftr_div_pow2 by lia.
  change (2 ^ 12) with 4096. rewrite Z.mod_small by (change (2 ^ 20) with 1048576; zlia). lia.
Qed.

(** Addresses of the virtual region that can be mapped. *)
Definition mappable (address : Z) : Prop := MEM_KFIXED_MAX <= address < 0xFFFFF000.

Definition vpt_index (address : Z) : Z := (address - MEM_KFIXED_MAX) / 4096.

(** The slot that the processor reads for an address of the virtual region once
    the kernel has booted: all its directory entries name the first table
    (MemMapPage_after_boot in BootSpec.v). *)
Definition boot_slot (address : Z) : Z := (address / 4096) mod 1024.

(** The processor and the array agree on the first table only. *)
Lemma boot_slot_first address : MEM_KFIXED_MAX <= address -> vpt_index address < 1024 -> boot_slot address = vpt_index address.
Proof. unfold boot_slot, vpt_index, MEM_KFIXED_MAX. intros. zlia. Qed.

Lemma mappable_index address :
  mappable address ->
  (page_align address <? MEM_KFIXED_MAX) || (page_align address =? 0xFFFFF000) = false /\
  (page_align address - MEM_KFIXED_MAX) / 4096 = vpt_index address /\
  0 <= vpt_index address < MemVirtualPageTables_len.
Proof.
  unfold mappable, vpt_index, MemVirtualPageTables_len, MEM_KFIXED_MAX. intros H.
  rewrite page_align_spec by (unfold is_u32; lia). split_and!.
  - bool_cases; try done; zlia.
  - zlia.
  - zlia.
  - zlia.
Qed.

(** The entry that [MemMapPage] writes. *)
Definition kernel_entry (page : Z) : Z :=
  set_pageID (set_global (set_writable (set_present 0 1) 1) 1) page.

Lemma kernel_entry_present page : present (kernel_entry page) = 1.
Proof.
  unfold present, kernel_entry, set_pageID. rewrite field_set_other by lia. reflexivity.
Qed.

Lemma kernel_entry_pageID page :
  0 <= page < 1048576 ->
  pageID (kernel_entry page) = if page <? 524288 then page else page - 1048576.
Proof.
  intros Hp. unfold pageID, pageID_raw, kernel_entry, set_pageID.
  rewrite field_set_same, Z.land_ones by lia. change (2 ^ 20) with 1048576.
  rewrite (Z.mod_small page) by lia. destruct (Z.ltb_spec page 524288); zlia.
Qed.

(** ** Properties *)

(** Mapping a page of the virtual region that is not mapped succeeds; a
    second mapping of the same page is refused without effect; unmapping
    gives back the page mapped and restores the table. Physical pages from
    0x80000 up come back as negative numbers, because [pageID] is a signed
    20-bit field. *)
Theorem MemMapPage_roundtrip t address page page2 :
  zlen t = MemVirtualPageTables_len -> mappable address -> 0 <= page < 0x100000 ->
  zget t (vpt_index address) = Some 0 ->
  exists t', MemMapPage address page t = Ret (true, t') /\
    MemMapPage address page2 t' = Ret (false, t') /\
    MemUnmapPage address t' =
      Ret (if page <? 0x80000 then page else page - 0x100000, t) /\
    (forall i, i <> vpt_index address -> zget t' i = zget t i).
Proof.
  intros Hlen Hm Hp He. destruct (mappable_index address Hm) as (Hok & Hi & Hr).
  pose proof Hok as [Hlo _]%orb_false_iff.
  exists (zset t (vpt_index address) (kernel_entry page)).
  assert (zget (zset t (vpt_index address) (kernel_entry page)) (vpt_index address) = Some (kernel_entry page)) as Hg
    by (apply zget_zset_eq; lia).
  split_and!.
  - unfold MemMapPage. rewrite Hok, Hi, He. reflexivity.
  - unfold MemMapPage. rewrite Hok, Hi, Hg. simpl. by rewrite kernel_entry_present.
  - unfold MemUnmapPage. rewrite Hlo, Hi, Hg. simpl. rewrite kernel_entry_present, kernel_entry_pageID by done.
    simpl. do 2 f_equal. apply zget_ext; [by rewrite !zlen_zset|]. intros j. rewrite !zget_zset, zlen_zset.
    destruct (Z.eqb_spec (vpt_index address) j) as [<-|]; simpl; [|done]. rewrite He. by destruct (_ && _).
  - intros i Hne. by apply zget_zset_ne.
Qed.

Lemma MemMapPage_roundtrip_witness :
  exists t', MemMapPage 0xF0001000 7 (replicate (Z.to_nat MemVirtualPageTables_len) 0) = Ret (true, t') /\
    MemUnmapPage 0xF0001000 t' = Ret (7, replicate (Z.to_nat MemVirtualPageTables_len) 0).
Proof.
  destruct (MemMapPage_roundtrip (replicate (Z.to_nat MemVirtualPageTables_len) 0) 0xF0001000 7 7) as (t' & E & _ & U & _).
  - rewrite zlen_replicate, Z2Nat.id; [reflexivity|unfold MemVirtualPageTables_len; lia].
  - unfold mappable, MEM_KFIXED_MAX. lia.
  - lia.
  - apply zget_replicate. rewrite Z2Nat.id; [vm_compute; split; [discriminate|reflexivity]|unfold MemVirtualPageTables_len; lia].
  - exists t'. split; [exact E|exact U].
Defined.

(** Neither operation touches the table for an address below the virtual
    region, and the last page of the address space cannot be mapped. *)
Theorem MemMapPage_invalid t address page :
  is_u32 address -> address < MEM_KFIXED_MAX \/ 0xFFFFF000 <= address ->
  MemMapPage address page t = Ret (false, t) /\
  (address < MEM_KFIXED_MAX -> MemUnmapPage address t = Ret (INVALID_PAGE, t)).
Proof.
  unfold is_u32, MEM_KFIXED_MAX. intros Hu Ha. unfold MemMapPage, MemUnmapPage, MEM_KFIXED_MAX.
  rewrite page_align_spec by done. split; [|intros]; bool_cases; try done; exfalso; zlia.
Qed.
