(* ===== verification/InlineAsm.v ===== *)
(** * Inline assembly (src/include/inlineasm.h)

    The control registers, the ports and the processor's translation cache.
    The cache may lose any entry at any time; it loses all when paging is
    toggled. It is what makes [invlpg] matter: the last section puts it beside
    the page tables of PageMap.v and shows which entries the kernel's page
    mapper leaves behind in it. *)
From S2P Require Import Prelude Physical PageMap.

(** ** Registers and translation cache *)

(** [tlb] holds page table entries by page number. It is what the processor has
    cached so far; [evict] below lets it drop entries of its own accord. *)
Record mmu := mkMmu { cr0 : Z; cr2 : Z; cr3 : Z; cr4 : Z; tlb : gmap Z Z }.

Definition with_tlb (m : gmap Z Z) (h : mmu) : mmu := mkMmu (cr0 h) (cr2 h) (cr3 h) (cr4 h) m.

(** CR0.PG and CR4.PGE. *)
Definition paging (h : mmu) : bool := Z.testbit (cr0 h) 31.
Definition global_pages (h : mmu) : bool := Z.testbit (cr4 h) 7.

(** Turning paging on or off drops every entry. *)
Definition setCR0 (val : Z) (h : mmu) : mmu :=
  mkMmu (u32 val) (cr2 h) (cr3 h) (cr4 h) (if Bool.eqb (Z.testbit (u32 val) 31) (paging h) then tlb h else ∅).
Definition getCR0 (h : mmu) : Z := cr0 h.

(** Loading CR3 drops the entries that are not global, and all of them when
    global pages are not enabled. *)
Definition setCR3 (val : Z) (h : mmu) : mmu :=
  mkMmu (cr0 h) (cr2 h) (u32 val) (cr4 h) (filter (fun p => global_pages h = true /\ global p.2 = 1) (tlb h)).
Definition getCR3 (h : mmu) : Z := cr3 h.
Definition getCR2 (h : mmu) : Z := cr2 h.

(** The operand of the instruction is the variable [address] itself, which is
    at [slot] on the stack, and not the memory it points to: the entry
    dropped is that of the page of [slot]. *)
Definition invlpg (slot address : Z) (h : mmu) : mmu := with_tlb (delete (slot / 4096) (tlb h)) h.

(** The processor makes room in its cache. *)
Definition evict (page : Z) (h : mmu) : mmu := with_tlb (delete page (tlb h)) h.

(** ** Ports *)

(** What the devices do with what is written to them, and what they answer. *)
Class Ports (D : Type) := { port_write : Z -> Z -> Z -> D -> D; port_read : Z -> Z -> D -> Z * D }.

Section PortAccess.
Context {D : Type} {PD : Ports D}.

(** The first argument of the class's operations is the number of bytes. *)
Definition outb (port data : Z) (d : D) : D := port_write 1 (port mod 65536) (data mod 256) d.
Definition outw (port data : Z) (d : D) : D := port_write 2 (port mod 65536) (data mod 65536) d.
Definition inb (port : Z) (d : D) : Z * D := let '(data, d1) := port_read 1 (port mod 65536) d in (data mod 256, d1).
End PortAccess.

(** ** Translation of the virtual region *)

Inductive translation := Untranslated | Entry (e : Z) | Faulted.

(** An access to the virtual region: the cached entry, or that of the table
    that the processor finds through the directory which boot leaves, cached
    when it is present; otherwise a page fault, with the address in CR2. The
    accessed and dirty bits that the processor sets are left out. *)
Definition access (t : vptables) (address : Z) (h : mmu) : translation * mmu :=
  if paging h then
    match tlb h !! (address / 4096) with
    | Some e => (Entry e, h)
    | None =>
        let e := default 0 (zget t (boot_slot address)) in
        if truth (present e)
        then (Entry e, with_tlb (<[address / 4096 := e]> (tlb h)) h)
        else (Faulted, mkMmu (cr0 h) address (cr3 h) (cr4 h) (tlb h))
    end
  else (Untranslated, h).

(** The entry of an address is present. *)
Definition is_mapped (t : vptables) (address : Z) : bool :=
  (MEM_KFIXED_MAX <=? page_align address) &&
  match zget t ((page_align address - MEM_KFIXED_MAX) / 4096) with
  | Some e => truth (present e)
  | None => false
  end.

(** MemMapPage and MemUnmapPage with their call of invlpg. *)
Definition MemMapPage_mmu (slot address page : Z) '(t, h) : outcome (bool * (vptables * mmu)) :=
  '(ok, t1) ← MemMapPage address page t;
  Ret (ok, (t1, if ok : bool then invlpg slot address h else h)).
Definition MemUnmapPage_mmu (slot address : Z) '(t, h) : outcome (Z * (vptables * mmu)) :=
  '(page, t1) ← MemUnmapPage address t;
  Ret (page, (t1, if is_mapped t address then invlpg slot address h else h)).

(** Every cached entry of the virtual region is present and the one in the
    table that the processor would read. *)
Definition coherent (t : vptables) (h : mmu) : Prop :=
  forall address e, mappable address -> tlb h !! (address / 4096) = Some e ->
    present e = 1 /\ zget t (boot_slot address) = Some e.

(** What can happen while a page stays unmapped: the kernel writes CR0 with
    paging as it is, switches address spaces, invalidates from other stack
    pages, uses any pages, and the processor drops entries of other pages. *)
Inductive unrelated (page : Z) : mmu -> mmu -> Prop :=
| unrelated_refl h : unrelated page h h
| unrelated_cr0 h h' v :
    Z.testbit (u32 v) 31 = paging h -> unrelated page (setCR0 v h) h' -> unrelated page h h'
| unrelated_cr3 h h' v : unrelated page (setCR3 v h) h' -> unrelated page h h'
| unrelated_invlpg h h' slot address :
    slot / 4096 <> page -> unrelated page (invlpg slot address h) h' -> unrelated page h h'
| unrelated_access h h' t address : unrelated page (access t address h).2 h' -> unrelated page h h'
| unrelated_evict h h' p : p <> page -> unrelated page (evict p h) h' -> unrelated page h h'.

(** ** Lemmas *)

Lemma page_index_inj a b :
  mappable a -> mappable b -> vpt_index a = vpt_index b <-> a / 4096 = b / 4096.
Proof. unfold mappable, vpt_index, MEM_KFIXED_MAX. intros. split; intros; zlia. Qed.

Lemma is_mapped_spec t a e :
  mappable a -> zget t (vpt_index a) = Some e -> is_mapped t a = truth (present e).
Proof.
  intros Ha He. destruct (mappable_index a Ha) as (Hok & Hi & _). unfold is_mapped. rewrite Hi, He.
  apply orb_false_iff in Hok as [Hlo _]. apply Z.ltb_ge in Hlo. by rewrite (proj2 (Z.leb_le _ _) Hlo).
Qed.

Lemma kernel_entry_global page : global (kernel_entry page) = 1.
Proof. unfold global, kernel_entry, set_pageID. rewrite field_set_other by lia. reflexivity. Qed.

(** A cached entry answers, whatever the tables say. *)
Lemma access_cached t a h e : paging h = true -> tlb h !! (a / 4096) = Some e -> access t a h = (Entry e, h).
Proof. intros Hp H. unfold access. by rewrite Hp, H. Qed.

(** An access never replaces or drops a cached entry. *)
Lemma access_keeps t a h p e :
  tlb h !! p = Some e -> tlb (access t a h).2 !! p = Some e /\ paging (access t a h).2 = paging h /\
    global_pages (access t a h).2 = global_pages h.
Proof.
  intros H. unfold access. destruct (paging h) eqn:E0; [|done]. destruct (tlb h !! (a / 4096)) eqn:E; [done|].
  destruct (truth _); simpl; [|done]. rewrite lookup_insert_ne; [done|congruence].
Qed.

(** Nothing unrelated drops a global entry. *)
Lemma unrelated_keeps p h h' e :
  unrelated p h h' -> global e = 1 -> global_pages h = true -> tlb h !! p = Some e ->
  tlb h' !! p = Some e /\ paging h' = paging h.
Proof.
  intros H He. induction H as [|h h' v Hv _ IH|h h' v _ IH|h h' slot a Hs _ IH|h h' t a _ IH|h h' q Hq _ IH]; intros Hg Hp; [done|..].
  - destruct IH as [IH1 IH2]; [done|cbn [tlb setCR0]; by rewrite Hv, eqb_reflx|]. split; [done|]. rewrite IH2. exact Hv.
  - apply IH; [done|]. simpl. by apply map_lookup_filter_Some_2.
  - apply IH; [done|]. simpl. by rewrite lookup_delete_ne.
  - destruct (access_keeps t a h p e Hp) as (H1 & H2 & H3). rewrite <- H2. apply IH; [by rewrite H3|done].
  - apply IH; [done|]. simpl. by rewrite lookup_delete_ne.
Qed.

(** An access through a coherent cache caches the entry that the table has. *)
Lemma access_mapped t a h e :
  mappable a -> coherent t h -> paging h = true -> zget t (boot_slot a) = Some e -> present e = 1 ->
  exists h', access t a h = (Entry e, h') /\ tlb h' !! (a / 4096) = Some e /\ paging h' = true /\
    global_pages h' = global_pages h.
Proof.
  intros Ha Hc Hpg He Hp. unfold access. rewrite Hpg. destruct (tlb h !! (a / 4096)) as [e'|] eqn:E.
  - destruct (Hc _ _ Ha E) as [_ He']. exists h. by simplify_eq.
  - rewrite He. simpl. rewrite Hp. simpl. eexists. split; [done|]. split; [apply lookup_insert_eq|done].
Qed.

(** What MemUnmapPage and MemMapPage do to table and cache. *)
Lemma MemUnmapPage_mmu_mapped slot a t h e :
  mappable a -> zget t (vpt_index a) = Some e -> present e = 1 ->
  MemUnmapPage_mmu slot a (t, h) = Ret (pageID e, (zset t (vpt_index a) 0, invlpg slot a h)).
Proof.
  intros Ha He Hp. unfold MemUnmapPage_mmu. rewrite (is_mapped_spec _ _ _ Ha He), Hp.
  unfold MemUnmapPage. destruct (mappable_index a Ha) as (Hok & Hi & _).
  apply orb_false_iff in Hok as [Hlo _]. by rewrite Hlo, Hi, He; simpl; rewrite Hp.
Qed.

Lemma MemMapPage_mmu_free slot a page t h e :
  mappable a -> zget t (vpt_index a) = Some e -> present e = 0 ->
  MemMapPage_mmu slot a page (t, h) =
    Ret (true, (zset t (vpt_index a) (kernel_entry page), invlpg slot a h)).
Proof.
  intros Ha He Hp. unfold MemMapPage_mmu, MemMapPage. destruct (mappable_index a Ha) as (Hok & Hi & _).
  by rewrite Hok, Hi, He; simpl; rewrite Hp.
Qed.

Lemma invlpg_lookup slot a h p e :
  tlb (invlpg slot a h) !! p = Some e <-> p <> slot / 4096 /\ tlb h !! p = Some e.
Proof. simpl. rewrite lookup_delete_Some. naive_solver. Qed.

(** ** Properties *)

(** Mapping a free page keeps the translation cache coherent: the processor
    does not cache entries that are not present, so there is nothing to drop. *)
Theorem MemMapPage_coherent slot address page t h ok t' h' :
  mappable address -> zlen t = MemVirtualPageTables_len -> coherent t h ->
  MemMapPage_mmu slot address page (t, h) = Ret (ok, (t', h')) -> coherent t' h'.
Proof.
  intros Ha Hlen Hc E. destruct (mappable_index address Ha) as (_ & _ & Hr).
  destruct (zget_in_range t (vpt_index address)) as [e He]; [lia|].
  destruct (truth (present e)) eqn:Hp.
  - unfold MemMapPage_mmu, MemMapPage in E. destruct (mappable_index address Ha) as (Hok & Hi & _).
    rewrite Hok, Hi, He in E. simpl in E. rewrite Hp in E. by simplify_eq/=.
  - assert (present e = 0) as Hp0 by (unfold truth in Hp; bool_hyps; lia).
    rewrite (MemMapPage_mmu_free _ _ _ _ _ _ Ha He Hp0) in E. simplify_eq.
    intros a e' Ha' [_ Hl]%invlpg_lookup. destruct (Hc _ _ Ha' Hl) as [Hp' Hg]. split; [done|].
    rewrite zget_zset_ne; [done|]. intros Heq. rewrite Heq in He. congruence.
Qed.

(** Unmapping keeps the cache coherent exactly when no page that goes through
    the entry was cached, but for the page in which the argument of [invlpg]
    happens to be stored. *)
Theorem MemUnmapPage_coherent slot address t h e :
  mappable address -> coherent t h -> zget t (vpt_index address) = Some e -> present e = 1 ->
  exists t' h', MemUnmapPage_mmu slot address (t, h) = Ret (pageID e, (t', h')) /\
    (coherent t' h' <->
     forall a, mappable a -> boot_slot a = vpt_index address -> a / 4096 <> slot / 4096 -> tlb h !! (a / 4096) = None).
Proof.
  intros Ha Hc He Hp. eexists _, _. split; [by apply MemUnmapPage_mmu_mapped|].
  assert (zget (zset t (vpt_index address) 0) (vpt_index address) = Some 0) as Hz
    by (apply zget_zset_eq; eapply zget_range; eassumption).
  split.
  - intros Hc' a Hma Hs Hne. destruct (tlb h !! (a / 4096)) as [e'|] eqn:El; [|done]. exfalso.
    destruct (Hc' a e' Hma) as [Hp' Hg]; [by apply invlpg_lookup|].
    rewrite Hs, Hz in Hg. injection Hg as <-. discriminate.
  - intros Hall a e' Ha' [Hs Hl]%invlpg_lookup. destruct (Hc _ _ Ha' Hl) as [Hp' Hg]. split; [done|].
    rewrite zget_zset_ne; [done|]. intros Heq. rewrite Hall in Hl; done.
Qed.

(** C36: with paging and global pages on, a page of the first table of the
    virtual region (the only one the processor sees after boot) that was used
    and is then unmapped, and mapped again to another frame, is still seen at
    its first frame until the processor evicts the entry of its own accord: the
    address given to [invlpg] is not invalidated, and neither switching
    address spaces nor any other access, [invlpg] from another stack page or
    eviction of another page drops the entry. *)
Theorem unmapped_page_stays_visible slot address page t h page2 h2 :
  mappable address -> vpt_index address < 1024 -> zlen t = MemVirtualPageTables_len -> coherent t h ->
  paging h = true -> global_pages h = true ->
  slot / 4096 <> address / 4096 -> zget t (vpt_index address) = Some (kernel_entry page) ->
  exists h1 t2 h3 t4 h5,
    access t address h = (Entry (kernel_entry page), h1) /\
    MemUnmapPage_mmu slot address (t, h1) = Ret (pageID (kernel_entry page), (t2, h3)) /\
    (unrelated (address / 4096) h3 h2 ->
      access t2 address h2 = (Entry (kernel_entry page), h2) /\
      MemMapPage_mmu slot address page2 (t2, h2) = Ret (true, (t4, h5)) /\
      zget t4 (boot_slot address) = Some (kernel_entry page2) /\
      access t4 address h5 = (Entry (kernel_entry page), h5)).
Proof.
  intros Ha Hfirst Hlen Hc Hpg Hgl Hs He. pose proof (kernel_entry_present page) as Hp.
  assert (boot_slot address = vpt_index address) as Hb by (apply boot_slot_first; [apply Ha|done]).
  destruct (access_mapped t address h (kernel_entry page)) as (h1 & Hacc & Hl & Hpg1 & Hgl1); [done..|by rewrite Hb|done|].
  pose proof (zget_range _ _ _ He) as Hr.
  assert (zget (zset t (vpt_index address) 0) (vpt_index address) = Some 0) as Hz by (by apply zget_zset_eq).
  eexists h1, _, _, _, _. split; [exact Hacc|]. split; [by apply MemUnmapPage_mmu_mapped|].
  intros Hu. destruct (unrelated_keeps _ _ _ (kernel_entry page) Hu) as [Hl2 Hpg2].
  { apply kernel_entry_global. } { by rewrite <- Hgl, <- Hgl1. } { by apply invlpg_lookup. }
  assert (paging h2 = true) as Hpg2' by (rewrite Hpg2; exact Hpg1).
  split; [by apply access_cached|]. split; [by eapply MemMapPage_mmu_free|]. split.
  - rewrite Hb. apply zget_zset_eq. by rewrite zlen_zset.
  - apply access_cached; [exact Hpg2'|]. by apply invlpg_lookup.
Qed.

(** ** Witnesses *)

Definition one_page : vptables := zset (replicate (Z.to_nat MemVirtualPageTables_len) 0) 1 (kernel_entry 7).
Definition cold : mmu := mkMmu 0x80050023 0 0x101000 0x90 ∅.

Lemma one_page_len : zlen one_page = MemVirtualPageTables_len.
Proof. unfold one_page. autorewrite with arrays. rewrite Z2Nat.id; [done|unfold MemVirtualPageTables_len; lia]. Qed.

Lemma one_page_entry : zget one_page (vpt_index 0xF0001000) = Some (kernel_entry 7).
Proof. vm_compute. reflexivity. Qed.

Lemma cold_coherent t : coherent t cold.
Proof. intros a e _. simpl. by rewrite lookup_empty. Qed.

Lemma page_mappable : mappable 0xF0001000.
Proof. unfold mappable, MEM_KFIXED_MAX. lia. Qed.

Lemma MemMapPage_coherent_witness :
  exists t' h', MemMapPage_mmu 0xC0200000 0xF0002000 9 (one_page, cold) = Ret (true, (t', h')) /\ coherent t' h'.
Proof.
  destruct (zget_in_range one_page (vpt_index 0xF0002000)) as [e He]; [rewrite one_page_len; vm_compute; done|].
  assert (mappable 0xF0002000) as Ha by (unfold mappable, MEM_KFIXED_MAX; lia).
  assert (zget one_page (vpt_index 0xF0002000) = Some 0) as H0 by (vm_compute; reflexivity).
  pose proof (MemMapPage_mmu_free 0xC0200000 _ 9 one_page cold 0 Ha H0 eq_refl) as E.
  eexists _, _. split; [exact E|]. exact (MemMapPage_coherent _ _ _ _ _ _ _ _ Ha one_page_len (cold_coherent _) E).
Defined.

Lemma MemUnmapPage_coherent_witness :
  exists t' h', MemUnmapPage_mmu 0xC0200000 0xF0001000 (one_page, cold) = Ret (7, (t', h')) /\ coherent t' h'.
Proof.
  destruct (MemUnmapPage_coherent 0xC0200000 0xF0001000 one_page cold (kernel_entry 7) page_mappable (cold_coherent _)
    one_page_entry (kernel_entry_present 7)) as (t' & h' & E & [_ Hc]).
  exists t', h'. split; [exact E|]. apply Hc. intros a _ _ _. apply lookup_empty.
Defined.

Lemma unmapped_page_stays_visible_witness :
  exists t2 h3, MemUnmapPage_mmu 0xC0200000 0xF0001000 (one_page, (access one_page 0xF0001000 cold).2) = Ret (7, (t2, h3)) /\
    fst (access t2 0xF0001000 (setCR3 0x200000 h3)) = Entry (kernel_entry 7).
Proof.
  destruct (unmapped_page_stays_visible 0xC0200000 0xF0001000 7 one_page cold 9
    (setCR3 0x200000 (invlpg 0xC0200000 0xF0001000 (access one_page 0xF0001000 cold).2))
    page_mappable eq_refl one_page_len (cold_coherent _) eq_refl eq_refl ltac:(vm_compute; discriminate) one_page_entry)
    as (h1 & t2 & h3 & t4 & h5 & Ea & Eu & Hrest).
  rewrite Ea in *. exists t2, h3. split; [exact Eu|].
  pose proof (MemUnmapPage_mmu_mapped 0xC0200000 _ one_page h1 _ page_mappable one_page_entry (kernel_entry_present 7)) as E.
  change (snd (Entry (kernel_entry 7), h1)) with h1 in Hrest. rewrite E in Eu. injection Eu as <- <-.
  destruct Hrest as [Hr _]; [eapply unrelated_cr3, unrelated_refl|]. by rewrite Hr.
Defined.
