(* ===== verification/HTable.v ===== *)
(** * Hash tables (src/htable.c, include/htable.h)

    Items are intrusive: an item store maps item addresses to [HashItem]
    records linked through their [hnext] field (0 is NULL). Keys are byte
    ranges of memory. The bucket array lives in memory from the virtual
    allocator, used here through the interface [BucketMemory]. *)
From S2P Require Import Prelude Physical Utils VMalloc.

(** ** Data *)

Definition HASH_INITIAL_SIZE : Z := 1024.
Definition HASH_THRESHOLD_REF : Z := 8.
Definition HASH_THRESHOLD_GROW : Z := 7.
Definition HASH_THRESHOLD_SHRINK : Z := 1.

Record HashItem := mkHashItem { keyPtr : Z; keyLen : Z; hashValue : Z; hnext : Z }.

(** [buckets] is the address of the array, [bucketData] what it holds. *)
Record HashTable := mkHashTable {
  buckets : Z; bucketData : list Z; bucketCount : Z; itemCount : Z
}.

Abbreviation items := (gmap Z HashItem).

Definition set_hnext (it : HashItem) (n : Z) : HashItem :=
  mkHashItem (keyPtr it) (keyLen it) (hashValue it) n.

Definition HashTableCount (t : HashTable) : Z := itemCount t.

(** A zero-filled table, as every user of the hash table starts with. *)
Definition empty_table : HashTable := mkHashTable 0 [] 0 0.

(** ** Hashing *)

(** while(keyLen-- > 0) { hash ^= *mem++; hash *= 16777619; } *)
Fixpoint hash_loop (n : nat) (m : memory) (p hash : Z) : outcome Z :=
  match n with
  | O => Ret hash
  | S n' => c ← loadc m p; hash_loop n' m (p + 1) (u32 (u32 (Z.lxor hash (u32 c)) * 16777619))
  end.

Definition HashTableHash (m : memory) (keyPtr keyLen : Z) : outcome Z :=
  hash_loop (Z.to_nat keyLen) m keyPtr 2166136261.

Definition HashTableKeyCompare (m : memory) (keyPtr1 keyPtr2 keyLen1 keyLen2 : Z) : outcome bool :=
  if keyLen1 =? keyLen2 then r ← memcmp m keyPtr1 keyPtr2 keyLen1; Ret (r =? 0) else Ret false.

(** count > ((table->bucketCount * HASH_THRESHOLD_GROW) / HASH_THRESHOLD_REF) *)
Definition HashTableGrowCheck (t : HashTable) (count : Z) : bool :=
  u32 (bucketCount t * HASH_THRESHOLD_GROW) / HASH_THRESHOLD_REF <? count.

(** ** Lookup *)

Fixpoint HashTableFindFromBucket (fuel : nat) (m : memory) (h : items) (currItem keyPtr_ keyLen_ : Z)
  : outcome Z :=
  if currItem =? 0 then Ret 0
  else match fuel with
  | O => NoFuel
  | S f =>
      it ← or_fault (h !! currItem);
      eq ← HashTableKeyCompare m (keyPtr it) keyPtr_ (keyLen it) keyLen_;
      if (eq : bool) then Ret currItem
      else HashTableFindFromBucket f m h (hnext it) keyPtr_ keyLen_
  end.

(** [hash % bucketCount], the bucket index; division by zero faults. *)
Definition bucket_index (hash count : Z) : outcome Z :=
  if count =? 0 then Fault else Ret (hash mod count).

Definition HashTableFind (fuel : nat) (m : memory) (h : items) (t : HashTable) (keyPtr_ keyLen_ : Z)
  : outcome Z :=
  if itemCount t =? 0 then Ret 0
  else
    hash ← HashTableHash m keyPtr_ keyLen_;
    bucketID ← bucket_index hash (bucketCount t);
    bucket ← or_fault (zget (bucketData t) bucketID);
    HashTableFindFromBucket fuel m h bucket keyPtr_ keyLen_.

(** ** Resizing *)

(** MemVirtualZAlloc and MemVirtualFree, as the table uses them. *)
Class BucketMemory (S : Type) := {
  bm_zalloc : Z -> S -> outcome (Z * S);
  bm_free : Z -> S -> outcome S
}.

(** The virtual allocator provides it. *)
#[export] Instance vmalloc_buckets {S} {PS : PageSource S} (fuel : nat) : BucketMemory (vtable * S) := {|
  bm_zalloc bytes s := '(p, v, s') ← MemVirtualZAlloc fuel bytes (fst s) (snd s); Ret (p, (v, s'));
  bm_free p s := MemVirtualFree p (fst s) (snd s)
|}.

(** while(currItem): move the items of one old bucket to the new buckets. *)
Fixpoint rehash_chain (fuel : nat) (newSize : Z) (h : items) (data : list Z) (currItem : Z)
  : outcome (items * list Z) :=
  if currItem =? 0 then Ret (h, data)
  else match fuel with
  | O => NoFuel
  | S f =>
      it ← or_fault (h !! currItem);
      let nextItem := hnext it in
      let bucketID := hashValue it mod newSize in
      old ← or_fault (zget data bucketID);
      rehash_chain f newSize (<[currItem := set_hnext it old]> h) (zset data bucketID currItem) nextItem
  end.

(** for(i = 0; i < table->bucketCount; i++): [k] buckets are left. *)
Fixpoint rehash_loop (k fuel : nat) (newSize : Z) (old : list Z) (i : Z) (h : items) (data : list Z)
  : outcome (items * list Z) :=
  match k with
  | O => Ret (h, data)
  | S k' =>
      currItem ← or_fault (zget old i);
      '(h1, data1) ← rehash_chain fuel newSize h data currItem;
      rehash_loop k' fuel newSize old (i + 1) h1 data1
  end.

(** The words of a fresh zeroed array of [bytes] bytes at [p]; nothing at NULL. *)
Definition fresh_buckets (p bytes : Z) : list Z :=
  if p =? 0 then [] else replicate (Z.to_nat (bytes / 4)) 0.

Section WithMemory.
Context {S : Type} {BM : BucketMemory S}.

Definition HashTableResize (fuel : nat) (h : items) (t : HashTable) (newSize : Z) (s : S)
  : outcome (items * HashTable * S) :=
  if newSize =? 0 then Ret (h, t, s)
  else
    let bytes := u32 (4 * newSize) in
    '(p, s1) ← bm_zalloc bytes s;
    '(h1, data) ← rehash_loop (Z.to_nat (bucketCount t)) fuel newSize (bucketData t) 0 h (fresh_buckets p bytes);
    s2 ← (if buckets t =? 0 then Ret s1 else bm_free (buckets t) s1);
    Ret (h1, mkHashTable p data newSize (itemCount t), s2).

(** ** Insertion *)

Definition HashTableInsert (fuel : nat) (m : memory) (h : items) (t : HashTable)
    (item keyPtr_ keyLen_ : Z) (s : S) : outcome (bool * items * HashTable * S) :=
  it0 ← or_fault (h !! item);
  hash ← HashTableHash m keyPtr_ keyLen_;
  let h1 := <[item := mkHashItem keyPtr_ keyLen_ hash (hnext it0)]> h in
  '(h2, t2, s2) ←
    (if HashTableGrowCheck t (u32 (itemCount t + 1)) then
       if bucketCount t =? 0 then HashTableResize fuel h1 t HASH_INITIAL_SIZE s
       else HashTableResize fuel h1 t (u32 (bucketCount t * 2)) s
     else Ret (h1, t, s));
  bucketID ← bucket_index hash (bucketCount t2);
  bucket ← or_fault (zget (bucketData t2) bucketID);
  found ← HashTableFindFromBucket fuel m h2 bucket keyPtr_ keyLen_;
  if negb (found =? 0) then Ret (false, h2, t2, s2)
  else
    it ← or_fault (h2 !! item);
    Ret (true, <[item := set_hnext it bucket]> h2,
         mkHashTable (buckets t2) (zset (bucketData t2) bucketID item) (bucketCount t2)
           (u32 (itemCount t2 + 1)), s2).

(** ** Reserving and shrinking *)

(** while(currSize < count) currSize *= 2; *)
Fixpoint reserve_size (fuel : nat) (currSize count : Z) : outcome Z :=
  if currSize <? count then
    match fuel with O => NoFuel | Datatypes.S f => reserve_size f (u32 (currSize * 2)) count end
  else Ret currSize.

Definition HashTableReserve (fuel : nat) (h : items) (t : HashTable) (count : Z) (s : S)
  : outcome (items * HashTable * S) :=
  let count := if 0x40000000 <? count then 0x40000000 else count in
  if HashTableGrowCheck t count then
    currSize ← reserve_size fuel (bucketCount t) count;
    HashTableResize fuel h t currSize s
  else Ret (h, t, s).

(** while(currSize > shrinkThreshold) currSize /= 2; *)
Fixpoint shrink_size (fuel : nat) (currSize threshold : Z) : outcome Z :=
  if threshold <? currSize then
    match fuel with O => NoFuel | Datatypes.S f => shrink_size f (currSize / 2) threshold end
  else Ret currSize.

Definition HashTableShrink (fuel : nat) (h : items) (t : HashTable) (s : S)
  : outcome (items * HashTable * S) :=
  let shrinkThreshold := u32 (bucketCount t * HASH_THRESHOLD_SHRINK) / HASH_THRESHOLD_REF in
  if bucketCount t <? shrinkThreshold then
    currSize ← shrink_size fuel (bucketCount t) shrinkThreshold;
    if negb (currSize =? 0) then HashTableResize fuel h t currSize s else Ret (h, t, s)
  else Ret (h, t, s).
End WithMemory.

(** ** Removal *)

(** while(currItem): [prevItem] is the item whose [next] field [currItemPtr]
    points to, 0 when it points to the bucket itself. [item] is 0 (NULL) when
    the item is looked up by key. *)
Fixpoint remove_loop (fuel : nat) (m : memory) (h : items) (t : HashTable) (bucketID prevItem currItem : Z)
    (item keyPtr_ keyLen_ : Z) : outcome (bool * items * HashTable) :=
  if currItem =? 0 then Ret (false, h, t)
  else match fuel with
  | O => NoFuel
  | S f =>
      it ← or_fault (h !! currItem);
      hit ← (if currItem =? item then Ret true
             else if item =? 0 then HashTableKeyCompare m (keyPtr it) keyPtr_ (keyLen it) keyLen_
             else Ret false);
      if (hit : bool) then
        '(h1, data1) ←
          (if prevItem =? 0 then Ret (h, zset (bucketData t) bucketID (hnext it))
           else pit ← or_fault (h !! prevItem);
                Ret (<[prevItem := set_hnext pit (hnext it)]> h, bucketData t));
        it1 ← or_fault (h1 !! currItem);
        Ret (true, <[currItem := set_hnext it1 0]> h1,
             mkHashTable (buckets t) data1 (bucketCount t) (u32 (itemCount t - 1)))
      else remove_loop f m h t bucketID currItem (hnext it) item keyPtr_ keyLen_
  end.

Definition HashTableRemoveKeyItem (fuel : nat) (m : memory) (h : items) (t : HashTable)
    (item keyPtr_ keyLen_ : Z) : outcome (bool * items * HashTable) :=
  if itemCount t =? 0 then Ret (false, h, t)
  else
    hash ← (if item =? 0 then HashTableHash m keyPtr_ keyLen_
            else it ← or_fault (h !! item); Ret (hashValue it));
    bucketID ← bucket_index hash (bucketCount t);
    currItem ← or_fault (zget (bucketData t) bucketID);
    remove_loop fuel m h t bucketID 0 currItem item keyPtr_ keyLen_.

Definition HashTableRemove (fuel : nat) (m : memory) (h : items) (t : HashTable) (keyPtr_ keyLen_ : Z)
  : outcome (bool * items * HashTable) :=
  HashTableRemoveKeyItem fuel m h t 0 keyPtr_ keyLen_.

Definition HashTableRemoveItem (fuel : nat) (m : memory) (h : items) (t : HashTable) (item : Z)
  : outcome (bool * items * HashTable) :=
  it ← or_fault (h !! item);
  HashTableRemoveKeyItem fuel m h t item (keyPtr it) (keyLen it).

(** ** What a table denotes *)

(** [chain h p xs]: the bucket that starts at [p] holds the items [xs]. *)
Fixpoint chain (h : items) (p : Z) (xs : list Z) : Prop :=
  match xs with
  | [] => p = 0
  | x :: xs' => p = x /\ x <> 0 /\ exists it, h !! x = Some it /\ chain h (hnext it) xs'
  end.

Definition key_at (m : memory) (h : items) (p : Z) : option (list Z) :=
  it ← h !! p; bytes_at m (keyPtr it) (Z.to_nat (keyLen it)).

(** FNV over the bytes of a key, as the code computes it. *)
Definition hash_bytes (k : list Z) : Z :=
  foldl (fun hash c => u32 (u32 (Z.lxor hash (u32 (s8 c))) * 16777619)) 2166136261 k.

(** A stored item: its key is readable and its cached hash is the key's. *)
Definition item_ok (m : memory) (h : items) (p : Z) : Prop :=
  exists it k, h !! p = Some it /\ 0 <= keyLen it /\
    bytes_at m (keyPtr it) (Z.to_nat (keyLen it)) = Some k /\ hashValue it = hash_bytes k.

Definition buckets_ok (h : items) (n : Z) (bs : list (list Z)) : Prop :=
  forall i xs p, bs !! i = Some xs -> p ∈ xs ->
    exists it, h !! p = Some it /\ Z.to_nat (hashValue it mod n) = i.

(** The bucket array [data] of [n] buckets holds the items [bs], which are the
    bindings of the finite map [M] from keys to items. *)
Definition ht_rep (m : memory) (h : items) (data : list Z) (n : Z) (bs : list (list Z))
    (M : gmap (list Z) Z) : Prop :=
  length bs = Z.to_nat n /\ Forall2 (chain h) data bs /\ NoDup (concat bs) /\
  buckets_ok h n bs /\ (forall p, p ∈ concat bs -> item_ok m h p) /\
  (forall k p, M !! k = Some p <-> p ∈ concat bs /\ key_at m h p = Some k).

(** The table as a finite map from keys to items. *)
Definition ht_ok (m : memory) (h : items) (t : HashTable) (M : gmap (list Z) Z) : Prop :=
  exists bs, ht_rep m h (bucketData t) (bucketCount t) bs M /\
    itemCount t = Z.of_nat (length (concat bs)) /\ 0 <= bucketCount t < 4294967296 /\
    itemCount t < 4294967295.

Definition mem_ok (m : memory) : Prop := forall a b, m !! a = Some b -> 0 <= b < 256.

(** [k] is the key at address [p] of length [n]. *)
Definition is_key (m : memory) (p n : Z) (k : list Z) : Prop :=
  0 <= n /\ bytes_at m p (Z.to_nat n) = Some k.

(** ** Keys *)

Lemma bytes_at_length m p n k : bytes_at m p n = Some k -> length k = n.
Proof.
  revert p k. induction n as [|n IH]; intros p k; simpl; [by intros [= <-]|].
  intros (b & _ & (bs & Hbs & [= <-])%bind_Some)%bind_Some. simpl. f_equal. eauto.
Qed.

Lemma hash_loop_spec n m p k hash :
  bytes_at m p n = Some k ->
  hash_loop n m p hash = Ret (foldl (fun hash c => u32 (u32 (Z.lxor hash (u32 (s8 c))) * 16777619)) hash k).
Proof.
  revert p k hash. induction n as [|n IH]; intros p k hash; simpl; [by intros [= <-]|].
  intros (b & Hb & (bs & Hbs & [= <-])%bind_Some)%bind_Some. unfold loadc, load8.
  rewrite Hb. simpl. by apply IH.
Qed.

Lemma HashTableHash_spec m p n k : is_key m p n k -> HashTableHash m p n = Ret (hash_bytes k).
Proof. intros [_ H]. unfold HashTableHash. by apply hash_loop_spec. Qed.

Lemma KeyCompare_spec m p1 n1 k1 p2 n2 k2 :
  mem_ok m -> is_key m p1 n1 k1 -> is_key m p2 n2 k2 ->
  HashTableKeyCompare m p1 p2 n1 n2 = Ret (bool_decide (k1 = k2)).
Proof.
  intros Hm [H1 Hk1] [H2 Hk2]. unfold HashTableKeyCompare.
  destruct (Z.eqb_spec n1 n2) as [->|Hne].
  - unfold memcmp. destruct (memcmp_loop_spec _ _ _ _ _ _ Hk1 Hk2 Hm) as (r & -> & Hr). simpl.
    f_equal. destruct (Z.eqb_spec r 0); case_bool_decide; tauto.
  - rewrite bool_decide_eq_false_2; [done|]. intros ->.
    apply bytes_at_length in Hk1, Hk2. lia.
Qed.

Lemma item_ok_key m h p : item_ok m h p -> exists it k, h !! p = Some it /\
  is_key m (keyPtr it) (keyLen it) k /\ key_at m h p = Some k /\ hashValue it = hash_bytes k.
Proof.
  intros (it & k & Hp & Hl & Hk & Hh). exists it, k. unfold is_key, key_at. rewrite Hp. simpl. eauto.
Qed.

(** ** Chains *)

Lemma chain_frame h h' p xs : chain h p xs -> (forall x, x ∈ xs -> h' !! x = h !! x) -> chain h' p xs.
Proof.
  revert p. induction xs as [|x xs IH]; intros p; simpl; [done|].
  intros (-> & H0 & it & Hit & Hc) Hf. split_and!; [done|done|]. exists it.
  rewrite Hf by set_solver. split; [done|]. apply IH; [done|]. intros y Hy. apply Hf. set_solver.
Qed.

Lemma chain_nonnull h p xs x : chain h p xs -> x ∈ xs -> x <> 0.
Proof.
  revert p. induction xs as [|y xs IH]; intros p; simpl; [set_solver|].
  intros (-> & H0 & it & _ & Hc) [->|Hx]%elem_of_cons; eauto.
Qed.

Lemma chain_alloc h p xs x : chain h p xs -> x ∈ xs -> is_Some (h !! x).
Proof.
  revert p. induction xs as [|y xs IH]; intros p; simpl; [set_solver|].
  intros (-> & H0 & it & Hit & Hc) [->|Hx]%elem_of_cons; eauto.
Qed.

Lemma elem_of_concat (bs : list (list Z)) x : x ∈ concat bs <-> exists i xs, bs !! i = Some xs /\ x ∈ xs.
Proof.
  rewrite list_elem_of_In, in_concat. split.
  - intros (xs & Hxs & Hx). apply list_elem_of_In, list_elem_of_lookup in Hxs as [i Hi].
    exists i, xs. by rewrite list_elem_of_In.
  - intros (i & xs & Hi & Hx). exists xs. rewrite <- !list_elem_of_In. split; [|done].
    by eapply list_elem_of_lookup_2.
Qed.

Lemma bucket_length (bs : list (list Z)) i xs : bs !! i = Some xs -> (length xs <= length (concat bs))%nat.
Proof.
  revert i. induction bs as [|ys bs IH]; intros [|i]; simpl; [done..| |].
  - intros [= <-]. rewrite length_app. lia.
  - intros Hi. rewrite length_app. specialize (IH i Hi). lia.
Qed.

Lemma FindFromBucket_spec fuel m h p xs kp kl k :
  mem_ok m -> is_key m kp kl k -> chain h p xs -> (forall x, x ∈ xs -> item_ok m h x) ->
  (length xs <= fuel)%nat ->
  exists r, HashTableFindFromBucket fuel m h p kp kl = Ret r /\
    ((r <> 0 /\ r ∈ xs /\ key_at m h r = Some k) \/ (r = 0 /\ forall x, x ∈ xs -> key_at m h x <> Some k)).
Proof.
  intros Hm Hk. revert p xs. induction fuel as [|fuel IH]; intros p xs Hc Hok Hf.
  - destruct xs; [|simpl in Hf; lia]. simpl in Hc. subst. exists 0. simpl. split; [done|]. right. set_solver.
  - destruct xs as [|x xs]; simpl in Hc.
    { subst. exists 0. simpl. split; [done|]. right. set_solver. }
    destruct Hc as (-> & H0 & it & Hit & Hc). simpl. destruct (Z.eqb_spec x 0); [done|].
    destruct (item_ok_key m h x) as (it' & k' & Hit' & Hk' & Hka & _); [apply Hok; set_solver|].
    rewrite Hit in Hit'. simplify_eq. rewrite Hit. simpl.
    rewrite (KeyCompare_spec _ _ _ _ _ _ _ Hm Hk' Hk). simpl. case_bool_decide as E.
    + subst. exists x. split; [done|]. left. set_solver.
    + destruct (IH (hnext it') xs) as (r & -> & Hr); [done|set_solver|simpl in Hf; lia|].
      exists r. split; [done|]. destruct Hr as [(? & ? & ?)|(? & Hr)]; [left; set_solver|right].
      split; [done|]. intros y [->|Hy]%elem_of_cons; [congruence|by apply Hr].
Qed.

Lemma Forall2_zget h (data : list Z) bs i p :
  Forall2 (chain h) data bs -> zget data i = Some p ->
  exists xs, bs !! Z.to_nat i = Some xs /\ chain h p xs.
Proof.
  intros HF Hp. unfold zget in Hp. destruct (i <? 0); [done|]. by eapply Forall2_lookup_l.
Qed.

Lemma rep_bucket m h data n bs M b :
  ht_rep m h data n bs M -> 0 <= b < n ->
  exists p xs, zget data b = Some p /\ bs !! Z.to_nat b = Some xs /\ chain h p xs.
Proof.
  intros (Hlen & HF & _) Hb. pose proof (Forall2_length _ _ _ HF) as Hl.
  destruct (zget_in_range data b) as [p Hp]; [unfold zlen; lia|].
  destruct (Forall2_zget _ _ _ _ _ HF Hp) as (xs & Hxs & Hc). eauto 10.
Qed.

Lemma rep_nonnull m h data n bs M p : ht_rep m h data n bs M -> p ∈ concat bs -> p <> 0.
Proof.
  intros (_ & HF & _) (i & xs & Hi & Hx)%elem_of_concat.
  destruct (Forall2_lookup_r _ _ _ _ _ HF Hi) as (q & _ & Hc). by eapply chain_nonnull.
Qed.

(** The items with key [k] are in the bucket of [k]. *)
Lemma rep_key_bucket m h data n bs M p k :
  ht_rep m h data n bs M -> p ∈ concat bs -> key_at m h p = Some k ->
  exists xs, bs !! Z.to_nat (hash_bytes k mod n) = Some xs /\ p ∈ xs.
Proof.
  intros (_ & _ & _ & Hb & Hok & _) Hp Hk. pose proof Hp as (i & xs & Hi & Hx)%elem_of_concat.
  destruct (Hb i xs p Hi Hx) as (it & Hit & Hidx).
  destruct (item_ok_key m h p (Hok p Hp)) as (it' & k' & Hit' & _ & Hka & Hh).
  rewrite Hit in Hit'. simplify_eq. exists xs. rewrite <- Hh. done.
Qed.

Lemma find_in_rep fuel m h data n bs M kp kl k :
  mem_ok m -> ht_rep m h data n bs M -> is_key m kp kl k -> 0 < n -> (length (concat bs) <= fuel)%nat ->
  exists p, zget data (hash_bytes k mod n) = Some p /\
    HashTableFindFromBucket fuel m h p kp kl = Ret (default 0 (M !! k)).
Proof.
  intros Hm Hrep Hk Hn Hf.
  destruct (rep_bucket _ _ _ _ _ _ (hash_bytes k mod n) Hrep) as (p & xs & Hp & Hxs & Hc); [zlia|].
  exists p. split; [done|]. pose proof Hrep as (_ & _ & _ & _ & Hok & HM).
  assert (forall x, x ∈ xs -> x ∈ concat bs) as Hin by (intros x Hx; apply elem_of_concat; eauto).
  destruct (FindFromBucket_spec fuel m h p xs kp kl k Hm Hk Hc) as (r & -> & Hr).
  - auto.
  - pose proof (bucket_length _ _ _ Hxs). lia.
  - f_equal. destruct Hr as [(H0 & Hx & Hka)|(-> & Hno)].
    + assert (M !! k = Some r) as -> by (apply HM; eauto). done.
    + destruct (M !! k) as [q|] eqn:E; [|done]. exfalso. apply HM in E as [Hq Hqk].
      destruct (rep_key_bucket _ _ _ _ _ _ _ _ Hrep Hq Hqk) as (ys & Hys & Hqy).
      rewrite Hxs in Hys. simplify_eq. by apply (Hno q).
Qed.

(** ** Rehashing *)

Definition fields (it : HashItem) : Z * Z * Z := (keyPtr it, keyLen it, hashValue it).

(** Only [next] fields differ. *)
Definition same_fields (h h' : items) : Prop := forall q, fields <$> h' !! q = fields <$> h !! q.

Lemma same_fields_refl h : same_fields h h.
Proof. done. Qed.

Lemma same_fields_trans h1 h2 h3 : same_fields h1 h2 -> same_fields h2 h3 -> same_fields h1 h3.
Proof. intros H1 H2 q. by rewrite H2, H1. Qed.

Lemma same_fields_set h p it n : h !! p = Some it -> same_fields h (<[p := set_hnext it n]> h).
Proof. intros Hp q. destruct (decide (q = p)) as [->|]; simplify_map_eq; by rewrite ?Hp. Qed.

Lemma same_fields_lookup h h' p it :
  same_fields h h' -> h !! p = Some it -> exists it', h' !! p = Some it' /\ fields it' = fields it.
Proof.
  intros Hs Hp. specialize (Hs p). rewrite Hp in Hs. simpl in Hs.
  apply fmap_Some in Hs as (it' & H1 & H2). eauto.
Qed.

Lemma same_fields_key m h h' p : same_fields h h' -> key_at m h' p = key_at m h p.
Proof.
  intros Hs. specialize (Hs p). unfold key_at.
  destruct (h' !! p) as [[]|], (h !! p) as [[]|]; simpl in *; unfold fields in Hs; simpl in Hs; by simplify_eq.
Qed.

Lemma same_fields_item_ok m h h' p : same_fields h h' -> item_ok m h p -> item_ok m h' p.
Proof.
  intros Hs (it & k & Hp & Hl & Hk & Hh). destruct (same_fields_lookup _ _ _ _ Hs Hp) as (it' & Hp' & E).
  unfold fields in E. injection E as E1 E2 E3. exists it', k. by rewrite E1, E2, E3.
Qed.

Lemma same_fields_buckets h h' n bs : same_fields h h' -> buckets_ok h n bs -> buckets_ok h' n bs.
Proof.
  intros Hs Hb i xs p Hi Hp. destruct (Hb i xs p Hi Hp) as (it & Hit & Hx).
  destruct (same_fields_lookup _ _ _ _ Hs Hit) as (it' & Hit' & E).
  unfold fields in E. injection E as E1 E2 E3. exists it'. by rewrite E3.
Qed.

Lemma concat_insert_cons (bs : list (list Z)) i xs x :
  bs !! i = Some xs -> concat (<[i := x :: xs]> bs) ≡ₚ x :: concat bs.
Proof.
  revert i. induction bs as [|ys bs IH]; intros [|i]; simpl; [done..| |].
  - intros [= ->]. done.
  - intros Hi. rewrite (IH i Hi). by rewrite Permutation_middle.
Qed.

Lemma concat_elem_unique (bs : list (list Z)) i j xs ys x :
  NoDup (concat bs) -> bs !! i = Some xs -> bs !! j = Some ys -> x ∈ xs -> x ∈ ys -> i = j.
Proof.
  revert i j. induction bs as [|zs bs IH]; intros [|i] [|j] Hnd; simpl in *; try done.
  - intros [= <-] Hj Hx Hy. apply NoDup_app in Hnd as (_ & Hd & _). exfalso.
    apply (Hd x Hx), elem_of_concat. eauto.
  - intros Hi [= <-] Hx Hy. apply NoDup_app in Hnd as (_ & Hd & _). exfalso.
    apply (Hd x Hy), elem_of_concat. eauto.
  - intros Hi Hj Hx Hy. apply NoDup_app in Hnd as (_ & _ & Hnd). f_equal. by eapply IH.
Qed.

(** Linking an item in front of a bucket. *)
Lemma push_front h data bs n p it b old ys :
  Forall2 (chain h) data bs -> NoDup (concat bs) -> buckets_ok h n bs ->
  p ∉ concat bs -> p <> 0 -> h !! p = Some it ->
  zget data b = Some old -> bs !! Z.to_nat b = Some ys ->
  Z.to_nat (hashValue it mod n) = Z.to_nat b ->
  let h1 := <[p := set_hnext it old]> h in
  let bs1 := <[Z.to_nat b := p :: ys]> bs in
  Forall2 (chain h1) (zset data b p) bs1 /\ NoDup (concat bs1) /\
  concat bs1 ≡ₚ p :: concat bs /\ buckets_ok h1 n bs1.
Proof.
  intros HF Hnd Hb Hp H0 Hit Hold Hys Hidx h1 bs1.
  assert (concat bs1 ≡ₚ p :: concat bs) as Hperm by (by apply concat_insert_cons).
  assert (forall i xs, bs !! i = Some xs -> p ∉ xs) as Hnotin.
  { intros i xs Hi Hx. apply Hp, elem_of_concat. eauto. }
  pose proof (same_fields_set h p it old Hit) as Hsf. split_and!.
  - unfold zset. unfold zget in Hold. destruct (b <? 0); [done|]. apply Forall2_insert.
    + apply Forall2_same_length_lookup_2; [by eapply Forall2_length|].
      intros i q xs Hq Hxs. pose proof (Forall2_lookup_lr _ _ _ _ _ _ HF Hq Hxs) as Hc.
      eapply chain_frame; [done|]. intros y Hy. unfold h1. apply lookup_insert_ne.
      intros ->. by apply (Hnotin i xs).
    + simpl. split_and!; [done|done|]. exists (set_hnext it old). unfold h1.
      rewrite lookup_insert_eq. split; [done|]. simpl.
      pose proof (Forall2_lookup_lr _ _ _ _ _ _ HF Hold Hys) as Hc.
      eapply chain_frame; [done|]. intros y Hy. apply lookup_insert_ne.
      intros ->. by apply (Hnotin _ _ Hys).
  - rewrite Hperm. by apply NoDup_cons.
  - done.
  - intros i xs q Hi Hq. unfold bs1 in Hi. destruct (decide (i = Z.to_nat b)) as [->|Hne].
    + rewrite list_lookup_insert_eq in Hi by (by eapply lookup_lt_Some). simplify_eq.
      apply elem_of_cons in Hq as [->|Hq].
      * exists (set_hnext it old). unfold h1. by rewrite lookup_insert_eq.
      * by apply (same_fields_buckets _ _ _ _ Hsf Hb _ ys).
    + rewrite list_lookup_insert_ne in Hi by done. by apply (same_fields_buckets _ _ _ _ Hsf Hb _ xs).
Qed.

Lemma rehash_chain_spec fuel n xs h data bs p :
  chain h p xs -> Forall2 (chain h) data bs -> NoDup (xs ++ concat bs) -> buckets_ok h n bs ->
  zlen data = n -> 0 < n -> (length xs <= fuel)%nat ->
  exists h' data' bs', rehash_chain fuel n h data p = Ret (h', data') /\
    Forall2 (chain h') data' bs' /\ concat bs' ≡ₚ xs ++ concat bs /\ buckets_ok h' n bs' /\
    zlen data' = n /\ same_fields h h' /\ (forall q, q ∉ xs -> h' !! q = h !! q).
Proof.
  revert xs h data bs p. induction fuel as [|fuel IH]; intros xs h data bs p Hc HF Hnd Hb Hlen Hn Hf.
  - destruct xs; [|simpl in Hf; lia]. simpl in Hc. subst p. exists h, data, bs. simpl. split_and!; done.
  - destruct xs as [|x xs].
    { simpl in Hc. subst p. exists h, data, bs. simpl. split_and!; done. }
    destruct Hc as (-> & H0 & it & Hit & Hc). cbn [rehash_chain].
    destruct (Z.eqb_spec x 0); [done|]. rewrite Hit. simpl.
    destruct (zget_in_range data (hashValue it mod n)) as [old Hold]; [zlia|]. rewrite Hold. simpl.
    destruct (Forall2_zget _ _ _ _ _ HF Hold) as (ys & Hys & Hcy).
    simpl in Hnd. apply NoDup_cons in Hnd as [Hx Hnd]. pose proof Hnd as (Hnx & Hd & Hnb)%NoDup_app.
    destruct (push_front h data bs n x it (hashValue it mod n) old ys) as (HF1 & Hnd1 & Hperm & Hb1);
      [done|done|done|set_solver|done..|].
    set (h1 := <[x := set_hnext it old]> h) in *.
    set (bs1 := <[Z.to_nat (hashValue it mod n) := x :: ys]> bs) in *.
    destruct (IH xs h1 (zset data (hashValue it mod n) x) bs1 (hnext it)) as
      (h' & data' & bs' & E & HF' & Hp' & Hb' & Hl' & Hs' & Hfr); [|exact HF1|..].
    + eapply chain_frame; [done|]. intros y Hy. unfold h1. apply lookup_insert_ne. set_solver.
    + rewrite Hperm, <- Permutation_middle. by apply NoDup_cons.
    + done.
    + by rewrite zlen_zset.
    + done.
    + simpl in Hf; lia.
    + exists h', data', bs'. split_and!; [done|done| |done|done| |].
      * rewrite Hp', Hperm. simpl. by rewrite Permutation_middle.
      * eapply same_fields_trans; [by apply same_fields_set|done].
      * intros q Hq. rewrite Hfr by set_solver. unfold h1. apply lookup_insert_ne. set_solver.
Qed.

Lemma rehash_loop_spec k fuel n old i oss h data bs :
  0 <= i -> Z.of_nat k = zlen old - i -> Forall2 (chain h) (drop (Z.to_nat i) old) oss ->
  Forall2 (chain h) data bs -> NoDup (concat oss ++ concat bs) -> buckets_ok h n bs ->
  zlen data = n -> 0 < n -> (length (concat oss) <= fuel)%nat ->
  exists h' data' bs', rehash_loop k fuel n old i h data = Ret (h', data') /\
    Forall2 (chain h') data' bs' /\ concat bs' ≡ₚ concat oss ++ concat bs /\ buckets_ok h' n bs' /\
    zlen data' = n /\ same_fields h h'.
Proof.
  revert i oss h data bs. induction k as [|k IH]; intros i oss h data bs Hi Hk Ho HF Hnd Hb Hlen Hn Hf.
  - rewrite drop_ge in Ho by (unfold zlen in *; lia). apply Forall2_nil_inv_l in Ho as ->.
    exists h, data, bs. simpl. split_and!; done.
  - destruct (zget_in_range old i) as [p Hp]; [lia|]. cbn [rehash_loop]. rewrite Hp. simpl.
    assert (drop (Z.to_nat i) old = p :: drop (Z.to_nat (i + 1)) old) as Hdrop.
    { unfold zget in Hp. destruct (Z.ltb_spec i 0); [lia|]. rewrite (drop_S _ _ _ Hp).
      do 2 f_equal. lia. }
    rewrite Hdrop in Ho. apply Forall2_cons_inv_l in Ho as (xs & oss' & Hc & Ho & ->). simpl in *.
    rewrite <- app_assoc in Hnd. rewrite length_app in Hf.
    pose proof Hnd as (Hndx & Hdx & Hnd')%NoDup_app.
    destruct (rehash_chain_spec fuel n xs h data bs p) as (h1 & data1 & bs1 & E1 & HF1 & Hp1 & Hb1 & Hl1 & Hs1 & Hfr1);
      [done|done| |done|done|done|lia|].
    { apply NoDup_app. pose proof Hnd' as (_ & _ & ?)%NoDup_app. split_and!; [done| |done].
      intros y Hy. specialize (Hdx y Hy). set_solver. }
    rewrite E1. simpl. destruct (IH (i + 1) oss' h1 data1 bs1) as (h' & data' & bs' & E & HF' & Hp' & Hb' & Hl' & Hs').
    + lia.
    + lia.
    + apply Forall2_same_length_lookup_2; [by eapply Forall2_length|].
      intros j q ys Hq Hys. pose proof (Forall2_lookup_lr _ _ _ _ _ _ Ho Hq Hys) as Hcq.
      eapply chain_frame; [done|]. intros y Hy. apply Hfr1. intros Hyx.
      apply (Hdx y Hyx), elem_of_app. left. apply elem_of_concat. eauto.
    + done.
    + rewrite Hp1, (Permutation_app_comm xs), app_assoc, Permutation_app_comm. done.
    + done.
    + done.
    + done.
    + lia.
    + exists h', data', bs'. split_and!; [done|done| |done|done|by eapply same_fields_trans].
      rewrite Hp', Hp1. rewrite !app_assoc. by rewrite (Permutation_app_comm (concat oss')).
Qed.

(** ** Whole-table lemmas *)

Lemma ht_ok_member m h t M bs p :
  ht_rep m h (bucketData t) (bucketCount t) bs M -> p ∈ concat bs -> exists k, M !! k = Some p.
Proof.
  intros (_ & _ & _ & _ & Hok & HM) Hp. destruct (item_ok_key m h p (Hok p Hp)) as (it & k & _ & _ & Hk & _).
  exists k. apply HM. done.
Qed.

(** Changing an item that is not in the table. *)
Lemma ht_rep_frame m h data n bs M x it :
  ht_rep m h data n bs M -> x ∉ concat bs -> ht_rep m (<[x := it]> h) data n bs M.
Proof.
  intros (Hl & HF & Hnd & Hb & Hok & HM) Hx.
  assert (forall q, q ∈ concat bs -> (<[x := it]> h) !! q = h !! q) as Hfr.
  { intros q Hq. apply lookup_insert_ne. intros ->. done. }
  split_and!; [done| |done| | |].
  - apply Forall2_same_length_lookup_2; [by eapply Forall2_length|].
    intros i p xs Hp Hxs. eapply chain_frame; [by eapply Forall2_lookup_lr|].
    intros y Hy. apply Hfr, elem_of_concat. eauto.
  - intros i xs p Hi Hp. rewrite Hfr by (apply elem_of_concat; eauto). by eapply Hb.
  - intros p Hp. destruct (Hok p Hp) as (it' & k & H1 & H2). exists it', k. by rewrite Hfr.
  - intros k p. rewrite HM. unfold key_at. split; intros [Hp Hk]; (split; [done|]);
      rewrite Hfr in *; done.
Qed.

(** The same bindings in different buckets. *)
Lemma ht_rep_rehash m h h' data n data' n' bs bs' M :
  ht_rep m h data n bs M -> same_fields h h' -> concat bs' ≡ₚ concat bs ->
  Forall2 (chain h') data' bs' -> buckets_ok h' n' bs' -> zlen data' = n' ->
  ht_rep m h' data' n' bs' M.
Proof.
  intros (Hl & HF & Hnd & Hb & Hok & HM) Hs Hperm HF' Hb' Hlen.
  split_and!; [|done|by rewrite Hperm|done| |].
  - rewrite <- (Forall2_length _ _ _ HF'). unfold zlen in Hlen. lia.
  - intros p Hp. rewrite Hperm in Hp. eapply same_fields_item_ok; [done|]. by apply Hok.
  - intros k p. rewrite Hperm, (same_fields_key m h h') by done. apply HM.
Qed.

Section WithMemoryProofs.
Context {S : Type} {BM : BucketMemory S}.

(** The allocator serves a resize to [n] buckets. *)
Definition resize_served (t : HashTable) (n : Z) (s : S) : Prop :=
  exists p s1, bm_zalloc (4 * n) s = Ret (p, s1) /\ p <> 0 /\
    (buckets t = 0 \/ exists s2, bm_free (buckets t) s1 = Ret s2).

Lemma Forall2_chain_empty h n : Forall2 (chain h) (replicate n 0) (replicate n []).
Proof. apply Forall2_replicate. done. Qed.

Lemma concat_replicate_nil n : concat (replicate n ([] : list Z)) = [].
Proof. induction n; done. Qed.

Lemma HashTableResize_spec fuel m h t M n s :
  ht_ok m h t M -> 0 < n < 1073741824 -> resize_served t n s -> itemCount t <= Z.of_nat fuel ->
  exists h' t' s', HashTableResize fuel h t n s = Ret (h', t', s') /\
    ht_ok m h' t' M /\ same_fields h h' /\ bucketCount t' = n /\ itemCount t' = itemCount t.
Proof.
  intros (bs & Hrep & Hic & Hbc & Hmax) Hn (p & s1 & Ha & Hp & Hfree) Hf. unfold HashTableResize.
  destruct (Z.eqb_spec n 0); [lia|].
  assert (u32 (4 * n) = 4 * n) as -> by (apply Z.mod_small; lia). rewrite Ha. simpl.
  unfold fresh_buckets. destruct (Z.eqb_spec p 0); [done|].
  replace (4 * n / 4) with n by zlia. pose proof Hrep as (Hl & HF & Hnd & Hb & Hok & HM).
  pose proof (Forall2_length _ _ _ HF) as HFl.
  destruct (rehash_loop_spec (Z.to_nat (bucketCount t)) fuel n (bucketData t) 0 bs h
              (replicate (Z.to_nat n) 0) (replicate (Z.to_nat n) []))
    as (h' & data' & bs' & E & HF' & Hp' & Hb' & Hl' & Hs').
  - lia.
  - unfold zlen. lia.
  - rewrite drop_0. done.
  - apply Forall2_chain_empty.
  - rewrite concat_replicate_nil, app_nil_r. done.
  - intros i xs q Hi Hq. apply lookup_replicate in Hi as [-> _]. set_solver.
  - rewrite zlen_replicate. lia.
  - lia.
  - lia.
  - rewrite E. simpl. rewrite concat_replicate_nil, app_nil_r in Hp'.
    assert (ht_ok m h' (mkHashTable p data' n (itemCount t)) M) as Hok'.
    { exists bs'. simpl. split_and!; [by eapply ht_rep_rehash| |lia|lia|lia].
      by rewrite Hic, (Permutation_length Hp'). }
    destruct (Z.eqb_spec (buckets t) 0) as [|Hbn].
    + simpl. eauto 10.
    + destruct Hfree as [|[s2 ->]]; [done|]. simpl. eauto 10.
Qed.

(** Insertion grows the table only within reach of the allocator. *)
Definition growth_served (t : HashTable) (s : S) : Prop :=
  HashTableGrowCheck t (itemCount t + 1) = true ->
  bucketCount t < 536870912 /\
  resize_served t (if bucketCount t =? 0 then HASH_INITIAL_SIZE else bucketCount t * 2) s.

(** The growth step of insertion leaves a table with at least one bucket. *)
Lemma insert_grow fuel m h t M s :
  ht_ok m h t M -> growth_served t s -> itemCount t <= Z.of_nat fuel ->
  exists h' t' s',
    (if HashTableGrowCheck t (u32 (itemCount t + 1)) then
       if bucketCount t =? 0 then HashTableResize fuel h t HASH_INITIAL_SIZE s
       else HashTableResize fuel h t (u32 (bucketCount t * 2)) s
     else Ret (h, t, s)) = Ret (h', t', s') /\
    ht_ok m h' t' M /\ same_fields h h' /\ 0 < bucketCount t' /\ itemCount t' = itemCount t.
Proof.
  intros Hok Hg Hf. pose proof Hok as (bs & _ & Hic & Hbc & Hmax).
  assert (u32 (itemCount t + 1) = itemCount t + 1) as -> by (apply Z.mod_small; lia).
  destruct (HashTableGrowCheck t (itemCount t + 1)) eqn:E.
  - destruct (Hg E) as [Hlim Hserve]. destruct (Z.eqb_spec (bucketCount t) 0) as [H0|H0].
    + destruct (HashTableResize_spec fuel m h t M HASH_INITIAL_SIZE s Hok) as (h' & t' & s' & -> & ? & ? & Hb' & ?);
        [unfold HASH_INITIAL_SIZE; lia|done|done|]. unfold HASH_INITIAL_SIZE in Hb'.
      exists h', t', s'. split_and!; done || lia.
    + assert (u32 (bucketCount t * 2) = bucketCount t * 2) as -> by (apply Z.mod_small; lia).
      destruct (HashTableResize_spec fuel m h t M (bucketCount t * 2) s Hok) as (h' & t' & s' & -> & ? & ? & Hb' & ?);
        [lia|done|done|]. exists h', t', s'. split_and!; done || lia.
  - exists h, t, s. split_and!; try done.
    unfold HashTableGrowCheck, HASH_THRESHOLD_GROW, HASH_THRESHOLD_REF in E. apply Z.ltb_ge in E.
    destruct (Z.eq_dec (bucketCount t) 0) as [H0|]; [|lia]. rewrite H0 in E.
    change (u32 (0 * 7) / 8) with 0 in E. lia.
Qed.
End WithMemoryProofs.

(** ** Unlinking *)

Lemma chain_split h p l x c :
  chain h p (l ++ x :: c) -> exists it, h !! x = Some it /\ x <> 0 /\ chain h (hnext it) c.
Proof.
  revert p. induction l as [|y l IH]; intros p; simpl.
  - intros (-> & H0 & it & Hit & Hc). eauto.
  - intros (-> & H0 & it & Hit & Hc). eauto.
Qed.

(** Redirecting the [next] field of the item before [x] past [x]. *)
Lemma chain_unlink h p l y x c ity itx :
  chain h p (l ++ y :: x :: c) -> NoDup (l ++ y :: x :: c) ->
  h !! y = Some ity -> h !! x = Some itx ->
  chain (<[y := set_hnext ity (hnext itx)]> h) p (l ++ y :: c).
Proof.
  revert p. induction l as [|z l IH]; intros p; simpl.
  - intros (-> & H0 & it & Hit & Heq & H1 & it' & Hit' & Hc) Hnd Hy Hx.
    rewrite Hit' in Hx. injection Hx as ->. clear it Hit Heq.
    split_and!; [done|done|]. exists (set_hnext ity (hnext itx)). rewrite lookup_insert_eq.
    split; [done|]. simpl. eapply chain_frame; [done|]. intros q Hq. apply lookup_insert_ne.
    intros ->. apply NoDup_cons in Hnd as [Hn _]. set_solver.
  - intros (-> & H0 & it & Hit & Hc) Hnd Hy Hx. apply NoDup_cons in Hnd as [Hz Hnd].
    split_and!; [done|done|]. exists it. rewrite lookup_insert_ne by set_solver. eauto.
Qed.

Lemma concat_insert_perm (bs : list (list Z)) i xs ys x :
  bs !! i = Some xs -> xs ≡ₚ x :: ys -> concat bs ≡ₚ x :: concat (<[i := ys]> bs).
Proof.
  revert i. induction bs as [|zs bs IH]; intros [|i]; simpl; [done..| |].
  - intros [= ->] ->. done.
  - intros Hi Hp. rewrite (IH i Hi Hp) at 1. by rewrite Permutation_middle.
Qed.

(** The state after the item between [l] and [c] of bucket [b] is unlinked. *)
Definition unlinked (h : items) (data : list Z) (b : Z) (l : list Z) (x : Z) (h2 : items) (data2 : list Z) : Prop :=
  exists itx, h !! x = Some itx /\
    match last l with
    | None => h2 = <[x := set_hnext itx 0]> h /\ data2 = zset data b (hnext itx)
    | Some y => exists ity, h !! y = Some ity /\
        h2 = <[x := set_hnext itx 0]> (<[y := set_hnext ity (hnext itx)]> h) /\ data2 = data
    end.

Lemma unlinked_same_fields h data b l x h2 data2 :
  unlinked h data b l x h2 data2 -> x ∉ l -> same_fields h h2.
Proof.
  intros (itx & Hx & H) Hxl. destruct (last l) as [y|] eqn:Hlast.
  - destruct H as (ity & Hy & -> & _). apply last_Some in Hlast as [l' ->].
    eapply same_fields_trans; [by apply same_fields_set|]. apply same_fields_set.
    rewrite lookup_insert_ne by set_solver. done.
  - destruct H as (-> & _). by apply same_fields_set.
Qed.

Lemma bucket_NoDup (bs : list (list Z)) i xs : NoDup (concat bs) -> bs !! i = Some xs -> NoDup xs.
Proof.
  revert i. induction bs as [|ys bs IH]; intros [|i]; simpl; [done..| |].
  - intros Hnd [= ->]. by apply NoDup_app in Hnd as (? & _).
  - intros Hnd Hi. apply NoDup_app in Hnd as (_ & _ & Hnd). by apply (IH i).
Qed.

(** The chains after an unlinking. *)
Lemma unlinked_chains h data bs b l x c h2 data2 :
  Forall2 (chain h) data bs -> NoDup (concat bs) -> 0 <= b ->
  bs !! Z.to_nat b = Some (l ++ x :: c) -> unlinked h data b l x h2 data2 ->
  Forall2 (chain h2) data2 (<[Z.to_nat b := l ++ c]> bs).
Proof.
  intros HF Hnd Hb0 Hbs (itx & Hx & Hun).
  pose proof (bucket_NoDup _ _ _ Hnd Hbs) as Hndb.
  destruct (Forall2_lookup_r _ _ _ _ _ HF Hbs) as (p & Hp & Hc).
  assert (forall j ys q, bs !! j = Some ys -> j <> Z.to_nat b -> q ∈ l ++ x :: c -> q ∉ ys) as Hdisj.
  { intros j ys q Hj Hne Hq Hqy. apply Hne. by eapply concat_elem_unique. }
  assert (x ∉ l ++ c) as Hxlc by (rewrite <- Permutation_middle in Hndb; by apply NoDup_cons in Hndb as [? _]).
  assert (forall j q ys, data !! j = Some q -> bs !! j = Some ys -> j <> Z.to_nat b -> chain h2 q ys) as Hother.
  { intros j q ys Hq Hys Hne. eapply chain_frame; [by eapply Forall2_lookup_lr|]. intros y Hy.
    assert (y ∉ l ++ x :: c) as Hy2 by (intros Hy2; by apply (Hdisj j ys y)).
    destruct (last l) as [z|] eqn:Hlast.
    - apply last_Some in Hlast as [l' ->]. destruct Hun as (ity & _ & -> & _).
      rewrite !lookup_insert_ne by set_solver. done.
    - destruct Hun as [-> _]. rewrite lookup_insert_ne by set_solver. done. }
  destruct (last l) as [y|] eqn:Hlast.
  - apply last_Some in Hlast as [l' ->]. destruct Hun as (ity & Hy & -> & ->).
    rewrite <- app_assoc in Hc, Hndb. simpl in *.
    pose proof (chain_unlink _ _ _ _ _ _ _ _ Hc Hndb Hy Hx) as Hc2.
    apply Forall2_same_length_lookup_2; [rewrite length_insert; by eapply Forall2_length|].
    intros j q ys Hq Hys. destruct (decide (j = Z.to_nat b)) as [->|Hne].
    + rewrite list_lookup_insert_eq in Hys by (by eapply lookup_lt_Some). simplify_eq.
      rewrite <- app_assoc. eapply chain_frame; [done|]. intros q Hq2. apply lookup_insert_ne. set_solver.
    + rewrite list_lookup_insert_ne in Hys by done. by eapply Hother.
  - destruct l; [|by rewrite last_cons in Hlast; destruct (last l)]. destruct Hun as [-> ->]. simpl in *.
    destruct Hc as (-> & H0 & it & Hit & Hc). simplify_eq. unfold zset.
    destruct (Z.ltb_spec b 0); [lia|].
    apply Forall2_same_length_lookup_2; [rewrite !length_insert; by eapply Forall2_length|].
    intros j q ys Hq Hys. destruct (decide (j = Z.to_nat b)) as [->|Hne].
    + rewrite list_lookup_insert_eq in Hq by (by eapply lookup_lt_Some).
      rewrite list_lookup_insert_eq in Hys by (by eapply lookup_lt_Some). simplify_eq.
      eapply chain_frame; [done|]. intros q Hq2. apply lookup_insert_ne. set_solver.
    + rewrite list_lookup_insert_ne in Hq by done. rewrite list_lookup_insert_ne in Hys by done. by eapply Hother.
Qed.

(** Unlinking an item removes its binding and nothing else. *)
Lemma ht_rep_unlink m h data n bs M b l x c k h2 data2 :
  ht_rep m h data n bs M -> bs !! Z.to_nat b = Some (l ++ x :: c) -> 0 <= b ->
  key_at m h x = Some k -> unlinked h data b l x h2 data2 ->
  ht_rep m h2 data2 n (<[Z.to_nat b := l ++ c]> bs) (delete k M) /\
  concat bs ≡ₚ x :: concat (<[Z.to_nat b := l ++ c]> bs).
Proof.
  intros (Hl & HF & Hnd & Hb & Hok & HM) Hbs Hb0 Hk Hun.
  assert (concat bs ≡ₚ x :: concat (<[Z.to_nat b := l ++ c]> bs)) as Hperm.
  { eapply concat_insert_perm; [done|]. by rewrite Permutation_middle. }
  split; [|done].
  pose proof Hnd as Hnd2. rewrite Hperm in Hnd2. apply NoDup_cons in Hnd2 as [Hx Hnd2].
  assert (same_fields h h2) as Hsf.
  { eapply unlinked_same_fields; [done|]. pose proof (bucket_NoDup _ _ _ Hnd Hbs) as Hn.
    apply NoDup_app in Hn as (_ & Hd & _). intros Hxl. apply (Hd x Hxl). set_solver. }
  split_and!.
  - by rewrite length_insert.
  - by eapply unlinked_chains.
  - done.
  - eapply same_fields_buckets; [done|]. intros i xs q Hi Hq.
    destruct (decide (i = Z.to_nat b)) as [->|Hne].
    + rewrite list_lookup_insert_eq in Hi by (by eapply lookup_lt_Some). simplify_eq.
      eapply Hb; [done|]. set_solver.
    + rewrite list_lookup_insert_ne in Hi by done. by eapply Hb.
  - intros q Hq. eapply same_fields_item_ok; [done|]. apply Hok. rewrite Hperm. set_solver.
  - intros k' q. rewrite (same_fields_key m h h2) by done. rewrite lookup_delete_Some, HM, Hperm.
    rewrite elem_of_cons. split.
    + intros (Hne & [->|Hq] & Hkq); [congruence|done].
    + intros (Hq & Hkq). split; [|by split; [right|]]. intros <-.
      assert (M !! k = Some x) as H1 by (apply HM; rewrite Hperm; set_solver).
      assert (M !! k = Some q) as H2 by (apply HM; rewrite Hperm; set_solver).
      assert (x = q) as -> by congruence. done.
Qed.

(** The walk along a bucket: past items that do not match up to the first
    that does. *)
Lemma remove_loop_spec fuel m h t b l rest cur item kp kl k :
  mem_ok m -> is_key m kp kl k -> chain h cur rest -> (forall x, x ∈ rest -> item_ok m h x) ->
  (forall x, x ∈ l -> x <> 0 /\ is_Some (h !! x)) -> (forall x, x ∈ rest -> x ∉ l) -> NoDup rest ->
  (length rest <= fuel)%nat ->
  let hit x := if item =? 0 then bool_decide (key_at m h x = Some k) else x =? item in
  (exists a x c h2 data2, rest = a ++ x :: c /\ hit x = true /\
     remove_loop fuel m h t b (default 0 (last l)) cur item kp kl =
       Ret (true, h2, mkHashTable (buckets t) data2 (bucketCount t) (u32 (itemCount t - 1))) /\
     unlinked h (bucketData t) b (l ++ a) x h2 data2) \/
  ((forall x, x ∈ rest -> hit x = false) /\
   remove_loop fuel m h t b (default 0 (last l)) cur item kp kl = Ret (false, h, t)).
Proof.
  intros Hm Hkey. revert l rest cur. induction fuel as [|fuel IH]; intros l rest cur Hc Hok Hl Hd Hnd Hf hit.
  - destruct rest; [|simpl in Hf; lia]. simpl in Hc. subst. right. split; [set_solver|done].
  - destruct rest as [|x rest]; simpl in Hc.
    { subst. right. split; [set_solver|done]. }
    destruct Hc as (-> & H0 & it & Hit & Hc). cbn [remove_loop].
    destruct (Z.eqb_spec x 0); [done|]. rewrite Hit. simpl.
    destruct (item_ok_key m h x) as (it' & k' & Hit' & Hk' & Hka & _); [apply Hok; set_solver|].
    rewrite Hit in Hit'. simplify_eq.
    assert ((if x =? item then Ret true
             else if item =? 0 then HashTableKeyCompare m (keyPtr it') kp (keyLen it') kl
             else Ret false) = Ret (hit x)) as ->.
    { unfold hit. rewrite (KeyCompare_spec _ _ _ _ _ _ _ Hm Hk' Hkey), Hka.
      destruct (Z.eqb_spec x item), (Z.eqb_spec item 0); subst; try done; f_equal.
      by repeat case_bool_decide; congruence. }
    apply NoDup_cons in Hnd as [Hx Hnd]. simpl. destruct (hit x) eqn:Hhit.
    + left. destruct (last l) as [y|] eqn:Hlast.
      * destruct (Hl y) as (Hy0 & ity & Hy); [by apply last_Some_elem_of|]. simpl.
        destruct (Z.eqb_spec y 0); [done|]. rewrite Hy. simpl.
        assert (x <> y). { intros ->. apply (Hd y); [set_solver|]. by apply last_Some_elem_of. }
        rewrite lookup_insert_ne by done. rewrite Hit. simpl.
        exists [], x, rest. do 2 eexists. split_and!; [done|done|done|].
        exists it'. rewrite app_nil_r, Hlast. split; [done|]. exists ity. done.
      * simpl. rewrite Hit. simpl. exists [], x, rest. do 2 eexists. split_and!; [done|done|done|].
        exists it'. rewrite app_nil_r, Hlast. done.
    + destruct (IH (l ++ [x]) rest (hnext it')) as [(a & x' & c & h2 & data2 & -> & Hh & E & Hu)|[Hno E]].
      * done.
      * set_solver.
      * intros z [Hz|Hz]%elem_of_app; [by apply Hl|]. apply list_elem_of_singleton in Hz as ->. eauto.
      * intros z Hz. specialize (Hd z). set_solver.
      * done.
      * simpl in Hf; lia.
      * left. rewrite last_snoc in E. simpl in E. exists (x :: a), x', c, h2, data2.
        split_and!; [done|done|done|]. by rewrite <- app_assoc in Hu.
      * right. rewrite last_snoc in E. simpl in E. split; [|done].
        intros z [->|Hz]%elem_of_cons; [done|]. by apply Hno.
Qed.

(** ** The table refines a finite map *)

Lemma nonempty_buckets m h data n bs M c :
  ht_rep m h data n bs M -> c = Z.of_nat (length (concat bs)) -> c <> 0 -> 0 < n.
Proof.
  intros (Hl & _) -> Hc. destruct (Z.leb_spec n 0); [|done].
  replace (Z.to_nat n) with 0%nat in Hl by lia. by apply nil_length_inv in Hl as ->.
Qed.

(** Looking a key up returns the item the abstract map binds to it, or
    NULL when it binds none. *)
Theorem HashTableFind_refines fuel m h t M kp kl k :
  mem_ok m -> ht_ok m h t M -> is_key m kp kl k -> itemCount t <= Z.of_nat fuel ->
  HashTableFind fuel m h t kp kl = Ret (default 0 (M !! k)).
Proof.
  intros Hm (bs & Hrep & Hic & Hbc & Hmax) Hk Hf. unfold HashTableFind.
  destruct (Z.eqb_spec (itemCount t) 0) as [H0|H0].
  - destruct (concat bs) as [|x xs] eqn:E; [|simpl in Hic; lia].
    pose proof Hrep as (_ & _ & _ & _ & _ & HM). destruct (M !! k) eqn:Ek; [|done].
    apply HM in Ek as [Hin _]. rewrite E in Hin. set_solver.
  - rewrite (HashTableHash_spec _ _ _ _ Hk). simpl.
    assert (0 < bucketCount t) as Hpos by (by eapply nonempty_buckets).
    unfold bucket_index. destruct (Z.eqb_spec (bucketCount t) 0); [lia|]. simpl.
    destruct (find_in_rep fuel m h (bucketData t) (bucketCount t) bs M kp kl k) as (p & -> & E); [done..|lia|].
    simpl. done.
Qed.

(** A table with one bucket that holds the item at address 50, whose key is
    the byte 7 at address 9; the store also has an unused item at 60. *)
Definition one_memory : memory := <[9 := 7]> (<[10 := 8]> ∅).
Definition one_items : items :=
  <[50 := mkHashItem 9 1 (hash_bytes [7]) 0]> (<[60 := mkHashItem 0 0 0 0]> ∅).
Definition one_table : HashTable := mkHashTable 0 [50] 1 1.

Lemma one_memory_ok : mem_ok one_memory.
Proof.
  intros a b H. assert (map_Forall (fun (_ : Z) (b : Z) => 0 <= b < 256) one_memory) as HF.
  { apply (bool_decide_eq_true_1 _). vm_compute. reflexivity. }
  exact (HF a b H).
Qed.

Lemma one_table_ok : ht_ok one_memory one_items one_table {[ [7] := 50 ]}.
Proof.
  exists [[50]]. split; [|vm_compute; repeat split; discriminate].
  split_and!; [reflexivity| |repeat constructor; set_solver| | |].
  - constructor; [|constructor]. simpl. split_and!; [done|done|]. eexists. split; [reflexivity|done].
  - intros [|i] xs p; [|done]. intros [= <-] Hp. apply list_elem_of_singleton in Hp as ->.
    eexists. split; [reflexivity|]. simpl. rewrite Z.mod_1_r. done.
  - intros p Hp. apply list_elem_of_singleton in Hp as ->. eexists _, _. split_and!; [reflexivity|simpl; lia|reflexivity|reflexivity].
  - intros k p. simpl. rewrite list_elem_of_singleton. split.
    + intros [<- <-]%lookup_singleton_Some. done.
    + intros [-> [= <-]]. apply lookup_singleton_eq.
Qed.

Lemma HashTableFind_refines_witness : HashTableFind 5 one_memory one_items one_table 9 1 = Ret 50.
Proof.
  apply (HashTableFind_refines 5 one_memory one_items one_table {[ [7] := 50 ]} 9 1 [7] one_memory_ok one_table_ok).
  - split; [lia|reflexivity].
  - simpl. lia.
Defined.

Section InsertProofs.
Context {S : Type} {BM : BucketMemory S}.

(** A new item with a new key at the front of its bucket. *)
Lemma ht_rep_push m h data n bs M item it b old ys k :
  ht_rep m h data n bs M -> item ∉ concat bs -> item <> 0 -> h !! item = Some it ->
  is_key m (keyPtr it) (keyLen it) k -> hashValue it = hash_bytes k -> M !! k = None ->
  b = hash_bytes k mod n -> zget data b = Some old -> bs !! Z.to_nat b = Some ys ->
  ht_rep m (<[item := set_hnext it old]> h) (zset data b item) n (<[Z.to_nat b := item :: ys]> bs) (<[k := item]> M) /\
  concat (<[Z.to_nat b := item :: ys]> bs) ≡ₚ item :: concat bs.
Proof.
  intros (Hl & HF & Hnd & Hb & Hok & HM) Hin H0 Hit Hk Hh Hnone -> Hold Hys.
  destruct (push_front h data bs n item it (hash_bytes k mod n) old ys) as (HF1 & Hnd1 & Hperm & Hb1);
    [done..|by rewrite Hh|].
  pose proof (same_fields_set h item it old Hit) as Hsf.
  assert (key_at m h item = Some k) as Hki by (unfold key_at; rewrite Hit; by destruct Hk).
  split; [|done]. split_and!; [by rewrite length_insert|done..| |].
  - intros p. rewrite Hperm. intros [->|Hp]%elem_of_cons; eapply same_fields_item_ok; try done.
    + exists it, k. destruct Hk. done.
    + by apply Hok.
  - intros k' p. rewrite (same_fields_key m h) by done. rewrite Hperm, elem_of_cons.
    destruct (decide (k = k')) as [<-|Hne].
    + rewrite lookup_insert_eq. split; [intros [= <-]; auto|]. intros [[->|Hp] Hp2]; [done|].
      assert (M !! k = Some p) by (by apply HM). congruence.
    + rewrite lookup_insert_ne by done. rewrite HM. split; [tauto|].
      intros [[->|Hp] Hp2]; [congruence|done].
Qed.

(** C19: insertion of an item that is not yet in the table adds the binding
    of its key when the key is new and returns true, and otherwise returns
    false and leaves the map as it was, whether or not the table had to grow. *)
Theorem HashTableInsert_refines fuel m h t M item it0 kp kl k s :
  mem_ok m -> ht_ok m h t M -> is_key m kp kl k -> item <> 0 -> h !! item = Some it0 ->
  (forall k', M !! k' <> Some item) -> growth_served t s -> itemCount t < 4294967294 ->
  itemCount t <= Z.of_nat fuel ->
  exists b h' t' s', HashTableInsert fuel m h t item kp kl s = Ret (b, h', t', s') /\
    b = bool_decide (M !! k = None) /\ ht_ok m h' t' (if b then <[k := item]> M else M).
Proof.
  intros Hm Hok Hk H0 Hit0 Hnew Hg Hmax Hf. unfold HashTableInsert.
  rewrite Hit0. simpl. rewrite (HashTableHash_spec _ _ _ _ Hk). simpl.
  set (it1 := mkHashItem kp kl (hash_bytes k) (hnext it0)). set (h1 := <[item := it1]> h).
  assert (ht_ok m h1 t M) as Hok1.
  { destruct Hok as (bs & Hrep & Hrest). exists bs. split; [|done]. apply ht_rep_frame; [done|].
    intros Hin. destruct Hrep as (_ & _ & _ & _ & Hio & HM).
    destruct (item_ok_key m h item (Hio _ Hin)) as (_ & k' & _ & _ & Hk' & _). by apply (Hnew k'), HM. }
  destruct (insert_grow fuel m h1 t M s Hok1 Hg Hf) as (h2 & t2 & s2 & -> & Hok2 & Hsf & Hpos & Hcnt). simpl.
  unfold bucket_index. destruct (Z.eqb_spec (bucketCount t2) 0); [lia|]. simpl.
  destruct Hok2 as (bs & Hrep & Hic & Hbc & _).
  destruct (find_in_rep fuel m h2 (bucketData t2) (bucketCount t2) bs M kp kl k) as (old & Hold & E);
    [done..|lia|]. rewrite Hold. simpl. rewrite E. simpl.
  destruct (rep_bucket _ _ _ _ _ _ (hash_bytes k mod bucketCount t2) Hrep) as (old' & ys & Hold' & Hys & _); [zlia|].
  rewrite Hold in Hold'. injection Hold' as <-.
  destruct (M !! k) as [p|] eqn:EM; simpl.
  - assert (p <> 0) by (eapply rep_nonnull; [done|]; by apply Hrep in EM as [? _]).
    destruct (Z.eqb_spec p 0); [done|]. simpl. do 4 eexists. split_and!; [done|done|].
    exists bs. split_and!; done || lia.
  - destruct (same_fields_lookup h1 h2 item it1) as (it & Hit & Hfl); [done|by apply lookup_insert_eq|].
    rewrite Hit. simpl. injection Hfl as Hp1 Hp2 Hp3.
    destruct (ht_rep_push m h2 (bucketData t2) (bucketCount t2) bs M item it
                (hash_bytes k mod bucketCount t2) old ys k Hrep) as [Hrep' Hperm];
      [|done|done|by rewrite Hp1, Hp2|done|done|done|done|done|].
    { intros Hin. pose proof Hrep as (_ & _ & _ & _ & Hio & HM).
      destruct (item_ok_key m h2 item (Hio _ Hin)) as (_ & k' & _ & _ & Hk' & _). by apply (Hnew k'), HM. }
    do 4 eexists. split_and!; [done|done|]. exists (<[Z.to_nat (hash_bytes k mod bucketCount t2) := item :: ys]> bs).
    simpl. apply Permutation_length in Hperm. simpl in Hperm. rewrite Hperm.
    assert (u32 (itemCount t2 + 1) = itemCount t2 + 1) as -> by (apply Z.mod_small; lia). split_and!; done || lia.
Qed.
End InsertProofs.

(** Memory for buckets that hands out address 4096 whatever is asked. *)
Definition fixed_buckets : BucketMemory unit := {| bm_zalloc _ s := Ret (4096, s); bm_free _ s := Ret s |}.

Lemma HashTableInsert_refines_witness :
  exists h' t' s', @HashTableInsert unit fixed_buckets 5 one_memory one_items one_table 60 10 1 tt = Ret (true, h', t', s') /\
    ht_ok one_memory h' t' (<[ [8] := 60 ]> {[ [7] := 50 ]}).
Proof.
  destruct (@HashTableInsert_refines unit fixed_buckets 5 one_memory one_items one_table {[ [7] := 50 ]} 60
              (mkHashItem 0 0 0 0) 10 1 [8] tt one_memory_ok one_table_ok) as (b & h' & t' & s' & E & Hb & Hok).
  - split; [lia|reflexivity].
  - discriminate.
  - reflexivity.
  - intros k'. by intros [_ ?]%lookup_singleton_Some.
  - intros _. split; [simpl; lia|]. exists 4096, tt. split; [reflexivity|]. split; [discriminate|]. left. reflexivity.
  - simpl. lia.
  - simpl. lia.
  - exists h', t', s'. rewrite Hb in E, Hok. split; [exact E|exact Hok].
Defined.

(** The result of a removal from a table that denotes [M]: the item of [k]
    goes, if there is one. *)
Definition removes (m : memory) (h : items) (M : gmap (list Z) Z) (k : list Z)
    (r : outcome (bool * items * HashTable)) : Prop :=
  exists b h' t', r = Ret (b, h', t') /\ b = bool_decide (is_Some (M !! k)) /\
    ht_ok m h' t' (delete k M) /\ same_fields h h'.

Lemma remove_nothing m h t M k : ht_ok m h t M -> M !! k = None -> removes m h M k (Ret (false, h, t)).
Proof.
  intros Hok HM. exists false, h, t. rewrite HM, delete_id by done. split_and!; try done.
Qed.

(** Removal from the bucket of [k], by key or by the item bound to [k]. *)
Lemma RemoveKeyItem_spec fuel m h t M item kp kl k :
  mem_ok m -> ht_ok m h t M -> is_key m kp kl k -> itemCount t <= Z.of_nat fuel ->
  (item = 0 \/ M !! k = Some item) ->
  removes m h M k (HashTableRemoveKeyItem fuel m h t item kp kl).
Proof.
  intros Hm Hok Hk Hf Hitem. pose proof Hok as (bs & Hrep & Hic & Hbc & Hmax).
  pose proof Hrep as (Hl & HF & Hnd & Hb & Hio & HM). unfold HashTableRemoveKeyItem.
  destruct (Z.eqb_spec (itemCount t) 0) as [H0|H0].
  { apply remove_nothing; [done|]. destruct (M !! k) eqn:Ek; [|done].
    destruct (proj1 (HM _ _) Ek) as [Hin _].
    assert (concat bs = []) as E by (apply nil_length_inv; lia). rewrite E in Hin. set_solver. }
  assert ((if item =? 0 then HashTableHash m kp kl
           else it ← or_fault (h !! item); Ret (hashValue it)) = Ret (hash_bytes k)) as ->.
  { destruct (Z.eqb_spec item 0) as [|Hne]; [by apply HashTableHash_spec|].
    destruct Hitem as [|Hit]; [done|]. destruct (proj1 (HM _ _) Hit) as [Hin Hka].
    destruct (item_ok_key m h item (Hio _ Hin)) as (it & k' & -> & _ & Hka' & Hh). simpl. congruence. }
  simpl. assert (0 < bucketCount t) as Hpos by (by eapply nonempty_buckets).
  unfold bucket_index. destruct (Z.eqb_spec (bucketCount t) 0); [lia|]. simpl.
  set (b := hash_bytes k mod bucketCount t). assert (0 <= b < bucketCount t) as Hbr by (unfold b; zlia).
  destruct (rep_bucket _ _ _ _ _ _ b Hrep Hbr) as (p & xs & -> & Hxs & Hc). simpl.
  assert (forall x, x ∈ xs -> x ∈ concat bs) as Hsub by (intros; apply elem_of_concat; eauto).
  destruct (remove_loop_spec fuel m h t b [] xs p item kp kl k Hm Hk Hc)
    as [(a & x & c & h2 & data2 & -> & Hhit & E & Hun)|[Hno E]]; cbn [last default app] in *.
  - auto.
  - intros x Hx. by apply not_elem_of_nil in Hx.
  - intros x _ Hx. by apply not_elem_of_nil in Hx.
  - by eapply bucket_NoDup.
  - pose proof (bucket_length _ _ _ Hxs). lia.
  - rewrite E. assert (key_at m h x = Some k) as Hkx.
    { destruct (Z.eqb_spec item 0); [by apply bool_decide_eq_true in Hhit|].
      apply Z.eqb_eq in Hhit as ->. destruct Hitem as [|Hit]; [done|]. by destruct (proj1 (HM _ _) Hit). }
    destruct (ht_rep_unlink m h (bucketData t) (bucketCount t) bs M b a x c k h2 data2) as [Hrep' Hperm]; [done..|lia|done|done|].
    assert (M !! k = Some x) as Hx by (apply HM; split; [apply Hsub; set_solver|done]).
    assert (x ∉ a). { pose proof (bucket_NoDup _ _ _ Hnd Hxs) as Hn. apply NoDup_app in Hn as (_ & Hd & _).
      intros Ha. apply (Hd x Ha). set_solver. }
    do 3 eexists. split_and!; [done|by rewrite bool_decide_eq_true_2| |by eapply unlinked_same_fields].
    rewrite Hperm in Hic. simpl in Hic. eexists. split; [exact Hrep'|]. simpl.
    unfold u32. rewrite Z.mod_small by lia. lia.
  - rewrite E. apply remove_nothing; [done|]. destruct (M !! k) as [x|] eqn:Ek; [exfalso|done].
    destruct (proj1 (HM _ _) Ek) as [Hin Hka]. destruct (rep_key_bucket _ _ _ _ _ _ _ _ Hrep Hin Hka) as (xs' & Hxs' & Hx).
    fold b in Hxs'. rewrite Hxs in Hxs'. injection Hxs' as <-. specialize (Hno x Hx).
    destruct (Z.eqb_spec item 0); [by apply bool_decide_eq_false in Hno|].
    destruct Hitem as [|Hit]; [done|]. apply Z.eqb_neq in Hno.
    assert (M !! k = Some x) by (by apply HM). congruence.
Qed.

(** Removal by key deletes the binding of the key and reports whether
    there was one; the stored keys of all items are left alone. *)
Theorem HashTableRemove_refines fuel m h t M kp kl k :
  mem_ok m -> ht_ok m h t M -> is_key m kp kl k -> itemCount t <= Z.of_nat fuel ->
  exists b h' t', HashTableRemove fuel m h t kp kl = Ret (b, h', t') /\
    b = bool_decide (is_Some (M !! k)) /\ ht_ok m h' t' (delete k M) /\ same_fields h h'.
Proof. intros. apply (RemoveKeyItem_spec fuel m h t M 0 kp kl k); auto. Qed.

Lemma HashTableRemove_refines_witness :
  exists h' t', HashTableRemove 5 one_memory one_items one_table 9 1 = Ret (true, h', t') /\
    ht_ok one_memory h' t' (delete [7] {[ [7] := 50 ]}).
Proof.
  destruct (HashTableRemove_refines 5 one_memory one_items one_table {[ [7] := 50 ]} 9 1 [7] one_memory_ok one_table_ok)
    as (b & h' & t' & E & Hb & Hok & _).
  - split; [lia|reflexivity].
  - simpl. lia.
  - exists h', t'. rewrite Hb in E. split; [exact E|exact Hok].
Defined.

(** Removal of an item of the table returns true and deletes exactly the
    binding of that item's key. *)
Theorem HashTableRemoveItem_refines fuel m h t M item k :
  mem_ok m -> ht_ok m h t M -> M !! k = Some item -> itemCount t <= Z.of_nat fuel ->
  exists h' t', HashTableRemoveItem fuel m h t item = Ret (true, h', t') /\
    ht_ok m h' t' (delete k M) /\ same_fields h h'.
Proof.
  intros Hm Hok Hk Hf. pose proof Hok as (bs & (_ & _ & _ & _ & Hio & HM) & _).
  pose proof Hk as [Hin Hka]%HM.
  destruct (item_ok_key m h item (Hio _ Hin)) as (it & k' & Hit & Hkey & Hka' & _).
  assert (k' = k) as -> by congruence. unfold HashTableRemoveItem. rewrite Hit. simpl.
  destruct (RemoveKeyItem_spec fuel m h t M item (keyPtr it) (keyLen it) k) as (b & h' & t' & -> & -> & Hrest); auto.
  rewrite bool_decide_eq_true_2 by eauto. eauto.
Qed.

Lemma HashTableRemoveItem_refines_witness :
  exists h' t', HashTableRemoveItem 5 one_memory one_items one_table 50 = Ret (true, h', t') /\
    ht_ok one_memory h' t' (delete [7] {[ [7] := 50 ]}).
Proof.
  destruct (HashTableRemoveItem_refines 5 one_memory one_items one_table {[ [7] := 50 ]} 50 [7] one_memory_ok one_table_ok)
    as (h' & t' & E & Hok & _).
  - apply lookup_singleton_eq.
  - simpl. lia.
  - exists h', t'. split; [exact E|exact Hok].
Defined.

(** HashTableShrink never changes anything, however empty the table is:
    its test compares the bucket count with an eighth of itself, where the
    documentation promises to shrink a table with very few items. *)
Theorem HashTableShrink_noop {S} {BM : BucketMemory S} fuel h t (s : S) :
  0 <= bucketCount t -> HashTableShrink fuel h t s = Ret (h, t, s).
Proof.
  intros H. unfold HashTableShrink, HASH_THRESHOLD_SHRINK, HASH_THRESHOLD_REF, u32.
  destruct (Z.ltb_spec (bucketCount t) ((bucketCount t * 1) mod 4294967296 / 8)); [|done].
  exfalso. rewrite Z.mul_1_r in *.
  pose proof (Z.mod_le (bucketCount t) 4294967296 H ltac:(lia)).
  assert (bucketCount t mod 4294967296 / 8 <= bucketCount t mod 4294967296) by zlia. lia.
Qed.

Lemma HashTableShrink_noop_witness :
  @HashTableShrink unit fixed_buckets 100 ∅ (mkHashTable 4096 [] 1024 0) tt = Ret (∅, mkHashTable 4096 [] 1024 0, tt).
Proof. apply (@HashTableShrink_noop unit fixed_buckets). simpl. lia. Defined.

(** Reserving room in a table that has no buckets yet never returns: the
    size doubled is zero. *)
Theorem HashTableReserve_empty_diverges {S} {BM : BucketMemory S} fuel h count (s : S) :
  0 < count -> HashTableReserve fuel h empty_table count s = NoFuel.
Proof.
  intros H. unfold HashTableReserve. set (c := if _ <? count then _ else count).
  assert (0 < c) as Hc by (unfold c; bool_cases; lia).
  replace (HashTableGrowCheck empty_table c) with true by (symmetry; apply Z.ltb_lt; exact Hc).
  assert (forall f, reserve_size f 0 c = NoFuel) as Hd.
  { induction f as [|f IH]; simpl; destruct (Z.ltb_spec 0 c); try lia; done. }
  simpl. by rewrite Hd.
Qed.

Lemma HashTableReserve_empty_diverges_witness :
  @HashTableReserve unit fixed_buckets 100 ∅ empty_table 10 tt = NoFuel.
Proof. apply (@HashTableReserve_empty_diverges unit fixed_buckets). lia. Defined.
