(* ===== verification/Region.v ===== *)
(** * Memory regions and user pointer checks (src/mm/region.c, src/mm/check.c)

    The regions of a memory context are the elements of its circular list, in
    order, so a context holds a list of [MemRegion]; a region pointer is its
    position in the list. Unmapping pages goes through the interface
    [UserPages]. *)
From S2P Require Import Prelude.

(** ** Data *)

Definition MEM_NOACCESS : Z := 0.
Definition MEM_READABLE : Z := 1.
Definition MEM_WRITABLE : Z := 2.
Definition MEM_EXECUTABLE : Z := 4.
Definition MEM_CACHEDISABLE : Z := 8.
Definition MEM_ALLFLAGS : Z := 15.

Record MemRegion := mkMemRegion { flags : Z; start : Z; length_ : Z }.

Record MemContext := mkMemContext { regions : list MemRegion; physDirectory : Z; refCount : Z }.

Definition set_regions (c : MemContext) (rs : list MemRegion) : MemContext :=
  mkMemContext rs (physDirectory c) (refCount c).

(** region->start + region->length *)
Definition region_end (r : MemRegion) : Z := u32 (start r + length_ r).

Definition MemContextAddReference (c : MemContext) : MemContext :=
  mkMemContext (regions c) (physDirectory c) (u32 (refCount c + 1)).

(** MemIntUnmapUserPageAndFree, as this component uses it. *)
Class UserPages (S : Type) := { unmap_free : Z -> S -> outcome S }.

(** The trace of the addresses unmapped. *)
#[export] Instance trace_pages : UserPages (list Z) := {| unmap_free a s := Ret (s ++ [a]) |}.

(** ** Finding a region *)

(** The loop of MemRegionFind: [i] is the position of the head of [rs]. *)
Fixpoint find_loop (rs : list MemRegion) (addr : Z) (i : Z) : option (Z * MemRegion) :=
  match rs with
  | [] => None
  | region :: rest =>
      if addr <? start region then None
      else if addr <? region_end region then Some (i, region)
      else find_loop rest addr (i + 1)
  end.

(** [isKernel]: the context is MemKernelContext. *)
Definition MemRegionFind (isKernel : bool) (context : MemContext) (addr : Z) : option (Z * MemRegion) :=
  if isKernel then None else find_loop (regions context) addr 0.

(** ** Creating a region *)

Definition MemRegionIsCollision (prevRegion nextRegion : MemRegion) : bool :=
  negb ((u32 (start prevRegion + length_ prevRegion) <? start nextRegion) &&
        (start prevRegion <=? u32 (start prevRegion + length_ prevRegion))).

(** The search loop of MemRegionCreate splits the list before the first region
    that starts after [startAddr]. *)
Fixpoint split_regions (rs : list MemRegion) (startAddr : Z) : list MemRegion * list MemRegion :=
  match rs with
  | [] => ([], [])
  | region :: rest =>
      if startAddr <? start region then ([], rs)
      else let '(before, after) := split_regions rest startAddr in (region :: before, after)
  end.

(** The error MemRegionCreate logs before it returns NULL. *)
Inductive create_error :=
| KernelContext | NotAligned | WrappedAround | OutsideRange | Overlaps.

(** When the search runs off the list, [region] is the context itself read as
    a region: its [start] field is the word after the context, [beyond]. *)
Definition MemRegionCreate (isKernel : bool) (beyond : Z) (context : MemContext)
    (startAddr length flags : Z) : create_error + MemContext :=
  let flags := Z.land flags MEM_ALLFLAGS in
  if isKernel then inl KernelContext
  else if negb (startAddr mod 4096 =? 0) || negb (length mod 4096 =? 0) then inl NotAligned
  else if u32 (startAddr + length) <? startAddr then inl WrappedAround
  else if (startAddr =? 0) || (0xC0000000 <=? u32 (startAddr + length)) then inl OutsideRange
  else
    let newRegion := mkMemRegion flags startAddr length in
    match regions context with
    | [] => inr (set_regions context [newRegion])
    | _ =>
        let '(before, after) := split_regions (regions context) startAddr in
        let nextRegion := match after with r :: _ => r | [] => mkMemRegion (refCount context) beyond 0 end in
        let prevOverlap := match last before with
                           | Some prevRegion => MemRegionIsCollision prevRegion newRegion
                           | None => false
                           end in
        if prevOverlap || MemRegionIsCollision newRegion nextRegion then inl Overlaps
        else inr (set_regions context (before ++ newRegion :: after))
    end.

(** ** Resizing, freeing and deleting *)

Section WithPages.
Context {S : Type} {UP : UserPages S}.

(** for(; start < end; start += 4096) MemIntUnmapUserPageAndFree(context, start); *)
Fixpoint unmap_loop (fuel : nat) (a e : Z) (s : S) : outcome S :=
  if a <? e then
    match fuel with
    | O => NoFuel
    | Datatypes.S f => s' ← unmap_free a s; unmap_loop f (u32 (a + 4096)) e s'
    end
  else Ret s.

Inductive resize_error :=
| ResizeNotAligned | ResizeWraps | ResizeIntoKernel | ResizeOverlaps.

(** The region of [context] at position [i]; an error leaves everything as it
    was. *)
Definition MemRegionResize (fuel : nat) (context : MemContext) (i newLength : Z) (s : S)
  : outcome (option resize_error * MemContext * S) :=
  region ← or_fault (zget (regions context) i);
  let resized := set_regions context (zset (regions context) i (mkMemRegion (flags region) (start region) newLength)) in
  if negb (newLength mod 4096 =? 0) then Ret (Some ResizeNotAligned, context, s)
  else if newLength <? length_ region then
    s' ← unmap_loop fuel (u32 (start region + newLength)) (u32 (start region + length_ region)) s;
    Ret (None, resized, s')
  else if u32 (start region + newLength) <? start region then Ret (Some ResizeWraps, context, s)
  else if 0xC0000000 <? u32 (start region + newLength) then Ret (Some ResizeIntoKernel, context, s)
  else
    match zget (regions context) (i + 1) with
    | Some next => if MemRegionIsCollision region next then Ret (Some ResizeOverlaps, context, s)
                   else Ret (None, resized, s)
    | None => Ret (None, resized, s)
    end.

(** MemRegionFreePages: [false] when the address is outside the region. *)
Definition MemRegionFreePages (fuel : nat) (region : MemRegion) (address length : Z) (s : S)
  : outcome (bool * S) :=
  if (address <? start region) || (u32 (start region + length_ region) <=? address) then Ret (false, s)
  else
    let endAddr := u32 (address + length) / 4096 in
    let startAddr := u32 (address + 4095) / 4096 in
    s' ← unmap_loop fuel startAddr endAddr s;
    Ret (true, s').

(** ListDelete of the region after it was resized to nothing. *)
Definition MemRegionDelete (fuel : nat) (context : MemContext) (i : Z) (s : S) : outcome (MemContext * S) :=
  '(_, context', s') ← MemRegionResize fuel context i 0 s;
  Ret (set_regions context' (take (Z.to_nat i) (regions context') ++ drop (Datatypes.S (Z.to_nat i)) (regions context')), s').
End WithPages.

(** ** User pointer checks (check.c) *)

(** The loop of MemChecks over the region found and those after it. *)
Fixpoint check_loop (rs : list MemRegion) (addr length flagsReqd : Z) : bool :=
  match rs with
  | [] => false
  | region :: rest =>
      if Z.land (flags region) flagsReqd =? flagsReqd then
        let e := u32 (start region + length_ region) in
        let lengthLeft := u32 (e - addr) in
        if length <=? lengthLeft then true
        else match rest with
             | [] => false
             | next :: _ =>
                 if start next =? e then false
                 else check_loop rest (start next) (u32 (length - lengthLeft)) flagsReqd
             end
      else false
  end.

Definition MemChecks (isKernel : bool) (context : MemContext) (addr length flagsReqd : Z) : bool :=
  if 0xC0000000 <=? addr then addr <=? u32 (addr + length)
  else match MemRegionFind isKernel context addr with
       | None => false
       | Some (i, _) => check_loop (drop (Z.to_nat i) (regions context)) addr length flagsReqd
       end.

Definition MemCanRead (isKernel : bool) (context : MemContext) (data length : Z) : bool :=
  MemChecks isKernel context data length MEM_READABLE.

Definition MemCanWrite (isKernel : bool) (context : MemContext) (data length : Z) : bool :=
  MemChecks isKernel context data length MEM_WRITABLE.

(** Committing is a stub that only checks (check.h). *)
Definition MemCommitForRead (isKernel : bool) (context : MemContext) (data length : Z) : bool :=
  MemCanRead isKernel context data length.

Definition MemCommitForWrite (isKernel : bool) (context : MemContext) (data length : Z) : bool :=
  MemCanWrite isKernel context data length.

Definition MemCheckUserArea (data length : Z) : bool :=
  (u32 (data + length) <? 0xC0000000) && (data <? u32 (data + length)).

Definition MemCommitUserForRead (isKernel : bool) (context : MemContext) (data length : Z) : bool :=
  MemCheckUserArea data length && MemCommitForRead isKernel context data length.

Definition MemCommitUserForWrite (isKernel : bool) (context : MemContext) (data length : Z) : bool :=
  MemCheckUserArea data length && MemCommitForWrite isKernel context data length.

(** ** Well-formed contexts *)

(** A user region: page aligned, above page 0 and below the kernel. *)
Definition region_ok (r : MemRegion) : Prop :=
  0 < start r /\ 0 <= length_ r /\ start r + length_ r <= 0xC0000000 /\
  start r mod 4096 = 0 /\ length_ r mod 4096 = 0.

(** [r2] comes after [r1], with a gap between them. *)
Definition separated (r1 r2 : MemRegion) : Prop := start r1 + length_ r1 < start r2.

(** The regions are in address order and none touches the next. *)
Fixpoint regions_ok (rs : list MemRegion) : Prop :=
  match rs with
  | [] => True
  | r :: rest => region_ok r /\ Forall (separated r) rest /\ regions_ok rest
  end.

(** The address is in the region. *)
Definition in_region (r : MemRegion) (a : Z) : Prop := start r <= a < start r + length_ r.

Lemma region_end_ok r : region_ok r -> region_end r = start r + length_ r.
Proof. unfold region_ok, region_end. intros. apply Z.mod_small. lia. Qed.

Lemma regions_ok_app l1 l2 :
  regions_ok (l1 ++ l2) <->
  regions_ok l1 /\ regions_ok l2 /\ (forall r1 r2, r1 ∈ l1 -> r2 ∈ l2 -> separated r1 r2).
Proof.
  induction l1 as [|r l1 IH]; simpl.
  - split; [intros H; split_and!; [done|done|]; intros ? ? []%not_elem_of_nil|tauto].
  - rewrite IH, Forall_app, !Forall_forall. split.
    + intros (Hr & (Ha & Hb) & H1 & H2 & H). split_and!; try done.
      intros r1 r2 [->|Hin]%elem_of_cons Hr2; auto.
    + intros ((Hr & Ha & H1) & H2 & H). split_and!; auto.
      * intros r2 Hr2. apply H; [left|done].
      * intros r1 r2 Hr1 Hr2. apply H; [by right|done].
Qed.

Lemma regions_ok_elem rs r : regions_ok rs -> r ∈ rs -> region_ok r.
Proof. induction rs; simpl; [by intros _ []%not_elem_of_nil|]. intros (? & ? & ?) [->|?]%elem_of_cons; auto. Qed.

(** ** Searching *)

Lemma find_loop_spec rs addr i :
  regions_ok rs ->
  match find_loop rs addr i with
  | Some (j, r) => i <= j /\ rs !! Z.to_nat (j - i) = Some r /\ in_region r addr
  | None => forall r, r ∈ rs -> ~ in_region r addr
  end.
Proof.
  revert i. induction rs as [|r rs IH]; intros i; simpl; [by intros _ ? []%not_elem_of_nil|].
  intros (Hr & Hs & Hok). rewrite region_end_ok by done. rewrite Forall_forall in Hs. unfold in_region, separated in *.
  destruct (Z.ltb_spec addr (start r)).
  - destruct Hr as (? & ? & _).
    intros r' [->|Hr']%elem_of_cons; [lia|]. specialize (Hs r' Hr'). lia.
  - destruct (Z.ltb_spec addr (start r + length_ r)).
    + rewrite Z.sub_diag. simpl. split_and!; done || lia.
    + specialize (IH (i + 1) Hok). destruct (find_loop rs addr (i + 1)) as [[j r']|].
      * destruct IH as (? & Hj & ?). split_and!; [lia| |lia|lia].
        replace (Z.to_nat (j - i)) with (Datatypes.S (Z.to_nat (j - (i + 1)))) by lia. done.
      * intros r' [->|Hr']%elem_of_cons; [lia|]. by apply IH.
Qed.

(** Two regions of a well-formed list that share an address are the same. *)
Lemma in_region_unique rs r1 r2 a :
  regions_ok rs -> r1 ∈ rs -> r2 ∈ rs -> in_region r1 a -> in_region r2 a -> r1 = r2.
Proof.
  induction rs as [|r rs IH]; simpl; [by intros _ []%not_elem_of_nil|].
  intros (Hr & Hs & Hok) H1 H2. rewrite Forall_forall in Hs. unfold in_region, separated in *.
  apply elem_of_cons in H1 as [->|H1], H2 as [->|H2]; intros; auto.
  - specialize (Hs r2 H2). lia.
  - specialize (Hs r1 H1). lia.
Qed.

(** In a well-formed user context, MemRegionFind returns the region that
    contains the address, and NULL exactly when no region contains it. *)
Theorem MemRegionFind_correct context addr :
  regions_ok (regions context) ->
  match MemRegionFind false context addr with
  | Some (i, r) => zget (regions context) i = Some r /\ in_region r addr
  | None => forall r, r ∈ regions context -> ~ in_region r addr
  end.
Proof.
  intros H. unfold MemRegionFind. pose proof (find_loop_spec _ addr 0 H) as Hf.
  destruct (find_loop (regions context) addr 0) as [[i r]|]; [|done].
  destruct Hf as (? & Hi & ?). rewrite Z.sub_0_r in Hi. unfold zget. bool_cases. done.
Qed.

(** A context with two regions, three pages apart. *)
Definition two_regions : MemContext :=
  mkMemContext [mkMemRegion 3 0x10000 0x1000; mkMemRegion 3 0x14000 0x1000] 1 1.

Lemma two_regions_ok : regions_ok (regions two_regions).
Proof. repeat split; simpl; try lia; repeat constructor. Qed.

Lemma MemRegionFind_correct_witness :
  exists i r, MemRegionFind false two_regions 0x14010 = Some (i, r) /\ in_region r 0x14010.
Proof.
  pose proof (MemRegionFind_correct two_regions 0x14010 two_regions_ok) as H.
  eexists _, _. split; [reflexivity|]. exact (proj2 H).
Defined.

(** ** Creation *)

Lemma split_regions_spec rs a before after :
  split_regions rs a = (before, after) ->
  rs = before ++ after /\ (forall r, r ∈ before -> start r <= a) /\
  match after with r :: _ => a < start r | [] => True end.
Proof.
  revert before after. induction rs as [|r rs IH]; simpl; intros before after.
  - intros [= <- <-]. split_and!; [done| |done]. by intros ? []%not_elem_of_nil.
  - destruct (Z.ltb_spec a (start r)) as [|Ha].
    + intros [= <- <-]. split_and!; [done| |done]. by intros ? []%not_elem_of_nil.
    + destruct (split_regions rs a) as [b' a'] eqn:E. intros [= <- <-].
      destruct (IH _ _ eq_refl) as (-> & Hb & Hn). split_and!; [done| |done].
      intros r' [->|?]%elem_of_cons; auto.
Qed.

(** The collision test, on regions that do not wrap around. *)
Lemma IsCollision_spec r1 r2 :
  0 <= start r1 -> 0 <= length_ r1 -> start r1 + length_ r1 < 4294967296 ->
  MemRegionIsCollision r1 r2 = false <-> separated r1 r2.
Proof.
  intros. unfold MemRegionIsCollision, separated. unfold u32. rewrite Z.mod_small by lia.
  rewrite negb_false_iff, andb_true_iff. bool_cases; intuition lia.
Qed.

Lemma last_sorted_all rs r0 r :
  regions_ok rs -> last rs = Some r0 -> start r0 + length_ r0 < start r -> forall r', r' ∈ rs -> separated r' r.
Proof.
  intros Hok Hl Hlt r' Hr'. apply last_Some in Hl as [l ->].
  apply elem_of_app in Hr' as [Hr'|Hr']; [|apply list_elem_of_singleton in Hr' as ->; done].
  apply regions_ok_app in Hok as (_ & (Hr0 & _) & Hs). specialize (Hs r' r0 Hr' ltac:(left)).
  unfold separated, region_ok in *. lia.
Qed.

Lemma regions_ok_insert before after new :
  regions_ok (before ++ after) -> region_ok new ->
  match last before with Some p => separated p new | None => True end ->
  match after with n :: _ => separated new n | [] => True end ->
  regions_ok (before ++ new :: after).
Proof.
  intros (Hb & Ha & Hs)%regions_ok_app Hnew Hp Hn. apply regions_ok_app. split_and!; [done| |].
  - simpl. split_and!; [done| |done]. destruct after as [|n after]; [done|].
    destruct Ha as (Hn1 & Hn2 & _). apply Forall_cons. split; [done|].
    eapply Forall_impl; [exact Hn2|]. intros r. unfold separated, region_ok in *. lia.
  - intros r1 r2 H1 [->|H2]%elem_of_cons; [|auto]. destruct (last before) as [p|] eqn:E.
    + eapply (last_sorted_all before p new); done.
    + apply last_None in E as ->. by apply not_elem_of_nil in H1.
Qed.

(** A region that MemRegionCreate adds is page aligned, above page zero,
    below the kernel and separated from every other region, so the context
    stays well formed; all the regions that were there are kept. The result
    does not depend on the word read past the context for this. *)
Theorem MemRegionCreate_ok isKernel beyond context startAddr length flags context' :
  0 <= startAddr < 4294967296 -> 0 <= length < 4294967296 -> regions_ok (regions context) ->
  MemRegionCreate isKernel beyond context startAddr length flags = inr context' ->
  isKernel = false /\ regions_ok (regions context') /\
  regions context' ≡ₚ mkMemRegion (Z.land flags MEM_ALLFLAGS) startAddr length :: regions context.
Proof.
  intros Hs Hl Hok. unfold MemRegionCreate. destruct isKernel; [done|].
  destruct (Z.eqb_spec (startAddr mod 4096) 0); [|done].
  destruct (Z.eqb_spec (length mod 4096) 0); [|done]. simpl.
  destruct (Z.ltb_spec (u32 (startAddr + length)) startAddr); [done|].
  destruct (Z.eqb_spec startAddr 0); [done|]. simpl.
  destruct (Z.leb_spec 3221225472 (u32 (startAddr + length))); [done|].
  set (new := mkMemRegion _ _ _).
  assert (region_ok new) as Hnew by (unfold region_ok; simpl; u32_lia).
  destruct (regions context) as [|r0 rs] eqn:E; [intros [= <-]; simpl; auto|]. rewrite <- E in *. clear E.
  destruct (split_regions (regions context) startAddr) as [before after] eqn:E.
  destruct (split_regions_spec _ _ _ _ E) as (Heq & _ & _).
  destruct (_ || _) eqn:Hc; [done|]. intros [= <-]. apply orb_false_iff in Hc as [Hp Hn].
  split; [done|]. simpl. rewrite Heq in *. split; [|by rewrite Permutation_middle].
  apply regions_ok_insert; [done|done| |].
  - destruct (last before) as [p|] eqn:El; [|done].
    apply regions_ok_app in Hok as (Hb & _ & _). apply last_Some_elem_of in El.
    destruct (regions_ok_elem _ _ Hb El) as (? & ? & ? & _). apply IsCollision_spec in Hp; [done|lia..].
  - destruct after as [|nx after]; [done|].
    destruct Hnew as (? & ? & ? & _). apply IsCollision_spec in Hn; [done|lia..].
Qed.

Lemma MemRegionCreate_ok_witness :
  exists c', MemRegionCreate false 0 two_regions 0x12000 0x1000 0xFF = inr c' /\ regions_ok (regions c').
Proof.
  eexists. split; [reflexivity|].
  refine (proj1 (proj2 (MemRegionCreate_ok false 0 two_regions 0x12000 0x1000 0xFF _ _ _ two_regions_ok _))).
  - lia.
  - lia.
  - reflexivity.
Defined.

(** ** Resizing *)

(** A region above all the others is accepted or refused by the word of
    memory that happens to follow the context, not by the regions: the search
    loop leaves [region] pointing at the context itself. *)
Theorem MemRegionCreate_past_last beyond context startAddr length flags :
  regions_ok (regions context) -> regions context <> [] ->
  (forall r, r ∈ regions context -> separated r (mkMemRegion 0 startAddr length)) ->
  region_ok (mkMemRegion 0 startAddr length) -> startAddr + length < 0xC0000000 ->
  MemRegionCreate false beyond context startAddr length flags =
    if beyond <=? startAddr + length then inl Overlaps
    else inr (set_regions context (regions context ++ [mkMemRegion (Z.land flags MEM_ALLFLAGS) startAddr length])).
Proof.
  intros Hok Hne Hsep (H1 & H2 & H3 & H4 & H5) Hlt. unfold separated in Hsep. simpl in *. unfold MemRegionCreate.
  rewrite H4, H5. simpl. assert (u32 (startAddr + length) = startAddr + length) as -> by (apply Z.mod_small; lia).
  destruct (Z.ltb_spec (startAddr + length) startAddr); [lia|]. destruct (Z.eqb_spec startAddr 0); [lia|]. simpl.
  destruct (Z.leb_spec 3221225472 (startAddr + length)); [lia|].
  destruct (regions context) as [|r0 rs] eqn:E; [done|]. rewrite <- E in *. clear E Hne.
  destruct (split_regions (regions context) startAddr) as [before after] eqn:E.
  destruct (split_regions_spec _ _ _ _ E) as (Heq & _ & Hn). rewrite Heq in *.
  assert (after = []) as ->.
  { destruct after as [|nx after]; [done|]. specialize (Hsep nx ltac:(set_solver)).
    apply regions_ok_app in Hok as (_ & ((? & ? & _) & _) & _). lia. }
  rewrite app_nil_r in *. match goal with |- context [orb ?p _] => assert (p = false) as -> end.
  { destruct (last before) as [p|] eqn:El; [|done]. apply last_Some_elem_of in El.
    destruct (regions_ok_elem _ _ Hok El) as (? & ? & ? & _).
    apply IsCollision_spec; [lia..|]. by apply Hsep. }
  unfold MemRegionIsCollision. simpl. assert (u32 (startAddr + length) = startAddr + length) as -> by (apply Z.mod_small; lia).
  bool_cases; try done; lia.
Qed.

Lemma MemRegionCreate_past_last_witness :
  MemRegionCreate false 0 two_regions 0x18000 0x1000 3 = inl Overlaps.
Proof.
  refine (MemRegionCreate_past_last 0 two_regions 0x18000 0x1000 3 two_regions_ok _ _ _ _).
  - discriminate.
  - intros r Hr. unfold separated. repeat (apply elem_of_cons in Hr as [->|Hr]; [simpl; lia|]).
    by apply not_elem_of_nil in Hr.
  - repeat split; simpl; lia.
  - lia.
Defined.

(** The addresses of the whole pages from [a] up to [e]. *)
Fixpoint pages_from (n : nat) (a : Z) : list Z :=
  match n with O => [] | Datatypes.S n' => a :: pages_from n' (a + 4096) end.

(** Unmapping a list of addresses, in order. *)
Fixpoint unmap_all {S} {UP : UserPages S} (l : list Z) (s : S) : outcome S :=
  match l with [] => Ret s | a :: l' => s' ← unmap_free a s; unmap_all l' s' end.

Lemma unmap_loop_spec {S} {UP : UserPages S} n : forall fuel a (s : S),
  0 <= a -> a + 4096 * Z.of_nat n < 4294967296 -> (n <= fuel)%nat ->
  unmap_loop fuel a (a + 4096 * Z.of_nat n) s = unmap_all (pages_from n a) s.
Proof.
  induction n as [|n IH]; intros fuel a s Ha Hb Hf.
  - rewrite Z.add_0_r. destruct fuel; simpl; destruct (Z.ltb_spec a a); done || lia.
  - destruct fuel as [|fuel]; [lia|]. cbn [unmap_loop pages_from unmap_all].
    destruct (Z.ltb_spec a (a + 4096 * Z.of_nat (Datatypes.S n))); [|lia].
    destruct (unmap_free a s) as [s'| | |]; simpl; try done.
    assert (u32 (a + 4096) = a + 4096) as -> by (apply Z.mod_small; lia).
    replace (a + 4096 * Z.of_nat (Datatypes.S n)) with (a + 4096 + 4096 * Z.of_nat n) by lia.
    apply IH; lia.
Qed.

Lemma zget_region_ok rs i r : regions_ok rs -> zget rs i = Some r -> region_ok r.
Proof.
  unfold zget. intros Hok Hi. destruct (i <? 0); [done|]. eapply regions_ok_elem; [done|]. by eapply list_elem_of_lookup_2.
Qed.

Lemma resize_shrink {S} {UP : UserPages S} fuel context i region newLength (s : S) :
  regions_ok (regions context) -> zget (regions context) i = Some region ->
  0 <= newLength < length_ region -> newLength mod 4096 = 0 -> length_ region <= 4096 * Z.of_nat fuel ->
  MemRegionResize fuel context i newLength s =
    s' ← unmap_all (pages_from (Z.to_nat ((length_ region - newLength) / 4096)) (start region + newLength)) s;
    Ret (None, set_regions context (zset (regions context) i (mkMemRegion (flags region) (start region) newLength)), s').
Proof.
  intros Hok Hi Hn Ha Hf. unfold MemRegionResize. rewrite Hi. simpl. rewrite Ha. simpl.
  destruct (Z.ltb_spec newLength (length_ region)); [|lia].
  destruct (zget_region_ok _ _ _ Hok Hi) as (? & ? & ? & ? & ?).
  assert (u32 (start region + newLength) = start region + newLength) as -> by (apply Z.mod_small; lia).
  assert (u32 (start region + length_ region) = start region + length_ region) as -> by (apply Z.mod_small; lia).
  set (n := Z.to_nat ((length_ region - newLength) / 4096)).
  replace (start region + length_ region) with (start region + newLength + 4096 * Z.of_nat n) by (unfold n; zlia).
  rewrite unmap_loop_spec; [done|lia|unfold n; zlia|unfold n; zlia].
Qed.

(** Shrinking a region unmaps exactly the pages cut off, in order, sets
    the new length, and always succeeds; deleting is shrinking to nothing. *)
Theorem MemRegionResize_shrink {S} {UP : UserPages S} fuel context i region newLength (s : S) :
  regions_ok (regions context) -> zget (regions context) i = Some region ->
  0 <= newLength < length_ region -> newLength mod 4096 = 0 -> length_ region <= 4096 * Z.of_nat fuel ->
  MemRegionResize fuel context i newLength s =
    s' ← unmap_all (pages_from (Z.to_nat ((length_ region - newLength) / 4096)) (start region + newLength)) s;
    Ret (None, set_regions context (zset (regions context) i (mkMemRegion (flags region) (start region) newLength)), s').
Proof. apply resize_shrink. Qed.

Lemma MemRegionResize_shrink_witness :
  MemRegionResize 4 two_regions 1 0 ([] : list Z) =
    Ret (None, set_regions two_regions [mkMemRegion 3 0x10000 0x1000; mkMemRegion 3 0x14000 0], [0x14000]).
Proof.
  refine (MemRegionResize_shrink 4 two_regions 1 (mkMemRegion 3 0x14000 0x1000) 0 ([] : list Z) two_regions_ok _ _ _ _).
  - reflexivity.
  - simpl. lia.
  - reflexivity.
  - simpl. lia.
Defined.

(** ** The type of a context's regions *)

(** The regions of a context are well formed and have flags of
    [enum MemRegionFlags] only. *)
Definition regions_typed (c : MemContext) : Prop :=
  regions_ok (regions c) /\ Forall (fun r => 0 <= flags r <= MEM_ALLFLAGS) (regions c).

(** What the region functions do to a context. Arguments are 32-bit words; a
    region grows only when none follows it (see
    [MemRegionResize_grows_over_next]). *)
Inductive region_step {S} {UP : UserPages S} : MemContext * S -> MemContext * S -> Prop :=
| step_create beyond a l f c c' s : is_u32 a -> is_u32 l ->
    MemRegionCreate false beyond c a l f = inr c' -> region_step (c, s) (c', s)
| step_resize fuel i n r err c c' s s' : is_u32 n -> zget (regions c) i = Some r ->
    (n <= length_ r \/ zget (regions c) (i + 1) = None) ->
    MemRegionResize fuel c i n s = Ret (err, c', s') -> region_step (c, s) (c', s')
| step_delete fuel i c c' s s' : MemRegionDelete fuel c i s = Ret (c', s') -> region_step (c, s) (c', s').

Lemma regions_ok_resize rs i r n :
  regions_ok rs -> zget rs i = Some r -> region_ok (mkMemRegion (flags r) (start r) n) ->
  (n <= length_ r \/ zget rs (i + 1) = None) -> regions_ok (zset rs i (mkMemRegion (flags r) (start r) n)).
Proof.
  intros Hok Hi Hn Hgrow. pose proof (zget_range _ _ _ Hi) as Hr. unfold zget, zset in *.
  destruct (Z.ltb_spec i 0); [lia|]. destruct (Z.ltb_spec (i + 1) 0); [lia|].
  rewrite <- (take_drop_middle _ _ _ Hi) in Hok. rewrite insert_take_drop by (by eapply lookup_lt_Some).
  replace (Z.to_nat (i + 1)) with (Datatypes.S (Z.to_nat i)) in Hgrow by lia.
  apply regions_ok_app in Hok as (H1 & (H2 & H3 & H4) & H5). apply regions_ok_app.
  split_and!; [done| |].
  - split_and!; [done| |done]. destruct Hgrow as [Hgrow|Hend].
    + eapply Forall_impl; [exact H3|]. unfold separated. simpl. lia.
    + rewrite drop_ge by (by apply lookup_ge_None). constructor.
  - intros r1 r2 Hr1 [->|Hr2]%elem_of_cons.
    + pose proof (H5 r1 r Hr1 ltac:(by left)). done.
    + apply H5; [done|by right].
Qed.

Lemma typed_resize {S} {UP : UserPages S} fuel c c' i n r err (s s' : S) :
  regions_typed c -> is_u32 n -> zget (regions c) i = Some r ->
  (n <= length_ r \/ zget (regions c) (i + 1) = None) ->
  MemRegionResize fuel c i n s = Ret (err, c', s') -> regions_typed c'.
Proof.
  intros [Hok Hf] Hn Hi Hgrow. pose proof (zget_region_ok _ _ _ Hok Hi) as (R1 & R2 & R3 & R4 & R5).
  assert (region_ok (mkMemRegion (flags r) (start r) n) ->
    regions_typed (set_regions c (zset (regions c) i (mkMemRegion (flags r) (start r) n)))) as Hset.
  { intros Hr. split; [by apply regions_ok_resize|]. simpl. unfold zset, zget in *. destruct (i <? 0); [done|].
    apply Forall_insert; [done|]. simpl. by eapply (Forall_lookup_1 _ _ _ _ Hf). }
  unfold is_u32 in Hn. unfold MemRegionResize. rewrite Hi. cbn [or_fault mbind outcome_bind].
  destruct (Z.eqb_spec (n mod 4096) 0) as [Hm|]; simpl; [|intros [= <- <- <-]; by split].
  destruct (Z.ltb_spec n (length_ r)).
  { intros Hx. ret_inv. simplify_eq. apply Hset. unfold region_ok. simpl. lia. }
  destruct (Z.ltb_spec (u32 (start r + n)) (start r)) as [|Hw]; [intros [= <- <- <-]; by split|].
  destruct (Z.ltb_spec 0xC0000000 (u32 (start r + n))) as [|Hk]; [intros [= <- <- <-]; by split|].
  assert (region_ok (mkMemRegion (flags r) (start r) n)) as Hr.
  { unfold region_ok, u32 in *. simpl. zlia. }
  destruct (zget (regions c) (i + 1)); [case_match|]; intros [= <- <- <-]; [by split|auto..].
Qed.

Lemma typed_delete {S} {UP : UserPages S} fuel c c' i (s s' : S) :
  regions_typed c -> MemRegionDelete fuel c i s = Ret (c', s') -> regions_typed c'.
Proof.
  intros Ht H. unfold MemRegionDelete in H. destruct (MemRegionResize fuel c i 0 s) as [[[e c1] s1]| | |] eqn:E; try discriminate.
  injection H as <- <-. assert (exists r, zget (regions c) i = Some r) as [r Hi].
  { unfold MemRegionResize in E. destruct (zget (regions c) i); [by eexists|discriminate]. }
  assert (regions_typed c1) as [Hok Hf].
  { eapply typed_resize; [exact Ht|by unfold is_u32|exact Hi| |exact E]. left.
    by destruct (zget_region_ok _ _ _ (proj1 Ht) Hi) as (_ & ? & _). }
  split; simpl.
  - rewrite <- (take_drop (Z.to_nat i) (regions c1)) in Hok. apply regions_ok_app in Hok as (H1 & H2 & H3).
    replace (Datatypes.S (Z.to_nat i)) with (Z.to_nat i + 1)%nat by lia. rewrite <- drop_drop. apply regions_ok_app.
    destruct (drop (Z.to_nat i) (regions c1)) as [|r2 l2]; [by split_and!|]. destruct H2 as (_ & _ & H2).
    split_and!; [done|done|]. intros r1 r3 Hr1 Hr3. apply H3; [done|by right].
  - apply Forall_app. split; [by apply Forall_take|by apply Forall_drop].
Qed.

(** C37: the type of a context's regions - page aligned, in user space, in address
    order, apart from each other, with flags of the enumeration - is kept by
    every sequence of creations, resizings and deletions in which no region is
    grown under another one. *)
Theorem regions_type_preserved {S} {UP : UserPages S} (p p' : MemContext * S) :
  rtc region_step p p' -> regions_typed p.1 -> regions_typed p'.1.
Proof.
  intros Hs. induction Hs as [|x y z Hxy _ IH]; [done|]. intros Ht. apply IH. clear IH.
  destruct Hxy as [beyond a l f c c' s Ha Hl E|fuel i n r err c c' s s' Hn Hi Hg E|fuel i c c' s s' E]; simpl in *.
  - destruct Ht as [Hok Hf]. destruct (MemRegionCreate_ok false beyond c a l f c') as (_ & Hok' & Hp); [done..|].
    split; [done|]. rewrite Hp. constructor; [|done]. simpl. unfold MEM_ALLFLAGS. change 15 with (Z.ones 4).
    rewrite Z.land_ones by lia. change (Z.ones 4) with 15. zlia.
  - by eapply typed_resize.
  - by eapply typed_delete.
Qed.

(** A region is added to the context above, the last region is grown and the
    first one deleted. *)
Lemma regions_type_preserved_witness :
  exists c', rtc region_step (two_regions, ([] : list Z)) (c', [0x10000]) /\ regions_typed c' /\ length (regions c') = 2%nat.
Proof.
  eexists. split; [|split].
  - eapply rtc_l; [eapply (step_create 0xF0000000 0x20000 0x1000 0xFF); [by unfold is_u32..|reflexivity]|].
    eapply rtc_l; [eapply (step_resize 4 2 0x3000 (mkMemRegion 15 0x20000 0x1000)); [by unfold is_u32|reflexivity|by right|reflexivity]|].
    eapply rtc_l; [eapply (step_delete 4 0); reflexivity|]. apply rtc_refl.
  - eapply (regions_type_preserved (two_regions, ([] : list Z)) (_, _)).
    + eapply rtc_l; [eapply (step_create 0xF0000000 0x20000 0x1000 0xFF); [by unfold is_u32..|reflexivity]|].
      eapply rtc_l; [eapply (step_resize 4 2 0x3000 (mkMemRegion 15 0x20000 0x1000)); [by unfold is_u32|reflexivity|by right|reflexivity]|].
      eapply rtc_l; [eapply (step_delete 4 0); reflexivity|]. apply rtc_refl.
    + split; [exact two_regions_ok|]. repeat constructor; simpl; unfold MEM_ALLFLAGS; lia.
  - reflexivity.
Defined.

(** Growing a region tests the OLD length against the next region, so a
    region can be grown over its successor: the context is no longer well
    formed. *)
Theorem MemRegionResize_grows_over_next :
  regions_ok (regions two_regions) /\
  exists c', MemRegionResize 0 two_regions 0 0x8000 ([] : list Z) = Ret (None, c', []) /\
    ~ regions_ok (regions c').
Proof.
  split; [exact two_regions_ok|].
  eexists. split; [vm_compute; reflexivity|]. simpl. intros (_ & H & _).
  apply Forall_cons in H as [H _]. unfold separated in H. simpl in H. lia.
Qed.

(** MemRegionFreePages of two whole pages of a region unmaps one address,
    the page number read as an address: neither of the pages asked for. *)
Theorem MemRegionFreePages_wrong_pages :
  MemRegionFreePages 4 (mkMemRegion 3 0x10000 0x4000) 0x10000 0x2000 ([] : list Z) = Ret (true, [0x10]).
Proof. reflexivity. Qed.

(** ** Pointer checks *)

(** A user range inside one region passes the pointer check exactly when
    the region has all the flags required. *)
Theorem MemChecks_one_region context addr length flagsReqd r :
  regions_ok (regions context) -> r ∈ regions context ->
  in_region r addr -> 0 <= length -> addr + length <= start r + length_ r ->
  MemChecks false context addr length flagsReqd = (Z.land (flags r) flagsReqd =? flagsReqd).
Proof.
  intros Hok Hr Hin Hl Hend. destruct (regions_ok_elem _ _ Hok Hr) as (? & ? & ? & _).
  unfold in_region in Hin. unfold MemChecks. destruct (Z.leb_spec 0xC0000000 addr); [lia|].
  unfold MemRegionFind. pose proof (find_loop_spec _ addr 0 Hok) as Hf.
  destruct (find_loop (regions context) addr 0) as [[i r']|]; [|by destruct (Hf r Hr)].
  destruct Hf as (Hi0 & Hi & Hin'). rewrite Z.sub_0_r in Hi.
  assert (r' = r) as -> by (eapply in_region_unique; [done|by eapply list_elem_of_lookup_2|done|done|done]).
  erewrite drop_S by done. cbn [check_loop]. destruct (Z.eqb_spec (Z.land (flags r) flagsReqd) flagsReqd); [|done].
  assert (u32 (start r + length_ r) = start r + length_ r) as -> by (apply Z.mod_small; lia).
  assert (u32 (start r + length_ r - addr) = start r + length_ r - addr) as -> by (apply Z.mod_small; lia).
  destruct (Z.leb_spec length (start r + length_ r - addr)); [done|lia].
Qed.

Lemma MemChecks_one_region_witness : MemChecks false two_regions 0x14010 16 MEM_WRITABLE = true.
Proof.
  refine (MemChecks_one_region two_regions 0x14010 16 MEM_WRITABLE (mkMemRegion 3 0x14000 0x1000) two_regions_ok _ _ _ _).
  - right. left.
  - unfold in_region. simpl. lia.
  - lia.
  - simpl. lia.
Defined.

(** MemCanWrite accepts a buffer that runs across a hole between two
    regions (its continuity test is inverted): byte 0x11000 is in no region. *)
Theorem MemCanWrite_accepts_hole :
  regions_ok (regions two_regions) /\ MemCanWrite false two_regions 0x10000 0x2000 = true /\
  forall r, r ∈ regions two_regions -> ~ in_region r 0x11000.
Proof.
  split; [exact two_regions_ok|]. split; [reflexivity|].
  intros r Hr. unfold in_region. repeat (apply elem_of_cons in Hr as [->|Hr]; [simpl; lia|]).
  by apply not_elem_of_nil in Hr.
Qed.
