(* ===== verification/UserPage.v ===== *)
(** * User page tables (src/mm/pageMapping.c, include/mm/pagingInt.h)

    Directories and page tables are pages of physical memory, reached through
    the direct map of the kernel, so memory is here an array of 32-bit words.
    [translate] is what the processor makes of them. The functions are shown
    to implement insertion in and removal from that map, up to the counter
    bits of the entries, which the processor ignores ([hw_eq]). *)
From S2P Require Import Prelude Physical PageMap Region.

(** ** Memory as words *)

(** The page allocator and the words of physical memory, by physical address
    divided by four. *)
Record pages := mkPages { physical : phys; words : gmap Z Z }.

Definition set_physical (m : pages) (ph : phys) : pages := mkPages ph (words m).

(** The words of a page. *)
Abbreviation WORDS := 1024 (only parsing).

Definition word (m : pages) (w : Z) : Z := default 0 (words m !! w).
Definition upd (m : pages) (w v : Z) : pages := mkPages (physical m) (<[w := v]> (words m)).

(** The words that the direct map reaches: MemPhys2Virt gives an address from
    KERNEL_VIRTUAL_BASE up to MEM_KFIXED_MAX. *)
Definition direct (w : Z) : bool := (0 <=? w) && (w <? MEM_KFIXED_MAX_PAGE * WORDS).

Definition rd (m : pages) (w : Z) : outcome Z := if direct w then Ret (word m w) else Fault.
Definition wr (m : pages) (w v : Z) : outcome pages := if direct w then Ret (upd m w v) else Fault.

(** MemSet(MemPhys2Virt(page), 0, 4096), word by word. *)
Fixpoint zero_words (n : nat) (w : Z) (m : pages) : outcome pages :=
  match n with
  | O => Ret m
  | S n' => m' ← wr m w 0; zero_words n' (w + 1) m'
  end.

Definition zero_page (page : Z) (m : pages) : outcome pages :=
  zero_words (Z.to_nat WORDS) (page * WORDS) m.

(** ** Entries *)

(** Pointers to entries are word numbers. *)
Definition MemGetPageDirectory (context : MemContext) (addr : Z) : Z :=
  physDirectory context * WORDS + Z.shiftr addr 22.

(** [& 0xFFF], where the table has 0x400 entries. *)
Definition MemGetPageTable (m : pages) (dir addr : Z) : outcome Z :=
  d ← rd m dir;
  Ret (pageID d * WORDS + Z.land (Z.shiftr addr 12) 0xFFF).

(** Bit 7 of a directory entry: a page of 4 MB. *)
Definition hugePage (e : Z) : Z := field e 7 1.

(** ** The counter of a page table

    Three bits in the first entry of the table and, the comments say, of the
    four after it. The loops step the directory entry instead of the table's:
    the carry goes to the first entries of the following tables. *)

Fixpoint IncrementCounter (fuel : nat) (dir i : Z) (m : pages) : outcome pages :=
  match fuel with
  | O => NoFuel
  | S f =>
      d ← rd m (dir + i);
      let entry := pageID d * WORDS in
      e ← rd m entry;
      let e' := set_tableCount e (tableCount e + 1) in
      m' ← wr m entry e';
      if truth (tableCount e') then Ret m' else IncrementCounter f dir (i + 1) m'
  end.

(** for(int i = 1; i < 5; ++i): [k] turns are left. *)
Fixpoint decrement_loop (k : nat) (dir i : Z) (m : pages) : outcome (bool * pages) :=
  match k with
  | O => Ret (true, m)
  | S k' =>
      d ← rd m (dir + i);
      let entry := pageID d * WORDS in
      e ← rd m entry;
      m' ← wr m entry (set_tableCount e (tableCount e - 1));
      if truth (tableCount e) then Ret (false, m') else decrement_loop k' dir (i + 1) m'
  end.

Definition DecrementCounter (dir : Z) (m : pages) : outcome (bool * pages) :=
  d ← rd m dir;
  let entry := pageID d * WORDS in
  e ← rd m entry;
  let e' := set_tableCount e (tableCount e - 1) in
  m' ← wr m entry e';
  if tableCount e' =? 0 then Ret (false, m') else decrement_loop 4 dir 1 m'.

(** ** Mapping and unmapping *)

(** if(!pDir->present) { create page table }; [fuel] is for the allocator. *)
Definition ensure_table (fuel : nat) (pDir : Z) (m : pages) : outcome pages :=
  d ← rd m pDir;
  if truth (present d) then Ret m
  else
    '(p, ph) ← MemPhysicalAlloc fuel 1 MEM_KERNEL (physical m);
    let d' := set_present (set_userMode (set_writable (set_pageID d p) 1) 1) 1 in
    m1 ← wr (set_physical m ph) pDir d';
    zero_page (pageID d') m1.

(** if(pTable->present) wipe the entry but for its counter; else count it. *)
Definition claim_entry (fuel : nat) (pDir pTable : Z) (m : pages) : outcome pages :=
  e ← rd m pTable;
  if truth (present e) then wr m pTable (set_tableCount 0 (tableCount e))
  else IncrementCounter fuel pDir 0 m.

Definition flag_bit (flags bit : Z) : Z := if truth (Z.land flags bit) then 1 else 0.

(** Set page properties. *)
Definition user_entry (e page flags : Z) : Z :=
  set_pageID
    (set_cacheDisable
       (set_writable (set_userMode (set_present e 1) 1) (flag_bit flags MEM_WRITABLE))
       (flag_bit flags MEM_CACHEDISABLE))
    page.

Definition MemIntMapUserPage (fuel : nat) (context : MemContext) (address page flags : Z) (m : pages)
  : outcome pages :=
  if Z.land flags (Z.lor MEM_READABLE (Z.lor MEM_WRITABLE MEM_EXECUTABLE)) =? 0 then Ret m
  else if KERNEL_VIRTUAL_BASE <=? address then Panic "MemIntMapUserPage: cannot map kernel pages"
  else
    let pDir := MemGetPageDirectory context address in
    m1 ← ensure_table fuel pDir m;
    pTable ← MemGetPageTable m1 pDir address;
    m2 ← claim_entry fuel pDir pTable m1;
    e ← rd m2 pTable;
    wr m2 pTable (user_entry e page flags).

(** The page that was mapped there, with its entry wiped, or its whole table
    freed when the counter says that it is empty. *)
Definition release_entry (pDir pTable : Z) (m : pages) : outcome pages :=
  r ← DecrementCounter pDir m;
  let '(empty, m1) := (r : bool * pages) in
  if empty then
    d ← rd m1 pDir;
    ph ← MemPhysicalFree (pageID d) 1 (physical m1);
    wr (set_physical m1 ph) pDir 0
  else
    e ← rd m1 pTable;
    wr m1 pTable (set_tableCount 0 (tableCount e)).

Definition MemIntUnmapUserPage (context : MemContext) (address : Z) (m : pages) : outcome (Z * pages) :=
  if KERNEL_VIRTUAL_BASE <=? address then Panic "MemIntUnmapUserPage: cannot unmap kernel pages"
  else
    let pDir := MemGetPageDirectory context address in
    d ← rd m pDir;
    if truth (present d) then
      pTable ← MemGetPageTable m pDir address;
      e ← rd m pTable;
      if truth (present e) then
        m' ← release_entry pDir pTable m;
        Ret (pageID e, m')
      else Ret (INVALID_PAGE, m)
    else Ret (INVALID_PAGE, m).

Definition MemIntUnmapUserPageAndFree (context : MemContext) (address : Z) (m : pages) : outcome pages :=
  '(page, m') ← MemIntUnmapUserPage context address m;
  if page =? INVALID_PAGE then Ret m'
  else
    ph ← MemPhysicalDeleteRef page 1 (physical m');
    Ret (set_physical m' ph).

(** Regions unmap through these functions. *)
Definition user_pages (context : MemContext) : UserPages pages :=
  {| unmap_free a m := MemIntUnmapUserPageAndFree context a m |}.

(** ** What the processor sees *)

Record mapping := mkMapping { frame : Z; can_write : bool; user_ok : bool; uncached : bool }.

Definition entry_mapping (d e fr : Z) : mapping :=
  mkMapping fr (truth (writable d) && truth (writable e)) (truth (userMode d) && truth (userMode e))
    (truth (cacheDisable e)).

(** The walk from the directory in page [dir]: the frame numbers of the
    entries are unsigned, the index in the table has ten bits. *)
Definition dir_entry (m : pages) (dir i : Z) : Z := word m (dir * WORDS + i).
Definition table_entry (m : pages) (d addr : Z) : Z := word m (pageID_raw d * WORDS + (addr / 4096) mod 1024).

Definition translate (m : pages) (dir addr : Z) : option mapping :=
  let d := dir_entry m dir (addr / 0x400000) in
  if truth (present d) then
    if truth (hugePage d) then
      Some (entry_mapping d d (pageID_raw d / 1024 * 1024 + (addr / 4096) mod 1024))
    else
      let e := table_entry m d addr in
      if truth (present e) then Some (entry_mapping d e (pageID_raw e)) else None
  else None.

(** ** Words and writes *)

Lemma word_upd m w v w' : word (upd m w v) w' = if w =? w' then v else word m w'.
Proof.
  unfold word, upd. simpl. destruct (Z.eqb_spec w w') as [<-|].
  - by rewrite lookup_insert_eq.
  - by rewrite lookup_insert_ne.
Qed.

Lemma direct_spec w : direct w = true <-> 0 <= w < MEM_KFIXED_MAX_PAGE * WORDS.
Proof. unfold direct. rewrite andb_true_iff. lia. Qed.

(** A page that the direct map reaches, and the words in it. *)
Definition low_page (p : Z) : Prop := 0 <= p < MEM_KFIXED_MAX_PAGE.

Lemma direct_in_page p i : low_page p -> 0 <= i < WORDS -> direct (p * WORDS + i) = true.
Proof. unfold low_page. intros. apply direct_spec. lia. Qed.

Lemma rd_direct m w : direct w = true -> rd m w = Ret (word m w).
Proof. unfold rd. by intros ->. Qed.

Lemma wr_direct m w v : direct w = true -> wr m w v = Ret (upd m w v).
Proof. unfold wr. by intros ->. Qed.

Lemma rd_inv m w v : rd m w = Ret v -> direct w = true /\ v = word m w.
Proof. unfold rd. destruct (direct w); [|done]. by intros [= <-]. Qed.

Lemma wr_inv m w v m' : wr m w v = Ret m' -> direct w = true /\ m' = upd m w v.
Proof. unfold wr. destruct (direct w); [|done]. by intros [= <-]. Qed.

Lemma zero_words_spec n w m :
  (forall j, w <= j < w + Z.of_nat n -> direct j = true) ->
  exists m', zero_words n w m = Ret m' /\ physical m' = physical m /\
    forall j, word m' j = if (w <=? j) && (j <? w + Z.of_nat n) then 0 else word m j.
Proof.
  revert w m. induction n as [|n IH]; intros w m Hd.
  - exists m. split_and!; [done..|]. intros j. bool_cases; done || lia.
  - cbn [zero_words]. rewrite wr_direct by (apply Hd; lia). simpl.
    destruct (IH (w + 1) (upd m w 0)) as (m' & E & Hp & Hw); [intros; apply Hd; lia|].
    exists m'. split_and!; [done|done|]. intros j. rewrite Hw, word_upd. bool_cases; done || lia.
Qed.

Lemma page_range p w : (p * WORDS <=? w) && (w <? p * WORDS + 1024) = (w / WORDS =? p).
Proof. bool_cases; first [reflexivity|exfalso; zlia]. Qed.

Lemma zero_page_spec p m :
  low_page p ->
  exists m', zero_page p m = Ret m' /\ physical m' = physical m /\
    forall j, word m' j = if j / WORDS =? p then 0 else word m j.
Proof.
  intros Hp. unfold zero_page. destruct (zero_words_spec (Z.to_nat WORDS) (p * WORDS) m) as (m' & E & Hph & Hw).
  - intros j Hj. unfold low_page in Hp. apply direct_spec. lia.
  - exists m'. split; [exact E|]. split; [exact Hph|]. intros j. rewrite Hw. clear E Hw Hph.
    rewrite Z2Nat.id by lia. by rewrite page_range.
Qed.

(** ** Entries as the processor reads them

    The counter takes the bits that the processor leaves to the system. *)

Definition hw (e : Z) : Z := set_tableCount e 0.
Definition same_hw (e e' : Z) : Prop := hw e = hw e'.

#[export] Instance same_hw_equiv : Equivalence same_hw.
Proof. unfold same_hw. split; [intros ?|intros ???|intros ?????]; congruence. Qed.

Lemma field_hw e lo width :
  0 <= lo -> 0 <= width -> lo + width <= 9 \/ 12 <= lo -> field (hw e) lo width = field e lo width.
Proof. intros. unfold hw, set_tableCount. apply field_set_other; lia. Qed.

Lemma set_field_twice w lo width u v :
  0 <= lo -> 0 <= width -> set_field (set_field w lo width u) lo width v = set_field w lo width v.
Proof. intros. unfold set_field. bits. Qed.

Lemma hw_tableCount e v : hw (set_tableCount e v) = hw e.
Proof. unfold hw, set_tableCount. apply set_field_twice; lia. Qed.

Ltac field_proper := intros e e' H; rewrite <- (field_hw e), <- (field_hw e') by lia; by rewrite H.

#[export] Instance present_proper : Proper (same_hw ==> eq) present.
Proof. unfold present. field_proper. Qed.
#[export] Instance writable_proper : Proper (same_hw ==> eq) writable.
Proof. unfold writable. field_proper. Qed.
#[export] Instance userMode_proper : Proper (same_hw ==> eq) userMode.
Proof. unfold userMode. field_proper. Qed.
#[export] Instance cacheDisable_proper : Proper (same_hw ==> eq) cacheDisable.
Proof. unfold cacheDisable. field_proper. Qed.
#[export] Instance hugePage_proper : Proper (same_hw ==> eq) hugePage.
Proof. unfold hugePage. field_proper. Qed.
#[export] Instance pageID_raw_proper : Proper (same_hw ==> eq) pageID_raw.
Proof. unfold pageID_raw. field_proper. Qed.
#[export] Instance pageID_proper : Proper (same_hw ==> eq) pageID.
Proof. intros e e' H. unfold pageID. by rewrite H. Qed.
#[export] Instance entry_mapping_proper : Proper (same_hw ==> same_hw ==> eq ==> eq) entry_mapping.
Proof. intros d d' Hd e e' He fr ? <-. unfold entry_mapping. by rewrite Hd, He. Qed.

(** Two memories that differ only in counters. *)
Definition hw_eq (m m' : pages) : Prop :=
  physical m = physical m' /\ forall w, same_hw (word m w) (word m' w).

#[export] Instance hw_eq_equiv : Equivalence hw_eq.
Proof.
  split.
  - done.
  - intros m m' [? H]. split; [done|]. intros w. by rewrite (H w).
  - intros m m' m'' [? H] [? H']. split; [congruence|]. intros w. by rewrite (H w).
Qed.

#[export] Instance dir_entry_proper : Proper (hw_eq ==> eq ==> eq ==> same_hw) dir_entry.
Proof. intros m m' [_ H] ? dir -> ? i ->. apply H. Qed.
#[export] Instance table_entry_proper : Proper (hw_eq ==> same_hw ==> eq ==> same_hw) table_entry.
Proof. intros m m' [_ H] d d' Hd ? a ->. unfold table_entry. rewrite Hd. apply H. Qed.
#[export] Instance translate_proper : Proper (hw_eq ==> eq ==> eq ==> eq) translate.
Proof.
  intros m m' H ? dir -> ? a ->. unfold translate. cbv zeta.
  assert (same_hw (dir_entry m dir (a / 0x400000)) (dir_entry m' dir (a / 0x400000))) as Hd by by rewrite H.
  assert (forall d, same_hw (table_entry m d a) (table_entry m' d a)) as He by (intros; by rewrite H).
  rewrite Hd. destruct (truth _); [|done]. rewrite Hd. destruct (truth _); [by rewrite !Hd|].
  assert (same_hw (table_entry m (dir_entry m dir (a / 0x400000)) a)
    (table_entry m' (dir_entry m' dir (a / 0x400000)) a)) as He' by by rewrite Hd.
  rewrite He'. destruct (truth _); [|done]. by rewrite Hd, He.
Qed.

Lemma counter_write m w v : hw_eq (upd m w (set_tableCount (word m w) v)) m.
Proof.
  split; [done|]. intros w'. rewrite word_upd. destruct (Z.eqb_spec w w') as [<-|]; [|done]. apply hw_tableCount.
Qed.

(** Take apart a computation over memory that returned. *)
Ltac mem_step :=
  match goal with
  | H : rd _ _ = Ret _ |- _ => apply rd_inv in H as [? ->]
  | H : wr _ _ _ = Ret _ |- _ => apply wr_inv in H as [? ->]
  | _ => ret_step
  end.
Ltac mem_inv := cbv zeta in *; repeat mem_step.

(** Whatever entries the counters are kept in, no translation changes. *)
Lemma IncrementCounter_hw fuel dir i m m' : IncrementCounter fuel dir i m = Ret m' -> hw_eq m' m.
Proof.
  revert i m. induction fuel as [|f IH]; intros i m H; [done|]. cbn [IncrementCounter] in H. mem_inv.
  - apply counter_write.
  - etrans; [by eapply IH|]. apply counter_write.
Qed.

Lemma decrement_loop_hw k dir i m b m' : decrement_loop k dir i m = Ret (b, m') -> hw_eq m' m.
Proof.
  revert i m. induction k as [|k IH]; intros i m H; cbn [decrement_loop] in H; mem_inv; [done|..].
  - apply counter_write.
  - etrans; [by eapply IH|]. apply counter_write.
Qed.

Lemma DecrementCounter_hw dir m b m' : DecrementCounter dir m = Ret (b, m') -> hw_eq m' m.
Proof.
  unfold DecrementCounter. intros H. mem_inv; [apply counter_write|].
  etrans; [by eapply decrement_loop_hw|]. apply counter_write.
Qed.

(** ** Address spaces *)

Definition USER_SLOTS : Z := 768.
Definition has_table (m : pages) (dir i : Z) : bool := truth (present (dir_entry m dir i)).
Definition table_page (m : pages) (dir i : Z) : Z := pageID_raw (dir_entry m dir i).
Definition used (m : pages) (p : Z) : Prop := in_use (MemPageStateTable (physical m)) p.

(** A directory whose user entries point to page tables of its own: allocated
    pages in the direct map, no two the same. The kernel's entries are only
    asked to point into the direct map, since the counters may go there. *)
Record space_ok (m : pages) (dir : Z) : Prop := mkSpaceOk {
  so_phys : phys_ok (physical m);
  so_dir : low_page dir /\ used m dir;
  so_low : forall i, 0 <= i < WORDS -> low_page (table_page m dir i);
  so_small : forall i, 0 <= i < USER_SLOTS -> hugePage (dir_entry m dir i) = 0;
  so_table : forall i, 0 <= i < USER_SLOTS -> has_table m dir i = true ->
    table_page m dir i <> dir /\ used m (table_page m dir i) /\
    writable (dir_entry m dir i) = 1 /\ userMode (dir_entry m dir i) = 1;
  so_own : forall i j, 0 <= i < USER_SLOTS -> 0 <= j < USER_SLOTS ->
    has_table m dir i = true -> has_table m dir j = true ->
    table_page m dir i = table_page m dir j -> i = j
}.

#[export] Instance used_dec m p : Decision (used m p).
Proof.
  unfold used, in_use. destruct (zget _ p) as [pg|]; [|right; by intros (? & ? & _)].
  destruct (decide (0 < Physical.refCount pg)); [left; eauto|right]. by intros (? & [= <-] & ?).
Qed.

(** The pages that hold the address space's directory and tables. *)
Definition owned (m : pages) (dir p : Z) : Prop :=
  p = dir \/ exists i, 0 <= i < USER_SLOTS /\ has_table m dir i = true /\ p = table_page m dir i.

Lemma pageID_low e : low_page (pageID_raw e) -> pageID e = pageID_raw e.
Proof.
  unfold low_page, pageID. change MEM_KFIXED_MAX_PAGE with 0x30000. intros.
  rewrite Z.mod_small by lia. lia.
Qed.

Lemma same_hw_has_table m m' dir i :
  same_hw (dir_entry m dir i) (dir_entry m' dir i) -> has_table m dir i = has_table m' dir i.
Proof. unfold has_table. by intros ->. Qed.

Lemma same_hw_table_page m m' dir i :
  same_hw (dir_entry m dir i) (dir_entry m' dir i) -> table_page m dir i = table_page m' dir i.
Proof. unfold table_page. by intros ->. Qed.

Lemma space_ok_ext m m' dir :
  space_ok m dir -> phys_ok (physical m') -> (forall p, used m p -> used m' p) ->
  (forall i, 0 <= i < WORDS -> same_hw (dir_entry m' dir i) (dir_entry m dir i)) -> space_ok m' dir.
Proof.
  intros [? [? ?] Hlow Hsm Ht Ho] Hp Hu Hd.
  assert (forall i, 0 <= i < WORDS -> table_page m' dir i = table_page m dir i) as Htp.
  { intros i Hi. unfold table_page. by rewrite (Hd i Hi). }
  assert (forall i, 0 <= i < WORDS -> has_table m' dir i = has_table m dir i) as Hht.
  { intros i Hi. unfold has_table. by rewrite (Hd i Hi). }
  unfold USER_SLOTS in *. split.
  - done.
  - auto.
  - intros i Hi. rewrite Htp by done. auto.
  - intros i Hi. unfold USER_SLOTS in Hi. rewrite (Hd i) by lia. auto.
  - intros i Hi. unfold USER_SLOTS in Hi. rewrite Htp, Hht, (Hd i) by lia. intros (? & ? & ? & ?)%Ht; auto.
  - intros i j. unfold USER_SLOTS. intros Hi Hj. rewrite !Htp, !Hht by lia. auto.
Qed.

#[export] Instance space_ok_proper : Proper (hw_eq ==> eq ==> iff) space_ok.
Proof.
  assert (forall m m' dir, hw_eq m m' -> space_ok m dir -> space_ok m' dir) as Hone.
  { intros m m' dir H Hs. pose proof H as [Hp _]. apply (space_ok_ext m); [done| | |].
    - rewrite <- Hp. apply Hs.
    - unfold used. by rewrite Hp.
    - intros i _. by rewrite H. }
  intros m m' H ? dir ->. split; apply Hone; [done|]. by symmetry.
Qed.

Lemma dir_index a : 0 <= a < KERNEL_VIRTUAL_BASE -> 0 <= a / 0x400000 < USER_SLOTS.
Proof. unfold KERNEL_VIRTUAL_BASE, USER_SLOTS. intros. zlia. Qed.

(** A user address is translated through the table of its directory entry. *)
Lemma translate_user m dir a :
  space_ok m dir -> 0 <= a < KERNEL_VIRTUAL_BASE ->
  translate m dir a =
    if has_table m dir (a / 0x400000) then
      let e := word m (table_page m dir (a / 0x400000) * WORDS + (a / 4096) mod 1024) in
      if truth (present e) then Some (entry_mapping (dir_entry m dir (a / 0x400000)) e (pageID_raw e)) else None
    else None.
Proof.
  intros Hs Ha. unfold translate, has_table. cbv zeta. rewrite (so_small _ _ Hs) by by apply dir_index. done.
Qed.

(** *** Operations that keep to one address space *)

(** What an operation on one address space leaves alone: pages in use that are
    not its own stay in use and change in counter bits only, and the space only
    takes pages that were free. *)
Record contained (m m' : pages) (dir : Z) : Prop := mkContained {
  ct_phys : phys_ok (physical m');
  ct_used : forall q, used m q -> used m' q \/ owned m dir q;
  ct_owned : forall q, owned m' dir q -> owned m dir q \/ ~ used m q;
  ct_words : forall w, used m (w / WORDS) -> ~ owned m dir (w / WORDS) ->
    same_hw (word m' w) (word m w)
}.

(** What happens outside of its directory and tables does not matter to an
    address space. *)
Section OwnedSame.
Context (m m' : pages) (dir : Z).
Context (Hspace : space_ok m dir) (Hphys : phys_ok (physical m')).
Context (Hused : forall q, owned m dir q -> used m q -> used m' q).
Context (Hwords : forall w, owned m dir (w / WORDS) -> same_hw (word m' w) (word m w)).

Lemma same_dir i : 0 <= i < WORDS -> same_hw (dir_entry m' dir i) (dir_entry m dir i).
Proof. intros Hi. apply Hwords. left. zlia. Qed.

Lemma same_table_page i : 0 <= i < WORDS -> table_page m' dir i = table_page m dir i.
Proof. intros Hi. by apply same_hw_table_page, same_dir. Qed.

Lemma same_has_table i : 0 <= i < WORDS -> has_table m' dir i = has_table m dir i.
Proof. intros Hi. by apply same_hw_has_table, same_dir. Qed.

Lemma same_owned q : owned m' dir q <-> owned m dir q.
Proof.
  unfold owned. unfold USER_SLOTS.
  split; (intros [->|(j & Hj & Ht & ->)]; [by left|]); right; exists j; pose proof (same_dir j ltac:(lia)) as Hd;
    apply same_hw_has_table in Hd as Hht; apply same_hw_table_page in Hd; split_and!; congruence || lia.
Qed.

Lemma same_space : space_ok m' dir.
Proof.
  pose proof Hspace as [_ [Hl Hus] Hls Hsm Ht Hinj]. unfold USER_SLOTS in *. split; unfold USER_SLOTS.
  - done.
  - split; [done|]. apply Hused; [by left|done].
  - intros i Hi. rewrite same_table_page by done. auto.
  - intros i Hi. rewrite (same_dir i) by lia. auto.
  - intros i Hi. rewrite same_table_page, same_has_table, (same_dir i) by lia. intros Hti.
    pose proof (Ht i Hi Hti) as (? & ? & ? & ?). split_and!; try done. apply Hused; [|done]. right. by exists i.
  - intros i j Hi Hj. rewrite !same_table_page, !same_has_table by lia. auto.
Qed.

Lemma same_translate a : 0 <= a < KERNEL_VIRTUAL_BASE -> translate m' dir a = translate m dir a.
Proof.
  intros Ha. pose proof same_space. rewrite !translate_user by done. pose proof (dir_index a Ha) as Hi.
  set (i := a / 0x400000) in *. assert (0 <= i < WORDS) by (unfold USER_SLOTS in Hi; lia).
  rewrite same_has_table, same_table_page by done.
  destruct (has_table m dir i) eqn:Ht; [|done]. cbv zeta.
  set (w := table_page m dir i * WORDS + (a / 4096) mod 1024).
  assert (same_hw (word m' w) (word m w)) as Hww.
  { apply Hwords. right. exists i. split; [done|]. split; [done|]. unfold w. zlia. }
  rewrite Hww. destruct (truth _); [|done]. by rewrite Hww, (same_dir i).
Qed.
End OwnedSame.

Lemma owned_used m dir q : space_ok m dir -> owned m dir q -> used m q.
Proof.
  intros Hs [->|(i & Hi & Ht & ->)]; [apply Hs|]. by apply (so_table _ _ Hs) in Ht as (_ & ? & _).
Qed.

(** An operation contained in one space leaves the others as they are. *)
Lemma contained_isolated m m' dir dir2 :
  space_ok m dir2 -> (forall q, owned m dir q -> ~ owned m dir2 q) -> contained m m' dir ->
  space_ok m' dir2 /\ (forall q, owned m' dir q -> ~ owned m' dir2 q) /\
  forall a, 0 <= a < KERNEL_VIRTUAL_BASE -> translate m' dir2 a = translate m dir2 a.
Proof.
  intros Hs2 Hdis [Hph Hu Ho Hw].
  assert (forall w, owned m dir2 (w / WORDS) -> same_hw (word m' w) (word m w)) as Hsame.
  { intros w H2. apply Hw; [by eapply owned_used|]. intros H1. by apply (Hdis (w / WORDS)). }
  assert (forall q, owned m dir2 q -> used m q -> used m' q) as Hu'.
  { intros q Hq Hus. destruct (Hu q Hus) as [|Hq1]; [done|]. by destruct (Hdis q Hq1 Hq). }
  split_and!.
  - by apply (same_space m m').
  - intros q H1 H2. apply (same_owned m m' dir2 Hsame) in H2.
    apply Ho in H1 as [H1|H1]; [by apply (Hdis q)|]. by eapply H1, owned_used.
  - intros a Ha. by apply same_translate.
Qed.

(** *** Writing one entry of a table *)

Section EntryWritten.
Context (m m' : pages) (dir addr v : Z).
Context (Hspace : space_ok m dir) (Haddr : 0 <= addr < KERNEL_VIRTUAL_BASE).
Let i := addr / 0x400000.
Let slot := table_page m dir i * WORDS + (addr / 4096) mod 1024.
Context (Htable : has_table m dir i = true) (Hphys : physical m' = physical m).
Context (Hwords : forall w, same_hw (word m' w) (if w =? slot then v else word m w)).

Lemma written_dir j : 0 <= j < WORDS -> same_hw (dir_entry m' dir j) (dir_entry m dir j).
Proof.
  intros Hj. unfold dir_entry. rewrite Hwords. destruct (Z.eqb_spec (dir * WORDS + j) slot); [|done].
  destruct (so_table _ _ Hspace i) as (Hne & _); [by apply dir_index|done|].
  exfalso. apply Hne. unfold slot in *. zlia.
Qed.

Lemma written_owned q : owned m' dir q <-> owned m dir q.
Proof.
  unfold owned. unfold USER_SLOTS.
  split; (intros [->|(j & Hj & Ht & ->)]; [by left|]); right; exists j; pose proof (written_dir j ltac:(lia)) as Hd;
    apply same_hw_has_table in Hd as Hht; apply same_hw_table_page in Hd; split_and!; congruence || lia.
Qed.

Lemma written_contained : contained m m' dir.
Proof.
  split.
  - rewrite Hphys. apply Hspace.
  - unfold used. rewrite Hphys. auto.
  - intros q Hq. left. by apply written_owned.
  - intros w _ Ho. rewrite Hwords. destruct (Z.eqb_spec w slot) as [->|]; [|done].
    destruct Ho. right. exists i. split; [by apply dir_index|]. split; [done|]. unfold slot. zlia.
Qed.

Lemma written_space : space_ok m' dir.
Proof.
  apply (space_ok_ext m); [done| | |apply written_dir].
  - rewrite Hphys. apply Hspace.
  - unfold used. by rewrite Hphys.
Qed.

Lemma written_translate a :
  0 <= a < KERNEL_VIRTUAL_BASE ->
  translate m' dir a =
    if a / 4096 =? addr / 4096 then
      if truth (present v) then Some (entry_mapping (dir_entry m dir i) v (pageID_raw v)) else None
    else translate m dir a.
Proof.
  intros Ha. pose proof written_space as Hs'. rewrite !translate_user by done.
  pose proof (dir_index a Ha) as Hia. pose proof (dir_index addr Haddr) as Hi. fold i in Hi.
  unfold USER_SLOTS in *. pose proof (written_dir (a / 0x400000) ltac:(lia)) as Hd.
  assert (has_table m' dir (a / 0x400000) = has_table m dir (a / 0x400000)) as -> by by apply same_hw_has_table.
  assert (table_page m' dir (a / 0x400000) = table_page m dir (a / 0x400000)) as -> by by apply same_hw_table_page.
  destruct (Z.eqb_spec (a / 4096) (addr / 4096)) as [E|E].
  - assert (a / 0x400000 = i) as Hai by (unfold i; zlia). rewrite Hai in *. rewrite Htable. cbv zeta. rewrite E. fold slot.
    pose proof (Hwords slot) as Hw. rewrite Z.eqb_refl in Hw. rewrite Hw. destruct (truth _); [|done]. by rewrite Hw, Hd.
  - destruct (has_table m dir (a / 0x400000)) eqn:Hta; [|done]. cbv zeta.
    set (w := table_page m dir (a / 0x400000) * WORDS + (a / 4096) mod 1024).
    assert (w <> slot) as Hne.
    { unfold w, slot. intros Heq. assert (table_page m dir (a / 0x400000) = table_page m dir i) as Ht by zlia.
      apply (so_own _ _ Hspace) in Ht; [|done..]. rewrite Ht in Heq. unfold i in Ht. zlia. }
    pose proof (Hwords w) as Hw. apply Z.eqb_neq in Hne. rewrite Hne in Hw. rewrite Hw.
    destruct (truth _); [|done]. by rewrite Hw, Hd.
Qed.
End EntryWritten.

(** *** Entries built by the setters *)

Ltac fields :=
  unfold present, writable, userMode, cacheDisable, hugePage, pageID_raw, user_entry,
    set_present, set_writable, set_userMode, set_cacheDisable, set_pageID, set_tableCount;
  repeat first [rewrite field_set_same by lia | rewrite field_set_other by lia].

Lemma land_page p : Z.land p (Z.ones 20) = p mod 1048576.
Proof. by rewrite Z.land_ones. Qed.

(** The entry that a mapping with [flags] leaves for the processor. *)
Definition flags_mapping (page flags : Z) : mapping :=
  mkMapping (page mod 1048576) (truth (Z.land flags MEM_WRITABLE)) true (truth (Z.land flags MEM_CACHEDISABLE)).

Lemma truth_flag_bit flags bit : truth (Z.land (flag_bit flags bit) (Z.ones 1)) = truth (Z.land flags bit).
Proof. unfold flag_bit. by destruct (truth (Z.land flags bit)). Qed.

Lemma user_entry_mapping d e page flags :
  writable d = 1 -> userMode d = 1 ->
  present (user_entry e page flags) = 1 /\
  entry_mapping d (user_entry e page flags) (pageID_raw (user_entry e page flags)) = flags_mapping page flags.
Proof.
  intros Hw Hu. split; [by fields|]. unfold entry_mapping, flags_mapping. rewrite Hw, Hu.
  f_equal.
  - fields. apply land_page.
  - fields. apply truth_flag_bit.
  - by fields.
  - fields. apply truth_flag_bit.
Qed.

(** *** A new page table *)

Section NewTable.
Context (m m' : pages) (dir i p d' : Z).
Context (Hspace : space_ok m dir) (Hi : 0 <= i < USER_SLOTS) (Habsent : has_table m dir i = false).
Context (Hp : low_page p) (Hfresh : ~ used m p) (Hphys : phys_ok (physical m')).
Context (Hused : forall q, used m q \/ q = p -> used m' q).
Context (Hd : present d' = 1 /\ writable d' = 1 /\ userMode d' = 1 /\ hugePage d' = 0 /\ pageID_raw d' = p).
Context (Hwords : forall w, word m' w =
  if w / WORDS =? p then 0 else if w =? dir * WORDS + i then d' else word m w).

Lemma fresh_not_owned q : owned m dir q -> q <> p.
Proof.
  intros Ho ->. apply Hfresh. destruct Ho as [->|(j & Hj & Ht & ->)]; [apply Hspace|].
  apply (so_table _ _ Hspace) in Ht as (_ & ? & _); done.
Qed.

Lemma new_dir j : 0 <= j < WORDS -> dir_entry m' dir j = if j =? i then d' else dir_entry m dir j.
Proof.
  intros Hj. unfold dir_entry. rewrite Hwords. pose proof (fresh_not_owned dir ltac:(by left)).
  bool_cases; try done; exfalso; zlia.
Qed.

Lemma new_space : space_ok m' dir.
Proof.
  destruct Hspace as [Hph [Hlow Hus] Hls Hsm Ht Ho]. unfold USER_SLOTS in *. destruct Hd as (Hd1 & Hd2 & Hd3 & Hd4 & Hd5).
  pose proof (fresh_not_owned dir ltac:(by left)) as Hpd.
  split; unfold has_table, table_page, USER_SLOTS; [done|auto|..].
  - intros j Hj. rewrite new_dir by done. destruct (j =? i); [by rewrite Hd5|]. by apply Hls.
  - intros j Hj. rewrite new_dir by lia. destruct (j =? i); [done|]. by apply Hsm.
  - intros j Hj. rewrite new_dir by lia. destruct (j =? i).
    + intros _. rewrite Hd5. auto.
    + intros (? & ? & ?)%Ht; auto.
  - intros j k Hj Hk. rewrite !new_dir by lia.
    assert (forall l, 0 <= l < 768 -> has_table m dir l = true -> pageID_raw (dir_entry m dir l) <> p) as Hown.
    { intros l Hl Hlt. apply fresh_not_owned. right. by exists l. }
    destruct (Z.eqb_spec j i), (Z.eqb_spec k i); subst; rewrite ?Hd5; intros Hjt Hkt Heq; [done| | |by apply Ho].
    + by destruct (Hown k Hk Hkt).
    + by destruct (Hown j Hj Hjt).
Qed.

Lemma new_translate a : 0 <= a < KERNEL_VIRTUAL_BASE -> translate m' dir a = translate m dir a.
Proof.
  intros Ha. rewrite !translate_user by (done || apply new_space). pose proof (dir_index a Ha) as Hj.
  set (j := a / 0x400000) in *. unfold has_table, table_page. unfold USER_SLOTS in *. rewrite !new_dir by lia.
  destruct (Z.eqb_spec j i) as [->|Hne].
  - destruct Hd as (-> & _ & _ & _ & ->). unfold has_table in Habsent. rewrite Habsent. cbv zeta.
    rewrite Hwords. assert ((p * WORDS + (a / 4096) mod 1024) / WORDS = p) as -> by zlia. by rewrite Z.eqb_refl.
  - fold (has_table m dir j). destruct (has_table m dir j) eqn:Ht; [|done]. cbv zeta. rewrite Hwords.
    assert (owned m dir (table_page m dir j)) as Hown by (right; exists j; done).
    pose proof (fresh_not_owned _ Hown) as Hnp. pose proof (so_table _ _ Hspace j Hj Ht) as (Hnd & _).
    fold (table_page m dir j). set (T := table_page m dir j) in *.
    assert ((T * WORDS + (a / 4096) mod 1024) / WORDS = T) as -> by zlia.
    destruct (Z.eqb_spec T p); [done|].
    destruct (Z.eqb_spec (T * WORDS + (a / 4096) mod 1024) (dir * WORDS + i)); [exfalso; zlia|done].
Qed.

Lemma new_owned q : owned m' dir q <-> owned m dir q \/ q = p.
Proof.
  unfold owned, has_table, table_page. split.
  - intros [->|(j & Hj & Ht & ->)]; [by left; left|]. rewrite new_dir in * by (unfold USER_SLOTS in *; lia).
    destruct (j =? i); [right; apply Hd|]. left. right. by exists j.
  - intros [[->|(j & Hj & Ht & ->)]| ->].
    + by left.
    + right. exists j. rewrite new_dir by (unfold USER_SLOTS in *; lia). destruct (Z.eqb_spec j i) as [->|]; [|done].
      unfold has_table in Habsent. congruence.
    + right. exists i. rewrite new_dir by (unfold USER_SLOTS in *; lia). rewrite Z.eqb_refl.
      destruct Hd as (-> & _ & _ & _ & ->). done.
Qed.
End NewTable.

(** *** Steps of the mapping *)

Lemma table_entry_fields d p :
  hugePage d = 0 -> 0 <= p < 1048576 ->
  let d' := set_present (set_userMode (set_writable (set_pageID d p) 1) 1) 1 in
  present d' = 1 /\ writable d' = 1 /\ userMode d' = 1 /\ hugePage d' = 0 /\ pageID_raw d' = p.
Proof.
  cbv zeta. intros Hh Hp. split_and!; fields; try done. by rewrite land_page, Z.mod_small.
Qed.

Lemma hw_eq_words m m' : hw_eq m m' -> forall w, same_hw (word m w) (word m' w).
Proof. by intros [_ H]. Qed.

Lemma ensure_table_spec fuel m dir i m1 :
  space_ok m dir -> 0 <= i < USER_SLOTS -> ensure_table fuel (dir * WORDS + i) m = Ret m1 ->
  space_ok m1 dir /\ has_table m1 dir i = true /\ contained m m1 dir /\
  (forall a, 0 <= a < KERNEL_VIRTUAL_BASE -> translate m1 dir a = translate m dir a) /\
  if has_table m dir i then m1 = m else forall w, w / WORDS = table_page m1 dir i -> word m1 w = 0.
Proof.
  intros Hs Hi H. unfold ensure_table in H. mem_inv.
  { split_and!; try done; [split; [apply Hs|auto|auto|done]|]. unfold has_table, dir_entry. by rewrite Heqb. }
  match goal with H : MemPhysicalAlloc _ _ _ _ = Ret (?p', ?ph') |- _ => rename p' into p, ph' into ph, H into Hal end.
  rename Heqb into Habs. fold (dir_entry m dir i) in *.
  destruct (alloc_one_sound fuel MEM_KERNEL (physical m) p ph (so_phys _ _ Hs) ltac:(unfold MEM_DMA, MEM_KERNEL, MEM_HIGHMEM; lia) Hal)
    as (pg & Hpg & Hrc & Htbl & Hok & Hlow).
  specialize (Hlow ltac:(done)). fold (low_page p) in Hlow.
  destruct (in_use_zset _ _ _ Hpg Hrc) as [Hfresh Huse].
  set (d' := set_present _ _) in *.
  assert (present d' = 1 /\ writable d' = 1 /\ userMode d' = 1 /\ hugePage d' = 0 /\ pageID_raw d' = p) as Hd.
  { apply table_entry_fields; [by apply Hs|]. unfold low_page in Hlow. change MEM_KFIXED_MAX_PAGE with 0x30000 in Hlow. lia. }
  assert (pageID d' = p) as Hpid by (rewrite pageID_low; [|rewrite (proj2 (proj2 (proj2 (proj2 Hd))))]; [apply Hd|done]).
  rewrite Hpid in H.
  destruct (zero_page_spec p (upd (set_physical m ph) (dir * WORDS + i) d') Hlow) as (m2 & E & Hp2 & Hw2).
  rewrite E in H. apply Ret_inj in H as <-. 
  assert (forall w, word m2 w = if w / WORDS =? p then 0 else if w =? dir * WORDS + i then d' else word m w) as Hw.
  { intros w. rewrite Hw2, word_upd. rewrite (Z.eqb_sym w). done. }
  assert (forall q, used m q \/ q = p -> used m2 q) as Hu.
  { intros q. unfold used. rewrite Hp2. simpl. rewrite Htbl, Huse. done. }
  assert (phys_ok (physical m2)) as Hok2 by by rewrite Hp2.
  assert (~ used m p) as Hfr by done. clear Hal Hpid E Hp2 Hw2 Hok.
  split_and!.
  - by eapply (new_space m m2 dir i p d').
  - unfold has_table. rewrite (new_dir m m2 dir i p d') by (done || (unfold USER_SLOTS in *; lia)).
    rewrite Z.eqb_refl. by destruct Hd as (-> & _).
  - split.
    + done.
    + auto.
    + intros q Hq. apply (new_owned m m2 dir i p d') in Hq as [?| ->]; auto.
    + intros w Hus Ho. rewrite Hw. destruct (Z.eqb_spec (w / WORDS) p) as [Hwp|].
      { rewrite Hwp in Hus. by destruct Hfr. }
      destruct (Z.eqb_spec w (dir * WORDS + i)) as [->|]; [|done].
      destruct Ho. left. unfold USER_SLOTS in *. zlia.
  - intros a Ha. by eapply (new_translate m m2 dir i p d').
  - unfold has_table. rewrite Habs. unfold table_page. rewrite (new_dir m m2 dir i p d') by (done || (unfold USER_SLOTS in *; lia)).
    rewrite Z.eqb_refl. destruct Hd as (_ & _ & _ & _ & ->). intros w Hwp. by rewrite Hw, Hwp, Z.eqb_refl.
Qed.

Lemma ensure_table_succeeds fuel m dir i :
  space_ok m dir -> 0 <= i < USER_SLOTS ->
  (has_table m dir i = false -> page_available fuel MEM_KERNEL (physical m)) ->
  exists m1, ensure_table fuel (dir * WORDS + i) m = Ret m1.
Proof.
  intros Hs Hi Hav. unfold ensure_table. unfold USER_SLOTS in Hi.
  assert (direct (dir * WORDS + i) = true) as Hd by (apply direct_in_page; [apply Hs|lia]).
  rewrite rd_direct by done. cbn [mbind outcome_bind]. fold (dir_entry m dir i). unfold has_table in Hav.
  destruct (truth (present (dir_entry m dir i))) eqn:Habs; [eauto|].
  destruct (alloc_available fuel MEM_KERNEL (physical m) (so_phys _ _ Hs)) as (p & ph & E); [done|auto|].
  destruct (alloc_one_sound fuel MEM_KERNEL (physical m) p ph (so_phys _ _ Hs)) as (pg & _ & _ & _ & _ & Hlow); [done|done|].
  specialize (Hlow ltac:(done)). rewrite E. cbn [mbind outcome_bind]. rewrite wr_direct by done. cbn [mbind outcome_bind].
  pose proof (table_entry_fields (dir_entry m dir i) p) as Hf. cbv zeta in Hf.
  destruct Hf as (_ & _ & _ & _ & Hp).
  { apply Hs. unfold USER_SLOTS. lia. }
  { change MEM_KFIXED_MAX_PAGE with 0x30000 in Hlow. lia. }
  rewrite pageID_low by by rewrite Hp. rewrite Hp.
  destruct (zero_page_spec p (upd (set_physical m ph) (dir * WORDS + i)
    (set_present (set_userMode (set_writable (set_pageID (dir_entry m dir i) p) 1) 1) 1)) Hlow) as (m2 & -> & _). eauto.
Qed.

(** *** Mapping *)

(** The entry of the table for an address, when the index of the directory is
    a multiple of four: the other two bits that the mask lets through are the
    low bits of that index. *)
Definition entry_slot (m : pages) (dir address : Z) : Z :=
  table_page m dir (address / 0x400000) * WORDS + (address / 4096) mod 1024.

Lemma land_12_bits x : Z.land x 0xFFF = x mod 4096.
Proof. change 0xFFF with (Z.ones 12). by rewrite Z.land_ones. Qed.

Lemma MemGetPageDirectory_eq context address :
  MemGetPageDirectory context address = physDirectory context * WORDS + address / 0x400000.
Proof. unfold MemGetPageDirectory. by rewrite Z.shiftr_div_pow2. Qed.

Section UserAddress.
Context (context : MemContext) (address : Z).
Context (Huser : 0 <= address < KERNEL_VIRTUAL_BASE).
Let dir := physDirectory context.
Let i := address / 0x400000.
Let pDir := MemGetPageDirectory context address.

Lemma pDir_direct m : space_ok m dir -> direct pDir = true.
Proof.
  intros Hs. unfold pDir. rewrite MemGetPageDirectory_eq. apply direct_in_page; [apply Hs|].
  pose proof (dir_index address Huser) as H. unfold USER_SLOTS in H. lia.
Qed.

Lemma rd_pDir m : space_ok m dir -> rd m pDir = Ret (dir_entry m dir i).
Proof. intros Hs. rewrite rd_direct by by eapply pDir_direct. unfold pDir. by rewrite MemGetPageDirectory_eq. Qed.

Lemma MemGetPageTable_eq m :
  space_ok m dir -> MemGetPageTable m pDir address = Ret (table_page m dir i * WORDS + (address / 4096) mod 4096).
Proof.
  intros Hs. unfold MemGetPageTable. rewrite rd_pDir by done. simpl.
  assert (0 <= i < WORDS) by (pose proof (dir_index address Huser) as H; unfold USER_SLOTS, i in *; lia).
  rewrite pageID_low by by apply Hs. by rewrite land_12_bits, Z.shiftr_div_pow2.
Qed.

Lemma MemGetPageTable_slot m :
  space_ok m dir -> i mod 4 = 0 -> MemGetPageTable m pDir address = Ret (entry_slot m dir address).
Proof.
  intros Hs H4. rewrite MemGetPageTable_eq by done. unfold entry_slot. do 2 f_equal. unfold i in *. zlia.
Qed.

Lemma slot_direct m : space_ok m dir -> direct (entry_slot m dir address) = true.
Proof.
  intros Hs. apply direct_in_page; [|zlia]. apply Hs.
  pose proof (dir_index address Huser) as H. unfold USER_SLOTS in *. lia.
Qed.
End UserAddress.

Lemma field_range w lo width : 0 <= width -> 0 <= field w lo width < 2 ^ width.
Proof. intros. unfold field. rewrite Z.land_ones by done. apply Z.mod_pos_bound. lia. Qed.

Lemma tableCount_set e v : tableCount (set_tableCount e v) = v mod 8.
Proof. unfold tableCount, set_tableCount. rewrite field_set_same by lia. by rewrite Z.land_ones. Qed.

(** The counters read a directory entry and the first entry of its table. *)
Lemma rd_dir_entry m dir i : space_ok m dir -> 0 <= i < WORDS -> rd m (dir * WORDS + i) = Ret (dir_entry m dir i).
Proof. intros Hs Hi. apply rd_direct, direct_in_page; [apply Hs|done]. Qed.

Lemma pageID_table m dir i : space_ok m dir -> 0 <= i < WORDS -> pageID (dir_entry m dir i) = table_page m dir i.
Proof. intros Hs Hi. by apply pageID_low, Hs. Qed.

Lemma first_direct m dir i : space_ok m dir -> 0 <= i < WORDS -> direct (table_page m dir i * WORDS) = true.
Proof. intros Hs Hi. rewrite <- (Z.add_0_r (_ * _)). apply direct_in_page; [by apply Hs|lia]. Qed.

Ltac mem_run := cbn [mbind outcome_bind].

(** The carry of the counter does not leave the table's own first entry. *)
Definition counter_room (m : pages) (dir i : Z) : Prop :=
  tableCount (word m (table_page m dir i * WORDS)) < 7.

Lemma IncrementCounter_first fuel dir i m :
  space_ok m dir -> 0 <= i < WORDS -> counter_room m dir i -> (0 < fuel)%nat ->
  let F := table_page m dir i * WORDS in
  IncrementCounter fuel (dir * WORDS + i) 0 m =
    Ret (upd m F (set_tableCount (word m F) (tableCount (word m F) + 1))).
Proof.
  cbv zeta. intros Hs Hi Hc Hf. destruct fuel as [|fuel]; [lia|]. cbn [IncrementCounter]. rewrite Z.add_0_r.
  rewrite rd_dir_entry by done. mem_run. rewrite pageID_table by done. pose proof (first_direct m dir i Hs Hi) as Hd.
  rewrite rd_direct by done. mem_run. rewrite wr_direct by done. mem_run. rewrite tableCount_set.
  unfold counter_room in Hc. set (c := tableCount _) in *.
  assert (0 <= c) by (apply (field_range _ 9 3); lia). rewrite Z.mod_small by lia.
  unfold truth. by destruct (Z.eqb_spec (c + 1) 0); [lia|].
Qed.

Lemma claim_entry_words fuel pDir slot m m2 :
  claim_entry fuel pDir slot m = Ret m2 ->
  physical m2 = physical m /\ forall w, w <> slot -> same_hw (word m2 w) (word m w).
Proof.
  unfold claim_entry. intros H. mem_inv.
  - split; [done|]. intros w Hw. rewrite word_upd. by destruct (Z.eqb_spec slot w).
  - apply IncrementCounter_hw in H as [Hp Hw]. split; auto.
Qed.

(** What mapping a page does to memory: the table is there, and its entry for
    the address is the only word the processor can tell from before. *)
Lemma map_effect fuel context address page flags m m' :
  let dir := physDirectory context in
  space_ok m dir -> 0 <= address < KERNEL_VIRTUAL_BASE -> (address / 0x400000) mod 4 = 0 ->
  Z.land flags 7 <> 0 -> MemIntMapUserPage fuel context address page flags m = Ret m' ->
  exists m1 e, ensure_table fuel (dir * WORDS + address / 0x400000) m = Ret m1 /\
    physical m' = physical m1 /\
    forall w, same_hw (word m' w) (if w =? entry_slot m1 dir address then user_entry e page flags else word m1 w).
Proof.
  cbv zeta. intros Hs Ha H4 Hf. unfold MemIntMapUserPage.
  change (Z.lor MEM_READABLE (Z.lor MEM_WRITABLE MEM_EXECUTABLE)) with 7.
  destruct (Z.eqb_spec (Z.land flags 7) 0); [done|]. destruct (Z.leb_spec KERNEL_VIRTUAL_BASE address); [lia|].
  cbv zeta. rewrite MemGetPageDirectory_eq. intros Hrun. apply bind_Ret_inv in Hrun as (m1 & E1 & Hrun).
  pose proof (dir_index address Ha) as Hi. exists m1.
  destruct (ensure_table_spec _ _ _ _ _ Hs Hi E1) as (Hs1 & _).
  pose proof (MemGetPageTable_slot context address Ha m1 Hs1 H4) as Hslot.
  rewrite MemGetPageDirectory_eq in Hslot. rewrite Hslot in Hrun. cbn [mbind outcome_bind] in Hrun.
  apply bind_Ret_inv in Hrun as (m2 & E2 & Hrun). apply claim_entry_words in E2 as [Hp Hw]. mem_inv.
  eexists. split_and!; [done|done|]. intros w. rewrite word_upd, (Z.eqb_sym w).
  destruct (Z.eqb_spec (entry_slot m1 (physDirectory context) address) w); [done|]. by apply Hw.
Qed.

Lemma contained_trans m1 m2 m3 dir : contained m1 m2 dir -> contained m2 m3 dir -> contained m1 m3 dir.
Proof.
  intros [Hp1 Hu1 Ho1 Hw1] [Hp2 Hu2 Ho2 Hw2]. split; [done|..].
  - intros q Hq. destruct (Hu1 q Hq) as [H|]; [|auto]. destruct (Hu2 q H) as [|H2]; [auto|].
    apply Ho1 in H2 as [|]; tauto.
  - intros q [H|H]%Ho2; [auto|]. destruct (decide (used m1 q)) as [Hq|]; [|auto]. apply Hu1 in Hq as [|]; tauto.
  - intros w Hus Hno. rewrite Hw2, Hw1; [done|done|done| |].
    + apply Hu1 in Hus as [|]; tauto.
    + intros [|]%Ho1; tauto.
Qed.

Lemma map_inserts fuel context address page flags m m' :
  let dir := physDirectory context in
  space_ok m dir -> 0 <= address < KERNEL_VIRTUAL_BASE -> (address / 0x400000) mod 4 = 0 ->
  Z.land flags 7 <> 0 -> MemIntMapUserPage fuel context address page flags m = Ret m' ->
  space_ok m' dir /\ contained m m' dir /\
  forall a, 0 <= a < KERNEL_VIRTUAL_BASE ->
    translate m' dir a = if a / 4096 =? address / 4096 then Some (flags_mapping page flags) else translate m dir a.
Proof.
  cbv zeta. intros Hs Ha H4 Hf E. set (dir := physDirectory context) in *.
  destruct (map_effect fuel context address page flags m m' Hs Ha H4 Hf E) as (m1 & e & E1 & Hp & Hw).
  pose proof (dir_index address Ha) as Hi.
  destruct (ensure_table_spec _ _ _ _ _ Hs Hi E1) as (Hs1 & Ht1 & Hc & Htr & _). fold dir in Hw.
  split_and!.
  - by apply (written_space m1 m' dir address (user_entry e page flags)).
  - eapply contained_trans; [exact Hc|]. by apply (written_contained m1 m' dir address (user_entry e page flags)).
  - intros a Hua. rewrite (written_translate m1 m' dir address (user_entry e page flags)) by done.
    rewrite Htr by done. destruct (so_table _ _ Hs1 _ Hi Ht1) as (_ & _ & Hwr & Hus).
    destruct (user_entry_mapping _ e page flags Hwr Hus) as [-> ->]. done.
Qed.

(** Mapping succeeds when there is a page for a table that is missing, and the
    count of the table does not overflow its three bits. *)
Lemma map_succeeds fuel context address page flags m :
  let dir := physDirectory context in
  space_ok m dir -> 0 <= address < KERNEL_VIRTUAL_BASE -> (address / 0x400000) mod 4 = 0 ->
  (if has_table m dir (address / 0x400000) then counter_room m dir (address / 0x400000)
   else page_available fuel MEM_KERNEL (physical m)) -> (0 < fuel)%nat ->
  exists m', MemIntMapUserPage fuel context address page flags m = Ret m'.
Proof.
  cbv zeta. intros Hs Ha H4 Hroom Hfuel. unfold MemIntMapUserPage.
  destruct (_ =? 0); [eauto|]. destruct (Z.leb_spec KERNEL_VIRTUAL_BASE address); [lia|].
  cbv zeta. rewrite MemGetPageDirectory_eq. pose proof (dir_index address Ha) as Hi.
  set (dir := physDirectory context) in *. set (i := address / 0x400000) in *.
  destruct (ensure_table_succeeds fuel m dir i Hs Hi) as [m1 E1].
  { intros Ht. by rewrite Ht in Hroom. }
  destruct (ensure_table_spec _ _ _ _ _ Hs Hi E1) as (Hs1 & Ht1 & _ & _ & Hnew).
  assert (counter_room m1 dir i) as Hr1.
  { destruct (has_table m dir i); [by subst m1|]. unfold counter_room.
    rewrite Hnew by (by rewrite Z.div_mul). unfold tableCount, field. by rewrite Z.shiftr_0_l. }
  rewrite E1. cbn [mbind outcome_bind].
  pose proof (MemGetPageTable_slot context address Ha m1 Hs1 H4) as Hslot.
  rewrite MemGetPageDirectory_eq in Hslot. fold dir i in Hslot. rewrite Hslot. cbn [mbind outcome_bind].
  pose proof (slot_direct context address Ha m1 Hs1) as Hd. fold dir in Hd.
  assert (exists m2, claim_entry fuel (dir * WORDS + i) (entry_slot m1 dir address) m1 = Ret m2) as [m2 ->].
  { unfold claim_entry. rewrite rd_direct by done. cbn [mbind outcome_bind]. destruct (truth _).
    - rewrite wr_direct by done. eauto.
    - rewrite IncrementCounter_first; [eauto|done|unfold USER_SLOTS in Hi; lia|done|done]. }
  cbn [mbind outcome_bind]. rewrite rd_direct by done. cbn [mbind outcome_bind]. rewrite wr_direct by done. eauto.
Qed.

(** C21: mapping a page at a user address whose directory index is a multiple of
    four (the walk of MemGetPageTable finds no other table) inserts it into the
    map of the processor, with the rights of the flags, which are not empty: no
    other address is affected, the space stays well formed and what it does is
    contained in it. The table there has room in its counter, or there is none
    yet and a page for it is free. *)
Theorem MemIntMapUserPage_inserts fuel context address page flags m :
  let dir := physDirectory context in
  space_ok m dir -> 0 <= address < KERNEL_VIRTUAL_BASE -> (address / 0x400000) mod 4 = 0 ->
  Z.land flags 7 <> 0 ->
  (if has_table m dir (address / 0x400000) then counter_room m dir (address / 0x400000)
   else page_available fuel MEM_KERNEL (physical m)) -> (0 < fuel)%nat ->
  exists m', MemIntMapUserPage fuel context address page flags m = Ret m' /\
    space_ok m' dir /\ contained m m' dir /\
    forall a, 0 <= a < KERNEL_VIRTUAL_BASE ->
      translate m' dir a = if a / 4096 =? address / 4096 then Some (flags_mapping page flags) else translate m dir a.
Proof.
  cbv zeta. intros Hs Ha H4 Hf Hroom Hfuel.
  destruct (map_succeeds fuel context address page flags m Hs Ha H4 Hroom Hfuel) as [m' E].
  exists m'. split; [done|]. by eapply map_inserts.
Qed.

(** *** A page table taken away *)

Section TableFreed.
Context (m m' : pages) (dir i : Z).
Context (Hspace : space_ok m dir) (Hi : 0 <= i < USER_SLOTS) (Htable : has_table m dir i = true).
Context (Hphys : phys_ok (physical m')) (Hused : forall q, used m' q <-> used m q /\ q <> table_page m dir i).
Context (Hwords : forall w, same_hw (word m' w) (if w =? dir * WORDS + i then 0 else word m w)).

Lemma freed_dir j : 0 <= j < WORDS -> same_hw (dir_entry m' dir j) (if j =? i then 0 else dir_entry m dir j).
Proof.
  intros Hj. unfold dir_entry. rewrite Hwords. bool_cases; try done; exfalso; lia.
Qed.

Lemma freed_table j : 0 <= j < USER_SLOTS -> has_table m' dir j = has_table m dir j && negb (j =? i).
Proof.
  intros Hj. unfold USER_SLOTS in Hj. unfold has_table. rewrite (freed_dir j) by lia.
  destruct (j =? i); [by rewrite andb_false_r|by rewrite andb_true_r].
Qed.

Lemma freed_page j : 0 <= j < WORDS -> j <> i -> table_page m' dir j = table_page m dir j.
Proof. intros Hj Hne. unfold table_page. rewrite (freed_dir j) by done. by destruct (Z.eqb_spec j i). Qed.

Lemma freed_space : space_ok m' dir.
Proof.
  pose proof (so_table _ _ Hspace i Hi Htable) as (Hnd & _).
  pose proof Hspace as [_ [Hl Hu] Hls Hsm Ht Ho]. split.
  - done.
  - split; [done|]. apply Hused. auto.
  - intros j Hj. destruct (Z.eq_dec j i) as [->|]; [|rewrite freed_page by done; auto].
    unfold table_page. rewrite (freed_dir i) by done. rewrite Z.eqb_refl. vm_compute. by split.
  - intros j Hj. unfold USER_SLOTS in *. rewrite (freed_dir j) by lia. destruct (j =? i); [done|]. by apply Hsm.
  - intros j Hj. rewrite freed_table by done. intros [Hj1 Hj2]%andb_true_iff.
    apply negb_true_iff, Z.eqb_neq in Hj2. unfold USER_SLOTS in *. rewrite freed_page by lia.
    rewrite (freed_dir j) by lia. pose proof Hj2 as Hj3. apply Z.eqb_neq in Hj3. rewrite Hj3.
    pose proof (Ht j Hj Hj1) as (? & ? & ? & ?). split_and!; try done. apply Hused. split; [done|].
    intros Heq. by apply Hj2, Ho.
  - intros j k Hj Hk. rewrite !freed_table by done.
    intros [Hj1 Hj2%negb_true_iff%Z.eqb_neq]%andb_true_iff [Hk1 Hk2%negb_true_iff%Z.eqb_neq]%andb_true_iff.
    unfold USER_SLOTS in *. rewrite !freed_page by lia. auto.
Qed.

Lemma freed_owned q : owned m' dir q -> owned m dir q.
Proof.
  intros [->|(j & Hj & Ht & ->)]; [by left|]. right. exists j.
  rewrite freed_table in Ht by done. apply andb_true_iff in Ht as [? Hne%negb_true_iff%Z.eqb_neq].
  split; [done|]. split; [done|]. unfold USER_SLOTS in Hj. by rewrite freed_page by lia.
Qed.

Lemma freed_contained : contained m m' dir.
Proof.
  assert (owned m dir (table_page m dir i)) as Hown by (right; by exists i).
  split.
  - done.
  - intros q Hq. destruct (Z.eq_dec q (table_page m dir i)) as [->|]; [auto|]. left. by apply Hused.
  - intros q Hq. left. by apply freed_owned.
  - intros w _ Ho. rewrite Hwords. destruct (Z.eqb_spec w (dir * WORDS + i)) as [->|]; [|done].
    destruct Ho. left. unfold USER_SLOTS in *. zlia.
Qed.

Lemma freed_translate a :
  0 <= a < KERNEL_VIRTUAL_BASE -> translate m' dir a = if a / 0x400000 =? i then None else translate m dir a.
Proof.
  intros Ha. rewrite !translate_user by (done || apply freed_space). pose proof (dir_index a Ha) as Hj.
  rewrite freed_table by done. set (j := a / 0x400000) in *. destruct (Z.eqb_spec j i) as [|Hne]; [by rewrite andb_false_r|].
  rewrite andb_true_r. destruct (has_table m dir j) eqn:Ht; [|done]. cbv zeta.
  unfold USER_SLOTS in Hj. rewrite freed_page by lia.
  set (w := table_page m dir j * WORDS + (a / 4096) mod 1024).
  assert (same_hw (word m' w) (word m w)) as Hw.
  { rewrite Hwords. destruct (Z.eqb_spec w (dir * WORDS + i)) as [Heq|]; [|done].
    destruct (so_table _ _ Hspace j) as (Hnd & _); [done|done|]. destruct Hnd. unfold w, USER_SLOTS in *. zlia. }
  pose proof (freed_dir j ltac:(lia)) as Hd. apply Z.eqb_neq in Hne as Hne'. rewrite Hne' in Hd.
  rewrite Hw. destruct (truth _); [|done]. by rewrite Hw, Hd.
Qed.
End TableFreed.

(** *** Unmapping *)

Lemma decrement_loop_total k dir i m :
  space_ok m dir -> 0 <= i -> i + Z.of_nat k <= WORDS ->
  forall j, 0 <= j <= i -> exists b m1, decrement_loop k (dir * WORDS + j) (i - j) m = Ret (b, m1).
Proof.
  revert i m. induction k as [|k IH]; intros i m Hs Hi Hk j Hj; [by eexists _, _|].
  cbn [decrement_loop]. replace (dir * WORDS + j + (i - j)) with (dir * WORDS + i) by lia.
  rewrite rd_dir_entry by (done || lia). mem_run. rewrite pageID_table by (done || lia).
  pose proof (first_direct m dir i Hs ltac:(lia)) as Hd. rewrite rd_direct by done. mem_run. rewrite wr_direct by done. mem_run.
  destruct (truth _); [by eexists _, _|]. replace (i - j + 1) with (i + 1 - j) by lia.
  apply IH; [|lia|lia|lia]. by rewrite counter_write.
Qed.

Lemma DecrementCounter_total dir i m :
  space_ok m dir -> 0 <= i < USER_SLOTS ->
  exists b m1, DecrementCounter (dir * WORDS + i) m = Ret (b, m1).
Proof.
  intros Hs Hi. unfold DecrementCounter, USER_SLOTS in *.
  rewrite rd_dir_entry by (done || lia). mem_run. rewrite pageID_table by (done || lia).
  pose proof (first_direct m dir i Hs ltac:(lia)) as Hd. rewrite rd_direct by done. mem_run. rewrite wr_direct by done. mem_run.
  destruct (_ =? 0); [by eexists _, _|]. set (m1 := upd _ _ _).
  destruct (decrement_loop_total 4 dir (i + 1) m1) with (j := i) as (b & m2 & E); [|lia|lia|lia|].
  { unfold m1. by rewrite counter_write. }
  replace (i + 1 - i) with 1 in E by lia. rewrite E. by eexists _, _.
Qed.

(** The page number that the unmapping functions return: [pageID] is signed. *)
Definition signed_page (fr : Z) : Z := if fr <? 0x80000 then fr else fr - 0x100000.

Lemma pageID_signed e : pageID e = signed_page (pageID_raw e).
Proof.
  unfold pageID, signed_page. assert (0 <= pageID_raw e < 2 ^ 20) by (apply field_range; lia).
  bool_cases; zlia.
Qed.

(** What releasing an entry does to memory. *)
Lemma release_effect dir i slot m :
  space_ok m dir -> 0 <= i < USER_SLOTS -> has_table m dir i = true -> direct slot = true ->
  exists b m1 m', DecrementCounter (dir * WORDS + i) m = Ret (b, m1) /\
    release_entry (dir * WORDS + i) slot m = Ret m' /\
    zlen (MemPageStateTable (physical m')) = zlen (MemPageStateTable (physical m)) /\
    (forall w, same_hw (word m' w) (if w =? (if b then dir * WORDS + i else slot) then 0 else word m w)) /\
    if b then phys_ok (physical m') /\ (forall q, used m' q <-> used m q /\ q <> table_page m dir i)
    else physical m' = physical m.
Proof.
  intros Hs Hi Ht Hsd. destruct (DecrementCounter_total dir i m Hs Hi) as (b & m1 & Ed).
  unfold release_entry. rewrite Ed. mem_run. exists b, m1.
  pose proof (DecrementCounter_hw _ _ _ _ Ed) as Hhw. pose proof Hs as Hs1. rewrite <- Hhw in Hs1.
  destruct Hhw as [Hph Hw]. unfold USER_SLOTS in Hi. destruct b.
  - rewrite rd_dir_entry by (done || lia). mem_run. rewrite pageID_table by (done || lia).
    assert (table_page m1 dir i = table_page m dir i) as -> by (apply same_hw_table_page, Hw).
    destruct (so_table _ _ Hs i Hi Ht) as (_ & Hu & _). rewrite Hph.
    destruct (free_one (table_page m dir i) (physical m) (so_phys _ _ Hs) Hu) as (ph & -> & Hok & Hlen & Hfr). mem_run.
    rewrite wr_direct by (apply direct_in_page; [apply Hs|lia]). eexists. split_and!; [done|done|done| |done|done].
    intros w. rewrite word_upd, (Z.eqb_sym w). destruct (_ =? w); [done|]. apply Hw.
  - rewrite rd_direct by done. mem_run. rewrite wr_direct by done. eexists. split_and!; [done|done|by rewrite <- Hph| |done].
    intros w. rewrite word_upd, (Z.eqb_sym w). destruct (_ =? w); [|apply Hw]. apply hw_tableCount.
Qed.

Lemma unmap_removes context address m :
  let dir := physDirectory context in
  space_ok m dir -> 0 <= address < KERNEL_VIRTUAL_BASE -> (address / 0x400000) mod 4 = 0 ->
  match translate m dir address with
  | None => MemIntUnmapUserPage context address m = Ret (INVALID_PAGE, m)
  | Some mp =>
      exists emptied m1 m', DecrementCounter (MemGetPageDirectory context address) m = Ret (emptied, m1) /\
        MemIntUnmapUserPage context address m = Ret (signed_page (frame mp), m') /\
        space_ok m' dir /\ contained m m' dir /\
        (forall a, 0 <= a < KERNEL_VIRTUAL_BASE ->
          translate m' dir a =
            if (if emptied then a / 0x400000 =? address / 0x400000 else a / 4096 =? address / 4096)
            then None else translate m dir a) /\
        zlen (MemPageStateTable (physical m')) = zlen (MemPageStateTable (physical m)) /\
        (forall q, owned m' dir q -> owned m dir q) /\
        if emptied then phys_ok (physical m') /\ (forall q, used m' q <-> used m q /\ q <> table_page m dir (address / 0x400000))
        else physical m' = physical m /\
          forall j, 0 <= j < WORDS -> same_hw (dir_entry m' dir j) (dir_entry m dir j)
  end.
Proof.
  cbv zeta. intros Hs Ha H4. set (dir := physDirectory context) in *. pose proof (dir_index address Ha) as Hi.
  rewrite translate_user by done. set (i := address / 0x400000) in *. unfold MemIntUnmapUserPage.
  destruct (Z.leb_spec KERNEL_VIRTUAL_BASE address); [lia|]. cbv zeta.
  rewrite (rd_pDir context address) by done. mem_run. fold dir i (has_table m dir i).
  destruct (has_table m dir i) eqn:Ht; [|done].
  rewrite (MemGetPageTable_slot context address) by done. fold dir. mem_run.
  pose proof (slot_direct context address Ha m Hs) as Hsd. fold dir in Hsd.
  rewrite rd_direct by done. mem_run. cbv zeta. fold i. change (table_page m dir i * 1024 + (address / 4096) mod 1024) with (entry_slot m dir address).
  set (e := word m (entry_slot m dir address)). destruct (truth (present e)) eqn:Hpr; [|done].
  rewrite pageID_signed. simpl frame.
  rewrite MemGetPageDirectory_eq. fold dir i.
  destruct (release_effect dir i (entry_slot m dir address) m Hs Hi Ht Hsd) as (b & m1 & m' & -> & -> & Hlen & Hw & Hp).
  mem_run. exists b, m1, m'. split; [done|]. split; [done|]. destruct b.
  - destruct Hp as [Hok Hu]. split_and!.
    + by apply (freed_space m m' dir i).
    + by apply (freed_contained m m' dir i).
    + intros a Hua. by apply (freed_translate m m' dir i).
    + done.
    + by apply (freed_owned m m' dir i).
    + done.
    + done.
  - split_and!.
    + by apply (written_space m m' dir address 0).
    + by apply (written_contained m m' dir address 0).
    + intros a Hua. by rewrite (written_translate m m' dir address 0).
    + done.
    + by apply (written_owned m m' dir address 0).
    + done.
    + by apply (written_dir m m' dir address 0).
Qed.

