(* ===== verification/UserSpace.v ===== *)
(** * Address spaces (theorems about src/mm/pageMapping.c and region.c)

    Round trips of mapping and unmapping, the cutting of a region down to the
    page tables, one address space beside another, and where the counters and
    the index mask of the page tables go wrong. *)
From S2P Require Import Prelude Physical PageMap Region UserPage.

(** ** The counter of a table *)

(** When the count is one, the entry being unmapped is the last: the function
    answers that there are pages left. *)
Lemma DecrementCounter_last dir i m :
  space_ok m dir -> 0 <= i < WORDS -> tableCount (word m (table_page m dir i * WORDS)) = 1 ->
  exists m1, DecrementCounter (dir * WORDS + i) m = Ret (false, m1).
Proof.
  intros Hs Hi Hc. unfold DecrementCounter. rewrite rd_dir_entry by done. mem_run. rewrite pageID_table by done.
  pose proof (first_direct m dir i Hs Hi) as Hd. rewrite rd_direct by done. mem_run. rewrite wr_direct by done. mem_run.
  rewrite tableCount_set, Hc. eauto.
Qed.

Lemma user_entry_tableCount e page flags : tableCount (user_entry e page flags) = tableCount e.
Proof.
  unfold tableCount, user_entry, set_pageID, set_cacheDisable, set_writable, set_userMode, set_present.
  by rewrite !field_set_other by lia.
Qed.

(** The first page of a table leaves its count at one. *)
Lemma map_first_count fuel context address page flags m m' :
  let dir := physDirectory context in
  let i := address / 0x400000 in
  space_ok m dir -> 0 <= address < KERNEL_VIRTUAL_BASE -> i mod 4 = 0 -> Z.land flags 7 <> 0 ->
  has_table m dir i = false -> (0 < fuel)%nat -> MemIntMapUserPage fuel context address page flags m = Ret m' ->
  tableCount (word m' (table_page m' dir i * WORDS)) = 1.
Proof.
  cbv zeta. intros Hs Ha H4 Hf Habs Hfuel E.
  pose proof (map_inserts _ _ _ _ _ _ _ Hs Ha H4 Hf E) as (Hs' & _ & _).
  destruct (map_effect _ _ _ _ _ _ _ Hs Ha H4 Hf E) as (m1 & e & E1 & Hp & Hw).
  pose proof (dir_index address Ha) as Hi. set (dir := physDirectory context) in *. set (i := address / 0x400000) in *.
  destruct (ensure_table_spec _ _ _ _ _ Hs Hi E1) as (Hs1 & Ht1 & _ & _ & Hz). rewrite Habs in Hz.
  assert (table_page m' dir i = table_page m1 dir i) as ->.
  { apply same_hw_table_page. apply (written_dir m1 m' dir address (user_entry e page flags)); try done.
    unfold USER_SLOTS in Hi. lia. }
  revert E. unfold MemIntMapUserPage. change (Z.lor MEM_READABLE (Z.lor MEM_WRITABLE MEM_EXECUTABLE)) with 7.
  destruct (Z.eqb_spec (Z.land flags 7) 0); [done|]. destruct (Z.leb_spec KERNEL_VIRTUAL_BASE address); [lia|].
  cbv zeta. rewrite MemGetPageDirectory_eq. fold dir i. rewrite E1. mem_run.
  pose proof (MemGetPageTable_slot context address Ha m1 Hs1 H4) as Hslot. rewrite MemGetPageDirectory_eq in Hslot.
  fold dir i in Hslot. rewrite Hslot. mem_run. pose proof (slot_direct context address Ha m1 Hs1) as Hsd. fold dir in Hsd.
  set (slot := entry_slot m1 dir address) in *.
  assert (word m1 slot = 0) as Hs0 by (apply Hz; unfold slot, entry_slot; fold i; zlia).
  assert (word m1 (table_page m1 dir i * WORDS) = 0) as HF by (apply Hz; zlia).
  unfold claim_entry. rewrite rd_direct, Hs0 by done. mem_run. change (truth (present 0)) with false. cbv iota.
  rewrite IncrementCounter_first; [|done|unfold USER_SLOTS in Hi; lia|unfold counter_room; by rewrite HF|done].
  mem_run. rewrite rd_direct by done. mem_run. rewrite wr_direct by done. intros <-%Ret_inj.
  rewrite HF. set (F := table_page m1 dir i * WORDS). rewrite word_upd. destruct (Z.eqb_spec slot F) as [HsF|].
  - rewrite user_entry_tableCount, word_upd, HsF, Z.eqb_refl. reflexivity.
  - rewrite word_upd, Z.eqb_refl. reflexivity.
Qed.

(** Mapping a page where there is no page table yet and unmapping it again
    gives the page back and leaves every translation as it was; but the page
    table that was made for it stays, although it is empty. *)
Theorem map_unmap_roundtrip fuel context address page flags m :
  let dir := physDirectory context in
  let i := address / 0x400000 in
  space_ok m dir -> 0 <= address < KERNEL_VIRTUAL_BASE -> i mod 4 = 0 -> Z.land flags 7 <> 0 ->
  has_table m dir i = false -> page_available fuel MEM_KERNEL (physical m) -> (0 < fuel)%nat ->
  exists m1 m2, MemIntMapUserPage fuel context address page flags m = Ret m1 /\
    MemIntUnmapUserPage context address m1 = Ret (signed_page (page mod 0x100000), m2) /\
    space_ok m2 dir /\ (forall a, 0 <= a < KERNEL_VIRTUAL_BASE -> translate m2 dir a = translate m dir a) /\
    has_table m2 dir i = true /\ used m2 (table_page m2 dir i).
Proof.
  cbv zeta. intros Hs Ha H4 Hf Habs Hav Hfuel. pose proof (dir_index address Ha) as Hi.
  destruct (map_succeeds fuel context address page flags m Hs Ha H4) as [m1 E1]; [by rewrite Habs|done|].
  pose proof (map_inserts _ _ _ _ _ _ _ Hs Ha H4 Hf E1) as (Hs1 & Hc1 & Ht1).
  pose proof (map_first_count _ _ _ _ _ _ _ Hs Ha H4 Hf Habs Hfuel E1) as Hcount.
  pose proof (unmap_removes context address m1 Hs1 Ha H4) as Hun.
  rewrite (Ht1 address Ha), Z.eqb_refl in Hun. destruct Hun as (b & m1' & m2 & Ed & E2 & Hs2 & _ & Ht2 & _ & _ & Hb).
  rewrite MemGetPageDirectory_eq in Ed.
  set (dir := physDirectory context) in *. set (i := address / 0x400000) in *.
  destruct (DecrementCounter_last dir i m1 Hs1) as (m1'' & Ed'); [unfold USER_SLOTS in Hi; lia|done|].
  assert (b = false) as -> by congruence. destruct Hb as [_ Hd]. exists m1, m2.
  assert (has_table m2 dir i = true) as Hti.
  { rewrite (same_hw_has_table m2 m1) by (apply Hd; unfold USER_SLOTS in Hi; lia).
    pose proof (Ht1 address Ha) as Hta. rewrite Z.eqb_refl, translate_user in Hta by done. fold i in Hta.
    by destruct (has_table m1 dir i). }
  split_and!; [done|done|done| |done|by apply (so_table _ _ Hs2)].
  intros a Hua. rewrite Ht2, Ht1 by done. destruct (Z.eqb_spec (a / 4096) (address / 4096)) as [Heq|]; [|done].
  rewrite translate_user by done. assert (a / 0x400000 = i) as -> by (unfold i; zlia). by rewrite Habs.
Qed.

(** ** Several address spaces *)

Inductive space_step (m : pages) (context : MemContext) (m' : pages) : Prop :=
| step_map fuel address page flags :
    0 <= address < KERNEL_VIRTUAL_BASE -> (address / 0x400000) mod 4 = 0 ->
    MemIntMapUserPage fuel context address page flags m = Ret m' -> space_step m context m'
| step_unmap address page :
    0 <= address < KERNEL_VIRTUAL_BASE -> (address / 0x400000) mod 4 = 0 ->
    MemIntUnmapUserPage context address m = Ret (page, m') -> space_step m context m'.

(** Steps of the contexts that [P] holds of. *)
Definition steps_of (P : MemContext -> Prop) (m m' : pages) : Prop := exists c, P c /\ space_step m c m'.

(** The contexts of [cs] are well formed and share no directory or table. *)
Definition spaces_ok (cs : list MemContext) (m : pages) : Prop :=
  (forall c, c ∈ cs -> space_ok m (physDirectory c)) /\
  forall c1 c2 q, c1 ∈ cs -> c2 ∈ cs -> physDirectory c1 <> physDirectory c2 ->
    owned m (physDirectory c1) q -> ~ owned m (physDirectory c2) q.

Lemma contained_refl m dir : phys_ok (physical m) -> contained m m dir.
Proof. split; auto. done. Qed.

Lemma space_step_contained m c m' :
  space_ok m (physDirectory c) -> space_step m c m' ->
  space_ok m' (physDirectory c) /\ contained m m' (physDirectory c).
Proof.
  intros Hs [fuel address page flags Ha H4 E|address page Ha H4 E].
  - destruct (Z.eq_dec (Z.land flags 7) 0) as [Hz|Hne].
    + unfold MemIntMapUserPage in E. change (Z.lor MEM_READABLE (Z.lor MEM_WRITABLE MEM_EXECUTABLE)) with 7 in E.
      rewrite Hz in E. simpl in E. injection E as <-. split; [done|]. by apply contained_refl, Hs.
    + by destruct (map_inserts _ _ _ _ _ _ _ Hs Ha H4 Hne E) as (? & ? & _).
  - pose proof (unmap_removes _ _ _ Hs Ha H4) as H. destruct (translate _ _ _) as [mp|].
    + destruct H as (b & m1 & m2 & _ & E2 & Hs2 & Hc2 & _). rewrite E2 in E. by injection E as _ <-.
    + rewrite H in E. injection E as _ <-. split; [done|]. by apply contained_refl, Hs.
Qed.

(** A step of one context keeps all of them, and the map of every other. *)
Lemma space_step_spaces cs m c m' :
  spaces_ok cs m -> c ∈ cs -> space_step m c m' ->
  spaces_ok cs m' /\
  forall c2 a, c2 ∈ cs -> physDirectory c2 <> physDirectory c -> 0 <= a < KERNEL_VIRTUAL_BASE ->
    translate m' (physDirectory c2) a = translate m (physDirectory c2) a.
Proof.
  intros [Hok Hdis] Hc Hstep. destruct (space_step_contained m c m' (Hok c Hc) Hstep) as [Hs' Hct].
  assert (forall c2, c2 ∈ cs -> physDirectory c2 <> physDirectory c ->
    space_ok m' (physDirectory c2) /\ (forall q, owned m' (physDirectory c) q -> ~ owned m' (physDirectory c2) q) /\
    forall a, 0 <= a < KERNEL_VIRTUAL_BASE -> translate m' (physDirectory c2) a = translate m (physDirectory c2) a)
    as Hiso.
  { intros c2 Hc2 Hne. apply (contained_isolated m m' (physDirectory c)); [by apply Hok| |done].
    intros q. by apply Hdis. }
  assert (forall c2 q, c2 ∈ cs -> physDirectory c2 <> physDirectory c ->
    owned m' (physDirectory c2) q -> owned m (physDirectory c2) q) as Hback.
  { intros c2 q Hc2 Hne. destruct Hct as [_ _ _ Hw]. apply (same_owned m m').
    intros w H2. apply Hw; [by eapply owned_used; [apply Hok|]|]. intros H1. by apply (Hdis c c2 (w / WORDS)). }
  split; [split|].
  - intros c2 Hc2. destruct (Z.eq_dec (physDirectory c2) (physDirectory c)) as [->|Hne]; [done|]. by apply Hiso.
  - intros c1 c2 q H1 H2 Hne Ho1 Ho2.
    destruct (Z.eq_dec (physDirectory c1) (physDirectory c)) as [E1|E1].
    + rewrite E1 in Ho1. destruct (Hiso c2 H2 ltac:(congruence)) as (_ & Hd & _). by apply (Hd q).
    + destruct (Z.eq_dec (physDirectory c2) (physDirectory c)) as [E2|E2].
      * rewrite E2 in Ho2. destruct (Hiso c1 H1 E1) as (_ & Hd & _). by apply (Hd q).
      * by apply (Hdis c1 c2 q H1 H2 Hne); apply Hback.
  - intros c2 a Hc2 Hne Ha. by apply Hiso.
Qed.

(** C23: whatever user pages the contexts with other directories map and unmap,
    in any order, at addresses whose directory index is a multiple of four, a
    context translates every user address as before, and all the contexts stay
    well formed and apart. *)
Theorem address_spaces_isolated cs c m m' :
  spaces_ok cs m -> c ∈ cs ->
  rtc (steps_of (fun c2 => c2 ∈ cs /\ physDirectory c2 <> physDirectory c)) m m' ->
  spaces_ok cs m' /\
  forall a, 0 <= a < KERNEL_VIRTUAL_BASE -> translate m' (physDirectory c) a = translate m (physDirectory c) a.
Proof.
  intros Hok Hc Hs. induction Hs as [|m1 m2 m3 (c2 & [Hc2 Hne] & Hstep) _ IH]; [done|].
  destruct (space_step_spaces cs m1 c2 m2 Hok Hc2 Hstep) as [Hok2 Htr]. destruct (IH Hok2) as [Hok3 Htr3].
  split; [done|]. intros a Ha. rewrite Htr3 by done. apply Htr; [done|congruence|done].
Qed.

(** ** The index mask *)

(** For three quarters of the directory entries the pointer that
    MemGetPageTable returns is outside the page of the table. *)
Theorem MemGetPageTable_outside context address m :
  let dir := physDirectory context in
  let i := address / 0x400000 in
  space_ok m dir -> 0 <= address < KERNEL_VIRTUAL_BASE -> i mod 4 <> 0 ->
  exists w, MemGetPageTable m (MemGetPageDirectory context address) address = Ret w /\
    w / WORDS = table_page m dir i + i mod 4 /\ w / WORDS <> table_page m dir i.
Proof.
  cbv zeta. intros Hs Ha H4. eexists. split; [by apply MemGetPageTable_eq|].
  set (T := table_page m _ _). split; zlia.
Qed.

(** So mapping a page at such an address succeeds without mapping it: no
    translation changes (when the page after the table is not one of the
    space's own). *)
Theorem MemIntMapUserPage_elsewhere fuel context address page flags m m' :
  let dir := physDirectory context in
  let i := address / 0x400000 in
  space_ok m dir -> 0 <= address < KERNEL_VIRTUAL_BASE -> i mod 4 <> 0 -> has_table m dir i = true ->
  ~ owned m dir (table_page m dir i + i mod 4) ->
  MemIntMapUserPage fuel context address page flags m = Ret m' ->
  forall a, 0 <= a < KERNEL_VIRTUAL_BASE -> translate m' dir a = translate m dir a.
Proof.
  cbv zeta. intros Hs Ha H4 Ht Hno. unfold MemIntMapUserPage. destruct (_ =? 0); [by intros [= ->]|].
  destruct (Z.leb_spec KERNEL_VIRTUAL_BASE address); [lia|]. cbv zeta. intros E.
  unfold ensure_table in E. rewrite rd_pDir in E by done. cbn [mbind outcome_bind] in E.
  unfold has_table in Ht. rewrite Ht in E. cbn [mbind outcome_bind] in E.
  rewrite MemGetPageTable_eq in E by done. cbn [mbind outcome_bind] in E.
  set (dir := physDirectory context) in *. set (i := address / 0x400000) in *.
  set (w := table_page m dir i * WORDS + (address / 4096) mod 4096) in *.
  apply bind_Ret_inv in E as (m2 & [Hp Hw]%claim_entry_words & E). mem_inv.
  assert (forall w', owned m dir (w' / WORDS) -> same_hw (word (upd m2 w (user_entry (word m2 w) page flags)) w') (word m w')) as Hsame.
  { intros w' Ho. rewrite word_upd. destruct (Z.eqb_spec w w') as [<-|]; [|by apply Hw].
    destruct Hno. replace (table_page m dir i + i mod 4) with (w / WORDS); [done|]. unfold w, i. zlia. }
  intros a Hua. apply same_translate; [done| | |done|done].
  - simpl. rewrite Hp. apply Hs.
  - unfold used. simpl. by rewrite Hp.
Qed.

(** ** Regions over page tables *)

Definition total_pages (m : pages) : Z := zlen (MemPageStateTable (physical m)).

(** Frames mapped by a space that can be given back: pages with an entry in
    the state table and a positive [pageID], and not the space's own tables. *)
Definition frames_ok (m : pages) (dir : Z) : Prop :=
  total_pages m <= 0x80000 /\
  forall a mp, 0 <= a < KERNEL_VIRTUAL_BASE -> translate m dir a = Some mp ->
    0 <= frame mp < total_pages m /\ ~ owned m dir (frame mp).

Lemma translate_same_page m dir a b : a / 4096 = b / 4096 -> translate m dir a = translate m dir b.
Proof.
  intros H. unfold translate, table_entry. assert (a / 0x400000 = b / 0x400000) as -> by zlia. by rewrite H.
Qed.

(** The translations of [m'] are among those of [m]. *)
Definition fewer (m m' : pages) (dir : Z) : Prop :=
  forall a, 0 <= a < KERNEL_VIRTUAL_BASE ->
    translate m' dir a = None \/ translate m' dir a = translate m dir a.

Lemma fewer_trans m1 m2 m3 dir : fewer m1 m2 dir -> fewer m2 m3 dir -> fewer m1 m3 dir.
Proof. intros H1 H2 a Ha. destruct (H2 a Ha) as [|E]; [auto|]. rewrite E. by apply H1. Qed.

(** Unmapping and dropping the reference of one page. *)
Lemma unmap_and_free context address m :
  let dir := physDirectory context in
  space_ok m dir -> frames_ok m dir -> 0 <= address < KERNEL_VIRTUAL_BASE -> (address / 0x400000) mod 4 = 0 ->
  exists m', MemIntUnmapUserPageAndFree context address m = Ret m' /\ space_ok m' dir /\ frames_ok m' dir /\
    fewer m m' dir /\ translate m' dir address = None /\
    forall a, 0 <= a < KERNEL_VIRTUAL_BASE -> a / 0x400000 <> address / 0x400000 ->
      translate m' dir a = translate m dir a.
Proof.
  cbv zeta. intros Hs [Htot Hfr] Ha H4. set (dir := physDirectory context) in *.
  unfold MemIntUnmapUserPageAndFree. pose proof (unmap_removes context address m Hs Ha H4) as Hun. fold dir in Hun.
  destruct (translate m dir address) as [mp|] eqn:Etr.
  2: { rewrite Hun. mem_run. change (INVALID_PAGE =? INVALID_PAGE) with true. cbv iota.
       exists m. split; [done|]. split; [done|]. split; [done|]. split; [by right|done]. }
  destruct (Hfr address mp Ha Etr) as [Hfp Hno].
  destruct Hun as (b & m0 & m1 & _ & -> & Hs1 & Hc1 & Ht1 & Htot1 & Hown1 & Hb). mem_run.
  assert (signed_page (frame mp) = frame mp) as -> by (unfold signed_page; destruct (Z.ltb_spec (frame mp) 0x80000); lia).
  unfold INVALID_PAGE. destruct (Z.eqb_spec (frame mp) (-1)); [lia|]. fold (total_pages m1) (total_pages m) in Htot1.
  destruct (deleteref_one (frame mp) (physical m1) (so_phys _ _ Hs1)) as (ph & pg & -> & Hok & Hpg & Htbl).
  { unfold total_pages in *. lia. }
  mem_run. set (m2 := set_physical m1 ph).
  assert (forall q, owned m1 dir q -> used m1 q -> used m2 q) as Hu2.
  { intros q Ho Hu. unfold used, m2, in_use. simpl. rewrite Htbl. rewrite zget_zset_ne; [done|].
    intros Heq. apply Hno. rewrite Heq. by apply Hown1. }
  assert (forall w, owned m1 dir (w / WORDS) -> same_hw (word m2 w) (word m1 w)) as Hw2 by done.
  assert (forall a, 0 <= a < KERNEL_VIRTUAL_BASE -> translate m2 dir a = translate m1 dir a) as Ht2 by done.
  assert (fewer m m2 dir) as Hfew.
  { intros a Hua. rewrite Ht2, Ht1 by done. destruct (if b then _ else _); auto. }
  exists m2. split; [done|]. split; [by apply (same_space m1)|]. split; [|split; [done|split]].
  - assert (total_pages m2 = total_pages m) as Htot2 by (unfold total_pages, m2 in *; simpl; by rewrite Htbl, zlen_zset).
    split; [lia|]. intros a mp' Hua Etr'. rewrite Htot2. destruct (Hfew a Hua) as [|Heq]; [congruence|].
    rewrite Heq in Etr'. destruct (Hfr a mp' Hua Etr') as [? Hn]. split; [done|]. intros Ho. by apply Hn, Hown1.
  - rewrite Ht2, Ht1 by done. rewrite !Z.eqb_refl. by destruct b.
  - intros a Hua Hne. rewrite Ht2, Ht1 by done. destruct b.
    + by destruct (Z.eqb_spec (a / 0x400000) (address / 0x400000)).
    + destruct (Z.eqb_spec (a / 4096) (address / 4096)); [|done]. exfalso. apply Hne. zlia.
Qed.

(** Unmapping a run of pages. *)
Lemma unmap_all_pages context n a m :
  let dir := physDirectory context in
  space_ok m dir -> frames_ok m dir -> 0 <= a -> a + 4096 * Z.of_nat n <= KERNEL_VIRTUAL_BASE ->
  (forall b, a <= b < a + 4096 * Z.of_nat n -> (b / 0x400000) mod 4 = 0) ->
  exists m', unmap_all (UP := user_pages context) (pages_from n a) m = Ret m' /\ space_ok m' dir /\ frames_ok m' dir /\
    fewer m m' dir /\
    (forall b, a <= b < a + 4096 * Z.of_nat n -> a mod 4096 = 0 -> translate m' dir b = None) /\
    forall b, 0 <= b < KERNEL_VIRTUAL_BASE ->
      (forall c, a <= c < a + 4096 * Z.of_nat n -> b / 0x400000 <> c / 0x400000) -> translate m' dir b = translate m dir b.
Proof.
  cbv zeta. revert a m.
  induction n as [|n IH]; intros a m Hs Hf Ha Hend H4; cbn [pages_from unmap_all].
  { exists m. split; [done|]. split; [done|]. split; [done|]. split; [by right|]. split; [lia|done]. }
  destruct (unmap_and_free context a m) as (m1 & E1 & Hs1 & Hf1 & Hfew1 & Hn1 & Hk1);
    [done|done|lia|apply H4; lia|].
  change (unmap_free (UserPages := user_pages context) a m) with (MemIntUnmapUserPageAndFree context a m).
  rewrite E1. mem_run.
  destruct (IH (a + 4096) m1) as (m2 & E2 & Hs2 & Hf2 & Hfew2 & Hn2 & Hk2);
    [done|done|lia|lia|intros; apply H4; lia|].
  exists m2. split; [done|]. split; [done|]. split; [done|]. split; [by eapply fewer_trans|]. split.
  - intros b Hb Hal. destruct (Z.lt_ge_cases b (a + 4096)); [|apply Hn2; zlia].
    assert (translate m1 (physDirectory context) b = None) as Hb1.
    { rewrite <- Hn1. apply translate_same_page. zlia. }
    destruct (Hfew2 b) as [|Heq]; [lia|done|congruence].
  - intros b Hb Hout. rewrite Hk2; [apply Hk1; [done|apply Hout; lia]|done|]. intros c Hc. apply Hout. lia.
Qed.

(** Shrinking a region takes every page that is cut off out of the map of the
    processor, adds no translation, and leaves the 4 MB blocks that the cut
    does not touch as they are. *)
Theorem MemRegionResize_unmaps fuel context i region newLength m :
  let dir := physDirectory context in
  regions_ok (regions context) -> zget (regions context) i = Some region ->
  0 <= newLength < length_ region -> newLength mod 4096 = 0 -> length_ region <= 4096 * Z.of_nat fuel ->
  space_ok m dir -> frames_ok m dir ->
  (forall a, start region + newLength <= a < start region + length_ region -> (a / 0x400000) mod 4 = 0) ->
  exists context' m', MemRegionResize (UP := user_pages context) fuel context i newLength m = Ret (None, context', m') /\
    space_ok m' dir /\
    (forall a, start region + newLength <= a < start region + length_ region -> translate m' dir a = None) /\
    (forall a, 0 <= a < KERNEL_VIRTUAL_BASE ->
       translate m' dir a = None \/ translate m' dir a = translate m dir a) /\
    (forall a, 0 <= a < KERNEL_VIRTUAL_BASE ->
       (forall c, start region + newLength <= c < start region + length_ region -> a / 0x400000 <> c / 0x400000) ->
       translate m' dir a = translate m dir a).
Proof.
  cbv zeta. intros Hok Hi Hn Hal Hf Hs Hfr H4.
  rewrite (resize_shrink fuel context i region) by done.
  destruct (zget_region_ok _ _ _ Hok Hi) as (? & ? & ? & ? & ?).
  set (n := Z.to_nat ((length_ region - newLength) / 4096)).
  assert (4096 * Z.of_nat n = length_ region - newLength) as Hn4 by (unfold n; zlia).
  destruct (unmap_all_pages context n (start region + newLength) m) as (m' & -> & Hs' & _ & Hfew & Hnone & Hkeep);
    [done|done|lia|unfold KERNEL_VIRTUAL_BASE; lia|intros; apply H4; lia|].
  mem_run. eexists _, m'. split; [done|]. split; [done|]. split; [|split; [done|]].
  - intros a Ha. apply Hnone; [lia|zlia].
  - intros a Ha Hout. apply Hkeep; [done|]. intros c Hc. apply Hout. lia.
Qed.

(** ** A small machine

    64 pages of physical memory: page 1 is an empty directory, and page 0 is in
    use too. *)
Definition a_phys : phys :=
  mkPhys (replicate 2 (mkMemPage 1 0) ++ replicate 62 (mkMemPage 0 0))
    [mkZone 0 0 64; mkZone 64 64 64; mkZone 64 64 64] 64 62.
Definition a_machine : pages := mkPages a_phys ∅.
Definition a_context : MemContext := mkMemContext [mkMemRegion 3 0x1000 0x2000] 1 0.

Lemma a_phys_ok : phys_ok a_phys.
Proof.
  split_and!.
  - split; [reflexivity|]. repeat (apply Forall_cons; split); [..|done]; unfold zone_wf; vm_compute; intuition discriminate.
  - exists 0. split_and!; [vm_compute; reflexivity|vm_compute; reflexivity|].
    apply Forall_app. split; apply Forall_replicate; simpl; lia.
  - intros k z Hk Hz. change MEM_KFIXED_MAX_PAGE with 0x30000. unfold zget in Hz. destruct (Z.ltb_spec k 0); [done|].
    assert (k = 0 \/ k = 1) as [-> | ->] by (unfold MEM_KERNEL in Hk; lia); injection Hz as <-; simpl; lia.
Qed.

Lemma a_space_ok : space_ok a_machine (physDirectory a_context).
Proof.
  split.
  - exact a_phys_ok.
  - split; [vm_compute; intuition discriminate|]. exists (mkMemPage 1 0). split; [reflexivity|simpl; lia].
  - intros i _. vm_compute. intuition discriminate.
  - done.
  - done.
  - done.
Qed.

Lemma a_page_available : page_available 100 MEM_KERNEL a_phys.
Proof.
  split; [vm_compute; reflexivity|]. exists 0, (mkZone 0 0 64). unfold MEM_KERNEL.
  split; [lia|]. split; [reflexivity|]. split; [simpl; lia|]. split.
  - exists 2. split; [simpl; lia|reflexivity].
  - intros i z Hi Hz. assert (i = 1) as -> by lia. injection Hz as <-. left. simpl. lia.
Qed.

(** One page mapped at 0x1000. *)
Definition a_mapped : outcome pages := MemIntMapUserPage 100 a_context 0x1000 50 MEM_WRITABLE a_machine.

Lemma a_mapped_ok : exists m, a_mapped = Ret m /\ space_ok m (physDirectory a_context) /\
  translate m 1 0x1000 = Some (mkMapping 50 true true false).
Proof.
  destruct (map_succeeds 100 a_context 0x1000 50 MEM_WRITABLE a_machine a_space_ok) as [m E].
  - unfold KERNEL_VIRTUAL_BASE. lia.
  - reflexivity.
  - exact a_page_available.
  - lia.
  - exists m. split; [exact E|].
    destruct (map_inserts 100 a_context 0x1000 50 MEM_WRITABLE a_machine m a_space_ok) as (Hs & _ & Ht);
      [unfold KERNEL_VIRTUAL_BASE; lia|reflexivity|discriminate|exact E|].
    split; [exact Hs|]. apply Ht. unfold KERNEL_VIRTUAL_BASE. lia.
Qed.

Lemma MemIntMapUserPage_inserts_witness :
  exists m, MemIntMapUserPage 100 a_context 0x1000 50 MEM_WRITABLE a_machine = Ret m /\
    translate m 1 0x1fff = Some (mkMapping 50 true true false) /\ translate m 1 0x2000 = None.
Proof.
  destruct (MemIntMapUserPage_inserts 100 a_context 0x1000 50 MEM_WRITABLE a_machine a_space_ok) as (m & E & _ & _ & Ht).
  - unfold KERNEL_VIRTUAL_BASE. lia.
  - reflexivity.
  - discriminate.
  - exact a_page_available.
  - lia.
  - exists m. split; [exact E|]. split; [apply (Ht 0x1fff)|apply (Ht 0x2000)]; unfold KERNEL_VIRTUAL_BASE; lia.
Defined.


Lemma map_unmap_roundtrip_witness :
  exists m1 m2, MemIntMapUserPage 100 a_context 0x1000 50 MEM_WRITABLE a_machine = Ret m1 /\
    MemIntUnmapUserPage a_context 0x1000 m1 = Ret (50, m2) /\ has_table m2 1 0 = true.
Proof.
  destruct (map_unmap_roundtrip 100 a_context 0x1000 50 MEM_WRITABLE a_machine a_space_ok)
    as (m1 & m2 & E1 & E2 & _ & _ & Ht & _).
  - unfold KERNEL_VIRTUAL_BASE. lia.
  - reflexivity.
  - discriminate.
  - reflexivity.
  - exact a_page_available.
  - lia.
  - exists m1, m2. split; [exact E1|]. split; [exact E2|exact Ht].
Defined.

(** The same machine with two page tables, in pages 2 and 3, for the first two
    directory entries; page 50 is mapped at 0x1000. *)
Definition b_phys : phys :=
  mkPhys (replicate 4 (mkMemPage 1 0) ++ replicate 46 (mkMemPage 0 0) ++ [mkMemPage 1 0] ++ replicate 13 (mkMemPage 0 0))
    [mkZone 0 0 32; mkZone 32 32 64; mkZone 64 64 64] 64 59.
Definition b_machine : pages := upd (upd (upd (mkPages b_phys ∅) 1024 0x2007) 1025 0x3007) 2049 0x32007.

Lemma b_phys_ok : phys_ok b_phys.
Proof.
  split_and!.
  - split; [reflexivity|]. repeat (apply Forall_cons; split); [..|done]; unfold zone_wf; vm_compute; intuition discriminate.
  - exists 0. split_and!; [vm_compute; reflexivity|vm_compute; reflexivity|].
    repeat (apply Forall_app; split); repeat constructor; simpl; lia.
  - intros k z Hk Hz. change MEM_KFIXED_MAX_PAGE with 0x30000. unfold zget in Hz. destruct (Z.ltb_spec k 0); [done|].
    assert (k = 0 \/ k = 1) as [-> | ->] by (unfold MEM_KERNEL in Hk; lia); injection Hz as <-; simpl; lia.
Qed.

Lemma b_dir i : 0 <= i < WORDS ->
  dir_entry b_machine 1 i = if i =? 0 then 0x2007 else if i =? 1 then 0x3007 else 0.
Proof.
  intros Hi. unfold dir_entry, b_machine. rewrite !word_upd. change (word (mkPages b_phys ∅) _) with 0. bool_cases; done || lia.
Qed.

Lemma b_table i : 0 <= i < USER_SLOTS -> has_table b_machine 1 i = true -> i = 0 \/ i = 1.
Proof.
  unfold has_table, USER_SLOTS. intros Hi. rewrite b_dir by lia. destruct (Z.eqb_spec i 0); [auto|].
  destruct (Z.eqb_spec i 1); [auto|done].
Qed.

Lemma b_owned q : owned b_machine 1 q -> q = 1 \/ q = 2 \/ q = 3.
Proof. intros [->|(i & Hi & Ht & ->)]; [auto|]. apply b_table in Ht as [-> | ->]; [auto..|done]. Qed.

Lemma b_used p : 0 <= p <= 3 -> used b_machine p.
Proof.
  intros Hp. exists (mkMemPage 1 0). split; [|simpl; lia].
  assert (p = 0 \/ p = 1 \/ p = 2 \/ p = 3) as [-> |[-> |[-> | ->]]] by lia; reflexivity.
Qed.

Lemma b_space_ok : space_ok b_machine 1.
Proof.
  split.
  - exact b_phys_ok.
  - split; [vm_compute; intuition discriminate|]. apply b_used. lia.
  - intros i Hi. unfold table_page. rewrite b_dir by done. destruct (i =? 0); [vm_compute; intuition discriminate|].
    destruct (i =? 1); vm_compute; intuition discriminate.
  - intros i Hi. unfold USER_SLOTS in Hi. rewrite b_dir by lia. destruct (i =? 0); [done|]. by destruct (i =? 1).
  - intros i Hi Ht. destruct (b_table i Hi Ht) as [-> | ->]; (split; [done|]); (split; [|done]); apply b_used; vm_compute; intuition discriminate.
  - intros i j Hi Hj Hti Htj. destruct (b_table i Hi Hti) as [-> | ->], (b_table j Hj Htj) as [-> | ->]; done.
Qed.

Lemma b_translate a :
  0 <= a < KERNEL_VIRTUAL_BASE ->
  translate b_machine 1 a = if a / 4096 =? 1 then Some (mkMapping 50 true true false) else None.
Proof.
  intros Ha. rewrite translate_user by (done || exact b_space_ok). pose proof (dir_index a Ha) as Hi.
  destruct (has_table b_machine 1 (a / 0x400000)) eqn:Ht.
  - cbv zeta. apply b_table in Ht as [Ht|Ht]; [|rewrite Ht|done].
    + rewrite Ht. change (table_page b_machine 1 0) with 2. destruct (Z.eqb_spec (a / 4096) 1) as [->|]; [reflexivity|].
      unfold b_machine. rewrite !word_upd. change (word (mkPages b_phys ∅) _) with 0. bool_cases; try done; exfalso; zlia.
    + change (table_page b_machine 1 1) with 3. destruct (Z.eqb_spec (a / 4096) 1); [exfalso; zlia|].
      unfold b_machine. rewrite !word_upd. change (word (mkPages b_phys ∅) _) with 0. bool_cases; try done; exfalso; zlia.
  - destruct (Z.eqb_spec (a / 4096) 1); [|done]. assert (a / 0x400000 = 0) as E by zlia. by rewrite E in Ht.
Qed.

Lemma b_frames_ok : frames_ok b_machine 1.
Proof.
  split; [vm_compute; discriminate|]. intros a mp Ha. rewrite b_translate by done. destruct (_ =? 1); [|done].
  intros [= <-]. split; [vm_compute; intuition discriminate|]. intros H%b_owned. simpl in H. lia.
Qed.

Definition b_context : MemContext := mkMemContext [] 0 0.

Lemma b_spaces_ok : spaces_ok [a_context; b_context] a_machine.
Proof.
  assert (forall d q, owned a_machine d q -> q = d) as Hown by (intros d q [->|(i & _ & Ht & _)]; done).
  split.
  - intros c [->|[->|[]%not_elem_of_nil]%elem_of_cons]%elem_of_cons; [exact a_space_ok|]. split; [exact a_phys_ok| |..].
    + split; [vm_compute; intuition discriminate|]. exists (mkMemPage 1 0). split; [reflexivity|simpl; lia].
    + intros i _. vm_compute. intuition discriminate.
    + done.
    + done.
    + done.
  - intros c1 c2 q _ _ Hne H1%Hown H2%Hown. congruence.
Qed.

Lemma address_spaces_isolated_witness :
  exists m, MemIntMapUserPage 100 b_context 0x1000 50 MEM_WRITABLE a_machine = Ret m /\
    translate m 1 0x1000 = None.
Proof.
  destruct (map_succeeds 100 b_context 0x1000 50 MEM_WRITABLE a_machine) as [m E].
  - apply b_spaces_ok. right. left.
  - unfold KERNEL_VIRTUAL_BASE. lia.
  - reflexivity.
  - exact a_page_available.
  - lia.
  - exists m. split; [exact E|].
    refine (proj2 (address_spaces_isolated [a_context; b_context] a_context a_machine m b_spaces_ok _ _) 0x1000 _).
    + left.
    + eapply rtc_once. exists b_context. split; [split; [right; left|discriminate]|].
      apply (step_map _ _ _ 100 0x1000 50 MEM_WRITABLE); [unfold KERNEL_VIRTUAL_BASE; lia|reflexivity|exact E].
    + unfold KERNEL_VIRTUAL_BASE. lia.
Defined.

Lemma MemGetPageTable_outside_witness :
  exists w, MemGetPageTable b_machine (MemGetPageDirectory a_context 0x400000) 0x400000 = Ret w /\ w / 1024 = 4.
Proof.
  destruct (MemGetPageTable_outside a_context 0x400000 b_machine b_space_ok) as (w & E & Hw & _).
  - unfold KERNEL_VIRTUAL_BASE. lia.
  - discriminate.
  - exists w. split; [exact E|exact Hw].
Defined.

Lemma MemIntMapUserPage_elsewhere_witness :
  exists m, MemIntMapUserPage 100 a_context 0x400000 51 MEM_WRITABLE b_machine = Ret m /\ translate m 1 0x400000 = None.
Proof.
  eexists (mkPages b_phys _). split; [vm_compute; reflexivity|].
  refine (MemIntMapUserPage_elsewhere 100 a_context 0x400000 51 MEM_WRITABLE b_machine _ b_space_ok _ _ _ _ _ 0x400000 _).
  - unfold KERNEL_VIRTUAL_BASE. lia.
  - discriminate.
  - reflexivity.
  - intros H%b_owned. vm_compute in H. intuition discriminate.
  - vm_compute. reflexivity.
  - unfold KERNEL_VIRTUAL_BASE. lia.
Defined.

Lemma MemRegionResize_unmaps_witness :
  exists c m, MemRegionResize (UP := user_pages a_context) 4 a_context 0 0 b_machine = Ret (None, c, m) /\
    translate m 1 0x1000 = None.
Proof.
  destruct (MemRegionResize_unmaps 4 a_context 0 (mkMemRegion 3 0x1000 0x2000) 0 b_machine) as (c & m & E & _ & Hn & _).
  - repeat split; simpl; lia || constructor.
  - reflexivity.
  - simpl. lia.
  - reflexivity.
  - simpl. lia.
  - exact b_space_ok.
  - exact b_frames_ok.
  - simpl. intros a Ha. assert (a / 0x400000 = 0) as -> by zlia. reflexivity.
  - exists c, m. split; [exact E|]. apply Hn. simpl. lia.
Defined.

(** ** Where the counters go wrong *)

(** One page mapped and unmapped again in the first page of block [i]. *)
Definition touch (i : Z) (m : pages) : outcome pages :=
  m1 ← MemIntMapUserPage 100 a_context (i * 0x400000) 50 MEM_WRITABLE m;
  '(_, m2) ← MemIntUnmapUserPage a_context (i * 0x400000) m1;
  Ret m2.

Definition two_pages_mapped : outcome pages :=
  m1 ← touch 1 a_machine; m2 ← touch 2 m1; m3 ← touch 3 m2; m4 ← touch 4 m3;
  m5 ← MemIntMapUserPage 100 a_context 0x1000 50 MEM_WRITABLE m4;
  MemIntMapUserPage 100 a_context 0x2000 51 MEM_WRITABLE m5.

(** A page table can be freed while a page is mapped in it: after the next
    four blocks were used once, unmapping one of the two pages of the first
    block takes the other one out of the address space, and its table becomes
    a free page. *)
Theorem unmap_frees_live_table :
  (m ← two_pages_mapped;
   '(page, m') ← MemIntUnmapUserPage a_context 0x1000 m;
   Ret (translate m 1 0x2000, table_page m 1 0, page,
        translate m' 1 0x2000, is_free (MemPageStateTable (physical m')) 6))
  = Ret (Some (mkMapping 51 true true false), 6, 50, None, true).
Proof. vm_compute. reflexivity. Qed.

(** The eighth page of a table carries into the table of the next directory
    entry; where there is none, into the first word of physical page 0. *)
Theorem eighth_page_writes_page_0 :
  (m ← foldr (fun k r => m ← r; MemIntMapUserPage 100 a_context (k * 4096) 50 MEM_WRITABLE m)
         (Ret a_machine) [1; 2; 3; 4; 5; 6; 7; 8];
   Ret (word a_machine 0, word m 0)) = Ret (0, 0x200).
Proof. vm_compute. reflexivity. Qed.
