(* ===== verification/Context.v ===== *)
(** * Memory contexts (src/mm/region.c)

    Creating, cloning and deleting the page tables of a context. The list of
    regions of a context is part of its record; the structures themselves come
    from MemKAlloc, which is not seen here. The theorems are in ContextSpec.v. *)
From S2P Require Import Prelude Physical PageMap Region UserPage.

(** ** Block operations on words *)

(** MemCpy of [n] words inside the direct map. *)
Fixpoint copy_words (n : nat) (src dst : Z) (m : pages) : outcome pages :=
  match n with
  | O => Ret m
  | S n' =>
      v ← rd m src;
      m' ← wr m dst v;
      copy_words n' (src + 1) (dst + 1) m'
  end.

(** MemCpy from a kernel array. *)
Fixpoint copy_in (l : list Z) (dst : Z) (m : pages) : outcome pages :=
  match l with
  | [] => Ret m
  | v :: l' => m' ← wr m dst v; copy_in l' (dst + 1) m'
  end.

Section Contexts.
(** Fuel for the search of the page allocator. *)
Context (fuel : nat).
(** The array MemKernelPageDirectory. *)
Context (MemKernelPageDirectory : list Z).

(** MemCpy(dir + 0x300, MemKernelPageDirectory + 0x300, sizeof(MemPageDirectory) * 256) *)
Definition copy_kernel_area (dir : Z) (m : pages) : outcome pages :=
  copy_in (take 256 (drop 0x300 MemKernelPageDirectory)) (dir * WORDS + 0x300) m.

(** ** MemContextInit *)

Definition MemContextInit (m : pages) : outcome (MemContext * pages) :=
  '(dir, ph) ← MemPhysicalAlloc fuel 1 MEM_KERNEL (physical m);
  m1 ← zero_words 768 (dir * WORDS) (set_physical m ph);
  m2 ← copy_kernel_area dir m1;
  Ret (mkMemContext [] dir 0, m2).

(** ** MemContextClone *)

(** Each region is copied and added as the last of the new list. *)
Fixpoint clone_regions (old new : list MemRegion) : list MemRegion :=
  match old with
  | [] => new
  | oldRegion :: rest => clone_regions rest (new ++ [oldRegion])
  end.

(** for(int j = 0; j < 1024; ++j): [n] turns are left. *)
Fixpoint share_entries (n : nat) (table j : Z) (m : pages) : outcome pages :=
  match n with
  | O => Ret m
  | S n' =>
      e ← rd m (table * WORDS + j);
      m' ← (if truth (present e) then
              ph ← MemPhysicalAddRef (pageID e) 1 (physical m);
              wr (set_physical m ph) (table * WORDS + j) (set_writable e 0)
            else Ret m);
      share_entries n' table (j + 1) m'
  end.

(** One turn of the loop over the directory. *)
Definition clone_entry (currDir dir i : Z) (m : pages) : outcome pages :=
  d ← rd m (currDir * WORDS + i);
  m1 ← wr m (dir * WORDS + i) d;
  d1 ← rd m1 (currDir * WORDS + i);
  if truth (present d1) then
    let table := pageID d1 in
    m2 ← share_entries 1024 table 0 m1;
    '(newTable, ph) ← MemPhysicalAlloc fuel 1 MEM_KERNEL (physical m2);
    m3 ← copy_words 1024 (table * WORDS) (newTable * WORDS) (set_physical m2 ph);
    d2 ← rd m3 (dir * WORDS + i);
    wr m3 (dir * WORDS + i) (set_pageID d2 newTable)
  else Ret m1.

(** for(int i = 0; i < 0x300; ++i): [n] turns are left. *)
Fixpoint clone_tables (n : nat) (currDir dir i : Z) (m : pages) : outcome pages :=
  match n with
  | O => Ret m
  | S n' => m' ← clone_entry currDir dir i m; clone_tables n' currDir dir (i + 1) m'
  end.

(** Clones [MemCurrentContext]. *)
Definition MemContextClone (current : MemContext) (m : pages) : outcome (MemContext * pages) :=
  '(dir, ph) ← MemPhysicalAlloc fuel 1 MEM_KERNEL (physical m);
  m1 ← copy_kernel_area dir (set_physical m ph);
  m2 ← clone_tables 0x300 (physDirectory current) dir 0 m1;
  Ret (mkMemContext (clone_regions (regions current) []) dir 0, m2).

(** ** MemContextDelete, after its checks *)

Fixpoint release_frames (n : nat) (table j : Z) (m : pages) : outcome pages :=
  match n with
  | O => Ret m
  | S n' =>
      e ← rd m (table * WORDS + j);
      m' ← (if truth (present e) then
              ph ← MemPhysicalDeleteRef (pageID e) 1 (physical m); Ret (set_physical m ph)
            else Ret m);
      release_frames n' table (j + 1) m'
  end.

Definition delete_entry (dir i : Z) (m : pages) : outcome pages :=
  d ← rd m (dir * WORDS + i);
  if truth (present d) then
    m1 ← release_frames 1024 (pageID d) 0 m;
    ph ← MemPhysicalFree (pageID d) 1 (physical m1);
    Ret (set_physical m1 ph)
  else Ret m.

Fixpoint delete_tables (n : nat) (dir i : Z) (m : pages) : outcome pages :=
  match n with
  | O => Ret m
  | S n' => m' ← delete_entry dir i m; delete_tables n' dir (i + 1) m'
  end.

Definition free_context_pages (context : MemContext) (m : pages) : outcome pages :=
  m1 ← delete_tables 0x300 (physDirectory context) 0 m;
  ph ← MemPhysicalFree (physDirectory context) 1 (physical m1);
  Ret (set_physical m1 ph).

(** MemContextDelete: [None] when the context and its regions are gone, the
    context itself when the deletion is refused. [cr3]: the register of the
    processor. *)
Definition delete_context (cr3 : Z) (isKernel : bool) (context : MemContext) (m : pages)
  : outcome (option MemContext * pages) :=
  if u32 (physDirectory context) =? cr3 / 4096 then Ret (Some context, m)
  else if physDirectory context =? INVALID_PAGE then Ret (Some context, m)
  else if isKernel then Ret (Some context, m)
  else m' ← free_context_pages context m; Ret (None, m').

(** MemContextDeleteReference *)
Definition delete_context_reference (cr3 : Z) (isKernel : bool) (context : MemContext) (m : pages)
  : outcome (option MemContext * pages) :=
  if refCount context <=? 1 then delete_context cr3 isKernel context m
  else Ret (Some (mkMemContext (regions context) (physDirectory context) (u32 (refCount context - 1))), m).
End Contexts.

(** ** Blocks of words *)

Lemma copy_words_spec n src dst m :
  (forall j, src <= j < src + Z.of_nat n -> direct j = true) ->
  (forall j, dst <= j < dst + Z.of_nat n -> direct j = true) ->
  src + Z.of_nat n <= dst \/ dst + Z.of_nat n <= src ->
  exists m', copy_words n src dst m = Ret m' /\ physical m' = physical m /\
    forall w, word m' w = if (dst <=? w) && (w <? dst + Z.of_nat n) then word m (src + (w - dst)) else word m w.
Proof.
  revert src dst m. induction n as [|n IH]; intros src dst m Hs Hd Hdis.
  - exists m. split; [done|]. split; [done|]. intros w. bool_cases; done || lia.
  - cbn [copy_words]. rewrite rd_direct by (apply Hs; lia). mem_run. rewrite wr_direct by (apply Hd; lia). mem_run.
    destruct (IH (src + 1) (dst + 1) (upd m dst (word m src))) as (m' & E & Hp & Hw);
      [intros; apply Hs; lia|intros; apply Hd; lia|lia|].
    exists m'. split; [done|]. split; [done|]. intros w. rewrite Hw, !word_upd.
    replace (src + 1 + (w - (dst + 1))) with (src + (w - dst)) by lia.
    destruct (Z.eqb_spec dst w) as [<-|].
    + rewrite Z.sub_diag, Z.add_0_r. bool_cases; done || lia.
    + destruct (Z.eqb_spec dst (src + (w - dst))); bool_cases; done || lia.
Qed.

Lemma copy_page_spec src dst m :
  low_page src -> low_page dst -> src <> dst ->
  exists m', copy_words 1024 (src * WORDS) (dst * WORDS) m = Ret m' /\ physical m' = physical m /\
    forall w, word m' w = if w / WORDS =? dst then word m (src * WORDS + w mod WORDS) else word m w.
Proof.
  unfold low_page. intros Hs Hd Hne.
  destruct (copy_words_spec 1024 (src * WORDS) (dst * WORDS) m) as (m' & E & Hp & Hw);
    [intros; apply direct_spec; lia|intros; apply direct_spec; lia|lia|].
  exists m'. split; [exact E|]. split; [exact Hp|]. intros w. rewrite Hw. clear E Hw Hp.
  change (Z.of_nat 1024) with 1024. rewrite page_range. destruct (Z.eqb_spec (w / WORDS) dst) as [<-|]; [|reflexivity].
  f_equal. zlia.
Qed.

Lemma copy_in_spec l dst m :
  (forall j, dst <= j < dst + zlen l -> direct j = true) ->
  exists m', copy_in l dst m = Ret m' /\ physical m' = physical m /\
    forall w, word m' w = match zget l (w - dst) with Some v => v | None => word m w end.
Proof.
  revert dst m. induction l as [|v l IH]; intros dst m Hd.
  - exists m. split; [done|]. split; [done|]. intros w. unfold zget. rewrite lookup_nil. by destruct (_ <? 0).
  - assert (zlen (v :: l) = zlen l + 1) as Hl by (unfold zlen; simpl; lia). pose proof (zlen_nonneg l).
    cbn [copy_in]. rewrite wr_direct by (apply Hd; lia). mem_run.
    destruct (IH (dst + 1) (upd m dst v)) as (m' & E & Hp & Hw); [intros; apply Hd; lia|].
    exists m'. split; [done|]. split; [done|]. intros w. rewrite Hw, word_upd. unfold zget.
    destruct (Z.ltb_spec (w - (dst + 1)) 0), (Z.ltb_spec (w - dst) 0); try lia.
    + by destruct (Z.eqb_spec dst w); [lia|].
    + assert (w = dst) as -> by lia. by rewrite Z.eqb_refl, Z.sub_diag.
    + replace (Z.to_nat (w - dst)) with (S (Z.to_nat (w - (dst + 1)))) by lia. simpl.
      destruct (l !! _); [done|]. destruct (Z.eqb_spec dst w); [lia|done].
Qed.

Lemma clone_regions_app old new : clone_regions old new = new ++ old.
Proof.
  revert new. induction old as [|r old IH]; intros new; simpl; [by rewrite app_nil_r|].
  by rewrite IH, <- app_assoc.
Qed.
