(* ===== verification/ContextSpec.v ===== *)
(** * What creating, cloning and deleting a context does

    Theorems about Context.v: a new context has an empty user part and the
    kernel's entries; a clone translates every user address to the same frame
    as the current context, in both without the right to write, and every
    frame gains one reference for each page that maps it; deleting takes these
    references back and frees the directory and the tables. *)
From S2P Require Import Prelude Physical PageMap Region UserPage UserSpace Context.

(** ** Reference counts *)

Definition refs (st : phys) (p : Z) : Z :=
  match zget (MemPageStateTable st) p with Some pg => Physical.refCount pg | None => 0 end.

Lemma in_use_refs st p : in_use (MemPageStateTable st) p <-> 0 < refs st p.
Proof.
  unfold in_use, refs. destruct (zget _ p) as [pg|].
  - split; [by intros (? & [= <-] & ?)|eauto].
  - split; [by intros (? & ? & _)|lia].
Qed.

Lemma refs_zset st st' p pg c q :
  zget (MemPageStateTable st) p = Some pg ->
  MemPageStateTable st' = zset (MemPageStateTable st) p (set_refCount pg c) ->
  refs st' q = if q =? p then c else refs st q.
Proof.
  intros Hp Ht. unfold refs. rewrite Ht. pose proof (zget_range _ _ _ Hp).
  destruct (Z.eqb_spec q p) as [->|]; [by rewrite zget_zset_eq|by rewrite zget_zset_ne].
Qed.

(** How often a page is in a list. *)
Fixpoint occ (p : Z) (l : list Z) : Z :=
  match l with [] => 0 | q :: l' => Z.b2z (p =? q) + occ p l' end.

Lemma occ_bound p l : 0 <= occ p l <= zlen l.
Proof. unfold zlen. induction l as [|q l IH]; simpl; [lia|]. destruct (p =? q); simpl; lia. Qed.

Lemma occ_app p l1 l2 : occ p (l1 ++ l2) = occ p l1 + occ p l2.
Proof. induction l1; simpl; lia. Qed.

Lemma occ_pos p l : p ∈ l -> 0 < occ p l.
Proof.
  induction l as [|q l IH]; [by intros []%not_elem_of_nil|]. simpl. pose proof (occ_bound p l).
  intros [->|?]%elem_of_cons; [rewrite Z.eqb_refl; simpl; lia|]. destruct (p =? q); simpl; lia || auto.
Qed.

Lemma occ_none p l : p ∉ l -> occ p l = 0.
Proof.
  induction l as [|q l IH]; [done|]. simpl. intros [Hne Hl]%not_elem_of_cons. rewrite IH by done.
  by destruct (Z.eqb_spec p q).
Qed.

(** A reference more, or less, for each page of a list. *)
Fixpoint addrefs (l : list Z) (st : phys) : outcome phys :=
  match l with [] => Ret st | p :: l' => st' ← MemPhysicalAddRef p 1 st; addrefs l' st' end.
Fixpoint delrefs (l : list Z) (st : phys) : outcome phys :=
  match l with [] => Ret st | p :: l' => st' ← MemPhysicalDeleteRef p 1 st; delrefs l' st' end.

(** The same zones and the same pages. *)
Definition same_shape (st st' : phys) : Prop :=
  zones st' = zones st /\ zlen (MemPageStateTable st') = zlen (MemPageStateTable st).

Lemma addref_loop_shape n p st st' : addref_loop n p st = Ret st' -> same_shape st st'.
Proof.
  revert p st. induction n as [|n IH]; intros p st; simpl; [by intros [= ->]|].
  destruct (zget _ _); [|done]. simpl. intros [? ?]%IH. simpl in *. split; [done|]. by rewrite zlen_zset in *.
Qed.

Lemma addrefs_spec l st :
  phys_ok st -> (forall p, p ∈ l -> in_use (MemPageStateTable st) p /\ refs st p + zlen l < 4294967296) ->
  exists st', addrefs l st = Ret st' /\ phys_ok st' /\ same_shape st st' /\
    forall p, refs st' p = refs st p + occ p l.
Proof.
  revert st. induction l as [|q l IH]; intros st Hok Hl.
  { exists st. split; [done|]. split; [done|]. split; [done|]. intros p. simpl. lia. }
  assert (zlen (q :: l) = zlen l + 1) as Hlen by (unfold zlen; simpl; lia). pose proof (zlen_nonneg l).
  destruct (Hl q ltac:(left)) as [Hu Hmax].
  destruct (addref_one q st Hok Hu) as (st1 & pg & E & Hok1 & Hpg & Ht).
  { intros pg Hpg. unfold refs in Hmax. rewrite Hpg in Hmax. lia. }
  assert (forall p, refs st1 p = refs st p + Z.b2z (p =? q)) as Hr1.
  { intros p. rewrite (refs_zset st st1 q pg _ p Hpg Ht). destruct (Z.eqb_spec p q) as [->|]; simpl; [|lia]. unfold refs. by rewrite Hpg. }
  destruct (IH st1 Hok1) as (st' & E' & Hok' & Hs' & Hr').
  { intros p Hp. destruct (Hl p ltac:(by right)) as [Hup Hmp]. rewrite in_use_refs in *. rewrite Hr1.
    destruct (p =? q); simpl; lia. }
  exists st'. split; [simpl; by rewrite E|]. split; [done|]. split.
  - destruct Hs', (addref_loop_shape _ _ _ _ E). split; congruence.
  - intros p. rewrite Hr', Hr1. simpl. lia.
Qed.

Lemma delref_loop_shape n p st st' : deleteref_loop n p st = Ret st' -> same_shape st st'.
Proof.
  revert p st. induction n as [|n IH]; intros p st; cbn [deleteref_loop]; [by intros [= ->]|].
  destruct (zget _ _) as [pg|]; [|done]. mem_run. cbn [or_fault]. mem_run. intros [Hz Hl]%IH.
  destruct (0 <? _); [|done]. destruct (_ =? 0); simpl in *; split; try done; by rewrite zlen_zset in *.
Qed.

Lemma delrefs_spec l st :
  phys_ok st -> (forall p, p ∈ l -> 0 <= p < zlen (MemPageStateTable st) /\ occ p l <= refs st p) ->
  exists st', delrefs l st = Ret st' /\ phys_ok st' /\ same_shape st st' /\
    forall p, refs st' p = refs st p - occ p l.
Proof.
  revert st. induction l as [|q l IH]; intros st Hok Hl.
  { exists st. split; [done|]. split; [done|]. split; [done|]. intros p. simpl. lia. }
  destruct (Hl q ltac:(left)) as [Hq Hocc]. simpl in Hocc. rewrite Z.eqb_refl in Hocc. simpl in Hocc.
  pose proof (occ_bound q l).
  destruct (deleteref_one q st Hok Hq) as (st1 & pg & E & Hok1 & Hpg & Ht).
  pose proof (delref_loop_shape _ _ _ _ E) as Hs1.
  assert (forall p, refs st1 p = refs st p - Z.b2z (p =? q)) as Hr1.
  { intros p. rewrite (refs_zset st st1 q pg _ p Hpg Ht). unfold refs in Hocc. rewrite Hpg in Hocc.
    destruct (Z.eqb_spec p q) as [->|]; simpl; [|lia]. unfold refs. rewrite Hpg. lia. }
  destruct (IH st1 Hok1) as (st' & E' & Hok' & Hs' & Hr').
  { intros p Hp. destruct (Hl p ltac:(by right)) as [Hrp Hop]. simpl in Hop. destruct Hs1 as [_ Hs1]. rewrite Hs1, Hr1.
    split; [done|lia]. }
  exists st'. split; [simpl; by rewrite E|]. split; [done|]. split.
  - destruct Hs', Hs1. split; congruence.
  - intros p. rewrite Hr', Hr1. simpl. lia.
Qed.

(** ** Free pages of the kernel zone *)

Fixpoint free_between (tbl : list MemPage) (n : nat) (s : Z) : Z :=
  match n with O => 0 | S n' => Z.b2z (is_free tbl s) + free_between tbl n' (s + 1) end.

Lemma free_between_pos tbl n s :
  0 < free_between tbl n s -> exists i, s <= i < s + Z.of_nat n /\ is_free tbl i = true.
Proof.
  revert s. induction n as [|n IH]; intros s; simpl; [lia|]. destruct (is_free tbl s) eqn:E.
  - intros _. exists s. split; [lia|done].
  - simpl. intros (i & Hi & Hf)%IH. exists i. split; [lia|done].
Qed.

Lemma free_between_same tbl tbl' n s :
  (forall i, s <= i < s + Z.of_nat n -> is_free tbl' i = is_free tbl i) ->
  free_between tbl' n s = free_between tbl n s.
Proof.
  revert s. induction n as [|n IH]; intros s H; simpl; [done|]. rewrite H by lia. f_equal. apply IH. intros. apply H. lia.
Qed.

Lemma free_between_taken tbl tbl' n s p :
  s <= p < s + Z.of_nat n -> is_free tbl p = true -> is_free tbl' p = false ->
  (forall i, i <> p -> is_free tbl' i = is_free tbl i) ->
  free_between tbl' n s = free_between tbl n s - 1.
Proof.
  intros Hp H1 H2 H. revert s Hp. induction n as [|n IH]; intros s Hp; simpl; [lia|].
  destruct (Z.eq_dec s p) as [->|].
  - rewrite H1, H2. simpl. rewrite (free_between_same tbl tbl'); [lia|]. intros. apply H. lia.
  - rewrite H by done. rewrite IH by lia. lia.
Qed.

(** A well-formed allocator with [n] free pages in the kernel's zone. *)
Definition room (fuel : nat) (st : phys) (n : Z) : Prop :=
  phys_ok st /\ enough_fuel st fuel /\
  exists z, zget (zones st) MEM_KERNEL = Some z /\ n <= free_between (MemPageStateTable st) (Z.to_nat (end_ z - Physical.start z)) (Physical.start z).

Lemma is_free_refs st p :
  phys_ok st -> is_free (MemPageStateTable st) p = true -> refs st p = 0.
Proof.
  intros _. unfold is_free, refs, page_free. destruct (zget _ p); [|done]. intros H. by apply Z.eqb_eq in H.
Qed.

Lemma is_free_eq st st' p :
  zlen (MemPageStateTable st') = zlen (MemPageStateTable st) -> (refs st' p = 0 <-> refs st p = 0) ->
  is_free (MemPageStateTable st') p = is_free (MemPageStateTable st) p.
Proof.
  unfold is_free, refs, page_free. intros Hl H.
  destruct (zget (MemPageStateTable st) p) eqn:E1, (zget (MemPageStateTable st') p) eqn:E2; try done.
  - destruct (Z.eqb_spec (Physical.refCount m) 0), (Z.eqb_spec (Physical.refCount m0) 0); tauto.
  - apply zget_range in E1. destruct (zget_in_range (MemPageStateTable st') p); [lia|congruence].
  - apply zget_range in E2. destruct (zget_in_range (MemPageStateTable st) p); [lia|congruence].
Qed.

Lemma room_same fuel st st' n :
  room fuel st n -> phys_ok st' -> same_shape st st' -> (forall p, refs st' p = 0 <-> refs st p = 0) ->
  room fuel st' n.
Proof.
  intros (_ & Hf & z & Hz & Hn) Hok [Hz' Hl] Hr. split; [done|]. split; [unfold enough_fuel in *; lia|].
  exists z. rewrite Hz'. split; [done|]. rewrite (free_between_same (MemPageStateTable st)); [done|].
  intros i _. by apply is_free_eq.
Qed.

(** Taking a kernel page. *)
Lemma alloc_kernel fuel st n :
  room fuel st (n + 1) -> 0 <= n ->
  exists p st', MemPhysicalAlloc fuel 1 MEM_KERNEL st = Ret (p, st') /\ room fuel st' n /\
    low_page p /\ refs st p = 0 /\ zlen (MemPageStateTable st') = zlen (MemPageStateTable st) /\
    forall q, refs st' q = if q =? p then 1 else refs st q.
Proof.
  intros (Hok & Hf & z & Hz & Hn) H0. pose proof Hok as (Hwf & [x Ha] & Hlow).
  destruct (free_between_pos (MemPageStateTable st) (Z.to_nat (end_ z - Physical.start z)) (Physical.start z)) as (i & Hi & Hfree); [lia|].
  destruct (alloc_one (x := x) st fuel MEM_KERNEL MEM_KERNEL z) as (p & pg & st' & E & Hp & Hpg & Hrc & Ht & _ & Ha' & Hwf').
  - done.
  - done.
  - done.
  - unfold MEM_KERNEL. lia.
  - done.
  - done.
  - lia.
  - exists i. split; [lia|done].
  - unfold MEM_KERNEL. lia.
  - destruct (alloc_one_sound fuel MEM_KERNEL st p st' Hok ltac:(done) E) as (_ & _ & _ & _ & Hok' & Hl).
    exists p, st'. assert (forall q, refs st' q = if q =? p then 1 else refs st q) as Hr by (intros q; by apply (refs_zset st st' p pg)).
    assert (zlen (MemPageStateTable st') = zlen (MemPageStateTable st)) as Hlen by (by rewrite Ht, zlen_zset).
    assert (is_free (MemPageStateTable st) p = true) as Hfp by (unfold is_free, page_free; by rewrite Hpg, Hrc).
    split; [done|]. split; [|split; [by apply Hl|split; [by apply is_free_refs|split; done]]].
    split; [done|]. split; [unfold enough_fuel in *; lia|].
    destruct (alloc_keeps_zone fuel MEM_KERNEL st p st' Hwf E MEM_KERNEL z Hz) as (z' & Hz' & Hs' & He').
    exists z'. split; [done|]. rewrite Hs', He'.
    rewrite (free_between_taken (MemPageStateTable st) (MemPageStateTable st') _ _ p); [lia|lia|done| |].
    + unfold is_free. rewrite Ht, zget_zset_eq by by eapply zget_range. done.
    + intros j Hj. unfold is_free. by rewrite Ht, zget_zset_ne by congruence.
Qed.

Lemma truth_bit e : truth (present e) = true -> present e = 1.
Proof.
  assert (0 <= present e < 2 ^ 1) by (apply field_range; lia). unfold truth. destruct (Z.eqb_spec (present e) 0); [done|lia].
Qed.

(** ** One page table *)

(** A present entry loses the right to write. *)
Definition drop_w (e : Z) : Z := if truth (present e) then set_writable e 0 else e.

Lemma drop_w_fields e :
  present (drop_w e) = present e /\ pageID_raw (drop_w e) = pageID_raw e /\
  userMode (drop_w e) = userMode e /\ cacheDisable (drop_w e) = cacheDisable e /\
  (truth (present e) = true -> writable (drop_w e) = 0).
Proof.
  unfold drop_w. destruct (truth (present e)); [|by split_and!].
  unfold present, pageID_raw, userMode, cacheDisable, writable, set_writable.
  split_and!; try intros _; [by rewrite field_set_other by lia..|by rewrite field_set_same by lia].
Qed.

Lemma drop_w_twice e : drop_w (drop_w e) = drop_w e.
Proof.
  destruct (drop_w_fields e) as (Hp & _). unfold drop_w at 1. rewrite Hp. unfold drop_w.
  destruct (truth (present e)); [|done]. by apply set_field_twice.
Qed.

(** The frames that the entries [j], ..., [j + n - 1] of a table map. *)
Fixpoint frames_at (m : pages) (table : Z) (n : nat) (j : Z) : list Z :=
  match n with
  | O => []
  | S n' =>
      let e := word m (table * WORDS + j) in
      (if truth (present e) then [pageID e] else []) ++ frames_at m table n' (j + 1)
  end.

Lemma frames_at_ext m m' t t' n j :
  (forall k, j <= k < j + Z.of_nat n ->
     present (word m' (t' * WORDS + k)) = present (word m (t * WORDS + k)) /\
     pageID_raw (word m' (t' * WORDS + k)) = pageID_raw (word m (t * WORDS + k))) ->
  frames_at m' t' n j = frames_at m t n j.
Proof.
  revert j. induction n as [|n IH]; intros j H; [done|]. cbn [frames_at]. destruct (H j) as [Hp Hr]; [lia|].
  unfold pageID. rewrite Hp, Hr. f_equal. apply IH. intros. apply H. lia.
Qed.

Lemma frames_at_length m t n j : zlen (frames_at m t n j) <= Z.of_nat n.
Proof.
  revert j. induction n as [|n IH]; intros j; [done|]. cbn [frames_at]. specialize (IH (j + 1)). unfold zlen in *.
  rewrite length_app. destruct (truth _); simpl length; lia.
Qed.

Lemma addrefs_app l1 l2 st : addrefs (l1 ++ l2) st = st' ← addrefs l1 st; addrefs l2 st'.
Proof.
  revert st. induction l1 as [|p l1 IH]; intros st; [done|]. simpl. destruct (MemPhysicalAddRef p 1 st); simpl; [apply IH|done..].
Qed.

(** Sharing a table adds a reference for each frame and drops the right to
    write from its present entries. *)
Lemma share_entries_spec n t j m ph :
  low_page t -> 0 <= j -> j + Z.of_nat n <= WORDS ->
  addrefs (frames_at m t n j) (physical m) = Ret ph ->
  exists m', share_entries n t j m = Ret m' /\ physical m' = ph /\
    forall w, word m' w =
      if (t * WORDS + j <=? w) && (w <? t * WORDS + j + Z.of_nat n) then drop_w (word m w) else word m w.
Proof.
  intros Ht. revert j m. induction n as [|n IH]; intros j m Hj Hn Ha.
  { simpl in Ha. injection Ha as <-. exists m. split; [done|]. split; [done|]. intros w. bool_cases; done || lia. }
  assert (direct (t * WORDS + j) = true) as Hd by (apply direct_in_page; [done|lia]).
  cbn [share_entries frames_at] in *. rewrite rd_direct by done. mem_run. set (e := word m (t * WORDS + j)) in *.
  rewrite addrefs_app in Ha.
  destruct (truth (present e)) eqn:Hp.
  - cbn [addrefs] in Ha. destruct (MemPhysicalAddRef (pageID e) 1 (physical m)) as [ph1| | |]; try done. mem_run.
    cbn [mbind outcome_bind] in Ha. rewrite wr_direct by done. mem_run.
    destruct (IH (j + 1) (upd (set_physical m ph1) (t * WORDS + j) (set_writable e 0))) as (m' & E & Hph & Hw); [lia|lia| |].
    { rewrite <- Ha. f_equal. apply frames_at_ext. intros k Hk. rewrite word_upd. by destruct (Z.eqb_spec (t * 1024 + j) (t * 1024 + k)); [lia|]. }
    exists m'. split; [done|]. split; [done|]. intros w. rewrite Hw, word_upd. change (word (set_physical m ph1)) with (word m).
    destruct (Z.eqb_spec (t * 1024 + j) w) as [<-|].
    + assert (drop_w e = set_writable e 0) as Hde by (unfold drop_w; by rewrite Hp).
      fold e. rewrite Hde. bool_cases; done || lia.
    + bool_cases; done || lia.
  - mem_run. cbn [addrefs mbind outcome_bind] in Ha.
    destruct (IH (j + 1) m) as (m' & E & Hph & Hw); [lia|lia|done|].
    exists m'. split; [done|]. split; [done|]. intros w. rewrite Hw.
    destruct (Z.eq_dec w (t * 1024 + j)) as [->|].
    + fold e. assert (drop_w e = e) as -> by (unfold drop_w; by rewrite Hp). by destruct (_ && _), (_ && _).
    + bool_cases; done || lia.
Qed.

Lemma share_table_spec t m ph :
  low_page t -> addrefs (frames_at m t 1024 0) (physical m) = Ret ph ->
  exists m', share_entries 1024 t 0 m = Ret m' /\ physical m' = ph /\
    forall w, word m' w = if w / WORDS =? t then drop_w (word m w) else word m w.
Proof.
  intros Ht Ha. destruct (share_entries_spec 1024 t 0 m ph) as (m' & E & Hp & Hw); [done|lia|lia|exact Ha|].
  exists m'. split; [exact E|]. split; [exact Hp|]. intros w. rewrite Hw, Z.add_0_r. change (Z.of_nat 1024) with 1024.
  by rewrite page_range.
Qed.

Lemma delrefs_app l1 l2 st : delrefs (l1 ++ l2) st = st' ← delrefs l1 st; delrefs l2 st'.
Proof.
  revert st. induction l1 as [|p l1 IH]; intros st; [done|]. simpl. destruct (MemPhysicalDeleteRef p 1 st); simpl; [apply IH|done..].
Qed.

(** Releasing the frames of a table changes nothing but their references. *)
Lemma release_frames_spec n t j m :
  low_page t -> 0 <= j -> j + Z.of_nat n <= WORDS ->
  release_frames n t j m = ph ← delrefs (frames_at m t n j) (physical m); Ret (set_physical m ph).
Proof.
  intros Ht. revert j m. induction n as [|n IH]; intros j m Hj Hn; [by destruct m|].
  cbn [release_frames frames_at]. rewrite rd_direct by (apply direct_in_page; [done|lia]). mem_run.
  rewrite delrefs_app. destruct (truth _).
  - cbn [delrefs]. destruct (MemPhysicalDeleteRef _ 1 (physical m)) as [ph1| | |]; mem_run; try done.
    rewrite IH by lia. assert (frames_at (set_physical m ph1) t n (j + 1) = frames_at m t n (j + 1)) as -> by by apply frames_at_ext.
    simpl. by destruct (delrefs _ _).
  - mem_run. rewrite IH by lia. done.
Qed.

(** ** Cloning the tables *)

Definition table_frames (m : pages) (dir i : Z) : list Z :=
  if has_table m dir i then frames_at m (table_page m dir i) 1024 0 else [].

(** The frames that the first [i] directory entries map. *)
Fixpoint frames_upto (m : pages) (dir : Z) (i : nat) : list Z :=
  match i with O => [] | S i' => frames_upto m dir i' ++ table_frames m dir (Z.of_nat i') end.

Lemma frames_upto_in m dir n p :
  p ∈ frames_upto m dir n -> exists i, 0 <= i < Z.of_nat n /\ p ∈ table_frames m dir i.
Proof.
  induction n as [|n IH]; [by intros []%not_elem_of_nil|]. cbn [frames_upto]. intros [(i & ? & ?)%IH|Hp]%elem_of_app.
  - exists i. split; [lia|done].
  - exists (Z.of_nat n). split; [lia|done].
Qed.

(** The number of page tables from entry [i] on. *)
Fixpoint tables_from (m : pages) (dir : Z) (n : nat) (i : Z) : Z :=
  match n with O => 0 | S n' => Z.b2z (has_table m dir i) + tables_from m dir n' (i + 1) end.

Lemma tables_from_nonneg m dir n i : 0 <= tables_from m dir n i.
Proof. revert i. induction n as [|n IH]; intros i; simpl; [lia|]. specialize (IH (i + 1)). destruct (has_table m dir i); simpl; lia. Qed.

Lemma tables_from_ext m m' dir n i :
  (forall k, i <= k < i + Z.of_nat n -> has_table m' dir k = has_table m dir k) ->
  tables_from m' dir n i = tables_from m dir n i.
Proof.
  revert i. induction n as [|n IH]; intros i H; simpl; [done|]. rewrite H by lia. f_equal. apply IH. intros. apply H. lia.
Qed.

Lemma frames_upto_ext m m' dir dir' n :
  (forall k, 0 <= k < Z.of_nat n -> table_frames m' dir' k = table_frames m dir k) ->
  frames_upto m' dir' n = frames_upto m dir n.
Proof. induction n as [|n IH]; intros H; simpl; [done|]. rewrite H by lia. f_equal. apply IH. intros. apply H. lia. Qed.

Lemma table_frames_length m dir i : zlen (table_frames m dir i) <= 1024.
Proof. unfold table_frames. destruct (has_table m dir i); [apply (frames_at_length m _ 1024)|done]. Qed.

Lemma frames_upto_length m dir i : zlen (frames_upto m dir i) <= 1024 * Z.of_nat i.
Proof.
  induction i as [|i IH]; [done|]. cbn [frames_upto]. pose proof (table_frames_length m dir (Z.of_nat i)).
  unfold zlen in *. rewrite length_app. lia.
Qed.

(** Every frame that the space maps is in use and far from the largest count. *)
Definition frames_counted (m : pages) (dir : Z) : Prop :=
  forall i p, 0 <= i < USER_SLOTS -> p ∈ table_frames m dir i ->
    used m p /\ refs (physical m) p + 1024 * 768 < 4294967296.

(** A turn of the loop for an entry with a table: [t] is shared and copied to
    the new page [p]. *)
Lemma clone_entry_effect fuel m cur dir k t p ph1 ph2 :
  low_page cur -> low_page dir -> low_page t -> low_page p -> 0 <= k < WORDS ->
  cur <> dir -> t <> dir -> t <> cur -> p <> dir -> p <> t -> p <> cur ->
  present (dir_entry m cur k) = 1 -> pageID (dir_entry m cur k) = t ->
  addrefs (frames_at m t 1024 0) (physical m) = Ret ph1 ->
  MemPhysicalAlloc fuel 1 MEM_KERNEL ph1 = Ret (p, ph2) ->
  exists m', clone_entry fuel cur dir k m = Ret m' /\ physical m' = ph2 /\
    forall w, word m' w =
      if w =? dir * WORDS + k then set_pageID (dir_entry m cur k) p
      else if w / WORDS =? p then drop_w (word m (t * WORDS + w mod WORDS))
      else if w / WORDS =? t then drop_w (word m w) else word m w.
Proof.
  intros Hcl Hdl Htl Hpl Hk Hcd Htd Htc Hpd Hpt Hpc Hpres Hpid Ha Hal. unfold clone_entry.
  assert (direct (cur * WORDS + k) = true) as Hdc by by apply direct_in_page.
  assert (direct (dir * WORDS + k) = true) as Hdd by by apply direct_in_page.
  rewrite rd_direct by done. mem_run. fold (dir_entry m cur k). set (d := dir_entry m cur k) in *.
  rewrite wr_direct by done. mem_run. rewrite rd_direct by done. mem_run. rewrite word_upd.
  destruct (Z.eqb_spec (dir * 1024 + k) (cur * 1024 + k)); [lia|]. fold (dir_entry m cur k). fold d.
  rewrite Hpres, Hpid. change (truth 1) with true. cbv iota zeta.
  set (m1 := upd m (dir * WORDS + k) d).
  assert (forall w, w / WORDS <> dir -> word m1 w = word m w) as Hw1.
  { intros w Hw. unfold m1. rewrite word_upd. destruct (Z.eqb_spec (dir * 1024 + k) w); [|done]. destruct Hw. zlia. }
  destruct (share_table_spec t m1 ph1) as (m2 & -> & Hp2 & Hw2); [done| |].
  { rewrite <- Ha. f_equal. apply frames_at_ext. intros j Hj. rewrite Hw1 by zlia. done. }
  mem_run. rewrite Hp2, Hal. mem_run.
  destruct (copy_page_spec t p (set_physical m2 ph2)) as (m3 & -> & Hp3 & Hw3); [done|done|congruence|].
  mem_run. rewrite rd_direct by done. mem_run. rewrite wr_direct by done. eexists. split; [done|]. split; [done|].
  change (word (set_physical m2 ph2)) with (word m2) in Hw3.
  assert (forall w, word m3 w = if w / WORDS =? p then drop_w (word m1 (t * WORDS + w mod WORDS))
    else if w / WORDS =? t then drop_w (word m1 w) else word m1 w) as Hw.
  { intros w. rewrite Hw3, !Hw2. replace ((t * 1024 + w mod 1024) / 1024) with t by zlia. by rewrite Z.eqb_refl. }
  intros w. rewrite word_upd, !Hw, (Z.eqb_sym (dir * 1024 + k)).
  replace ((dir * 1024 + k) / 1024) with dir by zlia.
  destruct (Z.eqb_spec dir p); [congruence|]. destruct (Z.eqb_spec dir t); [congruence|].
  destruct (Z.eqb_spec w (dir * 1024 + k)) as [->|Hne].
  - f_equal. unfold m1. by rewrite word_upd, Z.eqb_refl.
  - assert (word m1 w = word m w) as -> by (unfold m1; rewrite word_upd; destruct (Z.eqb_spec (dir * 1024 + k) w); [congruence|done]).
    rewrite (Hw1 (t * 1024 + w mod 1024)); [done|]. zlia.
Qed.

(** A mapping without the right to write. *)
Definition read_only (mp : mapping) : mapping := mkMapping (frame mp) false (user_ok mp) (uncached mp).

Section Clone.
Context (fuel : nat) (m0 : pages) (cur dir : Z).
Context (Hcur : space_ok m0 cur) (Hdir : low_page dir) (Hdused : used m0 dir) (Hdown : ~ owned m0 cur dir).
Context (Hframes : frames_counted m0 cur).

Let T (k : Z) : Z := table_page m0 cur k.

(** The state after the first [i] turns: [N k] is the page of the copy of table
    [k], and [r] pages are left for the others. *)
Record clone_inv (m : pages) (i : nat) (N : Z -> Z) (r : Z) : Prop := mkCloneInv {
  ci_room : room fuel (physical m) r;
  ci_len : zlen (MemPageStateTable (physical m)) = zlen (MemPageStateTable (physical m0));
  ci_refs : forall p, used m0 p -> refs (physical m) p = refs (physical m0) p + occ p (frames_upto m0 cur i);
  ci_old : forall w, used m0 (w / WORDS) -> w / WORDS <> dir ->
    (forall k, 0 <= k < Z.of_nat i -> has_table m0 cur k = true -> w / WORDS <> T k) -> word m w = word m0 w;
  ci_shared : forall k j, 0 <= k < Z.of_nat i -> has_table m0 cur k = true -> 0 <= j < WORDS ->
    word m (T k * WORDS + j) = drop_w (word m0 (T k * WORDS + j));
  ci_kernel : forall k, 768 <= k < 1024 -> word m (dir * WORDS + k) = word m0 (dir * WORDS + k);
  ci_new : forall k, 0 <= k < Z.of_nat i -> word m (dir * WORDS + k) =
    if has_table m0 cur k then set_pageID (dir_entry m0 cur k) (N k) else dir_entry m0 cur k;
  ci_fresh : forall k, 0 <= k < Z.of_nat i -> has_table m0 cur k = true ->
    low_page (N k) /\ used m (N k) /\ ~ used m0 (N k) /\
    forall j, 0 <= j < WORDS -> word m (N k * WORDS + j) = drop_w (word m0 (T k * WORDS + j));
  ci_inj : forall j k, 0 <= j < Z.of_nat i -> 0 <= k < Z.of_nat i ->
    has_table m0 cur j = true -> has_table m0 cur k = true -> N j = N k -> j = k
}.

Lemma table_facts k :
  0 <= k < USER_SLOTS -> has_table m0 cur k = true ->
  low_page (T k) /\ used m0 (T k) /\ T k <> cur /\ T k <> dir.
Proof.
  intros Hk Ht. pose proof (so_table _ _ Hcur k Hk Ht) as (? & ? & _). unfold USER_SLOTS in Hk.
  split; [by apply Hcur; lia|]. split; [done|]. split; [done|]. intros E. apply Hdown. right. exists k. by rewrite <- E.
Qed.

Lemma cur_facts : used m0 cur /\ cur <> dir.
Proof. split; [apply Hcur|]. intros ->. apply Hdown. by left. Qed.

Lemma clone_used m i N r p : clone_inv m i N r -> used m0 p -> used m p.
Proof.
  intros [_ _ Hr _ _ _ _ _ _] Hu. unfold used in *. rewrite in_use_refs in *. rewrite Hr by (by apply in_use_refs).
  pose proof (occ_bound p (frames_upto m0 cur i)). lia.
Qed.

(** The directory of the current context is not written. *)
Lemma clone_dir_entry m i N r k :
  clone_inv m i N r -> (i <= 768)%nat -> 0 <= k < WORDS -> word m (cur * WORDS + k) = dir_entry m0 cur k.
Proof.
  intros Hinv Hi Hk. destruct cur_facts as [Hu Hne]. unfold dir_entry. apply (ci_old _ _ _ _ Hinv).
  - by replace ((cur * WORDS + k) / WORDS) with cur by zlia.
  - by replace ((cur * WORDS + k) / WORDS) with cur by zlia.
  - intros l Hl Ht. replace ((cur * WORDS + k) / WORDS) with cur by zlia.
    destruct (table_facts l) as (_ & _ & ? & _); [unfold USER_SLOTS; lia|done|congruence].
Qed.

(** Nor is a table before its turn. *)
Lemma clone_table_word m i N r k j :
  clone_inv m i N r -> Z.of_nat i <= k < USER_SLOTS -> has_table m0 cur k = true -> 0 <= j < WORDS ->
  word m (T k * WORDS + j) = word m0 (T k * WORDS + j).
Proof.
  intros Hinv Hk Ht Hj. destruct (table_facts k) as (_ & Hu & _ & Hnd); [lia|done|].
  assert ((T k * WORDS + j) / WORDS = T k) as E by zlia. apply (ci_old _ _ _ _ Hinv); rewrite E; [done|done|].
  intros l Hl Htl Heq. assert (k = l); [|lia]. apply (so_own _ _ Hcur); [lia|unfold USER_SLOTS in *; lia|done|done|done].
Qed.

(** An entry without a table is only copied. *)
Lemma clone_entry_absent m i N r :
  clone_inv m i N r -> (i < 768)%nat -> has_table m0 cur (Z.of_nat i) = false ->
  exists m', clone_entry fuel cur dir (Z.of_nat i) m = Ret m' /\ clone_inv m' (S i) N r.
Proof.
  intros Hinv Hi Habs. set (k := Z.of_nat i). unfold clone_entry.
  destruct cur_facts as [Hcu Hcd].
  rewrite rd_direct by (apply direct_in_page; [apply Hcur|lia]). mem_run.
  rewrite (clone_dir_entry m i N r) by (done || lia).
  assert (direct (dir * WORDS + k) = true) as Hd by (apply direct_in_page; [done|lia]).
  rewrite wr_direct by done. mem_run. rewrite rd_direct by (apply direct_in_page; [apply Hcur|lia]). mem_run.
  rewrite word_upd. destruct (Z.eqb_spec (dir * 1024 + k) (cur * 1024 + k)); [lia|].
  rewrite (clone_dir_entry m i N r) by (done || lia). unfold has_table in Habs. fold k in Habs. rewrite Habs.
  eexists. split; [done|]. destruct Hinv as [Hroom Hlen Hr Ho Hs Hker Hn Hf Hinj].
  assert (forall w, w / WORDS <> dir -> word (upd m (dir * WORDS + k) (dir_entry m0 cur k)) w = word m w) as Hw.
  { intros w Hw. rewrite word_upd. destruct (Z.eqb_spec (dir * 1024 + k) w); [|done]. destruct Hw. zlia. }
  assert (forall l, 0 <= l < Z.of_nat (S i) -> has_table m0 cur l = true -> 0 <= l < Z.of_nat i) as Hless.
  { intros l Hl Htl. destruct (Z.eq_dec l k) as [->|]; [unfold has_table in Htl; congruence|lia]. }
  split.
  - done.
  - done.
  - intros p Hp. rewrite Hr by done. cbn [frames_upto]. unfold table_frames, has_table. fold k. by rewrite Habs, app_nil_r.
  - intros w Hu Hne Hl. rewrite Hw by done. apply Ho; [done|done|]. intros l Hll. apply Hl. lia.
  - intros l j Hl Htl Hj. destruct (table_facts l) as (_ & _ & _ & ?); [unfold USER_SLOTS; lia|done|].
    rewrite Hw; [auto|]. by replace ((T l * WORDS + j) / WORDS) with (T l) by zlia.
  - intros l Hl. rewrite word_upd. destruct (Z.eqb_spec (dir * 1024 + k) (dir * 1024 + l)); [lia|auto].
  - intros l Hl. rewrite word_upd. destruct (Z.eqb_spec (dir * 1024 + k) (dir * 1024 + l)) as [E|].
    + assert (l = k) as -> by lia. unfold has_table. by rewrite Habs.
    + apply Hn. lia.
  - intros l Hl Htl. destruct (Hf l) as (? & ? & Hnu & Hwl); [auto|done|]. split; [done|]. split; [done|]. split; [done|].
    intros j Hj. rewrite Hw; [auto|]. replace ((N l * WORDS + j) / WORDS) with (N l) by zlia. intros Heq. by rewrite Heq in Hnu.
  - intros j l Hj Hl Htj Htl. apply Hinj; auto.
Qed.

(** What a turn with a table must do for the invariant: [p] is the new page. *)
Lemma clone_inv_next m m' i N r p :
  let k := Z.of_nat i in
  clone_inv m i N (r + 1) -> (i < 768)%nat -> has_table m0 cur k = true ->
  low_page p -> ~ used m p -> room fuel (physical m') r ->
  zlen (MemPageStateTable (physical m')) = zlen (MemPageStateTable (physical m)) ->
  (forall q, refs (physical m') q = if q =? p then 1 else refs (physical m) q + occ q (table_frames m0 cur k)) ->
  (forall w, word m' w =
     if w =? dir * WORDS + k then set_pageID (dir_entry m0 cur k) p
     else if w / WORDS =? p then drop_w (word m (T k * WORDS + w mod WORDS))
     else if w / WORDS =? T k then drop_w (word m w) else word m w) ->
  clone_inv m' (S i) (fun l => if l =? k then p else N l) r.
Proof.
  cbv zeta. set (k := Z.of_nat i). intros Hinv Hi Ht Hpl Hnu Hroom2 Hlen2 Hrefs Hw.
  assert (0 <= k < USER_SLOTS) as Hk by (unfold USER_SLOTS; lia).
  destruct cur_facts as [Hcu Hcd]. destruct (table_facts k Hk Ht) as (Htlow & Htu & Htc & Htd).
  assert (forall q, used m0 q -> q <> p) as Hnp by (intros q Hq ->; by apply Hnu, (clone_used m i N (r + 1) p Hinv)).
  pose proof Hinv as [_ Hlen0 Hr Ho Hs Hker Hn Hf Hinj].
  assert (forall l, 0 <= l < Z.of_nat (S i) -> l <> k -> 0 <= l < Z.of_nat i) as Hless by (unfold k; lia).
  assert (forall l, 0 <= l < Z.of_nat (S i) -> 0 <= l < USER_SLOTS) as Hslot by (unfold USER_SLOTS; lia).
  assert (forall l, 0 <= l < Z.of_nat (S i) -> has_table m0 cur l = true -> l <> k -> N l <> p) as Hnl.
  { intros l Hl Htl Hlk Heq. destruct (Hf l) as (_ & Hul & _); [auto|done|]. by rewrite Heq in Hul. }
  (* words of a page that is not the new table's *)
  assert (forall q j, q <> p -> q <> T k -> 0 <= j < WORDS -> (q = dir -> j <> k) ->
    word m' (q * WORDS + j) = word m (q * WORDS + j)) as Hkeep.
  { intros q j Hqp Hqt Hj Hqd. rewrite Hw. replace ((q * WORDS + j) / WORDS) with q by zlia.
    apply Z.eqb_neq in Hqp, Hqt. rewrite Hqp, Hqt. destruct (Z.eqb_spec (q * WORDS + j) (dir * WORDS + k)) as [Heq|]; [|done].
    assert (q = dir) by zlia. assert (j = k) by lia. destruct Hqd; done. }
  split.
  - done.
  - congruence.
  - intros q Hq. rewrite Hrefs. destruct (Z.eqb_spec q p) as [->|]; [by destruct (Hnp p Hq)|].
    rewrite Hr by done. cbn [frames_upto]. rewrite occ_app. fold k. lia.
  - intros w Hu Hne Hl. replace w with (w / WORDS * WORDS + w mod WORDS) in * by zlia.
    set (q := w / WORDS) in *. set (j := w mod WORDS) in *. assert (0 <= j < WORDS) as Hj by (unfold j; zlia).
    replace ((q * WORDS + j) / WORDS) with q in * by zlia.
    rewrite Hkeep; [|by apply Hnp|apply Hl; [lia|done]|done|by intros ->].
    apply Ho; replace ((q * WORDS + j) / WORDS) with q by zlia; [done|done|]. intros l Hll. apply Hl. lia.
  - intros l j Hl Htl Hj. destruct (table_facts l (Hslot l Hl) Htl) as (_ & Hlu & _ & Hld).
    destruct (Z.eq_dec l k) as [->|Hlk].
    + rewrite Hw. replace ((T k * WORDS + j) / WORDS) with (T k) by zlia. rewrite Z.eqb_refl.
      destruct (Z.eqb_spec (T k * WORDS + j) (dir * WORDS + k)); [exfalso; unfold USER_SLOTS in *; zlia|].
      destruct (Z.eqb_spec (T k) p) as [Hp|]; [by destruct (Hnp _ Hlu)|].
      by rewrite (clone_table_word m i N (r + 1)) by (done || lia).
    + rewrite Hkeep; [by apply Hs; [apply Hless|..]|by apply Hnp| |done|done].
      intros Heq. by apply Hlk, (so_own _ _ Hcur); [apply Hslot|..].
  - intros l Hl. rewrite Hkeep; [auto|by apply Hnp|congruence|lia|lia].
  - intros l Hl. destruct (Z.eqb_spec l k) as [->|Hlk].
    + rewrite Hw, Z.eqb_refl, Ht. done.
    + unfold USER_SLOTS in Hslot. specialize (Hslot l Hl). rewrite Hkeep; [by apply Hn, Hless|by apply Hnp|congruence|lia|done].
  - intros l Hl Htl. destruct (Z.eqb_spec l k) as [->|Hlk].
    + split; [done|]. split; [unfold used; rewrite in_use_refs, Hrefs, Z.eqb_refl; lia|].
      split; [intros Hup; by destruct (Hnp p Hup)|]. intros j Hj. rewrite Hw.
      replace ((p * WORDS + j) / WORDS) with p by zlia. rewrite Z.eqb_refl.
      destruct (Z.eqb_spec (p * WORDS + j) (dir * WORDS + k)) as [Heq|].
      { assert (dir = p) by (unfold USER_SLOTS in *; zlia). by destruct (Hnp dir Hdused). }
      replace ((p * WORDS + j) mod WORDS) with j by zlia. by rewrite (clone_table_word m i N (r + 1)) by (done || lia).
    + destruct (Hf l) as (? & Hul & Hnul & Hwl); [auto|done|]. split; [done|]. split.
      { unfold used in *. rewrite in_use_refs in *. rewrite Hrefs. pose proof (occ_bound (N l) (table_frames m0 cur k)).
        destruct (N l =? p); lia. }
      split; [done|]. intros j Hj. rewrite Hkeep; [auto|by apply Hnl| |done|]; intros Heq; rewrite Heq in Hnul; done.
  - intros j l Hj Hl Htj Htl. destruct (Z.eqb_spec j k) as [->|Hjk], (Z.eqb_spec l k) as [->|Hlk]; intros Heq; [done| | |].
    + by destruct (Hnl l Hl Htl Hlk).
    + by destruct (Hnl j Hj Htj Hjk).
    + apply Hinj; auto.
Qed.

(** An entry with a table takes one of the pages left. *)
Lemma clone_entry_present m i N r :
  clone_inv m i N (r + 1) -> (i < 768)%nat -> 0 <= r -> has_table m0 cur (Z.of_nat i) = true ->
  exists m' N', clone_entry fuel cur dir (Z.of_nat i) m = Ret m' /\ clone_inv m' (S i) N' r.
Proof.
  intros Hinv Hi Hr0 Ht. set (k := Z.of_nat i) in *. assert (0 <= k < USER_SLOTS) as Hk by (unfold USER_SLOTS; lia).
  destruct cur_facts as [Hcu Hcd]. destruct (table_facts k Hk Ht) as (Htlow & Htu & Htc & Htd).
  assert (frames_at m (T k) 1024 0 = table_frames m0 cur k) as Hfr.
  { unfold table_frames. rewrite Ht. apply frames_at_ext. intros j Hj. rewrite (clone_table_word m i N (r + 1)); done || lia. }
  assert (dir_entry m cur k = dir_entry m0 cur k) as Hde by (eapply clone_dir_entry; [done|lia|unfold USER_SLOTS in Hk; lia]).
  pose proof (ci_room _ _ _ _ Hinv) as Hroom. pose proof Hroom as (Hok & _).
  destruct (addrefs_spec (table_frames m0 cur k) (physical m) Hok) as (ph1 & Ha & Hok1 & Hsh1 & Hr1).
  { intros p Hp. destruct (Hframes k p Hk Hp) as [Hu Hmax]. split; [by apply (clone_used m i N (r + 1))|].
    rewrite (ci_refs _ _ _ _ Hinv) by done. pose proof (occ_bound p (frames_upto m0 cur i)).
    pose proof (frames_upto_length m0 cur i). pose proof (table_frames_length m0 cur k). lia. }
  assert (room fuel ph1 (r + 1)) as Hroom1.
  { eapply room_same; [done|done|done|]. intros p. rewrite Hr1. pose proof (occ_bound p (table_frames m0 cur k)) as Hob.
    destruct (decide (p ∈ table_frames m0 cur k)) as [Hin|Hni].
    - destruct (Hframes k p Hk Hin) as [Hu _]. apply (clone_used m i N (r + 1) p Hinv) in Hu. unfold used in Hu.
      rewrite in_use_refs in Hu. lia.
    - rewrite occ_none by done. lia. }
  destruct (alloc_kernel fuel ph1 r Hroom1 Hr0) as (p & ph2 & Hal & Hroom2 & Hpl & Hp0 & Hl2 & Hr2).
  assert (~ used m p) as Hnu.
  { unfold used. rewrite in_use_refs. pose proof (occ_bound p (table_frames m0 cur k)). rewrite Hr1 in Hp0. lia. }
  assert (forall q, used m0 q -> q <> p) as Hnp by (intros q Hq ->; by apply Hnu, (clone_used m i N (r + 1) p Hinv)).
  destruct (clone_entry_effect fuel m cur dir k (T k) p ph1 ph2) as (m' & E & Hph & Hw);
    try done; try (by apply not_eq_sym, Hnp); try (by apply Hcur); [unfold USER_SLOTS in Hk; lia|..].
  { rewrite Hde. unfold has_table in Ht. by apply truth_bit in Ht. }
  { rewrite Hde. apply pageID_table; [done|unfold USER_SLOTS in Hk; lia]. }
  { by rewrite Hfr. }
  exists m'. eexists. split; [done|]. apply (clone_inv_next m m' i N r p); fold k; try done.
  - by rewrite Hph.
  - rewrite Hph, Hl2. apply Hsh1.
  - intros q. rewrite Hph, Hr2. destruct (q =? p); [done|]. apply Hr1.
  - by rewrite Hde in Hw.
Qed.

(** The whole loop, when there is a page for every table that is left. *)
Lemma clone_tables_inv n i m N r :
  clone_inv m i N (tables_from m0 cur n (Z.of_nat i) + r) -> 0 <= r -> (i + n = 768)%nat ->
  exists m' N', clone_tables fuel n cur dir (Z.of_nat i) m = Ret m' /\ clone_inv m' 768 N' r.
Proof.
  revert i m N. induction n as [|n IH]; intros i m N Hinv Hr Hn.
  { exists m, N. split; [done|]. assert (i = 768)%nat as -> by lia. done. }
  cbn [clone_tables tables_from] in *. pose proof (tables_from_nonneg m0 cur n (Z.of_nat i + 1)).
  replace (Z.of_nat i + 1) with (Z.of_nat (S i)) in * by lia.
  destruct (has_table m0 cur (Z.of_nat i)) eqn:Ht; simpl Z.b2z in Hinv.
  - replace (1 + tables_from m0 cur n (Z.of_nat (S i)) + r) with (tables_from m0 cur n (Z.of_nat (S i)) + r + 1) in Hinv by lia.
    destruct (clone_entry_present m i N _ Hinv) as (m1 & N1 & -> & Hinv1); [lia|lia|done|]. mem_run.
    apply (IH (S i) m1 N1 Hinv1); lia.
  - rewrite Z.add_0_l in Hinv. destruct (clone_entry_absent m i N _ Hinv) as (m1 & -> & Hinv1); [lia|done|]. mem_run.
    apply (IH (S i) m1 N Hinv1); lia.
Qed.

(** *** The result of the loop *)

Section Result.
Context (m : pages) (N : Z -> Z) (r : Z) (Hinv : clone_inv m 768 N r).
Context (Hkernel : forall k, 768 <= k < 1024 -> low_page (table_page m0 dir k)).

Lemma cloned_cur_dir k : 0 <= k < WORDS -> dir_entry m cur k = dir_entry m0 cur k.
Proof. intros Hk. by eapply clone_dir_entry. Qed.

Lemma cloned_cur_space : space_ok m cur.
Proof.
  apply (space_ok_ext m0); [done| | |].
  - by destruct (ci_room _ _ _ _ Hinv).
  - intros p Hp. by eapply clone_used.
  - intros k Hk. by rewrite cloned_cur_dir.
Qed.

Lemma cloned_cur_owned q : owned m cur q -> owned m0 cur q.
Proof.
  intros [->|(k & Hk & Ht & ->)]; [by left|]. right. exists k. pose proof Hk as Hk'. unfold USER_SLOTS in Hk'.
  unfold has_table, table_page in *. by rewrite cloned_cur_dir in * by lia.
Qed.

Lemma cloned_dir_entry k : 0 <= k < USER_SLOTS ->
  same_hw (dir_entry m dir k)
    (if has_table m0 cur k then set_pageID (dir_entry m0 cur k) (N k) else dir_entry m0 cur k).
Proof. intros Hk. unfold dir_entry. rewrite (ci_new _ _ _ _ Hinv) by done. by destruct (has_table m0 cur k). Qed.

Lemma set_pageID_fields e p : low_page p ->
  present (set_pageID e p) = present e /\ hugePage (set_pageID e p) = hugePage e /\
  writable (set_pageID e p) = writable e /\ userMode (set_pageID e p) = userMode e /\
  pageID_raw (set_pageID e p) = p.
Proof.
  unfold low_page. change MEM_KFIXED_MAX_PAGE with 0x30000. intros Hp.
  split_and!; fields; try done. by rewrite land_page, Z.mod_small by lia.
Qed.

Lemma cloned_has_table k : 0 <= k < USER_SLOTS -> has_table m dir k = has_table m0 cur k.
Proof.
  intros Hk. unfold has_table at 1. rewrite (cloned_dir_entry k Hk). destruct (has_table m0 cur k) eqn:Ht; [|done].
  destruct (ci_fresh _ _ _ _ Hinv k Hk Ht) as (Hl & _). destruct (set_pageID_fields (dir_entry m0 cur k) (N k) Hl) as (-> & _).
  done.
Qed.

Lemma cloned_table_page k : 0 <= k < USER_SLOTS -> has_table m0 cur k = true -> table_page m dir k = N k.
Proof.
  intros Hk Ht. unfold table_page. rewrite (cloned_dir_entry k Hk), Ht.
  destruct (ci_fresh _ _ _ _ Hinv k Hk Ht) as (Hl & _). apply (set_pageID_fields (dir_entry m0 cur k) (N k) Hl).
Qed.

Lemma cloned_space : space_ok m dir.
Proof.
  pose proof Hcur as [_ _ Hls Hsm Ht _]. split.
  - by destruct (ci_room _ _ _ _ Hinv).
  - split; [done|]. by eapply clone_used.
  - intros k Hk. destruct (Z.lt_ge_cases k 768) as [Hk'|Hk'].
    + assert (0 <= k < USER_SLOTS) as Hks by (unfold USER_SLOTS; lia).
      destruct (has_table m0 cur k) eqn:Htk.
      * rewrite cloned_table_page by done. by apply (ci_fresh _ _ _ _ Hinv k Hks).
      * unfold table_page. rewrite (cloned_dir_entry k Hks), Htk. by apply Hls.
    + unfold table_page, dir_entry. rewrite (ci_kernel _ _ _ _ Hinv) by lia. apply Hkernel. lia.
  - intros k Hk. rewrite (cloned_dir_entry k Hk). destruct (has_table m0 cur k) eqn:Htk; [|by apply Hsm].
    destruct (ci_fresh _ _ _ _ Hinv k Hk Htk) as (Hl & _).
    destruct (set_pageID_fields (dir_entry m0 cur k) (N k) Hl) as (_ & -> & _). by apply Hsm.
  - intros k Hk. rewrite cloned_has_table by done. intros Htk. rewrite cloned_table_page by done.
    destruct (ci_fresh _ _ _ _ Hinv k Hk Htk) as (Hl & Hu & Hnu & _).
    split; [by intros Heq; rewrite Heq in Hnu|]. split; [done|]. rewrite (cloned_dir_entry k Hk), Htk.
    destruct (set_pageID_fields (dir_entry m0 cur k) (N k) Hl) as (_ & _ & -> & -> & _). by apply Ht.
  - intros j k Hj Hk. rewrite !cloned_has_table by done. intros Htj Htk. rewrite !cloned_table_page by done.
    by apply (ci_inj _ _ _ _ Hinv).
Qed.

Lemma cloned_apart q : owned m cur q -> ~ owned m dir q.
Proof.
  assert (owned m cur q -> used m0 q /\ q <> dir) as Hq.
  { intros [->|(k & Hk & Ht & ->)]; [apply cur_facts|]. unfold has_table, table_page in *. pose proof Hk as Hk'.
    unfold USER_SLOTS in Hk'. rewrite cloned_cur_dir in * by lia. destruct (table_facts k Hk Ht) as (_ & ? & _ & ?). done. }
  intros [Hu Hne]%Hq [->|(k & Hk & Ht & ->)]; [done|]. rewrite cloned_has_table in Ht by done.
  rewrite cloned_table_page in Hu by done. by destruct (ci_fresh _ _ _ _ Hinv k Hk Ht) as (_ & _ & ? & _).
Qed.

Lemma read_only_entry d d' e fr : userMode d' = userMode d -> truth (present e) = true ->
  entry_mapping d' (drop_w e) fr = read_only (entry_mapping d e fr).
Proof.
  intros Hu Hp. destruct (drop_w_fields e) as (_ & _ & Hue & Hc & Hw). unfold entry_mapping, read_only. simpl.
  rewrite Hue, Hc, Hu, Hw by done. by rewrite andb_false_r.
Qed.

Lemma cloned_translate a : 0 <= a < KERNEL_VIRTUAL_BASE ->
  translate m cur a = read_only <$> translate m0 cur a /\ translate m dir a = read_only <$> translate m0 cur a.
Proof.
  intros Ha. pose proof cloned_cur_space. pose proof cloned_space. rewrite !translate_user by done.
  pose proof (dir_index a Ha) as Hk. set (k := a / 0x400000) in *. pose proof Hk as Hk'. unfold USER_SLOTS in Hk'.
  rewrite cloned_has_table by done. assert (has_table m cur k = has_table m0 cur k) as ->.
  { unfold has_table. by rewrite cloned_cur_dir by lia. }
  assert (table_page m cur k = table_page m0 cur k) as -> by (unfold table_page; by rewrite cloned_cur_dir by lia).
  destruct (has_table m0 cur k) eqn:Ht; [|done]. rewrite cloned_table_page by done. cbv zeta.
  set (j := (a / 4096) mod 1024). assert (0 <= j < WORDS) as Hj by (unfold j; zlia).
  fold (T k). rewrite (ci_shared _ _ _ _ Hinv k j Hk Ht Hj).
  destruct (ci_fresh _ _ _ _ Hinv k Hk Ht) as (Hl & _ & _ & Hwj). rewrite (Hwj j Hj).
  set (e := word m0 (T k * WORDS + j)). destruct (drop_w_fields e) as (-> & -> & _).
  destruct (truth (present e)) eqn:Hp; [|done]. simpl. split; f_equal; apply read_only_entry; try done.
  - by rewrite cloned_cur_dir by lia.
  - rewrite (cloned_dir_entry k Hk), Ht. apply (set_pageID_fields (dir_entry m0 cur k) (N k) Hl).
Qed.

(** The copies map the same frames. *)
Lemma cloned_frames k : 0 <= k < USER_SLOTS -> table_frames m dir k = table_frames m0 cur k.
Proof.
  intros Hk. unfold table_frames. rewrite cloned_has_table by done. destruct (has_table m0 cur k) eqn:Ht; [|done].
  rewrite cloned_table_page by done. destruct (ci_fresh _ _ _ _ Hinv k Hk Ht) as (_ & _ & _ & Hw).
  apply frames_at_ext. intros j Hj. rewrite Hw by lia. fold (T k).
  by destruct (drop_w_fields (word m0 (T k * WORDS + j))) as (-> & -> & _).
Qed.

Lemma cloned_owned q : owned m dir q -> q = dir \/ ~ used m0 q.
Proof.
  intros [->|(k & Hk & Ht & ->)]; [by left|]. right. rewrite cloned_has_table in Ht by done.
  rewrite cloned_table_page by done. by destruct (ci_fresh _ _ _ _ Hinv k Hk Ht) as (_ & _ & ? & _).
Qed.
End Result.
End Clone.

(** ** The kernel's entries *)

(** MemKernelPageDirectory: 1024 entries, those of the kernel in the direct map. *)
Definition kernel_directory (kdir : list Z) : Prop :=
  zlen kdir = 1024 /\ forall k d, 0x300 <= k < 0x400 -> zget kdir k = Some d -> low_page (pageID_raw d).

Lemma zget_slice (l : list Z) j :
  zlen l = 1024 -> zget (take 256 (drop 0x300 l)) j = if (0 <=? j) && (j <? 256) then zget l (0x300 + j) else None.
Proof.
  unfold zlen. intros Hl. unfold zget. destruct (Z.ltb_spec j 0), (Z.leb_spec 0 j); try lia; simpl; [done|].
  destruct (Z.ltb_spec j 256).
  - rewrite lookup_take_lt, lookup_drop by lia. destruct (Z.ltb_spec (768 + j) 0); [lia|]. f_equal. lia.
  - by rewrite lookup_take_ge by lia.
Qed.

Lemma copy_kernel_area_spec kdir dir m :
  kernel_directory kdir -> low_page dir ->
  exists m', copy_kernel_area kdir dir m = Ret m' /\ physical m' = physical m /\
    (forall k, 0x300 <= k < 0x400 -> zget kdir k = Some (word m' (dir * WORDS + k))) /\
    forall w, ~ (dir * WORDS + 0x300 <= w < dir * WORDS + 0x400) -> word m' w = word m w.
Proof.
  intros [Hl _] Hd. unfold copy_kernel_area.
  destruct (copy_in_spec (take 256 (drop 0x300 kdir)) (dir * WORDS + 0x300) m) as (m' & E & Hp & Hw).
  { intros j Hj. unfold zlen in Hj. rewrite length_take, length_drop in Hj. unfold zlen in Hl.
    replace j with (dir * WORDS + (j - dir * WORDS)) by lia. apply direct_in_page; [done|lia]. }
  exists m'. split; [done|]. split; [done|]. split.
  - intros k Hk. rewrite Hw, zget_slice by done. replace (dir * 1024 + k - (dir * 1024 + 768)) with (k - 768) by lia.
    destruct (Z.leb_spec 0 (k - 768)), (Z.ltb_spec (k - 768) 256); try lia. simpl.
    replace (768 + (k - 768)) with k by lia. destruct (zget_in_range kdir k) as [d ->]; [lia|done].
  - intros w Hout. rewrite Hw, zget_slice by done.
    destruct (Z.leb_spec 0 (w - (dir * 1024 + 768))), (Z.ltb_spec (w - (dir * 1024 + 768)) 256); simpl; done || lia.
Qed.

(** ** New contexts *)

(** A new context translates no user address, has the kernel's entries, and
    takes only pages that were free: every other address space is as before. *)
Theorem MemContextInit_empty fuel kdir m :
  phys_ok (physical m) -> page_available fuel MEM_KERNEL (physical m) -> kernel_directory kdir ->
  exists c m', MemContextInit fuel kdir m = Ret (c, m') /\
    regions c = [] /\ refCount c = 0 /\ space_ok m' (physDirectory c) /\ ~ used m (physDirectory c) /\
    (forall a, 0 <= a < KERNEL_VIRTUAL_BASE -> translate m' (physDirectory c) a = None) /\
    (forall k, 0x300 <= k < 0x400 -> zget kdir k = Some (dir_entry m' (physDirectory c) k)) /\
    forall dir2, space_ok m dir2 -> space_ok m' dir2 /\
      forall a, 0 <= a < KERNEL_VIRTUAL_BASE -> translate m' dir2 a = translate m dir2 a.
Proof.
  intros Hok Hav Hk. destruct (alloc_available fuel MEM_KERNEL _ Hok ltac:(done) Hav) as (p & ph & E).
  destruct (alloc_one_sound fuel MEM_KERNEL _ p ph Hok ltac:(done) E) as (pg & Hpg & Hrc & Ht & Hok' & Hl).
  specialize (Hl ltac:(done)). fold (low_page p) in Hl. destruct (in_use_zset _ _ _ Hpg Hrc) as [Hfree Huse].
  unfold MemContextInit. rewrite E. mem_run.
  destruct (zero_words_spec 768 (p * WORDS) (set_physical m ph)) as (m1 & -> & Hp1 & Hw1).
  { intros j Hj. replace j with (p * WORDS + (j - p * WORDS)) by lia. apply direct_in_page; [done|lia]. }
  mem_run. destruct (copy_kernel_area_spec kdir p m1 Hk Hl) as (m2 & -> & Hp2 & Hk2 & Hw2). mem_run.
  assert (forall q, used m2 q <-> used m q \/ q = p) as Hu by (intros q; unfold used; rewrite Hp2, Hp1; simpl; by rewrite Ht).
  assert (phys_ok (physical m2)) as Hok2 by by rewrite Hp2, Hp1.
  change (Z.of_nat 768) with 768 in Hw1.
  assert (forall k, 0 <= k < 768 -> dir_entry m2 p k = 0) as Hzero.
  { intros k Hk'. unfold dir_entry. rewrite Hw2, Hw1 by lia.
    destruct (Z.leb_spec (p * 1024) (p * 1024 + k)), (Z.ltb_spec (p * 1024 + k) (p * 1024 + 768)); done || lia. }
  assert (forall w, w / WORDS <> p -> word m2 w = word m w) as Hother.
  { intros w Hw. rewrite Hw2, Hw1 by zlia. destruct ((_ <=? w) && _) eqn:Hin; [|done].
    apply andb_true_iff in Hin as [?%Z.leb_le ?%Z.ltb_lt]. exfalso. zlia. }
  assert (space_ok m2 p) as Hs.
  { split; unfold has_table, table_page, USER_SLOTS.
    - done.
    - split; [done|]. apply Hu. auto.
    - intros k Hk'. destruct (Z.lt_ge_cases k 768); [rewrite Hzero by lia; vm_compute; by split|].
      eapply Hk; [|apply Hk2]; lia.
    - intros k Hk'. by rewrite Hzero.
    - intros k Hk'. by rewrite Hzero.
    - intros j k Hj Hk'. by rewrite !Hzero. }
  exists (mkMemContext [] p 0), m2. split; [done|]. split; [done|]. split; [done|]. split; [done|]. split; [done|].
  split; [|split; [done|]].
  - intros a Ha. rewrite translate_user by done. pose proof (dir_index a Ha) as Hi. unfold USER_SLOTS in Hi.
    simpl. unfold has_table. by rewrite Hzero.
  - intros dir2 Hs2. assert (forall w, owned m dir2 (w / WORDS) -> same_hw (word m2 w) (word m w)) as Hsame.
    { intros w Ho. rewrite Hother; [done|]. intros Heq. rewrite Heq in Ho. by eapply Hfree, owned_used. }
    assert (forall q, owned m dir2 q -> used m q -> used m2 q) as Hu2 by (intros q _ Hq; apply Hu; auto).
    split; [by apply (same_space m)|]. intros a Ha. by apply same_translate.
Qed.

(** ** Clones *)

Lemma clone_shares fuel kdir current m :
  let cur := physDirectory current in
  kernel_directory kdir -> space_ok m cur -> frames_counted m cur ->
  room fuel (physical m) (tables_from m cur 768 0 + 1) ->
  exists child m', MemContextClone fuel kdir current m = Ret (child, m') /\
    let dir := physDirectory child in
    regions child = regions current /\ refCount child = 0 /\
    space_ok m' cur /\ space_ok m' dir /\ (forall q, owned m' cur q -> ~ owned m' dir q) /\
    (forall a, 0 <= a < KERNEL_VIRTUAL_BASE ->
       translate m' cur a = read_only <$> translate m cur a /\
       translate m' dir a = read_only <$> translate m cur a) /\
    (forall k, 0x300 <= k < 0x400 -> zget kdir k = Some (dir_entry m' dir k)) /\
    (forall p, used m p -> refs (physical m') p = refs (physical m) p + occ p (frames_upto m cur 768)) /\
    frames_upto m' dir 768 = frames_upto m cur 768 /\ (forall q, owned m' dir q -> ~ used m q) /\
    (forall q, used m q -> used m' q) /\ (forall q, owned m' cur q -> owned m cur q) /\
    (forall w, used m (w / WORDS) -> ~ owned m cur (w / WORDS) -> word m' w = word m w) /\
    zlen (MemPageStateTable (physical m')) = zlen (MemPageStateTable (physical m)).
Proof.
  cbv zeta. intros Hk Hs Hfr Hroom. set (cur := physDirectory current) in *.
  pose proof (tables_from_nonneg m cur 768 0) as Hnn.
  destruct (alloc_kernel fuel _ _ Hroom Hnn) as (p & ph & E & Hroom1 & Hl & Hp0 & Hlen1 & Hr1).
  unfold MemContextClone. rewrite E. mem_run.
  destruct (copy_kernel_area_spec kdir p (set_physical m ph) Hk Hl) as (m0 & -> & Hp1 & Hk1 & Hw1). mem_run.
  change (word (set_physical m ph)) with (word m) in Hw1.
  assert (~ used m p) as Hfree by (unfold used; rewrite in_use_refs; lia).
  assert (forall q, used m q -> refs (physical m0) q = refs (physical m) q) as Hrefs.
  { intros q Hq. rewrite Hp1. simpl. rewrite Hr1. destruct (Z.eqb_spec q p) as [->|]; done. }
  assert (forall q, used m q -> used m0 q) as Hu.
  { intros q Hq. unfold used. rewrite in_use_refs, Hrefs by done. by apply in_use_refs. }
  assert (forall w, used m (w / WORDS) -> word m0 w = word m w) as Hother.
  { intros w Hus. apply Hw1. assert (w / WORDS <> p) by (by intros Heq; rewrite Heq in Hus). zlia. }
  assert (forall w, owned m cur (w / WORDS) -> same_hw (word m0 w) (word m w)) as Hsame.
  { intros w Ho. rewrite Hother; [done|]. by eapply owned_used. }
  assert (space_ok m0 cur) as Hs0.
  { apply (same_space m); [done| |auto|done]. rewrite Hp1. by destruct Hroom1. }
  assert (~ owned m0 cur p) as Hnp by (intros Ho; apply Hfree; eapply owned_used; [done|]; by apply (same_owned m m0)).
  assert (forall i, 0 <= i < USER_SLOTS -> has_table m0 cur i = has_table m cur i) as Hht.
  { intros i Hi. unfold USER_SLOTS in Hi. apply same_has_table; [done|lia]. }
  assert (forall i, 0 <= i < USER_SLOTS -> table_frames m0 cur i = table_frames m cur i) as Htf.
  { intros i Hi. unfold table_frames. rewrite Hht by done. destruct (has_table m cur i) eqn:Ht; [|done].
    pose proof Hi as Hi'. unfold USER_SLOTS in Hi'. rewrite (same_table_page m m0) by (done || lia). apply frames_at_ext. intros k Hkk.
    rewrite Hother; [done|]. destruct (so_table _ _ Hs i Hi Ht) as (_ & Hut & _).
    by replace ((table_page m cur i * 1024 + k) / 1024) with (table_page m cur i) by zlia. }
  assert (frames_counted m0 cur) as Hfr0.
  { intros i q Hi. rewrite Htf by done. intros [Hq ?]%Hfr; [|done]. split; [auto|]. by rewrite Hrefs. }
  assert (tables_from m0 cur 768 0 = tables_from m cur 768 0) as Htt by (apply tables_from_ext; intros; apply Hht; unfold USER_SLOTS; lia).
  assert (frames_upto m0 cur 768 = frames_upto m cur 768) as Hft by (apply frames_upto_ext; intros; apply Htf; unfold USER_SLOTS; lia).
  assert (clone_inv fuel m0 cur p m0 0 (fun _ => 0) (tables_from m0 cur 768 0 + 0)) as Hinit.
  { split; [by rewrite Htt, Z.add_0_r, Hp1|reflexivity|intros q Hq; simpl; lia|reflexivity|..]; intros; first [reflexivity|lia]. }
  assert (used m0 p) as Hup by (unfold used; rewrite in_use_refs, Hp1; simpl; rewrite Hr1, Z.eqb_refl; lia).
  destruct (clone_tables_inv fuel m0 cur p Hs0 Hl Hup Hnp Hfr0 768 0 m0 _ 0 Hinit ltac:(lia) eq_refl) as (m' & N & E' & Hinv).
  change (Z.of_nat 0) with 0 in E'.
  assert (forall k, 768 <= k < 1024 -> low_page (table_page m0 p k)) as Hkl.
  { intros k Hkk. destruct Hk as [_ Hkd]. eapply Hkd; [|apply Hk1]; lia. }
  fold cur. rewrite E'. mem_run. eexists _, m'. split; [done|]. cbv zeta. simpl physDirectory. simpl regions.
  split; [apply clone_regions_app|]. split; [done|]. split; [by eapply cloned_cur_space|]. split; [by eapply cloned_space|].
  split; [by eapply cloned_apart|]. split_and!.
  - intros a Ha. assert (translate m cur a = translate m0 cur a) as -> by (symmetry; apply same_translate; auto; by destruct Hs0).
    by eapply cloned_translate.
  - intros k Hkk. rewrite Hk1 by done. unfold dir_entry. by rewrite (ci_kernel _ _ _ _ _ _ _ _ Hinv).
  - intros q Hq. rewrite (ci_refs _ _ _ _ _ _ _ _ Hinv) by auto. by rewrite Hrefs, Hft.
  - rewrite <- Hft. apply frames_upto_ext. intros k Hkk. by eapply cloned_frames.
  - intros q Hq. assert (q = p \/ ~ used m0 q) as [->|Hq'] by (by eapply cloned_owned); [done|]. intros Hmq. by apply Hq', Hu.
  - intros q Hq. eapply clone_used; [..|exact Hinv|]; auto.
  - intros q Hq. apply (same_owned m m0 cur Hsame). by eapply cloned_cur_owned.
  - intros w Hus Hno. rewrite (ci_old _ _ _ _ _ _ _ _ Hinv); [by apply Hother|by apply Hu| |].
    + intros Heq. by rewrite Heq in Hus.
    + intros k Hkk Htk Heq. apply Hno, (same_owned m m0 cur Hsame). right. exists k. done.
  - rewrite (ci_len _ _ _ _ _ _ _ _ Hinv). by rewrite Hp1.
Qed.

(** C8: what cloning the current context gives: the child has its regions and is
    well formed, apart from the parent; in both, every user address goes to the
    frame it went to in the parent before, read-only; the kernel's entries are
    there; every frame has one more reference for each page that maps it, and
    its words are as they were. *)
Theorem MemContextClone_shares fuel kdir current m :
  let cur := physDirectory current in
  kernel_directory kdir -> space_ok m cur -> frames_counted m cur ->
  room fuel (physical m) (tables_from m cur 768 0 + 1) ->
  exists child m', MemContextClone fuel kdir current m = Ret (child, m') /\
    let dir := physDirectory child in
    regions child = regions current /\ refCount child = 0 /\
    space_ok m' cur /\ space_ok m' dir /\ (forall q, owned m' cur q -> ~ owned m' dir q) /\
    (forall a, 0 <= a < KERNEL_VIRTUAL_BASE ->
       translate m' cur a = read_only <$> translate m cur a /\
       translate m' dir a = read_only <$> translate m cur a) /\
    (forall k, 0x300 <= k < 0x400 -> zget kdir k = Some (dir_entry m' dir k)) /\
    (forall p, used m p -> refs (physical m') p = refs (physical m) p + occ p (frames_upto m cur 768)) /\
    forall w, used m (w / WORDS) -> ~ owned m cur (w / WORDS) -> word m' w = word m w.
Proof.
  cbv zeta. intros Hk Hs Hfr Hroom. destruct (clone_shares fuel kdir current m Hk Hs Hfr Hroom) as (c & m' & E & H).
  exists c, m'. split; [done|]. cbv zeta in H. tauto.
Qed.

(** ** Deleting *)

Lemma free_one_refs p st st' :
  MemPhysicalFree p 1 st = Ret st' -> forall q, refs st' q = if q =? p then 0 else refs st q.
Proof.
  unfold MemPhysicalFree. change (Z.to_nat 1) with 1%nat. cbn [free_loop].
  destruct (zget (MemPageStateTable st) p) as [pg|] eqn:Hp; [|done]. intros [= <-] q.
  by apply (refs_zset st _ p pg).
Qed.

Section Delete.
Context (m0 : pages) (dir : Z).
Context (Hspace : space_ok m0 dir).
Let F (i : nat) : list Z := frames_upto m0 dir i.
(** The frames have the references of this space, and are not its tables. *)
Context (Hframes : forall p, p ∈ F 768 -> ~ owned m0 dir p /\ used m0 p /\ occ p (F 768) <= refs (physical m0) p).

(** After [i] entries: the words are as before, the frames have lost their
    references, and the tables are free. *)
Record delete_inv (m : pages) (i : nat) : Prop := mkDeleteInv {
  di_words : words m = words m0;
  di_phys : phys_ok (physical m);
  di_len : zlen (MemPageStateTable (physical m)) = zlen (MemPageStateTable (physical m0));
  di_refs : forall p, ~ owned m0 dir p -> refs (physical m) p = refs (physical m0) p - occ p (F i);
  di_left : forall p, owned m0 dir p ->
    (forall k, 0 <= k < Z.of_nat i -> has_table m0 dir k = true -> p <> table_page m0 dir k) ->
    refs (physical m) p = refs (physical m0) p;
  di_freed : forall k, 0 <= k < Z.of_nat i -> has_table m0 dir k = true -> refs (physical m) (table_page m0 dir k) = 0
}.

Lemma frames_upto_le (i j : nat) p : (i <= j)%nat -> occ p (F i) <= occ p (F j).
Proof.
  intros H. induction H as [|j Hj IH]; [lia|]. unfold F in *. cbn [frames_upto]. rewrite occ_app.
  pose proof (occ_bound p (table_frames m0 dir (Z.of_nat j))). lia.
Qed.

Lemma frames_upto_elem i p : 0 <= i < USER_SLOTS -> p ∈ table_frames m0 dir i -> p ∈ F 768.
Proof.
  intros Hi Hp. apply occ_pos in Hp. destruct (decide (p ∈ F 768)) as [|Hn]; [done|]. apply occ_none in Hn.
  pose proof (frames_upto_le (S (Z.to_nat i)) 768 p ltac:(unfold USER_SLOTS in Hi; lia)) as Hle.
  rewrite Hn in Hle. change (F (S (Z.to_nat i))) with (F (Z.to_nat i) ++ table_frames m0 dir (Z.of_nat (Z.to_nat i))) in Hle.
  rewrite occ_app, Z2Nat.id in Hle by lia. pose proof (occ_bound p (F (Z.to_nat i))). lia.
Qed.

Lemma delete_entry_inv m i :
  delete_inv m i -> (i < 768)%nat ->
  exists m', delete_entry dir (Z.of_nat i) m = Ret m' /\ delete_inv m' (S i).
Proof.
  intros [Hw Hok Hlen Hr Hl Hf] Hi. set (k := Z.of_nat i) in *.
  assert (0 <= k < USER_SLOTS) as Hk by (unfold USER_SLOTS; lia).
  assert (forall w, word m w = word m0 w) as Hword by (intros w; unfold word; by rewrite Hw).
  unfold delete_entry. rewrite rd_direct by (apply direct_in_page; [apply Hspace|lia]). mem_run.
  rewrite Hword. fold (dir_entry m0 dir k). fold (has_table m0 dir k).
  assert (forall l, 0 <= l < Z.of_nat (S i) -> l <> k -> 0 <= l < Z.of_nat i) as Hless by (unfold k; lia).
  assert (F (S i) = F i ++ table_frames m0 dir k) as HF by done.
  destruct (has_table m0 dir k) eqn:Ht.
  2: { exists m. split; [done|]. split; [done|done|done| | |].
       - intros p Hp. rewrite Hr by done. rewrite HF. unfold table_frames. by rewrite Ht, app_nil_r.
       - intros p Hp Hk'. apply Hl; [done|]. intros l Hll. apply Hk'. lia.
       - intros l Hll Htl. apply Hf; [|done]. apply Hless; [done|]. intros ->. congruence. }
  rewrite pageID_table by (done || (unfold USER_SLOTS in Hk; lia)). set (t := table_page m0 dir k).
  destruct (so_table _ _ Hspace k Hk Ht) as (Htd & Htu & _).
  assert (owned m0 dir t) as Hot by (right; by exists k).
  assert (low_page t) as Htl by (apply Hspace; unfold USER_SLOTS in Hk; lia).
  rewrite release_frames_spec by (done || lia).
  assert (frames_at m t 1024 0 = table_frames m0 dir k) as ->.
  { unfold table_frames. rewrite Ht. apply frames_at_ext. intros j _. by rewrite Hword. }
  destruct (delrefs_spec (table_frames m0 dir k) (physical m) Hok) as (ph & -> & Hok1 & [_ Hl1] & Hr1).
  { intros p Hp. destruct (Hframes p) as (Hno & Hup & Hocc); [by eapply frames_upto_elem|].
    split; [rewrite Hlen; destruct Hup as (pg & Hpg & _); by eapply zget_range|].
    rewrite Hr by done. pose proof (frames_upto_le (S i) 768 p) as Hle. rewrite HF, occ_app in Hle. lia. }
  mem_run. assert (occ t (table_frames m0 dir k) = 0) as Hoct.
  { apply occ_none. intros Hin. destruct (Hframes t) as (Hno & _); [by eapply frames_upto_elem|]. by apply Hno. }
  assert (in_use (MemPageStateTable ph) t) as Htuse.
  { rewrite in_use_refs, Hr1, Hoct, Hl; [|done|].
    - unfold used in Htu. rewrite in_use_refs in Htu. fold t in Htu. lia.
    - intros l Hll Htl2 Heq. assert (k = l); [|lia]. apply (so_own _ _ Hspace); [done|unfold USER_SLOTS; lia|done|done|done]. }
  change (physical (set_physical m ph)) with ph.
  destruct (free_one t ph Hok1 Htuse) as (ph2 & E2 & Hok2 & Hl2 & _). rewrite E2. mem_run.
  pose proof (free_one_refs _ _ _ E2) as Hr2. eexists. split; [done|]. split; simpl.
  - done.
  - done.
  - congruence.
  - intros p Hp. rewrite Hr2. destruct (Z.eqb_spec p t) as [->|]; [done|]. rewrite Hr1, Hr by done. rewrite HF, occ_app. lia.
  - intros p Hp Hk'. rewrite Hr2. destruct (Z.eqb_spec p t) as [->|]; [by destruct (Hk' k ltac:(lia) Ht)|].
    rewrite Hr1, Hl; [|done|intros l Hll; apply Hk'; lia]. rewrite occ_none; [lia|].
    intros Hin. destruct (Hframes p) as (Hno & _); [by eapply frames_upto_elem|]. by apply Hno.
  - intros l Hll Htl2. rewrite Hr2. destruct (Z.eqb_spec (table_page m0 dir l) t) as [|Hne]; [done|].
    assert (l <> k) as Hlk by (intros ->; done). rewrite Hr1, Hf by (done || apply Hless; done). rewrite occ_none; [lia|].
    intros Hin. destruct (Hframes (table_page m0 dir l)) as (Hno & _); [by eapply frames_upto_elem|]. apply Hno. right.
    exists l. split; [unfold USER_SLOTS; lia|done].
Qed.

Lemma delete_tables_inv n i m :
  delete_inv m i -> (i + n = 768)%nat ->
  exists m', delete_tables n dir (Z.of_nat i) m = Ret m' /\ delete_inv m' 768.
Proof.
  revert i m. induction n as [|n IH]; intros i m Hinv Hn.
  { exists m. split; [done|]. assert (i = 768)%nat as -> by lia. done. }
  cbn [delete_tables]. destruct (delete_entry_inv m i Hinv) as (m1 & -> & Hinv1); [lia|]. mem_run.
  replace (Z.of_nat i + 1) with (Z.of_nat (S i)) by lia. apply (IH (S i) m1 Hinv1). lia.
Qed.
End Delete.

Lemma delete_releases context m :
  let dir := physDirectory context in
  let F := frames_upto m dir 768 in
  space_ok m dir ->
  (forall p, p ∈ F -> ~ owned m dir p /\ used m p /\ occ p F <= refs (physical m) p) ->
  exists m', free_context_pages context m = Ret m' /\ words m' = words m /\ phys_ok (physical m') /\
    (forall p, ~ owned m dir p -> refs (physical m') p = refs (physical m) p - occ p F) /\
    forall p, owned m dir p -> ~ used m' p.
Proof.
  cbv zeta. set (dir := physDirectory context). intros Hs Hfr. unfold free_context_pages. fold dir.
  destruct (delete_tables_inv m dir Hs Hfr 768 0 m) as (m1 & E & Hinv); [|done|].
  { split; [reflexivity|exact (so_phys _ _ Hs)|reflexivity|intros p _; simpl; lia|reflexivity|intros; lia]. }
  change (Z.of_nat 0) with 0 in E. rewrite E. mem_run. destruct Hinv as [Hw Hok Hlen Hr Hl Hf].
  destruct (so_dir _ _ Hs) as [_ Hdu].
  assert (refs (physical m1) dir = refs (physical m) dir) as Hrd.
  { apply Hl; [by left|]. intros k Hk Ht Heq. by destruct (so_table _ _ Hs k Hk Ht). }
  assert (in_use (MemPageStateTable (physical m1)) dir) as Hdu1.
  { unfold used in Hdu. rewrite in_use_refs in *. lia. }
  destruct (free_one dir (physical m1) Hok Hdu1) as (ph & E2 & Hok2 & _). rewrite E2. mem_run.
  pose proof (free_one_refs _ _ _ E2) as Hr2. eexists. split; [done|]. split; [done|]. split; [done|]. split.
  - intros p Hp. change (physical (set_physical m1 ph)) with ph. rewrite Hr2.
    destruct (Z.eqb_spec p dir) as [->|]; [destruct Hp; by left|]. by apply Hr.
  - intros p Hp. unfold used. rewrite in_use_refs. change (physical (set_physical m1 ph)) with ph. rewrite Hr2.
    destruct (Z.eqb_spec p dir); [lia|].
    destruct Hp as [|(k & Hk & Ht & ->)]; [done|]. rewrite Hf by done. lia.
Qed.

(** Deleting the pages of a context takes back the references of its mappings
    and frees its tables and its directory; it writes no word of memory. *)
Theorem free_context_pages_releases context m :
  let dir := physDirectory context in
  let F := frames_upto m dir 768 in
  space_ok m dir ->
  (forall p, p ∈ F -> ~ owned m dir p /\ used m p /\ occ p F <= refs (physical m) p) ->
  exists m', free_context_pages context m = Ret m' /\ words m' = words m /\ phys_ok (physical m') /\
    (forall p, ~ owned m dir p -> refs (physical m') p = refs (physical m) p - occ p F) /\
    forall p, owned m dir p -> ~ used m' p.
Proof. apply delete_releases. Qed.

(** C35: cloning the current context and deleting the clone gives every page that
    was in use the count it had. *)
Theorem clone_delete_roundtrip fuel kdir current m :
  let cur := physDirectory current in
  kernel_directory kdir -> space_ok m cur -> frames_counted m cur ->
  room fuel (physical m) (tables_from m cur 768 0 + 1) ->
  exists child m1 m2, MemContextClone fuel kdir current m = Ret (child, m1) /\
    free_context_pages child m1 = Ret m2 /\
    (forall p, used m p -> refs (physical m2) p = refs (physical m) p) /\
    (forall p, owned m1 (physDirectory child) p -> ~ used m2 p) /\ space_ok m2 cur.
Proof.
  cbv zeta. intros Hk Hs Hfr Hroom.
  destruct (clone_shares fuel kdir current m Hk Hs Hfr Hroom) as (c & m1 & E1 & _ & _ & Hs1 & Hs2 & Hap & _ & _ & Hr & HF & Hfresh & Hu & Hcur & _).
  cbv zeta in *. set (cur := physDirectory current) in *. set (dir := physDirectory c) in *.
  assert (forall p, p ∈ frames_upto m cur 768 -> used m p) as HFu.
  { intros p Hp. apply frames_upto_in in Hp as (i & Hi & Hp). by apply (Hfr i). }
  destruct (delete_releases c m1 Hs2) as (m2 & E2 & Hw & Hok & Hrefs & Hfreed).
  { fold dir. rewrite HF. intros p Hp. pose proof (HFu p Hp) as Hup. split; [|split].
    - intros Ho. by apply (Hfresh p).
    - auto.
    - rewrite Hr by done. unfold used in Hup. rewrite in_use_refs in Hup. lia. }
  fold dir in Hrefs, Hfreed. rewrite HF in Hrefs.
  exists c, m1, m2. split; [done|]. split; [done|]. split; [|split; [done|]].
  - intros p Hp. rewrite Hrefs, Hr; [lia|done|]. intros Ho. by apply (Hfresh p).
  - assert (forall q, owned m1 cur q -> used m q) as Hcu.
    { intros q Ho. by eapply owned_used, Hcur. }
    apply (same_space m1); [done|done| |].
    + intros q Ho _. pose proof (Hcu q Ho) as Hq. unfold used in *. rewrite in_use_refs in *.
      rewrite Hrefs by by apply Hap. rewrite Hr by by apply in_use_refs. lia.
    + intros w _. unfold word. by rewrite Hw.
Qed.

(** ** On the small machine *)

Definition a_kdir : list Z := replicate 1024 0.

Lemma a_kdir_ok : kernel_directory a_kdir.
Proof.
  split; [reflexivity|]. intros k d Hk Hd. assert (d = 0) as ->; [|vm_compute; by split].
  unfold a_kdir, zget in Hd. destruct (k <? 0); [done|]. by apply lookup_replicate in Hd as [-> _].
Qed.

Lemma MemContextInit_empty_witness :
  exists c m, MemContextInit 100 a_kdir a_machine = Ret (c, m) /\ space_ok m (physDirectory c) /\
    translate m (physDirectory c) 0x1000 = None.
Proof.
  destruct (MemContextInit_empty 100 a_kdir a_machine a_phys_ok a_page_available a_kdir_ok)
    as (c & m & E & _ & _ & Hs & _ & Ht & _).
  exists c, m. split; [exact E|]. split; [exact Hs|]. apply Ht. unfold KERNEL_VIRTUAL_BASE. lia.
Defined.

Lemma b_frames : frames_upto b_machine 1 768 = [50].
Proof. vm_compute. reflexivity. Qed.

Lemma b_refs : refs (physical b_machine) 50 = 1.
Proof. reflexivity. Qed.

Lemma b_frames_counted : frames_counted b_machine 1.
Proof.
  intros i p Hi Hp. apply frames_upto_elem in Hp; [|done]. rewrite b_frames in Hp.
  apply list_elem_of_singleton in Hp as ->. unfold used. rewrite in_use_refs, b_refs. lia.
Qed.

Lemma b_room : room 100 (physical b_machine) (tables_from b_machine 1 768 0 + 1).
Proof.
  split; [exact b_phys_ok|]. split; [vm_compute; reflexivity|].
  exists (mkZone 32 32 64). split; [reflexivity|]. vm_compute. discriminate.
Qed.

Lemma MemContextClone_shares_witness :
  exists c m, MemContextClone 100 a_kdir a_context b_machine = Ret (c, m) /\
    translate m 1 0x1000 = Some (mkMapping 50 false true false) /\
    translate m (physDirectory c) 0x1000 = Some (mkMapping 50 false true false).
Proof.
  destruct (MemContextClone_shares 100 a_kdir a_context b_machine a_kdir_ok b_space_ok b_frames_counted b_room)
    as (c & m & E & H).
  exists c, m. split; [exact E|]. destruct H as (_ & _ & _ & _ & _ & Ht & _).
  destruct (Ht 0x1000) as [H1 H2]; [unfold KERNEL_VIRTUAL_BASE; lia|].
  change (physDirectory a_context) with 1 in *. rewrite b_translate in * by (unfold KERNEL_VIRTUAL_BASE; lia).
  split; [exact H1|exact H2].
Defined.

Lemma free_context_pages_releases_witness :
  exists m, free_context_pages a_context b_machine = Ret m /\ refs (physical m) 50 = 0 /\ ~ used m 2.
Proof.
  destruct (free_context_pages_releases a_context b_machine b_space_ok) as (m & E & _ & _ & Hr & Hf).
  - change (physDirectory a_context) with 1. rewrite b_frames. intros p ->%list_elem_of_singleton.
    rewrite b_refs. unfold used. rewrite in_use_refs, b_refs. split; [|simpl; lia]. intros H%b_owned. lia.
  - change (physDirectory a_context) with 1 in *. exists m. split; [exact E|]. split.
    + rewrite Hr, b_frames; [reflexivity|]. intros H%b_owned. lia.
    + apply Hf. right. exists 0. split; [unfold USER_SLOTS; lia|]. split; reflexivity.
Defined.

Lemma clone_delete_roundtrip_witness :
  exists c m1 m2, MemContextClone 100 a_kdir a_context b_machine = Ret (c, m1) /\
    free_context_pages c m1 = Ret m2 /\ refs (physical m2) 50 = 1.
Proof.
  destruct (clone_delete_roundtrip 100 a_kdir a_context b_machine a_kdir_ok b_space_ok b_frames_counted b_room)
    as (c & m1 & m2 & E1 & E2 & Hr & _).
  exists c, m1, m2. split; [exact E1|]. split; [exact E2|]. rewrite Hr; [reflexivity|].
  unfold used. rewrite in_use_refs, b_refs. lia.
Defined.
