(* ===== verification/PageFault.v ===== *)
(** * Page faults (src/mm/pageFault.c)

    The handler, with the accesses to virtual memory that it makes itself: a
    write that the page tables do not allow faults again (the processor checks
    the right to write in kernel mode too, CR0.WP), which runs the handler
    inside the handler and then tries the write again. *)
From S2P Require Import Prelude Physical PageMap Region UserPage UserSpace ContextSpec.

(** ** State *)

Record fstate := mkFstate { mem : pages; vpt : vptables }.
Definition set_mem (s : fstate) (m : pages) : fstate := mkFstate m (vpt s).
Definition set_vpt (s : fstate) (t : vptables) : fstate := mkFstate (mem s) t.

Definition MEM_TEMPPAGE1 : Z := 0xFFFFC000.
Definition MEM_TEMPPAGE2 : Z := 0xFFFFD000.
Definition MEM_TEMPPAGE3 : Z := 0xFFFFE000.

(** The bits of the error code: the page was present, the access a write, the
    processor in user mode. *)
Definition PF_PRESENT : Z := 1.
Definition PF_WRITE : Z := 2.
Definition PF_USER : Z := 4.

Section Faults.
(** Fuel for the page allocator. *)
Context (fuel : nat).
(** MemCurrentContext, and whether it is MemKernelContext. *)
Context (isKernel : bool) (context : MemContext).
(** The entry of MemVirtualPageTables that the processor uses for an address
    of the kernel's virtual region. *)
Context (vslot : Z -> Z).

(** ** Virtual memory of the current context *)

(** Frame and right to write of a virtual address in kernel mode. *)
Definition vlookup (a : Z) (s : fstate) : option (Z * bool) :=
  if a <? KERNEL_VIRTUAL_BASE then
    mp ← translate (mem s) (physDirectory context) a; Some (frame mp, can_write mp)
  else if a <? MEM_KFIXED_MAX then Some ((a - KERNEL_VIRTUAL_BASE) / 4096, true)
  else
    e ← zget (vpt s) (vslot a);
    if truth (present e) then Some (pageID_raw e, truth (writable e)) else None.

(** The physical word of a virtual address in a frame. *)
Definition frame_word (fr a : Z) : Z := fr * WORDS + (a mod 4096) / 4.

Definition frame_store (fr a v : Z) (s : fstate) : fstate := set_mem s (upd (mem s) (frame_word fr a) v).

Section Access.
(** The page fault handler: address, error code, state; [None] when it ends in
    a signal to the process. *)
Context (handler : Z -> Z -> fstate -> outcome (option fstate)).

Definition fault_code (write : bool) (present : bool) : Z :=
  (if present then PF_PRESENT else 0) + (if write then PF_WRITE else 0).

(** Access one word, faulting as often as it takes. *)
Fixpoint vload (tries : nat) (a : Z) (s : fstate) : outcome (Z * fstate) :=
  match vlookup a s with
  | Some (fr, _) => Ret (word (mem s) (frame_word fr a), s)
  | None =>
      match tries with
      | O => NoFuel
      | S t => r ← handler a (fault_code false false) s; s' ← or_fault r; vload t a s'
      end
  end.

Fixpoint vstore (tries : nat) (a v : Z) (s : fstate) : outcome fstate :=
  let retry (present : bool) :=
    match tries with
    | O => NoFuel
    | S t => r ← handler a (fault_code true present) s; s' ← or_fault r; vstore t a v s'
    end in
  match vlookup a s with
  | Some (fr, true) => Ret (frame_store fr a v s)
  | Some (_, false) => retry true
  | None => retry false
  end.

(** MemSet and MemCpy of whole words. *)
Fixpoint vset (n : nat) (tries : nat) (a v : Z) (s : fstate) : outcome fstate :=
  match n with
  | O => Ret s
  | S n' => s' ← vstore tries a v s; vset n' tries (a + 4) v s'
  end.

Fixpoint vcopy (n : nat) (tries : nat) (dst src : Z) (s : fstate) : outcome fstate :=
  match n with
  | O => Ret s
  | S n' =>
      '(v, s1) ← vload tries src s;
      s2 ← vstore tries dst v s1;
      vcopy n' tries (dst + 4) (src + 4) s2
  end.
End Access.

(** ** The handler *)

(** Duplicate page first. *)
Definition duplicate_page (handler : Z -> Z -> fstate -> outcome (option fstate)) (tries : nat)
    (basePageAddr table : Z) (s : fstate) : outcome fstate :=
  '(newPage, ph) ← MemPhysicalAlloc fuel 1 MEM_HIGHMEM (physical (mem s));
  '(_, t1) ← MemMapPage MEM_TEMPPAGE3 newPage (vpt s);
  s1 ← vcopy handler 1024 tries MEM_TEMPPAGE3 basePageAddr (mkFstate (set_physical (mem s) ph) t1);
  '(_, t2) ← MemUnmapPage MEM_TEMPPAGE3 (vpt s1);
  e ← rd (mem s1) table;
  ph2 ← MemPhysicalDeleteRef (pageID e) 1 (physical (mem s1));
  m2 ← wr (set_physical (mem s1) ph2) table (set_pageID e newPage);
  Ret (mkFstate m2 t2).

(** Protection violation: [None] when it is not copy-on-write. *)
Definition copy_on_write (handler : Z -> Z -> fstate -> outcome (option fstate)) (tries : nat)
    (region : MemRegion) (addr : Z) (s : fstate) : outcome (option fstate) :=
  table ← MemGetPageTable (mem s) (MemGetPageDirectory context addr) addr;
  e ← rd (mem s) table;
  if negb (truth (writable e)) && truth (Z.land (flags region) MEM_WRITABLE) then
    n ← MemPhysicalRefCount (physical (mem s)) (pageID e);
    s1 ← (if 1 <? n then duplicate_page handler tries (page_align addr) table s else Ret s);
    e1 ← rd (mem s1) table;
    m1 ← wr (mem s1) table (set_writable e1 1);
    Ret (Some (set_mem s1 m1))
  else Ret None.

(** Non-present page: demand paging. *)
Definition demand_page (handler : Z -> Z -> fstate -> outcome (option fstate)) (tries : nat)
    (region : MemRegion) (addr : Z) (s : fstate) : outcome fstate :=
  let basePageAddr := page_align addr in
  '(page, ph) ← MemPhysicalAlloc fuel 1 MEM_HIGHMEM (physical (mem s));
  m1 ← MemIntMapUserPage fuel context basePageAddr page (flags region) (set_physical (mem s) ph);
  vset handler 1024 tries basePageAddr 0 (set_mem s m1).

(** ProcSignalSendOrCrash(SIGSEGV) is [None]. *)
Definition fault_error (addr errorCode : Z) : outcome (option fstate) :=
  if truth (Z.land errorCode PF_USER) then Ret None
  else if (addr <? 0x1000) || (0xFFFFC000 <? addr) then
    Panic "MemPageFaultHandler: Unable to handle kernel NULL pointer dereference"
  else Panic "MemPageFaultHandler: Unable to handle kernel page fault for %p".

(** [depth] bounds the handlers inside handlers, [tries] the faults of one
    access. *)
Fixpoint MemPageFaultHandler (depth tries : nat) (addr errorCode : Z) (s : fstate) : outcome (option fstate) :=
  match depth with
  | O => NoFuel
  | S d =>
      let handler := MemPageFaultHandler d tries in
      if truth (Z.land errorCode (Z.shiftl 1 4)) then
        Panic "MemPageFaultHandler: CPU indicated reserved bits have been set"
      else
        match MemRegionFind isKernel context addr with
        | Some (_, region) =>
            if truth (Z.land errorCode PF_PRESENT) then
              r ← copy_on_write handler tries region addr s;
              match r with
              | Some s' => Ret (Some s')
              | None => fault_error addr errorCode
              end
            else
              s' ← demand_page handler tries region addr s;
              Ret (Some s')
        | None => fault_error addr errorCode
        end
  end.
End Faults.
