(* ===== verification/FaultSpec.v ===== *)
(** * What handling a page fault does

    Theorems about PageFault.v: a write to a shared page gives the process a
    copy of its own; the last owner of a page gets the right to write back; a
    missing page becomes a page of zeros; the other faults end in a signal or
    in a panic. *)
From S2P Require Import Prelude Physical PageMap Region UserPage UserSpace Context ContextSpec PageFault.

Lemma page_align_user addr :
  0 <= addr < KERNEL_VIRTUAL_BASE ->
  page_align addr = 4096 * (addr / 4096) /\ 0 <= page_align addr /\ page_align addr + 4096 <= KERNEL_VIRTUAL_BASE.
Proof.
  unfold KERNEL_VIRTUAL_BASE. intros Ha. rewrite page_align_spec by (unfold is_u32; lia). split_and!; zlia.
Qed.

Section Faults.
Context (fuel : nat) (isKernel : bool) (context : MemContext) (vslot : Z -> Z).
Let dir := physDirectory context.
Let lookup := vlookup context vslot.

(** ** Copying a user page to the temporary page *)

Section Copy.
Context (handler : Z -> Z -> fstate -> outcome (option fstate)) (tries : nat).
Context (base fr p e : Z).
Context (Hbase : base mod 4096 = 0 /\ 0 <= base /\ base + 4096 <= KERNEL_VIRTUAL_BASE).
Context (Hslot : forall a, MEM_TEMPPAGE3 <= a < MEM_TEMPPAGE3 + 4096 -> vslot a = vpt_index MEM_TEMPPAGE3).
Context (He : present e = 1 /\ writable e = 1 /\ pageID_raw e = p) (Hne : fr <> p).

(** The source is mapped to [fr], the temporary page to [p]. *)
Record copy_ready (s : fstate) : Prop := mkCopyReady {
  cr_space : space_ok (mem s) dir;
  cr_other : ~ owned (mem s) dir p;
  cr_source : exists mp, translate (mem s) dir base = Some mp /\ frame mp = fr;
  cr_temp : zget (vpt s) (vpt_index MEM_TEMPPAGE3) = Some e
}.

Lemma lookup_source s j : copy_ready s -> 0 <= j < 1024 -> exists b, lookup (base + 4 * j) s = Some (fr, b).
Proof.
  intros [_ _ (mp & Ht & Hf) _] Hj. unfold lookup, vlookup. destruct (Z.ltb_spec (base + 4 * j) KERNEL_VIRTUAL_BASE); [|lia].
  fold dir. rewrite (translate_same_page _ dir (base + 4 * j) base) by zlia. rewrite Ht. simpl. rewrite Hf. eauto.
Qed.

Lemma lookup_temp s j : copy_ready s -> 0 <= j < 1024 -> lookup (MEM_TEMPPAGE3 + 4 * j) s = Some (p, true).
Proof.
  intros [_ _ _ Ht] Hj. unfold lookup, vlookup. rewrite Hslot by lia. rewrite Ht.
  unfold MEM_TEMPPAGE3, KERNEL_VIRTUAL_BASE, MEM_KFIXED_MAX.
  destruct (Z.ltb_spec (0xFFFFE000 + 4 * j) 0xC0000000); [lia|]. destruct (Z.ltb_spec (0xFFFFE000 + 4 * j) 0xF0000000); [lia|].
  destruct He as (Hp & Hw & Hr). simpl. rewrite Hp, Hw, Hr. done.
Qed.

Lemma store_ready s j v : copy_ready s -> 0 <= j < 1024 -> copy_ready (frame_store p (MEM_TEMPPAGE3 + 4 * j) v s).
Proof.
  intros [Hs Ho (mp & Ht & Hf) Hv] Hj.
  assert (frame_word p (MEM_TEMPPAGE3 + 4 * j) / WORDS = p) as Hpage by (unfold frame_word, MEM_TEMPPAGE3; zlia).
  assert (forall w, owned (mem s) dir (w / WORDS) ->
    same_hw (word (mem (frame_store p (MEM_TEMPPAGE3 + 4 * j) v s)) w) (word (mem s) w)) as Hsame.
  { intros w Hw. unfold frame_store. simpl. rewrite word_upd. destruct (Z.eqb_spec (frame_word p (MEM_TEMPPAGE3 + 4 * j)) w) as [<-|]; [|done].
    by rewrite Hpage in Hw. }
  split.
  - apply (same_space (mem s)); [done|apply Hs|done|done].
  - intros H. by apply Ho, (same_owned (mem s) _ dir Hsame).
  - exists mp. split; [|done]. rewrite <- Ht. apply same_translate; [done|apply Hs|done|done|lia].
  - done.
Qed.

Lemma vcopy_page n j s :
  copy_ready s -> 0 <= j -> j + Z.of_nat n = 1024 ->
  exists s', vcopy context vslot handler n tries (MEM_TEMPPAGE3 + 4 * j) (base + 4 * j) s = Ret s' /\
    vpt s' = vpt s /\ physical (mem s') = physical (mem s) /\
    forall w, word (mem s') w =
      if (p * WORDS + j <=? w) && (w <? p * WORDS + 1024) then word (mem s) (fr * WORDS + (w - p * WORDS)) else word (mem s) w.
Proof.
  revert j s. induction n as [|n IH]; intros j s Hr Hj Hn.
  { exists s. split; [done|]. split; [done|]. split; [done|]. intros w. bool_cases; done || lia. }
  cbn [vcopy]. destruct (lookup_source s j Hr) as [b Hl]; [lia|].
  assert (vload context vslot handler tries (base + 4 * j) s = Ret (word (mem s) (fr * WORDS + j), s)) as ->.
  { unfold lookup in Hl. destruct tries; cbn [vload]; rewrite Hl; do 3 f_equal; unfold frame_word; zlia. }
  mem_run.
  assert (vstore context vslot handler tries (MEM_TEMPPAGE3 + 4 * j) (word (mem s) (fr * WORDS + j)) s =
    Ret (frame_store p (MEM_TEMPPAGE3 + 4 * j) (word (mem s) (fr * WORDS + j)) s)) as ->.
  { pose proof (lookup_temp s j Hr ltac:(lia)) as Ht. unfold lookup in Ht. destruct tries; cbn [vstore]; by rewrite Ht. }
  mem_run. set (s1 := frame_store _ _ _ s). assert (copy_ready s1) as Hr1 by (by apply store_ready; [|lia]).
  replace (MEM_TEMPPAGE3 + 4 * j + 4) with (MEM_TEMPPAGE3 + 4 * (j + 1)) by lia.
  replace (base + 4 * j + 4) with (base + 4 * (j + 1)) by lia.
  destruct (IH (j + 1) s1 Hr1) as (s' & E & Hv & Hp & Hw); [lia|lia|].
  exists s'. split; [done|]. split; [done|]. split; [done|]. intros w. rewrite Hw.
  assert (frame_word p (MEM_TEMPPAGE3 + 4 * j) = p * WORDS + j) as Hfw by (unfold frame_word, MEM_TEMPPAGE3; zlia).
  assert (forall x, word (mem s1) x = if p * WORDS + j =? x then word (mem s) (fr * WORDS + j) else word (mem s) x) as Hs1.
  { intros x. unfold s1, frame_store. simpl. by rewrite word_upd, Hfw. }
  rewrite !Hs1. destruct (Z.eqb_spec (p * WORDS + j) w) as [<-|].
  - replace (p * WORDS + j - p * WORDS) with j by lia.
    destruct (Z.leb_spec (p * WORDS + (j + 1)) (p * WORDS + j)); [lia|]. destruct (Z.leb_spec (p * WORDS + j) (p * WORDS + j)); [|lia].
    simpl. by destruct (Z.ltb_spec (p * WORDS + j) (p * WORDS + 1024)); [|lia].
  - destruct (Z.leb_spec (p * WORDS + (j + 1)) w), (Z.leb_spec (p * WORDS + j) w); try lia; simpl; [|done].
    destruct (Z.ltb_spec w (p * WORDS + 1024)); [|done].
    destruct (Z.eqb_spec (p * WORDS + j) (fr * WORDS + (w - p * WORDS))); [lia|done].
Qed.
End Copy.

(** ** Copy on write *)

(** A page of the current context that the table says is read-only. *)
Record read_only_page (s : fstate) (addr : Z) (mp : mapping) : Prop := mkReadOnlyPage {
  ro_space : space_ok (mem s) dir;
  ro_user : 0 <= addr < KERNEL_VIRTUAL_BASE;
  ro_index : (addr / 0x400000) mod 4 = 0;
  ro_mapped : translate (mem s) dir addr = Some mp;
  ro_write : can_write mp = false;
  ro_frame : 0 <= frame mp < total_pages (mem s) /\ total_pages (mem s) <= 0x80000;
  ro_own : ~ owned (mem s) dir (frame mp)
}.

(** The temporary page is free, and the processor and the array agree on it. *)
Definition temp_ready (s : fstate) : Prop :=
  zget (vpt s) (vpt_index MEM_TEMPPAGE3) = Some 0 /\
  forall a, MEM_TEMPPAGE3 <= a < MEM_TEMPPAGE3 + 4096 -> vslot a = vpt_index MEM_TEMPPAGE3.

(** The temporary page is free, but the processor finds another entry for it
    than the array's, and that one is not present. *)
Definition temp_unseen (s : fstate) : Prop :=
  zget (vpt s) (vpt_index MEM_TEMPPAGE3) = Some 0 /\ vslot MEM_TEMPPAGE3 <> vpt_index MEM_TEMPPAGE3 /\
  exists e, zget (vpt s) (vslot MEM_TEMPPAGE3) = Some e /\ present e = 0.

Let slot (s : fstate) (addr : Z) : Z := entry_slot (mem s) dir addr.

Lemma cow_entry s addr mp :
  read_only_page s addr mp ->
  let i := addr / 0x400000 in
  let e := word (mem s) (slot s addr) in
  has_table (mem s) dir i = true /\ present e = 1 /\ writable e = 0 /\
  mp = entry_mapping (dir_entry (mem s) dir i) e (pageID_raw e) /\ pageID e = frame mp /\ pageID_raw e = frame mp.
Proof.
  intros [Hs Ha H4 Ht Hw [Hf Htot] Ho]. cbv zeta. rewrite translate_user in Ht by done. cbv zeta in Ht.
  pose proof (dir_index addr Ha) as Hi. unfold slot, entry_slot. set (i := addr / 0x400000) in *.
  destruct (has_table (mem s) dir i) eqn:Hti; [|done]. set (e := word (mem s) _) in *.
  destruct (truth (present e)) eqn:Hp; [|done]. injection Ht as <-.
  destruct (so_table _ _ Hs i Hi Hti) as (_ & _ & Hwd & _). simpl in *. rewrite Hwd in Hw. simpl in Hw.
  split; [done|]. split; [by apply truth_bit|]. split.
  { unfold truth in Hw. by destruct (Z.eqb_spec (writable e) 0). }
  split; [done|]. split; [|done]. rewrite pageID_signed. unfold signed_page. destruct (Z.ltb_spec (pageID_raw e) 0x80000); [done|lia].
Qed.

Lemma slot_page s addr mp : read_only_page s addr mp -> owned (mem s) dir (slot s addr / WORDS).
Proof.
  intros Hro. pose proof (cow_entry s addr mp Hro) as (Ht & _). right. exists (addr / 0x400000).
  split; [by apply dir_index, Hro|]. split; [done|]. unfold slot, entry_slot. zlia.
Qed.

Lemma new_entry_fields e p :
  0 <= p < 1048576 -> present e = 1 ->
  let e' := set_writable (set_pageID e p) 1 in
  present e' = 1 /\ writable e' = 1 /\ userMode e' = userMode e /\ cacheDisable e' = cacheDisable e /\ pageID_raw e' = p.
Proof.
  cbv zeta. intros Hp Hpr. split_and!; fields; try done. by rewrite land_page, Z.mod_small.
Qed.

Lemma kernel_entry_fields p : 0 <= p < 1048576 ->
  present (kernel_entry p) = 1 /\ writable (kernel_entry p) = 1 /\ pageID_raw (kernel_entry p) = p.
Proof.
  intros Hp. unfold kernel_entry, set_global. split_and!; fields; try done. by rewrite land_page, Z.mod_small.
Qed.

Lemma temp_map p t :
  zget t (vpt_index MEM_TEMPPAGE3) = Some 0 ->
  MemMapPage MEM_TEMPPAGE3 p t = Ret (true, zset t (vpt_index MEM_TEMPPAGE3) (kernel_entry p)).
Proof.
  intros Ht. destruct (mappable_index MEM_TEMPPAGE3) as (Hok & Hi & _); [by vm_compute|].
  unfold MemMapPage. rewrite Hok. cbv zeta. rewrite Hi, Ht. reflexivity.
Qed.

Lemma temp_unmap p t :
  zget t (vpt_index MEM_TEMPPAGE3) = Some 0 -> 0 <= p < 1048576 ->
  exists q, MemUnmapPage MEM_TEMPPAGE3 (zset t (vpt_index MEM_TEMPPAGE3) (kernel_entry p)) = Ret (q, t).
Proof.
  intros Ht Hp. destruct (mappable_index MEM_TEMPPAGE3) as ([Hok _]%orb_false_iff & Hi & _); [by vm_compute|].
  pose proof (zget_range _ _ _ Ht) as Hr.
  unfold MemUnmapPage. rewrite Hok. cbv zeta. rewrite Hi, zget_zset_eq by done. mem_run. cbn [or_fault]. mem_run.
  destruct (kernel_entry_fields p Hp) as (-> & _). eexists. do 2 f_equal.
  apply zget_ext; [by rewrite !zlen_zset|]. intros j. rewrite !zget_zset, zlen_zset.
  destruct (Z.eqb_spec (vpt_index MEM_TEMPPAGE3) j) as [<-|]; [|done]. rewrite Ht. by destruct (_ && _).
Qed.

(** Duplicating: the frame of the entry is a new page with the same words. *)
Lemma duplicate_page_copies handler tries s addr mp :
  read_only_page s addr mp -> temp_ready s -> 1 < refs (physical (mem s)) (frame mp) ->
  page_available fuel MEM_HIGHMEM (physical (mem s)) ->
  let e := word (mem s) (slot s addr) in
  exists p s', duplicate_page fuel context vslot handler tries (page_align addr) (slot s addr) s = Ret s' /\
    ~ used (mem s) p /\ 0 <= p < total_pages (mem s) /\ vpt s' = vpt s /\ phys_ok (physical (mem s')) /\
    (forall q, refs (physical (mem s')) q =
       if q =? p then 1 else if q =? frame mp then refs (physical (mem s)) q - 1 else refs (physical (mem s)) q) /\
    forall w, word (mem s') w =
      if w =? slot s addr then set_pageID e p
      else if w / WORDS =? p then word (mem s) (frame mp * WORDS + w mod WORDS) else word (mem s) w.
Proof.
  cbv zeta. intros Hro [Htemp Hslot] Href Hav. pose proof Hro as [Hs Ha H4 Htr Hw [Hf Htot] Ho].
  destruct (cow_entry s addr mp Hro) as (Ht & Hpr & Hwe & Hmp & Hpid & Hraw).
  destruct (alloc_available fuel MEM_HIGHMEM _ (so_phys _ _ Hs) ltac:(done) Hav) as (p & ph & E).
  destruct (alloc_one_sound fuel MEM_HIGHMEM _ p ph (so_phys _ _ Hs) ltac:(done) E) as (pg & Hpg & Hrc & Htbl & Hok & _).
  destruct (in_use_zset _ _ _ Hpg Hrc) as [Hfree _]. pose proof (zget_range _ _ _ Hpg) as Hp. fold (total_pages (mem s)) in Hp.
  assert (forall q, refs ph q = if q =? p then 1 else refs (physical (mem s)) q) as Hr1 by (intros q; by apply (refs_zset _ _ p pg)).
  assert (refs (physical (mem s)) p = 0) as Hp0 by (unfold refs; by rewrite Hpg).
  assert (frame mp <> p) as Hfp by (intros Heq; rewrite Heq in Href; lia).
  assert (~ owned (mem s) dir p) as Hop by (intros H; by apply Hfree, (owned_used _ dir)).
  destruct (page_align_user addr Ha) as (Hpa & Hpa0 & Hpa1).
  unfold duplicate_page. rewrite E. mem_run. rewrite temp_map by done. mem_run.
  set (t1 := zset (vpt s) (vpt_index MEM_TEMPPAGE3) (kernel_entry p)). set (s1 := mkFstate (set_physical (mem s) ph) t1).
  assert (forall w, owned (mem s) dir (w / WORDS) -> same_hw (word (mem s1) w) (word (mem s) w)) as Hsame by done.
  assert (forall q, owned (mem s) dir q -> used (mem s) q -> used (mem s1) q) as Hu1.
  { intros q _ Hq. unfold used in *. rewrite in_use_refs in *. simpl. rewrite Hr1. destruct (q =? p); lia. }
  assert (copy_ready (page_align addr) (frame mp) p (kernel_entry p) s1) as Hready.
  { split.
    - by apply (same_space (mem s)).
    - intros H. by apply Hop, (same_owned (mem s) _ dir Hsame).
    - exists mp. split; [|done]. rewrite <- Htr. rewrite (translate_same_page _ dir addr (page_align addr)) by (rewrite Hpa; zlia).
      apply same_translate; [done|done|done|done|lia].
    - simpl. apply zget_zset_eq. by eapply zget_range. }
  destruct (vcopy_page handler tries (page_align addr) (frame mp) p (kernel_entry p)) with (n := 1024%nat) (j := 0) (s := s1)
    as (s2 & Ec & Hv2 & Hph2 & Hw2); [split; [rewrite Hpa; zlia|done]|done|apply kernel_entry_fields; lia|done|done|lia|lia|].
  rewrite Z.mul_0_r, !Z.add_0_r in Ec. rewrite Ec. mem_run. rewrite Hv2. simpl vpt. unfold t1. destruct (temp_unmap p (vpt s) Htemp ltac:(lia)) as (q & ->). mem_run.
  assert (forall w, word (mem s1) w = word (mem s) w) as Hs1w by (intros w; reflexivity).
  assert (forall w, word (mem s2) w = if w / WORDS =? p then word (mem s) (frame mp * WORDS + w mod WORDS) else word (mem s) w) as Hw2'.
  { intros w. rewrite Hw2, !Hs1w, Z.add_0_r, page_range. destruct (Z.eqb_spec (w / WORDS) p) as [<-|]; [|reflexivity]. f_equal. zlia. }
  assert (direct (slot s addr) = true) as Hd by exact (slot_direct context addr Ha (mem s) Hs).
  pose proof (slot_page s addr mp Hro) as Hsp.
  assert (slot s addr / WORDS <> p) as Hsp' by (intros Heq; by rewrite Heq in Hsp).
  rewrite rd_direct by done. mem_run. rewrite Hw2'. apply Z.eqb_neq in Hsp' as Hspb. rewrite Hspb. rewrite Hpid, Hph2.
  assert (total_pages (mem s1) = total_pages (mem s)) as Htot1 by (unfold total_pages; simpl; by rewrite Htbl, zlen_zset).
  destruct (deleteref_one (frame mp) (physical (mem s1)) Hok) as (ph2 & pg2 & -> & Hok2 & Hpg2 & Htbl2); [by fold (total_pages (mem s1)); rewrite Htot1|].
  mem_run. rewrite wr_direct by done. mem_run. exists p. eexists. split; [done|]. split; [done|]. split; [done|]. split; [done|].
  split; [done|]. split.
  - intros r. simpl. rewrite (refs_zset _ _ _ _ _ r Hpg2 Htbl2). simpl. rewrite Hr1.
    assert (Physical.refCount pg2 = refs (physical (mem s)) (frame mp)) as Hc.
    { simpl in Hpg2. pose proof (Hr1 (frame mp)) as H. unfold refs at 1 in H. rewrite Hpg2 in H.
      by destruct (Z.eqb_spec (frame mp) p). }
    destruct (Z.eqb_spec r (frame mp)) as [->|]; [|done]. destruct (Z.eqb_spec (frame mp) p); [done|lia].
  - intros w. simpl. rewrite word_upd, (Z.eqb_sym w). destruct (_ =? w); [done|]. apply Hw2'.
Qed.

(** The fault of a write to a shared page of a writable region. *)
Definition writable_region (addr : Z) : Prop :=
  exists i region, MemRegionFind isKernel context addr = Some (i, region) /\ truth (Z.land (flags region) MEM_WRITABLE) = true.
Definition write_fault (errorCode : Z) : Prop := Z.testbit errorCode 0 = true /\ Z.testbit errorCode 4 = false.

Lemma land_bit c i : 0 <= i -> truth (Z.land c (Z.shiftl 1 i)) = Z.testbit c i.
Proof.
  intros Hi. rewrite Z.shiftl_1_l. unfold truth. destruct (Z.testbit c i) eqn:E.
  - destruct (Z.eqb_spec (Z.land c (2 ^ i)) 0) as [H|]; [|done].
    assert (Z.testbit (Z.land c (2 ^ i)) i = true) as Hb by by rewrite Z.land_spec, E, Z.pow2_bits_true.
    by rewrite H, Z.bits_0 in Hb.
  - assert (Z.land c (2 ^ i) = 0) as ->; [|done]. apply Z.bits_inj'. intros j Hj. rewrite Z.land_spec, Z.bits_0.
    destruct (Z.eq_dec i j) as [<-|]; [by rewrite E|]. by rewrite Z.pow2_bits_false, andb_false_r.
Qed.

(** A protection fault that is copy on write runs the copying branch. *)
Lemma handler_cow depth tries s addr errorCode mp :
  read_only_page s addr mp -> writable_region addr -> write_fault errorCode ->
  MemPageFaultHandler fuel isKernel context vslot (S depth) tries addr errorCode s =
    s1 ← (if 1 <? refs (physical (mem s)) (frame mp) then
            duplicate_page fuel context vslot (MemPageFaultHandler fuel isKernel context vslot depth tries) tries (page_align addr) (slot s addr) s
          else Ret s);
    e1 ← rd (mem s1) (slot s addr);
    m1 ← wr (mem s1) (slot s addr) (set_writable e1 1);
    Ret (Some (set_mem s1 m1)).
Proof.
  intros Hro (i & region & Hfind & Hflag) [H0 H4]. pose proof Hro as [Hs Ha Hi Htr Hw [Hf Htot] Ho].
  destruct (cow_entry s addr mp Hro) as (Ht & Hpr & Hwe & Hmp & Hpid & Hraw).
  cbn [MemPageFaultHandler]. rewrite land_bit, H4 by lia. rewrite Hfind. unfold PF_PRESENT. change 1 with (Z.shiftl 1 0) at 1.
  rewrite land_bit, H0 by lia. unfold copy_on_write. rewrite MemGetPageTable_slot by done. fold dir. mem_run.
  fold (slot s addr). rewrite rd_direct by exact (slot_direct context addr Ha (mem s) Hs). mem_run. rewrite Hwe, Hflag. simpl negb. cbv iota.
  simpl andb. cbv iota. unfold MemPhysicalRefCount. rewrite Hpid.
  destruct (zget_in_range (MemPageStateTable (physical (mem s))) (frame mp) Hf) as [pg Hpg].
  unfold refs. rewrite Hpg. mem_run. cbn [or_fault]. mem_run.
  destruct (if 1 <? Physical.refCount pg then _ else _) as [s1| | |]; mem_run; try done.
  destruct (rd (mem s1) (slot s addr)); mem_run; try done. by destruct (wr _ _ _).
Qed.

(** *** After the entry of the page is rewritten *)

Section Rewritten.
Context (s : fstate) (addr : Z) (mp : mapping) (m' : pages) (v : Z) (new : Z -> Prop).
Context (Hro : read_only_page s addr mp) (Hphys : phys_ok (physical m')).
Context (Hused : forall q, owned (mem s) dir q -> used (mem s) q -> used m' q).
Context (Hnew : forall q, new q -> ~ owned (mem s) dir q).
(** The entry is [v]; the other words change in pages of [new] only. *)
Context (Hv : word m' (slot s addr) = v).
Context (Hwords : forall w, w <> slot s addr -> ~ new (w / WORDS) -> word m' w = word (mem s) w).

Let mA : pages := upd m' (slot s addr) (word (mem s) (slot s addr)).

Lemma before_same w : owned (mem s) dir (w / WORDS) -> same_hw (word mA w) (word (mem s) w).
Proof.
  intros Ho. unfold mA. rewrite word_upd. destruct (Z.eqb_spec (slot s addr) w) as [<-|Hne]; [done|].
  rewrite Hwords; [done|congruence|]. intros Hn. by eapply Hnew.
Qed.

Lemma before_space : space_ok mA dir.
Proof. apply (same_space (mem s)); [apply Hro|done|done|apply before_same]. Qed.

Lemma rewritten_slot : entry_slot mA dir addr = slot s addr.
Proof.
  unfold entry_slot, slot. rewrite (same_table_page (mem s) mA); [done|apply before_same|].
  pose proof (dir_index addr (ro_user _ _ _ Hro)) as Hi. unfold USER_SLOTS in Hi. lia.
Qed.

Lemma rewritten_words w : same_hw (word m' w) (if w =? entry_slot mA dir addr then v else word mA w).
Proof.
  rewrite rewritten_slot. unfold mA. rewrite word_upd, (Z.eqb_sym w). destruct (Z.eqb_spec (slot s addr) w) as [<-|]; [by rewrite Hv|done].
Qed.

Lemma rewritten_table : has_table mA dir (addr / 0x400000) = true.
Proof.
  rewrite (same_has_table (mem s) mA); [by apply (cow_entry s addr mp)|apply before_same|].
  pose proof (dir_index addr (ro_user _ _ _ Hro)) as Hi. unfold USER_SLOTS in Hi. lia.
Qed.

Lemma rewritten_ok :
  present v = 1 -> writable v = 1 -> userMode v = userMode (word (mem s) (slot s addr)) ->
  cacheDisable v = cacheDisable (word (mem s) (slot s addr)) ->
  space_ok m' dir /\
  forall a, 0 <= a < KERNEL_VIRTUAL_BASE -> translate m' dir a =
    if a / 4096 =? addr / 4096 then Some (mkMapping (pageID_raw v) true (user_ok mp) (uncached mp)) else translate (mem s) dir a.
Proof.
  intros Hp Hw Hu Hc. pose proof Hro as [Hs Ha H4 Htr Hwr Hf Ho].
  pose proof (dir_index addr Ha) as Hi.
  split; [by apply (written_space mA m' dir addr v before_space Ha rewritten_table eq_refl rewritten_words)|].
  intros a Hua. rewrite (written_translate mA m' dir addr v before_space Ha rewritten_table eq_refl rewritten_words a Hua).
  rewrite Hp. change (truth 1) with true. cbv iota.
  rewrite (same_translate (mem s) mA dir) by (done || apply before_same).
  destruct (_ =? _); [|done]. f_equal.
  destruct (cow_entry s addr mp Hro) as (Ht & _ & _ & -> & _ & _).
  assert (same_hw (dir_entry mA dir (addr / 0x400000)) (dir_entry (mem s) dir (addr / 0x400000))) as Hd.
  { apply same_dir; [apply before_same|]. unfold USER_SLOTS in Hi. lia. }
  unfold entry_mapping. simpl. rewrite Hw, Hu, Hc. f_equal.
  - rewrite Hd. by destruct (so_table _ _ Hs _ Hi Ht) as (_ & _ & -> & _).
  - by rewrite Hd.
Qed.
End Rewritten.

Lemma cow_copies depth tries s addr errorCode mp :
  read_only_page s addr mp -> writable_region addr -> write_fault errorCode -> temp_ready s ->
  1 < refs (physical (mem s)) (frame mp) -> page_available fuel MEM_HIGHMEM (physical (mem s)) ->
  exists p s', MemPageFaultHandler fuel isKernel context vslot (S depth) tries addr errorCode s = Ret (Some s') /\
    ~ used (mem s) p /\ vpt s' = vpt s /\ space_ok (mem s') dir /\
    (forall a, 0 <= a < KERNEL_VIRTUAL_BASE -> translate (mem s') dir a =
       if a / 4096 =? addr / 4096 then Some (mkMapping p true (user_ok mp) (uncached mp)) else translate (mem s) dir a) /\
    (forall j, 0 <= j < WORDS -> word (mem s') (p * WORDS + j) = word (mem s) (frame mp * WORDS + j)) /\
    (forall w, w / WORDS <> p -> w <> entry_slot (mem s) dir addr -> word (mem s') w = word (mem s) w) /\
    (forall q, refs (physical (mem s')) q =
      if q =? p then 1 else if q =? frame mp then refs (physical (mem s)) q - 1 else refs (physical (mem s)) q) /\
    (forall q, used (mem s) q -> q <> frame mp -> used (mem s') q) /\ phys_ok (physical (mem s')).
Proof.
  intros Hro Hreg Herr Htemp Href Hav. rewrite (handler_cow depth tries s addr errorCode mp) by done.
  destruct (Z.ltb_spec 1 (refs (physical (mem s)) (frame mp))); [|lia].
  destruct (duplicate_page_copies (MemPageFaultHandler fuel isKernel context vslot depth tries) tries s addr mp Hro Htemp Href Hav)
    as (p & s1 & -> & Hfree & Hp & Hv & Hok & Hr & Hw). mem_run.
  pose proof Hro as [Hs Ha H4 Htr Hwr [Hf Htot] Ho].
  pose proof (slot_direct context addr Ha (mem s) Hs) as Hd.
  rewrite rd_direct by exact Hd. mem_run. rewrite wr_direct by exact Hd. mem_run.
  destruct (cow_entry s addr mp Hro) as (_ & Hpr & _).
  assert (~ owned (mem s) dir p) as Hop by (intros H'; by apply Hfree, (owned_used _ dir)).
  set (e := word (mem s) (slot s addr)) in *.
  assert (word (mem s1) (slot s addr) = set_pageID e p) as He by (by rewrite Hw, Z.eqb_refl).
  rewrite He. set (v := set_writable (set_pageID e p) 1). set (m' := upd (mem s1) (slot s addr) v).
  destruct (new_entry_fields e p ltac:(lia) Hpr) as (Hv1 & Hv2 & Hv3 & Hv4 & Hv5). fold v in Hv1, Hv2, Hv3, Hv4, Hv5.
  assert (forall w, word m' w = if w =? slot s addr then v
    else if w / WORDS =? p then word (mem s) (frame mp * WORDS + w mod WORDS) else word (mem s) w) as Hw'.
  { intros w. unfold m'. rewrite word_upd, (Z.eqb_sym w). destruct (Z.eqb_spec (slot s addr) w); [done|]. rewrite Hw.
    by destruct (Z.eqb_spec w (slot s addr)). }
  destruct (rewritten_ok s addr mp m' v (fun q => q = p) Hro Hok) as [Hs' Htr']; try done.
  { intros q Hq Hu. unfold used in *. rewrite in_use_refs in *. simpl. rewrite Hr. destruct (q =? p); [lia|].
    destruct (Z.eqb_spec q (frame mp)) as [->|]; [done|lia]. }
  { by intros q ->. }
  { by rewrite Hw', Z.eqb_refl. }
  { intros w Hne Hnp. rewrite Hw'. by destruct (Z.eqb_spec w (slot s addr)), (Z.eqb_spec (w / 1024) p). }
  exists p. eexists. split; [done|]. simpl. split; [done|]. split; [done|]. split; [done|]. rewrite Hv5 in Htr'. split; [done|].
  split; [|split; [|split; [done|split; [|done]]]].
  - intros j Hj. rewrite Hw'. pose proof (slot_page s addr mp Hro) as Hsp.
    destruct (Z.eqb_spec (p * WORDS + j) (slot s addr)) as [Heq|].
    { exfalso. apply Hop. rewrite <- Heq in Hsp. by replace ((p * WORDS + j) / WORDS) with p in Hsp by zlia. }
    replace ((p * WORDS + j) / WORDS) with p by zlia. rewrite Z.eqb_refl. f_equal. zlia.
  - intros w Hnp Hns. rewrite Hw'. by destruct (Z.eqb_spec w (slot s addr)), (Z.eqb_spec (w / 1024) p).
  - intros q Hq Hne. unfold used in *. rewrite in_use_refs in *. simpl. rewrite Hr. destruct (q =? p); [lia|].
    by destruct (Z.eqb_spec q (frame mp)).
Qed.

(** A write to a shared page of a writable region gives the current context a
    page of its own with the same words, and the right to write it: the page
    was free, the old frame loses one reference, no other word of memory and
    no other translation changes. *)
Theorem copy_on_write_copies depth tries s addr errorCode mp :
  read_only_page s addr mp -> writable_region addr -> write_fault errorCode -> temp_ready s ->
  1 < refs (physical (mem s)) (frame mp) -> page_available fuel MEM_HIGHMEM (physical (mem s)) ->
  exists p s', MemPageFaultHandler fuel isKernel context vslot (S depth) tries addr errorCode s = Ret (Some s') /\
    ~ used (mem s) p /\ vpt s' = vpt s /\ space_ok (mem s') dir /\
    (forall a, 0 <= a < KERNEL_VIRTUAL_BASE -> translate (mem s') dir a =
       if a / 4096 =? addr / 4096 then Some (mkMapping p true (user_ok mp) (uncached mp)) else translate (mem s) dir a) /\
    (forall j, 0 <= j < WORDS -> word (mem s') (p * WORDS + j) = word (mem s) (frame mp * WORDS + j)) /\
    (forall w, w / WORDS <> p -> w <> entry_slot (mem s) dir addr -> word (mem s') w = word (mem s) w) /\
    forall q, refs (physical (mem s')) q =
      if q =? p then 1 else if q =? frame mp then refs (physical (mem s)) q - 1 else refs (physical (mem s)) q.
Proof.
  intros H1 H2 H3 H4 H5 H6. destruct (cow_copies depth tries s addr errorCode mp H1 H2 H3 H4 H5 H6) as (p & s' & H).
  exists p, s'. tauto.
Qed.

(** When the processor finds another entry for the temporary page than the one
    that MemMapPage writes, the copy faults inside the handler: no region has
    the temporary page, and its address counts as a null pointer. *)
Lemma copy_on_write_temp_unseen depth tries s addr errorCode mp :
  read_only_page s addr mp -> writable_region addr -> write_fault errorCode ->
  1 < refs (physical (mem s)) (frame mp) -> page_available fuel MEM_HIGHMEM (physical (mem s)) ->
  temp_unseen s -> MemRegionFind isKernel context MEM_TEMPPAGE3 = None ->
  MemPageFaultHandler fuel isKernel context vslot (S (S depth)) (S tries) addr errorCode s =
    Panic "MemPageFaultHandler: Unable to handle kernel NULL pointer dereference".
Proof.
  intros Hro Hreg Herr Href Hav (Htemp & Hne & e0 & He0 & Hp0) Hfind. rewrite (handler_cow (S depth) (S tries) s addr errorCode mp) by done.
  destruct (Z.ltb_spec 1 (refs (physical (mem s)) (frame mp))); [|lia].
  pose proof Hro as [Hs Ha H4 Htr Hw [Hf Htot] Ho]. destruct (page_align_user addr Ha) as (Hpa & Hpa0 & Hpa1).
  destruct (alloc_available fuel MEM_HIGHMEM _ (so_phys _ _ Hs) ltac:(done) Hav) as (p & ph & E).
  destruct (alloc_one_sound fuel MEM_HIGHMEM _ p ph (so_phys _ _ Hs) ltac:(done) E) as (pg & Hpg & Hrc & Htbl & Hok & _).
  unfold duplicate_page. rewrite E. mem_run. rewrite temp_map by done. mem_run.
  set (s1 := mkFstate (set_physical (mem s) ph) _).
  assert (translate (mem s1) dir (page_align addr) = Some mp) as Ht1.
  { rewrite <- Htr. rewrite (translate_same_page _ dir addr (page_align addr)) by (rewrite Hpa; zlia).
    apply same_translate; [done|done| |done|lia]. intros q _ Hq. unfold used in *.
    simpl. rewrite Htbl. by apply (in_use_zset _ _ _ Hpg Hrc); left. }
  assert (vlookup context vslot (page_align addr) s1 = Some (frame mp, can_write mp)) as Hl.
  { unfold vlookup. destruct (Z.ltb_spec (page_align addr) KERNEL_VIRTUAL_BASE); [|lia]. fold dir. by rewrite Ht1. }
  assert (vlookup context vslot MEM_TEMPPAGE3 s1 = None) as Hl2.
  { unfold vlookup. change (MEM_TEMPPAGE3 <? KERNEL_VIRTUAL_BASE) with false. change (MEM_TEMPPAGE3 <? MEM_KFIXED_MAX) with false. cbv iota. cbn [vpt s1].
    rewrite zget_zset_ne by done. rewrite He0. simpl. by rewrite Hp0. }
  assert (forall h n, vload context vslot h n (page_align addr) s1 =
    Ret (word (mem s1) (frame_word (frame mp) (page_align addr)), s1)) as Hload by (intros h [|n]; cbn [vload]; by rewrite Hl).
  assert (forall v, vstore context vslot (MemPageFaultHandler fuel isKernel context vslot (S depth) (S tries)) (S tries) MEM_TEMPPAGE3 v s1 =
    Panic "MemPageFaultHandler: Unable to handle kernel NULL pointer dereference") as Hstore.
  { intros v. cbn [vstore]. rewrite Hl2. cbn [MemPageFaultHandler]. change (truth (Z.land (fault_code true false) (Z.shiftl 1 4))) with false.
    rewrite Hfind. reflexivity. }
  assert (forall n, vcopy context vslot (MemPageFaultHandler fuel isKernel context vslot (S depth) (S tries)) (S n) (S tries)
    MEM_TEMPPAGE3 (page_align addr) s1 = Panic "MemPageFaultHandler: Unable to handle kernel NULL pointer dereference") as Hcopy.
  { intros n. cbn [vcopy]. rewrite Hload. mem_run. by rewrite Hstore. }
  change 1024%nat with (S 1023). by rewrite Hcopy.
Qed.

(** The last owner of a page of a writable region gets the right to write it
    back, and nothing else changes. *)
Theorem copy_on_write_last_owner depth tries s addr errorCode mp :
  read_only_page s addr mp -> writable_region addr -> write_fault errorCode ->
  refs (physical (mem s)) (frame mp) <= 1 ->
  exists s', MemPageFaultHandler fuel isKernel context vslot (S depth) tries addr errorCode s = Ret (Some s') /\
    vpt s' = vpt s /\ physical (mem s') = physical (mem s) /\ space_ok (mem s') dir /\
    (forall a, 0 <= a < KERNEL_VIRTUAL_BASE -> translate (mem s') dir a =
       if a / 4096 =? addr / 4096 then Some (mkMapping (frame mp) true (user_ok mp) (uncached mp)) else translate (mem s) dir a) /\
    forall w, w <> entry_slot (mem s) dir addr -> word (mem s') w = word (mem s) w.
Proof.
  intros Hro Hreg Herr Href. rewrite (handler_cow depth tries s addr errorCode mp) by done.
  destruct (Z.ltb_spec 1 (refs (physical (mem s)) (frame mp))); [lia|]. mem_run.
  pose proof Hro as [Hs Ha H4 Htr Hwr [Hf Htot] Ho].
  pose proof (slot_direct context addr Ha (mem s) Hs) as Hd.
  rewrite rd_direct by exact Hd. mem_run. rewrite wr_direct by exact Hd. mem_run.
  destruct (cow_entry s addr mp Hro) as (_ & Hpr & _ & _ & _ & Hraw).
  change (entry_slot (mem s) (physDirectory context) addr) with (slot s addr) in *.
  set (e := word (mem s) (slot s addr)) in *. set (v := set_writable e 1).
  assert (present v = 1 /\ writable v = 1 /\ userMode v = userMode e /\ cacheDisable v = cacheDisable e /\ pageID_raw v = pageID_raw e)
    as (Hv1 & Hv2 & Hv3 & Hv4 & Hv5) by (unfold v; split_and!; fields; done).
  destruct (rewritten_ok s addr mp (upd (mem s) (slot s addr) v) v (fun _ => False) Hro) as [Hs' Htr']; try done.
  { by apply (so_phys _ _ Hs). }
  { by rewrite word_upd, Z.eqb_refl. }
  { intros w Hne _. rewrite word_upd. by destruct (Z.eqb_spec (slot s addr) w). }
  eexists. split; [done|]. simpl. split; [done|]. split; [done|]. split; [done|]. rewrite Hv5, Hraw in Htr'. split; [done|].
  intros w Hne. rewrite word_upd. by destruct (Z.eqb_spec (slot s addr) w).
Qed.

(** ** Demand paging *)

Section Zero.
Context (handler : Z -> Z -> fstate -> outcome (option fstate)) (tries : nat).
Context (base p : Z) (Hbase : base mod 4096 = 0 /\ 0 <= base /\ base + 4096 <= KERNEL_VIRTUAL_BASE).

Record zero_ready (s : fstate) : Prop := mkZeroReady {
  zr_space : space_ok (mem s) dir;
  zr_other : ~ owned (mem s) dir p;
  zr_page : exists mp, translate (mem s) dir base = Some mp /\ frame mp = p /\ can_write mp = true
}.

Lemma vset_page n j s :
  zero_ready s -> 0 <= j -> j + Z.of_nat n = 1024 ->
  exists s', vset context vslot handler n tries (base + 4 * j) 0 s = Ret s' /\ vpt s' = vpt s /\
    physical (mem s') = physical (mem s) /\
    forall w, word (mem s') w = if (p * WORDS + j <=? w) && (w <? p * WORDS + 1024) then 0 else word (mem s) w.
Proof.
  revert j s. induction n as [|n IH]; intros j s Hr Hj Hn.
  { exists s. split; [done|]. split; [done|]. split; [done|]. intros w. bool_cases; done || lia. }
  cbn [vset]. pose proof Hr as [Hs Ho (mp & Ht & Hf & Hcw)].
  assert (vstore context vslot handler tries (base + 4 * j) 0 s = Ret (frame_store p (base + 4 * j) 0 s)) as ->.
  { assert (vlookup context vslot (base + 4 * j) s = Some (p, true)) as Hl.
    { unfold vlookup. destruct (Z.ltb_spec (base + 4 * j) KERNEL_VIRTUAL_BASE); [|lia].
      fold dir. rewrite (translate_same_page _ dir (base + 4 * j) base) by zlia. rewrite Ht. simpl. by rewrite Hf, Hcw. }
    destruct tries; cbn [vstore]; by rewrite Hl. }
  mem_run. set (s1 := frame_store _ _ _ s).
  assert (frame_word p (base + 4 * j) = p * WORDS + j) as Hfw by (unfold frame_word; zlia).
  assert (forall w, word (mem s1) w = if p * WORDS + j =? w then 0 else word (mem s) w) as Hs1.
  { intros w. unfold s1, frame_store. simpl. by rewrite word_upd, Hfw. }
  assert (forall w, owned (mem s) dir (w / WORDS) -> same_hw (word (mem s1) w) (word (mem s) w)) as Hsame.
  { intros w Hw. rewrite Hs1. destruct (Z.eqb_spec (p * WORDS + j) w) as [<-|]; [|done].
    destruct Ho. by replace ((p * WORDS + j) / WORDS) with p in Hw by zlia. }
  assert (zero_ready s1) as Hr1.
  { split.
    - apply (same_space (mem s)); [done|apply Hs|done|done].
    - intros H. by apply Ho, (same_owned (mem s) _ dir Hsame).
    - exists mp. split; [|done]. rewrite <- Ht. apply same_translate; [done|apply Hs|done|done|lia]. }
  replace (base + 4 * j + 4) with (base + 4 * (j + 1)) by lia.
  destruct (IH (j + 1) s1 Hr1) as (s' & E & Hv & Hp & Hw); [lia|lia|].
  exists s'. split; [done|]. split; [done|]. split; [done|]. intros w. rewrite Hw, Hs1.
  destruct (Z.eqb_spec (p * WORDS + j) w) as [<-|];
  destruct (Z.leb_spec (p * WORDS + (j + 1)) (p * WORDS + j)) in *; bool_cases; done || lia.
Qed.
End Zero.

(** The handler on a page that is not there. *)
Lemma handler_demand depth tries s addr errorCode i region :
  MemRegionFind isKernel context addr = Some (i, region) ->
  Z.testbit errorCode 0 = false -> Z.testbit errorCode 4 = false ->
  MemPageFaultHandler fuel isKernel context vslot (S depth) tries addr errorCode s =
    s' ← demand_page fuel context vslot (MemPageFaultHandler fuel isKernel context vslot depth tries) tries region addr s;
    Ret (Some s').
Proof.
  intros Hfind H0 H4. cbn [MemPageFaultHandler]. rewrite land_bit, H4 by lia. rewrite Hfind.
  unfold PF_PRESENT. change 1 with (Z.shiftl 1 0) at 1. by rewrite land_bit, H0 by lia.
Qed.

Lemma flags_any flags : truth (Z.land flags MEM_WRITABLE) = true -> Z.land flags 7 <> 0.
Proof.
  intros H E. assert (Z.land flags MEM_WRITABLE = Z.land (Z.land flags 7) MEM_WRITABLE) as Hl by (by rewrite <- Z.land_assoc).
  rewrite Hl, E in H. done.
Qed.

(** C20: a page of a writable region that is touched for the first time becomes a
    free page filled with zeros, mapped with the rights of the region; no
    other translation of the context changes, and the words of pages in use are
    as they were (but for the bits that hold counters) outside of the
    context's own tables. Its table has a directory
    index that is a multiple of four and a counter with room for one entry
    more, or there is no table yet and a page for one is free; a page is free,
    memory is at most 2 GB, and the error code has neither the bit for present
    pages nor that for instruction fetches. *)
Theorem demand_paging_zeroes depth tries s addr errorCode i region p ph :
  MemRegionFind isKernel context addr = Some (i, region) -> truth (Z.land (flags region) MEM_WRITABLE) = true ->
  Z.testbit errorCode 0 = false -> Z.testbit errorCode 4 = false ->
  space_ok (mem s) dir -> 0 <= addr < KERNEL_VIRTUAL_BASE -> (addr / 0x400000) mod 4 = 0 ->
  total_pages (mem s) <= 0x80000 ->
  MemPhysicalAlloc fuel 1 MEM_HIGHMEM (physical (mem s)) = Ret (p, ph) ->
  (if has_table (mem s) dir (addr / 0x400000) then counter_room (mem s) dir (addr / 0x400000)
   else page_available fuel MEM_KERNEL ph) -> (0 < fuel)%nat ->
  exists s', MemPageFaultHandler fuel isKernel context vslot (S depth) tries addr errorCode s = Ret (Some s') /\
    ~ used (mem s) p /\ vpt s' = vpt s /\ space_ok (mem s') dir /\
    (forall a, 0 <= a < KERNEL_VIRTUAL_BASE -> translate (mem s') dir a =
       if a / 4096 =? addr / 4096 then Some (flags_mapping p (flags region)) else translate (mem s) dir a) /\
    (forall j, 0 <= j < WORDS -> word (mem s') (p * WORDS + j) = 0) /\
    forall w, w / WORDS <> p -> used (mem s) (w / WORDS) -> ~ owned (mem s) dir (w / WORDS) ->
      same_hw (word (mem s') w) (word (mem s) w).
Proof.
  intros Hfind Hflag H0 H4 Hs Ha Hi Htot E Hroom Hfuel. rewrite (handler_demand depth tries s addr errorCode i region) by done.
  destruct (alloc_one_sound fuel MEM_HIGHMEM _ p ph (so_phys _ _ Hs) ltac:(done) E) as (pg & Hpg & Hrc & Htbl & Hok & _).
  destruct (in_use_zset _ _ _ Hpg Hrc) as [Hfree Huse]. pose proof (zget_range _ _ _ Hpg) as Hp. fold (total_pages (mem s)) in Hp.
  destruct (page_align_user addr Ha) as (Hpa & Hpa0 & Hpa1).
  unfold demand_page. cbv zeta. rewrite E. mem_run. set (m0 := set_physical (mem s) ph).
  assert (forall q, used m0 q <-> used (mem s) q \/ q = p) as Hu0 by (intros q; unfold used; simpl; by rewrite Htbl).
  assert (space_ok m0 dir) as Hs0 by (apply (same_space (mem s)); [done|done|intros q _ Hq; apply Hu0; auto|done]).
  assert (page_align addr / 0x400000 = addr / 0x400000) as Hblk by (rewrite Hpa; zlia).
  assert (page_align addr / 4096 = addr / 4096) as Hpg4 by (rewrite Hpa; zlia).
  pose proof (flags_any _ Hflag) as Hany.
  destruct (map_succeeds fuel context (page_align addr) p (flags region) m0 Hs0) as [m1 E1]; [lia|by rewrite Hblk| |done|].
  { rewrite Hblk. exact Hroom. }
  destruct (map_inserts fuel context (page_align addr) p (flags region) m0 m1 Hs0 ltac:(lia) ltac:(by rewrite Hblk) Hany E1) as (Hs1 & Hc1 & Ht1).
  rewrite E1. mem_run. fold dir in Hs1, Hc1, Ht1.
  assert (~ owned (mem s) dir p) as Hop by (intros H'; by apply Hfree, (owned_used _ dir)).
  assert (~ owned m1 dir p) as Hop1.
  { intros H'. destruct (ct_owned _ _ _ Hc1 p H') as [Ho|Ho]; [done|]. apply Ho, Hu0. auto. }
  assert (flags_mapping p (flags region) = mkMapping p true true (truth (Z.land (flags region) MEM_CACHEDISABLE))) as Hfm.
  { unfold flags_mapping. by rewrite Z.mod_small, Hflag by lia. }
  destruct (vset_page (MemPageFaultHandler fuel isKernel context vslot depth tries) tries (page_align addr) p)
    with (n := 1024%nat) (j := 0) (s := set_mem s m1) as (s2 & E2 & Hv2 & Hp2 & Hw2); [split; [rewrite Hpa; zlia|done]| |lia|lia|].
  { split; [done|done|]. exists (flags_mapping p (flags region)). split; [|by rewrite Hfm].
    simpl. rewrite Ht1 by lia. by rewrite Z.eqb_refl. }
  rewrite Z.mul_0_r, Z.add_0_r in E2. rewrite E2. mem_run.
  assert (forall w, word (mem s2) w = if w / WORDS =? p then 0 else word m1 w) as Hw.
  { intros w. rewrite Hw2, Z.add_0_r, page_range. done. }
  assert (forall w, owned m1 dir (w / WORDS) -> same_hw (word (mem s2) w) (word m1 w)) as Hsame.
  { intros w Ho. rewrite Hw. by destruct (Z.eqb_spec (w / WORDS) p) as [Heq|]; [rewrite Heq in Ho|]. }
  assert (forall q, owned m1 dir q -> used m1 q -> used (mem s2) q) as Hu2 by (intros q _; unfold used; by rewrite Hp2).
  assert (phys_ok (physical (mem s2))) as Hok2 by (rewrite Hp2; apply Hs1).
  exists s2. split; [done|]. split; [done|]. split; [done|]. split; [by apply (same_space m1)|]. split; [|split].
  - intros a Hua. rewrite (same_translate m1) by done. rewrite Ht1, Hpg4 by done. destruct (_ =? _); [done|].
    by apply (same_translate (mem s) m0); [| |intros q _ Hq; apply Hu0; auto| |].
  - intros j Hj. rewrite Hw. replace ((p * WORDS + j) / WORDS) with p by zlia. by rewrite Z.eqb_refl.
  - intros w Hne Hus Hno. rewrite Hw. destruct (Z.eqb_spec (w / WORDS) p); [done|].
    apply (ct_words _ _ _ Hc1 w); [apply Hu0; auto|done].
Qed.

(** ** Faults that are not served *)

Lemma page_align_base addr : 0 <= addr < KERNEL_VIRTUAL_BASE -> page_align (page_align addr) = page_align addr.
Proof.
  intros Ha. destruct (page_align_user addr Ha) as (Hpa & Hpa0 & Hpa1).
  destruct (page_align_user (page_align addr)) as (-> & _); [lia|]. rewrite Hpa. zlia.
Qed.

(** A first store that does not come back ends the whole MemSet. *)
Lemma vset_first handler tries base v s x :
  vstore context vslot handler tries base v s = x -> (forall s', x <> Ret s') ->
  vset context vslot handler 1024 tries base v s = x.
Proof.
  intros E Hx. assert (forall n, vset context vslot handler (S n) tries base v s = x) as H; [|apply H].
  intros n. cbn [vset]. rewrite E. destruct x; try done. by destruct (Hx a).
Qed.

(** The first store of the handler into the page that it has just mapped is
    checked too: in a region without MEM_WRITABLE the fault inside the handler
    is not copy on write, and reading a page for the first time ends in the
    kernel's panic. *)
Theorem demand_paging_read_only_panics depth tries s addr errorCode i region p ph :
  MemRegionFind isKernel context addr = Some (i, region) ->
  MemRegionFind isKernel context (page_align addr) = Some (i, region) ->
  truth (Z.land (flags region) MEM_WRITABLE) = false -> Z.land (flags region) 7 <> 0 ->
  Z.testbit errorCode 0 = false -> Z.testbit errorCode 4 = false ->
  space_ok (mem s) dir -> 0x1000 <= addr < KERNEL_VIRTUAL_BASE -> (addr / 0x400000) mod 4 = 0 ->
  total_pages (mem s) <= 0x80000 ->
  MemPhysicalAlloc fuel 1 MEM_HIGHMEM (physical (mem s)) = Ret (p, ph) ->
  (if has_table (mem s) dir (addr / 0x400000) then counter_room (mem s) dir (addr / 0x400000)
   else page_available fuel MEM_KERNEL ph) -> (0 < fuel)%nat ->
  MemPageFaultHandler fuel isKernel context vslot (S (S depth)) (S tries) addr errorCode s =
    Panic "MemPageFaultHandler: Unable to handle kernel page fault for %p".
Proof.
  intros Hfind Hfindb Hflag Hany H0 H4 Hs Ha Hi Htot E Hroom Hfuel.
  assert (0 <= addr < KERNEL_VIRTUAL_BASE) as Hua by lia.
  rewrite (handler_demand _ _ s addr errorCode i region) by done.
  destruct (alloc_one_sound fuel MEM_HIGHMEM _ p ph (so_phys _ _ Hs) ltac:(done) E) as (pg & Hpg & Hrc & Htbl & Hok & _).
  destruct (in_use_zset _ _ _ Hpg Hrc) as [_ Huse].
  destruct (page_align_user addr Hua) as (Hpa & Hpa0 & Hpa1).
  unfold demand_page. cbv zeta. rewrite E. mem_run. set (m0 := set_physical (mem s) ph).
  assert (space_ok m0 dir) as Hs0.
  { apply (same_space (mem s)); [done|done| |done]. intros q _ Hq. unfold used. simpl. rewrite Htbl. apply Huse. auto. }
  assert (page_align addr / 0x400000 = addr / 0x400000) as Hblk by (rewrite Hpa; zlia).
  destruct (map_succeeds fuel context (page_align addr) p (flags region) m0 Hs0) as [m1 E1]; [lia|by rewrite Hblk| |done|].
  { rewrite Hblk. exact Hroom. }
  destruct (map_inserts fuel context (page_align addr) p (flags region) m0 m1 Hs0 ltac:(lia) ltac:(by rewrite Hblk) Hany E1) as (Hs1 & Hc1 & Ht1).
  rewrite E1. mem_run. fold dir in Hs1, Hc1, Ht1. specialize (Ht1 (page_align addr) ltac:(lia)). rewrite Z.eqb_refl in Ht1.
  set (s1 := set_mem s m1). set (base := page_align addr) in *.
  assert (vlookup context vslot base s1 = Some (p mod 1048576, false)) as Hl.
  { unfold vlookup. destruct (Z.ltb_spec base KERNEL_VIRTUAL_BASE); [|lia]. fold dir. simpl. rewrite Ht1. simpl. by rewrite Hflag. }
  assert (forall h, vstore context vslot h (S tries) base 0 s1 =
    r ← h base (fault_code true true) s1; s' ← or_fault r; vstore context vslot h tries base 0 s') as Hstore.
  { intros h. cbn [vstore]. by rewrite Hl. }
  assert (MemPageFaultHandler fuel isKernel context vslot (S depth) (S tries) base 3 s1 =
    Panic "MemPageFaultHandler: Unable to handle kernel page fault for %p") as Hnested.
  2: { rewrite (vset_first _ _ base 0 s1 (Panic "MemPageFaultHandler: Unable to handle kernel page fault for %p")); [done| |done].
       rewrite Hstore. change (fault_code true true) with 3. by rewrite Hnested. }
  cbn [MemPageFaultHandler]. change (truth (Z.land 3 (Z.shiftl 1 4))) with false. change (truth (Z.land 3 PF_PRESENT)) with true.
  rewrite Hfindb. unfold copy_on_write. rewrite MemGetPageTable_slot by (done || (unfold base; lia) || by rewrite Hblk).
  mem_run. rewrite rd_direct by (apply slot_direct; [lia|done]). mem_run. rewrite Hflag, andb_false_r. mem_run.
  unfold fault_error. change (truth (Z.land 3 PF_USER)) with false.
  destruct (Z.ltb_spec base 0x1000); [exfalso; zlia|]. destruct (Z.ltb_spec 0xFFFFC000 base); [unfold KERNEL_VIRTUAL_BASE in *; lia|]. done.
Qed.

(** A page of a region with no rights is never mapped, so the store of the
    handler faults as the first access did: no depth of handlers is enough. *)
Theorem demand_paging_no_access_diverges i region addr :
  MemRegionFind isKernel context addr = Some (i, region) ->
  MemRegionFind isKernel context (page_align addr) = Some (i, region) ->
  Z.land (flags region) 7 = 0 -> 0 <= addr < KERNEL_VIRTUAL_BASE ->
  forall depth tries s errorCode r, translate (mem s) dir (page_align addr) = None ->
    Z.testbit errorCode 0 = false -> Z.testbit errorCode 4 = false ->
    MemPageFaultHandler fuel isKernel context vslot depth tries addr errorCode s <> Ret r.
Proof.
  intros Hfind Hfindb Hno Ha. pose proof (page_align_base addr Ha) as Hbb. destruct (page_align_user addr Ha) as (_ & Hb0 & Hb1).
  assert (forall a, (a = addr \/ a = page_align addr) -> forall depth tries s errorCode r,
    translate (mem s) dir (page_align addr) = None -> Z.testbit errorCode 0 = false -> Z.testbit errorCode 4 = false ->
    MemPageFaultHandler fuel isKernel context vslot depth tries a errorCode s <> Ret r) as Hall; [|apply Hall; by left].
  intros a Hab depth. revert a Hab. induction depth as [|d IH]; intros a Hab tries s errorCode r Htr H0 H4; [done|].
  assert (MemRegionFind isKernel context a = Some (i, region)) as Hfa by (by destruct Hab as [->| ->]).
  assert (page_align a = page_align addr) as Hpa by (by destruct Hab as [->| ->]).
  rewrite (handler_demand _ _ s a errorCode i region) by done. unfold demand_page. cbv zeta. rewrite Hpa.
  destruct (MemPhysicalAlloc _ _ _ _) as [[p ph]| | |]; try done. mem_run.
  unfold MemIntMapUserPage. change (Z.lor MEM_READABLE (Z.lor MEM_WRITABLE MEM_EXECUTABLE)) with 7. rewrite Hno. simpl Z.eqb. cbv iota.
  mem_run. set (s1 := set_mem s _). set (base := page_align addr) in *.
  assert (vlookup context vslot base s1 = None) as Hl.
  { unfold vlookup. destruct (Z.ltb_spec base KERNEL_VIRTUAL_BASE); [|lia]. fold dir.
    change (translate (mem s1) dir base) with (translate (mem s) dir base). by rewrite Htr. }
  assert (forall s', vstore context vslot (MemPageFaultHandler fuel isKernel context vslot d tries) tries base 0 s1 <> Ret s') as Hst.
  { intros s'. destruct tries as [|t]; cbn [vstore]; rewrite Hl; [done|].
    destruct (MemPageFaultHandler _ _ _ _ d (S t) base _ s1) as [r'| | |] eqn:Er; try done.
    by apply (IH base ltac:(auto)) in Er. }
  rewrite (vset_first _ _ base 0 s1 _ eq_refl Hst). destruct (vstore _ _ _ _ _ _ _) as [s'| | |]; try done. by destruct (Hst s').
Qed.

(** C38: a fault outside of the regions, or a protection fault on a page whose
    right to write cannot be given back (in a table whose directory index is a
    multiple of four), is a signal for a user program and a panic for the
    kernel; the error code does not have the instruction-fetch bit. *)
Theorem page_fault_errors depth tries s addr errorCode :
  Z.testbit errorCode 4 = false ->
  (forall i region, MemRegionFind isKernel context addr = Some (i, region) ->
     Z.testbit errorCode 0 = true /\ space_ok (mem s) dir /\ 0 <= addr < KERNEL_VIRTUAL_BASE /\
     (addr / 0x400000) mod 4 = 0 /\
     (writable (word (mem s) (entry_slot (mem s) dir addr)) = 1 \/
      truth (Z.land (flags region) MEM_WRITABLE) = false)) ->
  MemPageFaultHandler fuel isKernel context vslot (S depth) tries addr errorCode s =
    if Z.testbit errorCode 2 then Ret None
    else if (addr <? 0x1000) || (0xFFFFC000 <? addr) then
      Panic "MemPageFaultHandler: Unable to handle kernel NULL pointer dereference"
    else Panic "MemPageFaultHandler: Unable to handle kernel page fault for %p".
Proof.
  intros H4 Hreg.
  assert (fault_error addr errorCode = if Z.testbit errorCode 2 then Ret None
    else if (addr <? 0x1000) || (0xFFFFC000 <? addr) then
      Panic "MemPageFaultHandler: Unable to handle kernel NULL pointer dereference"
    else Panic "MemPageFaultHandler: Unable to handle kernel page fault for %p") as He.
  { unfold fault_error, PF_USER. change 4 with (Z.shiftl 1 2). by rewrite land_bit by lia. }
  cbn [MemPageFaultHandler]. rewrite land_bit, H4 by lia. destruct (MemRegionFind isKernel context addr) as [[i region]|]; [|done].
  destruct (Hreg i region eq_refl) as (H0 & Hs & Ha & Hi & Hw). unfold PF_PRESENT. change 1 with (Z.shiftl 1 0) at 1. rewrite land_bit, H0 by lia.
  unfold copy_on_write. rewrite MemGetPageTable_slot by done. fold dir. mem_run.
  rewrite rd_direct by exact (slot_direct context addr Ha (mem s) Hs). mem_run.
  destruct Hw as [-> | ->]; [|rewrite andb_false_r]; mem_run; exact He.
Qed.
End Faults.

(** ** Writing after a fork *)

Lemma frames_at_elem m t j n i :
  truth (present (word m (t * WORDS + j))) = true -> i <= j < i + Z.of_nat n ->
  pageID (word m (t * WORDS + j)) ∈ frames_at m t n i.
Proof.
  intros Hp. revert i. induction n as [|n IH]; intros i Hi; [lia|]. cbn [frames_at]. apply elem_of_app.
  destruct (Z.eq_dec i j) as [->|]; [left|right; apply IH; lia]. rewrite Hp. by apply list_elem_of_singleton.
Qed.

Lemma table_frames_mapped m dir a mp :
  space_ok m dir -> 0 <= a < KERNEL_VIRTUAL_BASE -> translate m dir a = Some mp -> frame mp < 0x80000 ->
  frame mp ∈ table_frames m dir (a / 0x400000).
Proof.
  intros Hs Ha Ht Hf. rewrite translate_user in Ht by done. unfold table_frames.
  destruct (has_table m dir (a / 0x400000)); [|done]. cbv zeta in Ht. set (t := table_page m dir _) in *.
  set (j := (a / 4096) mod 1024) in *. set (e := word m (t * WORDS + j)) in *.
  destruct (truth (present e)) eqn:Hp; [|done]. injection Ht as <-. unfold entry_mapping in *. cbn [frame] in *.
  assert (pageID_raw e = pageID e) as ->.
  { rewrite pageID_signed. unfold signed_page. by destruct (Z.ltb_spec (pageID_raw e) 0x80000); [|lia]. }
  apply frames_at_elem; [exact Hp|]. change (Z.of_nat 1024) with 1024. unfold j. zlia.
Qed.

(** So after boot the page fault handler's temporary page is never seen, as
    long as nothing is mapped at the 1023rd page of the region. *)
Lemma boot_temp_unseen s :
  zget (vpt s) (vpt_index MEM_TEMPPAGE3) = Some 0 -> zget (vpt s) 1022 = Some 0 -> temp_unseen boot_slot s.
Proof. intros H1 H2. split; [done|]. split; [done|]. by exists 0. Qed.

(** C7: a page of a writable region, in a table whose directory index is a
    multiple of four, is written by the child after a fork. If the processor
    sees the temporary page that the handler maps, the child gets a copy of its
    own, with the words that the parent's page has, and the parent goes on
    reading its frame, whose words are as they were before the fork. If the
    processor does not see it, as on the booted kernel, the handler ends in
    its null pointer panic instead. The parent's space is well formed and its
    frames are counted, memory is at most 2 GB, the page is none of the space's
    own tables, and there are free pages for the child's tables and the copy. *)
Theorem fork_write_outcome fuel kdir vslot current m t a mp depth tries :
  let cur := physDirectory current in
  kernel_directory kdir -> space_ok m cur -> frames_counted m cur ->
  room fuel (physical m) (tables_from m cur 768 0 + 1) ->
  0 <= a < KERNEL_VIRTUAL_BASE -> (a / 0x400000) mod 4 = 0 -> translate m cur a = Some mp ->
  frame mp < total_pages m -> total_pages m <= 0x80000 -> ~ owned m cur (frame mp) ->
  writable_region false current a ->
  exists child m1, MemContextClone fuel kdir current m = Ret (child, m1) /\
    let s1 := mkFstate m1 t in
    (temp_ready vslot s1 -> page_available fuel MEM_HIGHMEM (physical m1) ->
     exists p s2, MemPageFaultHandler fuel false child vslot (S depth) tries a 7 s1 = Ret (Some s2) /\
       p <> frame mp /\
       translate (mem s2) (physDirectory child) a = Some (mkMapping p true (user_ok mp) (uncached mp)) /\
       translate (mem s2) cur a = Some (read_only mp) /\
       forall j, 0 <= j < WORDS ->
         word (mem s2) (p * WORDS + j) = word m (frame mp * WORDS + j) /\
         word (mem s2) (frame mp * WORDS + j) = word m (frame mp * WORDS + j)) /\
    (temp_unseen vslot s1 -> MemRegionFind false current MEM_TEMPPAGE3 = None ->
     page_available fuel MEM_HIGHMEM (physical m1) ->
     MemPageFaultHandler fuel false child vslot (S (S depth)) (S tries) a 7 s1 =
       Panic "MemPageFaultHandler: Unable to handle kernel NULL pointer dereference").
Proof.
  cbv zeta. intros Hk Hs Hfr Hroom Ha Hi Htr Hft Htot Hno (ri & region & Hfind & Hflag).
  destruct (clone_shares fuel kdir current m Hk Hs Hfr Hroom)
    as (c & m1 & E & Hregs & _ & Hs1 & Hs2 & Hap & Htrs & _ & Hrefs & _ & Hfresh & Hu & Hown & Hwords & Hlen).
  cbv zeta in *. set (cur := physDirectory current) in *.
  exists c, m1. split; [done|]. destruct (Htrs a Ha) as [Htc Htd]. rewrite Htr in Htc, Htd. cbn [fmap option_fmap option_map] in Htc, Htd.
  pose proof (table_frames_mapped m cur a mp Hs Ha Htr ltac:(lia)) as Hin.
  pose proof (dir_index a Ha) as Hia. destruct (Hfr _ _ Hia Hin) as [Hfu _].
  assert (0 <= frame mp) as Hf0 by (destruct Hfu as (pg & Hpg & _); apply zget_range in Hpg; lia).
  assert (read_only_page c (mkFstate m1 t) a (read_only mp)) as Hro.
  { split; try done.
    - cbn [mem frame read_only]. unfold total_pages. rewrite Hlen. fold (total_pages m). lia.
    - cbn [mem frame read_only]. intros Ho. by apply (Hfresh (frame mp)). }
  assert (0 < refs (physical m) (frame mp)) as Hpos by (by apply in_use_refs).
  assert (1 < refs (physical m1) (frame mp)) as Href.
  { rewrite Hrefs by done. assert (frame mp ∈ frames_upto m cur 768) as Hin2 by by eapply frames_upto_elem.
    apply occ_pos in Hin2. lia. }
  assert (writable_region false c a) as Hreg.
  { exists ri, region. unfold MemRegionFind in *. by rewrite Hregs. }
  split.
  2: { intros Hun Hnone Hav. apply (copy_on_write_temp_unseen fuel false c vslot depth tries (mkFstate m1 t) a 7 (read_only mp)); try done.
       unfold MemRegionFind in *. by rewrite Hregs. }
  intros Htemp Hav.
  destruct (cow_copies fuel false c vslot depth tries (mkFstate m1 t) a 7 (read_only mp) Hro Hreg) as
    (p & s2 & Eh & Hpf & _ & Hsp & Htp & Hcp & Hkeep & _ & Hused & Hphok); [done|done|done|done|].
  cbn [mem vpt frame read_only user_ok uncached] in *. 
  assert (p <> frame mp) as Hpne by (intros ->; by apply Hpf, Hu).
  assert (p <> cur /\ ~ owned m1 cur p) as [_ Hpo].
  { split; [intros ->; apply Hpf; apply Hs1|]. intros Ho. by apply Hpf, (owned_used m1 cur p Hs1 Ho). }
  assert (forall j, 0 <= j < WORDS -> word m1 (frame mp * WORDS + j) = word m (frame mp * WORDS + j)) as Hfw.
  { intros j Hj. apply Hwords; by replace ((frame mp * WORDS + j) / WORDS) with (frame mp) by zlia. }
  assert (owned m1 (physDirectory c) (entry_slot m1 (physDirectory c) a / WORDS)) as Hslot by exact (slot_page c vslot (mkFstate m1 t) a (read_only mp) Hro).
  exists p, s2. split; [done|]. split; [done|]. split; [by rewrite Htp, Z.eqb_refl by done|]. split.
  - rewrite <- Htc. apply same_translate; [done|done| | |done].
    + intros q Ho Hq. apply Hused; [done|]. intros ->. apply Hno. by apply Hown.
    + intros w Ho. rewrite Hkeep; [done|by intros Heq; rewrite Heq in Ho|].
      intros Heq. rewrite Heq in Ho. by apply (Hap (entry_slot m1 (physDirectory c) a / WORDS)).
  - intros j Hj. split; [by rewrite Hcp, Hfw|]. rewrite Hkeep; [by apply Hfw| |].
    + by replace ((frame mp * WORDS + j) / WORDS) with (frame mp) by zlia.
    + intros Heq. rewrite <- Heq in Hslot. replace ((frame mp * WORDS + j) / WORDS) with (frame mp) in Hslot by zlia.
      by apply (Hfresh (frame mp)).
Qed.

(** ** On the small machine *)

(** Page 50 with two references, mapped read-only at 0x1000. *)
Definition c_phys : phys :=
  mkPhys (replicate 4 (mkMemPage 1 0) ++ replicate 46 (mkMemPage 0 0) ++ [mkMemPage 2 0] ++ replicate 13 (mkMemPage 0 0))
    [mkZone 0 0 32; mkZone 32 32 64; mkZone 64 64 64] 64 59.
Definition c_words (ph : phys) : pages := set_physical (upd b_machine 2049 0x32005) ph.
Definition no_temp : vptables := replicate (Z.to_nat MemVirtualPageTables_len) 0.
Definition fault_context (flags : Z) : MemContext := mkMemContext [mkMemRegion flags 0x1000 0x2000] 1 0.

Lemma c_phys_ok : phys_ok c_phys.
Proof.
  split_and!.
  - split; [reflexivity|]. repeat (apply Forall_cons; split); [..|done]; unfold zone_wf; vm_compute; intuition discriminate.
  - exists 0. split_and!; [vm_compute; reflexivity|vm_compute; reflexivity|].
    repeat (apply Forall_app; split); repeat constructor; simpl; lia.
  - intros k z Hk Hz. change MEM_KFIXED_MAX_PAGE with 0x30000. unfold zget in Hz. destruct (Z.ltb_spec k 0); [done|].
    assert (k = 0 \/ k = 1) as [-> | ->] by (unfold MEM_KERNEL in Hk; lia); injection Hz as <-; simpl; lia.
Qed.

Lemma c_space ph : phys_ok ph -> (forall q, used b_machine q -> in_use (MemPageStateTable ph) q) ->
  space_ok (c_words ph) 1 /\
  translate (c_words ph) 1 0x1004 = Some (mkMapping 50 false true false) /\
  forall q, owned (c_words ph) 1 q -> q <= 3.
Proof.
  intros Hok Hu. set (m1 := upd b_machine 2049 0x32005).
  assert (forall w, same_hw (word m1 w) (if w =? entry_slot b_machine 1 0x1004 then 0x32005 else word b_machine w)) as Hw.
  { intros w. unfold m1. rewrite word_upd, (Z.eqb_sym w). done. }
  assert (0 <= 0x1004 < KERNEL_VIRTUAL_BASE) as Ha by (unfold KERNEL_VIRTUAL_BASE; lia).
  pose proof (written_space b_machine m1 1 0x1004 0x32005 b_space_ok Ha eq_refl eq_refl Hw) as Hs1.
  assert (forall w, owned m1 1 (w / WORDS) -> same_hw (word (c_words ph) w) (word m1 w)) as Hsame by done.
  assert (forall q, owned m1 1 q -> used m1 q -> used (c_words ph) q) as Hu1 by (intros q _ Hq; by apply Hu).
  split; [by apply (same_space m1)|]. split.
  - rewrite (same_translate m1) by done. exact (written_translate b_machine m1 1 0x1004 0x32005 b_space_ok Ha eq_refl eq_refl Hw 0x1004 Ha).
  - intros q Hq. apply (same_owned m1 _ 1 Hsame) in Hq. apply (written_owned b_machine m1 1 0x1004 0x32005 b_space_ok Ha eq_refl Hw) in Hq.
    apply b_owned in Hq. lia.
Qed.

Lemma no_temp_ready m : temp_ready vpt_index (mkFstate m no_temp).
Proof.
  split.
  - apply zget_replicate. rewrite Z2Nat.id; [vm_compute; split; [discriminate|reflexivity]|unfold MemVirtualPageTables_len; lia].
  - intros a Ha. unfold vpt_index, MEM_TEMPPAGE3, MEM_KFIXED_MAX in *. zlia.
Qed.

Lemma c_read_only ph : phys_ok ph -> (forall q, used b_machine q -> in_use (MemPageStateTable ph) q) ->
  zlen (MemPageStateTable ph) = 64 ->
  read_only_page (fault_context 3) (mkFstate (c_words ph) no_temp) 0x1004 (mkMapping 50 false true false).
Proof.
  intros Hok Hu Hl. destruct (c_space ph Hok Hu) as (Hs & Ht & Ho). split; cbn [mem].
  - exact Hs.
  - unfold KERNEL_VIRTUAL_BASE. lia.
  - reflexivity.
  - exact Ht.
  - reflexivity.
  - unfold total_pages. simpl. rewrite Hl. lia.
  - intros H%Ho. simpl in H. lia.
Qed.

Lemma fault_region flags a : 0x1000 <= a < 0x3000 ->
  MemRegionFind false (fault_context flags) a = Some (0, mkMemRegion flags 0x1000 0x2000).
Proof.
  intros Ha. unfold MemRegionFind. simpl. destruct (Z.ltb_spec a 0x1000); [lia|].
  change (region_end _) with 0x3000. by destruct (Z.ltb_spec a 0x3000); [|lia].
Qed.

Lemma high_available ph :
  enough_fuel ph 100 -> zget (zones ph) 2 = Some (mkZone 64 64 64) ->
  (exists h, zget (zones ph) 1 = Some (mkZone h 32 64)) -> is_free (MemPageStateTable ph) 40 = true ->
  page_available 100 MEM_HIGHMEM ph.
Proof.
  intros Hf H2 [h H1] Hfree. split; [done|]. exists 1, (mkZone h 32 64). unfold MEM_HIGHMEM. simpl.
  split; [lia|]. split; [done|]. split; [lia|]. split; [exists 40; simpl; split; [lia|done]|].
  intros i z Hi Hz. assert (i = 2) as -> by lia. rewrite H2 in Hz. injection Hz as <-. left. simpl. lia.
Qed.

Lemma c_used q : used b_machine q -> in_use (MemPageStateTable c_phys) q.
Proof.
  intros (pg & Hpg & Hpos). pose proof (zget_range _ _ _ Hpg) as Hr. change (zlen _) with 64 in Hr.
  rewrite in_use_refs. change (MemPageStateTable (physical b_machine)) with (MemPageStateTable b_phys) in Hpg.
  destruct (Z.eq_dec q 50) as [->|Hne]; [reflexivity|].
  assert (zget (MemPageStateTable c_phys) q = zget (MemPageStateTable b_phys) q) as Heq.
  { change (MemPageStateTable c_phys) with (zset (MemPageStateTable b_phys) 50 (mkMemPage 2 0)). by apply zget_zset_ne. }
  unfold refs. by rewrite Heq, Hpg.
Qed.

Lemma copy_on_write_copies_witness :
  exists p s, MemPageFaultHandler 100 false (fault_context 3) vpt_index 1 0 0x1004 7 (mkFstate (c_words c_phys) no_temp) = Ret (Some s) /\
    p <> 50 /\ translate (mem s) 1 0x1000 = Some (mkMapping p true true false) /\ refs (physical (mem s)) 50 = 1.
Proof.
  destruct (copy_on_write_copies 100 false (fault_context 3) vpt_index 0 0 (mkFstate (c_words c_phys) no_temp) 0x1004 7
    (mkMapping 50 false true false)) as (p & s & E & Hf & _ & _ & Ht & _ & _ & Hr).
  - apply c_read_only; [exact c_phys_ok|exact c_used|reflexivity].
  - eexists _, _. split; [apply fault_region; lia|reflexivity].
  - split; reflexivity.
  - apply no_temp_ready.
  - reflexivity.
  - apply high_available; [vm_compute; reflexivity|reflexivity|eexists; reflexivity|reflexivity].
  - assert (p <> 50) as Hp by (intros ->; apply Hf; exists (mkMemPage 2 0); split; [reflexivity|simpl; lia]).
    exists p, s. split; [exact E|]. split; [exact Hp|]. split.
    + apply (Ht 0x1000). unfold KERNEL_VIRTUAL_BASE. lia.
    + rewrite Hr. destruct (Z.eqb_spec 50 p) as [H|H]; [congruence|reflexivity].
Defined.

Lemma copy_on_write_last_owner_witness :
  exists s, MemPageFaultHandler 100 false (fault_context 3) vpt_index 1 0 0x1004 7 (mkFstate (c_words b_phys) no_temp) = Ret (Some s) /\
    translate (mem s) 1 0x1000 = Some (mkMapping 50 true true false).
Proof.
  destruct (copy_on_write_last_owner 100 false (fault_context 3) vpt_index 0 0 (mkFstate (c_words b_phys) no_temp) 0x1004 7
    (mkMapping 50 false true false)) as (s & E & _ & _ & _ & Ht & _).
  - apply c_read_only; [exact b_phys_ok|intros q Hq; exact Hq|reflexivity].
  - eexists _, _. split; [apply fault_region; lia|reflexivity].
  - split; reflexivity.
  - vm_compute. discriminate.
  - exists s. split; [exact E|]. apply (Ht 0x1000). unfold KERNEL_VIRTUAL_BASE. lia.
Defined.

(** The page that MemPhysicalAlloc gives the handler on the machine. *)
Definition b_alloc : outcome Z := '(p, _) ← MemPhysicalAlloc 100 1 MEM_HIGHMEM b_phys; Ret p.

Lemma b_alloc_run : exists p ph, MemPhysicalAlloc 100 1 MEM_HIGHMEM b_phys = Ret (p, ph) /\ b_alloc = Ret p.
Proof.
  assert (exists p, b_alloc = Ret p) as [p H] by (eexists; vm_compute; reflexivity).
  unfold b_alloc in *. destruct (MemPhysicalAlloc _ _ _ _) as [[q ph]| | |]; try discriminate. by exists q, ph.
Qed.

Lemma b_table_room i : i = 0 -> has_table b_machine 1 i = true /\ counter_room b_machine 1 i.
Proof. intros ->. split; [reflexivity|]. unfold counter_room. vm_compute. intuition congruence. Qed.

Lemma demand_paging_zeroes_witness :
  exists p s, MemPageFaultHandler 100 false (fault_context 3) vpt_index 1 0 0x2000 6 (mkFstate b_machine no_temp) = Ret (Some s) /\
    translate (mem s) 1 0x2000 = Some (flags_mapping p 3) /\ word (mem s) (p * WORDS + 5) = 0.
Proof.
  destruct b_alloc_run as (p & ph & E & _).
  destruct (demand_paging_zeroes 100 false (fault_context 3) vpt_index 0 0 (mkFstate b_machine no_temp) 0x2000 6 0
    (mkMemRegion 3 0x1000 0x2000) p ph) as (s & Er & _ & _ & _ & Ht & Hz & _).
  - apply fault_region. lia.
  - reflexivity.
  - reflexivity.
  - reflexivity.
  - exact b_space_ok.
  - unfold KERNEL_VIRTUAL_BASE. lia.
  - reflexivity.
  - vm_compute. discriminate.
  - exact E.
  - exact (proj2 (b_table_room 0 eq_refl)).
  - lia.
  - exists p, s. split; [exact Er|]. split.
    + apply (Ht 0x2000). unfold KERNEL_VIRTUAL_BASE. lia.
    + apply Hz. lia.
Defined.

Lemma demand_paging_read_only_panics_witness :
  MemPageFaultHandler 100 false (fault_context 1) vpt_index 2 1 0x2000 4 (mkFstate b_machine no_temp) =
    Panic "MemPageFaultHandler: Unable to handle kernel page fault for %p".
Proof.
  destruct b_alloc_run as (p & ph & E & _).
  apply (demand_paging_read_only_panics 100 false (fault_context 1) vpt_index 0 0 (mkFstate b_machine no_temp) 0x2000 4 0
    (mkMemRegion 1 0x1000 0x2000) p ph).
  - apply fault_region. lia.
  - apply fault_region. vm_compute. split; [discriminate|reflexivity].
  - reflexivity.
  - discriminate.
  - reflexivity.
  - reflexivity.
  - exact b_space_ok.
  - unfold KERNEL_VIRTUAL_BASE. lia.
  - reflexivity.
  - vm_compute. discriminate.
  - exact E.
  - exact (proj2 (b_table_room 0 eq_refl)).
  - lia.
Defined.

Lemma demand_paging_no_access_diverges_witness :
  MemPageFaultHandler 100 false (fault_context 0) vpt_index 4 4 0x2000 4 (mkFstate b_machine no_temp) <> Ret None.
Proof.
  apply (demand_paging_no_access_diverges 100 false (fault_context 0) vpt_index 0 (mkMemRegion 0 0x1000 0x2000) 0x2000).
  - apply fault_region. lia.
  - apply fault_region. vm_compute. split; [discriminate|reflexivity].
  - reflexivity.
  - unfold KERNEL_VIRTUAL_BASE. lia.
  - vm_compute. reflexivity.
  - reflexivity.
  - reflexivity.
Defined.

Lemma page_fault_errors_witness :
  MemPageFaultHandler 100 false (fault_context 3) vpt_index 1 0 0x5000 6 (mkFstate b_machine no_temp) = Ret None.
Proof.
  apply (page_fault_errors 100 false (fault_context 3) vpt_index 0 0 (mkFstate b_machine no_temp) 0x5000 6).
  - reflexivity.
  - intros i region H. vm_compute in H. discriminate.
Defined.

(** What the theorem needs of the physical memory after the fork. *)
Definition b_cloned : outcome (Z * list (option MemPhysicalZone) * bool) :=
  '(_, m) ← MemContextClone 100 a_kdir a_context b_machine;
  let ph := physical m in
  Ret (zlen (MemPageStateTable ph), [zget (zones ph) 1; zget (zones ph) 2], is_free (MemPageStateTable ph) 40).

Lemma b_cloned_run : exists h,
  b_cloned = Ret (64, [Some (mkZone h 32 64); Some (mkZone 64 64 64)], true).
Proof. eexists. vm_compute. reflexivity. Qed.

Lemma no_temp_unseen m : temp_unseen boot_slot (mkFstate m no_temp).
Proof. apply boot_temp_unseen; apply zget_replicate; rewrite Z2Nat.id; vm_compute; repeat split; discriminate. Qed.

(** The same write when the processor reads the array as MemMapPage writes it,
    and with the directory that boot leaves. *)
Lemma fork_write_outcome_witness :
  exists child m1 p s, MemContextClone 100 a_kdir a_context b_machine = Ret (child, m1) /\
    (MemPageFaultHandler 100 false child vpt_index 1 0 0x1000 7 (mkFstate m1 no_temp) = Ret (Some s) /\
     p <> 50 /\ translate (mem s) (physDirectory child) 0x1000 = Some (mkMapping p true true false) /\
     translate (mem s) 1 0x1000 = Some (mkMapping 50 false true false)) /\
    MemPageFaultHandler 100 false child boot_slot 2 1 0x1000 7 (mkFstate m1 no_temp) =
      Panic "MemPageFaultHandler: Unable to handle kernel NULL pointer dereference".
Proof.
  assert (0 <= 0x1000 < KERNEL_VIRTUAL_BASE) as P1 by (unfold KERNEL_VIRTUAL_BASE; lia).
  assert (translate b_machine (physDirectory a_context) 0x1000 = Some (mkMapping 50 true true false)) as P2.
  { change (physDirectory a_context) with 1. rewrite b_translate by (unfold KERNEL_VIRTUAL_BASE; lia). reflexivity. }
  assert (50 < total_pages b_machine) as P3 by (vm_compute; reflexivity).
  assert (total_pages b_machine <= 0x80000) as P4 by (vm_compute; discriminate).
  assert (~ owned b_machine (physDirectory a_context) 50) as P5 by (intros Ho%b_owned; lia).
  assert (writable_region false a_context 0x1000) as P6.
  { exists 0, (mkMemRegion 3 0x1000 0x2000). split; [apply (fault_region 3); lia|reflexivity]. }
  pose proof (fun vslot => fork_write_outcome 100 a_kdir vslot a_context b_machine no_temp 0x1000 (mkMapping 50 true true false) 0 0
      a_kdir_ok b_space_ok b_frames_counted b_room P1 eq_refl P2 P3 P4 P5 P6) as H.
  destruct (H vpt_index) as (child & m1 & E & H1 & _). destruct (H boot_slot) as (child' & m1' & E' & _ & H2).
  rewrite E in E'. injection E' as <- <-.
  assert (page_available 100 MEM_HIGHMEM (physical m1)) as Hav.
  { destruct b_cloned_run as [h Hc]. unfold b_cloned in Hc. rewrite E in Hc. cbn [mbind outcome_bind] in Hc.
    injection Hc as G1 G2 G3 G4. apply high_available; [unfold enough_fuel; rewrite G1; lia|done|by exists h|done]. }
  destruct (H1 (no_temp_ready m1) Hav) as (p & s & Eh & Hp & Ht & Hk & _).
  exists child, m1, p, s. split; [exact E|]. split; [repeat (split; [assumption|]); exact Hk|].
  apply H2; [apply no_temp_unseen|reflexivity|exact Hav].
Defined.
