(* ===== verification/MemInit.v ===== *)
(** * Setting up memory at boot (src/mm/memInit.c, include/multiboot.h)

    The boot loader's memory map is read from memory as bytes, with the
    pointer arithmetic of the iteration macros. [GetPhysicalTableLocation]
    finds a place for the page state table, [MemManagerInit] fills the kernel's
    page directory and the table. The addresses that the linker gives to the
    kernel's end and to its two arrays are parameters. *)
From S2P Require Import Prelude Physical PageMap Region UserPage.

(** ** The boot information (include/multiboot.h) *)

Definition MULTIBOOT_MEMORY_AVAILABLE : Z := 1.
Definition MULTIBOOT_INFO_MODS : Z := 0x8.

Record multiboot_info := mkInfo {
  mb_flags : Z; mods_count : Z; mods_addr : Z; mmap_length : Z; mmap_addr : Z
}.
Record multiboot_mmap_entry := mkEntry { me_size : Z; me_addr : Z; me_len : Z; me_type : Z }.
Record multiboot_mod_list := mkMod { mod_start : Z; mod_end : Z }.

Section Loads.
(** The bytes of virtual memory: [None] where nothing is mapped. *)
Context (mem : Z -> option Z).

(** A little-endian integer of [n] bytes. *)
Fixpoint load_bytes (n : nat) (a : Z) : outcome Z :=
  match n with
  | O => Ret 0
  | S n' => b ← or_fault (mem (u32 a)); r ← load_bytes n' (a + 1); Ret (b + 256 * r)
  end.
Definition load32 (a : Z) : outcome Z := load_bytes 4 a.
Definition load64 (a : Z) : outcome Z := load_bytes 8 a.

(** The fields of the packed structures that the code reads. *)
Definition load_info (p : Z) : outcome multiboot_info :=
  f ← load32 p; mc ← load32 (p + 20); ma ← load32 (p + 24);
  ml ← load32 (p + 44); mm ← load32 (p + 48);
  Ret (mkInfo f mc ma ml mm).
Definition load_mmap (p : Z) : outcome multiboot_mmap_entry :=
  s ← load32 p; a ← load64 (p + 4); l ← load64 (p + 12); t ← load32 (p + 20);
  Ret (mkEntry s a l t).
Definition load_mod (p : Z) : outcome multiboot_mod_list :=
  s ← load32 p; e ← load32 (p + 4); Ret (mkMod s e).
End Loads.

(** ** The iteration macros *)

(** for(entryVar = a; entryVar < limit; entryVar = next): the body goes on
    with [inl] or leaves the loop with [inr]. *)
Section Foreach.
Context {E A R : Type} (load : Z -> outcome E) (next : Z -> E -> Z) (limit : Z).
Context (body : E -> A -> outcome (A + R)).

Fixpoint foreach (fuel : nat) (entryVar : Z) (st : A) : outcome (A + R) :=
  match fuel with
  | O => NoFuel
  | S f =>
      if entryVar <? limit then
        e ← load entryVar;
        r ← body e st;
        match r with
        | inl st' => foreach f (next entryVar e) st'
        | inr x => Ret (inr x)
        end
      else Ret (inl st)
  end.
End Foreach.

Definition mmap_next (entryVar : Z) (e : multiboot_mmap_entry) : Z := u32 (entryVar + me_size e + 4).
Definition mod_next (entryVar : Z) (_ : multiboot_mod_list) : Z := u32 (entryVar + 16).

(** The macro adds KERNEL_VIRTUAL_BASE to the address. *)
Definition MMAP_FOREACH {A R} (mem : Z -> option Z) (fuel : nat) (in_ len : Z)
    (body : multiboot_mmap_entry -> A -> outcome (A + R)) (st : A) : outcome (A + R) :=
  foreach (load_mmap mem) mmap_next (u32 (u32 (in_ + 0xC0000000) + len)) body fuel (u32 (in_ + 0xC0000000)) st.

(** This one does not. *)
Definition MODULES_FOREACH {A R} (mem : Z -> option Z) (fuel : nat) (in_ len : Z)
    (body : multiboot_mod_list -> A -> outcome (A + R)) (st : A) : outcome (A + R) :=
  foreach (load_mod mem) mod_next (u32 (in_ + len * 16)) body fuel in_ st.

(** ** The place of the page state table *)

Definition SIZEOF_MemPage : Z := 8.

(** PAGE_ALIGN(tableLength) *)
Definition PAGE_ALIGN (var : Z) : Z := u32 (var + (4096 - var mod 4096) mod 4096).

(** addr >> 32 == 0 *)
Definition below_4g (e : multiboot_mmap_entry) : bool := Z.shiftr (me_addr e) 32 =? 0.
Definition available (e : multiboot_mmap_entry) : bool := me_type e =? MULTIBOOT_MEMORY_AVAILABLE.

(** 1st pass: one entry of the map. *)
Definition raise_highest (e : multiboot_mmap_entry) (highestAddr : Z) : Z :=
  if available e && below_4g e then
    let end_ := u64 (me_addr e + me_len e) in
    if 0xFFFFFFFF <=? end_ then 0xFFFFFFFF
    else if highestAddr <? u32 end_ then u32 end_ else highestAddr
  else highestAddr.

Definition table_length (numPages : Z) (withPageTables : bool) : Z :=
  let tableLength := u32 (numPages * SIZEOF_MemPage) in
  if withPageTables then PAGE_ALIGN (u32 (PAGE_ALIGN tableLength + numPages * 4)) else tableLength.

(** Where to go on when the range meets the zone. *)
Definition BOUNDS_CHECK (start end_ position endPosition : Z) : option Z :=
  if ((start <=? position) && (position <? end_)) || ((position <? start) && (start <? endPosition))
  then Some end_ else None.

Section Init.
Context (mem : Z -> option Z).
(** Fuel for the loops, _kernel_end_page. *)
Context (fuel : nat) (kernel_end_page : Z).

Definition module_end (m : multiboot_mod_list) : Z := page_align (u32 (mod_end m + 4095)).

(** One module: go on, or to the end of the module. *)
Definition check_module (position endPosition : Z) (m : multiboot_mod_list) (_ : unit) : outcome (unit + Z) :=
  Ret (match BOUNDS_CHECK (mod_start m) (module_end m) position endPosition with
       | Some p => inr p
       | None => inl ()
       end).

(** All zones. *)
Definition check_zones (info : multiboot_info) (position endPosition : Z) : outcome (option Z) :=
  match BOUNDS_CHECK 1 0x100000 position endPosition with
  | Some p => Ret (Some p)
  | None =>
      match BOUNDS_CHECK 0x100000 (u32 (kernel_end_page * 4096)) position endPosition with
      | Some p => Ret (Some p)
      | None =>
          if truth (Z.land (mb_flags info) MULTIBOOT_INFO_MODS) then
            r ← MODULES_FOREACH mem fuel (mods_addr info) (mods_count info) (check_module position endPosition) ();
            Ret (match r with inr p => Some p | inl _ => None end)
          else Ret None
      end
  end.

(** boundsCheckLoop: [Some position] is a valid place. *)
Fixpoint bounds_loop (n : nat) (info : multiboot_info) (tableLength endPosition position : Z)
  : outcome (option Z) :=
  match n with
  | O => NoFuel
  | S n' =>
      if (position <? endPosition) && (tableLength <=? u32 (endPosition - position)) then
        r ← check_zones info position endPosition;
        match r with
        | Some p => bounds_loop n' info tableLength endPosition p
        | None => Ret (Some position)
        end
      else Ret None
  end.

Definition first_position (e : multiboot_mmap_entry) : Z :=
  u32 (Z.land (u64 (me_addr e + 4095)) (u64 (Z.lnot 0xFFF))).
Definition end_position (e : multiboot_mmap_entry) (position : Z) : Z :=
  u32 (u64 (position + u64 (me_len e - u64 (me_addr e - position)))).

(** 2nd pass: one entry of the map. *)
Definition try_region (info : multiboot_info) (tableLength : Z) (e : multiboot_mmap_entry) (_ : unit)
  : outcome (unit + Z) :=
  if available e && below_4g e then
    let position := first_position e in
    r ← bounds_loop fuel info tableLength (end_position e position) position;
    Ret (match r with Some p => inr (p / 4096) | None => inl () end)
  else Ret (inl ()).

(** Number of pages and first page of the table; [highestAddr] starts with
    what is in the uninitialised variable. *)
Definition GetPhysicalTableLocation (garbage : Z) (info : multiboot_info) (withPageTables : bool)
  : outcome (Z * Z) :=
  r ← MMAP_FOREACH (R := Empty_set) mem fuel (mmap_addr info) (mmap_length info)
        (fun e h => Ret (inl (raise_highest e h))) garbage;
  let highestAddr := match r with inl h => h | inr x => match (x : Empty_set) with end end in
  let numPages := highestAddr / 4096 in
  r ← MMAP_FOREACH mem fuel (mmap_addr info) (mmap_length info)
        (try_region info (table_length numPages withPageTables)) ();
  match r with
  | inr tablePage => Ret (numPages, tablePage)
  | inl _ => Panic "Out of memory for physical memory table"
  end.
End Init.

(** ** The kernel's address space *)

(** What MemManagerInit fills: the page directory, the page tables of the
    virtual region, physical memory (for the page tables of a processor
    without 4 MB pages) and the page allocator. *)
Record boot := mkBoot {
  MemKernelPageDirectory : list Z;
  MemVirtualPageTables : vptables;
  memory : pages;
  kernel_physDirectory : Z
}.

Definition set_dir (st : boot) d := mkBoot d (MemVirtualPageTables st) (memory st) (kernel_physDirectory st).
Definition set_vpts (st : boot) t := mkBoot (MemKernelPageDirectory st) t (memory st) (kernel_physDirectory st).
Definition set_memory (st : boot) m := mkBoot (MemKernelPageDirectory st) (MemVirtualPageTables st) m (kernel_physDirectory st).
Definition set_total (st : phys) n := mkPhys (MemPageStateTable st) (zones st) n (MemPhysicalFreePages st).

Definition set_hugePage (e v : Z) : Z := set_field e 7 1 v.

(** &MemKernelPageDirectory and &MemVirtualPageTables, as the linker places
    them; an element has 4 bytes. *)
Record layout := mkLayout { directory_addr : Z; tables_addr : Z; init_start_page : Z; end_page : Z }.

(** (address - KERNEL_VIRTUAL_BASE) / 4096: the page of a kernel array. *)
Definition array_page (address : Z) : Z := Z.quot (s32 (address - KERNEL_VIRTUAL_BASE)) 4096.

(** The frame that the processor finds for an address of the kernel. The
    page tables of the virtual region are apart from the words of memory. *)
Definition kwalk (lay : layout) (st : boot) (addr : Z) : option Z :=
  d ← zget (MemKernelPageDirectory st) (addr / 0x400000);
  let i := (addr / 4096) mod 1024 in
  if negb (truth (present d)) then None
  else if truth (hugePage d) then Some (pageID_raw d + i)
  else
    let k := pageID_raw d - array_page (tables_addr lay) in
    e ← (if (0 <=? k) && (k <? 64) then zget (MemVirtualPageTables st) (k * 1024 + i)
         else Some (word (memory st) (pageID_raw d * WORDS + i)));
    if truth (present e) then Some (pageID_raw e) else None.

Definition put {A} (l : list A) (i : Z) (x : A) : outcome (list A) :=
  _ ← or_fault (zget l i); Ret (zset l i x).

(** Setup page tables for virtual region: [n] entries from 0x3C0 + [k]. *)
Definition virtual_entry (lay : layout) (k : Z) : Z :=
  set_pageID (set_writable (set_present 0 1) 1) (array_page (tables_addr lay + 4 * k)).

Fixpoint virtual_directory (lay : layout) (n : nat) (k : Z) (st : boot) : outcome boot :=
  match n with
  | O => Ret st
  | S n' =>
      d ← put (MemKernelPageDirectory st) (0x3C0 + k) (virtual_entry lay k);
      virtual_directory lay n' (k + 1) (set_dir st d)
  end.

(** Map physical memory using 4MB pages. *)
Definition huge_entry (k : Z) : Z :=
  set_pageID (set_global (set_hugePage (set_writable (set_present 0 1) 1) 1) 1) (k * 0x400).

Fixpoint map_huge (n : nat) (k : Z) (st : boot) : outcome boot :=
  match n with
  | O => Ret st
  | S n' =>
      d ← put (MemKernelPageDirectory st) (0x300 + k) (huge_entry k);
      map_huge n' (k + 1) (set_dir st d)
  end.

(** Fill table, through the window at MEM_KFIXED_MAX: [n] entries from [j]. *)
Fixpoint fill_table (lay : layout) (n : nat) (k j : Z) (st : boot) : outcome boot :=
  match n with
  | O => Ret st
  | S n' =>
      fr ← or_fault (kwalk lay st (MEM_KFIXED_MAX + 4 * j));
      let e := set_pageID (set_global (set_writable (set_present 0 1) 1) 1) (k * 0x400 + j) in
      fill_table lay n' k (j + 1) (set_memory st (upd (memory st) (fr * WORDS + j) e))
  end.

(** Map physical memory without them: all directory entries get the table
    [firstPTable]. *)
Fixpoint map_small (lay : layout) (firstPTable : Z) (n : nat) (k : Z) (st : boot) : outcome boot :=
  match n with
  | O => Ret st
  | S n' =>
      e ← or_fault (zget (MemVirtualPageTables st) 0);
      let st1 := set_vpts st (zset (MemVirtualPageTables st) 0 (set_pageID e firstPTable)) in
      st2 ← fill_table lay 1024 k 0 st1;
      d ← put (MemKernelPageDirectory st2) (0x300 + k)
            (set_pageID (set_writable (set_present 0 1) 1) firstPTable);
      map_small lay firstPTable n' (k + 1) (set_dir st2 d)
  end.

(** Page directory of the kernel (phase 2); the page after the pages that are
    taken so far. *)
Definition map_memory (lay : layout) (using4MBPages : bool) (total tableLocation : Z) (st : boot)
  : outcome (Z * boot) :=
  let num4MBPages := u32 (total + 1023) / 1024 in
  let endOfAllocedTable := tableLocation + u32 (u32 (total * SIZEOF_MemPage) + 4095) / 4096 in
  let num4MBPages := if 0x3C0 <? num4MBPages then 0x3C0 else num4MBPages in
  if using4MBPages then
    st1 ← map_huge (Z.to_nat num4MBPages) 0 st; Ret (endOfAllocedTable, st1)
  else
    let firstPTable := endOfAllocedTable in
    let endOfAllocedTable := endOfAllocedTable + u32 (u32 (total * 4) + 4095) / 4096 in
    t ← put (MemVirtualPageTables st) 0 (set_writable (set_present 0 1) 1);
    st1 ← map_small lay firstPTable (Z.to_nat num4MBPages) 0 (set_vpts st t);
    t2 ← put (MemVirtualPageTables st1) 0 0;
    Ret (endOfAllocedTable, set_vpts st1 t2).

(** ** The page state table (phase 3) *)

(** Allocate reserved areas of the memory map. *)
Definition reserve_region (highestAddr : Z) (e : multiboot_mmap_entry) (ph : phys) : outcome (phys + Empty_set) :=
  if negb (available e) && (me_addr e <? highestAddr) && below_4g e then
    let startPages := s32 (me_addr e / 4096) in
    let endPages := s32 (u64 (me_len e + me_addr e + 4095) / 4096) in
    let ph1 := set_total ph (u32 (MemPhysicalTotalPages ph - s32 (endPages - startPages))) in
    t ← alloc_mark (Z.to_nat (endPages - startPages)) (MemPageStateTable ph1) startPages;
    Ret (inl (set_table ph1 t))
  else Ret (inl ph).

(** Allocate pages that are still free: [n] pages from [page]. *)
Fixpoint claim_pages (n : nat) (page : Z) (ph : phys) : outcome phys :=
  match n with
  | O => Ret ph
  | S n' =>
      p ← or_fault (zget (MemPageStateTable ph) page);
      claim_pages n' (page + 1)
        (if Physical.refCount p =? 0 then
           set_free (set_table ph (zset (MemPageStateTable ph) page (set_refCount p 1)))
             (u32 (MemPhysicalFreePages ph - 1))
         else ph)
  end.

Definition claim_module (m : multiboot_mod_list) (ph : phys) : outcome (phys + Empty_set) :=
  let startPages := mod_start m / 4096 in
  let endPages := u32 (mod_end m + 4095) / 4096 in
  ph' ← claim_pages (Z.to_nat (endPages - startPages)) startPages ph; Ret (inl ph').

Definition unloop {A} (r : A + Empty_set) : A :=
  match r with inl a => a | inr x => match (x : Empty_set) with end end.

(** The static zones are zero at boot. *)
Definition fresh_table (total : Z) : phys :=
  mkPhys (replicate (Z.to_nat total) (mkMemPage 0 0)) (replicate 3 (mkZone 0 0 0)) total 0.

Section Manager.
Context (mem : Z -> option Z) (fuel : nat) (lay : layout).

Definition fill_state_table (info : multiboot_info) (total tableLocation endOfAllocedTable : Z) : outcome phys :=
  let highestAddr := u32 (total * 4096) in
  r ← MMAP_FOREACH mem fuel (mmap_addr info) (mmap_length info) (reserve_region highestAddr) (fresh_table total);
  let ph1 := unloop r in
  t ← alloc_mark (Z.to_nat (end_page lay - 0xA0)) (MemPageStateTable ph1) 0xA0;
  let ph2 := set_free (set_table ph1 t) (MemPhysicalTotalPages ph1) in
  ph3 ← (if truth (Z.land (mb_flags info) MULTIBOOT_INFO_MODS) then
           r ← MODULES_FOREACH mem fuel (mods_addr info) (mods_count info) claim_module ph2; Ret (unloop r)
         else Ret ph2);
  ph4 ← claim_pages (Z.to_nat (endOfAllocedTable - tableLocation)) tableLocation ph3;
  MemPhysicalInit ph4.

Definition MemManagerInit (garbage CpuFeaturesEDX bootInfo : Z) (st : boot) : outcome boot :=
  let st0 := mkBoot (MemKernelPageDirectory st) (MemVirtualPageTables st) (memory st)
               (u32 (directory_addr lay - KERNEL_VIRTUAL_BASE) / 4096) in
  let using4MBPages := truth (Z.land CpuFeaturesEDX (Z.shiftl 1 3)) in
  info ← load_info mem bootInfo;
  '(total, tableLocation) ← GetPhysicalTableLocation mem fuel (end_page lay) garbage info (negb using4MBPages);
  st1 ← virtual_directory lay 64 0 st0;
  '(endOfAllocedTable, st2) ← map_memory lay using4MBPages total tableLocation st1;
  ph ← fill_state_table info total tableLocation endOfAllocedTable;
  Ret (set_memory st2 (set_physical (memory st2) ph)).

Definition MemFreeInitPages (ph : phys) : outcome phys :=
  MemPhysicalFree (init_start_page lay) (end_page lay - init_start_page lay) ph.
End Manager.
