(* ===== verification/InitSpec.v ===== *)
(** * Memory at boot: properties

    The place found for the page state table, the kernel's address space and
    the state of the page allocator after [MemManagerInit]. *)
From S2P Require Import Prelude Physical PageMap Region UserPage MemInit.

(** ** Loops over the boot information *)

Section Walk.
Context {E A R : Type} (load : Z -> outcome E) (next : Z -> E -> Z).

(** The entries that the macro goes through. *)
Fixpoint walk (es : list E) (a limit : Z) : Prop :=
  match es with
  | [] => limit <= a
  | e :: es' => a < limit /\ load a = Ret e /\ walk es' (next a e) limit
  end.

(** The loop on a list. *)
Fixpoint run (body : E -> A -> outcome (A + R)) (es : list E) (st : A) : outcome (A + R) :=
  match es with
  | [] => Ret (inl st)
  | e :: es' =>
      r ← body e st;
      match r with inl st' => run body es' st' | inr x => Ret (inr x) end
  end.

Lemma foreach_walk body es fuel a limit st :
  walk es a limit -> (length es < fuel)%nat -> foreach load next limit body fuel a st = run body es st.
Proof.
  revert fuel a st. induction es as [|e es IH]; intros fuel a st Hw Hf; (destruct fuel as [|f]; [simpl in Hf; lia|]); cbn [foreach].
  - simpl in Hw. by destruct (Z.ltb_spec a limit); [lia|].
  - destruct Hw as (Ha & Hl & Hw). destruct (Z.ltb_spec a limit); [|lia]. rewrite Hl. simpl.
    destruct (body e st) as [[st'|x]| | |]; try done. simpl in *. apply IH; [done|lia].
Qed.

Lemma run_pure (f : E -> A -> A) es st :
  run (fun e h => Ret (inl (f e h))) es st = Ret (inl (foldl (fun h e => f e h) st es)).
Proof. revert st. induction es as [|e es IH]; intros st; [done|]. simpl. apply IH. Qed.
End Walk.

(** The boot loader's tables, as the kernel reads them. *)
Record boot_tables (mem : Z -> option Z) (fuel : nat) (info : multiboot_info)
    (es : list multiboot_mmap_entry) (mods : list multiboot_mod_list) : Prop := mkTables {
  bt_map : walk (load_mmap mem) mmap_next es (u32 (mmap_addr info + 0xC0000000))
             (u32 (u32 (mmap_addr info + 0xC0000000) + mmap_length info));
  bt_mods : if truth (Z.land (mb_flags info) MULTIBOOT_INFO_MODS)
            then walk (load_mod mem) mod_next mods (mods_addr info) (u32 (mods_addr info + mods_count info * 16))
            else mods = [];
  bt_fuel : (length es + length mods + 2 < fuel)%nat
}.

(** A region of the map that does not start in the last page below 4 GB. *)
Definition entry_ok (e : multiboot_mmap_entry) : Prop :=
  0 <= me_addr e /\ 0 <= me_len e /\ me_addr e + me_len e + 8192 < 18446744073709551616 /\
  (me_addr e < 4294967296 -> me_addr e <= 0xFFFFF000).

Definition module_ok (m : multiboot_mod_list) : Prop := 0 <= mod_start m <= mod_end m /\ mod_end m <= 0xFFFFF000.

(** ** Positions *)

(** What is missing to the next page boundary. *)
Definition padding (a : Z) : Z := (- a) mod 4096.

Lemma first_position_spec e : entry_ok e -> below_4g e = true ->
  first_position e = me_addr e + padding (me_addr e) /\ first_position e < 4294967296.
Proof.
  intros (H1 & H2 & H3 & H4) Hb%Z.eqb_eq. rewrite Z.shiftr_div_pow2 in Hb by lia. change (2 ^ 32) with 4294967296 in Hb.
  assert (me_addr e < 4294967296) as Hlt by zlia. specialize (H4 Hlt). unfold first_position.
  assert (Z.land (u64 (me_addr e + 4095)) (u64 (Z.lnot 0xFFF)) = 4096 * ((me_addr e + 4095) / 4096)) as ->.
  { unfold u64. rewrite (Z.mod_small (me_addr e + 4095)) by lia.
    change (Z.lnot 0xFFF mod 18446744073709551616) with (Z.shiftl (Z.ones 52) 12).
    replace (Z.land (me_addr e + 4095) (Z.shiftl (Z.ones 52) 12))
      with (Z.shiftl (Z.land (Z.shiftr (me_addr e + 4095) 12) (Z.ones 52)) 12) by bits.
    rewrite Z.shiftl_mul_pow2, Z.land_ones, Z.shiftr_div_pow2 by lia. change (2 ^ 12) with 4096.
    rewrite Z.mod_small by (change (2 ^ 52) with 4503599627370496; zlia). lia. }
  unfold padding, u32. zlia.
Qed.

Lemma end_position_spec e : entry_ok e -> below_4g e = true ->
  end_position e (first_position e) = u32 (me_addr e + me_len e + 2 * padding (me_addr e)).
Proof.
  intros He Hb. destruct (first_position_spec e He Hb) as [-> _]. destruct He as (H1 & H2 & H3 & _). unfold end_position.
  assert (0 <= padding (me_addr e) < 4096) by (unfold padding; zlia). set (p := padding _) in *.
  unfold u64. rewrite Zminus_mod_idemp_r, Zplus_mod_idemp_r.
  replace (me_addr e + p + (me_len e - (me_addr e - (me_addr e + p)))) with (me_addr e + me_len e + 2 * p) by lia.
  by rewrite (Z.mod_small (me_addr e + me_len e + 2 * p)) by lia.
Qed.

Lemma module_end_spec m : module_ok m -> mod_start m <= module_end m /\ mod_end m <= module_end m < 4294967296 /\ module_end m mod 4096 = 0.
Proof.
  intros [H1 H2]. unfold module_end. rewrite page_align_spec by u32_lia. unfold u32. rewrite Z.mod_small by lia.
  split_and!; zlia.
Qed.

(** ** The search for a place *)

Section Search.
Context (mem : Z -> option Z) (fuel : nat) (kernel_end_page : Z).
Context (info : multiboot_info) (es : list multiboot_mmap_entry) (mods : list multiboot_mod_list).
Context (Htab : boot_tables mem fuel info es mods).
Context (Hes : Forall entry_ok es) (Hmods : Forall module_ok mods).
Context (Hkernel : 0x100 <= kernel_end_page < 0x100000).

(** What the table must not touch. *)
Definition reserved_zones : list (Z * Z) :=
  (1, 0x100000) :: (0x100000, kernel_end_page * 4096) ::
  map (fun m => (mod_start m, module_end m)) mods.

Fixpoint hit (zs : list (Z * Z)) (position endPosition : Z) : option Z :=
  match zs with
  | [] => None
  | (s, e) :: zs' =>
      match BOUNDS_CHECK s e position endPosition with
      | Some p => Some p
      | None => hit zs' position endPosition
      end
  end.

Lemma check_modules_run p e ms :
  run (check_module p e) ms () = Ret (match hit (map (fun m => (mod_start m, module_end m)) ms) p e with
                                      | Some q => inr q | None => inl () end).
Proof.
  induction ms as [|m ms IH]; [done|]. unfold check_module in *. cbn [run map hit]. destruct (BOUNDS_CHECK (mod_start m) _ p e); [reflexivity|]. exact IH.
Qed.

Lemma check_zones_hit p e :
  check_zones mem fuel kernel_end_page info p e = Ret (hit reserved_zones p e).
Proof.
  unfold check_zones, reserved_zones. cbn [hit]. destruct (BOUNDS_CHECK 1 _ p e); [done|].
  assert (u32 (kernel_end_page * 4096) = kernel_end_page * 4096) as -> by u32_lia.
  destruct (BOUNDS_CHECK 0x100000 _ p e); [done|]. destruct Htab as [_ Hm Hf]. revert Hm.
  destruct (truth (Z.land (mb_flags info) MULTIBOOT_INFO_MODS)); intros Hm; [|by rewrite Hm].
  unfold MODULES_FOREACH. rewrite (foreach_walk _ _ _ mods) by (done || lia). rewrite check_modules_run.
  simpl. by destruct (hit _ p e).
Qed.

Definition zone_ok (z : Z * Z) : Prop := z.1 <= z.2 /\ z.2 mod 4096 = 0 /\ 0 <= z.2 < 4294967296.

Lemma zones_ok : Forall zone_ok reserved_zones.
Proof.
  unfold reserved_zones, zone_ok. repeat (apply Forall_cons; split); [simpl; zlia|simpl; zlia|].
  apply Forall_fmap. eapply Forall_impl; [exact Hmods|]. intros m Hm. pose proof (module_end_spec m Hm). destruct Hm. simpl. lia.
Qed.

(** No hit: the range touches no zone. A hit: on to the end of one. *)
Lemma hit_None zs p e L : hit zs p e = None -> p + L <= e ->
  forall z, z ∈ zs -> z.2 <= p \/ p + L <= z.1.
Proof.
  intros H HL. induction zs as [|[s e'] zs IH]; intros z Hz; [by apply not_elem_of_nil in Hz|].
  cbn [hit] in H. destruct (BOUNDS_CHECK s e' p e) eqn:Hb; [done|]. apply elem_of_cons in Hz as [->|Hz]; [|by apply IH].
  unfold BOUNDS_CHECK in Hb. simpl. destruct (Z.leb_spec s p), (Z.ltb_spec p e'), (Z.ltb_spec p s), (Z.ltb_spec s e); simpl in Hb; try done; lia.
Qed.

Lemma hit_Some zs p e q : Forall zone_ok zs -> hit zs p e = Some q -> exists z, z ∈ zs /\ q = z.2 /\ p < q.
Proof.
  intros Hz H. induction Hz as [|[s e'] zs (Hse & _ & _) Hz IH]; [done|]. cbn [hit] in H.
  destruct (BOUNDS_CHECK s e' p e) eqn:Hb.
  - injection H as <-. exists (s, e'). split; [by left|]. unfold BOUNDS_CHECK in Hb. simpl in *.
    destruct (Z.leb_spec s p), (Z.ltb_spec p e'), (Z.ltb_spec p s), (Z.ltb_spec s e); simpl in Hb; try done; injection Hb as <-; lia.
  - destruct (IH H) as (z & ? & ?). exists z. split; [by right|done].
Qed.

(** Zones that end above a position: each turn of the loop leaves one behind. *)
Definition ahead (p : Z) : nat := length (filter (fun z : Z * Z => p < z.2) reserved_zones).

Lemma filter_shrinks (zs : list (Z * Z)) p q z : p < q -> z ∈ zs -> q = z.2 ->
  (length (filter (fun z : Z * Z => (q < z.2)%Z) zs) < length (filter (fun z : Z * Z => (p < z.2)%Z) zs))%nat.
Proof.
  intros Hpq Hz ->. assert (forall ys, (length (filter (fun y : Z * Z => (z.2 < y.2)%Z) ys) <= length (filter (fun y : Z * Z => (p < y.2)%Z) ys))%nat) as Hle.
  { induction ys as [|y ys IH]; [done|]. rewrite !filter_cons. destruct (decide (z.2 < y.2)), (decide (p < y.2)); simpl; lia. }
  induction zs as [|y zs IH]; [by apply not_elem_of_nil in Hz|]. rewrite !filter_cons. apply elem_of_cons in Hz as [<-|Hz].
  - destruct (decide (z.2 < z.2)); [lia|]. destruct (decide (p < z.2)); [|lia]. simpl. specialize (Hle zs). lia.
  - specialize (IH Hz). destruct (decide (z.2 < y.2)), (decide (p < y.2)); simpl; lia.
Qed.

Lemma ahead_decreases p q e : hit reserved_zones p e = Some q -> (ahead q < ahead p)%nat.
Proof. intros (z & Hz & -> & Hlt)%(hit_Some _ _ _ _ zones_ok). by eapply filter_shrinks. Qed.

(** What the loop finds. *)
Definition good_place (L E : Z) (pos p : Z) : Prop :=
  pos <= p /\ p mod 4096 = 0 /\ p + L <= E /\ p < E /\ forall z, z ∈ reserved_zones -> z.2 <= p \/ p + L <= z.1.

Lemma bounds_loop_result n L E pos :
  (ahead pos < n)%nat -> 0 <= L -> 0 <= pos -> E < 4294967296 -> pos mod 4096 = 0 ->
  exists r, bounds_loop mem fuel kernel_end_page n info L E pos = Ret r /\
    (forall p, r = Some p -> good_place L E pos p) /\
    (forall P, pos <= P -> P < E -> P + L <= E -> (forall z, z ∈ reserved_zones -> z.2 <= P) -> r <> None).
Proof.
  revert pos. induction n as [|n IH]; intros pos Hn HL Hpos HE Hal; [lia|]. cbn [bounds_loop].
  destruct (Z.ltb_spec pos E) as [Hlt|Hge]; cbn [andb].
  2: { exists None. split; [done|]. split; [done|]. intros P. lia. }
  unfold u32. rewrite Z.mod_small by lia. destruct (Z.leb_spec L (E - pos)) as [Hle|Hgt].
  2: { exists None. split; [done|]. split; [done|]. intros P. lia. }
  rewrite check_zones_hit. cbn [mbind outcome_bind]. destruct (hit reserved_zones pos E) as [q|] eqn:Hh.
  - pose proof (ahead_decreases _ _ _ Hh) as Hd. destruct (hit_Some _ _ _ _ zones_ok Hh) as (z & Hz & -> & Hpq).
    destruct (proj1 (Forall_forall _ _) zones_ok z Hz) as (_ & Hal' & Hr).
    destruct (IH z.2) as (r & Er & Hg & Hroom); [lia|lia|lia|lia|done|]. exists r. split; [done|]. split.
    + intros p Hp. destruct (Hg p Hp) as (? & ? & ? & ? & ?). split; [lia|done].
    + intros P HP HPE HPL Hends. apply (Hroom P); try done. by apply Hends.
  - exists (Some pos). split; [done|]. split; [|done]. intros p [= <-]. split; [lia|]. split; [done|]. split; [lia|]. split; [done|].
    apply (hit_None _ _ E); [done|lia].
Qed.

Lemma ahead_fuel p : (ahead p < fuel)%nat.
Proof.
  destruct Htab as [_ _ Hf]. unfold ahead. eapply Nat.le_lt_trans; [apply length_filter|].
  unfold reserved_zones. simpl. rewrite length_map. lia.
Qed.

(** A place in a region of the map. *)
Definition place_in (L : Z) (e : multiboot_mmap_entry) (p : Z) : Prop :=
  available e = true /\ below_4g e = true /\ good_place L (end_position e (first_position e)) (first_position e) p.

(** Room in a region above all zones. *)
Definition room_in (L : Z) (e : multiboot_mmap_entry) : Prop :=
  available e = true /\ below_4g e = true /\
  exists P, first_position e <= P /\ P < end_position e (first_position e) /\
    P + L <= end_position e (first_position e) /\ forall z, z ∈ reserved_zones -> z.2 <= P.

Lemma try_region_result L e : 0 <= L -> entry_ok e ->
  exists r, try_region mem fuel kernel_end_page info L e () = Ret r /\
    (forall t, r = inr t -> place_in L e (t * 4096)) /\ (room_in L e -> r <> inl ()).
Proof.
  intros HL He. unfold try_region. destruct (available e) eqn:Ha, (below_4g e) eqn:Hb; cbn [andb];
    try (exists (inl ()); split; [done|]; split; [done|]; intros (? & ? & ?); congruence).
  destruct (first_position_spec e He Hb) as [Hf Hf2].
  assert (0 <= first_position e /\ first_position e mod 4096 = 0) as [H0 Hal] by (rewrite Hf; destruct He; unfold padding; split; zlia).
  destruct (bounds_loop_result fuel L (end_position e (first_position e)) (first_position e)) as (r & Er & Hg & Hroom);
    [apply ahead_fuel|done|done|rewrite end_position_spec by done; u32_lia|done|].
  rewrite Er. cbn [mbind outcome_bind]. destruct r as [p|].
  - exists (inr (p / 4096)). split; [done|]. split; [|done]. intros t [= <-]. specialize (Hg p eq_refl).
    split; [done|]. split; [done|]. replace (p / 4096 * 4096) with p; [done|]. destruct Hg as (_ & ? & _). zlia.
  - exists (inl ()). split; [done|]. split; [done|]. intros (_ & _ & P & HP & HPE & HPL & Hends). by specialize (Hroom P HP HPE HPL Hends).
Qed.

Lemma try_regions_result L fs : 0 <= L -> Forall entry_ok fs ->
  exists r, run (try_region mem fuel kernel_end_page info L) fs () = Ret r /\
    (forall t, r = inr t -> exists e, e ∈ fs /\ place_in L e (t * 4096)) /\
    ((exists e, e ∈ fs /\ room_in L e) -> r <> inl ()).
Proof.
  intros HL. induction 1 as [|e fs He Hfs IH].
  - exists (inl ()). split; [done|]. split; [done|]. intros (e & []%not_elem_of_nil & _).
  - cbn [run]. destruct (try_region_result L e HL He) as (r & Er & Hp & Hr). rewrite Er. cbn [mbind outcome_bind].
    destruct r as [[]|t].
    + destruct IH as (r & Er' & Hp' & Hr'). exists r. split; [done|]. split.
      * intros t Ht. destruct (Hp' t Ht) as (e' & ? & ?). exists e'. split; [by right|done].
      * intros (e' & [->|Hin]%elem_of_cons & Hroom); [by destruct (Hr Hroom)|]. apply Hr'. eauto.
    + exists (inr t). split; [done|]. split; [|done]. intros t' [= <-]. exists e. split; [by left|by apply Hp].
Qed.

(** Highest address of the map. *)
Definition highest (garbage : Z) : Z := foldl (fun h e => raise_highest e h) garbage es.

Lemma table_length_nonneg n b : 0 <= table_length n b.
Proof. unfold table_length, PAGE_ALIGN. destruct b; u32_lia. Qed.

Lemma location_result garbage withPageTables :
  let numPages := highest garbage / 4096 in
  let L := table_length numPages withPageTables in
  exists r, run (try_region mem fuel kernel_end_page info L) es () = Ret r /\
    GetPhysicalTableLocation mem fuel kernel_end_page garbage info withPageTables =
      match r with inr t => Ret (numPages, t) | inl _ => Panic "Out of memory for physical memory table" end /\
    (forall t, r = inr t -> exists e, e ∈ es /\ place_in L e (t * 4096)) /\
    ((exists e, e ∈ es /\ room_in L e) -> r <> inl ()).
Proof.
  intros numPages L. destruct (try_regions_result L es (table_length_nonneg _ _) Hes) as (r & Er & Hp & Hr).
  exists r. split; [done|]. split; [|done]. unfold GetPhysicalTableLocation, MMAP_FOREACH. destruct Htab as [Hm _ Hf].
  rewrite (foreach_walk _ _ _ es) by (done || lia). rewrite run_pure. cbn [mbind outcome_bind]. cbv zeta.
  rewrite (foreach_walk _ _ _ es) by (done || lia). change (foldl _ garbage es) with (highest garbage).
  change (run _ es ()) with (run (try_region mem fuel kernel_end_page info L) es ()). by rewrite Er.
Qed.
End Search.

(** ** The tables of the boot loader in memory *)

Fixpoint encode (n : nat) (v : Z) : list Z :=
  match n with
  | O => []
  | S n' => v mod 256 :: encode n' (v / 256)
  end.

(** An entry in the Multiboot format: its size does not count itself. *)
Definition encode_mmap (e : multiboot_mmap_entry) : list Z :=
  encode 4 (me_size e) ++ encode 8 (me_addr e) ++ encode 8 (me_len e) ++ encode 4 (me_type e).

(** Bytes in memory from an address on. *)
Definition holds (mem : Z -> option Z) (a : Z) (bytes : list Z) : Prop :=
  forall i b, zget bytes i = Some b -> mem (u32 (a + i)) = Some b.

Lemma zget_app {A} (l l' : list A) i :
  zget (l ++ l') i = if i <? zlen l then zget l i else zget l' (i - zlen l).
Proof.
  unfold zget, zlen. destruct (Z.ltb_spec i 0); [by destruct (Z.ltb_spec i (Z.of_nat (length l))); [|destruct (Z.ltb_spec (i - Z.of_nat (length l)) 0)]; lia || done|].
  destruct (Z.ltb_spec i (Z.of_nat (length l))).
  - rewrite lookup_app_l by lia. done.
  - destruct (Z.ltb_spec (i - Z.of_nat (length l)) 0); [lia|]. rewrite lookup_app_r by lia. f_equal. lia.
Qed.

Lemma holds_app mem a l l' : holds mem a (l ++ l') -> holds mem a l /\ holds mem (a + zlen l) l'.
Proof.
  intros H. split; intros i b Hi.
  - apply H. rewrite zget_app. pose proof (zget_range _ _ _ Hi). by destruct (Z.ltb_spec i (zlen l)); [|lia].
  - pose proof (zget_range _ _ _ Hi). rewrite <- Z.add_assoc. apply H. rewrite zget_app. pose proof (zlen_nonneg l).
    destruct (Z.ltb_spec (zlen l + i) (zlen l)); [lia|]. by replace (zlen l + i - zlen l) with i by lia.
Qed.

Lemma length_encode n v : zlen (encode n v) = Z.of_nat n.
Proof. revert v. induction n as [|n IH]; intros v; [done|]. specialize (IH (v / 256)). unfold zlen in *. simpl. lia. Qed.

Lemma load_encode mem n v a : holds mem a (encode n v) -> 0 <= v < 256 ^ Z.of_nat n -> load_bytes mem n a = Ret v.
Proof.
  revert v a. induction n as [|n IH]; intros v a H Hv.
  - simpl in *. f_equal. lia.
  - cbn [load_bytes encode] in *. apply (holds_app _ _ [v mod 256]) in H as [H0 H1].
    specialize (H0 0 (v mod 256) eq_refl). rewrite Z.add_0_r in H0. rewrite H0. cbn [or_fault mbind outcome_bind].
    rewrite (IH (v / 256)); [simpl; f_equal; zlia|exact H1|].
    rewrite Nat2Z.inj_succ, Z.pow_succ_r in Hv by lia. split; [zlia|]. apply Z.div_lt_upper_bound; lia.
Qed.

Definition entry_fits (e : multiboot_mmap_entry) : Prop :=
  me_size e = 20 /\ 0 <= me_addr e < 18446744073709551616 /\ 0 <= me_len e < 18446744073709551616 /\
  0 <= me_type e < 4294967296.

Lemma load_mmap_encode mem e a : entry_fits e -> holds mem a (encode_mmap e) -> load_mmap mem a = Ret e.
Proof.
  intros (Hs & Ha & Hl & Ht) H. unfold encode_mmap in H. apply holds_app in H as [H0 H]. apply holds_app in H as [H1 H].
  apply holds_app in H as [H2 H3]. rewrite !length_encode in *.
  assert (256 ^ Z.of_nat 4 = 4294967296) as E4 by done. assert (256 ^ Z.of_nat 8 = 18446744073709551616) as E8 by done. unfold load_mmap, load32, load64.
  rewrite (load_encode _ _ _ _ H0) by (rewrite E4; lia). cbn [mbind outcome_bind].
  rewrite (load_encode _ 8 (me_addr e) (a + 4)); [|exact H1|rewrite E8; lia]. cbn [mbind outcome_bind].
  rewrite (load_encode _ 8 (me_len e) (a + 12)); [|by replace (a + 12) with (a + Z.of_nat 4 + Z.of_nat 8) by lia|rewrite E8; lia]. cbn [mbind outcome_bind].
  rewrite (load_encode _ 4 (me_type e) (a + 20)); [|by replace (a + 20) with (a + Z.of_nat 4 + Z.of_nat 8 + Z.of_nat 8) by lia|rewrite E4; lia].
  by destruct e.
Qed.

Lemma encode_mmap_length e : zlen (encode_mmap e) = 24.
Proof. unfold encode_mmap, zlen. rewrite !length_app. pose proof length_encode as H. unfold zlen in H. rewrite !Nat2Z.inj_add, !H. done. Qed.

Lemma walk_encoded mem es a :
  Forall entry_fits es -> holds mem a (concat (map encode_mmap es)) -> 0 <= a -> a + 24 * zlen es < 4294967296 ->
  walk (load_mmap mem) mmap_next es a (a + 24 * zlen es).
Proof.
  intros Hes. revert a. induction Hes as [|e es He Hes IH]; intros a H Ha Hlen; [cbn [walk]; unfold zlen; simpl length; lia|].
  assert (zlen (e :: es) = zlen es + 1) as Hz by (unfold zlen; simpl; lia). rewrite Hz in *. pose proof (zlen_nonneg es) as Hnn.
  cbn [map concat] in H. apply holds_app in H as [H0 H1]. rewrite encode_mmap_length in H1. cbn [walk]. split; [lia|]. split; [by apply load_mmap_encode|].
  unfold mmap_next. destruct He as [-> _]. unfold u32. rewrite Z.mod_small by lia.
  replace (a + 20 + 4) with (a + 24) by lia. replace (a + 24 * (zlen es + 1)) with (a + 24 + 24 * zlen es) by lia. apply IH; [done|lia|lia].
Qed.

Lemma highest_covers es garbage : is_u32 garbage ->
  garbage <= highest es garbage /\ is_u32 (highest es garbage) /\
  (highest es garbage = garbage \/ exists e, e ∈ es /\ available e = true /\ below_4g e = true /\
     highest es garbage = Z.min (u64 (me_addr e + me_len e)) 0xFFFFFFFF) /\
  forall e, e ∈ es -> available e = true -> below_4g e = true -> 
    Z.min (u64 (me_addr e + me_len e)) 0xFFFFFFFF <= highest es garbage.
Proof.
  unfold highest. revert garbage. induction es as [|e l IH]; intros g Hg; simpl.
  - split; [lia|]. split; [done|]. split; [by left|]. by intros e []%not_elem_of_nil.
  - assert (is_u32 (raise_highest e g) /\ g <= raise_highest e g /\
      ((raise_highest e g = g) \/ (available e = true /\ below_4g e = true /\ raise_highest e g = Z.min (u64 (me_addr e + me_len e)) 0xFFFFFFFF)) /\
      (available e = true -> below_4g e = true -> Z.min (u64 (me_addr e + me_len e)) 0xFFFFFFFF <= raise_highest e g))
      as (Hr & Hge & Hat & Hcov).
    { unfold raise_highest. destruct (available e), (below_4g e); simpl; try (split_and!; auto; lia || done).
      assert (0 <= u64 (me_addr e + me_len e)) by (unfold u64; zlia).
      destruct (Z.leb_spec 0xFFFFFFFF (u64 (me_addr e + me_len e))); [unfold is_u32 in *; split_and!; intros; try lia; right; split_and!; (done || lia)|].
      assert (u32 (u64 (me_addr e + me_len e)) = u64 (me_addr e + me_len e)) as -> by u32_lia.
      destruct (Z.ltb_spec g (u64 (me_addr e + me_len e))); unfold is_u32 in *; split_and!; intros; try lia; right; split_and!; (done || lia). }
    destruct (IH _ Hr) as (H1 & H2 & H3 & H4). split; [lia|]. split; [done|]. split.
    + destruct H3 as [-> | (e' & ? & ?)]; [|right; exists e'; split; [by right|done]].
      destruct Hat as [->|(? & ? & ->)]; [by left|]. right. exists e. split; [by left|done].
    + intros e' [->|He']%elem_of_cons Ha Hb; [specialize (Hcov Ha Hb); lia|by apply H4].
Qed.

(** ** Properties of the search *)

Section Properties.
Context (mem : Z -> option Z) (fuel : nat) (kernel_end_page : Z).
Context (info : multiboot_info) (es : list multiboot_mmap_entry) (mods : list multiboot_mod_list).

(** MMAP_FOREACH goes through the entries of a memory map in the Multiboot
    format, in order, with their fields as they were written. *)
Theorem MMAP_FOREACH_entries {A R} (body : multiboot_mmap_entry -> A -> outcome (A + R)) in_ st :
  Forall entry_fits es -> holds mem (in_ + 0xC0000000) (concat (map encode_mmap es)) ->
  0 <= in_ -> in_ + 0xC0000000 + 24 * zlen es < 4294967296 -> (length es < fuel)%nat ->
  MMAP_FOREACH mem fuel in_ (24 * zlen es) body st = run body es st.
Proof.
  intros Hes H Hi Hl Hf. unfold MMAP_FOREACH. pose proof (zlen_nonneg es). unfold u32. rewrite (Z.mod_small (in_ + _)), Z.mod_small by lia.
  apply foreach_walk; [|done]. apply walk_encoded; [done|done|lia|lia].
Qed.

Context (Htab : boot_tables mem fuel info es mods).
Context (Hes : Forall entry_ok es) (Hmods : Forall module_ok mods).
Context (Hkernel : 0x100 <= kernel_end_page < 0x100000).

(** C26: the table that is found has room for the state of every page up to the
    highest address of the map; it lies in an available region, with up to
    twice the padding of the region's start beyond its end, and touches
    neither the first megabyte, nor the kernel, nor a boot module. *)
Theorem GetPhysicalTableLocation_finds garbage withPageTables numPages tablePage :
  is_u32 garbage ->
  GetPhysicalTableLocation mem fuel kernel_end_page garbage info withPageTables = Ret (numPages, tablePage) ->
  let T := tablePage * 4096 in
  let L := table_length numPages withPageTables in
  garbage / 4096 <= numPages /\
  (forall e, e ∈ es -> available e = true -> below_4g e = true ->
     Z.min (me_addr e + me_len e) 0xFFFFFFFF / 4096 <= numPages) /\
  (exists e, e ∈ es /\ available e = true /\ below_4g e = true /\
     me_addr e <= T /\ T + L <= me_addr e + me_len e + 2 * padding (me_addr e)) /\
  forall z, z ∈ reserved_zones kernel_end_page mods -> z.2 <= T \/ T + L <= z.1.
Proof.
  intros Hg H. cbv zeta. destruct (highest_covers es garbage Hg) as (Hge & _ & _ & Hcov).
  destruct (location_result mem fuel kernel_end_page info es mods Htab Hes Hmods Hkernel garbage withPageTables)
    as (r & _ & E & Hp & _). cbv zeta in *. rewrite E in H. destruct r as [|t]; [done|]. injection H as <- <-.
  destruct (Hp t eq_refl) as (e & He & Ha & Hb & H1 & H2 & H3 & H4 & H5).
  destruct (proj1 (Forall_forall _ _) Hes e He) as (Hi1 & Hi2 & Hi3 & Hi4). pose proof (proj1 (Forall_forall _ _) Hes e He) as Hok.
  split; [apply Z.div_le_mono; lia|]. split.
  { intros e' He' Ha' Hb'. apply Z.div_le_mono; [lia|]. rewrite <- (Z.mod_small (me_addr e' + me_len e') 18446744073709551616).
    - by apply Hcov.
    - destruct (proj1 (Forall_forall _ _) Hes e' He'). lia. }
  split; [|exact H5]. exists e. split; [done|]. split; [done|]. split; [done|].
  destruct (first_position_spec e Hok Hb) as [Hf _]. rewrite end_position_spec in H3 by done.
  assert (0 <= padding (me_addr e)) by (unfold padding; zlia).
  assert (u32 (me_addr e + me_len e + 2 * padding (me_addr e)) <= me_addr e + me_len e + 2 * padding (me_addr e))
    by (unfold u32; apply Z.mod_le; lia). lia.
Qed.

(** C27: when the memory map and the list of boot modules can be read where the
    function reads them (the module list at its physical address, which boot
    does not map: with modules the function faults otherwise), the search ends,
    with a place or with the panic, and it finds a place when an available
    region has room for the table above all the reserved zones. *)
Theorem GetPhysicalTableLocation_returns garbage withPageTables :
  let numPages := highest es garbage / 4096 in
  let result := GetPhysicalTableLocation mem fuel kernel_end_page garbage info withPageTables in
  ((exists tablePage, result = Ret (numPages, tablePage)) \/ result = Panic "Out of memory for physical memory table") /\
  ((exists e, e ∈ es /\ room_in kernel_end_page mods (table_length numPages withPageTables) e) ->
     exists tablePage, result = Ret (numPages, tablePage)).
Proof.
  destruct (location_result mem fuel kernel_end_page info es mods Htab Hes Hmods Hkernel garbage withPageTables)
    as (r & _ & E & _ & Hr). cbv zeta in *. rewrite E. destruct r as [[]|t].
  - split; [by right|]. intros H. by destruct (Hr H).
  - split; [left|intros _]; by exists t.
Qed.
End Properties.

(** The loader has unmapped the identity mapping of low memory, and the loop
    over boot modules does not add KERNEL_VIRTUAL_BASE to the address of the
    module list: with a module, the search for the table never returns. *)
Theorem GetPhysicalTableLocation_modules mem fuel kernel_end_page garbage info withPageTables r :
  (forall a, 0 <= a < KERNEL_VIRTUAL_BASE -> mem a = None) ->
  truth (Z.land (mb_flags info) MULTIBOOT_INFO_MODS) = true ->
  0 < mods_count info -> 0 <= mods_addr info -> mods_addr info + mods_count info * 16 <= KERNEL_VIRTUAL_BASE ->
  GetPhysicalTableLocation mem fuel kernel_end_page garbage info withPageTables <> Ret r.
Proof.
  intros Hmem Hflag Hcount Ha Hend.
  assert (forall A R (body : _ -> A -> outcome (A + R)) st r', MODULES_FOREACH mem fuel (mods_addr info) (mods_count info) body st <> Ret r') as Hmods.
  { intros A R body st r'. unfold MODULES_FOREACH. destruct fuel as [|f]; [done|]. cbn [foreach]. unfold KERNEL_VIRTUAL_BASE, u32 in *.
    rewrite Z.mod_small by lia. destruct (Z.ltb_spec (mods_addr info) (mods_addr info + mods_count info * 16)); [|lia].
    unfold load_mod, load32. cbn [load_bytes]. unfold u32. rewrite (Z.mod_small (mods_addr info)), (Hmem (mods_addr info)) by lia. done. }
  assert (forall n L E pos p, bounds_loop mem fuel kernel_end_page n info L E pos <> Ret (Some p)) as Hloop.
  { induction n as [|n IH]; intros L E pos p; [done|]. cbn [bounds_loop]. destruct ((pos <? E) && (L <=? u32 (E - pos))); [|done].
    unfold check_zones. destruct (BOUNDS_CHECK 1 _ pos E); [apply IH|]. destruct (BOUNDS_CHECK 0x100000 _ pos E); [apply IH|].
    rewrite Hflag. intros H. apply bind_Ret_inv in H as (x & H & _). apply bind_Ret_inv in H as (y & H & _). by apply Hmods in H. }
  intros H. unfold GetPhysicalTableLocation in H. apply bind_Ret_inv in H as (x & _ & H). cbv zeta in H.
  apply bind_Ret_inv in H as (y & H & H2). destruct y as [|t]; [done|]. clear H2. unfold MMAP_FOREACH in H. revert H.
  generalize (u32 (mmap_addr info + 0xC0000000)) at 2 as a. generalize fuel at 2 as n. induction n as [|n IH]; intros a H; [done|].
  cbn [foreach] in H. destruct (a <? _); [|done]. apply bind_Ret_inv in H as (e & _ & H). apply bind_Ret_inv in H as (y & H1 & H).
  unfold try_region in H1. destruct (available e && below_4g e).
  - apply bind_Ret_inv in H1 as (z & H1 & H2). destruct z as [p|]; [by apply Hloop in H1|]. injection H2 as <-. by apply IH in H.
  - injection H1 as <-. by apply IH in H.
Qed.
