(* ===== verification/BootSpec.v ===== *)
(** * The kernel's memory after boot: properties

    What [MemManagerInit] leaves: the address space of the kernel and the
    state of the page allocator. *)
From S2P Require Import Prelude Physical PageMap Region UserPage MemInit InitSpec.

(** ** Directory entries *)

Lemma put_ok {A} (l : list A) i x : 0 <= i < zlen l -> put l i x = Ret (zset l i x).
Proof. intros H. unfold put. destruct (zget_in_range l i H) as [y ->]. done. Qed.

Lemma put_outside {A} (l : list A) i x : zlen l <= i -> put l i x = Fault.
Proof.
  intros H. unfold put. destruct (zget l i) as [y|] eqn:E; [|done]. apply zget_range in E. lia.
Qed.

(** The kernel's arrays are pages of the direct map. *)
Definition layout_ok (lay : layout) : Prop :=
  KERNEL_VIRTUAL_BASE <= tables_addr lay < MEM_KFIXED_MAX - 0x40000 /\ tables_addr lay mod 4096 = 0 /\
  0x100 <= end_page lay < 0x30000.

Definition tables_page (lay : layout) : Z := (tables_addr lay - KERNEL_VIRTUAL_BASE) / 4096.

Lemma array_page_tables lay k : layout_ok lay -> 0 <= k < 64 -> array_page (tables_addr lay + 4 * k) = tables_page lay.
Proof.
  intros (H1 & H2 & _) Hk. unfold array_page, tables_page, KERNEL_VIRTUAL_BASE, MEM_KFIXED_MAX in *.
  assert (s32 (tables_addr lay + 4 * k - 0xC0000000) = tables_addr lay + 4 * k - 0xC0000000) as -> by u32_lia.
  rewrite Z.quot_div_nonneg by lia. zlia.
Qed.

Lemma tables_page_bound lay : layout_ok lay -> 0 <= tables_page lay < 0x30000 - 64.
Proof. intros (H1 & H2 & _). unfold tables_page, KERNEL_VIRTUAL_BASE, MEM_KFIXED_MAX in *. zlia. Qed.

Ltac fields := unfold present, writable, userMode, hugePage, global, pageID_raw,
  set_present, set_writable, set_userMode, set_hugePage, set_global, set_pageID;
  repeat first [rewrite field_set_same by lia | rewrite field_set_other by lia].

Lemma virtual_entry_fields lay k : layout_ok lay -> 0 <= k < 64 ->
  present (virtual_entry lay k) = 1 /\ hugePage (virtual_entry lay k) = 0 /\
  pageID_raw (virtual_entry lay k) = tables_page lay.
Proof.
  intros Hl Hk. pose proof (tables_page_bound lay Hl). unfold virtual_entry. rewrite array_page_tables by done.
  split_and!; fields; [done|done|]. rewrite Z.land_ones by lia. apply Z.mod_small. change (2 ^ 20) with 1048576. lia.
Qed.

Lemma huge_entry_fields k : 0 <= k < 256 ->
  present (huge_entry k) = 1 /\ hugePage (huge_entry k) = 1 /\ pageID_raw (huge_entry k) = k * 0x400.
Proof.
  intros Hk. unfold huge_entry. split_and!; fields; [done|done|].
  rewrite Z.land_ones by lia. apply Z.mod_small. change (2 ^ 20) with 1048576. lia.
Qed.

(** ** Filling the directory *)

Lemma virtual_directory_fills lay n k st :
  zlen (MemKernelPageDirectory st) = 1024 -> 0 <= k -> k + Z.of_nat n <= 64 ->
  exists d, virtual_directory lay n k st = Ret (set_dir st d) /\ zlen d = 1024 /\
    forall i, zget d i = if (0x3C0 + k <=? i) && (i <? 0x3C0 + k + Z.of_nat n) then Some (virtual_entry lay (i - 0x3C0))
                         else zget (MemKernelPageDirectory st) i.
Proof.
  revert k st. induction n as [|n IH]; intros k st Hlen Hk Hn.
  - exists (MemKernelPageDirectory st). split; [by destruct st|]. split; [done|]. intros i. bool_cases; done || lia.
  - cbn [virtual_directory]. rewrite put_ok by lia. cbn [mbind outcome_bind].
    destruct (IH (k + 1) (set_dir st (zset (MemKernelPageDirectory st) (0x3C0 + k) (virtual_entry lay k)))) as (d & E & Hd & Hg);
      [simpl; by rewrite zlen_zset|lia|lia|].
    exists d. rewrite E. split; [done|]. split; [done|]. intros i. rewrite Hg. cbn [MemKernelPageDirectory set_dir]. rewrite zget_zset, Hlen.
    destruct (Z.eqb_spec (0x3C0 + k) i) as [<-|]; bool_cases; try lia; try done. do 2 f_equal; lia.
Qed.

Lemma map_huge_fills n k st :
  zlen (MemKernelPageDirectory st) = 1024 -> 0 <= k -> k + Z.of_nat n <= 256 ->
  exists d, map_huge n k st = Ret (set_dir st d) /\ zlen d = 1024 /\
    forall i, zget d i = if (0x300 + k <=? i) && (i <? 0x300 + k + Z.of_nat n) then Some (huge_entry (i - 0x300))
                         else zget (MemKernelPageDirectory st) i.
Proof.
  revert k st. induction n as [|n IH]; intros k st Hlen Hk Hn.
  - exists (MemKernelPageDirectory st). split; [by destruct st|]. split; [done|]. intros i. bool_cases; done || lia.
  - cbn [map_huge]. rewrite put_ok by lia. cbn [mbind outcome_bind].
    destruct (IH (k + 1) (set_dir st (zset (MemKernelPageDirectory st) (0x300 + k) (huge_entry k)))) as (d & E & Hd & Hg);
      [simpl; by rewrite zlen_zset|lia|lia|].
    exists d. rewrite E. split; [done|]. split; [done|]. intros i. rewrite Hg. cbn [MemKernelPageDirectory set_dir]. rewrite zget_zset, Hlen.
    destruct (Z.eqb_spec (0x300 + k) i) as [<-|]; bool_cases; try lia; try done. do 2 f_equal; lia.
Qed.

Lemma map_huge_overruns n k st :
  zlen (MemKernelPageDirectory st) = 1024 -> 0 <= k <= 256 -> 256 < k + Z.of_nat n -> map_huge n k st = Fault.
Proof.
  revert k st. induction n as [|n IH]; intros k st Hlen Hk Hn; [lia|]. cbn [map_huge].
  destruct (Z.eq_dec k 256) as [->|]; [by rewrite put_outside by lia|]. rewrite put_ok by lia. cbn [mbind outcome_bind].
  apply IH; [simpl; by rewrite zlen_zset|lia|lia].
Qed.

(** Blocks of 4 MB that the code maps for a number of pages. *)
Definition blocks (total : Z) : Z := (total + 1023) / 1024.

Lemma map_memory_huge lay total t st :
  zlen (MemKernelPageDirectory st) = 1024 -> 0 <= total <= 0x40000 ->
  exists e d, map_memory lay true total t st = Ret (e, set_dir st d) /\ zlen d = 1024 /\
    e = t + (total * 8 + 4095) / 4096 /\
    forall i, zget d i = if (0x300 <=? i) && (i <? 0x300 + blocks total) then Some (huge_entry (i - 0x300))
                         else zget (MemKernelPageDirectory st) i.
Proof.
  intros Hlen Ht. unfold map_memory. cbv zeta. assert (u32 (total + 1023) / 1024 = blocks total) as -> by (unfold blocks; u32_lia).
  assert (0 <= blocks total <= 256) by (unfold blocks; zlia). destruct (Z.ltb_spec 0x3C0 (blocks total)); [lia|].
  destruct (map_huge_fills (Z.to_nat (blocks total)) 0 st) as (d & E & Hd & Hg); [done|lia|lia|].
  rewrite E. eexists _, d. split; [reflexivity|]. split; [done|]. split; [unfold SIZEOF_MemPage; u32_lia|].
  intros i. rewrite Hg, Z2Nat.id by lia. done.
Qed.

(** ** The processor's view *)

Section View.
Context (lay : layout) (Hlay : layout_ok lay).

Lemma kwalk_huge st page : 0 <= page < 0x40000 ->
  zget (MemKernelPageDirectory st) (0x300 + page / 1024) = Some (huge_entry (page / 1024)) ->
  kwalk lay st (KERNEL_VIRTUAL_BASE + page * 4096) = Some page.
Proof.
  intros Hp Hd. unfold kwalk, KERNEL_VIRTUAL_BASE. replace ((0xC0000000 + page * 4096) / 0x400000) with (0x300 + page / 1024) by zlia.
  rewrite Hd. cbn [mbind option_bind]. destruct (huge_entry_fields (page / 1024)) as (-> & -> & ->); [zlia|]. simpl. f_equal. zlia.
Qed.

Lemma kwalk_virtual st a : MEM_KFIXED_MAX <= a < 4294967296 ->
  zget (MemKernelPageDirectory st) (a / 0x400000) = Some (virtual_entry lay (a / 0x400000 - 0x3C0)) ->
  kwalk lay st a =
    e ← zget (MemVirtualPageTables st) ((a / 4096) mod 1024);
    if truth (present e) then Some (pageID_raw e) else None.
Proof.
  intros Ha Hd. unfold kwalk, MEM_KFIXED_MAX in *. rewrite Hd. cbn [mbind option_bind].
  destruct (virtual_entry_fields lay (a / 0x400000 - 0x3C0)) as (-> & -> & ->); [done|zlia|]. simpl.
  assert (array_page (tables_addr lay) = tables_page lay) as ->.
  { rewrite <- (array_page_tables lay 0) by (done || lia). f_equal. lia. }
  by rewrite Z.sub_diag.
Qed.
End View.

(** ** The page state table *)

Lemma foreach_inv {E A R} (load : Z -> outcome E) next limit body (P : A -> Prop) :
  (forall e (a : A) a', P a -> body e a = Ret (inl a' : A + R) -> P a') ->
  forall fuel p a a', P a -> foreach load next limit body fuel p a = Ret (inl a') -> P a'.
Proof.
  intros Hb. induction fuel as [|f IH]; intros p a a' Ha H; [done|]. cbn [foreach] in H. destruct (p <? limit).
  - apply bind_Ret_inv in H as (e & _ & H). apply bind_Ret_inv in H as ([a1|x] & H1 & H); [|done]. eapply IH; [|exact H]. by eapply Hb.
  - by injection H as <-.
Qed.

(** The pages that a predicate picks have one reference, the others none. *)
Definition marked (t : list MemPage) (n : Z) (P : Z -> bool) : Prop :=
  zlen t = n /\ forall i, 0 <= i < n -> zget t i = Some (mkMemPage (if P i then 1 else 0) 0).

Definition range (p n i : Z) : bool := (p <=? i) && (i <? p + n).

Lemma marked_step t n P p :
  marked t n P -> 0 <= p < n -> marked (zset t p (mkMemPage 1 0)) n (fun i => P i || (i =? p)).
Proof.
  intros [Hl Hm] Hp. split; [by rewrite zlen_zset|]. intros i Hi. rewrite zget_zset, Hl.
  destruct (Z.eqb_spec p i) as [<-|]; [rewrite Z.eqb_refl, orb_true_r; by bool_cases|].
  simpl. rewrite Hm by done. destruct (Z.eqb_spec i p); [lia|]. by rewrite orb_false_r.
Qed.

Lemma marked_ext t n P Q : (forall i, 0 <= i < n -> P i = Q i) -> marked t n P -> marked t n Q.
Proof. intros H [Hl Hm]. split; [done|]. intros i Hi. by rewrite Hm, H by done. Qed.

Lemma mark_range k t n P p :
  marked t n P -> 0 <= p -> 
  (p + Z.of_nat k <= n -> exists t', alloc_mark k t p = Ret t' /\ marked t' n (fun i => P i || range p (Z.of_nat k) i)) /\
  (n < p + Z.of_nat k -> k <> 0%nat -> alloc_mark k t p = Fault).
Proof.
  revert t P p. induction k as [|k IH]; intros t P p Hm Hp.
  - split; [|done]. intros _. exists t. split; [done|]. eapply marked_ext; [|exact Hm]. intros i _. unfold range. bool_cases; by rewrite ?orb_false_r || lia.
  - cbn [alloc_mark]. destruct (decide (p < n)) as [Hlt|Hge].
    + pose proof (proj2 Hm p ltac:(lia)) as Hg. rewrite Hg. cbn [or_fault mbind outcome_bind]. unfold set_refCount. cbn [slab].
      destruct (IH _ _ (p + 1) (marked_step _ _ _ _ Hm (conj Hp Hlt)) ltac:(lia)) as [H1 H2]. split.
      * intros Hk. destruct H1 as (t' & E & Hm'); [lia|]. exists t'. split; [done|]. eapply marked_ext; [|exact Hm'].
        intros i _. unfold range. destruct (P i); [done|]. bool_cases; done || lia.
      * intros Hk _. destruct k as [|k']; [lia|]. apply H2; [lia|done].
    + split; [lia|]. intros _ _. destruct (zget t p) as [y|] eqn:Hg; [|done]. apply zget_range in Hg. destruct Hm. lia.
Qed.

Lemma mark_range_inv k t n P p t' :
  marked t n P -> 0 <= p -> alloc_mark k t p = Ret t' -> marked t' n (fun i => P i || range p (Z.of_nat k) i).
Proof.
  intros Hm Hp H. destruct (mark_range k t n P p Hm Hp) as [H1 H2]. destruct (decide (p + Z.of_nat k <= n)) as [Hle|Hgt].
  - destruct (H1 Hle) as (t2 & E & Hm2). rewrite E in H. by injection H as <-.
  - destruct k as [|k']; [|rewrite H2 in H by lia; done]. injection H as <-.
    eapply marked_ext; [|exact Hm]. intros i _. unfold range. bool_cases; by rewrite ?orb_false_r || lia.
Qed.

(** The pages of a range that are not picked. *)
Definition unpicked (P : Z -> bool) (p : Z) (k : nat) : Z := zlen (filter (fun i => P i = false) (seqZ p (Z.of_nat k))).

Lemma seqZ_step p k : seqZ p (Z.of_nat (S k)) = p :: seqZ (p + 1) (Z.of_nat k).
Proof. rewrite seqZ_cons by lia. f_equal; [f_equal; lia]. Qed.

Lemma unpicked_step P p k : unpicked P p (S k) = (if P p then 0 else 1) + unpicked P (p + 1) k.
Proof. unfold unpicked. rewrite seqZ_step, filter_cons. destruct (P p); cbn; unfold zlen; simpl; lia. Qed.

Lemma unpicked_ext P Q p k : (forall i, p <= i < p + Z.of_nat k -> P i = Q i) -> unpicked P p k = unpicked Q p k.
Proof.
  revert p. induction k as [|k IH]; intros p H; [done|]. rewrite !unpicked_step, H by lia. rewrite (IH (p + 1)); [done|].
  intros i Hi. apply H. lia.
Qed.

Lemma unpicked_all P p k : (forall i, p <= i < p + Z.of_nat k -> P i = false) -> unpicked P p k = Z.of_nat k.
Proof.
  revert p. induction k as [|k IH]; intros p H; [done|]. rewrite unpicked_step, H, IH by (lia || (intros; apply H; lia)). lia.
Qed.

(** Marking pages takes the free ones among them from the count. *)
Lemma mark_range_count k t n P p t' :
  marked t n P -> 0 <= p -> alloc_mark k t p = Ret t' -> free_count t' = free_count t - unpicked P p k.
Proof.
  revert t P p. induction k as [|k IH]; intros t P p Hm Hp H; [injection H as <-; change (unpicked P p 0) with 0; lia|]. cbn [alloc_mark] in H.
  destruct (zget t p) as [pg|] eqn:Hg; [|done]. cbn [or_fault mbind outcome_bind] in H.
  pose proof (zget_range _ _ _ Hg) as Hr. pose proof (proj1 Hm) as Hl. pose proof (proj2 Hm p ltac:(lia)) as Hg2. rewrite Hg in Hg2. injection Hg2 as ->.
  unfold set_refCount in H. cbn [slab] in H.
  rewrite (IH _ _ (p + 1) (marked_step _ _ _ p Hm ltac:(lia)) ltac:(lia) H), (free_count_zset _ _ _ _ Hg), unpicked_step.
  rewrite (unpicked_ext _ P) by (intros i Hi; destruct (Z.eqb_spec i p); [lia|by rewrite orb_false_r]).
  destruct (P p); cbn; lia.
Qed.

(** Claiming pages keeps the counter and the table together. *)
Lemma claim_range k ph n P p x :
  marked (MemPageStateTable ph) n P -> counted x ph -> 0 <= p ->
  (p + Z.of_nat k <= n -> exists ph', claim_pages k p ph = Ret ph' /\
     marked (MemPageStateTable ph') n (fun i => P i || range p (Z.of_nat k) i) /\ counted x ph' /\
     zones ph' = zones ph /\ MemPhysicalTotalPages ph' = MemPhysicalTotalPages ph).
Proof.
  revert ph P p. induction k as [|k IH]; intros ph P p Hm Hc Hp Hk.
  - exists ph. split; [done|]. split; [|done]. eapply marked_ext; [|exact Hm]. intros i _. unfold range. bool_cases; by rewrite ?orb_false_r || lia.
  - cbn [claim_pages]. pose proof (proj2 Hm p ltac:(lia)) as Hg. rewrite Hg. cbn [or_fault mbind outcome_bind Physical.refCount].
    match goal with |- context [claim_pages k (p + 1) ?a] => set (ph1 := a) end.
    assert (marked (MemPageStateTable ph1) n (fun i => P i || (i =? p)) /\ counted x ph1 /\ zones ph1 = zones ph /\
      MemPhysicalTotalPages ph1 = MemPhysicalTotalPages ph) as (Hm1 & Hc1 & Hz1 & Ht1).
    { unfold ph1. destruct (P p) eqn:HP; simpl; cbn [Z.eqb].
      - split; [|done]. eapply marked_ext; [|exact Hm]. intros i _. simpl. destruct (Z.eqb_spec i p) as [->|]; [by rewrite HP|by rewrite orb_false_r].
      - split; [apply marked_step; [done|lia]|]. split; [|done].
        apply (accounting_step ph p (mkMemPage 0 0) 1); [done|by rewrite Hg, ?HP|lia|]. simpl. f_equal. lia. }
    destruct (IH ph1 _ (p + 1) Hm1 Hc1) as (ph' & E & Hm' & Hc' & Hz' & Ht'); [lia|lia|].
    exists ph'. split; [done|]. split; [|split; [done|split; congruence]]. eapply marked_ext; [|exact Hm'].
    intros i _. unfold range. simpl. destruct (P i); [done|]. bool_cases; done || lia.
Qed.

(** ** Regions of the map that are not memory *)

Definition region_start (e : multiboot_mmap_entry) : Z := me_addr e / 4096.
Definition region_end (e : multiboot_mmap_entry) : Z := (me_addr e + me_len e + 4095) / 4096.

(** The regions that the code allocates: those that start below the end of
    the memory that it knows. *)
Definition reserved_entry (total : Z) (e : multiboot_mmap_entry) : bool :=
  negb (available e) && (me_addr e <? total * 4096) && below_4g e.
Definition in_reserved (total i : Z) (e : multiboot_mmap_entry) : bool :=
  reserved_entry total e && (region_start e <=? i) && (i <? region_end e).
Definition reserved (total : Z) (es : list multiboot_mmap_entry) (i : Z) : bool := existsb (in_reserved total i) es.

(** They end there too. *)
Definition regions_fit (total : Z) (es : list multiboot_mmap_entry) : Prop :=
  Forall (fun e => reserved_entry total e = true -> region_end e <= total) es.

(** No page is in two of them. *)
Definition regions_disjoint (total : Z) (es : list multiboot_mmap_entry) : Prop :=
  ForallOrdPairs (fun e e' => forall i, in_reserved total i e = true -> in_reserved total i e' = false) es.

Lemma reserve_region_marks total e ph P :
  entry_ok e -> 0 <= total <= 0x40000 -> (reserved_entry total e = true -> region_end e <= total) ->
  marked (MemPageStateTable ph) total P ->
  exists ph', reserve_region (total * 4096) e ph = Ret (inl ph') /\
    marked (MemPageStateTable ph') total (fun i => P i || in_reserved total i e) /\ zones ph' = zones ph /\
    (is_u32 (MemPhysicalTotalPages ph) -> is_u32 (MemPhysicalTotalPages ph')) /\
    ((forall i, in_reserved total i e = true -> P i = false) ->
     MemPhysicalTotalPages ph = free_count (MemPageStateTable ph) ->
     MemPhysicalTotalPages ph' = free_count (MemPageStateTable ph')).
Proof.
  intros (H1 & H2 & H3 & _) Ht Hfit Hm. unfold reserve_region, in_reserved. fold (reserved_entry total e).
  destruct (reserved_entry total e) eqn:Hr.
  2: { exists ph. split; [done|]. split; [|done]. eapply marked_ext; [|exact Hm]. intros i _. simpl. by rewrite orb_false_r. }
  specialize (Hfit eq_refl). assert (me_addr e < total * 4096) as Hlt by (unfold reserved_entry in Hr; bool_hyps; rewrite ?andb_false_r in Hr; lia || done).
  replace (me_len e + me_addr e + 4095) with (me_addr e + me_len e + 4095) by lia.
  assert (u64 (me_addr e + me_len e + 4095) = me_addr e + me_len e + 4095) as -> by (unfold u64; apply Z.mod_small; lia).
  unfold region_start, region_end in *.
  assert (s32 (me_addr e / 4096) = me_addr e / 4096) as -> by u32_lia.
  assert (s32 ((me_addr e + me_len e + 4095) / 4096) = (me_addr e + me_len e + 4095) / 4096) as -> by u32_lia.
  set (a := me_addr e / 4096) in *. set (b := (me_addr e + me_len e + 4095) / 4096) in *.
  assert (0 <= a <= b) as Hab by (unfold a, b; zlia). cbv zeta. cbn [set_total MemPageStateTable].
  destruct (proj1 (mark_range (Z.to_nat (b - a)) _ total P a Hm ltac:(lia)) ltac:(lia)) as (t' & E & Hm'). rewrite E. cbn [mbind outcome_bind].
  eexists. split; [reflexivity|]. cbn [set_table set_total MemPageStateTable zones MemPhysicalTotalPages].
  rewrite Z2Nat.id in Hm' by lia. split; [|split; [done|split; [intros _; u32_lia|]]].
  { eapply marked_ext; [|exact Hm']. intros i _. unfold range. replace (a + (b - a)) with b by lia. by rewrite andb_true_l. }
  intros Hdis Htot. rewrite Htot, (mark_range_count _ _ _ _ a _ Hm ltac:(lia) E).
  rewrite unpicked_all.
  - pose proof (free_count_bound (MemPageStateTable ph)) as Hb0. pose proof (free_count_bound t') as Hb.
    rewrite (mark_range_count _ _ _ _ a _ Hm ltac:(lia) E) in Hb. rewrite unpicked_all in Hb.
    + destruct Hm as [Hl _]. rewrite Hl in Hb0. rewrite Z2Nat.id in * by lia.
      assert (s32 (b - a) = b - a) as -> by u32_lia. unfold u32. apply Z.mod_small. lia.
    + intros i Hi. apply Hdis. bool_cases; done || lia.
  - intros i Hi. apply Hdis. bool_cases; done || lia.
Qed.

Lemma reserve_run total es ph P :
  Forall entry_ok es -> 0 <= total <= 0x40000 -> regions_fit total es -> marked (MemPageStateTable ph) total P ->
  exists ph', run (reserve_region (total * 4096)) es ph = Ret (inl ph') /\
    marked (MemPageStateTable ph') total (fun i => P i || reserved total es i) /\ zones ph' = zones ph /\
    (is_u32 (MemPhysicalTotalPages ph) -> is_u32 (MemPhysicalTotalPages ph')) /\
    (regions_disjoint total es -> (forall i, reserved total es i = true -> P i = false) ->
     MemPhysicalTotalPages ph = free_count (MemPageStateTable ph) ->
     MemPhysicalTotalPages ph' = free_count (MemPageStateTable ph')).
Proof.
  intros Hes Ht Hfit. revert ph P Hfit. induction Hes as [|e es He Hes IH]; intros ph P Hfit Hm.
  - exists ph. split; [done|]. split; [|done]. eapply marked_ext; [|exact Hm]. intros i _. simpl. by rewrite orb_false_r.
  - apply Forall_cons_1 in Hfit as [Hf Hfit]. cbn [run].
    destruct (reserve_region_marks total e ph P He Ht Hf Hm) as (ph1 & E & Hm1 & Hz1 & Hu1 & Ht1). rewrite E. cbn [mbind outcome_bind].
    destruct (IH ph1 _ Hfit Hm1) as (ph' & E' & Hm' & Hz' & Hu' & Ht'). exists ph'. split; [done|]. split; [|split; [congruence|split; [tauto|]]].
    + eapply marked_ext; [|exact Hm']. intros i _. unfold reserved. simpl. by rewrite orb_assoc.
    + intros Hdis HP Htot. inversion Hdis as [|? ? Hd1 Hd2]; subst. apply Ht'; [done| |].
      * intros i Hi. unfold reserved in *. apply orb_false_iff. split; [apply HP; simpl; by rewrite Hi, orb_true_r|].
        destruct (in_reserved total i e) eqn:Hie; [|done]. apply existsb_exists in Hi as (e' & Hin & Hi').
        rewrite List.Forall_forall in Hd1. by rewrite (Hd1 e' Hin i Hie) in Hi'.
      * apply Ht1; [|done]. intros i Hi. apply HP. unfold reserved. simpl. by rewrite Hi.
Qed.

(** ** Boot modules *)

Definition in_module (i : Z) (m : multiboot_mod_list) : bool :=
  (mod_start m / 4096 <=? i) && (i <? (mod_end m + 4095) / 4096).

Lemma claim_modules_run mods n ph P x :
  Forall (fun m => module_ok m /\ (mod_end m + 4095) / 4096 <= n) mods ->
  marked (MemPageStateTable ph) n P -> counted x ph ->
  exists ph', run claim_module mods ph = Ret (inl ph') /\
    marked (MemPageStateTable ph') n (fun i => P i || existsb (in_module i) mods) /\ counted x ph' /\
    zones ph' = zones ph /\ MemPhysicalTotalPages ph' = MemPhysicalTotalPages ph.
Proof.
  intros Hms. revert ph P. induction Hms as [|m mods [[H0 H1] H2] Hms IH]; intros ph P Hm Hc.
  - exists ph. split; [done|]. split; [|done]. eapply marked_ext; [|exact Hm]. intros i _. simpl. by rewrite orb_false_r.
  - cbn [run]. set (a := mod_start m / 4096). set (b := (mod_end m + 4095) / 4096) in *. assert (0 <= a <= b) as Hab by (unfold a, b; zlia).
    assert (claim_module m ph = (ph' ← claim_pages (Z.to_nat (b - a)) a ph; Ret (inl ph'))) as ->.
    { unfold claim_module. by assert (u32 (mod_end m + 4095) = mod_end m + 4095) as -> by u32_lia. }
    destruct (claim_range (Z.to_nat (b - a)) ph n P a x Hm Hc) as (ph1 & E & Hm1 & Hc1 & Hz1 & Ht1); [lia|lia|].
    rewrite E. cbn [mbind outcome_bind]. destruct (IH ph1 _ Hm1 Hc1) as (ph' & E' & Hm' & Hc' & Hz' & Ht').
    exists ph'. split; [done|]. split; [|split; [done|split; congruence]]. eapply marked_ext; [|exact Hm'].
    intros i _. simpl. rewrite orb_assoc. do 2 f_equal. unfold range, in_module. fold a b. rewrite Z2Nat.id by lia. f_equal. f_equal. lia.
Qed.

(** ** The table as a whole *)

Lemma marked_counted t n P ph :
  marked t n P -> n < 4294967296 -> is_u32 (MemPhysicalFreePages ph) -> MemPageStateTable ph = t ->
  counted (MemPhysicalFreePages ph - free_count t) ph.
Proof.
  intros [Hl Hm] Hn Hu Ht. split; [|split].
  - rewrite Ht. replace (free_count t + _) with (MemPhysicalFreePages ph) by lia. u32_lia.
  - rewrite Ht. lia.
  - rewrite Ht. apply Forall_lookup. intros i pg Hi. assert (zget t (Z.of_nat i) = Some pg) as Hg.
    { unfold zget. destruct (Z.ltb_spec (Z.of_nat i) 0); [lia|]. by rewrite Nat2Z.id. }
    pose proof (zget_range _ _ _ Hg). rewrite Hm in Hg by lia. injection Hg as <-. simpl. destruct (P _); lia.
Qed.

Lemma fresh_free (n : nat) : free_count (replicate n (mkMemPage 0 0)) = Z.of_nat n.
Proof.
  unfold free_count, zlen. f_equal. induction n as [|n IH]; [done|]. simpl. by rewrite IH.
Qed.

(** The zones of a machine with [total] pages. *)
Definition boot_zones (total : Z) : list MemPhysicalZone :=
  if total <=? 0x1000 then [mkZone 0 0 total; mkZone 0 0 0; mkZone 0 0 0]
  else if total <=? 0x30000 then [mkZone 0 0 0x1000; mkZone 0x1000 0x1000 total; mkZone 0 0 0]
  else [mkZone 0 0 0x1000; mkZone 0x1000 0x1000 0x30000; mkZone 0x30000 0x30000 total].

Lemma init_zones ph total :
  zlen (MemPageStateTable ph) = total -> zones ph = replicate 3 (mkZone 0 0 0) ->
  exists ph', MemPhysicalInit ph = Ret ph' /\ MemPageStateTable ph' = MemPageStateTable ph /\
    MemPhysicalFreePages ph' = MemPhysicalFreePages ph /\ MemPhysicalTotalPages ph' = MemPhysicalTotalPages ph /\
    phys_wf ph' /\ low_zones ph' /\ zones ph' = boot_zones total.
Proof.
  intros Hl Hz. pose proof (zlen_nonneg (MemPageStateTable ph)) as Hnn. unfold MemPhysicalInit. rewrite Hz, Hl. cbn [replicate].
  change (zget _ MEM_KERNEL) with (Some (mkZone 0 0 0)). change (zget _ MEM_HIGHMEM) with (Some (mkZone 0 0 0)).
  cbn [or_fault mbind outcome_bind]. eexists. split; [reflexivity|]. split; [done|]. split; [done|]. split; [done|].
  change MEM_KFIXED_MAX_PAGE with 0x30000 in *. split; [split|split; [|done]].
  - cbn [zones set_zones]. destruct (Z.leb_spec total 0x1000); [|destruct (Z.leb_spec total 0x30000)]; done.
  - cbn [zones set_zones MemPageStateTable]. destruct (Z.leb_spec total 0x1000); [|destruct (Z.leb_spec total 0x30000)];
      repeat (apply Forall_cons; split); try done; unfold zone_wf; simpl; lia.
  - intros k z Hk Hg. change MEM_KFIXED_MAX_PAGE with 0x30000. cbn [zones set_zones] in Hg. unfold zget in Hg. destruct (Z.ltb_spec k 0); [done|].
    assert (k = 0 \/ k = 1) as [-> | ->] by (unfold MEM_KERNEL in Hk; lia);
      destruct (Z.leb_spec total 0x1000); [|destruct (Z.leb_spec total 0x30000)| |destruct (Z.leb_spec total 0x30000)]; injection Hg as <-; simpl; lia.
Qed.

Section Table.
Context (mem : Z -> option Z) (fuel : nat) (lay : layout) (info : multiboot_info).
Context (es : list multiboot_mmap_entry) (mods : list multiboot_mod_list).
Context (Htab : boot_tables mem fuel info es mods) (Hlay : layout_ok lay).
Context (Hes : Forall entry_ok es).
Context (total t e : Z) (Htotal : end_page lay <= total <= 0x40000) (Ht : 0 <= t <= e) (Hend : e <= total).
Context (Hfit : regions_fit total es).
Context (Hmods : Forall (fun m => module_ok m /\ (mod_end m + 4095) / 4096 <= total) mods).

(** The pages that are not free. *)
Definition taken (i : Z) : bool :=
  reserved total es i || range 0xA0 (end_page lay - 0xA0) i || existsb (in_module i) mods || range t (e - t) i.

(** Pages of the kernel and the ROM area that the map does not reserve. *)
Definition kernel_pages : Z := unpicked (reserved total es) 0xA0 (Z.to_nat (end_page lay - 0xA0)).

Lemma fill_state_table_result :
  exists ph, fill_state_table mem fuel lay info total t e = Ret ph /\
    marked (MemPageStateTable ph) total taken /\ phys_ok ph /\ zones ph = boot_zones total /\
    (regions_disjoint total es -> counted kernel_pages ph).
Proof.
  destruct Htab as [Hmap Hmod Hf]. destruct Hlay as (_ & _ & Hend'). unfold fill_state_table. cbv zeta.
  assert (u32 (total * 4096) = total * 4096 \/ total = 0x100000) as [-> | ?] by u32_lia; [|lia].
  unfold MMAP_FOREACH at 1. rewrite (foreach_walk _ _ _ es) by (done || lia).
  assert (marked (MemPageStateTable (fresh_table total)) total (fun _ => false)) as Hm0.
  { split; [simpl; rewrite zlen_replicate; lia|]. intros i Hi. simpl. apply zget_replicate. lia. }
  destruct (reserve_run total es (fresh_table total) _ Hes ltac:(lia) Hfit Hm0) as (ph1 & E1 & Hm1 & Hz1 & Hu1 & Ht1).
  rewrite E1. cbn [mbind outcome_bind unloop]. cbn [orb] in Hm1.
  destruct (proj1 (mark_range (Z.to_nat (end_page lay - 0xA0)) _ total _ 0xA0 Hm1 ltac:(lia)) ltac:(lia)) as (t2 & E2 & Hm2).
  pose proof (mark_range_count _ _ _ _ 0xA0 _ Hm1 ltac:(lia) E2) as Hcount. rewrite E2. cbn [mbind outcome_bind].
  set (ph2 := set_free (set_table ph1 t2) (MemPhysicalTotalPages ph1)). rewrite Z2Nat.id in Hm2 by lia.
  assert (is_u32 (MemPhysicalTotalPages ph1)) as Hu by (apply Hu1; simpl; unfold is_u32; lia).
  pose proof (marked_counted t2 total _ ph2 Hm2 ltac:(lia) Hu eq_refl) as Hc2.
  set (x := MemPhysicalFreePages ph2 - free_count t2) in *.
  assert (exists ph3, (if truth (Z.land (mb_flags info) MULTIBOOT_INFO_MODS) then
    r ← MODULES_FOREACH mem fuel (mods_addr info) (mods_count info) claim_module ph2; Ret (unloop r) else Ret ph2) = Ret ph3 /\
    marked (MemPageStateTable ph3) total (fun i => reserved total es i || range 0xA0 (end_page lay - 0xA0) i || existsb (in_module i) mods) /\
    counted x ph3 /\ zones ph3 = zones ph2) as (ph3 & E3 & Hm3 & Hc3 & Hz3).
  { revert Hmod. destruct (truth (Z.land (mb_flags info) MULTIBOOT_INFO_MODS)).
    - intros Hw. unfold MODULES_FOREACH. rewrite (foreach_walk _ _ _ mods) by (done || lia).
      destruct (claim_modules_run mods total ph2 _ x Hmods Hm2 Hc2) as (ph3 & -> & ? & ? & ? & _). exists ph3. done.
    - intros ->. exists ph2. split; [done|]. split; [|done]. eapply marked_ext; [|exact Hm2]. intros i _. simpl. by rewrite orb_false_r. }
  rewrite E3. cbn [mbind outcome_bind].
  destruct (claim_range (Z.to_nat (e - t)) ph3 total _ t x Hm3 Hc3) as (ph4 & E4 & Hm4 & Hc4 & Hz4 & _); [lia|lia|].
  rewrite E4. cbn [mbind outcome_bind]. rewrite Z2Nat.id in Hm4 by lia.
  destruct (init_zones ph4 total) as (ph & E5 & Htb & Hfr & Htt & Hwf & Hlow & Hzn); [by destruct Hm4|rewrite Hz4, Hz3; exact Hz1|].
  assert (counted x ph) as Hcx by (unfold counted in *; rewrite Htb, Hfr; exact Hc4).
  exists ph. split; [done|]. split; [by rewrite Htb|]. split; [split; [done|split; [by exists x|done]]|]. split; [done|].
  intros Hdis. replace kernel_pages with x; [done|]. unfold x, kernel_pages. cbn [ph2 set_free MemPhysicalFreePages].
  change (fun i => reserved total es i) with (reserved total es) in Hcount.
  rewrite Hcount, <- Ht1; [lia|done|done|]. simpl. rewrite fresh_free. lia.
Qed.
End Table.

(** ** MemManagerInit on a processor with 4 MB pages *)

Section Manager.
Context (mem : Z -> option Z) (fuel : nat) (lay : layout) (info : multiboot_info).
Context (es : list multiboot_mmap_entry) (mods : list multiboot_mod_list).
Context (garbage features bootInfo total t : Z) (st : boot).

(** What the boot loader and the linker provide, and where the page state
    table was placed. *)
Record boot_ok : Prop := mkBootOk {
  bo_tables : boot_tables mem fuel info es mods;
  bo_layout : layout_ok lay;
  bo_entries : Forall entry_ok es;
  bo_modules : Forall (fun m => module_ok m /\ (mod_end m + 4095) / 4096 <= total) mods;
  bo_info : load_info mem bootInfo = Ret info;
  bo_pse : truth (Z.land features (Z.shiftl 1 3)) = true;
  bo_location : GetPhysicalTableLocation mem fuel (end_page lay) garbage info false = Ret (total, t);
  bo_directory : zlen (MemKernelPageDirectory st) = 1024
}.

(** The page after the page state table. *)
Definition table_end : Z := t + (total * 8 + 4095) / 4096.

Context (Hok : boot_ok).

Lemma location_bounds : 0 <= t /\ 0 <= total < 0x100000 \/ ~ is_u32 garbage.
Proof.
  destruct (decide (0 <= garbage < 4294967296)) as [Hg|]; [left|by right]. destruct Hok as [H1 (_ & _ & H2) H3 H4 _ _ H5 _].
  destruct (location_result mem fuel (end_page lay) info es mods H1 H3) with (garbage := garbage) (withPageTables := false) as (r & _ & E & Hp & _);
    [eapply Forall_impl; [exact H4|by intros m []]|lia|].
  cbv zeta in *. rewrite E in H5. destruct r as [|t']; [done|]. injection H5 as <- <-.
  destruct (Hp t' eq_refl) as (e & He & _ & Hb & Hpos & _). pose proof (proj1 (Forall_forall _ _) H3 e He) as Hok'.
  destruct (first_position_spec e Hok' Hb) as [Hf _]. destruct Hok' as [Hz0 _]. assert (0 <= padding (me_addr e)) by (unfold padding; zlia).
  destruct (highest_covers es garbage Hg) as (_ & Hu & _). unfold is_u32 in Hu. split; [lia|]. split; [apply Z.div_pos; lia|apply Z.div_lt_upper_bound; lia].
Qed.

(** The directory after the first phases. *)
Definition boot_directory (d : list Z) : Prop :=
  zlen d = 1024 /\ forall i, zget d i =
    if (0x300 <=? i) && (i <? 0x300 + blocks total) then Some (huge_entry (i - 0x300))
    else if (0x3C0 <=? i) && (i <? 0x400) then Some (virtual_entry lay (i - 0x3C0))
    else zget (MemKernelPageDirectory st) i.

Lemma manager_directory : 0 <= total <= 0x40000 ->
  exists d, boot_directory d /\
    MemManagerInit mem fuel lay garbage features bootInfo st =
      (ph ← fill_state_table mem fuel lay info total t table_end;
       Ret (mkBoot d (MemVirtualPageTables st) (set_physical (memory st) ph)
              (u32 (directory_addr lay - KERNEL_VIRTUAL_BASE) / 4096))).
Proof.
  intros Htot. destruct Hok as [_ Hlay _ _ Hi Hp Hl Hd]. unfold MemManagerInit. cbv zeta. rewrite Hi. cbn [mbind outcome_bind].
  rewrite Hp. cbn [negb]. rewrite Hl. cbn [mbind outcome_bind].
  destruct (virtual_directory_fills lay 64 0 (mkBoot (MemKernelPageDirectory st) (MemVirtualPageTables st) (memory st)
    (u32 (directory_addr lay - KERNEL_VIRTUAL_BASE) / 4096))) as (d1 & E1 & Hd1 & Hg1); [done|lia|lia|].
  rewrite E1. cbn [mbind outcome_bind].
  match goal with |- context [map_memory lay true total t ?s] =>
    destruct (map_memory_huge lay total t s) as (e & d2 & E2 & Hd2 & He & Hg2); [done|lia|] end.
  rewrite E2. cbn [mbind outcome_bind]. exists d2. split; [split; [done|]|by rewrite He].
  intros i. rewrite Hg2. cbn [MemKernelPageDirectory set_dir]. rewrite Hg1. cbn [MemKernelPageDirectory]. done.
Qed.

Context (Hgarbage : is_u32 garbage) (Htotal : end_page lay <= total <= 0x40000) (Hend : table_end <= total).
Context (Hfit : regions_fit total es).

Lemma manager_result :
  exists st', MemManagerInit mem fuel lay garbage features bootInfo st = Ret st' /\
    boot_directory (MemKernelPageDirectory st') /\ MemVirtualPageTables st' = MemVirtualPageTables st /\
    marked (MemPageStateTable (physical (memory st'))) total (taken lay es mods total t table_end) /\
    phys_ok (physical (memory st')) /\ zones (physical (memory st')) = boot_zones total /\
    (regions_disjoint total es -> counted (kernel_pages lay es total) (physical (memory st'))).
Proof.
  destruct location_bounds as [[Ht Htot]|]; [|done]. destruct manager_directory as (d & Hd & E); [lia|]. rewrite E.
  destruct Hok as [Htab Hlay Hes Hmods _ _ _ _].
  destruct (fill_state_table_result mem fuel lay info es mods Htab Hlay Hes total t table_end Htotal) as (ph & E' & Hm & Hph & Hz & Hc);
    [unfold table_end; zlia|done|done|done|].
  rewrite E'. eexists. split; [reflexivity|]. done.
Qed.

(** C24: on a processor with 4 MB pages, with at most 1 GB of memory, a memory map
    and a module list that can be read where the code reads them, and the table
    and the regions of the map inside that memory, after MemManagerInit the page
    state table has an entry for every page; the reserved regions of the map,
    the ROM area and the kernel, the boot modules and the table itself are in
    use, every other page is free, and the allocator's zones are those of that
    much memory, with their search pointers at their starts. *)
Theorem MemManagerInit_page_table :
  exists st', MemManagerInit mem fuel lay garbage features bootInfo st = Ret st' /\
    marked (MemPageStateTable (physical (memory st'))) total (taken lay es mods total t table_end) /\
    phys_ok (physical (memory st')) /\ zones (physical (memory st')) = boot_zones total.
Proof. destruct manager_result as (st' & ? & _ & _ & ? & ? & ? & _). eauto 10. Qed.

(** The counter of free pages starts with the pages of the kernel and the ROM
    area in it: they are marked as used after the total was counted. *)
Theorem MemManagerInit_overcounts :
  regions_disjoint total es ->
  exists st', MemManagerInit mem fuel lay garbage features bootInfo st = Ret st' /\
    MemPhysicalFreePages (physical (memory st')) =
      u32 (free_count (MemPageStateTable (physical (memory st'))) + kernel_pages lay es total).
Proof. intros Hd. destruct manager_result as (st' & ? & _ & _ & _ & _ & _ & Hc). destruct (Hc Hd) as [? _]. eauto. Qed.

(** C25: on a processor with 4 MB pages, with up to 768 MB of memory and boot
    tables as for the page state table, every page of memory is at its place in
    the direct map, and an address of the virtual region goes through an entry of the first of
    its page tables: the directory entries of all 64 are the same. *)
Theorem MemManagerInit_address_space :
  total <= MEM_KFIXED_MAX_PAGE ->
  exists st', MemManagerInit mem fuel lay garbage features bootInfo st = Ret st' /\
    (forall page, 0 <= page < total -> kwalk lay st' (MemPhys2Virt page) = Some page) /\
    forall a, MEM_KFIXED_MAX <= a < 4294967296 ->
      kwalk lay st' a =
        e ← zget (MemVirtualPageTables st) ((a / 4096) mod 1024);
        if truth (present e) then Some (pageID_raw e) else None.
Proof.
  change MEM_KFIXED_MAX_PAGE with 0x30000. intros Hsmall. pose proof (bo_layout Hok) as Hlay. destruct manager_result as (st' & E & [Hdl Hd] & Hv & _). exists st'. split; [done|].
  assert (blocks total <= 0xC0) as Hb by (unfold blocks; zlia). split.
  - intros page Hp. unfold MemPhys2Virt. change PAGE_SIZE with 4096.
    assert (u32 (KERNEL_VIRTUAL_BASE + page * 4096) = KERNEL_VIRTUAL_BASE + page * 4096) as -> by (unfold KERNEL_VIRTUAL_BASE; u32_lia).
    apply kwalk_huge; [lia|]. rewrite Hd. unfold blocks in *. bool_cases; try (exfalso; zlia). do 2 f_equal. lia.
  - intros a Ha. rewrite <- Hv. apply kwalk_virtual; [done..|]. rewrite Hd. unfold MEM_KFIXED_MAX, blocks in *. bool_cases; try (exfalso; zlia). done.
Qed.

(** So the processor sees what MemMapPage maps in the first 4 MB of the virtual
    region, and nothing that it maps above: not the temporary pages, and not
    the page that the page fault handler copies through. *)
Theorem MemMapPage_after_boot :
  total <= MEM_KFIXED_MAX_PAGE -> zlen (MemVirtualPageTables st) = MemVirtualPageTables_len ->
  exists st', MemManagerInit mem fuel lay garbage features bootInfo st = Ret st' /\
    MemVirtualPageTables st' = MemVirtualPageTables st /\
    forall address page tables, mappable address -> 0 <= page < 0x100000 ->
      MemMapPage address page (MemVirtualPageTables st') = Ret (true, tables) ->
      kwalk lay (set_vpts st' tables) address =
        (if vpt_index address <? 1024 then Some page else kwalk lay st' address) /\
      (1024 <= vpt_index address -> forall a, MEM_KFIXED_MAX <= a < 4294967296 ->
         kwalk lay (set_vpts st' tables) a = kwalk lay st' a).
Proof.
  change MEM_KFIXED_MAX_PAGE with 0x30000. intros Hsmall Hlen. pose proof (bo_layout Hok) as Hlay.
  destruct manager_result as (st' & E & [Hdl Hd] & Hv & _). exists st'. split; [done|]. split; [done|]. intros address page tables Hm Hp Hmap.
  assert (forall s a, MemKernelPageDirectory s = MemKernelPageDirectory st' -> MEM_KFIXED_MAX <= a < 4294967296 ->
    kwalk lay s a = e ← zget (MemVirtualPageTables s) ((a / 4096) mod 1024); if truth (present e) then Some (pageID_raw e) else None) as Hk.
  { intros s a Hs Ha. apply kwalk_virtual; [done..|]. rewrite Hs, Hd. unfold MEM_KFIXED_MAX, blocks in *. bool_cases; try (exfalso; zlia). done. }
  destruct (mappable_index address Hm) as (Hcond & Hidx & Hr). unfold MemMapPage in Hmap. rewrite Hcond, Hidx in Hmap.
  rewrite Hv in Hmap. destruct (zget (MemVirtualPageTables st) (vpt_index address)) as [e0|] eqn:He0; [|done]. cbn [or_fault mbind outcome_bind] in Hmap.
  destruct (truth (present e0)); [done|]. injection Hmap as <-. fold (kernel_entry page).
  assert (forall a, MEM_KFIXED_MAX <= a < 4294967296 -> 0 <= (a / 4096) mod 1024 < 1024) as Hmod by (intros; zlia).
  assert (1024 <= vpt_index address -> forall a, MEM_KFIXED_MAX <= a < 4294967296 ->
    kwalk lay (set_vpts st' (zset (MemVirtualPageTables st) (vpt_index address) (kernel_entry page))) a = kwalk lay st' a) as Hfar.
  { intros Hbig a Ha. rewrite !Hk by done. cbn [MemVirtualPageTables set_vpts]. rewrite zget_zset_ne by (specialize (Hmod a Ha); lia). by rewrite Hv. }
  assert (MEM_KFIXED_MAX <= address < 4294967296) as Ha by (unfold mappable in Hm; lia).
  split; [|exact Hfar]. destruct (Z.ltb_spec (vpt_index address) 1024) as [Hlt|]; [|by apply Hfar].
  rewrite Hk by done. cbn [MemVirtualPageTables set_vpts].
  assert ((address / 4096) mod 1024 = vpt_index address) as -> by (unfold vpt_index, MEM_KFIXED_MAX in *; zlia).
  rewrite zget_zset_eq by lia. cbn [mbind option_bind]. rewrite kernel_entry_present. simpl. f_equal.
  unfold kernel_entry. fields. rewrite Z.land_ones by lia. apply Z.mod_small. exact Hp.
Qed.

(** Between 768 MB and 1 GB the direct map overwrites the directory entries of
    the virtual region. *)
Theorem MemManagerInit_overwrites :
  MEM_KFIXED_MAX_PAGE < total ->
  exists st', MemManagerInit mem fuel lay garbage features bootInfo st = Ret st' /\
    forall a, MEM_KFIXED_MAX <= a < KERNEL_VIRTUAL_BASE + total * 4096 -> 
      kwalk lay st' a = Some ((a - KERNEL_VIRTUAL_BASE) / 4096).
Proof.
  change MEM_KFIXED_MAX_PAGE with 0x30000. intros Hbig. destruct manager_result as (st' & E & [Hdl Hd] & Hv & _). exists st'. split; [done|].
  intros a Ha. unfold MEM_KFIXED_MAX, KERNEL_VIRTUAL_BASE in *. set (page := (a - 0xC0000000) / 4096).
  assert (0 <= page < total) as Hp by (unfold page; zlia).
  assert (kwalk lay st' a = kwalk lay st' (0xC0000000 + page * 4096)) as ->.
  { unfold kwalk. replace ((0xC0000000 + page * 4096) / 0x400000) with (a / 0x400000) by (unfold page; zlia).
    by replace ((0xC0000000 + page * 4096) / 4096) with (a / 4096) by (unfold page; zlia). }
  apply kwalk_huge; [lia|]. rewrite Hd. unfold blocks. bool_cases; try (exfalso; zlia); try (do 2 f_equal; lia).
Qed.
End Manager.

(** Above 1 GB it writes beyond the end of the directory. *)
Theorem MemManagerInit_overruns mem fuel lay info es mods garbage features bootInfo total t st :
  boot_ok mem fuel lay info es mods garbage features bootInfo total t st -> is_u32 garbage ->
  0x40000 < total -> MemManagerInit mem fuel lay garbage features bootInfo st = Fault.
Proof.
  intros Hok Hg Hbig. destruct (location_bounds _ _ _ _ _ _ _ _ _ _ _ _ Hok) as [[Ht Htot]|]; [|done].
  destruct Hok as [_ Hlay _ _ Hi Hp Hl Hd]. unfold MemManagerInit. cbv zeta. rewrite Hi. cbn [mbind outcome_bind].
  rewrite Hp. cbn [negb]. rewrite Hl. cbn [mbind outcome_bind].
  destruct (virtual_directory_fills lay 64 0 (mkBoot (MemKernelPageDirectory st) (MemVirtualPageTables st) (memory st)
    (u32 (directory_addr lay - KERNEL_VIRTUAL_BASE) / 4096))) as (d1 & E1 & Hd1 & _); [done|lia|lia|].
  rewrite E1. cbn [mbind outcome_bind]. unfold map_memory. cbv zeta.
  assert (u32 (total + 1023) / 1024 = blocks total) as -> by (unfold blocks; u32_lia).
  rewrite map_huge_overruns; [done|done|lia|]. unfold blocks. destruct (Z.ltb_spec 0x3C0 ((total + 1023) / 1024)); zlia.
Qed.

(** ** Without 4 MB pages *)

Section SmallPages.
Context (lay : layout) (Hlay : layout_ok lay).
(** The page after the page state table, where the page table goes. *)
Context (F : Z) (HF : 0 <= F < 0x100000) (Hother : F < tables_page lay \/ tables_page lay + 64 <= F).

(** The state that the loop works on. *)
Record small_ready (st : boot) : Prop := mkSmallReady {
  sr_directory : zlen (MemKernelPageDirectory st) = 1024;
  sr_window : zget (MemKernelPageDirectory st) 0x3C0 = Some (virtual_entry lay 0);
  sr_tables : zlen (MemVirtualPageTables st) = MemVirtualPageTables_len;
  sr_entry : exists e, zget (MemVirtualPageTables st) 0 = Some e /\ present e = 1
}.

Lemma window_frame st e j :
  zget (MemKernelPageDirectory st) 0x3C0 = Some (virtual_entry lay 0) -> zget (MemVirtualPageTables st) 0 = Some e ->
  present e = 1 -> 0 <= j < 1024 -> kwalk lay st (MEM_KFIXED_MAX + 4 * j) = Some (pageID_raw e).
Proof.
  intros Hd He Hp Hj. assert ((MEM_KFIXED_MAX + 4 * j) / 0x400000 = 0x3C0) as Hi by (unfold MEM_KFIXED_MAX; zlia).
  rewrite kwalk_virtual; [|done|unfold MEM_KFIXED_MAX; lia|by rewrite Hi].
  assert (((MEM_KFIXED_MAX + 4 * j) / 4096) mod 1024 = 0) as -> by (unfold MEM_KFIXED_MAX; zlia).
  rewrite He. simpl. by rewrite Hp.
Qed.

Lemma fill_table_fills n k j st e :
  zget (MemKernelPageDirectory st) 0x3C0 = Some (virtual_entry lay 0) -> zget (MemVirtualPageTables st) 0 = Some e ->
  present e = 1 -> pageID_raw e = F -> 0 <= j -> j + Z.of_nat n <= 1024 ->
  exists m, fill_table lay n k j st = Ret (set_memory st m) /\
    forall i, 0 <= i < 1024 -> word m (F * WORDS + i) =
      if (j <=? i) && (i <? j + Z.of_nat n) then kernel_entry (k * 0x400 + i) else word (memory st) (F * WORDS + i).
Proof.
  revert j st. induction n as [|n IH]; intros j st Hd He Hp Hf Hj Hn.
  - exists (memory st). split; [by destruct st|]. intros i Hi. bool_cases; done || lia.
  - cbn [fill_table]. rewrite (window_frame st e) by (done || lia). cbn [or_fault mbind outcome_bind]. rewrite Hf.
    destruct (IH (j + 1) (set_memory st (upd (memory st) (F * WORDS + j) (kernel_entry (k * 0x400 + j))))) as (m & E & Hm); [done..|lia|lia|].
    exists m. unfold kernel_entry in E at 1. rewrite E. split; [done|]. intros i Hi. rewrite Hm by done. cbn [memory set_memory].
    rewrite word_upd. destruct (Z.eqb_spec (F * WORDS + j) (F * WORDS + i)); bool_cases; try lia; try done. by replace i with j by lia.
Qed.

(** The directory entry of every block. *)
Definition small_entry : Z := set_pageID (set_writable (set_present 0 1) 1) F.

(** The size of a table as a variable, so that nothing computes with it. *)
Lemma map_small_step N n k st : N = 1024%nat ->
  map_small lay F (S n) k st =
    (e ← or_fault (zget (MemVirtualPageTables st) 0);
     st2 ← fill_table lay N k 0 (set_vpts st (zset (MemVirtualPageTables st) 0 (set_pageID e F)));
     d ← put (MemKernelPageDirectory st2) (0x300 + k) small_entry;
     map_small lay F n (k + 1) (set_dir st2 d)).
Proof. intros ->. reflexivity. Qed.

(** One turn of the loop. *)
Lemma small_turn n k st : small_ready st -> 0 <= k < 0xC0 ->
  exists st2, map_small lay F (S n) k st = map_small lay F n (k + 1) st2 /\ small_ready st2 /\
    (forall i, zget (MemKernelPageDirectory st2) i = if i =? 0x300 + k then Some small_entry else zget (MemKernelPageDirectory st) i) /\
    forall i, 0 <= i < 1024 -> word (memory st2) (F * WORDS + i) = kernel_entry (k * 0x400 + i).
Proof.
  intros [Hd Hw Ht (e & He & Hp)] Hk. assert (exists N, N = 1024%nat) as [N HN] by eauto. rewrite (map_small_step N), He by done. cbn [or_fault mbind outcome_bind].
  assert (zget (zset (MemVirtualPageTables st) 0 (set_pageID e F)) 0 = Some (set_pageID e F)) as He1
    by (apply zget_zset_eq; rewrite Ht; unfold MemVirtualPageTables_len; lia).
  assert (present (set_pageID e F) = 1) as Hp1 by (unfold present, set_pageID; rewrite field_set_other by lia; exact Hp).
  assert (pageID_raw (set_pageID e F) = F) as Hf1.
  { unfold pageID_raw, set_pageID. rewrite field_set_same, Z.land_ones by lia. apply Z.mod_small. exact HF. }
  destruct (fill_table_fills N k 0 (set_vpts st (zset (MemVirtualPageTables st) 0 (set_pageID e F))) (set_pageID e F) Hw He1 Hp1 Hf1)
    as (m & E & Hm); [lia|lia|]. rewrite E. clear E. cbn [mbind outcome_bind set_memory set_vpts MemKernelPageDirectory].
  rewrite put_ok by lia. cbn [mbind outcome_bind]. eexists. split; [reflexivity|].
  cbn [set_dir MemKernelPageDirectory MemVirtualPageTables memory]. split; [|split].
  - apply mkSmallReady; cbn [set_dir set_memory set_vpts MemKernelPageDirectory MemVirtualPageTables].
    + by rewrite zlen_zset.
    + rewrite zget_zset_ne by lia. exact Hw.
    + by rewrite zlen_zset.
    + eexists. split; [exact He1|done].
  - intros i. cbn [set_dir set_memory set_vpts MemKernelPageDirectory]. rewrite zget_zset, Hd. clear Hm. destruct (Z.eqb_spec (0x300 + k) i) as [<-|]; bool_cases; done || lia.
  - intros i Hi. cbn [set_dir set_memory memory]. rewrite Hm by done. destruct (Z.leb_spec 0 i); [|lia]. destruct (Z.ltb_spec i (0 + Z.of_nat N)); [|lia]. done.
Qed.

Lemma map_small_maps n k st :
  small_ready st -> 0 <= k -> k + Z.of_nat n <= 0xC0 ->
  exists st', map_small lay F n k st = Ret st' /\ small_ready st' /\
    (forall i, zget (MemKernelPageDirectory st') i =
       if (0x300 + k <=? i) && (i <? 0x300 + k + Z.of_nat n) then Some small_entry else zget (MemKernelPageDirectory st) i) /\
    (n <> 0%nat -> forall i, 0 <= i < 1024 ->
       word (memory st') (F * WORDS + i) = kernel_entry ((k + Z.of_nat n - 1) * 0x400 + i)).
Proof.
  revert k st. induction n as [|n IH]; intros k st Hr Hk Hn.
  - exists st. split; [done|]. split; [done|]. split; [|done]. intros i. bool_cases; done || lia.
  - destruct (small_turn n k st Hr) as (st2 & -> & Hr2 & Hg2 & Hm2); [lia|].
    destruct (IH (k + 1) st2 Hr2) as (st' & E' & Hr' & Hd' & Hm'); [lia|lia|]. exists st'. split; [done|]. split; [done|]. split.
    + intros i. rewrite Hd', Hg2. bool_cases; done || lia.
    + intros _ i Hi. destruct n as [|n'].
      * cbn [map_small] in E'. injection E' as <-. rewrite Hm2 by done. f_equal. lia.
      * rewrite (Hm' ltac:(done) i Hi). f_equal. lia.
Qed.

(** All blocks share the one page table that the code fills again for each of
    them: with more than 4 MB, every block of the direct map shows the frames
    of the last one. *)
Theorem map_memory_small_pages total t st :
  F = t + (total * 8 + 4095) / 4096 -> 0 < total <= MEM_KFIXED_MAX_PAGE -> 0 <= t ->
  zlen (MemKernelPageDirectory st) = 1024 -> zget (MemKernelPageDirectory st) 0x3C0 = Some (virtual_entry lay 0) ->
  zlen (MemVirtualPageTables st) = MemVirtualPageTables_len ->
  exists e st', map_memory lay false total t st = Ret (e, st') /\
    forall page, 0 <= page < total ->
      kwalk lay st' (KERNEL_VIRTUAL_BASE + page * 4096) = Some ((blocks total - 1) * 1024 + page mod 1024).
Proof.
  change MEM_KFIXED_MAX_PAGE with 0x30000. intros HFt Htot Ht Hd Hw Hv. unfold map_memory. cbv zeta.
  assert (u32 (total + 1023) / 1024 = blocks total) as -> by (unfold blocks; u32_lia).
  assert (0 < blocks total <= 0xC0) as Hb by (unfold blocks; zlia). destruct (Z.ltb_spec 0x3C0 (blocks total)); [lia|].
  replace (t + u32 (u32 (total * SIZEOF_MemPage) + 4095) / 4096) with F by (rewrite HFt; unfold SIZEOF_MemPage; u32_lia).
  rewrite put_ok by (rewrite Hv; unfold MemVirtualPageTables_len; lia). cbn [mbind outcome_bind].
  match goal with |- context [map_small lay F _ 0 ?s] => destruct (map_small_maps (Z.to_nat (blocks total)) 0 s) as (st1 & E & [Hd1 Hw1 Hv1 _] & Hg & Hm) end.
  { split; simpl; rewrite ?zlen_zset; try done. eexists. split; [apply zget_zset_eq; rewrite Hv; unfold MemVirtualPageTables_len; lia|done]. }
  { lia. } { lia. }
  rewrite E. cbn [mbind outcome_bind]. rewrite put_ok by (rewrite Hv1; unfold MemVirtualPageTables_len; lia). cbn [mbind outcome_bind].
  eexists _, _. split; [reflexivity|]. intros page Hp. unfold kwalk, KERNEL_VIRTUAL_BASE. cbn [MemKernelPageDirectory set_vpts].
  replace ((0xC0000000 + page * 4096) / 0x400000) with (0x300 + page / 1024) by zlia. rewrite Hg.
  destruct (Z.leb_spec (0x300 + 0) (0x300 + page / 1024)); [|zlia].
  destruct (Z.ltb_spec (0x300 + page / 1024) (0x300 + 0 + Z.of_nat (Z.to_nat (blocks total)))); [|unfold blocks in *; zlia]. cbn [andb mbind option_bind].
  assert (present small_entry = 1 /\ hugePage small_entry = 0 /\ pageID_raw small_entry = F) as (-> & -> & ->).
  { unfold small_entry. split_and!; fields; [done|done|]. rewrite Z.land_ones by lia. apply Z.mod_small. exact HF. }
  cbn [truth Z.eqb negb].
  assert (array_page (tables_addr lay) = tables_page lay) as ->.
  { rewrite <- (array_page_tables lay 0) by (done || lia). f_equal. lia. }
  destruct (Z.leb_spec 0 (F - tables_page lay)), (Z.ltb_spec (F - tables_page lay) 64); try lia; cbn [andb].
  all: replace (((0xC0000000 + page * 4096) / 4096) mod 1024) with (page mod 1024) by zlia.
  all: cbn [memory set_vpts mbind option_bind]; rewrite Hm by (lia || zlia); rewrite kernel_entry_present; cbn [truth Z.eqb negb]; f_equal.
  all: unfold kernel_entry; fields; rewrite Z.land_ones by lia; change (2 ^ 20) with 1048576; rewrite Z.mod_small by zlia; lia.
Qed.
End SmallPages.
