(* ===== verification/BootMachine.v ===== *)
(** * A small machine that boots

    A boot loader's tables in memory for a machine with a given amount of
    memory; the properties of InitSpec.v and BootSpec.v at this machine. *)
From S2P Require Import Prelude Physical PageMap PageFault Region UserPage MemInit InitSpec BootSpec.

(** 636 KB of low memory, a reserved ROM, and memory from 1 MB to [size]. *)
Definition m_map (size : Z) : list multiboot_mmap_entry :=
  [mkEntry 20 0 0x9F000 1; mkEntry 20 0xF0000 0x10000 2; mkEntry 20 0x100000 (size - 0x100000) 1].

(** The information structure at 0x1000, the map after it. *)
Definition m_bytes (size : Z) : list Z :=
  encode 4 0x40 ++ replicate 40 0 ++ encode 4 72 ++ encode 4 0x1040 ++ replicate 12 0 ++
  concat (map encode_mmap (m_map size)).
Definition m_mem (size a : Z) : option Z := zget (m_bytes size) (a - 0xC0001000).
Definition m_info : multiboot_info := mkInfo 0x40 0 0 72 0x1040.
Definition m_layout : layout := mkLayout 0xC0150000 0xC0160000 0x180 0x200.
Definition m_start : boot :=
  mkBoot (replicate 1024 0) (replicate (Z.to_nat MemVirtualPageTables_len) 0) (mkPages (mkPhys [] [] 0 0) ∅) 0.

Lemma m_tables_len : zlen (MemVirtualPageTables m_start) = MemVirtualPageTables_len.
Proof. vm_compute. reflexivity. Qed.

Lemma m_tables_empty i : 0 <= i < MemVirtualPageTables_len -> zget (MemVirtualPageTables m_start) i = Some 0.
Proof. intros H. cbn [m_start MemVirtualPageTables]. apply zget_replicate. rewrite Z2Nat.id; [exact H|]. unfold MemVirtualPageTables_len. lia. Qed.

Lemma m_layout_ok : layout_ok m_layout.
Proof. unfold layout_ok, m_layout, KERNEL_VIRTUAL_BASE, MEM_KFIXED_MAX. simpl. split; [lia|]. split; [reflexivity|lia]. Qed.

Lemma m_entries size : 0x200000 <= size <= 0x60000000 -> Forall entry_ok (m_map size).
Proof. intros H. repeat (apply Forall_cons; split); try done; unfold entry_ok; simpl; lia. Qed.

(** Machines of 4 MB, 832 MB and 1.25 GB. *)
Definition machine_sizes : list Z := [0x400000; 0x34000000; 0x50000000].

Lemma m_ok size : size ∈ machine_sizes ->
  boot_ok (m_mem size) 100 m_layout m_info (m_map size) [] 0 8 0xC0001000 (size / 4096) 0x200 m_start.
Proof.
  intros Hs. assert (0x200000 <= size <= 0x60000000) as Hb by (repeat (apply elem_of_cons in Hs as [->|Hs]; [lia|]); by apply not_elem_of_nil in Hs).
  split; [split|..].
  - repeat (apply elem_of_cons in Hs as [->|Hs]; [vm_compute; repeat split; congruence|]). by apply not_elem_of_nil in Hs.
  - reflexivity.
  - simpl. lia.
  - exact m_layout_ok.
  - by apply m_entries.
  - done.
  - repeat (apply elem_of_cons in Hs as [->|Hs]; [vm_compute; reflexivity|]). by apply not_elem_of_nil in Hs.
  - reflexivity.
  - repeat (apply elem_of_cons in Hs as [->|Hs]; [vm_compute; reflexivity|]). by apply not_elem_of_nil in Hs.
  - reflexivity.
Qed.

Lemma m_fit total size : 0x100 <= total -> regions_fit total (m_map size).
Proof.
  intros H. unfold regions_fit. repeat (apply Forall_cons; split); [| | |done]; intros Hr; [done|exact H|done].
Qed.

Lemma m_small : 0x400000 ∈ machine_sizes.
Proof. by left. Qed.

Lemma m_tables : boot_tables (m_mem 0x400000) 100 m_info (m_map 0x400000) [].
Proof. exact (bo_tables _ _ _ _ _ _ _ _ _ _ _ _ (m_ok _ m_small)). Qed.

(** ** The search *)

Lemma m_holds size : 0x200000 <= size -> size ∈ machine_sizes ->
  holds (m_mem size) (0x1040 + 0xC0000000) (concat (map encode_mmap (m_map size))).
Proof.
  intros _ _. assert (m_bytes size = (encode 4 0x40 ++ replicate 40 0 ++ encode 4 72 ++ encode 4 0x1040 ++ replicate 12 0) ++
    concat (map encode_mmap (m_map size))) as Hb by (unfold m_bytes; by rewrite <- !app_assoc).
  intros i b Hi. pose proof (zget_range _ _ _ Hi) as Hr. change (zlen _) with 72 in Hr. unfold m_mem. rewrite Hb, zget_app.
  change (zlen (encode 4 0x40 ++ _)) with 64. assert (u32 (0x1040 + 0xC0000000 + i) = 0xC0001040 + i) as -> by u32_lia.
  destruct (Z.ltb_spec (0xC0001040 + i - 0xC0001000) 64); [lia|]. rewrite <- Hi. f_equal. lia.
Qed.

Lemma MMAP_FOREACH_entries_witness :
  MMAP_FOREACH (R := Empty_set) (m_mem 0x400000) 100 0x1040 72 (fun e h => Ret (inl (raise_highest e h))) 0 = Ret (inl 0x400000).
Proof.
  refine (eq_trans (MMAP_FOREACH_entries (m_mem 0x400000) 100 (m_map 0x400000) _ 0x1040 0 _ _ _ _ _) _).
  - repeat (apply Forall_cons; split); [..|done]; unfold entry_fits; simpl; lia.
  - apply m_holds; [lia|exact m_small].
  - lia.
  - vm_compute. reflexivity.
  - simpl. lia.
  - vm_compute. reflexivity.
Defined.

Lemma GetPhysicalTableLocation_finds_witness :
  GetPhysicalTableLocation (m_mem 0x400000) 100 0x200 0 m_info false = Ret (0x400, 0x200) /\
  forall z, z ∈ reserved_zones 0x200 [] -> z.2 <= 0x200000 \/ 0x202000 <= z.1.
Proof.
  assert (GetPhysicalTableLocation (m_mem 0x400000) 100 0x200 0 m_info false = Ret (0x400, 0x200)) as E by (vm_compute; reflexivity).
  split; [exact E|].
  destruct (GetPhysicalTableLocation_finds (m_mem 0x400000) 100 0x200 m_info (m_map 0x400000) [] m_tables) with
    (garbage := 0) (withPageTables := false) (numPages := 0x400) (tablePage := 0x200) as (_ & _ & _ & Hz).
  - apply m_entries. lia.
  - apply Forall_nil. exact I.
  - lia.
  - unfold is_u32. lia.
  - exact E.
  - exact Hz.
Defined.

Lemma GetPhysicalTableLocation_returns_witness :
  exists tablePage, GetPhysicalTableLocation (m_mem 0x400000) 100 0x200 0 m_info false = Ret (0x400, tablePage).
Proof.
  apply (GetPhysicalTableLocation_returns (m_mem 0x400000) 100 0x200 m_info (m_map 0x400000) [] m_tables) with (garbage := 0) (withPageTables := false).
  - apply m_entries. lia.
  - apply Forall_nil. exact I.
  - lia.
  - exists (mkEntry 20 0x100000 0x300000 1). split; [right; right; left|]. split; [reflexivity|]. split; [reflexivity|].
    exists 0x300000. split; [vm_compute; discriminate|]. split; [vm_compute; reflexivity|]. split; [vm_compute; discriminate|].
    intros z Hz. repeat (apply elem_of_cons in Hz as [->|Hz]; [simpl; lia|]). by apply not_elem_of_nil in Hz.
Defined.

Lemma GetPhysicalTableLocation_modules_witness :
  GetPhysicalTableLocation (m_mem 0x400000) 100 0x200 0 (mkInfo 0x48 1 0x2000 72 0x1040) false <> Ret (0x400, 0x200).
Proof.
  apply GetPhysicalTableLocation_modules.
  - intros a Ha. unfold m_mem, zget, KERNEL_VIRTUAL_BASE in *. destruct (Z.ltb_spec (a - 0xC0001000) 0); [reflexivity|lia].
  - reflexivity.
  - simpl. lia.
  - simpl. lia.
  - simpl. unfold KERNEL_VIRTUAL_BASE. lia.
Defined.

(** A region that does not start at a page boundary: 2 KB before it and after
    it are missing, and both are added to its end. *)
Theorem table_beyond_region :
  let e := mkEntry 20 0x100800 0x301000 1 in
  first_position e = 0x101000 /\ end_position e (first_position e) = 0x402800 /\
  me_addr e + me_len e = 0x401800 /\
  bounds_loop (m_mem 0x400000) 100 0x400 100 m_info (table_length 0x401 false) 0x402800 0x101000 = Ret (Some 0x400000) /\
  0x401800 < 0x400000 + table_length 0x401 false.
Proof. cbv zeta. split_and!; vm_compute; reflexivity. Qed.

(** ** Booting *)

Lemma MemManagerInit_page_table_witness :
  exists st, MemManagerInit (m_mem 0x400000) 100 m_layout 0 8 0xC0001000 m_start = Ret st /\
    zget (MemPageStateTable (physical (memory st))) 0x201 = Some (mkMemPage 1 0) /\
    zget (MemPageStateTable (physical (memory st))) 0x300 = Some (mkMemPage 0 0).
Proof.
  destruct (MemManagerInit_page_table _ _ _ _ _ _ _ _ _ _ _ _ (m_ok _ m_small)) as (st & E & Hm & _).
  - unfold is_u32. lia.
  - vm_compute. intuition discriminate.
  - vm_compute. discriminate.
  - apply m_fit. vm_compute. discriminate.
  - exists st. split; [exact E|]. destruct Hm as [_ Hm]. split; (etransitivity; [apply Hm; vm_compute; intuition discriminate|vm_compute; reflexivity]).
Defined.

Lemma m_disjoint total size : regions_disjoint total (m_map size).
Proof.
  repeat constructor; intros i Hi; unfold in_reserved, reserved_entry, available in *; simpl in *; done.
Qed.

Lemma MemManagerInit_overcounts_witness :
  exists st, MemManagerInit (m_mem 0x400000) 100 m_layout 0 8 0xC0001000 m_start = Ret st /\
    MemPhysicalFreePages (physical (memory st)) = u32 (free_count (MemPageStateTable (physical (memory st))) + 336).
Proof.
  apply (MemManagerInit_overcounts _ _ _ _ _ _ _ _ _ _ _ _ (m_ok _ m_small)).
  - unfold is_u32. lia.
  - vm_compute. intuition discriminate.
  - vm_compute. discriminate.
  - apply m_fit. vm_compute. discriminate.
  - apply m_disjoint.
Defined.

Lemma MemManagerInit_address_space_witness :
  exists st, MemManagerInit (m_mem 0x400000) 100 m_layout 0 8 0xC0001000 m_start = Ret st /\
    kwalk m_layout st (MemPhys2Virt 0x3FF) = Some 0x3FF.
Proof.
  destruct (MemManagerInit_address_space _ _ _ _ _ _ _ _ _ _ _ _ (m_ok _ m_small)) as (st & E & Hd & _).
  - unfold is_u32. lia.
  - vm_compute. intuition discriminate.
  - vm_compute. discriminate.
  - apply m_fit. vm_compute. discriminate.
  - vm_compute. discriminate.
  - exists st. split; [exact E|]. apply Hd. vm_compute. intuition discriminate.
Defined.

Lemma MemMapPage_after_boot_witness :
  exists st t', MemManagerInit (m_mem 0x400000) 100 m_layout 0 8 0xC0001000 m_start = Ret st /\
    MemMapPage MEM_TEMPPAGE3 5 (MemVirtualPageTables st) = Ret (true, t') /\
    kwalk m_layout (set_vpts st t') MEM_TEMPPAGE3 = kwalk m_layout st MEM_TEMPPAGE3.
Proof.
  destruct (MemMapPage_after_boot _ _ _ _ _ _ _ _ _ _ _ _ (m_ok _ m_small)) as (st & E & Hv & Hmap).
  - unfold is_u32. lia.
  - vm_compute. intuition discriminate.
  - vm_compute. discriminate.
  - apply m_fit. vm_compute. discriminate.
  - vm_compute. discriminate.
  - exact m_tables_len.
  - assert (exists t', MemMapPage MEM_TEMPPAGE3 5 (MemVirtualPageTables st) = Ret (true, t')) as [t' E'].
    { destruct (MemMapPage_roundtrip (MemVirtualPageTables st) MEM_TEMPPAGE3 5 5) as (t' & H & _);
        [rewrite Hv; exact m_tables_len|vm_compute; intuition discriminate|lia| |by exists t'].
      rewrite Hv. apply m_tables_empty. vm_compute. intuition discriminate. }
    exists st, t'. split; [exact E|]. split; [exact E'|].
    destruct (Hmap MEM_TEMPPAGE3 5 t') as [_ H]; [vm_compute; intuition discriminate|lia|exact E'|].
    apply H; vm_compute; intuition discriminate.
Defined.

Lemma MemManagerInit_overwrites_witness :
  exists st, MemManagerInit (m_mem 0x34000000) 100 m_layout 0 8 0xC0001000 m_start = Ret st /\
    kwalk m_layout st MEM_KFIXED_MAX = Some 0x30000.
Proof.
  destruct (MemManagerInit_overwrites _ _ _ _ _ _ _ _ _ _ _ _ (m_ok 0x34000000 ltac:(right; left))) as (st & E & Hk).
  - unfold is_u32. lia.
  - vm_compute. intuition discriminate.
  - vm_compute. discriminate.
  - apply m_fit. vm_compute. discriminate.
  - vm_compute. reflexivity.
  - exists st. split; [exact E|]. exact (Hk MEM_KFIXED_MAX ltac:(vm_compute; intuition discriminate)).
Defined.

Lemma MemManagerInit_overruns_witness :
  MemManagerInit (m_mem 0x50000000) 100 m_layout 0 8 0xC0001000 m_start = Fault.
Proof.
  apply (MemManagerInit_overruns _ _ _ _ _ _ _ _ _ _ _ _ (m_ok 0x50000000 ltac:(right; right; left))).
  - unfold is_u32. lia.
  - vm_compute. reflexivity.
Defined.

(** Without 4 MB pages, on 8 MB: the first page of memory shows the third
    megabyte of the second block. *)
Definition m_directory : list Z := zset (replicate 1024 0) 0x3C0 (virtual_entry m_layout 0).
Definition m_small_start : boot := mkBoot m_directory (MemVirtualPageTables m_start) (memory m_start) 0.

Lemma map_memory_small_pages_witness :
  exists e st, map_memory m_layout false 0x800 0x200 m_small_start = Ret (e, st) /\
    kwalk m_layout st KERNEL_VIRTUAL_BASE = Some 0x400.
Proof.
  destruct (map_memory_small_pages m_layout m_layout_ok 0x204 ltac:(lia) ltac:(vm_compute; by right) 0x800 0x200 m_small_start) as (e & st & E & Hk).
  - vm_compute. reflexivity.
  - vm_compute. intuition discriminate.
  - lia.
  - reflexivity.
  - vm_compute. reflexivity.
  - exact m_tables_len.
  - exists e, st. split; [exact E|]. exact (Hk 0 ltac:(lia)).
Defined.
