(* ===== verification/Sched.v ===== *)
(** * Threads, scheduling and FPU ownership
      (include/process.h, src/process/scheduler.c, src/cpu.c)

    The kernel switches stacks in assembly; here a switch is the change of
    [ProcCurrThread], and a function that blocks is split at the switch into
    the part before it and the value it returns when its thread runs again.
    Queues of intrusive list entries are lists of thread addresses. *)
From S2P Require Import Prelude Physical Region.

(** ** Data *)

Inductive ProcThreadState := PTS_STARTUP | PTS_RUNNING | PTS_INTR | PTS_UNINTR | PTS_ZOMBIE.

Inductive ProcWaitMode := PWM_NONE | PWM_PROCESS | PWM_THREAD.

#[export] Instance ProcThreadState_eq_dec : EqDecision ProcThreadState.
Proof. solve_decision. Defined.

#[export] Instance ProcWaitMode_eq_dec : EqDecision ProcWaitMode.
Proof. solve_decision. Defined.

Record ProcSigaction := mkSigaction { sa_handler : Z; sa_mask : Z; sa_flags : Z }.

(** [fpuState] is the saved register image, None for a NULL pointer. *)
Record ProcThread := mkThread {
  tid : Z; parent : Z; exitCode : Z; state : ProcThreadState; waitMode : ProcWaitMode;
  schedInterrupted : Z; kStackBase : Z; tlsDescriptor : Z;
  fpuState : option (list Z); fpuSwitches : Z; sigPending : Z; sigBlocked : Z;
  tname : Z; kStackPointer : Z
}.

(** [children] and [threads] are the process's two lists; [memContext] is 0 for NULL.
    Names and contexts are pointers. *)
Record ProcProcess := mkProcess {
  pid : Z; pparent : Z; children : list Z; threads : list Z; zombie : bool; pexitCode : Z;
  memContext : Z; sigHandlers : list ProcSigaction; psigPending : Z; alarmPtr : Z;
  pname : Z; ioContext : Z
}.

Definition set_state (t : ProcThread) (x : ProcThreadState) : ProcThread :=
  mkThread (tid t) (parent t) (exitCode t) x (waitMode t) (schedInterrupted t) (kStackBase t)
    (tlsDescriptor t) (fpuState t) (fpuSwitches t) (sigPending t) (sigBlocked t) (tname t) (kStackPointer t).
Definition set_interrupted (t : ProcThread) (x : Z) : ProcThread :=
  mkThread (tid t) (parent t) (exitCode t) (state t) (waitMode t) x (kStackBase t)
    (tlsDescriptor t) (fpuState t) (fpuSwitches t) (sigPending t) (sigBlocked t) (tname t) (kStackPointer t).
Definition set_fpu (t : ProcThread) (x : option (list Z)) (n : Z) : ProcThread :=
  mkThread (tid t) (parent t) (exitCode t) (state t) (waitMode t) (schedInterrupted t) (kStackBase t)
    (tlsDescriptor t) x n (sigPending t) (sigBlocked t) (tname t) (kStackPointer t).
Definition set_sigPending (t : ProcThread) (x : Z) : ProcThread :=
  mkThread (tid t) (parent t) (exitCode t) (state t) (waitMode t) (schedInterrupted t) (kStackBase t)
    (tlsDescriptor t) (fpuState t) (fpuSwitches t) x (sigBlocked t) (tname t) (kStackPointer t).
Definition set_sigBlocked (t : ProcThread) (x : Z) : ProcThread :=
  mkThread (tid t) (parent t) (exitCode t) (state t) (waitMode t) (schedInterrupted t) (kStackBase t)
    (tlsDescriptor t) (fpuState t) (fpuSwitches t) (sigPending t) x (tname t) (kStackPointer t).

(** What is fixed after boot: the kernel process, the idle thread, the reaper
    and the processor's features. *)
Class Machine := {
  ProcKernelProcess : Z; ProcIdleThread : Z; reaperThread : Z; MemKernelContext : Z;
  CpuFeaturesEDX : Z; CpuHasDenormalsAreZero : bool
}.

(** The TS bit of CR0, the thread whose values the FPU registers hold (0 for
    NULL) and the registers themselves. *)
Record Fpu := mkFpu { cr0_ts : bool; fpuCurrent : Z; fpuRegs : list Z }.

Record sys := mkSys {
  thread : gmap Z ProcThread; process : gmap Z ProcProcess; memContexts : gmap Z MemContext;
  threadQueue : list Z; ProcCurrThread : Z; ProcCurrProcess : Z;
  TssESP0 : Z; GdtTLS : Z; TimerQuantum : Z; MemCurrentContext : Z; cr3 : Z; fpu : Fpu
}.

Definition set_thread (s : sys) (m : gmap Z ProcThread) : sys :=
  mkSys m (process s) (memContexts s) (threadQueue s) (ProcCurrThread s) (ProcCurrProcess s)
    (TssESP0 s) (GdtTLS s) (TimerQuantum s) (MemCurrentContext s) (cr3 s) (fpu s).
Definition set_process (s : sys) (m : gmap Z ProcProcess) : sys :=
  mkSys (thread s) m (memContexts s) (threadQueue s) (ProcCurrThread s) (ProcCurrProcess s)
    (TssESP0 s) (GdtTLS s) (TimerQuantum s) (MemCurrentContext s) (cr3 s) (fpu s).
Definition set_queue (s : sys) (q : list Z) : sys :=
  mkSys (thread s) (process s) (memContexts s) q (ProcCurrThread s) (ProcCurrProcess s)
    (TssESP0 s) (GdtTLS s) (TimerQuantum s) (MemCurrentContext s) (cr3 s) (fpu s).
Definition set_current (s : sys) (t p : Z) : sys :=
  mkSys (thread s) (process s) (memContexts s) (threadQueue s) t p
    (TssESP0 s) (GdtTLS s) (TimerQuantum s) (MemCurrentContext s) (cr3 s) (fpu s).
Definition set_tss (s : sys) (esp0 : Z) : sys :=
  mkSys (thread s) (process s) (memContexts s) (threadQueue s) (ProcCurrThread s) (ProcCurrProcess s)
    esp0 (GdtTLS s) (TimerQuantum s) (MemCurrentContext s) (cr3 s) (fpu s).
Definition set_tls (s : sys) (d : Z) : sys :=
  mkSys (thread s) (process s) (memContexts s) (threadQueue s) (ProcCurrThread s) (ProcCurrProcess s)
    (TssESP0 s) d (TimerQuantum s) (MemCurrentContext s) (cr3 s) (fpu s).
Definition set_quantum (s : sys) (q : Z) : sys :=
  mkSys (thread s) (process s) (memContexts s) (threadQueue s) (ProcCurrThread s) (ProcCurrProcess s)
    (TssESP0 s) (GdtTLS s) q (MemCurrentContext s) (cr3 s) (fpu s).
Definition set_memory (s : sys) (ctx dir : Z) : sys :=
  mkSys (thread s) (process s) (memContexts s) (threadQueue s) (ProcCurrThread s) (ProcCurrProcess s)
    (TssESP0 s) (GdtTLS s) (TimerQuantum s) ctx dir (fpu s).
Definition set_fpu_unit (s : sys) (f : Fpu) : sys :=
  mkSys (thread s) (process s) (memContexts s) (threadQueue s) (ProcCurrThread s) (ProcCurrProcess s)
    (TssESP0 s) (GdtTLS s) (TimerQuantum s) (MemCurrentContext s) (cr3 s) f.

(** An update of the thread's fields; a wild thread pointer faults. *)
Definition upd_thread (t : Z) (f : ProcThread -> ProcThread) (s : sys) : outcome sys :=
  th ← or_fault (thread s !! t); Ret (set_thread s (<[t := f th]> (thread s))).

(** ** The FPU (cpu.c) *)

Section Kernel.
Context {K : Machine}.

Definition CpuHasFpu : bool := truth (Z.land CpuFeaturesEDX 1).
Definition CpuHasFxSave : bool := truth (Z.land CpuFeaturesEDX (Z.shiftl 1 24)).
Definition CpuHasSse : bool := CpuHasFxSave && truth (Z.land CpuFeaturesEDX (Z.shiftl 1 25)).

Definition CPU_EXTRA_FPU : Z := 0x6C.
Definition CPU_EXTRA_FXSAVE : Z := 0x200.
Definition CPU_FPU_SWITCH_THRESHOLD : Z := 10.
Definition FPU_INIT_CTRL : Z := 0x37F.
Definition MXCSR_INIT : Z := 0x1F80.

(** The 16-bit words of a fresh state block. *)
Definition fresh_fpu_state : list Z :=
  let w0 := replicate (Z.to_nat ((if CpuHasFxSave then CPU_EXTRA_FXSAVE else CPU_EXTRA_FPU) / 2)) 0 in
  let w1 := zset w0 0 FPU_INIT_CTRL in
  if CpuHasFxSave then
    let w2 := zset w1 12 MXCSR_INIT in
    if CpuHasDenormalsAreZero then zset w2 13 0xFFFF else w2
  else w1.

(** fxsave/fnsave of the registers into the state block of their owner. *)
Definition fpu_save (s : sys) : outcome sys :=
  if fpuCurrent (fpu s) =? 0 then Ret s
  else
    old ← or_fault (thread s !! fpuCurrent (fpu s));
    _ ← or_fault (fpuState old);
    Ret (set_thread s (<[fpuCurrent (fpu s) := set_fpu old (Some (fpuRegs (fpu s))) (fpuSwitches old)]> (thread s))).

Definition DoFpuSwitch (s : sys) : outcome sys :=
  s1 ← fpu_save s;
  cur ← or_fault (thread s1 !! ProcCurrThread s1);
  let image := default fresh_fpu_state (fpuState cur) in
  let s2 := set_thread s1 (<[ProcCurrThread s1 := set_fpu cur (Some image) (u8 (fpuSwitches cur + 1))]> (thread s1)) in
  Ret (set_fpu_unit s2 (mkFpu (cr0_ts (fpu s)) (ProcCurrThread s2) image)).

Definition set_ts (s : sys) (b : bool) : sys :=
  set_fpu_unit s (mkFpu b (fpuCurrent (fpu s)) (fpuRegs (fpu s))).

Definition CpuTaskSwitched (s : sys) : outcome sys :=
  if CpuHasFpu then
    let s1 := set_ts s false in
    if negb (ProcCurrThread s1 =? fpuCurrent (fpu s1)) then
      cur ← or_fault (thread s1 !! ProcCurrThread s1);
      if CPU_FPU_SWITCH_THRESHOLD <=? fpuSwitches cur then DoFpuSwitch s1
      else Ret (set_ts s1 true)
    else Ret s1
  else Ret s.

(** The result is true when the fault was handled, false when SIGFPE is to be
    sent to the current thread. *)
Definition CpuNoFpuException (cs : Z) (s : sys) : outcome (bool * sys) :=
  if cs =? 0x08 then Panic "CpuNoFpuException: NM FPU exception in kernel mode - the kernel cannot use FPU or SSE"
  else if CpuHasFpu && negb (ProcCurrThread s =? fpuCurrent (fpu s)) then
    s' ← DoFpuSwitch (set_ts s false); Ret (true, s')
  else Ret (false, s).

Definition CpuFreeFpuState (t : Z) (s : sys) : outcome sys :=
  let s1 := if t =? fpuCurrent (fpu s) then set_fpu_unit s (mkFpu (cr0_ts (fpu s)) 0 (fpuRegs (fpu s))) else s in
  th ← or_fault (thread s1 !! t);
  Ret (set_thread s1 (<[t := set_fpu th None (fpuSwitches th)]> (thread s1))).

(** ** Scheduling (scheduler.c) *)

Definition TIMER_INITIAL_QUANTUM : Z := 20.
Definition PROC_KSTACK_SIZE : Z := 0x1000.

Definition TimerResetQuantum (s : sys) : sys := set_quantum s TIMER_INITIAL_QUANTUM.
Definition TimerShouldPreempt (s : sys) : bool := TimerQuantum s =? 0.

(** MemContextSwitchTo (region.c); an invalid directory is only logged. *)
Definition MemContextSwitchTo (ctx : Z) (s : sys) : outcome sys :=
  c ← or_fault (memContexts s !! ctx);
  if physDirectory c =? INVALID_PAGE then Ret s
  else Ret (set_memory s ctx (u32 (u32 (physDirectory c) * 4096))).

(** The thread the scheduler takes next and the queue without it. *)
Definition next_thread (s : sys) : Z * list Z :=
  match threadQueue s with
  | [] => (ProcIdleThread, [])
  | t :: q => (t, q)
  end.

(** The preparations for running [newThread] in user mode. *)
Definition enter_user (nt : ProcThread) (s : sys) : outcome sys :=
  let s1 := set_tls (set_tss s (u32 (kStackBase nt + PROC_KSTACK_SIZE))) (tlsDescriptor nt) in
  s2 ← (if negb (parent nt =? ProcCurrProcess s1) then
          p ← or_fault (process s1 !! parent nt); MemContextSwitchTo (memContext p) s1
        else Ret s1);
  Ret (TimerResetQuantum s2).

Definition ProcDoSchedule (s : sys) : outcome sys :=
  let '(newThread, q) := next_thread s in
  let s1 := set_queue s q in
  if negb (ProcCurrThread s1 =? newThread) then
    nt ← or_fault (thread s1 !! newThread);
    s2 ← (if parent nt =? ProcKernelProcess then Ret (set_tss s1 0) else enter_user nt s1);
    CpuTaskSwitched (set_current s2 newThread (parent nt))
  else Ret s1.

Definition ProcYield (s : sys) : outcome sys :=
  s1 ← upd_thread (ProcCurrThread s) (fun t => set_interrupted t 0) s;
  match threadQueue s1 with
  | [] => Ret (TimerResetQuantum s1)
  | q => ProcDoSchedule (set_queue s1 (q ++ [ProcCurrThread s1]))
  end.

Definition ProcSignalIsPending (t : Z) (s : sys) : outcome bool :=
  th ← or_fault (thread s !! t);
  p ← or_fault (process s !! parent th);
  Ret (truth (Z.ldiff (Z.lor (sigPending th) (psigPending p)) (sigBlocked th))).

(** ProcYieldBlock up to the switch: [Some true] is returned at once when a
    signal is pending; [None] means the thread is blocked. *)
Definition ProcYieldBlock (interruptable : bool) (s : sys) : outcome (option bool * sys) :=
  pending ← (if interruptable then ProcSignalIsPending (ProcCurrThread s) s else Ret false);
  if (pending : bool) then Ret (Some true, s)
  else
    s1 ← upd_thread (ProcCurrThread s)
           (fun t => set_state (set_interrupted t 0) (if interruptable then PTS_INTR else PTS_UNINTR)) s;
    s2 ← ProcDoSchedule s1;
    Ret (None, s2).

(** What ProcYieldBlock returns when its thread runs again. *)
Definition ProcYieldBlock_return (s : sys) : outcome bool :=
  th ← or_fault (thread s !! ProcCurrThread s); Ret (schedInterrupted th =? 1).

(** thread->state = PTS_RUNNING; ListHeadAddLast(&thread->schedQueueEntry, &threadQueue); *)
Definition make_ready (t : Z) (th : ProcThread) (interrupted : Z) (s : sys) : sys :=
  set_queue (set_thread s (<[t := set_state (set_interrupted th interrupted) PTS_RUNNING]> (thread s)))
    (threadQueue s ++ [t]).

Definition ProcWakeUpSig (t : Z) (isSignal : bool) (s : sys) : outcome sys :=
  th ← or_fault (thread s !! t);
  match state th with
  | PTS_STARTUP => Ret (make_ready t th 0 s)
  | PTS_RUNNING =>
      Ret (if isSignal then s else set_thread s (<[t := set_interrupted th 0]> (thread s)))
  | PTS_INTR => Ret (make_ready t th (if isSignal then 1 else 0) s)
  | PTS_UNINTR => if isSignal then Ret s else Ret (make_ready t th 0 s)
  | PTS_ZOMBIE => Ret s
  end.

Definition ProcWakeUp (t : Z) (s : sys) : outcome sys := ProcWakeUpSig t false s.

(** The thread never runs again, so the Panic after the switch is not reached
    by it. *)
Definition ProcIntSelfExit (s : sys) : outcome sys :=
  s' ← ProcDoSchedule s;
  if ProcCurrThread s' =? ProcCurrThread s then Panic "ProcIntSelfExit: ProcDoSchedule() returned" else Ret s'.
End Kernel.

(** ** Invariants *)

Section Invariants.
Context {K : Machine}.

(** A thread without its FPU fields: what the FPU code never changes. *)
Definition core (th : ProcThread) : ProcThread := set_fpu th None 0.

Definition same_core (m m' : gmap Z ProcThread) : Prop := forall t, core <$> m' !! t = core <$> m !! t.

(** A user process with a usable address space. *)
Definition process_ok (s : sys) (p : Z) : Prop :=
  p = ProcKernelProcess \/
  exists pr c, process s !! p = Some pr /\ memContext pr <> 0 /\ memContexts s !! memContext pr = Some c /\
    physDirectory c <> INVALID_PAGE.

(** [ctx] is recorded as the current context and its directory is in CR3. *)
Definition context_loaded (s : sys) (ctx : Z) : Prop :=
  MemCurrentContext s = ctx /\
  exists c, memContexts s !! ctx = Some c /\ cr3 s = u32 (u32 (physDirectory c) * 4096).

(** CR3 holds the page directory of the process that runs, unless the kernel
    process runs (it uses whatever address space is loaded) or the process has
    given its address space up (it is ending). *)
Definition memory_ok (s : sys) : Prop :=
  ProcCurrProcess s <> ProcKernelProcess ->
  forall pr, process s !! ProcCurrProcess s = Some pr -> memContext pr <> 0 -> context_loaded s (memContext pr).

(** The owner of the FPU registers has a place to save them. *)
Definition fpu_ok (s : sys) : Prop :=
  fpuCurrent (fpu s) = 0 \/
  exists th img, thread s !! fpuCurrent (fpu s) = Some th /\ fpuState th = Some img.

(** What holds when the scheduler is entered: the queue holds each ready
    thread once, and the idle thread is in reserve. *)
Record queue_ok (s : sys) : Prop := {
  q_nodup : NoDup (threadQueue s);
  q_idle : ProcIdleThread ∉ threadQueue s;
  q_running : forall t, t ∈ threadQueue s -> exists th, thread s !! t = Some th /\ state th = PTS_RUNNING;
  q_idle_thread : exists th, thread s !! ProcIdleThread = Some th /\ state th = PTS_STARTUP /\ parent th = ProcKernelProcess;
  q_process : forall t th, thread s !! t = Some th -> state th <> PTS_ZOMBIE -> process_ok s (parent th);
  q_memory : memory_ok s;
  q_fpu : fpu_ok s
}.

(** Every thread that is ready is queued or is [t]. *)
Definition no_lost_threads (s : sys) (t : Z) : Prop :=
  forall u th, thread s !! u = Some th -> state th = PTS_RUNNING -> u ∈ threadQueue s \/ u = t.

(** What holds while a thread runs. *)
Record sched_inv (s : sys) : Prop := {
  i_queue : queue_ok s;
  i_current : exists th, thread s !! ProcCurrThread s = Some th /\ parent th = ProcCurrProcess s /\
                (state th = PTS_RUNNING \/ ProcCurrThread s = ProcIdleThread);
  i_not_queued : ProcCurrThread s ∉ threadQueue s;
  i_lost : no_lost_threads s (ProcCurrThread s)
}.

(** ** The FPU functions leave the rest alone *)

Lemma same_core_refl m : same_core m m.
Proof. done. Qed.

Lemma same_core_trans m1 m2 m3 : same_core m1 m2 -> same_core m2 m3 -> same_core m1 m3.
Proof. intros H1 H2 t. by rewrite H2, H1. Qed.

Lemma same_core_insert m t th x n : m !! t = Some th -> same_core m (<[t := set_fpu th x n]> m).
Proof.
  intros H u. destruct (decide (t = u)) as [<-|].
  - by rewrite lookup_insert_eq, H.
  - by rewrite lookup_insert_ne.
Qed.

Lemma same_core_lookup m m' t th :
  same_core m m' -> m !! t = Some th -> exists th', m' !! t = Some th' /\ core th' = core th.
Proof.
  intros H Ht. specialize (H t). rewrite Ht in H. simpl in H.
  destruct (m' !! t) as [th'|]; [|done]. exists th'. split; [done|]. by apply (inj Some).
Qed.

Lemma same_core_sym m m' : same_core m m' -> same_core m' m.
Proof. intros H t. by rewrite H. Qed.

Lemma core_fields th th' : core th' = core th ->
  state th' = state th /\ parent th' = parent th /\ schedInterrupted th' = schedInterrupted th /\
  sigPending th' = sigPending th /\ sigBlocked th' = sigBlocked th.
Proof. intros H. injection H. intros. by repeat split. Qed.

(** [s'] is [s] up to the FPU unit and the FPU fields of threads. *)
Definition fpu_only (s s' : sys) : Prop :=
  same_core (thread s) (thread s') /\ s' = set_fpu_unit (set_thread s (thread s')) (fpu s').

Lemma fpu_only_queue s s' : fpu_only s s' -> fpu_ok s' -> queue_ok s -> queue_ok s'.
Proof.
  intros [Hc Heq] Hf [Hnd Hi Hr (th & Hit & Hs & Hp) Hpr Hm _].
  rewrite Heq in *. split; simpl in *; try done.
  - intros t Ht. destruct (Hr t Ht) as (th0 & H1 & H2).
    destruct (same_core_lookup _ _ _ _ Hc H1) as (th' & ? & E). apply core_fields in E as (E & _).
    exists th'. by rewrite E.
  - destruct (same_core_lookup _ _ _ _ Hc Hit) as (th' & ? & E). apply core_fields in E as (E1 & E2 & _).
    exists th'. by rewrite E1, E2.
  - intros t th' Ht. apply same_core_sym in Hc.
    destruct (same_core_lookup _ _ _ _ Hc Ht) as (th0 & Ht0 & E). apply core_fields in E as (<- & <- & _).
    exact (Hpr t th0 Ht0).
Qed.

Lemma fpu_save_spec s : fpu_ok s -> exists s1, fpu_save s = Ret s1 /\ fpu_only s s1 /\ fpu s1 = fpu s.
Proof.
  unfold fpu_save, fpu_ok. intros Hf. destruct (Z.eqb_spec (fpuCurrent (fpu s)) 0) as [|Hne].
  - exists s. split_and!; [done| |done]. split; [done|]. by destruct s.
  - destruct Hf as [|(th & img & Ht & Hi)]; [done|]. rewrite Ht. simpl. rewrite Hi. simpl.
    eexists. split_and!; [done| |done]. split; [|by destruct s]. by apply same_core_insert.
Qed.

Lemma fpu_only_trans s1 s2 s3 : fpu_only s1 s2 -> fpu_only s2 s3 -> fpu_only s1 s3.
Proof.
  intros [H1 E1] [H2 E2]. split; [by eapply same_core_trans|]. rewrite E2, E1. done.
Qed.

Lemma fpu_only_ts s b : fpu_only s (set_ts s b).
Proof. split; [done|]. by destruct s. Qed.

Lemma DoFpuSwitch_spec s th :
  fpu_ok s -> thread s !! ProcCurrThread s = Some th ->
  exists s', DoFpuSwitch s = Ret s' /\ fpu_only s s' /\ fpu_ok s' /\ fpuCurrent (fpu s') = ProcCurrThread s.
Proof.
  intros Hf Ht. unfold DoFpuSwitch. destruct (fpu_save_spec s Hf) as (s1 & -> & Ho & Hu). simpl.
  destruct (same_core_lookup _ _ _ _ (proj1 Ho) Ht) as (th1 & Ht1 & _).
  assert (ProcCurrThread s1 = ProcCurrThread s) as Hcur by (destruct Ho as [_ ->]; done).
  rewrite Hcur, Ht1. simpl. eexists. split_and!; [done| |right|done].
  - eapply fpu_only_trans; [exact Ho|]. split; [|by destruct s1]. simpl. by apply same_core_insert.
  - simpl. rewrite lookup_insert_eq. by do 2 eexists.
Qed.

Lemma DoFpuSwitch_ts s s' : DoFpuSwitch s = Ret s' -> cr0_ts (fpu s') = cr0_ts (fpu s).
Proof.
  unfold DoFpuSwitch. intros H. destruct (fpu_save s) as [s1| | |]; simpl in H; [|done..].
  destruct (thread s1 !! ProcCurrThread s1); simpl in H; [|done]. by injection H as <-.
Qed.

Lemma CpuTaskSwitched_spec s th :
  fpu_ok s -> thread s !! ProcCurrThread s = Some th ->
  exists s', CpuTaskSwitched s = Ret s' /\ fpu_only s s' /\ fpu_ok s'.
Proof.
  intros Hf Ht. unfold CpuTaskSwitched. destruct CpuHasFpu; [|exists s; split_and!; [done| |done]; split; [done|by destruct s]].
  simpl. destruct (Z.eqb_spec (ProcCurrThread s) (fpuCurrent (fpu s))); simpl.
  { eexists. split_and!; [done|apply fpu_only_ts|done]. }
  rewrite Ht. simpl. destruct (_ <=? _).
  - destruct (DoFpuSwitch_spec (set_ts s false) th) as (s' & -> & Ho & Hf' & _); [done..|].
    exists s'. split_and!; [done| |done]. eapply fpu_only_trans; [apply fpu_only_ts|done].
  - eexists. split_and!; [done| |done]. eapply fpu_only_trans; apply fpu_only_ts.
Qed.

(** ** Switching threads *)

Lemma MemContextSwitchTo_spec s pr c :
  memContexts s !! memContext pr = Some c -> physDirectory c <> INVALID_PAGE ->
  MemContextSwitchTo (memContext pr) s = Ret (set_memory s (memContext pr) (u32 (u32 (physDirectory c) * 4096))).
Proof.
  intros H1 H2. unfold MemContextSwitchTo. rewrite H1. simpl. by destruct (Z.eqb_spec (physDirectory c) INVALID_PAGE).
Qed.

(** The loaded address space and the registers after [enter_user]. *)
Lemma enter_user_spec s nt :
  memory_ok s -> process_ok s (parent nt) -> parent nt <> ProcKernelProcess ->
  exists pr c, process s !! parent nt = Some pr /\ memContexts s !! memContext pr = Some c /\
    enter_user nt s = Ret (TimerResetQuantum
      (set_memory (set_tls (set_tss s (u32 (kStackBase nt + PROC_KSTACK_SIZE))) (tlsDescriptor nt))
         (memContext pr) (u32 (u32 (physDirectory c) * 4096)))).
Proof.
  intros Hm [|(pr & c & Hp & H0 & Hc & Hd)] Hk; [done|]. exists pr, c. unfold enter_user. simpl.
  split_and!; [done|done|]. destruct (Z.eqb_spec (parent nt) (ProcCurrProcess s)) as [E|E]; simpl.
  - destruct (Hm ltac:(congruence) pr) as (Hcur & c' & Hc' & E'); [by rewrite <- E|done|].
    rewrite Hc in Hc'. injection Hc' as <-. rewrite <- E', <- Hcur. by destruct s.
  - rewrite Hp. simpl. by rewrite (MemContextSwitchTo_spec _ pr c).
Qed.

(** [s'] is [s] with [t] running, the queue [q] and nothing else of the
    scheduler's data changed. *)
Definition switched (s s' : sys) (t : Z) (q : list Z) : Prop :=
  same_core (thread s) (thread s') /\ process s' = process s /\ memContexts s' = memContexts s /\
  threadQueue s' = q /\ ProcCurrThread s' = t /\
  (exists th, thread s !! t = Some th /\ ProcCurrProcess s' = parent th).

Lemma fpu_only_switched s0 s s' t q : switched s0 s t q -> fpu_only s s' -> switched s0 s' t q.
Proof.
  intros (H1 & H2 & H3 & H4 & H5 & H6) [Hc E]. rewrite E.
  split_and!; try done. simpl. by eapply same_core_trans.
Qed.

Lemma next_thread_known s t q :
  queue_ok s -> next_thread s = (t, q) -> exists th, thread s !! t = Some th /\
    (threadQueue s = t :: q /\ state th = PTS_RUNNING \/
     threadQueue s = [] /\ q = [] /\ t = ProcIdleThread /\ state th = PTS_STARTUP /\ parent th = ProcKernelProcess).
Proof.
  intros [_ _ Hr (ith & Hi & Hs & Hp) _ _ _]. unfold next_thread.
  destruct (threadQueue s) as [|u q'] eqn:E; intros [= <- <-].
  - exists ith. split; [done|]. by right.
  - destruct (Hr u) as (th & ? & ?); [left|]. exists th. split; [done|]. by left.
Qed.

(** The scheduler always finds a thread to run, and the address space, the
    process and the FPU follow it. *)
Lemma ProcDoSchedule_spec s t q :
  queue_ok s -> next_thread s = (t, q) -> (exists th, thread s !! ProcCurrThread s = Some th /\ parent th = ProcCurrProcess s) ->
  exists s', ProcDoSchedule s = Ret s' /\ switched s s' t q /\ memory_ok s' /\ fpu_ok s'.
Proof.
  intros Hq Hn (cur & Hcur & Hcp). destruct (next_thread_known s t q Hq Hn) as (nt & Hnt & Hns).
  unfold ProcDoSchedule. rewrite Hn. simpl. destruct (Z.eqb_spec (ProcCurrThread s) t) as [<-|Hne]; simpl.
  { eexists. split_and!; [done| |apply Hq..]. split_and!; try done. by exists cur. }
  rewrite Hnt. simpl.
  assert (exists s2, (if parent nt =? ProcKernelProcess then Ret (set_tss (set_queue s q) 0)
                      else enter_user nt (set_queue s q)) = Ret s2 /\
                     switched s (set_current s2 t (parent nt)) t q /\
                     memory_ok (set_current s2 t (parent nt)) /\ thread s2 = thread s /\ fpu s2 = fpu s)
    as (s2 & -> & Hsw & Hm & Hth & Hfp).
  { destruct (Z.eqb_spec (parent nt) ProcKernelProcess) as [Hk|Hk].
    - eexists. split_and!; [done| |by intros []|done|done]. split_and!; try done. by exists nt.
    - destruct (enter_user_spec (set_queue s q) nt) as (pr & c & Hp & Hld & ->);
        [apply Hq|apply (q_process s Hq t nt Hnt); destruct Hns as [[_ ->]|(_ & _ & _ & -> & _)]; done|done|].
      eexists. split_and!; [done| | |done|done].
      + split_and!; try done. by exists nt.
      + intros _ pr0 Hp0 _. simpl in *. rewrite Hp in Hp0. injection Hp0 as <-. by split; [|exists c]. }
  destruct (CpuTaskSwitched_spec (set_current s2 t (parent nt)) nt) as (s' & E & Ho & Hf).
  { destruct (q_fpu s Hq) as [H0|H0]; [left|right]; simpl; by rewrite ?Hth, Hfp. }
  { simpl. by rewrite Hth. }
  exists s'. split_and!; [done|by eapply fpu_only_switched| |done].
  destruct Ho as [_ ->]. exact Hm.
Qed.

(** After a switch at which every ready thread was queued, the invariant holds. *)
Lemma switched_inv s s' t q :
  queue_ok s -> next_thread s = (t, q) -> switched s s' t q -> memory_ok s' -> fpu_ok s' ->
  (forall u th, thread s !! u = Some th -> state th = PTS_RUNNING -> u ∈ threadQueue s) -> sched_inv s'.
Proof.
  intros Hq Hn (Hc & Hp & Hm & Hqs & Hcu & (th & Hth & Hcp)) Hmem Hfpu Hlost.
  destruct (next_thread_known s t q Hq Hn) as (th0 & Hth0 & Hcase). rewrite Hth in Hth0. injection Hth0 as <-.
  assert (forall u, u ∈ q -> u ∈ threadQueue s) as Hsub.
  { destruct Hcase as [[-> _]|(_ & -> & _)]; set_solver. }
  assert (t ∉ q) as Htq.
  { destruct Hcase as [[E _]|(_ & -> & _)]; [|set_solver]. pose proof (q_nodup s Hq) as Hnd.
    rewrite E in Hnd. by apply NoDup_cons in Hnd as [? _]. }
  destruct (same_core_lookup _ _ _ _ Hc Hth) as (th' & Hth' & E'). apply core_fields in E' as (Es & Ep & _).
  split; rewrite ?Hcu, ?Hqs.
  - destruct Hq as [Hnd Hi Hr (ith & Hit & His & Hip) Hpr _ _]. split; rewrite ?Hqs; try done.
    + destruct Hcase as [[E _]|(_ & -> & _)]; [|by constructor]. rewrite E in Hnd. by apply NoDup_cons in Hnd as [_ ?].
    + intros Hin. by apply Hi, Hsub.
    + intros u Hu. destruct (Hr u (Hsub u Hu)) as (x & Hx & Hxs).
      destruct (same_core_lookup _ _ _ _ Hc Hx) as (x' & Hx' & E). apply core_fields in E as (E & _). exists x'. by rewrite E.
    + destruct (same_core_lookup _ _ _ _ Hc Hit) as (x' & Hx' & E). apply core_fields in E as (E1 & E2 & _).
      exists x'. by rewrite E1, E2.
    + intros u x Hx. destruct (same_core_lookup _ _ _ _ (same_core_sym _ _ Hc) Hx) as (x' & Hx' & E).
      apply core_fields in E as (<- & <- & _). unfold process_ok. rewrite Hp, Hm. by apply (Hpr u).
  - exists th'. rewrite Hcp, Es, Ep. split_and!; [done|done|]. destruct Hcase as [[_ ?]|(_ & _ & ? & _)]; auto.
  - done.
  - intros u x Hx Hxs. rewrite Hqs. destruct (same_core_lookup _ _ _ _ (same_core_sym _ _ Hc) Hx) as (x' & Hx' & E).
    apply core_fields in E as (E & _). rewrite <- E in Hxs. specialize (Hlost u x' Hx' Hxs).
    destruct Hcase as [[Eq _]|(Eq & _)]; rewrite Eq in Hlost; [|set_solver].
    apply elem_of_cons in Hlost as [->|]; auto.
Qed.

Lemma schedule_inv s :
  queue_ok s -> (exists th, thread s !! ProcCurrThread s = Some th /\ parent th = ProcCurrProcess s) ->
  (forall u th, thread s !! u = Some th -> state th = PTS_RUNNING -> u ∈ threadQueue s) ->
  exists s', ProcDoSchedule s = Ret s' /\ sched_inv s' /\ switched s s' (fst (next_thread s)) (snd (next_thread s)).
Proof.
  intros Hq Hcur Hall. destruct (next_thread s) as [t q] eqn:E.
  destruct (ProcDoSchedule_spec s t q Hq E Hcur) as (s' & -> & Hsw & Hm & Hf). exists s'.
  split_and!; [done| |done]. by eapply switched_inv.
Qed.

(** ** Changing one thread *)

Lemma queue_ok_update s t th th' :
  queue_ok s -> thread s !! t = Some th -> parent th' = parent th -> fpuState th' = fpuState th ->
  (t ∈ threadQueue s -> state th' = PTS_RUNNING) -> (t = ProcIdleThread -> state th' = PTS_STARTUP) ->
  (state th = PTS_ZOMBIE -> state th' = PTS_ZOMBIE) ->
  queue_ok (set_thread s (<[t := th']> (thread s))).
Proof.
  intros [Hnd Hi Hr (ith & Hit & His & Hip) Hp Hm Hf] Ht Hpar Hfs Hrun Hidle Hz.
  split; simpl; try done.
  - intros u Hu. destruct (decide (t = u)) as [<-|Hne].
    + rewrite lookup_insert_eq. exists th'. auto.
    + rewrite lookup_insert_ne by done. auto.
  - destruct (decide (t = ProcIdleThread)) as [->|Hne].
    + rewrite lookup_insert_eq. exists th'. rewrite Ht in Hit. injection Hit as <-. rewrite Hpar. auto.
    + rewrite lookup_insert_ne by done. by exists ith.
  - intros u x. destruct (decide (t = u)) as [<-|Hne].
    + rewrite lookup_insert_eq. intros [= <-] Hn. rewrite Hpar. apply (Hp t); [done|]. auto.
    + rewrite lookup_insert_ne by done. apply Hp.
  - destruct Hf as [|(x & img & Hx & Hxi)]; [by left|right]. simpl.
    destruct (decide (t = fpuCurrent (fpu s))) as [Heq|Hne].
    + rewrite <- Heq, lookup_insert_eq. exists th', img. rewrite Hfs. rewrite <- Heq, Ht in Hx. by injection Hx as <-.
    + rewrite lookup_insert_ne by done. by exists x, img.
Qed.

Lemma queue_ok_push s t th :
  queue_ok s -> t ∉ threadQueue s -> t <> ProcIdleThread -> thread s !! t = Some th -> state th = PTS_RUNNING ->
  queue_ok (set_queue s (threadQueue s ++ [t])).
Proof.
  intros [Hnd Hi Hr Hidle Hp Hm Hf] Hnot Hne Ht Hs. split; simpl; try done.
  - apply NoDup_app. split_and!; [done| |apply NoDup_singleton]. set_solver.
  - set_solver.
  - intros u [Hu|Hu]%elem_of_app; [auto|]. apply list_elem_of_singleton in Hu as ->. eauto.
Qed.

(** ** The scheduler's steps *)

(** A voluntary yield; the idle thread calls ProcDoSchedule itself. *)
Lemma ProcYield_inv s :
  sched_inv s -> ProcCurrThread s <> ProcIdleThread ->
  exists s', ProcYield s = Ret s' /\ sched_inv s' /\
    (threadQueue s = [] /\ ProcCurrThread s' = ProcCurrThread s /\ threadQueue s' = [] \/
     exists t q, threadQueue s = t :: q /\ ProcCurrThread s' = t /\ threadQueue s' = q ++ [ProcCurrThread s]).
Proof.
  intros [Hq (th & Hth & Hp & Hst) Hnq Hlost] Hni. unfold ProcYield, upd_thread. rewrite Hth. simpl.
  destruct Hst as [Hst|]; [|done]. set (s1 := set_thread s _).
  assert (queue_ok s1) as Hq1 by (by eapply queue_ok_update).
  assert (no_lost_threads s1 (ProcCurrThread s)) as Hlost1.
  { intros u x. unfold s1. simpl. destruct (decide (ProcCurrThread s = u)) as [<-|Hne]; [by right|].
    rewrite lookup_insert_ne by done. apply Hlost. }
  assert (thread s1 !! ProcCurrThread s = Some (set_interrupted th 0)) as Hc1 by apply lookup_insert_eq.
  destruct (threadQueue s) as [|t q] eqn:E.
  - eexists. split_and!; [done| |by left]. split; simpl; [by destruct Hq1; split| |by rewrite E|done].
    exists (set_interrupted th 0). auto.
  - assert (threadQueue s1 = t :: q) as E1 by exact E.
    destruct (schedule_inv (set_queue s1 ((t :: q) ++ [ProcCurrThread s]))) as (s' & Hs & Hinv & Hsw).
    + rewrite <- E1.
      eapply queue_ok_push; [done| |done|done|done]. simpl. by rewrite E.
    + exists (set_interrupted th 0). auto.
    + intros u x Hu Hx. simpl in *. destruct (Hlost1 u x Hu Hx) as [Hin| ->]; [|set_solver].
      simpl in Hin. rewrite E in Hin. set_solver.
    + exists s'. split_and!; [exact Hs|done|]. right. exists t, q. destruct Hsw as (_ & _ & _ & -> & -> & _). done.
Qed.

(** Blocking the current thread, in whatever state it stops in. *)
Lemma stop_inv s th th' :
  sched_inv s -> ProcCurrThread s <> ProcIdleThread -> thread s !! ProcCurrThread s = Some th ->
  parent th' = parent th -> fpuState th' = fpuState th -> state th' <> PTS_RUNNING ->
  let s1 := set_thread s (<[ProcCurrThread s := th']> (thread s)) in
  exists s', ProcDoSchedule s1 = Ret s' /\ sched_inv s' /\ switched s1 s' (fst (next_thread s)) (snd (next_thread s)).
Proof.
  intros [Hq (th0 & Hth & Hp & Hrun) Hnq Hlost] Hni Ht Hpar Hfs Hst s1. rewrite Ht in Hth. injection Hth as <-.
  apply (schedule_inv s1).
  - eapply queue_ok_update; try done. intros Hz. destruct Hrun; congruence.
  - exists th'. simpl. rewrite lookup_insert_eq. split; [done|]. by rewrite Hpar.
  - intros u x. unfold s1. simpl. destruct (decide (ProcCurrThread s = u)) as [<-|Hne].
    + rewrite lookup_insert_eq. by intros [= <-].
    + rewrite lookup_insert_ne by done. intros Hu Hx. by destruct (Hlost u x Hu Hx).
Qed.

Lemma pending_known s th :
  queue_ok s -> thread s !! ProcCurrThread s = Some th -> (exists p, process s !! parent th = Some p) ->
  exists b, ProcSignalIsPending (ProcCurrThread s) s = Ret b.
Proof.
  intros Hq Ht (p & Hp). unfold ProcSignalIsPending. rewrite Ht. simpl. rewrite Hp. simpl. eauto.
Qed.

(** Waking a thread keeps the invariant; no thread is queued twice. *)
Lemma ProcWakeUpSig_inv s t isSignal th :
  sched_inv s -> t <> ProcIdleThread -> thread s !! t = Some th ->
  exists s', ProcWakeUpSig t isSignal s = Ret s' /\ sched_inv s'.
Proof.
  intros [Hq Hcur Hnq Hlost] Hni Ht. unfold ProcWakeUpSig. rewrite Ht. simpl.
  assert (forall i, state th <> PTS_RUNNING -> state th <> PTS_ZOMBIE -> sched_inv (make_ready t th i s)) as Hready.
  { intros i Hst Hnz. assert (t <> ProcCurrThread s) as Hnc.
    { intros ->. destruct Hcur as (c & Hc & _ & [?|?]); congruence. }
    assert (t ∉ threadQueue s) as Htq.
    { intros Hin. destruct (q_running s Hq t Hin) as (x & Hx & Hxs). congruence. }
    split; simpl.
    - unfold make_ready. set (s1 := set_thread s _).
      eapply (queue_ok_push s1); [by eapply queue_ok_update|done|done|apply lookup_insert_eq|done].
    - destruct Hcur as (c & Hc & ?). exists c. by rewrite lookup_insert_ne.
    - set_solver.
    - intros u x. simpl. destruct (decide (t = u)) as [<-|Hne]; [set_solver|].
      rewrite lookup_insert_ne by done. intros Hu Hx. destruct (Hlost u x Hu Hx); set_solver. }
  assert (sched_inv (set_thread s (<[t := set_interrupted th 0]> (thread s)))) as Hint.
  { split; simpl; [| |done|].
    2: { destruct Hcur as (c & Hc & Hrest). destruct (decide (t = ProcCurrThread s)) as [Heq|Hne].
         - rewrite <- Heq, lookup_insert_eq. exists (set_interrupted th 0). split; [done|]. simpl.
           rewrite <- Heq, Ht in Hc. injection Hc as <-. by rewrite Heq.
         - exists c. by rewrite lookup_insert_ne. }
    - eapply queue_ok_update; try done.
      intros Hin. destruct (q_running s Hq t Hin) as (x & Hx & Hxs). simpl. congruence.
    - intros u x. simpl. destruct (decide (t = u)) as [<-|Hne].
      + rewrite lookup_insert_eq. intros [= <-] Hst. by apply (Hlost t th).
      + rewrite lookup_insert_ne by done. apply Hlost. }
  destruct (state th) eqn:Est, isSignal; eexists; (split; [done|]); try done; by apply Hready.
Qed.

(** The timer's count does not matter to it. *)
Lemma sched_inv_quantum s q : sched_inv s -> sched_inv (set_quantum s q).
Proof. intros [[] H1 H2 H3]. by split. Qed.

(** The steps a running kernel takes: the current thread yields, blocks or
    ends, the idle thread looks for work, a thread is woken or created, the
    current thread uses the FPU. *)
Inductive sched_step (s : sys) : sys -> Prop :=
| step_yield s' : ProcCurrThread s <> ProcIdleThread -> ProcYield s = Ret s' -> sched_step s s'
| step_block b r s' : ProcCurrThread s <> ProcIdleThread -> ProcYieldBlock b s = Ret (r, s') -> sched_step s s'
| step_exit s1 s' : ProcCurrThread s <> ProcIdleThread ->
    upd_thread (ProcCurrThread s) (fun t => set_state t PTS_ZOMBIE) s = Ret s1 ->
    ProcIntSelfExit s1 = Ret s' -> sched_step s s'
| step_idle s' : ProcCurrThread s = ProcIdleThread -> ProcDoSchedule s = Ret s' -> sched_step s s'
| step_wake t b s' : t <> ProcIdleThread ->
    ProcWakeUpSig t b s = Ret s' -> sched_step s s'
| step_create t th : thread s !! t = None -> state th = PTS_STARTUP -> process_ok s (parent th) ->
    sched_step s (set_thread s (<[t := th]> (thread s)))
| step_fpu cs b s' : CpuNoFpuException cs s = Ret (b, s') -> sched_step s s'.

Lemma fpu_only_inv s s' : fpu_only s s' -> fpu_ok s' -> sched_inv s -> sched_inv s'.
Proof.
  intros Ho Hf [Hq (th & Hth & Hp & Hst) Hnq Hlost]. pose proof (fpu_only_queue _ _ Ho Hf Hq) as Hq'.
  destruct Ho as [Hc E]. destruct (same_core_lookup _ _ _ _ Hc Hth) as (th' & Hth' & Ec).
  apply core_fields in Ec as (E1 & E2 & _).
  assert (ProcCurrThread s' = ProcCurrThread s) as Hcur by (by rewrite E).
  assert (threadQueue s' = threadQueue s) as Hqs by (by rewrite E).
  assert (ProcCurrProcess s' = ProcCurrProcess s) as Hps by (by rewrite E).
  split; rewrite ?Hcur, ?Hqs, ?Hps; [done| |done|].
  - exists th'. by rewrite E1, E2.
  - intros u x Hx Hxs. rewrite Hqs. destruct (same_core_lookup _ _ _ _ (same_core_sym _ _ Hc) Hx) as (x' & Hx' & Ex).
    apply core_fields in Ex as (Ex & _). apply (Hlost u x'); [done|by rewrite Ex].
Qed.

Lemma step_inv s s' : sched_inv s -> sched_step s s' -> sched_inv s'.
Proof.
  intros Hinv Hstep. pose proof Hinv as [Hq (th & Hth & Hp & Hst) Hnq Hlost].
  destruct Hstep as [s' Hni H|b r s' Hni H|s1 s' Hni H H'|s' Hi H|t b s' Hni H|t x Hnew Hx Hpx|cs b s' H].
  - destruct (ProcYield_inv s Hinv Hni) as (s2 & E & H2 & _). rewrite E in H. by injection H as <-.
  - unfold ProcYieldBlock in H. destruct (if b then ProcSignalIsPending _ _ else _) as [[]| | |]; simpl in H; try done.
    { by injection H as <- <-. }
    unfold upd_thread in H. rewrite Hth in H. simpl in H.
    edestruct (stop_inv s th) as (s2 & E & Hi2 & _); [exact Hinv|done|done| | | |rewrite E in H; simpl in H; by injection H as <- <-];
      [done|done|by destruct b].
  - unfold upd_thread in H. rewrite Hth in H. injection H as <-. unfold ProcIntSelfExit in H'.
    edestruct (stop_inv s th) as (s2 & E & Hi2 & _); [exact Hinv|done|done| | | |rewrite E in H'; simpl in H'; by destruct (_ =? _) in H'; [|injection H' as <-]];
      done.
  - destruct (schedule_inv s Hq) as (s2 & E & H2 & _).
    + by exists th.
    + intros u x Hu Hx. destruct (Hlost u x Hu Hx) as [| ->]; [done|]. rewrite Hi in *.
      destruct (q_idle_thread s Hq) as (ith & Hit & His & _). congruence.
    + rewrite E in H. by injection H as <-.
  - destruct (thread s !! t) as [x|] eqn:E; [|unfold ProcWakeUpSig in H; by rewrite E in H].
    destruct (ProcWakeUpSig_inv s t b x Hinv Hni E) as (s2 & E2 & H2). rewrite E2 in H. by injection H as <-.
  - assert (forall u y, thread s !! u = Some y -> t <> u) as Hdiff by (intros u y Hu ->; congruence).
    destruct Hq as [Hnd Hi Hr (ith & Hit & His) Hpr Hm Hf]. split; simpl.
    + split; simpl; try done.
      * intros u Hu. destruct (Hr u Hu) as (y & Hy & ?). exists y. by rewrite lookup_insert_ne by eauto.
      * exists ith. by rewrite lookup_insert_ne by eauto.
      * intros u y. destruct (decide (t = u)) as [<-|]; [rewrite lookup_insert_eq; by intros [= <-]|].
        rewrite lookup_insert_ne by done. apply Hpr.
      * destruct Hf as [|(y & img & Hy & ?)]; [by left|right]. exists y, img. simpl. by rewrite lookup_insert_ne by eauto.
    + exists th. by rewrite lookup_insert_ne by eauto.
    + done.
    + intros u y. simpl. destruct (decide (t = u)) as [<-|]; [rewrite lookup_insert_eq; intros [= <-]; congruence|].
      rewrite lookup_insert_ne by done. apply Hlost.
  - unfold CpuNoFpuException in H. destruct (cs =? 8); [done|]. destruct (_ && _); [|by injection H as _ <-].
    destruct (DoFpuSwitch_spec (set_ts s false) th) as (s2 & E & Ho & Hf & _); [apply Hq|done|].
    rewrite E in H. injection H as _ <-. eapply fpu_only_inv; [|done|done].
    eapply fpu_only_trans; [apply fpu_only_ts|done].
Qed.

(** C2: yields, blocks, ends of threads, wake-ups, new threads and FPU traps,
    in any order, keep this: the ready queue holds each thread once and
    only ready threads, never the idle thread nor the thread that runs; every
    thread that is ready is queued or runs; and CR3 holds the page directory of
    the process that runs, except while the kernel process runs or the process
    has given its context up. *)
Theorem scheduler_invariant s s' : sched_inv s -> rtc sched_step s s' -> sched_inv s'.
Proof. intros H Hs. induction Hs as [|s1 s2 s3 H1 _ IH]; [done|]. by eapply IH, step_inv. Qed.

(** ** Fairness *)

Fixpoint yields (n : nat) (s : sys) : outcome sys :=
  match n with O => Ret s | S n' => s1 ← ProcYield s; yields n' s1 end.

Lemma yields_queue n : forall s q1 q2 t,
  sched_inv s -> ProcCurrThread s <> ProcIdleThread -> threadQueue s = q1 ++ t :: q2 -> length q1 = n ->
  exists s', yields (S n) s = Ret s' /\ sched_inv s' /\ ProcCurrThread s' = t /\
    threadQueue s' = q2 ++ ProcCurrThread s :: q1.
Proof.
  induction n as [|n IH]; intros s q1 q2 t Hinv Hni Hq Hlen;
    destruct (ProcYield_inv s Hinv Hni) as (s1 & E & Hinv1 & [(Hq0 & _)|(u & q & Hqu & Hc1 & Hq1)]);
    try (rewrite Hq0 in Hq; by destruct q1); cbn [yields]; rewrite E; simpl.
  - apply nil_length_inv in Hlen as ->. simpl in Hq. rewrite Hq in Hqu. injection Hqu as <- <-. exists s1. done.
  - destruct q1 as [|x q1]; [done|]. simpl in *. rewrite Hq in Hqu. injection Hqu as <- <-.
    assert (ProcCurrThread s1 <> ProcIdleThread) as Hni1.
    { rewrite Hc1. intros ->. apply (q_idle s (i_queue s Hinv)). rewrite Hq. by left. }
    destruct (IH s1 q1 (q2 ++ [ProcCurrThread s]) t Hinv1 Hni1) as (s' & Es' & Hinv' & Hc' & Hq'); [|lia|].
    { rewrite Hq1. by rewrite <- app_assoc. }
    exists s'. split_and!; [done|done|done|]. rewrite Hq', Hc1, <- app_assoc. done.
Qed.

(** C32: scheduling is fair round robin: a thread behind [n] others in the
    queue runs after [n+1] yields, and the threads that ran before it are
    queued behind it in the order they ran. *)
Theorem round_robin s q1 t q2 :
  sched_inv s -> ProcCurrThread s <> ProcIdleThread -> threadQueue s = q1 ++ t :: q2 ->
  exists s', yields (S (length q1)) s = Ret s' /\ ProcCurrThread s' = t /\
    threadQueue s' = q2 ++ ProcCurrThread s :: q1.
Proof. intros Hi Hn Hq. destruct (yields_queue _ s q1 q2 t Hi Hn Hq eq_refl) as (s' & ? & _ & ?). eauto. Qed.

(** Blocking never fails to find a thread to run: the thread is taken
    out of the running ones, in the state asked for, and the oldest ready
    thread (or the idle thread) runs. Only a thread that is woken later can
    run again. *)
Theorem ProcYieldBlock_blocks s interruptable :
  sched_inv s -> ProcCurrThread s <> ProcIdleThread ->
  (interruptable = true -> ProcSignalIsPending (ProcCurrThread s) s = Ret false) ->
  exists s' th', ProcYieldBlock interruptable s = Ret (None, s') /\ sched_inv s' /\
    ProcCurrThread s' = fst (next_thread s) /\ threadQueue s' = snd (next_thread s) /\
    thread s' !! ProcCurrThread s = Some th' /\
    state th' = (if interruptable then PTS_INTR else PTS_UNINTR) /\ ProcCurrThread s ∉ threadQueue s'.
Proof.
  intros Hinv Hni Hpend. pose proof Hinv as [Hq (th & Hth & _) Hnq _]. unfold ProcYieldBlock.
  assert ((if interruptable then ProcSignalIsPending (ProcCurrThread s) s else Ret false) = Ret false) as ->.
  { destruct interruptable; auto. }
  simpl. unfold upd_thread. rewrite Hth. simpl.
  set (th1 := set_state (set_interrupted th 0) (if interruptable then PTS_INTR else PTS_UNINTR)).
  destruct (stop_inv s th th1) as (s' & -> & Hinv' & Hsw); [done|done|done|done|done|by destruct interruptable|].
  destruct Hsw as (Hc & _ & _ & Hqs & Hcu & _). simpl.
  destruct (same_core_lookup _ _ (ProcCurrThread s) th1 Hc) as (th' & Hth' & E); [apply lookup_insert_eq|].
  apply core_fields in E as (E & _). exists s', th'. split_and!; try done. rewrite Hqs. unfold next_thread.
  destruct (threadQueue s); set_solver.
Qed.

(** ** Lazy FPU switching *)

(** The FPU registers as thread [t] would find them: in the unit when it owns
    them, else in its save area. *)
Definition fpu_view (s : sys) (t : Z) : option (list Z) :=
  if fpuCurrent (fpu s) =? t then Some (fpuRegs (fpu s)) else th ← thread s !! t; fpuState th.

(** The view of a thread is kept, or is the initial state if it had none. *)
Definition view_kept (s s' : sys) (t : Z) : Prop :=
  fpu_view s' t = fpu_view s t \/ (fpu_view s t = None /\ fpu_view s' t = Some fresh_fpu_state).

Lemma DoFpuSwitch_view s s' t :
  t <> 0 -> ProcCurrThread s <> fpuCurrent (fpu s) -> DoFpuSwitch s = Ret s' -> view_kept s s' t.
Proof.
  intros Ht Hne. unfold DoFpuSwitch, fpu_save.
  assert (forall m cur, (forall u, u <> fpuCurrent (fpu s) -> m !! u = thread s !! u) -> 
     m !! ProcCurrThread s = Some cur -> (t = fpuCurrent (fpu s) -> exists x, m !! t = Some x /\ fpuState x = Some (fpuRegs (fpu s))) ->
     view_kept s (set_fpu_unit (set_thread s (<[ProcCurrThread s :=
        set_fpu cur (Some (default fresh_fpu_state (fpuState cur))) (u8 (fpuSwitches cur + 1))]> m))
        (mkFpu (cr0_ts (fpu s)) (ProcCurrThread s) (default fresh_fpu_state (fpuState cur)))) t) as Hgen.
  { intros m cur Hm Hcur Hown. unfold view_kept, fpu_view. simpl.
    destruct (Z.eqb_spec (ProcCurrThread s) t) as [<-|Hct].
    - destruct (Z.eqb_spec (fpuCurrent (fpu s)) (ProcCurrThread s)); [congruence|].
      rewrite <- Hm, Hcur by done. simpl. destruct (fpuState cur); simpl; auto.
    - rewrite lookup_insert_ne by done. destruct (Z.eqb_spec (fpuCurrent (fpu s)) t) as [Ho|Ho].
      + destruct (Hown (eq_sym Ho)) as (x & -> & Hx). simpl. auto.
      + rewrite Hm by auto. auto. }
  destruct (Z.eqb_spec (fpuCurrent (fpu s)) 0) as [H0|H0]; simpl.
  - destruct (thread s !! ProcCurrThread s) as [cur|] eqn:Hcur; simpl; [|done]. intros [= <-].
    apply Hgen; [done..|]. congruence.
  - destruct (thread s !! fpuCurrent (fpu s)) as [old|] eqn:Hold; simpl; [|done].
    destruct (fpuState old) as [img|] eqn:Himg; simpl; [|done].
    destruct (_ !! ProcCurrThread s) as [cur|] eqn:Hcur; simpl; [|done]. intros [= <-].
    eapply (Hgen _ cur); [|exact Hcur|].
    + intros u Hu. by apply lookup_insert_ne.
    + intros ->. eexists. rewrite lookup_insert_eq. done.
Qed.

Lemma DoFpuSwitch_owner s s' :
  DoFpuSwitch s = Ret s' -> fpuCurrent (fpu s') = ProcCurrThread s /\ ProcCurrThread s' = ProcCurrThread s.
Proof.
  unfold DoFpuSwitch, fpu_save. destruct (fpuCurrent (fpu s) =? 0); simpl.
  - destruct (thread s !! ProcCurrThread s); simpl; [|done]. by intros [= <-].
  - destruct (thread s !! fpuCurrent (fpu s)) as [old|]; simpl; [|done].
    destruct (fpuState old); simpl; [|done].
    destruct (_ !! ProcCurrThread s); simpl; [|done]. by intros [= <-].
Qed.

Lemma CpuTaskSwitched_view s s' t :
  t <> 0 -> CpuTaskSwitched s = Ret s' ->
  view_kept s s' t /\ ProcCurrThread s' = ProcCurrThread s /\
  (CpuHasFpu = true -> cr0_ts (fpu s') = false -> fpuCurrent (fpu s') = ProcCurrThread s).
Proof.
  intros Ht. unfold CpuTaskSwitched. destruct CpuHasFpu eqn:Hh; [|intros [= <-]; split_and!; [by left|done|done]]. simpl.
  destruct (Z.eqb_spec (ProcCurrThread s) (fpuCurrent (fpu s))) as [He|Hne]; simpl;
    [intros [= <-]; split_and!; [by left|done|done]|].
  destruct (thread s !! ProcCurrThread s) as [cur|] eqn:Hc; simpl; [|done].
  destruct (_ <=? _); [|intros [= <-]; split_and!; [by left|done|done]].
  intros H. destruct (DoFpuSwitch_owner _ _ H) as [H1 H2].
  split_and!; [exact (DoFpuSwitch_view (set_ts s false) s' t Ht Hne H)|done|done].
Qed.

Lemma enter_user_keeps nt s s' : enter_user nt s = Ret s' -> thread s' = thread s /\ fpu s' = fpu s.
Proof.
  unfold enter_user, MemContextSwitchTo. simpl.
  destruct (parent nt =? ProcCurrProcess s); simpl; [by intros [= <-]|].
  destruct (process s !! parent nt) as [pr|]; simpl; [|done].
  destruct (memContexts s !! memContext pr) as [c|]; simpl; [|done].
  destruct (physDirectory c =? INVALID_PAGE); simpl; by intros [= <-].
Qed.

(** C33: lazy FPU switching is transparent: a context switch changes no
    thread's view of its FPU registers (a thread that never used the FPU may
    get the initial state), and while another thread's values are in the
    unit the TS bit is set, so their use traps. *)
Theorem ProcDoSchedule_fpu s s' t :
  t <> 0 -> ProcDoSchedule s = Ret s' ->
  view_kept s s' t /\
  (CpuHasFpu = true -> ProcCurrThread s' <> ProcCurrThread s -> cr0_ts (fpu s') = false ->
   fpuCurrent (fpu s') = ProcCurrThread s').
Proof.
  intros Ht. unfold ProcDoSchedule. destruct (next_thread s) as [nt q]. simpl.
  destruct (Z.eqb_spec (ProcCurrThread s) nt); simpl; [intros [= <-]; split; [by left|done]|].
  destruct (thread s !! nt) as [th|] eqn:Hn; simpl; [|done].
  destruct (if parent th =? ProcKernelProcess then _ else _) as [s2| | |] eqn:E; simpl; try done.
  assert (thread s2 = thread s /\ fpu s2 = fpu s) as [E1 E2].
  { destruct (parent th =? ProcKernelProcess); [|exact (enter_user_keeps _ _ _ E)]. revert E. by intros [= <-]. }
  intros H. destruct (CpuTaskSwitched_view _ _ t Ht H) as (Hv & Hc & Ho). split.
  - unfold view_kept, fpu_view in *. simpl in *. by rewrite E1, E2 in Hv.
  - intros Hf _ Hts. by rewrite (Ho Hf Hts), Hc.
Qed.
End Invariants.

(** ** An example system *)

(** Kernel process 100 with the idle thread 1 and the running thread 3; user
    process 200 with the ready thread 4 and the waiting thread 5. *)
#[export] Instance small_machine : Machine :=
  {| ProcKernelProcess := 100; ProcIdleThread := 1; reaperThread := 2; MemKernelContext := 400; CpuFeaturesEDX := 0x1000001;
     CpuHasDenormalsAreZero := false |}.

Definition small_thread (n p : Z) (st : ProcThreadState) : ProcThread :=
  mkThread n p 0 st PWM_NONE 0 0xC0100000 0 None 0 0 0 0 0xC0100F00.

Definition small_process (n ctx : Z) : ProcProcess :=
  mkProcess n 100 [] [] false 0 ctx (replicate 32 (mkSigaction 0 0 0)) 0 0 0 0.

Definition small_threads : gmap Z ProcThread :=
  <[1 := small_thread 1 100 PTS_STARTUP]> (<[3 := small_thread 3 100 PTS_RUNNING]>
  (<[4 := small_thread 4 200 PTS_RUNNING]> (<[5 := small_thread 5 200 PTS_INTR]> ∅))).

Definition small_sys : sys :=
  mkSys small_threads
    (<[100 := small_process 0 0]> (<[200 := small_process 1 300]> ∅))
    (<[300 := mkMemContext [] 7 1]> ∅) [4] 3 100 0 0 20 0 0 (mkFpu false 0 []).

Lemma small_threads_cases t th : small_threads !! t = Some th ->
  (t = 1 /\ th = small_thread 1 100 PTS_STARTUP) \/ (t = 3 /\ th = small_thread 3 100 PTS_RUNNING) \/
  (t = 4 /\ th = small_thread 4 200 PTS_RUNNING) \/ (t = 5 /\ th = small_thread 5 200 PTS_INTR).
Proof.
  unfold small_threads. intros H.
  apply lookup_insert_Some in H as [[<- <-]|[_ H]]; [by left|].
  apply lookup_insert_Some in H as [[<- <-]|[_ H]]; [by right; left|].
  apply lookup_insert_Some in H as [[<- <-]|[_ H]]; [by right; right; left|].
  apply lookup_insert_Some in H as [[<- <-]|[_ H]]; [by right; right; right|]. done.
Qed.

Lemma small_sys_inv : sched_inv small_sys.
Proof.
  split; [split| | |].
  - repeat constructor. by apply not_elem_of_nil.
  - intros H. by apply list_elem_of_singleton in H.
  - intros t Ht. apply list_elem_of_singleton in Ht as ->. by eexists.
  - eexists. by split_and!.
  - intros t th Ht. apply small_threads_cases in Ht as [[-> ->]|[[-> ->]|[[-> ->]|[-> ->]]]]; [by left|by left| |];
      right; eexists _, _; by split_and!.
  - by intros [].
  - by left.
  - eexists. split_and!; [reflexivity|done|by left].
  - intros H. by apply list_elem_of_singleton in H.
  - intros t th Ht Hs. apply small_threads_cases in Ht as [[-> ->]|[[-> ->]|[[-> ->]|[-> ->]]]]; try done; [by right|].
    left. apply list_elem_of_singleton. done.
Qed.

Lemma round_robin_witness :
  exists s', yields 1 small_sys = Ret s' /\ ProcCurrThread s' = 4 /\ threadQueue s' = [3].
Proof.
  refine (round_robin small_sys [] 4 [] small_sys_inv _ _).
  - discriminate.
  - reflexivity.
Defined.

Lemma ProcYieldBlock_blocks_witness :
  exists s' th', ProcYieldBlock true small_sys = Ret (None, s') /\ ProcCurrThread s' = 4 /\
    thread s' !! 3 = Some th' /\ state th' = PTS_INTR.
Proof.
  destruct (ProcYieldBlock_blocks small_sys true small_sys_inv) as (s' & th' & E & _ & Hc & _ & Ht & Hs & _).
  - discriminate.
  - intros _. reflexivity.
  - exists s', th'. split; [exact E|]. split; [exact Hc|]. split; [exact Ht|exact Hs].
Defined.

Lemma ProcDoSchedule_fpu_witness :
  exists s', ProcDoSchedule small_sys = Ret s' /\ view_kept small_sys s' 3.
Proof.
  assert (match ProcDoSchedule small_sys with Ret _ => true | _ => false end = true) as H by (vm_compute; reflexivity).
  destruct (ProcDoSchedule small_sys) as [s'| | |] eqn:E; [|done..]. exists s'. split; [reflexivity|].
  refine (proj1 (ProcDoSchedule_fpu small_sys s' 3 _ E)). discriminate.
Defined.
