(* ===== verification/WaitQueue.v ===== *)
(** * Wait queues and the reaper's queue
      (src/process/waitqueue.c, src/process/reaper.c)

    A wait queue is the list of the threads on it, oldest first. Like
    ProcYieldBlock, ProcWaitQueueWait is split at the context switch. *)
From S2P Require Import Prelude Physical Region Sched.

Section WaitQueues.
Context {K : Machine}.

(** ** Operations *)

(** Remove the current thread from the queue if it is still on it. *)
Definition leave_queue (t : Z) (queue : list Z) : list Z := filter (fun u => u <> t) queue.

(** [Some r] is the value returned at once; [None]: the thread is blocked. *)
Definition ProcWaitQueueWait (queue : list Z) (interruptable : bool) (s : sys)
  : outcome (option bool * list Z * sys) :=
  let queue1 := queue ++ [ProcCurrThread s] in
  '(res, s1) ← ProcYieldBlock interruptable s;
  match res with
  | Some r => Ret (Some r, leave_queue (ProcCurrThread s1) queue1, s1)
  | None => Ret (None, queue1, s1)
  end.

(** The rest of ProcWaitQueueWait, when the thread runs again. *)
Definition ProcWaitQueueWait_return (queue : list Z) (s : sys) : outcome (bool * list Z) :=
  res ← ProcYieldBlock_return s;
  Ret (res, leave_queue (ProcCurrThread s) queue).

Definition ProcWaitQueueWakeOne (queue : list Z) (s : sys) : outcome (bool * list Z * sys) :=
  match queue with
  | [] => Ret (false, queue, s)
  | t :: rest => s' ← ProcWakeUp t s; Ret (true, rest, s')
  end.

(** The loop removes every thread before it wakes it. *)
Fixpoint ProcWaitQueueWakeAll (queue : list Z) (s : sys) : outcome (list Z * sys) :=
  match queue with
  | [] => Ret ([], s)
  | t :: rest => s' ← ProcWakeUp t s; ProcWaitQueueWakeAll rest s'
  end.

(** Adding a dead thread to the reaper's list: an error is only logged. *)
Definition ProcIntReaperAdd (t : Z) (reaperHead : list Z) (s : sys) : outcome (list Z * sys) :=
  th ← or_fault (thread s !! t);
  if negb (bool_decide (state th = PTS_ZOMBIE)) then Ret (reaperHead, s)
  else
    alive ← (if negb (parent th =? ProcKernelProcess) then
               p ← or_fault (process s !! parent th); Ret (negb (zombie p))
             else Ret false);
    if (alive : bool) then Ret (reaperHead, s)
    else s' ← ProcWakeUp reaperThread s; Ret (reaperHead ++ [t], s').

(** ** Waking *)

(** A thread that waits, interruptibly or not. *)
Definition waiting (s : sys) (t : Z) : Prop :=
  exists th, thread s !! t = Some th /\ (state th = PTS_INTR \/ state th = PTS_UNINTR).

(** A thread that is ready and will see its wait as not interrupted. *)
Definition woken (s : sys) (t : Z) : Prop :=
  exists th, thread s !! t = Some th /\ state th = PTS_RUNNING /\ schedInterrupted th = 0.

Lemma ProcWakeUp_waiting s t :
  waiting s t ->
  exists s', ProcWakeUp t s = Ret s' /\ threadQueue s' = threadQueue s ++ [t] /\ woken s' t /\
    (forall u, u <> t -> thread s' !! u = thread s !! u) /\ ProcCurrThread s' = ProcCurrThread s.
Proof.
  intros (th & Ht & Hs). unfold ProcWakeUp, ProcWakeUpSig. rewrite Ht. simpl.
  exists (make_ready t th 0 s). split; [by destruct Hs as [-> | ->]|]. unfold make_ready. simpl.
  split_and!; try done.
  - eexists. simpl. rewrite lookup_insert_eq. done.
  - intros u Hu. by apply lookup_insert_ne.
Qed.

Lemma WakeAll_spec queue : forall s,
  NoDup queue -> (forall t, t ∈ queue -> waiting s t) ->
  exists s', ProcWaitQueueWakeAll queue s = Ret ([], s') /\ threadQueue s' = threadQueue s ++ queue /\
    (forall t, t ∈ queue -> woken s' t) /\ (forall u, u ∉ queue -> thread s' !! u = thread s !! u).
Proof.
  induction queue as [|t rest IH]; intros s Hnd Hw; simpl.
  - exists s. rewrite app_nil_r. split_and!; [done|done|by intros ? []%not_elem_of_nil|done].
  - apply NoDup_cons in Hnd as [Ht Hnd].
    destruct (ProcWakeUp_waiting s t) as (s1 & -> & Hq & (tw & Htw & Hts) & Hf & _); [apply Hw; left|]. simpl.
    destruct (IH s1 Hnd) as (s' & -> & Hq' & Hw' & Hf').
    + intros u Hu. destruct (Hw u) as (th & ? & ?); [by right|]. exists th. rewrite Hf; [done|]. by intros ->.
    + exists s'. split_and!; [done|by rewrite Hq', Hq, <- app_assoc| |].
      * intros u [->|Hu]%elem_of_cons; [|auto]. exists tw. by rewrite Hf'.
      * intros u Hu. rewrite Hf', Hf by set_solver. done.
Qed.

(** ProcWaitQueueWakeAll empties the queue and makes every thread that
    waited ready exactly once, in the order they came, none of them seeing
    an interruption; other threads are not touched. *)
Theorem ProcWaitQueueWakeAll_wakes queue s :
  NoDup queue -> (forall t, t ∈ queue -> waiting s t) ->
  exists s', ProcWaitQueueWakeAll queue s = Ret ([], s') /\ threadQueue s' = threadQueue s ++ queue /\
    (forall t, t ∈ queue -> woken s' t) /\ (forall u, u ∉ queue -> thread s' !! u = thread s !! u).
Proof. apply WakeAll_spec. Qed.

(** Blocking a thread leaves those that wait waiting. *)
Lemma block_waiting s :
  sched_inv s -> ProcCurrThread s <> ProcIdleThread ->
  exists s', ProcYieldBlock false s = Ret (None, s') /\ sched_inv s' /\ waiting s' (ProcCurrThread s) /\
    (forall t, waiting s t -> waiting s' t).
Proof.
  intros Hinv Hni. pose proof Hinv as [_ (th & Hth & _ & Hst) _ _]. unfold ProcYieldBlock, upd_thread. simpl.
  rewrite Hth. simpl. set (th1 := set_state (set_interrupted th 0) PTS_UNINTR).
  destruct (stop_inv s th th1) as (s' & -> & Hi' & Hsw); [done..|]. destruct Hsw as (Hc & _). simpl.
  assert (forall t x, (<[ProcCurrThread s := th1]> (thread s)) !! t = Some x ->
            (state x = PTS_INTR \/ state x = PTS_UNINTR) -> waiting s' t) as Hkeep.
  { intros t x Hx Hs. destruct (same_core_lookup _ _ t x Hc Hx) as (x' & Hx' & E).
    apply core_fields in E as (E & _). exists x'. by rewrite E. }
  exists s'. split_and!; [done|done| |].
  - apply (Hkeep _ th1); [apply lookup_insert_eq|by right].
  - intros t (x & Hx & Hs). apply (Hkeep _ x); [|done]. rewrite lookup_insert_ne; [done|].
    intros <-. rewrite Hth in Hx. injection Hx as <-. destruct Hst as [Hst|]; [|done].
    destruct Hs; congruence.
Qed.

(** A thread that waits on a queue blocks behind those already waiting,
    and a wake-up takes the oldest: the queue is first come, first served.
    The thread woken is ready and will report that it was not interrupted. *)
Theorem wait_then_wake queue s :
  sched_inv s -> ProcCurrThread s <> ProcIdleThread -> (forall t, t ∈ queue -> waiting s t) ->
  exists s', ProcWaitQueueWait queue false s = Ret (None, queue ++ [ProcCurrThread s], s') /\ sched_inv s' /\
    forall t rest, queue ++ [ProcCurrThread s] = t :: rest ->
      exists s2, ProcWaitQueueWakeOne (queue ++ [ProcCurrThread s]) s' = Ret (true, rest, s2) /\
        woken s2 t /\ t ∈ threadQueue s2.
Proof.
  intros Hinv Hni Hq. destruct (block_waiting s Hinv Hni) as (s' & E & Hi' & Hw & Hkeep).
  unfold ProcWaitQueueWait. rewrite E. exists s'. split_and!; [done|done|]. intros t rest Heq. rewrite Heq. simpl.
  assert (waiting s' t) as Ht.
  { assert (t ∈ queue ++ [ProcCurrThread s]) as Hin by (rewrite Heq; left).
    apply elem_of_app in Hin as [Hin|Hin]; [auto|]. by apply list_elem_of_singleton in Hin as ->. }
  destruct (ProcWakeUp_waiting s' t Ht) as (s2 & -> & Hqs & ? & _). simpl. exists s2. rewrite Hqs. set_solver.
Qed.
End WaitQueues.

Lemma ProcWaitQueueWakeAll_wakes_witness :
  exists s', ProcWaitQueueWakeAll [5] small_sys = Ret ([], s') /\ threadQueue s' = [4; 5] /\ woken s' 5.
Proof.
  destruct (ProcWaitQueueWakeAll_wakes [5] small_sys) as (s' & E & Hq & Hw & _).
  - repeat constructor. by apply not_elem_of_nil.
  - intros t Ht. apply list_elem_of_singleton in Ht as ->. eexists. split; [reflexivity|by left].
  - exists s'. split; [exact E|]. split; [exact Hq|]. apply Hw. left.
Defined.

Lemma wait_then_wake_witness :
  exists s', ProcWaitQueueWait [5] false small_sys = Ret (None, [5; 3], s') /\ sched_inv s'.
Proof.
  destruct (wait_then_wake [5] small_sys small_sys_inv) as (s' & E & Hi & _).
  - discriminate.
  - intros t Ht. apply list_elem_of_singleton in Ht as ->. eexists. split; [reflexivity|by left].
  - exists s'. split; [exact E|exact Hi].
Defined.
