(* ===== verification/Signal.v ===== *)
(** * Signals (src/process/signal.c, include/signalNums.h)

    Signal sets are 32-bit words with signal [n] at bit [n-1]. Exits do not
    return; they are results here. The process's [children] list is walked by
    the source as a list of threads: an entry of it is a process, so reading
    it as a thread is an access outside the program's rights. *)
From S2P Require Import Prelude Physical Region Sched WaitQueue.

(** ** Constants *)

Definition SIG_DFL : Z := 0.
Definition SIG_IGN : Z := 1.
Definition SIG_MAX : Z := 32.
Definition SIGINT : Z := 2.
Definition SIGILL : Z := 4.
Definition SIGTRAP : Z := 5.
Definition SIGBUS : Z := 7.
Definition SIGFPE : Z := 8.
Definition SIGKILL : Z := 9.
Definition SIGSEGV : Z := 11.
Definition SIGALRM : Z := 14.
Definition SIGCHLD : Z := 17.
Definition SIGCLD : Z := SIGCHLD.
Definition SIGCONT : Z := 18.
Definition SIGSTOP : Z := 19.
Definition SIGTSTP : Z := 20.
Definition SIGTTIN : Z := 21.
Definition SIGTTOU : Z := 22.
Definition SIG_BLOCK : Z := 0.
Definition SIG_UNBLOCK : Z := 1.
Definition SIG_SETMASK : Z := 2.

Definition SIGNAL_INDEX (num : Z) : Z := num - 1.

(** 1 << SIGNAL_INDEX(num), as an unsigned word; it is the mask of a signal. *)
Definition sig_bit (num : Z) : Z := u32 (Z.shiftl 1 (SIGNAL_INDEX num)).

(** [x & ~m] on 32-bit words. *)
Definition clear_bits (x m : Z) : Z := Z.ldiff x m.

(** SIGSTOP, SIGTSTP, SIGTTIN and SIGTTOU. *)
Definition suspend_signals : Z :=
  Z.lor (Z.lor (sig_bit SIGSTOP) (sig_bit SIGTSTP)) (Z.lor (sig_bit SIGTTIN) (sig_bit SIGTTOU)).

(** What SetMask and SetAction combine the mask with. *)
Definition kill_stop : Z := Z.lor (sig_bit SIGKILL) (sig_bit SIGSTOP).

Section Signals.
Context {K : Machine}.

Definition get_process (p : Z) (s : sys) : outcome ProcProcess := or_fault (process s !! p).

Definition upd_process (p : Z) (f : ProcProcess -> ProcProcess) (s : sys) : outcome sys :=
  pr ← get_process p s; Ret (set_process s (<[p := f pr]> (process s))).

Definition set_psigPending (p : ProcProcess) (x : Z) : ProcProcess :=
  mkProcess (pid p) (pparent p) (children p) (threads p) (zombie p) (pexitCode p)
    (memContext p) (sigHandlers p) x (alarmPtr p) (pname p) (ioContext p).
Definition set_sigHandlers (p : ProcProcess) (x : list ProcSigaction) : ProcProcess :=
  mkProcess (pid p) (pparent p) (children p) (threads p) (zombie p) (pexitCode p)
    (memContext p) x (psigPending p) (alarmPtr p) (pname p) (ioContext p).
Definition set_pexitCode (p : ProcProcess) (x : Z) : ProcProcess :=
  mkProcess (pid p) (pparent p) (children p) (threads p) (zombie p) x
    (memContext p) (sigHandlers p) (psigPending p) (alarmPtr p) (pname p) (ioContext p).

(** ** Sending *)

Definition RemoteContinueThread (t : Z) (s : sys) : outcome sys :=
  th ← or_fault (thread s !! t);
  if negb (bool_decide (state th = PTS_INTR)) then Ret s
  else
    s1 ← upd_thread t (fun th => set_sigPending th
           (clear_bits (Z.lor (sigPending th) (sig_bit SIGCONT)) suspend_signals)) s;
    ProcWakeUpSig t true s1.

(** The handler of a signal; an index outside the table faults. *)
Definition sig_action (p : ProcProcess) (sigNum : Z) : outcome ProcSigaction :=
  or_fault (zget (sigHandlers p) (SIGNAL_INDEX sigNum)).

Definition SignalIsIgnored (p : ProcProcess) (sigNum : Z) : outcome bool :=
  a ← sig_action p sigNum;
  Ret ((sa_handler a =? SIG_IGN) ||
       ((sa_handler a =? SIG_DFL) && ((sigNum =? SIGCONT) || (sigNum =? SIGCLD)))).

Definition valid_signal (sigNum : Z) : bool := (0 <? sigNum) && (sigNum <=? SIG_MAX).

Definition ProcSignalSendThread (t sigNum : Z) (s : sys) : outcome sys :=
  if valid_signal sigNum then
    if sigNum =? SIGCONT then RemoteContinueThread t s
    else
      th ← or_fault (thread s !! t);
      p ← get_process (parent th) s;
      ignored ← SignalIsIgnored p sigNum;
      if negb ignored || (sigNum =? SIGKILL) || (sigNum =? SIGSTOP) then
        let pend := Z.lor (sigPending th) (sig_bit sigNum) in
        let pend := if sigNum =? SIGSTOP then clear_bits pend (sig_bit SIGCONT) else pend in
        let s1 := set_thread s (<[t := set_sigPending th pend]> (thread s)) in
        if bool_decide (state th = PTS_INTR) then
          pending ← ProcSignalIsPending t s1;
          if (pending : bool) then ProcWakeUpSig t true s1 else Ret s1
        else Ret s1
      else Ret s
  else Ret s.

(** ListForEachEntry(thread, &process->children, threadSibling): with a child
    the first iteration reads a process as a thread. *)
Definition for_children_as_threads (p : ProcProcess) (s : sys) : outcome sys :=
  match children p with [] => Ret s | _ :: _ => Fault end.

Definition ProcSignalSendProcess (p sigNum : Z) (s : sys) : outcome sys :=
  if valid_signal sigNum then
    if (sigNum =? SIGKILL) || (sigNum =? SIGSTOP) then
      s1 ← (if sigNum =? SIGKILL then upd_process p (fun pr => set_pexitCode pr (u32 (- SIGKILL))) s else Ret s);
      pr ← get_process p s1;
      for_children_as_threads pr s1
    else
      pr ← get_process p s;
      s1 ← (if sigNum =? SIGCONT then for_children_as_threads pr s else Ret s);
      ignored ← SignalIsIgnored pr sigNum;
      if negb ignored then
        let s2 := set_process s1 (<[p := set_psigPending pr (Z.lor (psigPending pr) (sig_bit sigNum))]> (process s1)) in
        for_children_as_threads pr s2
      else Ret s1
  else Ret s.

(** ** Masks and actions *)

Definition ProcSignalSetMask (t how signalSet : Z) (s : sys) : outcome sys :=
  upd_thread t (fun th =>
    let m := if how =? SIG_BLOCK then Z.lor (sigBlocked th) signalSet
             else if how =? SIG_UNBLOCK then clear_bits (sigBlocked th) signalSet
             else if how =? SIG_SETMASK then signalSet
             else sigBlocked th in
    set_sigBlocked th (Z.land m kill_stop)) s.

Definition ProcSignalSetAction (p sigNum : Z) (newAction : ProcSigaction) (s : sys) : outcome sys :=
  if valid_signal sigNum then
    let action := mkSigaction (sa_handler newAction) (Z.land (sa_mask newAction) kill_stop) (sa_flags newAction) in
    s1 ← upd_process p (fun pr => set_sigHandlers pr (zset (sigHandlers pr) (SIGNAL_INDEX sigNum) action)) s;
    pr ← get_process p s1;
    ignored ← SignalIsIgnored pr sigNum;
    if (ignored : bool) then
      let s2 := set_process s1 (<[p := set_psigPending pr (clear_bits (psigPending pr) (sig_bit sigNum))]> (process s1)) in
      for_children_as_threads pr s2
    else Ret s1
  else Ret s.

(** ** Raising in the current thread *)

(** [inl code]: the process exits with this code and the call never returns. *)
Definition ProcSignalSendOrCrash (sigNum : Z) (s : sys) : outcome (Z + sys) :=
  p ← get_process (ProcCurrProcess s) s;
  ignored ← SignalIsIgnored p sigNum;
  th ← or_fault (thread s !! ProcCurrThread s);
  if ignored || truth (Z.land (sig_bit sigNum) (sigBlocked th)) then Ret (inl (u32 (- sigNum)))
  else s' ← ProcSignalSendThread (ProcCurrThread s) sigNum s; Ret (inr s').

(** ** User-mode handlers *)

Record IntrContext := mkIntr {
  edi : Z; esi : Z; ebp : Z; ebx : Z; edx : Z; ecx : Z; eax : Z;
  eip : Z; cs : Z; eflags : Z; esp : Z
}.

(** User memory as 32-bit words at their addresses. *)
Abbreviation umem := (gmap Z Z).

(** Store consecutive words from [a] on. *)
Fixpoint store_words (m : umem) (a : Z) (ws : list Z) : umem :=
  match ws with [] => m | w :: ws' => store_words (<[a := w]> m) (u32 (a + 4)) ws' end.

(** &stack[i] *)
Definition word_at (a i : Z) : Z := u32 (a + 4 * i).

(** [commit] is MemCommitUserForWrite on the current process. None: the
    process exits with -SIGSEGV. *)
Definition HandleCustomSignal (commit : Z -> Z -> bool) (i : IntrContext) (action : ProcSigaction)
    (sigNum : Z) (m : umem) : option (IntrContext * umem) :=
  let stack := u32 (esp i - 56) in
  if negb (commit stack 56) then None
  else
    let m' := store_words m stack
      [word_at stack 2; sigNum; 0x00EEB858; 0x42CD0000;
       esp i; eflags i; eip i; eax i; ecx i; edx i; ebx i; ebp i; esi i; edi i] in
    Some (mkIntr (edi i) (esi i) (ebp i) (ebx i) (edx i) (ecx i) (eax i)
            (sa_handler action) (cs i) (clear_bits (eflags i) (Z.shiftl 1 10)) stack, m').

(** What ProcSignalReturn does: refuse (not user mode), raise SIGSEGV, or
    restore the registers. *)
Inductive sigreturn := NotUserMode | RaiseSegv | Restored (i : IntrContext).

Definition ProcSignalReturn (commit : Z -> Z -> bool) (i : IntrContext) (m : umem) : outcome sigreturn :=
  if negb (cs i =? 0x1B) then Ret NotUserMode
  else if negb (commit (esp i) 48) then Ret RaiseSegv
  else
    let stack n := or_fault (m !! word_at (esp i) n) in
    esp' ← stack 2; fl ← stack 3; eip' ← stack 4; eax' ← stack 5; ecx' ← stack 6; edx' ← stack 7;
    ebx' ← stack 8; ebp' ← stack 9; esi' ← stack 10; edi' ← stack 11;
    Ret (Restored (mkIntr edi' esi' ebp' ebx' edx' ecx' eax' eip' (cs i) (Z.lor (Z.land fl 0xCFF) 0x200) esp')).

(** ** Delivery *)

(** __builtin_ctz of a non-zero word: the lowest bit set. *)
Fixpoint ctz_loop (n : nat) (i x : Z) : Z :=
  match n with O => i | S n' => if Z.testbit x i then i else ctz_loop n' (i + 1) x end.
Definition BitScanForward (x : Z) : Z := ctz_loop 32 0 x.

(** What the delivery of signals comes to. *)
Inductive delivery :=
| Done                             (* nothing left to deliver *)
| ExitThread                       (* ProcExitThread(0) *)
| ExitProcess (code : Z)           (* ProcExitProcess(code) *)
| Suspend (sigNum : Z)             (* SuspendSelf, then start over; 0 for SIGSTOP *)
| RunHandler (sigNum : Z) (a : ProcSigaction).

(** do { } while(sigSet != 0): handle the lowest signal of the set. *)
Fixpoint deliver_loop (n : nat) (sigSet : Z) (s : sys) : outcome (delivery * sys) :=
  match n with
  | O => NoFuel
  | S n' =>
      let sigNum := BitScanForward sigSet + 1 in
      let sigSet' := clear_bits sigSet (sig_bit sigNum) in
      s1 ← upd_thread (ProcCurrThread s) (fun th => set_sigPending th (clear_bits (sigPending th) (sig_bit sigNum))) s;
      s2 ← upd_process (ProcCurrProcess s1) (fun p => set_psigPending p (clear_bits (psigPending p) (sig_bit sigNum))) s1;
      p ← get_process (ProcCurrProcess s2) s2;
      a ← sig_action p sigNum;
      let continue := if sigSet' =? 0 then Ret (Done, s2) else deliver_loop n' sigSet' s2 in
      if sa_handler a =? SIG_IGN then continue
      else if sa_handler a =? SIG_DFL then
        if (sigNum =? SIGCLD) || (sigNum =? SIGCONT) then continue
        else if (sigNum =? SIGTSTP) || (sigNum =? SIGTTIN) || (sigNum =? SIGTTOU) then
          s3 ← (if truth (Z.land (psigPending p) (sig_bit sigNum)) then ProcSignalSendProcess (ProcCurrProcess s2) sigNum s2
                else Ret s2);
          Ret (Suspend sigNum, s3)
        else Ret (ExitProcess (u32 (- sigNum)), s2)
      else Ret (RunHandler sigNum a, s2)
  end.

(** ProcSignalHandler up to its first effect that leaves the function or
    blocks; after [Suspend] the source starts over. *)
Definition ProcSignalHandler (i : IntrContext) (s : sys) : outcome (delivery * sys) :=
  if negb (cs i =? 0x1B) then Ret (Done, s)
  else
    th ← or_fault (thread s !! ProcCurrThread s);
    p ← get_process (ProcCurrProcess s) s;
    let sigSet := clear_bits (Z.lor (sigPending th) (psigPending p)) (sigBlocked th) in
    if sigSet =? 0 then Ret (Done, s)
    else if truth (Z.land sigSet (SIGNAL_INDEX SIGKILL)) then Ret (ExitThread, s)
    else if truth (Z.land sigSet (SIGNAL_INDEX SIGSTOP)) then Ret (Suspend 0, s)
    else deliver_loop 32 sigSet s.

(** *** Suspension *)

(** SuspendSelf up to its first block: everything but SIGCONT is to be
    blocked. [Some b] when ProcYieldBlock returned at once. *)
Definition SuspendSelf (s : sys) : outcome (option bool * sys) :=
  s1 ← ProcSignalSetMask (ProcCurrThread s) SIG_SETMASK (clear_bits 0xFFFFFFFF (sig_bit SIGCONT)) s;
  ProcYieldBlock true s1.

(** One turn of its loop after the thread ran again: true when SIGKILL or
    SIGCONT ends the suspension and the mask [maskBefore] is restored. *)
Definition SuspendSelf_wake (maskBefore : Z) (s : sys) : outcome (bool * sys) :=
  s1 ← upd_thread (ProcCurrThread s) (fun th => set_sigPending th (clear_bits (sigPending th) (sig_bit SIGSTOP))) s;
  th ← or_fault (thread s1 !! ProcCurrThread s1);
  if truth (Z.land (sigPending th) (Z.lor (sig_bit SIGKILL) (sig_bit SIGCONT))) then
    s2 ← ProcSignalSetMask (ProcCurrThread s1) SIG_SETMASK maskBefore s1; Ret (true, s2)
  else Ret (false, s1).
End Signals.

(** ** Handler frames *)

Lemma store_words_frame ws : forall m a b, 0 <= a -> a + 4 * Z.of_nat (length ws) < 4294967296 ->
  b < a \/ a + 4 * Z.of_nat (length ws) <= b -> store_words m a ws !! b = m !! b.
Proof.
  induction ws as [|w ws IH]; intros m a b H0 Hhi Hb; [done|]. cbn [store_words length] in *.
  replace (u32 (a + 4)) with (a + 4) by u32_lia. rewrite IH by lia. apply lookup_insert_ne. lia.
Qed.

Lemma store_words_lookup ws : forall m a k w,
  0 <= a -> a + 4 * Z.of_nat (length ws) < 4294967296 -> ws !! k = Some w ->
  store_words m a ws !! (a + 4 * Z.of_nat k) = Some w.
Proof.
  induction ws as [|x ws IH]; intros m a [|k] w Ha Hb; cbn [store_words length] in *; [done..| |].
  - intros [= <-]. rewrite Z.add_0_r. destruct ws as [|y ws]; [apply lookup_insert_eq|].
    assert (u32 (a + 4) = a + 4) as -> by (apply Z.mod_small; simpl in *; lia).
    rewrite store_words_frame; [apply lookup_insert_eq|lia| |lia]. lia.
  - intros Hk. assert (u32 (a + 4) = a + 4) as ->.
    { destruct ws; [done|]. apply Z.mod_small. simpl in *. lia. }
    replace (a + 4 * Z.of_nat (S k)) with (a + 4 + 4 * Z.of_nat k) by lia. apply IH; [lia|lia|done].
Qed.

(** C39: a user handler returns to where the signal came in: after
    HandleCustomSignal, whatever the handler does (as long as it leaves the
    saved words), the return code it runs into calls ProcSignalReturn with the
    stack pointer two words up, and that restores every register; of the
    flags it restores those user mode may set, with interrupts enabled. *)
Theorem signal_frame_roundtrip commit commit' i action sigNum m i' m' j m'' :
  56 <= esp i < 4294967296 -> HandleCustomSignal commit i action sigNum m = Some (i', m') ->
  cs j = 0x1B -> esp j = u32 (esp i' + 8) -> commit' (esp j) 48 = true ->
  (forall k, 4 <= k < 14 -> m'' !! word_at (esp i') k = m' !! word_at (esp i') k) ->
  ProcSignalReturn commit' j m'' =
    Ret (Restored (mkIntr (edi i) (esi i) (ebp i) (ebx i) (edx i) (ecx i) (eax i) (eip i) 0x1B
           (Z.lor (Z.land (eflags i) 0xCFF) 0x200) (esp i))).
Proof.
  intros Hesp Hh Hcs Hj Hc Hsame. unfold HandleCustomSignal in Hh.
  assert (u32 (esp i - 56) = esp i - 56) as Hst by (apply Z.mod_small; lia). rewrite Hst in Hh.
  destruct (commit (esp i - 56) 56); [|done]. cbn [negb] in Hh.
  match type of Hh with context [store_words m _ ?ws] => set (saved := ws) in Hh end.
  apply (inj Some), pair_equal_spec in Hh as [<- <-]. cbn [esp] in *.
  assert (forall k w, 2 <= k < 12 -> saved !! Z.to_nat (k + 2) = Some w ->
            or_fault (m'' !! word_at (esp j) k) = Ret w) as Hget.
  { intros k w Hk Hw. specialize (Hsame (k + 2) ltac:(lia)).
    replace (word_at (esp j) k) with (word_at (esp i - 56) (k + 2)) by (rewrite Hj; unfold word_at; u32_lia).
    rewrite Hsame.
    replace (word_at (esp i - 56) (k + 2)) with (esp i - 56 + 4 * Z.of_nat (Z.to_nat (k + 2)))
      by (unfold word_at; u32_lia).
    rewrite (store_words_lookup _ _ _ _ w); [done|lia|simpl; lia|done]. }
  unfold ProcSignalReturn. rewrite Hcs, Hc. cbn [negb Z.eqb Pos.eqb].
  rewrite (Hget 2 (esp i)), (Hget 3 (eflags i)), (Hget 4 (eip i)), (Hget 5 (eax i)), (Hget 6 (ecx i)),
    (Hget 7 (edx i)), (Hget 8 (ebx i)), (Hget 9 (ebp i)), (Hget 10 (esi i)), (Hget 11 (edi i)) by (done || lia).
  done.
Qed.

(** ** Masks *)

(** Whatever mask is asked for, afterwards only SIGKILL and SIGSTOP can
    be blocked, and they are when asked for: the code keeps exactly the two
    bits its comment says it removes. *)
Theorem ProcSignalSetMask_keeps_kill_stop {K : Machine} t how set th s :
  thread s !! t = Some th ->
  exists s' th', ProcSignalSetMask t how set s = Ret s' /\ thread s' !! t = Some th' /\
    (forall n, n <> SIGNAL_INDEX SIGKILL -> n <> SIGNAL_INDEX SIGSTOP -> Z.testbit (sigBlocked th') n = false) /\
    (how = SIG_SETMASK -> Z.testbit set (SIGNAL_INDEX SIGKILL) = true ->
     Z.testbit (sigBlocked th') (SIGNAL_INDEX SIGKILL) = true).
Proof.
  intros Ht. unfold ProcSignalSetMask, upd_thread. rewrite Ht. cbn [or_fault mbind outcome_bind]. eexists _, _.
  split_and!; [done|apply lookup_insert_eq| |].
  - intros n H1 H2. cbn [set_sigBlocked sigBlocked]. rewrite Z.land_spec.
    apply andb_false_intro2. unfold kill_stop, sig_bit, SIGNAL_INDEX, SIGKILL, SIGSTOP in *.
    change (Z.lor _ _) with (2 ^ 8 + 2 ^ 18). destruct (Z.ltb_spec n 0); [by apply Z.testbit_neg_r|].
    change (2 ^ 8 + 2 ^ 18) with (Z.lor (2 ^ 8) (2 ^ 18)). rewrite Z.lor_spec, !Z.pow2_bits_false by lia. done.
  - intros -> Hb. cbn [set_sigBlocked sigBlocked]. change (SIG_SETMASK =? SIG_BLOCK) with false.
    change (SIG_SETMASK =? SIG_UNBLOCK) with false. change (SIG_SETMASK =? SIG_SETMASK) with true. 
    transitivity (Z.testbit (Z.land set kill_stop) (SIGNAL_INDEX SIGKILL)); [done|]. rewrite Z.land_spec, Hb. done.
Qed.

(** ** Sending *)

Lemma sig_bit_testbit n : 0 < n <= 32 -> forall i, 0 <= i -> Z.testbit (sig_bit n) i = (i =? n - 1).
Proof.
  intros Hn i Hi. unfold sig_bit, SIGNAL_INDEX, u32. rewrite Z.shiftl_1_l.
  rewrite Z.mod_small by (split; [apply Z.pow_nonneg; lia|change 4294967296 with (2 ^ 32); apply Z.pow_lt_mono_r; lia]).
  rewrite Z.pow2_bits_eqb by lia. rewrite Z.eqb_sym. done.
Qed.

(** A signal that a thread neither ignores nor blocks becomes pending and
    ends the thread's interruptible wait: the thread is ready, queued, and its
    wait reports the interruption. *)
Theorem ProcSignalSendThread_interrupts {K : Machine} t sigNum th p s :
  thread s !! t = Some th -> process s !! parent th = Some p -> state th = PTS_INTR ->
  0 < sigNum <= SIG_MAX -> sigNum <> SIGCONT -> SignalIsIgnored p sigNum = Ret false ->
  Z.testbit (sigBlocked th) (SIGNAL_INDEX sigNum) = false ->
  exists s' th', ProcSignalSendThread t sigNum s = Ret s' /\ thread s' !! t = Some th' /\
    state th' = PTS_RUNNING /\ schedInterrupted th' = 1 /\ threadQueue s' = threadQueue s ++ [t] /\
    Z.testbit (sigPending th') (SIGNAL_INDEX sigNum) = true.
Proof.
  intros Ht Hp Hst Hn Hc Hig Hbl. unfold ProcSignalSendThread, valid_signal, SIG_MAX in *.
  destruct (Z.ltb_spec 0 sigNum); [|lia]. destruct (Z.leb_spec sigNum 32); [|lia]. simpl.
  destruct (Z.eqb_spec sigNum SIGCONT); [done|]. rewrite Ht. simpl. unfold get_process. rewrite Hp. simpl.
  rewrite Hig. simpl. set (pend := if sigNum =? SIGSTOP then _ else _).
  assert (Z.testbit pend (SIGNAL_INDEX sigNum) = true) as Hbit.
  { unfold pend, clear_bits, SIGNAL_INDEX. destruct (Z.eqb_spec sigNum SIGSTOP) as [->|].
    - rewrite Z.ldiff_spec, Z.lor_spec, !sig_bit_testbit by (unfold SIGSTOP, SIGCONT; lia).
      rewrite Z.eqb_refl, orb_true_r. done.
    - rewrite Z.lor_spec, sig_bit_testbit by lia. rewrite Z.eqb_refl. apply orb_true_r. }
  rewrite bool_decide_eq_true_2 by done. unfold ProcSignalIsPending. cbn [thread set_thread]. rewrite lookup_insert_eq. simpl.
  rewrite Hp. simpl. assert (truth (Z.ldiff (Z.lor pend (psigPending p)) (sigBlocked th)) = true) as ->.
  { unfold truth. destruct (Z.eqb_spec (Z.ldiff (Z.lor pend (psigPending p)) (sigBlocked th)) 0) as [E|]; [|done].
    apply (f_equal (fun x => Z.testbit x (SIGNAL_INDEX sigNum))) in E.
    by rewrite Z.ldiff_spec, Z.lor_spec, Hbit, Hbl, Z.bits_0 in E. }
  unfold ProcWakeUpSig. simpl. rewrite lookup_insert_eq. simpl. rewrite Hst. eexists _, _.
  split_and!; [done|apply lookup_insert_eq|done|done|done|done].
Qed.

(** ** Delivery *)

(** Delivery tests the numbers 8 and 18 instead of the bits of SIGKILL
    and SIGSTOP: a pending SIGILL (bit 3) ends the thread without a handler
    being asked, and a pending SIGINT (bit 1) suspends it. *)
Theorem ProcSignalHandler_misreads_sets {K : Machine} i s th p :
  cs i = 0x1B -> thread s !! ProcCurrThread s = Some th -> process s !! ProcCurrProcess s = Some p ->
  let sigSet := clear_bits (Z.lor (sigPending th) (psigPending p)) (sigBlocked th) in
  (Z.testbit sigSet (SIGNAL_INDEX SIGILL) = true -> ProcSignalHandler i s = Ret (ExitThread, s)) /\
  (Z.testbit sigSet (SIGNAL_INDEX SIGILL) = false -> Z.testbit sigSet (SIGNAL_INDEX SIGINT) = true ->
   ProcSignalHandler i s = Ret (Suspend 0, s)).
Proof.
  intros Hcs Ht Hp sigSet. unfold ProcSignalHandler, get_process. rewrite Hcs, Ht.
  cbn [negb Z.eqb Pos.eqb or_fault mbind outcome_bind]. rewrite Hp. cbn [or_fault mbind outcome_bind]. fold sigSet.
  assert (forall x n, Z.testbit x n = true -> x <> 0) as Hnz by (intros x n Hx ->; by rewrite Z.bits_0 in Hx).
  assert (forall m n, Z.testbit sigSet n = true -> Z.testbit m n = true -> truth (Z.land sigSet m) = true) as Htr.
  { intros m n H1 H2. unfold truth. destruct (Z.eqb_spec (Z.land sigSet m) 0) as [E|]; [|done].
    exfalso. apply (Hnz (Z.land sigSet m) n); [|done]. by rewrite Z.land_spec, H1, H2. }
  split.
  - intros H. destruct (Z.eqb_spec sigSet 0); [by apply Hnz in H|]. by rewrite (Htr (SIGNAL_INDEX SIGKILL) 3).
  - intros H0 H. destruct (Z.eqb_spec sigSet 0); [by apply Hnz in H|].
    assert (truth (Z.land sigSet (SIGNAL_INDEX SIGKILL)) = false) as ->.
    { unfold truth. apply negb_false_iff, Z.eqb_eq. apply Z.bits_inj'. intros k Hk.
      rewrite Z.land_spec, Z.bits_0. change (SIGNAL_INDEX SIGKILL) with (2 ^ 3).
      rewrite Z.pow2_bits_eqb by lia. destruct (Z.eqb_spec 3 k) as [<-|]; [|apply andb_false_r]. change 3 with (SIGNAL_INDEX SIGILL). by rewrite H0. }
    by rewrite (Htr (SIGNAL_INDEX SIGSTOP) 1).
Qed.

(** A user context with its stack at 0x10000. *)
Definition small_intr : IntrContext := mkIntr 1 2 3 4 5 6 7 0x8000 0x1B 0x202 0x10000.

Lemma signal_frame_roundtrip_witness :
  exists i' m', HandleCustomSignal (fun _ _ => true) small_intr (mkSigaction 0x9000 0 0) SIGINT ∅ = Some (i', m') /\
    ProcSignalReturn (fun _ _ => true) (mkIntr 0 0 0 0 0 0 0xEE 0 0x1B 0 0xFFD0) m' = Ret (Restored small_intr).
Proof.
  eexists _, _. split; [reflexivity|].
  refine (signal_frame_roundtrip (fun _ _ => true) (fun _ _ => true) small_intr (mkSigaction 0x9000 0 0) SIGINT ∅ _ _ _ _ _ _ _ _ _ _).
  - simpl. lia.
  - reflexivity.
  - reflexivity.
  - reflexivity.
  - reflexivity.
  - intros k Hk. reflexivity.
Defined.

Lemma ProcSignalSetMask_keeps_kill_stop_witness :
  exists s' th', ProcSignalSetMask 5 SIG_SETMASK 0xFFFFFFFF small_sys = Ret s' /\ thread s' !! 5 = Some th' /\
    Z.testbit (sigBlocked th') (SIGNAL_INDEX SIGINT) = false.
Proof.
  destruct (ProcSignalSetMask_keeps_kill_stop 5 SIG_SETMASK 0xFFFFFFFF (small_thread 5 200 PTS_INTR) small_sys)
    as (s' & th' & E & Ht & Hb & _).
  - reflexivity.
  - exists s', th'. split; [exact E|]. split; [exact Ht|]. apply Hb; discriminate.
Defined.

Lemma ProcSignalSendThread_interrupts_witness :
  exists s' th', ProcSignalSendThread 5 SIGINT small_sys = Ret s' /\ thread s' !! 5 = Some th' /\
    state th' = PTS_RUNNING /\ schedInterrupted th' = 1.
Proof.
  destruct (ProcSignalSendThread_interrupts 5 SIGINT (small_thread 5 200 PTS_INTR) (small_process 1 300) small_sys)
    as (s' & th' & E & Ht & Hs & Hi & _).
  - reflexivity.
  - reflexivity.
  - reflexivity.
  - unfold SIGINT, SIG_MAX. lia.
  - discriminate.
  - reflexivity.
  - reflexivity.
  - exists s', th'. split; [exact E|]. split; [exact Ht|]. split; [exact Hs|exact Hi].
Defined.

Lemma ProcSignalHandler_misreads_sets_witness :
  ProcSignalHandler small_intr (set_thread small_sys (<[3 := set_sigPending (small_thread 3 100 PTS_RUNNING) 2]> small_threads)) =
    Ret (Suspend 0, set_thread small_sys (<[3 := set_sigPending (small_thread 3 100 PTS_RUNNING) 2]> small_threads)).
Proof.
  refine (proj2 (ProcSignalHandler_misreads_sets small_intr _ (set_sigPending (small_thread 3 100 PTS_RUNNING) 2) (small_process 0 0) _ _ _) _ _).
  - reflexivity.
  - reflexivity.
  - reflexivity.
  - reflexivity.
  - reflexivity.
Defined.
