(* ===== verification/Timer.v ===== *)
(** * Timers, the PC speaker and the hardware clock
      (src/timer.c, include/timer.h, src/hwTime.c)

    Times are signed 64-bit fixed-point seconds. Queue entries are kept in
    list order with the address MemKAlloc gave them. *)
From S2P Require Import Prelude Physical Region Sched WaitQueue Signal.

(** ** Data *)

Definition PIT_RELOADVAL : Z := 11932.
Definition PIT_TICKS_PER_INTERRUPT : Z := 42950333.
Definition PIT_OSCILLATOR_RATE : Z := 1193182.

(** [who] is the thread of a sleep entry, the process of an alarm. *)
Record TimerQueue := mkTimer { addr : Z; who : Z; endTime : Z }.

(** Port 0x61 and the bytes last written to the counters of the PIT. *)
Record ports := mkPorts { port61 : Z; port40 : list Z; port42 : list Z; port43 : list Z }.

Record timer := mkTimerState {
  currentTime : Z; startupTime : Z; beepEndTime : Z;
  sleepQueueHead : list TimerQueue; alarmQueueHead : list TimerQueue; io : ports
}.

Definition set_time (t : timer) (x : Z) : timer :=
  mkTimerState x (startupTime t) (beepEndTime t) (sleepQueueHead t) (alarmQueueHead t) (io t).
Definition set_beep (t : timer) (e : Z) (p : ports) : timer :=
  mkTimerState (currentTime t) (startupTime t) e (sleepQueueHead t) (alarmQueueHead t) p.
Definition set_sleepers (t : timer) (q : list TimerQueue) : timer :=
  mkTimerState (currentTime t) (startupTime t) (beepEndTime t) q (alarmQueueHead t) (io t).
Definition set_alarms (t : timer) (q : list TimerQueue) : timer :=
  mkTimerState (currentTime t) (startupTime t) (beepEndTime t) (sleepQueueHead t) q (io t).

Definition TimerGetTime (t : timer) : Z := currentTime t.
Definition TimerGetStartupTime (t : timer) : Z := startupTime t.
Definition TimerSetTime (newTime : Z) (t : timer) : timer := set_time t newTime.

(** ** The speaker *)

Definition TimerBeepStop (t : timer) : timer :=
  set_beep t 0 (mkPorts (Z.land (port61 (io t)) 0xFC) (port40 (io t)) (port42 (io t)) (port43 (io t))).

(** unsigned short reloadValue = PIT_OSCILLATOR_RATE / freq, after clamping. *)
Definition beep_reload (freq : Z) : Z :=
  let freq := if freq <? 18 then 18 else if 596591 <? freq then 596591 else freq in
  (PIT_OSCILLATOR_RATE / freq) mod 65536.

Definition TimerBeepAdv (freq time : Z) (t : timer) : timer :=
  let reloadValue := beep_reload freq in
  set_beep t (s64 (currentTime t + time))
    (mkPorts (Z.lor (port61 (io t)) 3) (port40 (io t)) [Z.land reloadValue 0xFF; Z.shiftr reloadValue 8] (port43 (io t))).

Definition TimerBeep (t : timer) : timer := TimerBeepAdv 1000 (Z.shiftl 1 32) t.

(** TimerInit, after the handler was registered ([registered]) and the
    hardware clock read ([cmosTime]). *)
Definition TimerInit (registered : bool) (cmosTime : Z) (t : timer) : outcome timer :=
  if negb registered then Panic "TimerInit: Cannot initialize timer - IntrRegister returned false"
  else
    Ret (TimerBeepStop (mkTimerState cmosTime cmosTime (beepEndTime t) (sleepQueueHead t) (alarmQueueHead t)
      (mkPorts (port61 (io t)) [Z.land PIT_RELOADVAL 0xFF; Z.shiftr PIT_RELOADVAL 8] (port42 (io t)) [0x34; 0xB6]))).

(** ** Queues *)

Fixpoint AddTimerToQueue (newItem : TimerQueue) (queue : list TimerQueue) : list TimerQueue :=
  match queue with
  | [] => [newItem]
  | currPos :: rest =>
      if endTime currPos <? endTime newItem then newItem :: currPos :: rest
      else currPos :: AddTimerToQueue newItem rest
  end.

(** ListDelete of the entry at an address. *)
Definition remove_timer (a : Z) (queue : list TimerQueue) : list TimerQueue :=
  filter (fun e => addr e <> a) queue.

Section Timers.
Context {K : Machine}.

(** TimerSleep up to the block, with the entry's address [a] from MemKAlloc.
    [Some r] is the value returned at once. *)
Definition TimerSleep (a time : Z) (t : timer) (s : sys) : outcome (option Z * timer * sys) :=
  let time := s64 (time + currentTime t) in
  let t1 := set_sleepers t (AddTimerToQueue (mkTimer a (ProcCurrThread s) time) (sleepQueueHead t)) in
  '(res, s1) ← ProcYieldBlock true s;
  match res with
  | Some true => Ret (Some (s64 (currentTime t1 - time)), set_sleepers t1 (remove_timer a (sleepQueueHead t1)), s1)
  | Some false => Ret (Some 0, t1, s1)
  | None => Ret (None, t1, s1)
  end.

(** The rest of TimerSleep, for the entry at [a] that ends at [time]. *)
Definition TimerSleep_return (a time : Z) (t : timer) (s : sys) : outcome (Z * timer) :=
  interrupted ← ProcYieldBlock_return s;
  if (interrupted : bool) then
    Ret (s64 (currentTime t - time), set_sleepers t (remove_timer a (sleepQueueHead t)))
  else Ret (0, t).

Definition set_alarmPtr (p : ProcProcess) (x : Z) : ProcProcess :=
  mkProcess (pid p) (pparent p) (children p) (threads p) (zombie p) (pexitCode p)
    (memContext p) (sigHandlers p) (psigPending p) x (pname p) (ioContext p).

(** TimerSetAlarm, with the new entry's address [a] from MemKAlloc; alarmPtr
    holds the address of the entry (0 for NULL). *)
Definition TimerSetAlarm (a time : Z) (t : timer) (s : sys) : outcome (Z * timer * sys) :=
  p ← get_process (ProcCurrProcess s) s;
  '(timeLeft, t1, s1) ←
    (if negb (alarmPtr p =? 0) then
       e ← or_fault (list_find (fun e => addr e = alarmPtr p) (alarmQueueHead t));
       Ret (s64 (endTime (snd e) - currentTime t), set_alarms t (remove_timer (alarmPtr p) (alarmQueueHead t)),
            set_process s (<[ProcCurrProcess s := set_alarmPtr p 0]> (process s)))
     else Ret (0, t, s));
  if negb (time =? 0) then
    p1 ← get_process (ProcCurrProcess s1) s1;
    Ret (timeLeft, set_alarms t1 (AddTimerToQueue (mkTimer a (ProcCurrProcess s1) time) (alarmQueueHead t1)),
         set_process s1 (<[ProcCurrProcess s1 := set_alarmPtr p1 a]> (process s1)))
  else Ret (timeLeft, t1, s1).

(** ** The interrupt *)

(** while(currentTime >= head->endTime): wake the head and drop it. *)
Fixpoint sleep_loop (now : Z) (queue : list TimerQueue) (s : sys) : outcome (list TimerQueue * sys) :=
  match queue with
  | [] => Ret ([], s)
  | head :: rest =>
      if endTime head <=? now then s1 ← ProcWakeUp (who head) s; sleep_loop now rest s1
      else Ret (queue, s)
  end.

Fixpoint alarm_loop (now : Z) (queue : list TimerQueue) (s : sys) : outcome (list TimerQueue * sys) :=
  match queue with
  | [] => Ret ([], s)
  | head :: rest =>
      if endTime head <=? now then
        s1 ← ProcSignalSendProcess (who head) SIGALRM s;
        s2 ← upd_process (who head) (fun p => set_alarmPtr p 0) s1;
        alarm_loop now rest s2
      else Ret (queue, s)
  end.

Definition TimerInterrupt (t : timer) (s : sys) : outcome (timer * sys) :=
  let t1 := set_time t (s64 (currentTime t + PIT_TICKS_PER_INTERRUPT)) in
  let s1 := if 0 <? TimerQuantum s then set_quantum s (TimerQuantum s - 1) else s in
  let t2 := if negb (beepEndTime t1 =? 0) && (beepEndTime t1 <=? currentTime t1) then TimerBeepStop t1 else t1 in
  '(q1, s2) ← sleep_loop (currentTime t2) (sleepQueueHead t2) s1;
  '(q2, s3) ← alarm_loop (currentTime t2) (alarmQueueHead t2) s2;
  Ret (set_alarms (set_sleepers t2 q1) q2, s3).
End Timers.

(** ** The hardware clock (hwTime.c) *)

Definition TIMEMODE_24HR : Z := 2.
Definition TIMEMODE_BIN : Z := 4.

Definition monthdays : list Z := [0; 31; 59; 90; 120; 151; 181; 212; 243; 273; 304; 334].
Definition monthdays2 : list Z := [0; 31; 60; 91; 121; 152; 182; 213; 244; 274; 305; 335].

Definition BCD2Binary (value : Z) : Z := Z.shiftr value 4 * 10 + Z.land value 0xF.

Definition Hour12To24 (value : Z) (useBCD : bool) : Z :=
  let isPM := Z.land value 0x80 in
  let value := if useBCD then u8 (BCD2Binary (Z.land value 0x7F)) else Z.land value 0x7F in
  let value := if value =? 12 then 0 else value in
  if truth isPM then u8 (value + 12) else value.

(** [cmos] gives the byte each register of the chip holds. *)
Definition CMOSRead (cmos : Z -> Z) (reg : Z) (bcd : bool) : Z :=
  let result := cmos reg in if bcd then u8 (BCD2Binary result) else result.

(** [year], 32-bit arithmetic; the month is clamped to December. *)
Definition DaysDiff (year month day : Z) : Z :=
  let days := u32 (u32 (year - 1970) * 365 + u32 (year - 1970 + 1) / 4) in
  let month := u8 (month - 1) in
  let month := if 11 <? month then 11 else month in
  let table := if year mod 4 =? 0 then monthdays2 else monthdays in
  let days := u32 (days + default 0 (zget table month)) in
  u32 (days + (day - 1)).

(** while(CMOSRead(0xA, false) & 0x80): [reads] are the successive values of
    register A. *)
Fixpoint wait_update (reads : list Z) : outcome unit :=
  match reads with
  | [] => NoFuel
  | a :: rest => if truth (Z.land a 0x80) then wait_update rest else Ret tt
  end.

Definition TimerGetCMOSTime (reads : list Z) (cmos : Z -> Z) : outcome Z :=
  _ ← wait_update reads;
  let timeFormat := CMOSRead cmos 0xB false in
  let isBCD := negb (truth (Z.land timeFormat TIMEMODE_BIN)) in
  let is24Hr := truth (Z.land timeFormat TIMEMODE_24HR) in
  let unixTime := CMOSRead cmos 0 isBCD in
  let unixTime := u32 (unixTime + CMOSRead cmos 2 isBCD * 60) in
  let unixTime :=
    if is24Hr then u32 (unixTime + u32 (Hour12To24 (CMOSRead cmos 4 false) isBCD * 60 * 60))
    else u32 (unixTime + CMOSRead cmos 4 isBCD * 60 * 60) in
  let days := CMOSRead cmos 7 isBCD in
  let month := CMOSRead cmos 8 isBCD in
  let year := CMOSRead cmos 9 isBCD in
  let unixTime := u32 (unixTime + u32 (DaysDiff (year + 2000) month days * 24 * 60 * 60)) in
  Ret (s64 (Z.shiftl unixTime 32)).

(** ** Queue order *)

(** Latest first. *)
Fixpoint latest_first (q : list TimerQueue) : Prop :=
  match q with
  | [] => True
  | e :: rest => Forall (fun e' => endTime e' <= endTime e) rest /\ latest_first rest
  end.

Lemma AddTimer_perm e q : AddTimerToQueue e q ≡ₚ e :: q.
Proof.
  induction q as [|c q IH]; simpl; [done|]. destruct (_ <? _); [done|]. by rewrite IH, Permutation_swap.
Qed.

(** AddTimerToQueue keeps the queue ordered by end time, latest first,
    entries with the same time in the order they came, and adds exactly the
    new entry. *)
Theorem AddTimerToQueue_sorted e q :
  latest_first q -> latest_first (AddTimerToQueue e q) /\ AddTimerToQueue e q ≡ₚ e :: q.
Proof.
  intros H. split; [|apply AddTimer_perm]. induction q as [|c q IH]; simpl; [done|].
  destruct H as [Hc Hq]. destruct (Z.ltb_spec (endTime c) (endTime e)); simpl.
  - split_and!; [|done|done]. apply Forall_cons. split; [lia|]. eapply Forall_impl; [exact Hc|]. simpl. lia.
  - split; [|auto]. rewrite AddTimer_perm. apply Forall_cons. split; [lia|done].
Qed.

Lemma AddTimerToQueue_sorted_witness :
  latest_first (AddTimerToQueue (mkTimer 2 20 50) [mkTimer 1 10 90; mkTimer 3 30 40]).
Proof.
  refine (proj1 (AddTimerToQueue_sorted (mkTimer 2 20 50) [mkTimer 1 10 90; mkTimer 3 30 40] _)).
  split; [|split; [constructor|exact I]]. apply Forall_cons. split; [simpl; lia|constructor].
Defined.

(** With the queue in that order the timer interrupt wakes all sleepers
    or none: it stops at the first entry that is not due, and the first is
    the last to end. A sleeper whose time has come is left asleep while any
    other sleeps longer. *)
Theorem sleep_loop_all_or_nothing {K : Machine} now e q s :
  latest_first (e :: q) ->
  (now < endTime e -> sleep_loop now (e :: q) s = Ret (e :: q, s)) /\
  (endTime e <= now -> NoDup (who <$> e :: q) -> (forall x, x ∈ e :: q -> waiting s (who x)) ->
   exists s', sleep_loop now (e :: q) s = Ret ([], s') /\
     threadQueue s' = threadQueue s ++ (who <$> e :: q) /\ forall x, x ∈ e :: q -> woken s' (who x)).
Proof.
  intros [Hle _]. split; [intros; simpl; by destruct (Z.leb_spec (endTime e) now); [lia|]|].
  intros Hdue Hnd Hw. assert (Forall (fun x => endTime x <= now) (e :: q)) as Hall.
  { apply Forall_cons. split; [done|]. eapply Forall_impl; [exact Hle|]. simpl. lia. }
  assert (forall l s0, Forall (fun x => endTime x <= now) l ->
    sleep_loop now l s0 = '(_, s1) ← ProcWaitQueueWakeAll (who <$> l) s0; Ret ([], s1)) as Heq.
  { induction l as [|x l IH]; intros s0 Hl; [done|]. apply Forall_cons in Hl as [Hx Hl]. cbn [sleep_loop fmap list_fmap ProcWaitQueueWakeAll].
    destruct (Z.leb_spec (endTime x) now); [|lia]. destruct (ProcWakeUp (who x) s0); simpl; [by apply IH|done..]. }
  rewrite Heq by done. destruct (WakeAll_spec (who <$> e :: q) s Hnd) as (s' & -> & Hq & Hk & _).
  { intros t (x & -> & Hx)%list_elem_of_fmap. auto. }
  exists s'. split_and!; [done|done|]. intros x Hx. apply Hk, list_elem_of_fmap. eauto.
Qed.

(** At time 50 the sleeper that was to end at 40 is not woken. *)
Lemma sleep_loop_all_or_nothing_witness :
  sleep_loop 50 [mkTimer 1 4 90; mkTimer 2 5 40] small_sys = Ret ([mkTimer 1 4 90; mkTimer 2 5 40], small_sys).
Proof.
  refine (proj1 (sleep_loop_all_or_nothing 50 (mkTimer 1 4 90) [mkTimer 2 5 40] small_sys _) _).
  - split; [|split; [constructor|exact I]]. apply Forall_cons. split; [simpl; lia|constructor].
  - simpl. lia.
Defined.

(** A sleep interrupted before its end returns the time left negated,
    where the interface promises a value above zero. *)
Theorem TimerSleep_returns_negative {K : Machine} a time t s th :
  thread s !! ProcCurrThread s = Some th -> schedInterrupted th = 1 ->
  0 <= currentTime t < time -> time < 9223372036854775808 ->
  exists t', TimerSleep_return a time t s = Ret (- (time - currentTime t), t').
Proof.
  intros Ht Hi H1 H2. unfold TimerSleep_return, ProcYieldBlock_return. rewrite Ht. simpl. rewrite Hi. simpl.
  eexists. f_equal. apply pair_equal_spec. split; [|done]. unfold s64. rewrite Z.mod_small; lia.
Qed.

Lemma TimerSleep_returns_negative_witness :
  exists t', TimerSleep_return 1 90 (mkTimerState 50 0 0 [] [] (mkPorts 0 [] [] []))
    (set_current (set_thread small_sys (<[5 := set_interrupted (small_thread 5 200 PTS_RUNNING) 1]> small_threads)) 5 200) = Ret (-40, t').
Proof.
  refine (TimerSleep_returns_negative 1 90 _ _ (set_interrupted (small_thread 5 200 PTS_RUNNING) 1) _ _ _ _).
  - reflexivity.
  - reflexivity.
  - simpl. lia.
  - lia.
Defined.

(** For audible frequencies the counter is loaded with the oscillator
    rate divided by the frequency; at the lower clamp of 18 Hz, and so for
    every frequency below 19 Hz, the quotient does not fit the 16-bit counter
    and the speaker sounds at about 1589 Hz. *)
Theorem beep_reload_range freq :
  0 <= freq -> (19 <= freq <= 596591 -> beep_reload freq = PIT_OSCILLATOR_RATE / freq /\ 2 <= beep_reload freq) /\
  (freq < 19 -> beep_reload freq = 751).
Proof.
  intros H0. unfold beep_reload, PIT_OSCILLATOR_RATE. split.
  - intros H. destruct (Z.ltb_spec freq 18); [lia|]. destruct (Z.ltb_spec 596591 freq); [lia|].
    assert (2 <= 1193182 / freq <= 62799).
    { split; [apply Z.div_le_lower_bound; lia|]. transitivity (1193182 / 19); [|reflexivity || (vm_compute; discriminate)].
      apply Z.div_le_compat_l; lia. }
    rewrite Z.mod_small by lia. lia.
  - intros H. destruct (Z.ltb_spec freq 18); [done|]. assert (freq = 18) as -> by lia. done.
Qed.

Lemma beep_reload_range_witness : beep_reload 10 = 751.
Proof. refine (proj2 (beep_reload_range 10 _) _); lia. Defined.

(** ** Dates *)

Definition is_leap (y : Z) : bool := ((y mod 4 =? 0) && negb (y mod 100 =? 0)) || (y mod 400 =? 0).
Definition year_days (y : Z) : Z := if is_leap y then 366 else 365.
Definition month_days (y m : Z) : Z :=
  if m =? 2 then (if is_leap y then 29 else 28)
  else if (m =? 4) || (m =? 6) || (m =? 9) || (m =? 11) then 30 else 31.

(** Days from 1 January 1970 to a date, counted one year and one month at a
    time by the Gregorian calendar. *)
Definition sum (l : list Z) : Z := foldr Z.add 0 l.
Definition civil_days (y m d : Z) : Z :=
  sum (year_days <$> seqZ 1970 (y - 1970)) + sum (month_days y <$> seqZ 1 (m - 1)) + (d - 1).

Lemma DaysDiff_shift y m d : 0 <= DaysDiff y m 1 < 4294967000 -> 1 <= d <= 31 -> DaysDiff y m d = DaysDiff y m 1 + (d - 1).
Proof. unfold DaysDiff. cbv zeta. intros H Hd. unfold u32 in *. rewrite Z.sub_diag, Z.add_0_r in *. zlia. Qed.

Definition dates_agree (y : Z) : bool :=
  forallb (fun m => (DaysDiff y m 1 =? civil_days y m 1) && (civil_days y m 1 <? 4294967000) && (0 <=? civil_days y m 1)) (seqZ 1 12).

Lemma dates_agree_all : forallb dates_agree (seqZ 1970 130) = true.
Proof. vm_compute. reflexivity. Qed.

(** From 1970 up to 2099, DaysDiff is the number of days since the epoch
    by the Gregorian calendar. *)
Theorem DaysDiff_correct y m d :
  1970 <= y < 2100 -> 1 <= m <= 12 -> 1 <= d <= 31 -> DaysDiff y m d = civil_days y m d.
Proof.
  intros Hy Hm Hd. pose proof dates_agree_all as H. rewrite forallb_forall in H.
  specialize (H y). rewrite <- list_elem_of_In, elem_of_seqZ in H. specialize (H ltac:(lia)).
  unfold dates_agree in H. rewrite forallb_forall in H.
  specialize (H m). rewrite <- list_elem_of_In, elem_of_seqZ in H. specialize (H ltac:(lia)).
  apply andb_true_iff in H as [[H1 H2]%andb_true_iff H3].
  apply Z.eqb_eq in H1. apply Z.ltb_lt in H2. apply Z.leb_le in H3.
  rewrite DaysDiff_shift by (rewrite ?H1; lia). rewrite H1. unfold civil_days. lia.
Qed.

Lemma DaysDiff_correct_witness : DaysDiff 2000 3 1 = civil_days 2000 3 1.
Proof. apply (DaysDiff_correct 2000 3 1); lia. Defined.

(** On a chip in 24-hour binary mode the hour is read right except from
    noon to one o'clock, which is taken for midnight: the conversion from a
    12-hour clock is applied when the clock has 24 hours. *)
Theorem hour_24_noon h : 0 <= h < 24 -> Hour12To24 h false = if h =? 12 then 0 else h.
Proof.
  intros Hh. assert (forallb (fun h => Hour12To24 h false =? (if h =? 12 then 0 else h)) (seqZ 0 24) = true) as H
    by (vm_compute; reflexivity).
  rewrite forallb_forall in H. specialize (H h). rewrite <- list_elem_of_In, elem_of_seqZ in H.
  apply Z.eqb_eq, H. lia.
Qed.

Lemma hour_24_noon_witness : Hour12To24 12 false = 0.
Proof. refine (hour_24_noon 12 _). lia. Defined.
