(* ===== verification/Tls.v ===== *)
(** * Thread-local storage descriptors (src/process/tls.c)

    A descriptor is a 64-bit segment descriptor; [desc_base] and [desc_limit]
    read it the way the processor does. *)
From S2P Require Import Prelude.

Definition PROC_NULL_TLS_DESCRIPTOR : Z := 0x0040F20000000000.
Definition PROC_BASE_TLS_DESCRIPTOR : Z := 0x00C0F60000000000.

Definition ProcTlsCreateDescriptor (basePtr : Z) : Z :=
  if (0x1000 <=? basePtr) && (basePtr <=? 0xC0000000) then
    let desc := PROC_BASE_TLS_DESCRIPTOR in
    let desc := Z.lor desc (u64 (Z.shiftl (Z.land basePtr 0x00FFFFFF) 16)) in
    let desc := Z.lor desc (u64 (Z.shiftl (Z.land basePtr 0xFF000000) 56)) in
    let limit := Z.shiftr (u32 (0xFFFFFFFF - basePtr)) 12 in
    let desc := Z.lor desc (Z.land limit 0x00FFFF) in
    Z.lor desc (u64 (Z.shiftl (Z.land limit 0xFF0000) 32))
  else PROC_NULL_TLS_DESCRIPTOR.

(** Bits [lo .. lo+n) of a word. *)
Definition field (w lo n : Z) : Z := Z.land (Z.shiftr w lo) (Z.ones n).

(** The base (bits 16-39 and 56-63) and limit (bits 0-15 and 48-51). *)
Definition desc_base (d : Z) : Z := Z.lor (field d 16 24) (Z.shiftl (field d 56 8) 24).
Definition desc_limit (d : Z) : Z := Z.lor (field d 0 16) (Z.shiftl (field d 48 4) 16).

Lemma testbit_above x n i : 0 <= x < 2 ^ n -> n <= i -> Z.testbit x i = false.
Proof.
  intros Hx Hi. destruct (Z.eq_dec x 0) as [->|]; [apply Z.bits_0|].
  assert (0 <= n) by (destruct (Z.ltb_spec n 0); [rewrite Z.pow_neg_r in Hx by lia; lia|lia]).
  apply Z.bits_above_log2; [lia|]. apply Z.log2_lt_pow2; [lia|].
  eapply Z.lt_le_trans; [apply Hx|]. apply Z.pow_le_mono_r; lia.
Qed.

Lemma u64_small_shift x n k : 0 <= n -> 0 <= k -> n + k <= 64 -> 0 <= x < 2 ^ n -> u64 (Z.shiftl x k) = Z.shiftl x k.
Proof.
  intros Hn Hk Hs Hx. unfold u64. change 18446744073709551616 with (2 ^ 64). rewrite Z.shiftl_mul_pow2 by lia.
  apply Z.mod_small. split; [apply Z.mul_nonneg_nonneg; [lia|apply Z.pow_nonneg; lia]|].
  apply Z.lt_le_trans with (2 ^ n * 2 ^ k); [apply Z.mul_lt_mono_pos_r; [apply Z.pow_pos_nonneg; lia|lia]|].
  rewrite <- Z.pow_add_r by lia. apply Z.pow_le_mono_r; lia.
Qed.

(** The high byte of the base is shifted out of the word. *)
Lemma high_base_lost b : u64 (Z.shiftl (Z.land b 0xFF000000) 56) = 0.
Proof.
  assert (Z.land b 0xFF000000 = Z.shiftl (Z.land (Z.shiftr b 24) 255) 24) as ->.
  { change 0xFF000000 with (Z.shiftl 255 24). rewrite Z.shiftl_land.
    apply Z.bits_inj'. intros i Hi. rewrite !Z.land_spec. destruct (Z.ltb_spec i 24).
    - rewrite !(Z.shiftl_spec_low _ 24 i) by lia. by rewrite !andb_false_r.
    - rewrite (Z.shiftl_spec (Z.shiftr b 24)), Z.shiftr_spec by lia. do 2 f_equal. lia. }
  rewrite Z.shiftl_shiftl by lia. unfold u64. rewrite Z.shiftl_mul_pow2 by lia.
  change (2 ^ (24 + 56)) with (65536 * 18446744073709551616). rewrite Z.mul_assoc. apply Z.mod_mul. lia.
Qed.

(** The descriptor with its parts in place. *)
Lemma descriptor_parts b :
  0x1000 <= b <= 0xC0000000 ->
  ProcTlsCreateDescriptor b =
    Z.lor (Z.lor (Z.lor PROC_BASE_TLS_DESCRIPTOR (Z.shiftl (Z.land b (Z.ones 24)) 16))
      (Z.land (Z.shiftr (0xFFFFFFFF - b) 12) (Z.ones 16)))
      (Z.shiftl (Z.land (Z.shiftr (0xFFFFFFFF - b) 12) (Z.shiftl (Z.ones 8) 16)) 32).
Proof.
  intros Hb. unfold ProcTlsCreateDescriptor.
  destruct (Z.leb_spec 0x1000 b); [|lia]. destruct (Z.leb_spec b 0xC0000000); [|lia]. cbn [andb]. cbv zeta.
  rewrite high_base_lost, Z.lor_0_r.
  assert (u32 (0xFFFFFFFF - b) = 0xFFFFFFFF - b) as -> by (apply Z.mod_small; lia).
  change 0x00FFFFFF with (Z.ones 24). change 0x00FFFF with (Z.ones 16). change 0xFF0000 with (Z.shiftl (Z.ones 8) 16).
  rewrite (u64_small_shift _ 24 16); [|lia..|rewrite Z.land_ones by lia; apply Z.mod_pos_bound; lia].
  rewrite (u64_small_shift _ 24 32); [done|lia..|].
  set (x := Z.shiftr _ _). assert (0 <= x) by (apply Z.shiftr_nonneg; lia).
  replace (Z.land x (Z.shiftl (Z.ones 8) 16)) with (Z.land (Z.land x (Z.shiftl (Z.ones 8) 16)) (Z.ones 24)).
  - rewrite Z.land_ones by lia. apply Z.mod_pos_bound. lia.
  - rewrite <- Z.land_assoc. done.
Qed.

(** Reading a field back. *)
Lemma field_bit w lo n i : 0 <= lo -> 0 <= n -> 0 <= i ->
  Z.testbit (field w lo n) i = (i <? n) && Z.testbit w (i + lo).
Proof.
  intros. unfold field. rewrite Z.land_spec, Z.shiftr_spec, Z.testbit_ones by lia.
  bool_cases; rewrite ?andb_true_r, ?andb_false_r; done || lia.
Qed.

(** The fixed bits of the descriptor outside base and limit. *)
Lemma base_descriptor_bits i : 0 <= i ->
  Z.testbit PROC_BASE_TLS_DESCRIPTOR i = true -> 40 <= i < 48 \/ 52 <= i < 56.
Proof.
  intros Hi H. destruct (Z.ltb_spec i 56).
  - assert (forallb (fun i => negb (Z.testbit PROC_BASE_TLS_DESCRIPTOR i) || ((40 <=? i) && (i <? 48)) || (52 <=? i)) (seqZ 0 56) = true) as Hall
      by (vm_compute; reflexivity).
    rewrite forallb_forall in Hall. specialize (Hall i). rewrite <- list_elem_of_In, elem_of_seqZ in Hall.
    specialize (Hall ltac:(lia)). rewrite H in Hall. simpl in Hall. bool_hyps; lia || done.
  - exfalso. rewrite (testbit_above _ 56) in H; [done| |lia]. unfold PROC_BASE_TLS_DESCRIPTOR. lia.
Qed.

(** Each bit of a descriptor. *)
Lemma descriptor_bit b i :
  0x1000 <= b <= 0xC0000000 -> 0 <= i ->
  Z.testbit (ProcTlsCreateDescriptor b) i =
    Z.testbit PROC_BASE_TLS_DESCRIPTOR i || ((16 <=? i) && (i <? 40) && Z.testbit b (i - 16)) ||
    ((i <? 16) && Z.testbit (Z.shiftr (0xFFFFFFFF - b) 12) i) ||
    ((48 <=? i) && (i <? 56) && Z.testbit (Z.shiftr (0xFFFFFFFF - b) 12) (i - 32)).
Proof.
  intros Hb Hi. rewrite descriptor_parts by done. set (x := Z.shiftr (0xFFFFFFFF - b) 12).
  rewrite !Z.lor_spec, !Z.land_spec, Z.testbit_ones by lia. f_equal; [f_equal; [f_equal|]|].
  - destruct (Z.leb_spec 16 i); [|by rewrite Z.shiftl_spec_low by lia].
    rewrite Z.shiftl_spec, Z.land_spec, Z.testbit_ones by lia.
    destruct (Z.ltb_spec i 40), (Z.leb_spec 0 (i - 16)), (Z.ltb_spec (i - 16) 24); try lia;
      by rewrite ?andb_true_r, ?andb_false_r.
  - destruct (Z.leb_spec 0 i); [|lia]. by rewrite andb_comm.
  - destruct (Z.leb_spec 48 i).
    + rewrite Z.shiftl_spec, Z.land_spec, (Z.shiftl_spec (Z.ones 8)), Z.testbit_ones by lia.
      destruct (Z.ltb_spec i 56), (Z.leb_spec 0 (i - 32 - 16)), (Z.ltb_spec (i - 32 - 16) 8); try lia;
        by rewrite ?andb_true_r, ?andb_false_r.
    + destruct (Z.ltb_spec i 32); [by rewrite Z.shiftl_spec_low by lia|].
      rewrite Z.shiftl_spec, Z.land_spec, (Z.shiftl_spec_low (Z.ones 8)) by lia. apply andb_false_r.
Qed.

(** The limit of a TLS descriptor reaches from the base to the end of the
    address space in 4 KiB units, but the base loses its high byte: the
    segment starts at [basePtr mod 2^24], the right address only for a base
    below 16 MiB. *)
Theorem ProcTlsCreateDescriptor_fields b :
  0x1000 <= b <= 0xC0000000 ->
  desc_limit (ProcTlsCreateDescriptor b) = (0xFFFFFFFF - b) / 4096 /\
  desc_base (ProcTlsCreateDescriptor b) = b mod 16777216.
Proof.
  intros Hb. assert (forall i, 20 <= i -> Z.testbit (Z.shiftr (0xFFFFFFFF - b) 12) i = false) as Hx.
  { intros i Hi. apply (testbit_above _ 20); [|done]. rewrite Z.shiftr_div_pow2 by lia. change (2 ^ 20) with 1048576.
    change (2 ^ 12) with 4096. zlia. }
  assert (forall i, 0 <= i -> ~ (40 <= i < 48 \/ 52 <= i < 56) -> Z.testbit PROC_BASE_TLS_DESCRIPTOR i = false) as Hfix.
  { intros i Hi Hn. apply not_true_is_false. intros E. by apply Hn, base_descriptor_bits. }
  split.
  - change 4096 with (2 ^ 12). rewrite <- Z.shiftr_div_pow2 by lia. apply Z.bits_inj'. intros i Hi. unfold desc_limit.
    rewrite Z.lor_spec, field_bit, descriptor_bit, Z.add_0_r by lia. destruct (Z.ltb_spec i 16).
    + rewrite Hfix, Z.shiftl_spec_low by lia. destruct (Z.leb_spec 16 i), (Z.leb_spec 48 i); try lia.
      simpl. by rewrite !orb_false_r.
    + rewrite Z.shiftl_spec, field_bit by lia. destruct (Z.ltb_spec (i - 16) 4); simpl; [|by rewrite Hx by lia].
      rewrite descriptor_bit, Hfix by lia.
      destruct (Z.ltb_spec (i - 16 + 48) 40), (Z.ltb_spec (i - 16 + 48) 16), (Z.leb_spec 48 (i - 16 + 48)), (Z.ltb_spec (i - 16 + 48) 56); try lia.
      rewrite andb_false_r. simpl. f_equal. lia.
  - change 16777216 with (2 ^ 24). rewrite <- Z.land_ones by lia. apply Z.bits_inj'. intros i Hi. unfold desc_base.
    rewrite Z.lor_spec, field_bit, Z.land_spec, Z.testbit_ones by lia. destruct (Z.ltb_spec i 24).
    + rewrite descriptor_bit, Hfix, Z.shiftl_spec_low by lia.
      destruct (Z.leb_spec 16 (i + 16)), (Z.ltb_spec (i + 16) 40), (Z.ltb_spec (i + 16) 16), (Z.leb_spec 48 (i + 16)), (Z.leb_spec 0 i); try lia.
      simpl. rewrite !orb_false_r, andb_true_r. f_equal. lia.
    + rewrite Z.shiftl_spec, field_bit, andb_false_r by lia. simpl.
      destruct (Z.ltb_spec (i - 24) 8); [|by rewrite andb_false_r]. rewrite descriptor_bit, Hfix by lia.
      destruct (Z.ltb_spec (i - 24 + 56) 40), (Z.ltb_spec (i - 24 + 56) 16), (Z.ltb_spec (i - 24 + 56) 56); try lia.
Qed.

Lemma ProcTlsCreateDescriptor_fields_witness : desc_base (ProcTlsCreateDescriptor 0x08048000) = 0x48000.
Proof. refine (proj2 (ProcTlsCreateDescriptor_fields 0x08048000 _)). lia. Defined.
