(* ===== verification/Fs.v ===== *)
(** * Filesystems, nodes and open files: the data (include/io/fs.h, include/io/iocontext.h)

    Objects are known by their addresses, the operations of a filesystem by
    the address of their table. Operations act on a world [W]: the state of
    the filesystems, devices and drivers behind them. A NULL operation is
    [None]. *)
From S2P Require Import Prelude.

(** ** Nodes and files *)

Record IoINode := mkINode {
  number : Z; ifs : Z; iops : Z; imode : Z; iuid : Z; igid : Z; isize : Z
}.

(** [fops] is the address of the operations table. *)
Record IoFile := mkFile { refCount : Z; off : Z; fflags : Z; fs : Z; iNode : Z; fsData : Z; fops : Z }.

Definition set_number (i : IoINode) (n : Z) : IoINode := mkINode n (ifs i) (iops i) (imode i) (iuid i) (igid i) (isize i).
Definition set_mode (i : IoINode) (m : Z) : IoINode := mkINode (number i) (ifs i) (iops i) m (iuid i) (igid i) (isize i).
Definition set_frefCount (f : IoFile) (n : Z) : IoFile :=
  mkFile n (off f) (fflags f) (fs f) (iNode f) (fsData f) (fops f).
Definition set_off (f : IoFile) (n : Z) : IoFile :=
  mkFile (refCount f) n (fflags f) (fs f) (iNode f) (fsData f) (fops f).

(** ** Directory entries *)

Record IoReadDirEntry := mkDirEntry { diNode : Z; dname : list Z }.

(** What a filler gets: the next entry, the number of entries left, and the
    entries by address. *)
Record ReadDirFillerBuf := mkFillerBuf { nextEntry : Z; rdCount : Z; rdEntries : gmap Z IoReadDirEntry }.

(** The buffer, the iNode number and the name. *)
Definition IoDirectoryFiller : Type := ReadDirFillerBuf -> Z -> list Z -> Z * ReadDirFillerBuf.

(** ** Operations *)

(** Opening and reading a directory can change the file object; the others
    leave it alone. *)
Record IoFileOps (W : Type) := mkOps {
  op_open : option (IoINode -> IoFile -> W -> outcome (Z * IoFile * W));
  op_close : option (IoFile -> W -> outcome (Z * W));
  op_read : option (IoFile -> Z -> Z -> W -> outcome (Z * W));
  op_write : option (IoFile -> Z -> Z -> W -> outcome (Z * W));
  op_ioctl : option (IoFile -> Z -> Z -> W -> outcome (Z * W));
  op_truncate : option (IoFile -> Z -> W -> outcome (Z * W));
  op_readdir : option (IoFile -> ReadDirFillerBuf -> IoDirectoryFiller -> Z -> W ->
                       outcome (Z * IoFile * ReadDirFillerBuf * W))
}.
Arguments op_open {W}. Arguments op_close {W}. Arguments op_read {W}. Arguments op_write {W}.
Arguments op_ioctl {W}. Arguments op_truncate {W}. Arguments op_readdir {W}.

(** [findINode] gets the name as its bytes and returns what it leaves in
    *iNodeNum, which holds the parent's number before. *)
Record IoFilesystemOps (W : Type) := mkFsOps {
  op_umount : option (Z -> W -> outcome (Z * W));
  op_readINode : IoINode -> W -> outcome (Z * IoINode * W);
  op_findINode : Z -> Z -> list Z -> W -> outcome (Z * Z * W);
  op_create : option (Z -> IoINode -> list Z -> Z -> W -> outcome (Z * Z * W))
}.
Arguments op_umount {W}. Arguments op_readINode {W}. Arguments op_findINode {W}. Arguments op_create {W}.

(** ** Filesystems *)

(** [mountPoints] is the finite map from iNodes to filesystems that HTable.v
    shows its hash table to be. *)
Record IoFilesystem := mkFs {
  fsType : Z; device : Z; fsops : Z; rootINode : Z; fsRefCount : Z; fsflags : Z; fsfsData : Z;
  parentFs : Z; parentINode : Z; mountPoints : gmap Z Z
}.

Definition set_fsRefCount (f : IoFilesystem) (n : Z) : IoFilesystem :=
  mkFs (fsType f) (device f) (fsops f) (rootINode f) n (fsflags f) (fsfsData f) (parentFs f) (parentINode f) (mountPoints f).
Definition set_mountPoints (f : IoFilesystem) (m : gmap Z Z) : IoFilesystem :=
  mkFs (fsType f) (device f) (fsops f) (rootINode f) (fsRefCount f) (fsflags f) (fsfsData f) (parentFs f) (parentINode f) m.
Definition set_fs_root (f : IoFilesystem) (ops root : Z) : IoFilesystem :=
  mkFs (fsType f) (device f) ops root (fsRefCount f) (fsflags f) (fsfsData f) (parentFs f) (parentINode f) (mountPoints f).

Definition IO_MOUNT_RDONLY : Z := 1.

(** ** Filesystem types and devices *)

(** [tmount] gets the new filesystem and fills it in. *)
Record IoFilesystemType (W : Type) := mkFsType {
  tname : list Z; trefCount : Z; tmount : IoFilesystem -> W -> outcome (Z * IoFilesystem * W)
}.
Arguments mkFsType {W}. Arguments tname {W}. Arguments trefCount {W}. Arguments tmount {W}.

Definition set_trefCount {W} (t : IoFilesystemType W) (n : Z) : IoFilesystemType W := mkFsType (tname t) n (tmount t).

(** [devOps] is the address of the operations table. *)
Record IoDevice := mkDevice {
  dvname : list Z; dvmode : Z; dvuid : Z; dvgid : Z; devFsINode : Z; blockCache : Z; mounted : bool; devOps : Z
}.

Definition set_mounted (d : IoDevice) (b : bool) : IoDevice :=
  mkDevice (dvname d) (dvmode d) (dvuid d) (dvgid d) (devFsINode d) (blockCache d) b (devOps d).
Definition set_devFsINode (d : IoDevice) (n : Z) : IoDevice :=
  mkDevice (dvname d) (dvmode d) (dvuid d) (dvgid d) n (blockCache d) (mounted d) (devOps d).

(** Operations get the device's address; reading and writing also the offset,
    the buffer and the count. *)
Record IoDeviceOps (D : Type) := mkDevOps {
  dev_open : option (Z -> D -> outcome (Z * D));
  dev_close : option (Z -> D -> outcome D);
  dev_read : option (Z -> Z -> Z -> Z -> D -> outcome (Z * D));
  dev_write : option (Z -> Z -> Z -> Z -> D -> outcome (Z * D));
  dev_ioctl : option (Z -> Z -> Z -> D -> outcome (Z * D))
}.
Arguments mkDevOps {D}. Arguments dev_open {D}. Arguments dev_close {D}. Arguments dev_read {D}.
Arguments dev_write {D}. Arguments dev_ioctl {D}.
