(* ===== verification/Mode.v ===== *)
(** * File permissions (src/io/mode.c, include/io/mode.h, include/secContext.h)

    Modes are the octal permission words of Unix: owner bits 6-8, group bits
    3-5, world bits 0-2. *)
From S2P Require Import Prelude Fs.

Definition IO_OWNER_READ : Z := 256.
Definition IO_OWNER_WRITE : Z := 128.
Definition IO_OWNER_EXEC : Z := 64.
Definition IO_OWNER_ALL : Z := 448.
Definition IO_GROUP_READ : Z := 32.
Definition IO_GROUP_EXEC : Z := 8.
Definition IO_GROUP_ALL : Z := 56.
Definition IO_WORLD_READ : Z := 4.
Definition IO_WORLD_WRITE : Z := 2.
Definition IO_WORLD_EXEC : Z := 1.
Definition IO_WORLD_ALL : Z := 7.
Definition IO_FIFO : Z := 0x1000.
Definition IO_DEV_CHAR : Z := 0x2000.
Definition IO_DIR : Z := 0x4000.
Definition IO_DEV_BLOCK : Z := 0x6000.
Definition IO_REGULAR : Z := 0x8000.
Definition IO_SYMLINK : Z := 0xA000.
Definition IO_SOCKET : Z := 0xC000.
Definition IO_ALL_TYPES : Z := 0xF000.

Definition IO_ISCHAR (mode : Z) : bool := Z.land mode IO_ALL_TYPES =? IO_DEV_CHAR.
Definition IO_ISBLOCK (mode : Z) : bool := Z.land mode IO_ALL_TYPES =? IO_DEV_BLOCK.
Definition IO_ISDIR (mode : Z) : bool := Z.land mode IO_ALL_TYPES =? IO_DIR.
Definition IO_ISREGULAR (mode : Z) : bool := Z.land mode IO_ALL_TYPES =? IO_REGULAR.
Definition IO_ISFIFO (mode : Z) : bool := Z.land mode IO_ALL_TYPES =? IO_FIFO.
Definition IO_ISSYMLINK (mode : Z) : bool := Z.land mode IO_ALL_TYPES =? IO_SYMLINK.
Definition IO_ISSOCKET (mode : Z) : bool := Z.land mode IO_ALL_TYPES =? IO_SOCKET.

Record SecContext := mkSec { ruid : Z; euid : Z; suid : Z; rgid : Z; egid : Z; sgid : Z }.

Definition SecContextIsRoot (c : SecContext) : bool := euid c =? 0.

Definition IoModeCanAccess (accessMode mode uid gid : Z) (secContext : SecContext) : bool :=
  if euid secContext =? 0 then true
  else if euid secContext =? uid then truth (Z.land mode accessMode)
  else if egid secContext =? gid then truth (Z.land mode (Z.shiftl accessMode 3))
  else truth (Z.land mode (Z.shiftl accessMode 6)).

Definition IoModeCanAccessINode (accessMode : Z) (iNode : IoINode) (secContext : SecContext) : bool :=
  IoModeCanAccess accessMode (imode iNode) (iuid iNode) (igid iNode) secContext.

(** The permissions the header describes: every bit asked for, in the owner's,
    group's or world's position. *)
Definition posix_access (accessMode mode uid gid : Z) (c : SecContext) : bool :=
  let shift := if euid c =? uid then 6 else if egid c =? gid then 3 else 0 in
  SecContextIsRoot c || (Z.land mode (Z.shiftl accessMode shift) =? Z.shiftl accessMode shift).

(** On a private file (mode 0600), the owner is refused and every user
    outside the group is let in: the owner's and the world's bits are taken
    for each other. *)
Theorem private_file_access accessMode uid gid c :
  accessMode = IO_WORLD_READ \/ accessMode = IO_WORLD_WRITE -> SecContextIsRoot c = false ->
  (euid c = uid -> IoModeCanAccess accessMode 0x180 uid gid c = false /\ posix_access accessMode 0x180 uid gid c = true) /\
  (euid c <> uid -> egid c <> gid ->
   IoModeCanAccess accessMode 0x180 uid gid c = true /\ posix_access accessMode 0x180 uid gid c = false).
Proof.
  unfold IoModeCanAccess, posix_access, SecContextIsRoot. intros Hm ->. split.
  - intros ->. rewrite Z.eqb_refl. by destruct Hm as [-> | ->].
  - intros H1 H2. apply Z.eqb_neq in H1, H2. rewrite H1, H2. by destruct Hm as [-> | ->].
Qed.

Lemma private_file_access_witness :
  IoModeCanAccess IO_WORLD_READ 0x180 1000 100 (mkSec 1000 1000 1000 100 100 100) = false.
Proof.
  refine (proj1 (proj1 (private_file_access IO_WORLD_READ 1000 100 (mkSec 1000 1000 1000 100 100 100) _ _) _)).
  - left. reflexivity.
  - reflexivity.
  - reflexivity.
Defined.

(** For the single permissions the group is checked as documented, and
    root may do anything. *)
Theorem group_and_root_access accessMode mode uid gid c :
  accessMode = IO_WORLD_READ \/ accessMode = IO_WORLD_WRITE \/ accessMode = IO_WORLD_EXEC ->
  SecContextIsRoot c = true \/ (euid c <> uid /\ egid c = gid) ->
  IoModeCanAccess accessMode mode uid gid c = posix_access accessMode mode uid gid c.
Proof.
  unfold IoModeCanAccess, posix_access, SecContextIsRoot. intros Hm [-> | [H1 H2]]; [done|].
  destruct (euid c =? 0); [done|]. apply Z.eqb_neq in H1. rewrite H1, H2, Z.eqb_refl. simpl.
  assert (forall k, 0 <= k -> truth (Z.land mode (2 ^ k)) = (Z.land mode (2 ^ k) =? 2 ^ k)) as Hone.
  { intros k Hk. assert (Z.land mode (2 ^ k) = if Z.testbit mode k then 2 ^ k else 0) as ->.
    { apply Z.bits_inj'. intros i Hi. rewrite Z.land_spec, Z.pow2_bits_eqb by lia.
      destruct (Z.eqb_spec k i) as [<-|]; destruct (Z.testbit mode k) eqn:E;
        rewrite ?E, ?Z.bits_0, ?andb_false_r, ?Z.pow2_bits_eqb by lia; rewrite ?Z.eqb_refl; try done.
      symmetry. by apply Z.eqb_neq. }
    assert (2 ^ k <> 0) by (apply Z.pow_nonzero; lia). unfold truth. destruct (Z.testbit mode k).
    - rewrite Z.eqb_refl. by apply negb_true_iff, Z.eqb_neq.
    - symmetry. apply Z.eqb_neq. lia. }
  destruct Hm as [-> | [-> | ->]]; [apply (Hone 5)|apply (Hone 4)|apply (Hone 3)]; lia.
Qed.
