(* ===== verification/IoContext.v ===== *)
(** * Open files and descriptors (src/io/iocontext.c, include/io/iocontext.h)

    A context maps descriptors to file objects; the objects live in a store
    of their own because several descriptors can share one. The operations of
    a file belong to its filesystem: they are a record of functions on an
    outer world [W], and they leave the context alone while they run. *)
From S2P Require Import Prelude Errno Fs.

(** ** Data *)

Definition IO_MAX_OPEN_FILES : Z := 1024.
Definition IO_NAME_MAX : Z := 255.
Definition IO_DUP_AT_LEAST : Z := 1.
Definition IO_DUP_IGNORE_SAME : Z := 2.
Definition IO_O_RDONLY : Z := 0x01.
Definition IO_O_WRONLY : Z := 0x02.
Definition IO_O_RDWR : Z := Z.lor IO_O_RDONLY IO_O_WRONLY.
Definition IO_O_CREAT : Z := 0x04.
Definition IO_O_TRUNC : Z := 0x08.
Definition IO_O_APPEND : Z := 0x10.
Definition IO_O_EXCL : Z := 0x20.
Definition IO_O_CLOEXEC : Z := 0x40.
Definition IO_O_DIRECTORY : Z := 0x80.
Definition IO_O_ALLFLAGS : Z := 0xFF.
Definition IO_O_FDRESERVED : Z := 0x01.

Record IoContext := mkIoContext {
  files : list Z; descriptorFlags : list Z; nextFreeFile : Z;
  cdirFs : Z; cdirINode : Z; ctxRefCount : Z
}.

Definition set_files (c : IoContext) (l : list Z) : IoContext :=
  mkIoContext l (descriptorFlags c) (nextFreeFile c) (cdirFs c) (cdirINode c) (ctxRefCount c).
Definition set_dflags (c : IoContext) (l : list Z) : IoContext :=
  mkIoContext (files c) l (nextFreeFile c) (cdirFs c) (cdirINode c) (ctxRefCount c).
Definition set_nextFree (c : IoContext) (n : Z) : IoContext :=
  mkIoContext (files c) (descriptorFlags c) n (cdirFs c) (cdirINode c) (ctxRefCount c).
Definition set_ctxRefCount (c : IoContext) (n : Z) : IoContext :=
  mkIoContext (files c) (descriptorFlags c) (nextFreeFile c) (cdirFs c) (cdirINode c) n.

(** File objects by address. *)
Abbreviation fstore := (gmap Z IoFile).

(** ** Contexts *)

(** IoContextCreate, with the root filesystem (its address, 0 when there is
    none) and its root iNode. *)
Definition IoContextCreate (root rootINode : Z) : option IoContext :=
  if root =? 0 then None
  else Some (mkIoContext (replicate (Z.to_nat IO_MAX_OPEN_FILES) 0) (replicate (Z.to_nat IO_MAX_OPEN_FILES) 0)
               0 root rootINode 1).

Definition IoContextAddReference (c : IoContext) : IoContext := set_ctxRefCount c (u32 (ctxRefCount c + 1)).

(** for(i = 0; i < IO_MAX_OPEN_FILES; i++) if(files[i]) files[i]->refCount++ *)
Fixpoint clone_loop (l : list Z) (st : fstore) : outcome fstore :=
  match l with
  | [] => Ret st
  | p :: rest =>
      if p =? 0 then clone_loop rest st
      else f ← or_fault (st !! p); clone_loop rest (<[p := set_frefCount f (u32 (refCount f + 1))]> st)
  end.

Definition IoContextClone (c : IoContext) (st : fstore) : outcome (IoContext * fstore) :=
  st' ← clone_loop (files c) st; Ret (set_ctxRefCount c 1, st').

(** NULL is 0. *)
Definition IoGetFileWithContext (c : IoContext) (fd : Z) : Z :=
  if (0 <=? fd) && (fd <? IO_MAX_OPEN_FILES) then default 0 (zget (files c) fd) else 0.

(** On the context of the current process, [None] when it has none. *)
Definition IoGetFile (current : option IoContext) (fd : Z) : Z :=
  match current with
  | Some c => if (0 <=? fd) && (fd <? IO_MAX_OPEN_FILES) then default 0 (zget (files c) fd) else 0
  | None => 0
  end.

(** for(int i = start; i < IO_MAX_OPEN_FILES; i++): [n] descriptors are left. *)
Fixpoint find_descriptor (n : nat) (c : IoContext) (i : Z) : Z :=
  match n with
  | O => -1
  | S n' =>
      if (default 0 (zget (files c) i) =? 0) &&
         (Z.land (default 0 (zget (descriptorFlags c) i)) IO_O_FDRESERVED =? 0)
      then i else find_descriptor n' c (i + 1)
  end.

Definition IoFindNextDescriptor (c : IoContext) (fd : Z) : Z :=
  let start := nextFreeFile c in
  let start := if start <? fd then fd else start in
  find_descriptor (Z.to_nat (IO_MAX_OPEN_FILES - start)) c start.

Section WithFilesystems.
Context {W : Type} (ops : Z -> IoFileOps W).

(** ** Closing *)

(** The file object is freed only when its descriptor still refers to it. *)
Definition IoReleaseFile (p fd : Z) (c : IoContext) (st : fstore) (w : W)
  : outcome (Z * IoContext * fstore * W) :=
  f ← or_fault (st !! p);
  if refCount f <=? 1 then
    '(res, w1) ← match op_close (ops (fops f)) with Some close => close f w | None => Ret (0, w) end;
    if negb (res =? 0) then Ret (res, c, st, w1)
    else
      cur ← or_fault (zget (files c) fd);
      if cur =? p then
        let c1 := set_files c (zset (files c) fd 0) in
        let c2 := if nextFreeFile c1 <? fd then set_nextFree c1 fd else c1 in
        Ret (0, c2, delete p st, w1)
      else Ret (0, c, st, w1)
  else Ret (0, c, <[p := set_frefCount f (refCount f - 1)]> st, w).

(** IO_GET_FILE: look the descriptor up and take a reference. *)
Definition io_get (c : IoContext) (fd : Z) (st : fstore) : outcome (option (Z * IoFile * fstore)) :=
  let p := IoGetFileWithContext c fd in
  if p =? 0 then Ret None
  else
    f ← or_fault (st !! p);
    let f' := set_frefCount f (u32 (refCount f + 1)) in
    Ret (Some (p, f', <[p := f']> st)).

Definition IoClose (fd : Z) (c : IoContext) (st : fstore) (w : W) : outcome (Z * IoContext * fstore * W) :=
  g ← io_get c fd st;
  match g with
  | None => Ret (- EBADF, c, st, w)
  | Some (p, f, st1) =>
      let st2 := <[p := set_frefCount f (u32 (refCount f - 1))]> st1 in
      IoReleaseFile p fd c st2 w
  end.

(** The loop of IoContextDeleteReference over the descriptors [fd ..]. *)
Fixpoint release_all (n : nat) (fd : Z) (c : IoContext) (st : fstore) (w : W) : outcome (IoContext * fstore * W) :=
  match n with
  | O => Ret (c, st, w)
  | S n' =>
      p ← or_fault (zget (files c) fd);
      '(c1, st1, w1) ← (if p =? 0 then Ret (c, st, w)
                        else '(_, c1, st1, w1) ← IoReleaseFile p fd c st w; Ret (c1, st1, w1));
      release_all n' (fd + 1) c1 st1 w1
  end.

(** None: the context was freed. *)
Definition IoContextDeleteReference (c : IoContext) (st : fstore) (w : W) : outcome (option IoContext * fstore * W) :=
  if ctxRefCount c <=? 1 then
    '(_, st1, w1) ← release_all (Z.to_nat IO_MAX_OPEN_FILES) 0 c st w; Ret (None, st1, w1)
  else Ret (Some (set_ctxRefCount c (ctxRefCount c - 1)), st, w).

Fixpoint close_for_exec (n : nat) (fd : Z) (c : IoContext) (st : fstore) (w : W) : outcome (IoContext * fstore * W) :=
  match n with
  | O => Ret (c, st, w)
  | S n' =>
      p ← or_fault (zget (files c) fd);
      fl ← or_fault (zget (descriptorFlags c) fd);
      '(c1, st1, w1) ← (if negb (p =? 0) && truth (Z.land fl IO_O_CLOEXEC)
                        then '(_, c1, st1, w1) ← IoClose fd c st w; Ret (c1, st1, w1)
                        else Ret (c, st, w));
      close_for_exec n' (fd + 1) c1 st1 w1
  end.

Definition IoCloseForExec (c : IoContext) (st : fstore) (w : W) : outcome (IoContext * fstore * W) :=
  close_for_exec (Z.to_nat IO_MAX_OPEN_FILES) 0 c st w.

(** ** Operations on an open file *)

(** Take a reference, run [body] on the file object, release. *)
Definition with_file (fd : Z) (c : IoContext) (st : fstore) (w : W)
    (body : Z -> IoFile -> IoContext -> fstore -> W -> outcome (Z * IoContext * fstore * W))
  : outcome (Z * IoContext * fstore * W) :=
  g ← io_get c fd st;
  match g with
  | None => Ret (- EBADF, c, st, w)
  | Some (p, f, st1) =>
      '(res, c1, st2, w1) ← body p f c st1 w;
      '(_, c2, st3, w2) ← IoReleaseFile p fd c1 st2 w1;
      Ret (res, c2, st3, w2)
  end.

(** Reading or writing: [mode] is the flag required, [buffer_ok] the memory
    check of the buffer, [op] the operation. *)
Definition transfer (mode : Z) (buffer_ok : bool) (op : option (IoFile -> Z -> Z -> W -> outcome (Z * W))) (buffer count : Z)
    (p : Z) (f : IoFile) (c : IoContext) (st : fstore) (w : W) : outcome (Z * IoContext * fstore * W) :=
  if negb (truth (Z.land (fflags f) mode)) then Ret (- EBADF, c, st, w)
  else if truth (Z.land (fflags f) IO_O_DIRECTORY) then Ret (- EISDIR, c, st, w)
  else if negb buffer_ok then Ret (- EFAULT, c, st, w)
  else match op with
       | None => Ret (- ENOSYS, c, st, w)
       | Some g =>
           '(res, w1) ← g f buffer count w;
           Ret (res, c, if 0 <? res then <[p := set_off f (u32 (off f + res))]> st else st, w1)
       end.

(** [canRead] and [canWrite] are the pointer checks of the memory manager. *)
Definition IoRead (canRead : Z -> Z -> bool) (fd buffer count : Z) (c : IoContext) (st : fstore) (w : W) :=
  with_file fd c st w (fun p f => transfer IO_O_RDONLY (canRead buffer count) (op_read (ops (fops f))) buffer count p f).

Definition IoWrite (canWrite : Z -> Z -> bool) (fd buffer count : Z) (c : IoContext) (st : fstore) (w : W) :=
  with_file fd c st w (fun p f => transfer IO_O_WRONLY (canWrite buffer count) (op_write (ops (fops f))) buffer count p f).

Definition IoIoctl (fd request data : Z) (c : IoContext) (st : fstore) (w : W) :=
  with_file fd c st w (fun p f c st w =>
    match op_ioctl (ops (fops f)) with
    | Some g => '(res, w1) ← g f request data w; Ret (res, c, st, w1)
    | None => Ret (- ENOTTY, c, st, w)
    end).

Definition IoTruncate (fd size : Z) (c : IoContext) (st : fstore) (w : W) :=
  with_file fd c st w (fun p f c st w =>
    match op_truncate (ops (fops f)) with
    | Some g => '(res, w1) ← g f size w; Ret (res, c, st, w1)
    | None => Ret (- ENOSYS, c, st, w)
    end).

(** ** Duplicating *)

(** The descriptor IoDup will use and the result so far; 1 means go on. *)
Definition dup_target (fd newFd flags : Z) (c : IoContext) (st : fstore) (w : W)
  : outcome (Z * Z * IoContext * fstore * W) :=
  if truth (Z.land flags IO_DUP_AT_LEAST) then
    let newFd := IoFindNextDescriptor c newFd in
    Ret (newFd, if newFd =? -1 then - EMFILE else 1, c, st, w)
  else if fd =? newFd then Ret (newFd, if truth (Z.land flags IO_DUP_IGNORE_SAME) then 0 else - EINVAL, c, st, w)
  else if (newFd <? 0) || (IO_MAX_OPEN_FILES <=? newFd) then Ret (newFd, - EBADF, c, st, w)
  else
    fl ← or_fault (zget (descriptorFlags c) newFd);
    if truth (Z.land fl IO_O_FDRESERVED) then Ret (newFd, - EBUSY, c, st, w)
    else
      old ← or_fault (zget (files c) newFd);
      if negb (old =? 0) then
        '(closeRes, c1, st1, w1) ← IoClose newFd c st w;
        Ret (newFd, if negb (closeRes =? 0) then closeRes else 1, c1, st1, w1)
      else Ret (newFd, 1, c, st, w).

Definition IoDup (fd newFd flags : Z) (c : IoContext) (st : fstore) (w : W) :=
  with_file fd c st w (fun p _ c st w =>
    '(newFd, res, c1, st1, w1) ← dup_target fd newFd flags c st w;
    if res =? 1 then
      f ← or_fault (st1 !! p);
      Ret (0, set_dflags (set_files c1 (zset (files c1) newFd p))
                (zset (descriptorFlags c1) newFd (s8 (Z.land flags IO_O_CLOEXEC))),
           <[p := set_frefCount f (u32 (refCount f + 1))]> st1, w1)
    else Ret (res, c1, st1, w1)).

(** ** Reading directories *)

(** sizeof(IoReadDirEntry): four bytes, the name, and padding. *)
Definition sizeof_IoReadDirEntry : Z := 260.

(** [canWrite] is MemCommitForWrite. *)
Definition readDirFiller (canWrite : Z -> Z -> bool) (buf : ReadDirFillerBuf) (iNode : Z) (name : list Z)
  : Z * ReadDirFillerBuf :=
  if rdCount buf =? 0 then (- EINVAL, buf)
  else if negb (canWrite (nextEntry buf) sizeof_IoReadDirEntry) then (- EFAULT, buf)
  else
    (0, mkFillerBuf (u32 (nextEntry buf + sizeof_IoReadDirEntry)) (u32 (rdCount buf - 1))
          (<[nextEntry buf := mkDirEntry iNode (firstn 255 name)]> (rdEntries buf))).

(** [canRange] is MemCanWrite on the whole buffer. *)
Definition IoReadDir (canRange canWrite : Z -> Z -> bool) (fd buffer count : Z) (entries : gmap Z IoReadDirEntry)
    (c : IoContext) (st : fstore) (w : W) : outcome (gmap Z IoReadDirEntry * (Z * IoContext * fstore * W)) :=
  g ← io_get c fd st;
  match g with
  | None => Ret (entries, (- EBADF, c, st, w))
  | Some (p, f, st1) =>
      '(entries', res, st2, w1) ←
        (if negb (truth (Z.land (fflags f) IO_O_DIRECTORY)) then Ret (entries, - ENOTDIR, st1, w)
         else if negb (canRange buffer (u32 (count * sizeof_IoReadDirEntry))) then Ret (entries, - EFAULT, st1, w)
         else if negb (count =? 0) then
           match op_readdir (ops (fops f)) with
           | Some readdir =>
               '(res, f', buf, w1) ← readdir f (mkFillerBuf buffer (u32 count) entries) (readDirFiller canWrite) count w;
               Ret (rdEntries buf, if res =? 0 then s32 (count - rdCount buf) else res, <[p := f']> st1, w1)
           | None => Ret (entries, - ENOSYS, st1, w)
           end
         else Ret (entries, 0, st1, w));
      '(_, c2, st3, w2) ← IoReleaseFile p fd c st2 w1;
      Ret (entries', (res, c2, st3, w2))
  end.
End WithFilesystems.

(** ** Finding a descriptor *)

Definition descriptor_free (c : IoContext) (i : Z) : Prop :=
  default 0 (zget (files c) i) = 0 /\ Z.land (default 0 (zget (descriptorFlags c) i)) IO_O_FDRESERVED = 0.

#[export] Instance descriptor_free_dec c i : Decision (descriptor_free c i).
Proof. unfold descriptor_free. apply _. Defined.

Lemma find_descriptor_spec n : forall c i,
  (find_descriptor n c i = -1 /\ forall j, i <= j < i + Z.of_nat n -> ~ descriptor_free c j) \/
  (i <= find_descriptor n c i < i + Z.of_nat n /\ descriptor_free c (find_descriptor n c i) /\
   forall j, i <= j < find_descriptor n c i -> ~ descriptor_free c j).
Proof.
  induction n as [|n IH]; intros c i; simpl; [left; split; [done|lia]|].
  destruct (_ && _) eqn:E.
  - right. split_and!; [lia|lia| |lia]. apply andb_true_iff in E as [E1%Z.eqb_eq E2%Z.eqb_eq]. done.
  - assert (~ descriptor_free c i) as Hi.
    { intros [H1 H2]. rewrite H1, H2 in E. done. }
    destruct (IH c (i + 1)) as [(-> & Hno)|(Hr & Hf & Hlow)].
    + left. split; [done|]. intros j Hj. destruct (Z.eq_dec j i) as [->|]; [done|]. apply Hno. lia.
    + right. split_and!; [lia|lia|done|]. intros j Hj. destruct (Z.eq_dec j i) as [->|]; [done|]. apply Hlow. lia.
Qed.

(** IoFindNextDescriptor returns the lowest free descriptor that is at
    least [fd] and at least the hint, or -1 when there is none. *)
Theorem IoFindNextDescriptor_lowest c fd :
  0 <= nextFreeFile c ->
  let r := IoFindNextDescriptor c fd in
  let lo := Z.max (nextFreeFile c) fd in
  (r = -1 /\ forall j, lo <= j < IO_MAX_OPEN_FILES -> ~ descriptor_free c j) \/
  (lo <= r < IO_MAX_OPEN_FILES /\ descriptor_free c r /\ forall j, lo <= j < r -> ~ descriptor_free c j).
Proof.
  intros H0 r lo. subst r. unfold IoFindNextDescriptor.
  replace (if nextFreeFile c <? fd then fd else nextFreeFile c) with lo by (unfold lo; destruct (Z.ltb_spec (nextFreeFile c) fd); lia).
  assert (0 <= lo) by lia.
  destruct (find_descriptor_spec (Z.to_nat (IO_MAX_OPEN_FILES - lo)) c lo) as [(-> & Hno)|(Hr & Hf & Hlow)].
  - left. split; [done|]. intros j Hj. apply Hno. lia.
  - right. split_and!; [lia|lia|done|done].
Qed.

(** A fresh context whose descriptor 0 is open on the file at 500. *)
Definition small_context : IoContext :=
  mkIoContext (500 :: replicate 1023 0) (replicate 1024 0) 0 1 2 1.

Definition small_file : IoFile := mkFile 1 10 IO_O_RDONLY 1 7 0 0.
Definition small_files : fstore := <[500 := small_file]> ∅.

Lemma IoFindNextDescriptor_lowest_witness :
  let r := IoFindNextDescriptor small_context 0 in
  (r = -1 /\ forall j, 0 <= j < IO_MAX_OPEN_FILES -> ~ descriptor_free small_context j) \/
  (0 <= r < IO_MAX_OPEN_FILES /\ descriptor_free small_context r /\ forall j, 0 <= j < r -> ~ descriptor_free small_context j).
Proof. refine (IoFindNextDescriptor_lowest small_context 0 _). simpl. lia. Defined.

(** ** Reading *)

Section Properties.
Context {W : Type} (ops : Z -> IoFileOps W).

(** The descriptor [fd] refers to the file [f] at [p]. *)
Definition opens (c : IoContext) (st : fstore) (fd p : Z) (f : IoFile) : Prop :=
  0 <= fd < IO_MAX_OPEN_FILES /\ zget (files c) fd = Some p /\ p <> 0 /\ st !! p = Some f /\
  1 <= refCount f < 4294967295.

Lemma io_get_opens c st fd p f :
  opens c st fd p f ->
  io_get c fd st = Ret (Some (p, set_frefCount f (refCount f + 1), <[p := set_frefCount f (refCount f + 1)]> st)).
Proof.
  intros (Hfd & Hz & Hp & Hst & Hrc). unfold io_get, IoGetFileWithContext.
  destruct (Z.leb_spec 0 fd); [|lia]. destruct (Z.ltb_spec fd IO_MAX_OPEN_FILES); [|lia]. simpl. rewrite Hz. simpl.
  destruct (Z.eqb_spec p 0); [done|]. rewrite Hst. simpl.
  assert (u32 (refCount f + 1) = refCount f + 1) as -> by (apply Z.mod_small; lia). done.
Qed.

(** Releasing one of several references. *)
Lemma IoReleaseFile_shared p fd c st w f :
  st !! p = Some f -> 1 < refCount f ->
  IoReleaseFile ops p fd c st w = Ret (0, c, <[p := set_frefCount f (refCount f - 1)]> st, w).
Proof.
  intros Hst Hrc. unfold IoReleaseFile. rewrite Hst. simpl. destruct (Z.leb_spec (refCount f) 1); [lia|done].
Qed.

(** Reading from an open file. *)
Lemma read_opened canRead fd buffer count c st w p f g res w' :
  opens c st fd p f -> truth (Z.land (fflags f) IO_O_RDONLY) = true ->
  truth (Z.land (fflags f) IO_O_DIRECTORY) = false -> canRead buffer count = true ->
  op_read (ops (fops f)) = Some g ->
  g (set_frefCount f (refCount f + 1)) buffer count w = Ret (res, w') ->
  IoRead ops canRead fd buffer count c st w =
    Ret (res, c, <[p := if 0 <? res then set_off f (u32 (off f + res)) else f]> st, w').
Proof.
  intros Ho Hr Hd Hc Hg Eg.
  unfold IoRead, with_file. rewrite (io_get_opens _ _ _ _ _ Ho). simpl.
  unfold transfer. simpl. rewrite Hr, Hd, Hc, Hg. simpl. rewrite Eg. simpl.
  destruct Ho as (_ & _ & _ & Hst & Hrc). destruct (0 <? res).
  - rewrite (IoReleaseFile_shared _ _ _ _ _ (set_off (set_frefCount f (refCount f + 1)) (u32 (off f + res))));
      [|apply lookup_insert_eq|simpl; lia].
    simpl. unfold set_frefCount, set_off. simpl. by rewrite !insert_insert_eq, Z.add_simpl_r.
  - rewrite (IoReleaseFile_shared _ _ _ _ _ (set_frefCount f (refCount f + 1))); [|apply lookup_insert_eq|simpl; lia].
    simpl. unfold set_frefCount. simpl. rewrite insert_insert_eq, Z.add_simpl_r. by destruct f.
Qed.

(** A read on a descriptor open for reading passes the file, the buffer
    and the count to the filesystem and returns its result; the offset moves
    by the bytes read, and the descriptor table and the reference count are
    as before. *)
Theorem IoRead_reads canRead fd buffer count c st w p f g res w' :
  opens c st fd p f -> truth (Z.land (fflags f) IO_O_RDONLY) = true ->
  truth (Z.land (fflags f) IO_O_DIRECTORY) = false -> canRead buffer count = true ->
  op_read (ops (fops f)) = Some g ->
  g (set_frefCount f (refCount f + 1)) buffer count w = Ret (res, w') ->
  IoRead ops canRead fd buffer count c st w =
    Ret (res, c, <[p := if 0 <? res then set_off f (u32 (off f + res)) else f]> st, w').
Proof. apply read_opened. Qed.

(** ** Closing *)

(** The file has no close operation, or its close succeeds. *)
Definition closes (f : IoFile) (w w' : W) : Prop :=
  match op_close (ops (fops f)) with Some close => close f w = Ret (0, w') | None => w' = w end.

Lemma IoClose_last fd c st w w' p f :
  opens c st fd p f -> refCount f = 1 -> closes f w w' ->
  IoClose ops fd c st w =
    Ret (0, (let c1 := set_files c (zset (files c) fd 0) in if nextFreeFile c <? fd then set_nextFree c1 fd else c1),
         delete p st, w').
Proof.
  intros Ho Hrc Hcl. unfold IoClose. rewrite (io_get_opens _ _ _ _ _ Ho). simpl.
  destruct Ho as (Hfd & Hz & Hp & Hst & _).
  replace (set_frefCount (set_frefCount f (refCount f + 1)) (u32 (refCount f + 1 - 1))) with f
    by (rewrite Hrc; destruct f; simpl in *; subst; done).
  unfold IoReleaseFile. rewrite lookup_insert_eq. simpl. rewrite Hrc. simpl. unfold closes in Hcl.
  destruct (op_close (ops (fops f))) as [close|]; [rewrite Hcl|subst w']; simpl; rewrite Hz; simpl; rewrite Z.eqb_refl, insert_insert_eq, delete_insert_eq; done.
Qed.

(** Closing the last reference to a file runs the filesystem's close,
    clears the descriptor and frees the file object; but the search hint is
    raised to the descriptor, so the descriptors below it, free or not, are
    not given out again. *)
Theorem IoClose_frees_and_raises_hint fd c st w w' p f :
  opens c st fd p f -> refCount f = 1 -> closes f w w' -> 0 <= nextFreeFile c ->
  exists c', IoClose ops fd c st w = Ret (0, c', delete p st, w') /\
    zget (files c') fd = Some 0 /\ (forall i, i <> fd -> zget (files c') i = zget (files c) i) /\
    (IoFindNextDescriptor c' 0 = -1 \/ fd <= IoFindNextDescriptor c' 0).
Proof.
  intros Ho Hrc Hcl H0. rewrite (IoClose_last _ _ _ _ _ _ _ Ho Hrc Hcl). eexists. split; [done|].
  destruct Ho as (Hfd & Hz & _). pose proof (zget_range _ _ _ Hz).
  assert (forall i, zget (files (if nextFreeFile c <? fd then set_nextFree (set_files c (zset (files c) fd 0)) fd
                                 else set_files c (zset (files c) fd 0))) i = zget (zset (files c) fd 0) i) as Hf
    by (intros; by destruct (_ <? _)).
  split_and!; [rewrite Hf; by apply zget_zset_eq|intros i Hi; rewrite Hf; by apply zget_zset_ne|].
  unfold IoFindNextDescriptor. set (c' := if nextFreeFile c <? fd then _ else _).
  assert (fd <= nextFreeFile c') as Hn by (unfold c'; destruct (Z.ltb_spec (nextFreeFile c) fd); simpl; lia).
  destruct (Z.ltb_spec (nextFreeFile c') 0); [lia|].
  destruct (find_descriptor_spec (Z.to_nat (IO_MAX_OPEN_FILES - nextFreeFile c')) c' (nextFreeFile c')) as [(-> & _)|(? & _)]; [by left|right; lia].
Qed.

Lemma IoClose_shared fd c st w p f :
  opens c st fd p f -> 1 < refCount f ->
  IoClose ops fd c st w = Ret (0, c, <[p := set_frefCount f (refCount f - 1)]> st, w).
Proof.
  intros Ho Hrc. unfold IoClose. rewrite (io_get_opens _ _ _ _ _ Ho). simpl. destruct Ho as (_ & _ & _ & Hst & ?).
  assert (u32 (refCount f + 1 - 1) = refCount f) as -> by (rewrite Z.add_simpl_r; apply Z.mod_small; lia).
  rewrite (IoReleaseFile_shared _ _ _ _ _ f);
    [by rewrite !insert_insert_eq|rewrite lookup_insert_eq; by destruct f|done].
Qed.

(** Duplicating into a free descriptor. *)
Lemma IoDup_free fd newFd c st w p f :
  opens c st fd p f -> refCount f < 4294967294 -> fd <> newFd -> 0 <= newFd < IO_MAX_OPEN_FILES ->
  zget (files c) newFd = Some 0 -> zget (descriptorFlags c) newFd = Some 0 ->
  IoDup ops fd newFd 0 c st w =
    Ret (0, set_dflags (set_files c (zset (files c) newFd p)) (zset (descriptorFlags c) newFd 0),
         <[p := set_frefCount f (refCount f + 1)]> st, w).
Proof.
  intros Ho Hmax Hne Hn Hz Hfl. unfold IoDup, with_file. rewrite (io_get_opens _ _ _ _ _ Ho). simpl.
  unfold dup_target. simpl. destruct (Z.eqb_spec fd newFd); [done|].
  destruct (Z.ltb_spec newFd 0); [lia|]. destruct (Z.leb_spec IO_MAX_OPEN_FILES newFd); [lia|]. simpl.
  rewrite Hfl, Hz. simpl. rewrite lookup_insert_eq. simpl. destruct Ho as (_ & _ & _ & Hst & ?).
  assert (u32 (refCount f + 1 + 1) = refCount f + 1 + 1) as -> by (apply Z.mod_small; lia).
  rewrite (IoReleaseFile_shared _ _ _ _ _ (set_frefCount f (refCount f + 1 + 1))); [|rewrite lookup_insert_eq; by destruct f|simpl; lia].
  simpl. by rewrite !insert_insert_eq, Z.add_simpl_r.
Qed.

(** Closing a descriptor that was duplicated leaves it open (only the
    count goes down), so a second close of the same descriptor frees the file
    while its duplicate still refers to it. *)
Theorem IoClose_after_dup_dangles fd newFd c st w w' p f :
  opens c st fd p f -> refCount f = 1 -> fd <> newFd -> 0 <= newFd < IO_MAX_OPEN_FILES ->
  zget (files c) newFd = Some 0 -> zget (descriptorFlags c) newFd = Some 0 -> closes f w w' ->
  exists c1 st1 c3, IoDup ops fd newFd 0 c st w = Ret (0, c1, st1, w) /\
    IoClose ops fd c1 st1 w = Ret (0, c1, st, w) /\ zget (files c1) fd = Some p /\
    IoClose ops fd c1 st w = Ret (0, c3, delete p st, w') /\ zget (files c3) newFd = Some p.
Proof.
  intros Ho Hrc Hne Hn Hz Hfl Hcl. eexists _, _, _. split; [apply IoDup_free; try done; lia|].
  destruct Ho as (Hfd & Hzf & Hp & Hst & _). set (c1 := set_dflags _ _). pose proof (zget_range _ _ _ Hz).
  assert (zget (files c1) fd = Some p) as Hc1 by (simpl; by rewrite zget_zset_ne).
  assert (opens c1 (<[p := set_frefCount f 2]> st) fd p (set_frefCount f 2)) as Ho1.
  { split; [done|]. split_and!; [done|done|apply lookup_insert_eq|simpl; lia|simpl; lia]. }
  assert (opens c1 st fd p f) as Ho2 by (split; [done|]; split_and!; done || lia).
  rewrite Hrc. change (1 + 1) with 2. split_and!.
  - rewrite (IoClose_shared fd c1 _ w p _ Ho1) by done. rewrite insert_insert_eq.
    assert (set_frefCount (set_frefCount f 2) (refCount (set_frefCount f 2) - 1) = f) as ->
      by (destruct f; simpl in *; by subst).
    by rewrite insert_id.
  - done.
  - by rewrite (IoClose_last fd c1 st w w' p f Ho2 Hrc Hcl).
  - cbv zeta. destruct (_ <? fd); simpl; rewrite zget_zset_ne by done; by apply zget_zset_eq.
Qed.
End Properties.

(** A filesystem whose reads return 4 bytes and count the calls. *)
Definition small_ops (_ : Z) : IoFileOps Z :=
  mkOps Z None None (Some (fun _ _ _ w => Ret (4, w + 1))) None None None None.

Lemma small_opens : opens small_context small_files 0 500 small_file.
Proof. split; [unfold IO_MAX_OPEN_FILES; lia|]. split_and!; [reflexivity|done|reflexivity|simpl; lia|simpl; lia]. Qed.

Lemma IoRead_reads_witness :
  IoRead small_ops (fun _ _ => true) 0 0x1000 4 small_context small_files 0 =
    Ret (4, small_context, <[500 := set_off small_file 14]> small_files, 1).
Proof.
  refine (IoRead_reads small_ops (fun _ _ => true) 0 0x1000 4 small_context small_files 0 500 small_file
            (fun _ _ _ w => Ret (4, w + 1)) 4 1 small_opens _ _ _ _ _); reflexivity.
Defined.

Lemma IoClose_frees_and_raises_hint_witness :
  exists c', IoClose small_ops 0 small_context small_files 0 = Ret (0, c', delete 500 small_files, 0) /\
    zget (files c') 0 = Some 0.
Proof.
  destruct (IoClose_frees_and_raises_hint small_ops 0 small_context small_files 0 0 500 small_file small_opens)
    as (c' & E & H & _).
  - reflexivity.
  - reflexivity.
  - simpl. lia.
  - exists c'. split; [exact E|exact H].
Defined.

Lemma IoClose_after_dup_dangles_witness :
  exists c1 st1 c3, IoDup small_ops 0 3 0 small_context small_files 0 = Ret (0, c1, st1, 0) /\
    IoClose small_ops 0 c1 small_files 0 = Ret (0, c3, delete 500 small_files, 0) /\ zget (files c3) 3 = Some 500.
Proof.
  destruct (IoClose_after_dup_dangles small_ops 0 3 small_context small_files 0 0 500 small_file small_opens)
    as (c1 & st1 & c3 & E1 & _ & _ & E3 & H3).
  - reflexivity.
  - discriminate.
  - unfold IO_MAX_OPEN_FILES. lia.
  - reflexivity.
  - reflexivity.
  - reflexivity.
  - exists c1, st1, c3. split; [exact E1|]. split; [exact E3|exact H3].
Defined.
