(* ===== verification/Open.v ===== *)
(** * Path lookup and opening (src/io/open.c)

    A path is a pointer into byte memory, walked the way the code does;
    filesystems are records at their addresses and their operations are
    parameters. *)
From S2P Require Import Prelude Errno Utils Fs Mode IoContext.

(** ** Path elements *)

(** '/' and '.' *)
Definition SLASH : Z := 47.
Definition DOT : Z := 46.

(** while(len < IO_NAME_MAX && path[len] != '\0' && path[len] != '/') len++;
    [n] more characters may be read. *)
Fixpoint element_len (n : nat) (m : memory) (path len : Z) : outcome Z :=
  match n with
  | O => Ret len
  | S n' =>
      c ← load8 m (path + len);
      if (c =? 0) || (c =? SLASH) then Ret len else element_len n' m path (len + 1)
  end.

(** What looking one name up leads to: nothing changes ('..' at the very
    top), the name is missing, an error, or a new current node. *)
Inductive step_result := Ignored | Missing | Failed (res : Z) | Entered (currFs currINode : Z).

Section Lookup.
Context {W : Type} (fsOps : Z -> IoFilesystemOps W).
(** The filesystems, the root filesystem (0 for NULL) and the caller. *)
Context (fss : gmap Z IoFilesystem) (IoFilesystemRoot : Z) (secContext : SecContext).

(** output->fs = currFs; output->number = currINode; currFs->ops->readINode(output) *)
Definition read_node (currFs currINode : Z) (output : IoINode) (w : W) : outcome (Z * IoINode * W) :=
  f ← or_fault (fss !! currFs);
  op_readINode (fsOps (fsops f))
    (mkINode currINode currFs (iops output) (imode output) (iuid output) (igid output) (isize output)) w.

(** Read a directory that is to be searched. *)
Definition read_dir (currFs currINode : Z) (output : IoINode) (w : W) : outcome (Z * IoINode * W) :=
  '(res, output, w) ← read_node currFs currINode output w;
  if negb (res =? 0) then Ret (res, output, w)
  else if negb (IoModeCanAccessINode IO_WORLD_EXEC output secContext) then Ret (- EACCES, output, w)
  else Ret (0, output, w).

(** '..' in the root of a mounted filesystem goes to the node it is mounted
    on, and the search goes on there. *)
Definition go_up (name : list Z) (currFs currINode : Z) (output : IoINode) (w : W)
  : outcome (option (Z * Z * Z) * IoINode * W) :=
  f ← or_fault (fss !! currFs);
  if bool_decide (name = [DOT; DOT]) && (currINode =? rootINode f) then
    if parentFs f =? 0 then Ret (None, output, w)
    else
      '(res, output, w) ← read_dir (parentFs f) (parentINode f) output w;
      Ret (Some (res, parentFs f, parentINode f), output, w)
  else Ret (Some (0, currFs, currINode), output, w).

(** From "Lookup this name" to the checks on the node found. *)
Definition find_child (name : list Z) (currFs currINode : Z) (output : IoINode) (w : W)
  : outcome (step_result * IoINode * W) :=
  f ← or_fault (fss !! currFs);
  '(res, currINode, w) ← op_findINode (fsOps (fsops f)) currFs currINode name w;
  if res =? - ENOENT then Ret (Missing, output, w)
  else if negb (res =? 0) then Ret (Failed res, output, w)
  else
    '(currFs, currINode) ←
      match mountPoints f !! currINode with
      | Some a => g ← or_fault (fss !! a); Ret (a, rootINode g)
      | None => Ret (currFs, currINode)
      end;
    '(res, output, w) ← read_node currFs currINode output w;
    if negb (res =? 0) then Ret (Failed res, output, w)
    else if IO_ISDIR (imode output) && negb (IoModeCanAccessINode IO_WORLD_EXEC output secContext)
    then Ret (Failed (- EACCES), output, w)
    else Ret (Entered currFs currINode, output, w).

(** One name, other than '.'. *)
Definition lookup_step (name : list Z) (currFs currINode : Z) (output : IoINode) (w : W)
  : outcome (step_result * IoINode * W) :=
  '(up, output, w) ← go_up name currFs currINode output w;
  match up with
  | None => Ret (Ignored, output, w)
  | Some (res, currFs, currINode) =>
      if negb (res =? 0) then Ret (Failed res, output, w)
      else find_child name currFs currINode output w
  end.

(** for(;;) over the path elements. Returns the result, *output, and
    *fileStart (0 for NULL). *)
Fixpoint lookup_loop (fuel : nat) (m : memory) (path currFs currINode : Z) (output : IoINode) (w : W)
  : outcome (Z * IoINode * Z * W) :=
  match fuel with
  | O => NoFuel
  | S f =>
      len ← element_len (Z.to_nat IO_NAME_MAX) m path 0;
      if len =? IO_NAME_MAX then Ret (- ENAMETOOLONG, output, 0, w)
      else if len =? 0 then
        c ← load8 m path;
        if c =? 0 then Ret (if IO_ISDIR (imode output) then - EISDIR else - ENOTDIR, output, 0, w)
        else lookup_loop f m (path + 1) currFs currINode output w
      else if negb (IO_ISDIR (imode output)) then Ret (- ENOTDIR, output, 0, w)
      else
        name ← or_fault (bytes_at m path (Z.to_nat len));
        if bool_decide (name = [DOT]) then lookup_loop f m (path + 2) currFs currINode output w
        else
          '(r, output, w) ← lookup_step name currFs currINode output w;
          match r with
          | Ignored => lookup_loop f m (path + 3) currFs currINode output w
          | Missing => c ← load8 m (path + len); Ret (- ENOENT, output, if c =? 0 then path else 0, w)
          | Failed res => Ret (res, output, 0, w)
          | Entered currFs currINode =>
              c ← load8 m (path + len);
              if c =? 0 then Ret (0, output, 0, w)
              else lookup_loop f m (path + len + 1) currFs currINode output w
          end
  end.

Definition IoLookupPath (fuel : nat) (m : memory) (c : IoContext) (path : Z) (output : IoINode) (w : W)
  : outcome (Z * IoINode * Z * W) :=
  c0 ← load8 m path;
  if c0 =? 0 then Ret (- ENOENT, output, 0, w)
  else if (c0 =? SLASH) && (IoFilesystemRoot =? 0) then Ret (- ENOENT, output, 0, w)
  else
    '(currFs, currINode, path) ←
      (if c0 =? SLASH then r ← or_fault (fss !! IoFilesystemRoot); Ret (IoFilesystemRoot, rootINode r, path + 1)
       else Ret (cdirFs c, cdirINode c, path));
    '(res, output, w) ← read_dir currFs currINode output w;
    if negb (res =? 0) then Ret (res, output, 0, w)
    else lookup_loop fuel m path currFs currINode output w.
End Lookup.

(** ** Opening *)

(** MemKAlloc(sizeof(IoFile)), with the word that the memory for fsData holds,
    and MemKFree. *)
Class FileMem (W : Type) := { fm_alloc : W -> outcome (Z * Z * W); fm_free : Z -> W -> outcome W }.

(** How the code goes on after the lookup: it returns at once (the descriptor
    stays reserved), goes to returnError, or opens the node. *)
Inductive open_step := Returns (res : Z) | Fails (res : Z) | Opens (iNode : IoINode) (flags : Z).

Section Open.
Context {W : Type} {FM : FileMem W} (fsOps : Z -> IoFilesystemOps W) (ops : Z -> IoFileOps W).
Context (fss : gmap Z IoFilesystem) (IoFilesystemRoot : Z) (secContext : SecContext).

(** The file is missing and IO_O_CREAT is given; [iNode] is its directory. *)
Definition create_file (m : memory) (iNode : IoINode) (fileStart flags mode : Z) (w : W) : outcome (open_step * W) :=
  if truth (Z.land flags IO_O_DIRECTORY) then Ret (Returns (- ENOTDIR), w)
  else
    f ← or_fault (fss !! ifs iNode);
    if truth (Z.land (fsflags f) IO_MOUNT_RDONLY) then Ret (Returns (- EROFS), w)
    else if negb (IoModeCanAccessINode IO_WORLD_WRITE iNode secContext) then Ret (Returns (- EACCES), w)
    else
      match op_create (fsOps (fsops f)) with
      | None => Ret (Returns (- ENOSYS), w)
      | Some create =>
          let all := Z.lor (Z.lor IO_OWNER_ALL IO_GROUP_ALL) IO_WORLD_ALL in
          let mode := Z.lor (Z.land mode all) IO_REGULAR in
          len ← StrLen m fileStart IO_NAME_MAX;
          name ← or_fault (bytes_at m fileStart (Z.to_nat len));
          '(res, outINode, w) ← create (ifs iNode) iNode name mode w;
          if negb (res =? 0) then Ret (Returns res, w)
          else
            '(res, iNode, w) ← op_readINode (fsOps (fsops f)) (set_number iNode outINode) w;
            if negb (res =? 0) then Ret (Fails res, w)
            else Ret (Opens (set_mode iNode (Z.lor (imode iNode) all)) flags, w)
      end.

(** switch(res) *)
Definition open_switch (m : memory) (res : Z) (iNode : IoINode) (fileStart flags mode : Z) (w : W)
  : outcome (open_step * W) :=
  let exclusive := truth (Z.land flags IO_O_CREAT) && truth (Z.land flags IO_O_EXCL) in
  if res =? 0 then
    Ret (if truth (Z.land flags IO_O_DIRECTORY) then Returns (- ENOTDIR)
         else if exclusive then Returns (- EEXIST)
         else Opens iNode flags, w)
  else if res =? - EISDIR then
    Ret (if exclusive then Returns (- EEXIST)
         else if truth (Z.land flags IO_O_WRONLY) then Returns (- EISDIR)
         else Opens iNode (Z.lor flags IO_O_DIRECTORY), w)
  else if res =? - ENOENT then
    if negb (fileStart =? 0) && truth (Z.land flags IO_O_CREAT) then create_file m iNode fileStart flags mode w
    else Ret (Returns (- ENOENT), w)
  else Ret (Returns res, w).

(** The checks before a descriptor is created; 0 when they pass. *)
Definition open_checks (iNode : IoINode) (flags : Z) : outcome Z :=
  if IO_ISFIFO (imode iNode) || IO_ISSOCKET (imode iNode) || IO_ISSYMLINK (imode iNode) then Ret (- ENOSYS)
  else
    f ← or_fault (fss !! ifs iNode);
    if truth (Z.land (fsflags f) IO_MOUNT_RDONLY) && truth (Z.land flags IO_O_WRONLY) then Ret (- EROFS)
    else
      let permsRequired := Z.lor (if truth (Z.land flags IO_O_RDONLY) then IO_WORLD_READ else 0)
                             (if truth (Z.land flags IO_O_WRONLY) then IO_WORLD_WRITE else 0) in
      if negb (IoModeCanAccessINode permsRequired iNode secContext) then Ret (- EACCES) else Ret 0.

(** file->ops->open and the truncation, on the new file object; a NULL open
    is called. *)
Definition open_file (iNode : IoINode) (flags : Z) (file : IoFile) (w : W) : outcome (Z * IoFile * W) :=
  open ← or_fault (op_open (ops (fops file)));
  '(res, file, w) ← open iNode file w;
  if negb (res =? 0) then Ret (res, file, w)
  else if truth (Z.land flags IO_O_TRUNC) then
    match op_truncate (ops (fops file)) with
    | Some truncate => '(res, w) ← truncate file 0 w; Ret (res, file, w)
    | None => Ret (- ENOSYS, file, w)
    end
  else Ret (0, file, w).

(** From "Create descriptor" on: the file object at its address, or an error. *)
Definition create_descriptor (iNode : IoINode) (flags : Z) (w : W) : outcome (Z * Z * IoFile * W) :=
  '(p, junk, w) ← fm_alloc w;
  let file := mkFile 1 0 (Z.land flags (Z.lor (Z.lor IO_O_RDWR IO_O_APPEND) IO_O_DIRECTORY))
                (ifs iNode) (number iNode) junk (iops iNode) in
  '(res, file, w) ← open_file iNode flags file w;
  if negb (res =? 0) then w ← fm_free p w; Ret (res, p, file, w)
  else Ret (0, p, file, w).

Definition set_dflag (c : IoContext) (fd v : Z) : IoContext := set_dflags c (zset (descriptorFlags c) fd v).

Definition IoOpen (fuel : nat) (m : memory) (path flags mode fd : Z) (c : IoContext) (st : fstore) (blank : IoINode) (w : W)
  : outcome (Z * IoContext * fstore * W) :=
  if (fd <? 0) || (IO_MAX_OPEN_FILES <=? fd) then Ret (- EINVAL, c, st, w)
  else
    old ← or_fault (zget (files c) fd);
    fl ← or_fault (zget (descriptorFlags c) fd);
    if negb (old =? 0) || truth (Z.land fl IO_O_FDRESERVED) then Ret (- EINVAL, c, st, w)
    else
      let flags := Z.land flags IO_O_ALLFLAGS in
      if Z.land flags IO_O_RDWR =? 0 then Ret (- EINVAL, c, st, w)
      else
        let flags := if Z.land flags IO_O_WRONLY =? 0 then Z.land flags (Z.lnot IO_O_TRUNC) else flags in
        let c1 := set_dflag c fd IO_O_FDRESERVED in
        '(res, iNode, fileStart, w) ← IoLookupPath fsOps fss IoFilesystemRoot secContext fuel m c1 path blank w;
        '(step, w) ← open_switch m res iNode fileStart flags mode w;
        match step with
        | Returns res => Ret (res, c1, st, w)
        | Fails res => Ret (res, set_dflag c1 fd 0, st, w)
        | Opens iNode flags =>
            res ← open_checks iNode flags;
            if negb (res =? 0) then Ret (res, set_dflag c1 fd 0, st, w)
            else
              '(res, p, file, w) ← create_descriptor iNode flags w;
              if negb (res =? 0) then Ret (res, set_dflag c1 fd 0, st, w)
              else
                Ret (0, set_dflag (set_files c1 (zset (files c1) fd p)) fd (s8 (Z.land flags IO_O_CLOEXEC)),
                     <[p := file]> st, w)
        end.
End Open.

(** ** What a path means *)

(** The pieces between the slashes. *)
Fixpoint pieces (s : list Z) : list (list Z) :=
  match s with
  | [] => [[]]
  | c :: s' =>
      if c =? SLASH then [] :: pieces s'
      else match pieces s' with p :: ps => (c :: p) :: ps | [] => [[c]] end
  end.

(** The names to look up: empty pieces and '.' do not count. *)
Definition names (s : list Z) : list (list Z) := filter (fun p => p <> [] /\ p <> [DOT]) (pieces s).

Definition final_piece (s : list Z) : list Z := List.last (pieces s) [].

(** The path ends in a slash, so a directory is meant. *)
Definition wants_dir (s : list Z) : bool := bool_decide (final_piece s = []).

(** A path the code can walk: no piece is too long, and the last one is
    neither '.' nor '..'. *)
Definition walkable (s : list Z) : Prop :=
  Forall (fun p => zlen p < IO_NAME_MAX) (pieces s) /\ final_piece s <> [DOT] /\ final_piece s <> [DOT; DOT].

#[export] Instance walkable_dec s : Decision (walkable s).
Proof. unfold walkable. apply _. Defined.

(** The string [s] is at [p], with its terminator. *)
Definition string_at (m : memory) (p : Z) (s : list Z) : Prop :=
  bytes_at m p (length s) = Some s /\ m !! (p + zlen s) = Some 0 /\ Forall (fun c => c <> 0) s.

Section Walk.
Context {W : Type} (fsOps : Z -> IoFilesystemOps W).
Context (fss : gmap Z IoFilesystem) (IoFilesystemRoot : Z) (secContext : SecContext).

(** The reference: look the names up one after the other, each in the
    directory found before. The last name alone may be missing; the third
    component says that it is. *)
Fixpoint walk (ns : list (list Z)) (dir : bool) (currFs currINode : Z) (output : IoINode) (w : W)
  : outcome (Z * IoINode * bool * W) :=
  match ns with
  | [] => Ret (if dir then if IO_ISDIR (imode output) then - EISDIR else - ENOTDIR else 0, output, false, w)
  | n :: rest =>
      if negb (IO_ISDIR (imode output)) then Ret (- ENOTDIR, output, false, w)
      else
        '(r, output, w) ← lookup_step fsOps fss secContext n currFs currINode output w;
        match r with
        | Ignored => walk rest dir currFs currINode output w
        | Missing => Ret (- ENOENT, output, bool_decide (rest = []) && negb dir, w)
        | Failed res => Ret (res, output, false, w)
        | Entered currFs currINode => walk rest dir currFs currINode output w
        end
  end.

(** *** Strings in memory *)

Lemma pieces_cons s : exists p ps, pieces s = p :: ps.
Proof.
  destruct s as [|c s]; simpl; [by eexists _, _|]. destruct (c =? SLASH); [by eexists _, _|].
  destruct (pieces s); by eexists _, _.
Qed.

(** The first piece ends at the end of the string or at a slash. *)
Lemma pieces_split s p ps : pieces s = p :: ps ->
  Forall (fun c => c <> SLASH) p /\ ((ps = [] /\ s = p) \/ exists s', s = p ++ SLASH :: s' /\ pieces s' = ps).
Proof.
  revert p ps. induction s as [|c s IH]; intros p ps; simpl.
  - intros [= <- <-]. split; [constructor|by left].
  - destruct (Z.eqb_spec c SLASH) as [->|Hc].
    + intros [= <- <-]. split; [constructor|]. right. by exists s.
    + destruct (pieces_cons s) as (q & qs & E). rewrite E. intros [= <- <-].
      destruct (IH _ _ E) as (Hq & [[-> ->]|(s' & -> & <-)]).
      * split; [by constructor|by left].
      * split; [by constructor|]. right. by exists s'.
Qed.

Lemma bytes_at_app m p s1 s2 :
  bytes_at m p (length (s1 ++ s2)) = Some (s1 ++ s2) ->
  bytes_at m p (length s1) = Some s1 /\ bytes_at m (p + zlen s1) (length s2) = Some s2.
Proof.
  revert p. induction s1 as [|c s1 IH]; intros p H; simpl in *; [split; [done|]; unfold zlen; simpl; by rewrite Z.add_0_r|].
  destruct (m !! p) as [b|]; simpl in *; [|done]. destruct (bytes_at m (p + 1) (length (s1 ++ s2))) as [bs|] eqn:E; simpl in *; [|done].
  injection H as -> ->. destruct (IH _ E) as [-> H2]. split; [done|]. unfold zlen in *. simpl.
  by replace (p + Z.of_nat (S (length s1))) with (p + 1 + Z.of_nat (length s1)) by lia.
Qed.

Lemma zlen_cons (c : Z) s : zlen (c :: s) = zlen s + 1.
Proof. unfold zlen. simpl. lia. Qed.

Lemma zlen_app (s1 s2 : list Z) : zlen (s1 ++ s2) = zlen s1 + zlen s2.
Proof. unfold zlen. rewrite length_app. lia. Qed.

(** The rest of the path behind the first piece. *)
Lemma string_at_rest m p s1 s2 : string_at m p (s1 ++ SLASH :: s2) ->
  bytes_at m p (length s1) = Some s1 /\ m !! (p + zlen s1) = Some SLASH /\ string_at m (p + zlen s1 + 1) s2 /\ Forall (fun c => c <> 0) s1.
Proof.
  intros (H1 & H2 & H3). apply bytes_at_app in H1 as [H1 H1']. apply Forall_app in H3 as [H3 H3']. apply Forall_cons in H3' as [_ H3'].
  simpl in H1'. destruct (m !! (p + zlen s1)) as [b|]; simpl in *; [|done].
  destruct (bytes_at m (p + zlen s1 + 1) (length s2)) as [bs|] eqn:E; simpl in *; [|done]. injection H1' as -> ->.
  split_and!; [done..| |done]. split_and!; [done| |done]. rewrite <- H2. f_equal. rewrite zlen_app, zlen_cons. lia.
Qed.

(** The search for the end of an element. *)
Lemma element_len_spec m p s : forall n k,
  bytes_at m (p + k) (length s) = Some s -> Forall (fun c => c <> 0) s -> Forall (fun c => c <> SLASH) s -> (length s < n)%nat ->
  (exists c, m !! (p + k + zlen s) = Some c /\ (c = 0 \/ c = SLASH)) -> element_len n m p k = Ret (k + zlen s).
Proof.
  induction s as [|c s IH]; intros n k Hb H0 Hs Hn (e & He & Hend); (destruct n as [|n]; [simpl in Hn; lia|]); simpl.
  - unfold load8. unfold zlen in *. simpl in *. rewrite Z.add_0_r in *. rewrite He. simpl. by destruct Hend as [-> | ->].
  - simpl in Hb. unfold load8. destruct (m !! (p + k)) as [b|] eqn:E; simpl in *; [|done].
    destruct (bytes_at m (p + k + 1) (length s)) as [bs|] eqn:Eb; simpl in *; [|done]. injection Hb as -> ->.
    apply Forall_cons in H0 as [H0 H0']. apply Forall_cons in Hs as [Hs Hs'].
    destruct (Z.eqb_spec c 0); [done|]. destruct (Z.eqb_spec c SLASH); [done|]. simpl.
    rewrite (IH n (k + 1)); [|by rewrite Z.add_assoc|done|done|lia|]; [f_equal; rewrite zlen_cons; lia|].
    exists e. split; [|done]. rewrite <- He. f_equal. rewrite zlen_cons. lia.
Qed.

(** A path behind its first piece. *)
Lemma path_behind s p s' : pieces s = p :: pieces s' ->
  final_piece s = final_piece s' /\ wants_dir s = wants_dir s' /\
  names s = (if decide (p <> [] /\ p <> [DOT]) then p :: names s' else names s') /\ (walkable s -> walkable s' /\ zlen p < IO_NAME_MAX).
Proof.
  intros E. assert (final_piece s = final_piece s') as Ef.
  { unfold final_piece. rewrite E. by destruct (pieces_cons s') as (q & qs & ->). }
  unfold wants_dir, names, walkable. rewrite Ef, E. split_and!; [done..|].
  intros (Hs%Forall_cons & H1 & H2). by destruct Hs.
Qed.

(** Without a last name, a directory is meant. *)
Lemma names_or_dir s : walkable s -> names s = [] -> wants_dir s = true.
Proof.
  intros (_ & Hd & _) Hn. unfold wants_dir. apply bool_decide_eq_true. destruct (decide (final_piece s = [])) as [|Hne]; [done|exfalso].
  assert (final_piece s ∈ names s) as Hin; [|by rewrite Hn in Hin; apply not_elem_of_nil in Hin].
  apply list_elem_of_filter. split; [done|]. unfold final_piece. destruct (pieces_cons s) as (q & qs & ->).
  clear. revert q. induction qs as [|r qs IH]; intros q; [by left|]. right. apply IH.
Qed.

(** Below something that is no directory every path fails. *)
Lemma walk_not_dir ns dir currFs currINode output w :
  IO_ISDIR (imode output) = false -> ns <> [] \/ dir = true -> walk ns dir currFs currINode output w = Ret (- ENOTDIR, output, false, w).
Proof. intros H [Hn| ->]; [|destruct ns; simpl; by rewrite H]. destruct ns; [done|]. simpl. by rewrite H. Qed.

(** *** The loop *)

Section Loop.
Context (m : memory).
Local Abbreviation lookup_loop := (lookup_loop fsOps fss secContext).

(** The result of a walk, with the place of the missing name in the path. *)
Definition at_path (path : Z) (s : list Z) (r : outcome (Z * IoINode * bool * W)) : outcome (Z * IoINode * Z * W) :=
  '(res, output, b, w) ← r; Ret (res, output, if (b : bool) then path + (zlen s - zlen (final_piece s)) else 0, w).

(** One name of a path: [c] is the character behind it. *)
Lemma loop_name fuel path p c currFs currINode output w :
  p <> [] -> p <> [DOT] -> zlen p < IO_NAME_MAX -> bytes_at m path (length p) = Some p ->
  Forall (fun c => c <> 0) p -> Forall (fun c => c <> SLASH) p -> m !! (path + zlen p) = Some c -> c = 0 \/ c = SLASH ->
  lookup_loop (S fuel) m path currFs currINode output w =
    (if negb (IO_ISDIR (imode output)) then Ret (- ENOTDIR, output, 0, w)
     else
       '(r, output, w) ← lookup_step fsOps fss secContext p currFs currINode output w;
       match r with
       | Ignored => lookup_loop fuel m (path + 3) currFs currINode output w
       | Missing => Ret (- ENOENT, output, if c =? 0 then path else 0, w)
       | Failed res => Ret (res, output, 0, w)
       | Entered currFs currINode =>
           if c =? 0 then Ret (0, output, 0, w) else lookup_loop fuel m (path + zlen p + 1) currFs currINode output w
       end).
Proof.
  intros Hn Hd Hl Hb H0 Hs Hc He. cbn [Open.lookup_loop].
  rewrite (element_len_spec m path p (Z.to_nat IO_NAME_MAX) 0); rewrite ?Z.add_0_r, ?Z.add_0_l; try done; [|unfold zlen in Hl; lia|by exists c].
  cbn [mbind outcome_bind]. assert (0 < zlen p) as Hpos by (destruct p; [done|rewrite zlen_cons; unfold zlen; lia]).
  destruct (Z.eqb_spec (zlen p) IO_NAME_MAX); [lia|]. destruct (Z.eqb_spec (zlen p) 0); [lia|].
  destruct (negb _); [done|]. assert (Z.to_nat (zlen p) = length p) as -> by (unfold zlen; lia). rewrite Hb. cbn [or_fault mbind outcome_bind].
  rewrite bool_decide_eq_false_2 by done.
  destruct (lookup_step _ _ _ _ _ _ _ _) as [[[r o] w']| | |]; try done. cbn [mbind outcome_bind].
  destruct r; try done; unfold load8; by rewrite Hc.
Qed.

(** The steps over what is no name: an empty piece and '.'. *)
Lemma element_len_end path c : m !! path = Some c -> c = 0 \/ c = SLASH -> element_len (Z.to_nat IO_NAME_MAX) m path 0 = Ret 0.
Proof.
  intros H Hc. apply (element_len_spec m path [] _ 0); [done|by apply Forall_nil_2|by apply Forall_nil_2|unfold IO_NAME_MAX; simpl; lia|]. exists c.
  change (zlen []) with 0. by rewrite !Z.add_0_r.
Qed.

Lemma element_len_dot path c :
  m !! path = Some DOT -> m !! (path + 1) = Some c -> c = 0 \/ c = SLASH ->
  element_len (Z.to_nat IO_NAME_MAX) m path 0 = Ret 1 /\ bytes_at m path (Z.to_nat 1) = Some [DOT].
Proof.
  intros H H1 Hc. assert (bytes_at m path 1 = Some [DOT]) as Hb by (cbn [bytes_at]; by rewrite H). split; [|done].
  apply (element_len_spec m path [DOT] _ 0); [by rewrite Z.add_0_r|by apply Forall_singleton|by apply Forall_singleton|unfold IO_NAME_MAX; simpl; lia|].
  exists c. by rewrite Z.add_0_r.
Qed.

Lemma loop_slash fuel path currFs currINode output w :
  m !! path = Some SLASH ->
  lookup_loop (S fuel) m path currFs currINode output w = lookup_loop fuel m (path + 1) currFs currINode output w.
Proof. intros H. cbn [Open.lookup_loop]. rewrite (element_len_end path SLASH H) by auto. unfold load8. by rewrite H. Qed.

Lemma loop_end fuel path currFs currINode output w :
  m !! path = Some 0 ->
  lookup_loop (S fuel) m path currFs currINode output w =
    Ret (if IO_ISDIR (imode output) then - EISDIR else - ENOTDIR, output, 0, w).
Proof. intros H. cbn [Open.lookup_loop]. rewrite (element_len_end path 0 H) by auto. unfold load8. by rewrite H. Qed.

Lemma loop_dot fuel path c currFs currINode output w :
  m !! path = Some DOT -> m !! (path + 1) = Some c -> c = 0 \/ c = SLASH ->
  lookup_loop (S fuel) m path currFs currINode output w =
    (if IO_ISDIR (imode output) then lookup_loop fuel m (path + 2) currFs currINode output w else Ret (- ENOTDIR, output, 0, w)).
Proof.
  intros H H1 Hc. cbn [Open.lookup_loop]. destruct (element_len_dot path c H H1 Hc) as [-> Hb]. cbn [mbind outcome_bind].
  change (1 =? IO_NAME_MAX) with false. change (1 =? 0) with false. cbn iota. rewrite Hb. by destruct (IO_ISDIR _).
Qed.

(** [at_path] behind a piece and a slash. *)
Lemma at_path_behind path s p s' r :
  s = p ++ SLASH :: s' -> pieces s = p :: pieces s' -> at_path (path + zlen p + 1) s' r = at_path path s r.
Proof.
  intros -> E. destruct (path_behind _ _ _ E) as (Ef & _). unfold at_path. destruct r as [[[[res o] b] w]| | |]; try done.
  cbn [mbind outcome_bind]. rewrite Ef, zlen_app, zlen_cons. destruct b; [|done]. f_equal. repeat (apply pair_equal_spec; split; try done). lia.
Qed.

Lemma lookup_loop_walks fuel : forall s path currFs currINode output w,
  string_at m path s -> walkable s -> (length s < fuel)%nat ->
  lookup_loop fuel m path currFs currINode output w = at_path path s (walk (names s) (wants_dir s) currFs currINode output w).
Proof.
  induction fuel as [|fuel IH]; intros s path currFs currINode output w Hs Hw Hf; [lia|].
  destruct (pieces_cons s) as (p & ps & E). destruct (pieces_split s p ps E) as (Hp & [[-> ->]|(s' & Es & <-)]).
  - (* the last piece *) pose proof Hs as (Hb & He & H0). pose proof Hw as (Hl & Hd1 & Hd2). rewrite E in Hl. apply Forall_cons in Hl as [Hl _].
    assert (final_piece p = p) as Ef by (unfold final_piece; by rewrite E). rewrite Ef in *.
    destruct (decide (p = [])) as [->|Hne].
    + rewrite (loop_end _ _ _ _ _ _); [done|]. rewrite <- He. f_equal. unfold zlen. simpl. lia.
    + rewrite (loop_name fuel path p 0) by (try done; by left). unfold names, wants_dir. rewrite E, Ef, bool_decide_eq_false_2 by done.
      rewrite filter_cons_True by done. cbn [filter list_filter walk]. destruct (negb (IO_ISDIR _)); [done|].
      destruct (lookup_step _ _ _ _ _ _ _ _) as [[[r o] w']| | |] eqn:Est; try done. cbn [mbind outcome_bind]. destruct r; try done.
      * exfalso. unfold lookup_step, go_up in Est. apply bind_Ret_inv in Est as ([[up o1] w1] & Eu & Est).
        apply bind_Ret_inv in Eu as (f & _ & Eu). rewrite bool_decide_eq_false_2 in Eu by done. apply Ret_inj in Eu. injection Eu as <- <- <-.
        cbn in Est. apply bind_Ret_inv in Est as (g & _ & Est). ret_inv; discriminate.
      * unfold at_path. cbn [mbind outcome_bind walk]. rewrite Ef, bool_decide_eq_true_2 by done. cbn. f_equal.
        repeat (apply pair_equal_spec; split; try done). lia.
  - (* a piece and a slash *) destruct (path_behind s p s' E) as (Ef & Ed & En & Hw'). destruct (Hw' Hw) as [Hws Hl]. clear Hw'.
    subst s. pose proof Hs as Hs0. apply string_at_rest in Hs as (Hb & Hsl & Hrest & H0). rewrite length_app in Hf. simpl in Hf.
    rewrite Ed, En. rewrite <- (at_path_behind path _ p s' _ eq_refl E).
    destruct (decide (p = [])) as [->|Hne]; [|destruct (decide (p = [DOT])) as [->|Hnd]].
    + rewrite decide_False by naive_solver. change (zlen []) with 0 in *. rewrite Z.add_0_r in *. rewrite (loop_slash _ _ _ _ _ _ Hsl).
      apply IH; [done|done|lia].
    + rewrite decide_False by naive_solver. change (zlen [DOT]) with 1 in *. simpl in Hb. destruct (m !! path) as [b|] eqn:Eb; [|done].
      cbn in Hb. injection Hb as ->. rewrite (loop_dot _ _ _ _ _ _ _ Eb Hsl) by auto. destruct (IO_ISDIR (imode output)) eqn:Edir.
      * replace (path + 1 + 1) with (path + 2) in * by lia. apply IH; [done|done|simpl in Hf; lia].
      * rewrite walk_not_dir; [done|done|]. destruct (names s') eqn:En'; [right; by apply names_or_dir|by left].
    + rewrite decide_True by done. rewrite (loop_name fuel path p SLASH) by (try done; by right). cbn [walk].
      destruct (negb (IO_ISDIR _)); [done|].
      destruct (lookup_step _ _ _ _ _ _ _ _) as [[[r o] w']| | |] eqn:Est; try done. cbn [mbind outcome_bind]. destruct r; try done.
      * assert (p = [DOT; DOT]) as ->.
        { unfold lookup_step, go_up in Est. apply bind_Ret_inv in Est as ([[up o1] w1] & Eu & Est). apply bind_Ret_inv in Eu as (f & _ & Eu).
          destruct (decide (p = [DOT; DOT])) as [|Hnn]; [done|exfalso]. rewrite bool_decide_eq_false_2 in Eu by done.
          apply Ret_inj in Eu. injection Eu as <- <- <-. cbn in Est. apply bind_Ret_inv in Est as (g & _ & Est). ret_inv; discriminate. }
        change (zlen [DOT; DOT]) with 2 in *. replace (path + 2 + 1) with (path + 3) in * by lia. apply IH; [done|done|simpl in Hf; lia].
      * unfold at_path. cbn [mbind outcome_bind]. destruct (names s') eqn:En'; [rewrite (names_or_dir s') by done; by rewrite andb_false_r|done].
      * cbn. apply IH; [done|done|]. destruct p; [done|simpl in Hf; lia].
Qed.
End Loop.

(** What a whole path means: absolute paths start at the root, the others at
    the current directory. *)
Definition resolve (c : IoContext) (s : list Z) (output : IoINode) (w : W) : outcome (Z * IoINode * bool * W) :=
  let absolute := match s with ch :: _ => ch =? SLASH | [] => false end in
  if bool_decide (s = []) || (absolute && (IoFilesystemRoot =? 0)) then Ret (- ENOENT, output, false, w)
  else
    '(currFs, currINode) ←
      (if absolute then r ← or_fault (fss !! IoFilesystemRoot); Ret (IoFilesystemRoot, rootINode r)
       else Ret (cdirFs c, cdirINode c));
    '(res, output, w) ← read_dir fsOps fss secContext currFs currINode output w;
    if negb (res =? 0) then Ret (res, output, false, w)
    else walk (names s) (wants_dir s) currFs currINode output w.

(** IoLookupPath follows the meaning of the path. *)
Lemma path_resolved fuel m c path s output w :
  string_at m path s -> walkable s -> (length s < fuel)%nat ->
  IoLookupPath fsOps fss IoFilesystemRoot secContext fuel m c path output w = at_path path s (resolve c s output w).
Proof.
  intros Hs Hw Hf. unfold IoLookupPath, resolve. destruct s as [|c0 s].
  - destruct Hs as (_ & He & _). rewrite Z.add_0_r in He. unfold load8. by rewrite He.
  - assert (m !! path = Some c0 /\ c0 <> 0) as [Hc H0].
    { destruct Hs as (Hb & _ & H0%Forall_cons). split; [|by destruct H0]. simpl in Hb. destruct (m !! path); [|done]. cbn in Hb.
      destruct (bytes_at m (path + 1) (length s)); [|done]. cbn in Hb. congruence. }
    unfold load8. rewrite Hc. cbn [or_fault mbind outcome_bind]. destruct (Z.eqb_spec c0 0); [done|].
    rewrite bool_decide_eq_false_2 by done. cbn [orb]. destruct (Z.eqb_spec c0 SLASH) as [->|Hne]; cbn [andb].
    + destruct (IoFilesystemRoot =? 0); [done|]. destruct (fss !! IoFilesystemRoot) as [r|]; [|done]. cbn [or_fault mbind outcome_bind].
      destruct (read_dir _ _ _ _ _ _ _) as [[[res o] w1]| | |]; try done. cbn [mbind outcome_bind]. destruct (negb (res =? 0)); [done|].
      assert (pieces (SLASH :: s) = [] :: pieces s) as E by done. destruct (path_behind _ _ _ E) as (_ & -> & -> & Hw').
      rewrite decide_False by naive_solver. rewrite <- (at_path_behind path _ [] s _ eq_refl E).
      apply (string_at_rest m path [] s) in Hs as (_ & _ & Hs & _). change (zlen []) with 0 in *. rewrite Z.add_0_r in *.
      apply lookup_loop_walks; [done|by apply Hw'|simpl in Hf; lia].
    + cbn [mbind outcome_bind]. destruct (read_dir _ _ _ _ _ _ _) as [[[res o] w1]| | |]; try done. cbn [mbind outcome_bind].
      destruct (negb (res =? 0)); [done|]. by apply lookup_loop_walks.
Qed.

(** C9: IoLookupPath gives a path the meaning of its names: for a path in
    memory without over-long pieces that ends in neither '.' nor '..', it
    returns what looking the names up one by one from the root or the current
    directory gives, whatever empty pieces and '.' there are between them, and
    points to the last name exactly when that one alone is missing. It ends
    within one turn per character. *)
Theorem IoLookupPath_resolves fuel m c path s output w :
  string_at m path s -> walkable s -> (length s < fuel)%nat ->
  IoLookupPath fsOps fss IoFilesystemRoot secContext fuel m c path output w = at_path path s (resolve c s output w).
Proof. apply path_resolved. Qed.

(** The path '.' runs off its end: the code steps over the terminator and
    reads on behind it. *)
Theorem IoLookupPath_dot_overruns fuel m c path output w output' w' :
  string_at m path [DOT] -> m !! (path + 2) = None -> (2 <= fuel)%nat ->
  read_dir fsOps fss secContext (cdirFs c) (cdirINode c) output w = Ret (0, output', w') -> IO_ISDIR (imode output') = true ->
  IoLookupPath fsOps fss IoFilesystemRoot secContext fuel m c path output w = Fault.
Proof.
  intros (Hb & He & _) Hout Hf Hr Hd. simpl in Hb. unfold IoLookupPath, load8. destruct (m !! path) as [b|] eqn:Hm; [|done].
  cbn in Hb. injection Hb as ->. cbn [or_fault mbind outcome_bind]. change (DOT =? 0) with false. change (DOT =? SLASH) with false.
  cbn [andb mbind outcome_bind]. rewrite Hr. cbn [mbind outcome_bind negb Z.eqb]. destruct fuel as [|[|fuel]]; [lia..|].
  rewrite (loop_dot m _ path 0) by (try done; by left). rewrite Hd. cbn [lookup_loop]. change (Z.to_nat IO_NAME_MAX) with (S 254).
  assert (forall n, element_len (S n) m (path + 2) 0 = Fault) as -> by (intros n; simpl; unfold load8; by rewrite Z.add_0_r, Hout). done.
Qed.
End Walk.

(** ** What opening does *)

Section Opening.
Context {W : Type} {FM : FileMem W} (fsOps : Z -> IoFilesystemOps W) (ops : Z -> IoFileOps W).
Context (fss : gmap Z IoFilesystem) (IoFilesystemRoot : Z) (secContext : SecContext).
Local Abbreviation IoOpen := (IoOpen fsOps ops fss IoFilesystemRoot secContext).
Local Abbreviation lookup := (IoLookupPath fsOps fss IoFilesystemRoot secContext).

(** The descriptor can be opened, with these flags. *)
Definition fd_free (c : IoContext) (fd : Z) : Prop :=
  0 <= fd < IO_MAX_OPEN_FILES /\ zget (files c) fd = Some 0 /\
  exists fl, zget (descriptorFlags c) fd = Some fl /\ Z.land fl IO_O_FDRESERVED = 0.

(** The flags as IoOpen uses them. *)
Definition open_flags (flags : Z) : Z :=
  let flags := Z.land flags IO_O_ALLFLAGS in
  if Z.land flags IO_O_WRONLY =? 0 then Z.land flags (Z.lnot IO_O_TRUNC) else flags.

(** IoOpen past its first checks. *)
Lemma IoOpen_start fuel m path flags mode fd c st blank w :
  fd_free c fd -> Z.land (Z.land flags IO_O_ALLFLAGS) IO_O_RDWR <> 0 ->
  let c1 := set_dflag c fd IO_O_FDRESERVED in
  IoOpen fuel m path flags mode fd c st blank w =
    ('(res, iNode, fileStart, w) ← lookup fuel m c1 path blank w;
     '(step, w) ← open_switch fsOps fss secContext m res iNode fileStart (open_flags flags) mode w;
     match step with
     | Returns res => Ret (res, c1, st, w)
     | Fails res => Ret (res, set_dflag c1 fd 0, st, w)
     | Opens iNode flags =>
         res ← open_checks fss secContext iNode flags;
         if negb (res =? 0) then Ret (res, set_dflag c1 fd 0, st, w)
         else
           '(res, p, file, w) ← create_descriptor ops iNode flags w;
           if negb (res =? 0) then Ret (res, set_dflag c1 fd 0, st, w)
           else
             Ret (0, set_dflag (set_files c1 (zset (files c1) fd p)) fd (s8 (Z.land flags IO_O_CLOEXEC)), <[p := file]> st, w)
     end).
Proof.
  intros (Hfd & Hf & fl & Hfl & Hr) Hm. unfold Open.IoOpen. destruct (Z.ltb_spec fd 0); [lia|].
  destruct (Z.leb_spec IO_MAX_OPEN_FILES fd); [lia|]. cbn [orb]. rewrite Hf, Hfl. cbn [or_fault mbind outcome_bind Z.eqb negb orb].
  unfold truth. rewrite Hr. cbn [Z.eqb negb]. destruct (Z.eqb_spec (Z.land (Z.land flags IO_O_ALLFLAGS) IO_O_RDWR) 0); done.
Qed.

(** Or it refuses at once. *)
Lemma IoOpen_refuses fuel m path flags mode fd c st blank w x :
  IoOpen fuel m path flags mode fd c st blank w = Ret x ->
  (fd_free c fd /\ Z.land (Z.land flags IO_O_ALLFLAGS) IO_O_RDWR <> 0) \/ x = (- EINVAL, c, st, w).
Proof.
  unfold Open.IoOpen, fd_free. destruct (Z.ltb_spec fd 0); [right; by apply Ret_inj in H0|].
  destruct (Z.leb_spec IO_MAX_OPEN_FILES fd); [right; by apply Ret_inj in H1|]. cbn [orb].
  destruct (zget (files c) fd) as [old|]; [|done]. destruct (zget (descriptorFlags c) fd) as [fl|]; [|done]. cbn [or_fault mbind outcome_bind].
  destruct (Z.eqb_spec old 0) as [->|]; cbn [negb orb]; [|intros Hx; right; by apply Ret_inj in Hx].
  unfold truth. destruct (Z.eqb_spec (Z.land fl IO_O_FDRESERVED) 0); cbn [negb]; [|intros Hx; right; by apply Ret_inj in Hx].
  destruct (Z.eqb_spec (Z.land (Z.land flags IO_O_ALLFLAGS) IO_O_RDWR) 0); intros Hx; [right; by apply Ret_inj in Hx|left].
  split; [|done]. split_and!; [lia|lia|done|by exists fl].
Qed.

(** What the switch makes the code return is an error. *)
Lemma open_switch_error m res iNode fileStart flags mode w r step w' :
  open_switch fsOps fss secContext m res iNode fileStart flags mode w = Ret (step, w') -> step = Returns r \/ step = Fails r -> r <> 0.
Proof.
  unfold open_switch, create_file. intros H Hs. ret_inv; repeat case_match; destruct Hs; simplify_eq; try done;
    repeat match goal with H : negb _ = true |- _ => apply negb_true_iff in H | H : (_ =? _) = false |- _ => apply Z.eqb_neq in H end;
    done.
Qed.

(** Everything but descriptor [fd] is as it was. *)
Definition others_kept (c c' : IoContext) (fd : Z) : Prop :=
  (forall i, i <> fd -> zget (files c') i = zget (files c) i /\ zget (descriptorFlags c') i = zget (descriptorFlags c) i) /\
  nextFreeFile c' = nextFreeFile c /\ cdirFs c' = cdirFs c /\ cdirINode c' = cdirINode c /\ ctxRefCount c' = ctxRefCount c.

Lemma others_kept_flag c fd v : others_kept c (set_dflag c fd v) fd.
Proof. split; [|done]. intros i Hi. split; [done|]. simpl. by apply zget_zset_ne. Qed.

Lemma others_kept_flags c fd v v' : others_kept c (set_dflag (set_dflag c fd v) fd v') fd.
Proof. split; [|done]. intros i Hi. split; [done|]. simpl. by rewrite !zget_zset_ne. Qed.

(** The flag kept in the descriptor is not the reservation. *)
Lemma cloexec_not_reserved x : Z.land (s8 (Z.land x IO_O_CLOEXEC)) IO_O_FDRESERVED = 0.
Proof.
  assert (Z.land x IO_O_CLOEXEC = 0 \/ Z.land x IO_O_CLOEXEC = IO_O_CLOEXEC) as [-> | ->]; [|done..].
  change IO_O_CLOEXEC with (2 ^ 6). destruct (Z.testbit x 6) eqn:E; [right|left]; apply Z.bits_inj'; intros i Hi;
    rewrite Z.land_spec, ?Z.bits_0, Z.pow2_bits_eqb by lia; destruct (Z.eqb_spec 6 i) as [<-|]; by rewrite ?E, ?andb_false_r.
Qed.

(** Whatever IoOpen returns, it touches no descriptor but the one it was
    given: on success that descriptor refers to a new file object and carries
    the close-on-exec flag alone, on failure no file object is added and no
    descriptor refers to anything new. *)
Theorem IoOpen_outcome fuel m path flags mode fd c st blank w res c' st' w' :
  IoOpen fuel m path flags mode fd c st blank w = Ret (res, c', st', w') ->
  others_kept c c' fd /\
  (res <> 0 -> st' = st /\ files c' = files c) /\
  (res = 0 -> fd_free c fd /\ exists p file, st' = <[p := file]> st /\ zget (files c') fd = Some p /\
     exists fl, zget (descriptorFlags c') fd = Some fl /\ Z.land fl IO_O_FDRESERVED = 0).
Proof.
  intros H. destruct (IoOpen_refuses _ _ _ _ _ _ _ _ _ _ _ H) as [[Hfree Hm]|Hx].
  - rewrite (IoOpen_start _ _ _ _ _ _ _ _ _ _ Hfree Hm) in H. pose proof Hfree as (Hfd & Hf & fl & Hfl & _).
    apply zget_range in Hf as Hr1. apply zget_range in Hfl as Hr2. pose proof (others_kept_flag c fd) as K1. pose proof (others_kept_flags c fd) as K2.
    apply bind_Ret_inv in H as ([[[r i] fst_] w1] & _ & H). apply bind_Ret_inv in H as ([step w2] & Es & H). destruct step as [r1|r1|i1 fl1].
    1,2: apply (open_switch_error _ _ _ _ _ _ _ r1) in Es; [|by auto]; apply Ret_inj in H; injection H as <- <- <- <-; by split_and!.
    apply bind_Ret_inv in H as (r2 & _ & H). cbv beta in H. destruct (Z.eqb_spec r2 0) as [Hr|Hr]; [subst r2|]; cbn [negb] in H;
      [|apply Ret_inj in H; injection H as <- <- <- <-; by split_and!].
    apply bind_Ret_inv in H as ([[[r3 p] file] w3] & _ & H). destruct (Z.eqb_spec r3 0) as [->|Hr3]; cbn [negb] in H;
      apply Ret_inj in H; injection H as <- <- <- <-; [|by split_and!].
    split_and!; try done.
    + split; [|done]. intros k Hk. simpl. by rewrite !zget_zset_ne.
    + intros _. split; [done|]. exists p, file. split; [done|]. cbn [set_dflag set_dflags set_files files descriptorFlags].
      split; [by apply zget_zset_eq|]. eexists. split; [apply zget_zset_eq; by rewrite zlen_zset|]. apply cloexec_not_reserved.
  - injection Hx as -> -> -> ->. by split_and!.
Qed.

(** The lookup of IoOpen, by what the path means. *)
Lemma IoOpen_lookup fuel m c fd path s blank w :
  string_at m path s -> walkable s -> (length s < fuel)%nat ->
  lookup fuel m (set_dflag c fd IO_O_FDRESERVED) path blank w =
    at_path path s (resolve fsOps fss IoFilesystemRoot secContext c s blank w).
Proof. exact (path_resolved fsOps fss IoFilesystemRoot secContext fuel m (set_dflag c fd IO_O_FDRESERVED) path s blank w). Qed.

(** Opening an existing file. *)
Lemma open_existing fuel m path s flags mode fd c st blank w node w1 p junk w2 open file w3 :
  string_at m path s -> walkable s -> (length s < fuel)%nat -> fd_free c fd ->
  resolve fsOps fss IoFilesystemRoot secContext c s blank w = Ret (0, node, false, w1) ->
  Z.land flags IO_O_RDWR <> 0 -> 0 <= flags < 256 ->
  Z.land flags IO_O_DIRECTORY = 0 -> Z.land flags IO_O_EXCL = 0 -> Z.land flags IO_O_TRUNC = 0 ->
  open_checks fss secContext node flags = Ret 0 ->
  fm_alloc w1 = Ret (p, junk, w2) -> p <> 0 -> op_open (ops (iops node)) = Some open ->
  open node (mkFile 1 0 (Z.land flags 0x93) (ifs node) (number node) junk (iops node)) w2 = Ret (0, file, w3) -> refCount file = 1 ->
  exists c', IoOpen fuel m path flags mode fd c st blank w = Ret (0, c', <[p := file]> st, w3) /\
    opens c' (<[p := file]> st) fd p file /\ others_kept c c' fd.
Proof.
  intros Hs Hw Hf Hfree Hres Hrw Hfl Hdir Hex Htr Hck Hal Hp Hop Ho Hrc.
  assert (Z.land flags IO_O_ALLFLAGS = flags) as Hall by (change IO_O_ALLFLAGS with (Z.ones 8); rewrite Z.land_ones by lia; apply Z.mod_small; lia).
  assert (open_flags flags = flags) as Hof.
  { unfold open_flags. rewrite Hall. destruct (_ =? 0); [|done]. rewrite <- Z.ldiff_land. rewrite <- (Z.lor_ldiff_and flags IO_O_TRUNC) at 2.
    by rewrite Htr, Z.lor_0_r. }
  rewrite IoOpen_start by (rewrite ?Hall; done). rewrite (IoOpen_lookup _ _ _ _ _ s) by done. rewrite Hres. cbn [at_path mbind outcome_bind].
  rewrite Hof. unfold open_switch, truth. rewrite Hdir, Hex, andb_false_r. cbn [Z.eqb negb mbind outcome_bind]. rewrite Hck. cbn [mbind outcome_bind Z.eqb negb].
  unfold create_descriptor. rewrite Hal. cbn [mbind outcome_bind]. unfold open_file. cbn [fops]. rewrite Hop. cbn [or_fault mbind outcome_bind].
  change (Z.lor (Z.lor IO_O_RDWR IO_O_APPEND) IO_O_DIRECTORY) with 0x93. rewrite Ho. cbn [mbind outcome_bind Z.eqb negb]. unfold truth. rewrite Htr.
  cbn [mbind outcome_bind Z.eqb negb]. eexists. split; [done|]. destruct Hfree as (Hfd & Hz & fl & Hfl' & _). apply zget_range in Hz as Hr.
  split; [|split; [|done]; intros k Hk; simpl; by rewrite !zget_zset_ne].
  split; [done|]. cbn [set_dflag set_dflags set_files files]. split_and!; [by apply zget_zset_eq|done|apply lookup_insert_eq|lia|lia].
Qed.

(** Where the code looks for the rights of a class of users in a mode: the
    lowest bits for the owner, the next ones for the group, the highest ones
    for the others. *)
Definition class_shift (node : IoINode) (c : SecContext) : Z :=
  if euid c =? iuid node then 0 else if egid c =? igid node then 3 else 6.

(** The caller is root, or has one of the rights that the flags ask for. *)
Definition granted (node : IoINode) (flags : Z) (c : SecContext) : Prop :=
  euid c = 0 \/
  (Z.testbit flags 0 = true /\ Z.testbit (imode node) (2 + class_shift node c) = true) \/
  (Z.testbit flags 1 = true /\ Z.testbit (imode node) (1 + class_shift node c) = true).

(** The node is of a kind that can be opened, its filesystem is mounted and is
    not read-only if the flags ask for writing, and the rights are there. *)
Record openable (node : IoINode) (flags : Z) : Prop := {
  op_kind : IO_ISFIFO (imode node) = false /\ IO_ISSOCKET (imode node) = false /\ IO_ISSYMLINK (imode node) = false;
  op_mounted : exists f, fss !! ifs node = Some f /\ (Z.testbit flags 1 = true -> Z.land (fsflags f) IO_MOUNT_RDONLY = 0);
  op_granted : granted node flags secContext
}.

Lemma truth_testbit x y k : 0 <= k -> Z.testbit x k = true -> Z.testbit y k = true -> truth (Z.land x y) = true.
Proof.
  intros Hk Hx Hy. unfold truth. destruct (Z.eqb_spec (Z.land x y) 0) as [E|]; [|done]. apply (f_equal (fun z => Z.testbit z k)) in E.
  by rewrite Z.land_spec, Hx, Hy, Z.bits_0 in E.
Qed.

Lemma truth_flag flags k : 0 <= k -> truth (Z.land flags (2 ^ k)) = Z.testbit flags k.
Proof.
  intros Hk. destruct (Z.testbit flags k) eqn:E.
  - apply (truth_testbit _ _ k); [done..|]. by rewrite Z.pow2_bits_true.
  - unfold truth. assert (Z.land flags (2 ^ k) = 0) as ->; [|done]. apply Z.bits_inj'. intros i Hi.
    rewrite Z.land_spec, Z.bits_0, Z.pow2_bits_eqb by done. destruct (Z.eqb_spec k i) as [<-|]; [by rewrite E|by rewrite andb_false_r].
Qed.

Lemma openable_checks node flags : openable node flags -> open_checks fss secContext node flags = Ret 0.
Proof.
  intros [(H1 & H2 & H3) (f & Hf & Hro) Hg]. unfold open_checks. rewrite H1, H2, H3. cbn [orb]. rewrite Hf. cbn [or_fault mbind outcome_bind].
  change IO_O_WRONLY with (2 ^ 1). change IO_O_RDONLY with (2 ^ 0). rewrite !truth_flag by lia.
  assert (truth (Z.land (fsflags f) IO_MOUNT_RDONLY) && Z.testbit flags 1 = false) as ->.
  { destruct (Z.testbit flags 1); [|by rewrite andb_false_r]. by rewrite Hro. }
  set (perms := Z.lor _ _). assert (IoModeCanAccessINode perms node secContext = true) as ->; [|done].
  unfold IoModeCanAccessINode, IoModeCanAccess. destruct (Z.eqb_spec (euid secContext) 0); [done|].
  unfold granted, class_shift in Hg. destruct Hg as [|Hg]; [done|].
  assert (forall k, 0 <= k -> (Z.testbit flags 0 = true /\ Z.testbit (imode node) (2 + k) = true) \/
    (Z.testbit flags 1 = true /\ Z.testbit (imode node) (1 + k) = true) -> truth (Z.land (imode node) (Z.shiftl perms k)) = true) as Hbit.
  { intros k Hk [[Hfl Hm]|[Hfl Hm]]; unfold perms; rewrite Hfl.
    - apply (truth_testbit _ _ (2 + k)); [lia|done|]. rewrite Z.shiftl_spec, Z.lor_spec by lia. replace (2 + k - k) with 2 by lia. done.
    - apply (truth_testbit _ _ (1 + k)); [lia|done|]. rewrite Z.shiftl_spec, Z.lor_spec by lia. replace (1 + k - k) with 1 by lia.
      by destruct (Z.testbit flags 0). }
  destruct (euid secContext =? iuid node); [rewrite <- (Z.shiftl_0_r perms); by apply Hbit|].
  destruct (egid secContext =? igid node); by apply Hbit.
Qed.

(** C34: IoOpen at a free descriptor, of a path that names an existing file
    that is not a directory (without a slash or a '.' or '..' at the end),
    with flags that ask for reading or writing and not for a directory, an
    exclusive creation or truncation: when the node is no FIFO, socket or
    symbolic link, its filesystem is mounted (and not read-only, for
    writing), and the caller is root or has one of the rights asked for where
    the code looks for them (the owner's and the others' bits are swapped),
    it returns 0; the descriptor then refers to a new file object at offset 0,
    with the node found and the access flags asked for, that the filesystem's
    open, which succeeds, has seen; the other descriptors are kept. There is
    memory for the file object. *)
Theorem IoOpen_opens fuel m path s flags mode fd c st blank w node w1 p junk w2 open file w3 :
  string_at m path s -> walkable s -> (length s < fuel)%nat -> fd_free c fd ->
  resolve fsOps fss IoFilesystemRoot secContext c s blank w = Ret (0, node, false, w1) ->
  Z.land flags IO_O_RDWR <> 0 -> 0 <= flags < 256 ->
  Z.land flags IO_O_DIRECTORY = 0 -> Z.land flags IO_O_EXCL = 0 -> Z.land flags IO_O_TRUNC = 0 ->
  openable node flags ->
  fm_alloc w1 = Ret (p, junk, w2) -> p <> 0 -> op_open (ops (iops node)) = Some open ->
  open node (mkFile 1 0 (Z.land flags 0x93) (ifs node) (number node) junk (iops node)) w2 = Ret (0, file, w3) -> refCount file = 1 ->
  exists c', IoOpen fuel m path flags mode fd c st blank w = Ret (0, c', <[p := file]> st, w3) /\
    opens c' (<[p := file]> st) fd p file /\ others_kept c c' fd.
Proof.
  intros H1 H2 H3 H4 H5 H6 H7 H8 H9 H10 H11.
  apply (open_existing fuel m path s flags mode fd c st blank w node w1 p junk w2 open file w3); try done. by apply openable_checks.
Qed.

(** A path that leads to an error leaves the descriptor reserved for good:
    the descriptor is refused by every later IoOpen and never found free. *)
Theorem IoOpen_failure_keeps_reserved fuel m path s flags mode fd c st blank w res node b w1 :
  string_at m path s -> walkable s -> (length s < fuel)%nat -> fd_free c fd ->
  resolve fsOps fss IoFilesystemRoot secContext c s blank w = Ret (res, node, b, w1) -> res <> 0 -> res <> - EISDIR ->
  Z.land (Z.land flags IO_O_ALLFLAGS) IO_O_RDWR <> 0 -> Z.land (open_flags flags) IO_O_CREAT = 0 ->
  exists c', IoOpen fuel m path flags mode fd c st blank w = Ret (res, c', st, w1) /\ zget (files c') fd = Some 0 /\
    ~ descriptor_free c' fd /\
    (forall fuel' m' path' flags' mode' st' blank' w', IoOpen fuel' m' path' flags' mode' fd c' st' blank' w' = Ret (- EINVAL, c', st', w')).
Proof.
  intros Hs Hw Hf Hfree Hres H0 Hd Hm Hc. rewrite IoOpen_start by done. rewrite (IoOpen_lookup _ _ _ _ _ s) by done. rewrite Hres.
  cbn [at_path mbind outcome_bind]. unfold open_switch, truth. rewrite Hc. apply Z.eqb_neq in H0 as H0', Hd as Hd'. rewrite H0', Hd'.
  exists (set_dflag c fd IO_O_FDRESERVED). pose proof Hfree as (Hfd & Hz & fl & Hfl & _). apply zget_range in Hfl as Hr.
  assert (zget (descriptorFlags (set_dflag c fd IO_O_FDRESERVED)) fd = Some IO_O_FDRESERVED) as Hflag by (simpl; by apply zget_zset_eq).
  split_and!.
  - destruct (Z.eqb_spec res (- ENOENT)) as [->|]; [|done]. cbn [negb Z.eqb]. by rewrite andb_false_r.
  - done.
  - intros [_ Hfree']. by rewrite Hflag in Hfree'.
  - intros. unfold Open.IoOpen. destruct (Z.ltb_spec fd 0); [lia|]. destruct (Z.leb_spec IO_MAX_OPEN_FILES fd); [lia|]. cbn [orb].
    rewrite Hflag. change (files (set_dflag c fd IO_O_FDRESERVED)) with (files c). by rewrite Hz.
Qed.
End Opening.

(** ** A small system *)

(** Two filesystems: the root at 1000, and another at 2000 mounted on the
    directory 'd' (node 5) of the root. The world counts the calls. *)
Definition small_node (i : IoINode) (mode : Z) : IoINode := mkINode (number i) (ifs i) 0 mode 0 0 0.

Definition small_fsOps (_ : Z) : IoFilesystemOps Z :=
  mkFsOps Z None
    (fun i w => Ret (0, small_node i (if number i <? 7 then Z.lor IO_DIR 511 else Z.lor IO_REGULAR 438), w + 1))
    (fun f parent name w =>
       let child := if bool_decide (name = [100]) then 5 else if bool_decide (name = [103]) then 9 else 0 in
       Ret (if child =? 0 then - ENOENT else 0, child, w + 1))
    None.

Definition small_fss : gmap Z IoFilesystem :=
  <[1000 := mkFs 0 0 0 2 1 0 0 0 0 (<[5 := 2000]> ∅)]> (<[2000 := mkFs 0 0 0 2 0 0 0 1000 5 ∅]> ∅).

Definition small_user : SecContext := mkSec 0 0 0 0 0 0.
Definition no_node : IoINode := mkINode 0 0 0 0 0 0 0.

Definition place (p : Z) (s : list Z) : memory := list_to_map (zip (seqZ p (zlen s)) s).

(** "/./d//g" *)
Definition small_path : list Z := [47; 46; 47; 100; 47; 47; 103].
Definition path_memory : memory := place 256 (small_path ++ [0]).

Lemma small_string : string_at path_memory 256 small_path.
Proof. split; [reflexivity|]. split; [reflexivity|]. repeat (apply Forall_cons; split; [discriminate|]). apply Forall_nil_2. Qed.

Lemma small_walkable : walkable small_path.
Proof. apply (bool_decide_unpack _). vm_compute. exact I. Qed.

Lemma IoLookupPath_resolves_witness :
  IoLookupPath small_fsOps small_fss 1000 small_user 8 path_memory small_context 256 no_node 0 =
    Ret (0, mkINode 9 2000 0 (Z.lor IO_REGULAR 438) 0 0 0, 0, 5).
Proof.
  refine (eq_trans (IoLookupPath_resolves small_fsOps small_fss 1000 small_user 8 path_memory small_context 256 small_path
            no_node 0 small_string small_walkable _) _).
  - unfold small_path. simpl. lia.
  - vm_compute. reflexivity.
Defined.

Lemma IoLookupPath_dot_overruns_witness :
  IoLookupPath small_fsOps small_fss 1000 small_user 2 (place 256 [46; 0]) (mkIoContext [] [] 0 1000 2 1) 256 no_node 0 = Fault.
Proof.
  refine (IoLookupPath_dot_overruns small_fsOps small_fss 1000 small_user 2 (place 256 [46; 0]) (mkIoContext [] [] 0 1000 2 1) 256
            no_node 0 (mkINode 2 1000 0 (Z.lor IO_DIR 511) 0 0 0) 1 _ _ _ _ _).
  - split; [reflexivity|]. split; [reflexivity|]. apply Forall_singleton. discriminate.
  - reflexivity.
  - lia.
  - reflexivity.
  - reflexivity.
Defined.

#[local] Instance small_file_mem : FileMem Z := {| fm_alloc w := Ret (600, 7, w); fm_free _ w := Ret w |}.

(** Every file opens and reads four bytes. *)
Definition open_ops (_ : Z) : IoFileOps Z :=
  mkOps Z (Some (fun _ f w => Ret (0, f, w + 100))) None (Some (fun _ _ _ w => Ret (4, w + 1))) None None None None.

Definition empty_context : IoContext := mkIoContext (replicate 1024 0) (replicate 1024 0) 0 1000 2 1.

Lemma empty_context_free : fd_free empty_context 3.
Proof. split; [unfold IO_MAX_OPEN_FILES; lia|]. split; [reflexivity|]. exists 0. split; reflexivity. Qed.

(** A user who is neither root nor the owner of node 9, nor in its group. *)
Definition reader_user : SecContext := mkSec 1000 1000 1000 100 100 100.

Lemma IoOpen_opens_witness :
  exists c', IoOpen small_fsOps open_ops small_fss 1000 reader_user 8 path_memory 256 IO_O_RDONLY 0 3 empty_context ∅ no_node 0 =
      Ret (0, c', <[600 := mkFile 1 0 1 2000 9 7 0]> ∅, 105) /\
    opens c' (<[600 := mkFile 1 0 1 2000 9 7 0]> ∅) 3 600 (mkFile 1 0 1 2000 9 7 0) /\ others_kept empty_context c' 3.
Proof.
  refine (IoOpen_opens small_fsOps open_ops small_fss 1000 reader_user 8 path_memory 256 small_path IO_O_RDONLY 0 3 empty_context ∅
            no_node 0 (mkINode 9 2000 0 (Z.lor IO_REGULAR 438) 0 0 0) 5 600 7 5 (fun _ f w => Ret (0, f, w + 100)) _ 105
            small_string small_walkable _ empty_context_free _ _ _ _ _ _ _ _ _ _ _ _).
  - unfold small_path. simpl. lia.
  - vm_compute. reflexivity.
  - discriminate.
  - unfold IO_O_RDONLY. lia.
  - reflexivity.
  - reflexivity.
  - reflexivity.
  - split; [by repeat split|eexists; split; [reflexivity|discriminate]|]. right. left. split; reflexivity.
  - reflexivity.
  - discriminate.
  - reflexivity.
  - reflexivity.
  - reflexivity.
Defined.

(** "/x", which does not exist. *)
Definition missing_path : list Z := [47; 120].

Lemma missing_string : string_at (place 256 (missing_path ++ [0])) 256 missing_path.
Proof. split; [reflexivity|]. split; [reflexivity|]. repeat (apply Forall_cons; split; [discriminate|]). apply Forall_nil_2. Qed.

Lemma IoOpen_failure_keeps_reserved_witness :
  exists c', IoOpen small_fsOps open_ops small_fss 1000 small_user 3 (place 256 (missing_path ++ [0])) 256 IO_O_RDONLY 0 3
               empty_context ∅ no_node 0 = Ret (- ENOENT, c', ∅, 2) /\ ~ descriptor_free c' 3.
Proof.
  destruct (IoOpen_failure_keeps_reserved small_fsOps open_ops small_fss 1000 small_user 3 (place 256 (missing_path ++ [0])) 256 missing_path
              IO_O_RDONLY 0 3 empty_context ∅ no_node 0 (- ENOENT) (mkINode 2 1000 0 (Z.lor IO_DIR 511) 0 0 0) true 2)
    as (c' & E & _ & Hn & _).
  - exact missing_string.
  - apply (bool_decide_unpack _). vm_compute. exact I.
  - unfold missing_path. simpl. lia.
  - exact empty_context_free.
  - vm_compute. reflexivity.
  - discriminate.
  - discriminate.
  - discriminate.
  - reflexivity.
  - exists c'. split; [exact E|exact Hn].
Defined.

(** The context after opening descriptor 3. *)
Definition opened_context : IoContext :=
  mkIoContext (zset (replicate 1024 0) 3 600) (replicate 1024 0) 0 1000 2 1.

Lemma IoOpen_outcome_witness :
  others_kept empty_context opened_context 3 /\ zget (files opened_context) 3 = Some 600.
Proof.
  split; [|reflexivity].
  refine (proj1 (IoOpen_outcome small_fsOps open_ops small_fss 1000 small_user 8 path_memory 256 IO_O_RDONLY 0 3 empty_context ∅ no_node 0
            0 opened_context (<[600 := mkFile 1 0 1 2000 9 7 0]> ∅) 105 _)).
  vm_compute. reflexivity.
Defined.
