(* ===== verification/Mount.v ===== *)
(** * Mounting filesystems (src/io/mount.c)

    Filesystem types are on a circular list whose nodes are modelled by
    CList.v, because the code links them in an unusual way; filesystems, types
    and devices are records at their addresses. *)
From S2P Require Import Prelude Errno CList Fs Mode.

(** ** State *)

(** [fsnodes] are the list heads, [fsroot] is IoFilesystemRoot. *)
Record vfs (W : Type) := mkVfs {
  fsnodes : store; fstypes : gmap Z (IoFilesystemType W); fsmap : gmap Z IoFilesystem; fsroot : Z; fsdevs : gmap Z IoDevice
}.
Arguments mkVfs {W}. Arguments fsnodes {W}. Arguments fstypes {W}. Arguments fsmap {W}. Arguments fsroot {W}. Arguments fsdevs {W}.

(** MemKZAlloc(sizeof(IoFilesystem)) and MemKFree *)
Class FsMem (W : Type) := { fsm_alloc : W -> outcome (Z * W); fsm_free : Z -> W -> outcome W }.

(** offsetof(IoFilesystemType, fsTypes) *)
Definition fsTypes_off : Z := 4.

Section Mount.
Context {W : Type} {FM : FsMem W} (fsOps : Z -> IoFilesystemOps W).
(** The address of the list head. *)
Context (fsTypeHead : Z).

Definition set_nodes (v : vfs W) m : vfs W := mkVfs m (fstypes v) (fsmap v) (fsroot v) (fsdevs v).
Definition set_types (v : vfs W) m : vfs W := mkVfs (fsnodes v) m (fsmap v) (fsroot v) (fsdevs v).
Definition set_fsmap (v : vfs W) m : vfs W := mkVfs (fsnodes v) (fstypes v) m (fsroot v) (fsdevs v).
Definition set_root (v : vfs W) r : vfs W := mkVfs (fsnodes v) (fstypes v) (fsmap v) r (fsdevs v).
Definition set_devs (v : vfs W) m : vfs W := mkVfs (fsnodes v) (fstypes v) (fsmap v) (fsroot v) m.

(** Field updates through a pointer. *)
Definition upd_type (t : Z) (f : IoFilesystemType W -> IoFilesystemType W) (v : vfs W) : outcome (vfs W) :=
  x ← or_fault (fstypes v !! t); Ret (set_types v (<[t := f x]> (fstypes v))).
Definition upd_fs (p : Z) (f : IoFilesystem -> IoFilesystem) (v : vfs W) : outcome (vfs W) :=
  x ← or_fault (fsmap v !! p); Ret (set_fsmap v (<[p := f x]> (fsmap v))).
Definition upd_device (d : Z) (f : IoDevice -> IoDevice) (v : vfs W) : outcome (vfs W) :=
  x ← or_fault (fsdevs v !! d); Ret (set_devs v (<[d := f x]> (fsdevs v))).

(** ** Types *)

(** Same name? Then this one. *)
Definition find_body (types : gmap Z (IoFilesystemType W)) (name : list Z) (var : Z) (h : store) (_ : Z) : outcome (store * Z * bool) :=
  let type := ListEntry var fsTypes_off in
  t ← or_fault (types !! type);
  Ret (if bool_decide (tname t = name) then (h, type, false) else (h, 0, true)).

(** ListForEachEntry over the types; 0 for NULL. *)
Definition IoFilesystemFind (fuel : nat) (name : list Z) (v : vfs W) : outcome Z :=
  '(_, found) ← ListForEach (find_body (fstypes v) name) fuel fsTypeHead (fsnodes v) 0; Ret found.

Definition IoFilesystemRegister (fuel : nat) (type : Z) (v : vfs W) : outcome (bool * vfs W) :=
  t ← or_fault (fstypes v !! type);
  found ← IoFilesystemFind fuel (tname t) v;
  if found =? 0 then
    h1 ← ListHeadInit (fsnodes v) fsTypeHead;
    h2 ← ListHeadAddLast h1 fsTypeHead (type + fsTypes_off);
    Ret (true, set_nodes v h2)
  else Ret (false, v).

Definition IoFilesystemUnRegister (type : Z) (v : vfs W) : outcome (bool * vfs W) :=
  t ← or_fault (fstypes v !! type);
  if negb (trefCount t =? 0) then Ret (false, v)
  else h ← ListDelete (fsnodes v) (type + fsTypes_off); Ret (true, set_nodes v h).

(** ** Mounting *)

(** The new filesystem's address is only given on success. *)
Definition IoFilesystemMountInternal (type device flags parent parentNode : Z) (v : vfs W) (w : W)
  : outcome (Z * option Z * vfs W * W) :=
  busy ← (if negb (device =? 0) then d ← or_fault (fsdevs v !! device); Ret (mounted d) else Ret false);
  if (busy : bool) then Ret (- EBUSY, None, v, w)
  else
    v1 ← (if negb (device =? 0) then upd_device device (fun d => set_mounted d true) v else Ret v);
    v2 ← upd_type type (fun t => set_trefCount t (u32 (trefCount t + 1))) v1;
    '(newFs, w1) ← fsm_alloc w;
    t ← or_fault (fstypes v2 !! type);
    '(res, f, w2) ← tmount t (mkFs type device 0 0 0 flags 0 parent parentNode ∅) w1;
    if negb (res =? 0) then
      w3 ← fsm_free newFs w2;
      v3 ← upd_type type (fun t => set_trefCount t (u32 (trefCount t - 1))) v2;
      v4 ← upd_device device (fun d => set_mounted d false) v3;
      Ret (res, None, v4, w3)
    else Ret (res, Some newFs, set_fsmap v2 (<[newFs := f]> (fsmap v2)), w2).

(** ** Unmounting *)

(** The parent forgets the filesystem. *)
Definition detach (fs : Z) (f : IoFilesystem) (v : vfs W) : outcome (vfs W) :=
  if parentFs f =? 0 then Ret (if fs =? fsroot v then set_root v 0 else v)
  else upd_fs (parentFs f) (fun p =>
         set_mountPoints (set_fsRefCount p (u32 (fsRefCount p - 1)))
           (if bool_decide (mountPoints p !! parentINode f = Some fs) then delete (parentINode f) (mountPoints p) else mountPoints p)) v.

Definition IoFilesystemUnMount (fs : Z) (v : vfs W) (w : W) : outcome (Z * vfs W * W) :=
  f ← or_fault (fsmap v !! fs);
  if (0 <? fsRefCount f) || (0 <? Z.of_nat (size (mountPoints f))) then Ret (- EBUSY, v, w)
  else
    '(res, w1) ← match op_umount (fsOps (fsops f)) with Some umount => umount fs w | None => Ret (0, w) end;
    if negb (res =? 0) then Ret (res, v, w1)
    else
      v1 ← detach fs f v;
      v2 ← upd_type (fsType f) (fun t => set_trefCount t (u32 (trefCount t - 1))) v1;
      v3 ← upd_device (device f) (fun d => set_mounted d false) v2;
      w2 ← fsm_free fs w1;
      Ret (0, set_fsmap v3 (delete fs (fsmap v3)), w2).

(** HashTableInsert(&parent->mountPoints, &newFs->mountItem, &newFs->parentINode, ...) *)
Definition insert_mount (parent newFs : Z) (v : vfs W) : outcome (bool * vfs W) :=
  f ← or_fault (fsmap v !! newFs);
  p ← or_fault (fsmap v !! parent);
  match mountPoints p !! parentINode f with
  | Some _ => Ret (false, v)
  | None => v' ← upd_fs parent (fun p => set_mountPoints p (<[parentINode f := newFs]> (mountPoints p))) v; Ret (true, v')
  end.

(** The variable newFs holds [junk] until the mount succeeds. *)
Definition IoFilesystemMount (junk type device : Z) (onto : IoINode) (flags : Z) (v : vfs W) (w : W) : outcome (Z * vfs W * W) :=
  if negb (IO_ISDIR (imode onto)) then Ret (- ENOTDIR, v, w)
  else
    let parent := ifs onto in
    p ← or_fault (fsmap v !! parent);
    match mountPoints p !! number onto with
    | Some _ => Ret (- EBUSY, v, w)
    | None =>
        v1 ← upd_fs parent (fun p => set_fsRefCount p (u32 (fsRefCount p + 1))) v;
        '(res, out, v2, w1) ← IoFilesystemMountInternal type device flags parent (number onto) v1 w;
        let newFs := default junk out in
        '(inserted, v3) ← (if res =? 0 then insert_mount parent newFs v2 else Ret (false, v2));
        if (inserted : bool) then Ret (0, v3, w1)
        else '(_, v4, w2) ← IoFilesystemUnMount newFs v3 w1; Ret (res, v4, w2)
    end.

Definition IoFilesystemMountRoot (junk type device flags : Z) (v : vfs W) (w : W) : outcome (Z * vfs W * W) :=
  if negb (fsroot v =? 0) then Ret (- EBUSY, v, w)
  else
    '(res, out, v1, w1) ← IoFilesystemMountInternal type device flags 0 0 v w;
    let newFs := default junk out in
    if (res =? 0) && (fsroot v1 =? 0) then Ret (0, set_root v1 newFs, w1)
    else '(_, v2, w2) ← IoFilesystemUnMount newFs v1 w1; Ret (res, v2, w2).
End Mount.

(** ** Registering types *)

Section Types.
Context {W : Type} (fsTypeHead : Z).

(** The first type of that name among the list nodes [xs]. *)
Fixpoint first_named (types : gmap Z (IoFilesystemType W)) (name : list Z) (xs : list Z) : Z :=
  match xs with
  | [] => 0
  | x :: xs' =>
      if bool_decide (tname <$> types !! ListEntry x fsTypes_off = Some name) then ListEntry x fsTypes_off
      else first_named types name xs'
  end.

(** Every node is that of a type. *)
Definition nodes_known (types : gmap Z (IoFilesystemType W)) (xs : list Z) : Prop :=
  forall x, x ∈ xs -> is_Some (types !! ListEntry x fsTypes_off).

Lemma find_type_spec types name hd xs : forall fuel a h,
  seg h a xs hd -> hd ∉ xs -> (length xs <= fuel)%nat -> nodes_known types xs ->
  (v ← load_next h a;
   ListForEach_loop (find_body types name) fuel hd v h 0) =
  Ret (h, first_named types name xs).
Proof.
  induction xs as [|x xs IH]; intros fuel a h Hs Hhd Hf Hk.
  - destruct Hs as [Hn _]. rewrite (load_next_spec _ _ _ Hn). simpl. destruct fuel; simpl; by rewrite Z.eqb_refl.
  - destruct Hs as (Hn & _ & Hs). rewrite (load_next_spec _ _ _ Hn). simpl. destruct fuel as [|fuel]; [simpl in Hf; lia|]. simpl.
    destruct (Z.eqb_spec x hd) as [->|]; [set_solver|]. destruct (Hk x) as [t Ht]; [by left|].
    assert (find_body types name x h 0 = Ret (if bool_decide (tname t = name) then (h, ListEntry x fsTypes_off, false) else (h, 0, true))) as ->
      by (unfold find_body; by rewrite Ht).
    rewrite Ht. simpl.
    destruct (decide (tname t = name)) as [He|He].
    + rewrite !bool_decide_eq_true_2 by congruence. done.
    + rewrite !bool_decide_eq_false_2 by congruence. simpl. apply IH; [done|set_solver|simpl in Hf; lia|]. intros y Hy. apply Hk. by right.
Qed.

Lemma IoFilesystemFind_spec fuel name v xs :
  rep (fsnodes v) fsTypeHead xs -> nodes_known (fstypes v) xs -> (length xs <= fuel)%nat ->
  IoFilesystemFind fsTypeHead fuel name v = Ret (first_named (fstypes v) name xs).
Proof.
  intros [Hnd Hs] Hk Hf. unfold IoFilesystemFind, ListForEach. apply NoDup_cons in Hnd as [Hhd _].
  by rewrite (find_type_spec (fstypes v) name fsTypeHead xs fuel fsTypeHead _ Hs Hhd Hf Hk).
Qed.

(** A list of one node seen from that node. *)
Lemma rep_turn h a x : rep h a [x] -> rep h x [a].
Proof.
  intros [Hnd (H1 & H2 & H3 & H4)]. apply NoDup_cons in Hnd as [Hax _]. split; [|done].
  apply NoDup_cons. split; [set_solver|]. apply NoDup_singleton.
Qed.

(** Registering a type whose name is new makes it the only type on the list:
    types registered before are no longer found. *)
Theorem IoFilesystemRegister_forgets fuel type t v xs :
  fstypes v !! type = Some t -> 0 < type < 4294967292 -> rep (fsnodes v) fsTypeHead xs -> rep (fsnodes v) (type + fsTypes_off) [] ->
  type + fsTypes_off ∉ fsTypeHead :: xs -> nodes_known (fstypes v) xs -> (length xs < fuel)%nat ->
  first_named (fstypes v) (tname t) xs = 0 ->
  exists v', IoFilesystemRegister fsTypeHead fuel type v = Ret (true, v') /\
    rep (fsnodes v') fsTypeHead [type + fsTypes_off] /\
    IoFilesystemFind fsTypeHead fuel (tname t) v' = Ret type /\
    (forall name, name <> tname t -> IoFilesystemFind fsTypeHead fuel name v' = Ret 0).
Proof.
  intros Ht Hty Hxs Hself Hnin Hk Hf Hnew. unfold IoFilesystemRegister. rewrite Ht. cbn [or_fault mbind outcome_bind].
  rewrite (IoFilesystemFind_spec fuel _ v xs Hxs Hk) by lia. rewrite Hnew. cbn [mbind outcome_bind Z.eqb].
  destruct (rep_alloc _ _ _ fsTypeHead Hxs) as [n0 Hn0]; [by left|].
  destruct (ListHeadInit_effect (fsnodes v) fsTypeHead) as (h1 & E1 & HN & HP & HA); [by eexists|]. rewrite E1. cbn [mbind outcome_bind].
  assert (type + fsTypes_off <> fsTypeHead) as Hne by (clear -Hnin; set_solver).
  assert (rep h1 (type + fsTypes_off) ([] ++ [])) as Hself1.
  { apply (rep_frame [fsTypeHead] (fsnodes v)); [done| |clear -Hne; set_solver]. intros q Hq. rewrite HN, HP.
    assert (q <> fsTypeHead) as Hq' by (clear -Hq; set_solver). apply Z.eqb_neq in Hq'. by rewrite Hq'. }
  destruct (ListAddBefore_rep h1 (type + fsTypes_off) [] [] fsTypeHead Hself1) as (h2 & E2 & Hrep & _); [clear -Hne; set_solver|apply HA; by eexists|].
  unfold ListHeadAddLast. change (first_or (type + fsTypes_off) []) with (type + fsTypes_off) in E2. rewrite E2. cbn [mbind outcome_bind].
  exists (set_nodes v h2). apply rep_turn in Hrep. split; [done|]. split; [done|].
  assert (ListEntry (type + fsTypes_off) fsTypes_off = type) as Ee by (unfold ListEntry, fsTypes_off, u32; rewrite Z.add_simpl_r; apply Z.mod_small; lia).
  assert (nodes_known (fstypes (set_nodes v h2)) [type + fsTypes_off]) as Hk2.
  { intros x ->%list_elem_of_singleton. rewrite Ee. by eexists. }
  assert (forall name, IoFilesystemFind fsTypeHead fuel name (set_nodes v h2) = Ret (if bool_decide (tname t = name) then type else 0)) as Hfind.
  { intros name. rewrite (IoFilesystemFind_spec fuel name (set_nodes v h2) _ Hrep Hk2) by (simpl; lia). cbn [first_named set_nodes fstypes]. rewrite Ee, Ht. simpl.
    f_equal. by destruct (decide (tname t = name)); [rewrite !bool_decide_eq_true_2 by congruence|rewrite !bool_decide_eq_false_2 by congruence]. }
  split; [by rewrite Hfind, bool_decide_eq_true_2|]. intros name Hn. by rewrite Hfind, bool_decide_eq_false_2 by congruence.
Qed.
End Types.

(** ** Mounting and unmounting *)

Section Mounting.
Context {W : Type} {FM : FsMem W} (fsOps : Z -> IoFilesystemOps W).

(** The filesystem's mount function fills in its own fields only. *)
Definition fs_filled (f0 f : IoFilesystem) : Prop :=
  fsType f = fsType f0 /\ device f = device f0 /\ fsRefCount f = fsRefCount f0 /\ parentFs f = parentFs f0 /\
  parentINode f = parentINode f0 /\ mountPoints f = mountPoints f0.

(** A mount that goes through: the type [t] at [type], the idle device [d] at
    [dev], the new filesystem [f] at the fresh address [a]. *)
Record mountable (v : vfs W) (w : W) (type : Z) (t : IoFilesystemType W) (dev : Z) (d : IoDevice) (flags parent node : Z)
    (a : Z) (f : IoFilesystem) (w' : W) : Prop := {
  m_type : fstypes v !! type = Some t;
  m_count : 0 <= trefCount t < 4294967295;
  m_device : fsdevs v !! dev = Some d;
  m_dev0 : dev <> 0;
  m_idle : mounted d = false;
  m_alloc : exists w1, fsm_alloc w = Ret (a, w1) /\
    tmount t (mkFs type dev 0 0 0 flags 0 parent node ∅) w1 = Ret (0, f, w');
  m_fresh : fsmap v !! a = None;
  m_filled : fs_filled (mkFs type dev 0 0 0 flags 0 parent node ∅) f
}.

(** The state with the type and the device in use. *)
Definition after_mount (v : vfs W) (type : Z) (t : IoFilesystemType W) (dev : Z) (d : IoDevice) : vfs W :=
  mkVfs (fsnodes v) (<[type := set_trefCount t (trefCount t + 1)]> (fstypes v)) (fsmap v) (fsroot v)
    (<[dev := set_mounted d true]> (fsdevs v)).

Lemma mount_internal v w type t dev d flags parent node a f w' :
  mountable v w type t dev d flags parent node a f w' ->
  IoFilesystemMountInternal type dev flags parent node v w =
    Ret (0, Some a, set_fsmap (after_mount v type t dev d) (<[a := f]> (fsmap v)), w').
Proof.
  intros [Ht Hc Hd H0 Hi (w1 & Ha & Hm) Hfr Hfi]. unfold IoFilesystemMountInternal. apply Z.eqb_neq in H0. rewrite H0. cbn [negb].
  rewrite Hd. cbn [or_fault mbind outcome_bind]. rewrite Hi. unfold upd_device, upd_type. rewrite Hd. cbn [or_fault mbind outcome_bind set_devs fstypes].
  rewrite Ht. cbn [or_fault mbind outcome_bind]. rewrite Ha. cbn [mbind outcome_bind set_types fstypes fsmap]. rewrite lookup_insert_eq.
  cbn [or_fault mbind outcome_bind set_trefCount tmount]. rewrite Hm. cbn [mbind outcome_bind Z.eqb negb].
  assert (u32 (trefCount t + 1) = trefCount t + 1) as -> by (apply Z.mod_small; lia). done.
Qed.

Lemma mount_effect junk v w type t dev d onto flags p a f w' :
  IO_ISDIR (imode onto) = true -> fsmap v !! ifs onto = Some p -> mountPoints p !! number onto = None -> 0 <= fsRefCount p < 4294967295 ->
  mountable v w type t dev d flags (ifs onto) (number onto) a f w' ->
  let p' := set_mountPoints (set_fsRefCount p (fsRefCount p + 1)) (<[number onto := a]> (mountPoints p)) in
  IoFilesystemMount fsOps junk type dev onto flags v w =
    Ret (0, set_fsmap (after_mount v type t dev d) (<[ifs onto := p']> (<[a := f]> (fsmap v))), w').
Proof.
  intros Hdir Hp Hn Hc Hm p'. unfold IoFilesystemMount. rewrite Hdir. cbn [negb]. rewrite Hp. cbn [or_fault mbind outcome_bind]. rewrite Hn.
  unfold upd_fs. rewrite Hp. cbn [or_fault mbind outcome_bind].
  assert (u32 (fsRefCount p + 1) = fsRefCount p + 1) as -> by (apply Z.mod_small; lia).
  set (v1 := set_fsmap v _). pose proof Hm as [Ht Hct Hd H0 Hi Hal Hfr Hfi]. assert (a <> ifs onto) as Hne by (intros ->; congruence).
  assert (mountable v1 w type t dev d flags (ifs onto) (number onto) a f w') as Hm1.
  { split; try done. simpl. by rewrite lookup_insert_ne. }
  rewrite (mount_internal _ _ _ _ _ _ _ _ _ _ _ _ Hm1). cbn [mbind outcome_bind Z.eqb default]. unfold insert_mount.
  cbn [set_fsmap after_mount fsmap]. rewrite lookup_insert_eq, lookup_insert_ne by done. cbn [v1 set_fsmap fsmap]. rewrite lookup_insert_eq.
  cbn [or_fault mbind outcome_bind set_fsRefCount mountPoints]. destruct Hfi as (_ & _ & _ & _ & -> & _). cbn [parentINode]. rewrite Hn.
  unfold upd_fs. cbn [fsmap set_fsmap]. rewrite lookup_insert_ne by done. rewrite lookup_insert_eq. cbn [or_fault mbind outcome_bind].
  f_equal. f_equal. f_equal. unfold set_fsmap, after_mount. cbn. f_equal. apply map_eq. intros x.
  destruct (decide (x = ifs onto)) as [->|Hx]; [by rewrite !lookup_insert_eq|rewrite (lookup_insert_ne _ (ifs onto)) by done].
  rewrite (lookup_insert_ne _ (ifs onto)) by done. destruct (decide (x = a)) as [->|]; [by rewrite !lookup_insert_eq|].
  by rewrite !lookup_insert_ne.
Qed.

(** Mounting on a directory that is no mount point yet makes the new
    filesystem the one found there: the parent's mount table binds the node
    to it, the parent and the type are held, the device is taken, and no other
    filesystem changes. *)
Theorem IoFilesystemMount_mounts junk v w type t dev d onto flags p a f w' :
  IO_ISDIR (imode onto) = true -> fsmap v !! ifs onto = Some p -> mountPoints p !! number onto = None -> 0 <= fsRefCount p < 4294967295 ->
  mountable v w type t dev d flags (ifs onto) (number onto) a f w' ->
  let p' := set_mountPoints (set_fsRefCount p (fsRefCount p + 1)) (<[number onto := a]> (mountPoints p)) in
  IoFilesystemMount fsOps junk type dev onto flags v w =
    Ret (0, set_fsmap (after_mount v type t dev d) (<[ifs onto := p']> (<[a := f]> (fsmap v))), w').
Proof. apply mount_effect. Qed.

(** The filesystem has no umount function, or its umount succeeds. *)
Definition umounts (f : IoFilesystem) (a : Z) (w w' : W) : Prop :=
  match op_umount (fsOps (fsops f)) with Some umount => umount a w = Ret (0, w') | None => w' = w end.

(** Unmounting what was just mounted undoes the mount: the filesystems,
    their mount tables and counts, the types and the devices are exactly as
    they were. *)
Theorem mount_unmount_roundtrip junk v w type t dev d onto flags p a f w1 w2 w3 :
  IO_ISDIR (imode onto) = true -> fsmap v !! ifs onto = Some p -> mountPoints p !! number onto = None -> 0 <= fsRefCount p < 4294967295 ->
  ifs onto <> 0 -> mountable v w type t dev d flags (ifs onto) (number onto) a f w1 -> umounts f a w1 w2 -> fsm_free a w2 = Ret w3 ->
  exists v', IoFilesystemMount fsOps junk type dev onto flags v w = Ret (0, v', w1) /\ IoFilesystemUnMount fsOps a v' w1 = Ret (0, v, w3).
Proof.
  intros Hdir Hp Hn Hc Hz Hm Hu Hfree. rewrite (mount_effect junk v w type t dev d onto flags p a f w1 Hdir Hp Hn Hc Hm).
  eexists. split; [done|]. destruct Hm as [Ht Hct Hd H0 Hi _ Hfr (F1 & F2 & F3 & F4 & F5 & F6)]. cbn in F1, F2, F3, F4, F5, F6.
  assert (a <> ifs onto) as Hne by (intros ->; congruence). unfold IoFilesystemUnMount. cbn [set_fsmap after_mount fsmap].
  rewrite lookup_insert_ne, lookup_insert_eq by done. cbn [or_fault mbind outcome_bind]. rewrite F3, F6, map_size_empty. change ((0 <? 0) || (0 <? Z.of_nat 0)) with false. cbn iota.
  assert (match op_umount (fsOps (fsops f)) with Some umount => umount a w1 | None => Ret (0, w1) end = Ret (0, w2)) as ->.
  { unfold umounts in Hu. destruct (op_umount _); [done|]. by rewrite Hu. }
  cbn [mbind outcome_bind Z.eqb negb]. unfold detach. rewrite F4. apply Z.eqb_neq in Hz. rewrite Hz. unfold upd_fs. cbn [fsmap set_fsmap].
  rewrite lookup_insert_eq. cbn [or_fault mbind outcome_bind]. rewrite F5. cbn [set_mountPoints set_fsRefCount mountPoints fsRefCount].
  rewrite lookup_insert_eq, bool_decide_eq_true_2 by done. rewrite delete_insert_id by done. unfold upd_type, upd_device. rewrite F1, F2.
  cbn [set_fsmap after_mount fstypes]. rewrite lookup_insert_eq. cbn [or_fault mbind outcome_bind set_types set_fsmap after_mount fsdevs]. rewrite lookup_insert_eq.
  cbn [or_fault mbind outcome_bind]. rewrite Hfree. cbn [mbind outcome_bind set_devs fsmap]. f_equal. f_equal. f_equal.
  unfold set_fsmap. cbn. destruct v as [nodes types m root devs]. cbn in *. f_equal.
  - rewrite insert_insert_eq. apply insert_id. rewrite Ht. unfold set_trefCount. cbn. rewrite Z.add_simpl_r.
    assert (u32 (trefCount t) = trefCount t) as -> by (apply Z.mod_small; lia). by destruct t.
  - rewrite insert_insert_eq. assert (u32 (fsRefCount p + 1 - 1) = fsRefCount p) as -> by (rewrite Z.add_simpl_r; apply Z.mod_small; lia).
    apply map_eq. intros x. destruct (decide (x = a)) as [->|Hx]; [by rewrite lookup_delete_eq|]. rewrite lookup_delete_ne by done.
    destruct (decide (x = ifs onto)) as [->|Hx']; [rewrite lookup_insert_eq, Hp; unfold set_mountPoints, set_fsRefCount; by destruct p|].
    by rewrite !lookup_insert_ne.
  - rewrite insert_insert_eq. apply insert_id. rewrite Hd. unfold set_mounted. cbn. rewrite <- Hi. by destruct d.
Qed.

(** The errors: a node that is no directory and one that is a mount point
    already are refused without effect; but when the device is in use the code
    unmounts through a pointer that was never set. *)
Theorem IoFilesystemMount_errors junk type dev onto flags v w :
  (IO_ISDIR (imode onto) = false -> IoFilesystemMount fsOps junk type dev onto flags v w = Ret (- ENOTDIR, v, w)) /\
  (forall p x, IO_ISDIR (imode onto) = true -> fsmap v !! ifs onto = Some p -> mountPoints p !! number onto = Some x ->
     IoFilesystemMount fsOps junk type dev onto flags v w = Ret (- EBUSY, v, w)) /\
  (forall p d, IO_ISDIR (imode onto) = true -> fsmap v !! ifs onto = Some p -> mountPoints p !! number onto = None -> dev <> 0 ->
     fsdevs v !! dev = Some d -> mounted d = true -> fsmap v !! junk = None ->
     IoFilesystemMount fsOps junk type dev onto flags v w = Fault).
Proof.
  unfold IoFilesystemMount. split_and!.
  - by intros ->.
  - intros p x -> -> H. cbn [negb or_fault mbind outcome_bind]. by rewrite H.
  - intros p d -> Hp Hn H0 Hd Hm Hj. rewrite Hp. cbn [negb or_fault mbind outcome_bind]. rewrite Hn. unfold upd_fs. rewrite Hp.
    cbn [or_fault mbind outcome_bind]. unfold IoFilesystemMountInternal. apply Z.eqb_neq in H0. rewrite H0. cbn [negb set_fsmap fsdevs]. rewrite Hd.
    cbn [or_fault mbind outcome_bind]. rewrite Hm. cbn [mbind outcome_bind]. change (- EBUSY =? 0) with false. cbn [mbind outcome_bind default from_option].
    unfold IoFilesystemUnMount. cbn [set_fsmap fsmap].
    rewrite lookup_insert_ne by congruence. by rewrite Hj.
Qed.

(** A filesystem without a device, such as devfs, cannot be unmounted: the
    code clears the mark of a device that is not there. *)
Theorem IoFilesystemUnMount_no_device fs v w f w1 :
  fsmap v !! fs = Some f -> fsRefCount f = 0 -> mountPoints f = ∅ -> device f = 0 -> fsdevs v !! 0 = None -> umounts f fs w w1 ->
  parentFs f = 0 -> is_Some (fstypes v !! fsType f) ->
  IoFilesystemUnMount fsOps fs v w = Fault.
Proof.
  intros Hf Hr Hm Hd Hn Hu Hp [t Ht]. unfold IoFilesystemUnMount. rewrite Hf. cbn [or_fault mbind outcome_bind].
  rewrite Hr, Hm, map_size_empty. change ((0 <? 0) || (0 <? Z.of_nat 0)) with false. cbn iota.
  assert (match op_umount (fsOps (fsops f)) with Some umount => umount fs w | None => Ret (0, w) end = Ret (0, w1)) as ->.
  { unfold umounts in Hu. destruct (op_umount _); [done|]. by rewrite Hu. }
  cbn [mbind outcome_bind Z.eqb negb]. unfold detach. rewrite Hp. cbn [Z.eqb mbind outcome_bind]. unfold upd_type, upd_device.
  replace (fstypes (if fs =? fsroot v then set_root v 0 else v)) with (fstypes v) by (by destruct (_ =? _)). rewrite Ht.
  cbn [or_fault mbind outcome_bind set_types fsdevs]. rewrite Hd. replace (fsdevs (if fs =? fsroot v then set_root v 0 else v)) with (fsdevs v) by (by destruct (_ =? _)).
  by rewrite Hn.
Qed.
End Mounting.

(** ** A small system *)

#[local] Instance small_fs_mem : FsMem Z := {| fsm_alloc w := Ret (2000, w + 1); fsm_free _ w := Ret (w + 1) |}.

(** A type whose filesystems have their root at node 2. *)
Definition small_type : IoFilesystemType Z := mkFsType [120] 0 (fun f w => Ret (0, set_fs_root f 0 2, w + 1)).
Definition small_device : IoDevice := mkDevice [104] 0x6180 0 0 0 0 false 0.
Definition small_root : IoFilesystem := mkFs 3000 0 0 2 0 0 0 0 0 ∅.

(** The root filesystem at 1000, the type at 3000, a device at 4000; the list
    head of the types at 5000. *)
Definition small_vfs : vfs Z :=
  mkVfs (<[5000 := mkListHead 5000 5000]> (<[3004 := mkListHead 3004 3004]> ∅))
    (<[3000 := small_type]> ∅) (<[1000 := small_root]> ∅) 1000 (<[4000 := small_device]> ∅).

Definition small_dir : IoINode := mkINode 5 1000 0 IO_DIR 0 0 0.
Definition quiet_ops (_ : Z) : IoFilesystemOps Z :=
  mkFsOps Z None (fun i w => Ret (0, i, w)) (fun _ p _ w => Ret (- ENOENT, p, w)) None.

Definition small_new : IoFilesystem := mkFs 3000 4000 0 2 0 0 0 1000 5 ∅.

Lemma small_mountable : mountable small_vfs 0 3000 small_type 4000 small_device 0 1000 5 2000 small_new 2.
Proof. split; try reflexivity; try discriminate; [simpl; lia|exists 1; split; reflexivity|by split_and!]. Qed.

Lemma IoFilesystemMount_mounts_witness :
  exists v', IoFilesystemMount quiet_ops 77 3000 4000 small_dir 0 small_vfs 0 = Ret (0, v', 2) /\
    fsmap v' !! 1000 = Some (mkFs 3000 0 0 2 1 0 0 0 0 (<[5 := 2000]> ∅)) /\ fsmap v' !! 2000 = Some small_new.
Proof.
  eexists. split; [|split].
  - refine (IoFilesystemMount_mounts quiet_ops 77 small_vfs 0 3000 small_type 4000 small_device small_dir 0 small_root 2000 small_new 2
              _ _ _ _ small_mountable); [reflexivity|reflexivity|reflexivity|simpl; lia].
  - reflexivity.
  - reflexivity.
Defined.

Lemma mount_unmount_roundtrip_witness :
  exists v', IoFilesystemMount quiet_ops 77 3000 4000 small_dir 0 small_vfs 0 = Ret (0, v', 2) /\
    IoFilesystemUnMount quiet_ops 2000 v' 2 = Ret (0, small_vfs, 3).
Proof.
  refine (mount_unmount_roundtrip quiet_ops 77 small_vfs 0 3000 small_type 4000 small_device small_dir 0 small_root 2000 small_new 2 2 3
            _ _ _ _ _ small_mountable _ _); [reflexivity|reflexivity|reflexivity|simpl; lia|discriminate|reflexivity|reflexivity].
Defined.

Lemma IoFilesystemRegister_forgets_witness :
  exists v', IoFilesystemRegister 5000 1 3000 small_vfs = Ret (true, v') /\ IoFilesystemFind 5000 1 [121] v' = Ret 0.
Proof.
  destruct (IoFilesystemRegister_forgets 5000 1 3000 small_type small_vfs []) as (v' & E & _ & _ & Ho).
  - reflexivity.
  - lia.
  - split; [apply NoDup_singleton|]. split; reflexivity.
  - split; [apply NoDup_singleton|]. split; reflexivity.
  - unfold fsTypes_off. set_solver.
  - intros x Hx. by apply not_elem_of_nil in Hx.
  - simpl. lia.
  - reflexivity.
  - exists v'. split; [exact E|]. apply Ho. discriminate.
Defined.
