(* ===== verification/DevFs.v ===== *)
(** * The device filesystem (src/io/devfs.c)

    The table of registered devices and the hash table of their names, which
    is the finite map that HTable.v shows such a table to be. Devices are
    records at their addresses, their drivers act on a state [D], and the
    block cache is a parameter. The operations of the filesystem are given as
    the tables that IoLookupPath, IoOpen and IoRead call. *)
From S2P Require Import Prelude Errno Utils Fs Mode IoContext Open Mount.

Definition MAX_DEVICES : Z := 1024.

(** [devices] are addresses, 0 for NULL. *)
Record devfs (D : Type) := mkDevfs {
  devices : list Z; nextFreeINode : Z; dfiles : gmap (list Z) Z; devs : gmap Z IoDevice; drv : D
}.
Arguments mkDevfs {D}. Arguments devices {D}. Arguments nextFreeINode {D}. Arguments dfiles {D}. Arguments devs {D}. Arguments drv {D}.

(** The key of a device: StrLen(device->name, IO_NAME_MAX) bytes of its name. *)
Definition file_key (d : IoDevice) : list Z := firstn (Z.to_nat IO_NAME_MAX) (dvname d).

(** for(; freeINode < MAX_DEVICES; freeINode++), [n] turns left. *)
Fixpoint free_inode (n : nat) (l : list Z) (i : Z) : outcome Z :=
  match n with
  | O => Ret i
  | S n' => p ← or_fault (zget l i); if p =? 0 then Ret i else free_inode n' l (i + 1)
  end.

Section DevFs.
Context {D : Type} (devOpsOf : Z -> IoDeviceOps D).
(** IoBlockCacheReadBuffer and IoBlockCacheWriteBuffer: device, offset, buffer, count. *)
Context (IoBlockCacheReadBuffer IoBlockCacheWriteBuffer : Z -> Z -> Z -> Z -> devfs D -> outcome (Z * devfs D)).
(** The addresses of the operations tables. *)
Context (fsOps fileOps rootDirOps : Z).

Definition set_drv (st : devfs D) (x : D) : devfs D := mkDevfs (devices st) (nextFreeINode st) (dfiles st) (devs st) x.

(** Run a driver's operation on its state. *)
Definition with_driver {A} (r : outcome (A * D)) (st : devfs D) : outcome (A * devfs D) :=
  '(a, x) ← r; Ret (a, set_drv st x).

(** ** Registering devices *)

Definition IoDevFsRegister (dev : Z) (st : devfs D) : outcome (Z * devfs D) :=
  freeINode ← free_inode (Z.to_nat (MAX_DEVICES - nextFreeINode st)) (devices st) (nextFreeINode st);
  if freeINode =? MAX_DEVICES then Ret (- ENOSPC, st)
  else
    d ← or_fault (devs st !! dev);
    match dfiles st !! file_key d with
    | Some _ => Ret (- EEXIST, st)
    | None =>
        Ret (0, mkDevfs (zset (devices st) freeINode dev) (freeINode + 1) (<[file_key d := dev]> (dfiles st))
                  (<[dev := set_devFsINode d freeINode]> (devs st)) (drv st))
    end.

Definition IoDevFsUnRegister (dev : Z) (st : devfs D) : outcome (Z * devfs D) :=
  d ← or_fault (devs st !! dev);
  if MAX_DEVICES <=? devFsINode d then Ret (- ENOENT, st)
  else
    p ← or_fault (zget (devices st) (devFsINode d));
    if negb (p =? dev) then Ret (- ENOENT, st)
    else
      let files' := if bool_decide (dfiles st !! file_key d = Some dev) then delete (file_key d) (dfiles st) else dfiles st in
      Ret (0, mkDevfs (zset (devices st) (devFsINode d) 0)
                (if devFsINode d <? nextFreeINode st then devFsINode d else nextFreeINode st)
                files' (<[dev := set_devFsINode d 0]> (devs st)) (drv st)).

(** ** The filesystem *)

Definition DevFsMount (newFs : IoFilesystem) (st : devfs D) : outcome (Z * IoFilesystem * devfs D) :=
  Ret (0, set_fs_root newFs fsOps 0, st).

(** GET_DEVICE: None is -ENXIO. *)
Definition get_device (inode : Z) (st : devfs D) : outcome (option (Z * IoDevice)) :=
  if MAX_DEVICES <=? inode then Ret None
  else
    p ← or_fault (zget (devices st) inode);
    if p =? 0 then Ret None else d ← or_fault (devs st !! p); Ret (Some (p, d)).

Definition root_mode : Z :=
  Z.lor (Z.lor (Z.lor (Z.lor (Z.lor (Z.lor IO_OWNER_READ IO_OWNER_EXEC) IO_GROUP_READ) IO_GROUP_EXEC) IO_WORLD_READ) IO_WORLD_EXEC) IO_DIR.

Definition DevFsReadINode (i : IoINode) (st : devfs D) : outcome (Z * IoINode * devfs D) :=
  if MAX_DEVICES <? number i then Ret (- EIO, i, st)
  else if number i =? 0 then Ret (0, mkINode 0 (ifs i) rootDirOps root_mode 0 0 0, st)
  else
    g ← get_device (number i) st;
    match g with
    | None => Ret (- ENXIO, i, st)
    | Some (_, d) => Ret (0, mkINode (number i) (ifs i) fileOps (dvmode d) (dvuid d) (dvgid d) 0, st)
    end.

Definition DevFsFindINode (fs parent : Z) (name : list Z) (st : devfs D) : outcome (Z * Z * devfs D) :=
  if parent =? 0 then
    match dfiles st !! name with
    | None => Ret (- ENOENT, parent, st)
    | Some dev => d ← or_fault (devs st !! dev); Ret (0, devFsINode d, st)
    end
  else Ret (- ENOENT, parent, st).

Definition devfs_fs_ops : IoFilesystemOps (devfs D) := mkFsOps _ None DevFsReadINode DevFsFindINode None.

(** ** Files *)

Definition DevFsOpen (i : IoINode) (file : IoFile) (st : devfs D) : outcome (Z * IoFile * devfs D) :=
  g ← get_device (number i) st;
  match g with
  | None => Ret (- ENXIO, file, st)
  | Some (p, d) =>
      match dev_open (devOpsOf (devOps d)) with
      | Some open => '(res, st') ← with_driver (open p (drv st)) st; Ret (res, file, st')
      | None => Ret (- ENOSYS, file, st)
      end
  end.

Definition DevFsClose (file : IoFile) (st : devfs D) : outcome (Z * devfs D) :=
  g ← get_device (iNode file) st;
  match g with
  | None => Ret (0, st)
  | Some (p, d) =>
      match dev_close (devOpsOf (devOps d)) with
      | Some close => x ← close p (drv st); Ret (0, set_drv st x)
      | None => Ret (0, st)
      end
  end.

(** Reading and writing, [cached] through the block cache and [direct] by the driver. *)
Definition device_transfer (cached : Z -> Z -> Z -> Z -> devfs D -> outcome (Z * devfs D))
    (direct : IoDeviceOps D -> option (Z -> Z -> Z -> Z -> D -> outcome (Z * D)))
    (file : IoFile) (buffer count : Z) (st : devfs D) : outcome (Z * devfs D) :=
  g ← get_device (iNode file) st;
  match g with
  | None => Ret (- ENXIO, st)
  | Some (p, d) =>
      if negb (blockCache d =? 0) && IO_ISBLOCK (dvmode d) then cached p (off file) buffer count st
      else
        match direct (devOpsOf (devOps d)) with
        | Some op => with_driver (op p (off file) buffer count (drv st)) st
        | None => Ret (- ENOSYS, st)
        end
  end.

Definition DevFsRead := device_transfer IoBlockCacheReadBuffer dev_read.
Definition DevFsWrite := device_transfer IoBlockCacheWriteBuffer dev_write.

Definition DevFsIoCtl (file : IoFile) (request data : Z) (st : devfs D) : outcome (Z * devfs D) :=
  g ← get_device (iNode file) st;
  match g with
  | None => Ret (- ENXIO, st)
  | Some (p, d) =>
      match dev_ioctl (devOpsOf (devOps d)) with
      | Some ioctl => with_driver (ioctl p request data (drv st)) st
      | None => Ret (- ENOTTY, st)
      end
  end.

(** for(int i = 0; i < MAX_DEVICES; i++) over the rest [l] of the table. The
    filler's result is not looked at. *)
Fixpoint readdir_loop (l : list Z) (i toSkip readSoFar count : Z) (filler : IoDirectoryFiller) (buf : ReadDirFillerBuf) (st : devfs D)
  : outcome (Z * ReadDirFillerBuf) :=
  match l with
  | [] => Ret (readSoFar, buf)
  | p :: l' =>
      if p =? 0 then readdir_loop l' (i + 1) toSkip readSoFar count filler buf st
      else if toSkip =? 0 then
        d ← or_fault (devs st !! p);
        let buf' := snd (filler buf (u32 (i - 1)) (file_key d)) in
        if count <=? readSoFar + 1 then Ret (readSoFar + 1, buf')
        else readdir_loop l' (i + 1) toSkip (readSoFar + 1) count filler buf' st
      else readdir_loop l' (i + 1) (s32 (toSkip - 1)) readSoFar count filler buf st
  end.

Definition DevFsReadDir (file : IoFile) (buf : ReadDirFillerBuf) (filler : IoDirectoryFiller) (count : Z) (st : devfs D)
  : outcome (Z * IoFile * ReadDirFillerBuf * devfs D) :=
  if iNode file =? 0 then
    '(readSoFar, buf') ← readdir_loop (devices st) 0 (s32 (off file)) 0 count filler buf st;
    Ret (readSoFar, set_off file (u32 (off file + readSoFar)), buf', st)
  else Ret (- ENOTDIR, file, buf, st).

Definition devfs_file_ops : IoFileOps (devfs D) :=
  mkOps _ (Some DevFsOpen) (Some DevFsClose) (Some DevFsRead) (Some DevFsWrite) (Some DevFsIoCtl) None None.
Definition devfs_root_ops : IoFileOps (devfs D) := mkOps _ None None None None None None (Some DevFsReadDir).

(** The static type. *)
Definition devfs_type : IoFilesystemType (devfs D) := mkFsType [100; 101; 118; 102; 115] 0 DevFsMount.

Definition IoDevFsInit (fuel : nat) (fsTypeHead type : Z) (v : vfs (devfs D)) : outcome (vfs (devfs D)) :=
  '(ok, v') ← IoFilesystemRegister fsTypeHead fuel type v;
  if (ok : bool) then Ret v' else Panic "IoDevFsInit: failed to register devfs ?!".
End DevFs.

(** ** The tables agree *)

Section Tables.
Context {D : Type}.

(** Every device in the table is found under its name and knows its slot,
    every name leads to a device in the table, and no slot below the search
    hint is free. *)
Record devfs_ok (st : devfs D) : Prop := {
  d_len : zlen (devices st) = MAX_DEVICES;
  d_hint : 0 <= nextFreeINode st <= MAX_DEVICES;
  d_below : forall i p, zget (devices st) i = Some p -> i < nextFreeINode st -> p <> 0;
  d_slot : forall i p, zget (devices st) i = Some p -> p <> 0 ->
    exists d, devs st !! p = Some d /\ devFsINode d = i /\ dfiles st !! file_key d = Some p;
  d_name : forall k p, dfiles st !! k = Some p ->
    exists d, p <> 0 /\ devs st !! p = Some d /\ k = file_key d /\ zget (devices st) (devFsINode d) = Some p
}.

(** The search finds the lowest free slot from [i] on. *)
Lemma free_inode_spec l : forall n i,
  0 <= i -> i + Z.of_nat n = zlen l ->
  exists j, free_inode n l i = Ret j /\ i <= j <= zlen l /\ (forall k p, i <= k < j -> zget l k = Some p -> p <> 0) /\
    (j < zlen l -> zget l j = Some 0).
Proof.
  induction n as [|n IH]; intros i Hi Hn; simpl.
  - exists i. split_and!; [done|lia|lia|lia|lia].
  - destruct (zget_in_range l i) as [p Hp]; [lia|]. rewrite Hp. simpl. destruct (Z.eqb_spec p 0) as [->|Hne].
    + exists i. split_and!; [done|lia|lia|lia|done].
    + destruct (IH (i + 1)) as (j & -> & Hj & Hused & Hfree); [lia|lia|]. exists j. split_and!; [done|lia|lia| |done].
      intros k q Hk Hq. destruct (decide (k = i)) as [->|]; [congruence|]. apply (Hused k); [lia|done].
Qed.

Lemma register_slot st : devfs_ok st ->
  exists j, free_inode (Z.to_nat (MAX_DEVICES - nextFreeINode st)) (devices st) (nextFreeINode st) = Ret j /\ 0 <= j <= MAX_DEVICES /\
    (forall k p, k < j -> zget (devices st) k = Some p -> p <> 0) /\ (j < MAX_DEVICES -> zget (devices st) j = Some 0).
Proof.
  intros [Hl Hh Hb _ _]. destruct (free_inode_spec (devices st) (Z.to_nat (MAX_DEVICES - nextFreeINode st)) (nextFreeINode st)) as (j & E & Hj & Hu & Hf);
    [lia|lia|]. exists j. rewrite Hl in *. split_and!; [done|lia|lia| |done].
  intros k p Hk Hp. destruct (Z.lt_ge_cases k (nextFreeINode st)); [by apply (Hb k)|]. apply (Hu k); [lia|done].
Qed.

(** The state after a successful registration. *)
Definition registered (st : devfs D) (dev : Z) (d : IoDevice) (j : Z) : devfs D :=
  mkDevfs (zset (devices st) j dev) (j + 1) (<[file_key d := dev]> (dfiles st)) (<[dev := set_devFsINode d j]> (devs st)) (drv st).

Lemma registered_ok st dev d j :
  devfs_ok st -> dev <> 0 -> devs st !! dev = Some d -> dfiles st !! file_key d = None -> 0 <= j < MAX_DEVICES -> zget (devices st) j = Some 0 ->
  (forall k p, k < j -> zget (devices st) k = Some p -> p <> 0) -> devfs_ok (registered st dev d j).
Proof.
  intros [Hl Hh Hb Hs Hn] H0 Hd Hk Hj Hz Hlow. split; cbn [registered devices nextFreeINode dfiles devs].
  - by rewrite zlen_zset.
  - lia.
  - intros i p Hp Hi. destruct (decide (i = j)) as [->|]; [rewrite zget_zset_eq in Hp by lia; congruence|].
    rewrite zget_zset_ne in Hp by done. apply (Hlow i); [lia|done].
  - intros i p Hp Hp0. destruct (decide (i = j)) as [->|Hij].
    + rewrite zget_zset_eq in Hp by lia. injection Hp as <-. exists (set_devFsINode d j). rewrite lookup_insert_eq. split_and!; [done..|].
      change (file_key (set_devFsINode d j)) with (file_key d). apply lookup_insert_eq.
    + rewrite zget_zset_ne in Hp by done. destruct (Hs i p Hp Hp0) as (d' & Hd' & Hi & Hf).
      assert (p <> dev) as Hne by (intros ->; rewrite Hd in Hd'; injection Hd' as ->; congruence).
      exists d'. rewrite !lookup_insert_ne; [done|congruence|done].
  - intros k p Hp. destruct (decide (file_key d = k)) as [<-|Hne].
    + rewrite lookup_insert_eq in Hp. injection Hp as <-. exists (set_devFsINode d j). rewrite lookup_insert_eq. split_and!; [done..|].
      cbn [set_devFsINode devFsINode]. apply zget_zset_eq. lia.
    + rewrite lookup_insert_ne in Hp by done. destruct (Hn k p Hp) as (d' & Hp0 & Hd' & -> & Hslot).
      assert (p <> dev) as Hpd by (intros ->; rewrite Hd in Hd'; injection Hd' as ->; congruence).
      exists d'. rewrite lookup_insert_ne by done. split_and!; [done..|]. rewrite zget_zset_ne; [done|]. intros E. congruence.
Qed.

(** IoDevFsRegister fails with ENOSPC exactly when every slot is in use
    and with EEXIST when the name is taken, without effect; otherwise the
    device gets the lowest free slot, and its name, and no other, leads there. *)
Theorem IoDevFsRegister_spec dev d st :
  devfs_ok st -> dev <> 0 -> devs st !! dev = Some d ->
  exists res st', IoDevFsRegister dev st = Ret (res, st') /\ devfs_ok st' /\
  ((res = - ENOSPC /\ st' = st /\ forall i p, zget (devices st) i = Some p -> p <> 0) \/
   (res = - EEXIST /\ st' = st /\ is_Some (dfiles st !! file_key d)) \/
   (res = 0 /\ dfiles st !! file_key d = None /\ exists j, 0 <= j < MAX_DEVICES /\ zget (devices st) j = Some 0 /\
      (forall i p, i < j -> zget (devices st) i = Some p -> p <> 0) /\
      forall fs name, DevFsFindINode fs 0 name st' =
        if bool_decide (name = file_key d) then Ret (0, j, st')
        else match dfiles st !! name with
             | Some p => '(res, i, _) ← DevFsFindINode fs 0 name st; Ret (res, i, st')
             | None => Ret (- ENOENT, 0, st')
             end)).
Proof.
  intros Hok H0 Hd. destruct (register_slot st Hok) as (j & E & Hj & Hlow & Hfree). unfold IoDevFsRegister. rewrite E. cbn [mbind outcome_bind].
  destruct (Z.eqb_spec j MAX_DEVICES) as [->|Hne].
  { exists (- ENOSPC), st. split; [done|]. split; [done|]. left. split_and!; [done..|]. intros i p Hp. pose proof (zget_range _ _ _ Hp).
    apply (Hlow i); [|done]. rewrite (d_len _ Hok) in *. lia. }
  rewrite Hd. cbn [or_fault mbind outcome_bind]. destruct (dfiles st !! file_key d) as [x|] eqn:Ek.
  { exists (- EEXIST), st. split; [done|]. split; [done|]. right. left. by split_and!. }
  eexists _, _. split; [done|]. fold (registered st dev d j). split; [apply registered_ok; try done; [lia|apply Hfree; lia]|].
  right. right. split; [done|]. split; [done|]. exists j. split_and!; [lia|lia|apply Hfree; lia|done|]. intros fs name. unfold DevFsFindINode.
  cbn [Z.eqb registered dfiles devs]. destruct (decide (name = file_key d)) as [->|Hnn].
  - rewrite lookup_insert_eq, bool_decide_eq_true_2 by done. by rewrite lookup_insert_eq.
  - rewrite lookup_insert_ne, bool_decide_eq_false_2 by done. destruct (dfiles st !! name) as [p|] eqn:Ep; [|done].
    destruct (d_name _ Hok _ _ Ep) as (d' & _ & Hd' & -> & _).
    assert (p <> dev) as Hpd by (intros ->; rewrite Hd in Hd'; injection Hd' as ->; done).
    rewrite lookup_insert_ne by done. by rewrite Hd'.
Qed.

(** A registered device and its slot. *)
Lemma registered_at st dev d :
  devfs_ok st -> dev <> 0 -> devs st !! dev = Some d -> zget (devices st) (devFsINode d) = Some dev -> dfiles st !! file_key d = Some dev.
Proof. intros Hok H0 Hd Hz. destruct (d_slot _ Hok _ _ Hz H0) as (d' & Hd' & _ & Hf). congruence. Qed.

Lemma unregister_ok dev st res st' : devfs_ok st -> dev <> 0 -> IoDevFsUnRegister dev st = Ret (res, st') -> devfs_ok st'.
Proof.
  intros Hok H0 H. pose proof Hok as [Hl Hh Hb Hs Hn]. unfold IoDevFsUnRegister in H. apply bind_Ret_inv in H as (d & Hd%or_fault_inv & H).
  destruct (Z.leb_spec MAX_DEVICES (devFsINode d)); [ret_inv; done|]. apply bind_Ret_inv in H as (p & Hp%or_fault_inv & H).
  destruct (Z.eqb_spec p dev) as [->|]; cbn [negb] in H; [|ret_inv; done]. pose proof (registered_at st dev d Hok H0 Hd Hp) as Hf.
  rewrite bool_decide_eq_true_2 in H by done. pose proof (zget_range _ _ _ Hp) as Hr. apply Ret_inj in H. injection H as <- <-.
  assert (forall i q, zget (devices st) i = Some q -> q <> 0 -> i <> devFsINode d -> q <> dev) as Hother.
  { intros i q Hq Hq0 Hi ->. destruct (Hs i dev Hq Hq0) as (d' & Hd' & Hi' & _). congruence. }
  split; cbn [devices nextFreeINode dfiles devs].
  - by rewrite zlen_zset.
  - destruct (_ <? _); lia.
  - intros i q Hq Hi. assert (i < devFsINode d /\ i < nextFreeINode st) as [Hi1 Hi2] by (destruct (Z.ltb_spec (devFsINode d) (nextFreeINode st)); lia).
    rewrite zget_zset_ne in Hq by lia. by apply (Hb i).
  - intros i q Hq Hq0. destruct (decide (i = devFsINode d)) as [->|Hi]; [rewrite zget_zset_eq in Hq by lia; congruence|].
    rewrite zget_zset_ne in Hq by done. destruct (Hs i q Hq Hq0) as (d' & Hd' & Hi' & Hf'). pose proof (Hother _ _ Hq Hq0 Hi) as Hqd.
    exists d'. rewrite lookup_insert_ne, lookup_delete_ne; [done|congruence|done].
  - intros k q Hq. apply lookup_delete_Some in Hq as [Hk Hq]. destruct (Hn k q Hq) as (d' & Hq0 & Hd' & -> & Hslot).
    assert (q <> dev) as Hqd by (intros ->; congruence). exists d'. rewrite lookup_insert_ne by done. split_and!; [done..|].
    rewrite zget_zset_ne; [done|congruence].
Qed.

(** Before any device is registered. *)
Definition devfs_start (m : gmap Z IoDevice) (x : D) : devfs D := mkDevfs (replicate (Z.to_nat MAX_DEVICES) 0) 0 ∅ m x.

Lemma devfs_start_ok m x : devfs_ok (devfs_start m x).
Proof.
  split; cbn [devfs_start devices nextFreeINode dfiles devs].
  - rewrite zlen_replicate. reflexivity.
  - unfold MAX_DEVICES. lia.
  - intros i p Hp Hi. pose proof (zget_range _ _ _ Hp). lia.
  - intros i p Hp Hp0. unfold zget in Hp. destruct (i <? 0); [done|]. by apply lookup_replicate in Hp as [-> _].
  - done.
Qed.

Inductive devfs_step : devfs D -> devfs D -> Prop :=
| s_register dev st res st' : dev <> 0 -> IoDevFsRegister dev st = Ret (res, st') -> devfs_step st st'
| s_unregister dev st res st' : dev <> 0 -> IoDevFsUnRegister dev st = Ret (res, st') -> devfs_step st st'.

Lemma register_keeps dev st res st' : devfs_ok st -> dev <> 0 -> IoDevFsRegister dev st = Ret (res, st') -> devfs_ok st'.
Proof.
  intros Hok H0 H. destruct (register_slot st Hok) as (j & E & Hj & Hlow & Hfree). unfold IoDevFsRegister in H. rewrite E in H. cbn [mbind outcome_bind] in H.
  destruct (Z.eqb_spec j MAX_DEVICES); [by ret_inv|]. apply bind_Ret_inv in H as (d & Hd%or_fault_inv & H).
  destruct (dfiles st !! file_key d) eqn:Ek; [by ret_inv|]. apply Ret_inj in H. injection H as <- <-.
  apply (registered_ok st dev d j); try done; [lia|apply Hfree; lia].
Qed.

Lemma reachable_ok m x st : rtc devfs_step (devfs_start m x) st -> devfs_ok st.
Proof.
  intros H. pose proof (devfs_start_ok m x) as H0. induction H as [|a b c Hab _ IH]; [done|]. apply IH.
  destruct Hab; [by eapply register_keeps|by eapply unregister_ok].
Qed.

(** After any sequence of registrations and removals, the device table,
    the table of names and the devices' own numbers agree: every device in a
    slot is found under its name and knows the slot, every name leads to a
    device in the table, and no slot below the search hint is free. *)
Theorem devfs_invariant m x st : rtc devfs_step (devfs_start m x) st -> devfs_ok st.
Proof. apply reachable_ok. Qed.

(** The first device registered gets node 0, which is the root directory: its
    name leads to the directory, and the device can never be opened. *)
Theorem first_device_hidden (fileOps rootDirOps : Z) m x dev d fs f0 :
  m !! dev = Some d -> dev <> 0 ->
  exists st, IoDevFsRegister dev (devfs_start m x) = Ret (0, st) /\
    DevFsFindINode fs 0 (file_key d) st = Ret (0, 0, st) /\
    DevFsReadINode fileOps rootDirOps (mkINode 0 fs f0 0 0 0 0) st = Ret (0, mkINode 0 fs rootDirOps root_mode 0 0 0, st).
Proof.
  intros Hd H0. unfold IoDevFsRegister. cbn [devfs_start nextFreeINode devices devs dfiles].
  replace (free_inode (Z.to_nat (MAX_DEVICES - 0)) (replicate (Z.to_nat MAX_DEVICES) 0) 0) with (Ret 0) by reflexivity. cbn [mbind outcome_bind].
  cbn [Z.eqb MAX_DEVICES]. rewrite Hd. cbn [or_fault mbind outcome_bind]. rewrite lookup_empty. eexists. split; [done|].
  unfold DevFsFindINode. cbn [Z.eqb dfiles devs]. rewrite lookup_insert_eq, lookup_insert_eq. done.
Qed.
End Tables.

(** ** A device as a file *)

Section DeviceFile.
Context {D : Type} {FM : FileMem (devfs D)} (devOpsOf : Z -> IoDeviceOps D).
Context (IoBlockCacheReadBuffer IoBlockCacheWriteBuffer : Z -> Z -> Z -> Z -> devfs D -> outcome (Z * devfs D)).
(** The tables at their addresses, and devfs as the root filesystem. *)
Context (dfsOps fileOps rootDirOps : Z) (fsTables : Z -> IoFilesystemOps (devfs D)) (fileTables : Z -> IoFileOps (devfs D)).
Context (fss : gmap Z IoFilesystem) (root : Z) (rootFs : IoFilesystem) (secContext : SecContext).
Hypothesis Hfsops : fsTables dfsOps = devfs_fs_ops fileOps rootDirOps.
Hypothesis Hfileops : fileTables fileOps = devfs_file_ops devOpsOf IoBlockCacheReadBuffer IoBlockCacheWriteBuffer.
Hypothesis Hroot : root <> 0 /\ fss !! root = Some rootFs /\ fsops rootFs = dfsOps /\ rootINode rootFs = 0 /\ mountPoints rootFs = ∅.

(** The name can be a path element. *)
Definition plain_name (s : list Z) : Prop :=
  s <> [] /\ s <> [DOT] /\ s <> [DOT; DOT] /\ zlen s < IO_NAME_MAX /\ Forall (fun c => c <> SLASH) s.

Lemma pieces_plain s : Forall (fun c => c <> SLASH) s -> pieces s = [s].
Proof.
  induction s as [|c s IH]; [done|]. intros [Hc Hs]%Forall_cons. simpl. apply Z.eqb_neq in Hc. by rewrite Hc, (IH Hs).
Qed.

Lemma plain_path s : plain_name s ->
  walkable (SLASH :: s) /\ names (SLASH :: s) = [s] /\ wants_dir (SLASH :: s) = false.
Proof.
  intros (Hn & Hd & Hdd & Hl & Hs). unfold walkable, names, wants_dir, final_piece. simpl. rewrite (pieces_plain s Hs). simpl.
  rewrite bool_decide_eq_false_2 by done. split; [|split; [|done]].
  - split; [|done]. apply Forall_cons. split; [reflexivity|]. by apply Forall_singleton.
  - rewrite filter_cons_False by naive_solver. by rewrite filter_cons_True.
Qed.

(** Everyone may search the root directory. *)
Lemma root_searchable fs : IoModeCanAccessINode IO_WORLD_EXEC (mkINode 0 fs rootDirOps root_mode 0 0 0) secContext = true.
Proof. unfold IoModeCanAccessINode, IoModeCanAccess. simpl. by repeat case_match. Qed.

(** The node of the device [d] in slot [j]. *)
Definition device_node (d : IoDevice) : IoINode := mkINode (devFsINode d) root fileOps (dvmode d) (dvuid d) (dvgid d) 0.

(** "/name" leads to the device's node. *)
Lemma device_resolves c st dev d output :
  devs st !! dev = Some d -> dev <> 0 -> zget (devices st) (devFsINode d) = Some dev -> devFsINode d <> 0 -> zlen (devices st) = MAX_DEVICES ->
  dfiles st !! file_key d = Some dev -> plain_name (file_key d) -> IO_ISDIR (dvmode d) = false ->
  resolve fsTables fss root secContext c (SLASH :: file_key d) output st = Ret (0, device_node d, false, st).
Proof.
  intros Hd H0 Hz Hj Hlen Hf Hp Hdir. destruct Hroot as (Hr0 & Hr & Ho & Hri & Hmp). destruct (plain_path _ Hp) as (_ & En & Ew).
  unfold resolve. rewrite bool_decide_eq_false_2 by done. cbn [orb Z.eqb andb SLASH Pos.eqb]. apply Z.eqb_neq in Hr0. rewrite Hr0, Hr, En, Ew.
  cbn [or_fault mbind outcome_bind]. rewrite Hri. unfold read_dir, read_node. rewrite Hr. cbn [or_fault mbind outcome_bind]. rewrite Ho, Hfsops.
  cbn [devfs_fs_ops op_readINode]. unfold DevFsReadINode. cbn [number ifs]. change (MAX_DEVICES <? 0) with false. cbn [Z.eqb mbind outcome_bind negb].
  rewrite root_searchable. cbn [negb mbind outcome_bind Z.eqb walk]. change (IO_ISDIR (imode _)) with true. cbn [negb].
  unfold lookup_step, go_up. rewrite Hr. cbn [or_fault mbind outcome_bind]. destruct Hp as (_ & _ & Hdd & _).
  rewrite (bool_decide_eq_false_2 (file_key d = [DOT; DOT])) by done.
  cbn [andb mbind outcome_bind Z.eqb negb]. unfold find_child. rewrite Hr. cbn [or_fault mbind outcome_bind]. rewrite Ho, Hfsops.
  cbn [devfs_fs_ops op_findINode]. unfold DevFsFindINode. cbn [Z.eqb]. rewrite Hf, Hd. cbn [or_fault mbind outcome_bind]. change (0 =? - ENOENT) with false.
  cbn [Z.eqb negb]. rewrite Hmp, lookup_empty. cbn [mbind outcome_bind]. unfold read_node. rewrite Hr. cbn [or_fault mbind outcome_bind]. rewrite Ho, Hfsops.
  cbn [devfs_fs_ops op_readINode]. unfold DevFsReadINode. cbn [number ifs]. apply zget_range in Hz as Hrange. destruct (Z.ltb_spec MAX_DEVICES (devFsINode d)); [lia|].
  apply Z.eqb_neq in Hj. rewrite Hj. unfold get_device. destruct (Z.leb_spec MAX_DEVICES (devFsINode d)); [lia|]. rewrite Hz. cbn [or_fault mbind outcome_bind].
  apply Z.eqb_neq in H0. rewrite H0, Hd. cbn [or_fault mbind outcome_bind Z.eqb negb imode]. rewrite Hdir. done.
Qed.

(** A registered device can be used through its path: opening "/name"
    for reading calls the driver's open and gives a descriptor, and a read on
    it calls the driver's read at offset 0, returns what that returns and
    advances the offset by the bytes read. *)
Theorem device_open_read fuel m path mode fd c st fst0 blank dev d p junk open x1 read canRead buffer count res x2 :
  devfs_ok st -> devs st !! dev = Some d -> dev <> 0 -> zget (devices st) (devFsINode d) = Some dev -> devFsINode d <> 0 ->
  plain_name (file_key d) -> IO_ISDIR (dvmode d) = false -> IO_ISBLOCK (dvmode d) = false ->
  string_at m path (SLASH :: file_key d) -> (S (length (file_key d)) < fuel)%nat -> fd_free c fd ->
  open_checks fss secContext (device_node d) IO_O_RDONLY = Ret 0 -> fm_alloc st = Ret (p, junk, st) -> p <> 0 ->
  dev_open (devOpsOf (devOps d)) = Some open -> open dev (drv st) = Ret (0, x1) ->
  dev_read (devOpsOf (devOps d)) = Some read -> canRead buffer count = true -> read dev 0 buffer count x1 = Ret (res, x2) ->
  exists c' file,
    IoOpen fsTables fileTables fss root secContext fuel m path IO_O_RDONLY mode fd c fst0 blank st = Ret (0, c', <[p := file]> fst0, set_drv st x1) /\
    iNode file = devFsINode d /\ off file = 0 /\
    IoRead fileTables canRead fd buffer count c' (<[p := file]> fst0) (set_drv st x1) =
      Ret (res, c', <[p := if 0 <? res then set_off file (u32 res) else file]> fst0, set_drv st x2).
Proof.
  intros Hok Hd H0 Hz Hj Hp Hdir Hblk Hs Hf Hfree Hck Hal Hp0 Hop Eo Hrd Hcan Er. pose proof (d_len _ Hok) as Hlen.
  pose proof (registered_at st dev d Hok H0 Hd Hz) as Hname. destruct (plain_path _ Hp) as (Hw & _ & _).
  pose proof (device_resolves c st dev d blank Hd H0 Hz Hj Hlen Hname Hp Hdir) as Hres. apply zget_range in Hz as Hr.
  assert (forall x, get_device (devFsINode d) (set_drv st x) = Ret (Some (dev, d))) as Hget.
  { intros x. unfold get_device. destruct (Z.leb_spec MAX_DEVICES (devFsINode d)); [lia|]. cbn [set_drv devices devs]. rewrite Hz.
    cbn [or_fault mbind outcome_bind]. apply Z.eqb_neq in H0. by rewrite H0, Hd. }
  assert (set_drv st (drv st) = st) as Hst by (by destruct st). set (file := mkFile 1 0 1 root (devFsINode d) junk fileOps).
  destruct (open_existing fsTables fileTables fss root secContext fuel m path (SLASH :: file_key d) IO_O_RDONLY mode fd c fst0 blank st
              (device_node d) st p junk st (DevFsOpen devOpsOf) file (set_drv st x1)) as (c' & E & Hopens & _); try done.
  - simpl. by rewrite Hfileops.
  - unfold DevFsOpen. cbn [device_node number]. rewrite <- Hst at 1. rewrite Hget. cbn [mbind outcome_bind]. by rewrite Hop, Eo.
  - exists c', file. split_and!; [done..|].
    rewrite (read_opened fileTables canRead fd buffer count c' (<[p := file]> fst0) (set_drv st x1) p file
               (DevFsRead devOpsOf IoBlockCacheReadBuffer) res (set_drv st x2)); try done.
    + cbn [off file]. rewrite insert_insert_eq. done.
    + simpl. by rewrite Hfileops.
    + unfold DevFsRead, device_transfer. cbn [set_frefCount iNode off file]. rewrite Hget. cbn [mbind outcome_bind]. rewrite Hblk, andb_false_r, Hrd.
      cbn [set_drv drv]. by rewrite Er.
Qed.
End DeviceFile.

(** ** A small system *)

(** A terminal, named 't', behind another device in slot 0. *)
Definition null_device : IoDevice := mkDevice [110] (Z.lor IO_DEV_CHAR 438) 0 0 0 0 false 0.
Definition tty_device : IoDevice := mkDevice [116] (Z.lor IO_DEV_CHAR 438) 0 0 0 0 false 0.
Definition two_devices : gmap Z IoDevice := <[8192 := tty_device]> (<[4096 := null_device]> ∅).

Lemma first_device_hidden_witness :
  exists st, IoDevFsRegister 4096 (devfs_start two_devices 0) = Ret (0, st) /\ DevFsFindINode 1 0 [110] st = Ret (0, 0, st).
Proof.
  destruct (first_device_hidden 20 30 two_devices 0 4096 null_device 1 0) as (st & E & Ef & _).
  - reflexivity.
  - discriminate.
  - exists st. split; [exact E|exact Ef].
Defined.

(** After both have been registered. *)
Definition both : devfs Z :=
  mkDevfs (4096 :: 8192 :: replicate 1022 0) 2 (<[[116] := 8192]> (<[[110] := 4096]> ∅))
    (<[8192 := set_devFsINode tty_device 1]> two_devices) 0.

Lemma both_reached : rtc devfs_step (devfs_start two_devices 0) both.
Proof.
  eapply rtc_l; [apply (s_register 4096 _ 0); [discriminate|vm_compute; reflexivity]|].
  eapply rtc_l; [apply (s_register 8192 _ 0); [discriminate|vm_compute; reflexivity]|].
  apply rtc_refl.
Defined.

Lemma devfs_invariant_witness : devfs_ok both.
Proof. exact (devfs_invariant two_devices 0 both both_reached). Defined.

Lemma IoDevFsRegister_spec_witness :
  exists res st', IoDevFsRegister 8192 (devfs_start two_devices 0) = Ret (res, st') /\ devfs_ok st'.
Proof.
  destruct (IoDevFsRegister_spec 8192 tty_device (devfs_start two_devices 0)) as (res & st' & E & Hok & _).
  - apply devfs_start_ok.
  - discriminate.
  - reflexivity.
  - exists res, st'. split; [exact E|exact Hok].
Defined.

(** The driver counts its calls and reads 5 bytes. *)
Definition tty_ops (_ : Z) : IoDeviceOps Z :=
  mkDevOps (Some (fun _ x => Ret (0, x + 1))) None (Some (fun _ _ _ _ x => Ret (5, x + 10))) None None.
Definition no_cache (_ _ _ _ : Z) (st : devfs Z) : outcome (Z * devfs Z) := Ret (0, st).
#[local] Instance devfs_file_mem : FileMem (devfs Z) := {| fm_alloc st := Ret (600, 7, st); fm_free _ st := Ret st |}.

Definition dev_root : IoFilesystem := mkFs 0 0 10 0 0 0 0 0 0 ∅.

Lemma tty_path : string_at (place 256 [47; 116; 0]) 256 (SLASH :: [116]).
Proof. split; [reflexivity|]. split; [reflexivity|]. repeat (apply Forall_cons; split; [discriminate|]). apply Forall_nil_2. Qed.

Lemma tty_plain : plain_name [116].
Proof. repeat split; try discriminate. apply Forall_singleton. discriminate. Qed.

Lemma device_open_read_witness :
  exists c' file,
    IoOpen (fun _ => devfs_fs_ops 20 30) (fun _ => devfs_file_ops tty_ops no_cache no_cache) (<[1000 := dev_root]> ∅) 1000 small_user 3
      (place 256 [47; 116; 0]) 256 IO_O_RDONLY 0 3 empty_context ∅ no_node both = Ret (0, c', <[600 := file]> ∅, set_drv both 1) /\
    IoRead (fun _ => devfs_file_ops tty_ops no_cache no_cache) (fun _ _ => true) 3 64 16 c' (<[600 := file]> ∅) (set_drv both 1) =
      Ret (5, c', <[600 := set_off file 5]> ∅, set_drv both 11).
Proof.
  destruct (device_open_read tty_ops no_cache no_cache 10 20 30 (fun _ => devfs_fs_ops 20 30) (fun _ => devfs_file_ops tty_ops no_cache no_cache)
              (<[1000 := dev_root]> ∅) 1000 dev_root small_user eq_refl eq_refl) with (fuel := 3%nat) (m := place 256 [47; 116; 0]) (path := 256)
      (mode := 0) (fd := 3) (c := empty_context) (st := both) (fst0 := ∅ : fstore) (blank := no_node) (dev := 8192)
      (d := set_devFsINode tty_device 1) (p := 600) (junk := 7) (open := fun (_ x : Z) => Ret (0, x + 1)) (x1 := 1)
      (read := fun (_ _ _ _ x : Z) => Ret (5, x + 10)) (canRead := fun _ _ : Z => true) (buffer := 64) (count := 16) (res := 5) (x2 := 11)
    as (c' & file & E1 & _ & _ & E2);
    [split_and!; [discriminate|reflexivity..]|exact (reachable_ok _ _ _ both_reached)|reflexivity|discriminate|reflexivity|discriminate|exact tty_plain
    |reflexivity|reflexivity|exact tty_path|simpl; lia|exact empty_context_free|reflexivity|reflexivity|discriminate|reflexivity..|].
  exists c', file. split; [exact E1|exact E2].
Defined.

(** The root directory cannot be opened: its table has no open function, and
    IoOpen calls it without looking. *)
Example devfs_root_open_faults :
  IoOpen (fun _ => devfs_fs_ops 20 30) (fun t => if t =? 30 then devfs_root_ops else devfs_file_ops tty_ops no_cache no_cache)
    (<[1000 := dev_root]> ∅) 1000 small_user 3 (place 256 [47; 0]) 256 IO_O_RDONLY 0 3 empty_context ∅ no_node both = Fault.
Proof. vm_compute. reflexivity. Qed.
