(* ===== verification/BCache.v ===== *)
(** * The block cache (src/io/bcache.c, include/io/bcache.h)

    A cache keeps blocks of a device in memory, found by their offset through
    the finite map that HTable.v shows a hash table to be. The state holds the
    caches and the block headers by address, the bytes of kernel and user
    memory, the scheduler and an outer world [W] with the devices and the
    allocators. Waiting for a block gives the CPU away: what the other threads
    do until this one runs again is a parameter. *)
From S2P Require Import Prelude Errno Utils Physical Region Sched WaitQueue Fs.

Inductive IoBlockState := IO_BLOCK_OK | IO_BLOCK_READING | IO_BLOCK_WRITING | IO_BLOCK_ERROR.
#[export] Instance IoBlockState_dec : EqDecision IoBlockState.
Proof. solve_decision. Defined.

(** [listItem] is a list of its own until the block is put on a cache's list. *)
Record IoBlock := mkBlock {
  bkOffset : Z; bkState : IoBlockState; waitingThreads : list Z; bkRefCount : Z; bkAddress : Z
}.

Record IoBlockCache := mkBCache { blockSize : Z; blockTable : gmap Z Z; blockList : list Z }.

Definition set_bkState (b : IoBlock) (s : IoBlockState) : IoBlock := mkBlock (bkOffset b) s (waitingThreads b) (bkRefCount b) (bkAddress b).
Definition set_waiting (b : IoBlock) (q : list Z) : IoBlock := mkBlock (bkOffset b) (bkState b) q (bkRefCount b) (bkAddress b).
Definition set_bkRefCount (b : IoBlock) (n : Z) : IoBlock := mkBlock (bkOffset b) (bkState b) (waitingThreads b) n (bkAddress b).

Definition set_blockTable (c : IoBlockCache) (t : gmap Z Z) : IoBlockCache := mkBCache (blockSize c) t (blockList c).
Definition set_blockList (c : IoBlockCache) (l : list Z) : IoBlockCache := mkBCache (blockSize c) (blockTable c) l.

Record bstate (W : Type) := mkBstate {
  caches : gmap Z IoBlockCache; blocks : gmap Z IoBlock; bmem : memory; bsys : sys; bworld : W
}.
Arguments mkBstate {W}. Arguments caches {W}. Arguments blocks {W}. Arguments bmem {W}. Arguments bsys {W}. Arguments bworld {W}.

(** The allocators: headers from their slab cache (with what the memory
    holds), the data of small and of large blocks, and the caches themselves
    (with the hash table that the memory holds). *)
Class BlockMem (W : Type) := {
  header_alloc : bstate W -> outcome (Z * IoBlock * bstate W);
  header_free : Z -> bstate W -> outcome (bstate W);
  data_alloc : Z -> bstate W -> outcome (Z * bstate W);
  data_free : Z -> bstate W -> outcome (bstate W);
  pages_alloc : Z -> Z -> bstate W -> outcome (Z * bstate W);
  pages_free : Z -> Z -> bstate W -> outcome (bstate W);
  cache_alloc : bstate W -> outcome (Z * gmap Z Z * bstate W);
  cache_free : Z -> bstate W -> outcome (bstate W)
}.

Section Cache.
Context {K : Machine} {W : Type} {BM : BlockMem W}.
(** The devices and their drivers, and the memory the current thread sees. *)
Context (devs : gmap Z IoDevice) (devOpsOf : Z -> IoDeviceOps (bstate W)).
Context (isKernel : bool) (context : MemContext).
(** What happens from this thread's switch until it runs again. *)
Context (others : bstate W -> outcome (bstate W)).

(** ** Access *)

Definition set_bcaches (st : bstate W) (m : gmap Z IoBlockCache) : bstate W := mkBstate m (blocks st) (bmem st) (bsys st) (bworld st).
Definition set_blocks (st : bstate W) (m : gmap Z IoBlock) : bstate W := mkBstate (caches st) m (bmem st) (bsys st) (bworld st).
Definition set_bmem (st : bstate W) (m : memory) : bstate W := mkBstate (caches st) (blocks st) m (bsys st) (bworld st).
Definition set_bsys (st : bstate W) (s : sys) : bstate W := mkBstate (caches st) (blocks st) (bmem st) s (bworld st).

Definition upd_block (b : Z) (f : IoBlock -> IoBlock) (st : bstate W) : outcome (bstate W) :=
  blk ← or_fault (blocks st !! b); Ret (set_blocks st (<[b := f blk]> (blocks st))).

Definition upd_cache (a : Z) (f : IoBlockCache -> IoBlockCache) (st : bstate W) : outcome (bstate W) :=
  c ← or_fault (caches st !! a); Ret (set_bcaches st (<[a := f c]> (caches st))).

Definition set_block_state (b : Z) (s : IoBlockState) : bstate W -> outcome (bstate W) := upd_block b (fun blk => set_bkState blk s).

(** ** The hash table of blocks *)

Definition IoBlockHashInsert (a b : Z) (st : bstate W) : outcome (bstate W) :=
  blk ← or_fault (blocks st !! b);
  upd_cache a (fun c => match blockTable c !! bkOffset blk with
                        | Some _ => c
                        | None => set_blockTable c (<[bkOffset blk := b]> (blockTable c))
                        end) st.

Definition IoBlockHashFind (c : IoBlockCache) (off : Z) : option Z := blockTable c !! off.

(** HashTableRemoveItem(&cache->blockTable, &block->hItem) *)
Definition remove_block_item (a b : Z) (st : bstate W) : outcome (bstate W) :=
  blk ← or_fault (blocks st !! b);
  upd_cache a (fun c => if bool_decide (blockTable c !! bkOffset blk = Some b)
                        then set_blockTable c (delete (bkOffset blk) (blockTable c)) else c) st.

(** ListDelete(&block->listItem): the block leaves the list it is on. *)
Definition unlist_block (a b : Z) : bstate W -> outcome (bstate W) :=
  upd_cache a (fun c => set_blockList c (filter (fun x => x <> b) (blockList c))).

(** ** Blocks *)

Definition FreeBlock (a b : Z) (st : bstate W) : outcome (bstate W) :=
  c ← or_fault (caches st !! a);
  blk ← or_fault (blocks st !! b);
  st ← (if PAGE_SIZE <=? blockSize c then pages_free (MemVirt2Phys (bkAddress blk)) (blockSize c / PAGE_SIZE) st
        else data_free (bkAddress blk) st);
  st ← header_free b st;
  Ret (set_blocks st (delete b (blocks st))).

Definition CreateEmptyBlock (a off : Z) (st : bstate W) : outcome (Z * bstate W) :=
  c ← or_fault (caches st !! a);
  '(b, junk, st) ← header_alloc st;
  '(address, st) ← (if PAGE_SIZE <=? blockSize c then
                      '(page, st) ← pages_alloc (blockSize c / PAGE_SIZE) MEM_KERNEL st; Ret (MemPhys2Virt page, st)
                    else data_alloc (blockSize c) st);
  let st := set_blocks st (<[b := mkBlock off (bkState junk) [] 1 address]> (blocks st)) in
  st ← IoBlockHashInsert a b st;
  Ret (b, st).

Definition IoBlockCacheUnlock (a b : Z) (st : bstate W) : outcome (bstate W) :=
  blk ← or_fault (blocks st !! b);
  if 0 <? bkRefCount blk then
    st ← upd_block b (fun blk => set_bkRefCount blk (bkRefCount blk - 1)) st;
    if bool_decide (bkState blk = IO_BLOCK_ERROR) && (bkRefCount blk - 1 =? 0)
    then st ← unlist_block a b st; FreeBlock a b st
    else Ret st
  else Ret st.

(** ProcWaitQueueWait and ProcWaitQueueWakeAll on a block's queue. *)
Definition wait_block (b : Z) (st : bstate W) : outcome (bstate W) :=
  blk ← or_fault (blocks st !! b);
  '(r, q, s) ← ProcWaitQueueWait (waitingThreads blk) false (bsys st);
  st ← upd_block b (fun blk => set_waiting blk q) (set_bsys st s);
  match r with
  | Some _ => Ret st
  | None =>
      st ← others st;
      blk ← or_fault (blocks st !! b);
      '(_, q) ← ProcWaitQueueWait_return (waitingThreads blk) (bsys st);
      upd_block b (fun blk => set_waiting blk q) st
  end.

Definition wake_block (b : Z) (st : bstate W) : outcome (bstate W) :=
  blk ← or_fault (blocks st !! b);
  '(q, s) ← ProcWaitQueueWakeAll (waitingThreads blk) (bsys st);
  upd_block b (fun blk => set_waiting blk q) (set_bsys st s).

(** ** Caches *)

(** [bs] is an int; 0 is NULL. *)
Definition IoBlockCacheCreate (bs : Z) (st : bstate W) : outcome (Z * bstate W) :=
  if negb (Z.land bs (bs - 1) =? 0) || (bs =? 0) then Ret (0, st)
  else
    '(a, junk, st) ← cache_alloc st;
    Ret (a, set_bcaches st (<[a := mkBCache (u32 bs) junk []]> (caches st))).

(** ListForEachEntrySafe over the blocks [l] of the list. *)
Fixpoint destroy_loop (l : list Z) (a : Z) (allUnlocked : bool) (st : bstate W) : outcome (bool * bstate W) :=
  match l with
  | [] => Ret (allUnlocked, st)
  | b :: l' =>
      blk ← or_fault (blocks st !! b);
      if bkRefCount blk =? 0 then
        st ← remove_block_item a b st; st ← unlist_block a b st; st ← FreeBlock a b st; destroy_loop l' a allUnlocked st
      else destroy_loop l' a false st
  end.

Definition IoBlockCacheDestroy (a : Z) (st : bstate W) : outcome (bool * bstate W) :=
  c ← or_fault (caches st !! a);
  '(allUnlocked, st) ← destroy_loop (blockList c) a true st;
  if (allUnlocked : bool) then st ← cache_free a st; Ret (true, set_bcaches st (delete a (caches st)))
  else Ret (false, st).

(** ** Reading a block *)

(** off &= ~(bCache->blockSize - 1): the mask is an unsigned int. *)
Definition align_off (off bs : Z) : Z := Z.land off (u32 (Z.lnot (bs - 1))).

(** The result and *block (0: not set). *)
Definition IoBlockCacheRead (dev off : Z) (st : bstate W) : outcome (Z * Z * bstate W) :=
  d ← or_fault (devs !! dev);
  let a := blockCache d in
  c ← or_fault (caches st !! a);
  let off := align_off off (blockSize c) in
  match IoBlockHashFind c off with
  | None =>
      match dev_read (devOpsOf (devOps d)) with
      | None => Ret (- ENOSYS, 0, st)
      | Some read =>
          '(b, st) ← CreateEmptyBlock a off st;
          st ← set_block_state b IO_BLOCK_READING st;
          blk ← or_fault (blocks st !! b);
          '(res, st) ← read dev off (bkAddress blk) (blockSize c) st;
          st ← wake_block b st;
          if negb (res =? 0) then
            st ← set_block_state b IO_BLOCK_ERROR st;
            st ← remove_block_item a b st;
            st ← IoBlockCacheUnlock a b st;
            Ret (- EIO, 0, st)
          else st ← set_block_state b IO_BLOCK_OK st; Ret (0, b, st)
      end
  | Some b =>
      st ← upd_block b (fun blk => set_bkRefCount blk (u32 (bkRefCount blk + 1))) st;
      blk ← or_fault (blocks st !! b);
      if bool_decide (bkState blk = IO_BLOCK_READING) then
        st ← wait_block b st;
        blk ← or_fault (blocks st !! b);
        if bool_decide (bkState blk = IO_BLOCK_ERROR) then st ← IoBlockCacheUnlock a b st; Ret (- EIO, 0, st)
        else Ret (0, b, st)
      else Ret (0, b, st)
  end.

(** The part of a block that is used: the offset in it and the number of bytes. *)
Definition block_off (off bs : Z) : Z := Z.land off (bs - 1).
Definition block_length (off length bs : Z) : Z := Z.min (u32 (bs - block_off off bs)) length.

(** while(length > 0) of IoBlockCacheReadBuffer *)
Fixpoint read_loop (fuel : nat) (dev bs off buffer length : Z) (st : bstate W) : outcome (Z * bstate W) :=
  if length =? 0 then Ret (0, st)
  else
    match fuel with
    | O => NoFuel
    | S f =>
        '(res, b, st) ← IoBlockCacheRead dev off st;
        if negb (res =? 0) then Ret (res, st)
        else
          d ← or_fault (devs !! dev);
          let n := block_length off length bs in
          if negb (MemCommitForRead isKernel context buffer n)
          then st ← IoBlockCacheUnlock (blockCache d) b st; Ret (- EFAULT, st)
          else
            blk ← or_fault (blocks st !! b);
            m ← memcpy (bmem st) buffer (bkAddress blk + block_off off bs) n;
            st ← IoBlockCacheUnlock (blockCache d) b (set_bmem st m);
            read_loop f dev bs (u64 (off + n)) (buffer + n) (length - n) st
    end.

Definition IoBlockCacheReadBuffer (fuel : nat) (dev off buffer length : Z) (st : bstate W) : outcome (Z * bstate W) :=
  if length =? 0 then Ret (0, st)
  else
    d ← or_fault (devs !! dev);
    c ← or_fault (caches st !! blockCache d);
    read_loop fuel dev (blockSize c) off buffer length st.

(** ** Writing *)

(** while(block->state == IO_BLOCK_READING || block->state == IO_BLOCK_WRITING) *)
Fixpoint wait_loop (fuel : nat) (b : Z) (st : bstate W) : outcome (bstate W) :=
  blk ← or_fault (blocks st !! b);
  if bool_decide (bkState blk = IO_BLOCK_READING) || bool_decide (bkState blk = IO_BLOCK_WRITING) then
    match fuel with O => NoFuel | S f => st ← wait_block b st; wait_loop f b st end
  else Ret st.

(** The block to write to: read before if it is written in part. *)
Definition block_to_write (dev a off bs n : Z) (st : bstate W) : outcome (Z * Z * bstate W) :=
  if negb (block_off off bs =? 0) || negb (n =? bs) then IoBlockCacheRead dev off st
  else
    c ← or_fault (caches st !! a);
    match IoBlockHashFind c (align_off off bs) with
    | Some b => Ret (0, b, st)
    | None => '(b, st) ← CreateEmptyBlock a (align_off off bs) st; st ← set_block_state b IO_BLOCK_OK st; Ret (0, b, st)
    end.

(** From "Modify block contents" to the release of the block. *)
Definition write_block (dev a b off at_ buffer n : Z) (write : Z -> Z -> Z -> Z -> bstate W -> outcome (Z * bstate W)) (st : bstate W)
  : outcome (Z * bstate W) :=
  st ← set_block_state b IO_BLOCK_WRITING st;
  m ← memcpy (bmem st) at_ buffer n;
  '(res, st) ← write dev off at_ n (set_bmem st m);
  st ← (if res =? 0 then set_block_state b IO_BLOCK_OK st
        else st ← set_block_state b IO_BLOCK_ERROR st; remove_block_item a b st);
  st ← wake_block b st;
  st ← IoBlockCacheUnlock a b st;
  Ret (res, st).

Fixpoint write_loop (fuel : nat) (dev a bs off buffer length : Z) (write : Z -> Z -> Z -> Z -> bstate W -> outcome (Z * bstate W))
    (st : bstate W) : outcome (Z * bstate W) :=
  if length =? 0 then Ret (0, st)
  else
    match fuel with
    | O => NoFuel
    | S f =>
        let n := block_length off length bs in
        '(res, b, st) ← block_to_write dev a off bs n st;
        if negb (res =? 0) then Ret (res, st)
        else
          st ← wait_loop fuel b st;
          blk ← or_fault (blocks st !! b);
          let at_ := bkAddress blk + block_off off bs in
          if bool_decide (bkState blk = IO_BLOCK_ERROR) then st ← IoBlockCacheUnlock a b st; Ret (- EIO, st)
          else if negb (MemCommitForWrite isKernel context at_ n) then st ← IoBlockCacheUnlock a b st; Ret (- EFAULT, st)
          else
            '(res, st) ← write_block dev a b off at_ buffer n write st;
            if negb (res =? 0) then Ret (res, st)
            else write_loop f dev a bs (u64 (off + n)) (buffer + n) (length - n) write st
    end.

Definition IoBlockCacheWriteBuffer (fuel : nat) (dev off buffer length : Z) (st : bstate W) : outcome (Z * bstate W) :=
  if length =? 0 then Ret (0, st)
  else
    d ← or_fault (devs !! dev);
    match dev_write (devOpsOf (devOps d)) with
    | None => Ret (- ENOSYS, st)
    | Some write =>
        c ← or_fault (caches st !! blockCache d);
        write_loop fuel dev (blockCache d) (blockSize c) off buffer length write st
    end.
End Cache.
