(* ===== verification/BCacheSpec.v ===== *)
(** * The block cache is the disk (src/io/bcache.c)

    The invariant that every cached block holds what the disk holds, reading
    and writing through the cache as reading and writing the disk, for a driver
    that serves its requests at once and allocators that have room; the same
    through devfs and IoRead; and what the cache does wrong. *)
From S2P Require Import Prelude Errno Utils Physical Region Sched WaitQueue Fs Mode IoContext Open DevFs BCache.

(** ** The cache agrees with the disk *)

(** [align_off] goes to the start of the block, with the offset cut off at 32 bits. *)
Lemma align_off_spec off k : 0 <= k <= 31 -> align_off off (2 ^ k) = 2 ^ k * (u32 off / 2 ^ k).
Proof.
  intros Hk. unfold align_off. assert (2 ^ k - 1 = Z.ones k) as -> by (rewrite Z.ones_equiv; lia).
  assert (u32 (Z.lnot (Z.ones k)) = Z.land (Z.lnot (Z.ones k)) (Z.ones 32)) as -> by (by rewrite Z.land_ones).
  rewrite (Z.land_comm (Z.lnot _)), Z.land_assoc, Z.land_ones, <- Z.ldiff_land, Z.ldiff_ones_r, Z.shiftr_div_pow2, Z.shiftl_mul_pow2 by lia.
  apply Z.mul_comm.
Qed.

Lemma block_off_spec off k : 0 <= k -> block_off off (2 ^ k) = off mod 2 ^ k.
Proof. intros Hk. unfold block_off. assert (2 ^ k - 1 = Z.ones k) as -> by (rewrite Z.ones_equiv; lia). by apply Z.land_ones. Qed.

(** [st'] is [st] with [n] new bytes of kernel memory at [p]. *)
Record grown {W} (disk : W -> Z -> Z) (live : W -> Z -> Prop) (st st' : bstate W) (p n : Z) : Prop := {
  g_caches : caches st' = caches st; g_blocks : blocks st' = blocks st; g_sys : bsys st' = bsys st;
  g_disk : forall x, disk (bworld st') x = disk (bworld st) x;
  g_live : forall b, live (bworld st) b -> live (bworld st') b;
  g_range : KERNEL_VIRTUAL_BASE <= p /\ p + n < 4294967296;
  g_fresh : forall x, p <= x < p + n -> bmem st !! x = None /\ exists v, bmem st' !! x = Some v /\ 0 <= v < 256;
  g_kept : forall x, ~ (p <= x < p + n) -> bmem st' !! x = bmem st !! x
}.

(** What the allocators promise while there is [room] for that many bytes of
    blocks: headers and data that were not in use. [live] headers are those
    given out; [disk] is the contents of the device. *)
Class BlockMemLaws (W : Type) {BM : BlockMem W} (disk : W -> Z -> Z) := {
  room : bstate W -> Z -> Prop;
  live : W -> Z -> Prop;
  header_law st r : room st r ->
    exists b junk w, header_alloc st = Ret (b, junk, mkBstate (caches st) (blocks st) (bmem st) (bsys st) w) /\
      b <> 0 /\ ~ live (bworld st) b /\ live w b /\ (forall c, live (bworld st) c -> live w c) /\
      (forall x, disk w x = disk (bworld st) x) /\ room (mkBstate (caches st) (blocks st) (bmem st) (bsys st) w) r;
  data_law st n r : 0 < n < PAGE_SIZE -> 0 <= r -> room st (n + r) ->
    exists p st', data_alloc n st = Ret (p, st') /\ grown disk live st st' p n /\ room st' r;
  pages_law st n r : 0 < n -> 0 <= r -> room st (n * PAGE_SIZE + r) ->
    exists page st', pages_alloc n MEM_KERNEL st = Ret (page, st') /\
      grown disk live st st' (MemPhys2Virt page) (n * PAGE_SIZE) /\ room st' r;
  room_less st n r : 0 <= n -> room st (n + r) -> room st r;
  (** Room depends on the world and on what memory there is, not on what it holds. *)
  room_stable st st' r : bworld st' = bworld st -> (forall x, is_Some (bmem st' !! x) -> is_Some (bmem st !! x)) -> room st r -> room st' r
}.

(** A block device of [size] bytes: requests inside it succeed and transfer
    the bytes of the disk; the driver touches nothing else. *)
Record block_device {W} {BM : BlockMem W} (disk : W -> Z -> Z) {BL : BlockMemLaws W disk} (dev size : Z)
    (read write : Z -> Z -> Z -> Z -> bstate W -> outcome (Z * bstate W)) : Prop := {
  bd_bytes : forall w x, 0 <= disk w x < 256;
  bd_read : forall o p n st, 0 <= o -> 0 < n -> o + n <= size -> writable (bmem st) p n ->
    exists m w, read dev o p n st = Ret (0, mkBstate (caches st) (blocks st) m (bsys st) w) /\
      filled (bmem st) m p n (fun i => disk (bworld st) (o + i)) /\ (forall x, disk w x = disk (bworld st) x) /\
      (forall b, live (bworld st) b -> live w b) /\
      (forall r, room st r -> room (mkBstate (caches st) (blocks st) m (bsys st) w) r);
  bd_write : forall o p n st, 0 <= o -> 0 < n -> o + n <= size -> writable (bmem st) p n ->
    (forall x v, bmem st !! x = Some v -> 0 <= v < 256) ->
    exists w, write dev o p n st = Ret (0, mkBstate (caches st) (blocks st) (bmem st) (bsys st) w) /\
      (forall x, disk w x = if (o <=? x) && (x <? o + n) then default 0 (bmem st !! (p + (x - o))) else disk (bworld st) x) /\
      (forall b, live (bworld st) b -> live w b) /\
      (forall r, room st r -> room (mkBstate (caches st) (blocks st) (bmem st) (bsys st) w) r)
}.

Section Coherence.
Context {K : Machine} {W : Type} {BM : BlockMem W} (disk : W -> Z -> Z) {BL : BlockMemLaws W disk}.
Context (devs : gmap Z IoDevice) (devOpsOf : Z -> IoDeviceOps (bstate W)) (isKernel : bool) (context : MemContext).
Context (others : bstate W -> outcome (bstate W)).
Context (dev : Z) (d : IoDevice) (k size : Z) (read write : Z -> Z -> Z -> Z -> bstate W -> outcome (Z * bstate W)).
Hypothesis Hdev : devs !! dev = Some d.
Hypothesis Hread : dev_read (devOpsOf (devOps d)) = Some read.
Hypothesis Hwrite : dev_write (devOpsOf (devOps d)) = Some write.
Hypothesis Hdriver : block_device disk dev size read write.
Hypothesis Hk : 0 <= k <= 30.
Hypothesis Hsize : size <= 4294967296 /\ size mod 2 ^ k = 0.
Local Abbreviation a := (blockCache d).
Local Abbreviation bs := (2 ^ k).
Local Abbreviation disk_of st := (disk (bworld st)).

(** The block at offset [off], with nothing going on. *)
Record block_at (st : bstate W) (off b : Z) (blk : IoBlock) : Prop := {
  b_is : blocks st !! b = Some blk; b_off : bkOffset blk = off; b_ok : bkState blk = IO_BLOCK_OK; b_quiet : waitingThreads blk = [];
  b_range : 0 <= off /\ off + bs <= size; b_aligned : off mod bs = 0;
  b_kernel : KERNEL_VIRTUAL_BASE <= bkAddress blk /\ bkAddress blk + bs < 4294967296;
  b_mapped : writable (bmem st) (bkAddress blk) bs
}.

Definition in_sync (st : bstate W) (off : Z) (blk : IoBlock) : Prop :=
  forall i, 0 <= i < bs -> bmem st !! (bkAddress blk + i) = Some (disk_of st (off + i)).

(** Every cached block, the one at [skip] perhaps excepted, holds what the
    disk holds, in memory of its own. [t] is the table of the cache. *)
Record coherent (skip : Z) (t : gmap Z Z) (st : bstate W) : Prop := {
  c_cache : exists l, caches st !! a = Some (mkBCache bs t l);
  c_block : forall off b, t !! off = Some b -> exists blk, block_at st off b blk /\ (off <> skip -> in_sync st off blk);
  c_apart : forall o1 b1 blk1 o2 b2 blk2, t !! o1 = Some b1 -> t !! o2 = Some b2 -> o1 <> o2 ->
    blocks st !! b1 = Some blk1 -> blocks st !! b2 = Some blk2 ->
    bkAddress blk1 + bs <= bkAddress blk2 \/ bkAddress blk2 + bs <= bkAddress blk1;
  c_live : forall b, is_Some (blocks st !! b) -> live (bworld st) b;
  c_bytes : forall x v, bmem st !! x = Some v -> 0 <= v < 256
}.

(** Memory outside the cache's blocks. *)
Definition clear_of (t : gmap Z Z) (st : bstate W) (p n : Z) : Prop :=
  writable (bmem st) p n /\
  forall off b blk, t !! off = Some b -> blocks st !! b = Some blk -> forall x, p <= x < p + n -> ~ (bkAddress blk <= x < bkAddress blk + bs).

(** What using the cache leaves alone: the disk, memory outside the blocks. *)
Record later (t t' : gmap Z Z) (st st' : bstate W) : Prop := {
  l_disk : forall x, disk_of st' x = disk_of st x;
  l_clear : forall p n, clear_of t st p n -> clear_of t' st' p n;
  l_kept : forall x, is_Some (bmem st !! x) -> bmem st' !! x = bmem st !! x
}.

Lemma later_refl t st : later t t st st.
Proof. by split. Qed.

Lemma later_trans t1 t2 t3 s1 s2 s3 : later t1 t2 s1 s2 -> later t2 t3 s2 s3 -> later t1 t3 s1 s3.
Proof.
  intros [D1 C1 K1] [D2 C2 K2]. split; [intros x; by rewrite D2|auto|]. intros x Hx. rewrite K2 by (by rewrite K1). by apply K1.
Qed.

Lemma bs_pos : 0 < bs.
Proof. apply Z.pow_pos_nonneg; lia. Qed.

Lemma bs_bound : bs <= 2 ^ 30.
Proof. apply Z.pow_le_mono_r; lia. Qed.

(** The block of an offset inside the disk. *)
Lemma block_of off : 0 <= off < size ->
  let al := align_off off bs in
  al = off - off mod bs /\ 0 <= al /\ al + bs <= size /\ al mod bs = 0 /\ block_off off bs = off mod bs.
Proof.
  intros Ho. pose proof bs_pos as Hp. destruct Hsize as [Hs Hm]. simpl. rewrite align_off_spec, block_off_spec by lia.
  unfold u32. rewrite (Z.mod_small off 4294967296) by lia. pose proof (Z.div_mod off bs ltac:(lia)) as Hd. pose proof (Z.mod_pos_bound off bs Hp).
  assert (0 <= off / bs) by (apply Z.div_pos; lia). split_and!; [lia|nia| |rewrite Z.mul_comm; apply Z.mod_mul; lia|done].
  pose proof (Z.div_mod size bs ltac:(lia)). assert (off / bs < size / bs) by (apply Z.div_lt_upper_bound; lia). nia.
Qed.

(** Two aligned offsets are the same or a block apart. *)
Lemma aligned_apart o1 o2 : o1 mod bs = 0 -> o2 mod bs = 0 -> o1 <> o2 -> o1 + bs <= o2 \/ o2 + bs <= o1.
Proof.
  intros H1 H2 Hne. pose proof bs_pos. apply Z.mod_divide in H1 as [x ->], H2 as [y ->]; [|lia..]. assert (x < y \/ y < x) by nia. nia.
Qed.

(** *** Changes to the state *)

(** Memory outside the blocks is written. *)
Lemma fill_clear skip t st p n f m :
  coherent skip t st -> clear_of t st p n -> (forall i, 0 <= i < n -> 0 <= f i < 256) -> filled (bmem st) m p n f ->
  coherent skip t (set_bmem st m) /\ (forall q l, clear_of t st q l -> clear_of t (set_bmem st m) q l).
Proof.
  intros [Hc Hb Ha Hl Hy] [Hw Hout] Hf F. split; [split; try done|].
  - intros off b Ht. destruct (Hb off b Ht) as (blk & [H1 H2 H3 H4 H5 H6 H7 H8] & Hs). exists blk. split.
    + split; try done. by apply (filled_writable _ _ _ _ _ _ _ F).
    + intros Hne i Hi. cbn. rewrite F. pose proof (Hout off b blk Ht H1 (bkAddress blk + i)). bool_cases; try lia; by apply Hs.
  - intros x v. cbn. rewrite F. bool_cases; try apply Hy. intros [= <-]. apply Hf. lia.
  - intros q l [Hq Hqb]. split; [|done]. by apply (filled_writable _ _ _ _ _ _ _ F).
Qed.

(** A header changes in what does not matter. *)
Lemma touch_block skip t st b blk blk' :
  coherent skip t st -> blocks st !! b = Some blk -> bkOffset blk' = bkOffset blk -> bkAddress blk' = bkAddress blk ->
  bkState blk' = bkState blk -> waitingThreads blk' = waitingThreads blk ->
  let st' := set_blocks st (<[b := blk']> (blocks st)) in coherent skip t st' /\ later t t st st'.
Proof.
  intros [Hc Hb Ha Hl Hy] Hblk Ho Had Hs Hw st'.
  assert (forall c x, blocks st' !! c = Some x -> exists x0, blocks st !! c = Some x0 /\ bkAddress x = bkAddress x0) as Hback.
  { intros c x. cbn. destruct (decide (b = c)) as [<-|]; [rewrite lookup_insert_eq; intros [= <-]; by exists blk|].
    rewrite lookup_insert_ne by done. intros Hx. by exists x. }
  split; [split; try done|split; try done].
  - intros off c Ht. destruct (Hb off c Ht) as (x & [H1 H2 H3 H4 H5 H6 H7 H8] & Hsync). destruct (decide (b = c)) as [<-|Hne].
    + assert (x = blk) as -> by congruence. exists blk'. split.
      * split; cbn; rewrite ?lookup_insert_eq, ?Had; first [done|congruence].
      * intros H i Hi. rewrite Had. by apply Hsync.
    + exists x. split; [split; try done; cbn; by rewrite lookup_insert_ne|done].
  - intros o1 b1 x1 o2 b2 x2 T1 T2 Hne (y1 & E1 & ->)%Hback (y2 & E2 & ->)%Hback. by apply (Ha o1 b1 y1 o2 b2 y2).
  - intros c [x Hx]. apply Hback in Hx as (y & Hy' & _). apply Hl. by exists y.
  - intros p n [Hp Hq]. split; [done|]. intros off c x Ht (y & Hy' & ->)%Hback. by apply (Hq off c y).
Qed.

(** The new block's bytes are mapped in [st']. *)
Lemma grown_mapped st st' p n : grown disk live st st' p n -> writable (bmem st') p n.
Proof. intros [_ _ _ _ _ _ Hf _] x Hx. destruct (Hf x Hx) as (_ & v & -> & _). eauto. Qed.

Lemma grown_kept st st' p n x : grown disk live st st' p n -> is_Some (bmem st !! x) -> bmem st' !! x = bmem st !! x /\ ~ (p <= x < p + n).
Proof.
  intros [_ _ _ _ _ _ Hf Hk'] [v Hv]. assert (~ (p <= x < p + n)) as Hn; [|by split; [apply Hk'|]].
  intros Hx. destruct (Hf x Hx) as [Hnone _]. congruence.
Qed.

(** The data of a new block, small or large. *)
Lemma data_for_block st r : 0 <= r -> room st (bs + r) ->
  exists p st', (if PAGE_SIZE <=? bs then '(page, st1) ← pages_alloc (bs / PAGE_SIZE) MEM_KERNEL st; Ret (MemPhys2Virt page, st1)
                 else data_alloc bs st) = Ret (p, st') /\ grown disk live st st' p bs /\ room st' r.
Proof.
  intros Hr H. pose proof bs_pos. destruct (Z.leb_spec PAGE_SIZE bs) as [Hle|Hlt]; [|by apply data_law].
  assert (bs / PAGE_SIZE * PAGE_SIZE = bs) as E.
  { unfold PAGE_SIZE in *. assert (12 <= k) by (destruct (Z.le_gt_cases 12 k); [done|]; assert (bs < 2 ^ 12) by (apply Z.pow_lt_mono_r; lia); lia).
    change 4096 with (2 ^ 12). replace k with (k - 12 + 12) by lia. rewrite Z.pow_add_r, Z.div_mul by lia. done. }
  destruct (pages_law (disk := disk) st (bs / PAGE_SIZE) r) as (page & st' & -> & G & R); [|done|by rewrite E|].
  - apply Z.div_str_pos. unfold PAGE_SIZE in *. lia.
  - rewrite E in G. by exists (MemPhys2Virt page), st'.
Qed.

(** *** A new block *)

Section NewBlock.
Context (t : gmap Z Z) (st st1 : bstate W) (l : list Z) (al b p : Z).
Hypothesis Hok : coherent (-1) t st.
Hypothesis Hfree : t !! al = None.
Hypothesis Hrange : 0 <= al /\ al + bs <= size /\ al mod bs = 0.
Hypothesis G : grown disk live st st1 p bs.
Hypothesis Hb : ~ live (bworld st) b /\ live (bworld st1) b.

Let blk : IoBlock := mkBlock al IO_BLOCK_OK [] 1 p.
Let st2 : bstate W :=
  mkBstate (<[a := mkBCache bs (<[al := b]> t) l]> (caches st)) (<[b := blk]> (blocks st)) (bmem st1) (bsys st) (bworld st1).

Lemma new_header : blocks st !! b = None.
Proof. destruct (blocks st !! b) as [x|] eqn:Ex; [|done]. exfalso. apply (proj1 Hb). apply (c_live _ _ _ Hok). by exists x. Qed.

Lemma new_block_at : block_at st2 al b blk.
Proof.
  destruct Hrange as (? & ? & ?). split; try done; cbn; [by rewrite lookup_insert_eq|apply (g_range _ _ _ _ _ _ G)|]. by apply (grown_mapped st).
Qed.

(** A block that was there is another one, still in place, elsewhere in memory. *)
Lemma old_block off c : t !! off = Some c -> c <> b /\ off <> al /\ exists x, blocks st !! c = Some x /\
  block_at st2 off c x /\ in_sync st2 off x /\ (p + bs <= bkAddress x \/ bkAddress x + bs <= p).
Proof.
  intros Ht. destruct (c_block _ _ _ Hok off c Ht) as (x & [B1 B2 B3 B4 B5 B6 B7 B8] & Hs).
  assert (c <> b) as Hcb by (intros ->; rewrite new_header in B1; done). split; [done|]. split; [congruence|]. exists x.
  pose proof (fun y Hy => grown_kept _ _ _ _ y G (B8 y Hy)) as Hkept. pose proof bs_pos. split_and!.
  - done.
  - split; try done; cbn; [by rewrite lookup_insert_ne|]. intros y Hy. rewrite (proj1 (Hkept y Hy)). by apply B8.
  - intros i Hi. cbn. rewrite (g_disk _ _ _ _ _ _ G), (proj1 (Hkept (bkAddress x + i) ltac:(lia))). apply Hs; [lia|done].
  - pose proof (proj2 (Hkept (bkAddress x) ltac:(lia))). destruct (Z.le_gt_cases (p + bs) (bkAddress x)); [by left|].
    destruct (Z.le_gt_cases (bkAddress x + bs) p); [by right|exfalso]. apply (proj2 (Hkept p ltac:(lia))). lia.
Qed.

(** The blocks of the new table. *)
Lemma new_table off c x : <[al := b]> t !! off = Some c -> blocks st2 !! c = Some x ->
  (off = al /\ x = blk) \/ (t !! off = Some c /\ blocks st !! c = Some x /\ (p + bs <= bkAddress x \/ bkAddress x + bs <= p)).
Proof.
  intros Ht Hx. cbn in Hx. destruct (decide (al = off)) as [<-|Hne].
  - rewrite lookup_insert_eq in Ht. injection Ht as <-. rewrite lookup_insert_eq in Hx. left. by split; [|congruence].
  - rewrite lookup_insert_ne in Ht by done. destruct (old_block off c Ht) as (Hcb & _ & y & Hy & _ & _ & Hsep).
    rewrite lookup_insert_ne in Hx by done. right. assert (x = y) as -> by congruence. done.
Qed.

Lemma new_block_ok : coherent al (<[al := b]> t) st2.
Proof.
  split.
  - exists l. cbn. by rewrite lookup_insert_eq.
  - intros off c. destruct (decide (al = off)) as [<-|Hne]; [rewrite lookup_insert_eq; intros [= <-]; exists blk; by split; [apply new_block_at|]|].
    rewrite lookup_insert_ne by done. intros Ht. destruct (old_block off c Ht) as (_ & _ & x & _ & Bx & Sx & _). by exists x.
  - intros o1 b1 x1 o2 b2 x2 T1 T2 Hne E1 E2. apply (new_table _ _ _ T1) in E1 as [[-> ->]|(T1' & E1 & S1)];
      apply (new_table _ _ _ T2) in E2 as [[-> ->]|(T2' & E2 & S2)]; cbn; [done|lia|lia|]. by apply (c_apart _ _ _ Hok o1 b1 x1 o2 b2 x2).
  - intros c [x Hx]. cbn in *. destruct (decide (b = c)) as [<-|Hne]; [apply Hb|]. rewrite lookup_insert_ne in Hx by done.
    apply (g_live _ _ _ _ _ _ G), (c_live _ _ _ Hok). by exists x.
  - intros x v. cbn. destruct (decide (p <= x < p + bs)) as [Hin|Hout]; [|rewrite (g_kept _ _ _ _ _ _ G) by done; apply (c_bytes _ _ _ Hok)].
    destruct (g_fresh _ _ _ _ _ _ G x Hin) as (_ & v' & -> & Hv'). by intros [= <-].
Qed.

Lemma new_block_later : later t (<[al := b]> t) st st2.
Proof.
  split; cbn.
  - apply (g_disk _ _ _ _ _ _ G).
  - intros q n [Hq Hqb]. pose proof (fun x Hx => grown_kept _ _ _ _ x G (Hq x Hx)) as Hkept. split.
    + intros x Hx. cbn. rewrite (proj1 (Hkept x Hx)). by apply Hq.
    + intros off c x Ht [[-> ->]|(Ht' & Hx & _)]%(new_table off c x Ht); [|by apply (Hqb off c x)].
      intros y Hy. apply (Hkept y Hy).
  - intros x Hx. by apply (grown_kept _ _ _ _ x G).
Qed.
End NewBlock.

(** What CreateEmptyBlock leads to, once the state of the block is set: [st2]. *)
Lemma create_block t st al r :
  coherent (-1) t st -> t !! al = None -> 0 <= al /\ al + bs <= size /\ al mod bs = 0 -> 0 <= r -> room st (bs + r) ->
  exists b p s l w m, let blk s := mkBlock al s [] 1 p in
    let st2 s := mkBstate (<[a := mkBCache bs (<[al := b]> t) l]> (caches st)) (<[b := blk s]> (blocks st)) m (bsys st) w in
    CreateEmptyBlock a al st = Ret (b, st2 s) /\ coherent al (<[al := b]> t) (st2 IO_BLOCK_OK) /\
    block_at (st2 IO_BLOCK_OK) al b (blk IO_BLOCK_OK) /\ later t (<[al := b]> t) st (st2 IO_BLOCK_OK) /\ room (st2 IO_BLOCK_OK) r /\
    (forall x, is_Some (bmem st !! x) -> ~ (p <= x < p + bs)).
Proof.
  intros Hok Hn Hr Hr0 Hroom. unfold CreateEmptyBlock. destruct (c_cache _ _ _ Hok) as [l Hc]. rewrite Hc. cbn [or_fault mbind outcome_bind blockSize].
  destruct (header_law (disk := disk) st _ Hroom) as (b & junk & w & -> & _ & Hnl & Hlb & Hlo & Hdw & Hroom'). cbn [mbind outcome_bind].
  destruct (data_for_block _ r Hr0 Hroom') as (p & st1 & -> & G & R). cbn [mbind outcome_bind].
  assert (grown disk live st st1 p bs) as G' by (destruct G as [G1 G2 G3 G4 G5 G6 G7 G8]; cbn in *; split; eauto; intros x; by rewrite G4, Hdw).
  assert (~ live (bworld st) b /\ live (bworld st1) b) as Hb by (split; [done|]; apply (g_live _ _ _ _ _ _ G); done).
  exists b, p, (bkState junk), l, (bworld st1), (bmem st1). cbv zeta. split_and!.
  - unfold IoBlockHashInsert, upd_cache. cbn [set_blocks blocks caches]. rewrite lookup_insert_eq. cbn [or_fault mbind outcome_bind].
    cbn [set_blocks caches]. rewrite (g_caches _ _ _ _ _ _ G'), Hc. cbn [or_fault mbind outcome_bind bkOffset blockTable]. rewrite Hn.
    unfold set_bcaches. cbn [set_blocks blocks bmem bsys bworld set_blockTable blockTable blockSize blockList].
    by rewrite (g_blocks _ _ _ _ _ _ G'), (g_sys _ _ _ _ _ _ G').
  - by apply new_block_ok.
  - by apply (new_block_at t st st1).
  - by apply new_block_later.
  - apply (room_stable (disk := disk) st1); done.
  - intros x Hx. by apply (grown_kept _ _ _ _ x G').
Qed.

(** The data of one block and its part of the disk are brought in step. *)
Lemma refresh_block t st al b blk m w :
  coherent al t st -> t !! al = Some b -> block_at st al b blk ->
  (forall x, ~ (bkAddress blk <= x < bkAddress blk + bs) -> m !! x = bmem st !! x) ->
  (forall i, 0 <= i < bs -> m !! (bkAddress blk + i) = Some (disk w (al + i))) ->
  (forall x, ~ (al <= x < al + bs) -> disk w x = disk_of st x) -> (forall c, live (bworld st) c -> live w c) ->
  let st' := mkBstate (caches st) (blocks st) m (bsys st) w in
  coherent (-1) t st' /\ block_at st' al b blk /\ (forall p n, clear_of t st p n -> clear_of t st' p n).
Proof.
  intros [Hc Hb Ha Hl Hy] Ht Hbl Hout Hin Hd Hlw st'. pose proof Hbl as [B1 B2 B3 B4 B5 B6 B7 B8].
  assert (forall x, is_Some (bmem st !! x) -> is_Some (m !! x)) as Hdom.
  { intros x Hx. destruct (decide (bkAddress blk <= x < bkAddress blk + bs)) as [Hi|Hi]; [|by rewrite Hout].
    replace x with (bkAddress blk + (x - bkAddress blk)) by lia. rewrite Hin by lia. eauto. }
  assert (forall p n, writable (bmem st) p n -> writable m p n) as Hwr by (intros p n Hw x Hx; apply Hdom, Hw, Hx).
  split_and!; [split; try done|split; try done; by apply Hwr|].
  - intros off c Htc. destruct (Hb off c Htc) as (x & [X1 X2 X3 X4 X5 X6 X7 X8] & Hs). exists x. split; [split; try done; by apply Hwr|].
    intros _ i Hi. cbn. destruct (decide (off = al)) as [->|Hne]; [assert (x = blk) as -> by congruence; by apply Hin|].
    rewrite Hout, Hd; [by apply Hs|..].
    + destruct (aligned_apart off al); lia.
    + destruct (Ha off c x al b blk); try done; lia.
  - intros c Hx. by apply Hlw, Hl.
  - intros x v. cbn. destruct (decide (bkAddress blk <= x < bkAddress blk + bs)) as [Hi|Hi]; [|rewrite Hout by done; apply Hy].
    replace x with (bkAddress blk + (x - bkAddress blk)) by lia. rewrite Hin by lia. intros [= <-]. apply (bd_bytes _ _ _ _ _ Hdriver).
  - intros p n [Hw Hq]. split; [by apply Hwr|done].
Qed.

(** ** Reading a block *)

Local Abbreviation cache_read := (IoBlockCacheRead devs devOpsOf others dev).

(** Setting a field of a block that was just inserted. *)
Lemma upd_inserted (c : gmap Z IoBlockCache) (m : memory) s w f (bm : gmap Z IoBlock) b blk :
  upd_block b f (mkBstate c (<[b := blk]> bm) m s w : bstate W) = Ret (mkBstate c (<[b := f blk]> bm) m s w).
Proof. unfold upd_block. cbn. rewrite lookup_insert_eq. cbn. unfold set_blocks. cbn. by rewrite insert_insert_eq. Qed.

Lemma upd_known b f blk (st : bstate W) :
  blocks st !! b = Some blk -> upd_block b f st = Ret (mkBstate (caches st) (<[b := f blk]> (blocks st)) (bmem st) (bsys st) (bworld st)).
Proof. intros H. unfold upd_block. by rewrite H. Qed.

Lemma wake_inserted (c : gmap Z IoBlockCache) (m : memory) s w (bm : gmap Z IoBlock) b blk :
  waitingThreads blk = [] -> wake_block b (mkBstate c (<[b := blk]> bm) m s w : bstate W) = Ret (mkBstate c (<[b := blk]> bm) m s w).
Proof.
  intros Hw. unfold wake_block. cbn. rewrite lookup_insert_eq. cbn. rewrite Hw. cbn. unfold set_bsys. cbn.
  rewrite upd_inserted. by destruct blk; simpl in *; subst.
Qed.

Lemma acquire_block t st off r :
  coherent (-1) t st -> 0 <= off < size -> 0 <= r -> room st (bs + r) ->
  exists b blk t' st', cache_read off st = Ret (0, b, st') /\ coherent (-1) t' st' /\ t' !! (align_off off bs) = Some b /\
    block_at st' (align_off off bs) b blk /\ later t t' st st' /\ room st' r.
Proof.
  intros Hok Ho Hr Hroom. destruct (block_of off Ho) as (_ & Hal & Hend & Hmod & _). unfold IoBlockCacheRead, IoBlockHashFind.
  rewrite Hdev. destruct (c_cache _ _ _ Hok) as [l Hc]. cbn [or_fault mbind outcome_bind]. rewrite Hc. cbn [or_fault mbind outcome_bind blockTable blockSize].
  set (al := align_off off bs) in *. destruct (t !! al) as [b|] eqn:Et.
  - destruct (c_block _ _ _ Hok al b Et) as (blk & Hbl & _). pose proof Hbl as [B1 B2 B3 B4 B5 B6 B7 B8].
    unfold upd_block. rewrite B1. cbn [or_fault mbind outcome_bind set_blocks blocks]. rewrite lookup_insert_eq. cbn [or_fault mbind outcome_bind].
    set (blk' := set_bkRefCount blk _). change (bkState blk') with (bkState blk). rewrite B3. cbn [bool_decide decide].
    destruct (touch_block (-1) t st b blk blk' Hok B1 eq_refl eq_refl eq_refl eq_refl) as [Hok' Hlater].
    exists b, blk', t. eexists. split; [rewrite bool_decide_eq_false_2 by done; reflexivity|].
    split_and!; try done; [split; try done; cbn; apply lookup_insert_eq|].
    eapply (room_stable (disk := disk) st); [done..|]. apply (room_less (disk := disk) st bs r); [|done]. pose proof bs_pos. lia.
  - rewrite Hread. destruct (create_block t st al r Hok Et) as (b & p & s & l' & w & m & E & Hok2 & Hb2 & Hlat & Hroom2 & Hnew); try done.
    rewrite E. cbn [mbind outcome_bind]. unfold set_block_state. rewrite upd_inserted. cbn [mbind outcome_bind blocks]. rewrite lookup_insert_eq.
    cbn [or_fault mbind outcome_bind set_bkState bkAddress].
    edestruct (bd_read _ _ _ _ _ Hdriver al p bs) as (m' & w' & -> & F & D & L & R); [done|apply bs_pos|done| |].
    { apply (b_mapped _ _ _ _ Hb2). }
    cbn [mbind outcome_bind caches blocks bsys]. rewrite wake_inserted by done. cbn [mbind outcome_bind Z.eqb negb]. rewrite upd_inserted.
    cbn [mbind outcome_bind]. cbn [set_bkState bkOffset waitingThreads bkRefCount bkAddress bkState] in *. cbn [bmem bworld] in F, D, L.
    edestruct (refresh_block (<[al := b]> t) _ al b (mkBlock al IO_BLOCK_OK [] 1 p) m' w' Hok2) as (Hok3 & Hb3 & Hcl).
    + apply lookup_insert_eq.
    + exact Hb2.
    + cbn. intros x Hx. rewrite F. by bool_cases; first [done|lia].
    + cbn. intros i Hi. rewrite F. bool_cases; try lia. rewrite D. do 3 f_equal. lia.
    + cbn. intros x _. apply D.
    + exact L.
    + eexists b, _, (<[al := b]> t), _. split; [reflexivity|]. split_and!; [exact Hok3|apply lookup_insert_eq|exact Hb3| |].
      * destruct Hlat as [Ld Lc Lk]. cbn in Ld, Lk. split; cbn.
        -- intros x. by rewrite D.
        -- intros q n Hq. by apply Hcl, Lc.
        -- intros x Hx. rewrite F, <- Lk by done. pose proof (Hnew x Hx). by bool_cases; first [done|lia].
      * eapply (room_stable (disk := disk)); [| |apply R; eapply (room_stable (disk := disk)); [| |exact Hroom2]]; done.
Qed.

(** Letting a block go keeps the cache as it is. *)
Lemma release_block t st off b blk :
  coherent (-1) t st -> block_at st off b blk ->
  exists st', IoBlockCacheUnlock a b st = Ret st' /\ coherent (-1) t st' /\ later t t st st' /\ bmem st' = bmem st /\ bworld st' = bworld st.
Proof.
  intros Hok [B1 B2 B3 B4 B5 B6 B7 B8]. unfold IoBlockCacheUnlock. rewrite B1. cbn [or_fault mbind outcome_bind].
  destruct (0 <? bkRefCount blk); [|exists st; split_and!; done || apply later_refl]. unfold upd_block. rewrite B1. cbn [or_fault mbind outcome_bind].
  rewrite B3, bool_decide_eq_false_2 by done. cbn [andb]. set (blk' := set_bkRefCount _ _).
  destruct (touch_block (-1) t st b blk blk' Hok B1 eq_refl eq_refl eq_refl eq_refl) as [Hok' Hlater]. eexists. by split_and!.
Qed.

(** ** Reading into a buffer *)

(** The part of the block at [off] that is used. *)
Lemma block_part off length : 0 <= off -> 0 < length -> off + length <= size ->
  let n := block_length off length bs in
  0 < n <= length /\ block_off off bs = off mod bs /\ 0 <= off mod bs /\ off mod bs + n <= bs /\ align_off off bs + off mod bs = off /\
  u64 (off + n) = off + n.
Proof.
  intros H0 Hl Hs. pose proof bs_bound. pose proof bs_pos as Hp. destruct (block_of off ltac:(lia)) as (Hal & _ & _ & _ & Hb). unfold block_length.
  rewrite Hb, Hal. pose proof (Z.mod_pos_bound off bs Hp). unfold u32, u64. rewrite (Z.mod_small (bs - _)) by lia.
  split_and!; try lia. apply Z.mod_small. lia.
Qed.

(** A chunk copied between memory outside the blocks and a block. *)
Lemma chunk_apart t st off b blk p n o : clear_of t st p n -> t !! off = Some b -> block_at st off b blk -> 0 < n -> 0 <= o -> o + n <= bs ->
  p + n <= bkAddress blk + o \/ bkAddress blk + o + n <= p.
Proof.
  intros [_ Hc] Ht Hb Hn Ho Hon. pose proof (Hc off b blk Ht (b_is _ _ _ _ Hb)) as H. pose proof (H p ltac:(lia)).
  destruct (Z.le_gt_cases (p + n) (bkAddress blk)); [left; lia|]. pose proof (H (Z.max p (bkAddress blk)) ltac:(lia)). right. lia.
Qed.

Lemma clear_sub t st p n q r : clear_of t st p n -> p <= q -> q + r <= p + n -> clear_of t st q r.
Proof.
  intros [Hw Hc] Hq Hr. split; [by eapply writable_sub|]. intros off b blk Ht Hb x Hx. apply (Hc off b blk Ht Hb). lia.
Qed.

Lemma room_after st st' r : bworld st' = bworld st -> (forall x, is_Some (bmem st' !! x) -> is_Some (bmem st !! x)) -> room st r -> room st' r.
Proof. apply (room_stable (disk := disk)). Qed.

(** One turn: a block is read and part of it copied to the buffer. *)
Lemma read_turn t st off buffer n r :
  coherent (-1) t st -> 0 <= off < size -> 0 < n -> off mod bs + n <= bs -> clear_of t st buffer n -> 0 <= r -> room st (bs + r) ->
  exists b blk t' st1 m st2, cache_read off st = Ret (0, b, st1) /\ blocks st1 !! b = Some blk /\
    memcpy (bmem st1) buffer (bkAddress blk + block_off off bs) n = Ret m /\ IoBlockCacheUnlock a b (set_bmem st1 m) = Ret st2 /\
    coherent (-1) t' st2 /\ (forall i, 0 <= i < n -> bmem st2 !! (buffer + i) = Some (disk_of st (off + i))) /\
    (forall x, is_Some (bmem st !! x) -> ~ (buffer <= x < buffer + n) -> bmem st2 !! x = bmem st !! x) /\
    (forall x, disk_of st2 x = disk_of st x) /\ (forall p l, clear_of t st p l -> clear_of t' st2 p l) /\ room st2 r.
Proof.
  intros Hok Ho Hn Hbn Hcl Hr Hroom. destruct (acquire_block t st off r Hok Ho Hr Hroom) as (b & blk & t' & st1 & E & Hok1 & Ht & Hb & [Ld Lc Lk] & R).
  destruct (block_of off Ho) as (Hal & _ & _ & _ & Hbo). pose proof (Z.mod_pos_bound off bs bs_pos). pose proof (Lc _ _ Hcl) as Hcl1.
  destruct (c_block _ _ _ Hok1 _ _ Ht) as (blk' & Hb' & Hsync). assert (blk' = blk) as -> by (destruct Hb', Hb; congruence).
  assert (align_off off bs <> -1) as Hne by (pose proof (b_range _ _ _ _ Hb); lia). specialize (Hsync Hne).
  rewrite Hbo. set (src := bkAddress blk + off mod bs).
  edestruct (copy_forward_spec (Z.to_nat n) (bmem st1) buffer src) as (m & Em & F); rewrite ?Z2Nat.id in * by lia.
  - unfold src. destruct (chunk_apart _ _ _ _ _ _ _ (off mod bs) Hcl1 Ht Hb Hn); lia.
  - eapply writable_sub; [apply (b_mapped _ _ _ _ Hb)|unfold src; lia|unfold src; lia].
  - apply Hcl1.
  - apply (c_bytes _ _ _ Hok1).
  - assert (filled (bmem st1) m buffer n (fun i => disk_of st (off + i))) as F'.
    { eapply filled_ext, F. intros i Hi. cbn. unfold src. rewrite <- Z.add_assoc, Hsync by lia. cbn. rewrite Ld. f_equal. lia. }
    destruct (fill_clear (-1) t' st1 buffer n _ m Hok1 Hcl1 ltac:(intros; apply (bd_bytes _ _ _ _ _ Hdriver)) F') as [Hok2 Hcl2].
    destruct (release_block t' (set_bmem st1 m) (align_off off bs) b blk Hok2) as (st2 & E2 & Hok3 & [Ld3 Lc3 Lk3] & Hm3 & Hw3).
    { destruct Hb. split; try done. by apply (filled_writable _ _ _ _ _ _ _ F'). }
    exists b, blk, t', st1, m, st2. split_and!; try done.
    + apply (b_is _ _ _ _ Hb).
    + intros i Hi. rewrite Hm3. cbn. rewrite F'. bool_cases; try lia. do 2 f_equal. lia.
    + intros x Hx Hout. rewrite Hm3. cbn. rewrite F', <- Lk by done. by bool_cases; first [done|lia].
    + intros x. rewrite Hw3. apply Ld.
    + intros p l Hp. apply Lc3, Hcl2, Lc, Hp.
    + apply (room_after st1); [done| |done]. intros x. rewrite Hm3. cbn. rewrite F'. intros Hx.
      destruct (decide (buffer <= x < buffer + n)) as [Hin|Hout]; [by apply Hcl1|]. revert Hx. by bool_cases; first [done|lia].
Qed.

(** The buffer can be read from by the current thread, in every part. *)
Definition readable_buffer (buffer length : Z) : Prop :=
  forall i n, 0 <= i -> 0 < n -> i + n <= length -> MemCommitForRead isKernel context (buffer + i) n = true.

(** What a read leaves: the buffer holds the disk's bytes, all other memory
    that was there and the disk are the same, and the cache is in order. *)
Definition reads_disk (t : gmap Z Z) (st : bstate W) (off buffer length : Z) (st' : bstate W) : Prop :=
  exists t', coherent (-1) t' st' /\ (forall i, 0 <= i < length -> bmem st' !! (buffer + i) = Some (disk_of st (off + i))) /\
    (forall x, is_Some (bmem st !! x) -> ~ (buffer <= x < buffer + length) -> bmem st' !! x = bmem st !! x) /\
    (forall x, disk_of st' x = disk_of st x) /\ (forall p l, clear_of t st p l -> clear_of t' st' p l).

Lemma read_loop_reads fuel : forall t st off buffer length,
  coherent (-1) t st -> 0 <= off -> 0 <= length -> off + length <= size -> clear_of t st buffer length ->
  readable_buffer buffer length -> room st (length * bs) -> length <= Z.of_nat fuel ->
  exists st', read_loop devs devOpsOf isKernel context others fuel dev bs off buffer length st = Ret (0, st') /\ reads_disk t st off buffer length st'.
Proof.
  induction fuel as [|fuel IH]; intros t st off buffer length Hok H0 Hl Hs Hcl Hrd Hroom Hf; cbn [read_loop].
  { assert (length = 0) as -> by lia. exists st. split; [done|]. exists t. split_and!; try done. lia. }
  destruct (Z.eqb_spec length 0) as [->|Hne]; [exists st; split; [done|]; exists t; split_and!; try done; lia|].
  destruct (block_part off length H0 ltac:(lia) Hs) as (Hn & Hbo & Hm0 & Hm & _ & Hu). set (n := block_length off length bs) in *. pose proof bs_pos.
  destruct (read_turn t st off buffer n ((length - n) * bs)) as (b & blk & t' & st1 & m & st2 & E1 & Eb & Em & E2 & Hok2 & Hin & Hout & Hd & Hc & R);
    [done|lia|lia|lia|eapply clear_sub; [exact Hcl|lia|lia]|nia| |].
  { apply (room_less (disk := disk) st ((n - 1) * bs)); [nia|]. by replace ((n - 1) * bs + (bs + (length - n) * bs)) with (length * bs) by ring. }
  rewrite E1. cbn [mbind outcome_bind Z.eqb negb]. rewrite Hdev. cbn [or_fault mbind outcome_bind].
  rewrite <- (Z.add_0_r buffer), (Hrd 0 n), Z.add_0_r by lia. cbn [negb]. rewrite Eb. cbn [or_fault mbind outcome_bind]. rewrite Em.
  cbn [mbind outcome_bind]. rewrite E2. cbn [mbind outcome_bind]. rewrite Hu.
  destruct (IH t' st2 (off + n) (buffer + n) (length - n)) as (st' & -> & t'' & K1 & K2 & K3 & K4 & K5); try done; try lia.
  - eapply clear_sub; [apply Hc, Hcl|lia|lia].
  - intros i l Hi Hl' Hil. rewrite <- Z.add_assoc. apply Hrd; lia.
  - exists st'. split; [done|]. exists t''. split_and!; [done| | | |].
    + intros i Hi. destruct (Z.lt_ge_cases i n) as [Hlt|Hge].
      * rewrite K3; [apply Hin; lia| |lia]. rewrite Hin by lia. eauto.
      * replace (buffer + i) with (buffer + n + (i - n)) by lia. rewrite K2 by lia. rewrite Hd. do 2 f_equal. lia.
    + intros x Hx Hxo. rewrite K3, Hout; [done|done|lia|rewrite Hout; [done|done|lia]|lia].
    + intros x. by rewrite K4.
    + intros p l Hp. by apply K5, Hc.
Qed.

(** ** Writing from a buffer *)

Lemma weaken_ok skip t st : coherent (-1) t st -> 0 <= skip -> coherent skip t st.
Proof.
  intros [Hc Hb Ha Hl Hy] Hs. split; try done. intros off b Ht. destruct (Hb off b Ht) as (blk & Hbl & Hsync). exists blk. split; [done|].
  intros _. apply Hsync. pose proof (b_range _ _ _ _ Hbl). lia.
Qed.

Lemma block_to_write_spec t st off n r :
  coherent (-1) t st -> 0 <= off < size -> 0 < n -> off mod bs + n <= bs -> 0 <= r -> room st (bs + r) ->
  let al := align_off off bs in
  exists b blk t' st', block_to_write devs devOpsOf others dev a off bs n st = Ret (0, b, st') /\ coherent al t' st' /\ t' !! al = Some b /\
    block_at st' al b blk /\ (off mod bs <> 0 \/ n <> bs -> in_sync st' al blk) /\ later t t' st st' /\ room st' r.
Proof.
  intros Hok Ho Hn Hbn Hr Hroom al. destruct (block_of off Ho) as (_ & Hal & Hend & Hmod & Hbo). fold al in Hal, Hend, Hmod. unfold block_to_write.
  rewrite Hbo. destruct (negb (off mod bs =? 0) || negb (n =? bs)) eqn:Epart.
  - destruct (acquire_block t st off r Hok Ho Hr Hroom) as (b & blk & t' & st' & -> & Hok' & Ht & Hb & Hlat & R). exists b, blk, t', st'.
    split_and!; try done; [by apply weaken_ok|]. intros _. destruct (c_block _ _ _ Hok' _ _ Ht) as (blk' & Hb' & Hs).
    assert (blk' = blk) as -> by (destruct Hb', Hb; congruence). apply Hs. lia.
  - apply orb_false_iff in Epart as [E1%negb_false_iff%Z.eqb_eq E2%negb_false_iff%Z.eqb_eq]. destruct (c_cache _ _ _ Hok) as [l Hc]. rewrite Hc.
    cbn [or_fault mbind outcome_bind]. unfold IoBlockHashFind. cbn [blockTable]. fold al. destruct (t !! al) as [b|] eqn:Et.
    + destruct (c_block _ _ _ Hok _ _ Et) as (blk & Hb & _). exists b, blk, t, st. split_and!; try done; [by apply weaken_ok|lia|].
      apply (room_less (disk := disk) st bs r); [pose proof bs_pos; lia|done].
    + destruct (create_block t st al r Hok Et) as (b & p & s & l' & w & m & -> & Hok2 & Hb2 & Hlat & Hroom2 & _); [done..|].
      cbn [mbind outcome_bind]. unfold set_block_state. rewrite upd_inserted. cbn [mbind outcome_bind set_bkState bkOffset waitingThreads bkRefCount bkAddress].
      exists b, (mkBlock al IO_BLOCK_OK [] 1 p), (<[al := b]> t). eexists. split; [reflexivity|]. split_and!; try done; [apply lookup_insert_eq|lia].
Qed.

(** What a write leaves: the disk has the buffer's bytes, memory outside the
    blocks is the same and the cache is in order. *)
Definition writes_disk (t : gmap Z Z) (st : bstate W) (off buffer length : Z) (st' : bstate W) : Prop :=
  exists t', coherent (-1) t' st' /\
    (forall x, disk_of st' x = if (off <=? x) && (x <? off + length) then default 0 (bmem st !! (buffer + (x - off))) else disk_of st x) /\
    (forall p l, clear_of t st p l -> clear_of t' st' p l /\ forall x, p <= x < p + l -> bmem st' !! x = bmem st !! x).

(** The state between the copy and the release. *)
Lemma write_block_spec t st off b blk buffer n :
  let al := align_off off bs in
  coherent al t st -> t !! al = Some b -> block_at st al b blk -> 0 <= off < size -> 0 < n -> off mod bs + n <= bs ->
  (off mod bs <> 0 \/ n <> bs -> in_sync st al blk) -> clear_of t st buffer n ->
  exists st', write_block dev a b off (bkAddress blk + block_off off bs) buffer n write st = Ret (0, st') /\
    writes_disk t st off buffer n st' /\ (forall r, room st r -> room st' r).
Proof.
  intros al Hok Ht Hb Ho Hn Hbn Hpart Hcl. destruct (block_of off Ho) as (Ealign & Hal & Hend & Hmod & ->). fold al in Ealign, Hal, Hend, Hmod.
  pose proof (Z.mod_pos_bound off bs bs_pos). pose proof Hb as [B1 B2 B3 B4 B5 B6 B7 B8]. set (at_ := bkAddress blk + off mod bs).
  unfold write_block, set_block_state. rewrite (upd_known _ _ blk) by done. cbn [mbind outcome_bind bmem].
  edestruct (copy_forward_spec (Z.to_nat n) (bmem st) at_ buffer) as (m & Em & F); rewrite ?Z2Nat.id in * by lia.
  { unfold at_. destruct (chunk_apart _ _ _ _ _ _ _ (off mod bs) Hcl Ht Hb Hn); lia. } { apply Hcl. }
  { eapply writable_sub; [exact B8|unfold at_; lia|unfold at_; lia]. } { apply (c_bytes _ _ _ Hok). }
  unfold memcpy. rewrite Em. cbn [mbind outcome_bind]. unfold set_bmem. cbn [caches blocks bsys bworld].
  edestruct (bd_write _ _ _ _ _ Hdriver off at_ n) as (w & -> & D & L & R); [lia|done|lia| | |].
  { cbn. eapply filled_writable; [exact F|]. eapply writable_sub; [exact B8|unfold at_; lia|unfold at_; lia]. }
  { cbn. intros x v. rewrite F. bool_cases; try apply (c_bytes _ _ _ Hok). intros [= <-]. destruct (bmem st !! _) eqn:Ev; cbn; [|lia].
    by apply (c_bytes _ _ _ Hok) in Ev. }
  cbn [mbind outcome_bind caches blocks bmem bsys bworld Z.eqb] in *. rewrite upd_inserted. cbn [mbind outcome_bind]. rewrite wake_inserted by done.
  cbn [mbind outcome_bind].
  assert (<[b := set_bkState (set_bkState blk IO_BLOCK_WRITING) IO_BLOCK_OK]> (blocks st) = blocks st) as ->.
  { apply insert_id. rewrite B1. f_equal. destruct blk; cbn in *; by subst. }
  destruct (refresh_block t st al b blk m w) as (Hok2 & Hb2 & Hcl2); try done.
  - intros x Hx. rewrite F. unfold at_. by bool_cases; first [done|lia].
  - intros i Hi. rewrite D, !F. unfold at_. destruct (decide (off mod bs <= i < off mod bs + n)) as [Hin|Hout].
    + bool_cases; try lia. do 3 f_equal. lia.
    + rewrite Hpart by lia. bool_cases; try lia; done.
  - intros x Hx. rewrite D. by bool_cases; first [done|lia].
  - destruct (release_block t _ al b blk Hok2 Hb2) as (st' & -> & Hok3 & [Ld Lc Lk] & Hm3 & Hw3). exists st'. cbn [mbind outcome_bind].
    split; [done|]. cbn in Hm3, Hw3. split.
    + exists t. split; [done|]. split.
      * intros x. rewrite Hw3, D. bool_cases; try done. rewrite F. unfold at_. bool_cases; try lia. do 2 f_equal. lia.
      * intros p l Hp. split; [by apply Lc, Hcl2|]. intros x Hx. rewrite Hm3, F. destruct Hp as [_ Hp].
        pose proof (Hp al b blk Ht B1 x Hx). unfold at_. by bool_cases; first [done|lia].
    + intros r Hr. apply (room_after (mkBstate (caches st) (<[b:=set_bkState blk IO_BLOCK_WRITING]> (blocks st)) m (bsys st) w)); [done|by rewrite Hm3|].
      apply R. apply (room_after st); [done| |done]. intros x. cbn. rewrite F. intros Hx.
      destruct (decide (at_ <= x < at_ + n)); [apply B8; unfold at_ in *; lia|]. revert Hx. by bool_cases; first [done|lia].
Qed.

(** Kernel memory passes the check. *)
Lemma kernel_writable x n : KERNEL_VIRTUAL_BASE <= x -> 0 < n -> x + n < 4294967296 -> MemCommitForWrite isKernel context x n = true.
Proof.
  unfold KERNEL_VIRTUAL_BASE, MemCommitForWrite, MemCanWrite, MemChecks, u32. intros Hx Hn Hs. destruct (Z.leb_spec 0xC0000000 x); [|lia].
  rewrite Z.mod_small by lia. apply Z.leb_le. lia.
Qed.

(** Two writes, one behind the other. *)
Lemma writes_disk_app t t1 st st1 st2 st' off buffer n l :
  later t t1 st st1 -> writes_disk t1 st1 off buffer n st2 -> 0 <= n -> 0 <= l -> clear_of t st buffer (n + l) ->
  (forall t2, coherent (-1) t2 st2 -> clear_of t2 st2 (buffer + n) l -> writes_disk t2 st2 (off + n) (buffer + n) l st') ->
  writes_disk t st off buffer (n + l) st'.
Proof.
  intros [Ld Lc Lk] (t2 & Hok2 & D2 & C2) Hn Hl Hcl Hrest.
  destruct (Hrest t2 Hok2) as (t3 & Hok3 & D3 & C3); [apply C2, Lc; eapply clear_sub; [exact Hcl|lia|lia]|].
  assert (forall x, buffer <= x < buffer + (n + l) -> bmem st1 !! x = bmem st !! x) as Hb1 by (intros x Hx; apply Lk, Hcl, Hx).
  assert (forall x, buffer <= x < buffer + (n + l) -> bmem st2 !! x = bmem st !! x) as Hb2.
  { intros x Hx. rewrite <- Hb1 by done. by apply (C2 buffer (n + l)); [apply Lc|]. }
  exists t3. split_and!; [done| |].
  - intros x. rewrite D3, D2, Ld. bool_cases; try done; rewrite ?Hb1, ?Hb2 by lia; do 2 f_equal; lia.
  - intros p m Hp. destruct (C2 p m (Lc _ _ Hp)) as [Hp2 E2]. destruct (C3 p m Hp2) as [Hp3 E3]. split; [done|].
    intros x Hx. rewrite E3, E2, Lk; [done|by apply Hp|done|done].
Qed.

Lemma write_loop_writes fuel : forall t st off buffer length,
  coherent (-1) t st -> 0 <= off -> 0 <= length -> off + length <= size -> clear_of t st buffer length ->
  room st (length * bs) -> length <= Z.of_nat fuel ->
  exists st', write_loop devs devOpsOf isKernel context others fuel dev a bs off buffer length write st = Ret (0, st') /\
    writes_disk t st off buffer length st'.
Proof.
  induction fuel as [|fuel IH]; intros t st off buffer length Hok H0 Hl Hs Hcl Hroom Hf; cbn [write_loop];
    (destruct (Z.eqb_spec length 0) as [->|Hne];
     [exists st; split; [done|]; exists t; split_and!; [done|intros x; by bool_cases|done]|]); [lia|].
  destruct (block_part off length H0 ltac:(lia) Hs) as (Hn & Hbo & Hm0 & Hm & _ & Hu). set (n := block_length off length bs) in *. pose proof bs_pos.
  destruct (block_to_write_spec t st off n ((length - n) * bs)) as (b & blk & t1 & st1 & E1 & Hok1 & Ht & Hb & Hpart & Hlat & R);
    [done|lia|lia|lia|nia| |].
  { apply (room_less (disk := disk) st ((n - 1) * bs)); [nia|]. by replace ((n - 1) * bs + (bs + (length - n) * bs)) with (length * bs) by ring. }
  rewrite E1. cbn [mbind outcome_bind Z.eqb negb]. pose proof Hb as [B1 B2 B3 B4 B5 B6 B7 B8].
  assert (wait_loop others (S fuel) b st1 = Ret st1) as -> by (cbn [wait_loop]; rewrite B1; cbn [or_fault mbind outcome_bind]; by rewrite B3).
  cbn [mbind outcome_bind]. rewrite B1. cbn [or_fault mbind outcome_bind]. rewrite B3, bool_decide_eq_false_2 by done.
  rewrite kernel_writable; [|rewrite Hbo; lia|lia|rewrite Hbo; lia]. cbn [negb].
  destruct (write_block_spec t1 st1 off b blk buffer n Hok1 Ht Hb) as (st2 & E2 & Hw & R2); [lia|lia|lia|done| |].
  { apply (l_clear _ _ _ _ Hlat). eapply clear_sub; [exact Hcl|lia|lia]. }
  rewrite E2. cbn [mbind outcome_bind Z.eqb negb]. rewrite Hu.
  assert (exists t2, coherent (-1) t2 st2 /\ clear_of t2 st2 (buffer + n) (length - n)) as (t2 & Hok2 & Hcl2).
  { destruct Hw as (t2 & Hok2 & _ & C2). exists t2. split; [done|]. apply C2. apply (l_clear _ _ _ _ Hlat).
    eapply clear_sub; [exact Hcl|lia|lia]. }
  destruct (IH t2 st2 (off + n) (buffer + n) (length - n)) as (st' & E' & Hw'); [done|lia|lia|lia|done|by apply R2|lia|].
  exists st'. split; [done|]. replace length with (n + (length - n)) at 1 by lia.
  eapply writes_disk_app; [exact Hlat|exact Hw|lia|lia|by replace (n + (length - n)) with length by lia|]. intros t3 Hok3 Hcl3.
  destruct (c_cache _ _ _ Hok2) as [l2 Hc2]. destruct (c_cache _ _ _ Hok3) as [l3 Hc3]. assert (t3 = t2) as -> by congruence. done.
Qed.

(** ** Properties *)

Lemma buffer_read fuel t st off buffer length :
  coherent (-1) t st -> 0 <= off -> 0 <= length -> off + length <= size -> clear_of t st buffer length ->
  readable_buffer buffer length -> room st (length * bs) -> length <= Z.of_nat fuel ->
  exists st', IoBlockCacheReadBuffer devs devOpsOf isKernel context others fuel dev off buffer length st = Ret (0, st') /\
    reads_disk t st off buffer length st'.
Proof.
  intros Hok H0 Hl Hs Hcl Hrd Hroom Hf. unfold IoBlockCacheReadBuffer. destruct (Z.eqb_spec length 0) as [->|Hne].
  - exists st. split; [done|]. exists t. split_and!; try done. lia.
  - destruct (c_cache _ _ _ Hok) as [l Hc]. rewrite Hdev. cbn [or_fault mbind outcome_bind]. rewrite Hc. by apply read_loop_reads.
Qed.

(** C5: on a device of at most 4 GB whose size is a multiple of the cache's block
    size (a power of two up to 2^30), whose driver serves every request inside
    it, and while the allocators have room for the blocks: reading through the
    block cache is reading the disk. A request inside the device into a
    readable buffer apart from the cached blocks returns 0, the buffer holds
    the disk's bytes, the disk and all other memory are as before, and every
    cached block again holds what the disk holds. It ends within one turn per
    byte. *)
Theorem IoBlockCacheReadBuffer_reads fuel t st off buffer length :
  coherent (-1) t st -> 0 <= off -> 0 <= length -> off + length <= size -> clear_of t st buffer length ->
  readable_buffer buffer length -> room st (length * bs) -> length <= Z.of_nat fuel ->
  exists st', IoBlockCacheReadBuffer devs devOpsOf isKernel context others fuel dev off buffer length st = Ret (0, st') /\
    reads_disk t st off buffer length st'.
Proof. apply buffer_read. Qed.

(** C6: on such a device (at most 4 GB, a multiple of the block size, a driver
    that serves every request inside it), and while the allocators have room
    for the blocks: writing through the block cache writes through to the disk.
    A request inside the device from a buffer apart from the cached blocks
    returns 0, the disk has the buffer's bytes and is otherwise the same,
    memory outside the cache is as before, and every cached block holds what
    the disk now holds. *)
Theorem IoBlockCacheWriteBuffer_writes fuel t st off buffer length :
  coherent (-1) t st -> 0 <= off -> 0 <= length -> off + length <= size -> clear_of t st buffer length ->
  room st (length * bs) -> length <= Z.of_nat fuel ->
  exists st', IoBlockCacheWriteBuffer devs devOpsOf isKernel context others fuel dev off buffer length st = Ret (0, st') /\
    writes_disk t st off buffer length st'.
Proof.
  intros Hok H0 Hl Hs Hcl Hroom Hf. unfold IoBlockCacheWriteBuffer. destruct (Z.eqb_spec length 0) as [->|Hne].
  - exists st. split; [done|]. exists t. split_and!; [done|intros x; by bool_cases|done].
  - destruct (c_cache _ _ _ Hok) as [l Hc]. rewrite Hdev. cbn [or_fault mbind outcome_bind]. rewrite Hwrite, Hc. cbn [or_fault mbind outcome_bind].
    by apply write_loop_writes.
Qed.

(** A read into a buffer that is not readable fails with EFAULT before
    anything is copied: memory and disk are as before and the cache, which may
    have one block more, is in order. *)
Theorem IoBlockCacheReadBuffer_faults fuel t st off buffer length :
  coherent (-1) t st -> 0 <= off -> 0 < length -> off + length <= size -> room st bs -> (0 < fuel)%nat ->
  MemCommitForRead isKernel context buffer (block_length off length bs) = false ->
  exists t' st', IoBlockCacheReadBuffer devs devOpsOf isKernel context others fuel dev off buffer length st = Ret (- EFAULT, st') /\
    coherent (-1) t' st' /\ later t t' st st'.
Proof.
  intros Hok H0 Hl Hs Hroom Hf Hno. unfold IoBlockCacheReadBuffer. destruct (Z.eqb_spec length 0); [lia|].
  destruct (c_cache _ _ _ Hok) as [l Hc]. rewrite Hdev. cbn [or_fault mbind outcome_bind]. rewrite Hc. cbn [or_fault mbind outcome_bind blockSize].
  destruct fuel as [|fuel]; [lia|]. cbn [read_loop]. destruct (Z.eqb_spec length 0); [lia|].
  destruct (acquire_block t st off 0) as (b & blk & t1 & st1 & -> & Hok1 & _ & Hb & Hlat & _); [done|lia|lia|by rewrite Z.add_0_r|].
  cbn [mbind outcome_bind Z.eqb negb]. rewrite Hdev. cbn [or_fault mbind outcome_bind]. rewrite Hno. cbn [negb].
  destruct (release_block t1 st1 _ b blk Hok1 Hb) as (st2 & -> & Hok2 & Hlat2 & _). exists t1, st2. split_and!; [done..|].
  by eapply later_trans.
Qed.
End Coherence.

(** The offset loses its upper 32 bits: 4 GiB into the device the cache gives
    the first blocks again. *)
Theorem IoBlockCacheRead_aliases {K : Machine} {W} {BM : BlockMem W} devs devOpsOf (others : bstate W -> outcome (bstate W)) dev off st :
  IoBlockCacheRead devs devOpsOf others dev (off + 4294967296) st = IoBlockCacheRead devs devOpsOf others dev off st.
Proof.
  assert (forall bs, align_off (off + 4294967296) bs = align_off off bs) as E.
  { intros bs. unfold align_off. set (mask := u32 _). assert (mask = Z.land mask (Z.ones 32)) as ->.
    { rewrite Z.land_ones by lia. unfold mask, u32. by rewrite Z.mod_mod. }
    rewrite (Z.land_comm mask), !Z.land_assoc, !Z.land_ones by lia. f_equal. change (2 ^ 32) with 4294967296.
    replace (off + 4294967296) with (off + 1 * 4294967296) by lia. apply Z.mod_add. lia. }
  unfold IoBlockCacheRead. destruct (devs !! dev) as [d|]; [|done]. cbn [or_fault mbind outcome_bind].
  destruct (caches st !! blockCache d); [|done]. cbn [or_fault mbind outcome_bind]. by rewrite E.
Qed.

(** A cache whose list is empty is destroyed whatever blocks it holds: they
    stay behind. CreateEmptyBlock puts no block on the list. *)
Theorem IoBlockCacheDestroy_leaks {W} {BM : BlockMem W} a bs t (st st' : bstate W) :
  caches st !! a = Some (mkBCache bs t []) -> cache_free a st = Ret st' -> blocks st' = blocks st ->
  exists st2, IoBlockCacheDestroy a st = Ret (true, st2) /\ blocks st2 = blocks st.
Proof.
  intros Hc Hf Hb. unfold IoBlockCacheDestroy. rewrite Hc. cbn [or_fault mbind outcome_bind blockList destroy_loop]. rewrite Hf.
  eexists. split; [done|]. done.
Qed.

(** ** A block device as a file *)

Section BlockFile.
Context {K : Machine} {W : Type} {BM : BlockMem W} (disk : W -> Z -> Z) {BL : BlockMemLaws W disk}.
Context (devOpsOf : Z -> IoDeviceOps (bstate W)) (isKernel : bool) (context : MemContext) (others : bstate W -> outcome (bstate W)).

(** The block cache as devfs uses it. *)
Definition cached_read (fuel : nat) (dev off buffer count : Z) (st : devfs (bstate W)) : outcome (Z * devfs (bstate W)) :=
  with_driver (IoBlockCacheReadBuffer (DevFs.devs st) devOpsOf isKernel context others fuel dev off buffer count (drv st)) st.
Definition cached_write (fuel : nat) (dev off buffer count : Z) (st : devfs (bstate W)) : outcome (Z * devfs (bstate W)) :=
  with_driver (IoBlockCacheWriteBuffer (DevFs.devs st) devOpsOf isKernel context others fuel dev off buffer count (drv st)) st.

(** IoRead on an open block device puts the disk's bytes at the file
    offset into the buffer, through devfs and the block cache. It returns 0 and
    not the number of bytes, so the file offset stays where it is. *)
Theorem block_file_read fuel (tables : Z -> IoFileOps (devfs (bstate W))) canRead fd buffer count c fst0 st p f dev d k size read write t :
  tables (fops f) = devfs_file_ops devOpsOf (cached_read fuel) (cached_write fuel) ->
  opens c fst0 fd p f -> truth (Z.land (fflags f) IO_O_RDONLY) = true -> truth (Z.land (fflags f) IO_O_DIRECTORY) = false ->
  canRead buffer count = true ->
  devfs_ok st -> DevFs.devs st !! dev = Some d -> dev <> 0 -> zget (devices st) (iNode f) = Some dev -> blockCache d <> 0 -> IO_ISBLOCK (dvmode d) = true ->
  dev_read (devOpsOf (devOps d)) = Some read -> dev_write (devOpsOf (devOps d)) = Some write -> block_device disk dev size read write ->
  0 <= k <= 30 -> size <= 4294967296 /\ size mod 2 ^ k = 0 ->
  coherent disk d k size (-1) t (drv st) -> 0 <= off f -> 0 <= count -> off f + count <= size -> clear_of k t (drv st) buffer count ->
  readable_buffer isKernel context buffer count -> room (drv st) (count * 2 ^ k) -> count <= Z.of_nat fuel ->
  exists x, IoRead tables canRead fd buffer count c fst0 st = Ret (0, c, fst0, set_drv st x) /\
    reads_disk disk d k size t (drv st) (off f) buffer count x.
Proof.
  intros Htab Hopen Hr Hnd Hcan Hok Hd H0 Hz Hbc Hblk Hrd Hwr Hdrv Hk Hsz Hc Ho Hn Hs Hcl Hbuf Hroom Hf.
  destruct (buffer_read disk (DevFs.devs st) devOpsOf isKernel context others dev d k size read write Hd Hrd Hdrv Hk Hsz
              fuel t (drv st) (off f) buffer count) as (x & E & Hreads); try done.
  exists x. split; [|done]. apply zget_range in Hz as Hrange. pose proof (d_len _ Hok) as Hlen.
  rewrite (read_opened tables canRead fd buffer count c fst0 st p f (DevFsRead devOpsOf (cached_read fuel)) 0 (set_drv st x)); try done.
  - cbn [Z.ltb]. destruct Hopen as (_ & _ & _ & Hp & _). by rewrite insert_id.
  - by rewrite Htab.
  - unfold DevFsRead, device_transfer, get_device. cbn [set_frefCount iNode off]. destruct (Z.leb_spec MAX_DEVICES (iNode f)); [lia|].
    rewrite Hz. cbn [or_fault mbind outcome_bind]. apply Z.eqb_neq in H0, Hbc. rewrite H0, Hd. cbn [or_fault mbind outcome_bind]. rewrite Hbc, Hblk.
    cbn [negb andb]. unfold cached_read. by rewrite E.
Qed.
End BlockFile.

(** ** A small system *)

(** The next header, the next free page of memory, and the disk. *)
Record ram := mkRam { nextHeader : Z; nextPage : Z; diskBytes : gmap Z Z }.

Definition ram_disk (w : ram) (x : Z) : Z := u8 (default 0 (diskBytes w !! x)).

(** The [n] bytes at [p] become [f p], [f (p + 1)], ... *)
Fixpoint put (n : nat) (p : Z) (f : Z -> Z) (m : memory) : memory :=
  match n with O => m | S n' => <[p := f p]> (put n' (p + 1) f m) end.

Lemma put_lookup n : forall p f m x, put n p f m !! x = if (p <=? x) && (x <? p + Z.of_nat n) then Some (f x) else m !! x.
Proof.
  induction n as [|n IH]; intros p f m x; cbn [put]; [by bool_cases|].
  destruct (decide (p = x)) as [<-|Hne]; [rewrite lookup_insert_eq|rewrite lookup_insert_ne, IH by done]; bool_cases; first [done|lia].
Qed.

Definition take_pages (n size : Z) (st : bstate ram) : bstate ram :=
  mkBstate (caches st) (blocks st) (put (Z.to_nat size) (nextPage (bworld st)) (fun _ => 0) (bmem st)) (bsys st)
    (mkRam (nextHeader (bworld st)) (nextPage (bworld st) + n * PAGE_SIZE) (diskBytes (bworld st))).

#[export] Instance ram_mem : BlockMem ram := {|
  header_alloc st := Ret (nextHeader (bworld st), mkBlock 0 IO_BLOCK_OK [] 0 0,
    mkBstate (caches st) (blocks st) (bmem st) (bsys st)
      (mkRam (nextHeader (bworld st) + 64) (nextPage (bworld st)) (diskBytes (bworld st))));
  header_free _ st := Ret st;
  data_alloc n st := Ret (nextPage (bworld st), take_pages 1 n st);
  data_free _ st := Ret st;
  pages_alloc n _ st := Ret ((nextPage (bworld st) - KERNEL_VIRTUAL_BASE) / PAGE_SIZE, take_pages n (n * PAGE_SIZE) st);
  pages_free _ _ st := Ret st;
  cache_alloc st := Ret (500, ∅, st);
  cache_free _ st := Ret st
|}.

(** The memory from the next page on is free, and there is enough of it. *)
Definition ram_room (st : bstate ram) (r : Z) : Prop :=
  0 < nextHeader (bworld st) /\ KERNEL_VIRTUAL_BASE <= nextPage (bworld st) /\ nextPage (bworld st) mod PAGE_SIZE = 0 /\
  nextPage (bworld st) + r * PAGE_SIZE < 4294967296 /\ forall x, nextPage (bworld st) <= x -> bmem st !! x = None.

Definition ram_live (w : ram) (b : Z) : Prop := b < nextHeader w.

Lemma take_pages_grown st n size r :
  0 < n -> 0 < size <= n * PAGE_SIZE -> 0 <= r -> ram_room st (n + r) ->
  grown ram_disk ram_live st (take_pages n size st) (nextPage (bworld st)) size /\ ram_room (take_pages n size st) r.
Proof.
  unfold PAGE_SIZE. intros Hn Hs Hr (H1 & H2 & H3 & H4 & H5). unfold PAGE_SIZE in *. split; [split; try done|]; cbn.
  - split; [done|]. nia.
  - intros x Hx. split; [apply H5; lia|]. exists 0. rewrite put_lookup. bool_cases; first [done|lia].
  - intros x Hx. rewrite put_lookup. bool_cases; first [done|lia].
  - unfold ram_room, PAGE_SIZE, take_pages. cbn [bworld nextHeader nextPage bmem]. unfold PAGE_SIZE. unfold KERNEL_VIRTUAL_BASE in *. split_and!; [done|lia|by rewrite Z.mod_add|lia|].
    intros x Hx. rewrite put_lookup. bool_cases; first [lia|apply H5; lia].
Qed.

#[export] Instance ram_laws : BlockMemLaws ram ram_disk.
Proof.
  refine {| room := ram_room; live := ram_live |}.
  - intros st r (H1 & H2 & H3 & H4 & H5). eexists _, _, _. split; [reflexivity|]. unfold ram_live. cbn. split_and!; try done; try lia.
    unfold ram_room. cbn [bworld nextHeader nextPage bmem]. split_and!; try done; lia.
  - intros st n r Hn Hr H. eexists _, _. split; [reflexivity|]. apply take_pages_grown; [lia|unfold PAGE_SIZE in *; lia|done|].
    destruct H as (H1 & H2 & H3 & H4 & H5). unfold PAGE_SIZE in *. unfold ram_room, PAGE_SIZE. split_and!; try done; lia.
  - intros st n r Hn Hr H. eexists _, _. split; [reflexivity|].
    assert (MemPhys2Virt ((nextPage (bworld st) - KERNEL_VIRTUAL_BASE) / PAGE_SIZE) = nextPage (bworld st)) as ->.
    { destruct H as (H1 & H2 & H3 & H4 & H5). unfold MemPhys2Virt, u32, KERNEL_VIRTUAL_BASE, PAGE_SIZE in *.
      rewrite Z.mod_small; Z.div_mod_to_equations; lia. }
    apply take_pages_grown; [lia|unfold PAGE_SIZE in *; lia|done|].
    destruct H as (H1 & H2 & H3 & H4 & H5). unfold PAGE_SIZE in *. unfold ram_room, PAGE_SIZE. split_and!; try done; lia.
  - intros st n r Hn (H1 & H2 & H3 & H4 & H5). unfold PAGE_SIZE in *. unfold ram_room, PAGE_SIZE. split_and!; try done; lia.
  - intros st st' r Hw Hm (H1 & H2 & H3 & H4 & H5). unfold ram_room. rewrite Hw. split_and!; try done.
    intros x Hx. specialize (H5 x Hx). destruct (bmem st' !! x) eqn:E; [|done]. destruct (Hm x) as [v Hv]; [by eexists|]. congruence.
Defined.

(** The driver of the disk. *)
Definition ram_read (_ o p n : Z) (st : bstate ram) : outcome (Z * bstate ram) :=
  Ret (0, mkBstate (caches st) (blocks st) (put (Z.to_nat n) p (fun x => ram_disk (bworld st) (o + (x - p))) (bmem st)) (bsys st) (bworld st)).
Definition ram_write (_ o p n : Z) (st : bstate ram) : outcome (Z * bstate ram) :=
  Ret (0, mkBstate (caches st) (blocks st) (bmem st) (bsys st)
            (mkRam (nextHeader (bworld st)) (nextPage (bworld st))
               (put (Z.to_nat n) o (fun x => default 0 (bmem st !! (p + (x - o)))) (diskBytes (bworld st))))).

Lemma ram_device dev size : block_device ram_disk dev size ram_read ram_write.
Proof.
  split.
  - intros w x. unfold ram_disk, u8. apply Z.mod_pos_bound. lia.
  - intros o p n st Ho Hn Hs Hw. eexists _, _. split; [reflexivity|]. split_and!; try done.
    + intros x. rewrite put_lookup, Z2Nat.id by lia. done.
    + intros r (H1 & H2 & H3 & H4 & H5). unfold room. cbn. unfold ram_room. cbn. split_and!; try done. intros x Hx. rewrite put_lookup.
      bool_cases; try by apply H5. destruct (Hw x) as [v Hv]; [lia|]. by rewrite H5 in Hv.
  - intros o p n st Ho Hn Hs Hw Hb. eexists. split; [reflexivity|]. split_and!; try done.
    intros x. unfold ram_disk. cbn. rewrite put_lookup, Z2Nat.id by lia. bool_cases; try done. cbn. unfold u8. apply Z.mod_small.
    destruct (bmem st !! _) eqn:E; cbn; [by apply Hb in E|lia].
Qed.

(** A disk of 64 bytes in blocks of 16, and a buffer of 32
    bytes of kernel memory. *)
Definition ram_ops (_ : Z) : IoDeviceOps (bstate ram) := mkDevOps (Some (fun _ x => Ret (0, x))) None (Some ram_read) (Some ram_write) None.
Definition ram_device_file : IoDevice := mkDevice [114] (Z.lor IO_DEV_BLOCK 432) 0 0 1 500 false 0.
Definition ram_devices : gmap Z IoDevice := <[8192 := ram_device_file]> ∅.
Definition ram_start : bstate ram :=
  mkBstate (<[500 := mkBCache 16 ∅ []]> ∅) ∅ (put 32 0xC0000000 (fun x => u8 x) ∅) small_sys (mkRam 64 0xC0100000 (put 64 0 (fun x => x + 100) ∅)).
Definition no_others (st : bstate ram) : outcome (bstate ram) := Ret st.

Lemma ram_start_ok : coherent ram_disk ram_device_file 4 64 (-1) ∅ ram_start.
Proof.
  split; try done.
  - by exists [].
  - intros b [x Hx]. done.
  - intros x v. cbn [ram_start bmem]. rewrite put_lookup. bool_cases; [|done..]. intros [= <-]. unfold u8. apply Z.mod_pos_bound. lia.
Qed.

Lemma ram_start_clear : clear_of 4 ∅ ram_start 0xC0000000 32.
Proof. split; [|done]. intros x Hx. cbn [ram_start bmem]. rewrite put_lookup. bool_cases; first [lia|eauto]. Qed.

Lemma ram_start_room r : 0 <= r <= 1000 -> room ram_start r.
Proof.
  intros Hr. unfold room. cbn. unfold ram_room, PAGE_SIZE, KERNEL_VIRTUAL_BASE. cbn [ram_start bworld nextHeader nextPage bmem].
  split_and!; try lia; [reflexivity|]. intros x Hx. rewrite put_lookup. bool_cases; first [lia|done].
Qed.

Lemma ram_size : 64 <= 4294967296 /\ 64 mod 2 ^ 4 = 0.
Proof. by split. Qed.

Lemma kernel_readable isKernel context : readable_buffer isKernel context 0xC0000000 32.
Proof.
  intros i n Hi Hn Hs. unfold MemCommitForRead, MemCanRead, MemChecks, u32. destruct (Z.leb_spec 0xC0000000 (0xC0000000 + i)); [|lia].
  rewrite Z.mod_small by lia. apply Z.leb_le. lia.
Qed.

Lemma IoBlockCacheReadBuffer_reads_witness :
  exists st', IoBlockCacheReadBuffer ram_devices ram_ops false (mkMemContext [] 0 1) no_others 32 8192 10 0xC0000000 32 ram_start = Ret (0, st') /\
    bmem st' !! 0xC0000005 = Some 115.
Proof.
  destruct (IoBlockCacheReadBuffer_reads ram_disk ram_devices ram_ops false (mkMemContext [] 0 1) no_others 8192 ram_device_file 4 64
              ram_read ram_write eq_refl eq_refl (ram_device 8192 64) ltac:(lia) ram_size 32 ∅ ram_start 10 0xC0000000 32)
    as (st' & E & t' & _ & Hin & _).
  - exact ram_start_ok.
  - lia.
  - lia.
  - lia.
  - exact ram_start_clear.
  - apply kernel_readable.
  - apply ram_start_room. lia.
  - lia.
  - exists st'. split; [exact E|]. refine (eq_trans (Hin 5 _) _); [lia|]. vm_compute. reflexivity.
Defined.

Lemma IoBlockCacheWriteBuffer_writes_witness :
  exists st', IoBlockCacheWriteBuffer ram_devices ram_ops false (mkMemContext [] 0 1) no_others 32 8192 10 0xC0000000 32 ram_start = Ret (0, st') /\
    ram_disk (bworld st') 15 = 5 /\ ram_disk (bworld st') 42 = 142.
Proof.
  destruct (IoBlockCacheWriteBuffer_writes ram_disk ram_devices ram_ops false (mkMemContext [] 0 1) no_others 8192 ram_device_file 4 64
              ram_read ram_write eq_refl eq_refl eq_refl (ram_device 8192 64) ltac:(lia) ram_size 32 ∅ ram_start 10 0xC0000000 32)
    as (st' & E & t' & _ & Hdisk & _).
  - exact ram_start_ok.
  - lia.
  - lia.
  - lia.
  - exact ram_start_clear.
  - apply ram_start_room. lia.
  - lia.
  - exists st'. split; [exact E|]. split; (refine (eq_trans (Hdisk _) _); vm_compute; reflexivity).
Defined.

Lemma IoBlockCacheReadBuffer_faults_witness :
  exists st', IoBlockCacheReadBuffer ram_devices ram_ops false (mkMemContext [] 0 1) no_others 1 8192 10 4096 32 ram_start = Ret (- EFAULT, st') /\
    forall x, ram_disk (bworld st') x = ram_disk (bworld ram_start) x.
Proof.
  destruct (IoBlockCacheReadBuffer_faults ram_disk ram_devices ram_ops false (mkMemContext [] 0 1) no_others 8192 ram_device_file 4 64
              ram_read ram_write eq_refl eq_refl (ram_device 8192 64) ltac:(lia) ram_size 1 ∅ ram_start 10 4096 32)
    as (t' & st' & E & _ & Hlat).
  - exact ram_start_ok.
  - lia.
  - lia.
  - lia.
  - apply ram_start_room. lia.
  - lia.
  - reflexivity.
  - exists st'. split; [exact E|]. exact (l_disk _ _ _ _ _ _ Hlat).
Defined.

(** The device as a file of devfs. *)
Definition ram_devfs : devfs (bstate ram) :=
  mkDevfs (4096 :: 8192 :: replicate 1022 0) 2 (<[[114] := 8192]> (<[[110] := 4096]> ∅)) (<[8192 := ram_device_file]> (<[4096 := null_device]> ∅)) ram_start.

Lemma ram_devfs_ok : devfs_ok ram_devfs.
Proof.
  apply (reachable_ok (<[8192 := set_devFsINode ram_device_file 0]> (<[4096 := null_device]> ∅)) ram_start).
  eapply rtc_l; [apply (s_register 4096 _ 0); [discriminate|vm_compute; reflexivity]|].
  eapply rtc_l; [apply (s_register 8192 _ 0); [discriminate|vm_compute; reflexivity]|].
  apply rtc_refl.
Qed.

Definition ram_file : IoFile := mkFile 1 10 1 1000 1 0 20.
Definition ram_context : IoContext := mkIoContext (zset (replicate 1024 0) 3 600) (replicate 1024 0) 0 1000 2 1.

Lemma block_file_read_witness :
  exists x, IoRead (fun _ => devfs_file_ops ram_ops (cached_read ram_ops false (mkMemContext [] 0 1) no_others 32)
                               (cached_write ram_ops false (mkMemContext [] 0 1) no_others 32))
    (fun _ _ => true) 3 0xC0000000 32 ram_context (<[600 := ram_file]> ∅) ram_devfs = Ret (0, ram_context, <[600 := ram_file]> ∅, set_drv ram_devfs x) /\
    bmem x !! 0xC0000005 = Some 115.
Proof.
  destruct (block_file_read ram_disk ram_ops false (mkMemContext [] 0 1) no_others 32
              (fun _ => devfs_file_ops ram_ops (cached_read ram_ops false (mkMemContext [] 0 1) no_others 32)
                          (cached_write ram_ops false (mkMemContext [] 0 1) no_others 32))
              (fun _ _ => true) 3 0xC0000000 32 ram_context (<[600 := ram_file]> ∅) ram_devfs 600 ram_file 8192 ram_device_file 4 64
              ram_read ram_write ∅) as (x & E & t' & _ & Hin & _);
    [reflexivity|split_and!; [lia|reflexivity|reflexivity|discriminate|reflexivity|simpl; lia|simpl; lia]|reflexivity|reflexivity|reflexivity
    |exact ram_devfs_ok|reflexivity|discriminate|reflexivity|discriminate|reflexivity|reflexivity|reflexivity|apply ram_device|lia|exact ram_size
    |exact ram_start_ok|simpl; lia|lia|simpl; lia|exact ram_start_clear|apply kernel_readable|apply ram_start_room; lia|lia|].
  exists x. split; [exact E|]. refine (eq_trans (Hin 5 _) _); [lia|]. vm_compute. reflexivity.
Defined.

Lemma IoBlockCacheDestroy_leaks_witness :
  exists st2, IoBlockCacheDestroy 500 ram_start = Ret (true, st2) /\ blocks st2 = ∅.
Proof. exact (IoBlockCacheDestroy_leaks 500 16 ∅ ram_start ram_start eq_refl eq_refl eq_refl). Defined.

(** Block 1 is held by a reader. *)
Definition ram_held : bstate ram := match IoBlockCacheRead ram_devices ram_ops no_others 8192 16 ram_start with Ret (_, _, st) => st | _ => ram_start end.

(** Writing the whole block takes the reader's reference away: the block is
    found without being referenced, and then released. *)
Example full_write_drops_reference :
  exists st, IoBlockCacheWriteBuffer ram_devices ram_ops false (mkMemContext [] 0 1) no_others 2 8192 16 0xC0000000 16 ram_held = Ret (0, st) /\
    bkRefCount <$> blocks ram_held !! 64 = Some 1 /\ bkRefCount <$> blocks st !! 64 = Some 0.
Proof. eexists. split; [vm_compute; reflexivity|]. split; vm_compute; reflexivity. Qed.

(** The cache is destroyed although a block is locked. *)
Example destroy_ignores_locks :
  exists st, IoBlockCacheDestroy 500 ram_held = Ret (true, st) /\ bkRefCount <$> blocks st !! 64 = Some 1.
Proof. eexists. split; vm_compute; reflexivity. Qed.
