(* ===== verification/Log.v ===== *)
(** * Formatted output and the kernel log (src/log.c)

    Characters are their codes. A format string is the list of its characters
    before the terminating NUL. The emit function's result is ignored by the
    source, so formatting is the list of the characters emitted. LogSpec.v
    says what is on the screen after them. *)
From S2P Require Import Prelude.

(** ** Data *)

Definition TO_STRING_LEN : Z := 12.

(** An argument of the variable list: an int, or a string (None for NULL). *)
Inductive arg := AInt (n : Z) | AStr (s : option (list Z)).

(** The per-element variables of DoStringFormat; the flags are separate bits. *)
Record fspec := mkSpec {
  prefix0 : Z; prefix1 : Z; left_align : bool; zero_pad : bool; alternate : bool;
  has_precision : bool; hex_upper : bool; width : Z; precision : Z
}.

Definition spec0 : fspec := mkSpec 0 0 false false false false false 0 1.

Definition set_prefix (s : fspec) (a b : Z) : fspec :=
  mkSpec a b (left_align s) (zero_pad s) (alternate s) (has_precision s) (hex_upper s) (width s) (precision s).
Definition set_left (s : fspec) : fspec :=
  mkSpec (prefix0 s) (prefix1 s) true (zero_pad s) (alternate s) (has_precision s) (hex_upper s) (width s) (precision s).
Definition set_zero (s : fspec) (b : bool) : fspec :=
  mkSpec (prefix0 s) (prefix1 s) (left_align s) b (alternate s) (has_precision s) (hex_upper s) (width s) (precision s).
Definition set_alternate (s : fspec) : fspec :=
  mkSpec (prefix0 s) (prefix1 s) (left_align s) (zero_pad s) true (has_precision s) (hex_upper s) (width s) (precision s).
Definition set_precision (s : fspec) (p : Z) : fspec :=
  mkSpec (prefix0 s) (prefix1 s) (left_align s) (zero_pad s) (alternate s) true (hex_upper s) (width s) p.
Definition set_width (s : fspec) (w : Z) : fspec :=
  mkSpec (prefix0 s) (prefix1 s) (left_align s) (zero_pad s) (alternate s) (has_precision s) (hex_upper s) w (precision s).
Definition set_upper (s : fspec) : fspec :=
  mkSpec (prefix0 s) (prefix1 s) (left_align s) (zero_pad s) (alternate s) (has_precision s) true (width s) (precision s).

(** What the control loop jumps to. *)
Inductive element :=
| Number (s : fspec) (absValue base : Z)
| Text (s : fspec) (rawStr : list Z).

(** ** Numbers in format strings *)

Definition is_digit (c : Z) : bool := (48 <=? c) && (c <=? 57).

Fixpoint number_loop (num : Z) (format : list Z) : Z * list Z :=
  match format with
  | c :: rest =>
      if is_digit c then number_loop (u32 (u32 (u32 (Z.shiftl num 3) + u32 (Z.shiftl num 1)) + c - 48)) rest
      else (num, format)
  | [] => (num, [])
  end.

Definition stringToNumber (format : list Z) : Z * list Z := number_loop 0 format.

(** ** The control loop *)

(** va_arg of an int. *)
Definition arg_int (args : list arg) : outcome (Z * list arg) :=
  match args with AInt n :: rest => Ret (n, rest) | _ => Fault end.

Definition arg_str (args : list arg) : outcome (option (list Z) * list arg) :=
  match args with AStr s :: rest => Ret (s, rest) | _ => Fault end.

Definition null_text : list Z := [40; 110; 117; 108; 108; 41].

(** 0x or 0 before a non-zero number in the alternate form. *)
Definition alt_prefix (s : fspec) (absValue a b : Z) : fspec :=
  if negb (absValue =? 0) && alternate s then set_prefix s a b else set_prefix s 0 (prefix1 s).

(** case 'd': the sign and the absolute value (INT_MIN included). *)
Definition signed_element (s : fspec) (n : Z) : element :=
  if s32 n <? 0 then
    Number (set_prefix s 45 (prefix1 s))
      (if s32 n =? -2147483648 then u32 (2147483647 + 1) else u32 (- s32 n)) 10
  else Number s (u32 (s32 n)) 10.

(** The conversion characters; [None]: an invalid character, which ends the
    formatting. *)
Definition conversion (c : Z) (s : fspec) (args : list arg) : outcome (option (element * list arg)) :=
  if (c =? 100) || (c =? 105) then '(n, r) ← arg_int args; Ret (Some (signed_element s n, r))
  else if c =? 117 then '(n, r) ← arg_int args; Ret (Some (Number (set_prefix s 0 (prefix1 s)) (u32 n) 10, r))
  else if c =? 111 then '(n, r) ← arg_int args;
    Ret (Some (Number (if negb (u32 n =? 0) && alternate s then set_prefix s 48 (prefix1 s) else set_prefix s 0 (prefix1 s)) (u32 n) 8, r))
  else if c =? 112 then '(n, r) ← arg_int args;
    Ret (Some (Number (mkSpec 48 120 (left_align s) (zero_pad s) (alternate s) (has_precision s) true 0 8) (u32 n) 16, r))
  else if c =? 120 then '(n, r) ← arg_int args; Ret (Some (Number (alt_prefix s (u32 n) 48 120) (u32 n) 16, r))
  else if c =? 88 then '(n, r) ← arg_int args; Ret (Some (Number (alt_prefix (set_upper s) (u32 n) 48 88) (u32 n) 16, r))
  else if c =? 115 then '(str, r) ← arg_str args;
    Ret (Some (Text s (match str with
                       | None => null_text
                       | Some l => if has_precision s then take (Z.to_nat (precision s)) l else l
                       end), r))
  else if c =? 99 then '(n, r) ← arg_int args; Ret (Some (Text s [s8 n], r))
  else if c =? 37 then Ret (Some (Text s [37], args))
  else Ret None.

(** for(;;) switch( *format++ ): flags, width and precision up to the
    conversion character. *)
Fixpoint control_loop (fuel : nat) (s : fspec) (format : list Z) (args : list arg)
  : outcome (option (element * list Z * list arg)) :=
  match fuel with
  | O => NoFuel
  | S f =>
      match format with
      | [] => Ret None
      | c :: rest =>
          if c =? 43 then control_loop f (set_prefix s 43 (prefix1 s)) rest args
          else if c =? 32 then control_loop f (if prefix0 s =? 0 then set_prefix s 32 (prefix1 s) else s) rest args
          else if c =? 35 then control_loop f (set_alternate s) rest args
          else if c =? 45 then control_loop f (set_left s) rest args
          else if c =? 48 then control_loop f (set_zero s true) rest args
          else if c =? 46 then
            let '(n, rest') := stringToNumber rest in control_loop f (set_precision (set_zero s false) n) rest' args
          else if (49 <=? c) && (c <=? 57) then
            let '(n, rest') := stringToNumber format in control_loop f (set_width s n) rest' args
          else
            e ← conversion c s args;
            Ret (match e with Some (el, args') => Some (el, rest, args') | None => None end)
      end
  end.

(** ** Emitting an element *)

Definition digit_char (s : fspec) (d : Z) : Z :=
  if 10 <=? d then (if hex_upper s then 65 else 97) - 10 + d else 48 + d.

(** while(absValue > 0): the digits are written backwards from the end of the
    buffer; the result is the string from rawStr on. *)
Fixpoint digits_loop (fuel : nat) (s : fspec) (absValue base : Z) (rawStr : list Z) : outcome (list Z) :=
  if 0 <? absValue then
    match fuel with
    | O => NoFuel
    | S f => digits_loop f s (absValue / base) base (digit_char s (absValue mod base) :: rawStr)
    end
  else Ret rawStr.

(** Enough turns for 32 bits in any base from 2. *)
Definition digits (s : fspec) (absValue base : Z) : outcome (list Z) := digits_loop 32 s absValue base [].

Definition pad (n c : Z) : list Z := replicate (Z.to_nat n) c.

(** stringHandler: padding, prefix, zeros, string, padding. [inner] is the
    length the source calls precision here. *)
Definition emit_string (s : fspec) (extraZeros inner : Z) (rawStr : list Z) : list Z :=
  let spaces := s32 (width s - inner) in
  (if left_align s then [] else pad spaces 32) ++
  (if prefix0 s =? 0 then [] else prefix0 s :: (if prefix1 s =? 0 then [] else [prefix1 s])) ++
  pad extraZeros 48 ++ rawStr ++
  (if left_align s then pad spaces 32 else []).

Definition emit (e : element) : outcome (list Z) :=
  match e with
  | Text s rawStr => Ret (emit_string s 0 (zlen rawStr) rawStr)
  | Number s absValue base =>
      rawStr ← digits s absValue base;
      let prefixLen := if prefix0 s =? 0 then 0 else if prefix1 s =? 0 then 1 else 2 in
      let extraZeros :=
        if zero_pad s && negb (left_align s) then s32 (width s - zlen rawStr - prefixLen)
        else s32 (precision s - zlen rawStr) in
      let extraZeros := if extraZeros <? 0 then 0 else extraZeros in
      Ret (emit_string s extraZeros (u32 (zlen rawStr + extraZeros + prefixLen)) rawStr)
  end.

Fixpoint DoStringFormat (fuel : nat) (format : list Z) (args : list arg) : outcome (list Z) :=
  match format with
  | [] => Ret []
  | c :: rest =>
      match fuel with
      | O => NoFuel
      | S f =>
          if c =? 37 then
            r ← control_loop f spec0 rest args;
            match r with
            | None => Ret []
            | Some (e, rest', args') =>
                out ← emit e;
                out' ← DoStringFormat f rest' args';
                Ret (out ++ out')
            end
          else out' ← DoStringFormat f rest args; Ret (c :: out')
      end
  end.

(** ** Printing into a buffer *)

(** The bytes written, with their addresses; [stale] is what strBuffer holds
    from an earlier call. *)
Fixpoint store_at (a : Z) (l : list Z) : list (Z * Z) :=
  match l with [] => [] | c :: l' => (a, c) :: store_at (u32 (a + 1)) l' end.

Definition SPrintFVarArgs (fuel : nat) (stale buffer bufSize : Z) (format : list Z) (args : list arg)
  : outcome (list (Z * Z)) :=
  if 0 <? bufSize then
    if 1 <? bufSize then out ← DoStringFormat fuel format args; Ret (store_at buffer (out ++ [0]))
    else Ret [(stale, 0)]
  else Ret [].

(** ** The screen *)

Definition SCREEN_BASE : Z := 0xC00B8000.
Definition SCREEN_END : Z := 0xC00B8FA0.

(** The new cursor and the bytes stored. *)
Definition PrintLogEmitChar (nextPos c : Z) : Z * list (Z * Z) :=
  let '(p, ws) :=
    if c =? 10 then (u32 (nextPos + (160 - u32 (nextPos - SCREEN_BASE) mod 160)), [])
    else (u32 (nextPos + 2), [(nextPos, c); (u32 (nextPos + 1), 7)]) in
  (if SCREEN_END <=? p then SCREEN_BASE else p, ws).

Fixpoint emit_all (nextPos : Z) (l : list Z) : Z * list (Z * Z) :=
  match l with
  | [] => (nextPos, [])
  | c :: l' =>
      let '(p, ws) := PrintLogEmitChar nextPos c in
      let '(p', ws') := emit_all p l' in (p', ws ++ ws')
  end.

(** Log levels; a level out of range counts as Notice. *)
Definition level_names : list (list Z) :=
  [[80; 97; 110; 105; 99]; [67; 114; 105; 116; 105; 99; 97; 108]; [69; 114; 114; 111; 114];
   [87; 97; 114; 110; 105; 110; 103]; [78; 111; 116; 105; 99; 101]; [73; 110; 102; 111]; [68; 101; 98; 117; 103]].

Definition PrintLogVarArgs (fuel : nat) (nextPos level : Z) (format : list Z) (args : list arg)
  : outcome (Z * list (Z * Z)) :=
  let level := if (level <? 0) || (6 <? level) then 4 else level in
  name ← or_fault (zget level_names level);
  out ← DoStringFormat fuel format args;
  Ret (emit_all nextPos (name ++ [58; 32] ++ out ++ [10])).

(** ** The stack trace of a panic *)

Definition RawPrint (fuel : nat) (nextPos : Z) (format : list Z) (args : list arg) : outcome (Z * list (Z * Z)) :=
  out ← DoStringFormat fuel format args; Ret (emit_all nextPos out).

Section Trace.
(** The words of the stack. *)
Context (load : Z -> option Z).
(** Fuel of the formatting. *)
Context (pf : nat).

Definition call_stack : list Z := [67; 97; 108; 108; 32; 83; 116; 97; 99; 107; 58; 10].
Definition frame_format : list Z := [32; 37; 112; 10].

(** while(ebp < stackBase && ebp >= firstEbp) *)
Fixpoint trace_loop (fuel : nat) (firstEbp stackBase ebp nextPos : Z) : outcome (Z * list (Z * Z)) :=
  match fuel with
  | O => NoFuel
  | S f =>
      if (ebp <? stackBase) && (firstEbp <=? ebp) then
        ret ← or_fault (load (u32 (ebp + 4)));
        '(p, ws) ← RawPrint pf nextPos frame_format [AInt ret];
        next ← or_fault (load ebp);
        '(p', ws') ← trace_loop f firstEbp stackBase next p;
        Ret (p', ws ++ ws')
      else Ret (nextPos, [])
  end.

(** [kStackBase] is 0 for the init thread, which runs on the startup stack. *)
Definition PrintStackTrace (fuel : nat) (firstEbp kStackBase startupStackTop nextPos : Z) : outcome (Z * list (Z * Z)) :=
  '(p, ws) ← RawPrint pf nextPos call_stack [];
  let stackBase := if kStackBase =? 0 then startupStackTop else u32 (kStackBase + 0x1000) in
  '(p', ws') ← trace_loop fuel firstEbp stackBase firstEbp p;
  Ret (p', ws ++ ws').

(** What a panic puts on the screen before the processor is halted for good:
    the message at level Fatal and the stack trace. *)
Definition Fatal : Z := 0.
Definition panic_output (fuel : nat) (firstEbp kStackBase startupStackTop nextPos : Z) (format : list Z) (args : list arg)
  : outcome (Z * list (Z * Z)) :=
  '(p, ws) ← PrintLogVarArgs pf nextPos Fatal format args;
  '(p', ws') ← PrintStackTrace fuel firstEbp kStackBase startupStackTop p;
  Ret (p', ws ++ ws').
End Trace.

(** ** Numbers *)

(** The value of a string of decimal digits, after [k]. *)
Definition dec_value (k : Z) (ds : list Z) : Z := foldl (fun a c => a * 10 + (c - 48)) k ds.

Lemma dec_value_ge ds : forall k, 0 <= k -> Forall (fun c => is_digit c = true) ds -> k <= dec_value k ds.
Proof.
  induction ds as [|c ds IH]; intros k Hk Hd; simpl; [lia|]. apply Forall_cons in Hd as [Hc Hd].
  unfold is_digit in Hc. apply andb_true_iff in Hc as [H1%Z.leb_le H2%Z.leb_le].
  etransitivity; [|apply IH; [lia|done]]. lia.
Qed.

Lemma number_loop_digits ds : forall k rest,
  0 <= k -> Forall (fun c => is_digit c = true) ds -> dec_value k ds < 4294967296 ->
  match rest with c :: _ => is_digit c = false | [] => True end ->
  number_loop k (ds ++ rest) = (dec_value k ds, rest).
Proof.
  induction ds as [|c ds IH]; intros k rest Hk Hd Hv Hr; simpl.
  - destruct rest as [|c rest]; [done|]. simpl. by rewrite Hr.
  - apply Forall_cons in Hd as [Hc Hd]. rewrite Hc. unfold is_digit in Hc.
    apply andb_true_iff in Hc as [H1%Z.leb_le H2%Z.leb_le].
    simpl in Hv. pose proof (dec_value_ge ds (k * 10 + (c - 48)) ltac:(lia) Hd).
    replace (u32 (u32 (u32 (Z.shiftl k 3) + u32 (Z.shiftl k 1)) + c - 48)) with (k * 10 + (c - 48)).
    + apply IH; [lia|done|done|done].
    + rewrite !Z.shiftl_mul_pow2 by lia. change (2 ^ 3) with 8. change (2 ^ 1) with 2. unfold u32. zlia.
Qed.

(** The digits of [v]: their number, and their value in base ten. *)
Lemma digits_loop_spec fuel : forall s v base acc n,
  2 <= base -> 0 <= v < base ^ Z.of_nat n -> (n <= fuel)%nat ->
  exists ds, digits_loop fuel s v base acc = Ret (ds ++ acc) /\ (length ds <= n)%nat /\
    (base = 10 -> dec_value 0 ds = v /\ Forall (fun c => is_digit c = true) ds) /\ (v = 0 <-> ds = []).
Proof.
  induction fuel as [|fuel IH]; intros s v base acc n Hb Hv Hf; cbn [digits_loop].
  - assert (n = 0%nat) as -> by lia. simpl in Hv. destruct (Z.ltb_spec 0 v); [lia|].
    exists []. split_and!; [done|simpl; lia| |]; [intros; split; [simpl; lia|done]|split; [done|lia]].
  - destruct (Z.ltb_spec 0 v) as [Hpos|]; [|exists []; split_and!; [done|simpl; lia| |]; [intros; split; [simpl; lia|done]|split; [done|lia]]].
    destruct n as [|n]; [simpl in Hv; lia|].
    assert (0 <= v / base < base ^ Z.of_nat n) as Hdiv.
    { split; [apply Z.div_pos; lia|]. apply Z.div_lt_upper_bound; [lia|].
      rewrite Nat2Z.inj_succ, Z.pow_succ_r in Hv by lia. lia. }
    destruct (IH s (v / base) base (digit_char s (v mod base) :: acc) n) as (ds & -> & Hlen & Hdec & _); [done|done|lia|].
    exists (ds ++ [digit_char s (v mod base)]). split_and!.
    + by rewrite <- app_assoc.
    + rewrite length_app. simpl. lia.
    + intros ->. destruct (Hdec eq_refl) as [Hval Hall]. pose proof (Z.mod_pos_bound v 10 ltac:(lia)) as Hm.
      assert (digit_char s (v mod 10) = 48 + v mod 10) as Hc by (unfold digit_char; destruct (Z.leb_spec 10 (v mod 10)); lia).
      rewrite Hc. split.
      * unfold dec_value in *. rewrite foldl_app. simpl. rewrite Hval. zlia.
      * apply Forall_app. split; [done|]. apply Forall_singleton. unfold is_digit.
        destruct (Z.leb_spec 48 (48 + v mod 10)), (Z.leb_spec (48 + v mod 10) 57); done || lia.
    + split; [lia|]. intros []%app_nil. done.
Qed.

(** In the bases used (8, 10 and 16) a 32-bit number has at most eleven
    digits, so it fits the twelve-byte buffer it is built in, and the decimal
    digits read back with stringToNumber give the number again. *)
Theorem number_digits_roundtrip s v base rest :
  0 < v < 4294967296 -> 8 <= base ->
  match rest with c :: _ => is_digit c = false | [] => True end ->
  exists ds, digits s v base = Ret ds /\ zlen ds <= TO_STRING_LEN - 1 /\
    (base = 10 -> stringToNumber (ds ++ rest) = (v, rest)).
Proof.
  intros Hv Hb Hr. assert (v < base ^ 11).
  { apply Z.lt_le_trans with (8 ^ 11); [change (8 ^ 11) with 8589934592; lia|]. apply Z.pow_le_mono_l. lia. }
  destruct (digits_loop_spec 32 s v base [] 11) as (ds & E & Hlen & Hdec & _); [lia|split; [lia|done]|lia|].
  rewrite app_nil_r in E. exists ds. split_and!; [done|unfold zlen, TO_STRING_LEN; lia|].
  intros ->. destruct (Hdec eq_refl) as [Hval Hall]. unfold stringToNumber.
  rewrite number_loop_digits; [by rewrite Hval|lia|done|lia|done].
Qed.

Lemma number_digits_roundtrip_witness :
  exists ds, digits spec0 4294967295 10 = Ret ds /\ stringToNumber (ds ++ [100]) = (4294967295, [100]).
Proof.
  destruct (number_digits_roundtrip spec0 4294967295 10 [100]) as (ds & E & _ & R).
  - lia.
  - lia.
  - reflexivity.
  - exists ds. split; [exact E|exact (R eq_refl)].
Defined.

(** "%d" prints every int, INT_MIN included, as an optional minus sign
    and decimal digits of its absolute value, at least one. *)
Theorem print_int n :
  -2147483648 <= n < 2147483648 ->
  exists ds, DoStringFormat 3 [37; 100] [AInt n] = Ret ((if n <? 0 then [45] else []) ++ ds) /\
    ds <> [] /\ stringToNumber ds = (Z.abs n, []).
Proof.
  intros Hn. change (DoStringFormat 3 [37; 100] [AInt n]) with (out ← emit (signed_element spec0 n); Ret (out ++ [])).
  assert (s32 n = n) as Hs by (unfold s32; rewrite Z.mod_small; lia).
  assert (signed_element spec0 n = Number (if n <? 0 then set_prefix spec0 45 0 else spec0) (Z.abs n) 10) as Hel.
  { unfold signed_element. rewrite Hs. destruct (Z.ltb_spec n 0).
    - destruct (Z.eqb_spec n (-2147483648)) as [->|]; [done|]. f_equal. unfold u32. rewrite Z.mod_small; lia.
    - f_equal. unfold u32. rewrite Z.mod_small; lia. }
  rewrite Hel. unfold emit, digits.
  destruct (digits_loop_spec 32 (if n <? 0 then set_prefix spec0 45 0 else spec0) (Z.abs n) 10 [] 11)
    as (ds & E & Hlen & Hdec & Hnil); [lia|split; [lia|change (10 ^ Z.of_nat 11) with 100000000000; lia]|lia|].
  rewrite app_nil_r in E. rewrite E. cbn [mbind outcome_bind].
  destruct (Hdec eq_refl) as [Hval Hall].
  assert (stringToNumber (ds ++ []) = (Z.abs n, [])) as Hback
    by (unfold stringToNumber; rewrite number_loop_digits; [by rewrite Hval|lia|done|lia|done]).
  rewrite app_nil_r in Hback. destruct ds as [|c ds].
  - assert (n = 0) as -> by (destruct Hnil as [_ Hnil]; specialize (Hnil eq_refl); lia).
    exists [48]. by vm_compute.
  - exists (c :: ds). split_and!; [|done|done].
    assert (1 <= zlen (c :: ds) <= 11) as HL by (unfold zlen; cbn [length] in *; lia).
    clear E Hdec Hnil Hval Hall Hback Hlen Hel Hs. set (raw := c :: ds) in *. set (L := zlen raw) in *.
    assert (pad 0 48 = []) as Hz by done.
    assert (forall k, -12 <= k <= 0 -> pad (s32 k) 32 = []) as Hsp.
    { intros k Hk. unfold pad, s32. rewrite Z.mod_small by lia. by replace (Z.to_nat _) with 0%nat by lia. }
    assert ((if s32 (1 - L) <? 0 then 0 else s32 (1 - L)) = 0) as Hx.
    { unfold s32. rewrite Z.mod_small by lia. destruct (Z.ltb_spec (1 - L + 2147483648 - 2147483648) 0); lia. }
    assert (u32 (L + 0 + 1) = L + 1 /\ u32 (L + 0 + 0) = L) as [U1 U2] by (unfold u32; rewrite !Z.mod_small; lia).
    unfold emit_string. f_equal. rewrite app_nil_r.
    destruct (n <? 0); cbn [set_prefix spec0 prefix0 prefix1 zero_pad left_align precision width andb negb Z.eqb];
      rewrite Hx, ?U1, ?U2, Hsp, Hz, app_nil_r by lia; done.
Qed.

Lemma print_int_witness :
  exists ds, DoStringFormat 3 [37; 100] [AInt (-2147483648)] = Ret (45 :: ds) /\ stringToNumber ds = (2147483648, []).
Proof.
  destruct (print_int (-2147483648)) as (ds & E & _ & R).
  - lia.
  - exists ds. split; [exact E|exact R].
Defined.

(** ** Termination *)

Lemma number_loop_length format : forall k n rest, number_loop k format = (n, rest) -> (length rest <= length format)%nat.
Proof.
  induction format as [|c format IH]; intros k n rest; simpl; [by intros [= _ <-]|].
  destruct (is_digit c); [|by intros [= _ <-]]. intros H%IH. lia.
Qed.

Lemma control_loop_total fuel : forall s format args,
  (length format < fuel)%nat ->
  control_loop fuel s format args <> NoFuel /\
  forall e rest args', control_loop fuel s format args = Ret (Some (e, rest, args')) -> (length rest < length format)%nat.
Proof.
  induction fuel as [|fuel IH]; intros s format args Hf; [lia|]. cbn [control_loop].
  destruct format as [|c rest]; [split; done|]. simpl in Hf.
  assert (forall s' rest', (length rest' <= length rest)%nat ->
    control_loop fuel s' rest' args <> NoFuel /\
    forall e r args', control_loop fuel s' rest' args = Ret (Some (e, r, args')) -> (length r < length (c :: rest))%nat) as Hrec.
  { intros s' rest' Hr. destruct (IH s' rest' args) as [H1 H2]; [lia|]. split; [done|].
    intros e r args' H. specialize (H2 _ _ _ H). simpl. lia. }
  destruct (c =? 43); [by apply Hrec|]. destruct (c =? 32); [by apply Hrec|]. destruct (c =? 35); [by apply Hrec|].
  destruct (c =? 45); [by apply Hrec|]. destruct (c =? 48); [by apply Hrec|]. destruct (c =? 46).
  { destruct (stringToNumber rest) as [n rest'] eqn:E. apply Hrec. by eapply number_loop_length. }
  destruct (Z.leb_spec 49 c); cbn [andb].
  1: destruct (Z.leb_spec c 57).
  1: { destruct (stringToNumber (c :: rest)) as [n rest'] eqn:E. apply Hrec. unfold stringToNumber in E. cbn [number_loop] in E.
       assert (is_digit c = true) as Hd by (unfold is_digit; destruct (Z.leb_spec 48 c), (Z.leb_spec c 57); done || lia).
       rewrite Hd in E. by eapply number_loop_length. }
  all: assert (conversion c s args <> NoFuel) as Hc
    by (unfold conversion, arg_int, arg_str; destruct args as [|[]]; repeat case_match; done).
  all: destruct (conversion c s args) as [[[el args0]|]| | |]; simpl; [|done|done|done|by destruct Hc].
  all: split; [done|]; intros e r args' [= _ <- _]; lia.
Qed.

(** Values and bases of an element are those of 32-bit numbers. *)
Definition element_ok (e : element) : Prop :=
  match e with Number _ v base => 0 <= v < 4294967296 /\ 8 <= base | Text _ _ => True end.

Lemma conversion_ok c s args e r : conversion c s args = Ret (Some (e, r)) -> element_ok e.
Proof.
  assert (forall x, 0 <= u32 x < 4294967296) as Hu by (intros; apply Z.mod_pos_bound; lia).
  assert (forall n, element_ok (signed_element s n)) as Hs.
  { intros n. unfold signed_element. destruct (s32 n <? 0); [destruct (_ =? _)|]; simpl; split; try lia; apply Hu. }
  unfold conversion, arg_int, arg_str.
  destruct args as [|[n|str] rest]; simpl.
  all: repeat match goal with |- context [if ?b then _ else _] => destruct b end; simpl; intros H; inversion H; subst; simpl; auto with lia.
Qed.

Lemma control_loop_ok fuel : forall s format args e rest args',
  control_loop fuel s format args = Ret (Some (e, rest, args')) -> element_ok e.
Proof.
  induction fuel as [|fuel IH]; intros s format args e rest args'; cbn [control_loop]; [done|].
  destruct format as [|c fmt]; [done|].
  destruct (c =? 43); [apply IH|]. destruct (c =? 32); [apply IH|]. destruct (c =? 35); [apply IH|].
  destruct (c =? 45); [apply IH|]. destruct (c =? 48); [apply IH|].
  destruct (c =? 46); [destruct (stringToNumber fmt); apply IH|].
  destruct (_ && _); [destruct (stringToNumber (c :: fmt)); apply IH|].
  destruct (conversion c s args) as [[[el args0]|]| | |] eqn:E; simpl; try done.
  intros [= <- _ _]. by eapply conversion_ok.
Qed.

Lemma emit_total e : element_ok e -> exists out, emit e = Ret out.
Proof.
  destruct e as [s v base|s l]; simpl; [|eauto]. intros [Hv Hb]. unfold digits.
  assert (v < base ^ 11).
  { apply Z.lt_le_trans with (8 ^ 11); [change (8 ^ 11) with 8589934592; lia|]. apply Z.pow_le_mono_l. lia. }
  destruct (digits_loop_spec 32 s v base [] 11) as (ds & -> & _); [lia|split; [lia|done]|lia|]. simpl. eauto.
Qed.

(** Formatting terminates on every format string: with as much fuel as
    the string has characters and one more, DoStringFormat never runs out,
    whatever the arguments. *)
Theorem DoStringFormat_terminates fuel format args :
  (length format < fuel)%nat -> DoStringFormat fuel format args <> NoFuel.
Proof.
  revert format args. induction fuel as [|fuel IH]; intros format args Hf; [lia|].
  destruct format as [|c rest]; [done|]. simpl in Hf. cbn [DoStringFormat]. destruct (c =? 37).
  - destruct (control_loop_total fuel spec0 rest args) as [H1 H2]; [lia|].
    destruct (control_loop fuel spec0 rest args) as [[[[e rest'] args']|]| | |] eqn:E; simpl; try done.
    specialize (H2 _ _ _ eq_refl). destruct (emit_total e) as [out ->]; [by eapply control_loop_ok|]. simpl.
    specialize (IH rest' args' ltac:(lia)). by destruct (DoStringFormat fuel rest' args').
  - specialize (IH rest args ltac:(lia)). by destruct (DoStringFormat fuel rest args).
Qed.

Lemma DoStringFormat_terminates_witness : DoStringFormat 7 [37; 48; 56; 120; 10; 37] [AInt 255] <> NoFuel.
Proof. apply (DoStringFormat_terminates 7). simpl. lia. Defined.

(** ** The screen *)

Definition on_screen (p : Z) : Prop := SCREEN_BASE <= p < SCREEN_END /\ (p - SCREEN_BASE) mod 2 = 0.

Lemma emit_char_on_screen p c : on_screen p ->
  on_screen (fst (PrintLogEmitChar p c)) /\
  Forall (fun w => SCREEN_BASE <= fst w < SCREEN_END) (snd (PrintLogEmitChar p c)).
Proof.
  unfold on_screen, PrintLogEmitChar, SCREEN_BASE, SCREEN_END. intros [H1 H2].
  assert (u32 (p - 3221979136) = p - 3221979136) as Hu by (apply Z.mod_small; lia).
  destruct (c =? 10); cbn [fst snd].
  - rewrite Hu. assert (u32 (p + (160 - (p - 3221979136) mod 160)) = p + (160 - (p - 3221979136) mod 160)) as ->
      by (apply Z.mod_small; zlia).
    destruct (Z.leb_spec 3221983136 (p + (160 - (p - 3221979136) mod 160))); split; try done; zlia.
  - assert (u32 (p + 2) = p + 2) as -> by (apply Z.mod_small; lia).
    assert (u32 (p + 1) = p + 1) as -> by (apply Z.mod_small; lia). split.
    + destruct (Z.leb_spec 3221983136 (p + 2)); zlia.
    + assert (p + 1 < 3221983136) by zlia. repeat (apply Forall_cons; split); simpl; done || lia.
Qed.

(** Whatever text is logged, from a cursor inside the text screen every
    byte stored is inside the 4000 bytes of video memory, and the cursor ends
    on a character cell inside it. *)
Theorem log_stays_on_screen p l :
  on_screen p -> on_screen (fst (emit_all p l)) /\
    Forall (fun w => SCREEN_BASE <= fst w < SCREEN_END) (snd (emit_all p l)).
Proof.
  revert p. induction l as [|c l IH]; intros p Hp; simpl; [done|].
  pose proof (emit_char_on_screen p c Hp) as [Hq Hw]. destruct (PrintLogEmitChar p c) as [q ws]. simpl in *.
  destruct (IH q Hq) as [H1 H2]. destruct (emit_all q l) as [r ws']. simpl in *. split; [done|]. by apply Forall_app.
Qed.

Lemma log_stays_on_screen_witness : on_screen (fst (emit_all (SCREEN_BASE + 3998) [65; 10; 66])).
Proof.
  refine (proj1 (log_stays_on_screen (SCREEN_BASE + 3998) [65; 10; 66] _)).
  split; [unfold SCREEN_BASE, SCREEN_END; lia|reflexivity].
Defined.

(** ** Buffers *)

Lemma store_at_length a l : length (store_at a l) = length l.
Proof. revert a. induction l as [|c l IH]; intros a; simpl; [done|]. by rewrite IH. Qed.

(** SPrintF ignores the size of its buffer once it is above one: the
    bytes it stores are as many as the text has, and the terminator, so a
    longer text runs over the end. *)
Theorem SPrintF_overruns fuel stale buffer bufSize format args out :
  1 < bufSize -> DoStringFormat fuel format args = Ret out ->
  exists ws, SPrintFVarArgs fuel stale buffer bufSize format args = Ret ws /\ zlen ws = zlen out + 1.
Proof.
  intros Hb Ho. unfold SPrintFVarArgs. destruct (Z.ltb_spec 0 bufSize), (Z.ltb_spec 1 bufSize); try lia.
  rewrite Ho. simpl. eexists. split; [done|]. unfold zlen. rewrite store_at_length, length_app. simpl. lia.
Qed.

Lemma SPrintF_overruns_witness :
  exists ws, SPrintFVarArgs 10 0 0x1000 2 [65; 66; 67] [] = Ret ws /\ zlen ws = 4.
Proof.
  refine (SPrintF_overruns 10 0 0x1000 2 [65; 66; 67] [] [65; 66; 67] _ _).
  - lia.
  - reflexivity.
Defined.

(** ** Stack traces *)

Lemma emit_all_app p l l' :
  emit_all p (l ++ l') =
    let '(q, ws) := emit_all p l in let '(r, ws') := emit_all q l' in (r, ws ++ ws').
Proof.
  revert p. induction l as [|c l IH]; intros p; simpl; [by destruct (emit_all p l')|].
  destruct (PrintLogEmitChar p c) as [q ws]. rewrite IH. destruct (emit_all q l) as [r ws']. destruct (emit_all r l') as [t ws2].
  by rewrite app_assoc.
Qed.

(** The frames of a stack: saved base pointers that go up until one leaves the
    stack, with the return address above each. *)
Fixpoint frames (load : Z -> option Z) (firstEbp stackBase ebp : Z) (rets : list Z) : Prop :=
  match rets with
  | [] => stackBase <= ebp \/ ebp < firstEbp
  | r :: rets' =>
      firstEbp <= ebp < stackBase /\ load (u32 (ebp + 4)) = Some r /\
      exists next, load ebp = Some next /\ frames load firstEbp stackBase next rets'
  end.

(** The line of a return address. *)
Definition frame_line (pf : nat) (r : Z) (line : list Z) : Prop := DoStringFormat pf frame_format [AInt r] = Ret line.

Lemma trace_loop_prints load pf firstEbp stackBase rets lines : Forall2 (frame_line pf) rets lines ->
  forall fuel ebp p, frames load firstEbp stackBase ebp rets -> (length rets < fuel)%nat ->
  trace_loop load pf fuel firstEbp stackBase ebp p = Ret (emit_all p (concat lines)).
Proof.
  induction 1 as [|r line rets lines Hl _ IH]; intros fuel ebp p Hfr Hf; (destruct fuel as [|f]; [simpl in Hf; lia|]); cbn [trace_loop].
  - simpl in Hfr. destruct (Z.ltb_spec ebp stackBase), (Z.leb_spec firstEbp ebp); simpl; try done; lia.
  - destruct Hfr as ([H1 H2] & Hr & next & Hn & Hfr). destruct (Z.ltb_spec ebp stackBase); [|lia]. destruct (Z.leb_spec firstEbp ebp); [|lia].
    cbn [andb]. rewrite Hr. cbn [or_fault mbind outcome_bind]. unfold RawPrint. rewrite Hl. cbn [mbind outcome_bind concat]. rewrite emit_all_app.
    destruct (emit_all p line) as [q ws]. rewrite Hn. cbn [or_fault mbind outcome_bind]. rewrite (IH f next q Hfr) by (simpl in Hf; lia).
    cbn [mbind outcome_bind]. by destruct (emit_all q (concat lines)).
Qed.

(** A panic prints the return addresses of the frames of its stack, innermost
    first, one on a line, within one turn more than there are frames. *)
Theorem PrintStackTrace_prints load pf fuel firstEbp kStackBase startupStackTop p rets lines :
  (12 <= pf)%nat -> (length rets < fuel)%nat -> Forall2 (frame_line pf) rets lines ->
  frames load firstEbp (if kStackBase =? 0 then startupStackTop else u32 (kStackBase + 0x1000)) firstEbp rets ->
  PrintStackTrace load pf fuel firstEbp kStackBase startupStackTop p = Ret (emit_all p (call_stack ++ concat lines)).
Proof.
  intros Hpf Hf Hl Hfr. unfold PrintStackTrace, RawPrint. cbv zeta.
  assert (DoStringFormat pf call_stack [] = Ret call_stack) as ->.
  { do 12 (destruct pf as [|pf]; [lia|]). destruct pf; reflexivity. }
  cbn [mbind outcome_bind]. rewrite emit_all_app. destruct (emit_all p call_stack) as [q ws].
  rewrite (trace_loop_prints load pf _ _ rets lines Hl fuel _ q Hfr Hf). cbn [mbind outcome_bind]. by destruct (emit_all q (concat lines)).
Qed.

(** A frame whose saved base pointer is itself never ends the trace. *)
Lemma trace_loop_cycle load pf fuel firstEbp stackBase ebp p r :
  firstEbp <= ebp < stackBase -> load ebp = Some ebp -> load (u32 (ebp + 4)) = Some r ->
  forall out, trace_loop load pf fuel firstEbp stackBase ebp p <> Ret out.
Proof.
  intros He Hl Hr. revert p. induction fuel as [|f IH]; intros p out; [done|]. cbn [trace_loop].
  destruct (Z.ltb_spec ebp stackBase); [|lia]. destruct (Z.leb_spec firstEbp ebp); [|lia]. cbn [andb]. rewrite Hr, Hl.
  intros Hx. ret_inv. simplify_eq. by eapply IH.
Qed.

(** Two frames, on a stack that ends at 0x2000. *)
Lemma PrintStackTrace_prints_witness :
  exists out, PrintStackTrace (fun a => if a =? 0x1F00 then Some 0x1F80 else if a =? 0x1F04 then Some 0xC0100010
      else if a =? 0x1F80 then Some 0 else if a =? 0x1F84 then Some 0xC0100020 else None)
    12 3 0x1F00 0x1000 0 SCREEN_BASE = Ret out.
Proof.
  eexists. apply (PrintStackTrace_prints _ 12 3 0x1F00 0x1000 0 SCREEN_BASE [0xC0100010; 0xC0100020]
    [[32; 48; 120; 67; 48; 49; 48; 48; 48; 49; 48; 10]; [32; 48; 120; 67; 48; 49; 48; 48; 48; 50; 48; 10]]).
  - lia.
  - simpl. lia.
  - repeat constructor; vm_compute; reflexivity.
  - simpl. split; [vm_compute; split; [discriminate|reflexivity]|]. split; [reflexivity|]. eexists. split; [reflexivity|].
    split; [vm_compute; split; [discriminate|reflexivity]|]. split; [reflexivity|]. eexists. split; [reflexivity|]. right. lia.
Defined.
