(* ===== verification/LogSpec.v ===== *)
(** * What is on the screen (src/log.c)

    A reference for the text screen (25 lines of 80 cells, typed on like a
    teleprinter that starts again at the top) and for the text of a message
    with numbers and pointers in it; a panic types its message and the return
    addresses of the stack on that screen. *)
From S2P Require Import Prelude Log.

(** ** The screen *)

(** The cursor's line and column, and the character and attribute of every cell. *)
Record screen := mkScreen { row : Z; col : Z; cells : Z -> Z -> Z * Z }.

(** The cell of a line and column in the video memory. *)
Definition cell (m : gmap Z Z) (r c : Z) : Z * Z :=
  (default 0 (m !! (SCREEN_BASE + 160 * r + 2 * c)), default 0 (m !! (SCREEN_BASE + 160 * r + 2 * c + 1))).

(** A newline ends the line; another character goes to the cursor's cell, in
    light grey on black, and the cursor goes on, to the next line at the end of
    one. The first line follows the last one. *)
Definition type_char (s : screen) (ch : Z) : screen :=
  let below := if row s =? 24 then 0 else row s + 1 in
  if ch =? 10 then mkScreen below 0 (cells s)
  else
    let typed r c := if (r =? row s) && (c =? col s) then (ch, 7) else cells s r c in
    if col s =? 79 then mkScreen below 0 typed else mkScreen (row s) (col s + 1) typed.

Definition type_text (s : screen) (text : list Z) : screen := foldl type_char s text.

(** The screen of a video memory with the cursor at [p]. *)
Definition screen_at (p : Z) (m : gmap Z Z) : screen :=
  mkScreen ((p - SCREEN_BASE) / 160) ((p - SCREEN_BASE) mod 160 / 2) (cell m).

(** The memory after stores. *)
Definition stores (ws : list (Z * Z)) (m : gmap Z Z) : gmap Z Z := foldl (fun m w => <[w.1 := w.2]> m) m ws.

(** The memory shows the screen, and the cursor is at [p]. *)
Record shows (s : screen) (p : Z) (m : gmap Z Z) : Prop := {
  sh_row : 0 <= row s < 25;
  sh_col : 0 <= col s < 80;
  sh_cursor : p = SCREEN_BASE + 160 * row s + 2 * col s;
  sh_cells : forall r c, 0 <= r < 25 -> 0 <= c < 80 -> cell m r c = cells s r c
}.

Lemma screen_at_shows p m : on_screen p -> shows (screen_at p m) p m.
Proof.
  unfold on_screen, SCREEN_BASE, SCREEN_END. intros [H1 H2]. split; simpl; unfold SCREEN_BASE in *; try done; zlia.
Qed.

Lemma shows_on_screen s p m : shows s p m -> on_screen p.
Proof. intros [Hr Hc -> _]. unfold on_screen, SCREEN_BASE, SCREEN_END. split; zlia. Qed.

(** The cursor after the end of the line [r]. *)
Lemma next_line r p : 0 <= r < 25 -> p = SCREEN_BASE + 160 * (r + 1) ->
  (if SCREEN_END <=? p then SCREEN_BASE else p) = SCREEN_BASE + 160 * (if r =? 24 then 0 else r + 1) + 2 * 0.
Proof.
  unfold SCREEN_BASE, SCREEN_END. intros Hr ->.
  destruct (Z.leb_spec 0xC00B8FA0 (0xC00B8000 + 160 * (r + 1))), (Z.eqb_spec r 24); lia.
Qed.

(** PrintLogEmitChar types a character. *)
Lemma emit_char_types s p m ch : shows s p m ->
  shows (type_char s ch) (PrintLogEmitChar p ch).1 (stores (PrintLogEmitChar p ch).2 m).
Proof.
  intros [Hr Hc Hp Hcells]. unfold PrintLogEmitChar, type_char.
  assert (0 <= (if row s =? 24 then 0 else row s + 1) < 25) as Hb by (destruct (Z.eqb_spec (row s) 24); lia).
  destruct (Z.eqb_spec ch 10) as [->|Hch]; simpl.
  - split; simpl; [done|lia| |done]. rewrite <- (next_line (row s) (SCREEN_BASE + 160 * (row s + 1))) by done.
    assert (u32 (p - SCREEN_BASE) = p - SCREEN_BASE) as -> by (apply Z.mod_small; unfold SCREEN_BASE in *; lia).
    assert (u32 (p + (160 - (p - SCREEN_BASE) mod 160)) = SCREEN_BASE + 160 * (row s + 1)) as ->; [|done].
    unfold u32, SCREEN_BASE in *. zlia.
  - assert (u32 (p + 2) = p + 2 /\ u32 (p + 1) = p + 1) as [-> ->].
    { unfold u32, SCREEN_BASE in *. split; apply Z.mod_small; lia. }
    assert (forall r c, 0 <= r < 25 -> 0 <= c < 80 ->
      cell (<[p + 1 := 7]> (<[p := ch]> m)) r c = if (r =? row s) && (c =? col s) then (ch, 7) else cells s r c) as Hcell.
    { intros r c H1 H2. unfold cell. destruct (Z.eqb_spec r (row s)) as [->|Hrr]; [destruct (Z.eqb_spec c (col s)) as [->|Hcc]|]; cbn [andb].
      - rewrite <- Hp, lookup_insert_ne, !lookup_insert_eq by lia. done.
      - rewrite !lookup_insert_ne by (unfold SCREEN_BASE in *; lia). by rewrite <- Hcells.
      - rewrite !lookup_insert_ne by (unfold SCREEN_BASE in *; lia). by rewrite <- Hcells. }
    destruct (Z.eqb_spec (col s) 79) as [E|E]; split; simpl; try done; try lia.
    + rewrite <- (next_line (row s) (p + 2)) by (unfold SCREEN_BASE in *; lia). done.
    + destruct (Z.leb_spec SCREEN_END (p + 2)); unfold SCREEN_BASE, SCREEN_END in *; lia.
Qed.

Lemma stores_app ws ws' m : stores (ws ++ ws') m = stores ws' (stores ws m).
Proof. apply foldl_app. Qed.

(** Emitting a text types it. *)
Lemma emit_all_types l : forall s p m, shows s p m ->
  shows (type_text s l) (emit_all p l).1 (stores (emit_all p l).2 m).
Proof.
  induction l as [|ch l IH]; intros s p m Hs; [done|]. cbn [emit_all].
  pose proof (emit_char_types s p m ch Hs) as H1. destruct (PrintLogEmitChar p ch) as [q ws].
  specialize (IH _ _ _ H1). cbn [fst snd] in *. destruct (emit_all q l) as [q' ws']. cbn [fst snd] in *. by rewrite stores_app.
Qed.

(** Stores inside the video memory leave the rest alone. *)
Lemma stores_outside ws m a :
  Forall (fun w => SCREEN_BASE <= w.1 < SCREEN_END) ws -> ~ SCREEN_BASE <= a < SCREEN_END -> stores ws m !! a = m !! a.
Proof.
  intros Hw Ha. revert m. induction Hw as [|w ws Hw _ IH]; intros m; simpl; [done|]. rewrite IH, lookup_insert_ne; [done|].
  intros E. rewrite <- E in Ha. tauto.
Qed.

(** ** Messages *)

(** The characters 0 to 9 and A to F. *)
Definition numeral (d : Z) : Z := nth (Z.to_nat d) [48; 49; 50; 51; 52; 53; 54; 55; 56; 57; 65; 66; 67; 68; 69; 70] 0.

(** The last [n] digits of a number. *)
Fixpoint numerals (base : Z) (n : nat) (v : Z) : list Z :=
  match n with O => [] | S n' => numerals base n' (v / base) ++ [numeral (v mod base)] end.

(** Without the leading zeros; one digit stays. *)
Fixpoint significant (l : list Z) : list Z :=
  match l with
  | c :: l' => match l' with [] => l | _ => if c =? 48 then significant l' else l end
  | [] => []
  end.

(** A part of a message: characters other than '%', or a conversion. *)
Inductive piece := Literal (l : list Z) | Unsigned (n : Z) | Pointer (n : Z).

Definition piece_ok (x : piece) : Prop := match x with Literal l => Forall (fun c => c <> 37) l | _ => True end.

(** Its format and arguments, and its text. *)
Definition piece_format (x : piece) : list Z :=
  match x with Literal l => l | Unsigned _ => [37; 117] | Pointer _ => [37; 112] end.
Definition piece_args (x : piece) : list arg :=
  match x with Literal _ => [] | Unsigned n | Pointer n => [AInt n] end.
Definition piece_text (x : piece) : list Z :=
  match x with
  | Literal l => l
  | Unsigned n => significant (numerals 10 10 (n mod 4294967296))
  | Pointer n => [48; 120] ++ numerals 16 8 (n mod 4294967296)
  end.

Definition format_of (l : list piece) : list Z := l ≫= piece_format.
Definition args_of (l : list piece) : list arg := l ≫= piece_args.
Definition text_of (l : list piece) : list Z := l ≫= piece_text.

(** ** Numbers *)

Lemma numerals_0 base n : 0 < base -> numerals base n 0 = replicate n 48.
Proof.
  intros Hb. induction n as [|n IH]; [done|]. cbn [numerals]. rewrite Z.div_0_l, Z.mod_0_l by lia. rewrite IH.
  change [numeral 0] with (replicate 1 48). rewrite <- replicate_add. f_equal. lia.
Qed.

(** A statement about the numbers below a bound, by trying them. *)
Lemma forall_seqZ (P : Z -> Prop) m n : Forall P (seqZ m n) -> forall d, m <= d < m + n -> P d.
Proof. intros HP d Hd. eapply Forall_forall; [exact HP|]. by apply elem_of_seqZ. Qed.

Lemma numeral_pos d : 0 < d < 16 -> numeral d <> 48.
Proof. intros Hd. apply (forall_seqZ (fun d => numeral d <> 48) 1 15); [|lia]. repeat constructor; discriminate. Qed.

(** The digits that [s] prints in the base. *)
Definition prints_base (s : fspec) (base : Z) : Prop :=
  2 <= base <= 16 /\ forall d, 0 <= d < base -> digit_char s d = numeral d.

(** The digits built are those of the number without leading zeros. *)
Lemma digits_numerals s base : prints_base s base ->
  forall fuel n v acc, 0 <= v < base ^ Z.of_nat n -> (n <= fuel)%nat ->
  exists ds, digits_loop fuel s v base acc = Ret (ds ++ acc) /\ (length ds <= n)%nat /\
    replicate (n - length ds) 48 ++ ds = numerals base n v /\ (v = 0 <-> ds = []) /\ head ds <> Some 48.
Proof.
  intros [Hb Hs]. induction fuel as [|fuel IH]; intros n v acc Hv Hf; cbn [digits_loop]; destruct (Z.ltb_spec 0 v) as [Hpos|Hz].
  1: { assert (n = 0%nat) as -> by lia. simpl in Hv. lia. }
  1, 3: assert (v = 0) as -> by lia; exists []; cbn [length app]; rewrite Nat.sub_0_r, numerals_0, app_nil_r by lia; split_and!; done || lia.
  destruct n as [|n]; [simpl in Hv; lia|].
  assert (0 <= v / base < base ^ Z.of_nat n) as Hdiv.
  { split; [apply Z.div_pos; lia|]. apply Z.div_lt_upper_bound; [lia|].
    rewrite Nat2Z.inj_succ, Z.pow_succ_r in Hv by lia. lia. }
  pose proof (Z.mod_pos_bound v base ltac:(lia)) as Hm. rewrite (Hs _ Hm).
  destruct (IH n (v / base) (numeral (v mod base) :: acc)) as (ds & -> & Hlen & Hds & Hnil & Hh); [done|lia|].
  exists (ds ++ [numeral (v mod base)]). split_and!.
  - by rewrite <- app_assoc.
  - rewrite length_app. simpl. lia.
  - rewrite length_app, Nat.add_1_r. cbn [Nat.sub numerals]. by rewrite app_assoc, Hds.
  - split; [lia|]. by intros []%app_nil.
  - destruct ds as [|c ds]; [|done]. cbn [app head]. intros [= E]. revert E. apply numeral_pos.
    destruct Hnil as [_ Hnil]. specialize (Hnil eq_refl). zlia.
Qed.

Lemma significant_replicate k ds : head ds <> Some 48 ->
  significant (replicate k 48 ++ ds) = match ds with [] => match k with O => [] | _ => [48] end | _ => ds end.
Proof.
  intros Hh. induction k as [|k IH]; cbn [replicate app].
  - destruct ds as [|c [|c' ds]]; [done|done|]. cbn [significant head] in *. destruct (Z.eqb_spec c 48) as [->|]; [by destruct Hh|done].
  - cbn [significant]. destruct (replicate k 48 ++ ds) eqn:E; [by apply app_nil in E as [_ ->]|]. cbn [Z.eqb Pos.eqb]. rewrite IH.
    destruct ds; [|done]. destruct k; done.
Qed.

Lemma pad_nil n c : n <= 0 -> pad n c = [].
Proof. intros H. unfold pad. by replace (Z.to_nat n) with 0%nat by lia. Qed.

Lemma prints_base_10 s : prints_base s 10.
Proof.
  split; [lia|]. apply (forall_seqZ (fun d => digit_char s d = numeral d) 0 10). repeat constructor.
Qed.

Lemma prints_base_16 s : hex_upper s = true -> prints_base s 16.
Proof.
  intros Hu. split; [lia|]. apply (forall_seqZ (fun d => digit_char s d = numeral d) 0 16).
  unfold digit_char. rewrite Hu. repeat constructor.
Qed.

(** %u prints the number in decimal. *)
Lemma emit_unsigned v : 0 <= v < 4294967296 ->
  emit (Number spec0 v 10) = Ret (significant (numerals 10 10 v)).
Proof.
  intros Hv. unfold emit, digits.
  destruct (digits_numerals spec0 10 (prints_base_10 _) 32 10 v []) as (ds & -> & Hlen & Hds & _ & Hh); [simpl; lia|lia|].
  rewrite app_nil_r. cbn [mbind outcome_bind]. rewrite <- Hds, significant_replicate by done. f_equal.
  unfold emit_string. cbn [spec0 prefix0 prefix1 zero_pad left_align precision width andb negb Z.eqb].
  assert (0 <= zlen ds <= 10) as HL by (unfold zlen; lia).
  assert (s32 (1 - zlen ds) = 1 - zlen ds) as -> by (unfold s32; rewrite Z.mod_small; lia).
  destruct ds as [|c ds]; [done|]. set (raw := c :: ds) in *.
  assert (1 <= zlen raw) by (unfold zlen, raw; cbn [length]; lia).
  assert ((if 1 - zlen raw <? 0 then 0 else 1 - zlen raw) = 0) as -> by (destruct (Z.ltb_spec (1 - zlen raw) 0); lia).
  assert (u32 (zlen raw + 0 + 0) = zlen raw) as -> by (unfold u32; rewrite Z.mod_small; lia).
  rewrite !pad_nil by (unfold s32; rewrite ?Z.mod_small; lia). by rewrite app_nil_r.
Qed.

(** %p prints it with 0x and eight hexadecimal digits. *)
Lemma emit_pointer v : 0 <= v < 4294967296 ->
  emit (Number (mkSpec 48 120 false false false false true 0 8) v 16) = Ret ([48; 120] ++ numerals 16 8 v).
Proof.
  intros Hv. unfold emit, digits.
  destruct (digits_numerals _ 16 (prints_base_16 (mkSpec 48 120 false false false false true 0 8) eq_refl) 32 8 v [])
    as (ds & -> & Hlen & Hds & _ & Hh); [simpl; lia|lia|].
  rewrite app_nil_r. cbn [mbind outcome_bind]. rewrite <- Hds. f_equal.
  unfold emit_string. cbn [prefix0 prefix1 zero_pad left_align precision width andb negb Z.eqb Pos.eqb app].
  assert (0 <= zlen ds <= 8) as HL by (unfold zlen; lia).
  assert (s32 (8 - zlen ds) = 8 - zlen ds) as -> by (unfold s32; rewrite Z.mod_small; lia).
  destruct (Z.ltb_spec (8 - zlen ds) 0); [lia|].
  assert (u32 (zlen ds + (8 - zlen ds) + 2) = 10) as -> by (unfold u32; rewrite Z.mod_small; lia).
  rewrite (pad_nil (s32 (0 - 10))) by (unfold s32; rewrite Z.mod_small; lia). rewrite app_nil_r. cbn [app].
  do 3 f_equal. unfold pad, zlen. f_equal. lia.
Qed.

(** ** Formatting a message *)

Lemma DoStringFormat_literal l format args out : Forall (fun c => c <> 37) l ->
  forall fuel, (length (l ++ format) <= fuel)%nat ->
  (forall fuel, (length format <= fuel)%nat -> DoStringFormat fuel format args = Ret out) ->
  DoStringFormat fuel (l ++ format) args = Ret (l ++ out).
Proof.
  intros Hl. induction Hl as [|c l Hc _ IH]; intros fuel Hf Hrest; [by apply Hrest|]. destruct fuel as [|fuel]; [simpl in Hf; lia|].
  cbn [app DoStringFormat]. destruct (Z.eqb_spec c 37); [done|]. rewrite IH; [done|simpl in Hf; lia|done].
Qed.

(** A message prints as the text of its pieces. *)
Lemma DoStringFormat_pieces ps : Forall piece_ok ps ->
  forall fuel, (length (format_of ps) <= fuel)%nat -> DoStringFormat fuel (format_of ps) (args_of ps) = Ret (text_of ps).
Proof.
  assert (forall n, 0 <= u32 n < 4294967296) as Hu by (intros; apply Z.mod_pos_bound; lia).
  induction 1 as [|x ps Hx _ IH]; intros fuel Hf; [by destruct fuel|].
  change (format_of (x :: ps)) with (piece_format x ++ format_of ps) in *.
  change (args_of (x :: ps)) with (piece_args x ++ args_of ps). change (text_of (x :: ps)) with (piece_text x ++ text_of ps).
  rewrite length_app in Hf. destruct x as [l|n|n]; cbn [piece_format piece_args piece_text app length] in *.
  { apply DoStringFormat_literal; [done|by rewrite length_app|done]. }
  all: destruct fuel as [|[|fuel]]; [lia|lia|]; specialize (IH (S fuel) ltac:(lia)).
  all: set (k := S fuel) in *; change (DoStringFormat (S k) (37 :: ?c :: format_of ps) (AInt n :: args_of ps)) with
      (out ← emit (if c =? 117 then Number spec0 (u32 n) 10 else Number (mkSpec 48 120 false false false false true 0 8) (u32 n) 16);
       out' ← DoStringFormat k (format_of ps) (args_of ps); Ret (out ++ out')); cbn [Z.eqb Pos.eqb].
  - rewrite (emit_unsigned _ (Hu n)), IH. done.
  - rewrite (emit_pointer _ (Hu n)), IH. done.
Qed.

(** ** Panics *)

(** "Panic: " *)
Definition panic_prefix : list Z := [80; 97; 110; 105; 99; 58; 32].

(** A return address in the stack trace: a space, the address, a newline. *)
Definition trace_line (r : Z) : list piece := [Literal [32]; Pointer r; Literal [10]].

(** All a panic types: the message, and the stack trace. *)
Definition panic_text (ps : list piece) (rets : list Z) : list Z :=
  panic_prefix ++ text_of ps ++ [10] ++ call_stack ++ concat (map (fun r => text_of (trace_line r)) rets).

(** Printing a panic emits that text. *)
Lemma panic_output_emits load pf fuel firstEbp kStackBase startupStackTop p ps rets :
  (12 <= pf)%nat -> (length (format_of ps) <= pf)%nat -> (length rets < fuel)%nat -> Forall piece_ok ps ->
  frames load firstEbp (if kStackBase =? 0 then startupStackTop else u32 (kStackBase + 0x1000)) firstEbp rets ->
  panic_output load pf fuel firstEbp kStackBase startupStackTop p (format_of ps) (args_of ps) =
    Ret (emit_all p (panic_text ps rets)).
Proof.
  intros Hpf Hl Hf Hps Hfr. unfold panic_output, panic_text.
  assert (PrintLogVarArgs pf p Fatal (format_of ps) (args_of ps) = Ret (emit_all p (panic_prefix ++ text_of ps ++ [10]))) as ->
    by (unfold PrintLogVarArgs; by rewrite (DoStringFormat_pieces ps Hps pf Hl)).
  assert (Forall2 (frame_line pf) rets (map (fun r => text_of (trace_line r)) rets)) as Hlines.
  { clear - Hpf. induction rets as [|r rets IH]; constructor; [|done].
    apply (DoStringFormat_pieces (trace_line r)); [|simpl; lia]. repeat constructor; simpl; lia. }
  replace (panic_prefix ++ text_of ps ++ [10] ++ call_stack ++ concat (map (fun r => text_of (trace_line r)) rets))
    with ((panic_prefix ++ text_of ps ++ [10]) ++ call_stack ++ concat (map (fun r => text_of (trace_line r)) rets))
    by (by rewrite <- !app_assoc).
  rewrite (emit_all_app p (panic_prefix ++ text_of ps ++ [10])).
  destruct (emit_all p (panic_prefix ++ text_of ps ++ [10])) as [q ws]. cbn [mbind outcome_bind].
  rewrite (PrintStackTrace_prints load pf fuel _ _ _ q rets _ Hpf Hf Hlines Hfr). cbn [mbind outcome_bind].
  by destruct (emit_all q (call_stack ++ _)).
Qed.

(** C40: a panic whose message is made of plain characters, unsigned numbers
    (%u) and pointers (%p), as all those of the kernel are, types on the
    screen, from the cursor on, "Panic: ", the message with its numbers in
    decimal and its pointers in hexadecimal, a newline, "Call Stack:" and the
    return addresses of the frames of the stack, one on a line, innermost first:
    afterwards the video memory shows the screen on which this text has been
    typed, and no byte outside of the 4000 of the video memory is changed.
    The chain of saved base pointers must be readable and end, with a pointer
    outside of the stack or below the first frame. The fuel is that of the
    formatting (12, and the length of the message's format) and one more than
    the frames. *)
Theorem panic_output_prints load pf fuel firstEbp kStackBase startupStackTop p ps rets m :
  (12 <= pf)%nat -> (length (format_of ps) <= pf)%nat -> (length rets < fuel)%nat -> Forall piece_ok ps -> on_screen p ->
  frames load firstEbp (if kStackBase =? 0 then startupStackTop else u32 (kStackBase + 0x1000)) firstEbp rets ->
  exists p' ws,
    panic_output load pf fuel firstEbp kStackBase startupStackTop p (format_of ps) (args_of ps) = Ret (p', ws) /\
    shows (type_text (screen_at p m) (panic_text ps rets)) p' (stores ws m) /\
    forall a, ~ SCREEN_BASE <= a < SCREEN_END -> stores ws m !! a = m !! a.
Proof.
  intros Hpf Hl Hf Hps Hp Hfr. rewrite (panic_output_emits load pf fuel _ _ _ p ps rets Hpf Hl Hf Hps Hfr).
  exists (emit_all p (panic_text ps rets)).1, (emit_all p (panic_text ps rets)).2. split_and!.
  - by destruct (emit_all p _).
  - by apply emit_all_types, screen_at_shows.
  - intros a Ha. apply stores_outside; [|done]. by apply log_stays_on_screen.
Qed.

(** The words of a stack with two frames, which ends at 0x2000. *)
Definition two_frames (a : Z) : option Z :=
  if a =? 0x1F00 then Some 0x1F80 else if a =? 0x1F04 then Some 0xC0100010
  else if a =? 0x1F80 then Some 0 else if a =? 0x1F84 then Some 0xC0100020 else None.

(** The message "int: %u" with the number 80, from the last line of the screen:
    the trace goes on at the top. *)
Lemma panic_output_prints_witness :
  exists p' ws,
    panic_output two_frames 12 3 0x1F00 0x1000 0 (SCREEN_BASE + 160 * 24)
      (format_of [Literal [105; 110; 116; 58; 32]; Unsigned 80]) (args_of [Literal [105; 110; 116; 58; 32]; Unsigned 80]) = Ret (p', ws) /\
    p' = SCREEN_BASE + 160 * 3 /\
    map (fun c => (cell (stores ws ∅) 24 c).1) (seqZ 0 14) = panic_prefix ++ [105; 110; 116; 58; 32; 56; 48] /\
    map (fun c => cell (stores ws ∅) 1 c) (seqZ 0 12) =
      map (fun ch => (ch, 7)) [32; 48; 120; 67; 48; 49; 48; 48; 48; 49; 48] ++ [(0, 0)].
Proof.
  edestruct (panic_output_prints two_frames 12 3 0x1F00 0x1000 0 (SCREEN_BASE + 160 * 24)
    [Literal [105; 110; 116; 58; 32]; Unsigned 80] [0xC0100010; 0xC0100020] ∅) as (p' & ws & E & H & _).
  - lia.
  - simpl. lia.
  - simpl. lia.
  - repeat constructor; discriminate.
  - split; [unfold SCREEN_BASE, SCREEN_END; lia|reflexivity].
  - simpl. split; [vm_compute; split; [discriminate|reflexivity]|]. split; [reflexivity|]. eexists. split; [reflexivity|].
    split; [vm_compute; split; [discriminate|reflexivity]|]. split; [reflexivity|]. eexists. split; [reflexivity|]. right. lia.
  - exists p', ws. split; [exact E|]. destruct H as [_ _ Hp Hc]. split; [rewrite Hp; vm_compute; reflexivity|]. split.
    + transitivity (map (fun c => (cells (type_text (screen_at (SCREEN_BASE + 160 * 24) ∅)
        (panic_text [Literal [105; 110; 116; 58; 32]; Unsigned 80] [0xC0100010; 0xC0100020])) 24 c).1) (seqZ 0 14)); [|vm_compute; reflexivity].
      apply map_ext_in. intros c Hin. apply list_elem_of_In, elem_of_seqZ in Hin. f_equal. apply Hc; lia.
    + transitivity (map (cells (type_text (screen_at (SCREEN_BASE + 160 * 24) ∅)
        (panic_text [Literal [105; 110; 116; 58; 32]; Unsigned 80] [0xC0100010; 0xC0100020])) 1) (seqZ 0 12)); [|vm_compute; reflexivity].
      apply map_ext_in. intros c Hin. apply list_elem_of_In, elem_of_seqZ in Hin. apply Hc; lia.
Defined.
