(* ===== verification/Process.v ===== *)
(** * Processes and threads (src/process/process.c, src/process/reaper.c)

    Creation, forking, waiting, exiting and reaping, over the threads and
    processes of Sched.v. The two hash tables are the finite maps from ids to
    addresses that HTable.v shows a table to be, the sibling lists are the
    sequences that CList.v shows a list to be. What the functions take from
    the memory manager and the open files is the interface [ProcEnv]. The
    waits are split at the context switch. *)
From S2P Require Import Prelude Errno Physical Region Sched WaitQueue Signal Timer Tls.

(** ** State *)

Record procs := mkProcs {
  psys : sys;
  hTableProcess : gmap Z Z; hTableThread : gmap Z Z;
  processNextID : Z; threadNextID : Z;
  reaperHead : list Z;
  kstacks : gmap Z Z;                     (* the words of the kernel stacks *)
  ptimer : timer
}.

Definition set_psys (st : procs) (s : sys) : procs :=
  mkProcs s (hTableProcess st) (hTableThread st) (processNextID st) (threadNextID st) (reaperHead st)
    (kstacks st) (ptimer st).
Definition set_process_ids (st : procs) (h : gmap Z Z) (n : Z) : procs :=
  mkProcs (psys st) h (hTableThread st) n (threadNextID st) (reaperHead st) (kstacks st) (ptimer st).
Definition set_thread_ids (st : procs) (h : gmap Z Z) (n : Z) : procs :=
  mkProcs (psys st) (hTableProcess st) h (processNextID st) n (reaperHead st) (kstacks st) (ptimer st).
Definition set_reaper (st : procs) (q : list Z) : procs :=
  mkProcs (psys st) (hTableProcess st) (hTableThread st) (processNextID st) (threadNextID st) q
    (kstacks st) (ptimer st).
Definition set_kstacks (st : procs) (m : gmap Z Z) : procs :=
  mkProcs (psys st) (hTableProcess st) (hTableThread st) (processNextID st) (threadNextID st) (reaperHead st)
    m (ptimer st).
Definition set_ptimer (st : procs) (t : timer) : procs :=
  mkProcs (psys st) (hTableProcess st) (hTableThread st) (processNextID st) (threadNextID st) (reaperHead st)
    (kstacks st) t.

(** Field updates of the records of Sched.v that only this component makes. *)
Definition set_children (p : ProcProcess) (l : list Z) : ProcProcess :=
  mkProcess (pid p) (pparent p) l (threads p) (zombie p) (pexitCode p) (memContext p) (sigHandlers p)
    (psigPending p) (alarmPtr p) (pname p) (ioContext p).
Definition set_threads (p : ProcProcess) (l : list Z) : ProcProcess :=
  mkProcess (pid p) (pparent p) (children p) l (zombie p) (pexitCode p) (memContext p) (sigHandlers p)
    (psigPending p) (alarmPtr p) (pname p) (ioContext p).
Definition set_zombie (p : ProcProcess) : ProcProcess :=
  mkProcess (pid p) (pparent p) (children p) (threads p) true (pexitCode p) (memContext p) (sigHandlers p)
    (psigPending p) (alarmPtr p) (pname p) (ioContext p).
Definition set_contexts (p : ProcProcess) (m i : Z) : ProcProcess :=
  mkProcess (pid p) (pparent p) (children p) (threads p) (zombie p) (pexitCode p) m (sigHandlers p)
    (psigPending p) (alarmPtr p) (pname p) i.
Definition set_waitMode (t : ProcThread) (m : ProcWaitMode) : ProcThread :=
  mkThread (tid t) (parent t) (exitCode t) (state t) m (schedInterrupted t) (kStackBase t) (tlsDescriptor t)
    (fpuState t) (fpuSwitches t) (sigPending t) (sigBlocked t) (tname t) (kStackPointer t).
Definition set_exitCode (t : ProcThread) (x : Z) : ProcThread :=
  mkThread (tid t) (parent t) x (state t) (waitMode t) (schedInterrupted t) (kStackBase t) (tlsDescriptor t)
    (fpuState t) (fpuSwitches t) (sigPending t) (sigBlocked t) (tname t) (kStackPointer t).
Definition set_kStackPointer (t : ProcThread) (x : Z) : ProcThread :=
  mkThread (tid t) (parent t) (exitCode t) (state t) (waitMode t) (schedInterrupted t) (kStackBase t)
    (tlsDescriptor t) (fpuState t) (fpuSwitches t) (sigPending t) (sigBlocked t) (tname t) x.
Definition set_signals_tls (t : ProcThread) (blocked tls : Z) : ProcThread :=
  mkThread (tid t) (parent t) (exitCode t) (state t) (waitMode t) (schedInterrupted t) (kStackBase t)
    tls (fpuState t) (fpuSwitches t) (sigPending t) blocked (tname t) (kStackPointer t).
Definition set_memContexts (s : sys) (m : gmap Z MemContext) : sys :=
  mkSys (thread s) (process s) m (threadQueue s) (ProcCurrThread s) (ProcCurrProcess s)
    (TssESP0 s) (GdtTLS s) (TimerQuantum s) (MemCurrentContext s) (cr3 s) (fpu s).

(** ** What processes take from the other components *)

Class ProcEnv (W : Type) := {
  pe_alloc_process : W -> outcome (Z * W);                 (* MemSlabZAlloc(cacheProcess) *)
  pe_alloc_thread : W -> outcome (Z * W);                  (* MemSlabZAlloc(cacheThread) *)
  pe_free_process : Z -> W -> outcome W;                   (* MemSlabFree(cacheProcess, p) *)
  pe_free_thread : Z -> W -> outcome W;                    (* MemSlabFree(cacheThread, t) *)
  pe_StrDup : Z -> Z -> W -> outcome (Z * W);              (* StrDup(name, max) *)
  pe_MemKFree : Z -> W -> outcome W;
  pe_MemPhysicalAlloc : Z -> Z -> W -> outcome (Z * W);
  pe_MemPhysicalFree : Z -> Z -> W -> outcome W;
  pe_MemContextClone : sys -> W -> outcome (Z * MemContext * W);   (* address and contents *)
  pe_free_pages : MemContext -> W -> outcome W;            (* the page tables, pages and regions of a context *)
  pe_IoContextClone : Z -> W -> outcome (Z * W);
  pe_IoContextDeleteReference : Z -> W -> outcome W
}.

(** ** Ids and lists *)

(** HashTableRemoveItem: the item is removed when it is the one in the table. *)
Definition remove_item (h : gmap Z Z) (key item : Z) : gmap Z Z :=
  if bool_decide (h !! key = Some item) then delete key h else h.

(** do { id = next++; } while(!HashTableInsert(...)); *)
Fixpoint alloc_id (fuel : nat) (h : gmap Z Z) (item next : Z) : outcome (Z * gmap Z Z * Z) :=
  match fuel with
  | O => NoFuel
  | S f =>
      match h !! next with
      | None => Ret (next, <[next := item]> h, u32 (next + 1))
      | Some _ => alloc_id f h item (u32 (next + 1))
      end
  end.

(** MemSet(thread->kStackBase, 0, PROC_KSTACK_SIZE) *)
Definition zero_stack (m : gmap Z Z) (base : Z) : gmap Z Z :=
  store_words m base (replicate (Z.to_nat (PROC_KSTACK_SIZE / 4)) 0).

(** ListDelete(&process->processSibling): the process leaves the list it is on. *)
Definition unlink_child (c : Z) (m : gmap Z ProcProcess) : gmap Z ProcProcess :=
  (fun p => set_children p (filter (fun x => x <> c) (children p))) <$> m.

(** ListDelete(&thread->threadSibling) *)
Definition unlink_thread (t : Z) (m : gmap Z ProcProcess) : gmap Z ProcProcess :=
  (fun p => set_threads p (filter (fun x => x <> t) (threads p))) <$> m.

Definition ProcGetProcessByID (id : Z) (st : procs) : Z := default 0 (hTableProcess st !! id).
Definition ProcGetThreadByID (id : Z) (st : procs) : Z := default 0 (hTableThread st !! id).

(** More than one entry: list.next != list.prev. *)
Definition several (l : list Z) : bool := (1 <? zlen l).

Section Processes.
Context {K : Machine} {W : Type} {PE : ProcEnv W}.
(** The entry points in assembly and in scheduler code. *)
Context (ProcIntUserThreadEntry ProcIntKernelThreadReturn : Z).
(** Bound on the search for an id. *)
Context (fuel : nat).

(** ** Creation *)

Definition ProcCreateProcess (name par : Z) (st : procs) (w : W) : outcome (Z * procs * W) :=
  '(a, w1) ← pe_alloc_process w;
  '(id, h, next) ← alloc_id fuel (hTableProcess st) a (processNextID st);
  let st1 := set_process_ids st h next in
  '(nm, w2) ← pe_StrDup name 255 w1;
  let new := mkProcess id par [] [] false 0 0 (replicate (Z.to_nat SIG_MAX) (mkSigaction 0 0 0)) 0 0 nm 0 in
  let s1 := set_process (psys st1) (<[a := new]> (process (psys st1))) in
  s2 ← (if par =? 0 then Ret s1
        else upd_process par (fun pp => set_children pp (children pp ++ [a])) s1);
  Ret (a, set_psys st1 s2, w2).

Definition ProcCreateRawThread (name par : Z) (withStack : bool) (st : procs) (w : W) : outcome (Z * procs * W) :=
  '(a, w1) ← pe_alloc_thread w;
  '(id, h, next) ← alloc_id fuel (hTableThread st) a (threadNextID st);
  let st1 := set_thread_ids st h next in
  s1 ← upd_process par (fun pp => set_threads pp (threads pp ++ [a])) (psys st1);
  '(nm, w2) ← pe_StrDup name 255 w1;
  '(base, m, w3) ←
    (if withStack then
       '(page, w3) ← pe_MemPhysicalAlloc 1 MEM_KERNEL w2;
       let base := MemPhys2Virt page in
       Ret (base, zero_stack (kstacks st1) base, w3)
     else Ret (0, kstacks st1, w2));
  let new := mkThread id par 0 PTS_STARTUP PWM_NONE 0 base PROC_NULL_TLS_DESCRIPTOR None 0 0 0 nm 0 in
  Ret (a, set_kstacks (set_psys st1 (set_thread s1 (<[a := new]> (thread s1)))) m, w3).

(** The words [ws] at the top of the new thread's stack, and its stack pointer. *)
Definition setup_stack (a : Z) (ws : list Z) (st : procs) : outcome procs :=
  th ← or_fault (thread (psys st) !! a);
  let sp := u32 (kStackBase th + PROC_KSTACK_SIZE - 4 * zlen ws) in
  let st1 := set_kstacks st (store_words (kstacks st) sp ws) in
  s ← upd_thread a (fun th => set_kStackPointer th sp) (psys st1);
  Ret (set_psys st1 s).

Definition user_frame (startAddr stackPtr : Z) : list Z :=
  [0; 0; 0; 0; ProcIntUserThreadEntry; 0; 0; startAddr; 0x1B; 0x202; stackPtr; 0x23].
Definition kernel_frame (startAddr arg : Z) : list Z :=
  [0; 0; 0; 0; startAddr; 0; 0; ProcIntKernelThreadReturn; arg].

Definition ProcCreateUserThread (name par startAddr stackPtr : Z) (st : procs) (w : W) : outcome (Z * procs * W) :=
  '(a, st1, w1) ← ProcCreateRawThread name par true st w;
  st2 ← setup_stack a (user_frame startAddr stackPtr) st1;
  Ret (a, st2, w1).

Definition ProcCreateKernelThread (name startAddr arg : Z) (st : procs) (w : W) : outcome (Z * procs * W) :=
  '(a, st1, w1) ← ProcCreateRawThread name ProcKernelProcess true st w;
  st2 ← setup_stack a (kernel_frame startAddr arg) st1;
  Ret (a, st2, w1).

(** The static kernel process, its name the string at [name]. *)
Definition kernel_process (name : Z) : ProcProcess :=
  mkProcess 0 0 [] [] false 0 MemKernelContext (replicate (Z.to_nat SIG_MAX) (mkSigaction 0 0 0)) 0 0 name 0.

(** The strings "kernel", "idle" and "reaper" and the entry points of the two
    threads are addresses. Returns what becomes ProcIdleThread and reaperThread. *)
Definition ProcInit (kernelName idleName ProcIntIdleThread reaperName reaperEntry : Z) (st : procs) (w : W)
  : outcome (Z * Z * procs * W) :=
  let h := match hTableProcess st !! 0 with
           | None => <[0 := ProcKernelProcess]> (hTableProcess st)
           | Some _ => hTableProcess st
           end in
  let s := psys st in
  let s1 := set_process s (<[ProcKernelProcess := kernel_process kernelName]> (process s)) in
  let st1 := set_psys (set_process_ids st h (processNextID st)) (set_current s1 (ProcCurrThread s1) ProcKernelProcess) in
  '(idle, st2, w2) ← ProcCreateKernelThread idleName ProcIntIdleThread 0 st1 w;
  '(reaper, st3, w3) ← ProcCreateKernelThread reaperName reaperEntry 0 st2 w2;
  Ret (idle, reaper, st3, w3).

(** NULL (0) for the kernel process. *)
Definition ProcFork (startAddr userStackPtr : Z) (st : procs) (w : W) : outcome (Z * procs * W) :=
  if ProcCurrProcess (psys st) =? ProcKernelProcess then Ret (0, st, w)
  else
    cp ← get_process (ProcCurrProcess (psys st)) (psys st);
    '(newProc, st1, w1) ← ProcCreateProcess (pname cp) (ProcCurrProcess (psys st)) st w;
    '(ctx, contents, w2) ← pe_MemContextClone (psys st1) w1;
    '(ioc, w3) ← pe_IoContextClone (ioContext cp) w2;
    s2 ← upd_process newProc (fun p => set_contexts (set_sigHandlers p (sigHandlers cp)) ctx ioc)
           (set_memContexts (psys st1) (<[ctx := contents]> (memContexts (psys st1))));
    ct ← or_fault (thread s2 !! ProcCurrThread s2);
    '(newThread, st3, w4) ← ProcCreateUserThread (tname ct) newProc startAddr userStackPtr (set_psys st1 s2) w3;
    ct' ← or_fault (thread (psys st3) !! ProcCurrThread (psys st3));
    s4 ← upd_thread newThread (fun th => set_signals_tls th (sigBlocked ct') (tlsDescriptor ct')) (psys st3);
    s5 ← ProcWakeUp newThread s4;
    Ret (newProc, set_psys st3 s5, w4).

(** ** Reaping *)

Definition ProcIntReapThread (t : Z) (st : procs) (w : W) : outcome (procs * W) :=
  if ProcCurrThread (psys st) =? t then Panic "ProcReapThread: Cannot reap the current thread"
  else
    th ← or_fault (thread (psys st) !! t);
    if negb (bool_decide (state th = PTS_ZOMBIE))
    then Panic "ProcReapThread: Cannot reap a thread which is still running"
    else
      s1 ← CpuFreeFpuState (ProcCurrThread (psys st)) (psys st);
      let st1 := set_thread_ids (set_psys st s1) (remove_item (hTableThread st) (tid th) t) (threadNextID st) in
      let s2 := set_process s1 (unlink_thread t (process s1)) in
      w1 ← pe_MemPhysicalFree (MemVirt2Phys (kStackBase th)) 1 w;
      w2 ← pe_MemKFree (tname th) w1;
      w3 ← pe_free_thread t w2;
      Ret (set_psys st1 (set_thread s2 (delete t (thread s2))), w3).

(** ListForEachEntrySafe over the kernel's own children would never end: each
    is put back behind the others. *)
Definition ProcDisownChildren (p : Z) (s : sys) : outcome sys :=
  pr ← get_process p s;
  match children pr with
  | [] => Ret s
  | l =>
      if p =? ProcKernelProcess then NoFuel
      else
        s1 ← upd_process p (fun q => set_children q []) s;
        upd_process ProcKernelProcess (fun q => set_children q (children q ++ l)) s1
  end.

Fixpoint reap_threads (l : list Z) (st : procs) (w : W) : outcome (procs * W) :=
  match l with
  | [] => Ret (st, w)
  | t :: l' => '(st1, w1) ← ProcIntReapThread t st w; reap_threads l' st1 w1
  end.

Definition ProcIntReapProcess (p : Z) (st : procs) (w : W) : outcome (procs * W) :=
  pr ← get_process p (psys st);
  if negb (zombie pr) then Panic "ProcReapProcess: Cannot reap running process"
  else
    '(st1, w1) ← reap_threads (threads pr) st w;
    s2 ← ProcDisownChildren p (psys st1);
    let s3 := set_process s2 (unlink_child p (process s2)) in
    let st3 := set_process_ids (set_psys st1 s3) (remove_item (hTableProcess st1) (pid pr) p) (processNextID st1) in
    w2 ← pe_MemKFree (pname pr) w1;
    w3 ← pe_free_process p w2;
    Ret (set_psys st3 (set_process s3 (delete p (process s3))), w3).

(** One turn of the reaper thread's inner loop. *)
Definition reaper_turn (t : Z) (rest : list Z) (st : procs) (w : W) : outcome (procs * W) :=
  let st1 := set_reaper st rest in
  th ← or_fault (thread (psys st1) !! t);
  if negb (parent th =? ProcKernelProcess) then ProcIntReapProcess (parent th) st1 w
  else ProcIntReapThread t st1 w.

(** while(!ListEmpty(&reaperHead)); then the thread blocks. Nothing is added
    to the list meanwhile: the reaper does not give up the processor. *)
Fixpoint reaper_loop (n : nat) (st : procs) (w : W) : outcome (procs * W) :=
  match reaperHead st with
  | [] => '(_, s) ← ProcYieldBlock false (psys st); Ret (set_psys st s, w)
  | t :: rest =>
      match n with
      | O => NoFuel
      | S n' => '(st1, w1) ← reaper_turn t rest st w; reaper_loop n' st1 w1
      end
  end.

Definition ProcIntReaperThread (st : procs) (w : W) : outcome (procs * W) :=
  reaper_loop (length (reaperHead st)) st w.

(** ** Leaving a memory context (region.c) *)

(** The refusals are only logged. *)
Definition MemContextDelete (ctx : Z) (s : sys) (w : W) : outcome (sys * W) :=
  c ← or_fault (memContexts s !! ctx);
  if u32 (physDirectory c) =? cr3 s / 4096 then Ret (s, w)
  else if physDirectory c =? INVALID_PAGE then Ret (s, w)
  else if ctx =? MemKernelContext then Ret (s, w)
  else w1 ← pe_free_pages c w; Ret (set_memContexts s (delete ctx (memContexts s)), w1).

Definition MemContextDeleteReference (ctx : Z) (s : sys) (w : W) : outcome (sys * W) :=
  c ← or_fault (memContexts s !! ctx);
  if refCount c <=? 1 then MemContextDelete ctx s w
  else Ret (set_memContexts s (<[ctx := mkMemContext (regions c) (physDirectory c) (refCount c - 1)]> (memContexts s)), w).

(** ** Exiting *)

(** Wake the threads of a list that wait in mode [m]. *)
Fixpoint wake_waiters (m : ProcWaitMode) (l : list Z) (s : sys) : outcome sys :=
  match l with
  | [] => Ret s
  | t :: l' =>
      th ← or_fault (thread s !! t);
      s1 ← (if bool_decide (state th = PTS_INTR) && bool_decide (waitMode th = m) then ProcWakeUp t s else Ret s);
      wake_waiters m l' s1
  end.

(** ProcExitThread for a thread that is not the last. *)
Definition exit_one_thread (code : Z) (st : procs) : outcome procs :=
  let s := psys st in
  s1 ← upd_thread (ProcCurrThread s) (fun th => set_exitCode (set_state th PTS_ZOMBIE) code) s;
  '(q, s2) ←
    (if ProcCurrProcess s1 =? ProcKernelProcess then ProcIntReaperAdd (ProcCurrThread s1) (reaperHead st) s1
     else
       pr ← get_process (ProcCurrProcess s1) s1;
       s2 ← wake_waiters PWM_THREAD (threads pr) s1; Ret (reaperHead st, s2));
  s3 ← ProcIntSelfExit s2;
  Ret (set_psys (set_reaper st q) s3).

(** The contexts of the current process are given up. *)
Definition release_contexts (s : sys) (w : W) : outcome (sys * W) :=
  let cur := ProcCurrProcess s in
  p ← get_process cur s;
  '(s1, w1) ←
    (if negb (memContext p =? 0) then
       s1 ← MemContextSwitchTo MemKernelContext s;
       '(s2, w1) ← MemContextDeleteReference (memContext p) s1 w;
       s3 ← upd_process cur (fun q => set_contexts q 0 (ioContext q)) s2;
       Ret (s3, w1)
     else Ret (s, w));
  p1 ← get_process cur s1;
  if negb (ioContext p1 =? 0) then
    w2 ← pe_IoContextDeleteReference (ioContext p1) w1;
    s2 ← upd_process cur (fun q => set_contexts q (memContext q) 0) s1;
    Ret (s2, w2)
  else Ret (s1, w1).

(** The parent learns of the exit: [pp] is the address of the parent. *)
Definition notify_parent (pp : Z) (s : sys) : outcome sys :=
  par ← get_process pp s;
  s1 ← wake_waiters PWM_PROCESS (threads par) s;
  ProcSignalSendProcess pp SIGCLD s1.

(** ProcExitProcess for a process with one thread left. *)
Definition exit_last_thread (st : procs) (w : W) : outcome (procs * W) :=
  '(_, tm, s1) ← TimerSetAlarm 0 0 (ptimer st) (psys st);
  s2 ← ProcDisownChildren (ProcCurrProcess s1) s1;
  '(s3, w1) ← release_contexts s2 w;
  s4 ← upd_process (ProcCurrProcess s3) set_zombie s3;
  s5 ← upd_thread (ProcCurrThread s4) (fun th => set_state th PTS_ZOMBIE) s4;
  p ← get_process (ProcCurrProcess s5) s5;
  '(q, s6) ←
    (if pparent p =? ProcKernelProcess then ProcIntReaperAdd (ProcCurrThread s5) (reaperHead st) s5
     else s6 ← notify_parent (pparent p) s5; Ret (reaperHead st, s6));
  s7 ← ProcIntSelfExit s6;
  Ret (set_psys (set_reaper (set_ptimer st tm) q) s7, w1).

(** Send SIGKILL to the threads of a list but the current one. *)
Fixpoint kill_others (l : list Z) (s : sys) : outcome sys :=
  match l with
  | [] => Ret s
  | t :: l' =>
      s1 ← (if negb (t =? ProcCurrThread s) then ProcSignalSendThread t SIGKILL s else Ret s);
      kill_others l' s1
  end.

Definition ProcExitProcess (code : Z) (st : procs) (w : W) : outcome (procs * W) :=
  s1 ← upd_process (ProcCurrProcess (psys st)) (fun p => set_pexitCode p code) (psys st);
  p ← get_process (ProcCurrProcess s1) s1;
  if several (threads p) then
    s2 ← kill_others (threads p) s1;
    st' ← exit_one_thread 0 (set_psys st s2); Ret (st', w)
  else exit_last_thread (set_psys st s1) w.

Definition ProcExitThread (code : Z) (st : procs) (w : W) : outcome (procs * W) :=
  p ← get_process (ProcCurrProcess (psys st)) (psys st);
  if several (threads p) then st' ← exit_one_thread code st; Ret (st', w)
  else ProcExitProcess (pexitCode p) st w.

(** ** Waiting *)

Definition WNOHANG : Z := 1.

(** A wait returns a value and the exit code it found, or blocks. *)
Inductive wait_result := Returned (r : Z) (code : option Z) | Blocked.

(** The first child that is a zombie. *)
Fixpoint find_zombie (l : list Z) (s : sys) : outcome (option Z) :=
  match l with
  | [] => Ret None
  | c :: l' =>
      p ← get_process c s;
      if zombie p then Ret (Some c) else find_zombie l' s
  end.

(** The check loop; [chosen] is the process waited for, None for any child.
    It is left when a wait is interrupted a second time, so two turns are
    enough. *)
Fixpoint wait_process_loop (n : nat) (chosen : option Z) (options : Z) (interrupted : bool) (st : procs) (w : W)
  : outcome (wait_result * procs * W) :=
  match n with
  | O => NoFuel
  | S n' =>
      let s := psys st in
      found ←
        match chosen with
        | Some c => p ← get_process c s; Ret (if zombie p then Some c else None)
        | None => cp ← get_process (ProcCurrProcess s) s; find_zombie (children cp) s
        end;
      match found with
      | Some c =>
          p ← get_process c s;
          '(st1, w1) ← ProcIntReapProcess c st w;
          Ret (Returned (s32 (pid p)) (Some (pexitCode p)), st1, w1)
      | None =>
          if truth (Z.land options WNOHANG) then Ret (Returned 0 None, st, w)
          else if interrupted then Ret (Returned (- EINTR) None, st, w)
          else
            s1 ← upd_thread (ProcCurrThread s) (fun t => set_waitMode t PWM_PROCESS) s;
            '(res, s2) ← ProcYieldBlock true s1;
            match res with
            | None => Ret (Blocked, set_psys st s2, w)
            | Some b =>
                s3 ← upd_thread (ProcCurrThread s2) (fun t => set_waitMode t PWM_NONE) s2;
                wait_process_loop n' chosen options b (set_psys st s3) w
            end
      end
  end.

Definition ProcWaitProcess (id options : Z) (st : procs) (w : W) : outcome (wait_result * procs * W) :=
  let s := psys st in
  if ProcCurrProcess s =? ProcKernelProcess then Ret (Returned (- EPERM) None, st, w)
  else if (id <? 0) && negb (id =? -1) then Ret (Returned (- EINVAL) None, st, w)
  else if (id =? 0) || (id <? -1) then Ret (Returned (- ENOSYS) None, st, w)
  else if 0 <? id then
    let c := ProcGetProcessByID id st in
    if c =? 0 then Ret (Returned (- ECHILD) None, st, w)
    else
      p ← get_process c s;
      if negb (pparent p =? ProcCurrProcess s) then Ret (Returned (- ECHILD) None, st, w)
      else wait_process_loop 2 (Some c) options false st w
  else
    cp ← get_process (ProcCurrProcess s) s;
    match children cp with
    | [] => Ret (Returned (- ECHILD) None, st, w)
    | _ => wait_process_loop 2 None options false st w
    end.

(** ProcWaitProcess when its thread runs again. *)
Definition ProcWaitProcess_return (chosen : option Z) (options : Z) (st : procs) (w : W)
  : outcome (wait_result * procs * W) :=
  b ← ProcYieldBlock_return (psys st);
  s1 ← upd_thread (ProcCurrThread (psys st)) (fun t => set_waitMode t PWM_NONE) (psys st);
  wait_process_loop 2 chosen options b (set_psys st s1) w.

Definition is_zombie_thread (t : Z) (s : sys) : outcome bool :=
  th ← or_fault (thread s !! t); Ret (bool_decide (state th = PTS_ZOMBIE)).

Fixpoint find_zombie_thread (l : list Z) (s : sys) : outcome (option Z) :=
  match l with
  | [] => Ret None
  | t :: l' =>
      z ← is_zombie_thread t s;
      if (z : bool) then Ret (Some t) else find_zombie_thread l' s
  end.

Fixpoint wait_thread_loop (n : nat) (chosen : option Z) (options : Z) (interrupted : bool) (st : procs) (w : W)
  : outcome (wait_result * procs * W) :=
  match n with
  | O => NoFuel
  | S n' =>
      let s := psys st in
      found ←
        match chosen with
        | Some t => z ← is_zombie_thread t s; Ret (if (z : bool) then Some t else None)
        | None => cp ← get_process (ProcCurrProcess s) s; find_zombie_thread (threads cp) s
        end;
      match found with
      | Some t =>
          th ← or_fault (thread s !! t);
          '(st1, w1) ← ProcIntReapThread t st w;
          Ret (Returned (s32 (tid th)) (Some (exitCode th)), st1, w1)
      | None =>
          if truth (Z.land options WNOHANG) then Ret (Returned 0 None, st, w)
          else if interrupted then Ret (Returned (- EINTR) None, st, w)
          else
            s1 ← upd_thread (ProcCurrThread s) (fun t => set_waitMode t PWM_THREAD) s;
            '(res, s2) ← ProcYieldBlock true s1;
            match res with
            | None => Ret (Blocked, set_psys st s2, w)
            | Some b =>
                s3 ← upd_thread (ProcCurrThread s2) (fun t => set_waitMode t PWM_NONE) s2;
                wait_thread_loop n' chosen options b (set_psys st s3) w
            end
      end
  end.

Definition ProcWaitThread (id options : Z) (st : procs) (w : W) : outcome (wait_result * procs * W) :=
  let s := psys st in
  if ProcCurrProcess s =? ProcKernelProcess then Ret (Returned (- EPERM) None, st, w)
  else if (id <? 0) && negb (id =? -1) then Ret (Returned (- EINVAL) None, st, w)
  else if 0 <? id then
    let t := ProcGetThreadByID id st in
    if t =? 0 then Ret (Returned (- ESRCH) None, st, w)
    else
      th ← or_fault (thread s !! t);
      if negb (parent th =? ProcCurrProcess s) then Ret (Returned (- ESRCH) None, st, w)
      else wait_thread_loop 2 (Some t) options false st w
  else
    cp ← get_process (ProcCurrProcess s) s;
    if several (threads cp) then wait_thread_loop 2 None options false st w
    else Ret (Returned (- ESRCH) None, st, w).

Definition ProcWaitThread_return (chosen : option Z) (options : Z) (st : procs) (w : W)
  : outcome (wait_result * procs * W) :=
  b ← ProcYieldBlock_return (psys st);
  s1 ← upd_thread (ProcCurrThread (psys st)) (fun t => set_waitMode t PWM_NONE) (psys st);
  wait_thread_loop 2 chosen options b (set_psys st s1) w.
End Processes.
