(* ===== verification/ProcessInv.v ===== *)
(** * Tables, lists and lifetimes of processes and threads

    The invariant of process.c: the two hash tables hold exactly the live
    processes and threads under their ids, and every thread is on the list of
    its process. It is preserved by everything processes do. *)
From S2P Require Import Prelude Errno Physical Region Sched WaitQueue Signal Timer Tls Process.

(** ** Identity of threads and processes *)

(** What the tables and lists depend on: ids, parents and list contents. *)
Definition thread_ids (th : ProcThread) : Z * Z := (tid th, parent th).
Definition proc_lists (p : ProcProcess) : Z * list Z * list Z := (pid p, children p, threads p).

Definition tids (s : sys) (t : Z) : option (Z * Z) := thread_ids <$> thread s !! t.
Definition plists (s : sys) (p : Z) : option (Z * list Z * list Z) := proc_lists <$> process s !! p.

Definition ids_kept (s s' : sys) : Prop :=
  (forall t, tids s' t = tids s t) /\ (forall p, plists s' p = plists s p).

#[export] Instance ids_kept_preorder : PreOrder ids_kept.
Proof.
  split; [done|]. intros s1 s2 s3 [H1 H2] [H3 H4]. split; intros x; [by rewrite H3, H1|by rewrite H4, H2].
Qed.

Lemma fmap_insert_same {A B} (f : A -> B) (m : gmap Z A) k (x x' : A) j :
  m !! k = Some x -> f x' = f x -> f <$> <[k := x']> m !! j = f <$> m !! j.
Proof.
  intros Hk Hf. destruct (decide (k = j)) as [<-|]; [by rewrite lookup_insert_eq, Hk; simpl; f_equal|].
  by rewrite lookup_insert_ne.
Qed.

Lemma ids_same s s' : thread s' = thread s -> process s' = process s -> ids_kept s s'.
Proof. intros H1 H2. split; intros x; unfold tids, plists; by rewrite ?H1, ?H2. Qed.

Lemma ids_set_thread s t th th' :
  thread s !! t = Some th -> thread_ids th' = thread_ids th -> ids_kept s (set_thread s (<[t := th']> (thread s))).
Proof. intros Ht Hi. split; intros x; [|done]. by apply (fmap_insert_same _ _ _ th). Qed.

Lemma ids_set_process s p pr pr' :
  process s !! p = Some pr -> proc_lists pr' = proc_lists pr -> ids_kept s (set_process s (<[p := pr']> (process s))).
Proof. intros Ht Hi. split; intros x; [done|]. by apply (fmap_insert_same _ _ _ pr). Qed.

Lemma ids_upd_thread t f s s' :
  (forall th, thread_ids (f th) = thread_ids th) -> upd_thread t f s = Ret s' -> ids_kept s s'.
Proof. unfold upd_thread. intros Hf H. ret_inv. by apply (ids_set_thread _ _ x). Qed.

Lemma ids_upd_process p f s s' :
  (forall pr, proc_lists (f pr) = proc_lists pr) -> upd_process p f s = Ret s' -> ids_kept s s'.
Proof. unfold upd_process, get_process. intros Hf H. ret_inv. by apply (ids_set_process _ _ x). Qed.

(** An update of fields that are not ids. *)
Ltac ids_upd :=
  match goal with
  | H : upd_thread _ _ ?s = Ret ?s' |- ids_kept ?s ?s' => by refine (ids_upd_thread _ _ _ _ _ H)
  | H : upd_process _ _ ?s = Ret ?s' |- ids_kept ?s ?s' => by refine (ids_upd_process _ _ _ _ _ H)
  end.

Section Kept.
Context {K : Machine}.

Lemma ids_fpu_save s s' : fpu_save s = Ret s' -> ids_kept s s'.
Proof. unfold fpu_save. intros H. ret_inv; [done|]. by apply (ids_set_thread _ _ x). Qed.

Lemma ids_DoFpuSwitch s s' : DoFpuSwitch s = Ret s' -> ids_kept s s'.
Proof.
  unfold DoFpuSwitch. intros H. ret_inv. transitivity x; [by apply ids_fpu_save|].
  transitivity (set_thread x (<[ProcCurrThread x := set_fpu x0 (Some (default fresh_fpu_state (fpuState x0)))
    (u8 (fpuSwitches x0 + 1))]> (thread x))); [by apply (ids_set_thread _ _ x0)|by apply ids_same].
Qed.

Lemma ids_CpuTaskSwitched s s' : CpuTaskSwitched s = Ret s' -> ids_kept s s'.
Proof.
  unfold CpuTaskSwitched. intros H. ret_inv; try by apply ids_same.
  transitivity (set_ts s false); [by apply ids_same|by apply ids_DoFpuSwitch].
Qed.

Lemma ids_MemContextSwitchTo c s s' : MemContextSwitchTo c s = Ret s' -> ids_kept s s'.
Proof. unfold MemContextSwitchTo. intros H. ret_inv; by apply ids_same. Qed.

Lemma ids_enter_user nt s s' : enter_user nt s = Ret s' -> ids_kept s s'.
Proof.
  unfold enter_user. intros H. apply bind_Ret_inv in H as (s2 & H & H'). ret_inv; [|by apply ids_same].
  etransitivity; [|by apply ids_same]. match goal with H : MemContextSwitchTo _ _ = Ret _ |- _ => by apply ids_MemContextSwitchTo in H end.
Qed.

Lemma ids_ProcDoSchedule s s' : ProcDoSchedule s = Ret s' -> ids_kept s s'.
Proof.
  unfold ProcDoSchedule. destruct (next_thread s) as [z q]. destruct (negb _); [|intros H; ret_inv; by apply ids_same].
  intros H. apply bind_Ret_inv in H as (nt & Ht & H). apply bind_Ret_inv in H as (s2 & H2 & H).
  transitivity (set_current s2 z (parent nt)); [|by apply ids_CpuTaskSwitched].
  transitivity s2; [|by apply ids_same].
  destruct (parent nt =? ProcKernelProcess); [ret_inv; by apply ids_same|].
  transitivity (set_queue s q); [by apply ids_same|by apply (ids_enter_user nt)].
Qed.

Lemma ids_make_ready t th i s : thread s !! t = Some th -> ids_kept s (make_ready t th i s).
Proof.
  intros H. unfold make_ready.
  transitivity (set_thread s (<[t := set_state (set_interrupted th i) PTS_RUNNING]> (thread s)));
    [by apply (ids_set_thread _ _ th)|by apply ids_same].
Qed.

Lemma ids_ProcWakeUpSig t b s s' : ProcWakeUpSig t b s = Ret s' -> ids_kept s s'.
Proof.
  unfold ProcWakeUpSig. intros H. ret_inv; try done.
  all: try by apply (ids_make_ready _ _ _ _ H0).
  destruct b; [done|]. by apply (ids_set_thread _ _ x).
Qed.

Lemma ids_ProcWakeUp t s s' : ProcWakeUp t s = Ret s' -> ids_kept s s'.
Proof. apply ids_ProcWakeUpSig. Qed.

Lemma ids_ProcYieldBlock b r s s' : ProcYieldBlock b s = Ret (r, s') -> ids_kept s s'.
Proof.
  unfold ProcYieldBlock. intros H. apply bind_Ret_inv in H as (pend & _ & H). destruct pend; ret_inv; [done|].
  transitivity x; [|by apply ids_ProcDoSchedule]. ids_upd.
Qed.

Lemma ids_ProcYield s s' : ProcYield s = Ret s' -> ids_kept s s'.
Proof.
  unfold ProcYield. intros H. apply bind_Ret_inv in H as (s1 & H1 & H).
  transitivity s1; [ids_upd|]. ret_inv; [by apply ids_same|].
  etransitivity; [|by eapply ids_ProcDoSchedule]. by apply ids_same.
Qed.

Lemma ids_ProcIntSelfExit s s' : ProcIntSelfExit s = Ret s' -> ids_kept s s'.
Proof. unfold ProcIntSelfExit. intros H. ret_inv. by apply ids_ProcDoSchedule. Qed.

Lemma ids_ProcSignalSendThread t n s s' : ProcSignalSendThread t n s = Ret s' -> ids_kept s s'.
Proof.
  unfold ProcSignalSendThread, RemoteContinueThread. intros H. ret_inv; try done.
  all: try (by apply (ids_set_thread _ _ x)).
  - etransitivity; [|by eapply ids_ProcWakeUpSig]. ids_upd.
  - etransitivity; [|by eapply ids_ProcWakeUpSig]. by apply (ids_set_thread _ _ x).
Qed.

Lemma ids_ProcSignalSendProcess p n s s' : ProcSignalSendProcess p n s = Ret s' -> ids_kept s s'.
Proof.
  unfold ProcSignalSendProcess, for_children_as_threads, get_process. intros H. ret_inv; try done.
  all: try (by apply (ids_set_process _ _ x)).
  all: repeat match goal with H : upd_process _ _ _ = Ret _ |- _ => apply ids_upd_process in H; [|done] end; try done.
Qed.

Lemma ids_ProcIntReaperAdd t q q' s s' : ProcIntReaperAdd t q s = Ret (q', s') -> ids_kept s s'.
Proof. unfold ProcIntReaperAdd. intros H. ret_inv; try done; by eapply ids_ProcWakeUp. Qed.

Lemma ids_CpuFreeFpuState t s s' : CpuFreeFpuState t s = Ret s' -> ids_kept s s'.
Proof.
  unfold CpuFreeFpuState. intros H. destruct (t =? _); ret_inv.
  - by apply (ids_set_thread (set_fpu_unit s _) _ x).
  - by apply (ids_set_thread _ _ x).
Qed.

Lemma ids_TimerSetAlarm a time r tm tm' s s' : TimerSetAlarm a time tm s = Ret (r, tm', s') -> ids_kept s s'.
Proof.
  unfold TimerSetAlarm, get_process. intros H. apply bind_Ret_inv in H as (p & Hp & H).
  apply bind_Ret_inv in H as ([[left t1] s1] & H1 & H).
  transitivity s1; [clear H; ret_inv; [by apply (ids_set_process _ _ p)|done]|].
  clear H1. ret_inv; [by apply (ids_set_process _ _ x)|done].
Qed.
End Kept.

(** ** What the allocators promise *)

(** [live w x]: [x] is a process or thread object that is allocated (or
    static). Allocation gives an object that was not, freeing takes one away,
    nothing else changes the set. *)
Class ProcEnvLaws (W : Type) {PE : ProcEnv W} := {
  live : W -> Z -> Prop;
  law_alloc_process w a w' : pe_alloc_process w = Ret (a, w') ->
    a <> 0 /\ ~ live w a /\ forall x, live w' x <-> live w x \/ x = a;
  law_alloc_thread w a w' : pe_alloc_thread w = Ret (a, w') ->
    a <> 0 /\ ~ live w a /\ forall x, live w' x <-> live w x \/ x = a;
  law_free_process p w w' : pe_free_process p w = Ret w' -> forall x, live w' x <-> live w x /\ x <> p;
  law_free_thread t w w' : pe_free_thread t w = Ret w' -> forall x, live w' x <-> live w x /\ x <> t;
  law_StrDup n m w a w' : pe_StrDup n m w = Ret (a, w') -> forall x, live w' x <-> live w x;
  law_MemKFree a w w' : pe_MemKFree a w = Ret w' -> forall x, live w' x <-> live w x;
  law_MemPhysicalAlloc n z w p w' : pe_MemPhysicalAlloc n z w = Ret (p, w') -> forall x, live w' x <-> live w x;
  law_MemPhysicalFree p n w w' : pe_MemPhysicalFree p n w = Ret w' -> forall x, live w' x <-> live w x;
  law_MemContextClone s w a c w' : pe_MemContextClone s w = Ret (a, c, w') -> forall x, live w' x <-> live w x;
  law_free_pages c w w' : pe_free_pages c w = Ret w' -> forall x, live w' x <-> live w x;
  law_IoContextClone a w b w' : pe_IoContextClone a w = Ret (b, w') -> forall x, live w' x <-> live w x;
  law_IoContextDeleteReference a w w' : pe_IoContextDeleteReference a w = Ret w' -> forall x, live w' x <-> live w x
}.

(** The memory manager and the open files never refuse to take something back. *)
Class ProcEnvTotal (W : Type) {PE : ProcEnv W} := {
  total_free_process p w : exists w', pe_free_process p w = Ret w';
  total_free_thread t w : exists w', pe_free_thread t w = Ret w';
  total_MemKFree a w : exists w', pe_MemKFree a w = Ret w';
  total_MemPhysicalFree p n w : exists w', pe_MemPhysicalFree p n w = Ret w';
  total_free_pages c w : exists w', pe_free_pages c w = Ret w';
  total_IoContextDeleteReference a w : exists w', pe_IoContextDeleteReference a w = Ret w'
}.

(** There is memory left for what a fork needs. *)
Class ProcEnvAlloc (W : Type) {PE : ProcEnv W} := {
  total_alloc_process w : exists a w', pe_alloc_process w = Ret (a, w');
  total_alloc_thread w : exists a w', pe_alloc_thread w = Ret (a, w');
  total_StrDup n m w : exists a w', pe_StrDup n m w = Ret (a, w');
  total_MemPhysicalAlloc n z w : exists p w', pe_MemPhysicalAlloc n z w = Ret (p, w');
  total_MemContextClone s w : exists a c w', pe_MemContextClone s w = Ret (a, c, w');
  total_IoContextClone a w : exists b w', pe_IoContextClone a w = Ret (b, w')
}.

(** ** The invariant *)

Record tables_ok (hp ht : gmap Z Z) (s : sys) (alive : Z -> Prop) : Prop := {
  t_pid : forall i p, hp !! i = Some p <-> exists cs ts, plists s p = Some (i, cs, ts);
  t_tid : forall i t, ht !! i = Some t <-> exists p, tids s t = Some (i, p);
  t_member : forall p i cs ts t, plists s p = Some (i, cs, ts) -> t ∈ ts <-> exists j, tids s t = Some (j, p);
  t_nodup : forall p i cs ts, plists s p = Some (i, cs, ts) -> NoDup ts /\ NoDup cs;
  t_parent : forall t j p, tids s t = Some (j, p) -> is_Some (plists s p);
  t_children : forall p i cs ts c, plists s p = Some (i, cs, ts) -> c ∈ cs -> is_Some (plists s c);
  t_one_list : forall p i cs ts q j cs' ts' c, plists s p = Some (i, cs, ts) -> plists s q = Some (j, cs', ts') ->
    c ∈ cs -> c ∈ cs' -> p = q;
  t_live_process : forall p, is_Some (plists s p) -> alive p /\ p <> 0;
  t_live_thread : forall t, is_Some (tids s t) -> alive t /\ t <> 0 /\ plists s t = None
}.

Lemma tables_ok_ext hp ht s s' alive alive' :
  ids_kept s s' -> (forall x, alive' x <-> alive x) -> tables_ok hp ht s alive -> tables_ok hp ht s' alive'.
Proof.
  intros [Ht Hp] Ha [].
  split; intros; repeat setoid_rewrite Ht in H; repeat setoid_rewrite Hp in H; repeat setoid_rewrite Ht;
    repeat setoid_rewrite Hp; rewrite ?Ha; eauto.
  setoid_rewrite Hp in H0. eauto.
Qed.

(** *** The lists after an update *)

Lemma plists_insert s a pr q :
  plists (set_process s (<[a := pr]> (process s))) q = if decide (a = q) then Some (proc_lists pr) else plists s q.
Proof. unfold plists. simpl. destruct (decide (a = q)) as [<-|]; [by rewrite lookup_insert_eq|by rewrite lookup_insert_ne]. Qed.

Lemma tids_insert s a th q :
  tids (set_thread s (<[a := th]> (thread s))) q = if decide (a = q) then Some (thread_ids th) else tids s q.
Proof. unfold tids. simpl. destruct (decide (a = q)) as [<-|]; [by rewrite lookup_insert_eq|by rewrite lookup_insert_ne]. Qed.

Lemma plists_upd_process p f s s' :
  upd_process p f s = Ret s' ->
  exists pr, process s !! p = Some pr /\ (forall t, tids s' t = tids s t) /\
    forall q, plists s' q = if decide (p = q) then Some (proc_lists (f pr)) else plists s q.
Proof.
  unfold upd_process, get_process. intros H. ret_inv. exists x. split_and!; [done|done|].
  intros q. apply plists_insert.
Qed.

Lemma plists_Some s p i cs ts : plists s p = Some (i, cs, ts) <->
  exists pr, process s !! p = Some pr /\ pid pr = i /\ children pr = cs /\ threads pr = ts.
Proof.
  unfold plists, proc_lists. destruct (process s !! p) as [pr|]; simpl; split.
  - intros [= <- <- <-]. eauto.
  - intros (pr' & [= <-] & <- & <- & <-). done.
  - done.
  - by intros (? & ? & _).
Qed.

Lemma plists_of s p pr : process s !! p = Some pr -> plists s p = Some (pid pr, children pr, threads pr).
Proof. intros H. apply plists_Some. eauto. Qed.

Lemma tids_of s t th : thread s !! t = Some th -> tids s t = Some (tid th, parent th).
Proof. intros H. unfold tids. by rewrite H. Qed.

(** *** Ids *)

Lemma alloc_id_Ret f h item next id h' next' :
  alloc_id f h item next = Ret (id, h', next') -> h !! id = None /\ h' = <[id := item]> h.
Proof.
  revert next. induction f as [|f IH]; intros next H; simpl in H; [done|].
  destruct (h !! next) eqn:E; [by eapply IH|]. ret_inv. done.
Qed.

(** *** Creating *)

Section Invariant.
Context {K : Machine} {W : Type} {PE : ProcEnv W} {PL : ProcEnvLaws W}.

(** A new process with empty lists. *)
Lemma tables_new_process hp ht s alive alive' a id pr :
  tables_ok hp ht s alive -> ~ alive a -> a <> 0 -> (forall x, alive' x <-> alive x \/ x = a) ->
  hp !! id = None -> proc_lists pr = (id, [], []) ->
  tables_ok (<[id := a]> hp) ht (set_process s (<[a := pr]> (process s))) alive'.
Proof.
  intros Hok Ha Ha0 Hl Hid Hpr.
  assert (plists s a = None) as Hpa.
  { destruct (plists s a) eqn:E; [|done]. destruct (t_live_process _ _ _ _ Hok a); [by eexists|done]. }
  assert (tids s a = None) as Hta.
  { destruct (tids s a) eqn:E; [|done]. destruct (t_live_thread _ _ _ _ Hok a); [by eexists|done]. }
  destruct Hok. split; intros *; rewrite ?plists_insert, ?Hpr; unfold tids in *; simpl in *.
  - destruct (decide (id = i)) as [<-|Hi].
    + rewrite lookup_insert_eq. destruct (decide (a = p)) as [<-|]; [split; eauto|].
      split; [intros [= ->]; done|intros (cs & ts & E)]. assert (hp !! id = Some p) by (apply t_pid0; eauto). congruence.
    + rewrite lookup_insert_ne by done. destruct (decide (a = p)) as [<-|]; [|done]. split; [|by intros (? & ? & [= ])].
      intros E. apply t_pid0 in E as (? & ? & E). congruence.
  - done.
  - destruct (decide (a = p)) as [<-|]; [|apply t_member0]. intros [= <- <- <-].
    split; [by intros ?%not_elem_of_nil|]. intros (j & E). apply t_parent0 in E as [? E]. congruence.
  - destruct (decide (a = p)) as [<-|]; [intros [= <- <- <-]; split; constructor|apply t_nodup0].
  - destruct (decide (a = p)) as [<-|]; [by eexists|apply t_parent0].
  - intros Hp Hc. destruct (decide (a = c)) as [<-|]; [by eexists|].
    destruct (decide (a = p)) as [<-|]; [|by eapply t_children0]. simplify_eq. by apply not_elem_of_nil in Hc.
  - destruct (decide (a = p)) as [<-|], (decide (a = q)) as [<-|]; try done; [| |apply t_one_list0].
    + by intros [= <- <- <-] _ ?%not_elem_of_nil.
    + by intros _ [= <- <- <-] _ ?%not_elem_of_nil.
  - destruct (decide (a = p)) as [<-|]; intros Hp; rewrite Hl; [split; [by right|done]|].
    destruct (t_live_process0 p Hp). split; [by left|done].
  - intros Hx. destruct (t_live_thread0 t Hx) as (H1 & H2 & H3). rewrite Hl. destruct (decide (a = t)) as [<-|]; [done|].
    split_and!; [by left|done..].
Qed.

(** A process on no list joins the children of another. *)
Lemma tables_add_child hp ht s s' alive p a :
  tables_ok hp ht s alive -> is_Some (plists s a) ->
  (forall q i cs ts, plists s q = Some (i, cs, ts) -> a ∉ cs) ->
  upd_process p (fun pp => set_children pp (children pp ++ [a])) s = Ret s' -> tables_ok hp ht s' alive.
Proof.
  intros Hok Ha Hno H. apply plists_upd_process in H as (pr & Hpr & Ht & Hq).
  apply plists_of in Hpr as Hpl.
  assert (forall q, is_Some (plists s' q) <-> is_Some (plists s q)) as Hs.
  { intros q. rewrite Hq. destruct (decide (p = q)) as [<-|]; [|done]. rewrite Hpl. split; by eexists. }
  assert (forall q i cs ts, plists s' q = Some (i, cs, ts) -> exists cs0, plists s q = Some (i, cs0, ts) /\
    (cs = cs0 \/ (q = p /\ cs = cs0 ++ [a]))) as Hinv.
  { intros q i cs ts. rewrite Hq. destruct (decide (p = q)) as [<-|]; [|by eauto]. intros [= <- <- <-]. eauto. }
  destruct Hok. split; intros *; rewrite ?Ht; rewrite ?Hs.
  - rewrite t_pid0. rewrite Hq. destruct (decide (p = p0)) as [<-|]; [|done]. rewrite Hpl. unfold proc_lists. simpl.
    split; intros (? & ? & [= <- <- <-]); eauto.
  - done.
  - intros (cs0 & E & _)%Hinv. by eapply t_member0.
  - intros (cs0 & E & Hcs)%Hinv. destruct (t_nodup0 _ _ _ _ E) as [H1 H2]. split; [done|].
    destruct Hcs as [->|[-> ->]]; [done|]. apply NoDup_app. split_and!; [done| |apply NoDup_singleton].
    intros x Hx ->%list_elem_of_singleton. by eapply Hno.
  - apply t_parent0.
  - intros (cs0 & E & Hcs)%Hinv Hc. destruct Hcs as [->|[-> ->]]; [by eapply t_children0|].
    apply elem_of_app in Hc as [Hc| ->%list_elem_of_singleton]; [by eapply t_children0|done].
  - intros (cs0 & E & Hcs)%Hinv (cs1 & E1 & Hcs1)%Hinv H1 H2.
    assert (forall (q q' : Z) i cs cs' ts, plists s q' = Some (i, cs, ts) -> (cs' = cs \/ (q' = p /\ cs' = cs ++ [a])) ->
      c ∈ cs' -> c ∈ cs \/ (c = a /\ q' = p)) as Hmem.
    { intros ?????? _ [->|[-> ->]] Hc; [by left|]. apply elem_of_app in Hc as [|Hc%list_elem_of_singleton]; eauto. }
    destruct (Hmem 0 _ _ _ _ _ E Hcs H1) as [M1|[M1 M1']], (Hmem 0 _ _ _ _ _ E1 Hcs1 H2) as [M2|[M2 M2']].
    + by eapply t_one_list0.
    + subst. by apply Hno in E.
    + subst. by apply Hno in E1.
    + congruence.
  - apply t_live_process0.
  - intros Hx. destruct (t_live_thread0 t Hx) as (? & ? & E). split_and!; [done..|]. rewrite Hq.
    destruct (decide (p = t)) as [<-|]; [congruence|done].
Qed.

(** A new thread at the end of its process's list. *)
Lemma tables_new_thread hp ht s s1 alive alive' a id p th :
  tables_ok hp ht s alive -> ~ alive a -> a <> 0 -> (forall x, alive' x <-> alive x \/ x = a) ->
  ht !! id = None -> thread_ids th = (id, p) ->
  upd_process p (fun pp => set_threads pp (threads pp ++ [a])) s = Ret s1 ->
  tables_ok hp (<[id := a]> ht) (set_thread s1 (<[a := th]> (thread s1))) alive'.
Proof.
  intros Hok Ha Ha0 Hl Hid Hth H. apply plists_upd_process in H as (pr & Hpr & Ht & Hq). apply plists_of in Hpr as Hpl.
  set (s2 := set_thread s1 _).
  assert (forall t, tids s2 t = if decide (a = t) then Some (id, p) else tids s t) as Ht2.
  { intros t. unfold s2. by rewrite tids_insert, Hth, Ht. }
  assert (plists s a = None) as Hpa.
  { destruct (plists s a) eqn:E; [|done]. destruct (t_live_process _ _ _ _ Hok a); [by eexists|done]. }
  assert (tids s a = None) as Hta.
  { destruct (tids s a) eqn:E; [|done]. destruct (t_live_thread _ _ _ _ Hok a); [by eexists|done]. }
  assert (forall q, is_Some (plists s2 q) <-> is_Some (plists s q)) as Hs.
  { intros q. change (plists s2 q) with (plists s1 q). rewrite Hq. destruct (decide (p = q)) as [<-|]; [|done].
    rewrite Hpl. split; by eexists. }
  assert (forall q i cs ts, plists s2 q = Some (i, cs, ts) -> exists ts0, plists s q = Some (i, cs, ts0) /\
    ((q <> p /\ ts = ts0) \/ (q = p /\ ts = ts0 ++ [a]))) as Hinv.
  { intros q i cs ts. change (plists s2 q) with (plists s1 q). rewrite Hq.
    destruct (decide (p = q)) as [<-|]; [|by eauto]. intros [= <- <- <-]. eauto 6. }
  destruct Hok. split; intros *; rewrite ?Hs; rewrite ?Ht2.
  - rewrite t_pid0. change (plists s2 p0) with (plists s1 p0). rewrite Hq. destruct (decide (p = p0)) as [<-|]; [|done].
    rewrite Hpl. unfold proc_lists. simpl. split; intros (? & ? & [= <- <- <-]); eauto.
  - destruct (decide (id = i)) as [<-|Hi].
    + rewrite lookup_insert_eq. destruct (decide (a = t)) as [<-|]; [split; eauto|].
      split; [intros [= ->]; done|intros (q & E)]. assert (ht !! id = Some t) by (apply t_tid0; eauto). congruence.
    + rewrite lookup_insert_ne by done. destruct (decide (a = t)) as [<-|]; [|done]. split; [|by intros (? & [= ])].
      intros E. apply t_tid0 in E as (? & E). congruence.
  - intros (ts0 & E & Hts)%Hinv. specialize (t_member0 _ _ _ _ t E). destruct (decide (a = t)) as [<-|].
    + destruct Hts as [[Hn ->]|[-> ->]].
      * split; [intros Hin%t_member0; destruct Hin; congruence|]. intros (j & [= <- <-]). done.
      * split; [eauto|]. intros _. apply elem_of_app. right. by apply list_elem_of_singleton.
    + rewrite <- t_member0. destruct Hts as [[Hn ->]|[-> ->]]; [done|]. rewrite elem_of_app, list_elem_of_singleton.
      split; [|by left]. by intros [|].
  - intros (ts0 & E & Hts)%Hinv. destruct (t_nodup0 _ _ _ _ E) as [H1 H2]. split; [|done].
    destruct Hts as [[_ ->]|[_ ->]]; [done|]. apply NoDup_app. split_and!; [done| |apply NoDup_singleton].
    intros x Hx ->%list_elem_of_singleton. apply (t_member0 _ _ _ _ a E) in Hx as [? ?]. congruence.
  - destruct (decide (a = t)) as [<-|]; [|apply t_parent0]. intros [= <- <-]. rewrite Hpl. by eexists.
  - intros (ts0 & E & _)%Hinv. by eapply t_children0.
  - intros (ts0 & E & _)%Hinv (ts1 & E1 & _)%Hinv. by eapply t_one_list0.
  - intros Hp. destruct (t_live_process0 _ Hp). rewrite Hl. split; [by left|done].
  - destruct (decide (a = t)) as [<-|].
    + intros _. rewrite Hl. split_and!; [by right|done|]. apply eq_None_not_Some. rewrite Hs, Hpa. by intros [].
    + intros Hx. destruct (t_live_thread0 _ Hx) as (? & ? & E). rewrite Hl. split_and!; [by left|done|].
      apply eq_None_not_Some. rewrite Hs, E. by intros [].
Qed.

(** *** Removing *)

Lemma plists_unlink_thread s t q :
  plists (set_process s (unlink_thread t (process s))) q =
  (fun '(i, cs, ts) => (i, cs, filter (fun x => x <> t) ts)) <$> plists s q.
Proof. unfold plists, unlink_thread. simpl. rewrite lookup_fmap. by destruct (process s !! q). Qed.

Lemma plists_unlink_child s c q :
  plists (set_process s (unlink_child c (process s))) q =
  (fun '(i, cs, ts) => (i, filter (fun x => x <> c) cs, ts)) <$> plists s q.
Proof. unfold plists, unlink_child. simpl. rewrite lookup_fmap. by destruct (process s !! q). Qed.

(** The thread leaves the table, its list and the threads. *)
Lemma tables_drop_thread hp ht s alive alive' t i p :
  tables_ok hp ht s alive -> tids s t = Some (i, p) -> (forall x, alive' x <-> alive x /\ x <> t) ->
  let s1 := set_process s (unlink_thread t (process s)) in
  tables_ok hp (remove_item ht i t) (set_thread s1 (delete t (thread s1))) alive'.
Proof.
  intros Hok Hti Hl s1. set (s2 := set_thread s1 _).
  assert (forall u, tids s2 u = if decide (t = u) then None else tids s u) as Ht.
  { intros u. unfold s2, s1, tids. simpl. destruct (decide (t = u)) as [<-|]; [by rewrite lookup_delete_eq|by rewrite lookup_delete_ne]. }
  assert (forall q, plists s2 q = (fun '(i, cs, ts) => (i, cs, filter (fun x => x <> t) ts)) <$> plists s q) as Hq
    by (intros q; apply plists_unlink_thread).
  assert (forall q, is_Some (plists s2 q) <-> is_Some (plists s q)) as Hs by (intros q; by rewrite Hq, fmap_is_Some).
  assert (forall q i cs ts, plists s2 q = Some (i, cs, ts) ->
    exists ts0, plists s q = Some (i, cs, ts0) /\ ts = filter (fun x => x <> t) ts0) as Hinv.
  { intros q j cs ts. rewrite Hq. intros ([[j0 cs0] ts0] & E & [= -> -> ->])%fmap_Some. eauto. }
  destruct Hok. unfold remove_item. rewrite bool_decide_true by (apply t_tid0; eauto).
  split; intros *; rewrite ?Hs; rewrite ?Ht.
  - rewrite t_pid0, Hq. split; [intros (cs & ts & ->); simpl; eauto|].
    intros (cs & ts & ([[j0 cs0] ts0] & E & [= -> -> ->])%fmap_Some). eauto.
  - destruct (decide (i = i0)) as [<-|Hi].
    + rewrite lookup_delete_eq. split; [done|]. intros (q & E). destruct (decide (t = t0)) as [<-|]; [done|].
      assert (ht !! i = Some t0) by (apply t_tid0; eauto). assert (ht !! i = Some t) by (apply t_tid0; eauto). congruence.
    + rewrite lookup_delete_ne by done. destruct (decide (t = t0)) as [<-|]; [|done]. split; [|by intros (? & ?)].
      intros E. apply t_tid0 in E as (? & E). congruence.
  - intros (ts0 & E & ->)%Hinv. rewrite list_elem_of_filter, (t_member0 _ _ _ _ t0 E).
    destruct (decide (t = t0)) as [<-|]; [by split; [intros [? _]|intros (? & ?)]|]. split; [by intros [_ ?]|by split].
  - intros (ts0 & E & ->)%Hinv. destruct (t_nodup0 _ _ _ _ E). split; [by apply NoDup_filter|done].
  - destruct (decide (t = t0)) as [<-|]; [done|apply t_parent0].
  - intros (ts0 & E & ->)%Hinv. by eapply t_children0.
  - intros (ts0 & E & ->)%Hinv (ts1 & E1 & ->)%Hinv. by eapply t_one_list0.
  - intros Hp. destruct (t_live_process0 _ Hp). rewrite Hl. split_and!; [done| |done].
    intros ->. destruct (t_live_thread0 t) as (_ & _ & E); [by eexists|]. rewrite E in Hp. by destruct Hp.
  - destruct (decide (t = t0)) as [<-|]; [by intros []|]. intros Hx. destruct (t_live_thread0 _ Hx) as (? & ? & E).
    rewrite Hl. split_and!; [done..|]. apply eq_None_not_Some. rewrite Hs, E. by intros [].
Qed.

(** A process without threads and children leaves everything. *)
Lemma tables_drop_process hp ht s alive alive' p i :
  tables_ok hp ht s alive -> plists s p = Some (i, [], []) -> (forall x, alive' x <-> alive x /\ x <> p) ->
  let s1 := set_process s (unlink_child p (process s)) in
  tables_ok (remove_item hp i p) ht (set_process s1 (delete p (process s1))) alive'.
Proof.
  intros Hok Hpi Hl s1. set (s2 := set_process s1 _).
  assert (forall q, plists s2 q = if decide (p = q) then None else
    (fun '(i, cs, ts) => (i, filter (fun x => x <> p) cs, ts)) <$> plists s q) as Hq.
  { intros q. rewrite <- plists_unlink_child. unfold s2, s1, plists. simpl.
    destruct (decide (p = q)) as [<-|]; [by rewrite lookup_delete_eq|by rewrite lookup_delete_ne]. }
  assert (forall q, q <> p -> is_Some (plists s q) -> is_Some (plists s2 q)) as Hs.
  { intros q Hn. rewrite Hq. destruct (decide (p = q)) as [<-|]; [done|]. by rewrite fmap_is_Some. }
  assert (forall q i cs ts, plists s2 q = Some (i, cs, ts) ->
    q <> p /\ exists cs0, plists s q = Some (i, cs0, ts) /\ cs = filter (fun x => x <> p) cs0) as Hinv.
  { intros q j cs ts. rewrite Hq. destruct (decide (p = q)) as [<-|]; [done|].
    intros ([[j0 cs0] ts0] & E & [= -> -> ->])%fmap_Some. eauto. }
  assert (forall t, tids s2 t = tids s t) as Ht by done.
  destruct Hok. unfold remove_item. rewrite bool_decide_true by (apply t_pid0; eauto).
  split; intros *; rewrite ?Ht.
  - destruct (decide (i = i0)) as [<-|Hi].
    + rewrite lookup_delete_eq. split; [done|]. intros (cs & ts & (Hn & cs0 & E & ->)%Hinv).
      assert (hp !! i = Some p0) by (apply t_pid0; eauto). assert (hp !! i = Some p) by (apply t_pid0; eauto). congruence.
    + rewrite lookup_delete_ne by done. rewrite t_pid0, Hq. destruct (decide (p = p0)) as [<-|].
      * split; [|by intros (? & ? & ?)]. intros (? & ? & E). congruence.
      * split; [intros (cs & ts & ->); simpl; eauto|]. intros (cs & ts & ([[j0 cs0] ts0] & E & [= -> -> ->])%fmap_Some). eauto.
  - done.
  - intros (Hn & cs0 & E & ->)%Hinv. by eapply t_member0.
  - intros (Hn & cs0 & E & ->)%Hinv. destruct (t_nodup0 _ _ _ _ E). split; [done|by apply NoDup_filter].
  - intros E. apply Hs; [|by eapply t_parent0]. intros ->.
    assert (t ∈ []) by (apply (t_member0 _ _ _ _ t Hpi); eauto). by eapply not_elem_of_nil.
  - intros (Hn & cs0 & E & ->)%Hinv. rewrite list_elem_of_filter. intros [Hc Hin]. apply Hs; [done|by eapply t_children0].
  - intros (Hn & cs0 & E & ->)%Hinv (Hn1 & cs1 & E1 & ->)%Hinv. rewrite !list_elem_of_filter. intros [_ H1] [_ H2].
    by eapply t_one_list0.
  - intros [[[j cs] ts] (Hn & cs0 & E & ->)%Hinv]. rewrite Hl. destruct (t_live_process0 p0) as [? ?]; [by eexists|]. done.
  - intros Hx. destruct (t_live_thread0 _ Hx) as (? & ? & E). rewrite Hl. split_and!; [done| |done|].
    + intros ->. congruence.
    + rewrite Hq. rewrite E. by destruct (decide (p = t)).
Qed.

(** The children of [p] move to the end of [q]'s list. *)
Lemma tables_move_children hp ht s s1 s2 alive p q l :
  tables_ok hp ht s alive -> p <> q -> (exists pr, process s !! p = Some pr /\ children pr = l) ->
  upd_process p (fun x => set_children x []) s = Ret s1 ->
  upd_process q (fun x => set_children x (children x ++ l)) s1 = Ret s2 ->
  tables_ok hp ht s2 alive /\ (forall r, plists s2 r = if decide (p = r) then (fun '(i, _, ts) => (i, [], ts)) <$> plists s r else
    if decide (q = r) then (fun '(i, cs, ts) => (i, cs ++ l, ts)) <$> plists s r else plists s r).
Proof.
  intros Hok Hpq (pr & Hpr & <-) (pr' & Hpr' & Ht1 & Hq1)%plists_upd_process (qr & Hqr & Ht2 & Hq2)%plists_upd_process.
  replace pr' with pr in * by congruence. clear Hpr'. apply plists_of in Hpr as Hpl. apply plists_of in Hqr as Hql.
  rewrite Hq1, decide_False in Hql by done.
  assert (forall r, plists s2 r = if decide (p = r) then (fun '(i, _, ts) => (i, [], ts)) <$> plists s r else
    if decide (q = r) then (fun '(i, cs, ts) => (i, cs ++ children pr, ts)) <$> plists s r else plists s r) as Hr.
  { intros r. rewrite Hq2, Hq1. destruct (decide (q = r)) as [<-|].
    - rewrite decide_False by done. by rewrite Hql.
    - destruct (decide (p = r)) as [<-|]; [by rewrite Hpl|done]. }
  split; [|done].
  assert (forall r, is_Some (plists s2 r) <-> is_Some (plists s r)) as Hs.
  { intros r. rewrite Hr. destruct (decide (p = r)); [by rewrite fmap_is_Some|].
    destruct (decide (q = r)); [by rewrite fmap_is_Some|done]. }
  assert (forall t, tids s2 t = tids s t) as Ht by (intros t; by rewrite Ht2, Ht1).
  assert (forall r i cs ts, plists s2 r = Some (i, cs, ts) -> exists cs0, plists s r = Some (i, cs0, ts) /\
    ((r = p /\ cs = []) \/ (r = q /\ cs = cs0 ++ children pr) \/ (r <> p /\ r <> q /\ cs = cs0))) as Hinv.
  { intros r i cs ts. rewrite Hr. destruct (decide (p = r)) as [<-|].
    - intros ([[j0 cs0] ts0] & E & [= -> -> ->])%fmap_Some. eauto 6.
    - destruct (decide (q = r)) as [<-|]; [|by eauto 8]. intros ([[j0 cs0] ts0] & E & [= -> -> ->])%fmap_Some. eauto 7. }
  (* where a child of the new lists came from *)
  assert (forall r i cs ts c, plists s2 r = Some (i, cs, ts) -> c ∈ cs ->
    exists r0 i0 cs0 ts0, plists s r0 = Some (i0, cs0, ts0) /\ c ∈ cs0 /\ (r0 = p -> r = q) /\ (r0 <> p -> r = r0)) as Hfrom.
  { intros r i cs ts c (cs0 & E & [[-> ->]|[[-> ->]|(N1 & N2 & ->)]])%Hinv Hc; [by apply not_elem_of_nil in Hc| |].
    - apply elem_of_app in Hc as [Hc|Hc]; [exists q, i, cs0, ts; split_and!; auto; congruence|].
      eexists p, _, _, _. split_and!; [exact Hpl|done|done|done].
    - exists r, i, cs0, ts. by split_and!. }
  destruct Hok. split; intros *; rewrite ?Hs, ?Ht.
  - rewrite t_pid0, Hr. destruct (decide (p = p0)) as [<-|]; [|destruct (decide (q = p0)) as [<-|]; [|done]];
      rewrite ?Hpl, ?Hql; simpl; split; intros (? & ? & [= <- <- <-]); eauto.
  - done.
  - intros (cs0 & E & _)%Hinv. by eapply t_member0.
  - intros (cs0 & E & Hc)%Hinv. destruct (t_nodup0 _ _ _ _ E) as [H1 H2]. split; [done|].
    destruct Hc as [[-> ->]|[[-> ->]|(_ & _ & ->)]]; [constructor| |done].
    apply NoDup_app. split_and!; [done| |by destruct (t_nodup0 _ _ _ _ Hpl)].
    intros x Hx1 Hx2. apply Hpq. by eapply t_one_list0.
  - apply t_parent0.
  - intros E Hc. destruct (Hfrom _ _ _ _ _ E Hc) as (r0 & ? & ? & ? & E0 & Hc0 & _). by eapply t_children0.
  - intros E E' H1 H2. destruct (Hfrom _ _ _ _ _ E H1) as (r0 & ? & ? & ? & E0 & Hc0 & A1 & B1).
    destruct (Hfrom _ _ _ _ _ E' H2) as (r1 & ? & ? & ? & E1 & Hc1 & A2 & B2).
    assert (r0 = r1) as <- by (by eapply t_one_list0). destruct (decide (r0 = p)) as [->|Hn].
    + by rewrite A1, A2.
    + by rewrite B1, B2.
  - apply t_live_process0.
  - intros Hx. destruct (t_live_thread0 _ Hx) as (? & ? & E). split_and!; [done..|].
    apply eq_None_not_Some. rewrite Hs, E. by intros [].
Qed.

Lemma ProcDisownChildren_tables hp ht s s' alive p i cs ts :
  tables_ok hp ht s alive -> plists s p = Some (i, cs, ts) -> ProcDisownChildren p s = Ret s' ->
  tables_ok hp ht s' alive /\ plists s' p = Some (i, [], ts) /\ (forall t, tids s' t = tids s t).
Proof.
  intros Hok Hp H. apply plists_Some in Hp as (pr & Hp & Hi & Hc & Hts). unfold ProcDisownChildren, get_process in H.
  rewrite Hp in H. simpl in H. rewrite Hc in H. destruct cs as [|c cs].
  - ret_inv. split_and!; [done| |done]. apply plists_Some. exists pr. by split_and!.
  - destruct (Z.eqb_spec p ProcKernelProcess); [done|]. apply bind_Ret_inv in H as (s1 & H1 & H).
    destruct (tables_move_children hp ht s s1 s' alive p ProcKernelProcess (c :: cs)) as [Hok' Hl]; eauto.
    split_and!; [done| |].
    + rewrite Hl, decide_True by done. by rewrite (plists_of _ _ _ Hp), <- Hi, <- Hts.
    + apply plists_upd_process in H1 as (? & ? & Ht1 & _), H as (? & ? & Ht & _). intros t. by rewrite Ht, Ht1.
Qed.

(** ** The operations *)

Definition proc_inv (st : procs) (w : W) : Prop :=
  tables_ok (hTableProcess st) (hTableThread st) (psys st) (live w).

Lemma ProcCreateProcess_inv fuel name par st w a st' w' :
  proc_inv st w -> ProcCreateProcess fuel name par st w = Ret (a, st', w') -> proc_inv st' w'.
Proof.
  unfold proc_inv, ProcCreateProcess. intros Hi H.
  apply bind_Ret_inv in H as ([a1 w1] & Ha & H). apply bind_Ret_inv in H as ([[id h] nx] & Hid & H).
  apply bind_Ret_inv in H as ([nm w2] & Hn & H). apply bind_Ret_inv in H as (s2 & Hs & H).
  apply Ret_inj, pair_equal_spec in H as [[-> <-]%pair_equal_spec ->]. simpl.
  apply law_alloc_process in Ha as (H0 & Hna & Hl). apply alloc_id_Ret in Hid as [Hid ->].
  pose proof (law_StrDup _ _ _ _ _ Hn) as Hn'.
  eapply (tables_ok_ext _ _ s2); [done|exact Hn'|].
  assert (plists (psys st) a = None) as Hpa.
  { destruct (plists (psys st) a) eqn:E; [|done]. destruct (t_live_process _ _ _ _ Hi a); [by eexists|done]. }
  pose proof (fun pr => tables_new_process _ _ _ _ _ a id pr Hi Hna H0 Hl Hid) as Hnew.
  destruct (par =? 0).
  - ret_inv. by apply Hnew.
  - refine (tables_add_child _ _ _ _ _ _ _ _ _ _ Hs); [by apply Hnew| |].
    + rewrite plists_insert, decide_True by done. by eexists.
    + intros q i cs ts. rewrite plists_insert. destruct (decide (a = q)) as [<-|].
      * intros [= <- <- <-]. by apply not_elem_of_nil.
      * intros E Hin. apply (t_children _ _ _ _ Hi _ _ _ _ _ E) in Hin. rewrite Hpa in Hin. by destruct Hin.
Qed.

Lemma ProcCreateRawThread_inv fuel name par withStack st w a st' w' :
  proc_inv st w -> ProcCreateRawThread fuel name par withStack st w = Ret (a, st', w') -> proc_inv st' w'.
Proof.
  unfold proc_inv, ProcCreateRawThread. intros Hi H.
  apply bind_Ret_inv in H as ([a1 w1] & Ha & H). apply bind_Ret_inv in H as ([[id h] nx] & Hid & H).
  apply bind_Ret_inv in H as (s1 & Hs & H). apply bind_Ret_inv in H as ([nm w2] & Hn & H).
  apply bind_Ret_inv in H as ([[base m] w3] & Hb & H).
  apply Ret_inj, pair_equal_spec in H as [[-> <-]%pair_equal_spec ->]. simpl.
  apply law_alloc_thread in Ha as (H0 & Hna & Hl). apply alloc_id_Ret in Hid as [Hid ->].
  pose proof (law_StrDup _ _ _ _ _ Hn) as Hn'.
  assert (forall x, live w' x <-> live w2 x) as Hw.
  { destruct withStack; ret_inv; [|done]. by eapply law_MemPhysicalAlloc. }
  eapply (tables_new_thread _ _ (psys st) s1 (live w)); [done..| |done|done|exact Hs].
  intros x. by rewrite Hw, Hn', Hl.
Qed.

Lemma setup_stack_inv a ws st st' w : proc_inv st w -> setup_stack a ws st = Ret st' -> proc_inv st' w.
Proof.
  unfold proc_inv, setup_stack. intros Hi H. ret_inv. simpl in *. eapply tables_ok_ext; [|done|exact Hi]. ids_upd.
Qed.

Lemma ProcCreateUserThread_inv e fuel name par start stack st w a st' w' :
  proc_inv st w -> ProcCreateUserThread e fuel name par start stack st w = Ret (a, st', w') -> proc_inv st' w'.
Proof.
  unfold ProcCreateUserThread. intros Hi H. ret_inv. eapply setup_stack_inv; [|done]. by eapply ProcCreateRawThread_inv.
Qed.

Lemma ProcCreateKernelThread_inv r fuel name start arg st w a st' w' :
  proc_inv st w -> ProcCreateKernelThread r fuel name start arg st w = Ret (a, st', w') -> proc_inv st' w'.
Proof.
  unfold ProcCreateKernelThread. intros Hi H. ret_inv. eapply setup_stack_inv; [|done]. by eapply ProcCreateRawThread_inv.
Qed.

Lemma proc_inv_kept st st' w w' :
  proc_inv st w -> hTableProcess st' = hTableProcess st -> hTableThread st' = hTableThread st ->
  ids_kept (psys st) (psys st') -> (forall x, live w' x <-> live w x) -> proc_inv st' w'.
Proof. unfold proc_inv. intros Hi -> -> Hk Hl. by eapply tables_ok_ext. Qed.

Lemma ProcFork_inv e fuel start stack st w a st' w' :
  proc_inv st w -> ProcFork e fuel start stack st w = Ret (a, st', w') -> proc_inv st' w'.
Proof.
  unfold ProcFork. intros Hi H. destruct (_ =? _); [ret_inv; done|].
  apply bind_Ret_inv in H as (cp & Hcp & H). apply bind_Ret_inv in H as ([[np st1] w1] & H1 & H).
  apply bind_Ret_inv in H as ([[ctx c] w2] & H2 & H). apply bind_Ret_inv in H as ([ioc w3] & H3 & H).
  apply bind_Ret_inv in H as (s2 & H4 & H). apply bind_Ret_inv in H as (ct & _ & H).
  apply bind_Ret_inv in H as ([[nt st3] w4] & H5 & H). apply bind_Ret_inv in H as (ct' & _ & H).
  apply bind_Ret_inv in H as (s4 & H6 & H). apply bind_Ret_inv in H as (s5 & H7 & H). ret_inv.
  apply (ProcCreateProcess_inv _ _ _ _ _ _ _ _ Hi) in H1.
  assert (proc_inv (set_psys st1 s2) w3) as Hi2.
  { apply (proc_inv_kept st1 _ w1); [done..| |].
    - simpl. transitivity (set_memContexts (psys st1) (<[ctx := c]> (memContexts (psys st1)))); [by apply ids_same|ids_upd].
    - intros x. by rewrite (law_IoContextClone _ _ _ _ H3), (law_MemContextClone _ _ _ _ _ H2). }
  apply (ProcCreateUserThread_inv _ _ _ _ _ _ _ _ _ _ _ Hi2) in H5.
  apply (proc_inv_kept st3 _ w'); [done..| |done]. simpl. transitivity s4; [ids_upd|by apply (ids_ProcWakeUp nt)].
Qed.

(** *** Reaping *)

Lemma ProcIntReapThread_inv t st w st' w' :
  proc_inv st w -> ProcIntReapThread t st w = Ret (st', w') ->
  proc_inv st' w' /\ (forall u, tids (psys st') u = if decide (t = u) then None else tids (psys st) u) /\
  (forall q, plists (psys st') q =
     (fun '(i, cs, ts) => (i, cs, filter (fun x => x <> t) ts)) <$> plists (psys st) q).
Proof.
  unfold ProcIntReapThread. intros Hi H. destruct (_ =? _); [done|]. apply bind_Ret_inv in H as (th & Hth & H).
  destruct (negb _); [done|]. apply bind_Ret_inv in H as (s1 & H1 & H). apply bind_Ret_inv in H as (w1 & H2 & H).
  apply bind_Ret_inv in H as (w2 & H3 & H). apply bind_Ret_inv in H as (w3 & H4 & H).
  apply Ret_inj, pair_equal_spec in H as [<- ->]. apply ids_CpuFreeFpuState in H1.
  apply or_fault_inv, tids_of in Hth. unfold proc_inv. simpl. split_and!.
  - eapply (tables_drop_thread _ _ s1 (live w)); [|by rewrite (proj1 H1)|].
    + eapply tables_ok_ext; [exact H1|done|exact Hi].
    + intros x. by rewrite (law_free_thread _ _ _ H4), (law_MemKFree _ _ _ H3), (law_MemPhysicalFree _ _ _ _ H2).
  - intros u. rewrite <- (proj1 H1). unfold tids. simpl.
    destruct (decide (t = u)) as [<-|]; [by rewrite lookup_delete_eq|by rewrite lookup_delete_ne].
  - intros q. rewrite <- (proj2 H1). apply plists_unlink_thread.
Qed.

Lemma reap_threads_inv l st w st' w' :
  proc_inv st w -> reap_threads l st w = Ret (st', w') ->
  proc_inv st' w' /\ (forall q i cs ts, plists (psys st) q = Some (i, cs, ts) ->
    plists (psys st') q = Some (i, cs, filter (fun x => x ∉ l) ts)).
Proof.
  revert st w. induction l as [|t l IH]; intros st w Hi H; simpl in H.
  - ret_inv. split; [done|]. intros q i cs ts ->. do 2 f_equal. symmetry. apply filter_all.
    intros x _. by apply not_elem_of_nil.
  - apply bind_Ret_inv in H as ([st1 w1] & H1 & H). apply (ProcIntReapThread_inv _ _ _ _ _ Hi) in H1 as (Hi1 & _ & Hq).
    apply (IH _ _ Hi1) in H as [Hi' Hq']. split; [done|]. intros q i cs ts E.
    erewrite Hq' by (rewrite Hq, E; done). do 2 f_equal. rewrite list_filter_filter. apply list_filter_iff.
    intros x. rewrite not_elem_of_cons. tauto.
Qed.

Lemma ProcIntReapProcess_inv p st w st' w' :
  proc_inv st w -> ProcIntReapProcess p st w = Ret (st', w') ->
  proc_inv st' w' /\ process (psys st') !! p = None.
Proof.
  unfold ProcIntReapProcess. intros Hi H. apply bind_Ret_inv in H as (pr & Hpr & H). destruct (negb _); [done|].
  apply bind_Ret_inv in H as ([st1 w1] & H1 & H). apply bind_Ret_inv in H as (s2 & H2 & H).
  apply bind_Ret_inv in H as (w2 & H3 & H). apply bind_Ret_inv in H as (w3 & H4 & H).
  apply Ret_inj, pair_equal_spec in H as [<- ->].
  apply (reap_threads_inv _ _ _ _ _ Hi) in H1 as [Hi1 Hq].
  apply or_fault_inv, plists_of, Hq in Hpr.
  replace (filter _ (threads pr)) with (@nil Z) in Hpr.
  2: { symmetry. apply filter_none. tauto. }
  destruct (ProcDisownChildren_tables _ _ _ _ _ _ _ _ _ Hi1 Hpr H2) as (Hi2 & Hp2 & Ht2).
  split; [|simpl; by rewrite lookup_delete_eq].
  eapply (tables_drop_process _ _ s2 (live w1)); [exact Hi2|exact Hp2|].
  intros x. by rewrite (law_free_process _ _ _ H4), (law_MemKFree _ _ _ H3).
Qed.

(** *** Exiting *)

Lemma ids_wake_waiters m l s s' : wake_waiters m l s = Ret s' -> ids_kept s s'.
Proof.
  revert s. induction l as [|t l IH]; intros s H; simpl in H; [by ret_inv|].
  apply bind_Ret_inv in H as (th & _ & H). apply bind_Ret_inv in H as (s1 & H1 & H).
  transitivity s1; [|by apply IH]. destruct (_ && _); [by apply ids_ProcWakeUp in H1|by ret_inv].
Qed.

Lemma ids_kill_others l s s' : kill_others l s = Ret s' -> ids_kept s s'.
Proof.
  revert s. induction l as [|t l IH]; intros s H; simpl in H; [by ret_inv|].
  apply bind_Ret_inv in H as (s1 & H1 & H). transitivity s1; [|by apply IH].
  destruct (negb _); [by apply ids_ProcSignalSendThread in H1|by ret_inv].
Qed.

Lemma ids_notify_parent p s s' : notify_parent p s = Ret s' -> ids_kept s s'.
Proof.
  unfold notify_parent. intros H. apply bind_Ret_inv in H as (par & _ & H). apply bind_Ret_inv in H as (s1 & H1 & H).
  transitivity s1; [by apply ids_wake_waiters in H1|by apply ids_ProcSignalSendProcess in H].
Qed.

Lemma MemContextDeleteReference_kept c s w s' w' : MemContextDeleteReference c s w = Ret (s', w') ->
  ids_kept s s' /\ forall x, live w' x <-> live w x.
Proof.
  unfold MemContextDeleteReference, MemContextDelete. intros H. ret_inv; (split; [by apply ids_same|]); try done.
  by eapply law_free_pages.
Qed.

Lemma release_contexts_kept s w s' w' : release_contexts s w = Ret (s', w') ->
  ids_kept s s' /\ forall x, live w' x <-> live w x.
Proof.
  unfold release_contexts. intros H. apply bind_Ret_inv in H as (p & _ & H).
  apply bind_Ret_inv in H as ([s1 w1] & H1 & H). apply bind_Ret_inv in H as (p1 & _ & H).
  assert (ids_kept s s1 /\ forall x, live w1 x <-> live w x) as [Hk Hl].
  { clear H. destruct (negb _); [|by ret_inv]. apply bind_Ret_inv in H1 as (sa & Ha & H1).
    apply bind_Ret_inv in H1 as ([sb wb] & Hb & H1). apply bind_Ret_inv in H1 as (sc & Hc & H1). ret_inv.
    apply MemContextDeleteReference_kept in Hb as [Hb Hl]. split; [|done].
    transitivity sa; [by apply ids_MemContextSwitchTo in Ha|]. transitivity sb; [done|ids_upd]. }
  clear H1. destruct (negb _); ret_inv; [|done]. split.
  - transitivity s1; [done|ids_upd].
  - intros x. rewrite <- Hl. by eapply law_IoContextDeleteReference.
Qed.

Lemma exit_one_thread_inv code st w st' : proc_inv st w -> exit_one_thread code st = Ret st' -> proc_inv st' w.
Proof.
  unfold exit_one_thread. intros Hi H. apply bind_Ret_inv in H as (s1 & H1 & H).
  apply bind_Ret_inv in H as ([q s2] & H2 & H). apply bind_Ret_inv in H as (s3 & H3 & H).
  apply Ret_inj in H as <-.
  apply (proc_inv_kept st _ w); [done..| |done]. simpl. transitivity s1; [ids_upd|].
  transitivity s2; [|by apply ids_ProcIntSelfExit]. clear H1 H3. destruct (_ =? _); [by eapply ids_ProcIntReaperAdd|].
  ret_inv. by eapply ids_wake_waiters.
Qed.

Lemma exit_last_thread_inv st w st' w' : proc_inv st w -> exit_last_thread st w = Ret (st', w') -> proc_inv st' w'.
Proof.
  unfold exit_last_thread. intros Hi H. apply bind_Ret_inv in H as ([[r tm] s1] & H1 & H).
  apply bind_Ret_inv in H as (s2 & H2 & H). apply bind_Ret_inv in H as ([s3 w1] & H3 & H).
  apply bind_Ret_inv in H as (s4 & H4 & H). apply bind_Ret_inv in H as (s5 & H5 & H).
  apply bind_Ret_inv in H as (p & _ & H). apply bind_Ret_inv in H as ([q s6] & H6 & H).
  apply bind_Ret_inv in H as (s7 & H7 & H). apply Ret_inj, pair_equal_spec in H as [<- ->].
  unfold proc_inv in *. simpl. apply ids_TimerSetAlarm in H1.
  assert (exists pr, process s1 !! ProcCurrProcess s1 = Some pr) as (pr & Hpr).
  { unfold ProcDisownChildren, get_process in H2. apply bind_Ret_inv in H2 as (pr & ?%or_fault_inv & _). eauto. }
  apply plists_of in Hpr. apply release_contexts_kept in H3 as [H3 Hl].
  destruct (ProcDisownChildren_tables (hTableProcess st) (hTableThread st) s1 s2 (live w) _ _ _ _
    (tables_ok_ext _ _ _ _ _ _ H1 (fun x => iff_refl _) Hi) Hpr H2) as (Hi2 & _ & _).
  eapply tables_ok_ext; [|exact Hl|exact Hi2]. transitivity s3; [done|]. transitivity s4; [ids_upd|].
  transitivity s5; [ids_upd|]. transitivity s6; [|by apply ids_ProcIntSelfExit]. clear H4 H5 H7.
  destruct (_ =? _); [by eapply ids_ProcIntReaperAdd|]. ret_inv. by eapply ids_notify_parent.
Qed.

Lemma ProcExitProcess_inv code st w st' w' : proc_inv st w -> ProcExitProcess code st w = Ret (st', w') -> proc_inv st' w'.
Proof.
  unfold ProcExitProcess. intros Hi H. apply bind_Ret_inv in H as (s1 & H1 & H). apply bind_Ret_inv in H as (p & _ & H).
  assert (forall s, ids_kept s1 s -> proc_inv (set_psys st s) w) as Hs.
  { intros s Hs. apply (proc_inv_kept st _ w); [done..| |done]. simpl. transitivity s1; [ids_upd|done]. }
  destruct (several _); [|by apply (exit_last_thread_inv _ _ _ _ (Hs s1 (reflexivity _)) H)].
  apply bind_Ret_inv in H as (s2 & H2 & H). apply bind_Ret_inv in H as (st2 & H3 & H). ret_inv.
  apply ids_kill_others in H2. by apply (exit_one_thread_inv _ _ _ _ (Hs s2 H2) H3).
Qed.

Lemma ProcExitThread_inv code st w st' w' : proc_inv st w -> ProcExitThread code st w = Ret (st', w') -> proc_inv st' w'.
Proof.
  unfold ProcExitThread. intros Hi H. apply bind_Ret_inv in H as (p & _ & H).
  destruct (several _); [|by apply (ProcExitProcess_inv _ _ _ _ _ Hi H)]. ret_inv. by eapply exit_one_thread_inv.
Qed.

(** *** Waiting *)

Lemma wait_process_loop_inv n chosen options b st w r st' w' :
  proc_inv st w -> wait_process_loop n chosen options b st w = Ret (r, st', w') -> proc_inv st' w'.
Proof.
  revert b st. induction n as [|n IH]; intros b st Hi H; simpl in H; [done|].
  apply bind_Ret_inv in H as (found & _ & H). destruct found as [c|].
  - apply bind_Ret_inv in H as (p & _ & H). apply bind_Ret_inv in H as ([st1 w1] & H1 & H). ret_inv.
    by apply (ProcIntReapProcess_inv _ _ _ _ _ Hi H1).
  - destruct (truth _); [by ret_inv|]. destruct b; [by ret_inv|].
    apply bind_Ret_inv in H as (s1 & H1 & H). apply bind_Ret_inv in H as ([res s2] & H2 & H).
    apply ids_ProcYieldBlock in H2.
    assert (forall s, ids_kept s2 s -> proc_inv (set_psys st s) w) as Hs.
    { intros s Hs. apply (proc_inv_kept st _ w); [done..| |done]. simpl. transitivity s1; [ids_upd|by transitivity s2]. }
    destruct res as [b|]; [|ret_inv; by apply Hs]. apply bind_Ret_inv in H as (s3 & H3 & H).
    refine (IH _ _ _ H). apply Hs. ids_upd.
Qed.

Lemma wait_thread_loop_inv n chosen options b st w r st' w' :
  proc_inv st w -> wait_thread_loop n chosen options b st w = Ret (r, st', w') -> proc_inv st' w'.
Proof.
  revert b st. induction n as [|n IH]; intros b st Hi H; simpl in H; [done|].
  apply bind_Ret_inv in H as (found & _ & H). destruct found as [c|].
  - apply bind_Ret_inv in H as (p & _ & H). apply bind_Ret_inv in H as ([st1 w1] & H1 & H). ret_inv.
    by apply (ProcIntReapThread_inv _ _ _ _ _ Hi H1).
  - destruct (truth _); [by ret_inv|]. destruct b; [by ret_inv|].
    apply bind_Ret_inv in H as (s1 & H1 & H). apply bind_Ret_inv in H as ([res s2] & H2 & H).
    apply ids_ProcYieldBlock in H2.
    assert (forall s, ids_kept s2 s -> proc_inv (set_psys st s) w) as Hs.
    { intros s Hs. apply (proc_inv_kept st _ w); [done..| |done]. simpl. transitivity s1; [ids_upd|by transitivity s2]. }
    destruct res as [b|]; [|ret_inv; by apply Hs]. apply bind_Ret_inv in H as (s3 & H3 & H).
    refine (IH _ _ _ H). apply Hs. ids_upd.
Qed.

Lemma ProcWaitProcess_inv id options st w r st' w' :
  proc_inv st w -> ProcWaitProcess id options st w = Ret (r, st', w') -> proc_inv st' w'.
Proof.
  unfold ProcWaitProcess, get_process. intros Hi H.
  ret_inv; try done; by eapply wait_process_loop_inv.
Qed.

Lemma ProcWaitProcess_return_inv chosen options st w r st' w' :
  proc_inv st w -> ProcWaitProcess_return chosen options st w = Ret (r, st', w') -> proc_inv st' w'.
Proof.
  unfold ProcWaitProcess_return. intros Hi H. apply bind_Ret_inv in H as (b & _ & H).
  apply bind_Ret_inv in H as (s1 & H1 & H). refine (wait_process_loop_inv _ _ _ _ _ _ _ _ _ _ H).
  apply (proc_inv_kept st _ w); [done..| |done]. simpl. ids_upd.
Qed.

Lemma ProcWaitThread_inv id options st w r st' w' :
  proc_inv st w -> ProcWaitThread id options st w = Ret (r, st', w') -> proc_inv st' w'.
Proof.
  unfold ProcWaitThread, get_process. intros Hi H. ret_inv; try done; by eapply wait_thread_loop_inv.
Qed.

Lemma ProcWaitThread_return_inv chosen options st w r st' w' :
  proc_inv st w -> ProcWaitThread_return chosen options st w = Ret (r, st', w') -> proc_inv st' w'.
Proof.
  unfold ProcWaitThread_return. intros Hi H. apply bind_Ret_inv in H as (b & _ & H).
  apply bind_Ret_inv in H as (s1 & H1 & H). refine (wait_thread_loop_inv _ _ _ _ _ _ _ _ _ _ H).
  apply (proc_inv_kept st _ w); [done..| |done]. simpl. ids_upd.
Qed.

Lemma reaper_loop_inv n st w st' w' : proc_inv st w -> reaper_loop n st w = Ret (st', w') -> proc_inv st' w'.
Proof.
  revert st w. induction n as [|n IH]; intros st w Hi H; simpl in H; destruct (reaperHead st) as [|t rest]; try done.
  1,2: apply bind_Ret_inv in H as ([r s] & H1 & H); ret_inv; apply ids_ProcYieldBlock in H1;
    by apply (proc_inv_kept st _ w').
  apply bind_Ret_inv in H as ([st1 w1] & H1 & H). refine (IH _ _ _ H). clear H IH. unfold reaper_turn in H1.
  apply bind_Ret_inv in H1 as (th & _ & H1).
  assert (proc_inv (set_reaper st rest) w) as Hi' by done.
  destruct (negb _); [by apply (ProcIntReapProcess_inv _ _ _ _ _ Hi' H1)|by apply (ProcIntReapThread_inv _ _ _ _ _ Hi' H1)].
Qed.

Lemma ids_CpuNoFpuException cs s b s' : CpuNoFpuException cs s = Ret (b, s') -> ids_kept s s'.
Proof.
  unfold CpuNoFpuException. intros H. destruct (cs =? 8); [done|]. destruct (_ && _); [|by ret_inv].
  apply bind_Ret_inv in H as (s1 & H1 & H). ret_inv. apply ids_DoFpuSwitch in H1. transitivity (set_ts s false); [by apply ids_same|done].
Qed.

(** ** Every sequence of operations *)

(** One operation of some thread of the system: the process functions, the
    reaper thread's loop, the end of kMain, the idle thread's turn, yields,
    blocking, wake-ups, signals and FPU traps. *)
Inductive proc_step : procs * W -> procs * W -> Prop :=
| s_create_process fuel name par st w a st' w' :
    ProcCreateProcess fuel name par st w = Ret (a, st', w') -> proc_step (st, w) (st', w')
| s_create_user_thread e fuel name p start stack st w a st' w' :
    ProcCreateUserThread e fuel name p start stack st w = Ret (a, st', w') -> proc_step (st, w) (st', w')
| s_create_kernel_thread e fuel name start arg st w a st' w' :
    ProcCreateKernelThread e fuel name start arg st w = Ret (a, st', w') -> proc_step (st, w) (st', w')
| s_fork e fuel start stack st w a st' w' :
    ProcFork e fuel start stack st w = Ret (a, st', w') -> proc_step (st, w) (st', w')
| s_exit_thread code st w st' w' : ProcExitThread code st w = Ret (st', w') -> proc_step (st, w) (st', w')
| s_exit_process code st w st' w' : ProcExitProcess code st w = Ret (st', w') -> proc_step (st, w) (st', w')
| s_wait_process id options st w r st' w' :
    ProcWaitProcess id options st w = Ret (r, st', w') -> proc_step (st, w) (st', w')
| s_wait_process_return chosen options st w r st' w' :
    ProcWaitProcess_return chosen options st w = Ret (r, st', w') -> proc_step (st, w) (st', w')
| s_wait_thread id options st w r st' w' :
    ProcWaitThread id options st w = Ret (r, st', w') -> proc_step (st, w) (st', w')
| s_wait_thread_return chosen options st w r st' w' :
    ProcWaitThread_return chosen options st w = Ret (r, st', w') -> proc_step (st, w) (st', w')
| s_reaper st w st' w' : ProcIntReaperThread st w = Ret (st', w') -> proc_step (st, w) (st', w')
| s_self_exit st w s' : ProcIntSelfExit (psys st) = Ret s' -> proc_step (st, w) (set_psys st s', w)
| s_idle st w s' : ProcCurrThread (psys st) = ProcIdleThread -> ProcDoSchedule (psys st) = Ret s' ->
    proc_step (st, w) (set_psys st s', w)
| s_fpu cs b st w s' : CpuNoFpuException cs (psys st) = Ret (b, s') -> proc_step (st, w) (set_psys st s', w)
| s_yield st w s' : ProcYield (psys st) = Ret s' -> proc_step (st, w) (set_psys st s', w)
| s_block b r st w s' : ProcYieldBlock b (psys st) = Ret (r, s') -> proc_step (st, w) (set_psys st s', w)
| s_wake t b st w s' : ProcWakeUpSig t b (psys st) = Ret s' -> proc_step (st, w) (set_psys st s', w)
| s_signal t n st w s' : ProcSignalSendThread t n (psys st) = Ret s' -> proc_step (st, w) (set_psys st s', w)
| s_signal_process p n st w s' : ProcSignalSendProcess p n (psys st) = Ret s' -> proc_step (st, w) (set_psys st s', w).

Lemma proc_step_inv x y : proc_step x y -> proc_inv (fst x) (snd x) -> proc_inv (fst y) (snd y).
Proof.
  intros H Hi. destruct H; simpl in *.
  - by eapply ProcCreateProcess_inv.
  - by eapply ProcCreateUserThread_inv.
  - by eapply ProcCreateKernelThread_inv.
  - by eapply ProcFork_inv.
  - by eapply ProcExitThread_inv.
  - by eapply ProcExitProcess_inv.
  - by eapply ProcWaitProcess_inv.
  - by eapply ProcWaitProcess_return_inv.
  - by eapply ProcWaitThread_inv.
  - by eapply ProcWaitThread_return_inv.
  - by eapply reaper_loop_inv.
  - apply (proc_inv_kept st _ w); try done. by apply ids_ProcIntSelfExit.
  - apply (proc_inv_kept st _ w); try done. by apply ids_ProcDoSchedule.
  - apply (proc_inv_kept st _ w); try done. by eapply ids_CpuNoFpuException.
  - apply (proc_inv_kept st _ w); try done. by apply ids_ProcYield.
  - apply (proc_inv_kept st _ w); try done. by eapply ids_ProcYieldBlock.
  - apply (proc_inv_kept st _ w); try done. by eapply ids_ProcWakeUpSig.
  - apply (proc_inv_kept st _ w); try done. by eapply ids_ProcSignalSendThread.
  - apply (proc_inv_kept st _ w); try done. by eapply ids_ProcSignalSendProcess.
Qed.

Lemma proc_steps_inv st w st' w' : proc_inv st w -> rtc proc_step (st, w) (st', w') -> proc_inv st' w'.
Proof.
  intros Hi H. remember (st, w) as x. remember (st', w') as y.
  assert (proc_inv (fst x) (snd x)) as Hx by (by subst).
  clear Hi. assert (proc_inv (fst y) (snd y)) as Hy; [|by subst].
  clear Heqx Heqy. induction H as [|x y z H _ IH]; [done|]. apply IH. by eapply proc_step_inv.
Qed.

(** Before ProcInit: nothing exists but the static object of the kernel process. *)
Record blank (st : procs) (w : W) : Prop := {
  b_processes : process (psys st) = ∅; b_threads : thread (psys st) = ∅;
  b_hp : hTableProcess st = ∅; b_ht : hTableThread st = ∅;
  b_static : ProcKernelProcess <> 0 /\ live w ProcKernelProcess
}.

Lemma ProcInit_inv e fuel kn i ie rn re st w idle reaper st' w' :
  blank st w -> ProcInit e fuel kn i ie rn re st w = Ret (idle, reaper, st', w') -> proc_inv st' w'.
Proof.
  intros [Hp Ht Hhp Hht [H0 Hl]] H. unfold ProcInit in H. rewrite Hhp, lookup_empty in H.
  apply bind_Ret_inv in H as ([[a st1] w1] & H1 & H). apply bind_Ret_inv in H as ([[b st2] w2] & H2 & H).
  assert (st' = st2 /\ w' = w2) as [-> ->].
  { apply Ret_inj, pair_equal_spec in H as [[_ ->]%pair_equal_spec ->]. done. }
  refine (ProcCreateKernelThread_inv _ _ _ _ _ _ _ _ _ _ _ H2). refine (ProcCreateKernelThread_inv _ _ _ _ _ _ _ _ _ _ _ H1).
  clear H1 H2 H. unfold proc_inv. simpl. rewrite Hht.
  assert (forall q i cs ts, plists (set_current (set_process (psys st) (<[ProcKernelProcess := kernel_process kn]> (process (psys st))))
    (ProcCurrThread (psys st)) ProcKernelProcess) q = Some (i, cs, ts) <-> q = ProcKernelProcess /\ i = 0 /\ cs = [] /\ ts = []) as Hq.
  { intros q j cs ts. change (plists _ q) with (plists (set_process (psys st) (<[ProcKernelProcess := kernel_process kn]> (process (psys st)))) q).
    rewrite plists_insert. destruct (decide (ProcKernelProcess = q)) as [<-|Hne].
    - split; [by intros [= <- <- <-]|by intros (_ & -> & -> & ->)].
    - unfold plists. rewrite Hp, lookup_empty. split; [done|]. by intros [-> _]. }
  assert (forall t, tids (set_current (set_process (psys st) (<[ProcKernelProcess := kernel_process kn]> (process (psys st))))
    (ProcCurrThread (psys st)) ProcKernelProcess) t = None) as Hts.
  { intros t. unfold tids. simpl. by rewrite Ht, lookup_empty. }
  simpl in *. set (s1 := set_current _ _ _) in *. clearbody s1. clear Hp Ht Hhp Hht.
  split.
  - intros j p. rewrite lookup_insert_Some, lookup_empty. setoid_rewrite Hq. naive_solver.
  - intros j t. rewrite lookup_empty. setoid_rewrite Hts. split; [done|by intros [? ?]].
  - intros p j cs ts t (-> & -> & -> & ->)%Hq. setoid_rewrite Hts. split; [by intros ?%not_elem_of_nil|by intros [? ?]].
  - intros p j cs ts (_ & _ & -> & ->)%Hq. split; constructor.
  - intros t j p. by rewrite Hts.
  - intros p j cs ts c (_ & _ & -> & _)%Hq Hin. by apply not_elem_of_nil in Hin.
  - by intros p j cs ts q k cs' ts' c (-> & _)%Hq (-> & _)%Hq.
  - by intros p [[[j cs] ts] (-> & _)%Hq].
  - intros t [x Hx]. by rewrite Hts in Hx.
Qed.

(** C1: in every state that the process functions, the end of kMain, the
    reaper's and the idle thread's turns, yields, blocking, wake-ups, signals
    and FPU traps lead to after ProcInit, the two hash tables hold exactly the
    processes and threads that exist, each under its own id, every thread is
    once on the list of its parent, which exists, every child process exists
    and is on one list only, and all of them are allocated objects. *)
Theorem process_tables_invariant e fuel kn i ie rn re st0 w0 idle reaper st w st' w' :
  blank st0 w0 -> ProcInit e fuel kn i ie rn re st0 w0 = Ret (idle, reaper, st, w) ->
  rtc proc_step (st, w) (st', w') ->
  tables_ok (hTableProcess st') (hTableThread st') (psys st') (live w').
Proof. intros Hb H. apply proc_steps_inv. by eapply ProcInit_inv. Qed.
End Invariant.
