(* ===== verification/Small.v ===== *)
(** * Deciding the invariants on a concrete system

    The invariants of the scheduler and of the process tables are decidable
    on a system that is given; an environment in which the allocators hand out
    fresh addresses, and the boot of such a system. *)
From S2P Require Import Prelude Errno Physical Region Sched WaitQueue Signal Timer Tls Process ProcessInv.

(** ** The scheduler's invariant *)

Section Deciding.
Context {K : Machine}.

Definition process_check (s : sys) (p : Z) : bool :=
  (p =? ProcKernelProcess) ||
  match process s !! p with
  | None => false
  | Some pr =>
      negb (memContext pr =? 0) &&
      match memContexts s !! memContext pr with None => false | Some c => negb (physDirectory c =? INVALID_PAGE) end
  end.

Lemma process_check_sound s p : process_check s p = true -> process_ok s p.
Proof.
  unfold process_check. rewrite orb_true_iff, Z.eqb_eq. intros [->|H]; [by left|right].
  destruct (process s !! p) as [pr|]; [|done]. apply andb_true_iff in H as [H0 H].
  destruct (memContexts s !! memContext pr) as [c|] eqn:E; [|done].
  apply negb_true_iff, Z.eqb_neq in H0, H. exists pr, c. by split_and!.
Qed.

(** The state of thread [t] satisfies [P]. *)
Definition thread_check (P : ProcThread -> bool) (s : sys) (t : Z) : bool :=
  match thread s !! t with Some th => P th | None => false end.

Lemma thread_check_sound P s t : thread_check P s t = true -> exists th, thread s !! t = Some th /\ P th = true.
Proof. unfold thread_check. destruct (thread s !! t) as [th|]; [eauto|done]. Qed.

Definition memory_check (s : sys) : bool :=
  (ProcCurrProcess s =? ProcKernelProcess) ||
  match process s !! ProcCurrProcess s with
  | None => true
  | Some pr => (memContext pr =? 0) ||
      ((MemCurrentContext s =? memContext pr) &&
       match memContexts s !! memContext pr with
       | None => false | Some c => cr3 s =? u32 (u32 (physDirectory c) * 4096)
       end)
  end.

Definition queue_check (s : sys) : bool :=
  bool_decide (NoDup (threadQueue s)) && bool_decide (ProcIdleThread ∉ threadQueue s) &&
  forallb (thread_check (fun th => bool_decide (state th = PTS_RUNNING)) s) (threadQueue s) &&
  thread_check (fun th => bool_decide (state th = PTS_STARTUP) && (parent th =? ProcKernelProcess)) s ProcIdleThread &&
  bool_decide (map_Forall (fun _ th => state th = PTS_ZOMBIE \/ process_check s (parent th) = true) (thread s)) &&
  memory_check s &&
  ((fpuCurrent (fpu s) =? 0) || thread_check (fun th => bool_decide (is_Some (fpuState th))) s (fpuCurrent (fpu s))).

Definition sched_check (s : sys) : bool :=
  queue_check s &&
  thread_check (fun th => (parent th =? ProcCurrProcess s) &&
    (bool_decide (state th = PTS_RUNNING) || (ProcCurrThread s =? ProcIdleThread))) s (ProcCurrThread s) &&
  bool_decide (ProcCurrThread s ∉ threadQueue s) &&
  bool_decide (map_Forall (fun u th => state th <> PTS_RUNNING \/ u ∈ threadQueue s \/ u = ProcCurrThread s) (thread s)).

Lemma queue_check_sound s : queue_check s = true -> queue_ok s.
Proof.
  unfold queue_check. rewrite !andb_true_iff, !bool_decide_eq_true. intros ((((((H1 & H2) & H3) & H4) & H5) & H6) & H7). split.
  - done.
  - done.
  - intros t Ht. rewrite forallb_forall in H3. apply list_elem_of_In, H3, thread_check_sound in Ht as (th & Hth & Hs).
    exists th. by apply bool_decide_eq_true in Hs.
  - apply thread_check_sound in H4 as (th & Hth & [Hs%bool_decide_eq_true Hp%Z.eqb_eq]%andb_true_iff). by exists th.
  - intros t th Ht Hs. destruct (H5 t th Ht) as [|Hc]; [done|]. by apply process_check_sound.
  - unfold memory_check in H6. intros Hk pr Hpr Hm. apply Z.eqb_neq in Hk, Hm. rewrite Hk, Hpr, Hm in H6. simpl in H6.
    apply andb_true_iff in H6 as [Hc%Z.eqb_eq H6]. split; [done|].
    destruct (memContexts s !! memContext pr) as [c|]; [|done]. apply Z.eqb_eq in H6. by exists c.
  - apply orb_true_iff in H7 as [H7%Z.eqb_eq|H7]; [by left|right].
    apply thread_check_sound in H7 as (th & Hth & [img Hi]%bool_decide_eq_true). by exists th, img.
Qed.

Lemma sched_check_sound s : sched_check s = true -> sched_inv s.
Proof.
  unfold sched_check. rewrite !andb_true_iff, !bool_decide_eq_true. intros (((H1 & H2) & H3) & H4). split.
  - by apply queue_check_sound.
  - apply thread_check_sound in H2 as (th & Hth & [Hp%Z.eqb_eq Hs%orb_true_iff]%andb_true_iff).
    exists th. rewrite bool_decide_eq_true, Z.eqb_eq in Hs. by split_and!.
  - done.
  - intros u th Hu Hs. by destruct (H4 u th Hu) as [|].
Qed.
End Deciding.

(** ** The tables of processes and threads *)

Definition tables_check (hp ht : gmap Z Z) (s : sys) (alive : gset Z) : bool :=
  bool_decide (map_Forall (fun i p => pid <$> process s !! p = Some i) hp) &&
  bool_decide (map_Forall (fun p pr => hp !! pid pr = Some p /\ p ∈ alive /\ p <> 0 /\ NoDup (threads pr) /\ NoDup (children pr) /\
    Forall (fun t => parent <$> thread s !! t = Some p) (threads pr) /\
    Forall (fun c => is_Some (process s !! c)) (children pr)) (process s)) &&
  bool_decide (map_Forall (fun i t => tid <$> thread s !! t = Some i) ht) &&
  bool_decide (map_Forall (fun t th => ht !! tid th = Some t /\ t ∈ alive /\ t <> 0 /\ (t ∉ dom (process s)) /\
    t ∈ from_option threads [] (process s !! parent th)) (thread s)) &&
  bool_decide (map_Forall (fun p pr => map_Forall (fun q qr => p = q \/ Forall (fun c => c ∉ children qr) (children pr)) (process s)) (process s)).

Lemma tables_check_sound hp ht s alive : tables_check hp ht s alive = true -> tables_ok hp ht s (fun x => x ∈ alive).
Proof.
  unfold tables_check. rewrite !andb_true_iff, !bool_decide_eq_true. intros ((((H1 & H2) & H3) & H4) & H5).
  assert (forall t j p, tids s t = Some (j, p) <-> exists th, thread s !! t = Some th /\ tid th = j /\ parent th = p) as Ht.
  { intros t j p. unfold tids, thread_ids. destruct (thread s !! t) as [th|]; simpl; split.
    - intros [= <- <-]. eauto. - by intros (? & [= <-] & <- & <-). - done. - by intros (? & ? & _). }
  split.
  - intros i p. setoid_rewrite plists_Some. split.
    + intros H. apply H1, fmap_Some in H as (pr & Hp & ->). eauto 10.
    + intros (cs & ts & pr & Hp & <- & _). by apply H2 in Hp as (? & _).
  - intros i t. setoid_rewrite Ht. split.
    + intros H. apply H3, fmap_Some in H as (th & Hp & ->). eauto 10.
    + intros (p & th & Hp & <- & _). by apply H4 in Hp as (? & _).
  - intros p i cs ts t (pr & Hp & <- & <- & <-)%plists_Some. setoid_rewrite Ht.
    pose proof (H2 _ _ Hp) as (_ & _ & _ & _ & _ & Hf & _). rewrite Forall_forall in Hf. split.
    + intros Hin. apply Hf, fmap_Some in Hin as (th & Hth & ->). eauto.
    + intros (j & th & Hth & _ & <-). apply H4 in Hth as (_ & _ & _ & _ & Hm). by rewrite Hp in Hm.
  - intros p i cs ts (pr & Hp & <- & <- & <-)%plists_Some. by apply H2 in Hp as (_ & _ & _ & ? & ? & _).
  - intros t j p (th & Hth & <- & <-)%Ht. apply H4 in Hth as (_ & _ & _ & _ & Hm).
    destruct (process s !! parent th) as [pr|] eqn:E; [|by apply not_elem_of_nil in Hm]. rewrite (plists_of _ _ _ E). by eexists.
  - intros p i cs ts c (pr & Hp & <- & <- & <-)%plists_Some Hc. apply H2 in Hp as (_ & _ & _ & _ & _ & _ & Hf).
    rewrite Forall_forall in Hf. apply Hf in Hc as [x Hx]. rewrite (plists_of _ _ _ Hx). by eexists.
  - intros p i cs ts q j cs' ts' c (pr & Hp & <- & <- & <-)%plists_Some (qr & Hq & <- & <- & <-)%plists_Some Hc Hc'.
    destruct (H5 _ _ Hp _ _ Hq) as [|Hf]; [done|]. rewrite Forall_forall in Hf. by apply Hf in Hc.
  - intros p [[[i cs] ts] (pr & Hp & _)%plists_Some]. by apply H2 in Hp as (_ & ? & ? & _).
  - intros t [[j p] (th & Hth & _)%Ht]. apply H4 in Hth as (_ & ? & ? & Hn & _). split_and!; try done.
    apply not_elem_of_dom in Hn. unfold plists. by rewrite Hn.
Qed.

(** ** An environment *)

(** The set of objects in use; a new one is at an address that is not. Every
    physical page handed out is page 1, every name and context is where it was. *)
#[export] Instance small_env : ProcEnv (gset Z) := {|
  pe_alloc_process w := let a := fresh (w ∪ {[0]}) in Ret (a, w ∪ {[a]});
  pe_alloc_thread w := let a := fresh (w ∪ {[0]}) in Ret (a, w ∪ {[a]});
  pe_free_process p w := Ret (w ∖ {[p]});
  pe_free_thread t w := Ret (w ∖ {[t]});
  pe_StrDup n _ w := Ret (n, w);
  pe_MemKFree _ w := Ret w;
  pe_MemPhysicalAlloc _ _ w := Ret (1, w);
  pe_MemPhysicalFree _ _ w := Ret w;
  pe_MemContextClone _ w := Ret (0x5000, mkMemContext [] 9 1, w);
  pe_free_pages _ w := Ret w;
  pe_IoContextClone a w := Ret (a, w);
  pe_IoContextDeleteReference _ w := Ret w
|}.

Lemma small_env_alloc (w : gset Z) a w' :
  Ret (fresh (w ∪ {[0]}), w ∪ {[fresh (w ∪ {[0]})]}) = Ret (a, w') ->
  a <> 0 /\ ~ a ∈ w /\ forall x, x ∈ w' <-> x ∈ w \/ x = a.
Proof.
  intros H. apply Ret_inj, pair_equal_spec in H as [<- <-]. pose proof (is_fresh (w ∪ {[0]})) as Hf.
  set (a := fresh _) in *. split_and!; set_solver.
Qed.

#[export] Instance small_env_laws : ProcEnvLaws (gset Z).
Proof.
  refine {| live (w : gset Z) x := x ∈ w; law_alloc_process := small_env_alloc; law_alloc_thread := small_env_alloc |};
    cbn; intros; repeat match goal with H : Ret _ = Ret _ |- _ => injection H as ?; subst end; set_solver.
Defined.

#[export] Instance small_env_total : ProcEnvTotal (gset Z).
Proof. split; intros; by eexists. Defined.

#[export] Instance small_env_memory : ProcEnvAlloc (gset Z).
Proof. split; intros; by repeat eexists. Defined.

(** The machine before ProcInit. *)
Definition blank_procs : procs :=
  mkProcs (mkSys ∅ ∅ ∅ [] 0 0 0 0 0 0 0 (mkFpu false 0 [])) ∅ ∅ 0 0 [] ∅ (mkTimerState 0 0 0 [] [] (mkPorts 0 [] [] [])).

(** A result that is not an error. *)
Definition returns {A} (r : outcome A) : bool := match r with Ret _ => true | _ => false end.

(** ** A family *)

(** The kernel process 100 with the idle thread 1, process 200 with thread 4
    in state [ps], its child 201 with thread 5 in state [cs], a zombie if
    [dead]. Thread [cur] of process [curp] runs; [ready] are queued. *)
Definition family_process (n par ctx : Z) (cs ts : list Z) (dead : bool) : ProcProcess :=
  mkProcess n par cs ts dead (if dead then 9 else 0) ctx (replicate 32 (mkSigaction 0 0 0)) 0 0 0 0.

Definition family_thread (n p : Z) (st : ProcThreadState) (m : ProcWaitMode) : ProcThread :=
  mkThread n p 0 st m 0 0xC0100000 0 None 0 0 0 0 0xC0100F00.

Definition family (ps : ProcThreadState) (pm : ProcWaitMode) (cs : ProcThreadState) (dead : bool) (ready : list Z) (cur curp ctx : Z) : procs :=
  mkProcs
    (mkSys (<[1 := family_thread 0 100 PTS_STARTUP PWM_NONE]> (<[4 := family_thread 2 200 ps pm]>
              (<[5 := family_thread 3 201 cs PWM_NONE]> ∅)))
           (<[100 := family_process 0 0 400 [] [1] false]> (<[200 := family_process 1 100 300 [201] [4] false]>
              (<[201 := family_process 2 200 (if dead then 0 else 301) [] [5] dead]> ∅)))
           (<[300 := mkMemContext [] 7 1]> (<[301 := mkMemContext [] 8 1]> (<[400 := mkMemContext [] 6 1]> ∅)))
           ready cur curp 0 0 20 ctx (if ctx =? 300 then 0x7000 else 0x8000) (mkFpu false 0 []))
    (<[0 := 100]> (<[1 := 200]> (<[2 := 201]> ∅))) (<[0 := 1]> (<[2 := 4]> (<[3 := 5]> ∅))) 3 4 [] ∅
    (mkTimerState 0 0 0 [] [] (mkPorts 0 [] [] [])).

Definition family_live : gset Z := {[100; 200; 201; 1; 4; 5]}.

(** The parent waits for its child, which runs. *)
Definition child_runs : procs := family PTS_INTR PWM_PROCESS PTS_RUNNING false [] 5 201 301.
(** The parent runs, its child is dead. *)
Definition child_dead : procs := family PTS_RUNNING PWM_NONE PTS_ZOMBIE true [] 4 200 300.

Lemma child_runs_ok : proc_inv child_runs family_live /\ sched_inv (psys child_runs).
Proof. split; [apply tables_check_sound|apply sched_check_sound]; vm_compute; reflexivity. Qed.

Lemma child_dead_ok : proc_inv child_dead family_live /\ sched_inv (psys child_dead).
Proof. split; [apply tables_check_sound|apply sched_check_sound]; vm_compute; reflexivity. Qed.

(** Parent and child are both ready; the child's yield runs the parent, with
    the parent's directory, frame 7, in CR3. *)
Lemma scheduler_invariant_witness :
  exists s', ProcYield (psys (family PTS_RUNNING PWM_NONE PTS_RUNNING false [4] 5 201 301)) = Ret s' /\
    sched_inv s' /\ ProcCurrThread s' = 4 /\ cr3 s' = 0x7000.
Proof.
  set (s := psys (family PTS_RUNNING PWM_NONE PTS_RUNNING false [4] 5 201 301)).
  assert (match ProcYield s with Ret s' => (ProcCurrThread s' =? 4) && (cr3 s' =? 0x7000) | _ => false end = true) as H
    by (vm_compute; reflexivity).
  destruct (ProcYield s) as [s'| | |] eqn:E; [|discriminate H..]. apply andb_true_iff in H as [H1%Z.eqb_eq H2%Z.eqb_eq].
  exists s'. split; [reflexivity|]. split; [|split; [exact H1|exact H2]].
  refine (scheduler_invariant s s' _ _); [apply sched_check_sound; vm_compute; reflexivity|].
  apply rtc_once, step_yield; [discriminate|exact E].
Defined.

(** ** A boot *)

(** The functions of a list one after the other. *)
Fixpoint run_all {A} (l : list (A -> outcome A)) (x : A) : outcome A :=
  match l with [] => Ret x | f :: l' => y ← f x; run_all l' y end.

Lemma run_all_rtc {A} (R : A -> A -> Prop) l x y :
  Forall (fun f => forall x y, f x = Ret y -> R x y) l -> run_all l x = Ret y -> rtc R x y.
Proof.
  revert x. induction l as [|f l IH]; intros x Hl H; simpl in H; [by injection H as <-|].
  apply Forall_cons in Hl as [Hf Hl]. apply bind_Ret_inv in H as (z & Hz & H). eapply rtc_l; [by apply Hf|by apply IH].
Qed.

Definition on_sys (f : sys -> outcome sys) (x : procs * gset Z) : outcome (procs * gset Z) :=
  s ← f (psys (fst x)); Ret (set_psys (fst x) s, snd x).

Lemma on_sys_step (R : procs * gset Z -> procs * gset Z -> Prop) f :
  (forall st w s, f (psys st) = Ret s -> R (st, w) (set_psys st s, w)) -> forall x y, on_sys f x = Ret y -> R x y.
Proof. intros H [st w] y Hy. apply bind_Ret_inv in Hy as (s & Hs & Hy). injection Hy as <-. by apply H. Qed.

(** The machine whose idle and reaper thread are the objects ProcInit is handed. *)
Definition boot_machine : Machine :=
  {| ProcKernelProcess := 100; ProcIdleThread := 101; reaperThread := 102; MemKernelContext := 400;
     CpuFeaturesEDX := 0x1000001; CpuHasDenormalsAreZero := false |}.

Section Boot.
#[local] Existing Instance boot_machine.

Lemma blank_procs_blank : blank blank_procs ({[100]} : gset Z).
Proof. split; [done..|]. split; [discriminate|]. change (100 ∈ ({[100]} : gset Z)). by apply elem_of_singleton. Qed.

Definition create_kernel_thread (x : procs * gset Z) : outcome (procs * gset Z) :=
  '(_, st, w) ← ProcCreateKernelThread 0xC0101000 5 4 0xC0104000 0 (fst x) (snd x); Ret (st, w).
Definition exit_thread (x : procs * gset Z) : outcome (procs * gset Z) := ProcExitThread 0 (fst x) (snd x).
Definition reaper (x : procs * gset Z) : outcome (procs * gset Z) := ProcIntReaperThread (fst x) (snd x).
Definition idle (s : sys) : outcome sys :=
  if decide (ProcCurrThread s = ProcIdleThread) then ProcDoSchedule s else Fault.

(** kMain starts a kernel thread and ends; the thread runs and ends; the reaper
    runs, frees it and blocks; the idle thread runs; the reaper is woken, the
    idle thread gives way to it, and it blocks again. *)
Definition boot_run : list (procs * gset Z -> outcome (procs * gset Z)) :=
  [create_kernel_thread; on_sys (ProcWakeUpSig 103 false); on_sys ProcIntSelfExit; exit_thread; reaper;
   on_sys (ProcWakeUpSig 102 false); on_sys idle; reaper].

Lemma boot_run_steps :
  Forall (fun f => forall x y, f x = Ret y -> proc_step (W := gset Z) x y) boot_run.
Proof.
  repeat (apply List.Forall_cons); [..|apply List.Forall_nil].
  - intros [st w] y H. apply bind_Ret_inv in H as ([[a st'] w'] & H & Hy). injection Hy as <-. by eapply s_create_kernel_thread.
  - apply on_sys_step. intros. by eapply s_wake.
  - apply on_sys_step. intros. by apply s_self_exit.
  - intros [st w] [st' w'] H. by eapply s_exit_thread.
  - intros [st w] [st' w'] H. by eapply s_reaper.
  - apply on_sys_step. intros. by eapply s_wake.
  - apply on_sys_step. unfold idle. intros st w s H. destruct (decide _); [|done]. by apply s_idle.
  - intros [st w] [st' w'] H. by eapply s_reaper.
Qed.

Lemma process_tables_invariant_witness :
  exists st w st' w',
    ProcInit 0xC0101000 5 1 2 0xC0102000 3 0xC0103000 blank_procs ({[100]} : gset Z) = Ret (101, 102, st, w) /\
    run_all boot_run (st, w) = Ret (st', w') /\ ProcCurrThread (psys st') = 101 /\
    tables_ok (hTableProcess st') (hTableThread st') (psys st') (fun x => x ∈ w').
Proof.
  assert (match '(i, r, st, w) ← ProcInit 0xC0101000 5 1 2 0xC0102000 3 0xC0103000 blank_procs ({[100]} : gset Z);
      y ← run_all boot_run (st, w); Ret (i, r, ProcCurrThread (psys (fst y)))
    with Ret z => bool_decide (z = (101, 102, 101)) | _ => false end = true) as H by (vm_compute; reflexivity).
  destruct (ProcInit 0xC0101000 5 1 2 0xC0102000 3 0xC0103000 blank_procs ({[100]} : gset Z))
    as [[[[i r] st] w]| | |] eqn:E; [|discriminate H..]. cbn [mbind outcome_bind] in H.
  destruct (run_all boot_run (st, w)) as [[st' w']| | |] eqn:E'; [|discriminate H..]. cbn [mbind outcome_bind fst] in H.
  apply bool_decide_eq_true in H. injection H as -> -> H.
  exists st, w, st', w'. split; [reflexivity|]. split; [exact E'|]. split; [exact H|].
  refine (process_tables_invariant _ _ _ _ _ _ _ _ _ 101 102 st w st' w' blank_procs_blank E _).
  exact (run_all_rtc _ _ _ _ boot_run_steps E').
Defined.
End Boot.
