(* ===== verification/Lifecycle.v ===== *)
(** * Life and death of processes: what the operations of process.c do

    Ids are found and are fresh; a wait reports its errors and reaps a dead
    child; an exit leaves a zombie, wakes the waiting parent and hands over to
    another thread; a fork makes a ready copy. *)
From S2P Require Import Prelude Errno Physical Region Sched WaitQueue Signal Timer Tls Process ProcessInv Small.

(** ** Ids *)

(** With [next] as the first id tried, the search meets ids in use only, or
    returns the first free one. *)
Lemma alloc_id_scan f h item next :
  is_u32 next ->
  (forall k, 0 <= k < Z.of_nat f -> is_Some (h !! u32 (next + k))) \/
  exists k, 0 <= k < Z.of_nat f /\ h !! u32 (next + k) = None /\
    (forall j, 0 <= j < k -> is_Some (h !! u32 (next + j))) /\
    alloc_id f h item next = Ret (u32 (next + k), <[u32 (next + k) := item]> h, u32 (next + k + 1)).
Proof.
  revert next. induction f as [|f IH]; intros next Hn; [left; lia|].
  assert (u32 (next + 0) = next) as E0 by (rewrite Z.add_0_r; by apply Z.mod_small).
  assert (forall k, u32 (u32 (next + 1) + k) = u32 (next + (k + 1))) as Es by (intros k; u32_lia).
  simpl. destruct (h !! next) as [x|] eqn:E.
  - destruct (IH (u32 (next + 1))) as [Hall|(k & Hk & Hfree & Hused & Ha)]; [unfold is_u32, u32; zlia| |].
    + left. intros k Hk. destruct (decide (k = 0)) as [->|]; [rewrite E0, E; by eexists|].
      specialize (Hall (k - 1)). rewrite Es in Hall. replace (k - 1 + 1) with k in Hall by lia. apply Hall. lia.
    + right. exists (k + 1). rewrite Es in Hfree, Ha. split; [lia|]. split_and!; [done| |].
      * intros j Hj. destruct (decide (j = 0)) as [->|]; [rewrite E0, E; by eexists|].
        specialize (Hused (j - 1)). rewrite Es in Hused. replace (j - 1 + 1) with j in Hused by lia. apply Hused. lia.
      * rewrite Ha. apply f_equal, pair_equal_spec. split; [done|u32_lia].
  - right. exists 0. rewrite E0, Z.add_0_r. split; [lia|]. split_and!; [done|lia|done].
Qed.

(** Consecutive 32-bit ids are different. *)
Lemma consecutive_ids_nodup next (n : nat) :
  is_u32 next -> Z.of_nat n <= 4294967296 -> NoDup ((fun k => u32 (next + Z.of_nat k)) <$> seq 0 n).
Proof.
  intros Hn Hb. apply NoDup_alt. intros i j x Hi Hj. apply list_lookup_fmap_Some in Hi as (a & -> & Ha).
  apply list_lookup_fmap_Some in Hj as (b & Hx & Hb'). apply lookup_seq in Ha as [-> Ha], Hb' as [-> Hb'].
  unfold is_u32, u32 in *. assert (Z.of_nat i = Z.of_nat j) by zlia. lia.
Qed.

(** Among as many ids as are in use, and one more, one is free. *)
Lemma free_id_near h next :
  is_u32 next -> Z.of_nat (size h) < 4294967296 ->
  exists k, 0 <= k <= Z.of_nat (size h) /\ (h : gmap Z Z) !! u32 (next + k) = None.
Proof.
  intros Hn Hs.
  destruct (alloc_id_scan (S (size h)) h 0 next Hn) as [Hall|(k & Hk & ? & _)]; [|exists k; split; [lia|done]].
  exfalso. set (l := (fun k => u32 (next + Z.of_nat k)) <$> seq 0 (S (size h))).
  assert (list_to_set l ⊆ dom h) as Hsub.
  { intros x. rewrite elem_of_list_to_set. intros (k & -> & Hk)%list_elem_of_fmap. apply elem_of_seq in Hk.
    apply elem_of_dom, Hall. lia. }
  apply subseteq_size in Hsub. rewrite size_list_to_set in Hsub by (apply consecutive_ids_nodup; [done|lia]).
  unfold l in Hsub. rewrite length_fmap, length_seq, size_dom in Hsub. lia.
Qed.

(** The loop returns an id that was free. *)
Lemma alloc_id_returns fuel h item next :
  is_u32 next -> Z.of_nat (size h) < 4294967296 -> (size h < fuel)%nat ->
  exists k, h !! u32 (next + k) = None /\
    alloc_id fuel h item next = Ret (u32 (next + k), <[u32 (next + k) := item]> h, u32 (next + k + 1)).
Proof.
  intros Hn Hs Hf. destruct (free_id_near h next Hn Hs) as (k & Hk & Hfree).
  destruct (alloc_id_scan fuel h item next Hn) as [Hall|(j & Hj & Hfree' & Hused & E)]; [|by exists j].
  destruct (Hall k) as [x Hx]; [lia|congruence].
Qed.

(** The id loop of ProcCreateProcess and ProcCreateRawThread ends and
    finds the first id not in use, counting up from the next id with
    wrap-around, as long as not all 2^32 ids are taken; as many turns as there
    are ids in use, and one more, are enough. *)
Theorem alloc_id_first_free fuel h item next :
  is_u32 next -> Z.of_nat (size h) < 4294967296 -> (size h < fuel)%nat ->
  exists k, 0 <= k <= Z.of_nat (size h) /\ h !! u32 (next + k) = None /\
    (forall j, 0 <= j < k -> is_Some (h !! u32 (next + j))) /\
    alloc_id fuel h item next = Ret (u32 (next + k), <[u32 (next + k) := item]> h, u32 (next + k + 1)).
Proof.
  intros Hn Hs Hf. destruct (free_id_near h next Hn Hs) as (k & Hk & Hfree).
  destruct (alloc_id_scan fuel h item next Hn) as [Hall|(j & Hj & Hfree' & Hused & E)].
  - destruct (Hall k) as [x Hx]; [lia|congruence].
  - exists j. split; [|done]. destruct (Z.le_gt_cases j k) as [|Hlt]; [lia|].
    destruct (Hused k) as [x Hx]; [lia|congruence].
Qed.

Lemma alloc_id_first_free_witness :
  alloc_id 3 (<[0xFFFFFFFF := 7]> (<[0 := 9]> ∅)) 5 0xFFFFFFFF =
    Ret (1, <[1 := 5]> (<[0xFFFFFFFF := 7]> (<[0 := 9]> ∅)), 2).
Proof.
  destruct (alloc_id_first_free 3 (<[0xFFFFFFFF := 7]> (<[0 := 9]> ∅)) 5 0xFFFFFFFF) as (k & Hk & Hfree & Hused & E).
  - unfold is_u32. lia.
  - vm_compute. reflexivity.
  - change (2 < 3)%nat. lia.
  - change (Z.of_nat (size _)) with 2 in Hk.
    assert (k = 2) as ->; [|exact E].
    destruct (decide (k = 0)) as [->|]; [discriminate Hfree|]. destruct (decide (k = 1)) as [->|]; [discriminate Hfree|].
    lia.
Defined.

Section Waiting.
Context {K : Machine} {W : Type} {PE : ProcEnv W} {PL : ProcEnvLaws W} {PT : ProcEnvTotal W}.

(** ** Waiting *)

(** ProcWaitProcess refuses, without any effect, the kernel process
    (EPERM), ids below -1 (EINVAL), process groups (ENOSYS), ids that are no
    child's (ECHILD) and a wait for any child without children (ECHILD);
    with WNOHANG and no dead child it returns 0. *)
Theorem ProcWaitProcess_errors id options st w cp :
  process (psys st) !! ProcCurrProcess (psys st) = Some cp ->
  (ProcCurrProcess (psys st) = ProcKernelProcess -> ProcWaitProcess id options st w = Ret (Returned (- EPERM) None, st, w)) /\
  (ProcCurrProcess (psys st) <> ProcKernelProcess ->
   (id < -1 -> ProcWaitProcess id options st w = Ret (Returned (- EINVAL) None, st, w)) /\
   (id = 0 -> ProcWaitProcess id options st w = Ret (Returned (- ENOSYS) None, st, w)) /\
   (0 < id -> hTableProcess st !! id = None -> ProcWaitProcess id options st w = Ret (Returned (- ECHILD) None, st, w)) /\
   (forall c p, 0 < id -> hTableProcess st !! id = Some c -> process (psys st) !! c = Some p ->
    pparent p <> ProcCurrProcess (psys st) -> ProcWaitProcess id options st w = Ret (Returned (- ECHILD) None, st, w)) /\
   (id = -1 -> children cp = [] -> ProcWaitProcess id options st w = Ret (Returned (- ECHILD) None, st, w)) /\
   (id = -1 -> children cp <> [] -> options = WNOHANG ->
    (forall c, c ∈ children cp -> exists p, process (psys st) !! c = Some p /\ zombie p = false) ->
    ProcWaitProcess id options st w = Ret (Returned 0 None, st, w))).
Proof.
  intros Hcp. unfold ProcWaitProcess, ProcGetProcessByID, get_process.
  split; [intros ->; by rewrite Z.eqb_refl|]. intros Hk. apply Z.eqb_neq in Hk. rewrite Hk, Hcp. split_and!.
  - intros Hid. destruct (Z.ltb_spec id 0); [|lia]. by destruct (Z.eqb_spec id (-1)); [lia|].
  - by intros ->.
  - intros Hid ->. destruct (Z.ltb_spec id 0); [lia|]. destruct (Z.eqb_spec id 0); [lia|].
    destruct (Z.ltb_spec id (-1)); [lia|]. by destruct (Z.ltb_spec 0 id); [|lia].
  - intros c p Hid Hc Hp Hpp. rewrite Hc. simpl.
    destruct (Z.ltb_spec id 0); [lia|]. destruct (Z.eqb_spec id 0); [lia|].
    destruct (Z.ltb_spec id (-1)); [lia|]. destruct (Z.ltb_spec 0 id); [|lia]. simpl.
    destruct (c =? 0); [done|]. rewrite Hp. simpl. by apply Z.eqb_neq in Hpp as ->.
  - intros -> Hc. simpl. by rewrite Hc.
  - intros -> Hc -> Hz. simpl. destruct (children cp) as [|c0 l] eqn:El; [done|].
    assert (forall l, (forall c, c ∈ l -> exists p, process (psys st) !! c = Some p /\ zombie p = false) ->
      find_zombie l (psys st) = Ret None) as Hfind.
    { induction l0 as [|c l0 IH]; intros Hl; simpl; [done|]. unfold get_process.
      destruct (Hl c) as (p & Hp & Hzp); [by left|]. rewrite Hp. simpl. rewrite Hzp. apply IH. intros; apply Hl. by right. }
    cbn [wait_process_loop]. unfold get_process. rewrite Hcp. cbn [or_fault mbind outcome_bind]. rewrite El, Hfind by done. done.
Qed.

(** What reaping leaves alone in the scheduler's data. *)
Definition rest_kept (s s' : sys) : Prop :=
  ProcCurrThread s' = ProcCurrThread s /\ ProcCurrProcess s' = ProcCurrProcess s /\ threadQueue s' = threadQueue s /\
  memContexts s' = memContexts s /\ MemCurrentContext s' = MemCurrentContext s /\ cr3 s' = cr3 s.

Lemma rest_kept_trans s1 s2 s3 : rest_kept s1 s2 -> rest_kept s2 s3 -> rest_kept s1 s3.
Proof. unfold rest_kept. intuition congruence. Qed.

Lemma ProcIntReapThread_total t st w th cur :
  ProcCurrThread (psys st) <> t -> thread (psys st) !! t = Some th -> state th = PTS_ZOMBIE ->
  thread (psys st) !! ProcCurrThread (psys st) = Some cur ->
  exists st' w', ProcIntReapThread t st w = Ret (st', w') /\
    (exists cur', thread (psys st') !! ProcCurrThread (psys st) = Some cur' /\ core cur' = core cur) /\
    (forall u, u <> t -> u <> ProcCurrThread (psys st) -> thread (psys st') !! u = thread (psys st) !! u) /\
    thread (psys st') !! t = None /\ process (psys st') = unlink_thread t (process (psys st)) /\
    rest_kept (psys st) (psys st') /\ hTableProcess st' = hTableProcess st.
Proof.
  intros Hne Ht Hz Hc. unfold ProcIntReapThread. destruct (Z.eqb_spec (ProcCurrThread (psys st)) t); [done|].
  rewrite Ht. cbn [or_fault mbind outcome_bind]. rewrite bool_decide_true by done. cbn [negb].
  destruct (total_MemPhysicalFree (MemVirt2Phys (kStackBase th)) 1 w) as (w1 & E1).
  destruct (total_MemKFree (tname th) w1) as (w2 & E2). destruct (total_free_thread t w2) as (w3 & E3).
  unfold CpuFreeFpuState.
  set (s1 := if ProcCurrThread (psys st) =? fpuCurrent (fpu (psys st)) then _ else _).
  assert (thread s1 = thread (psys st) /\ process s1 = process (psys st) /\ rest_kept (psys st) s1) as (Ht1 & Hp1 & Hr1)
    by (unfold s1; by destruct (_ =? _)).
  assert (ProcCurrThread s1 = ProcCurrThread (psys st)) as Hc1 by apply Hr1.
  rewrite Ht1, Hc. cbn [or_fault mbind outcome_bind]. rewrite E1. cbn [mbind outcome_bind]. rewrite E2. cbn [mbind outcome_bind].
  rewrite E3. cbn [mbind outcome_bind]. eexists _, w3. split; [reflexivity|]. simpl. rewrite ?Ht1, ?Hp1, ?Hc1.
  split_and!; try done; try apply Hr1.
  - eexists. rewrite lookup_delete_ne by done. rewrite lookup_insert_eq. split; [done|]. by destruct cur.
  - intros u H1 H2. by rewrite lookup_delete_ne, lookup_insert_ne.
  - apply lookup_delete_eq.
Qed.

(** A process whose threads on the list [l] are being removed. *)
Definition without (l : list Z) (p : ProcProcess) : ProcProcess := set_threads p (filter (fun x => x ∉ l) (threads p)).

Lemma reap_threads_total l : forall st w cur,
  NoDup l -> ProcCurrThread (psys st) ∉ l ->
  (forall t, t ∈ l -> exists th, thread (psys st) !! t = Some th /\ state th = PTS_ZOMBIE) ->
  thread (psys st) !! ProcCurrThread (psys st) = Some cur ->
  exists st' w', reap_threads l st w = Ret (st', w') /\
    (forall t, t ∈ l -> thread (psys st') !! t = None) /\
    (forall u, u ∉ l -> u <> ProcCurrThread (psys st) -> thread (psys st') !! u = thread (psys st) !! u) /\
    (forall u, u ∉ l -> core <$> thread (psys st') !! u = core <$> thread (psys st) !! u) /\
    (forall q, process (psys st') !! q = without l <$> process (psys st) !! q) /\
    rest_kept (psys st) (psys st') /\ hTableProcess st' = hTableProcess st.
Proof.
  induction l as [|t l IH]; intros st w cur Hnd Hni Hz Hc; simpl.
  - exists st, w. split_and!; [done|by intros ? ?%not_elem_of_nil|done|done| |done|done]. intros q.
    destruct (process (psys st) !! q) as [p|]; [|done]. simpl. f_equal. unfold without.
    rewrite filter_all by (intros x _; apply not_elem_of_nil). by destruct p.
  - apply NoDup_cons in Hnd as [Htl Hnd]. apply not_elem_of_cons in Hni as [Hne Hni].
    destruct (Hz t) as (th & Hth & Hst); [by left|].
    destruct (ProcIntReapThread_total t st w th cur) as (st1 & w1 & E & (cur' & Hc' & Hcc) & Hf & Hgone & Hp & Hr & Hh); [done..|].
    assert (ProcCurrThread (psys st1) = ProcCurrThread (psys st)) as Hcu by apply Hr. rewrite E. cbn [mbind outcome_bind].
    destruct (IH st1 w1 cur') as (st' & w' & -> & Hgone' & Hf' & Hco' & Hp' & Hr' & Hh'); [done|by rewrite Hcu| |by rewrite Hcu|].
    { intros u Hu. rewrite Hf; [apply Hz; by right| |]; intros ->; done. }
    rewrite Hcu in Hf'. exists st', w'. split_and!; [done| | | | |by eapply rest_kept_trans|congruence].
    + intros u [->|Hu]%elem_of_cons; [by rewrite Hf'|auto].
    + intros u [H1 H2]%not_elem_of_cons H3. by rewrite Hf', Hf.
    + intros u [H1 H2]%not_elem_of_cons. rewrite Hco' by done. destruct (decide (u = ProcCurrThread (psys st))) as [->|H3].
      * rewrite Hc', Hc. simpl. by rewrite Hcc.
      * by rewrite Hf.
    + intros q. rewrite Hp', Hp. unfold unlink_thread. rewrite lookup_fmap. destruct (process (psys st) !! q) as [p|]; [|done].
      simpl. f_equal. unfold without. simpl. rewrite list_filter_filter. unfold set_threads. simpl. f_equal.
      apply list_filter_iff. intros x. rewrite not_elem_of_cons. tauto.
Qed.

(** Disowning moves the list of children to the kernel process. *)
Lemma ProcDisownChildren_total p s pr kp :
  p <> ProcKernelProcess -> process s !! p = Some pr -> process s !! ProcKernelProcess = Some kp ->
  ProcDisownChildren p s =
    Ret (set_process s (<[ProcKernelProcess := set_children kp (children kp ++ children pr)]>
           (<[p := set_children pr []]> (process s)))).
Proof.
  intros Hne Hp Hk. unfold ProcDisownChildren, upd_process, get_process. rewrite Hp. cbn [or_fault mbind outcome_bind].
  destruct (children pr) as [|c cs] eqn:E.
  - rewrite app_nil_r. assert (set_children pr [] = pr) as -> by (unfold set_children; destruct pr; simpl in *; by subst).
    assert (set_children kp (children kp) = kp) as -> by (by destruct kp).
    rewrite (insert_id _ p), insert_id by done. by destruct s.
  - destruct (Z.eqb_spec p ProcKernelProcess); [done|]. simpl. rewrite lookup_insert_ne by done. rewrite Hk. simpl.
    by destruct s.
Qed.

(** What becomes of process [p] at [q] when the process at [c], which was [ch],
    is reaped: [c] is on no list of children, and its children are the kernel
    process's. *)
Definition bereaved (c : Z) (ch : ProcProcess) (q : Z) (p : ProcProcess) : ProcProcess :=
  set_children p (filter (fun x => x <> c) (children p ++ if q =? ProcKernelProcess then children ch else [])).

Lemma ProcIntReapProcess_total c st w ch kp cur :
  c <> ProcKernelProcess -> process (psys st) !! c = Some ch -> zombie ch = true ->
  process (psys st) !! ProcKernelProcess = Some kp ->
  NoDup (threads ch) -> ProcCurrThread (psys st) ∉ threads ch ->
  (forall t, t ∈ threads ch -> exists th, thread (psys st) !! t = Some th /\ state th = PTS_ZOMBIE) ->
  thread (psys st) !! ProcCurrThread (psys st) = Some cur ->
  exists st' w', ProcIntReapProcess c st w = Ret (st', w') /\
    (forall t, t ∈ threads ch -> thread (psys st') !! t = None) /\
    hTableProcess st' = remove_item (hTableProcess st) (pid ch) c /\
    process (psys st') !! c = None /\
    (forall q, q <> c -> process (psys st') !! q = bereaved c ch q <$> (without (threads ch) <$> process (psys st) !! q)) /\
    (forall u, u ∉ threads ch -> u <> ProcCurrThread (psys st) -> thread (psys st') !! u = thread (psys st) !! u) /\
    (forall u, u ∉ threads ch -> core <$> thread (psys st') !! u = core <$> thread (psys st) !! u) /\
    rest_kept (psys st) (psys st').
Proof.
  intros Hk Hc Hz Hkp Hnd Hcu Hth Hcur. unfold ProcIntReapProcess, get_process. rewrite Hc. cbn [or_fault mbind outcome_bind].
  rewrite Hz. cbn [negb].
  destruct (reap_threads_total (threads ch) st w cur) as (st1 & w1 & -> & Hgone & Hf & Hco & Hp & Hr & Hh); [done..|].
  cbn [mbind outcome_bind].
  rewrite (ProcDisownChildren_total c _ (without (threads ch) ch) (without (threads ch) kp)) by (rewrite ?Hp, ?Hc, ?Hkp; done).
  cbn [mbind outcome_bind]. destruct (total_MemKFree (pname ch) w1) as (w2 & ->). cbn [mbind outcome_bind].
  destruct (total_free_process c w2) as (w3 & ->). cbn [mbind outcome_bind]. eexists _, w3. split; [reflexivity|]. simpl.
  split_and!; try done; [by rewrite Hh|apply lookup_delete_eq|]. intros q Hq. rewrite lookup_delete_ne by done.
  unfold unlink_child. rewrite lookup_fmap. unfold bereaved. destruct (Z.eqb_spec q ProcKernelProcess) as [->|Hqk].
  - rewrite lookup_insert_eq, Hkp. done.
  - rewrite !lookup_insert_ne, Hp by done. destruct (process (psys st) !! q) as [x|]; [|done]. simpl. by rewrite app_nil_r.
Qed.

(** When a process is reaped its children are moved to the kernel's list
    but keep the dead process as their parent: the notification a child makes
    when it exits later reads the freed object. *)
Theorem orphan_exit_faults p st w pr kp cur c ch :
  p <> ProcKernelProcess -> process (psys st) !! p = Some pr -> zombie pr = true ->
  process (psys st) !! ProcKernelProcess = Some kp ->
  NoDup (threads pr) -> ProcCurrThread (psys st) ∉ threads pr ->
  (forall t, t ∈ threads pr -> exists th, thread (psys st) !! t = Some th /\ state th = PTS_ZOMBIE) ->
  thread (psys st) !! ProcCurrThread (psys st) = Some cur ->
  c <> p -> process (psys st) !! c = Some ch -> pparent ch = p ->
  exists st' w' ch', ProcIntReapProcess p st w = Ret (st', w') /\
    process (psys st') !! c = Some ch' /\ pparent ch' = p /\ notify_parent (pparent ch') (psys st') = Fault.
Proof.
  intros Hk Hp Hz Hkp Hnd Hcu Hth Hcur Hc Hch Hpp.
  destruct (ProcIntReapProcess_total p st w pr kp cur) as (st' & w' & E & _ & _ & Hnone & Hpar & _); [done..|].
  specialize (Hpar c Hc). rewrite Hch in Hpar. simpl in Hpar. eexists st', w', _. split_and!; [exact E|exact Hpar|done|]. unfold notify_parent, get_process.
  simpl. by rewrite Hpp, Hnone.
Qed.

(** The threads of one process are on no other process's list. *)
Lemma without_others st w c ch q p :
  proc_inv st w -> process (psys st) !! c = Some ch -> process (psys st) !! q = Some p -> q <> c ->
  without (threads ch) p = p.
Proof.
  intros Hi Hc Hp Hne. unfold without. rewrite filter_all; [by destruct p|]. intros t Ht Hin.
  apply (t_member _ _ _ _ Hi _ _ _ _ _ (plists_of _ _ _ Hp)) in Ht as (i & Hi1).
  apply (t_member _ _ _ _ Hi _ _ _ _ _ (plists_of _ _ _ Hc)) in Hin as (j & Hj). congruence.
Qed.

(** C10: when a user process's thread waits for a child of that process by its
    id, and the child has ended with all its threads, the wait returns its id
    and its exit code and reaps it: the process, its threads and its entry in
    the table are gone; every other process keeps all but its list of
    children, from which the dead one goes, the kernel process taking over its
    children; every other thread is as it was (the current one but for its
    FPU area), nothing changes in the ready queue, the running thread and the
    address spaces; and the invariant of the tables holds. *)
Theorem ProcWaitProcess_reaps id options st w c ch cur kp :
  proc_inv st w -> ProcCurrProcess (psys st) <> ProcKernelProcess -> c <> ProcKernelProcess ->
  process (psys st) !! ProcKernelProcess = Some kp ->
  thread (psys st) !! ProcCurrThread (psys st) = Some cur -> parent cur = ProcCurrProcess (psys st) ->
  0 < id < 2147483648 -> hTableProcess st !! id = Some c -> process (psys st) !! c = Some ch ->
  pparent ch = ProcCurrProcess (psys st) -> c <> ProcCurrProcess (psys st) -> zombie ch = true ->
  (forall t, t ∈ threads ch -> exists th, thread (psys st) !! t = Some th /\ state th = PTS_ZOMBIE) ->
  exists st' w', ProcWaitProcess id options st w = Ret (Returned id (Some (pexitCode ch)), st', w') /\
    process (psys st') !! c = None /\ hTableProcess st' = delete id (hTableProcess st) /\
    (forall t, t ∈ threads ch -> thread (psys st') !! t = None) /\
    (forall q, q <> c -> process (psys st') !! q = bereaved c ch q <$> process (psys st) !! q) /\
    (forall q p, q <> c -> q <> ProcKernelProcess -> process (psys st) !! q = Some p -> c ∉ children p ->
      process (psys st') !! q = Some p) /\
    (forall u, u ∉ threads ch -> u <> ProcCurrThread (psys st) -> thread (psys st') !! u = thread (psys st) !! u) /\
    (forall u, u ∉ threads ch -> core <$> thread (psys st') !! u = core <$> thread (psys st) !! u) /\
    rest_kept (psys st) (psys st') /\ proc_inv st' w'.
Proof.
  intros Hi Hcp Hck Hkp Hcur Hpar Hid Hh Hc Hpp Hcc Hz Hth.
  assert (pid ch = id) as Hpid.
  { apply (t_pid _ _ _ _ Hi) in Hh as (cs & ts & E). rewrite (plists_of _ _ _ Hc) in E. by injection E. }
  assert (c <> 0) as Hc0 by (apply (t_live_process _ _ _ _ Hi); rewrite (plists_of _ _ _ Hc); by eexists).
  destruct (ProcIntReapProcess_total c st w ch kp cur) as (st' & w' & E & Hgone & Hh' & _ & Hq & Hu & Hco & Hr); try done.
  { by apply (t_nodup _ _ _ _ Hi _ _ _ _ (plists_of _ _ _ Hc)). }
  { intros Hin. apply (t_member _ _ _ _ Hi _ _ _ _ _ (plists_of _ _ _ Hc)) in Hin as (j & Hj).
    rewrite (tids_of _ _ _ Hcur) in Hj. congruence. }
  assert (forall q, q <> c -> process (psys st') !! q = bereaved c ch q <$> process (psys st) !! q) as Hothers.
  { intros q Hqc. rewrite Hq by done. destruct (process (psys st) !! q) as [p|] eqn:Ep; [|done]. simpl. do 2 f_equal.
    by eapply without_others. }
  exists st', w'. destruct (ProcIntReapProcess_inv _ _ _ _ _ Hi E) as [Hi' Hnone]. split_and!; try done.
  - unfold ProcWaitProcess, ProcGetProcessByID, get_process. rewrite Hh. cbn [default].
    destruct (Z.eqb_spec (ProcCurrProcess (psys st)) ProcKernelProcess); [done|].
    destruct (Z.ltb_spec id 0); [lia|]. destruct (Z.eqb_spec id 0); [lia|]. destruct (Z.ltb_spec id (-1)); [lia|].
    destruct (Z.ltb_spec 0 id); [|lia]. cbn [andb orb default from_option]. change (Datatypes.id c) with c. destruct (Z.eqb_spec c 0); [done|].
    rewrite Hc. cbn [or_fault mbind outcome_bind]. rewrite Hpp, Z.eqb_refl. cbn [negb wait_process_loop].
    unfold get_process. rewrite Hc. cbn [or_fault mbind outcome_bind]. rewrite Hz, Hc. cbn [or_fault mbind outcome_bind].
    rewrite E. cbn [mbind outcome_bind]. rewrite Hpid. do 4 f_equal. unfold s32. zlia.
  - rewrite Hh'. unfold remove_item. by rewrite Hpid, bool_decide_true.
  - intros q p Hqc Hqk Hp Hnc. rewrite Hothers, Hp by done. unfold bereaved. apply Z.eqb_neq in Hqk. simpl. rewrite Hqk, app_nil_r.
    rewrite filter_all by (intros x Hx ->; done). by destruct p.
Qed.
End Waiting.

(** ** Exiting *)

Section Exiting.
Context {K : Machine} {W : Type} {PE : ProcEnv W} {PL : ProcEnvLaws W} {PT : ProcEnvTotal W}.

(** The current thread has ended and is about to hand over. *)
Record stopped (s : sys) : Prop := {
  st_queue : queue_ok s;
  st_current : exists th, thread s !! ProcCurrThread s = Some th /\ parent th = ProcCurrProcess s /\ state th = PTS_ZOMBIE;
  st_not_queued : ProcCurrThread s ∉ threadQueue s;
  st_all : forall u th, thread s !! u = Some th -> state th = PTS_RUNNING -> u ∈ threadQueue s
}.

(** A thread of another kind of wait is not touched, a waiting one is woken. *)
Definition waits (s : sys) (m : ProcWaitMode) (t : Z) : Prop :=
  exists th, thread s !! t = Some th /\ state th = PTS_INTR /\ waitMode th = m.

Lemma stopped_wake s t th :
  stopped s -> t <> ProcIdleThread -> thread s !! t = Some th -> state th = PTS_INTR ->
  ProcWakeUp t s = Ret (make_ready t th 0 s) /\ stopped (make_ready t th 0 s).
Proof.
  intros [Hq (c & Hc & Hp & Hz) Hn Hall] Hni Ht Hs. unfold ProcWakeUp, ProcWakeUpSig. rewrite Ht. simpl. rewrite Hs.
  split; [done|]. assert (t <> ProcCurrThread s) as Hne by congruence.
  assert (t ∉ threadQueue s) as Htq by (intros Hin; destruct (q_running s Hq t Hin) as (x & Hx & Hxs); congruence).
  split; simpl.
  - unfold make_ready. set (s1 := set_thread s _).
    eapply (queue_ok_push s1); [eapply queue_ok_update; try done; congruence|done|done|apply lookup_insert_eq|done].
  - exists c. by rewrite lookup_insert_ne.
  - set_solver.
  - intros u x. destruct (decide (t = u)) as [<-|Hu]; [set_solver|]. rewrite lookup_insert_ne by done.
    intros Hx Hxs. specialize (Hall u x Hx Hxs). set_solver.
Qed.

Lemma wake_waiters_spec m l : forall s,
  stopped s -> ProcIdleThread ∉ l -> NoDup l -> (forall t, t ∈ l -> is_Some (thread s !! t)) ->
  exists s', wake_waiters m l s = Ret s' /\ stopped s' /\ process s' = process s /\ memContexts s' = memContexts s /\
    ProcCurrThread s' = ProcCurrThread s /\ ProcCurrProcess s' = ProcCurrProcess s /\
    (forall t, t ∈ l -> waits s m t -> woken s' t) /\
    (forall u, u ∉ l -> thread s' !! u = thread s !! u).
Proof.
  induction l as [|t l IH]; intros s Hs Hni Hnd Hl; simpl.
  { exists s. split_and!; try done. by intros t Ht%not_elem_of_nil. }
  apply not_elem_of_cons in Hni as [Hti Hni]. apply NoDup_cons in Hnd as [Htl Hnd].
  destruct (Hl t) as [th Hth]; [by left|]. rewrite Hth. cbn [or_fault mbind outcome_bind].
  assert (exists s1, (if bool_decide (state th = PTS_INTR) && bool_decide (waitMode th = m) then ProcWakeUp t s else Ret s) = Ret s1 /\
    stopped s1 /\ process s1 = process s /\ memContexts s1 = memContexts s /\ ProcCurrThread s1 = ProcCurrThread s /\ ProcCurrProcess s1 = ProcCurrProcess s /\
    (waits s m t -> woken s1 t) /\ (forall u, u <> t -> thread s1 !! u = thread s !! u)) as (s1 & -> & H1 & Hp1 & Hm1 & Hc1 & Hcp1 & Hw1 & Hf1).
  { destruct (bool_decide_reflect (state th = PTS_INTR)) as [Hi|Hi]; [destruct (bool_decide_reflect (waitMode th = m)) as [Hm|Hm]|]; simpl.
    - destruct (stopped_wake s t th) as [E H1]; [done..|]. exists (make_ready t th 0 s). split_and!; try done.
      + intros _. eexists. simpl. rewrite lookup_insert_eq. done.
      + intros u Hu. simpl. by rewrite lookup_insert_ne.
    - exists s. split_and!; try done. intros (x & Hx & _ & Hxm). congruence.
    - exists s. split_and!; try done. intros (x & Hx & Hxi & _). congruence. }
  cbn [mbind outcome_bind].
  destruct (IH s1) as (s' & -> & H2 & Hp2 & Hm2 & Hc2 & Hcp2 & Hw2 & Hf2); [done..| |].
  { intros u Hu. rewrite Hf1 by (intros ->; done). apply Hl. by right. }
  exists s'. split_and!; try done; try congruence.
  - intros u [->|Hu]%elem_of_cons Hwu.
    + destruct (Hw1 Hwu) as (x & Hx & Hxs). exists x. by rewrite Hf2.
    + apply Hw2; [done|]. destruct Hwu as (x & Hx & Hxs). exists x. rewrite Hf1; [done|]. by intros ->.
  - intros u [H3 H4]%not_elem_of_cons. by rewrite Hf2, Hf1.
Qed.

(** The last step of an exit runs another thread. *)
Lemma stopped_exit s :
  stopped s -> ProcCurrThread s <> ProcIdleThread ->
  exists s', ProcIntSelfExit s = Ret s' /\ sched_inv s' /\ process s' = process s /\ memContexts s' = memContexts s /\
    same_core (thread s) (thread s').
Proof.
  intros [Hq (th & Hth & Hp & Hz) Hn Hall] Hni. unfold ProcIntSelfExit.
  destruct (schedule_inv s Hq) as (s' & -> & Hi & (Hc & Hpr & Hmc & _ & Hcu & _)); [by exists th|done|].
  cbn [mbind outcome_bind]. destruct (Z.eqb_spec (ProcCurrThread s') (ProcCurrThread s)) as [E|E]; [|by exists s'].
  exfalso. rewrite Hcu in E. unfold next_thread in E. destruct (threadQueue s) as [|u q]; simpl in E; [done|].
  apply Hn. rewrite E. left.
Qed.

(** *** The process on its way out *)

Definition pview (p : ProcProcess) : Z * Z * list Z * list ProcSigaction :=
  (memContext p, pparent p, threads p, sigHandlers p).
Definition pself (p : ProcProcess) : Z * Z * Z := (pid p, pparent p, pexitCode p).

(** What the exit of process [P] changes before its thread stops: [P] itself
    and its context; the lists of children and the loaded context. *)
Record dying (P : Z) (s0 s : sys) : Prop := {
  d_thread : thread s = thread s0; d_queue : threadQueue s = threadQueue s0;
  d_cur : ProcCurrThread s = ProcCurrThread s0; d_curp : ProcCurrProcess s = ProcCurrProcess s0;
  d_fpu : fpu s = fpu s0;
  d_others : forall q, q <> P -> pview <$> process s !! q = pview <$> process s0 !! q;
  d_ctx : forall q pr, q <> P -> process s0 !! q = Some pr ->
    memContexts s !! memContext pr = memContexts s0 !! memContext pr
}.

Lemma dying_refl P s : dying P s s.
Proof. by split. Qed.

Lemma dying_process P s0 s m :
  dying P s0 s -> (forall q, q <> P -> pview <$> m !! q = pview <$> process s !! q) -> dying P s0 (set_process s m).
Proof. intros [] Hm. split; try done. intros q Hq. simpl. by rewrite Hm, d_others0. Qed.

Lemma dying_upd P s0 s f p :
  dying P s0 s -> process s !! P = Some p ->
  exists s', upd_process P f s = Ret s' /\ dying P s0 s' /\ process s' !! P = Some (f p) /\
    memContexts s' = memContexts s /\ cr3 s' = cr3 s.
Proof.
  intros Hd Hp. unfold upd_process, get_process. rewrite Hp. simpl. eexists. split; [done|]. simpl.
  split_and!; [|apply lookup_insert_eq|done|done]. apply dying_process; [done|]. intros q Hq. by rewrite lookup_insert_ne.
Qed.

Lemma dying_alarm P s0 s p tm :
  dying P s0 s -> ProcCurrProcess s0 = P -> process s !! P = Some p ->
  (alarmPtr p = 0 \/ exists e, e ∈ alarmQueueHead tm /\ addr e = alarmPtr p) ->
  exists r tm' s' p', TimerSetAlarm 0 0 tm s = Ret (r, tm', s') /\ dying P s0 s' /\ process s' !! P = Some p' /\
    pview p' = pview p /\ pself p' = pself p /\ children p' = children p /\ ioContext p' = ioContext p /\
    memContexts s' = memContexts s /\ cr3 s' = cr3 s.
Proof.
  intros Hd <- Hp Ha. unfold TimerSetAlarm, get_process. rewrite (d_curp _ _ _ Hd), Hp. cbn [or_fault mbind outcome_bind].
  destruct (Z.eqb_spec (alarmPtr p) 0) as [E|E]; cbn [negb].
  - cbn [mbind outcome_bind Z.eqb negb]. eexists _, _, _, p. split; [done|]. by split_and!.
  - destruct Ha as [|(e & He & Hea)]; [done|].
    destruct (list_find_elem_of (fun e => addr e = alarmPtr p) (alarmQueueHead tm) e He Hea) as [[i x] ->].
    cbn [or_fault mbind outcome_bind negb Z.eqb]. eexists _, _, _, (set_alarmPtr p 0). split; [done|]. simpl.
    split_and!; try done; [|apply lookup_insert_eq]. apply dying_process; [done|]. intros q Hq. by rewrite lookup_insert_ne.
Qed.

Lemma dying_disown P s0 s p kp :
  dying P s0 s -> P <> ProcKernelProcess -> process s !! P = Some p -> process s !! ProcKernelProcess = Some kp ->
  exists s', ProcDisownChildren P s = Ret s' /\ dying P s0 s' /\ process s' !! P = Some (set_children p []) /\
    memContexts s' = memContexts s /\ cr3 s' = cr3 s.
Proof.
  intros Hd Hk Hp Hkp. rewrite (ProcDisownChildren_total P s p kp) by done. eexists. split; [done|]. simpl.
  split_and!; try done; [|by rewrite lookup_insert_ne, lookup_insert_eq].
  apply dying_process; [done|]. intros q Hq. destruct (decide (q = ProcKernelProcess)) as [->|].
  - by rewrite lookup_insert_eq, Hkp.
  - by rewrite !lookup_insert_ne by done.
Qed.

(** The address space is not shared with another process. *)
Definition unshared (P : Z) (s : sys) (ctx : Z) : Prop :=
  forall q pr, q <> P -> process s !! q = Some pr -> memContext pr <> ctx.

Lemma dying_memory P s0 s s' :
  dying P s0 s -> thread s' = thread s -> threadQueue s' = threadQueue s -> ProcCurrThread s' = ProcCurrThread s ->
  ProcCurrProcess s' = ProcCurrProcess s -> fpu s' = fpu s -> process s' = process s ->
  (forall q pr, q <> P -> process s0 !! q = Some pr -> memContexts s' !! memContext pr = memContexts s !! memContext pr) ->
  dying P s0 s'.
Proof.
  intros [] E1 E2 E3 E4 E5 E6 Hc. split; try congruence.
  - intros q Hq. rewrite E6. auto.
  - intros q pr Hq Hpr. rewrite (Hc q) by done. by eapply d_ctx0.
Qed.

(** The table of contexts with one reference to the context [c] at [ctx] fewer. *)
Definition reference_dropped (ctx : Z) (c : MemContext) (m : gmap Z MemContext) : gmap Z MemContext :=
  if refCount c <=? 1 then delete ctx m
  else <[ctx := mkMemContext (regions c) (physDirectory c) (refCount c - 1)]> m.

(** A page frame number. *)
Definition is_frame (n : Z) : Prop := 0 <= n < 1048576.

Lemma frame_directory n m : is_frame n -> is_frame m -> u32 n = u32 (u32 m * 4096) / 4096 -> n = m.
Proof. unfold is_frame, u32. intros. zlia. Qed.

(** Once the kernel's directory is loaded, a context with another directory
    loses its reference, and goes with the last one. *)
Lemma MemContextDeleteReference_drops ctx c kc s w :
  memContexts s !! ctx = Some c -> ctx <> MemKernelContext -> physDirectory c <> INVALID_PAGE ->
  is_frame (physDirectory c) -> is_frame (physDirectory kc) -> physDirectory c <> physDirectory kc ->
  cr3 s = u32 (u32 (physDirectory kc) * 4096) ->
  exists w', MemContextDeleteReference ctx s w = Ret (set_memContexts s (reference_dropped ctx c (memContexts s)), w').
Proof.
  intros Hc Hk Hd F1 F2 Hne E. unfold MemContextDeleteReference, MemContextDelete, reference_dropped. rewrite Hc.
  cbn [or_fault mbind outcome_bind]. destruct (refCount c <=? 1); [|by eexists].
  destruct (Z.eqb_spec (u32 (physDirectory c)) (cr3 s / 4096)) as [Eq|_].
  { rewrite E in Eq. by apply frame_directory in Eq. }
  apply Z.eqb_neq in Hd, Hk. rewrite Hd, Hk. destruct (total_free_pages c w) as (w1 & ->). by eexists.
Qed.

Lemma dying_release P s0 s w p c kc :
  dying P s0 s -> ProcCurrProcess s0 = P -> process s !! P = Some p -> memContext p <> 0 ->
  memContexts s !! memContext p = Some c -> memContext p <> MemKernelContext -> unshared P s0 (memContext p) ->
  memContexts s !! MemKernelContext = Some kc -> physDirectory kc <> INVALID_PAGE ->
  physDirectory c <> INVALID_PAGE -> is_frame (physDirectory c) -> is_frame (physDirectory kc) ->
  physDirectory c <> physDirectory kc ->
  exists s' w' p', release_contexts s w = Ret (s', w') /\ dying P s0 s' /\ process s' !! P = Some p' /\
    memContext p' = 0 /\ ioContext p' = 0 /\ pself p' = pself p /\
    memContexts s' = reference_dropped (memContext p) c (memContexts s).
Proof.
  intros Hd <- Hp H0 Hc Hnk Hun Hk Hkd Hcd F1 F2 Hne. unfold release_contexts, get_process. rewrite (d_curp _ _ _ Hd), Hp.
  cbn [or_fault mbind outcome_bind]. apply Z.eqb_neq in H0. rewrite H0. cbn [negb].
  unfold MemContextSwitchTo. rewrite Hk. cbn [or_fault mbind outcome_bind]. apply Z.eqb_neq in Hkd. rewrite Hkd.
  cbn [mbind outcome_bind]. set (s1 := set_memory _ _ _).
  destruct (MemContextDeleteReference_drops (memContext p) c kc s1 w) as (w2 & E); [done..|].
  set (s2 := set_memContexts _ _) in E.
  assert (dying (ProcCurrProcess s0) s0 s2) as Hd2.
  { apply (dying_memory _ _ s); try done. intros q pr Hq Hpr. simpl. unfold reference_dropped.
    assert (memContext p <> memContext pr) as Hpp by (intros Ep; by apply (Hun q pr)).
    destruct (_ <=? 1); [by rewrite lookup_delete_ne|by rewrite lookup_insert_ne]. }
  rewrite E. cbn [mbind outcome_bind].
  destruct (dying_upd _ s0 s2 (fun q => set_contexts q 0 (ioContext q)) p Hd2 Hp) as (s3 & E3 & Hd3 & Hp3 & M3 & _).
  rewrite E3. cbn [mbind outcome_bind]. rewrite Hp3. cbn [or_fault mbind outcome_bind ioContext set_contexts].
  destruct (Z.eqb_spec (ioContext p) 0) as [Hio|Hio]; cbn [negb]; [eexists _, _, _; by split_and!|].
  destruct (total_IoContextDeleteReference (ioContext p) w2) as (w3 & ->). cbn [mbind outcome_bind].
  destruct (dying_upd _ s0 s3 (fun q => set_contexts q (memContext q) 0) _ Hd3 Hp3) as (s4 & E4 & Hd4 & Hp4 & M4 & _).
  rewrite E4. cbn [mbind outcome_bind]. eexists _, _, _. split_and!; try done. by rewrite M4, M3.
Qed.

Lemma dying_stopped P s0 s p th :
  sched_inv s0 -> dying P s0 s -> ProcCurrProcess s0 = P -> ProcCurrThread s0 <> ProcIdleThread ->
  P <> ProcKernelProcess -> process s !! P = Some p -> memContext p = 0 ->
  thread s0 !! ProcCurrThread s0 = Some th ->
  (forall u x, thread s0 !! u = Some x -> parent x = P -> u = ProcCurrThread s0) ->
  stopped (set_thread s (<[ProcCurrThread s0 := set_state th PTS_ZOMBIE]> (thread s))).
Proof.
  intros [Hq (th' & Hth' & Hpar & _) Hnq Hlost] Hd HP Hni HPk Hp Hp0 Hth Honly.
  rewrite Hth in Hth'. injection Hth' as <-. destruct Hd. destruct Hq as [Hnd Hi Hr (ith & Hit & His & Hip) Hpr Hm Hf].
  assert (forall u x, u <> ProcCurrThread s0 -> thread s0 !! u = Some x ->
    (<[ProcCurrThread s0 := set_state th PTS_ZOMBIE]> (thread s)) !! u = Some x) as Hother.
  { intros u x Hu Hx. by rewrite lookup_insert_ne, d_thread0. }
  split; [split| | |]; simpl; rewrite ?d_queue0, ?d_cur0, ?d_curp0, ?d_fpu0; try done.
  - intros t Ht. destruct (Hr t Ht) as (x & Hx & Hxs). exists x. split; [apply Hother; [|done]|done]. intros ->. done.
  - exists ith. split; [by apply Hother|done].
  - intros t x. destruct (decide (ProcCurrThread s0 = t)) as [<-|Hne]; [rewrite lookup_insert_eq; by intros [= <-] []|].
    rewrite lookup_insert_ne, d_thread0 by done. intros Hx Hxs. destruct (Hpr t x Hx Hxs) as [|(pr & c & H1 & H2 & H3 & H4)]; [by left|].
    right. assert (parent x <> P) as HnP by (intros E; apply Hne; symmetry; by eapply Honly).
    pose proof (d_others0 _ HnP) as Ho. rewrite H1 in Ho. apply fmap_Some in Ho as (pr' & Hpr' & E).
    injection E as E1 E2 E3 E4. exists pr', c. simpl. rewrite <- E1. rewrite (d_ctx0 _ pr HnP H1). by split_and!.
  - intros Hk pr Hpr' Hne. simpl in Hpr'. rewrite d_curp0, HP in Hpr'. congruence.
  - destruct Hf as [Hf|(x & img & Hx & Hxi)]; [left; simpl; congruence|right]. simpl. rewrite d_fpu0.
    destruct (decide (ProcCurrThread s0 = fpuCurrent (fpu s0))) as [E|E].
    + rewrite <- E, lookup_insert_eq. rewrite <- E, Hth in Hx. injection Hx as <-. by exists (set_state th PTS_ZOMBIE), img.
    + exists x, img. split; [by apply Hother|done].
  - exists (set_state th PTS_ZOMBIE). rewrite lookup_insert_eq. split_and!; [done| |done]. simpl. congruence.
  - intros u x. destruct (decide (ProcCurrThread s0 = u)) as [<-|Hne]; [rewrite lookup_insert_eq; by intros [= <-]|].
    rewrite lookup_insert_ne, d_thread0 by done. intros Hx Hxs. by destruct (Hlost u x Hx Hxs).
Qed.

(** An exit of the last thread as far as its stop. *)
Lemma exit_to_stop code st w P p th c kp kc :
  sched_inv (psys st) ->
  ProcCurrProcess (psys st) = P -> P <> ProcKernelProcess -> ProcCurrThread (psys st) <> ProcIdleThread ->
  process (psys st) !! P = Some p -> thread (psys st) !! ProcCurrThread (psys st) = Some th -> threads p = [ProcCurrThread (psys st)] ->
  (alarmPtr p = 0 \/ exists e, e ∈ alarmQueueHead (ptimer st) /\ addr e = alarmPtr p) ->
  memContexts (psys st) !! memContext p = Some c -> memContext p <> MemKernelContext -> unshared P (psys st) (memContext p) ->
  process (psys st) !! ProcKernelProcess = Some kp ->
  memContexts (psys st) !! MemKernelContext = Some kc -> physDirectory kc <> INVALID_PAGE ->
  is_frame (physDirectory c) -> is_frame (physDirectory kc) -> physDirectory c <> physDirectory kc ->
  pparent p <> ProcKernelProcess ->
  (forall u x, thread (psys st) !! u = Some x -> parent x = P -> u = ProcCurrThread (psys st)) ->
  exists tm s5 w5 p5, dying P (psys st) s5 /\ process s5 !! P = Some p5 /\ zombie p5 = true /\ pexitCode p5 = code /\
    memContext p5 = 0 /\ ioContext p5 = 0 /\
    memContexts s5 = reference_dropped (memContext p) c (memContexts (psys st)) /\
    let s6 := set_thread s5 (<[ProcCurrThread (psys st) := set_state th PTS_ZOMBIE]> (thread s5)) in
    stopped s6 /\
    ProcExitProcess code st w =
      (s7 ← notify_parent (pparent p) s6; s8 ← ProcIntSelfExit s7;
       Ret (set_psys (set_reaper (set_ptimer st tm) (reaperHead st)) s8, w5)).
Proof.
  intros Hs HP HPk Hni Hp Hth Hts Hal Hc Hnk Hun Hkp Hkc Hkd F1 F2 Hcd Hpar Honly. set (s0 := psys st) in *.
  assert (memContext p <> 0 /\ physDirectory c <> INVALID_PAGE) as [Hm0 Hci].
  { destruct Hs as [Hq (x & Hx & Hxp & Hxs) _ _]. rewrite Hth in Hx. injection Hx as <-.
    destruct (q_process _ Hq _ _ Hth) as [E|(pr & c' & E & ? & Ec & ?)]; [destruct Hxs as [->|]; done|congruence|].
    rewrite Hxp, HP, Hp in E. injection E as <-. rewrite Hc in Ec. by injection Ec as <-. }
  destruct (dying_upd P s0 s0 (fun p => set_pexitCode p code) p (dying_refl P s0) Hp) as (s1 & E1 & D1 & Hp1 & M1 & _).
  destruct (dying_alarm P s0 s1 _ (ptimer st) D1 HP Hp1 Hal) as (r & tm & s2 & p2 & E2 & D2 & Hp2 & V2 & S2 & C2 & I2 & M2 & _).
  assert (exists kp2, process s2 !! ProcKernelProcess = Some kp2) as (kp2 & Hkp2).
  { pose proof (d_others _ _ _ D2 ProcKernelProcess (not_eq_sym HPk)) as Ho. rewrite Hkp in Ho.
    apply fmap_Some in Ho as (kp2 & ? & _). eauto. }
  destruct (dying_disown P s0 s2 p2 kp2 D2 HPk Hp2 Hkp2) as (s3 & E3 & D3 & Hp3 & M3 & _).
  injection V2 as V21 V22 V23 V24. injection S2 as S21 S22 S23.
  destruct (dying_release P s0 s3 w (set_children p2 []) c kc) as (s4 & w4 & p4 & E4 & D4 & Hp4 & Hm4 & Hio4 & S4 & M4); try done.
  { simpl. congruence. } { simpl. rewrite V21. simpl. congruence. } { simpl. congruence. } { simpl. rewrite V21. done. } { congruence. }
  injection S4 as S41 S42 S43.
  destruct (dying_upd P s0 s4 set_zombie p4 D4 Hp4) as (s5 & E5 & D5 & Hp5 & M5 & _).
  exists tm, s5, w4, (set_zombie p4). split_and!; [done..|simpl; congruence|done|done| |].
  { rewrite M5, M4, M3, M2, M1. simpl. by rewrite V21. }
  intros s6.
  split; [by apply (dying_stopped P s0 s5 (set_zombie p4))|].
  unfold ProcExitProcess, get_process. fold s0. rewrite HP, E1. cbn [mbind outcome_bind].
  rewrite (d_curp _ _ _ D1), HP, Hp1. cbn [or_fault mbind outcome_bind threads set_pexitCode]. rewrite Hts.
  change (several [ProcCurrThread s0]) with false. cbv iota.
  unfold exit_last_thread. cbn [ptimer psys set_psys]. rewrite E2. cbn [mbind outcome_bind].
  rewrite (d_curp _ _ _ D2), HP, E3. cbn [mbind outcome_bind]. rewrite E4. cbn [mbind outcome_bind].
  rewrite (d_curp _ _ _ D4), HP, E5. cbn [mbind outcome_bind].
  assert (upd_thread (ProcCurrThread s5) (fun x => set_state x PTS_ZOMBIE) s5 = Ret s6) as ->.
  { unfold upd_thread. rewrite (d_cur _ _ _ D5), (d_thread _ _ _ D5), Hth. simpl. unfold s6. by rewrite (d_thread _ _ _ D5). }
  cbn [mbind outcome_bind]. unfold get_process.
  change (ProcCurrProcess s6) with (ProcCurrProcess s5). rewrite (d_curp _ _ _ D5), HP.
  change (process s6) with (process s5). rewrite Hp5. cbn [or_fault mbind outcome_bind].
  assert (pparent (set_zombie p4) = pparent p) as -> by (simpl in *; congruence).
  destruct (Z.eqb_spec (pparent p) ProcKernelProcess); [done|].
  by destruct (notify_parent (pparent p) s6).
Qed.

(** A signal that is ignored leaves a notified parent as it is but for the
    waits that end. *)
Lemma notify_parent_ignored PP pp s s' :
  process s !! PP = Some pp -> SignalIsIgnored pp SIGCLD = Ret true ->
  wake_waiters PWM_PROCESS (threads pp) s = Ret s' -> process s' = process s -> notify_parent PP s = Ret s'.
Proof.
  intros Hpp Hig E Hp. unfold notify_parent, get_process. rewrite Hpp. cbn [or_fault mbind outcome_bind].
  rewrite E. cbn [mbind outcome_bind]. unfold ProcSignalSendProcess, get_process. cbn [valid_signal]. rewrite Hp, Hpp.
  cbn -[SignalIsIgnored]. by rewrite Hig.
Qed.

(** C17: when the last thread of a user process exits with a code, the exit
    goes through: the process is a zombie with that code and without contexts,
    its address space has a reference fewer and is gone if that was the last
    one, its thread has ended, every thread of the parent that waits for a
    child is made ready (and will not see an interruption), another thread
    runs and the invariants of the scheduler and of the tables hold. This is
    for a parent other than the kernel process, which ignores SIGCLD or leaves
    it at its default, an address space that no other process has and whose
    directory is not the kernel's, and an alarm that is off or in the timer
    queue. *)
Theorem ProcExitProcess_wakes_parent code st w P p pp PP th c kp kc :
  proc_inv st w -> sched_inv (psys st) ->
  ProcCurrProcess (psys st) = P -> P <> ProcKernelProcess -> ProcCurrThread (psys st) <> ProcIdleThread ->
  process (psys st) !! P = Some p -> thread (psys st) !! ProcCurrThread (psys st) = Some th -> threads p = [ProcCurrThread (psys st)] ->
  (alarmPtr p = 0 \/ exists e, e ∈ alarmQueueHead (ptimer st) /\ addr e = alarmPtr p) ->
  memContexts (psys st) !! memContext p = Some c -> memContext p <> MemKernelContext -> unshared P (psys st) (memContext p) ->
  process (psys st) !! ProcKernelProcess = Some kp ->
  memContexts (psys st) !! MemKernelContext = Some kc -> physDirectory kc <> INVALID_PAGE ->
  is_frame (physDirectory c) -> is_frame (physDirectory kc) -> physDirectory c <> physDirectory kc ->
  pparent p = PP -> PP <> ProcKernelProcess -> PP <> P -> process (psys st) !! PP = Some pp ->
  SignalIsIgnored pp SIGCLD = Ret true ->
  exists st' w' p' th', ProcExitProcess code st w = Ret (st', w') /\ sched_inv (psys st') /\ proc_inv st' w' /\
    process (psys st') !! P = Some p' /\ zombie p' = true /\ pexitCode p' = code /\
    memContext p' = 0 /\ ioContext p' = 0 /\
    memContexts (psys st') = reference_dropped (memContext p) c (memContexts (psys st)) /\
    thread (psys st') !! ProcCurrThread (psys st) = Some th' /\ state th' = PTS_ZOMBIE /\
    (forall t, t ∈ threads pp -> waits (psys st) PWM_PROCESS t -> woken (psys st') t).
Proof.
  intros Hi Hs HP HPk Hni Hp Hth Hts Hal Hc Hnk Hun Hkp Hkc Hkd F1 F2 Hcd Hpar HPPk HPP Hpp Hig.
  assert (forall q pr t, process (psys st) !! q = Some pr ->
    t ∈ threads pr <-> exists x, thread (psys st) !! t = Some x /\ parent x = q) as Hmem.
  { intros q pr t Hq. rewrite (t_member _ _ _ _ Hi _ _ _ _ _ (plists_of _ _ _ Hq)). split.
    - intros (j & Ht). apply fmap_Some in Ht as (x & Hx & E). injection E as _ E. eauto.
    - intros (x & Hx & <-). exists (tid x). by apply tids_of. }
  destruct (exit_to_stop code st w P p th c kp kc) as (tm & s5 & w5 & p5 & D5 & Hp5 & Hz5 & Hc5 & Hm5 & Hio5 & Hmc5 & Hst & E); try done.
  { congruence. }
  { intros u x Hu Hx. assert (u ∈ threads p) as Hin by (apply (Hmem P); eauto).
    rewrite Hts in Hin. by apply list_elem_of_singleton in Hin. }
  set (s6 := set_thread s5 _) in Hst, E. rewrite Hpar in E.
  assert (exists pp6, process s6 !! PP = Some pp6 /\ threads pp6 = threads pp /\ sigHandlers pp6 = sigHandlers pp) as (pp6 & Hpp6 & Ht6 & Hsg6).
  { pose proof (d_others _ _ _ D5 PP HPP) as Ho. rewrite Hpp in Ho. apply fmap_Some in Ho as (pp6 & Hs6 & Hv).
    injection Hv as ? ? ? ?. exists pp6. by split_and!. }
  assert (forall t, t ∈ threads pp -> t <> ProcCurrThread (psys st)) as Hnc.
  { intros t Ht ->. apply (Hmem PP) in Ht as (x & Hx & Hxp); [|done]. destruct Hs as [_ (y & Hy & Hyp & _) _ _]. congruence. }
  assert (forall t, t <> ProcCurrThread (psys st) -> thread s6 !! t = thread (psys st) !! t) as Hsame.
  { intros t Ht. unfold s6. simpl. by rewrite lookup_insert_ne, (d_thread _ _ _ D5). }
  destruct (wake_waiters_spec PWM_PROCESS (threads pp) s6) as (s7 & E7 & Hst7 & Hp7 & Hm7 & Hc7 & Hcp7 & Hw7 & Hf7); [done| | | |].
  { intros Hin. apply (Hmem PP) in Hin as (x & Hx & Hxp); [|done]. destruct Hs as [Hq _ _ _].
    destruct (q_idle_thread _ Hq) as (y & Hy & _ & Hyp). congruence. }
  { by apply (t_nodup _ _ _ _ Hi _ _ _ _ (plists_of _ _ _ Hpp)). }
  { intros t Ht. rewrite Hsame by auto. apply (Hmem PP) in Ht as (x & -> & _); [by eexists|done]. }
  assert (ProcCurrThread s7 = ProcCurrThread (psys st)) as Hcur7 by (rewrite Hc7; unfold s6; simpl; apply D5).
  destruct (stopped_exit s7 Hst7) as (s8 & E8 & Hinv & Hp8 & Hm8 & Hcore); [congruence|].
  rewrite (notify_parent_ignored PP pp6 s6 s7) in E; [|done|unfold SignalIsIgnored, sig_action in *; by rewrite Hsg6|by rewrite Ht6|done].
  cbn [mbind outcome_bind] in E. rewrite E8 in E. cbn [mbind outcome_bind] in E.
  destruct (same_core_lookup _ _ (ProcCurrThread (psys st)) (set_state th PTS_ZOMBIE) Hcore) as (th8 & Hth8 & Ec8).
  { rewrite Hf7; [|intros Hin; by apply Hnc in Hin]. unfold s6. simpl. apply lookup_insert_eq. }
  apply core_fields in Ec8 as (Es8 & _).
  eexists _, w5, p5, th8. split_and!; [exact E|done|by eapply ProcExitProcess_inv| |done|done|done|done| |done|done|].
  - simpl. by rewrite Hp8, Hp7.
  - simpl. by rewrite Hm8, Hm7.
  - intros t Ht Hw. destruct (Hw7 t Ht) as (x & Hx & Hxs & Hxi).
    { destruct Hw as (x & Hx & ?). exists x. by rewrite Hsame by auto. }
    destruct (same_core_lookup _ _ _ _ Hcore Hx) as (x8 & Hx8 & Ec). apply core_fields in Ec as (Ec1 & _ & Ec2 & _).
    exists x8. simpl. split_and!; [done|congruence|congruence].
Qed.
End Exiting.

(** ** Forking *)

Section Forking.
Context {K : Machine} {W : Type} {PE : ProcEnv W} {PL : ProcEnvLaws W} {PA : ProcEnvAlloc W}.

Lemma ProcCreateProcess_spec fuel name par st w pp :
  proc_inv st w -> par <> 0 -> process (psys st) !! par = Some pp ->
  is_u32 (processNextID st) -> Z.of_nat (size (hTableProcess st)) < 4294967296 -> (size (hTableProcess st) < fuel)%nat ->
  exists a id nx nm w', process (psys st) !! a = None /\ par <> a /\ thread (psys st) !! a = None /\
    hTableProcess st !! id = None /\
    ProcCreateProcess fuel name par st w =
      Ret (a, set_psys (set_process_ids st (<[id := a]> (hTableProcess st)) nx)
        (set_process (psys st) (<[par := set_children pp (children pp ++ [a])]>
          (<[a := mkProcess id par [] [] false 0 0 (replicate (Z.to_nat SIG_MAX) (mkSigaction 0 0 0)) 0 0 nm 0]>
             (process (psys st))))), w').
Proof.
  intros Hi Hp0 Hpp Hu Hs Hf. destruct (total_alloc_process w) as (a & w1 & Ea).
  destruct (alloc_id_returns fuel (hTableProcess st) a (processNextID st) Hu Hs Hf) as (k & Hk & Eid).
  destruct (total_StrDup name 255 w1) as (nm & w2 & En).
  destruct (law_alloc_process _ _ _ Ea) as (Ha0 & Hna & _).
  assert (process (psys st) !! a = None) as Hpa.
  { destruct (process (psys st) !! a) as [x|] eqn:E; [|done]. destruct Hna. apply (t_live_process _ _ _ _ Hi).
    rewrite (plists_of _ _ _ E). by eexists. }
  assert (thread (psys st) !! a = None) as Hta.
  { destruct (thread (psys st) !! a) as [x|] eqn:E; [|done]. destruct Hna. apply (t_live_thread _ _ _ _ Hi).
    rewrite (tids_of _ _ _ E). by eexists. }
  assert (par <> a) as Hne by (intros ->; congruence).
  eexists a, _, _, nm, w2. split_and!; [done..|]. unfold ProcCreateProcess, upd_process, get_process.
  rewrite Ea. cbn [mbind outcome_bind]. rewrite Eid. cbn [mbind outcome_bind]. rewrite En. cbn [mbind outcome_bind].
  apply Z.eqb_neq in Hp0. rewrite Hp0. cbn [psys set_process_ids process set_process].
  rewrite lookup_insert_ne by done. rewrite Hpp. reflexivity.
Qed.

(** The thread that ProcCreateUserThread makes. *)
Lemma ProcCreateUserThread_spec e fuel name par start stack st w pp :
  proc_inv st w -> process (psys st) !! par = Some pp ->
  is_u32 (threadNextID st) -> Z.of_nat (size (hTableThread st)) < 4294967296 -> (size (hTableThread st) < fuel)%nat ->
  exists a th st' w', ProcCreateUserThread e fuel name par start stack st w = Ret (a, st', w') /\
    psys st' = set_thread (set_process (psys st) (<[par := set_threads pp (threads pp ++ [a])]> (process (psys st))))
                 (<[a := th]> (thread (psys st))) /\
    hTableProcess st' = hTableProcess st /\ hTableThread st !! tid th = None /\
    hTableThread st' = <[tid th := a]> (hTableThread st) /\
    thread (psys st) !! a = None /\ state th = PTS_STARTUP /\ parent th = par /\
    (0 <= kStackBase th -> kStackBase th + PROC_KSTACK_SIZE < 4294967296 ->
     forall i v, user_frame e start stack !! i = Some v -> kstacks st' !! (kStackPointer th + 4 * Z.of_nat i) = Some v).
Proof.
  intros Hi Hpp Hu Hs Hf. destruct (total_alloc_thread w) as (a & w1 & Ea).
  destruct (alloc_id_returns fuel (hTableThread st) a (threadNextID st) Hu Hs Hf) as (k & Hk & Eid).
  destruct (total_StrDup name 255 w1) as (nm & w2 & En).
  destruct (total_MemPhysicalAlloc 1 MEM_KERNEL w2) as (page & w3 & Ep).
  destruct (law_alloc_thread _ _ _ Ea) as (_ & Hna & _).
  assert (thread (psys st) !! a = None) as Hta.
  { destruct (thread (psys st) !! a) as [x|] eqn:E; [|done]. destruct Hna. apply (t_live_thread _ _ _ _ Hi).
    rewrite (tids_of _ _ _ E). by eexists. }
  unfold ProcCreateUserThread, ProcCreateRawThread, upd_process, get_process.
  rewrite Ea. cbn [mbind outcome_bind]. rewrite Eid. cbn [mbind outcome_bind psys set_thread_ids].
  rewrite Hpp. cbn [or_fault mbind outcome_bind]. rewrite En. cbn [mbind outcome_bind]. rewrite Ep. cbn [mbind outcome_bind].
  unfold setup_stack, upd_thread. cbn [psys set_kstacks set_psys set_thread thread set_process]. rewrite !lookup_insert_eq.
  cbn [or_fault mbind outcome_bind thread process set_thread]. rewrite insert_insert_eq.
  eexists a, _, _, w3. split; [reflexivity|]. split; [reflexivity|]. split_and!; try done. intros Hb Hb' i v Hv.
  cbn [kStackBase set_kStackPointer] in Hb, Hb'. cbn [kstacks set_psys set_kstacks kStackPointer set_kStackPointer kStackBase].
  assert (Z.of_nat (length (user_frame e start stack)) = 12) as Hl by done. unfold zlen. rewrite Hl.
  set (sp := u32 _). assert (sp = MemPhys2Virt page + PROC_KSTACK_SIZE - 48) as Hsp.
  { unfold sp, u32. rewrite Z.mod_small; [done|]. unfold PROC_KSTACK_SIZE in *. lia. }
  apply store_words_lookup; [|rewrite Hl|done]; unfold PROC_KSTACK_SIZE in *; lia.
Qed.

(** C18: a fork by a user process goes through: the new process is a child of
    the current one, under an id that was free, with its signal handlers, the
    memory context that MemContextClone makes of the running process's (added
    to the contexts there are) and what IoContextClone makes of its I/O
    context. It has one thread, under an id that was free, which is ready, last
    in the queue, and has the current thread's blocked signals and TLS
    descriptor; its stack holds the frame that starts it at the given address.
    The tables stay in order. The allocators succeed, and an id is free. *)
Theorem ProcFork_child e fuel start stack st w cp ct :
  proc_inv st w -> ProcCurrProcess (psys st) <> ProcKernelProcess ->
  process (psys st) !! ProcCurrProcess (psys st) = Some cp -> thread (psys st) !! ProcCurrThread (psys st) = Some ct ->
  is_u32 (processNextID st) -> Z.of_nat (size (hTableProcess st)) < 4294967296 -> (size (hTableProcess st) < fuel)%nat ->
  is_u32 (threadNextID st) -> Z.of_nat (size (hTableThread st)) < 4294967296 -> (size (hTableThread st) < fuel)%nat ->
  exists child t p th st' w', ProcFork e fuel start stack st w = Ret (child, st', w') /\ proc_inv st' w' /\
    process (psys st) !! child = None /\ process (psys st') !! child = Some p /\
    pparent p = ProcCurrProcess (psys st) /\ sigHandlers p = sigHandlers cp /\ threads p = [t] /\ zombie p = false /\
    (exists cp', process (psys st') !! ProcCurrProcess (psys st) = Some cp' /\ children cp' = children cp ++ [child]) /\
    hTableProcess st !! pid p = None /\ hTableProcess st' = <[pid p := child]> (hTableProcess st) /\
    hTableThread st !! tid th = None /\ hTableThread st' = <[tid th := t]> (hTableThread st) /\
    (exists s1 w1 contents w2 w3,
      MemCurrentContext s1 = MemCurrentContext (psys st) /\ memContexts s1 = memContexts (psys st) /\
      pe_MemContextClone s1 w1 = Ret (memContext p, contents, w2) /\
      memContexts (psys st') = <[memContext p := contents]> (memContexts (psys st)) /\
      pe_IoContextClone (ioContext cp) w2 = Ret (ioContext p, w3)) /\
    thread (psys st) !! t = None /\ thread (psys st') !! t = Some th /\ parent th = child /\ state th = PTS_RUNNING /\
    threadQueue (psys st') = threadQueue (psys st) ++ [t] /\
    sigBlocked th = sigBlocked ct /\ tlsDescriptor th = tlsDescriptor ct /\
    (0 <= kStackBase th -> kStackBase th + PROC_KSTACK_SIZE < 4294967296 ->
     forall i v, user_frame e start stack !! i = Some v -> kstacks st' !! (kStackPointer th + 4 * Z.of_nat i) = Some v).
Proof.
  intros Hi Hk Hcp Hct Hu1 Hs1 Hf1 Hu2 Hs2 Hf2.
  assert (ProcCurrProcess (psys st) <> 0) as H0 by (apply (t_live_process _ _ _ _ Hi); rewrite (plists_of _ _ _ Hcp); by eexists).
  destruct (ProcCreateProcess_spec fuel (pname cp) (ProcCurrProcess (psys st)) st w cp Hi H0 Hcp Hu1 Hs1 Hf1)
    as (a & id & nx & nm & w1 & Hpa & Hne & Hta & Hfree & E1).
  pose proof (ProcCreateProcess_inv _ _ _ _ _ _ _ _ Hi E1) as Hi1.
  set (st1 := set_psys _ _) in E1, Hi1.
  destruct (total_MemContextClone (psys st1) w1) as (ctx & contents & w2 & E2).
  destruct (total_IoContextClone (ioContext cp) w2) as (ioc & w3 & E3).
  set (np := set_contexts (set_sigHandlers (mkProcess id (ProcCurrProcess (psys st)) [] [] false 0 0
    (replicate (Z.to_nat SIG_MAX) (mkSigaction 0 0 0)) 0 0 nm 0) (sigHandlers cp)) ctx ioc).
  set (s2 := set_process (set_memContexts (psys st1) (<[ctx := contents]> (memContexts (psys st1)))) (<[a := np]> (process (psys st1)))).
  assert (process (psys st1) !! a = Some (mkProcess id (ProcCurrProcess (psys st)) [] [] false 0 0
    (replicate (Z.to_nat SIG_MAX) (mkSigaction 0 0 0)) 0 0 nm 0)) as Ha1.
  { simpl. rewrite lookup_insert_ne by done. apply lookup_insert_eq. }
  assert (proc_inv (set_psys st1 s2) w3) as Hi2.
  { apply (proc_inv_kept st1 _ w1); [done..| |].
    - transitivity (set_memContexts (psys st1) (<[ctx := contents]> (memContexts (psys st1)))); [by apply ids_same|].
      by eapply (ids_set_process (set_memContexts (psys st1) (<[ctx := contents]> (memContexts (psys st1)))) a).
    - intros x. by rewrite (law_IoContextClone _ _ _ _ E3), (law_MemContextClone _ _ _ _ _ E2). }
  destruct (ProcCreateUserThread_spec e fuel (tname ct) a start stack (set_psys st1 s2) w3 np)
    as (t & th & st3 & w4 & E4 & Hs3 & Hh3 & Htid & Hht3 & Ht & Hst & Hpar & Hframe); [done|apply lookup_insert_eq|done..|].
  change (thread (psys st) !! t = None) in Ht.
  assert (ProcFork e fuel start stack st w = Ret (a, set_psys st3 (make_ready t (set_signals_tls th (sigBlocked ct) (tlsDescriptor ct)) 0
    (set_thread (psys st3) (<[t := set_signals_tls th (sigBlocked ct) (tlsDescriptor ct)]> (thread (psys st3))))), w4)) as E.
  { unfold ProcFork. apply Z.eqb_neq in Hk. rewrite Hk. unfold get_process at 1. rewrite Hcp. cbn [or_fault mbind outcome_bind].
    rewrite E1. cbn [mbind outcome_bind]. rewrite E2. cbn [mbind outcome_bind]. rewrite E3. cbn [mbind outcome_bind].
    unfold upd_process, get_process. cbn [process set_memContexts]. rewrite Ha1. cbn [or_fault mbind outcome_bind].
    fold np. fold s2. change (thread s2 !! ProcCurrThread s2) with (thread (psys st) !! ProcCurrThread (psys st)).
    rewrite Hct. cbn [or_fault mbind outcome_bind]. rewrite E4. cbn [mbind outcome_bind]. unfold upd_thread. rewrite Hs3.
    cbn [thread set_thread ProcCurrThread set_process].
    change (thread (psys (set_psys st1 s2))) with (thread (psys st)). change (ProcCurrThread (psys (set_psys st1 s2))) with (ProcCurrThread (psys st)).
    rewrite (lookup_insert_ne _ t (ProcCurrThread (psys st))) by (intros E; rewrite E in Ht; congruence). rewrite Hct, lookup_insert_eq. cbn [or_fault mbind outcome_bind].
    unfold ProcWakeUp, ProcWakeUpSig. cbn [thread set_thread]. rewrite lookup_insert_eq. cbn [or_fault mbind outcome_bind state set_signals_tls].
    by rewrite Hst. }
  eexists a, t, _, (set_state (set_interrupted (set_signals_tls th (sigBlocked ct) (tlsDescriptor ct)) 0) PTS_RUNNING), _, w4.
  split; [exact E|]. split; [eapply ProcFork_inv; [exact Hi|exact E]|].
  cbn [psys set_psys process make_ready set_queue set_thread thread threadQueue kstacks memContexts hTableProcess hTableThread].
  rewrite Hs3, Hh3, Hht3.
  cbn [process set_process set_thread thread threadQueue]. change (process (psys (set_psys st1 s2))) with (process s2).
  split; [done|]. split; [apply lookup_insert_eq|]. split_and!; try done.
  - exists (set_children cp (children cp ++ [a])). split; [|done]. rewrite lookup_insert_ne by done. unfold s2. cbn [process set_process].
    rewrite lookup_insert_ne by done. apply lookup_insert_eq.
  - exists (psys st1), w1, contents, w2, w3. by split_and!.
  - apply lookup_insert_eq.
Qed.
End Forking.

(** ** Witnesses *)

Lemma ProcWaitProcess_errors_witness :
  ProcWaitProcess (-7) 0 child_dead family_live = Ret (Returned (- EINVAL) None, child_dead, family_live).
Proof.
  refine (proj1 (proj2 (ProcWaitProcess_errors (-7) 0 child_dead family_live (family_process 1 100 300 [201] [4] false) _) _) _).
  - vm_compute. reflexivity.
  - discriminate.
  - reflexivity.
Defined.

Lemma ProcWaitProcess_reaps_witness :
  exists st' w', ProcWaitProcess 2 0 child_dead family_live = Ret (Returned 2 (Some 9), st', w') /\
    process (psys st') !! 201 = None.
Proof.
  destruct (ProcWaitProcess_reaps 2 0 child_dead family_live 201 (family_process 2 200 0 [] [5] true)
    (family_thread 2 200 PTS_RUNNING PWM_NONE) (family_process 0 0 400 [] [1] false)) as (st' & w' & E & Hn & _);
    try (discriminate || reflexivity || lia).
  - exact (proj1 child_dead_ok).
  - intros t ->%list_elem_of_singleton. exists (family_thread 3 201 PTS_ZOMBIE PWM_NONE). split; reflexivity.
  - exists st', w'. split; [exact E|exact Hn].
Defined.

Lemma ProcExitProcess_wakes_parent_witness :
  exists st' w', ProcExitProcess 9 child_runs family_live = Ret (st', w') /\ woken (psys st') 4 /\
    memContexts (psys st') !! 301 = None.
Proof.
  destruct (ProcExitProcess_wakes_parent 9 child_runs family_live 201 (family_process 2 200 301 [] [5] false)
    (family_process 1 100 300 [201] [4] false) 200 (family_thread 3 201 PTS_RUNNING PWM_NONE) (mkMemContext [] 8 1)
    (family_process 0 0 400 [] [1] false) (mkMemContext [] 6 1))
    as (st' & w' & p' & th' & E & _ & _ & _ & _ & _ & _ & _ & Hm & _ & _ & Hw);
    try (discriminate || reflexivity).
  - exact (proj1 child_runs_ok).
  - exact (proj2 child_runs_ok).
  - left. reflexivity.
  - intros q pr Hq H. unfold child_runs, family in H. simpl in H.
    apply lookup_insert_Some in H as [[<- <-]|[_ H]]; [discriminate|].
    apply lookup_insert_Some in H as [[<- <-]|[_ H]]; [discriminate|].
    apply lookup_insert_Some in H as [[<- _]|[_ H]]; [by destruct Hq|discriminate].
  - unfold is_frame. simpl. lia.
  - unfold is_frame. simpl. lia.
  - exists st', w'. split; [exact E|]. split; [|rewrite Hm; vm_compute; reflexivity].
    apply Hw; [by apply list_elem_of_singleton|].
    exists (family_thread 2 200 PTS_INTR PWM_PROCESS). split; [|split]; reflexivity.
Defined.

Lemma ProcFork_child_witness :
  exists child p st' w', ProcFork 0xC0104000 9 0x8000 0xBFFFF000 child_dead family_live = Ret (child, st', w') /\ proc_inv st' w' /\
    process (psys st') !! child = Some p /\ memContext p = 0x5000.
Proof.
  destruct (ProcFork_child 0xC0104000 9 0x8000 0xBFFFF000 child_dead family_live (family_process 1 100 300 [201] [4] false)
    (family_thread 2 200 PTS_RUNNING PWM_NONE)) as (child & t & p & th & st' & w' & E & Hi & _ & Hp & _ & _ & _ & _ & _ & _ & _ & _ & _ & (s1 & w1 & c & w2 & w3 & _ & _ & Ec & _) & _).
  - exact (proj1 child_dead_ok).
  - discriminate.
  - vm_compute. reflexivity.
  - vm_compute. reflexivity.
  - unfold is_u32. simpl. lia.
  - vm_compute. reflexivity.
  - change (3 < 9)%nat. lia.
  - unfold is_u32. simpl. lia.
  - vm_compute. reflexivity.
  - change (3 < 9)%nat. lia.
  - exists child, p, st', w'. split; [exact E|]. split; [exact Hi|]. split; [exact Hp|].
    injection Ec as <- _ _. reflexivity.
Defined.

(** The family with the parent dead and the child alive, while the reaper runs. *)
Definition parent_dead : procs :=
  mkProcs
    (mkSys (<[2 := family_thread 1 100 PTS_RUNNING PWM_NONE]> (<[4 := family_thread 2 200 PTS_ZOMBIE PWM_NONE]>
              (<[5 := family_thread 3 201 PTS_INTR PWM_NONE]> ∅)))
           (<[100 := family_process 0 0 400 [200] [2] false]> (<[200 := family_process 1 100 0 [201] [4] true]>
              (<[201 := family_process 2 200 301 [] [5] false]> ∅)))
           ∅ [] 2 100 0 0 20 0 0 (mkFpu false 0 []))
    ∅ ∅ 3 4 [] ∅ (mkTimerState 0 0 0 [] [] (mkPorts 0 [] [] [])).

Lemma orphan_exit_faults_witness :
  exists st' w' ch', ProcIntReapProcess 200 parent_dead family_live = Ret (st', w') /\
    process (psys st') !! 201 = Some ch' /\ pparent ch' = 200 /\ notify_parent (pparent ch') (psys st') = Fault.
Proof.
  refine (orphan_exit_faults 200 parent_dead family_live (family_process 1 100 0 [201] [4] true)
    (family_process 0 0 400 [200] [2] false) (family_thread 1 100 PTS_RUNNING PWM_NONE) 201
    (family_process 2 200 301 [] [5] false) _ _ _ _ _ _ _ _ _ _ _); try (discriminate || reflexivity).
  - apply NoDup_singleton.
  - intros H. by apply list_elem_of_singleton in H.
  - intros t ->%list_elem_of_singleton. exists (family_thread 2 200 PTS_ZOMBIE PWM_NONE). split; reflexivity.
Defined.
