(* ===== verification/Slab.v ===== *)
(** * Slab allocator (src/mm/slab.c, include/mm/kmemory.h)

    Caches and slab headers are records at their addresses; the lists of slabs
    of a cache are the sequences that CList.v shows a list to be. The words of
    the slabs' memory are a map, in which the free chains run through the first
    words of free objects. The physical allocator and the page table's slab
    fields are the interface [SlabPages], which Physical.v can fill. *)
From S2P Require Import Prelude Physical Utils.

(** ** Data *)

Record MemCache := mkCache {
  slabsFull : list Z; slabsPartial : list Z; slabsEmpty : list Z;
  objectSize : Z; cflags : Z; pagesPerSlab : Z; objectsPerSlab : Z
}.

(** [slabList] is the place of the slab in the lists of the caches. *)
Record MemSlab := mkSlab { scache : Z; activeObjs : Z; smemory : Z; freePtr : Z }.

Definition MEM_SLAB_DMA : Z := 1.
Definition MEM_SLAB_LARGE : Z := 2.
Definition MEM_SLAB_END : Z := 0xFFFFFFFF.
Definition sizeof_MemSlab : Z := 24.
Definition sizeof_MemCache : Z := 48.

(** What the allocator takes from the physical page allocator, and the field
    MemPageStateTable[page].slab. *)
Class SlabPages (P : Type) := {
  sp_alloc : Z -> Z -> P -> outcome (Z * P);       (* MemPhysicalAlloc(number, zone) *)
  sp_free : Z -> Z -> P -> outcome P;              (* MemPhysicalFree(page, number) *)
  sp_get : Z -> P -> outcome Z;
  sp_set : Z -> Z -> P -> outcome P
}.

#[export] Instance phys_slab_pages : SlabPages phys := {|
  sp_alloc := MemPhysicalAlloc (Z.to_nat 0x100000);
  sp_free := MemPhysicalFree;
  sp_get page st := pg ← or_fault (zget (MemPageStateTable st) page); Ret (slab pg);
  sp_set page a st := pg ← or_fault (zget (MemPageStateTable st) page);
    Ret (set_table st (zset (MemPageStateTable st) page (mkMemPage (refCount pg) a)))
|}.

(** [cacheList] is the chain of caches that starts at the root cache. *)
Record slabs (P : Type) := mkSlabs {
  caches : gmap Z MemCache; cacheList : list Z; slabsOf : gmap Z MemSlab;
  words : gmap Z Z; spages : P; rootSlabCache : Z; kAllocCache : list Z
}.
Arguments mkSlabs {P}. Arguments caches {P}. Arguments cacheList {P}. Arguments slabsOf {P}.
Arguments words {P}. Arguments spages {P}. Arguments rootSlabCache {P}. Arguments kAllocCache {P}.

(** The initial contents of the static root cache. *)
Definition rootCache_init : MemCache :=
  mkCache [] [] [] sizeof_MemCache 0 1 ((PAGE_SIZE - sizeof_MemSlab) / sizeof_MemCache).

(** ** Lists of slabs *)

(** ListDeleteInit(&slab->slabList): the slab leaves the list it is on. *)
Definition drop_slab (a : Z) (c : MemCache) : MemCache :=
  mkCache (filter (fun x => x <> a) (slabsFull c)) (filter (fun x => x <> a) (slabsPartial c))
    (filter (fun x => x <> a) (slabsEmpty c)) (objectSize c) (cflags c) (pagesPerSlab c) (objectsPerSlab c).

Definition unlink_slab (a : Z) (m : gmap Z MemCache) : gmap Z MemCache := drop_slab a <$> m.

Inductive slab_list := Full | Partial | Empty.

(** ListAddBefore(&slab->slabList, &cache->slabs...) *)
Definition add_slab (l : slab_list) (a : Z) (c : MemCache) : MemCache :=
  mkCache (if l is Full then slabsFull c ++ [a] else slabsFull c)
    (if l is Partial then slabsPartial c ++ [a] else slabsPartial c)
    (if l is Empty then slabsEmpty c ++ [a] else slabsEmpty c)
    (objectSize c) (cflags c) (pagesPerSlab c) (objectsPerSlab c).

Definition is_large (c : MemCache) : bool := truth (Z.land (cflags c) MEM_SLAB_LARGE).

(** ** Words *)

(** MemSet over whole words. *)
Fixpoint fill_words (n : nat) (m : gmap Z Z) (a v : Z) : gmap Z Z :=
  match n with O => m | S n' => fill_words n' (<[a := v]> m) (u32 (a + 4)) v end.

(** The word that MemSet(ptr, 0xFE, size) stores: below eight bytes it goes
    byte by byte, otherwise by words made from the sign-extended byte. *)
Definition wipe_word (size : Z) : Z := if size <? 8 then 0xFEFEFEFE else memset_valueLong (s8 0xFE).

(** for(i = 1; i < objectsPerSlab; i++): the chain through a new slab, then
    the terminator. *)
Fixpoint link_objects (n : nat) (m : gmap Z Z) (dataPtr size : Z) : gmap Z Z :=
  match n with
  | O => <[dataPtr := MEM_SLAB_END]> m
  | S n' => let newDataPtr := u32 (dataPtr + size) in link_objects n' (<[dataPtr := newDataPtr]> m) newDataPtr size
  end.

Section Slabs.
Context {P : Type} {SP : SlabPages P}.
(** The address of the static root cache. *)
Context (rootCache : Z).

Definition set_caches (st : slabs P) m := mkSlabs m (cacheList st) (slabsOf st) (words st) (spages st) (rootSlabCache st) (kAllocCache st).
Definition set_cacheList (st : slabs P) l := mkSlabs (caches st) l (slabsOf st) (words st) (spages st) (rootSlabCache st) (kAllocCache st).
Definition set_slabsOf (st : slabs P) m := mkSlabs (caches st) (cacheList st) m (words st) (spages st) (rootSlabCache st) (kAllocCache st).
Definition set_words (st : slabs P) m := mkSlabs (caches st) (cacheList st) (slabsOf st) m (spages st) (rootSlabCache st) (kAllocCache st).
Definition set_spages (st : slabs P) (p : P) := mkSlabs (caches st) (cacheList st) (slabsOf st) (words st) p (rootSlabCache st) (kAllocCache st).
Definition set_rootSlabCache (st : slabs P) a := mkSlabs (caches st) (cacheList st) (slabsOf st) (words st) (spages st) a (kAllocCache st).
Definition set_kAllocCache (st : slabs P) l := mkSlabs (caches st) (cacheList st) (slabsOf st) (words st) (spages st) (rootSlabCache st) l.

(** Move slab [a] to the end of a list of cache [k]. *)
Definition move_slab (l : slab_list) (a k : Z) (st : slabs P) : outcome (slabs P) :=
  let m := unlink_slab a (caches st) in
  c ← or_fault (m !! k); Ret (set_caches st (<[k := add_slab l a c]> m)).

(** ** Creating slabs *)

(** for(page = rawData; page < endPage; ++page) MemPageStateTable[page].slab = slab; *)
Fixpoint set_page_slabs (n : nat) (page a : Z) (p : P) : outcome P :=
  match n with
  | O => Ret p
  | S n' => p1 ← sp_set page a p; set_page_slabs n' (page + 1) a p1
  end.

(** The new slab at [rawData] with its header at [a]. *)
Definition setup_slab (k : Z) (c : MemCache) (rawData a : Z) (st : slabs P) : outcome (Z * slabs P) :=
  p1 ← set_page_slabs (Z.to_nat (pagesPerSlab c)) rawData a (spages st);
  let st1 := set_words (set_spages st p1)
               (link_objects (Z.to_nat (objectsPerSlab c - 1)) (words st) (MemPhys2Virt rawData) (objectSize c)) in
  let st2 := set_slabsOf st1 (<[a := mkSlab k 0 rawData (MemPhys2Virt rawData)]> (slabsOf st1)) in
  c' ← or_fault (caches st2 !! k);
  Ret (a, set_caches st2 (<[k := add_slab Empty a c']> (caches st2))).

(** [alloc] is MemSlabAlloc, used for the header of a large slab. *)
Definition CreateSlab (alloc : Z -> slabs P -> outcome (Z * slabs P)) (k : Z) (st : slabs P) : outcome (Z * slabs P) :=
  c ← or_fault (caches st !! k);
  let zone := if truth (Z.land (cflags c) MEM_SLAB_DMA) then MEM_DMA else MEM_KERNEL in
  '(rawData, p1) ← sp_alloc (pagesPerSlab c) zone (spages st);
  let st1 := set_spages st p1 in
  '(a, st2) ←
    (if is_large c then alloc (rootSlabCache st1) st1
     else Ret (u32 (MemPhys2Virt (rawData + pagesPerSlab c) - sizeof_MemSlab), st1));
  setup_slab k c rawData a st2.

(** ** Allocating *)

(** The object at the head of slab [a]'s free chain. *)
Definition take_object (k a : Z) (st : slabs P) : outcome (Z * slabs P) :=
  s ← or_fault (slabsOf st !! a);
  let objectPtr := freePtr s in
  next ← or_fault (words st !! objectPtr);
  let active := u32 (activeObjs s + 1) in
  let st1 := set_slabsOf st (<[a := mkSlab (scache s) active (smemory s) next]> (slabsOf st)) in
  st2 ← (if next =? MEM_SLAB_END then move_slab Full a k st1
         else if active =? 1 then move_slab Partial a k st1
         else Ret st1);
  Ret (objectPtr, st2).

(** The fuel bounds the nesting of MemSlabAlloc in CreateSlab. *)
Fixpoint MemSlabAlloc (fuel : nat) (k : Z) (st : slabs P) : outcome (Z * slabs P) :=
  match fuel with
  | O => NoFuel
  | S f =>
      c ← or_fault (caches st !! k);
      '(a, st1) ←
        match slabsPartial c, slabsEmpty c with
        | a :: _, _ => Ret (a, st)
        | [], a :: _ => Ret (a, st)
        | [], [] => CreateSlab (MemSlabAlloc f) k st
        end;
      take_object k a st1
  end.

Definition MemSlabZAlloc (fuel : nat) (k : Z) (st : slabs P) : outcome (Z * slabs P) :=
  '(object, st1) ← MemSlabAlloc fuel k st;
  if negb (object =? 0) then
    c ← or_fault (caches st1 !! k);
    Ret (object, set_words st1 (fill_words (Z.to_nat (objectSize c / 4)) (words st1) object 0))
  else Ret (object, st1).

(** ** Freeing *)

(** The refusals are only logged. *)
Definition MemSlabFree (k ptr : Z) (st : slabs P) : outcome (slabs P) :=
  if (ptr <? KERNEL_VIRTUAL_BASE) || (MEM_KFIXED_MAX <=? ptr) then Ret st
  else
    a ← sp_get (MemVirt2Phys ptr) (spages st);
    s ← or_fault (slabsOf st !! a);
    if negb (scache s =? k) then Ret st
    else
      c ← or_fault (caches st !! k);
      let w := fill_words (Z.to_nat (objectSize c / 4)) (words st) ptr (wipe_word (objectSize c)) in
      let st1 := set_words st (<[ptr := freePtr s]> w) in
      st2 ← (if activeObjs s =? objectsPerSlab c then move_slab Partial a k st1
             else if activeObjs s =? 1 then move_slab Empty a k st1
             else Ret st1);
      Ret (set_slabsOf st2 (<[a := mkSlab (scache s) (u32 (activeObjs s - 1)) (smemory s) ptr]> (slabsOf st2))).

(** The loop over slabsEmpty. A freed header is wiped with its object. *)
Fixpoint shrink_loop (l : list Z) (k : Z) (pagesFreed : Z) (st : slabs P) : outcome (Z * slabs P) :=
  match l with
  | [] => Ret (pagesFreed, st)
  | a :: l' =>
      c ← or_fault (caches st !! k);
      s ← or_fault (slabsOf st !! a);
      p1 ← sp_free (smemory s) (pagesPerSlab c) (spages st);
      let st1 := set_spages st p1 in
      st2 ← (if is_large c then
               st2 ← MemSlabFree (rootSlabCache st1) a st1;
               Ret (set_slabsOf st2 (delete a (slabsOf st2)))
             else Ret st1);
      shrink_loop l' k (s32 (pagesFreed + pagesPerSlab c)) st2
  end.

Definition MemSlabShrink (k : Z) (st : slabs P) : outcome (Z * slabs P) :=
  c ← or_fault (caches st !! k); shrink_loop (slabsEmpty c) k 0 st.

(** ** Caches *)

(** for(pages = 1; pages < 8; pages++), [n] turns left. *)
Fixpoint best_pages (n : nat) (pages size slabExtra bestPages bestWastage : Z) : Z :=
  match n with
  | O => bestPages
  | S n' =>
      let nrObjects := (pages * PAGE_SIZE - slabExtra) / size in
      let wastage := (pages * PAGE_SIZE - slabExtra) mod size in
      if nrObjects <? 8 then best_pages n' (pages + 1) size slabExtra bestPages bestWastage
      else if wastage <=? pages * 128 then pages
      else if wastage <? bestWastage then best_pages n' (pages + 1) size slabExtra pages wastage
      else best_pages n' (pages + 1) size slabExtra bestPages bestWastage
  end.

(** (size + 3) & ~3 *)
Definition align_size (size : Z) : Z := Z.land (u32 (size + 3)) 0xFFFFFFFC.

(** The new cache's fields. *)
Definition cache_setup (size flags : Z) : MemCache :=
  let '(flags, slabExtra) :=
    if Z.shiftr PAGE_SIZE 3 <=? size then (Z.lor flags MEM_SLAB_LARGE, 0)
    else (Z.land flags (Z.lnot MEM_SLAB_LARGE), sizeof_MemSlab) in
  let best := best_pages 7 1 size slabExtra 8 0xFFFFFFFF in
  mkCache [] [] [] size flags best ((best * PAGE_SIZE - slabExtra) / size).

(** The division by a size of 0 is a fault. *)
Definition MemSlabCreate (fuel : nat) (size flags : Z) (st : slabs P) : outcome (Z * slabs P) :=
  let size := align_size size in
  if 8 * PAGE_SIZE <=? size then Ret (0, st)
  else
    '(cache, st1) ← MemSlabAlloc fuel rootCache st;
    if cache =? 0 then Ret (cache, st1)
    else if size =? 0 then Fault
    else
      let st2 := set_caches st1 (<[cache := cache_setup size flags]> (caches st1)) in
      Ret (cache, set_cacheList st2 (cacheList st2 ++ [cache])).

Definition MemSlabDestroy (k : Z) (st : slabs P) : outcome (bool * slabs P) :=
  c ← or_fault (caches st !! k);
  match slabsFull c, slabsPartial c with
  | [], [] =>
      '(_, st1) ← MemSlabShrink k st;
      let st2 := set_cacheList st1 (filter (fun x => x <> k) (cacheList st1)) in
      st3 ← MemSlabFree rootCache k st2;
      Ret (true, set_caches st3 (delete k (caches st3)))
  | _, _ => Ret (false, st)
  end.

(** for(i = 0; i < 11; i++) kAllocCache[i] = MemSlabCreate(8 << i, 0); *)
Fixpoint init_kalloc (n : nat) (i : Z) (fuel : nat) (st : slabs P) : outcome (slabs P) :=
  match n with
  | O => Ret st
  | S n' =>
      '(cache, st1) ← MemSlabCreate fuel (Z.shiftl 8 i) 0 st;
      init_kalloc n' (i + 1) fuel (set_kAllocCache st1 (kAllocCache st1 ++ [cache]))
  end.

Definition MemSlabInit (fuel : nat) (st : slabs P) : outcome (slabs P) :=
  '(cache, st1) ← MemSlabCreate fuel sizeof_MemSlab 0 st;
  init_kalloc 11 0 fuel (set_rootSlabCache st1 cache).

(** ** Generic memory *)

(** __builtin_clz: leading zeros of a 32-bit number that is not 0. *)
Definition BitScanReverse (num : Z) : Z := 31 - Z.log2 num.

Definition kalloc_index (bytes : Z) : Z :=
  if 8 <? bytes then
    let cacheIndex := u32 (28 - BitScanReverse bytes) in
    if negb (Z.shiftl 1 (cacheIndex + 3) =? bytes) then cacheIndex + 1 else cacheIndex
  else 0.

Definition MemKAlloc (fuel : nat) (bytes : Z) (st : slabs P) : outcome (Z * slabs P) :=
  if (bytes =? 0) || (Z.shiftl 8 10 <? bytes) then Ret (0, st)
  else k ← or_fault (zget (kAllocCache st) (kalloc_index bytes)); MemSlabAlloc fuel k st.

(** MemSet(data, 0, bytes) at an aligned address: whole words, then the low
    bytes of the word behind them. *)
Definition zero_bytes (m : gmap Z Z) (data bytes : Z) : gmap Z Z :=
  let m1 := fill_words (Z.to_nat (bytes / 4)) m data 0 in
  let tail := u32 (data + 4 * (bytes / 4)) in
  let low := 2 ^ (8 * (bytes mod 4)) in
  if bytes mod 4 =? 0 then m1
  else match m1 !! tail with Some v => <[tail := v / low * low]> m1 | None => m1 end.

Definition MemKZAlloc (fuel : nat) (bytes : Z) (st : slabs P) : outcome (Z * slabs P) :=
  '(data, st1) ← MemKAlloc fuel bytes st;
  if negb (data =? 0) then Ret (data, set_words st1 (zero_bytes (words st1) data bytes))
  else Ret (data, st1).

Definition MemKFree (ptr : Z) (st : slabs P) : outcome (slabs P) :=
  a ← sp_get (MemVirt2Phys ptr) (spages st);
  if a =? 0 then Ret st
  else s ← or_fault (slabsOf st !! a); MemSlabFree (scache s) ptr st.
End Slabs.
