(* ===== verification/SlabInv.v ===== *)
(** * What the slab allocator promises

    The invariant of the slab allocator: the free chain of every slab runs
    through distinct objects of the slab, the counters count the others, and
    every slab is on the list its counter says. Allocation gives an object
    that was not in use, in memory of its own, and freeing takes it back. *)
From stdpp Require Import functions.
From S2P Require Import Prelude Physical Utils Slab.

(** ** Free chains *)

Fixpoint chain (m : gmap Z Z) (p : Z) (l : list Z) : Prop :=
  match l with
  | [] => p = MEM_SLAB_END
  | x :: l' => p = x /\ exists w, m !! x = Some w /\ chain m w l'
  end.

Lemma free_chain_frame m m' p l : (forall x, x ∈ l -> m' !! x = m !! x) -> chain m p l -> chain m' p l.
Proof.
  revert p. induction l as [|x l IH]; intros p Hm; simpl; [done|]. intros [-> (w & Hw & Hc)]. split; [done|].
  exists w. rewrite Hm by (by left). split; [done|]. apply IH; [|done]. intros y Hy. apply Hm. by right.
Qed.

Definition object (base size : Z) (i : nat) : Z := base + Z.of_nat i * size.

Lemma link_objects_frame n : forall m d size y,
  0 <= d -> 0 < size -> d + Z.of_nat n * size < 4294967296 ->
  (forall i, (i <= n)%nat -> y <> object d size i) -> link_objects n m d size !! y = m !! y.
Proof.
  induction n as [|n IH]; intros m d size y Hd Hs Hb Hy; simpl.
  - apply lookup_insert_ne. specialize (Hy 0%nat). unfold object in Hy. lia.
  - assert (u32 (d + size) = d + size) as -> by (apply Z.mod_small; nia).
    rewrite IH; [|lia|lia|lia|].
    + apply lookup_insert_ne. specialize (Hy 0%nat). unfold object in Hy. lia.
    + intros i Hi. specialize (Hy (S i)). unfold object in *. lia.
Qed.

Lemma objects_shift d size n : object d size <$> seq 1 n = object (d + size) size <$> seq 0 n.
Proof.
  rewrite <- (fmap_S_seq 0), <- list_fmap_compose. apply list_fmap_ext. intros i j _. unfold object. simpl. lia.
Qed.

Lemma link_objects_chain n : forall m d size,
  0 <= d -> 0 < size -> d + Z.of_nat n * size < 4294967296 ->
  chain (link_objects n m d size) d (object d size <$> seq 0 (S n)).
Proof.
  induction n as [|n IH]; intros m d size Hd Hs Hb.
  - simpl. split; [unfold object; lia|]. replace (object d size 0) with d by (unfold object; lia).
    exists MEM_SLAB_END. by rewrite lookup_insert_eq.
  - change (seq 0 (S (S n))) with (0%nat :: seq 1 (S n)). rewrite fmap_cons, objects_shift. cbn [link_objects chain].
    assert (u32 (d + size) = d + size) as -> by (apply Z.mod_small; nia).
    replace (object d size 0) with d by (unfold object; lia). split; [done|]. exists (d + size). split.
    + rewrite link_objects_frame; [apply lookup_insert_eq|lia|lia|lia|]. intros i _. unfold object. nia.
    + apply IH; lia.
Qed.

Lemma fill_words_frame n : forall m a v y,
  0 <= a -> a + 4 * Z.of_nat n < 4294967296 -> (y < a \/ a + 4 * Z.of_nat n <= y) -> fill_words n m a v !! y = m !! y.
Proof.
  induction n as [|n IH]; intros m a v y Ha Hb Hy; [done|]. simpl.
  assert (u32 (a + 4) = a + 4) as -> by (apply Z.mod_small; lia).
  rewrite IH by lia. apply lookup_insert_ne. lia.
Qed.

(** ** The page allocator's promises *)

(** [held p page]: the page is in use; [room p]: so many requests for up to
    eight pages will certainly be met, with pages of the direct map that were
    not in use and without touching the slab fields. *)
Class SlabPagesLaws (P : Type) {SP : SlabPages P} := {
  held : P -> Z -> Prop;
  room : P -> nat;
  law_sp_alloc n z p : 0 < n <= 8 -> z = MEM_DMA \/ z = MEM_KERNEL -> (0 < room p)%nat ->
    exists pg p', sp_alloc n z p = Ret (pg, p') /\ (room p <= S (room p'))%nat /\
      0 <= pg /\ pg + n <= MEM_KFIXED_MAX_PAGE /\ (forall i, pg <= i < pg + n -> ~ held p i) /\
      (forall i, held p' i <-> held p i \/ pg <= i < pg + n) /\ (forall i, sp_get i p' = sp_get i p);
  law_sp_set pg a p : held p pg ->
    exists p', sp_set pg a p = Ret p' /\ sp_get pg p' = Ret a /\
      (forall i, i <> pg -> sp_get i p' = sp_get i p) /\ (forall i, held p' i <-> held p i) /\ room p' = room p;
  law_sp_free pg n p p' : sp_free pg n p = Ret p' ->
    forall i, held p' i <-> held p i /\ ~ (pg <= i < pg + n)
}.

(** ** Geometry *)

(** A cache without its lists. *)
Definition shape (c : MemCache) : MemCache := mkCache [] [] [] (objectSize c) (cflags c) (pagesPerSlab c) (objectsPerSlab c).

Definition base (page : Z) : Z := KERNEL_VIRTUAL_BASE + page * PAGE_SIZE.
Definition page_of (x : Z) : Z := (x - KERNEL_VIRTUAL_BASE) / PAGE_SIZE.

Record cache_ok (c : MemCache) : Prop := {
  co_size : 4 <= objectSize c; co_aligned : objectSize c mod 4 = 0;
  co_objects : 1 <= objectsPerSlab c; co_pages : 1 <= pagesPerSlab c <= 8;
  co_fit : objectsPerSlab c * objectSize c + (if is_large c then 0 else sizeof_MemSlab) <= pagesPerSlab c * PAGE_SIZE
}.

Definition in_slab (c : MemCache) (s : MemSlab) (x : Z) : Prop :=
  exists i, 0 <= i < objectsPerSlab c /\ x = base (smemory s) + i * objectSize c.

Lemma max_page : MEM_KFIXED_MAX_PAGE = 0x30000.
Proof. reflexivity. Qed.

Lemma MemPhys2Virt_base pg : 0 <= pg <= MEM_KFIXED_MAX_PAGE -> MemPhys2Virt pg = base pg.
Proof. rewrite max_page. intros H. unfold MemPhys2Virt, base. apply Z.mod_small. unfold KERNEL_VIRTUAL_BASE, PAGE_SIZE in *. lia. Qed.

Lemma MemVirt2Phys_page x : KERNEL_VIRTUAL_BASE <= x < MEM_KFIXED_MAX -> MemVirt2Phys x = page_of x.
Proof.
  intros H. unfold MemVirt2Phys, page_of, KERNEL_VIRTUAL_BASE, MEM_KFIXED_MAX, PAGE_SIZE in *.
  assert (s32 (x - 0xC0000000) = x - 0xC0000000) as -> by (unfold s32; rewrite Z.mod_small; lia).
  apply Z.quot_div_nonneg; lia.
Qed.

(** Where the words of an object are. *)
Lemma in_slab_bounds c s x :
  cache_ok c -> 0 <= smemory s -> smemory s + pagesPerSlab c <= MEM_KFIXED_MAX_PAGE -> in_slab c s x ->
  KERNEL_VIRTUAL_BASE <= x /\ x + objectSize c <= MEM_KFIXED_MAX /\ x mod 4 = 0 /\
  forall y, x <= y < x + objectSize c -> smemory s <= page_of y < smemory s + pagesPerSlab c.
Proof.
  rewrite max_page. intros [Hs Ha Ho Hp Hf] Hm Hm' (i & Hi & ->). destruct (is_large c); cbv [sizeof_MemSlab] in Hf.
  all: cbv [MEM_KFIXED_MAX base page_of KERNEL_VIRTUAL_BASE PAGE_SIZE] in *.
  all: assert (i * objectSize c + objectSize c <= pagesPerSlab c * 4096) by nia.
  all: assert (0 <= i * objectSize c) by nia.
  all: split_and!; [lia|lia| |intros y Hy; zlia].
  all: apply Z.mod_divide in Ha as [q ->]; [|lia]; rewrite Z.mul_assoc; zlia.
Qed.

(** Objects of a slab do not overlap. *)
Lemma in_slab_disjoint c s x y :
  cache_ok c -> in_slab c s x -> in_slab c s y -> x <> y -> y < x \/ x + objectSize c <= y.
Proof.
  intros [Hs _ _ _ _] (i & Hi & ->) (j & Hj & ->) Hne. assert (i <> j) by (intros ->; done).
  destruct (Z.lt_total i j) as [|[|]]; [right|lia|left]; nia.
Qed.

Definition objects (c : MemCache) (s : MemSlab) : list Z :=
  object (base (smemory s)) (objectSize c) <$> seq 0 (Z.to_nat (objectsPerSlab c)).

Lemma elem_of_objects c s x : x ∈ objects c s <-> in_slab c s x.
Proof.
  unfold objects, in_slab. rewrite list_elem_of_fmap. split.
  - intros (i & -> & Hi). apply elem_of_seq in Hi. exists (Z.of_nat i). split; [lia|done].
  - intros (i & Hi & ->). exists (Z.to_nat i). rewrite elem_of_seq. unfold object. rewrite Z2Nat.id by lia. split; [done|lia].
Qed.

Lemma objects_nodup c s : cache_ok c -> NoDup (objects c s).
Proof.
  intros [Hs _ _ _ _]. apply NoDup_fmap_2_strong; [|apply NoDup_seq]. intros i j _ _. unfold object. nia.
Qed.

Lemma free_count c s l : 0 <= objectsPerSlab c -> NoDup l -> (forall x, x ∈ l -> in_slab c s x) -> zlen l <= objectsPerSlab c.
Proof.
  intros Ho Hnd Hl. assert (l ⊆+ objects c s) as Hsub.
  { apply NoDup_submseteq; [done|]. intros x Hx. by apply elem_of_objects, Hl. }
  apply submseteq_length in Hsub. unfold objects in Hsub. rewrite length_fmap, length_seq in Hsub. unfold zlen. lia.
Qed.

(** ** The invariant *)

Section Invariant.
Context {P : Type} {SP : SlabPages P} {SL : SlabPagesLaws P}.
Context (rootCache : Z).
Implicit Types (st : slabs P) (fr : Z -> list Z).

Definition shape_of st (k : Z) : option MemCache := shape <$> caches st !! k.

(** [fr a] are the free objects of slab [a]; object [x] of cache [k] is in use. *)
Definition live st fr (k x : Z) : Prop :=
  exists a s c, slabsOf st !! a = Some s /\ scache s = k /\ shape_of st k = Some c /\ in_slab c s x /\ x ∉ fr a.

Record slab_ok st fr (a : Z) (s : MemSlab) (c : MemCache) : Prop := {
  so_chain : chain (words st) (freePtr s) (fr a);
  so_nodup : NoDup (fr a);
  so_free : forall x, x ∈ fr a -> in_slab c s x;
  so_active : activeObjs s = objectsPerSlab c - zlen (fr a);
  so_mem : 0 <= smemory s /\ smemory s + pagesPerSlab c <= MEM_KFIXED_MAX_PAGE;
  so_pages : forall pg, smemory s <= pg < smemory s + pagesPerSlab c ->
    sp_get pg (spages st) = Ret a /\ held (spages st) pg;
  so_header : if is_large c then live st fr (rootSlabCache st) a
              else a = base (smemory s + pagesPerSlab c) - sizeof_MemSlab
}.

(** Everything but the lists of slabs. *)
Record geometry st fr : Prop := {
  g_cache : forall k c, shape_of st k = Some c -> cache_ok c;
  g_slab : forall a s, slabsOf st !! a = Some s -> exists c, shape_of st (scache s) = Some c /\ slab_ok st fr a s c;
  g_large : forall k c, shape_of st k = Some c -> is_large c = true ->
    exists cb, shape_of st (rootSlabCache st) = Some cb /\ is_large cb = false;
  g_keys : forall k c, shape_of st k = Some c -> k = rootCache \/ live st fr rootCache k;
  g_root : held (spages st) (page_of rootCache) /\
    forall a s c, slabsOf st !! a = Some s -> shape_of st (scache s) = Some c -> ~ in_slab c s rootCache
}.

(** The lists: each slab of the cache once, the full ones on one list, those
    with nothing in use on another (slabs of one object may stay on the
    partial list). *)
Record lists_ok (c : MemCache) (mine : Z -> Prop) (fr : Z -> list Z) (active : Z -> Z) : Prop := {
  lo_nodup : NoDup (slabsFull c ++ slabsPartial c ++ slabsEmpty c);
  lo_mine : forall a, a ∈ slabsFull c ++ slabsPartial c ++ slabsEmpty c <-> mine a;
  lo_full : forall a, a ∈ slabsFull c -> fr a = [];
  lo_free : forall a, a ∈ slabsPartial c ++ slabsEmpty c -> fr a <> [];
  lo_empty : forall a, a ∈ slabsEmpty c -> active a = 0;
  lo_partial : forall a, a ∈ slabsPartial c -> active a <> 0 \/ objectsPerSlab c = 1
}.

Definition slabs_of st (k a : Z) : Prop := exists s, slabsOf st !! a = Some s /\ scache s = k.
Definition active_of st (a : Z) : Z := from_option activeObjs 0 (slabsOf st !! a).

Record slab_inv st fr : Prop := {
  i_geometry : geometry st fr;
  i_lists : forall k c, caches st !! k = Some c -> lists_ok c (slabs_of st k) fr (active_of st)
}.

(** *** Consequences *)

(** An object belongs to one slab. *)
Lemma one_slab st fr a s c a' s' c' x :
  geometry st fr -> slabsOf st !! a = Some s -> shape_of st (scache s) = Some c -> in_slab c s x ->
  slabsOf st !! a' = Some s' -> shape_of st (scache s') = Some c' -> in_slab c' s' x -> a = a'.
Proof.
  intros G Ha Hc Hx Ha' Hc' Hx'. destruct (g_slab _ _ G _ _ Ha) as (d & Hd & Hok), (g_slab _ _ G _ _ Ha') as (d' & Hd' & Hok').
  rewrite Hc in Hd. injection Hd as <-. rewrite Hc' in Hd'. injection Hd' as <-.
  pose proof (g_cache _ _ G _ _ Hc) as K1. pose proof (g_cache _ _ G _ _ Hc') as K2.
  destruct (so_mem _ _ _ _ _ Hok) as [M1 M2], (so_mem _ _ _ _ _ Hok') as [M1' M2'].
  destruct (in_slab_bounds _ _ _ K1 M1 M2 Hx) as (_ & _ & _ & B), (in_slab_bounds _ _ _ K2 M1' M2' Hx') as (_ & _ & _ & B').
  destruct (so_pages _ _ _ _ _ Hok (page_of x)) as [E _]; [apply B; destruct K1; lia|].
  destruct (so_pages _ _ _ _ _ Hok' (page_of x)) as [E' _]; [apply B'; destruct K2; lia|].
  rewrite E in E'. by injection E'.
Qed.

(** Every word of an object of a slab is on a page that is held. *)
Lemma in_slab_held st fr a s c x y :
  geometry st fr -> slabsOf st !! a = Some s -> shape_of st (scache s) = Some c -> in_slab c s x ->
  x <= y < x + objectSize c -> sp_get (page_of y) (spages st) = Ret a /\ held (spages st) (page_of y).
Proof.
  intros G Ha Hc Hx Hy. destruct (g_slab _ _ G _ _ Ha) as (d & Hd & Hok). rewrite Hc in Hd. injection Hd as <-.
  destruct (so_mem _ _ _ _ _ Hok) as [M1 M2]. apply (so_pages _ _ _ _ _ Hok).
  by apply (in_slab_bounds _ _ _ (g_cache _ _ G _ _ Hc) M1 M2 Hx).
Qed.

Lemma live_held st fr k x : geometry st fr -> live st fr k x -> held (spages st) (page_of x).
Proof.
  intros G (a & s & c & Ha & <- & Hc & Hx & _). eapply (in_slab_held _ _ a s c x); try done.
  pose proof (g_cache _ _ G _ _ Hc) as []. lia.
Qed.

(** The object of a live address is not free in another slab. *)
Lemma live_not_free st fr k x a s c :
  geometry st fr -> live st fr k x -> slabsOf st !! a = Some s -> shape_of st (scache s) = Some c -> in_slab c s x -> x ∉ fr a.
Proof.
  intros G (a' & s' & c' & Ha' & <- & Hc' & Hx' & Hn) Ha Hc Hx.
  by rewrite (one_slab _ _ _ _ _ _ _ _ _ G Ha Hc Hx Ha' Hc' Hx').
Qed.

(** A slab header is no object but an object of the header cache in use. *)
Lemma header_not_object st fr a s b sb cb :
  geometry st fr -> slabsOf st !! a = Some s ->
  slabsOf st !! b = Some sb -> shape_of st (scache sb) = Some cb -> in_slab cb sb a -> a ∉ fr b.
Proof.
  intros G Ha Hb Hcb Hx. destruct (g_slab _ _ G _ _ Ha) as (c & Hc & Hok). pose proof (so_header _ _ _ _ _ Hok) as Hh.
  destruct (is_large c) eqn:Hl; [by eapply live_not_free|]. exfalso.
  destruct (so_mem _ _ _ _ _ Hok) as [M1 M2]. pose proof (g_cache _ _ G _ _ Hc) as [].
  assert (page_of a = smemory s + pagesPerSlab c - 1) as Hp.
  { rewrite Hh. unfold page_of, base, sizeof_MemSlab, PAGE_SIZE. zlia. }
  destruct (so_pages _ _ _ _ _ Hok (page_of a)) as [E _]; [lia|].
  pose proof (g_cache _ _ G _ _ Hcb) as Kb. destruct (in_slab_held _ _ _ _ _ _ a G Hb Hcb Hx) as [E' _]; [destruct Kb; lia|].
  rewrite E in E'. injection E' as ->. rewrite Ha in Hb. injection Hb as <-. rewrite Hc in Hcb. injection Hcb as <-.
  destruct Hx as (i & Hi & Hx). rewrite Hl in co_fit0. unfold base, sizeof_MemSlab, PAGE_SIZE in *. nia.
Qed.

(** *** Lists *)

Lemma drop_slab_other c mine fr active a : lists_ok c mine fr active -> ~ mine a -> drop_slab a c = c.
Proof.
  intros [_ Hm _ _ _ _] Ha. assert (forall x, x ∈ slabsFull c ++ slabsPartial c ++ slabsEmpty c -> x <> a) as Hx.
  { intros x Hin ->. by apply Ha, Hm. }
  setoid_rewrite elem_of_app in Hx. setoid_rewrite elem_of_app in Hx.
  unfold drop_slab. rewrite !filter_all by auto. by destruct c.
Qed.

(** What the list says of the slab. *)
Definition status_ok (l : slab_list) (c : MemCache) (free : list Z) (active : Z) : Prop :=
  match l with
  | Full => free = []
  | Partial => free <> [] /\ (active <> 0 \/ objectsPerSlab c = 1)
  | Empty => free <> [] /\ active = 0
  end.

Lemma move_all l a c :
  let c' := add_slab l a (drop_slab a c) in
  slabsFull c' ++ slabsPartial c' ++ slabsEmpty c' ≡ₚ a :: filter (fun x => x <> a) (slabsFull c ++ slabsPartial c ++ slabsEmpty c).
Proof. rewrite !filter_app. destruct l; simpl; solve_Permutation. Qed.

Lemma lists_move l c mine mine' fr fr' active active' a :
  lists_ok c mine fr active -> (forall b, mine' b <-> mine b \/ b = a) ->
  (forall b, b <> a -> fr' b = fr b) -> (forall b, b <> a -> active' b = active b) ->
  status_ok l c (fr' a) (active' a) -> lists_ok (add_slab l a (drop_slab a c)) mine' fr' active'.
Proof.
  intros [Hnd Hm Hf Hn He Hp] Hmine Hfr Hact Hst.
  assert (forall q b, b ∈ filter (fun x => x <> a) q <-> b ∈ q /\ b <> a) as Hfil by (intros q b; rewrite list_elem_of_filter; tauto).
  assert (forall (Q : Z -> Prop) q b, b ∈ filter (fun x => x <> a) q ++ [a] -> (b ∈ q -> b <> a -> Q b) -> Q a -> Q b) as Hadd.
  { intros Q q b Hb H1 H2. apply elem_of_app in Hb as [Hb|Hb]; [apply Hfil in Hb as [? ?]; auto|].
    apply list_elem_of_singleton in Hb as ->. done. }
  split.
  - rewrite move_all. apply NoDup_cons. split; [rewrite Hfil; tauto|by apply NoDup_filter].
  - intros b. rewrite move_all, elem_of_cons, Hfil, Hm, Hmine. destruct (decide (b = a)); tauto.
  - intros b. destruct l; simpl; [|intros [Hb Hne]%Hfil; rewrite Hfr by done; auto..].
    intros Hb. apply (Hadd (fun b => fr' b = []) _ _ Hb); [intros; rewrite Hfr by done; auto|done].
  - intros b Hb. destruct (decide (b = a)) as [->|Hne].
    + destruct l; simpl in *; try tauto. apply elem_of_app in Hb as [[? ?]%Hfil|[? ?]%Hfil]; done.
    + rewrite Hfr by done. apply Hn. apply elem_of_app. apply elem_of_app in Hb.
      destruct l; simpl in *; rewrite ?elem_of_app, ?Hfil, ?list_elem_of_singleton in Hb; tauto.
  - intros b Hb. destruct l; simpl in *; [apply Hfil in Hb as [Hb Hne]; rewrite Hact by done; auto..|].
    apply (Hadd (fun b => active' b = 0) _ _ Hb); [intros; rewrite Hact by done; auto|tauto].
  - intros b Hb. destruct l; simpl in *; [apply Hfil in Hb as [Hb Hne]; rewrite Hact by done; auto| |apply Hfil in Hb as [Hb Hne]; rewrite Hact by done; auto].
    apply (Hadd (fun b => active' b <> 0 \/ objectsPerSlab c = 1) _ _ Hb); [intros; rewrite Hact by done; auto|tauto].
Qed.

(** A slab that stays on its list. *)
Lemma lists_stay c mine mine' fr fr' active active' a :
  lists_ok c mine fr active -> (forall b, mine' b <-> mine b) ->
  (forall b, b <> a -> fr' b = fr b) -> (forall b, b <> a -> active' b = active b) ->
  a ∉ slabsFull c -> a ∉ slabsEmpty c -> fr' a <> [] -> active' a <> 0 -> lists_ok c mine' fr' active'.
Proof.
  intros [Hnd Hm Hf Hn He Hp] Hmine Hfr Hact H1 H2 H3 H4. split; [done| | | | |].
  - intros b. by rewrite Hm, Hmine.
  - intros b Hb. rewrite Hfr; [auto|]. by intros ->.
  - intros b Hb. destruct (decide (b = a)) as [->|]; [done|]. rewrite Hfr by done. auto.
  - intros b Hb. rewrite Hact; [auto|]. by intros ->.
  - intros b Hb. destruct (decide (b = a)) as [->|]; [by left|]. rewrite Hact by done. auto.
Qed.

(** The other caches do not notice. *)
Lemma lists_other c mine mine' fr fr' active active' a :
  lists_ok c mine fr active -> (forall b, mine' b <-> mine b) -> ~ mine a ->
  (forall b, b <> a -> fr' b = fr b) -> (forall b, b <> a -> active' b = active b) -> lists_ok c mine' fr' active'.
Proof.
  intros [Hnd Hm Hf Hn He Hp] Hmine Ha Hfr Hact. setoid_rewrite elem_of_app in Hm. setoid_rewrite elem_of_app in Hm.
  setoid_rewrite elem_of_app in Hn.
  assert (forall b, b ∈ slabsFull c \/ b ∈ slabsPartial c \/ b ∈ slabsEmpty c -> b <> a) as Hne by (intros b Hb ->; by apply Ha, Hm).
  split; [done| | | | |]; intros b; rewrite ?elem_of_app.
  - by rewrite Hm, Hmine.
  - intros Hb. rewrite Hfr by auto. auto.
  - intros Hb. rewrite Hfr by (apply Hne; tauto). auto.
  - intros Hb. rewrite Hact by (apply Hne; tauto). auto.
  - intros Hb. rewrite Hact by (apply Hne; tauto). auto.
Qed.

Lemma move_slab_ok l a k st c :
  caches st !! k = Some c ->
  exists st', move_slab l a k st = Ret st' /\
    st' = set_caches st (<[k := add_slab l a (drop_slab a c)]> (unlink_slab a (caches st))) /\
    (forall q, shape_of st' q = shape_of st q).
Proof.
  intros Hc. unfold move_slab, unlink_slab. rewrite lookup_fmap, Hc. cbn [fmap option_fmap option_map or_fault mbind outcome_bind].
  eexists. split; [reflexivity|]. split; [done|]. intros q. unfold shape_of. simpl. destruct (decide (k = q)) as [<-|].
  - by rewrite lookup_insert_eq, Hc.
  - rewrite lookup_insert_ne, lookup_fmap by done. by destruct (caches st !! q).
Qed.

(** All lists after a slab of cache [k] has moved. *)
Lemma all_lists_move l a k st st' fr fr' c :
  (forall q d, caches st !! q = Some d -> lists_ok d (slabs_of st q) fr (active_of st)) ->
  caches st !! k = Some c -> (forall q b, slabs_of st' q b <-> slabs_of st q b \/ (q = k /\ b = a)) ->
  (forall q, slabs_of st q a -> q = k) ->
  (forall b, b <> a -> fr' b = fr b) -> (forall b, b <> a -> active_of st' b = active_of st b) ->
  status_ok l c (fr' a) (active_of st' a) ->
  caches st' = <[k := add_slab l a (drop_slab a c)]> (unlink_slab a (caches st)) ->
  forall q d, caches st' !! q = Some d -> lists_ok d (slabs_of st' q) fr' (active_of st').
Proof.
  intros Hl Hc Hm Hone Hfr Hact Hst E q d Hd. rewrite E in Hd. apply lookup_insert_Some in Hd as [[<- <-]|[Hne Hd]].
  - eapply lists_move; [by apply Hl|..]; try done. intros b. rewrite Hm. naive_solver.
  - unfold unlink_slab in Hd. rewrite lookup_fmap in Hd. apply fmap_Some in Hd as (d' & Hd & ->).
    assert (~ slabs_of st q a) as Hna by (intros H; apply Hne; symmetry; by apply Hone).
    rewrite (drop_slab_other d' _ _ _ a (Hl _ _ Hd) Hna).
    eapply lists_other; [by apply Hl| |exact Hna|done|done]. intros b. rewrite Hm. naive_solver.
Qed.

(** *** One slab changes *)

Section OneSlab.
Variables (st st' : slabs P) (fr fr' : Z -> list Z) (a : Z) (s s' : MemSlab) (c : MemCache).
Hypothesis Hshape : forall q, shape_of st' q = shape_of st q.
Hypothesis Ha : slabsOf st !! a = Some s.
Hypothesis Hslabs : slabsOf st' = <[a := s']> (slabsOf st).
Hypothesis Hsame : scache s' = scache s /\ smemory s' = smemory s.
Hypothesis Hc : shape_of st (scache s) = Some c.
Hypothesis Hfr : forall b, b <> a -> fr' b = fr b.

Lemma one_live k x : live st fr k x -> (in_slab c s x -> x ∉ fr a -> x ∉ fr' a) -> live st' fr' k x.
Proof.
  intros (b & t & d & Hb & <- & Hd & Hx & Hn) Hk. destruct Hsame as [E1 E2]. destruct (decide (b = a)) as [->|Hne].
  - rewrite Ha in Hb. injection Hb as <-. rewrite Hc in Hd. injection Hd as <-. exists a, s', c.
    rewrite Hslabs, lookup_insert_eq, Hshape. split_and!; [done|done|done| |by apply Hk]. unfold in_slab in *. by rewrite E2.
  - exists b, t, d. rewrite Hslabs, lookup_insert_ne, Hshape, Hfr by done. by split_and!.
Qed.

Lemma one_live_inv k x : live st' fr' k x -> live st fr k x \/ in_slab c s x /\ k = scache s /\ x ∉ fr' a.
Proof.
  intros (b & t & d & Hb & <- & Hd & Hx & Hn). destruct Hsame as [E1 E2]. rewrite Hslabs in Hb. rewrite Hshape in Hd.
  apply lookup_insert_Some in Hb as [[<- <-]|[Hne Hb]].
  - right. rewrite E1, Hc in Hd. injection Hd as <-. unfold in_slab in *. rewrite E2 in Hx. by split_and!.
  - left. exists b, t, d. rewrite <- Hfr by done. by split_and!.
Qed.

Hypothesis G : geometry st fr.
Hypothesis Hroot : rootSlabCache st' = rootSlabCache st /\ spages st' = spages st.
Hypothesis Hwords : forall b t x, b <> a -> slabsOf st !! b = Some t -> x ∈ fr b -> words st' !! x = words st !! x.
Hypothesis Hchain : chain (words st') (freePtr s') (fr' a).
Hypothesis Hnodup : NoDup (fr' a).
Hypothesis Hin : forall x, x ∈ fr' a -> in_slab c s x.
Hypothesis Hactive : activeObjs s' = objectsPerSlab c - zlen (fr' a).
Hypothesis Hkeep : forall x, is_Some (slabsOf st !! x) \/ is_Some (caches st !! x) -> x ∉ fr a -> x ∉ fr' a.

Lemma one_slab_geometry : geometry st' fr'.
Proof.
  destruct Hsame as [E1 E2], Hroot as [R1 R2]. split.
  - intros k d. rewrite Hshape. apply (g_cache _ _ G).
  - intros b t Hb. assert (is_Some (slabsOf st !! b)) as Hsome.
    { rewrite Hslabs in Hb. destruct (decide (a = b)) as [<-|]; [by eexists|]. rewrite lookup_insert_ne in Hb by done. by eexists. }
    rewrite Hslabs in Hb. apply lookup_insert_Some in Hb as [[<- <-]|[Hne Hb]].
    + rewrite E1, Hshape. exists c. split; [done|]. destruct (g_slab _ _ G _ _ Ha) as (d & Hd & Hok). rewrite Hc in Hd. injection Hd as <-.
      destruct Hok. split; rewrite ?E2, ?R2; try done.
      * unfold in_slab. rewrite E2. apply Hin.
      * destruct (is_large c); [|done]. rewrite R1. apply one_live; [done|]. intros _. by apply Hkeep; left.
    + rewrite Hshape. destruct (g_slab _ _ G _ _ Hb) as (d & Hd & Hok). exists d. split; [done|]. destruct Hok.
      split; rewrite ?R2, ?Hfr by done; try done.
      * eapply free_chain_frame; [|done]. intros x Hx. by eapply Hwords.
      * destruct (is_large d); [|done]. rewrite R1. apply one_live; [done|]. intros _. by apply Hkeep; left.
  - intros k d. rewrite !Hshape, R1. apply (g_large _ _ G).
  - intros k d. rewrite Hshape. intros Hk. destruct (g_keys _ _ G _ _ Hk) as [|Hl]; [by left|right].
    apply one_live; [done|]. intros _. apply Hkeep. right. unfold shape_of in Hk. apply fmap_Some in Hk as (x & -> & _). by eexists.
  - rewrite R2. destruct (g_root _ _ G) as [H1 H2]. split; [done|]. intros b t d Hb. rewrite Hshape. intros Hd.
    rewrite Hslabs in Hb. apply lookup_insert_Some in Hb as [[<- <-]|[Hne Hb]]; [|by eapply H2].
    rewrite E1 in Hd. unfold in_slab. rewrite E2. by eapply H2.
Qed.
End OneSlab.

(** *** Taking an object *)

(** What allocation leaves alone. *)
Record extends st st' : Prop := {
  x_shape : forall q, shape_of st' q = shape_of st q;
  x_root : rootSlabCache st' = rootSlabCache st; x_kalloc : kAllocCache st' = kAllocCache st;
  x_held : forall pg, held (spages st) pg -> held (spages st') pg;
  x_words : forall y, held (spages st) (page_of y) -> words st' !! y = words st !! y;
  x_slabs : forall a s, slabsOf st !! a = Some s ->
    exists s', slabsOf st' !! a = Some s' /\ scache s' = scache s /\ smemory s' = smemory s;
  x_new : forall a s c, slabsOf st' !! a = Some s -> shape_of st' (scache s) = Some c ->
    is_Some (slabsOf st !! a) \/ forall pg, smemory s <= pg < smemory s + pagesPerSlab c -> ~ held (spages st) pg
}.

Section Taking.
Variables (st : slabs P) (fr : Z -> list Z) (a : Z) (s : MemSlab) (c : MemCache) (x : Z) (l : list Z) (w : Z).
Hypothesis I : slab_inv st fr.
Hypothesis Hs : slabsOf st !! a = Some s.
Hypothesis Hc : caches st !! scache s = Some c.
Hypothesis Efr : fr a = x :: l.
Hypothesis Hch : chain (words st) w l.

Let s' := mkSlab (scache s) (u32 (activeObjs s + 1)) (smemory s) w.
Let st1 := set_slabsOf st (<[a := s']> (slabsOf st)).

Lemma taking_shape : shape_of st (scache s) = Some (shape c) /\ slab_ok st fr a s (shape c) /\ cache_ok (shape c).
Proof.
  destruct I as [G _]. assert (shape_of st (scache s) = Some (shape c)) as Hsh by (unfold shape_of; by rewrite Hc).
  destruct (g_slab _ _ G _ _ Hs) as (d & Hd & Hok). rewrite Hsh in Hd. injection Hd as <-.
  split_and!; [done|done|by eapply g_cache].
Qed.

Lemma taking_active : activeObjs s' = objectsPerSlab c - zlen l /\ activeObjs s' = activeObjs s + 1 /\ 0 <= activeObjs s.
Proof.
  destruct taking_shape as (Hsh & [_ Hnd Hin Hact _ _ _] & Hk). rewrite Efr in *.
  pose proof (free_count (shape c) s (x :: l) ltac:(destruct Hk; lia) Hnd Hin) as Hlen.
  simpl. unfold zlen in *. simpl in *. destruct Hk. simpl in *. unfold PAGE_SIZE in *.
  assert (objectsPerSlab c <= 32768) by (destruct (is_large _); cbv [sizeof_MemSlab] in *; nia). unfold u32. rewrite Z.mod_small; lia.
Qed.

(** Whatever the lists become. *)
Lemma taking_done st2 :
  (forall q, shape_of st2 q = shape_of st q) -> slabsOf st2 = <[a := s']> (slabsOf st) -> words st2 = words st ->
  spages st2 = spages st -> rootSlabCache st2 = rootSlabCache st -> kAllocCache st2 = kAllocCache st ->
  (forall q d, caches st2 !! q = Some d -> lists_ok d (slabs_of st2 q) (<[a := l]> fr) (active_of st2)) ->
  slab_inv st2 (<[a := l]> fr) /\ extends st st2 /\ spages st2 = spages st /\ ~ live st fr (scache s) x /\
  (forall q y, live st2 (<[a := l]> fr) q y <-> live st fr q y \/ q = scache s /\ y = x).
Proof.
  intros Hq Hsl Hwd Hpp Hr Hka HL. pose proof I as [G _]. destruct taking_shape as (Hsh & [_ Hnd Hin Hact _ _ _] & Hk).
  rewrite Efr in Hnd, Hin. apply NoDup_cons in Hnd as [Hxl Hnd].
  assert (forall b, b <> a -> (<[a := l]> fr) b = fr b) as Hfr by (intros b Hb; by rewrite fn_lookup_insert_ne).
  split_and!; [split; [|done]| |done| |].
  - eapply (one_slab_geometry st st2 fr (<[a:=l]> fr) a s s' (shape c)); rewrite ?fn_lookup_insert, ?Hwd; try done.
    + intros y Hy. apply Hin. by right.
    + apply taking_active.
    + intros y _ Hn Hy. rewrite Efr in Hn. apply Hn. by right.
  - split; try done.
    + by rewrite Hpp.
    + by rewrite Hwd.
    + intros b t Hb. rewrite Hsl. destruct (decide (a = b)) as [<-|]; [|exists t; by rewrite lookup_insert_ne].
      exists s'. rewrite lookup_insert_eq. rewrite Hs in Hb. by injection Hb as <-.
    + intros b t d Hb _. left. rewrite Hsl in Hb. apply lookup_insert_Some in Hb as [[<- _]|[_ Hb]]; by eexists.
  - intros Hl. eapply (live_not_free st fr _ x a s (shape c) G Hl Hs Hsh); [apply Hin; by left|]. rewrite Efr. by left.
  - intros q y. split.
    + intros Hy. eapply (one_live_inv st st2 fr (<[a:=l]> fr) a s s' (shape c)) in Hy as [Hy|(Hy & -> & Hn)]; try done; [by left|].
      rewrite fn_lookup_insert in Hn. destruct (decide (y = x)) as [->|]; [by right|left]. exists a, s, (shape c). split_and!; try done.
      rewrite Efr. by apply not_elem_of_cons.
    + intros [Hy|[-> ->]].
      * eapply (one_live st st2 fr (<[a:=l]> fr) a s s' (shape c)); try done.
        rewrite fn_lookup_insert, Efr. intros _ Hn Hin'. apply Hn. by right.
      * exists a, s', (shape c). rewrite Hsl, Hq, lookup_insert_eq, fn_lookup_insert. split_and!; try done.
        unfold in_slab. simpl. apply Hin. by left.
Qed.

Lemma taking_slabs q b : slabs_of st1 q b <-> slabs_of st q b.
Proof.
  unfold slabs_of, st1. simpl. destruct (decide (a = b)) as [<-|]; [|by rewrite lookup_insert_ne].
  rewrite lookup_insert_eq, Hs. split; intros (t & [= <-] & <-); by eexists.
Qed.

Lemma taking_counts : active_of st1 a = activeObjs s' /\ forall b, b <> a -> active_of st1 b = active_of st b.
Proof. unfold active_of, st1. simpl. rewrite lookup_insert_eq. split; [done|]. intros b Hb. by rewrite lookup_insert_ne. Qed.

Lemma taking_move ls :
  status_ok ls c l (activeObjs s') ->
  exists st', move_slab ls a (scache s) st1 = Ret st' /\
    slab_inv st' (<[a := l]> fr) /\ extends st st' /\ spages st' = spages st /\ ~ live st fr (scache s) x /\
    (forall q y, live st' (<[a := l]> fr) q y <-> live st fr q y \/ q = scache s /\ y = x).
Proof.
  intros Hls. destruct (move_slab_ok ls a (scache s) st1 c Hc) as (st2 & E & E2 & Hq). exists st2. split; [done|].
  destruct I as [_ L], taking_counts as [Haa Hao]. apply taking_done; [|by rewrite E2..|].
  - intros q. by rewrite Hq.
  - eapply (all_lists_move ls a (scache s) st st2 fr); [done|exact Hc| | | | | |by rewrite E2].
    + intros q b. rewrite E2. change (slabs_of (set_caches st1 _) q b) with (slabs_of st1 q b). rewrite taking_slabs.
      split; [by left|]. intros [|[-> ->]]; [done|]. by exists s.
    + intros q (t & Ht & <-). congruence.
    + intros b Hb. by rewrite fn_lookup_insert_ne.
    + intros b Hb. rewrite E2. by apply Hao.
    + rewrite E2, fn_lookup_insert. change (active_of (set_caches st1 _) a) with (active_of st1 a). by rewrite Haa.
Qed.

Lemma taking_stay :
  l <> [] -> activeObjs s' <> 1 ->
  forall q d, caches st1 !! q = Some d -> lists_ok d (slabs_of st1 q) (<[a := l]> fr) (active_of st1).
Proof.
  intros Hl H1 q d Hd. simpl in Hd. destruct I as [_ L], taking_counts as [Haa Hao], taking_active as (A1 & A2 & A3).
  assert (forall b, b <> a -> (<[a := l]> fr) b = fr b) as Hfr by (intros b Hb; by rewrite fn_lookup_insert_ne).
  destruct (decide (q = scache s)) as [->|Hne'].
  - rewrite Hc in Hd. injection Hd as <-. destruct (L _ _ Hc) as [_ _ Hfull _ Hempty _].
    eapply (lists_stay c _ _ _ _ _ _ a); [by apply L|by intros; rewrite taking_slabs|done|done| | | |].
    + intros Hb. apply Hfull in Hb. congruence.
    + intros Hb. apply Hempty in Hb. unfold active_of in Hb. rewrite Hs in Hb. simpl in Hb. lia.
    + by rewrite fn_lookup_insert.
    + rewrite Haa. lia.
  - eapply (lists_other d _ _ _ _ _ _ a); [by apply L|by intros; rewrite taking_slabs| |done|done].
    intros (t & Ht & <-). congruence.
Qed.
End Taking.

Lemma take_object_ok st fr k a c :
  slab_inv st fr -> caches st !! k = Some c -> a ∈ slabsPartial c ++ slabsEmpty c ->
  exists x l st', fr a = x :: l /\ take_object k a st = Ret (x, st') /\ slab_inv st' (<[a := l]> fr) /\ extends st st' /\
    spages st' = spages st /\ ~ live st fr k x /\
    (forall q y, live st' (<[a := l]> fr) q y <-> live st fr q y \/ q = k /\ y = x).
Proof.
  intros I Hc Ha. pose proof I as [G L]. destruct (L _ _ Hc) as [_ Hmine _ Hfree _ _].
  destruct (proj1 (Hmine a)) as (s & Hs & <-); [apply elem_of_app; by right|].
  destruct (taking_shape st fr a s c I Hs Hc) as (Hsh & [Hch Hnd Hin Hact [M1 M2] _ _] & Hk).
  pose proof (Hfree _ Ha) as Hne. destruct (fr a) as [|x l] eqn:Efr; [done|].
  destruct Hch as [Hp (w & Hw & Hch)]. unfold take_object. rewrite Hs. cbn [or_fault mbind outcome_bind]. rewrite Hp, Hw.
  cbn [or_fault mbind outcome_bind]. destruct (taking_active st fr a s c x l w I Hs Hc Efr) as (A1 & A2 & A3). simpl in A1, A2.
  pose proof (taking_move st fr a s c x l w I Hs Hc Efr Hch) as Hmove. simpl in Hmove.
  exists x, l. destruct (Z.eqb_spec w MEM_SLAB_END) as [->|Hw'].
  - assert (l = []) as ->.
    { destruct l as [|y l]; [done|exfalso]. destruct Hch as [<- _].
      assert (in_slab (shape c) s MEM_SLAB_END) as B by (apply Hin; rewrite !elem_of_cons; tauto).
      apply (in_slab_bounds _ _ _ Hk M1 M2) in B as (_ & B & _). unfold MEM_KFIXED_MAX, MEM_SLAB_END in B. destruct Hk. lia. }
    destruct (Hmove Full) as (st' & -> & H); [done|]. exists st'. split; [done|]. split; [done|exact H].
  - assert (l <> []) as Hl by (intros ->; done). destruct (Z.eqb_spec (u32 (activeObjs s + 1)) 1) as [H1|H1].
    + destruct (Hmove Partial) as (st' & -> & H); [split; [done|left; lia]|]. exists st'. split; [done|]. split; [done|exact H].
    + eexists. split; [done|]. split; [reflexivity|]. eapply taking_done; try done. by eapply taking_stay.
Qed.

(** *** A new slab *)

Lemma set_page_slabs_ok n : forall pg a (p : P),
  (forall i, pg <= i < pg + Z.of_nat n -> held p i) ->
  exists p', set_page_slabs n pg a p = Ret p' /\ (forall i, pg <= i < pg + Z.of_nat n -> sp_get i p' = Ret a) /\
    (forall i, ~ (pg <= i < pg + Z.of_nat n) -> sp_get i p' = sp_get i p) /\ (forall i, held p' i <-> held p i) /\ room p' = room p.
Proof.
  induction n as [|n IH]; intros pg a p Hh; simpl.
  - exists p. split_and!; [done|lia|done..].
  - destruct (law_sp_set pg a p) as (p1 & -> & Hg & Ho & Hh1 & Hr1); [apply Hh; lia|]. cbn [mbind outcome_bind].
    destruct (IH (pg + 1) a p1) as (p' & -> & Hg' & Ho' & Hh' & Hr'); [intros i Hi; apply Hh1, Hh; lia|].
    exists p'. split_and!; [done| | | |congruence].
    + intros i Hi. destruct (decide (i = pg)) as [->|]; [|apply Hg'; lia]. by rewrite Ho' by lia.
    + intros i Hi. rewrite Ho' by lia. apply Ho. lia.
    + intros i. by rewrite Hh', Hh1.
Qed.

Section NewSlab.
Variables (st : slabs P) (fr : Z -> list Z) (k : Z) (c : MemCache) (m a : Z).
Hypothesis I : slab_inv st fr.
Hypothesis Hc : caches st !! k = Some c.
Hypothesis Hm : 0 <= m /\ m + pagesPerSlab c <= MEM_KFIXED_MAX_PAGE.
Hypothesis Hheld : forall pg, m <= pg < m + pagesPerSlab c -> held (spages st) pg /\ pg <> page_of rootCache.
Hypothesis Hfree : forall b s d, slabsOf st !! b = Some s -> shape_of st (scache s) = Some d ->
  forall pg, m <= pg < m + pagesPerSlab c -> ~ (smemory s <= pg < smemory s + pagesPerSlab d).
Hypothesis Hnew : slabsOf st !! a = None.
Hypothesis Hheader : if is_large c then live st fr (rootSlabCache st) a else a = base (m + pagesPerSlab c) - sizeof_MemSlab.

Variable st' : slabs P.
Let s := mkSlab k 0 m (base m).
Hypothesis Hpages : (forall i, m <= i < m + pagesPerSlab c -> sp_get i (spages st') = Ret a) /\
  (forall i, ~ (m <= i < m + pagesPerSlab c) -> sp_get i (spages st') = sp_get i (spages st)) /\
  (forall i, held (spages st') i <-> held (spages st) i).
Hypothesis Hslabs : slabsOf st' = <[a := s]> (slabsOf st).
Hypothesis Hwords : words st' = link_objects (Z.to_nat (objectsPerSlab c - 1)) (words st) (base m) (objectSize c).
Hypothesis Hcaches : caches st' = <[k := add_slab Empty a c]> (caches st).
Hypothesis Hroot : rootSlabCache st' = rootSlabCache st.

Let fr' := <[a := objects (shape c) s]> fr.

Lemma new_cache_ok : shape_of st k = Some (shape c) /\ cache_ok (shape c).
Proof. destruct I as [G _]. assert (shape_of st k = Some (shape c)) as H by (unfold shape_of; by rewrite Hc). split; [done|by eapply g_cache]. Qed.

Lemma new_shape q : shape_of st' q = shape_of st q.
Proof.
  unfold shape_of. rewrite Hcaches. destruct (decide (k = q)) as [<-|]; [by rewrite lookup_insert_eq, Hc|by rewrite lookup_insert_ne].
Qed.

(** The words of the new slab are on its own pages. *)
Lemma new_words y : ~ (m <= page_of y < m + pagesPerSlab c) -> words st' !! y = words st !! y.
Proof using I Hc Hm Hwords s.
  clear Hheader. intros Hy. rewrite Hwords. destruct new_cache_ok as [_ Hk], Hm as [M1 M2]. rewrite max_page in M2. pose proof Hk as [K1 K2 K3 K4 K5]. simpl in *.
  unfold base, KERNEL_VIRTUAL_BASE, PAGE_SIZE in *.
  assert ((objectsPerSlab c - 1) * objectSize c <= pagesPerSlab c * 4096 - objectSize c) by (destruct (is_large _); cbv [sizeof_MemSlab] in *; nia).
  apply link_objects_frame; [lia|lia|nia|]. intros i Hi ->. apply Hy.
  assert (in_slab (shape c) s (object (0xC0000000 + m * 4096) (objectSize c) i)) as Hx by (exists (Z.of_nat i); simpl; split; [lia|done]).
  apply (in_slab_bounds (shape c) s _ Hk) in Hx as (_ & _ & _ & B); [|done|rewrite max_page; simpl; lia].
  apply B. simpl. lia.
Qed.

Lemma new_chain : chain (words st') (base m) (objects (shape c) s).
Proof.
  destruct new_cache_ok as [_ [K1 K2 K3 K4 K5]], Hm as [M1 M2]. rewrite max_page in M2. simpl in *. rewrite Hwords. unfold objects. simpl.
  replace (Z.to_nat (objectsPerSlab c)) with (S (Z.to_nat (objectsPerSlab c - 1))) by lia.
  unfold base, KERNEL_VIRTUAL_BASE, PAGE_SIZE in *.
  assert ((objectsPerSlab c - 1) * objectSize c <= pagesPerSlab c * 4096 - objectSize c) by (destruct (is_large _); cbv [sizeof_MemSlab] in *; nia).
  apply link_objects_chain; lia.
Qed.

(** Objects in use are what they were. *)
Lemma new_live q y : live st' fr' q y <-> live st fr q y.
Proof.
  split; intros (b & t & d & Hb & <- & Hd & Hy & Hn).
  - rewrite new_shape in Hd. rewrite Hslabs in Hb. apply lookup_insert_Some in Hb as [[<- <-]|[Hne Hb]].
    + exfalso. unfold fr' in Hn. rewrite fn_lookup_insert in Hn. simpl in Hd. rewrite (proj1 new_cache_ok) in Hd. injection Hd as <-.
      by apply Hn, elem_of_objects.
    + exists b, t, d. unfold fr' in Hn. rewrite fn_lookup_insert_ne in Hn by done. by split_and!.
  - assert (a <> b) as Hne by congruence. exists b, t, d. rewrite Hslabs, new_shape, lookup_insert_ne by done.
    unfold fr'. rewrite fn_lookup_insert_ne by done. by split_and!.
Qed.

Lemma new_slab_ok : slab_ok st' fr' a s (shape c).
Proof.
  destruct new_cache_ok as [_ Hk], Hpages as (P1 & P2 & P3). split; unfold fr'; rewrite ?fn_lookup_insert.
  - apply new_chain.
  - by apply objects_nodup.
  - intros x. apply elem_of_objects.
  - unfold objects, zlen. rewrite length_fmap, length_seq. destruct Hk. simpl in *. lia.
  - done.
  - intros pg Hpg. simpl in Hpg. split; [by apply P1|]. by apply P3, Hheld.
  - change (is_large (shape c)) with (is_large c). simpl. destruct (is_large c); [|done]. rewrite Hroot. by apply new_live.
Qed.

Lemma new_geometry : geometry st' fr'.
Proof.
  destruct I as [G _], Hpages as (P1 & P2 & P3). split.
  - intros q d. rewrite new_shape. apply (g_cache _ _ G).
  - intros b t Hb. rewrite Hslabs in Hb. apply lookup_insert_Some in Hb as [[<- <-]|[Hne Hb]].
    { exists (shape c). rewrite new_shape. split; [apply new_cache_ok|apply new_slab_ok]. }
    destruct (g_slab _ _ G _ _ Hb) as (d & Hd & Hok). exists d. rewrite new_shape. split; [done|].
    pose proof (g_cache _ _ G _ _ Hd) as Hkd. destruct Hok as [O1 O2 O3 O4 [O5 O5'] O6 O7].
    split; unfold fr'; rewrite ?fn_lookup_insert_ne by done; try done.
    + eapply free_chain_frame; [|done]. intros x Hx. apply new_words. intros Hpg. apply (Hfree _ _ _ Hb Hd _ Hpg).
      refine (proj2 (proj2 (proj2 (in_slab_bounds d t x Hkd O5 O5' _))) x _); [by apply O3|]. destruct Hkd. lia.
    + intros pg Hpg. rewrite P3, P2; [by apply O6|]. intros Hi. by apply (Hfree _ _ _ Hb Hd pg).
    + destruct (is_large d); [|done]. rewrite Hroot. by apply new_live.
  - intros q d. rewrite !new_shape, Hroot. apply (g_large _ _ G).
  - intros q d. rewrite new_shape, new_live. apply (g_keys _ _ G).
  - destruct (g_root _ _ G) as [R1 R2]. rewrite P3. split; [done|]. intros b t d Hb. rewrite new_shape. intros Hd.
    rewrite Hslabs in Hb. apply lookup_insert_Some in Hb as [[<- <-]|[Hne Hb]]; [|by eapply R2].
    simpl in Hd. rewrite (proj1 new_cache_ok) in Hd. injection Hd as <-. intros Hin. pose proof (proj2 new_cache_ok) as Hk.
    assert (m <= page_of rootCache < m + pagesPerSlab c) as Hr by
      (refine (proj2 (proj2 (proj2 (in_slab_bounds (shape c) s rootCache Hk (proj1 Hm) (proj2 Hm) Hin))) rootCache _); destruct Hk; lia).
    by apply Hheld in Hr as [_ []].
Qed.

Lemma new_slab_inv : slab_inv st' fr'.
Proof.
  split; [apply new_geometry|]. destruct I as [_ L].
  assert (drop_slab a c = c) as Ed by (eapply drop_slab_other; [by apply L|]; intros (t & Ht & _); congruence).
  assert (unlink_slab a (caches st) = caches st) as Eu.
  { apply map_eq. intros q. unfold unlink_slab. rewrite lookup_fmap. destruct (caches st !! q) as [d|] eqn:E; [|done]. simpl. f_equal.
    eapply drop_slab_other; [by apply L|]. intros (t & Ht & _). congruence. }
  apply (all_lists_move Empty a k st st' fr fr' c); try done.
  - intros q b. unfold slabs_of. rewrite Hslabs. destruct (decide (a = b)) as [<-|Hne].
    + rewrite lookup_insert_eq, Hnew. split; [intros (t & [= <-] & <-); by right|]. intros [(t & ? & _)|[-> _]]; [done|by exists s].
    + rewrite lookup_insert_ne by done. split; [by left|]. by intros [|[_ ->]].
  - intros q (t & Ht & _). congruence.
  - intros b Hb. unfold fr'. by rewrite fn_lookup_insert_ne.
  - intros b Hb. unfold active_of. by rewrite Hslabs, lookup_insert_ne.
  - unfold fr', active_of. rewrite fn_lookup_insert, Hslabs, lookup_insert_eq. split; [|done].
    destruct new_cache_ok as [_ Hk]. intros E. assert (base m ∈ objects (shape c) s) as Hin.
    { apply elem_of_objects. exists 0. destruct Hk. split; [lia|simpl; lia]. }
    rewrite E in Hin. by apply not_elem_of_nil in Hin.
  - by rewrite Ed, Eu.
Qed.
End NewSlab.

(** *** Allocation *)

Lemma extends_refl st : extends st st.
Proof. split; try done; eauto. Qed.

Lemma extends_trans st1 st2 st3 : extends st1 st2 -> extends st2 st3 -> extends st1 st3.
Proof.
  intros [A1 A2 A3 A4 A5 A6 A7] [B1 B2 B3 B4 B5 B6 B7]. split; try congruence; auto.
  - intros y Hy. rewrite B5, A5; auto.
  - intros a s Hs. destruct (A6 _ _ Hs) as (s2 & Hs2 & E1 & E2), (B6 _ _ Hs2) as (s3 & Hs3 & E3 & E4). exists s3. split_and!; congruence.
  - intros a s c Hs Hc. destruct (B7 _ _ _ Hs Hc) as [[s2 Hs2]|Hn]; [|right; intros pg Hpg Hh; by apply (Hn pg Hpg), A4].
    destruct (B6 _ _ Hs2) as (s3 & Hs3 & E1 & E2). rewrite Hs in Hs3. injection Hs3 as <-.
    rewrite B1, E1 in Hc. destruct (A7 _ _ _ Hs2 Hc) as [|Hn]; [by left|right]. by rewrite E2.
Qed.

(** Pages in use that no slab is made of. *)
Definition avoids (R : Z -> Prop) st : Prop :=
  (forall pg, R pg -> held (spages st) pg) /\
  forall a s c, slabsOf st !! a = Some s -> shape_of st (scache s) = Some c ->
    forall pg, smemory s <= pg < smemory s + pagesPerSlab c -> ~ R pg.

(** They stay so: new slabs are made of pages that were not in use. *)
Lemma extends_avoids R st st' : extends st st' -> avoids R st -> avoids R st'.
Proof.
  intros X [H1 H2]. split; [intros pg Hpg; by apply (x_held _ _ X), H1|]. intros a s c Hs Hc pg Hpg HR.
  destruct (x_new _ _ X a s c Hs Hc) as [[s0 Hs0]|Hn]; [|by apply (Hn pg Hpg), H1].
  destruct (x_slabs _ _ X a s0 Hs0) as (s1 & Hs1 & E1 & E2). rewrite Hs in Hs1. injection Hs1 as <-.
  rewrite (x_shape _ _ X), E1 in Hc. rewrite E2 in Hpg. by apply (H2 a s0 c Hs0 Hc pg).
Qed.

(** Giving pages back that are not used here changes nothing. *)
Lemma inv_fewer_pages R st fr p :
  slab_inv st fr -> avoids R st -> ~ R (page_of rootCache) -> (forall i, held p i <-> held (spages st) i /\ ~ R i) ->
  (forall i, sp_get i p = sp_get i (spages st)) -> slab_inv (set_spages st p) fr.
Proof.
  intros [[G1 G2 G3 G4 [G5 G6]] L] [_ Ha] Hr Hh Hg. split; [|exact L]. split; [exact G1| |exact G3|exact G4|split; [|exact G6]].
  - intros a s Hs. destruct (G2 _ _ Hs) as (c & Hc & Hok). exists c. split; [exact Hc|]. destruct Hok as [O1 O2 O3 O4 O5 O6 O7].
    split; try done. intros pg Hpg. destruct (O6 pg Hpg) as [E Hp]. simpl. rewrite Hg. split; [exact E|].
    apply Hh. split; [exact Hp|]. by apply (Ha a s c).
  - by apply Hh.
Qed.

(** A slab's header is on a page in use. *)
Lemma header_held st fr a s : geometry st fr -> slabsOf st !! a = Some s -> held (spages st) (page_of a).
Proof.
  intros G Ha. destruct (g_slab _ _ G _ _ Ha) as (c & Hc & Hok). pose proof (so_header _ _ _ _ _ Hok) as Hh.
  destruct (is_large c); [by eapply live_held|]. pose proof (g_cache _ _ G _ _ Hc) as [].
  apply (so_pages _ _ _ _ _ Hok). rewrite Hh. unfold page_of, base, sizeof_MemSlab, PAGE_SIZE. zlia.
Qed.

(** More pages in use change nothing. *)
Lemma inv_more_pages st fr p :
  slab_inv st fr -> (forall i, held (spages st) i -> held p i) -> (forall i, sp_get i p = sp_get i (spages st)) ->
  slab_inv (set_spages st p) fr.
Proof.
  intros [G L] Hh Hg. split; [|done]. destruct G as [G1 G2 G3 G4 [G5 G6]]. split; try done.
  - intros a s Hs. destruct (G2 _ _ Hs) as (c & Hc & []). exists c. split; [done|]. split; try done.
    intros pg Hpg. simpl. rewrite Hg. split; [by apply so_pages0|]. by apply Hh, so_pages0.
  - split; [by apply Hh|done].
Qed.

(** What one allocation from cache [k] does: object [x] was not in use, no
    object in use is lost, the only others that come into use are headers, and
    at most [d] blocks of pages were needed. *)
Definition allocated (d : nat) st fr k x st' fr' : Prop :=
  (room (spages st) <= d + room (spages st'))%nat /\
  slab_inv st' fr' /\ extends st st' /\ (forall q, ~ live st fr q x) /\ live st' fr' k x /\
  slabsOf st' !! x = None /\ (forall q y, live st fr q y -> live st' fr' q y) /\
  (forall q y, live st' fr' q y -> live st fr q y \/ (q = k /\ y = x) \/ (q = rootSlabCache st /\ is_Some (slabsOf st' !! y))).

Lemma take_allocated st fr k a c :
  slab_inv st fr -> caches st !! k = Some c -> a ∈ slabsPartial c ++ slabsEmpty c ->
  exists x st' fr', take_object k a st = Ret (x, st') /\ allocated 0 st fr k x st' fr'.
Proof.
  intros I Hc Ha. destruct (take_object_ok _ _ _ _ _ I Hc Ha) as (x & l & st' & Efr & E & I' & X & Hp & Hn & Hl).
  exists x, st', (<[a := l]> fr). split; [done|]. pose proof I as [G L].
  destruct (proj1 (lo_mine _ _ _ _ (L _ _ Hc) a)) as (s & Hs & Hk); [apply elem_of_app; by right|].
  destruct (g_slab _ _ G _ _ Hs) as (d & Hd & Hok).
  assert (in_slab d s x) as Hin by (apply (so_free _ _ _ _ _ Hok); rewrite Efr; by left).
  split_and!; [by rewrite Hp|done|done| |apply Hl; by right| | |].
  - intros q Hq. apply (live_not_free _ _ _ _ _ _ _ G Hq Hs Hd Hin). rewrite Efr. by left.
  - destruct (slabsOf st' !! x) as [t|] eqn:Et; [exfalso|done]. pose proof I' as [G' _].
    destruct (g_slab _ _ G' _ _ Et) as (dt & Hdt & _). destruct (x_new _ _ X _ _ _ Et Hdt) as [[t' Ht']|Hnh].
    + apply (header_not_object _ _ _ _ _ _ _ G Ht' Hs Hd Hin). rewrite Efr. by left.
    + (* no slab is new: nothing was allocated *)
      destruct (g_slab _ _ G' _ _ Et) as (dt' & Hdt' & Hok'). rewrite Hdt in Hdt'. injection Hdt' as <-.
      pose proof (g_cache _ _ G' _ _ Hdt) as []. apply (Hnh (smemory t)); [lia|].
      rewrite <- Hp. apply (so_pages _ _ _ _ _ Hok'). lia.
  - intros q y Hy. apply Hl. by left.
  - intros q y Hy. apply Hl in Hy as [|[-> ->]]; tauto.
Qed.

(** Creation with the pages at [m] taken and the header [a] chosen. *)
Lemma create_ok st0 st fr k c m a :
  slab_inv st fr -> extends st0 st -> caches st !! k = Some c -> 0 <= m -> m + pagesPerSlab c <= MEM_KFIXED_MAX_PAGE ->
  (forall pg, m <= pg < m + pagesPerSlab c -> held (spages st) pg /\ ~ held (spages st0) pg) -> held (spages st0) (page_of rootCache) ->
  (forall b s d, slabsOf st !! b = Some s -> shape_of st (scache s) = Some d ->
    forall pg, m <= pg < m + pagesPerSlab c -> ~ (smemory s <= pg < smemory s + pagesPerSlab d)) ->
  slabsOf st !! a = None ->
  (if is_large c then live st fr (rootSlabCache st) a else a = base (m + pagesPerSlab c) - sizeof_MemSlab) ->
  exists st' fr' c', slab_inv st' fr' /\ extends st0 st' /\ (forall q y, live st' fr' q y <-> live st fr q y) /\
    setup_slab k c m a st = Ret (a, st') /\
    caches st' !! k = Some c' /\ a ∈ slabsEmpty c' /\
    (forall z, is_Some (slabsOf st' !! z) <-> is_Some (slabsOf st !! z) \/ z = a) /\ room (spages st') = room (spages st).
Proof.
  intros I X Hc M1 M2 Hh Hr Hf Hn Hhd. destruct (new_cache_ok _ _ _ _ I Hc) as [Hsh Hk]. unfold setup_slab.
  destruct (set_page_slabs_ok (Z.to_nat (pagesPerSlab c)) m a (spages st)) as (p3 & E & P1 & P2 & P3 & P4).
  { intros i Hi. apply Hh. destruct Hk. simpl in *. lia. }
  rewrite Z2Nat.id in P1, P2 by (destruct Hk; simpl in *; lia). rewrite E. cbn [mbind outcome_bind].
  rewrite (MemPhys2Virt_base m) by (destruct Hk; simpl in *; lia). cbn [caches set_slabsOf set_words set_spages]. rewrite Hc.
  cbn [or_fault mbind outcome_bind]. match goal with |- context [Ret (a, ?x)] => set (st' := x) end.
  exists st', (<[a := objects (shape c) (mkSlab k 0 m (base m))]> fr), (add_slab Empty a c).
  assert (forall pg, m <= pg < m + pagesPerSlab c -> held (spages st) pg /\ pg <> page_of rootCache) as Hh'.
  { intros pg Hpg. destruct (Hh pg Hpg). split; [done|]. by intros ->. }
  split_and!; [by apply (new_slab_inv st fr k c m a) | | |done|apply lookup_insert_eq|apply elem_of_app; right; by left| |done].
  - pose proof X as [X1 X2 X3 X4 X5 X6 X7]. split; try done.
    + intros q. rewrite (new_shape st k c a Hc st'); done.
    + intros pg Hpg. simpl. apply P3. auto.
    + intros y Hy. rewrite (new_words st fr k c m I Hc (conj M1 M2) st'); [by apply X5|done|]. intros Hin. by apply (Hh _ Hin).
    + intros b s Hs. destruct (X6 _ _ Hs) as (s2 & Hs2 & Hrest). exists s2. simpl. by rewrite lookup_insert_ne by congruence.
    + intros b s d Hs Hd. rewrite (new_shape st k c a Hc st') in Hd by done. simpl in Hs.
      apply lookup_insert_Some in Hs as [[<- <-]|[_ Hs]]; [|by eapply X7]. right. simpl in Hd. rewrite Hsh in Hd. injection Hd as <-.
      intros pg Hpg. by apply Hh.
  - intros q y. by apply (new_live st fr k c m a).
  - intros z. simpl. rewrite lookup_insert_is_Some. destruct (decide (z = a)); naive_solver.
Qed.

Lemma zone_of_cache c : let z := if truth (Z.land (cflags c) MEM_SLAB_DMA) then MEM_DMA else MEM_KERNEL in z = MEM_DMA \/ z = MEM_KERNEL.
Proof. destruct (truth _); [by left|by right]. Qed.

(** The pages of a new slab, before its header. *)
Lemma create_pages st fr c :
  slab_inv st fr -> cache_ok (shape c) -> (0 < room (spages st))%nat ->
  let z := if truth (Z.land (cflags c) MEM_SLAB_DMA) then MEM_DMA else MEM_KERNEL in
  exists m p1, sp_alloc (pagesPerSlab c) z (spages st) = Ret (m, p1) /\ 0 <= m /\ m + pagesPerSlab c <= MEM_KFIXED_MAX_PAGE /\
    slab_inv (set_spages st p1) fr /\ extends st (set_spages st p1) /\
    (forall pg, m <= pg < m + pagesPerSlab c -> held p1 pg /\ ~ held (spages st) pg) /\ (room (spages st) <= S (room p1))%nat.
Proof.
  intros I Hk Hr z. assert (0 < pagesPerSlab c <= 8) as H0 by (destruct Hk; simpl in *; lia).
  destruct (law_sp_alloc (pagesPerSlab c) z (spages st) H0 (zone_of_cache c) Hr) as (m & p1 & E & Hr1 & M1 & M2 & Hn & Hh & Hg). exists m, p1.
  split_and!; try done.
  - apply inv_more_pages; [done|intros i Hi; apply Hh; by left|done].
  - split; try done; simpl; eauto. intros i Hi. apply Hh. by left.
  - intros pg Hpg. split; [apply Hh; by right|by apply Hn].
Qed.

(** A slab that was there has no pages that were free. *)
Lemma old_pages st fr m n :
  slab_inv st fr -> (forall pg, m <= pg < m + n -> ~ held (spages st) pg) ->
  forall b s d, slabsOf st !! b = Some s -> shape_of st (scache s) = Some d ->
  forall pg, m <= pg < m + n -> ~ (smemory s <= pg < smemory s + pagesPerSlab d).
Proof.
  intros [G _] Hn b s d Hb Hd pg Hpg Hin. destruct (g_slab _ _ G _ _ Hb) as (d' & Hd' & Hok). rewrite Hd in Hd'. injection Hd' as <-.
  by apply (Hn pg Hpg), (so_pages _ _ _ _ _ Hok).
Qed.

(** After the slab has been created its first object is taken. *)
Lemma allocated_after d st st' fr fr' k a c :
  (room (spages st) <= d + room (spages st'))%nat ->
  slab_inv st' fr' -> extends st st' -> caches st' !! k = Some c -> a ∈ slabsEmpty c ->
  (forall q y, live st fr q y -> live st' fr' q y) ->
  (forall q y, live st' fr' q y -> live st fr q y \/ (q = rootSlabCache st /\ is_Some (slabsOf st' !! y))) ->
  exists x st2 fr2, take_object k a st' = Ret (x, st2) /\ allocated d st fr k x st2 fr2.
Proof.
  intros Hr I X Hc Ha Hl Hl'. destruct (take_allocated st' fr' k a c I Hc) as (x & st2 & fr2 & E & Hr2 & I2 & X2 & Hn & Hx & Hh & Hm & Hm').
  { apply elem_of_app. by right. }
  exists x, st2, fr2. split; [done|]. split_and!; [lia|done|by eapply extends_trans| |done|done| |].
  - intros q Hq. by apply (Hn q), Hl.
  - intros q y Hy. by apply Hm, Hl.
  - intros q y Hy. assert (forall z, is_Some (slabsOf st' !! z) -> is_Some (slabsOf st2 !! z)) as Hs.
    { intros z [t Ht]. destruct (x_slabs _ _ X2 _ _ Ht) as (t' & Ht' & _). by eexists. }
    apply Hm' in Hy as [Hy|[Hy|[-> Hy]]]; [|by right; left|right; right; by rewrite (x_root _ _ X)].
    apply Hl' in Hy as [Hy|[-> Hy]]; [by left|right; right; auto].
Qed.

Lemma MemSlabAlloc_small f st fr k c :
  slab_inv st fr -> caches st !! k = Some c -> is_large c = false -> (0 < room (spages st))%nat ->
  exists x st' fr', MemSlabAlloc (S f) k st = Ret (x, st') /\ allocated 1 st fr k x st' fr'.
Proof.
  intros I Hc Hl Hr. cbn [MemSlabAlloc]. rewrite Hc. cbn [or_fault mbind outcome_bind].
  destruct (slabsPartial c) as [|a q] eqn:Ep; [destruct (slabsEmpty c) as [|a q] eqn:Ee|]; cbn [mbind outcome_bind].
  2,3: destruct (take_allocated st fr k a c) as (x & st' & fr' & E & Hr' & H); rewrite ?Ep, ?Ee; [done..|by left|].
  2,3: exists x, st', fr'; split; [done|]; split; [lia|exact H].
  destruct (new_cache_ok _ _ _ _ I Hc) as [_ Hk]. unfold CreateSlab. rewrite Hc. cbn [or_fault mbind outcome_bind].
  destruct (create_pages st fr c I Hk) as (m & p1 & E & M1 & M2 & I1 & X1 & Hp & Hr1); [lia|]. rewrite E. cbn [mbind outcome_bind]. rewrite Hl. cbn [mbind outcome_bind].
  assert (u32 (MemPhys2Virt (m + pagesPerSlab c) - sizeof_MemSlab) = base (m + pagesPerSlab c) - sizeof_MemSlab) as ->.
  { rewrite MemPhys2Virt_base by (destruct Hk; simpl in *; lia). rewrite max_page in M2. destruct Hk. simpl in *. apply Z.mod_small.
    unfold base, KERNEL_VIRTUAL_BASE, PAGE_SIZE, sizeof_MemSlab. lia. }
  set (a := base _ - _). assert (page_of a = m + pagesPerSlab c - 1) as Hpa by (unfold a, page_of, base, sizeof_MemSlab, PAGE_SIZE; zlia).
  destruct (create_ok st (set_spages st p1) fr k c m a) as (st' & fr' & c' & I' & X' & Hlive & -> & Hc' & Ha & _ & Hr2); try done.
  - apply I.
  - apply (old_pages st fr m); [done|]. intros pg Hpg. by apply Hp.
  - simpl. destruct (slabsOf st !! a) as [s|] eqn:Es; [exfalso|done]. apply (header_held _ _ _ _ (i_geometry _ _ I)) in Es.
    rewrite Hpa in Es. destruct (Hp (m + pagesPerSlab c - 1)) as [_ []]; [destruct Hk; simpl in *; lia|done].
  - by rewrite Hl.
  - cbn [mbind outcome_bind]. apply (allocated_after _ st st' fr fr' k a c'); try done; [simpl in *; lia|..].
    + intros q y. rewrite Hlive. done.
    + intros q y Hy. apply Hlive in Hy. by left.
Qed.

Lemma setup_slab_shape k c c' m a st : shape c = shape c' -> setup_slab k c m a st = setup_slab k c' m a st.
Proof. intros E. change (setup_slab k c m a st) with (setup_slab k (shape c) m a st). by rewrite E. Qed.

(** The allocation of an object always succeeds while there are pages: the
    nesting through the header cache ends at once. *)
Lemma MemSlabAlloc_allocated f st fr k c :
  slab_inv st fr -> caches st !! k = Some c -> (2 <= room (spages st))%nat ->
  exists x st' fr', MemSlabAlloc (S (S f)) k st = Ret (x, st') /\ allocated 2 st fr k x st' fr'.
Proof.
  intros I Hc Hr. destruct (is_large c) eqn:Hl.
  2: destruct (MemSlabAlloc_small (S f) st fr k c I Hc Hl) as (x & st' & fr' & E & Hr' & H); [lia|].
  2: exists x, st', fr'; split; [done|]; split; [lia|exact H].
  remember (S f) as f1 eqn:Ef. cbn [MemSlabAlloc]. rewrite Hc. cbn [or_fault mbind outcome_bind].
  destruct (slabsPartial c) as [|a q] eqn:Ep; [destruct (slabsEmpty c) as [|a q] eqn:Ee|]; cbn [mbind outcome_bind].
  2,3: destruct (take_allocated st fr k a c) as (x & st' & fr' & E & Hr' & H); rewrite ?Ep, ?Ee; [done..|by left|].
  2,3: exists x, st', fr'; split; [done|]; split; [lia|exact H].
  destruct (new_cache_ok _ _ _ _ I Hc) as [Hsh Hk]. unfold CreateSlab. rewrite Hc. cbn [or_fault mbind outcome_bind].
  destruct (create_pages st fr c I Hk) as (m & p1 & E & M1 & M2 & I1 & X1 & Hp & Hr1); [lia|]. rewrite E. cbn [mbind outcome_bind]. rewrite Hl. cbn [mbind outcome_bind].
  destruct (g_large _ _ (i_geometry _ _ I) _ _ Hsh Hl) as (cb & Hcb & Hlb). unfold shape_of in Hcb. apply fmap_Some in Hcb as (cb' & Hcb & ->).
  destruct (MemSlabAlloc_small f (set_spages st p1) fr (rootSlabCache st) cb' I1 Hcb Hlb)
    as (a & st2 & fr2 & Ea & Hr2 & I2 & X2 & Hna & Hla & Hha & Hmono & Honly); [simpl; lia|].
  rewrite Ef. change (rootSlabCache (set_spages st p1)) with (rootSlabCache st). rewrite Ea. cbn [mbind outcome_bind].
  pose proof (x_shape _ _ X2 k) as Hsh2. change (shape_of (set_spages st p1) k) with (shape_of st k) in Hsh2. rewrite Hsh in Hsh2.
  unfold shape_of in Hsh2. apply fmap_Some in Hsh2 as (c2 & Hc2 & Es).
  assert (pagesPerSlab c2 = pagesPerSlab c /\ is_large c2 = is_large c) as [Ep2 El2] by (unfold is_large; by injection Es as _ -> -> _).
  rewrite (setup_slab_shape k c c2) by done.
  destruct (create_ok st st2 fr2 k c2 m a) as (st' & fr' & c' & I' & X' & Hlive & -> & Hc' & Ha & Hsl & Hr3); rewrite ?Ep2, ?El2, ?Hl; try done.
  - by eapply extends_trans.
  - intros pg Hpg. split; [|by apply Hp]. apply (x_held _ _ X2), Hp, Hpg.
  - apply I.
  - intros b s d Hb Hd pg Hpg Hin. destruct (x_new _ _ X2 _ _ _ Hb Hd) as [[s0 Hs0]|Hn]; [|by apply (Hn pg Hin), Hp].
    destruct (x_slabs _ _ X2 _ _ Hs0) as (s1 & Hs1 & E1 & E2). rewrite Hb in Hs1. injection Hs1 as <-. rewrite (x_shape _ _ X2) in Hd.
    rewrite E1 in Hd. rewrite E2 in Hin.
    refine (old_pages st fr m (pagesPerSlab c) I _ b s0 d Hs0 Hd pg Hpg Hin). intros; by apply Hp.
  - by rewrite (x_root _ _ X2).
  - cbn [mbind outcome_bind]. apply (allocated_after _ st st' fr fr' k a c'); try done; [simpl in *; lia|..].
    + intros q y Hy. by apply Hlive, Hmono.
    + intros q y Hy. apply Hlive, Honly in Hy as [Hy|[[-> ->]|[-> Hy]]]; [by left|right|right]; (split; [done|]); apply Hsl; tauto.
Qed.

(** *** Freeing an object *)

Section Freeing.
Variables (st : slabs P) (fr : Z -> list Z) (a : Z) (s : MemSlab) (c : MemCache) (x : Z).
Hypothesis I : slab_inv st fr.
Hypothesis Hs : slabsOf st !! a = Some s.
Hypothesis Hc : caches st !! scache s = Some c.
Hypothesis Hx : in_slab (shape c) s x.
Hypothesis Hnf : x ∉ fr a.
Hypothesis Hno : slabsOf st !! x = None /\ caches st !! x = None.

Let w := <[x := freePtr s]> (fill_words (Z.to_nat (objectSize c / 4)) (words st) x (wipe_word (objectSize c))).
Let s' := mkSlab (scache s) (u32 (activeObjs s - 1)) (smemory s) x.
Let fr' := <[a := x :: fr a]> fr.

Lemma freeing_bounds :
  KERNEL_VIRTUAL_BASE <= x /\ x + objectSize c <= MEM_KFIXED_MAX /\ 4 * (objectSize c / 4) = objectSize c /\ 4 <= objectSize c.
Proof.
  destruct (taking_shape st fr a s c I Hs Hc) as (_ & [_ _ _ _ [M1 M2] _ _] & Hk).
  destruct (in_slab_bounds _ _ _ Hk M1 M2 Hx) as (B1 & B2 & _). destruct Hk. simpl in *. split_and!; try lia. zlia.
Qed.

(** Only the object's own words change. *)
Lemma freeing_words y : ~ (x <= y < x + objectSize c) -> w !! y = words st !! y.
Proof.
  destruct freeing_bounds as (B1 & B2 & B3 & B4). intros Hy. unfold w, KERNEL_VIRTUAL_BASE, MEM_KFIXED_MAX in *. rewrite lookup_insert_ne by lia.
  apply fill_words_frame; rewrite ?Z2Nat.id; lia.
Qed.

Lemma freeing_active : activeObjs s' = objectsPerSlab c - zlen (x :: fr a) /\ activeObjs s' = activeObjs s - 1 /\ 0 < activeObjs s.
Proof.
  destruct (taking_shape st fr a s c I Hs Hc) as (_ & [_ Hnd Hin Hact _ _ _] & Hk).
  assert (zlen (x :: fr a) <= objectsPerSlab (shape c)) as Hlen.
  { apply (free_count (shape c) s); [destruct Hk; lia|by apply NoDup_cons|]. intros y [->|Hy]%elem_of_cons; auto. }
  unfold zlen in *. simpl in *. destruct Hk. simpl in *. unfold PAGE_SIZE in *.
  assert (objectsPerSlab c <= 32768) by (destruct (is_large _); cbv [sizeof_MemSlab] in *; nia).
  unfold u32. rewrite Z.mod_small; lia.
Qed.

Lemma freeing_geometry st' :
  (forall q, shape_of st' q = shape_of st q) -> slabsOf st' = <[a := s']> (slabsOf st) -> words st' = w ->
  rootSlabCache st' = rootSlabCache st -> spages st' = spages st ->
  geometry st' fr' /\ (forall q y, live st' fr' q y <-> live st fr q y /\ y <> x).
Proof.
  intros Hq Hsl Hwd Hr Hpp. pose proof I as [G _]. destruct (taking_shape st fr a s c I Hs Hc) as (Hsh & Hok & Hk).
  destruct Hok as [Hch Hnd Hin Hact _ _ _], Hno as [Hno1 Hno2].
  assert (forall b, b <> a -> fr' b = fr b) as Hfr by (intros b Hb; unfold fr'; by rewrite fn_lookup_insert_ne).
  assert (fr' a = x :: fr a) as Hfa by (unfold fr'; by rewrite fn_lookup_insert).
  split.
  - eapply (one_slab_geometry st st' fr fr' a s s' (shape c)); rewrite ?Hfa, ?Hwd; try done.
    + intros b t y Hne Hb Hy. apply freeing_words. intros Hin'. destruct (g_slab _ _ G _ _ Hb) as (d & Hd & Hokb).
      destruct (in_slab_held st fr a s (shape c) x y G Hs Hsh Hx Hin') as [E _].
      destruct (in_slab_held st fr b t d y y G Hb Hd (so_free _ _ _ _ _ Hokb _ Hy)) as [E' _]; [destruct (g_cache _ _ G _ _ Hd); lia|].
      rewrite E in E'. injection E' as ->. done.
    + split; [done|]. exists (freePtr s). split; [apply lookup_insert_eq|]. eapply free_chain_frame; [|done]. intros y Hy.
      apply freeing_words. destruct (in_slab_disjoint (shape c) s x y Hk Hx (Hin _ Hy)); [congruence| |]; simpl in *; lia.
    + by apply NoDup_cons.
    + intros y [->|Hy]%elem_of_cons; auto.
    + apply freeing_active.
    + intros y Hy Hny. apply not_elem_of_cons. split; [|done]. intros ->. rewrite Hno1, Hno2 in Hy. by destruct Hy as [[? ?]|[? ?]].
  - intros q y. split.
    + intros Hy. split.
      * eapply (one_live_inv st st' fr fr' a s s' (shape c)) in Hy as [Hy|(Hy & -> & Hn)]; try done.
        rewrite Hfa in Hn. apply not_elem_of_cons in Hn as [_ Hn]. by exists a, s, (shape c).
      * intros ->. destruct Hy as (b & t & d & Hb & <- & Hd & Hy & Hn). rewrite Hq in Hd. rewrite Hsl in Hb.
        apply lookup_insert_Some in Hb as [[<- <-]|[Hne Hb]]; [rewrite Hfa in Hn; by apply not_elem_of_cons in Hn as [[] _]|].
        apply Hne. by apply (one_slab st fr a s (shape c) b t d x).
    + intros [Hy Hne]. eapply (one_live st st' fr fr' a s s' (shape c)); try done. rewrite Hfa. intros _ Hn. by apply not_elem_of_cons.
Qed.

Lemma freeing_lists st' :
  caches st' = caches st -> slabsOf st' = <[a := s']> (slabsOf st) -> activeObjs s <> objectsPerSlab c -> activeObjs s <> 1 ->
  forall q d, caches st' !! q = Some d -> lists_ok d (slabs_of st' q) fr' (active_of st').
Proof.
  intros Ecs Hsl H1 H2 q d Hd. rewrite Ecs in Hd. destruct I as [_ L], freeing_active as (A1 & A2 & A3).
  assert (forall b, b <> a -> fr' b = fr b) as Hfr by (intros b Hb; unfold fr'; by rewrite fn_lookup_insert_ne).
  assert (forall b, slabs_of st' q b <-> slabs_of st q b) as Hso.
  { intros b. unfold slabs_of. rewrite Hsl. destruct (decide (a = b)) as [<-|]; [|by rewrite lookup_insert_ne].
    rewrite lookup_insert_eq, Hs. split; intros (t & [= <-] & <-); by eexists. }
  assert (forall b, b <> a -> active_of st' b = active_of st b) as Hao.
  { intros b Hb. unfold active_of. by rewrite Hsl, lookup_insert_ne. }
  destruct (decide (q = scache s)) as [->|Hne].
  - rewrite Hc in Hd. injection Hd as <-. destruct (L _ _ Hc) as [_ _ Hfull _ Hempty _].
    destruct (taking_shape st fr a s c I Hs Hc) as (_ & [_ _ _ Hact _ _ _] & _).
    eapply (lists_stay c _ _ _ _ _ _ a); [by apply L|done|done|done| | | |].
    + intros Hb. apply Hfull in Hb. rewrite Hb in Hact. unfold zlen in Hact. simpl in Hact. lia.
    + intros Hb. apply Hempty in Hb. unfold active_of in Hb. rewrite Hs in Hb. simpl in Hb. lia.
    + unfold fr'. by rewrite fn_lookup_insert.
    + unfold active_of. rewrite Hsl, lookup_insert_eq. cbn [from_option]. lia.
  - eapply (lists_other d _ _ _ _ _ _ a); [by apply L|done| |done|done]. intros (t & Ht & <-). congruence.
Qed.
End Freeing.

(** What freeing object [x] of cache [k] does. *)
Definition freed st fr k x st' fr' : Prop :=
  slab_inv st' fr' /\ (forall q, shape_of st' q = shape_of st q) /\ spages st' = spages st /\
  (forall q y, live st' fr' q y <-> live st fr q y /\ y <> x) /\
  (forall c y, caches st !! k = Some c -> ~ (x <= y < x + objectSize c) -> words st' !! y = words st !! y).

Lemma MemSlabFree_freed st fr k x :
  slab_inv st fr -> live st fr k x -> slabsOf st !! x = None -> caches st !! x = None ->
  exists st' fr', MemSlabFree k x st = Ret st' /\ freed st fr k x st' fr'.
Proof.
  intros I (a & s & d & Hs & <- & Hd & Hx & Hn) H1 H2. unfold shape_of in Hd. apply fmap_Some in Hd as (c & Hc & ->).
  pose proof I as [G L]. destruct (taking_shape st fr a s c I Hs Hc) as (Hsh & Hok & Hk).
  destruct (freeing_bounds st fr a s c x I Hs Hc Hx) as (B1 & B2 & B3 & B4).
  destruct (freeing_active st fr a s c x I Hs Hc Hx Hn) as (A1 & A2 & A3). simpl in A1, A2.
  unfold MemSlabFree. destruct (Z.ltb_spec x KERNEL_VIRTUAL_BASE); [lia|]. destruct (Z.leb_spec MEM_KFIXED_MAX x); [lia|]. cbn [orb].
  rewrite MemVirt2Phys_page by lia. destruct (in_slab_held st fr a s (shape c) x x G Hs Hsh Hx) as [-> _]; [simpl; lia|].
  cbn [mbind outcome_bind]. rewrite Hs. cbn [or_fault mbind outcome_bind]. rewrite Z.eqb_refl. cbn [negb]. rewrite Hc. cbn [or_fault mbind outcome_bind].
  set (st1 := set_words st _). set (s' := mkSlab (scache s) _ _ _).
  assert (forall st', (forall q, shape_of st' q = shape_of st q) -> slabsOf st' = <[a := s']> (slabsOf st) -> words st' = words st1 ->
    rootSlabCache st' = rootSlabCache st -> spages st' = spages st ->
    (forall q d, caches st' !! q = Some d -> lists_ok d (slabs_of st' q) (<[a := x :: fr a]> fr) (active_of st')) ->
    freed st fr (scache s) x st' (<[a := x :: fr a]> fr)) as Hdone.
  { intros st' E1 E2 E3 E4 E5 HL. destruct (freeing_geometry st fr a s c x I Hs Hc Hx Hn (conj H1 H2) st') as [G' Hl]; [done..|].
    split_and!; [by split|done|done|done|]. intros c0 y Hc0 Hy. rewrite Hc in Hc0. injection Hc0 as <-. rewrite E3.
    by apply (freeing_words st fr a s c x I Hs Hc Hx). }
  assert (forall ls, status_ok ls c (x :: fr a) (activeObjs s') -> exists st',
    (st2 ← move_slab ls a (scache s) st1; Ret (set_slabsOf st2 (<[a := s']> (slabsOf st2)))) = Ret st' /\
    freed st fr (scache s) x st' (<[a := x :: fr a]> fr)) as Hmove.
  { intros ls Hls. destruct (move_slab_ok ls a (scache s) st1 c Hc) as (st2 & -> & -> & Hq). eexists. split; [reflexivity|].
    apply Hdone; try done. eapply (all_lists_move ls a (scache s) st _ fr); [done|exact Hc| | | | | |done].
    - intros q b. unfold slabs_of. simpl. destruct (decide (a = b)) as [<-|]; [|rewrite lookup_insert_ne by done; naive_solver].
      rewrite lookup_insert_eq, Hs. naive_solver.
    - intros q (t & Ht & <-). congruence.
    - intros b Hb. by rewrite fn_lookup_insert_ne.
    - intros b Hb. unfold active_of. simpl. by rewrite lookup_insert_ne.
    - unfold active_of. simpl. by rewrite fn_lookup_insert, lookup_insert_eq. }
  destruct (Z.eqb_spec (activeObjs s) (objectsPerSlab c)) as [E|E]; [|destruct (Z.eqb_spec (activeObjs s) 1) as [E'|E']].
  - destruct (Hmove Partial) as (st' & ? & ?); [|by exists st', (<[a := x :: fr a]> fr)]. split; [done|]. simpl. lia.
  - destruct (Hmove Empty) as (st' & ? & ?); [|by exists st', (<[a := x :: fr a]> fr)]. split; [done|]. simpl. lia.
  - eexists _, _. split; [reflexivity|]. apply Hdone; try done. by apply (freeing_lists st fr a s c x).
Qed.

(** *** Caches *)

(** The number of pages chosen is one that holds eight objects, or eight. *)
Lemma best_pages_cases n : forall pages size extra best waste,
  let r := best_pages n pages size extra best waste in
  r = best \/ pages <= r < pages + Z.of_nat n /\ 8 <= (r * PAGE_SIZE - extra) / size.
Proof.
  induction n as [|n IH]; intros pages size extra best waste; simpl; [by left|].
  assert (forall b w, let r := best_pages n (pages + 1) size extra b w in
    r = b \/ pages <= r < pages + Z.of_nat (S n) /\ 8 <= (r * PAGE_SIZE - extra) / size) as IH'.
  { intros b w. destruct (IH (pages + 1) size extra b w) as [|[H1 H2]]; [by left|right]. simpl in *. lia. }
  destruct (Z.ltb_spec ((pages * PAGE_SIZE - extra) / size) 8); [apply IH'|].
  destruct (_ <=? _); [right; lia|]. destruct (_ <? _); [|apply IH'].
  destruct (IH' pages ((pages * PAGE_SIZE - extra) mod size)) as [->|]; [right; lia|by right].
Qed.

Lemma cache_setup_ok size flags :
  0 < size < 8 * PAGE_SIZE -> size mod 4 = 0 ->
  let c := cache_setup size flags in
  cache_ok c /\ objectSize c = size /\ (is_large c = true <-> PAGE_SIZE / 8 <= size) /\ (size <= PAGE_SIZE -> 8 <= objectsPerSlab c).
Proof.
  intros Hs Ha. unfold cache_setup. change (Z.shiftr PAGE_SIZE 3) with 512. change (PAGE_SIZE / 8) with 512.
  unfold PAGE_SIZE in *. destruct (Z.leb_spec 512 size) as [Hl|Hl].
  - set (r := best_pages _ _ _ _ _ _).
    assert (is_large (mkCache [] [] [] size (Z.lor flags MEM_SLAB_LARGE) r ((r * 4096 - 0) / size)) = true) as El.
    { unfold is_large, truth. simpl. assert (Z.testbit (Z.land (Z.lor flags MEM_SLAB_LARGE) MEM_SLAB_LARGE) 1 = true) as Hb
        by (rewrite Z.land_spec, Z.lor_spec; simpl; by rewrite orb_true_r).
      destruct (Z.eqb_spec (Z.land (Z.lor flags MEM_SLAB_LARGE) MEM_SLAB_LARGE) 0) as [E|]; [|done]. by rewrite E in Hb. }
    pose proof (best_pages_cases 7 1 size 0 8 0xFFFFFFFF) as Hr. cbv zeta in Hr. fold r in Hr. unfold PAGE_SIZE in Hr.
    destruct Hr as [E|[E1 E2]].
    all: split_and!; [split; cbn [objectSize objectsPerSlab pagesPerSlab]; unfold PAGE_SIZE; rewrite ?El|done|by rewrite El|]; try lia.
    + rewrite E. apply Z.div_le_lower_bound; lia.
    + pose proof (Z.mul_div_le (r * 4096 - 0) size). lia.
    + intros Hs'. cbn [objectsPerSlab]. rewrite E. apply Z.div_le_lower_bound; lia.
    + pose proof (Z.mul_div_le (r * 4096 - 0) size). lia.
    + intros _. exact E2.
  - set (r := best_pages _ _ _ _ _ _).
    assert (is_large (mkCache [] [] [] size (Z.land flags (Z.lnot MEM_SLAB_LARGE)) r ((r * 4096 - sizeof_MemSlab) / size)) = false) as El.
    { unfold is_large, truth. simpl. rewrite <- Z.land_assoc. change (Z.land (Z.lnot MEM_SLAB_LARGE) MEM_SLAB_LARGE) with 0. by rewrite Z.land_0_r. }
    unfold sizeof_MemSlab in *.
    pose proof (best_pages_cases 7 1 size 24 8 0xFFFFFFFF) as Hr. cbv zeta in Hr. fold r in Hr. unfold PAGE_SIZE in Hr.
    destruct Hr as [E|[E1 E2]].
    all: split_and!; [split; cbn [objectSize objectsPerSlab pagesPerSlab]; unfold PAGE_SIZE; rewrite ?El|done|rewrite El; split; [done|lia]|]; try lia.
    + zlia.
    + rewrite E. apply Z.div_le_lower_bound; lia.
    + pose proof (Z.mul_div_le (r * 4096 - 24) size). unfold sizeof_MemSlab. lia.
    + intros Hs'. cbn [objectsPerSlab]. rewrite E. apply Z.div_le_lower_bound; lia.
    + zlia.
    + pose proof (Z.mul_div_le (r * 4096 - 24) size). unfold sizeof_MemSlab. lia.
    + intros _. exact E2.
Qed.

(** The chain of caches and the table of MemKAlloc do not matter. *)
Lemma inv_chain st fr l t : slab_inv st fr -> slab_inv (set_kAllocCache (set_cacheList st l) t) fr.
Proof.
  intros [[G1 G2 G3 G4 G5] L]. split; [split|]; [exact G1| |exact G3|exact G4|exact G5|exact L].
  intros a s Ha. destruct (G2 a s Ha) as (c & Hc & []). exists c. split; [exact Hc|]. by split.
Qed.

(** A new cache, at an object of the root cache, with nothing in it. *)
Lemma new_cache_inv st fr k c :
  slab_inv st fr -> caches st !! k = None -> live st fr rootCache k -> cache_ok c ->
  slabsFull c = [] -> slabsPartial c = [] -> slabsEmpty c = [] ->
  (is_large c = true -> exists cb, shape_of st (rootSlabCache st) = Some cb /\ is_large cb = false) ->
  let st' := set_caches st (<[k := c]> (caches st)) in
  slab_inv st' fr /\ (forall q y, live st fr q y -> live st' fr q y).
Proof.
  intros [G L] Hk Hl Hok E1 E2 E3 Hlarge st'.
  assert (forall q d, shape_of st q = Some d -> shape_of st' q = Some d) as Hmono.
  { intros q d Hd. unfold shape_of, st'. simpl. rewrite lookup_insert_ne; [done|]. intros <-. unfold shape_of in Hd. by rewrite Hk in Hd. }
  assert (shape_of st' k = Some (shape c)) as Hsk by (unfold shape_of, st'; simpl; by rewrite lookup_insert_eq).
  assert (forall q d, shape_of st' q = Some d -> shape_of st q = Some d \/ q = k /\ d = shape c) as Hinv.
  { intros q d. unfold shape_of, st'. simpl. destruct (decide (k = q)) as [<-|]; [rewrite lookup_insert_eq; intros [= <-]; by right|].
    rewrite lookup_insert_ne by done. by left. }
  assert (forall q y, live st fr q y -> live st' fr q y) as Hlv.
  { intros q y (a & s & d & Ha & <- & Hd & Hy & Hn). exists a, s, d. split_and!; try done. by apply Hmono. }
  assert (forall a s, slabsOf st !! a = Some s -> scache s <> k) as Hsl.
  { intros a s Ha E. destruct (g_slab _ _ G _ _ Ha) as (d & Hd & _). unfold shape_of in Hd. by rewrite E, Hk in Hd. }
  split; [split; [split|]|done].
  - intros q d [Hd|[-> ->]]%Hinv; [by eapply g_cache|]. by destruct Hok.
  - intros a s Ha. destruct (g_slab _ _ G _ _ Ha) as (d & Hd & []). exists d. split; [by apply Hmono|]. split; try done.
    destruct (is_large d); [|done]. by apply Hlv.
  - intros q d [Hd|[-> ->]]%Hinv Hld.
    + destruct (g_large _ _ G _ _ Hd Hld) as (cb & Hcb & ?). exists cb. split; [by apply Hmono|done].
    + destruct (Hlarge Hld) as (cb & Hcb & ?). exists cb. split; [by apply Hmono|done].
  - intros q d [Hd|[-> ->]]%Hinv; [|right; by apply Hlv]. destruct (g_keys _ _ G _ _ Hd) as [|]; [by left|right; by apply Hlv].
  - destruct (g_root _ _ G) as [R1 R2]. split; [done|]. intros a s d Ha [Hd|[Hd _]]%Hinv; [by eapply R2|]. by apply Hsl in Ha.
  - intros q d Hd. simpl in Hd. apply lookup_insert_Some in Hd as [[<- <-]|[Hne Hd]]; [|by apply L].
    split; rewrite ?E1, ?E2, ?E3; try (by intros a Ha%not_elem_of_nil); [constructor|].
    intros a. split; [by intros ?%not_elem_of_nil|]. intros (s & Ha & Hs). by apply Hsl in Ha.
Qed.

Lemma align_size_div size : align_size size = u32 (size + 3) / 4 * 4.
Proof.
  unfold align_size. assert (0 <= u32 (size + 3) < 2 ^ 32) as Hu by (unfold u32; zlia). set (x := u32 _) in *.
  change 0xFFFFFFFC with (Z.shiftl (Z.ones 30) 2). change 4 with (2 ^ 2). rewrite <- Z.shiftr_div_pow2, <- Z.shiftl_mul_pow2 by lia.
  apply Z.bits_inj'. intros i Hi. destruct (Z.ltb_spec i 2); [rewrite Z.land_spec, !Z.shiftl_spec_low by lia; by rewrite andb_false_r|].
  rewrite Z.land_spec, !Z.shiftl_spec, Z.shiftr_spec by lia. replace (i - 2 + 2) with i by lia.
  destruct (Z.ltb_spec (i - 2) 30); [rewrite Z.ones_spec_low by lia; by rewrite andb_true_r|].
  rewrite Z.ones_spec_high, andb_false_r by lia. symmetry. rewrite <- (Z.mod_small x (2 ^ 32)) by done. apply Z.mod_pow2_bits_high. lia.
Qed.

Lemma align_size_mod size : align_size size mod 4 = 0.
Proof. rewrite align_size_div. apply Z.mod_mul. lia. Qed.

Lemma MemSlabCreate_ok f st fr size flags :
  slab_inv st fr -> is_Some (caches st !! rootCache) -> (2 <= room (spages st))%nat -> 0 < size -> align_size size < 8 * PAGE_SIZE -> 0 < align_size size ->
  (PAGE_SIZE / 8 <= align_size size -> exists cb, shape_of st (rootSlabCache st) = Some cb /\ is_large cb = false) ->
  exists k st' fr', MemSlabCreate rootCache (S (S f)) size flags st = Ret (k, st') /\ slab_inv st' fr' /\
    shape_of st k = None /\ shape_of st' k = Some (cache_setup (align_size size) flags) /\
    (forall q d, shape_of st q = Some d -> shape_of st' q = Some d) /\
    (forall q d, shape_of st' q = Some d -> shape_of st q = Some d \/ q = k) /\
    rootSlabCache st' = rootSlabCache st /\ kAllocCache st' = kAllocCache st /\
    (room (spages st) <= 2 + room (spages st'))%nat /\ (forall q y, live st fr q y -> live st' fr' q y) /\
    (forall R, avoids R st -> avoids R st').
Proof.
  intros I [c0 Hc0] Hrm Hs Hs1 Hs2 Hlarge. unfold MemSlabCreate. destruct (Z.leb_spec (8 * PAGE_SIZE) (align_size size)); [lia|].
  destruct (MemSlabAlloc_allocated f st fr rootCache c0 I Hc0 Hrm) as (k & st1 & fr1 & -> & Hr1 & I1 & X & Hn & Hlive & _ & Hmono & _).
  cbn [mbind outcome_bind]. pose proof I1 as [G1 _]. pose proof I as [G _].
  assert (k <> 0) as Hk0.
  { destruct Hlive as (a & s & c & Ha & Hsc & Hc & Hin & _). rewrite <- Hsc in Hc.
    destruct (g_slab _ _ G1 _ _ Ha) as (d & Hd & Hok). rewrite Hc in Hd. injection Hd as <-. destruct (so_mem _ _ _ _ _ Hok) as [M1 M2].
    apply (in_slab_bounds _ _ _ (g_cache _ _ G1 _ _ Hc) M1 M2) in Hin as (B & _). unfold KERNEL_VIRTUAL_BASE in B. lia. }
  apply Z.eqb_neq in Hk0. rewrite Hk0. destruct (Z.eqb_spec (align_size size) 0); [lia|].
  assert (shape_of st k = None) as Hnk.
  { destruct (shape_of st k) as [d|] eqn:E; [exfalso|done]. destruct (g_keys _ _ G _ _ E) as [->|Hl]; [|by apply (Hn rootCache)].
    destruct Hlive as (a & s & c & Ha & Hsc & Hc & Hin & _). rewrite <- Hsc in Hc. by apply (proj2 (g_root _ _ G1) _ _ _ Ha Hc). }
  pose proof (align_size_mod size) as Ha4.
  destruct (cache_setup_ok (align_size size) flags) as (Hco & _ & Hlg & _); [lia|done|].
  assert (forall c', shape (cache_setup c' flags) = cache_setup c' flags) as Hcs by (intros c'; unfold cache_setup; by destruct (_ <=? _)).
  assert (caches st1 !! k = None) as Hnk1.
  { rewrite <- (x_shape _ _ X) in Hnk. unfold shape_of in Hnk. by destruct (caches st1 !! k). }
  destruct (new_cache_inv st1 fr1 k (cache_setup (align_size size) flags) I1 Hnk1 Hlive Hco) as [I2 Hm2].
  1-3: unfold cache_setup; by destruct (_ <=? _).
  { intros Hl. destruct Hlarge as (cb & Hcb & ?); [by apply Hlg|]. exists cb. by rewrite (x_root _ _ X), (x_shape _ _ X). }
  eexists k, _, fr1. split; [reflexivity|]. split_and!; try done.
  - exact (inv_chain _ _ (cacheList st1 ++ [k]) (kAllocCache st1) I2).
  - unfold shape_of. simpl. rewrite lookup_insert_eq. simpl. by rewrite Hcs.
  - intros q d Hd. unfold shape_of. simpl. rewrite lookup_insert_ne by (intros <-; congruence).
    fold (shape_of st1 q). by rewrite (x_shape _ _ X).
  - intros q d Hd. destruct (decide (q = k)) as [|Hne]; [by right|left]. unfold shape_of in Hd. simpl in Hd.
    rewrite lookup_insert_ne in Hd by done. rewrite <- (x_shape _ _ X). exact Hd.
  - simpl. apply (x_root _ _ X).
  - simpl. apply (x_kalloc _ _ X).
  - intros q y Hy. by apply Hm2, Hmono.
  - intros R HR. destruct (extends_avoids R _ _ X HR) as [A1 A2]. split; [exact A1|]. intros a s c Ha Hc. apply (A2 a s c Ha).
    unfold shape_of in Hc. simpl in Hc. rewrite lookup_insert_ne in Hc; [exact Hc|]. intros E.
    destruct (g_slab _ _ G1 _ _ Ha) as (d & Hd & _). unfold shape_of in Hd. by rewrite <- E, Hnk1 in Hd.
Qed.
End Invariant.
