(* ===== verification/SlabSpec.v ===== *)
(** * The slab allocator against its specification

    What callers of slab.c rely on: objects that are fresh, disjoint and
    theirs to write, a general allocator that picks the smallest size, and an
    initialisation that sets all of it up. *)
From stdpp Require Import functions.
From S2P Require Import Prelude Physical Utils Slab SlabInv.

Section Spec.
Context {P : Type} {SP : SlabPages P} {SL : SlabPagesLaws P}.
Context (rootCache : Z).
Implicit Types (st : slabs P) (fr : Z -> list Z).

(** Two objects in use do not overlap. *)
Lemma live_disjoint st fr q x c q' y d :
  slab_inv rootCache st fr -> live st fr q x -> shape_of st q = Some c -> live st fr q' y -> shape_of st q' = Some d -> x <> y ->
  y + objectSize d <= x \/ x + objectSize c <= y.
Proof.
  intros [G _] (a & s & c' & Ha & <- & Hc' & Hx & _) Hc (b & t & d' & Hb & <- & Hd' & Hy & _) Hd Hne.
  rewrite Hc in Hc'. injection Hc' as <-. rewrite Hd in Hd'. injection Hd' as <-.
  pose proof (g_cache _ _ _ G _ _ Hc) as Kc. pose proof (g_cache _ _ _ G _ _ Hd) as Kd.
  destruct (decide (a = b)) as [<-|Hab].
  - rewrite Ha in Hb. injection Hb as <-. rewrite Hc in Hd. injection Hd as <-.
    destruct (in_slab_disjoint c s x y Kc Hx Hy Hne), (in_slab_disjoint c s y x Kc Hy Hx (not_eq_sym Hne)); lia.
  - destruct (Z.le_gt_cases (y + objectSize d) x) as [|H1]; [by left|]. destruct (Z.le_gt_cases (x + objectSize c) y) as [|H2]; [by right|].
    exfalso. destruct Kc, Kd.
    destruct (in_slab_held _ _ _ a s c x (Z.max x y) G Ha Hc Hx) as [E _]; [lia|].
    destruct (in_slab_held _ _ _ b t d y (Z.max x y) G Hb Hd Hy) as [E' _]; [lia|]. rewrite E in E'. by injection E'.
Qed.

(** The owner of an object may write anything into it. *)
Lemma inv_write st fr k x c m :
  slab_inv rootCache st fr -> live st fr k x -> shape_of st k = Some c ->
  (forall y, ~ (x <= y < x + objectSize c) -> m !! y = words st !! y) -> slab_inv rootCache (set_words st m) fr.
Proof.
  intros [G L] (a & s & c' & Ha & <- & Hc' & Hx & Hn) Hc Hm. rewrite Hc in Hc'. injection Hc' as <-.
  split; [|exact L]. pose proof G as [G1 G2 G3 G4 G5]. split; [exact G1| |exact G3|exact G4|exact G5].
  intros b t Hb. destruct (G2 b t Hb) as (d & Hd & Hok). exists d. split; [exact Hd|]. destruct Hok as [O1 O2 O3 O4 O5 O6 O7]. split; try done.
  eapply free_chain_frame; [|done]. intros y Hy. apply Hm. intros Hin. pose proof (O3 _ Hy) as Hyb.
  pose proof (g_cache _ _ _ G _ _ Hc) as Kc. pose proof (g_cache _ _ _ G _ _ Hd) as Kd.
  destruct (in_slab_held _ _ _ a s c x y G Ha Hc Hx Hin) as [E _].
  destruct (in_slab_held _ _ _ b t d y y G Hb Hd Hyb) as [E' _]; [destruct Kd; lia|]. rewrite E in E'. injection E' as E'. subst b. cbn [slabsOf set_words] in Hb.
  rewrite Ha in Hb. injection Hb as <-. rewrite Hc in Hd. injection Hd as <-.
  destruct (in_slab_disjoint c s x y Kc Hx Hyb); [congruence|lia|lia].
Qed.

(** C3: MemSlabAlloc returns an object of the cache that was not in use, in
    memory that overlaps no object in use; every object in use stays in use
    and no word of memory that was in use changes. Two levels of allocation
    (the object and a header) are enough, and two free blocks of pages. *)
Theorem MemSlabAlloc_fresh st fr k c :
  slab_inv rootCache st fr -> caches st !! k = Some c -> (2 <= room (spages st))%nat ->
  exists x st' fr', MemSlabAlloc 2 k st = Ret (x, st') /\ slab_inv rootCache st' fr' /\
    (forall q, ~ live st fr q x) /\ live st' fr' k x /\ (forall q y, live st fr q y -> live st' fr' q y) /\
    (forall y, held (spages st) (page_of y) -> words st' !! y = words st !! y) /\
    (forall q y d, live st' fr' q y -> shape_of st' q = Some d -> y <> x -> y + objectSize d <= x \/ x + objectSize c <= y).
Proof.
  intros I Hc Hr. destruct (MemSlabAlloc_allocated rootCache 0 st fr k c I Hc Hr) as (x & st' & fr' & E & _ & I' & X & Hn & Hl & _ & Hm & _).
  exists x, st', fr'. split_and!; try done; [apply X|]. intros q y d Hy Hd Hne.
  refine (live_disjoint st' fr' k x (shape c) q y d I' Hl _ Hy Hd (not_eq_sym Hne)). rewrite (x_shape _ _ X). unfold shape_of. by rewrite Hc.
Qed.

(** C4: MemSlabFree of an object in use (that is no slab header and no cache)
    returns it to its cache: exactly that object is no longer in use, the
    allocator's invariant holds and only the object's own words change. *)
Theorem MemSlabFree_takes_back st fr k x c :
  slab_inv rootCache st fr -> live st fr k x -> slabsOf st !! x = None -> caches st !! x = None -> caches st !! k = Some c ->
  exists st' fr', MemSlabFree k x st = Ret st' /\ slab_inv rootCache st' fr' /\
    (forall q y, live st' fr' q y <-> live st fr q y /\ y <> x) /\
    (forall y, ~ (x <= y < x + objectSize c) -> words st' !! y = words st !! y).
Proof.
  intros I Hl H1 H2 Hc. destruct (MemSlabFree_freed rootCache st fr k x I Hl H1 H2) as (st' & fr' & E & I' & _ & _ & Hl' & Hw).
  exists st', fr'. split_and!; try done. intros y Hy. by apply (Hw c).
Qed.

Lemma fill_words_lookup n : forall m a v i,
  0 <= a -> a + 4 * Z.of_nat n < 4294967296 -> (i < n)%nat -> fill_words n m a v !! (a + 4 * Z.of_nat i) = Some v.
Proof.
  induction n as [|n IH]; intros m a v i Ha Hb Hi; [lia|]. simpl.
  assert (u32 (a + 4) = a + 4) as -> by (apply Z.mod_small; lia). destruct i as [|i].
  - rewrite fill_words_frame by lia. rewrite Z.add_0_r. apply lookup_insert_eq.
  - replace (a + 4 * Z.of_nat (S i)) with (a + 4 + 4 * Z.of_nat i) by lia. apply IH; lia.
Qed.

Lemma live_bounds st fr k x c :
  slab_inv rootCache st fr -> live st fr k x -> shape_of st k = Some c ->
  0xC0000000 <= x /\ x + objectSize c <= 0xF0000000 /\ 4 * (objectSize c / 4) = objectSize c /\ 4 <= objectSize c.
Proof.
  intros [G _] (a & s & c' & Ha & <- & Hc' & Hx & _) Hc. rewrite Hc in Hc'. injection Hc' as <-.
  destruct (g_slab _ _ _ G _ _ Ha) as (d & Hd & Hok). rewrite Hc in Hd. injection Hd as <-. destruct (so_mem _ _ _ _ _ Hok) as [M1 M2].
  pose proof (g_cache _ _ _ G _ _ Hc) as K. destruct (in_slab_bounds _ _ _ K M1 M2 Hx) as (B1 & B2 & _). destruct K.
  unfold KERNEL_VIRTUAL_BASE, MEM_KFIXED_MAX in *. split_and!; try lia. zlia.
Qed.

(** MemSlabZAlloc returns such an object with every word zero. *)
Theorem MemSlabZAlloc_zeroed st fr k c :
  slab_inv rootCache st fr -> caches st !! k = Some c -> (2 <= room (spages st))%nat ->
  exists x st' fr', MemSlabZAlloc 2 k st = Ret (x, st') /\ slab_inv rootCache st' fr' /\
    (forall q, ~ live st fr q x) /\ live st' fr' k x /\
    (forall i, 0 <= i < objectSize c / 4 -> words st' !! (x + 4 * i) = Some 0).
Proof.
  intros I Hc Hr. destruct (MemSlabAlloc_allocated rootCache 0 st fr k c I Hc Hr) as (x & st' & fr' & E & _ & I' & X & Hn & Hl & _ & Hm & _).
  assert (shape_of st' k = Some (shape c)) as Hsh by (rewrite (x_shape _ _ X); unfold shape_of; by rewrite Hc).
  destruct (live_bounds st' fr' k x (shape c) I' Hl Hsh) as (B1 & B2 & B3 & B4). cbn [objectSize shape] in B2, B3, B4.
  unfold MemSlabZAlloc. rewrite E. cbn [mbind outcome_bind]. destruct (Z.eqb_spec x 0); [lia|]. cbn [negb].
  unfold shape_of in Hsh. apply fmap_Some in Hsh as (c' & Hc' & Es). rewrite Hc'. cbn [or_fault mbind outcome_bind].
  assert (objectSize c' = objectSize c) as -> by (by injection Es as -> _ _ _).
  eexists x, _, fr'. split; [reflexivity|]. split_and!; try done.
  - apply (inv_write st' fr' k x (shape c')); [done|done|unfold shape_of; by rewrite Hc'|].
    assert (objectSize (shape c') = objectSize c) as -> by (by injection Es as -> _ _ _). intros y Hy.
    apply fill_words_frame; rewrite ?Z2Nat.id; lia.
  - intros i Hi. simpl. replace i with (Z.of_nat (Z.to_nat i)) by lia. apply fill_words_lookup; lia.
Qed.

(** *** Generic memory *)

(** The table of MemKAlloc: cache [i] holds objects of 8 << i bytes. *)
Definition kalloc_ok st : Prop :=
  length (kAllocCache st) = 11%nat /\
  forall i k, kAllocCache st !! i = Some k -> exists c, shape_of st k = Some c /\ objectSize c = Z.shiftl 8 (Z.of_nat i).

(** The smallest size class, checked for every request. *)
Definition best_class (bytes : Z) : bool :=
  let i := kalloc_index bytes in
  (0 <=? i) && (i <=? 10) && (bytes <=? Z.shiftl 8 i) && ((i =? 0) || (Z.shiftl 8 (i - 1) <? bytes)).

Lemma kalloc_index_best bytes : 0 < bytes <= 8192 ->
  0 <= kalloc_index bytes <= 10 /\ bytes <= Z.shiftl 8 (kalloc_index bytes) /\
  (kalloc_index bytes = 0 \/ Z.shiftl 8 (kalloc_index bytes - 1) < bytes).
Proof.
  assert (forallb best_class (seqZ 1 8192) = true) as H by (vm_compute; reflexivity).
  intros Hb. rewrite forallb_forall in H. specialize (H bytes). unfold best_class in H.
  rewrite !andb_true_iff, orb_true_iff, !Z.leb_le, Z.ltb_lt, Z.eqb_eq in H.
  destruct H as (((H1 & H2) & H3) & H4); [apply list_elem_of_In, elem_of_seqZ; lia|]. split_and!; done.
Qed.

(** MemKAlloc refuses 0 bytes and more than 8192; any other request gets
    a fresh object from the smallest size class that holds it. *)
Theorem MemKAlloc_best_fit st fr bytes :
  slab_inv rootCache st fr -> kalloc_ok st -> (2 <= room (spages st))%nat ->
  (bytes = 0 \/ 8192 < bytes -> MemKAlloc 2 bytes st = Ret (0, st)) /\
  (0 < bytes <= 8192 -> exists x k c st' fr', MemKAlloc 2 bytes st = Ret (x, st') /\ x <> 0 /\ slab_inv rootCache st' fr' /\ kalloc_ok st' /\
    (forall q, ~ live st fr q x) /\ live st' fr' k x /\ shape_of st' k = Some c /\
    bytes <= objectSize c /\ (objectSize c = 8 \/ objectSize c < 2 * bytes)).
Proof.
  intros I [Hlen Hk] Hr. unfold MemKAlloc. change (Z.shiftl 8 10) with 8192. split.
  - intros [->|Hb]; [done|]. destruct (Z.ltb_spec 8192 bytes); [|lia]. by rewrite orb_true_r.
  - intros Hb. destruct (Z.eqb_spec bytes 0); [lia|]. destruct (Z.ltb_spec 8192 bytes); [lia|]. cbn [orb].
    destruct (kalloc_index_best bytes Hb) as (H1 & H2 & H3). set (i := kalloc_index bytes) in *.
    destruct (lookup_lt_is_Some_2 (kAllocCache st) (Z.to_nat i)) as [k Ek]; [lia|].
    assert (zget (kAllocCache st) i = Some k) as -> by (unfold zget; destruct (Z.ltb_spec i 0); [lia|done]).
    cbn [or_fault mbind outcome_bind]. destruct (Hk _ _ Ek) as (c & Hc & Hs). rewrite Z2Nat.id in Hs by lia.
    unfold shape_of in Hc. apply fmap_Some in Hc as (c0 & Hc0 & ->).
    destruct (MemSlabAlloc_allocated rootCache 0 st fr k c0 I Hc0 Hr) as (x & st' & fr' & E & _ & I' & X & Hn & Hl & _).
    assert (shape_of st' k = Some (shape c0)) as Hsh by (rewrite (x_shape _ _ X); unfold shape_of; by rewrite Hc0).
    destruct (live_bounds st' fr' k x _ I' Hl Hsh) as (B & _).
    exists x, k, (shape c0), st', fr'. split_and!; try done; [lia| |by rewrite Hs|].
    + split; [by rewrite (x_kalloc _ _ X)|]. intros j q Hq. rewrite (x_kalloc _ _ X) in Hq. rewrite (x_shape _ _ X). by apply Hk.
    + rewrite Hs. destruct (decide (i = 0)) as [->|]; [by left|right]. destruct H3 as [|H3]; [done|].
      rewrite Z.shiftl_mul_pow2 in H3 |- * by lia. replace i with (Z.succ (i - 1)) at 1 by lia. rewrite Z.pow_succ_r by lia. lia.
Qed.

(** *** Initialisation *)

(** The static state before MemSlabInit. *)
Definition slab_start (p : P) : slabs P := mkSlabs (<[rootCache := rootCache_init]> ∅) [] ∅ ∅ p 0 [].

Lemma slab_start_inv p : held p (page_of rootCache) -> slab_inv rootCache (slab_start p) (fun _ => []).
Proof.
  intros Hh. assert (forall k c, shape_of (slab_start p) k = Some c -> k = rootCache /\ c = rootCache_init) as Hs.
  { intros k c Hk. unfold shape_of in Hk. apply fmap_Some in Hk as (d & Hd & ->). simpl in Hd.
    apply lookup_insert_Some in Hd as [[<- <-]|[_ Hd]]; [done|]. by rewrite lookup_empty in Hd. }
  split; [split|].
  - intros k c (_ & ->)%Hs. split; [done|done|done|done|by vm_compute].
  - intros a s Ha. simpl in Ha. by rewrite lookup_empty in Ha.
  - by intros k c (_ & ->)%Hs.
  - intros k c (-> & _)%Hs. by left.
  - split; [done|]. intros a s c Ha. simpl in Ha. by rewrite lookup_empty in Ha.
  - intros k c Hc. simpl in Hc. apply lookup_insert_Some in Hc as [[<- <-]|[_ Hc]]; [|by rewrite lookup_empty in Hc].
    split; try (by intros a ?%not_elem_of_nil); [constructor|]. intros a. split; [by intros ?%not_elem_of_nil|].
    intros (s & Ha & _). simpl in Ha. by rewrite lookup_empty in Ha.
Qed.

Lemma class_sizes i : 0 <= i < 11 ->
  align_size (Z.shiftl 8 i) = Z.shiftl 8 i /\ 0 < Z.shiftl 8 i < 8 * PAGE_SIZE.
Proof.
  assert (forallb (fun i => (align_size (Z.shiftl 8 i) =? Z.shiftl 8 i) && (0 <? Z.shiftl 8 i) && (Z.shiftl 8 i <? 8 * PAGE_SIZE)) (seqZ 0 11) = true)
    as H by (vm_compute; reflexivity).
  intros Hi. rewrite forallb_forall in H. specialize (H i). rewrite !andb_true_iff, Z.eqb_eq, !Z.ltb_lt in H.
  destruct H as [[H1 H2] H3]; [apply list_elem_of_In, elem_of_seqZ; lia|done].
Qed.

Lemma init_kalloc_ok n : forall i st fr cb,
  slab_inv rootCache st fr -> is_Some (caches st !! rootCache) -> (2 * n <= room (spages st))%nat ->
  shape_of st (rootSlabCache st) = Some cb -> is_large cb = false ->
  0 <= i -> i + Z.of_nat n = 11 -> Z.of_nat (length (kAllocCache st)) = i ->
  (forall j k, kAllocCache st !! j = Some k -> exists c, shape_of st k = Some c /\ objectSize c = Z.shiftl 8 (Z.of_nat j)) ->
  exists st' fr', init_kalloc rootCache n i 2 st = Ret st' /\ slab_inv rootCache st' fr' /\ kalloc_ok st' /\
    (room (spages st) <= 2 * n + room (spages st'))%nat /\ (forall q d, shape_of st q = Some d -> shape_of st' q = Some d) /\
    rootSlabCache st' = rootSlabCache st /\ (forall R, avoids R st -> avoids R st').
Proof.
  induction n as [|n IH]; intros i st fr cb I Hr Hroom Hcb Hlb Hi Hin Hlen Hk; cbn [init_kalloc].
  - exists st, fr. split_and!; [done|done| |lia|done|done|done]. split; [lia|done].
  - destruct (class_sizes i) as [Ea [S1 S2]]; [lia|].
    destruct (MemSlabCreate_ok rootCache 0 st fr (Z.shiftl 8 i) 0) as (k & st1 & fr1 & -> & I1 & Hn & Hk1 & Hmono & Honly & Hroot & Hka & Hr1 & _ & Hav);
      rewrite ?Ea; try done; [lia|by exists cb|].
    cbn [mbind outcome_bind].
    assert (objectSize (cache_setup (align_size (Z.shiftl 8 i)) 0) = Z.shiftl 8 i) as Hsz by (rewrite Ea; unfold cache_setup; by destruct (_ <=? _)).
    destruct (IH (i + 1) (set_kAllocCache st1 (kAllocCache st1 ++ [k])) fr1 cb) as (st' & fr' & E & H); try done; simpl; try lia.
    + exact (inv_chain rootCache st1 fr1 (cacheList st1) _ I1).
    + destruct Hr as [c Hc]. assert (shape_of st1 rootCache = Some (shape c)) as E by (apply Hmono; unfold shape_of; by rewrite Hc).
      unfold shape_of in E. apply fmap_Some in E as (c' & -> & _). by eexists.
    + rewrite Hroot. by apply Hmono.
    + rewrite length_app, Hka. simpl. lia.
    + intros j q Hq. rewrite Hka in Hq. apply lookup_app_Some in Hq as [Hq|[Hj Hq]].
      * destruct (Hk _ _ Hq) as (c & Hc & Hs). exists c. split; [by apply Hmono|done].
      * destruct (j - length (kAllocCache st))%nat eqn:Ej; [|done]. injection Hq as <-. exists (cache_setup (align_size (Z.shiftl 8 i)) 0).
        split; [done|]. rewrite Hsz. f_equal. lia.
    + simpl in H. exists st', fr'. destruct H as (H1 & H2 & H3 & H4 & H5 & H6). split_and!; [done|done|done|lia|..].
      * intros q d Hq. apply H4. by apply Hmono.
      * by rewrite H5.
      * intros R HR. apply H6. destruct (Hav R HR) as [A1 A2]. by split.
Qed.

Lemma MemSlabInit_ok p :
  held p (page_of rootCache) -> (24 <= room p)%nat ->
  exists st' fr', MemSlabInit rootCache 2 (slab_start p) = Ret st' /\ slab_inv rootCache st' fr' /\ kalloc_ok st' /\
    (room p <= 24 + room (spages st'))%nat /\ is_Some (caches st' !! rootCache) /\
    (exists cb, shape_of st' (rootSlabCache st') = Some cb /\ is_large cb = false) /\
    (forall R, (forall pg, R pg -> held p pg) -> avoids R st').
Proof.
  intros Hh Hroom. unfold MemSlabInit. pose proof (slab_start_inv p Hh) as I.
  destruct (MemSlabCreate_ok rootCache 0 (slab_start p) (fun _ => []) sizeof_MemSlab 0)
    as (k & st1 & fr1 & -> & I1 & Hn & Hk1 & Hmono & Honly & Hroot & Hka & Hr1 & _ & Hav); try done.
  - simpl. rewrite lookup_insert_eq. by eexists.
  - simpl. lia.
  - cbn [mbind outcome_bind]. simpl in Hr1.
    destruct (init_kalloc_ok 11 0 (set_rootSlabCache st1 k) fr1 (cache_setup (align_size sizeof_MemSlab) 0))
      as (st' & fr' & E & I' & K' & R'); try done; simpl.
    + destruct I1 as [[G1 G2 G3 G4 G5] L].
      assert (forall q d, shape_of st1 q = Some d -> is_large d = true -> False) as Hnl.
      { intros q d Hd Hl. destruct (Honly _ _ Hd) as [Hd'| ->].
        - unfold shape_of in Hd'. apply fmap_Some in Hd' as (e & He & ->). simpl in He.
          apply lookup_insert_Some in He as [[_ <-]|[_ He]]; [done|]. by rewrite lookup_empty in He.
        - rewrite Hk1 in Hd. injection Hd as <-. done. }
      split; [split|]; [exact G1| | |exact G4|exact G5|exact L].
      * intros a s Ha. destruct (G2 a s Ha) as (c & Hc & Hok). exists c. split; [exact Hc|]. destruct Hok as [O1 O2 O3 O4 O5 O6 O7].
        split; try done. destruct (is_large c) eqn:El; [|done]. by destruct (Hnl _ _ Hc El).
      * intros q d Hd Hl. by destruct (Hnl q d Hd Hl).
    + assert (shape_of st1 rootCache = Some rootCache_init) as E by (apply Hmono; unfold shape_of; simpl; by rewrite lookup_insert_eq).
      unfold shape_of in E. apply fmap_Some in E as (c' & -> & _). by eexists.
    + lia.
    + by rewrite Hka.
    + intros j q Hq. by rewrite Hka in Hq.
    + simpl in R'. destruct R' as (R' & Hm & Hrt & Hav'). exists st', fr'. split_and!; [done|done|done|lia|..].
      * assert (shape_of st' rootCache = Some rootCache_init) as E' by (apply Hm, Hmono; unfold shape_of; simpl; by rewrite lookup_insert_eq).
        unfold shape_of in E'. apply fmap_Some in E' as (c' & -> & _). by eexists.
      * exists (cache_setup (align_size sizeof_MemSlab) 0). rewrite Hrt. split; [by apply Hm|done].
      * intros R HR. apply Hav'. destruct (Hav R) as [A1 A2]; [|by split]. split; [exact HR|]. intros a s c Ha. simpl in Ha. by rewrite lookup_empty in Ha.
Qed.

(** MemSlabInit sets the allocator up: it returns with the invariant and
    with the eleven caches of MemKAlloc, for 8 to 8192 bytes. *)
Theorem MemSlabInit_establishes p :
  held p (page_of rootCache) -> (24 <= room p)%nat ->
  exists st' fr', MemSlabInit rootCache 2 (slab_start p) = Ret st' /\ slab_inv rootCache st' fr' /\ kalloc_ok st'.
Proof. intros H1 H2. destruct (MemSlabInit_ok p H1 H2) as (st' & fr' & E & I & Hk & _). by exists st', fr'. Qed.

(** *** Shrinking *)

(** MemSlabShrink leaves the slabs whose pages it has freed on the list of
    empty slabs: with one empty slab and nothing else in the cache, it reports
    the pages as freed and the next allocation returns an object on a page that
    is no longer in use. *)
Theorem MemSlabShrink_leaves_slabs st fr k c a s p' :
  slab_inv rootCache st fr -> caches st !! k = Some c -> is_large c = false -> slabsPartial c = [] -> slabsEmpty c = [a] ->
  slabsOf st !! a = Some s -> sp_free (smemory s) (pagesPerSlab c) (spages st) = Ret p' ->
  exists st', MemSlabShrink k st = Ret (pagesPerSlab c, st') /\ caches st' = caches st /\
    exists x st'', MemSlabAlloc 2 k st' = Ret (x, st'') /\ ~ held (spages st'') (page_of x).
Proof.
  intros I Hc Hl Hp He Hs Hfree. pose proof I as [G L].
  destruct (proj1 (lo_mine _ _ _ _ (L _ _ Hc) a)) as (s0 & Hs0 & <-); [rewrite Hp, He; apply elem_of_app; right; by left|].
  rewrite Hs in Hs0. injection Hs0 as <-. destruct (taking_shape rootCache st fr a s c I Hs Hc) as (Hsh & [Hch _ Hin _ [M1 M2] _ _] & Hk).
  assert (fr a <> []) as Hne by (apply (lo_free _ _ _ _ (L _ _ Hc)); rewrite Hp, He; by left).
  destruct (fr a) as [|x l] eqn:Efr; [done|]. destruct Hch as [Hx (w & Hw & _)].
  exists (set_spages st p'). split_and!.
  - unfold MemSlabShrink. rewrite Hc. cbn [or_fault mbind outcome_bind]. rewrite He. cbn [shrink_loop]. rewrite Hc, Hs.
    cbn [or_fault mbind outcome_bind]. rewrite Hfree. cbn [mbind outcome_bind]. rewrite Hl. cbn [mbind outcome_bind].
    do 2 f_equal. unfold s32. destruct Hk. simpl in *. zlia.
  - done.
  - cbn [MemSlabAlloc caches set_spages]. rewrite Hc. cbn [or_fault mbind outcome_bind]. rewrite Hp, He. cbn [mbind outcome_bind].
    assert (~ held p' (page_of x)) as Hnh.
    { rewrite (law_sp_free _ _ _ _ Hfree). intros [_ []]. refine (proj2 (proj2 (proj2 (in_slab_bounds _ _ x Hk M1 M2 _))) x _); [apply Hin; by left|].
      destruct Hk. lia. }
    unfold take_object. cbn [slabsOf set_spages words]. rewrite Hs. cbn [or_fault mbind outcome_bind]. rewrite Hx, Hw.
    cbn [or_fault mbind outcome_bind]. set (st1 := set_slabsOf _ _).
    assert (forall ls, exists st'', move_slab ls a (scache s) st1 = Ret st'' /\ spages st'' = p') as Hmove.
    { intros ls. destruct (move_slab_ok ls a (scache s) st1 c Hc) as (st2 & E & -> & _). eexists. split; [exact E|done]. }
    destruct (w =? MEM_SLAB_END); [|destruct (_ =? 1)].
    + destruct (Hmove Full) as (st'' & -> & E). exists x, st''. by rewrite E.
    + destruct (Hmove Partial) as (st'' & -> & E). exists x, st''. by rewrite E.
    + exists x, st1. done.
Qed.

(** A cache for objects of 0 bytes divides by zero. *)
Lemma MemSlabCreate_zero st fr flags :
  slab_inv rootCache st fr -> is_Some (caches st !! rootCache) -> (2 <= room (spages st))%nat ->
  MemSlabCreate rootCache 2 0 flags st = Fault.
Proof.
  intros I [c Hc] Hr. unfold MemSlabCreate. change (align_size 0) with 0. change (8 * PAGE_SIZE <=? 0) with false. cbv iota.
  destruct (MemSlabAlloc_allocated rootCache 0 st fr rootCache c I Hc Hr) as (x & st' & fr' & -> & _ & I' & X & _ & Hl & _).
  cbn [mbind outcome_bind]. destruct (live_bounds st' fr' rootCache x (shape c) I' Hl) as (B & _).
  { rewrite (x_shape _ _ X). unfold shape_of. by rewrite Hc. }
  destruct (Z.eqb_spec x 0); [lia|]. done.
Qed.
End Spec.

(** ** A page source *)

(** Pages are given out in order and never again; the pages freed and the slab
    fields are kept. *)
Record page_line := mkPageLine { next_page : nat; freed_pages : gset Z; slab_fields : gmap Z Z }.

#[export] Instance page_line_pages : SlabPages page_line := {|
  sp_alloc n z p :=
    let pg := Z.of_nat (next_page p) in
    if pg + n <=? MEM_KFIXED_MAX_PAGE
    then Ret (pg, mkPageLine (next_page p + Z.to_nat n) (filter (fun i => i < pg) (freed_pages p)) (slab_fields p))
    else Panic "out of memory";
  sp_free pg n p := Ret (mkPageLine (next_page p) (freed_pages p ∪ list_to_set (seqZ pg n)) (slab_fields p));
  sp_get i p := Ret (default 0 (slab_fields p !! i));
  sp_set i a p := Ret (mkPageLine (next_page p) (freed_pages p) (<[i := a]> (slab_fields p)))
|}.

#[export] Instance page_line_laws : SlabPagesLaws page_line.
Proof.
  refine {| held (p : page_line) i := 0 <= i < Z.of_nat (next_page p) /\ i ∉ freed_pages p;
            room (p : page_line) := Z.to_nat ((MEM_KFIXED_MAX_PAGE - Z.of_nat (next_page p)) / 8) |}; cbn.
  - intros n z p Hn _ Hr. rewrite max_page in *. destruct (Z.leb_spec (Z.of_nat (next_page p) + n) 0x30000); [|zlia].
    eexists _, _. split; [reflexivity|]. simpl. split_and!; [zlia|lia|lia|intros i Hi [? _]; lia| |done].
    intros i. rewrite elem_of_filter. split.
    + intros [Hi Hn']. destruct (decide (i < Z.of_nat (next_page p))); [left; split; [lia|tauto]|right; lia].
    + intros [[Hi Hn']|Hi]; (split; [lia|]); [tauto|lia].
  - intros pg a p _. eexists. split; [reflexivity|]. simpl. rewrite lookup_insert_eq. split_and!; [done| |done|done].
    intros i Hi. by rewrite lookup_insert_ne.
  - intros pg n p p' H i. apply Ret_inj in H as <-. simpl. rewrite not_elem_of_union, elem_of_list_to_set, elem_of_seqZ. tauto.
Defined.

(** Sixteen pages of kernel image, with the root cache on page 3. *)
Definition booted_pages : page_line := mkPageLine 16 ∅ ∅.
Definition root_at : Z := 0xC0003000.

Lemma root_held : held booted_pages (page_of root_at).
Proof. split; [vm_compute; split; [discriminate|reflexivity]|apply not_elem_of_empty]. Qed.

Lemma booted_room : (24 <= room booted_pages)%nat.
Proof. apply Nat.leb_le. vm_compute. reflexivity. Qed.

Lemma MemSlabInit_establishes_witness :
  exists st' fr', MemSlabInit root_at 2 (slab_start root_at booted_pages) = Ret st' /\ slab_inv root_at st' fr' /\ kalloc_ok st'.
Proof. exact (MemSlabInit_establishes root_at booted_pages root_held booted_room). Defined.

Lemma MemSlabAlloc_fresh_witness :
  exists x st' fr', MemSlabAlloc 2 root_at (slab_start root_at booted_pages) = Ret (x, st') /\ live st' fr' root_at x.
Proof.
  destruct (MemSlabAlloc_fresh root_at (slab_start root_at booted_pages) (fun _ => []) root_at rootCache_init)
    as (x & st' & fr' & E & _ & _ & Hl & _).
  - exact (slab_start_inv root_at booted_pages root_held).
  - reflexivity.
  - apply Nat.leb_le. vm_compute. reflexivity.
  - exists x, st', fr'. split; [exact E|exact Hl].
Defined.

Lemma MemSlabZAlloc_zeroed_witness :
  exists x st' fr', MemSlabZAlloc 2 root_at (slab_start root_at booted_pages) = Ret (x, st') /\ live st' fr' root_at x /\
    words st' !! (x + 4 * 11) = Some 0.
Proof.
  destruct (MemSlabZAlloc_zeroed root_at (slab_start root_at booted_pages) (fun _ => []) root_at rootCache_init)
    as (x & st' & fr' & E & _ & _ & Hl & Hz).
  - exact (slab_start_inv root_at booted_pages root_held).
  - reflexivity.
  - apply Nat.leb_le. vm_compute. reflexivity.
  - exists x, st', fr'. split; [exact E|]. split; [exact Hl|]. apply Hz. simpl. split; [discriminate|reflexivity].
Defined.

(** The root cache with one object in use. *)
Lemma one_object :
  exists x st fr, MemSlabAlloc 2 root_at (slab_start root_at booted_pages) = Ret (x, st) /\ slab_inv root_at st fr /\ live st fr root_at x /\
    slabsOf st !! x = None /\ caches st !! x = None /\ exists c, caches st !! root_at = Some c /\ shape c = rootCache_init.
Proof.
  destruct (MemSlabAlloc_allocated root_at 0 (slab_start root_at booted_pages) (fun _ => []) root_at rootCache_init)
    as (x & st & fr & E & _ & I & X & Hn & Hl & Hs & _); [exact (slab_start_inv root_at booted_pages root_held)|done|apply Nat.leb_le; by vm_compute|].
  exists x, st, fr. split; [exact E|]. split; [exact I|]. split; [exact Hl|]. split; [exact Hs|]. split.
  - assert (match MemSlabAlloc 2 root_at (slab_start root_at booted_pages) with
            | Ret (x, st) => match caches st !! x with None => true | _ => false end | _ => false end = true) as H by (vm_compute; reflexivity).
    rewrite E in H. by destruct (caches st !! x).
  - pose proof (x_shape _ _ X root_at) as H. unfold shape_of in H. simpl in H. apply fmap_Some in H as (c & Hc & Es). exists c. split; [exact Hc|symmetry; exact Es].
Qed.

Lemma MemSlabFree_takes_back_witness :
  exists x st fr st' fr', MemSlabAlloc 2 root_at (slab_start root_at booted_pages) = Ret (x, st) /\ live st fr root_at x /\
    MemSlabFree root_at x st = Ret st' /\ ~ live st' fr' root_at x.
Proof.
  destruct one_object as (x & st & fr & E & I & Hl & H1 & H2 & c & Hc & _).
  destruct (MemSlabFree_takes_back root_at st fr root_at x c I Hl H1 H2 Hc) as (st' & fr' & E' & _ & Hl' & _).
  exists x, st, fr, st', fr'. split; [exact E|]. split; [exact Hl|]. split; [exact E'|]. intros H. apply Hl' in H as [_ H]. apply H. reflexivity.
Defined.

Lemma MemKAlloc_best_fit_witness :
  exists st x st' k c, kalloc_ok st /\ MemKAlloc 2 100 st = Ret (x, st') /\ shape_of st' k = Some c /\ 100 <= objectSize c < 200.
Proof.
  destruct (MemSlabInit_ok root_at booted_pages root_held booted_room) as (st & fr & _ & I & K & R).
  destruct (MemKAlloc_best_fit root_at st fr 100 I K) as [_ H].
  - assert (26 <= room booted_pages)%nat by (apply Nat.leb_le; vm_compute; reflexivity). lia.
  - destruct H as (x & k & c & st' & fr' & E & _ & _ & _ & _ & _ & Hc & H1 & H2); [split; [reflexivity|discriminate]|].
    exists st, x, st', k, c. split; [exact K|]. split; [exact E|]. split; [exact Hc|]. lia.
Defined.

Lemma MemSlabShrink_leaves_slabs_witness :
  exists st x st'' n st', MemSlabShrink root_at st = Ret (n, st') /\ MemSlabAlloc 2 root_at st' = Ret (x, st'') /\ ~ held (spages st'') (page_of x).
Proof.
  destruct one_object as (x & st & fr & E & I & Hl & H1 & H2 & _).
  destruct (MemSlabFree_freed root_at st fr root_at x I Hl H1 H2) as (st' & fr' & E' & I' & _).
  assert (match ('(x, st) ← MemSlabAlloc 2 root_at (slab_start root_at booted_pages); MemSlabFree root_at x st) with
    | Ret st' => match caches st' !! root_at with
                 | Some (mkCache _ [] [a] _ 0 _ _) => match slabsOf st' !! a with Some _ => true | None => false end
                 | _ => false end
    | _ => false end = true) as H by (vm_compute; reflexivity).
  rewrite E in H. cbn [mbind outcome_bind] in H. rewrite E' in H.
  destruct (caches st' !! root_at) as [[fu [|] [|a [|]] si [| |] pp op]|] eqn:Hc; try discriminate H.
  destruct (slabsOf st' !! a) as [s|] eqn:Hs; [|discriminate H].
  destruct (MemSlabShrink_leaves_slabs root_at st' fr' root_at _ a s _ I' Hc eq_refl eq_refl eq_refl Hs eq_refl)
    as (st1 & E1 & _ & y & st2 & E2 & Hn).
  exists st', y, st2, pp, st1. split; [exact E1|]. split; [exact E2|exact Hn].
Defined.
