(* ===== verification/SlabPhys.v ===== *)
(** * The slab allocator on the physical allocator

    The physical page allocator keeps the laws that SlabInv.v asks of a source
    of pages, as long as the zones that it takes pages from end in free
    pages: a search that starts before them finds its run before the end of
    the zone, so neither the endless search nor the run across the end of a
    zone of Physical.v can happen. *)
From S2P Require Import Prelude Physical Slab SlabInv SlabSpec.

(** ** Free pages at the end of a zone *)

(** How many of the [n] pages below [hi] are free without a gap, from the top. *)
Fixpoint free_below (tbl : list MemPage) (n : nat) (hi : Z) : nat :=
  match n with
  | O => O
  | S n' => if is_free tbl (hi - 1) then S (free_below tbl n' (hi - 1)) else O
  end.

Definition zone_tail (tbl : list MemPage) (z : MemPhysicalZone) : nat :=
  free_below tbl (Z.to_nat (end_ z - headPtr z)) (end_ z).

(** A zone whose search pointer is inside it and which is in the direct map. *)
Definition zone_sane (tbl : list MemPage) (z : MemPhysicalZone) : bool :=
  (0 <=? start z) && (start z <=? headPtr z) && (headPtr z <? end_ z) &&
  (end_ z <=? zlen tbl) && (end_ z <=? MEM_KFIXED_MAX_PAGE).

Definition zone_room (tbl : list MemPage) (z : MemPhysicalZone) : nat :=
  if zone_sane tbl z then (zone_tail tbl z / 8)%nat else O.

(** Requests for the kernel zone go to the DMA zone when that is empty. *)
Definition phys_room (p : phys) : nat :=
  match zones p with
  | z0 :: z1 :: _ =>
      let r0 := zone_room (MemPageStateTable p) z0 in
      if start z1 <? end_ z1
      then if end_ z0 <=? start z1 then Nat.min r0 (zone_room (MemPageStateTable p) z1) else O
      else r0
  | _ => O
  end.

Definition phys_held (p : phys) (i : Z) : Prop := exists pg, zget (MemPageStateTable p) i = Some pg /\ refCount pg <> 0.

(** ** The count *)

Lemma free_below_spec tbl n : forall hi,
  (free_below tbl n hi <= n)%nat /\ (forall i, hi - Z.of_nat (free_below tbl n hi) <= i < hi -> is_free tbl i = true).
Proof.
  induction n as [|n IH]; intros hi; simpl; [split; [lia|intros; lia]|].
  destruct (is_free tbl (hi - 1)) eqn:E; [|split; [lia|intros; lia]].
  destruct (IH (hi - 1)) as [H1 H2]. split; [lia|]. intros i Hi. destruct (Z.eq_dec i (hi - 1)) as [->|]; [done|].
  apply H2. lia.
Qed.

Lemma free_below_at_least tbl n : forall (c : nat) hi,
  (c <= n)%nat -> (forall i, hi - Z.of_nat c <= i < hi -> is_free tbl i = true) -> (c <= free_below tbl n hi)%nat.
Proof.
  induction n as [|n IH]; intros c hi Hc H; [lia|]. destruct c as [|c]; [lia|]. simpl. rewrite H by lia.
  apply le_n_S, IH; [lia|]. intros i Hi. apply H. lia.
Qed.

Lemma free_below_ext tbl tbl' n : forall hi,
  (forall i, hi - Z.of_nat n <= i < hi -> is_free tbl' i = is_free tbl i) -> free_below tbl' n hi = free_below tbl n hi.
Proof.
  induction n as [|n IH]; intros hi H; [done|]. simpl. rewrite H by lia. rewrite IH; [done|]. intros i Hi. apply H. lia.
Qed.

Lemma zone_sane_spec tbl z :
  zone_sane tbl z = true <->
    0 <= start z <= headPtr z /\ headPtr z < end_ z <= zlen tbl /\ end_ z <= 0x30000.
Proof. unfold zone_sane. rewrite !andb_true_iff, !Z.leb_le, Z.ltb_lt, max_page. lia. Qed.

(** ** The search *)

Section Search.
Context (tbl : list MemPage) (z : MemPhysicalZone) (n : Z).
Hypothesis Hz : zone_sane tbl z = true.
Hypothesis Hn : 0 < n <= Z.of_nat (zone_tail tbl z).
Hypothesis Hn8 : n <= 8.

(** Where the free pages at the end start. *)
Let tail : Z := end_ z - Z.of_nat (zone_tail tbl z).

Lemma tail_free i : tail <= i < end_ z -> is_free tbl i = true.
Proof. apply (free_below_spec tbl (Z.to_nat (end_ z - headPtr z)) (end_ z)). Qed.

Lemma tail_head : headPtr z <= tail.
Proof.
  pose proof (free_below_spec tbl (Z.to_nat (end_ z - headPtr z)) (end_ z)) as [H _].
  apply zone_sane_spec in Hz. unfold tail, zone_tail. lia.
Qed.

(** A run of [n] free pages that ends before the end of the zone. *)
Definition run_at (p : Z) : Prop :=
  headPtr z <= p <= tail /\ forall i, p <= i < p + n -> is_free tbl i = true.

(** What has been counted when the search is at [h]. *)
Definition counted_run (h : Z) (ff : option Z) (fl : Z) : Prop :=
  match ff with
  | None => h <= tail
  | Some p => headPtr z <= p <= tail /\ fl = h - p /\ 0 < fl < n /\ forall i, p <= i < h -> is_free tbl i = true
  end.

Lemma counted_run_bound h ff fl : counted_run h ff fl -> h < end_ z.
Proof. pose proof tail_head. destruct ff; simpl; unfold tail in *; lia. Qed.

(** Every step either ends with a run or counts on. *)
Lemma scan_run (k : nat) : forall f h ff fl,
  counted_run h ff fl -> headPtr z <= h -> tail + n - h <= Z.of_nat k -> (k < f)%nat ->
  exists p, alloc_scan f tbl z n h ff fl = Ret (Some (p, p + n - 1)) /\ run_at p.
Proof.
  induction k as [|k IH]; intros f h ff fl Hc Hh Hk Hf.
  { exfalso. destruct ff; simpl in Hc; lia. }
  destruct f as [|f]; [lia|]. pose proof Hz as Hs%zone_sane_spec. pose proof (counted_run_bound _ _ _ Hc) as Hb.
  cbn [alloc_scan]. destruct (Z.leb_spec (end_ z) h); [lia|].
  destruct (zget_in_range tbl h) as [pg Hpg]; [lia|]. rewrite Hpg. cbn [or_fault mbind outcome_bind].
  destruct (Z.eqb_spec (h + 1) (headPtr z)); [lia|].
  assert (is_free tbl h = (refCount pg =? 0)) as Hfree by (unfold is_free, page_free; by rewrite Hpg).
  destruct (refCount pg =? 0) eqn:Er.
  - destruct ff as [p|]; simpl in Hc.
    + destruct Hc as (Hp & -> & Hlen & Hrun). replace (u32 (h - p + 1)) with (h + 1 - p) by u32_lia.
      assert (forall i, p <= i < h + 1 -> is_free tbl i = true) as Hrun'.
      { intros i Hi. destruct (Z.eq_dec i h) as [->|]; [done|]. apply Hrun. lia. }
      destruct (Z.eqb_spec (h + 1 - p) n) as [E|].
      * exists p. split; [do 3 f_equal; lia|]. split; [done|]. intros i Hi. apply Hrun'. lia.
      * apply IH; [|lia|lia|lia]. simpl. split_and!; [lia|lia|lia|lia|lia|done].
    + destruct (Z.eqb_spec 1 n) as [E|].
      * exists h. split; [do 3 f_equal; lia|]. split; [lia|]. intros i Hi. by replace i with h by lia.
      * apply IH; [|lia|lia|lia]. simpl. split_and!; [lia|lia|lia|lia|lia|].
        intros i Hi. by replace i with h by lia.
  - assert (h < tail) as Hlt.
    { destruct (Z.lt_ge_cases h tail); [done|]. rewrite tail_free in Hfree by lia. done. }
    apply IH; [simpl; lia|lia|lia|lia].
Qed.
End Search.

(** ** Marking *)

Lemma alloc_mark_ok (k : nat) : forall tbl p,
  0 <= p -> p + Z.of_nat k <= zlen tbl ->
  exists tbl', alloc_mark k tbl p = Ret tbl' /\ zlen tbl' = zlen tbl /\
    forall i, zget tbl' i =
      if (p <=? i) && (i <? p + Z.of_nat k) then (fun pg => set_refCount pg 1) <$> zget tbl i else zget tbl i.
Proof.
  induction k as [|k IH]; intros tbl p Hp Hk; simpl.
  { exists tbl. split_and!; [done|done|]. intros i. by bool_cases. }
  destruct (zget_in_range tbl p) as [pg Hpg]; [lia|]. rewrite Hpg. cbn [or_fault mbind outcome_bind].
  destruct (IH (zset tbl p (set_refCount pg 1)) (p + 1)) as (tbl' & -> & Hl & Hg); [lia|rewrite zlen_zset; lia|].
  exists tbl'. split_and!; [done|by rewrite Hl, zlen_zset|]. intros i. rewrite Hg, zget_zset.
  destruct (Z.eq_dec i p) as [->|].
  - rewrite Hpg. by bool_cases.
  - by bool_cases.
Qed.

(** The pages in use after marking a run of free ones. *)
Lemma marked_free tbl tbl' p (k : nat) :
  (forall i, zget tbl' i = if (p <=? i) && (i <? p + Z.of_nat k) then (fun pg => set_refCount pg 1) <$> zget tbl i else zget tbl i) ->
  forall i, ~ (p <= i < p + Z.of_nat k) -> is_free tbl' i = is_free tbl i.
Proof. intros H i Hi. unfold is_free. rewrite H. bool_cases; simpl; try done; lia. Qed.

(** ** One zone *)

(** The zone after a run was taken from it has at most [n] pages less. *)
Lemma zone_tail_after tbl tbl' z p n :
  zone_sane tbl z = true -> 0 < n <= Z.of_nat (zone_tail tbl z) -> run_at tbl z n p -> zlen tbl' = zlen tbl ->
  (forall i, ~ (p <= i < p + n) -> is_free tbl' i = is_free tbl i) ->
  let z' := mkZone (p + n - 1) (start z) (end_ z) in
  zone_sane tbl' z' = true /\ (Z.of_nat (zone_tail tbl z) <= n + Z.of_nat (zone_tail tbl' z')).
Proof.
  intros Hz Hn [Hp _] Hl Hf z'. pose proof Hz as Hs%zone_sane_spec. split.
  - apply zone_sane_spec. simpl. rewrite Hl. lia.
  - unfold zone_tail at 2. simpl. set (c := (zone_tail tbl z - Z.to_nat n)%nat).
    enough (c <= free_below tbl' (Z.to_nat (end_ z - (p + n - 1))) (end_ z))%nat by lia.
    apply free_below_at_least; [lia|]. intros i Hi. rewrite Hf by lia. apply (tail_free tbl z). lia.
Qed.

(** A zone that the run is not in keeps its room. *)
Lemma zone_room_other tbl tbl' z p n :
  zlen tbl' = zlen tbl -> (forall i, ~ (p <= i < p + n) -> is_free tbl' i = is_free tbl i) ->
  end_ z <= p \/ p + n <= headPtr z -> zone_room tbl' z = zone_room tbl z.
Proof.
  intros Hl Hf Ho. unfold zone_room, zone_sane, zone_tail. rewrite Hl. destruct (_ && _); [|done].
  f_equal. apply free_below_ext. intros i Hi. apply Hf. lia.
Qed.

Lemma zone_room_sane tbl z : (0 < zone_room tbl z)%nat -> zone_sane tbl z = true /\ (8 <= zone_tail tbl z)%nat.
Proof.
  unfold zone_room. destruct (zone_sane tbl z); [|lia]. intros H. split; [done|].
  destruct (Nat.le_gt_cases 8 (zone_tail tbl z)); [done|]. rewrite Nat.div_small in H; lia.
Qed.

Lemma zone_room_after tbl tbl' z z' n :
  zone_sane tbl z = true -> zone_sane tbl' z' = true -> n <= 8 ->
  Z.of_nat (zone_tail tbl z) <= n + Z.of_nat (zone_tail tbl' z') ->
  (zone_room tbl z <= S (zone_room tbl' z'))%nat.
Proof.
  intros H1 H2 Hn Ht. unfold zone_room. rewrite H1, H2. set (a := zone_tail tbl z) in *. set (b := zone_tail tbl' z') in *.
  pose proof (Nat.div_mod_eq a 8). pose proof (Nat.div_mod_eq b 8).
  pose proof (Nat.mod_upper_bound a 8). pose proof (Nat.mod_upper_bound b 8). lia.
Qed.

(** ** The laws *)

Lemma slab_field st i : (pg ← or_fault (zget (MemPageStateTable st) i); Ret (slab pg)) =
  or_fault (slab <$> zget (MemPageStateTable st) i).
Proof. by destruct (zget (MemPageStateTable st) i). Qed.

(** A search in a zone with room. *)
Lemma zone_alloc fuel tbl z n :
  (0 < zone_room tbl z)%nat -> 0 < n <= 8 -> (0x30010 <= Z.of_nat fuel) ->
  exists p tbl', alloc_scan fuel tbl z n (headPtr z) None 0 = Ret (Some (p, p + n - 1)) /\
    alloc_mark (Z.to_nat n) tbl p = Ret tbl' /\
    start z <= p /\ headPtr z <= p /\ p + n <= end_ z /\ (forall i, p <= i < p + n -> is_free tbl i = true) /\ zlen tbl' = zlen tbl /\
    (forall i, zget tbl' i = if (p <=? i) && (i <? p + n) then (fun pg => set_refCount pg 1) <$> zget tbl i else zget tbl i) /\
    (zone_room tbl z <= S (zone_room tbl' (mkZone (p + n - 1) (start z) (end_ z))))%nat.
Proof.
  intros Hr Hn Hf. apply zone_room_sane in Hr as [Hz Ht]. pose proof Hz as Hs%zone_sane_spec.
  assert (0 < n <= Z.of_nat (zone_tail tbl z)) as Hn' by lia. pose proof (tail_head tbl z Hz) as Hh.
  destruct (scan_run tbl z n Hz Hn' ltac:(lia) (Z.to_nat (end_ z - headPtr z + 8)) fuel (headPtr z) None 0) as (p & E & Hp); [done|lia|lia|lia|].
  pose proof Hp as [Hp1 Hp2].
  destruct (alloc_mark_ok (Z.to_nat n) tbl p) as (tbl' & Em & Hl & Hg); [lia|lia|].
  rewrite Z2Nat.id in Hg by lia. exists p, tbl'. split_and!; try done; [lia..|].
  destruct (zone_tail_after tbl tbl' z p n Hz Hn' Hp Hl) as [Hz' Ht'].
  { intros i Hi. unfold is_free. rewrite Hg. bool_cases; simpl; try done; lia. }
  apply (zone_room_after tbl tbl' z _ n Hz Hz'); [lia|exact Ht'].
Qed.

(** The pages in use after a run was marked. *)
Lemma marked_held p tbl' zs a n :
  (forall i, a <= i < a + n -> is_free (MemPageStateTable p) i = true) ->
  (forall i, zget tbl' i = if (a <=? i) && (i <? a + n) then (fun pg => set_refCount pg 1) <$> zget (MemPageStateTable p) i else zget (MemPageStateTable p) i) ->
  let p' := set_zones (set_table (set_free p (u32 (MemPhysicalFreePages p - n))) tbl') zs in
  (forall i, a <= i < a + n -> ~ phys_held p i) /\
  (forall i, phys_held p' i <-> phys_held p i \/ a <= i < a + n) /\
  (forall i, sp_get i p' = sp_get i p).
Proof.
  intros Hf Hg p'. split_and!.
  - intros i Hi (pg & Hpg & Hr). specialize (Hf i Hi). unfold is_free, page_free in Hf. rewrite Hpg in Hf. by apply Z.eqb_eq in Hf.
  - intros i. unfold phys_held. simpl. rewrite Hg. specialize (Hf i). unfold is_free in Hf.
    destruct (decide (a <= i < a + n)) as [Hi|Hi].
    + replace ((a <=? i) && (i <? a + n)) with true by (by bool_cases). split; [by right|]. intros _.
      destruct (zget _ i) as [pg|] eqn:E; [|by specialize (Hf Hi)]. by exists (set_refCount pg 1).
    + replace ((a <=? i) && (i <? a + n)) with false by (by bool_cases). split; [by left|]. by intros [?|].
  - intros i. cbn [sp_get phys_slab_pages]. rewrite !slab_field. simpl. rewrite Hg. f_equal.
    destruct (_ && _); [|done]. by destruct (zget _ i).
Qed.

(** One zone of the list gives pages. *)
Lemma zones_alloc fuel n (k : nat) p z :
  zget (zones p) (Z.of_nat k) = Some z -> (0 < zone_room (MemPageStateTable p) z)%nat -> 0 < n <= 8 -> 0x30010 <= Z.of_nat fuel ->
  exists a tbl', alloc_zones fuel n (S k) p =
      Ret (a, set_zones (set_table (set_free p (u32 (MemPhysicalFreePages p - n))) tbl')
                (zset (zones p) (Z.of_nat k) (mkZone (a + n - 1) (start z) (end_ z)))) /\
    start z <= a /\ headPtr z <= a /\ a + n <= end_ z <= 0x30000 /\
    (forall i, a <= i < a + n -> is_free (MemPageStateTable p) i = true) /\ zlen tbl' = zlen (MemPageStateTable p) /\
    (forall i, zget tbl' i = if (a <=? i) && (i <? a + n) then (fun pg => set_refCount pg 1) <$> zget (MemPageStateTable p) i else zget (MemPageStateTable p) i) /\
    (zone_room (MemPageStateTable p) z <= S (zone_room tbl' (mkZone (a + n - 1) (start z) (end_ z))))%nat.
Proof.
  intros Hk Hr Hn Hf. pose proof (zone_room_sane _ _ Hr) as [Hz _]. apply zone_sane_spec in Hz.
  destruct (zone_alloc fuel _ z n Hr Hn Hf) as (a & tbl' & E1 & E2 & H1 & H2 & H3 & H4 & H5 & H6 & H7).
  exists a, tbl'. split; [|split_and!; try done; lia].
  cbn [alloc_zones]. rewrite Hk. cbn [or_fault mbind outcome_bind]. destruct (Z.ltb_spec (start z) (end_ z)); [|lia].
  rewrite E1. cbn [mbind outcome_bind]. change (MemPageStateTable (set_free p _)) with (MemPageStateTable p).
  rewrite E2. done.
Qed.

(** A zone without pages is passed over. *)
Lemma zones_empty fuel n (k : nat) p z :
  zget (zones p) (Z.of_nat k) = Some z -> (start z <? end_ z) = false -> alloc_zones fuel n (S k) p = alloc_zones fuel n k p.
Proof. intros Hk Hz. cbn [alloc_zones]. rewrite Hk. cbn [or_fault mbind outcome_bind]. by rewrite Hz. Qed.

Lemma free_outside tbl tbl' a n i :
  (forall i, zget tbl' i = if (a <=? i) && (i <? a + n) then (fun pg => set_refCount pg 1) <$> zget tbl i else zget tbl i) ->
  ~ (a <= i < a + n) -> is_free tbl' i = is_free tbl i.
Proof. intros H Hi. unfold is_free. rewrite H. by bool_cases. Qed.

(** The result of an allocation, for the zone that it came from. *)
Definition alloc_result (p : phys) (n a : Z) (p' : phys) : Prop :=
  (phys_room p <= S (phys_room p'))%nat /\ 0 <= a /\ a + n <= MEM_KFIXED_MAX_PAGE /\
  (forall i, a <= i < a + n -> ~ phys_held p i) /\
  (forall i, phys_held p' i <-> phys_held p i \/ a <= i < a + n) /\ (forall i, sp_get i p' = sp_get i p).

(** Pages of the DMA zone. *)
Lemma alloc_dma fuel n p z0 z1 zs :
  zones p = z0 :: z1 :: zs -> (0 < phys_room p)%nat -> 0 < n <= 8 -> 0x30010 <= Z.of_nat fuel ->
  exists a p', alloc_zones fuel n 1 p = Ret (a, p') /\ alloc_result p n a p'.
Proof.
  intros Hz Hr Hn Hf.
  assert (0 < zone_room (MemPageStateTable p) z0)%nat as Hr0.
  { unfold phys_room in Hr. rewrite Hz in Hr. destruct (_ <? _); [destruct (_ <=? _)|]; lia. }
  destruct (zones_alloc fuel n 0 p z0) as (a & tbl' & -> & H1 & H2 & H3 & H4 & H5 & H6 & H7); [by rewrite Hz|done..|].
  destruct (marked_held p tbl' (zset (zones p) (Z.of_nat 0) (mkZone (a + n - 1) (start z0) (end_ z0))) a n H4 H6) as (M1 & M2 & M3).
  pose proof (zone_room_sane _ _ Hr0) as [Hs%zone_sane_spec _].
  eexists a, _. split; [done|]. split; [|split_and!; [lia|rewrite max_page; lia|exact M1|exact M2|exact M3]].
  unfold phys_room in *. rewrite Hz in *. simpl. destruct (start z1 <? end_ z1); [|done].
  destruct (Z.leb_spec (end_ z0) (start z1)); [|lia].
  destruct (Nat.eq_dec (zone_room (MemPageStateTable p) z1) 0) as [E0|E0]; [rewrite E0; lia|].
  destruct (zone_room_sane (MemPageStateTable p) z1) as [Hs1%zone_sane_spec _]; [lia|].
  rewrite (zone_room_other (MemPageStateTable p) tbl' z1 a n); [lia|done|intros; by eapply free_outside|lia].
Qed.

(** Pages of the kernel zone, when it has any. *)
Lemma alloc_from_kernel fuel n p z0 z1 zs :
  zones p = z0 :: z1 :: zs -> (start z1 <? end_ z1) = true -> (0 < phys_room p)%nat -> 0 < n <= 8 -> 0x30010 <= Z.of_nat fuel ->
  exists a p', alloc_zones fuel n 2 p = Ret (a, p') /\ alloc_result p n a p'.
Proof.
  intros Hz He Hr Hn Hf. unfold phys_room in Hr. rewrite Hz, He in Hr. destruct (Z.leb_spec (end_ z0) (start z1)) as [Hd|]; [|lia].
  destruct (zones_alloc fuel n 1 p z1) as (a & tbl' & -> & H1 & H2 & H3 & H4 & H5 & H6 & H7); [by rewrite Hz|lia|done..|].
  destruct (marked_held p tbl' (zset (zones p) (Z.of_nat 1) (mkZone (a + n - 1) (start z1) (end_ z1))) a n H4 H6) as (M1 & M2 & M3).
  destruct (zone_room_sane (MemPageStateTable p) z1) as [Hs%zone_sane_spec _]; [lia|].
  eexists a, _. split; [done|]. split; [|split_and!; [lia|rewrite max_page; lia|exact M1|exact M2|exact M3]].
  unfold phys_room. rewrite Hz. simpl. rewrite He. destruct (Z.leb_spec (end_ z0) (start z1)); [|lia].
  rewrite (zone_room_other (MemPageStateTable p) tbl' z0 a n); [lia|done|intros; by eapply free_outside|lia].
Qed.

Lemma phys_alloc fuel n z p :
  0 < n <= 8 -> z = MEM_DMA \/ z = MEM_KERNEL -> (0 < phys_room p)%nat -> 0x30010 <= Z.of_nat fuel ->
  exists a p', MemPhysicalAlloc fuel n z p = Ret (a, p') /\ alloc_result p n a p'.
Proof.
  intros Hn Hz Hr Hf. unfold MemPhysicalAlloc. destruct (Z.eqb_spec n 0); [lia|].
  assert (exists z0 z1 zs, zones p = z0 :: z1 :: zs) as (z0 & z1 & zs & E).
  { unfold phys_room in Hr. destruct (zones p) as [|z0 [|z1 zs]]; [lia|lia|eauto]. }
  destruct Hz as [->| ->]; cbn [MEM_DMA MEM_KERNEL MEM_HIGHMEM Z.ltb orb Z.compare Pos.compare Pos.compare_cont Z.add Z.to_nat Pos.to_nat Pos.iter_op Init.Nat.add].
  - by apply (alloc_dma _ _ _ z0 z1 zs).
  - destruct (start z1 <? end_ z1) eqn:Ez; [by apply (alloc_from_kernel _ _ _ z0 z1 zs)|].
    change (Pos.to_nat 2) with 2%nat. rewrite (zones_empty _ _ 1 _ z1); [by apply (alloc_dma _ _ _ z0 z1 zs)|by rewrite E|done].
Qed.

(** Freeing a range takes exactly its pages. *)
Lemma free_loop_held (k : nat) : forall pg p p',
  free_loop k pg p = Ret p' -> forall i, phys_held p' i <-> phys_held p i /\ ~ (pg <= i < pg + Z.of_nat k).
Proof.
  induction k as [|k IH]; intros pg p p' H i; simpl in H.
  { apply Ret_inj in H as <-. split; [intros ?; split; [done|lia]|by intros [? _]]. }
  destruct (zget (MemPageStateTable p) pg) as [q|] eqn:E; [|done]. cbn [or_fault mbind outcome_bind] in H.
  rewrite (IH _ _ _ H). unfold phys_held. simpl. rewrite zget_zset. pose proof (zget_range _ _ _ E).
  destruct (Z.eq_dec pg i) as [->|Hne].
  - replace ((i =? i) && (i <? zlen (MemPageStateTable p)) && (0 <=? i)) with true by (by bool_cases).
    split; [|intros [_ []]; lia]. intros [(x & [= <-] & Hx) _]. by destruct Hx.
  - destruct (Z.eqb_spec pg i); [done|]. simpl. split; intros [? Hn]; (split; [done|lia]).
Qed.

(** Writing a slab field leaves the counts as they are. *)
Lemma set_slab_free tbl pg q a i :
  zget tbl pg = Some q -> is_free (zset tbl pg (mkMemPage (refCount q) a)) i = is_free tbl i.
Proof.
  intros Hq. unfold is_free. rewrite zget_zset. destruct (Z.eqb_spec pg i) as [<-|]; [|done]. rewrite Hq. by destruct (_ && _).
Qed.

Lemma set_slab_room p pg q a :
  zget (MemPageStateTable p) pg = Some q ->
  phys_room (set_table p (zset (MemPageStateTable p) pg (mkMemPage (refCount q) a))) = phys_room p.
Proof.
  intros Hq. assert (forall z, zone_room (zset (MemPageStateTable p) pg (mkMemPage (refCount q) a)) z = zone_room (MemPageStateTable p) z) as E.
  { intros z. unfold zone_room, zone_sane, zone_tail. rewrite zlen_zset. destruct (_ && _); [|done].
    f_equal. apply free_below_ext. intros i _. by apply set_slab_free. }
  unfold phys_room. simpl. destruct (zones p) as [|z0 [|z1 zs]]; [done|done|]. by rewrite !E.
Qed.

Lemma set_slab_held p pg q a i :
  zget (MemPageStateTable p) pg = Some q ->
  phys_held (set_table p (zset (MemPageStateTable p) pg (mkMemPage (refCount q) a))) i <-> phys_held p i.
Proof.
  intros Hq. unfold phys_held. simpl. rewrite zget_zset. destruct (Z.eqb_spec pg i) as [<-|]; [|done]. rewrite Hq.
  destruct (_ && _); [|done]. split; intros (x & [= <-] & Hx); by eexists.
Qed.

#[export] Instance phys_slab_laws : SlabPagesLaws phys.
Proof.
  refine {| held := phys_held; room := phys_room |}.
  - intros n z p Hn Hz Hr. destruct (phys_alloc (Z.to_nat 0x100000) n z p Hn Hz Hr) as (a & p' & E & H); [rewrite Z2Nat.id; lia|].
    exists a, p'. split; [exact E|exact H].
  - intros pg a p (q & Hq & Hr). pose proof (zget_range _ _ _ Hq) as Hrg. cbn [sp_set phys_slab_pages]. rewrite Hq.
    eexists. split; [reflexivity|]. split_and!; [..|by intros; apply set_slab_held|by apply set_slab_room].
    + cbn [sp_get phys_slab_pages MemPageStateTable set_table]. by rewrite zget_zset_eq.
    + intros i Hi. cbn [sp_get phys_slab_pages MemPageStateTable set_table]. by rewrite zget_zset_ne.
  - intros pg n p p' H i. cbn [sp_free phys_slab_pages] in H. rewrite (free_loop_held _ _ _ _ H). split; intros [? Hn]; (split; [done|lia]).
Defined.

(** ** Properties *)

(** With a kernel zone (or, on a machine without, a DMA zone) that ends in 192
    free pages, MemSlabInit on the physical allocator returns with the
    invariant of the slab allocator and the eleven caches of MemKAlloc. *)
Theorem MemSlabInit_boots rootCache p :
  phys_held p (page_of rootCache) -> (24 <= phys_room p)%nat ->
  exists st fr, MemSlabInit rootCache 2 (slab_start rootCache p) = Ret st /\ slab_inv rootCache st fr /\ kalloc_ok st.
Proof. intros H1 H2. exact (MemSlabInit_establishes rootCache p H1 H2). Qed.
