(* ===== verification/Interrupt.v ===== *)
(** * Interrupts and CPU exceptions (src/interrupt.c, src/exceptions.c)

    The dispatch table and the entries chained behind it are records at their
    addresses; the interrupt controllers are their mask registers. What
    IntrHandler does is listed in the order in which it does it: handlers
    called, acknowledgements sent, a yield, signal handling. Handlers of
    drivers and the page fault handler are parameters, called through their
    addresses. *)
From S2P Require Import Prelude Sched Signal.

(** ** Exceptions (exceptions.c) *)

Inductive exception :=
| MathFault | MathTrap | DebugTrap | IllOpcodeFault | ProtectionFault | AlignmentFault | ErrorException
| NoFpu | PageFault.

Section Exceptions.
Context {K : Machine}.

(** A handler returns, or the process exits with a code and it does not. *)
Definition raise (sigNum : Z) (s : sys) : outcome (option Z * sys) :=
  r ← ProcSignalSendOrCrash sigNum s;
  match r with inl code => Ret (Some code, s) | inr s' => Ret (None, s') end.

Definition trap (sigNum : Z) (s : sys) : outcome (option Z * sys) :=
  s' ← ProcSignalSendThread (ProcCurrThread s) sigNum s; Ret (None, s').

Definition IntrExceptMathFault (cs : Z) (s : sys) : outcome (option Z * sys) :=
  if cs =? 0x08 then Panic "IntrExceptMathFault: Math error in kernel space" else raise SIGFPE s.

Definition IntrExceptMathTrap (cs : Z) (s : sys) : outcome (option Z * sys) :=
  if cs =? 0x08 then Ret (None, s) else trap SIGFPE s.

Definition IntrExceptDebugTrap (cs : Z) (s : sys) : outcome (option Z * sys) :=
  if cs =? 0x08 then Ret (None, s) else trap SIGTRAP s.

Definition IntrExceptIllOpcodeFault (cs : Z) (s : sys) : outcome (option Z * sys) :=
  if cs =? 0x08 then Panic "IntrExceptIllOpcodeFault: Invalid opcode in kernel space" else raise SIGILL s.

Definition IntrExceptProtectionFault (cs : Z) (s : sys) : outcome (option Z * sys) :=
  if cs =? 0x08 then Panic "IntrExceptProtectionFault: Protection fault in kernel space" else raise SIGSEGV s.

Definition IntrExceptAlignmentFault (cs : Z) (s : sys) : outcome (option Z * sys) := raise SIGBUS s.

Definition IntrExceptError (cs : Z) (s : sys) : outcome (option Z * sys) :=
  Panic "IntrExceptError: Fatal CPU error".

(** [MemPageFaultHandler] is a parameter. *)
Context (MemPageFaultHandler : IntrContext -> sys -> outcome (option Z * sys)).

Definition run_exception (e : exception) (i : IntrContext) (s : sys) : outcome (option Z * sys) :=
  match e with
  | MathFault => IntrExceptMathFault (cs i) s
  | MathTrap => IntrExceptMathTrap (cs i) s
  | DebugTrap => IntrExceptDebugTrap (cs i) s
  | IllOpcodeFault => IntrExceptIllOpcodeFault (cs i) s
  | ProtectionFault => IntrExceptProtectionFault (cs i) s
  | AlignmentFault => IntrExceptAlignmentFault (cs i) s
  | ErrorException => IntrExceptError (cs i) s
  | NoFpu =>
      '(handled, s') ← CpuNoFpuException (cs i) s;
      if (handled : bool) then Ret (None, s') else raise SIGFPE s'
  | PageFault => MemPageFaultHandler i s
  end.
End Exceptions.

(** ** The dispatch table *)

Record IntrDispatchEntry := mkEntry { ihandler : Z; iflags : Z; inext : Z }.

(** The handlers of vectors 0 to 18; the others are NULL. *)
Definition exception_table : list exception :=
  [MathFault; DebugTrap; ErrorException; DebugTrap; MathTrap; MathTrap; IllOpcodeFault; NoFpu; ErrorException;
   ProtectionFault; ErrorException; ProtectionFault; ProtectionFault; ProtectionFault; PageFault; ErrorException;
   MathFault; AlignmentFault; MathFault].

Definition INTR_SHARED : Z := 1.

(** What IntrHandler does: a handler is called, a controller is told through
    its port that it may go on, ProcYield and ProcSignalHandler are entered. *)
Inductive event := Called (h : Z) | Acknowledged (port : Z) | Yielded | SignalsHandled.

(** [mask21] and [maskA1] are the mask registers of the two controllers,
    [events] what interrupts led to so far. *)
Record intr := mkIntrState { dispatch : gmap Z IntrDispatchEntry; mask21 : Z; maskA1 : Z; events : list event }.

Definition set_dispatch (st : intr) (m : gmap Z IntrDispatchEntry) : intr := mkIntrState m (mask21 st) (maskA1 st) (events st).
Definition happens (l : list event) (st : intr) : intr := mkIntrState (dispatch st) (mask21 st) (maskA1 st) (events st ++ l).

(** MemKAlloc(sizeof(IntrDispatchEntry)) and MemKFree *)
Class IntrMem (W : Type) := { im_alloc : W -> outcome (Z * W); im_free : Z -> W -> outcome W }.

(** ** Gates *)

Record IntrGateStruct := mkGate { offLow : Z; destSegment : Z; gateInfo : Z; offHigh : Z }.
Definition INTR_KERNEL_GATE : Z := 0x8E.
Definition INTR_USER_GATE : Z := 0xEE.

Definition gate (isr info : Z) : IntrGateStruct := mkGate (Z.land isr 0xFFFF) 0x08 info (Z.shiftr isr 16).

(** for(; i <= last; ++i): gates of one kind, [n] of them from [i] on. *)
Fixpoint set_gates (n : nat) (i info : Z) (isrs : list Z) (idt : list IntrGateStruct) : outcome (list IntrGateStruct) :=
  match n with
  | O => Ret idt
  | S n' => isr ← or_fault (zget isrs i); set_gates n' (i + 1) info isrs (zset idt i (gate isr info))
  end.

(** The table, and the mask registers after the controllers' set-up. *)
Definition IntrInit (IntrISRList : list Z) (Isr66 : Z) (st : intr) : outcome (list IntrGateStruct * intr) :=
  let idt := replicate 0x43 (mkGate 0 0 0 0) in
  idt1 ← set_gates 3 0 INTR_KERNEL_GATE IntrISRList idt;
  idt2 ← set_gates 3 3 INTR_USER_GATE IntrISRList idt1;
  idt3 ← set_gates 42 6 INTR_KERNEL_GATE IntrISRList idt2;
  Ret (zset idt3 0x42 (gate Isr66 INTR_USER_GATE), mkIntrState (dispatch st) 0xFB 0xFF (events st)).

Section Interrupts.
Context {K : Machine} {W : Type} {IM : IntrMem W}.
(** The addresses of the table and of the exception handlers, the drivers'
    handlers by address, and the page fault handler. *)
Context (IntrDispatchTable : Z) (code_of : exception -> Z).
Context (driver : Z -> IntrContext -> sys -> outcome (IntrContext * sys)).
Context (MemPageFaultHandler : IntrContext -> sys -> outcome (option Z * sys)).

Definition entry_at (n : Z) : Z := IntrDispatchTable + 12 * n.

(** The static initial contents of the table. *)
Definition table_init : gmap Z IntrDispatchEntry :=
  list_to_map ((fun n : nat =>
    (entry_at (Z.of_nat n), mkEntry (match exception_table !! n with Some e => code_of e | None => 0 end) 0 0)) <$> seq 0 0x30).

(** ** Registering *)

(** The bit of [irq] in the mask register the source picks. *)
Definition pic_unmask (irq : Z) (st : intr) : intr :=
  if 8 <? irq then mkIntrState (dispatch st) (mask21 st) (u8 (clear_bits (maskA1 st) (Z.shiftl 1 (irq - 8)))) (events st)
  else mkIntrState (dispatch st) (u8 (clear_bits (mask21 st) (Z.shiftl 1 irq))) (maskA1 st) (events st).

Definition pic_mask (irq : Z) (st : intr) : intr :=
  if 8 <? irq then mkIntrState (dispatch st) (mask21 st) (u8 (Z.lor (maskA1 st) (Z.shiftl 1 (irq - 8)))) (events st)
  else mkIntrState (dispatch st) (u8 (Z.lor (mask21 st) (Z.shiftl 1 irq))) (maskA1 st) (events st).

Definition IntrRegister (irq flags handler : Z) (st : intr) (w : W) : outcome (bool * intr * W) :=
  if (irq <? 0) || (15 <? irq) then Ret (false, st, w)
  else
    let a := entry_at (0x20 + irq) in
    e ← or_fault (dispatch st !! a);
    if negb (ihandler e =? 0) then
      if negb (truth (Z.land flags INTR_SHARED)) || negb (truth (Z.land (iflags e) INTR_SHARED)) then Ret (false, st, w)
      else
        '(b, w1) ← im_alloc w;
        let m1 := <[a := mkEntry (ihandler e) (iflags e) b]> (dispatch st) in
        Ret (true, set_dispatch st (<[b := mkEntry handler flags (inext e)]> m1), w1)
    else
      let st1 := pic_unmask irq st in
      Ret (true, set_dispatch st1 (<[a := mkEntry handler flags 0]> (dispatch st1)), w).

(** while(intrEntry && intrEntry->handler != handler): the entry found (0 for
    NULL) and the one before it. *)
Fixpoint find_entry (fuel : nat) (m : gmap Z IntrDispatchEntry) (handler prev cur : Z) : outcome (Z * Z) :=
  if cur =? 0 then Ret (prev, cur)
  else
    match fuel with
    | O => NoFuel
    | S f =>
        e ← or_fault (m !! cur);
        if negb (ihandler e =? handler) then find_entry f m handler cur (inext e) else Ret (prev, cur)
    end.

Definition IntrUnRegister (fuel : nat) (irq handler : Z) (st : intr) (w : W) : outcome (bool * intr * W) :=
  if (irq <? 0) || (15 <? irq) then Ret (false, st, w)
  else
    '(prev, cur) ← find_entry fuel (dispatch st) handler 0 (entry_at (0x20 + irq));
    if cur =? 0 then Ret (false, st, w)
    else
      e ← or_fault (dispatch st !! cur);
      if prev =? 0 then
        if negb (inext e =? 0) then
          ne ← or_fault (dispatch st !! inext e);
          w1 ← im_free (inext e) w;
          Ret (true, set_dispatch st (delete (inext e) (<[cur := ne]> (dispatch st))), w1)
        else
          let st1 := set_dispatch st (<[cur := mkEntry 0 0 0]> (dispatch st)) in
          Ret (true, pic_mask irq st1, w)
      else
        pe ← or_fault (dispatch st !! prev);
        w1 ← im_free cur w;
        Ret (true, set_dispatch st (delete cur (<[prev := mkEntry (ihandler pe) (iflags pe) (inext e)]> (dispatch st))), w1).

(** ** Handling *)

(** Call the function at an address. *)
Definition call_handler (h : Z) (i : IntrContext) (s : sys) : outcome (option Z * IntrContext * sys) :=
  match find (fun e => code_of e =? h)
          [MathFault; MathTrap; DebugTrap; IllOpcodeFault; ProtectionFault; AlignmentFault; ErrorException; NoFpu; PageFault] with
  | Some e => '(r, s') ← run_exception MemPageFaultHandler e i s; Ret (r, i, s')
  | None => '(i', s') ← driver h i s; Ret (None, i', s')
  end.

(** do { } while(intrEntry); a handler that exits does not come back. *)
Fixpoint run_chain (fuel : nat) (cur : Z) (i : IntrContext) (st : intr) (s : sys)
  : outcome (option Z * IntrContext * intr * sys) :=
  match fuel with
  | O => NoFuel
  | S f =>
      e ← or_fault (dispatch st !! cur);
      if ihandler e =? 0 then Ret (None, i, st, s)
      else
        let st1 := happens [Called (ihandler e)] st in
        '(r, i1, s1) ← call_handler (ihandler e) i s;
        match r with
        | Some code => Ret (Some code, i1, st1, s1)
        | None => if inext e =? 0 then Ret (None, i1, st1, s1) else run_chain f (inext e) i1 st1 s1
        end
  end.

(** if(iContext.intrNum >= 0x20): outb(0xA0, 0x20) for the slave's interrupts
    and outb(0x20, 0x20). *)
Definition end_of_interrupt (n : Z) (st : intr) : intr :=
  if 0x20 <=? n then
    let st1 := if 0x28 <=? n then happens [Acknowledged 0xA0] st else st in
    happens [Acknowledged 0x20] st1
  else st.

(** What an interrupt ends in: the process exits, another thread was switched
    to, or signals were delivered. The state that comes with it is the one at
    that moment. *)
Inductive intr_result := IExits (code : Z) | ISwitched | IDelivered (d : delivery).

(** The part for user mode, up to a switch. *)
Definition post_interrupt (i : IntrContext) (st : intr) (s : sys) : outcome (intr_result * intr * sys) :=
  if cs i =? 0x1B then
    '(st1, s1) ← (if TimerShouldPreempt s then s1 ← ProcYield s; Ret (happens [Yielded] st, s1) else Ret (st, s));
    if ProcCurrThread s1 =? ProcCurrThread s then
      '(d, s2) ← ProcSignalHandler i s1; Ret (IDelivered d, happens [SignalsHandled] st1, s2)
    else Ret (ISwitched, st1, s1)
  else Ret (IDelivered Done, st, s).

Definition IntrHandler (fuel : nat) (intrNum : Z) (i : IntrContext) (st : intr) (s : sys)
  : outcome (intr_result * IntrContext * intr * sys) :=
  if intrNum <? 0x30 then
    '(r, i1, st1, s1) ← run_chain fuel (entry_at intrNum) i st s;
    match r with
    | Some code => Ret (IExits code, i1, st1, s1)
    | None =>
        let st2 := end_of_interrupt intrNum st1 in
        '(d, st3, s2) ← post_interrupt i1 st2 s1;
        Ret (d, i1, st3, s2)
    end
  else if intrNum =? 0x42 then
    '(d, st1, s2) ← post_interrupt i st s; Ret (d, i, st1, s2)
  else Panic "Invalid interrupt encountered: %u".
End Interrupts.

(** ** Chains of handlers *)

(** The entries from pointer [p] on: address, handler and flags. *)
Fixpoint entries (m : gmap Z IntrDispatchEntry) (p : Z) (l : list (Z * Z * Z)) : Prop :=
  match l with
  | [] => p = 0
  | (a, h, f) :: l' => p = a /\ a <> 0 /\ h <> 0 /\ exists nx, m !! a = Some (mkEntry h f nx) /\ entries m nx l'
  end.

Definition addrs (l : list (Z * Z * Z)) : list Z := (fun x => x.1.1) <$> l.
Definition handlers (l : list (Z * Z * Z)) : list (Z * Z) := (fun x => (x.1.2, x.2)) <$> l.

Lemma entries_frame m m' p l : (forall a, a ∈ addrs l -> m' !! a = m !! a) -> entries m p l -> entries m' p l.
Proof.
  revert p. induction l as [|[[a h] f] l IH]; intros p Hm; simpl; [done|]. intros (-> & Ha & Hh & nx & Hx & Hl).
  split_and!; [done..|]. exists nx. rewrite Hm by (by left). split; [done|]. apply IH; [|done]. intros b Hb. apply Hm. by right.
Qed.

(** The allocator: what is in use, and what allocation and freeing do. *)
Class IntrMemLaws (W : Type) {IM : IntrMem W} := {
  inuse : W -> Z -> Prop;
  law_im_alloc w a w' : im_alloc w = Ret (a, w') -> a <> 0 /\ ~ inuse w a /\ forall x, inuse w' x <-> inuse w x \/ x = a;
  law_im_free a w w' : im_free a w = Ret w' -> forall x, inuse w' x <-> inuse w x /\ x <> a;
  total_im_free a w : exists w', im_free a w = Ret w'
}.

Section Chains.
Context {W : Type} {IM : IntrMem W} {IL : IntrMemLaws W}.
Context (IntrDispatchTable : Z).
Local Abbreviation entry_at := (entry_at IntrDispatchTable).

(** [t n] are the entries behind slot [n] of the table. *)
Record intr_ok (st : intr) (w : W) (t : Z -> list (Z * Z * Z)) : Prop := {
  k_slot : forall n, 0 <= n < 0x30 -> exists e, dispatch st !! entry_at n = Some e /\ entry_at n <> 0 /\
    (ihandler e <> 0 -> entries (dispatch st) (inext e) (t n)) /\ (ihandler e = 0 -> t n = [] /\ inext e = 0);
  k_nodup : forall n, NoDup (addrs (t n));
  k_disjoint : forall n n' a, a ∈ addrs (t n) -> a ∈ addrs (t n') -> n = n';
  k_live : forall n a, a ∈ addrs (t n) -> inuse w a /\ forall k, 0 <= k < 0x30 -> a <> entry_at k;
  k_table : forall k, 0 <= k < 0x30 -> inuse w (entry_at k)
}.

(** The handlers of a vector in the order of their calls, with their flags. *)
Definition chain_of (st : intr) (t : Z -> list (Z * Z * Z)) (n : Z) : list (Z * Z) :=
  match dispatch st !! entry_at n with
  | Some e => if ihandler e =? 0 then [] else (ihandler e, iflags e) :: handlers (t n)
  | None => []
  end.

Lemma entry_at_inj n k : entry_at n = entry_at k -> n = k.
Proof. unfold Interrupt.entry_at. lia. Qed.

(** A change of one slot and of the entries behind it. *)
Lemma slot_update st st' w w' t n l e :
  intr_ok st w t -> 0 <= n < 0x30 ->
  dispatch st' !! entry_at n = Some e ->
  (ihandler e <> 0 -> entries (dispatch st') (inext e) l) -> (ihandler e = 0 -> l = [] /\ inext e = 0) ->
  (forall a, a <> entry_at n -> (a ∉ addrs l) -> (a ∉ addrs (t n)) -> dispatch st' !! a = dispatch st !! a) ->
  NoDup (addrs l) -> (forall a, a ∈ addrs l -> a ∈ addrs (t n) \/ ~ inuse w a) -> (forall a, a ∈ addrs l -> inuse w' a) ->
  (forall a, inuse w a -> (a ∉ addrs (t n)) -> inuse w' a) ->
  let t' := fun k => if decide (k = n) then l else t k in
  intr_ok st' w' t' /\ chain_of st' t' n = (if ihandler e =? 0 then [] else (ihandler e, iflags e) :: handlers l) /\
  forall k, k <> n -> 0 <= k < 0x30 -> chain_of st' t' k = chain_of st t k.
Proof.
  intros [K1 K2 K3 K4 K5] Hn He Hen Hez Hframe Hnd Hnew Hin Hkeep t'.
  assert (forall a, a ∈ addrs l -> forall k, 0 <= k < 0x30 -> a <> entry_at k) as Hslot.
  { intros a Ha k Hk ->. destruct (Hnew _ Ha) as [Hb|Hb]; [by apply K4 in Hb as [_ Hb]; apply (Hb k)|by apply Hb, K5]. }
  assert (forall k a, k <> n -> a ∈ addrs (t k) -> (a ∉ addrs l) /\ (a ∉ addrs (t n))) as Hother.
  { intros k a Hk Ha. split; intros Hb; [|by apply Hk, (K3 k n a)]. destruct (Hnew _ Hb) as [Hc|Hc]; [by apply Hk, (K3 k n a)|].
    by apply Hc, (K4 _ _ Ha). }
  assert (forall k, k <> n -> 0 <= k < 0x30 -> dispatch st' !! entry_at k = dispatch st !! entry_at k) as Hslots.
  { intros k Hk Hr. apply Hframe; [by intros ?%entry_at_inj| |]; intros Hb; [by apply (Hslot _ Hb k)|].
    by apply (proj2 (K4 _ _ Hb) k). }
  split; [split|split].
  - intros k Hk. destruct (decide (k = n)) as [->|Hne]; unfold t'.
    + rewrite decide_True by done. exists e. destruct (K1 n Hn) as (? & _ & ? & _). by split_and!.
    + rewrite decide_False by done. rewrite Hslots by done. destruct (K1 k Hk) as (e0 & E1 & E2 & E3 & E4). exists e0. split_and!; try done.
      intros H0. eapply entries_frame; [|by apply E3]. intros a Ha. destruct (Hother k a Hne Ha). apply Hframe; try done.
      intros ->. by apply (proj2 (K4 _ _ Ha) n).
  - intros k. unfold t'. destruct (decide (k = n)); auto.
  - intros k k' a. unfold t'. destruct (decide (k = n)) as [->|H1], (decide (k' = n)) as [->|H2]; try done.
    + intros Ha Hb. by apply (Hother k' a H2) in Hb as [].
    + intros Ha Hb. by apply (Hother k a H1) in Ha as [].
    + apply K3.
  - intros k a. unfold t'. destruct (decide (k = n)) as [->|H1]; [intros Ha; split; [by apply Hin|by apply Hslot]|].
    intros Ha. destruct (K4 _ _ Ha). split; [|done]. apply Hkeep; [done|]. by apply (Hother k a H1).
  - intros k Hk. apply Hkeep; [auto|]. intros Hb. by apply (proj2 (K4 _ _ Hb) k).
  - unfold chain_of, t'. by rewrite He, decide_True.
  - intros k Hk Hr. unfold chain_of, t'. by rewrite Hslots, decide_False.
Qed.

(** IntrRegister on a free IRQ makes the handler its only one and clears
    a mask bit; on a used one it refuses unless both sides share, in which case
    the handler is called second; other IRQs keep their handlers. *)
Theorem IntrRegister_refines irq flags h st w t :
  intr_ok st w t -> 0 <= irq <= 15 -> h <> 0 -> (exists a w', im_alloc w = Ret (a, w')) ->
  let n := 0x20 + irq in
  exists b st' w' t', IntrRegister IntrDispatchTable irq flags h st w = Ret (b, st', w') /\ intr_ok st' w' t' /\
    (forall k, k <> n -> 0 <= k < 0x30 -> chain_of st' t' k = chain_of st t k) /\
    match chain_of st t n with
    | [] => b = true /\ chain_of st' t' n = [(h, flags)] /\ mask21 st' = mask21 (pic_unmask irq st) /\ maskA1 st' = maskA1 (pic_unmask irq st)
    | (h0, f0) :: rest =>
        mask21 st' = mask21 st /\ maskA1 st' = maskA1 st /\
        if truth (Z.land flags INTR_SHARED) && truth (Z.land f0 INTR_SHARED)
        then b = true /\ chain_of st' t' n = (h0, f0) :: (h, flags) :: rest
        else b = false /\ chain_of st' t' n = (h0, f0) :: rest
    end.
Proof.
  intros I Hirq Hh (a & wa & Ea) n. assert (0 <= n < 0x30) as Hn by lia. pose proof I as [K1 K2 K3 K4 K5].
  destruct (K1 n Hn) as (e & He & He0 & Hen & Hez). unfold IntrRegister, chain_of. fold n. rewrite He.
  destruct (Z.ltb_spec irq 0); [lia|]. destruct (Z.ltb_spec 15 irq); [lia|]. cbn [orb or_fault mbind outcome_bind].
  destruct (Z.eqb_spec (ihandler e) 0) as [E0|E0]; cbn [negb].
  - set (st1 := set_dispatch _ _).
    destruct (slot_update st st1 w w t n [] (mkEntry h flags 0) I Hn) as (I' & C' & O'); try done.
    + simpl. unfold pic_unmask. destruct (8 <? irq); apply lookup_insert_eq.
    + intros b Hb _ _. simpl. unfold pic_unmask. destruct (8 <? irq); by rewrite lookup_insert_ne.
    + constructor.
    + intros b Hb. by apply not_elem_of_nil in Hb.
    + intros b Hb. by apply not_elem_of_nil in Hb.
    + eexists true, st1, w, _. split; [done|]. split; [exact I'|]. split; [exact O'|]. split_and!; try done.
      unfold chain_of in C'. rewrite C'. cbn [ihandler]. destruct (Z.eqb_spec h 0); done.
  - destruct (truth (Z.land flags INTR_SHARED)) eqn:S1; [destruct (truth (Z.land (iflags e) INTR_SHARED)) eqn:S2|]; cbn [negb orb andb].
    2,3: exists false, st, w, t; split_and!; try done; rewrite He; by destruct (Z.eqb_spec (ihandler e) 0).
    rewrite Ea. cbn [mbind outcome_bind]. destruct (law_im_alloc _ _ _ Ea) as (Ha0 & Hna & Hia). set (st1 := set_dispatch _ _).
    assert (a <> entry_at n) as Han by (intros ->; by apply Hna, K5).
    destruct (slot_update st st1 w wa t n ((a, h, flags) :: t n) (mkEntry (ihandler e) (iflags e) a) I Hn) as (I' & C' & O'); try done.
    + simpl. by rewrite lookup_insert_ne, lookup_insert_eq.
    + intros _. cbn [inext entries]. split_and!; [done..|]. exists (inext e). simpl. rewrite lookup_insert_eq. split; [done|].
      eapply entries_frame; [|by apply Hen]. intros b Hb. destruct (K4 _ _ Hb) as [Hb1 Hb2].
      rewrite !lookup_insert_ne; [done|intros <-; by apply (Hb2 n)|intros <-; done].
    + intros b Hb1 Hb2 _. simpl. apply not_elem_of_cons in Hb2 as [Hb2 _]. simpl in Hb2. rewrite !lookup_insert_ne; [done| |]; congruence.
    + simpl. apply NoDup_cons. split; [|done]. intros Hb. by apply Hna, (K4 _ _ Hb).
    + intros b [->|Hb]%elem_of_cons; [by right|by left].
    + intros b [->|Hb]%elem_of_cons; apply Hia; [by right|left]. by apply (K4 _ _ Hb).
    + intros b Hb _. apply Hia. by left.
    + eexists true, st1, wa, _. split; [done|]. split; [exact I'|]. split; [exact O'|]. split_and!; try done.
      unfold chain_of in C'. rewrite C'. cbn [ihandler]. by destruct (Z.eqb_spec (ihandler e) 0).
Qed.

(** *** Unregistering *)

(** The list without the first entry of a handler. *)
Fixpoint remove_first (h : Z) (l : list (Z * Z)) : list (Z * Z) :=
  match l with
  | [] => []
  | (h', f) :: l' => if h' =? h then l' else (h', f) :: remove_first h l'
  end.

Lemma find_entry_none fuel m h : forall l prev p,
  entries m p l -> (length l <= fuel)%nat -> (forall x, x ∈ l -> x.1.2 <> h) ->
  exists prev', find_entry fuel m h prev p = Ret (prev', 0).
Proof.
  induction fuel as [|fuel IH]; intros [|[[a h'] f] l] prev p He Hl Hn; simpl in *; try lia.
  1,2: subst; by exists prev.
  destruct He as (-> & Ha & _ & nx & -> & He). apply Z.eqb_neq in Ha. rewrite Ha. simpl.
  destruct (Z.eqb_spec h' h) as [->|]; [by destruct (Hn (a, h, f)); [left|]|]. simpl. apply (IH l); [done|lia|]. intros x Hx. apply Hn. by right.
Qed.

Lemma find_entry_some fuel m h f a : forall l1 l2 prev p,
  entries m p (l1 ++ (a, h, f) :: l2) -> (length l1 < fuel)%nat -> (forall x, x ∈ l1 -> x.1.2 <> h) ->
  find_entry fuel m h prev p = Ret (List.last (addrs l1) prev, a).
Proof.
  induction fuel as [|fuel IH]; intros [|[[b h'] f'] l1] l2 prev p He Hl Hn; simpl in *; try lia.
  - destruct He as (-> & Ha & _ & nx & -> & _). apply Z.eqb_neq in Ha. rewrite Ha. simpl. by rewrite Z.eqb_refl.
  - destruct He as (-> & Ha & _ & nx & -> & He). apply Z.eqb_neq in Ha. rewrite Ha. simpl.
    destruct (Z.eqb_spec h' h) as [->|]; [by destruct (Hn (b, h, f')); [left|]|]. simpl.
    rewrite (IH l1 l2 b nx); [|done|lia|intros x Hx; apply Hn; by right]. destruct l1; [done|]. f_equal. f_equal.
    clear. revert p l1. simpl. intros x l1. revert x. induction l1 as [|y l1 IH]; intros x; [done|]. apply IH.
Qed.

(** The first entry of a handler, if any. *)
Lemma split_first h (l : list (Z * Z * Z)) :
  (forall x, x ∈ l -> x.1.2 <> h) \/
  exists l1 a f l2, l = l1 ++ (a, h, f) :: l2 /\ (forall x, x ∈ l1 -> x.1.2 <> h).
Proof.
  induction l as [|[[a h'] f] l IH]; [left; by intros x ?%not_elem_of_nil|].
  destruct (decide (h' = h)) as [->|Hne]; [right; exists [], a, f, l; split; [done|by intros x ?%not_elem_of_nil]|].
  destruct IH as [Hn|(l1 & b & g & l2 & -> & Hn)].
  - left. intros x [->|Hx]%elem_of_cons; auto.
  - right. exists ((a, h', f) :: l1), b, g, l2. split; [done|]. intros x [->|Hx]%elem_of_cons; auto.
Qed.

Lemma remove_first_none h l : (forall x, x ∈ l -> x.1.2 <> h) -> remove_first h (handlers l) = handlers l.
Proof.
  induction l as [|[[a h'] f] l IH]; intros Hn; [done|]. simpl. destruct (Z.eqb_spec h' h) as [->|]; [by destruct (Hn (a, h, f)); [left|]|].
  f_equal. apply IH. intros x Hx. apply Hn. by right.
Qed.

Lemma remove_first_some h l1 a f l2 :
  (forall x, x ∈ l1 -> x.1.2 <> h) -> remove_first h (handlers (l1 ++ (a, h, f) :: l2)) = handlers (l1 ++ l2).
Proof.
  induction l1 as [|[[b h'] g] l1 IH]; intros Hn; simpl; [by rewrite Z.eqb_refl|].
  destruct (Z.eqb_spec h' h) as [->|]; [by destruct (Hn (b, h, g)); [left|]|].
  f_equal. apply IH. intros x Hx. apply Hn. by right.
Qed.

Lemma addrs_app l1 l2 : addrs (l1 ++ l2) = addrs l1 ++ addrs l2.
Proof. apply fmap_app. Qed.

(** Taking entry [a] out from behind entry [b]. *)
Lemma entries_unlink m b hb fb a h f l1 l2 nx : forall p,
  entries m p (l1 ++ (b, hb, fb) :: (a, h, f) :: l2) -> NoDup (addrs (l1 ++ (b, hb, fb) :: (a, h, f) :: l2)) ->
  m !! a = Some (mkEntry h f nx) ->
  entries (delete a (<[b := mkEntry hb fb nx]> m)) p (l1 ++ (b, hb, fb) :: l2).
Proof.
  induction l1 as [|[[c hc] fc] l1 IH]; intros p He Hnd Ha; simpl in *.
  - destruct He as (-> & Hb & Hhb & nb & Hmb & -> & Ha0 & _ & na & Hma & Hl).
    apply NoDup_cons in Hnd as [Hb1 Hnd]. apply NoDup_cons in Hnd as [Ha1 Hnd]. simpl in *.
    rewrite Ha in Hma. injection Hma as <-. apply not_elem_of_cons in Hb1 as [Hba Hb1].
    split_and!; [done..|]. exists nx. rewrite lookup_delete_ne, lookup_insert_eq by done. split; [done|].
    eapply entries_frame; [|done]. intros x Hx. rewrite lookup_delete_ne, lookup_insert_ne; congruence || (intros ->; done).
  - destruct He as (-> & Hc & Hhc & nc & Hmc & Hl). apply NoDup_cons in Hnd as [Hc1 Hnd]. rewrite addrs_app in Hc1. simpl in Hc1.
    split_and!; [done..|]. exists nc. split; [|by apply IH].
    apply not_elem_of_app in Hc1 as [_ Hc1]. apply not_elem_of_cons in Hc1 as [Hcb Hc1]. apply not_elem_of_cons in Hc1 as [Hca _].
    by rewrite lookup_delete_ne, lookup_insert_ne.
Qed.

(** Any entry of a chain is there. *)
Lemma entries_lookup m a h f l2 l1 : forall p,
  entries m p (l1 ++ (a, h, f) :: l2) -> exists nx, m !! a = Some (mkEntry h f nx) /\ entries m nx l2 /\ a <> 0.
Proof.
  induction l1 as [|[[b hb] fb] l1 IH]; intros p He; simpl in *.
  - destruct He as (-> & Ha & _ & nx & Hx & Hl). by exists nx.
  - destruct He as (_ & _ & _ & nb & _ & Hl). by eapply IH.
Qed.

Section Removing.
Variables (fuel : nat) (irq h : Z) (st : intr) (w : W) (t : Z -> list (Z * Z * Z)) (e : IntrDispatchEntry).
Hypothesis I : intr_ok st w t.
Hypothesis Hirq : 0 <= irq <= 15.
Let n := 0x20 + irq.
Hypothesis He : dispatch st !! entry_at n = Some e.

(** What is left to show once slot [n] has become [e'] with [l] behind it. *)
Definition removed (b : bool) (st' : intr) (w' : W) (t' : Z -> list (Z * Z * Z)) (l : list (Z * Z)) : Prop :=
  intr_ok st' w' t' /\ (forall k, k <> n -> 0 <= k < 0x30 -> chain_of st' t' k = chain_of st t k) /\ chain_of st' t' n = l /\
  (b = true -> l = [] -> mask21 st' = mask21 (pic_mask irq st) /\ maskA1 st' = maskA1 (pic_mask irq st)).

(** The only handler goes: the slot is wiped. *)
Lemma remove_only :
  t n = [] ->
  removed true (pic_mask irq (set_dispatch st (<[entry_at n := mkEntry 0 0 0]> (dispatch st)))) w
    (fun k => if decide (k = n) then [] else t k) [].
Proof.
  intros Et. set (st1 := set_dispatch st _).
  destruct (slot_update st (pic_mask irq st1) w w t n [] (mkEntry 0 0 0) I) as (I' & C' & O'); try done.
  - subst n. lia.
  - unfold pic_mask. destruct (8 <? irq); apply lookup_insert_eq.
  - intros b Hb _ _. unfold pic_mask. destruct (8 <? irq); simpl; by rewrite lookup_insert_ne.
  - constructor.
  - intros b Hb. by apply not_elem_of_nil in Hb.
  - intros b Hb. by apply not_elem_of_nil in Hb.
  - split_and!; [exact I'|exact O'|exact C'|]. intros _ _. unfold pic_mask. by destruct (8 <? irq).
Qed.

(** Entry [a] of the chain goes; the slot becomes [e'] with [l] behind it. *)
Lemma remove_entry a w' m e' l :
  (forall b, b ∈ addrs (t n) <-> b = a \/ b ∈ addrs l) -> NoDup (addrs l) -> a ∉ addrs l -> im_free a w = Ret w' ->
  m !! entry_at n = Some e' -> ihandler e' <> 0 -> entries m (inext e') l ->
  (forall b, b <> entry_at n -> (b ∉ addrs (t n)) -> m !! b = dispatch st !! b) ->
  removed true (set_dispatch st m) w' (fun k => if decide (k = n) then l else t k) ((ihandler e', iflags e') :: handlers l).
Proof.
  intros Hadd Hnd Hal Ew He' Hh' Hl Hm. pose proof I as [K1 K2 K3 K4 K5]. assert (0 <= n < 0x30) as Hn by (subst n; lia).
  destruct (slot_update st (set_dispatch st m) w w' t n l e' I Hn) as (I' & C' & O'); try done.
  - intros b Hb _ Hb'. by apply Hm.
  - intros b Hb. left. apply Hadd. by right.
  - intros b Hb. apply (law_im_free _ _ _ Ew). split; [apply (K4 n); apply Hadd; by right|]. by intros ->.
  - intros b Hb1 Hb2. apply (law_im_free _ _ _ Ew). split; [done|]. intros ->. apply Hb2, Hadd. by left.
  - split_and!; [exact I'|exact O'| |done]. rewrite C'. by destruct (Z.eqb_spec (ihandler e') 0).
Qed.
(** What IntrUnRegister is to do, of its result [r]. *)
Definition unregistered (r : outcome (bool * intr * W)) : Prop :=
  exists b st' w' t', r = Ret (b, st', w') /\ intr_ok st' w' t' /\
    (forall k, k <> n -> 0 <= k < 0x30 -> chain_of st' t' k = chain_of st t k) /\
    chain_of st' t' n = remove_first h (chain_of st t n) /\
    (b = true <-> h ∈ (chain_of st t n).*1) /\
    (b = true -> chain_of st' t' n = [] -> mask21 st' = mask21 (pic_mask irq st) /\ maskA1 st' = maskA1 (pic_mask irq st)).

Lemma removed_done st' w' t' l :
  removed true st' w' t' l -> l = remove_first h (chain_of st t n) -> h ∈ (chain_of st t n).*1 ->
  unregistered (Ret (true, st', w')).
Proof. intros (R1 & R2 & R3 & R4) El Eb. exists true, st', w', t'. split_and!; try done; [congruence|]. by rewrite R3. Qed.

Lemma not_registered :
  (h ∉ (chain_of st t n).*1) -> remove_first h (chain_of st t n) = chain_of st t n -> unregistered (Ret (false, st, w)).
Proof. intros Hn Hr. exists false, st, w, t. by split_and!. Qed.

Lemma irq_in_range : 0 <= n < 0x30.
Proof. subst n. lia. Qed.

(** IntrUnRegister once the search has ended. *)
Lemma unregister_found prev cur :
  find_entry fuel (dispatch st) h 0 (entry_at n) = Ret (prev, cur) ->
  IntrUnRegister IntrDispatchTable fuel irq h st w =
    (if cur =? 0 then Ret (false, st, w)
    else
      e ← or_fault (dispatch st !! cur);
      if prev =? 0 then
        if negb (inext e =? 0) then
          ne ← or_fault (dispatch st !! inext e);
          w1 ← im_free (inext e) w;
          Ret (true, set_dispatch st (delete (inext e) (<[cur := ne]> (dispatch st))), w1)
        else
          let st1 := set_dispatch st (<[cur := mkEntry 0 0 0]> (dispatch st)) in
          Ret (true, pic_mask irq st1, w)
      else
        pe ← or_fault (dispatch st !! prev);
        w1 ← im_free cur w;
        Ret (true, set_dispatch st (delete cur (<[prev := mkEntry (ihandler pe) (iflags pe) (inext e)]> (dispatch st))), w1)).
Proof.
  intros Hf. unfold IntrUnRegister. destruct (Z.ltb_spec irq 0); [lia|]. destruct (Z.ltb_spec 15 irq); [lia|]. cbn [orb].
  fold n. by rewrite Hf.
Qed.

Hypothesis E0 : ihandler e <> 0.

Lemma used_chain : chain_of st t n = (ihandler e, iflags e) :: handlers (t n).
Proof. unfold chain_of. rewrite He. by destruct (Z.eqb_spec (ihandler e) 0). Qed.

(** The handler in the table goes. *)
Lemma unregister_first :
  ihandler e = h -> find_entry fuel (dispatch st) h 0 (entry_at n) = Ret (0, entry_at n) ->
  unregistered (IntrUnRegister IntrDispatchTable fuel irq h st w).
Proof.
  intros Eh Hfind. pose proof I as [K1 K2 K3 K4 K5]. pose proof irq_in_range as Hn.
  destruct (K1 n Hn) as (e1 & He1 & He0 & Hen & _). rewrite He in He1. injection He1 as <-. specialize (Hen E0).
  rewrite (unregister_found _ _ Hfind). destruct (Z.eqb_spec (entry_at n) 0); [done|]. rewrite He. cbn [or_fault mbind outcome_bind Z.eqb].
  assert (h ∈ (chain_of st t n).*1) as Hin by (rewrite used_chain, fmap_cons; simpl; rewrite Eh; by left).
  assert (handlers (t n) = remove_first h (chain_of st t n)) as Erm by (rewrite used_chain; simpl; by rewrite Eh, Z.eqb_refl).
  destruct (t n) as [|[[a h1] f1] l] eqn:Et; cbn [entries] in Hen.
  - rewrite Hen. cbn [Z.eqb negb]. eapply removed_done; [by apply remove_only|by rewrite <- Erm|done].
  - destruct Hen as (-> & Ha0 & Hh1 & nx & Hma & Hl). apply Z.eqb_neq in Ha0. rewrite Ha0. cbn [negb]. rewrite Hma. cbn [or_fault mbind outcome_bind].
    destruct (total_im_free a w) as (w' & Ew). rewrite Ew. cbn [mbind outcome_bind].
    pose proof (K2 n) as Hnd. rewrite Et in Hnd. apply NoDup_cons in Hnd as [Hal Hnd]. simpl in Hal.
    destruct (K4 n a) as [Hia Has]; [rewrite Et; by left|].
    eapply removed_done; [eapply (remove_entry a w' _ (mkEntry h1 f1 nx) l); try done|by rewrite <- Erm|done].
    + intros b. rewrite Et. simpl. by rewrite elem_of_cons.
    + rewrite lookup_delete_ne by auto. apply lookup_insert_eq.
    + eapply entries_frame; [|done]. intros b Hb. rewrite lookup_delete_ne by (intros ->; done).
      rewrite lookup_insert_ne; [done|]. intros <-. apply (proj2 (K4 n (entry_at n) ltac:(rewrite Et; by right)) n Hn eq_refl).
    + intros b Hb1 Hb2. rewrite Et in Hb2. apply not_elem_of_cons in Hb2 as [Hb2 _]. simpl in Hb2.
      by rewrite lookup_delete_ne, lookup_insert_ne by congruence.
Qed.

(** An entry behind the slot goes: what is known of the others. *)
Lemma split_entries a f l1 l2 :
  t n = l1 ++ (a, h, f) :: l2 ->
  (a ∉ addrs (l1 ++ l2)) /\ NoDup (addrs (l1 ++ l2)) /\ forall b, b ∈ addrs (t n) <-> b = a \/ b ∈ addrs (l1 ++ l2).
Proof.
  intros Et. pose proof (k_nodup _ _ _ I n) as Hnd. rewrite Et in *. rewrite !addrs_app in *. simpl in *.
  apply NoDup_app in Hnd as (N1 & N2 & N3). apply NoDup_cons in N3 as [N3 N4]. split_and!.
  - rewrite elem_of_app. intros [Hb|Hb]; [|done]. by apply (N2 a); [|left].
  - apply NoDup_app. split_and!; [done| |done]. intros b Hb Hb'. by apply (N2 b); [|right].
  - intros b. rewrite !elem_of_app, elem_of_cons. tauto.
Qed.

Lemma later_handler a f l1 l2 :
  ihandler e <> h -> t n = l1 ++ (a, h, f) :: l2 -> (forall x, x ∈ l1 -> x.1.2 <> h) ->
  h ∈ (chain_of st t n).*1 /\ (ihandler e, iflags e) :: handlers (l1 ++ l2) = remove_first h (chain_of st t n).
Proof.
  intros Eh Et Hnone. rewrite used_chain, Et. split.
  - rewrite fmap_cons. right. unfold handlers. rewrite <- list_fmap_compose, fmap_app. apply elem_of_app. right. by left.
  - cbn [remove_first]. destruct (Z.eqb_spec (ihandler e) h); [done|]. f_equal. symmetry. by apply remove_first_some.
Qed.

(** The entry directly behind the slot goes. *)
Lemma unregister_second a f l2 :
  ihandler e <> h -> t n = (a, h, f) :: l2 -> find_entry fuel (dispatch st) h 0 (entry_at n) = Ret (entry_at n, a) ->
  unregistered (IntrUnRegister IntrDispatchTable fuel irq h st w).
Proof.
  intros Eh Et Hfind. pose proof I as [K1 K2 K3 K4 K5]. pose proof irq_in_range as Hn.
  destruct (K1 n Hn) as (e1 & He1 & He0 & Hen & _). rewrite He in He1. injection He1 as <-. specialize (Hen E0).
  rewrite Et in Hen. destruct Hen as (_ & Ha0 & _ & nx & Hma & Hl). destruct (split_entries a f [] l2 Et) as (Hal & Hnd & Hadd).
  destruct (later_handler a f [] l2 Eh Et ltac:(by intros x ?%not_elem_of_nil)) as [Hin Erm]. cbn [app] in *.
  rewrite (unregister_found _ _ Hfind). apply Z.eqb_neq in Ha0, He0. rewrite Ha0, He0, Hma, He. cbn [or_fault mbind outcome_bind].
  destruct (total_im_free a w) as (w' & Ew). rewrite Ew. cbn [mbind outcome_bind]. destruct (K4 n a) as [_ Has]; [apply Hadd; by left|].
  eapply removed_done; [eapply (remove_entry a w' _ (mkEntry (ihandler e) (iflags e) nx) l2); try done|exact Erm|done].
  - rewrite lookup_delete_ne by auto. apply lookup_insert_eq.
  - eapply entries_frame; [|done]. intros b Hb. rewrite lookup_delete_ne by (intros ->; done).
    rewrite lookup_insert_ne; [done|]. intros <-. apply (proj2 (K4 n (entry_at n) ltac:(apply Hadd; by right)) n Hn eq_refl).
  - intros b Hb1 Hb2. rewrite Hadd in Hb2. rewrite lookup_delete_ne, lookup_insert_ne; [done| |]; intros <-; naive_solver.
Qed.

(** An entry behind another entry goes. *)
Lemma unregister_later a f b hb fb l0 l2 :
  ihandler e <> h -> t n = (l0 ++ [(b, hb, fb)]) ++ (a, h, f) :: l2 -> (forall x, x ∈ l0 ++ [(b, hb, fb)] -> x.1.2 <> h) ->
  find_entry fuel (dispatch st) h 0 (entry_at n) = Ret (b, a) ->
  unregistered (IntrUnRegister IntrDispatchTable fuel irq h st w).
Proof.
  intros Eh Et Hnone Hfind. pose proof I as [K1 K2 K3 K4 K5]. pose proof irq_in_range as Hn.
  destruct (K1 n Hn) as (e1 & He1 & He0 & Hen & _). rewrite He in He1. injection He1 as <-. specialize (Hen E0).
  destruct (split_entries a f _ l2 Et) as (Hal & Hnd & Hadd). destruct (later_handler a f _ l2 Eh Et Hnone) as [Hin Erm].
  pose proof (K2 n) as Hnd'. rewrite Et in Hen, Hnd'. rewrite <- app_assoc in Hen, Hnd'. cbn [app] in Hen, Hnd'.
  destruct (entries_lookup _ _ _ _ _ _ _ Hen) as (nb & Hmb & (-> & Ha0 & _ & nx & Hma & _) & Hb0).
  rewrite (unregister_found _ _ Hfind). apply Z.eqb_neq in Ha0, Hb0. rewrite Ha0, Hb0, Hma, Hmb. cbn [or_fault mbind outcome_bind ihandler iflags inext].
  destruct (total_im_free a w) as (w' & Ew). rewrite Ew. cbn [mbind outcome_bind].
  destruct (K4 n a) as [_ Has]; [apply Hadd; by left|].
  destruct (K4 n b) as [_ Hbs]; [apply Hadd; right; rewrite !addrs_app, !elem_of_app; left; right; by left|].
  eapply removed_done; [eapply (remove_entry a w' _ e ((l0 ++ [(b, hb, fb)]) ++ l2)); try done|exact Erm|done].
  - by rewrite lookup_delete_ne, lookup_insert_ne by auto.
  - rewrite <- app_assoc. by eapply entries_unlink.
  - intros c Hc1 Hc2. rewrite Hadd, !addrs_app, !elem_of_app in Hc2. rewrite lookup_delete_ne, lookup_insert_ne; [done| |].
    + intros <-. apply Hc2. right. left. right. by left.
    + intros <-. apply Hc2. by left.
Qed.
End Removing.

(** IntrUnRegister of a handler that is registered removes its first entry
    and frees a heap entry, masking the IRQ when no handler is left; of any
    other handler it returns false and changes nothing. Other IRQs keep their
    handlers. *)
Theorem IntrUnRegister_refines fuel irq h st w t :
  intr_ok st w t -> 0 <= irq <= 15 -> h <> 0 -> (length (t (0x20 + irq)%Z) < fuel)%nat ->
  let n := 0x20 + irq in
  exists b st' w' t', IntrUnRegister IntrDispatchTable fuel irq h st w = Ret (b, st', w') /\ intr_ok st' w' t' /\
    (forall k, k <> n -> 0 <= k < 0x30 -> chain_of st' t' k = chain_of st t k) /\
    chain_of st' t' n = remove_first h (chain_of st t n) /\
    (b = true <-> h ∈ (chain_of st t n).*1) /\
    (b = true -> chain_of st' t' n = [] -> mask21 st' = mask21 (pic_mask irq st) /\ maskA1 st' = maskA1 (pic_mask irq st)).
Proof.
  intros I Hirq Hh Hf n. assert (0 <= n < 0x30) as Hn by lia. fold n in Hf.
  destruct (k_slot _ _ _ I n Hn) as (e & He & He0 & Hen & Hez). destruct fuel as [|fuel]; [lia|].
  assert (find_entry (S fuel) (dispatch st) h 0 (entry_at n) =
    if ihandler e =? h then Ret (0, entry_at n) else find_entry fuel (dispatch st) h (entry_at n) (inext e)) as Hfind.
  { cbn [find_entry]. destruct (Z.eqb_spec (entry_at n) 0); [done|]. rewrite He. cbn [or_fault mbind outcome_bind]. by destruct (ihandler e =? h). }
  destruct (Z.eqb_spec (ihandler e) h) as [Eh|Eh]; [by apply (unregister_first (S fuel) irq h st w t e); try done; congruence|].
  destruct (Z.eqb_spec (ihandler e) 0) as [E0|E0].
  - destruct (Hez E0) as [_ Enx]. rewrite Enx in Hfind.
    assert (find_entry fuel (dispatch st) h (entry_at n) 0 = Ret (entry_at n, 0)) as Hz by (by destruct fuel). rewrite Hz in Hfind.
    rewrite (unregister_found _ _ _ _ _ Hirq _ _ Hfind). apply not_registered; [done| |]; unfold chain_of; fold n; rewrite He, E0; [apply not_elem_of_nil|done].
  - specialize (Hen E0). destruct (split_first h (t n)) as [Hnone|(l1 & a & f & l2 & Et & Hnone)].
    + destruct (find_entry_none fuel (dispatch st) h (t n) (entry_at n) (inext e) Hen) as (p' & Ep); [lia|done|]. rewrite Ep in Hfind.
      rewrite (unregister_found _ _ _ _ _ Hirq _ _ Hfind). pose proof (used_chain irq st t e He E0) as Ech. fold n in Ech.
      apply not_registered; [done| |]; fold n; rewrite Ech.
      * simpl. rewrite elem_of_cons. intros [->|Hin]; [done|]. unfold handlers in Hin. rewrite <- list_fmap_compose in Hin.
        apply list_elem_of_fmap in Hin as (x & -> & Hx). by apply (Hnone x Hx).
      * simpl. destruct (Z.eqb_spec (ihandler e) h); [done|]. by rewrite remove_first_none.
    + rewrite (find_entry_some fuel (dispatch st) h f a l1 l2 (entry_at n) (inext e)) in Hfind;
        [|by rewrite <- Et|rewrite Et, length_app in Hf; simpl in Hf; lia|done].
      destruct l1 as [|[[b hb] fb] l0 _] using rev_ind; [by apply (unregister_second (S fuel) irq h st w t e I Hirq He E0 a f l2)|].
      rewrite addrs_app in Hfind. cbn [addrs fmap list_fmap] in Hfind. rewrite List.last_last in Hfind.
      by apply (unregister_later (S fuel) irq h st w t e I Hirq He E0 a f b hb fb l0 l2).
Qed.
End Chains.

(** ** Dispatch *)

Section Dispatch.
Context {K : Machine} {W : Type} {IM : IntrMem W} {IL : IntrMemLaws W}.
Context (IntrDispatchTable : Z) (code_of : exception -> Z).
Context (driver : Z -> IntrContext -> sys -> outcome (IntrContext * sys)).
Context (MemPageFaultHandler : IntrContext -> sys -> outcome (option Z * sys)).

(** The handlers called one after the other. *)
Fixpoint run_drivers (l : list Z) (i : IntrContext) (s : sys) : outcome (IntrContext * sys) :=
  match l with
  | [] => Ret (i, s)
  | h :: l' => '(i1, s1) ← driver h i s; run_drivers l' i1 s1
  end.

Lemma call_driver h i s :
  (forall e, code_of e <> h) ->
  call_handler code_of driver MemPageFaultHandler h i s = ('(i', s') ← driver h i s; Ret (None, i', s')).
Proof.
  intros Hn. unfold call_handler. destruct (find _ _) as [e|] eqn:E; [|done].
  apply find_some in E as [_ E]. apply Z.eqb_eq in E. by destruct (Hn e).
Qed.

Lemma happens_nil st : happens [] st = st.
Proof. unfold happens. rewrite app_nil_r. by destruct st. Qed.

Lemma happens_app l l' st : happens l' (happens l st) = happens (l ++ l') st.
Proof. unfold happens. simpl. by rewrite app_assoc. Qed.

Lemma run_chain_drivers l : forall fuel cur h f nx i st s,
  dispatch st !! cur = Some (mkEntry h f nx) -> h <> 0 -> entries (dispatch st) nx l -> (length l < fuel)%nat ->
  (forall x e, x ∈ h :: (handlers l).*1 -> code_of e <> x) ->
  run_chain code_of driver MemPageFaultHandler fuel cur i st s =
    ('(i', s') ← run_drivers (h :: (handlers l).*1) i s; Ret (None, i', happens (Called <$> h :: (handlers l).*1) st, s')).
Proof.
  induction l as [|[[a h'] f'] l IH]; intros [|fuel] cur h f nx i st s Hc Hh He Hf Hn; simpl in Hf; try lia; cbn [run_chain]; rewrite Hc.
  all: cbn [or_fault mbind outcome_bind ihandler inext]; destruct (Z.eqb_spec h 0); [done|].
  all: rewrite call_driver by (intros e; apply Hn; by left); cbn [run_drivers]; destruct (driver h i s) as [[i1 s1]| | |]; cbn [mbind outcome_bind]; try done.
  - simpl in He. by rewrite He.
  - destruct He as (-> & Ha & Hh' & nx' & Ha' & He). apply Z.eqb_neq in Ha. rewrite Ha.
    rewrite (IH fuel a h' f' nx'); try done; [|lia|intros x e Hx; apply Hn; by right].
    change ((handlers ((a, h', f') :: l)).*1) with (h' :: (handlers l).*1). destruct (run_drivers _ i1 s1) as [[i2 s2]| | |]; try done.
    cbn [mbind outcome_bind]. by rewrite happens_app.
Qed.

(** The acknowledgements of a vector: the slave's and the master's, or the
    master's alone. *)
Definition acknowledgements (n : Z) : list event :=
  if 0x28 <=? n then [Acknowledged 0xA0; Acknowledged 0x20] else [Acknowledged 0x20].

(** The chain and the acknowledgement leave the rest of IntrHandler. *)
Lemma IntrHandler_chain fuel n i st (w : W) t s i1 s1 :
  intr_ok IntrDispatchTable st w t -> 0x20 <= n < 0x30 -> (length (t n) < fuel)%nat ->
  (forall h e, h ∈ (chain_of IntrDispatchTable st t n).*1 -> code_of e <> h) ->
  run_drivers (chain_of IntrDispatchTable st t n).*1 i s = Ret (i1, s1) ->
  IntrHandler IntrDispatchTable code_of driver MemPageFaultHandler fuel n i st s =
    ('(d, st3, s2) ← post_interrupt i1
       (happens ((Called <$> (chain_of IntrDispatchTable st t n).*1) ++ acknowledgements n) st) s1; Ret (d, i1, st3, s2)).
Proof.
  intros [K1 _ _ _ _] Hn Hf Hdrv Hrun. destruct (K1 n) as (e & He & He0 & Hen & Hez); [lia|].
  assert (forall st0, end_of_interrupt n st0 = happens (acknowledgements n) st0) as Hack.
  { intros st0. unfold end_of_interrupt, acknowledgements. destruct (Z.leb_spec 0x20 n); [|lia].
    destruct (0x28 <=? n); [by rewrite happens_app|done]. }
  unfold IntrHandler. destruct (Z.ltb_spec n 0x30); [|lia]. rewrite <- happens_app.
  unfold chain_of in *. rewrite He in *. destruct (Z.eqb_spec (ihandler e) 0) as [E|E].
  - simpl in Hrun. injection Hrun as <- <-. destruct fuel as [|fuel]; [lia|]. cbn [run_chain]. rewrite He. cbn [or_fault mbind outcome_bind].
    rewrite E. cbn [Z.eqb mbind outcome_bind]. rewrite Hack. cbn [fmap list_fmap]. by rewrite happens_nil.
  - rewrite (run_chain_drivers (t n) fuel _ (ihandler e) (iflags e) (inext e)).
    + change (((ihandler e, iflags e) :: handlers (t n)).*1) with (ihandler e :: (handlers (t n)).*1) in Hrun |- *.
      rewrite Hrun. cbn [mbind outcome_bind]. by rewrite Hack.
    + rewrite He. by destruct e.
    + done.
    + by apply Hen.
    + lia.
    + intros x ex Hx. apply Hdrv. exact Hx.
Qed.

(** C28: a hardware interrupt (vectors 0x20 to 0x2F) whose registered handlers
    are drivers' calls every one of them once, in the order of its chain, and
    then acknowledges the interrupt at the controllers that raised it (the
    slave's too for IRQs 8 to 15); only then, and only if user code was
    interrupted, does it look at the quantum and at signals. With time left it
    goes on to signals. With no time left it yields: the oldest ready thread
    runs, at which moment the acknowledgement is already sent, and the
    interrupted thread is queued last; or, with an empty queue, the same thread
    goes on to its signals after the yield. The yield is that of a scheduler in
    order and of a thread that is not the idle one. *)
Theorem IntrHandler_runs_chain fuel n i st (w : W) t s i1 s1 :
  intr_ok IntrDispatchTable st w t -> 0x20 <= n < 0x30 -> (length (t n) < fuel)%nat ->
  (forall h e, h ∈ (chain_of IntrDispatchTable st t n).*1 -> code_of e <> h) ->
  run_drivers (chain_of IntrDispatchTable st t n).*1 i s = Ret (i1, s1) ->
  let r := IntrHandler IntrDispatchTable code_of driver MemPageFaultHandler fuel n i st s in
  let done := (Called <$> (chain_of IntrDispatchTable st t n).*1) ++ acknowledgements n in
  (cs i1 <> 0x1B -> r = Ret (IDelivered Done, i1, happens done st, s1)) /\
  (cs i1 = 0x1B -> TimerShouldPreempt s1 = false ->
   r = ('(d, s2) ← ProcSignalHandler i1 s1; Ret (IDelivered d, i1, happens (done ++ [SignalsHandled]) st, s2))) /\
  (cs i1 = 0x1B -> TimerShouldPreempt s1 = true -> sched_inv s1 -> ProcCurrThread s1 <> ProcIdleThread ->
   (forall u q, threadQueue s1 = u :: q ->
      exists s2, r = Ret (ISwitched, i1, happens (done ++ [Yielded]) st, s2) /\ sched_inv s2 /\
        ProcCurrThread s2 = u /\ threadQueue s2 = q ++ [ProcCurrThread s1]) /\
   (threadQueue s1 = [] ->
      exists s2, ProcYield s1 = Ret s2 /\ ProcCurrThread s2 = ProcCurrThread s1 /\ sched_inv s2 /\
        r = ('(d, s3) ← ProcSignalHandler i1 s2; Ret (IDelivered d, i1, happens (done ++ [Yielded; SignalsHandled]) st, s3)))).
Proof.
  intros Hok Hn Hf Hdrv Hrun. cbv zeta. rewrite (IntrHandler_chain fuel n i st w t s i1 s1) by done.
  set (evs := _ ++ acknowledgements n). unfold post_interrupt. split; [|split].
  - intros Hcs. apply Z.eqb_neq in Hcs. by rewrite Hcs.
  - intros Hcs Hp. rewrite Hcs, Hp. cbn [Z.eqb Pos.eqb mbind outcome_bind]. rewrite Z.eqb_refl, happens_app.
    by destruct (ProcSignalHandler i1 s1) as [[d s2]| | |].
  - intros Hcs Hp Hinv Hni. rewrite Hcs, Hp. cbn [Z.eqb Pos.eqb].
    destruct (ProcYield_inv s1 Hinv Hni) as (s2 & Ey & Hinv2 & [(Hq & Hc & _)|(u & q & Hq & Hc & Hq2)]);
      rewrite Ey; cbn [mbind outcome_bind]; rewrite Hc, !happens_app.
    + split; [intros u q; by rewrite Hq|]. intros _. exists s2. split_and!; [done..|]. rewrite Z.eqb_refl.
      by destruct (ProcSignalHandler i1 s2) as [[d s3]| | |].
    + split; [|by rewrite Hq]. intros u' q' Hq'. rewrite Hq in Hq'. injection Hq' as <- <-. exists s2. split_and!; try done.
      destruct (Z.eqb_spec u (ProcCurrThread s1)) as [->|]; [|done]. exfalso. apply (i_not_queued s1 Hinv). rewrite Hq. left.
Qed.

(** ** Exceptions *)

Lemma send_pending t sigNum th p s :
  thread s !! t = Some th -> process s !! parent th = Some p -> state th <> PTS_INTR -> SignalIsIgnored p sigNum = Ret false ->
  0 < sigNum < SIGCONT ->
  exists s' th', ProcSignalSendThread t sigNum s = Ret s' /\ thread s' !! t = Some th' /\
    Z.testbit (sigPending th') (SIGNAL_INDEX sigNum) = true.
Proof.
  unfold SIGCONT, ProcSignalSendThread, valid_signal, SIG_MAX, SIGCONT, SIGKILL, SIGSTOP. intros Ht Hp Hst Hig Hn.
  destruct (Z.ltb_spec 0 sigNum); [|lia]. destruct (Z.leb_spec sigNum 32); [|lia]. destruct (Z.eqb_spec sigNum 18); [lia|].
  destruct (Z.eqb_spec sigNum 19); [lia|].
  cbn [andb]. rewrite Ht. cbn [or_fault mbind outcome_bind]. unfold get_process. rewrite Hp. cbn [or_fault mbind outcome_bind].
  rewrite Hig. cbn [mbind outcome_bind negb orb]. rewrite bool_decide_eq_false_2 by done.
  eexists _, _. split; [done|]. simpl. split; [apply lookup_insert_eq|]. simpl. unfold SIGNAL_INDEX.
  rewrite Z.lor_spec, sig_bit_testbit by lia. rewrite Z.eqb_refl. apply orb_true_r.
Qed.

Definition panics {A} (r : outcome A) : Prop := exists msg, r = Panic msg.

(** The signal is pending for the current thread. *)
Definition signalled (n : Z) (s : sys) (r : outcome (option Z * sys)) : Prop :=
  exists s' th, r = Ret (None, s') /\ thread s' !! ProcCurrThread s = Some th /\
    Z.testbit (sigPending th) (SIGNAL_INDEX n) = true.

(** The current thread gets the signal; if the process ignores it or the thread
    blocks it, the process exits with the negated number instead. *)
Definition forced (n : Z) (s : sys) (th : ProcThread) (p : ProcProcess) (r : outcome (option Z * sys)) : Prop :=
  exists ignored, SignalIsIgnored p n = Ret ignored /\
    if ignored || Z.testbit (sigBlocked th) (SIGNAL_INDEX n) then r = Ret (Some (u32 (- n)), s) else signalled n s r.

(** The current thread gets the signal unless the process ignores it. *)
Definition offered (n : Z) (s : sys) (p : ProcProcess) (r : outcome (option Z * sys)) : Prop :=
  exists ignored, SignalIsIgnored p n = Ret ignored /\ if ignored then r = Ret (None, s) else signalled n s r.

Section Outcome.
Context (s : sys) (th : ProcThread) (p : ProcProcess).
Hypothesis Ht : thread s !! ProcCurrThread s = Some th.
Hypothesis Hpar : parent th = ProcCurrProcess s.
Hypothesis Hst : state th <> PTS_INTR.
Hypothesis Hp : process s !! ProcCurrProcess s = Some p.
Hypothesis Hlen : Z.of_nat (length (sigHandlers p)) = SIG_MAX.

Lemma ignored_known n : 0 < n < SIGCONT -> exists b, SignalIsIgnored p n = Ret b.
Proof.
  intros Hr. unfold SignalIsIgnored, sig_action.
  destruct (zget_in_range (sigHandlers p) (SIGNAL_INDEX n)) as [x ->]; [|by eexists].
  unfold zlen, SIGNAL_INDEX, SIGCONT, SIG_MAX in *. lia.
Qed.

Lemma blocked_bit n : 0 < n < SIGCONT -> truth (Z.land (sig_bit n) (sigBlocked th)) = Z.testbit (sigBlocked th) (SIGNAL_INDEX n).
Proof.
  intros Hr. unfold truth, SIGNAL_INDEX. destruct (Z.testbit (sigBlocked th) (n - 1)) eqn:E.
  - destruct (Z.eqb_spec (Z.land (sig_bit n) (sigBlocked th)) 0) as [E0|]; [|done]. apply (f_equal (fun x => Z.testbit x (n - 1))) in E0.
    rewrite Z.land_spec, E, Z.bits_0, sig_bit_testbit, Z.eqb_refl in E0 by (unfold SIGCONT in *; lia). done.
  - assert (Z.land (sig_bit n) (sigBlocked th) = 0) as ->; [|done]. apply Z.bits_inj'. intros k Hk.
    rewrite Z.land_spec, Z.bits_0, sig_bit_testbit by (unfold SIGCONT in *; lia).
    destruct (Z.eqb_spec k (n - 1)) as [->|]; [by rewrite E, andb_false_r|done].
Qed.

Lemma raise_forced n : 0 < n < SIGCONT -> forced n s th p (raise n s).
Proof.
  intros Hr. destruct (ignored_known n Hr) as (b & Hb). exists b. split; [done|].
  unfold raise, ProcSignalSendOrCrash, get_process. rewrite Hp. cbn [or_fault mbind outcome_bind]. rewrite Hb. cbn [mbind outcome_bind].
  rewrite Ht. cbn [or_fault mbind outcome_bind]. rewrite blocked_bit by done.
  destruct (b || Z.testbit (sigBlocked th) (SIGNAL_INDEX n)) eqn:Eor; cbn [mbind outcome_bind]; [done|].
  apply orb_false_iff in Eor as [-> _]. destruct (send_pending (ProcCurrThread s) n th p s) as (s' & th' & -> & H1 & H2); try done; [congruence|].
  exists s', th'. done.
Qed.

Lemma trap_offered n : 0 < n < SIGCONT -> n <> SIGKILL -> offered n s p (trap n s).
Proof.
  intros Hr Hk. destruct (ignored_known n Hr) as (b & Hb). exists b. split; [done|]. unfold trap. destruct b.
  - unfold ProcSignalSendThread, valid_signal, SIG_MAX, SIGCONT, SIGKILL, SIGSTOP, get_process in *.
    destruct (Z.ltb_spec 0 n); [|lia]. destruct (Z.leb_spec n 32); [|lia]. destruct (Z.eqb_spec n 18); [lia|].
    destruct (Z.eqb_spec n 9); [lia|]. destruct (Z.eqb_spec n 19); [lia|]. cbn [andb]. rewrite Ht. cbn [or_fault mbind outcome_bind].
    rewrite Hpar, Hp. cbn [or_fault mbind outcome_bind]. by rewrite Hb.
  - destruct (send_pending (ProcCurrThread s) n th p s) as (s' & th' & -> & H1 & H2); try done; [congruence|]. by exists s', th'.
Qed.

End Outcome.
End Dispatch.

(** ** Gates *)

Lemma set_gates_spec n : forall i info isrs idt,
  0 <= i -> i + Z.of_nat n <= zlen isrs -> i + Z.of_nat n <= zlen idt ->
  exists idt', set_gates n i info isrs idt = Ret idt' /\ zlen idt' = zlen idt /\
    forall k, zget idt' k = if (i <=? k) && (k <? i + Z.of_nat n)
      then (fun isr => gate isr info) <$> zget isrs k else zget idt k.
Proof.
  induction n as [|n IH]; intros i info isrs idt Hi H1 H2; cbn [set_gates].
  - exists idt. split_and!; [done..|]. intros k. destruct (Z.leb_spec i k); [|done]. destruct (Z.ltb_spec k (i + Z.of_nat 0)); [lia|done].
  - destruct (zget_in_range isrs i) as [isr Hisr]; [lia|]. rewrite Hisr. cbn [or_fault mbind outcome_bind].
    destruct (IH (i + 1) info isrs (zset idt i (gate isr info))) as (idt' & -> & Hl & Hk); [lia|lia|rewrite zlen_zset; lia|].
    exists idt'. rewrite zlen_zset in Hl. split_and!; [done..|]. intros k. rewrite Hk.
    destruct (decide (k = i)) as [->|Hne].
    + destruct (Z.leb_spec (i + 1) i); [lia|]. destruct (Z.leb_spec i i); [|lia]. destruct (Z.ltb_spec i (i + Z.of_nat (S n))); [|lia]. cbn [andb].
      rewrite Hisr. apply zget_zset_eq. lia.
    + rewrite zget_zset_ne by done. destruct (Z.leb_spec (i + 1) k), (Z.leb_spec i k), (Z.ltb_spec k (i + 1 + Z.of_nat n)), (Z.ltb_spec k (i + Z.of_nat (S n)));
        cbn [andb]; try done; lia.
Qed.

(** IntrInit installs for each of the vectors 0 to 47 and for vector 66 a
    gate into kernel code that holds its service routine's address, and user
    programs may raise exactly the breakpoint, overflow, bound and system call
    vectors; all hardware interrupts but the cascade are masked. *)
Theorem IntrInit_gates isrs isr66 st :
  length isrs = 48%nat -> (forall a, a ∈ isrs -> is_u32 a) -> is_u32 isr66 ->
  exists idt st', IntrInit isrs isr66 st = Ret (idt, st') /\ zlen idt = 0x43 /\ mask21 st' = 0xFB /\ maskA1 st' = 0xFF /\
    (forall k a, (zget isrs k = Some a /\ k < 48) \/ (k = 0x42 /\ a = isr66) ->
      exists g, zget idt k = Some g /\ destSegment g = 0x08 /\ offLow g + 65536 * offHigh g = a /\ 0 <= offLow g < 65536 /\ 0 <= offHigh g < 65536) /\
    (forall k g, zget idt k = Some g -> gateInfo g = INTR_USER_GATE <-> k = 3 \/ k = 4 \/ k = 5 \/ k = 0x42).
Proof.
  intros Hl Hu Hu66. unfold IntrInit. set (idt0 := replicate 67 (mkGate 0 0 0 0)).
  assert (zlen isrs = 48) as Hz by (unfold zlen; lia). assert (zlen idt0 = 67) as Hz0 by reflexivity.
  destruct (set_gates_spec 3 0 INTR_KERNEL_GATE isrs idt0) as (idt1 & -> & L1 & G1); [lia..|]. cbn [mbind outcome_bind].
  destruct (set_gates_spec 3 3 INTR_USER_GATE isrs idt1) as (idt2 & -> & L2 & G2); [lia..|]. cbn [mbind outcome_bind].
  destruct (set_gates_spec 42 6 INTR_KERNEL_GATE isrs idt2) as (idt3 & -> & L3 & G3); [lia..|]. cbn [mbind outcome_bind].
  change (Z.of_nat 3) with 3 in G1, G2. change (Z.of_nat 42) with 42 in G3.
  assert (forall a info, is_u32 a -> let g := gate a info in destSegment g = 0x08 /\ offLow g + 65536 * offHigh g = a /\ 0 <= offLow g < 65536 /\ 0 <= offHigh g < 65536) as Hgate.
  { intros a info Ha. simpl. change 0xFFFF with (Z.ones 16). rewrite Z.land_ones, Z.shiftr_div_pow2 by lia. unfold is_u32 in Ha. simpl.
    split; [done|]. change (2 ^ 16) with 65536. zlia. }
  assert (forall k, 0 <= k < 48 -> zget (zset idt3 66 (gate isr66 INTR_USER_GATE)) k =
    (fun isr => gate isr (if (3 <=? k) && (k <=? 5) then INTR_USER_GATE else INTR_KERNEL_GATE)) <$> zget isrs k) as Hlow.
  { intros k Hk. rewrite zget_zset_ne by lia. rewrite G3, G2, G1.
    destruct (Z.leb_spec 6 k), (Z.ltb_spec k (6 + 42)), (Z.leb_spec 3 k), (Z.ltb_spec k (3 + 3)), (Z.leb_spec 0 k), (Z.ltb_spec k (0 + 3)), (Z.leb_spec k 5);
      cbn [andb]; try done; lia. }
  assert (zget (zset idt3 66 (gate isr66 INTR_USER_GATE)) 66 = Some (gate isr66 INTR_USER_GATE)) as H66 by (apply zget_zset_eq; lia).
  eexists _, _. split; [reflexivity|]. split_and!; [rewrite zlen_zset; lia|done|done| |].
  - intros k a [[Ha Hk]|[-> ->]].
    + pose proof (zget_range _ _ _ Ha). rewrite Hlow, Ha by lia. eexists. split; [reflexivity|]. apply Hgate, Hu.
      unfold zget in Ha. destruct (k <? 0); [done|]. by eapply list_elem_of_lookup_2.
    + rewrite H66. eexists. split; [reflexivity|]. by apply Hgate.
  - intros k g Hg. pose proof (zget_range _ _ _ Hg) as Hr. rewrite zlen_zset in Hr. destruct (decide (k = 66)) as [->|Hne].
    + rewrite H66 in Hg. injection Hg as <-. simpl. split; [by right; right; right|done].
    + destruct (decide (k < 48)) as [Hk|Hk].
      * rewrite Hlow in Hg by lia. apply fmap_Some in Hg as (a & _ & ->). simpl.
        destruct (Z.leb_spec 3 k), (Z.leb_spec k 5); simpl; (split; [|try done]); try (unfold INTR_KERNEL_GATE, INTR_USER_GATE; lia).
      * rewrite zget_zset_ne, G3, G2, G1 in Hg by lia.
        destruct (Z.leb_spec 6 k), (Z.ltb_spec k (6 + 42)), (Z.leb_spec 3 k), (Z.ltb_spec k (3 + 3)), (Z.leb_spec 0 k), (Z.ltb_spec k (0 + 3)); cbn [andb] in Hg; try lia.
        assert (g = mkGate 0 0 0 0) as ->.
        { unfold idt0, zget in Hg. destruct (k <? 0); [done|]. by apply lookup_replicate in Hg as [-> _]. }
        simpl. split; [unfold INTR_USER_GATE|]; lia.
Qed.

(** The real-time clock's IRQ 8 is never unmasked: its bit is taken to be
    in the first controller's eight-bit mask, where it falls outside, so that
    registering a handler for it leaves both masks as they are. *)
Theorem IRQ8_stays_masked st :
  0 <= mask21 st < 256 -> mask21 (pic_unmask 8 st) = mask21 st /\ maskA1 (pic_unmask 8 st) = maskA1 st.
Proof.
  intros H. split; [|done]. simpl. unfold clear_bits, u8. change (Z.shiftl 1 8) with 256.
  assert (Z.ldiff (mask21 st) 256 = mask21 st) as ->.
  { apply Z.bits_inj'. intros k Hk. rewrite Z.ldiff_spec. change 256 with (2 ^ 8). rewrite Z.pow2_bits_eqb by lia.
    destruct (Z.eqb_spec 8 k) as [<-|]; [|by rewrite andb_true_r]. rewrite <- (Z.mod_small (mask21 st) (2 ^ 8)) by lia.
    by rewrite Z.mod_pow2_bits_high by lia. }
  apply Z.mod_small. lia.
Qed.

(** ** An example table *)

Section Example.

Definition small_table : Z := 0xC0001000.
Definition small_code (e : exception) : Z :=
  match e with MathFault => 1 | MathTrap => 2 | DebugTrap => 3 | IllOpcodeFault => 4 | ProtectionFault => 5 | AlignmentFault => 6
  | ErrorException => 7 | NoFpu => 8 | PageFault => 9 end.

#[local] Instance set_intr_mem : IntrMem (gset Z) := {|
  im_alloc w := let a := fresh (w ∪ {[0]}) in Ret (a, w ∪ {[a]});
  im_free a w := Ret (w ∖ {[a]})
|}.

#[local] Instance set_intr_laws : IntrMemLaws (gset Z).
Proof.
  refine {| inuse (w : gset Z) x := x ∈ w |}; cbn.
  - intros w a w' H. apply Ret_inj, pair_equal_spec in H as [<- <-]. pose proof (is_fresh (w ∪ {[0]})) as Hf.
    set (a := fresh _) in *. split_and!; set_solver.
  - intros a w w' H. apply Ret_inj in H as <-. set_solver.
  - intros a w. by eexists.
Defined.

Definition small_intr_state : intr := mkIntrState (table_init small_table small_code) 0xFB 0xFF [].
Definition small_used : gset Z := list_to_set ((fun k => entry_at small_table k) <$> seqZ 0 0x30).

Lemma small_intr_ok : intr_ok small_table small_intr_state small_used (fun _ => []).
Proof.
  assert (forallb (fun n => match dispatch small_intr_state !! entry_at small_table n with
    | Some e => (inext e =? 0) && negb (entry_at small_table n =? 0) | None => false end) (seqZ 0 0x30) = true) as H by (vm_compute; reflexivity).
  rewrite forallb_forall in H. split.
  - intros n Hn. specialize (H n). destruct (dispatch small_intr_state !! entry_at small_table n) as [e|] eqn:E.
    + rewrite andb_true_iff, negb_true_iff, Z.eqb_eq, Z.eqb_neq in H. destruct H as [H1 H2]; [apply list_elem_of_In, elem_of_seqZ; lia|].
      exists e. split; [done|]. split; [done|]. split; [intros _; exact H1|done].
    + discriminate H. apply list_elem_of_In, elem_of_seqZ. lia.
  - intros n. constructor.
  - intros n n' a Ha. by apply not_elem_of_nil in Ha.
  - intros n a Ha. by apply not_elem_of_nil in Ha.
  - intros k Hk. change (entry_at small_table k ∈ small_used). apply elem_of_list_to_set, list_elem_of_fmap. exists k.
    split; [done|]. apply elem_of_seqZ. lia.
Qed.

Lemma small_irq9_free : chain_of small_table small_intr_state (fun _ => []) (0x20 + 9) = [].
Proof. vm_compute. reflexivity. Qed.

Lemma IntrRegister_refines_witness :
  exists st' w' t', IntrRegister small_table 9 INTR_SHARED 0xC0105000 small_intr_state small_used = Ret (true, st', w') /\
    chain_of small_table st' t' 0x29 = [(0xC0105000, INTR_SHARED)].
Proof.
  destruct (IntrRegister_refines small_table 9 INTR_SHARED 0xC0105000 small_intr_state small_used (fun _ => []) small_intr_ok)
    as (b & st' & w' & t' & E & _ & _ & H).
  - lia.
  - discriminate.
  - eexists _, _. reflexivity.
  - rewrite small_irq9_free in H. destruct H as (-> & H & _). exists st', w', t'. split; [exact E|exact H].
Defined.

Lemma IntrUnRegister_refines_witness :
  exists st' w', IntrUnRegister small_table 1 9 0xC0105000 small_intr_state small_used = Ret (false, st', w').
Proof.
  destruct (IntrUnRegister_refines small_table 1 9 0xC0105000 small_intr_state small_used (fun _ => []) small_intr_ok)
    as (b & st' & w' & t' & E & _ & _ & _ & H & _).
  - lia.
  - discriminate.
  - simpl. lia.
  - rewrite small_irq9_free in H. exists st', w'. destruct b; [|exact E]. destruct H as [H _]. by apply not_elem_of_nil in H.
Defined.

(** A driver's handler that uses up the running thread's quantum; thread 3 of
    the small system runs, thread 4 is ready. The interrupt is acknowledged at
    both controllers by the time thread 4 runs. *)
Definition tick_driver (h : Z) (i : IntrContext) (s : sys) : outcome (IntrContext * sys) := Ret (i, set_quantum s 0).

Lemma IntrHandler_runs_chain_witness :
  exists st w st' s2, IntrRegister small_table 9 INTR_SHARED 0xC0105000 small_intr_state small_used = Ret (true, st, w) /\
    IntrHandler (K := small_machine) small_table small_code tick_driver (fun _ s => Ret (None, s)) 1 0x29 small_intr st small_sys =
      Ret (ISwitched, small_intr, st', s2) /\
    events st' = [Called 0xC0105000; Acknowledged 0xA0; Acknowledged 0x20; Yielded] /\ ProcCurrThread s2 = 4.
Proof.
  destruct (IntrRegister_refines small_table 9 INTR_SHARED 0xC0105000 small_intr_state small_used (fun _ => []) small_intr_ok)
    as (b & st & w & t & E & Hok & _ & H); [lia|discriminate|eexists _, _; reflexivity|].
  rewrite small_irq9_free in H. destruct H as (-> & Hch & _).
  assert (length (t 0x29) = 0%nat /\ events st = []) as [Hlen Hev].
  { assert (match IntrRegister small_table 9 INTR_SHARED 0xC0105000 small_intr_state small_used with
      Ret (_, x, _) => bool_decide (events x = []) | _ => false end = true) as He by (vm_compute; reflexivity).
    rewrite E in He. apply bool_decide_eq_true in He. split; [|exact He]. unfold chain_of in Hch.
    destruct (dispatch st !! _) as [e|]; [|discriminate]. destruct (ihandler e =? 0); [discriminate|].
    injection Hch as _ _ Hch. apply fmap_nil_inv in Hch. exact (f_equal length Hch). }
  destruct (IntrHandler_runs_chain (K := small_machine) small_table small_code tick_driver (fun _ s => Ret (None, s)) 1 0x29 small_intr st w t
    small_sys small_intr (set_quantum small_sys 0) Hok) as (_ & _ & H).
  - lia.
  - rewrite Hlen. lia.
  - intros h e Hh. change 0x29 with (0x20 + 9) in Hh. rewrite Hch in Hh. apply list_elem_of_singleton in Hh as ->. by destruct e.
  - change 0x29 with (0x20 + 9). rewrite Hch. reflexivity.
  - destruct H as [H _]; [reflexivity|reflexivity|by apply sched_inv_quantum, small_sys_inv|discriminate|].
    destruct (H 4 [] eq_refl) as (s2 & Er & _ & Hc & _). eexists st, w, _, s2. split; [exact E|]. split; [exact Er|]. split; [|exact Hc].
    change 0x29 with (0x20 + 9). rewrite Hch. cbn [events happens]. by rewrite Hev.
Defined.


Lemma IntrInit_gates_witness :
  exists idt st', IntrInit (replicate 48 0xC0108000) 0xC0109000 small_intr_state = Ret (idt, st') /\ maskA1 st' = 0xFF.
Proof.
  destruct (IntrInit_gates (replicate 48 0xC0108000) 0xC0109000 small_intr_state) as (idt & st' & E & _ & _ & H & _).
  - reflexivity.
  - intros a Ha. apply elem_of_replicate in Ha as [-> _]. unfold is_u32. lia.
  - unfold is_u32. lia.
  - exists idt, st'. split; [exact E|exact H].
Defined.

Lemma IRQ8_stays_masked_witness : mask21 (pic_unmask 8 small_intr_state) = 0xFB.
Proof. refine (proj1 (IRQ8_stays_masked small_intr_state _)). simpl. lia. Defined.
End Example.
