(* ===== verification/Asm.v ===== *)
(** * The processor, as far as the kernel's assembly uses it

    The instructions of src/kernel/src/*.s and src/kernel/src/process/*.s over
    the registers of an i386 and memory as aligned 32-bit words. An access to
    a word that is not there, or one that crosses a word, faults. Code is
    given by its functions; the addresses that the linker gives to their
    instructions are the class [Layout], what differs between processors is
    the class [Processor]. *)
From S2P Require Import Prelude.

(** ** State *)

Inductive reg := EAX | ECX | EDX | EBX | ESP | EBP | ESI | EDI.
Inductive sreg := CS | DS | ES | FS | GS | SS.

Record gpr := mkGpr {
  r_eax : Z; r_ecx : Z; r_edx : Z; r_ebx : Z; r_esp : Z; r_ebp : Z; r_esi : Z; r_edi : Z
}.
Record segs := mkSegs { s_cs : Z; s_ds : Z; s_es : Z; s_fs : Z; s_gs : Z; s_ss : Z }.

(** [idtr] is limit and base, as LIDT loads them. *)
Record ctrl := mkCtrl { c_cr0 : Z; c_cr4 : Z; idtr : Z * Z }.

Record cpu := mkCpu { gprs : gpr; sregs : segs; fl : Z; ctl : ctrl; pc : Z; ram : gmap Z Z }.

Definition get_reg (r : reg) (g : gpr) : Z :=
  match r with
  | EAX => r_eax g | ECX => r_ecx g | EDX => r_edx g | EBX => r_ebx g
  | ESP => r_esp g | EBP => r_ebp g | ESI => r_esi g | EDI => r_edi g
  end.

Definition set_reg (r : reg) (x : Z) '(mkGpr a c d b sp bp si di) : gpr :=
  match r with
  | EAX => mkGpr x c d b sp bp si di | ECX => mkGpr a x d b sp bp si di
  | EDX => mkGpr a c x b sp bp si di | EBX => mkGpr a c d x sp bp si di
  | ESP => mkGpr a c d b x bp si di | EBP => mkGpr a c d b sp x si di
  | ESI => mkGpr a c d b sp bp x di | EDI => mkGpr a c d b sp bp si x
  end.

Definition get_sreg (r : sreg) (g : segs) : Z :=
  match r with
  | CS => s_cs g | DS => s_ds g | ES => s_es g | FS => s_fs g | GS => s_gs g | SS => s_ss g
  end.

Definition set_sreg (r : sreg) (x : Z) '(mkSegs c d e f g s) : segs :=
  match r with
  | CS => mkSegs x d e f g s | DS => mkSegs c x e f g s | ES => mkSegs c d x f g s
  | FS => mkSegs c d e x g s | GS => mkSegs c d e f x s | SS => mkSegs c d e f g x
  end.

Definition with_gprs (g : gpr) '(mkCpu _ s f c p m) : cpu := mkCpu g s f c p m.
Definition with_sregs (s : segs) '(mkCpu g _ f c p m) : cpu := mkCpu g s f c p m.
Definition with_flags (f : Z) '(mkCpu g s _ c p m) : cpu := mkCpu g s f c p m.
Definition with_ctl (x : ctrl) '(mkCpu g s f _ p m) : cpu := mkCpu g s f x p m.
Definition with_pc (p : Z) '(mkCpu g s f c _ m) : cpu := mkCpu g s f c p m.
Definition with_ram (m : gmap Z Z) '(mkCpu g s f c p _) : cpu := mkCpu g s f c p m.

(** ** Memory *)

Definition load (m : gmap Z Z) (a : Z) : outcome Z :=
  if u32 a mod 4 =? 0 then or_fault (m !! u32 a) else Fault.
Definition store (m : gmap Z Z) (a v : Z) : outcome (gmap Z Z) :=
  if u32 a mod 4 =? 0 then Ret (<[u32 a := v]> m) else Fault.

(** [n] bytes inside of an aligned word. *)
Definition load_part (n : Z) (m : gmap Z Z) (a : Z) : outcome Z :=
  let o := u32 a mod 4 in
  if o + n <=? 4 then w ← load m (u32 a - o); Ret (w / 2 ^ (8 * o) mod 2 ^ (8 * n)) else Fault.
Definition put_part (n o w v : Z) : Z :=
  w mod 2 ^ (8 * o) + v mod 2 ^ (8 * n) * 2 ^ (8 * o) + w / 2 ^ (8 * (o + n)) * 2 ^ (8 * (o + n)).
Definition store_part (n : Z) (m : gmap Z Z) (a v : Z) : outcome (gmap Z Z) :=
  let o := u32 a mod 4 in
  if o + n <=? 4 then w ← load m (u32 a - o); store m (u32 a - o) (put_part n o w v) else Fault.

(** ** Instructions *)

(** Memory operands: a register and a displacement, or an address. *)
Inductive place_of := At (r : reg) (disp : Z) | Abs (a : Z).
Inductive operand := R (r : reg) | I (n : Z) | M (p : place_of).

(** 32-bit instructions; the suffix 16 is for 16-bit operands, 8 for bytes. A
    jump goes to the n-th label of its own function. *)
Inductive instr (F : Type) :=
| LABEL (n : nat)
| PUSH (o : operand) | POP (r : reg) | PUSHSEG (s : sreg) | POPSEG (s : sreg)
| PUSHAD | POPAD | PUSHFD | POPFD
| MOV (dst src : operand) | MOV16 (dst src : operand)
| MOVSEG (s : sreg) (r : reg)                      (* mov s, r16 *)
| MOVFROMCR0 (r : reg) | MOVTOCR0 (r : reg) | MOVFROMCR4 (r : reg) | MOVTOCR4 (r : reg)
| ADD (r : reg) (n : Z) | XOR (r : reg) (o : operand) | AND (r : reg) (n : Z) | OR (r : reg) (o : operand)
| TEST (r : reg) (o : operand) | TEST16 (p : place_of) (n : Z)
| SETZ (r : reg) | SETNZ (p : place_of)            (* setz r8, setnz byte [p] *)
| JMP (l : nat) | JZ (l : nat) | JNZ (l : nat) | JMPTO (f : F)
| CALL (f : F) | RETN (n : Z) | IRETD
| CLD | CLI | STI | HLT
| LIDT (p : place_of)
| CPUID | FNINIT | FNSTSW (p : place_of) | FXSAVE (p : place_of).
Arguments LABEL {F} n. Arguments PUSH {F} o. Arguments POP {F} r. Arguments PUSHSEG {F} s. Arguments POPSEG {F} s.
Arguments PUSHAD {F}. Arguments POPAD {F}. Arguments PUSHFD {F}. Arguments POPFD {F}.
Arguments MOV {F} dst src. Arguments MOV16 {F} dst src. Arguments MOVSEG {F} s r.
Arguments MOVFROMCR0 {F} r. Arguments MOVTOCR0 {F} r. Arguments MOVFROMCR4 {F} r. Arguments MOVTOCR4 {F} r.
Arguments ADD {F} r n. Arguments XOR {F} r o. Arguments AND {F} r n. Arguments OR {F} r o.
Arguments TEST {F} r o. Arguments TEST16 {F} p n. Arguments SETZ {F} r. Arguments SETNZ {F} p.
Arguments JMP {F} l. Arguments JZ {F} l. Arguments JNZ {F} l. Arguments JMPTO {F} f.
Arguments CALL {F} f. Arguments RETN {F} n. Arguments IRETD {F}.
Arguments CLD {F}. Arguments CLI {F}. Arguments STI {F}. Arguments HLT {F}. Arguments LIDT {F} p.
Arguments CPUID {F}. Arguments FNINIT {F}. Arguments FNSTSW {F} p. Arguments FXSAVE {F} p.

(** ** What differs between processors *)

(** - [other_flags]: the flags CF, PF, AF, SF and OF after an arithmetic
      instruction, of its result and the flags before;
    - [popf_mask]: the flags that POPFD can change (bit 18 from the 486 on,
      bit 21 where there is CPUID);
    - [pushed_selector]: the word that a PUSH of a selector leaves, of the
      word before: the upper half is undefined;
    - [cpuid_of]: EAX, EBX, ECX, EDX after CPUID of a leaf;
    - [fnstsw_of]: the 16 bits that FNSTSW leaves after FNINIT, of those
      before: 0 with an FPU, unknown without;
    - [fxsave_of]: the 128 words that FXSAVE writes. *)
Class Processor := {
  other_flags : Z -> Z -> Z;
  popf_mask : Z;
  pushed_selector : Z -> Z -> Z;
  cpuid_of : Z -> Z * Z * Z * Z;
  fnstsw_of : Z -> Z;
  fxsave_of : list Z;
  pushed_selector_low : forall w s, 0 <= s < 65536 -> pushed_selector w s mod 65536 = s
}.

Definition ZF : Z := 0x40.
Definition IF : Z := 0x200.
Definition STATUS : Z := 0x8D5.

(** The flags after a result. *)
Definition flags_after {P : Processor} (result old : Z) : Z :=
  Z.lor (Z.land old (Z.lnot STATUS))
    (Z.lor (if result =? 0 then ZF else 0) (Z.land (other_flags result old) (STATUS - ZF))).

Definition zero_flag (f : Z) : bool := truth (Z.land f ZF).

(** The image that PUSHFD stores has RF and VM clear. *)
Definition pushf_image (f : Z) : Z := Z.land f 0xFCFFFF.
Definition popf {P : Processor} (image old : Z) : Z :=
  Z.lor (Z.land old (Z.lnot popf_mask)) (Z.land image popf_mask).

(** ** Where the linker puts the code *)

(** Functions without instructions here are C functions. *)
Class Layout {F : Type} (code : F -> list (instr F)) := {
  place : F -> nat -> Z;
  locate : Z -> option (F * nat);
  place_range : forall f i, (i <= length (code f))%nat -> is_u32 (place f i);
  locate_place : forall f i, (i < length (code f))%nat -> locate (place f i) = Some (f, i);
  locate_extern : forall f, code f = [] -> locate (place f 0) = None
}.

(** ** Execution *)

(** A processor that goes on, or one that waits for an interrupt. *)
Inductive result := Goes (c : cpu) | Waits (c : cpu).

Section Execution.
Context {P : Processor} {F : Type} {code : F -> list (instr F)} {L : Layout code}.

Definition reg_of (r : reg) (c : cpu) : Z := get_reg r (gprs c).
Definition put_reg (r : reg) (x : Z) (c : cpu) : cpu := with_gprs (set_reg r x (gprs c)) c.

Definition address (p : place_of) (c : cpu) : Z :=
  match p with At r d => u32 (reg_of r c + d) | Abs a => a end.

Definition value (o : operand) (c : cpu) : outcome Z :=
  match o with R r => Ret (reg_of r c) | I n => Ret n | M p => load (ram c) (address p c) end.

Definition push (v : Z) (c : cpu) : outcome cpu :=
  let sp := u32 (reg_of ESP c - 4) in
  m ← store (ram c) sp v; Ret (with_ram m (put_reg ESP sp c)).

Definition pop (c : cpu) : outcome (Z * cpu) :=
  v ← load (ram c) (reg_of ESP c); Ret (v, put_reg ESP (u32 (reg_of ESP c + 4)) c).

(** PUSH of a selector: the upper half is the processor's. *)
Definition push_selector (s : sreg) (c : cpu) : outcome cpu :=
  let sp := u32 (reg_of ESP c - 4) in
  push (pushed_selector (default 0 (ram c !! sp)) (get_sreg s (sregs c))) c.

Fixpoint push_all (vs : list Z) (c : cpu) : outcome cpu :=
  match vs with [] => Ret c | v :: vs' => c1 ← push v c; push_all vs' c1 end.

Definition arith (r : reg) (x : Z) (c : cpu) : cpu := with_flags (flags_after x (fl c)) (put_reg r x c).

(** The low 16 bits of a register. *)
Definition low16 (r : reg) (x : Z) (c : cpu) : cpu :=
  put_reg r (reg_of r c / 65536 * 65536 + x mod 65536) c.

Fixpoint label_index (l : nat) (p : list (instr F)) : option nat :=
  match p with
  | [] => None
  | i :: p' =>
      match i with
      | LABEL n => if (n =? l)%nat then Some O else S <$> label_index l p'
      | _ => S <$> label_index l p'
      end
  end.

Definition goto (f : F) (l : nat) (c : cpu) : outcome cpu :=
  i ← or_fault (label_index l (code f)); Ret (with_pc (place f i) c).

Definition goes (r : outcome cpu) : outcome result := c ← r; Ret (Goes c).

(** IRETD: to the privilege level of the popped CS; the stack is popped too
    when that is an outer one. *)
Definition iret (c : cpu) : outcome cpu :=
  '(ip, c1) ← pop c; '(s, c2) ← pop c1; '(f, c3) ← pop c2;
  let c4 := with_pc ip (with_flags f (with_sregs (set_sreg CS (s mod 65536) (sregs c3)) c3)) in
  if s_cs (sregs c) mod 4 <? s mod 4 then
    '(sp, c5) ← pop c4; '(ss, c6) ← pop c5;
    Ret (with_sregs (set_sreg SS (ss mod 65536) (sregs c6)) (put_reg ESP sp c6))
  else Ret c4.

Fixpoint fxsave_words (ws : list Z) (m : gmap Z Z) (a : Z) : outcome (gmap Z Z) :=
  match ws with [] => Ret m | w :: ws' => m1 ← store m a w; fxsave_words ws' m1 (u32 (a + 4)) end.

(** An instruction of function [f]; [pc] is that of the next one already. *)
Definition exec (f : F) (i : instr F) (c : cpu) : outcome result :=
  match i with
  | LABEL _ => goes (Ret c)
  | PUSH o => goes (v ← value o c; push v c)
  | POP r => goes ('(v, c1) ← pop c; Ret (put_reg r v c1))
  | PUSHSEG s => goes (push_selector s c)
  | POPSEG s => goes ('(v, c1) ← pop c; Ret (with_sregs (set_sreg s (v mod 65536) (sregs c1)) c1))
  | PUSHAD =>
      goes (push_all ((fun r => reg_of r c) <$> [EAX; ECX; EDX; EBX; ESP; EBP; ESI; EDI]) c)
  | POPAD =>
      goes ('(di, c1) ← pop c; '(si, c2) ← pop c1; '(bp, c3) ← pop c2; '(_, c4) ← pop c3;
            '(b, c5) ← pop c4; '(d, c6) ← pop c5; '(x, c7) ← pop c6; '(a, c8) ← pop c7;
            Ret (with_gprs (mkGpr a x d b (reg_of ESP c8) bp si di) c8))
  | PUSHFD => goes (push (pushf_image (fl c)) c)
  | POPFD => goes ('(v, c1) ← pop c; Ret (with_flags (popf v (fl c)) c1))
  | MOV dst src =>
      goes (v ← value src c;
            match dst with
            | R r => Ret (put_reg r v c)
            | M p => m ← store (ram c) (address p c) v; Ret (with_ram m c)
            | I _ => Fault
            end)
  | MOV16 dst src =>
      goes (v ← match src with M p => load_part 2 (ram c) (address p c) | _ => value src c end;
            match dst with
            | R r => Ret (low16 r v c)
            | M p => m ← store_part 2 (ram c) (address p c) v; Ret (with_ram m c)
            | I _ => Fault
            end)
  | MOVSEG s r => goes (Ret (with_sregs (set_sreg s (reg_of r c mod 65536) (sregs c)) c))
  | MOVFROMCR0 r => goes (Ret (put_reg r (c_cr0 (ctl c)) c))
  | MOVTOCR0 r => goes (Ret (with_ctl (mkCtrl (reg_of r c) (c_cr4 (ctl c)) (idtr (ctl c))) c))
  | MOVFROMCR4 r => goes (Ret (put_reg r (c_cr4 (ctl c)) c))
  | MOVTOCR4 r => goes (Ret (with_ctl (mkCtrl (c_cr0 (ctl c)) (reg_of r c) (idtr (ctl c))) c))
  | ADD r n => goes (Ret (arith r (u32 (reg_of r c + n)) c))
  | XOR r o => goes (v ← value o c; Ret (arith r (Z.lxor (reg_of r c) v) c))
  | AND r n => goes (Ret (arith r (Z.land (reg_of r c) n) c))
  | OR r o => goes (v ← value o c; Ret (arith r (Z.lor (reg_of r c) v) c))
  | TEST r o => goes (v ← value o c; Ret (with_flags (flags_after (Z.land (reg_of r c) v) (fl c)) c))
  | TEST16 p n =>
      goes (v ← load_part 2 (ram c) (address p c); Ret (with_flags (flags_after (Z.land v n) (fl c)) c))
  | SETZ r =>
      goes (Ret (put_reg r (reg_of r c / 256 * 256 + (if zero_flag (fl c) then 1 else 0)) c))
  | SETNZ p =>
      goes (m ← store_part 1 (ram c) (address p c) (if zero_flag (fl c) then 0 else 1); Ret (with_ram m c))
  | JMP l => goes (goto f l c)
  | JZ l => goes (if zero_flag (fl c) then goto f l c else Ret c)
  | JNZ l => goes (if zero_flag (fl c) then Ret c else goto f l c)
  | JMPTO g => goes (Ret (with_pc (place g 0) c))
  | CALL g => goes (c1 ← push (pc c) c; Ret (with_pc (place g 0) c1))
  | RETN n => goes ('(a, c1) ← pop c; Ret (with_pc a (put_reg ESP (u32 (reg_of ESP c1 + n)) c1)))
  | IRETD => goes (iret c)
  | CLD => goes (Ret (with_flags (Z.land (fl c) (Z.lnot 0x400)) c))
  | CLI => goes (Ret (with_flags (Z.land (fl c) (Z.lnot IF)) c))
  | STI => goes (Ret (with_flags (Z.lor (fl c) IF) c))
  | HLT => Ret (Waits c)
  | LIDT p =>
      goes (limit ← load_part 2 (ram c) (address p c); base ← load (ram c) (address p c + 2);
            Ret (with_ctl (mkCtrl (c_cr0 (ctl c)) (c_cr4 (ctl c)) (limit, base)) c))
  | CPUID =>
      let '(a, b, x, d) := cpuid_of (reg_of EAX c) in
      goes (Ret (put_reg EAX a (put_reg EBX b (put_reg ECX x (put_reg EDX d c)))))
  | FNINIT => goes (Ret c)
  | FNSTSW p =>
      goes (w ← load_part 2 (ram c) (address p c);
            m ← store_part 2 (ram c) (address p c) (fnstsw_of w); Ret (with_ram m c))
  | FXSAVE p => goes (m ← fxsave_words fxsave_of (ram c) (address p c); Ret (with_ram m c))
  end.

(** Until the processor waits or runs code that is not ours. *)
Fixpoint run (n : nat) (c : cpu) : outcome result :=
  match locate (pc c) with
  | None => Ret (Goes c)
  | Some (f, i) =>
      match n with
      | O => NoFuel
      | S n' =>
          ins ← or_fault (code f !! i);
          r ← exec f ins (with_pc (place f (S i)) c);
          match r with Goes c' => run n' c' | Waits c' => Ret (Waits c') end
      end
  end.

Lemma run_step n f i ins c :
  pc c = place f i -> code f !! i = Some ins ->
  run (S n) c = (r ← exec f ins (with_pc (place f (S i)) c);
                 match r with Goes c' => run n c' | Waits c' => Ret (Waits c') end).
Proof.
  intros Hp Hi. cbn [run]. rewrite Hp, locate_place by (by eapply lookup_lt_Some). simpl. by rewrite Hi.
Qed.

(** Execution stops where the code is not ours. *)
Lemma run_out n c : locate (pc c) = None -> run n c = Ret (Goes c).
Proof. intros H. destruct n; simpl; by rewrite H. Qed.

(** More fuel gives the same result. *)
Lemma run_more n k c r : run n c = Ret r -> run (n + k) c = Ret r.
Proof.
  revert c. induction n as [|n IH]; intros c; simpl.
  - destruct (locate (pc c)) as [[f i]|] eqn:E; [done|]. intros <-. apply run_out, E.
  - destruct (locate (pc c)) as [[f i]|]; [|done]. destruct (code f !! i); simpl; [|done].
    destruct (exec f i0 _) as [[c'|c']| | |]; simpl; [apply IH|done..].
Qed.

(** [c] gets to [c'] in some number of instructions. *)
Definition reaches (c c' : cpu) : Prop := exists k, forall n, run (k + n) c = run n c'.

Lemma reaches_refl c : reaches c c.
Proof. by exists O. Qed.

Lemma reaches_trans c1 c2 c3 : reaches c1 c2 -> reaches c2 c3 -> reaches c1 c3.
Proof. intros [k1 H1] [k2 H2]. exists (k1 + k2)%nat. intros n. by rewrite <- Nat.add_assoc, H1, H2. Qed.

Lemma reaches_step f i ins c c1 c2 :
  pc c = place f i -> code f !! i = Some ins -> exec f ins (with_pc (place f (S i)) c) = Ret (Goes c1) ->
  reaches c1 c2 -> reaches c c2.
Proof.
  intros Hp Hi He [k Hk]. exists (S k). intros n. change (S k + n)%nat with (S (k + n)). rewrite (run_step _ _ _ _ _ Hp Hi), He. apply Hk.
Qed.

(** Conditional jumps. *)
Lemma branch_zero f i l j z c c2 :
  pc c = place f i -> code f !! i = Some (JZ l) -> label_index l (code f) = Some j -> zero_flag (fl c) = z ->
  reaches (with_pc (place f (if z then j else S i)) c) c2 -> reaches c c2.
Proof.
  intros Hp Hi Hl Hz. eapply reaches_step; [exact Hp|exact Hi|]. destruct c as [g s f0 ct p m]. simpl in *.
  rewrite Hz. unfold goes, goto. destruct z; [rewrite Hl|]; done.
Qed.
Lemma branch_nonzero f i l j z c c2 :
  pc c = place f i -> code f !! i = Some (JNZ l) -> label_index l (code f) = Some j -> zero_flag (fl c) = z ->
  reaches (with_pc (place f (if z then S i else j)) c) c2 -> reaches c c2.
Proof.
  intros Hp Hi Hl Hz. eapply reaches_step; [exact Hp|exact Hi|]. destruct c as [g s f0 ct p m]. simpl in *.
  rewrite Hz. unfold goes, goto. destruct z; [|rewrite Hl]; done.
Qed.

(** Code that is reached and is not ours ends the run. *)
Lemma reaches_out c c' : reaches c c' -> locate (pc c') = None -> exists n, run n c = Ret (Goes c').
Proof. intros [k Hk] Hl. exists (k + 0)%nat. rewrite Hk. by apply run_out. Qed.
End Execution.

(** ** Symbolic execution *)

Arguments run : simpl never.
Arguments load : simpl never.
Arguments store : simpl never.

Lemma load_ok m a v : is_u32 a -> a mod 4 = 0 -> m !! a = Some v -> load m a = Ret v.
Proof. intros Ha H0 Hv. unfold load. replace (u32 a) with a by u32_lia. by rewrite H0, Hv. Qed.

Lemma store_ok m a v : is_u32 a -> a mod 4 = 0 -> store m a v = Ret (<[a := v]> m).
Proof. intros Ha H0. unfold store. replace (u32 a) with a by u32_lia. by rewrite H0. Qed.

(** The low half of a register that was just written. *)
Lemma low16_read x v : 0 <= v < 65536 -> (x / 65536 * 65536 + v mod 65536) mod 65536 = v.
Proof. intros. zlia. Qed.

(** Setting and clearing flags. *)
Lemma flag_set x k : Z.land (Z.lor x k) k = k.
Proof. apply Z.bits_inj'. intros i _. rewrite Z.land_spec, Z.lor_spec. by destruct (Z.testbit x i), (Z.testbit k i). Qed.
Lemma flag_clear x k : Z.land (Z.land x (Z.lnot k)) k = 0.
Proof. apply Z.bits_inj'. intros i Hi. rewrite !Z.land_spec, Z.lnot_spec, Z.bits_0 by done. by destruct (Z.testbit x i), (Z.testbit k i). Qed.

(** The zero flag after a result, and the flags that stay. *)
Lemma zero_flag_after {P : Processor} r old : zero_flag (flags_after r old) = (r =? 0).
Proof.
  unfold zero_flag, flags_after, truth. change ZF with (2 ^ 6). rewrite <- (Z.land_comm (2 ^ 6)).
  assert (Z.testbit (Z.lor (Z.land old (Z.lnot STATUS)) (Z.lor (if r =? 0 then 2 ^ 6 else 0) (Z.land (other_flags r old) (STATUS - 2 ^ 6)))) 6
    = (r =? 0)) as H.
  { rewrite !Z.lor_spec, !Z.land_spec, Z.lnot_spec by lia. change (Z.testbit STATUS 6) with true.
    change (Z.testbit (STATUS - 2 ^ 6) 6) with false. simpl. rewrite !andb_false_r. simpl. destruct (r =? 0); done. }
  set (w := Z.lor _ _) in *. destruct (r =? 0) eqn:Er.
  - destruct (Z.eqb_spec (Z.land (2 ^ 6) w) 0) as [E|]; [|done]. exfalso.
    assert (Z.testbit (Z.land (2 ^ 6) w) 6 = true) as Ht by (rewrite Z.land_spec, H; done). rewrite E in Ht. done.
  - replace (Z.land (2 ^ 6) w) with 0; [done|]. symmetry. apply Z.bits_inj'. intros i Hi. rewrite Z.land_spec, Z.bits_0.
    destruct (decide (i = 6)) as [->|Hn]; [by rewrite H|]. by rewrite Z.pow2_bits_false by lia.
Qed.

Lemma flags_after_other {P : Processor} r old i : 0 <= i -> Z.testbit STATUS i = false ->
  Z.testbit (flags_after r old) i = Z.testbit old i.
Proof.
  intros Hi Hs. unfold flags_after. rewrite !Z.lor_spec, !Z.land_spec, Z.lnot_spec, Hs by done. simpl. rewrite andb_true_r.
  assert (i <> 6) as H6 by (by intros ->).
  assert (Z.testbit (if r =? 0 then ZF else 0) i = false) as ->.
  { destruct (r =? 0); [|apply Z.bits_0]. change ZF with (2 ^ 6). apply Z.pow2_bits_false. lia. }
  assert (Z.testbit (STATUS - ZF) i = false) as ->.
  { change (STATUS - ZF) with (Z.ldiff STATUS ZF). by rewrite Z.ldiff_spec, Hs. }
  by rewrite andb_false_r, orb_false_r.
Qed.

Lemma wrap_id x : is_u32 x -> u32 x = x.
Proof. u32_lia. Qed.

(** Addresses without wrap-around, innermost first. *)
Ltac wrap :=
  repeat match goal with
  | |- context [u32 ?e] =>
      lazymatch e with context [u32 _] => fail | _ => rewrite (wrap_id e) by (unfold is_u32 in *; lia) end
  end.

(** Displacements in one number. *)
Ltac displacement :=
  repeat match goal with
  | |- context [?x - Zpos ?p - Zpos ?q] =>
      let r := eval compute in (Zpos p + Zpos q) in replace (x - Zpos p - Zpos q) with (x - r) by lia
  | |- context [?x + Zpos ?p + Zpos ?q] =>
      let r := eval compute in (Zpos p + Zpos q) in replace (x + Zpos p + Zpos q) with (x + r) by lia
  | |- context [?x - Zpos ?p + Zpos ?q] =>
      let r := eval compute in (Zpos q - Zpos p) in
      match r with
      | Z0 => replace (x - Zpos p + Zpos q) with x by lia
      | Zpos _ => replace (x - Zpos p + Zpos q) with (x + r) by lia
      | Zneg ?k => replace (x - Zpos p + Zpos q) with (x - Zpos k) by lia
      end
  | |- context [?x + Zpos ?p - Zpos ?q] =>
      let r := eval compute in (Zpos p - Zpos q) in
      match r with
      | Z0 => replace (x + Zpos p - Zpos q) with x by lia
      | Zpos _ => replace (x + Zpos p - Zpos q) with (x + r) by lia
      | Zneg ?k => replace (x + Zpos p - Zpos q) with (x - Zpos k) by lia
      end
  | |- context [?x + 0] => rewrite (Z.add_0_r x)
  end.

(** The word at an address of a memory after stores. *)
Ltac find_word :=
  lazymatch goal with
  | H : ?m !! ?a = Some _ |- ?m !! ?a = Some _ => exact H
  | |- <[?k := ?v]> ?m !! ?a = Some _ =>
      first [ rewrite (lookup_insert_ne m k a v) by lia; find_word
            | replace a with k by lia; apply lookup_insert_eq ]
  | H : ?m !! ?k = Some ?v |- ?m !! ?a = Some _ =>
      first [ exact H | replace a with k by lia; exact H
            | match goal with H' : m !! ?k' = Some _ |- _ => replace a with k' by lia; exact H' end ]
  end.

Ltac memory_step :=
  match goal with
  | |- context [load ?m ?a] => erewrite (load_ok m a) by first [unfold is_u32 in *; lia | zlia | find_word]
  | |- context [store ?m ?a ?v] => rewrite (store_ok m a v) by first [unfold is_u32 in *; lia | zlia]
  end.

Ltac semantics :=
  unfold goes, push_selector, low16, arith, goto, value, push, pop, put_reg, reg_of, address; simpl.

(** One instruction of function [f] at index [i]. *)
Ltac instruction f i :=
  erewrite (run_step _ f i) by reflexivity; simpl; semantics; wrap; displacement;
  repeat (memory_step; simpl; semantics; wrap; displacement).

(** One instruction on the way to somewhere else. *)
Ltac step f i :=
  eapply (reaches_step f i); [reflexivity|reflexivity|
    simpl; semantics; wrap; displacement; repeat (memory_step; simpl; semantics; wrap; displacement); reflexivity|].

(** ** Small machines *)

(** Functions numbered by [index], 256 addresses for each from [base] on. *)
Section Numbered.
Context {F : Type} (code : F -> list (instr F)) (index : F -> nat) (of_index : nat -> option F) (base : Z).

Definition numbered_place (f : F) (i : nat) : Z := base + 256 * Z.of_nat (index f) + Z.of_nat i.
Definition numbered_locate (a : Z) : option (F * nat) :=
  if a <? base then None
  else
    f ← of_index (Z.to_nat ((a - base) / 256));
    let i := Z.to_nat ((a - base) mod 256) in
    if (i <? length (code f))%nat then Some (f, i) else None.

Hypothesis base_range : 0 <= base < 4293918720.
Hypothesis of_index_index : forall f, of_index (index f) = Some f.
Hypothesis small_index : forall f, (index f < 4096)%nat.
Hypothesis small_code : forall f, (length (code f) < 256)%nat.

Lemma numbered_range f i : (i <= length (code f))%nat -> is_u32 (numbered_place f i).
Proof. unfold numbered_place, is_u32. pose proof (small_index f). pose proof (small_code f). lia. Qed.

Lemma numbered_found f i : (i < 256)%nat ->
  numbered_locate (numbered_place f i) = if (i <? length (code f))%nat then Some (f, i) else None.
Proof.
  intros Hi. unfold numbered_locate, numbered_place. destruct (Z.ltb_spec (base + 256 * Z.of_nat (index f) + Z.of_nat i) base); [lia|].
  set (a := base + _ + _ - base). assert (a / 256 = Z.of_nat (index f) /\ a mod 256 = Z.of_nat i) as [-> ->] by (unfold a; zlia).
  rewrite !Nat2Z.id, of_index_index. done.
Qed.

Definition numbered_layout : Layout code.
Proof.
  refine {| place := numbered_place; locate := numbered_locate; place_range := numbered_range |}.
  - intros f i Hi. pose proof (small_code f). rewrite numbered_found by lia. by rewrite (proj2 (Nat.ltb_lt _ _) Hi).
  - intros f Hf. rewrite numbered_found by lia. by rewrite Hf.
Defined.
End Numbered.

(** A processor with a given set of changeable flags: the undefined flags are
    clear, a pushed selector keeps the upper half of the word. *)
Definition plain_cpuid (leaf : Z) : Z * Z * Z * Z :=
  if leaf =? 0 then (1, 0x756E6547, 0x6C65746E, 0x49656E69) else (0x00000543, 0, 0, 0x008003BF).

Definition processor_with (mask : Z) : Processor.
Proof.
  refine {| other_flags _ _ := 0; popf_mask := mask; pushed_selector w s := w / 65536 * 65536 + s;
            cpuid_of := plain_cpuid; fnstsw_of _ := 0; fxsave_of := replicate 128 0 |}.
  intros. zlia.
Defined.

(** A Pentium can change the flags AC and ID. *)
Definition plain_processor : Processor := processor_with 0x244FD5.
