(* ===== verification/Loader.v ===== *)
(** * The boot loader's entry (src/loader.s)

    The first code of the kernel: paging with the first 4 MB at 0 and at
    0xC0000000, the task state segment and the descriptor table, the unmapping
    of the copy at 0, and the call of kMain. Memory is physical; addresses are
    translated as the processor does it, also those of the code itself. *)
From S2P Require Import Prelude Asm.

(** ** Data *)

Definition STACK_SIZE : Z := 0x4000.
Definition KERNEL_VIRTUAL_BASE : Z := 0xC0000000.
Definition KERNEL_PAGE_OFFSET : Z := Z.shiftr KERNEL_VIRTUAL_BASE 20.

(** The addresses that the linker chooses; [loader_first] and [loader_last]
    are those of the code, [after_kMain] that of the endless loop at its end. *)
Class Symbols := {
  MemKernelPageDirectory : Z; kernelPageTable192 : Z; gdt : Z; TssStart : Z; startupStack : Z;
  loader_first : Z; loader_last : Z; after_kMain : Z
}.

(** A segment register with the descriptor that the processor keeps for it. *)
Record segment := mkSegment { selector : Z; seg_base : Z; seg_limit : Z }.

(** [high]: the instruction pointer is in the copy at KERNEL_VIRTUAL_BASE.
    [gdtr] is limit and base. *)
Record machine := mkMachine {
  regs : gpr; cr0 : Z; cr3 : Z; gdtr : Z * Z; tr : segment; cs : segment; ds : segment; es : segment; ss : segment;
  high : bool; mem : gmap Z Z
}.

Definition with_regs g '(mkMachine _ c0 c3 gd t c d e s h m) := mkMachine g c0 c3 gd t c d e s h m.
Definition with_cr0 x '(mkMachine g _ c3 gd t c d e s h m) := mkMachine g x c3 gd t c d e s h m.
Definition with_cr3 x '(mkMachine g c0 _ gd t c d e s h m) := mkMachine g c0 x gd t c d e s h m.
Definition with_gdtr x '(mkMachine g c0 c3 _ t c d e s h m) := mkMachine g c0 c3 x t c d e s h m.
Definition with_tr x '(mkMachine g c0 c3 gd _ c d e s h m) := mkMachine g c0 c3 gd x c d e s h m.
Definition with_cs x '(mkMachine g c0 c3 gd t _ d e s h m) := mkMachine g c0 c3 gd t x d e s h m.
Definition with_ds x '(mkMachine g c0 c3 gd t c _ e s h m) := mkMachine g c0 c3 gd t c x e s h m.
Definition with_es x '(mkMachine g c0 c3 gd t c d _ s h m) := mkMachine g c0 c3 gd t c d x s h m.
Definition with_ss x '(mkMachine g c0 c3 gd t c d e _ h m) := mkMachine g c0 c3 gd t c d e x h m.
Definition with_high x '(mkMachine g c0 c3 gd t c d e s _ m) := mkMachine g c0 c3 gd t c d e s x m.
Definition with_mem x '(mkMachine g c0 c3 gd t c d e s h _) := mkMachine g c0 c3 gd t c d e s h x.

Definition reg_in (r : reg) (m : machine) : Z := get_reg r (regs m).
Definition set (r : reg) (x : Z) (m : machine) : machine := with_regs (set_reg r x (regs m)) m.

(** ** Memory *)

(** Bit 31 of CR0 turns paging on; bit 0 of an entry says that it is present. *)
Definition translate (m : machine) (a : Z) : option Z :=
  if Z.testbit (cr0 m) 31 then
    match mem m !! (cr3 m + 4 * (a / 4194304)) with
    | Some pde =>
        if pde mod 2 =? 1 then
          match mem m !! (pde / 4096 * 4096 + 4 * (a / 4096 mod 1024)) with
          | Some pte => if pte mod 2 =? 1 then Some (pte / 4096 * 4096 + a mod 4096) else None
          | None => None
          end
        else None
    | None => None
    end
  else Some a.

(** Words, and parts of words. *)
Definition rd4 (a : Z) (m : machine) : outcome Z := p ← or_fault (translate m a); load (mem m) p.
Definition wr4 (a v : Z) (m : machine) : outcome machine :=
  p ← or_fault (translate m a); m' ← store (mem m) p v; Ret (with_mem m' m).
Definition rd (n a : Z) (m : machine) : outcome Z := p ← or_fault (translate m a); load_part n (mem m) p.
Definition wr (n a v : Z) (m : machine) : outcome machine :=
  p ← or_fault (translate m a); m' ← store_part n (mem m) p v; Ret (with_mem m' m).

(** ** Descriptors *)

Definition desc_base (w0 w1 : Z) : Z := w0 / 65536 + w1 mod 256 * 65536 + w1 / 16777216 * 16777216.
Definition desc_limit (w0 w1 : Z) : Z :=
  let l := w0 mod 65536 + w1 / 65536 mod 16 * 65536 in if w1 / 8388608 mod 2 =? 1 then l * 4096 + 4095 else l.

(** A descriptor of the kind asked for ([mask] selects the bits of its second
    word that must be [kind]) is loaded, and [mark] set in it. *)
Definition load_descriptor (mask kind mark sel : Z) (m : machine) : outcome (segment * machine) :=
  let '(limit, base) := gdtr m in
  let o := sel / 8 * 8 in
  if limit <? o + 7 then Fault
  else
    w0 ← rd4 (base + o) m;
    w1 ← rd4 (base + o + 4) m;
    if Z.land w1 mask =? kind
    then m' ← wr4 (base + o + 4) (Z.lor w1 mark) m; Ret (mkSegment sel (desc_base w0 w1) (desc_limit w0 w1), m')
    else Fault.

(** Present writable data, present code, a present task state segment that is
    not busy. *)
Definition load_data : Z -> machine -> outcome (segment * machine) := load_descriptor 0x9A00 0x9200 0x100.
Definition load_code : Z -> machine -> outcome (segment * machine) := load_descriptor 0x9800 0x9800 0x100.
Definition load_task : Z -> machine -> outcome (segment * machine) := load_descriptor 0x9F00 0x8900 0x200.

Section Code.
Context {A : Symbols}.

(** The table as the file has it, and as words. The second word is the pointer
    for LGDT, behind a word that only aligns it. *)
Definition gdt_words : list Z := [
  0x370000; gdt;
  0x0000FFFF; 0x00CF9A00;       (* 08h: ring 0 code *)
  0x0000FFFF; 0x00CF9200;       (* 10h: ring 0 data *)
  0x0000FFFF; 0x00CBFA00;       (* 1Bh: ring 3 code *)
  0x0000FFFF; 0x00CBF200;       (* 23h: ring 3 data *)
  0x00000000; 0x00C0F600;       (* 2Bh: thread local storage *)
  0x00000068; 0x00008900].      (* 30h: the task state segment, without its base *)
Definition gdt_ptr : Z := gdt + 2.
Definition TssESP0 : Z := TssStart + 4.
Definition TssSS0 : Z := TssStart + 8.
Definition tss_b1 : Z := gdt + 0x30 + 2.
Definition tss_b2 : Z := gdt + 0x30 + 3.
Definition tss_b3 : Z := gdt + 0x30 + 4.
Definition tss_b4 : Z := gdt + 0x30 + 7.

(** Entry [i] of kernelPageTable192. *)
Definition table_entry (i : Z) : Z := Z.lor (Z.shiftl i 12) 0x103.

(** ** The instructions *)

Definition low8 (x : Z) : Z := x mod 256.
Definition high8 (x : Z) : Z := x / 256 mod 256.

Definition mov (r : reg) (x : Z) (m : machine) : outcome machine := Ret (set r x m).
(** mov cx, x *)
Definition mov_cx (x : Z) (m : machine) : outcome machine := Ret (set ECX (reg_in ECX m / 65536 * 65536 + x) m).
Definition or_with (r : reg) (x : Z) (m : machine) : outcome machine := Ret (set r (Z.lor (reg_in r m) x) m).
Definition push (r : reg) (m : machine) : outcome machine :=
  let sp := u32 (reg_in ESP m - 4) in wr4 sp (reg_in r m) (set ESP sp m).

Definition lgdt (a : Z) (m : machine) : outcome machine :=
  limit ← rd 2 a m; base ← rd4 (a + 2) m; Ret (with_gdtr (limit, base) m).
Definition ltr (m : machine) : outcome machine := '(d, m') ← load_task (reg_in ECX m mod 65536) m; Ret (with_tr d m').
Definition mov_ds (m : machine) : outcome machine := '(d, m') ← load_data (reg_in ECX m mod 65536) m; Ret (with_ds d m').
Definition mov_es (m : machine) : outcome machine := '(d, m') ← load_data (reg_in ECX m mod 65536) m; Ret (with_es d m').
Definition mov_ss (m : machine) : outcome machine := '(d, m') ← load_data (reg_in ECX m mod 65536) m; Ret (with_ss d m').
(** jmp sel:highLoader *)
Definition jmp_high (sel : Z) (m : machine) : outcome machine :=
  '(d, m') ← load_code sel m; Ret (with_high true (with_cs d m')).

(** ** _loader *)

(** The boot page directory, and paging on. *)
Definition paging_code : list (machine -> outcome machine) := [
  mov ECX (MemKernelPageDirectory - KERNEL_VIRTUAL_BASE);
  mov EDX (kernelPageTable192 - KERNEL_VIRTUAL_BASE);
  or_with EDX 0x3;
  (fun m => wr4 (reg_in ECX m) (reg_in EDX m) m);
  (fun m => wr4 (reg_in ECX m + KERNEL_PAGE_OFFSET) (reg_in EDX m) m);
  (fun m => Ret (with_cr3 (reg_in ECX m) m));
  (fun m => mov ECX (cr0 m) m);
  or_with ECX 0x80000001;
  (fun m => Ret (with_cr0 (reg_in ECX m) m))].

(** The task state segment and its descriptor. *)
Definition task_code : list (machine -> outcome machine) := [
  wr 2 TssSS0 0x10;
  mov ECX TssStart;
  (fun m => wr 1 tss_b1 (low8 (reg_in ECX m)) m);
  (fun m => wr 1 tss_b2 (high8 (reg_in ECX m)) m);
  (fun m => mov ECX (Z.shiftr (reg_in ECX m) 16) m);
  (fun m => wr 1 tss_b3 (low8 (reg_in ECX m)) m);
  (fun m => wr 1 tss_b4 (high8 (reg_in ECX m)) m)].

(** The segment registers. *)
Definition segment_code : list (machine -> outcome machine) := [
  lgdt gdt_ptr;
  mov_cx 0x30; ltr;
  mov_cx 0x10; mov_ds; mov_es; mov_ss;
  jmp_high 0x08].

(** From highLoader to the entry of kMain. *)
Definition high_code : list (machine -> outcome machine) := [
  wr4 MemKernelPageDirectory 0;
  (fun m => mov ECX (cr3 m) m);
  (fun m => Ret (with_cr3 (reg_in ECX m) m));
  mov ESP (startupStack + STACK_SIZE);
  (fun m => mov EBX (u32 (reg_in EBX m + KERNEL_VIRTUAL_BASE)) m);
  push EBX;
  push EAX;
  (fun m => let sp := u32 (reg_in ESP m - 4) in wr4 sp after_kMain (set ESP sp m))].

(** The code can be fetched: its pages are mapped where it runs. *)
Definition fetches (m : machine) : bool :=
  let base := if high m then KERNEL_VIRTUAL_BASE else 0 in
  let first := (loader_first - KERNEL_VIRTUAL_BASE) / 4096 in
  forallb (fun p => bool_decide (translate m (p * 4096 + base) = Some (p * 4096)))
    (seqZ first ((loader_last - KERNEL_VIRTUAL_BASE) / 4096 - first + 1)).

Fixpoint execute (l : list (machine -> outcome machine)) (m : machine) : outcome machine :=
  match l with
  | [] => Ret m
  | i :: l' => if fetches m then m' ← i m; execute l' m' else Fault
  end.

Definition loader (m : machine) : outcome machine := execute (paging_code ++ task_code ++ segment_code ++ high_code) m.

(** ** Input and output from user mode *)

(** User mode has IOPL 0, so the processor asks the bitmap in the task state
    segment, at the offset that its last two bytes hold; it reads two bytes,
    which must be inside of the segment, and a bit that is clear allows the
    port. *)
Definition user_port (p : Z) (m : machine) : outcome bool :=
  if seg_limit (tr m) <? 103 then Ret false
  else
    map ← rd 2 (seg_base (tr m) + 102) m;
    let o := map + p / 8 in
    if seg_limit (tr m) <? o + 1 then Ret false
    else b ← rd 1 (seg_base (tr m) + o) m; Ret (negb (Z.testbit b (p mod 8))).
End Code.

(** ** The image *)

Section Image.
Context {A : Symbols}.

(** Where a symbol of the kernel is in memory. *)
Definition at_phys (x : Z) : Z := x - KERNEL_VIRTUAL_BASE.
Definition inside (x n : Z) : Prop := KERNEL_VIRTUAL_BASE <= x /\ x + n <= KERNEL_VIRTUAL_BASE + 0x400000.
Definition apart (a n b k : Z) : Prop := a + n <= b \/ b + k <= a.

#[local] Abbreviation dir := MemKernelPageDirectory.
#[local] Abbreviation table := kernelPageTable192.
#[local] Abbreviation stack := (startupStack + STACK_SIZE - 12).

(** The kernel is linked into the first 4 MB above its base, and its parts do
    not overlap. *)
Record linked : Prop := {
  li_dir : inside dir 4096 /\ dir mod 4096 = 0;
  li_table : inside table 4096 /\ table mod 4096 = 0;
  li_gdt : inside gdt 56 /\ gdt mod 8 = 0;
  li_tss : inside TssStart 104 /\ TssStart mod 4 = 0;
  li_stack : inside stack 12 /\ startupStack mod 4 = 0;
  li_code : KERNEL_VIRTUAL_BASE <= loader_first <= loader_last /\ inside loader_last 1;
  li_apart : apart dir 4096 table 4096 /\ apart dir 4096 gdt 56 /\ apart dir 4096 TssStart 104 /\ apart dir 4096 stack 12 /\
    apart table 4096 gdt 56 /\ apart table 4096 TssStart 104 /\ apart table 4096 stack 12 /\
    apart gdt 56 TssStart 104 /\ apart gdt 56 stack 12 /\ apart TssStart 104 stack 12
}.

(** The boot loader has put the kernel in memory and has not turned paging on;
    the task state segment is in .bss. *)
Record booted (m : machine) : Prop := {
  bt_paging : Z.testbit (cr0 m) 31 = false;
  bt_low : high m = false;
  bt_table : forall i, 0 <= i < 1024 -> mem m !! (at_phys table + 4 * i) = Some (table_entry i);
  bt_gdt : forall i w, zget gdt_words i = Some w -> mem m !! (at_phys gdt + 4 * i) = Some w;
  bt_tss : forall i, 0 <= i < 26 -> mem m !! (at_phys TssStart + 4 * i) = Some 0
}.
End Image.

(** ** Arithmetic *)

Lemma lor_low k x n : 0 <= k -> x mod 2 ^ k = 0 -> 0 <= n < 2 ^ k -> Z.lor x n = x + n.
Proof.
  intros Hk Hx Hn. pose proof (Z.add_lor_land x n) as H. replace (Z.land x n) with 0 in H; [lia|].
  symmetry. apply Z.bits_inj'. intros i Hi. rewrite Z.land_spec, Z.bits_0. destruct (Z.ltb_spec i k).
  - rewrite <- (Z.mod_pow2_bits_low x k i) by lia. by rewrite Hx, Z.bits_0.
  - rewrite <- (Z.mod_small n (2 ^ k)), Z.mod_pow2_bits_high by lia. apply andb_false_r.
Qed.

Lemma table_entry_value i : 0 <= i -> table_entry i = i * 4096 + 0x103.
Proof.
  intros Hi. unfold table_entry. rewrite Z.shiftl_mul_pow2 by lia. change (2 ^ 12) with 4096.
  apply (lor_low 12); [lia| |lia]. change (2 ^ 12) with 4096. zlia.
Qed.

(** ** Translation and access *)

Section Translation.
Context {A : Symbols} (Hl : linked).

#[local] Abbreviation pd := (at_phys MemKernelPageDirectory).
#[local] Abbreviation pt := (at_phys kernelPageTable192).

(** Paging is on, with the table for the high copy. *)
Definition paged (c0 c3 : Z) (M : gmap Z Z) : Prop :=
  Z.testbit c0 31 = true /\ c3 = pd /\ M !! (pd + 0xC00) = Some (pt + 3) /\
  (forall i, 0 <= i < 1024 -> M !! (pt + 4 * i) = Some (table_entry i)).
(** The low copy is there, too. *)
Definition low_copy (M : gmap Z Z) : Prop := M !! pd = Some (pt + 3).

Lemma paged_keep c0 c3 M p v :
  paged c0 c3 M -> p < pt \/ pt + 4096 <= p -> p <> pd + 0xC00 -> paged c0 c3 (<[p := v]> M).
Proof.
  intros (H1 & H2 & H3 & H4) Hp Hn. split; [done|]. split; [done|]. split; [by rewrite lookup_insert_ne|].
  intros i Hi. rewrite lookup_insert_ne by lia. by apply H4.
Qed.

Lemma translate_by m a :
  Z.testbit (cr0 m) 31 = true -> cr3 m = pd -> mem m !! (pd + 4 * (a / 4194304)) = Some (pt + 3) ->
  (forall i, 0 <= i < 1024 -> mem m !! (pt + 4 * i) = Some (table_entry i)) ->
  translate m a = Some (a mod 4194304).
Proof.
  intros H1 H2 H3 H4. destruct (li_table Hl) as [_ Ht]. unfold translate. rewrite H1, H2, H3.
  assert (pt mod 4096 = 0) as Hp by (unfold at_phys, KERNEL_VIRTUAL_BASE; zlia).
  replace ((pt + 3) mod 2 =? 1) with true by (symmetry; apply Z.eqb_eq; zlia).
  replace ((pt + 3) / 4096 * 4096) with pt by zlia. assert (0 <= a / 4096 mod 1024 < 1024) as Hi by zlia.
  rewrite H4, table_entry_value by lia.
  replace ((a / 4096 mod 1024 * 4096 + 259) mod 2 =? 1) with true by (symmetry; apply Z.eqb_eq; zlia).
  f_equal. replace ((a / 4096 mod 1024 * 4096 + 259) / 4096) with (a / 4096 mod 1024) by zlia. zlia.
Qed.

Lemma translate_high m a : paged (cr0 m) (cr3 m) (mem m) -> 0 <= a < 0x400000 -> translate m (KERNEL_VIRTUAL_BASE + a) = Some a.
Proof.
  intros (H1 & H2 & H3 & H4) Ha. unfold KERNEL_VIRTUAL_BASE. rewrite translate_by; [f_equal; zlia|done|done| |done].
  replace ((3221225472 + a) / 4194304) with 768 by zlia. exact H3.
Qed.

Lemma translate_low m a :
  paged (cr0 m) (cr3 m) (mem m) -> low_copy (mem m) -> 0 <= a < 0x400000 -> translate m a = Some a.
Proof.
  intros (H1 & H2 & H3 & H4) Hlow Ha. rewrite translate_by; [f_equal; zlia|done|done| |done].
  replace (a / 4194304) with 0 by zlia. rewrite Z.mul_0_r, Z.add_0_r. exact Hlow.
Qed.

(** Access through the high copy. *)
Lemma wr4_high m a p v :
  paged (cr0 m) (cr3 m) (mem m) -> a = KERNEL_VIRTUAL_BASE + p -> 0 <= p < 0x400000 -> p mod 4 = 0 ->
  wr4 a v m = Ret (with_mem (<[p := v]> (mem m)) m).
Proof.
  intros Hm -> Hp H4. unfold wr4. rewrite translate_high by done. cbn [or_fault mbind outcome_bind].
  rewrite store_ok; [done|unfold is_u32; lia|done].
Qed.
Lemma rd4_high m a p v :
  paged (cr0 m) (cr3 m) (mem m) -> a = KERNEL_VIRTUAL_BASE + p -> 0 <= p < 0x400000 -> p mod 4 = 0 -> mem m !! p = Some v ->
  rd4 a m = Ret v.
Proof.
  intros Hm -> Hp H4 Hv. unfold rd4. rewrite translate_high by done. cbn [or_fault mbind outcome_bind].
  apply load_ok; [unfold is_u32; lia|done|done].
Qed.

Lemma part_of p o n : p mod 4 = 0 -> 0 <= o -> 0 < n -> o + n <= 4 -> 0 <= p < 0x400000 ->
  u32 (p + o) mod 4 = o /\ u32 (p + o) - o = p.
Proof. intros. unfold u32. zlia. Qed.

Lemma wr_high m a p o n w v :
  paged (cr0 m) (cr3 m) (mem m) -> a = KERNEL_VIRTUAL_BASE + (p + o) -> 0 <= p < 0x3FFFFD -> p mod 4 = 0 ->
  0 <= o -> 0 < n -> o + n <= 4 -> mem m !! p = Some w ->
  wr n a v m = Ret (with_mem (<[p := put_part n o w v]> (mem m)) m).
Proof.
  intros Hm -> Hp H4 Ho Hn Hon Hw. unfold wr. rewrite translate_high by (done || lia). cbn [or_fault mbind outcome_bind].
  unfold store_part. destruct (part_of p o n) as [-> ->]; [done|lia..|]. destruct (Z.leb_spec (o + n) 4); [|lia].
  rewrite (load_ok _ p w) by (done || unfold is_u32; lia). cbn [mbind outcome_bind].
  rewrite store_ok; [done|unfold is_u32; lia|done].
Qed.
Lemma rd_high m a p o n w :
  paged (cr0 m) (cr3 m) (mem m) -> a = KERNEL_VIRTUAL_BASE + (p + o) -> 0 <= p < 0x3FFFFD -> p mod 4 = 0 ->
  0 <= o -> 0 < n -> o + n <= 4 -> mem m !! p = Some w ->
  rd n a m = Ret (w / 2 ^ (8 * o) mod 2 ^ (8 * n)).
Proof.
  intros Hm -> Hp H4 Ho Hn Hon Hw. unfold rd. rewrite translate_high by (done || lia). cbn [or_fault mbind outcome_bind].
  unfold load_part. destruct (part_of p o n) as [-> ->]; [done|lia..|]. destruct (Z.leb_spec (o + n) 4); [|lia].
  rewrite (load_ok _ p w) by (done || unfold is_u32; lia). done.
Qed.

(** ** Fetching *)

Lemma fetches_if m :
  (forall p, 0 <= p < 1024 -> translate m (p * 4096 + if high m then KERNEL_VIRTUAL_BASE else 0) = Some (p * 4096)) -> fetches m = true.
Proof.
  intros H. destruct (li_code Hl) as [Hc [_ Hc']]. unfold fetches. apply forallb_forall. intros p Hp%list_elem_of_In%elem_of_seqZ.
  apply bool_decide_eq_true, H. unfold KERNEL_VIRTUAL_BASE in *. zlia.
Qed.

Lemma fetches_unpaged m : Z.testbit (cr0 m) 31 = false -> high m = false -> fetches m = true.
Proof. intros H1 H2. apply fetches_if. intros p _. unfold translate. rewrite H1, H2. f_equal. lia. Qed.
Lemma fetches_low m : paged (cr0 m) (cr3 m) (mem m) -> low_copy (mem m) -> high m = false -> fetches m = true.
Proof. intros H1 H2 H3. apply fetches_if. intros p Hp. rewrite H3, Z.add_0_r. apply translate_low; [done|done|lia]. Qed.
Lemma fetches_high m : paged (cr0 m) (cr3 m) (mem m) -> high m = true -> fetches m = true.
Proof. intros H1 H2. apply fetches_if. intros p Hp. rewrite H2, Z.add_comm. apply translate_high; [done|lia]. Qed.

Lemma execute_step i l m m1 m2 : fetches m = true -> i m = Ret m1 -> execute l m1 = m2 -> execute (i :: l) m = m2.
Proof. intros H1 H2 H3. simpl. by rewrite H1, H2. Qed.

Lemma wr4_unpaged m p v : Z.testbit (cr0 m) 31 = false -> is_u32 p -> p mod 4 = 0 -> wr4 p v m = Ret (with_mem (<[p := v]> (mem m)) m).
Proof. intros H Hp H4. unfold wr4, translate. rewrite H. cbn [or_fault mbind outcome_bind]. by rewrite store_ok. Qed.

(** ** The phases *)

#[local] Abbreviation pg := (at_phys gdt).
#[local] Abbreviation ps := (at_phys TssStart).

(** What changes only registers. *)
Ltac registers := unfold mov, mov_cx, or_with, set, reg_in; simpl; reflexivity.
Ltac places := destruct (li_dir Hl) as [[? ?] ?], (li_table Hl) as [[? ?] ?], (li_gdt Hl) as [[? ?] ?], (li_tss Hl) as [[? ?] ?],
  (li_stack Hl) as [[? ?] ?], (li_apart Hl) as (? & ? & ? & ? & ? & ? & ? & ? & ? & ?);
  unfold inside, apart, at_phys, KERNEL_VIRTUAL_BASE, STACK_SIZE in *.

Definition paging_memory (M : gmap Z Z) : gmap Z Z := <[pd + 0xC00 := pt + 3]> (<[pd := pt + 3]> M).

Lemma paging_runs l a c d b sp bp si di c0 c3 gd t s1 s2 s3 s4 M r :
  Z.testbit c0 31 = false ->
  execute l (mkMachine (mkGpr a (Z.lor c0 0x80000001) (pt + 3) b sp bp si di) (Z.lor c0 0x80000001) pd gd t s1 s2 s3 s4 false (paging_memory M)) = r ->
  execute (paging_code ++ l) (mkMachine (mkGpr a c d b sp bp si di) c0 c3 gd t s1 s2 s3 s4 false M) = r.
Proof.
  intros H0 Hr. unfold paging_code. cbn [app].
  do 3 (eapply execute_step; [by apply fetches_unpaged|registers|]).
  eapply execute_step; [by apply fetches_unpaged|apply wr4_unpaged; [done|unfold reg_in; simpl; unfold is_u32; places; lia|unfold reg_in; simpl; places; zlia]|].
  eapply execute_step; [by apply fetches_unpaged|apply wr4_unpaged; [done|..]; change KERNEL_PAGE_OFFSET with 0xC00; unfold reg_in, is_u32; simpl; places; zlia|].
  do 4 (eapply execute_step; [by apply fetches_unpaged|registers|]).
  rewrite <- Hr. unfold with_mem, set, reg_in. simpl. change KERNEL_PAGE_OFFSET with 0xC00.
  assert (Z.lor (kernelPageTable192 - KERNEL_VIRTUAL_BASE) 3 = pt + 3) as ->; [|done].
  apply (lor_low 12); [lia| |lia]. change (2 ^ 12) with 4096. places. zlia.
Qed.

(** Facts about memory after stores elsewhere. *)
Ltac machine_fields := cbn [mem cr0 cr3 gdtr high regs with_mem with_regs with_cr3 with_gdtr with_tr with_cs with_ds with_es with_ss with_high
  set reg_in set_reg get_reg r_eax r_ecx r_edx r_ebx r_esp].
Ltac elsewhere := machine_fields; repeat (rewrite lookup_insert_ne by (places; lia)).
Ltac still_paged := machine_fields; repeat (apply paged_keep; [|places; lia|places; lia]); assumption.
Ltac still_low := unfold low_copy; elsewhere; assumption.
Ltac fetch_low := apply fetches_low; [still_paged|still_low|reflexivity].

(** The words of the descriptor of the task state segment. *)
Definition task_word0 : Z := 0x68 + TssStart mod 65536 * 65536.
Definition task_word1 : Z := 0x8900 + TssStart / 65536 mod 256 + TssStart / 16777216 * 16777216.
Definition task_memory (M : gmap Z Z) : gmap Z Z :=
  <[pg + 0x34 := task_word1]> (<[pg + 0x30 := task_word0]> (<[ps + 8 := 0x10]> M)).

(** Two bytes put beside each other into a word. *)
Lemma put_two o1 w x y :
  (o1 = 0 \/ o1 = 2) -> 0 <= w < 65536 -> w mod 256 = 0 \/ o1 = 2 -> 0 <= x < 256 -> 0 <= y < 256 ->
  put_part 1 3 (put_part 1 o1 w x) y = w + x * 256 ^ o1 + y * 16777216.
Proof.
  intros Ho Hw Hw0 Hx Hy. unfold put_part. change (2 ^ (8 * 1)) with 256. change (2 ^ (8 * 3)) with 16777216.
  change (2 ^ (8 * (3 + 1))) with 4294967296. rewrite (Z.mod_small x), (Z.mod_small y) by lia.
  set (v := w mod _ + x * _ + w / _ * _). assert (v = w + x * 256 ^ o1 /\ 0 <= v < 16777216) as [-> Hv]; [|rewrite Z.mod_small, Z.div_small by lia; lia].
  unfold v. destruct Ho as [-> | ->].
  - change (2 ^ (8 * 0)) with 1. change (2 ^ (8 * (0 + 1))) with 256. change (256 ^ 0) with 1. destruct Hw0 as [Hw0|]; [|lia]. rewrite Z.mod_1_r.
    replace (w / 256 * 256) with w by zlia. lia.
  - change (2 ^ (8 * 2)) with 65536. change (2 ^ (8 * (2 + 1))) with 16777216. change (256 ^ 2) with 65536.
    rewrite (Z.mod_small w), (Z.div_small w) by lia. lia.
Qed.

Lemma task_word0_stores : put_part 1 3 (put_part 1 2 0x68 (low8 TssStart)) (high8 TssStart) = task_word0.
Proof.
  unfold low8, high8, task_word0. rewrite put_two by (try (by right); zlia). change (256 ^ 2) with 65536.
  replace (TssStart mod 65536) with (TssStart mod 256 + 256 * (TssStart / 256 mod 256)) by zlia. lia.
Qed.
Lemma task_word1_stores :
  put_part 1 3 (put_part 1 0 0x8900 (low8 (TssStart / 2 ^ 16))) (high8 (TssStart / 2 ^ 16)) = task_word1.
Proof.
  change (2 ^ 16) with 65536. unfold low8, high8, task_word1. rewrite put_two by (try (by left); zlia).
  change (256 ^ 0) with 1. rewrite Z.div_div by lia. change (65536 * 256) with 16777216.
  rewrite (Z.mod_small (TssStart / 16777216)); [lia|]. destruct (li_tss Hl) as [[? ?] _]. unfold KERNEL_VIRTUAL_BASE in *. zlia.
Qed.

Lemma task_runs l a c d b sp bp si di c0 c3 gd t s1 s2 s3 s4 M r :
  paged c0 c3 M -> low_copy M -> M !! (ps + 8) = Some 0 -> M !! (pg + 0x30) = Some 0x68 -> M !! (pg + 0x34) = Some 0x8900 ->
  execute l (mkMachine (mkGpr a (TssStart / 65536) d b sp bp si di) c0 c3 gd t s1 s2 s3 s4 false (task_memory M)) = r ->
  execute (task_code ++ l) (mkMachine (mkGpr a c d b sp bp si di) c0 c3 gd t s1 s2 s3 s4 false M) = r.
Proof.
  intros Hp Hlow Hs Hg0 Hg1 Hr. unfold task_code. cbn [app].
  eapply execute_step; [fetch_low|eapply (wr_high _ _ (ps + 8) 0 2 0); [still_paged|unfold TssSS0; places; lia|places; lia|places; zlia|lia..|exact Hs]|].
  eapply execute_step; [fetch_low|registers|]. cbn [with_mem mem].
  eapply execute_step; [fetch_low|eapply (wr_high _ _ (pg + 0x30) 2 1 0x68);
    [still_paged|unfold tss_b1; places; lia|places; lia|places; zlia|lia..|elsewhere; exact Hg0]|].
  eapply execute_step; [fetch_low|eapply (wr_high _ _ (pg + 0x30) 3 1);
    [still_paged|unfold tss_b2; places; lia|places; lia|places; zlia|lia..|apply lookup_insert_eq]|].
  eapply execute_step; [fetch_low|registers|]. cbn [with_mem mem].
  eapply execute_step; [fetch_low|eapply (wr_high _ _ (pg + 0x34) 0 1 0x8900);
    [still_paged|unfold tss_b3; places; lia|places; lia|places; zlia|lia..|elsewhere; exact Hg1]|].
  eapply execute_step; [fetch_low|eapply (wr_high _ _ (pg + 0x34) 3 1);
    [still_paged|unfold tss_b4; places; lia|places; lia|places; zlia|lia..|apply lookup_insert_eq]|].
  rewrite <- Hr. unfold reg_in. cbn -[Z.div Z.modulo Z.mul Z.add Z.pow put_part task_memory low8 high8].
  rewrite !insert_insert_eq, Z.shiftr_div_pow2, task_word0_stores, task_word1_stores by lia. done.
Qed.

(** Loading a descriptor through the high copy. *)
Lemma load_descriptor_high mask kind mark sel o m w0 w1 :
  paged (cr0 m) (cr3 m) (mem m) -> gdtr m = (0x37, gdt) -> sel / 8 * 8 = o -> 0 <= o <= 0x30 ->
  mem m !! (pg + o) = Some w0 -> mem m !! (pg + (o + 4)) = Some w1 -> Z.land w1 mask = kind ->
  load_descriptor mask kind mark sel m =
    Ret (mkSegment sel (desc_base w0 w1) (desc_limit w0 w1), with_mem (<[pg + (o + 4) := Z.lor w1 mark]> (mem m)) m).
Proof.
  intros Hp Hg Ho Hr H0 H1 Hk. unfold load_descriptor. rewrite Hg, Ho. destruct (Z.ltb_spec 0x37 (o + 7)); [lia|].
  assert (o mod 4 = 0) as Ho4 by zlia.
  assert ((pg + o) mod 4 = 0 /\ (pg + (o + 4)) mod 4 = 0 /\ 0 <= pg + o /\ pg + (o + 4) < 0x400000) as (Hm0 & Hm1 & Hb0 & Hb1).
  { clear H0 H1 Hk. destruct (li_gdt Hl) as [[? ?] ?]. unfold at_phys, KERNEL_VIRTUAL_BASE in *. zlia. }
  rewrite (rd4_high m (gdt + o) (pg + o) w0) by (try assumption; unfold at_phys, KERNEL_VIRTUAL_BASE in *; lia). cbn [mbind outcome_bind].
  rewrite (rd4_high m (gdt + o + 4) (pg + (o + 4)) w1) by (try assumption; unfold at_phys, KERNEL_VIRTUAL_BASE in *; lia). cbn [mbind outcome_bind].
  rewrite Hk, Z.eqb_refl, (wr4_high m (gdt + o + 4) (pg + (o + 4))) by (try assumption; unfold at_phys, KERNEL_VIRTUAL_BASE in *; lia). done.
Qed.

Lemma task_word1_kind : Z.land task_word1 0x9F00 = 0x8900.
Proof.
  destruct (li_tss Hl) as [[? ?] _]. unfold KERNEL_VIRTUAL_BASE in *. unfold task_word1.
  set (x := TssStart / 65536 mod 256). set (y := TssStart / 16777216). assert (0 <= x < 256) by (unfold x; zlia). assert (0 <= y < 256) by (unfold y; zlia).
  replace (0x8900 + x + y * 16777216) with (Z.lor (y * 16777216) (Z.lor 0x8900 x)).
  - rewrite !Z.land_lor_distr_l. replace (Z.land (y * 16777216) 0x9F00) with 0; [replace (Z.land x 0x9F00) with 0; [done|]|].
    + symmetry. apply Z.bits_inj'. intros i Hi. rewrite Z.land_spec, Z.bits_0. destruct (Z.ltb_spec i 8).
      * rewrite <- (Z.mod_pow2_bits_low 0x9F00 8 i) by lia. change (0x9F00 mod 2 ^ 8) with 0. by rewrite Z.bits_0, andb_false_r.
      * rewrite <- (Z.mod_small x (2 ^ 8)), Z.mod_pow2_bits_high by lia. done.
    + symmetry. apply Z.bits_inj'. intros i Hi. rewrite Z.land_spec, Z.bits_0. destruct (Z.ltb_spec i 24).
      * change 16777216 with (2 ^ 24). by rewrite Z.mul_pow2_bits_low by lia.
      * rewrite <- (Z.mod_small 0x9F00 (2 ^ 24)), Z.mod_pow2_bits_high by lia. apply andb_false_r.
  - rewrite (lor_low 8 0x8900 x), (lor_low 24) by (try lia; try reflexivity; change (2 ^ 24) with 16777216; zlia). lia.
Qed.

(** The task state segment as its descriptor gives it. *)
Definition task_segment : segment := mkSegment 0x30 TssStart 0x68.
Lemma task_segment_loaded : mkSegment 0x30 (desc_base task_word0 task_word1) (desc_limit task_word0 task_word1) = task_segment.
Proof.
  destruct (li_tss Hl) as [[? ?] _]. unfold KERNEL_VIRTUAL_BASE in *. unfold task_segment, desc_base, desc_limit, task_word0, task_word1.
  set (l := TssStart mod 65536). set (x := TssStart / 65536 mod 256). set (y := TssStart / 16777216).
  assert (TssStart = l + x * 65536 + y * 16777216) as E by (unfold l, x, y; zlia).
  assert (0 <= l < 65536) by (unfold l; zlia). assert (0 <= x < 256) by (unfold x; zlia). assert (0 <= y < 256) by (unfold y; zlia).
  clearbody l x y.
  replace ((104 + l * 65536) / 65536) with l by zlia. replace ((0x8900 + x + y * 16777216) mod 256) with x by zlia.
  replace ((0x8900 + x + y * 16777216) / 16777216) with y by zlia. replace ((104 + l * 65536) mod 65536) with 104 by zlia.
  replace ((0x8900 + x + y * 16777216) / 65536 mod 16) with 0 by zlia.
  replace ((0x8900 + x + y * 16777216) / 8388608 mod 2 =? 1) with false by (symmetry; apply Z.eqb_neq; zlia).
  f_equal. lia.
Qed.

Definition flat_code : segment := mkSegment 0x08 0 0xFFFFFFFF.
Definition flat_data : segment := mkSegment 0x10 0 0xFFFFFFFF.
Definition segment_memory (M : gmap Z Z) : gmap Z Z :=
  <[pg + 0xC := 0x00CF9B00]> (<[pg + 0x14 := 0x00CF9300]> (<[pg + 0x34 := Z.lor task_word1 0x200]> M)).

(** What the descriptor table holds when it is loaded. *)
Record table_ready (M : gmap Z Z) : Prop := {
  tr_ptr : M !! pg = Some 0x370000 /\ M !! (pg + 4) = Some gdt;
  tr_code : M !! (pg + 8) = Some 0xFFFF /\ M !! (pg + 0xC) = Some 0x00CF9A00;
  tr_data : M !! (pg + 0x10) = Some 0xFFFF /\ M !! (pg + 0x14) = Some 0x00CF9200;
  tr_task : M !! (pg + 0x30) = Some task_word0 /\ M !! (pg + 0x34) = Some task_word1
}.

Lemma segments_run l a c d b sp bp si di c0 c3 gd t s1 s2 s3 s4 M r :
  paged c0 c3 M -> low_copy M -> table_ready M -> 0 <= c < 65536 ->
  execute l (mkMachine (mkGpr a 0x10 d b sp bp si di) c0 c3 (0x37, gdt) task_segment flat_code flat_data flat_data flat_data true
    (segment_memory M)) = r ->
  execute (segment_code ++ l) (mkMachine (mkGpr a c d b sp bp si di) c0 c3 gd t s1 s2 s3 s4 false M) = r.
Proof.
  intros Hp Hlow [[T1 T2] [T3 T4] [T5 T6] [T7 T8]] Hc Hr. unfold segment_code. cbn [app].
  eapply execute_step; [fetch_low| |].
  { unfold lgdt. rewrite (rd_high _ _ pg 2 2 0x370000) by (try assumption; try lia; unfold gdt_ptr; places; zlia). cbn [mbind outcome_bind].
    rewrite (rd4_high _ _ (pg + 4) gdt) by (try assumption; unfold gdt_ptr; places; zlia). reflexivity. }
  eapply execute_step; [fetch_low|unfold mov_cx, set, reg_in; cbn [regs get_reg r_ecx]; rewrite (Z.div_small c) by lia; reflexivity|].
  eapply execute_step; [fetch_low| |].
  { unfold ltr, load_task. erewrite (load_descriptor_high _ _ _ _ 0x30); [|still_paged|reflexivity|reflexivity|lia|exact T7|exact T8|exact task_word1_kind].
    reflexivity. }
  eapply execute_step; [fetch_low|reflexivity|].
  eapply execute_step; [fetch_low| |].
  { unfold mov_ds, load_data. erewrite (load_descriptor_high _ _ _ _ 0x10); [|still_paged|reflexivity|reflexivity|lia|elsewhere; exact T5|elsewhere; exact T6|reflexivity].
    reflexivity. }
  eapply execute_step; [fetch_low| |].
  { unfold mov_es, load_data. erewrite (load_descriptor_high _ _ _ _ 0x10); [|still_paged|reflexivity|reflexivity|lia|elsewhere; exact T5|apply lookup_insert_eq|reflexivity].
    reflexivity. }
  eapply execute_step; [fetch_low| |].
  { unfold mov_ss, load_data. erewrite (load_descriptor_high _ _ _ _ 0x10); [|still_paged|reflexivity|reflexivity|lia|elsewhere; exact T5|apply lookup_insert_eq|reflexivity].
    reflexivity. }
  eapply execute_step; [fetch_low| |].
  { unfold jmp_high, load_code. erewrite (load_descriptor_high _ _ _ _ 8); [|still_paged|reflexivity|reflexivity|lia|elsewhere; exact T3|elsewhere; exact T4|reflexivity].
    reflexivity. }
  rewrite <- Hr. machine_fields. change ((0 * 65536 + 48) mod 65536) with 0x30. rewrite task_segment_loaded, !insert_insert_eq.
  reflexivity.
Qed.

(** From highLoader on. *)
#[local] Abbreviation pk := (at_phys (startupStack + STACK_SIZE - 12)).
Ltac fetch_high := apply fetches_high; [still_paged|reflexivity].

Definition call_memory (a b : Z) (M : gmap Z Z) : gmap Z Z :=
  <[pk := after_kMain]> (<[pk + 4 := a]> (<[pk + 8 := b]> (<[pd := 0]> M))).

Lemma high_runs a c d b sp bp si di c0 c3 gd t s1 s2 s3 s4 M :
  paged c0 c3 M ->
  execute high_code (mkMachine (mkGpr a c d b sp bp si di) c0 c3 gd t s1 s2 s3 s4 true M) =
  Ret (mkMachine (mkGpr a c3 d (u32 (b + KERNEL_VIRTUAL_BASE)) (startupStack + STACK_SIZE - 12) bp si di) c0 c3 gd t s1 s2 s3 s4 true
    (call_memory a (u32 (b + KERNEL_VIRTUAL_BASE)) M)).
Proof.
  intros Hp. assert (forall k, 0 <= k <= 12 -> u32 (startupStack + STACK_SIZE - k) = startupStack + STACK_SIZE - k) as Hu.
  { intros k Hk. places. unfold u32. zlia. }
  assert (u32 (startupStack + STACK_SIZE - 4 - 4) = startupStack + STACK_SIZE - 8 /\ u32 (startupStack + STACK_SIZE - 8 - 4) = startupStack + STACK_SIZE - 12)
    as [Hu8 Hu12] by (rewrite <- !Z.sub_add_distr; split; apply Hu; lia).
  unfold high_code.
  eapply execute_step; [fetch_high|apply (wr4_high _ _ pd); [still_paged|places; lia|places; lia|places; zlia]|].
  do 4 (eapply execute_step; [fetch_high|unfold mov; machine_fields; reflexivity|]).
  eapply execute_step; [fetch_high|unfold push; machine_fields; rewrite Hu by lia; apply (wr4_high _ _ (pk + 8)); [still_paged|places; lia|places; lia|places; zlia]|].
  eapply execute_step; [fetch_high|unfold push; machine_fields; rewrite Hu8; apply (wr4_high _ _ (pk + 4)); [still_paged|places; lia|places; lia|places; zlia]|].
  eapply execute_step; [fetch_high|machine_fields; rewrite Hu12; apply (wr4_high _ _ pk); [still_paged|places; lia|places; lia|places; zlia]|].
  cbn [execute]. machine_fields. reflexivity.
Qed.

(** ** The loader as a whole *)

Definition final_memory (a b : Z) (M : gmap Z Z) : gmap Z Z :=
  call_memory a b (segment_memory (task_memory (paging_memory M))).

Lemma loader_runs m :
  booted m ->
  loader m = Ret (mkMachine
    (mkGpr (r_eax (regs m)) pd (pt + 3) (u32 (r_ebx (regs m) + KERNEL_VIRTUAL_BASE)) (startupStack + STACK_SIZE - 12)
      (r_ebp (regs m)) (r_esi (regs m)) (r_edi (regs m)))
    (Z.lor (cr0 m) 0x80000001) pd (0x37, gdt) task_segment flat_code flat_data flat_data flat_data true
    (final_memory (r_eax (regs m)) (u32 (r_ebx (regs m) + KERNEL_VIRTUAL_BASE)) (mem m))).
Proof.
  intros [B1 B2 B3 B4 B5]. destruct m as [[a c d b sp bp si di] c0 c3 gd t s1 s2 s3 s4 h M]. cbn [cr0 high mem regs r_eax r_ebx r_ebp r_esi r_edi] in *. subst h.
  assert (forall i w, zget gdt_words i = Some w -> paging_memory M !! (pg + 4 * i) = Some w) as HG.
  { intros i w Hi. pose proof (zget_range _ _ _ Hi) as Hr. change (zlen gdt_words) with 14 in Hr. unfold paging_memory. elsewhere. by apply B4. }
  assert (paged (Z.lor c0 0x80000001) pd (paging_memory M)) as Hp.
  { split; [rewrite Z.lor_spec; apply orb_true_r|]. split; [done|]. split; [apply lookup_insert_eq|].
    intros i Hi. unfold paging_memory. elsewhere. by apply B3. }
  assert (low_copy (paging_memory M)) as Hlow by (unfold low_copy, paging_memory; elsewhere; apply lookup_insert_eq).
  unfold loader. apply paging_runs; [done|]. apply task_runs; [done|done| |exact (HG 12 _ eq_refl)|exact (HG 13 _ eq_refl)|].
  { unfold paging_memory. elsewhere. exact (B5 2 ltac:(lia)). }
  apply segments_run.
  - unfold task_memory. still_paged.
  - unfold task_memory. still_low.
  - assert (forall i w, zget gdt_words i = Some w -> i < 12 -> task_memory (paging_memory M) !! (pg + 4 * i) = Some w) as HT.
    { intros i w Hi Hlt. pose proof (zget_range _ _ _ Hi) as Hr. unfold task_memory. elsewhere. by apply HG. }
    split; (split; [|]).
    + exact (HT 0 _ eq_refl ltac:(lia)) || (rewrite <- (Z.add_0_r pg); exact (HT 0 _ eq_refl ltac:(lia))).
    + exact (HT 1 _ eq_refl ltac:(lia)).
    + exact (HT 2 _ eq_refl ltac:(lia)).
    + exact (HT 3 _ eq_refl ltac:(lia)).
    + exact (HT 4 _ eq_refl ltac:(lia)).
    + exact (HT 5 _ eq_refl ltac:(lia)).
    + unfold task_memory. elsewhere. apply lookup_insert_eq.
    + unfold task_memory. apply lookup_insert_eq.
  - places. zlia.
  - rewrite high_runs; [done|]. unfold segment_memory, task_memory. still_paged.
Qed.

Lemma final_paged a b m : booted m -> paged (Z.lor (cr0 m) 0x80000001) pd (final_memory a b (mem m)).
Proof.
  intros Hb. unfold final_memory, call_memory, segment_memory, task_memory. repeat (apply paged_keep; [|places; lia|places; lia]).
  split; [rewrite Z.lor_spec; apply orb_true_r|]. split; [done|]. split; [apply lookup_insert_eq|].
  intros i Hi. unfold paging_memory. elsewhere. by apply (bt_table _ Hb).
Qed.

(** What the loader leaves alone. *)
Lemma final_elsewhere a b M p :
  ~ (pd <= p < pd + 4096) -> ~ (pg <= p < pg + 56) -> p <> ps + 8 -> ~ (pk <= p < pk + 12) -> final_memory a b M !! p = M !! p.
Proof.
  intros H1 H2 H3 H4. unfold final_memory, call_memory, segment_memory, task_memory, paging_memory.
  rewrite !lookup_insert_ne by lia. done.
Qed.

(** What kMain finds. *)
Record handed_over (m m' : machine) : Prop := {
  ho_mapped : forall a, 0 <= a < 0x400000 -> translate m' (KERNEL_VIRTUAL_BASE + a) = Some a;
  ho_unmapped : forall a, 0 <= a < 0x400000 -> translate m' a = None;
  ho_call : high m' = true /\ exists sp, reg_in ESP m' = sp /\ sp = startupStack + STACK_SIZE - 12 /\
    rd4 sp m' = Ret after_kMain /\ rd4 (sp + 4) m' = Ret (reg_in EAX m) /\ rd4 (sp + 8) m' = Ret (u32 (reg_in EBX m + KERNEL_VIRTUAL_BASE));
  ho_segments : cs m' = flat_code /\ ds m' = flat_data /\ es m' = flat_data /\ ss m' = flat_data;
  ho_task : tr m' = task_segment /\ rd4 TssSS0 m' = Ret 0x10;
  ho_user_segments : gdtr m' = (0x37, gdt) /\ forall sel, sel = 0x18 \/ sel = 0x20 -> exists w0 w1,
    rd4 (gdt + sel) m' = Ret w0 /\ rd4 (gdt + sel + 4) m' = Ret w1 /\ desc_base w0 w1 = 0 /\ desc_limit w0 w1 = KERNEL_VIRTUAL_BASE - 1;
  ho_frame : forall p, ~ (pd <= p < pd + 4096) -> ~ (pg <= p < pg + 56) -> p <> ps + 8 -> ~ (pk <= p < pk + 12) -> mem m' !! p = mem m !! p
}.

(** C12: the loader ends in a call of kMain with the multiboot code and the
    address of the multiboot information in the high copy as its arguments, on
    the startup stack, with the first 4 MB of memory at 0xC0000000 and no
    longer at 0, flat kernel segments, user segments that end below the
    kernel, and a task register for the task state segment; other memory is as
    it was. *)
Theorem loader_hands_over m : booted m -> exists m', loader m = Ret m' /\ handed_over m m'.
Proof.
  intros Hb. eexists. split; [by apply loader_runs|].
  pose proof (final_paged (r_eax (regs m)) (u32 (r_ebx (regs m) + KERNEL_VIRTUAL_BASE)) m Hb) as Hp.
  set (M := final_memory _ _ _) in *.
  assert (M !! pk = Some after_kMain /\ M !! (pk + 4) = Some (r_eax (regs m)) /\ M !! (pk + 8) = Some (u32 (r_ebx (regs m) + KERNEL_VIRTUAL_BASE)))
    as (Hk0 & Hk1 & Hk2).
  { unfold M, final_memory, call_memory. split_and!; repeat (rewrite lookup_insert_ne by lia); apply lookup_insert_eq. }
  assert (M !! (ps + 8) = Some 0x10) as Hs.
  { unfold M, final_memory, call_memory, segment_memory, task_memory. elsewhere. apply lookup_insert_eq. }
  assert (forall i w, zget gdt_words i = Some w -> 6 <= i < 12 -> M !! (pg + 4 * i) = Some w) as Hg.
  { intros i w Hi Hr. unfold M, final_memory, call_memory, segment_memory, task_memory, paging_memory. elsewhere. by apply (bt_gdt _ Hb). }
  split; cbn [mem cr0 cr3 high cs ds es ss tr gdtr].
  - intros a Ha. by apply translate_high.
  - intros a Ha. unfold translate. cbn [mem cr0 cr3]. destruct Hp as (-> & _). replace (a / 4194304) with 0 by zlia.
    rewrite Z.mul_0_r, Z.add_0_r. replace (M !! pd) with (Some 0); [done|]. symmetry.
    unfold M, final_memory, call_memory. elsewhere. apply lookup_insert_eq.
  - split; [done|]. eexists. split; [reflexivity|]. split; [reflexivity|]. cbn [reg_in regs get_reg r_esp r_eax r_ebx].
    split; [apply (rd4_high _ _ pk); [exact Hp|places; lia|places; lia|places; zlia|exact Hk0]|].
    split; [apply (rd4_high _ _ (pk + 4)); [exact Hp|places; lia|places; lia|places; zlia|exact Hk1]|].
    apply (rd4_high _ _ (pk + 8)); [exact Hp|places; lia|places; lia|places; zlia|exact Hk2].
  - done.
  - split; [done|]. apply (rd4_high _ _ (ps + 8)); [exact Hp|unfold TssSS0; places; lia|places; lia|places; zlia|exact Hs].
  - split; [done|]. assert (forall i w, zget gdt_words i = Some w -> 6 <= i < 12 -> rd4 (gdt + 4 * i) (mkMachine
      (mkGpr (r_eax (regs m)) pd (pt + 3) (u32 (r_ebx (regs m) + KERNEL_VIRTUAL_BASE)) (startupStack + STACK_SIZE - 12)
        (r_ebp (regs m)) (r_esi (regs m)) (r_edi (regs m)))
      (Z.lor (cr0 m) 0x80000001) pd (0x37, gdt) task_segment flat_code flat_data flat_data flat_data true M) = Ret w) as Hr.
    { intros i w Hi Hw. apply (rd4_high _ _ (pg + 4 * i)); [exact Hp|places; lia|places; lia|places; zlia|by apply Hg]. }
    intros sel [-> | ->]; do 2 eexists; rewrite <- Z.add_assoc.
    + split; [exact (Hr 6 _ eq_refl ltac:(lia))|]. split; [exact (Hr 7 _ eq_refl ltac:(lia))|]. split; reflexivity.
    + split; [exact (Hr 8 _ eq_refl ltac:(lia))|]. split; [exact (Hr 9 _ eq_refl ltac:(lia))|]. split; reflexivity.
  - intros p H1 H2 H3 H4. by apply final_elsewhere.
Qed.

(** The scheduler can enter a kernel stack. *)
Lemma stack_entered m e : booted m -> exists m' m'', loader m = Ret m' /\ wr4 TssESP0 e m' = Ret m''.
Proof.
  intros Hb. eexists _, _. split; [by apply loader_runs|].
  apply (wr4_high _ _ (ps + 4)); [by apply final_paged|unfold TssESP0; places; lia|places; lia|places; zlia].
Qed.

(** The last words of the task state segment stay zero: the bitmap of ports
    begins at the start of the segment, and user programs may use the ports
    whose bits are in it - the keyboard's, the clock's and the disk's among
    them - whatever stack the scheduler enters there. *)
Theorem user_ports_open m m' e m'' p :
  booted m -> loader m = Ret m' -> wr4 TssESP0 e m' = Ret m'' -> 96 <= p < 824 -> user_port p m'' = Ret true.
Proof.
  intros Hb E Ew Hp. rewrite (loader_runs m Hb) in E. injection E as <-.
  pose proof (final_paged (r_eax (regs m)) (u32 (r_ebx (regs m) + KERNEL_VIRTUAL_BASE)) m Hb) as HP.
  set (M := final_memory _ _ _) in *.
  rewrite (wr4_high _ _ (ps + 4)) in Ew; [|exact HP|unfold TssESP0; places; lia|places; lia|places; zlia]. injection Ew as <-.
  assert (forall i, 3 <= i < 26 -> <[ps + 4 := e]> M !! (ps + 4 * i) = Some 0) as H0.
  { intros i Hi. rewrite lookup_insert_ne by lia. unfold M. rewrite final_elsewhere by (places; lia). apply (bt_tss _ Hb). lia. }
  assert (paged (Z.lor (cr0 m) 0x80000001) pd (<[ps + 4 := e]> M)) as HP' by (apply paged_keep; [exact HP|places; lia|places; lia]).
  assert (0 <= ps /\ ps + 104 <= 0x400000 /\ ps mod 4 = 0) as (Hs0 & Hs1 & Hs4).
  { destruct (li_tss Hl) as [[? ?] ?]. unfold at_phys, KERNEL_VIRTUAL_BASE in *. zlia. }
  unfold user_port. machine_fields. cbn [tr task_segment seg_limit seg_base].
  change (0x68 <? 103) with false. cbv iota.
  rewrite (rd_high _ _ (ps + 4 * 25) 2 2 0); [|exact HP'|unfold at_phys, KERNEL_VIRTUAL_BASE; lia|lia|zlia|lia..|apply H0; lia].
  cbn [mbind outcome_bind]. change (0 / 2 ^ (8 * 2) mod 2 ^ (8 * 2)) with 0. rewrite Z.add_0_l.
  destruct (Z.ltb_spec 0x68 (p / 8 + 1)) as [Hx|_]; [zlia|].
  rewrite (rd_high _ _ (ps + 4 * (p / 32)) (p / 8 mod 4) 1 0); [|exact HP'| | | | | | |apply H0; zlia].
  - cbn [mbind outcome_bind]. rewrite Z.div_0_l by (pose proof (Z.pow_pos_nonneg 2 (8 * (p / 8 mod 4))); zlia).
    rewrite Z.mod_0_l by done. by rewrite Z.bits_0.
  - unfold at_phys, KERNEL_VIRTUAL_BASE. zlia.
  - zlia.
  - zlia.
  - zlia.
  - lia.
  - zlia.
Qed.
End Translation.

(** ** A small kernel *)

#[local] Instance small_symbols : Symbols :=
  {| MemKernelPageDirectory := 0xC0120000; kernelPageTable192 := 0xC0110000; gdt := 0xC0130000; TssStart := 0xC0131000;
     startupStack := 0xC0140000; loader_first := 0xC0111000; loader_last := 0xC01110FF; after_kMain := 0xC01110F0 |}.

Fixpoint words_from (a : Z) (l : list Z) (M : gmap Z Z) : gmap Z Z :=
  match l with [] => M | w :: l' => <[a := w]> (words_from (a + 4) l' M) end.

(** The boot loader has left its code in EAX and a table at 0x10000. *)
Definition small_machine : machine :=
  let flat := mkSegment 0x18 0 0xFFFFFFFF in
  mkMachine (mkGpr 0x2BADB002 0 0 0x10000 0 0 0 0) 0x11 0 (0, 0) (mkSegment 0 0 0) flat flat flat flat false
    (words_from 0x110000 (table_entry <$> seqZ 0 1024) (words_from 0x130000 gdt_words (words_from 0x131000 (replicate 26 0) ∅))).

Lemma small_linked : linked.
Proof. split; repeat split; try (vm_compute; congruence); try (by left); by right. Qed.

Lemma words_from_other l : forall a M p, p < a \/ a + 4 * zlen l <= p -> words_from a l M !! p = M !! p.
Proof.
  induction l as [|w l IH]; intros a M p Hp; [done|]. change (zlen (w :: l)) with (Z.of_nat (S (length l))) in Hp. simpl.
  rewrite lookup_insert_ne by lia. apply IH. unfold zlen. lia.
Qed.
Lemma words_from_at l : forall a M i w, zget l i = Some w -> words_from a l M !! (a + 4 * i) = Some w.
Proof.
  induction l as [|x l IH]; intros a M i w Hi; pose proof (zget_range _ _ _ Hi) as Hr; [change (zlen []) with 0 in Hr; lia|]. simpl.
  destruct (decide (i = 0)) as [->|Hn].
  - rewrite Z.mul_0_r, Z.add_0_r, lookup_insert_eq. exact Hi.
  - rewrite lookup_insert_ne by lia. replace (a + 4 * i) with (a + 4 + 4 * (i - 1)) by lia. apply IH. unfold zget in *.
    destruct (Z.ltb_spec i 0); [lia|]. destruct (Z.ltb_spec (i - 1) 0); [lia|].
    by replace (Z.to_nat i) with (S (Z.to_nat (i - 1))) in Hi by lia.
Qed.

Lemma small_booted : booted small_machine.
Proof.
  assert (zlen (table_entry <$> seqZ 0 1024) = 1024) as Hz by (unfold zlen; rewrite length_fmap, length_seqZ; reflexivity).
  split; [reflexivity|reflexivity|..]; cbn [mem small_machine].
  - intros i Hi. apply words_from_at. unfold zget. destruct (Z.ltb_spec i 0); [lia|].
    rewrite list_lookup_fmap, lookup_seqZ_lt by lia. simpl. by rewrite Z2Nat.id by lia.
  - intros i w Hi. rewrite words_from_other; [by apply words_from_at|]. rewrite Hz. pose proof (zget_range _ _ _ Hi). right.
    unfold at_phys, KERNEL_VIRTUAL_BASE. simpl. lia.
  - intros i Hi. rewrite words_from_other by (rewrite Hz; right; unfold at_phys, KERNEL_VIRTUAL_BASE; simpl; lia).
    rewrite words_from_other by (change (zlen gdt_words) with 14; right; unfold at_phys, KERNEL_VIRTUAL_BASE; simpl; lia).
    apply (words_from_at (replicate 26 0)). rewrite zget_replicate. by destruct (Z.leb_spec 0 i), (Z.ltb_spec i 26); try lia.
Qed.

Lemma loader_hands_over_witness :
  exists m', loader small_machine = Ret m' /\ translate m' 0xC0100000 = Some 0x100000 /\ translate m' 0x100000 = None /\ rd4 (reg_in ESP m' + 4) m' = Ret 0x2BADB002.
Proof.
  destruct (loader_hands_over small_linked small_machine small_booted) as (m' & E & H). exists m'. split; [exact E|].
  split; [exact (ho_mapped _ _ H 0x100000 ltac:(lia))|]. split; [exact (ho_unmapped _ _ H 0x100000 ltac:(lia))|].
  destruct (ho_call _ _ H) as (_ & sp & -> & _ & _ & H4 & _). exact H4.
Defined.

(** Port 0x1F0, the disk's. *)
Lemma user_ports_open_witness :
  exists m' m'', loader small_machine = Ret m' /\ wr4 TssESP0 0xC0301000 m' = Ret m'' /\ user_port 0x1F0 m'' = Ret true.
Proof.
  destruct (stack_entered small_linked small_machine 0xC0301000 small_booted) as (m' & m'' & E & Ew).
  exists m', m''. split; [exact E|]. split; [exact Ew|].
  apply (user_ports_open small_linked small_machine m' 0xC0301000 m'' 0x1F0 small_booted E Ew). lia.
Defined.
