(* ===== verification/SchedAsm.v ===== *)
(** * The scheduler's assembly (src/process/schedulerAsm.s)

    The switch of stacks, the first instructions of user threads, the return
    from kernel threads and the idle thread, as programs of Asm.v, and what
    they make of the stacks that Process.v builds. *)
From S2P Require Import Prelude Physical Region Sched Signal Timer Process Small Asm.

Module SchedCode.
(** The functions of the file, and the C functions that they call. *)
Inductive func :=
| ProcIntSchedulerSwap | ProcIntUserThreadEntry | ProcIntKernelThreadReturn | ProcIntIdleThread
| ProcDoSchedule | ProcExitThread.

#[export] Instance func_eq_dec : EqDecision func.
Proof. solve_decision. Defined.

Definition swap_code : list (instr func) := [
  (* save registers on the old stack *)
  PUSH (R EBP); PUSH (R EBX); PUSH (R ESI); PUSH (R EDI);
  (* save the old stack *)
  MOV (R EAX) (M (At ESP 0x18)); MOV (M (At EAX 0)) (R ESP);
  (* load the new stack *)
  MOV (R ESP) (M (At ESP 0x14));
  POP EDI; POP ESI; POP EBX; POP EBP;
  RETN 8].

Definition user_entry_code : list (instr func) := [
  (* segment selectors *)
  MOV16 (R EAX) (I 0x23); MOVSEG DS EAX; MOVSEG ES EAX;
  MOV16 (R EAX) (I 0x28); MOVSEG FS EAX; MOVSEG GS EAX;
  (* clear registers *)
  MOV (R EAX) (I 0); MOV (R ECX) (R EAX); MOV (R EDX) (R EAX);
  IRETD].

Definition kernel_return_code : list (instr func) := [MOV (M (At ESP 0)) (R EAX); CALL ProcExitThread].

Definition idle_code : list (instr func) := [LABEL 0; STI; HLT; CLI; CALL ProcDoSchedule; JMP 0].

Definition code (f : func) : list (instr func) :=
  match f with
  | ProcIntSchedulerSwap => swap_code
  | ProcIntUserThreadEntry => user_entry_code
  | ProcIntKernelThreadReturn => kernel_return_code
  | ProcIntIdleThread => idle_code
  | ProcDoSchedule | ProcExitThread => []
  end.
End SchedCode.

Section SchedAsm.
Context {P : Processor} {L : Layout SchedCode.code}.
Implicit Types (m : gmap Z Z) (c : cpu).

(** A stack pointer with room for [below] bytes under it and [above] over it. *)
Definition stack_at (sp below above : Z) : Prop := sp mod 4 = 0 /\ below <= sp /\ sp + above <= 4294967296.

(** The words from [a] on. *)
Definition words_at m (a : Z) (ws : list Z) : Prop :=
  forall i w, zget ws i = Some w -> m !! (a + 4 * i) = Some w.

(** Words by their positions. *)
Lemma words_at_cons m a w ws : m !! a = Some w -> words_at m (a + 4) ws -> words_at m a (w :: ws).
Proof.
  intros Hw Hws i x Hi. pose proof (zget_range _ _ _ Hi). destruct (decide (i = 0)) as [->|Hn].
  - injection Hi as <-. by rewrite Z.mul_0_r, Z.add_0_r.
  - replace (a + 4 * i) with (a + 4 + 4 * (i - 1)) by lia. apply Hws. unfold zget in *. destruct (Z.ltb_spec i 0); [lia|].
    destruct (Z.ltb_spec (i - 1) 0); [lia|]. by replace (Z.to_nat i) with (S (Z.to_nat (i - 1))) in Hi by lia.
Qed.
Lemma words_at_nil m a : words_at m a [].
Proof. intros i w Hi. apply zget_range in Hi. unfold zlen in Hi. simpl in Hi. lia. Qed.

Lemma words_at_ext m m' a ws : (forall b, a <= b -> m' !! b = m !! b) -> words_at m a ws -> words_at m' a ws.
Proof. intros Hm Hw i w Hi. pose proof (zget_range _ _ _ Hi). rewrite Hm by lia. by apply Hw. Qed.

(** ** The switch *)

(** [swap_call c new oldp ret]: the processor is at the entry of
    ProcIntSchedulerSwap(new, oldp), called from [ret]. *)
Record swap_call (c : cpu) (new oldp ret : Z) : Prop := {
  sw_pc : pc c = place SchedCode.ProcIntSchedulerSwap 0;
  sw_stack : stack_at (reg_of ESP c) 16 12;
  sw_args : words_at (ram c) (reg_of ESP c) [ret; new; oldp];
  sw_oldp : is_u32 oldp /\ oldp mod 4 = 0;
  sw_apart : oldp < reg_of ESP c \/ reg_of ESP c + 12 <= oldp
}.

(** What the switch leaves on the old stack and in the old thread. *)
Definition swap_saves c (oldp : Z) : gmap Z Z :=
  let sp := reg_of ESP c in
  <[oldp := sp - 16]>
  (<[sp - 16 := reg_of EDI c]> (<[sp - 12 := reg_of ESI c]>
  (<[sp - 8 := reg_of EBX c]> (<[sp - 4 := reg_of EBP c]> (ram c))))).

(** The processor in the new thread, whose registers were saved at [new]. *)
Definition swapped c (new oldp : Z) (di si bx bp ip : Z) : cpu :=
  mkCpu (mkGpr oldp (reg_of ECX c) (reg_of EDX c) bx (new + 28) bp si di) (sregs c) (fl c) (ctl c) ip
    (swap_saves c oldp).

Lemma words_lookup m a ws i w k : words_at m a ws -> zget ws i = Some w -> k = a + 4 * i -> m !! k = Some w.
Proof. intros H Hi ->. by apply H. Qed.

Lemma swap_runs n c new oldp ret di si bx bp ip :
  swap_call c new oldp ret -> new mod 4 = 0 -> 0 <= new -> new + 28 < 4294967296 ->
  words_at (swap_saves c oldp) new [di; si; bx; bp; ip] ->
  run (12 + n) c = run n (swapped c new oldp di si bx bp ip).
Proof.
  intros [Hpc (Ha & Hlo & Hhi) Hargs [Ho Hoa] Hap] Hn H0 Hnh Hw.
  pose proof (words_lookup _ _ _ 1 _ (reg_of ESP c + 4) Hargs eq_refl ltac:(lia)) as A1.
  pose proof (words_lookup _ _ _ 2 _ (reg_of ESP c + 8) Hargs eq_refl ltac:(lia)) as A2.
  pose proof (words_lookup _ _ _ 0 _ new Hw eq_refl ltac:(lia)) as W0.
  pose proof (words_lookup _ _ _ 1 _ (new + 4) Hw eq_refl ltac:(lia)) as W1.
  pose proof (words_lookup _ _ _ 2 _ (new + 8) Hw eq_refl ltac:(lia)) as W2.
  pose proof (words_lookup _ _ _ 3 _ (new + 12) Hw eq_refl ltac:(lia)) as W3.
  pose proof (words_lookup _ _ _ 4 _ (new + 16) Hw eq_refl ltac:(lia)) as W4.
  clear Hw Hargs. unfold swapped. destruct c as [[a x d b sp bp0 si0 di0] sg f ct p m]. unfold swap_saves in *. simpl in *.
  unfold reg_of in *. simpl in *. subst p.
  instruction SchedCode.ProcIntSchedulerSwap 0%nat.
  instruction SchedCode.ProcIntSchedulerSwap 1%nat.
  instruction SchedCode.ProcIntSchedulerSwap 2%nat.
  instruction SchedCode.ProcIntSchedulerSwap 3%nat.
  instruction SchedCode.ProcIntSchedulerSwap 4%nat.
  instruction SchedCode.ProcIntSchedulerSwap 5%nat.
  instruction SchedCode.ProcIntSchedulerSwap 6%nat.
  instruction SchedCode.ProcIntSchedulerSwap 7%nat.
  instruction SchedCode.ProcIntSchedulerSwap 8%nat.
  instruction SchedCode.ProcIntSchedulerSwap 9%nat.
  instruction SchedCode.ProcIntSchedulerSwap 10%nat.
  instruction SchedCode.ProcIntSchedulerSwap 11%nat.
  done.
Qed.
(** ** A switched-out thread *)

(** The other words of a stack after the switch. *)
Lemma swap_saves_other c oldp a : a <> oldp -> a < reg_of ESP c - 16 \/ reg_of ESP c <= a -> swap_saves c oldp !! a = ram c !! a.
Proof. intros Ha Hr. unfold swap_saves. rewrite !lookup_insert_ne by lia. done. Qed.

(** The words that the switch puts on the stack, up to the return address. *)
Lemma swap_saves_frame c new oldp ret : swap_call c new oldp ret -> oldp < reg_of ESP c - 16 \/ reg_of ESP c + 12 <= oldp ->
  words_at (swap_saves c oldp) (reg_of ESP c - 16) [reg_of EDI c; reg_of ESI c; reg_of EBX c; reg_of EBP c; ret].
Proof.
  intros [_ (Ha & Hlo & Hhi) Hargs _ _] Ho i w Hw. pose proof (zget_range _ _ _ Hw) as Hr. unfold zlen in Hr. simpl in Hr.
  pose proof (Hargs 0 ret eq_refl) as Hret. rewrite Z.mul_0_r, Z.add_0_r in Hret.
  assert (i = 0 \/ i = 1 \/ i = 2 \/ i = 3 \/ i = 4) as Hi by lia. unfold swap_saves.
  destruct Hi as [->|[->|[->|[->| ->]]]]; injection Hw as <-.
  all: find_word.
Qed.

(** C16: a thread that ProcIntSchedulerSwap switched away from goes on, when another
    thread switches to the stack pointer that was saved for it, behind its
    call: with its own EBX, ESI, EDI, EBP and its stack as after a return from
    the call. Meanwhile others may have run, on other stacks. *)
Theorem switched_out_thread_resumes n c c2 newB oldpA retA oldpB retB :
  swap_call c newB oldpA retA -> oldpA < reg_of ESP c - 16 \/ reg_of ESP c + 12 <= oldpA ->
  (forall a, reg_of ESP c - 16 <= a < reg_of ESP c + 12 -> ram c2 !! a = swap_saves c oldpA !! a) ->
  reg_of ESP c + 12 < 4294967296 ->
  swap_call c2 (reg_of ESP c - 16) oldpB retB ->
  reg_of ESP c2 <= reg_of ESP c - 16 \/ reg_of ESP c + 12 <= reg_of ESP c2 - 16 ->
  oldpB < reg_of ESP c - 16 \/ reg_of ESP c + 12 <= oldpB ->
  exists c', run (12 + n) c2 = run n c' /\ pc c' = retA /\ reg_of ESP c' = reg_of ESP c + 12 /\
    reg_of EBX c' = reg_of EBX c /\ reg_of ESI c' = reg_of ESI c /\ reg_of EDI c' = reg_of EDI c /\
    reg_of EBP c' = reg_of EBP c /\ ram c' = swap_saves c2 oldpB.
Proof.
  intros H1 Ho Hkeep Htop H2 Hap HoB. pose proof (swap_saves_frame _ _ _ _ H1 Ho) as Hf. destruct (sw_stack _ _ _ _ H1) as (Ha & Hlo & Hhi).
  eexists. split.
  - eapply swap_runs; [exact H2|zlia|lia|lia|]. intros i w Hw. pose proof (zget_range _ _ _ Hw) as Hr. unfold zlen in Hr. simpl in Hr.
    rewrite swap_saves_other by lia. rewrite Hkeep by lia. by apply Hf.
  - unfold swapped, reg_of. simpl. split_and!; try done. lia.
Qed.

(** ** New threads *)

(** setup_stack puts the words at the top of the thread's stack. *)
Lemma setup_stack_words a ws st st' : setup_stack a ws st = Ret st' ->
  exists th, thread (psys st') !! a = Some th /\
    (0 <= kStackBase th -> kStackBase th + PROC_KSTACK_SIZE < 4294967296 -> 4 * zlen ws <= PROC_KSTACK_SIZE ->
     kStackPointer th = kStackBase th + PROC_KSTACK_SIZE - 4 * zlen ws /\ words_at (kstacks st') (kStackPointer th) ws).
Proof.
  unfold setup_stack, upd_thread. intros H. apply bind_Ret_inv in H as (th & Hth & H). apply or_fault_inv in Hth.
  cbn [psys set_kstacks] in H. rewrite Hth in H. simpl in H. apply Ret_inj in H as <-. eexists. split; [apply lookup_insert_eq|].
  cbn [kStackBase kStackPointer set_kStackPointer]. unfold PROC_KSTACK_SIZE. intros Hb Ht Hl.
  pose proof (zlen_nonneg ws). rewrite wrap_id by (unfold is_u32; lia). split; [done|]. intros i w Hw. pose proof (zget_range _ _ _ Hw).
  unfold zget in Hw. destruct (Z.ltb_spec i 0); [lia|]. replace i with (Z.of_nat (Z.to_nat i)) by lia.
  apply store_words_lookup; [lia|unfold zlen in *; lia|done].
Qed.

(** The stacks of new threads. *)
Section NewThreads.
Context {K : Machine} {W : Type} {PE : ProcEnv W}.
Context (fuel : nat).

Lemma user_thread_stack e name par start stack st w a st' w' :
  ProcCreateUserThread e fuel name par start stack st w = Ret (a, st', w') ->
  exists th, thread (psys st') !! a = Some th /\
    (0 <= kStackBase th -> kStackBase th + PROC_KSTACK_SIZE < 4294967296 ->
     kStackPointer th = kStackBase th + PROC_KSTACK_SIZE - 48 /\
     words_at (kstacks st') (kStackPointer th) (user_frame e start stack)).
Proof.
  unfold ProcCreateUserThread. intros H. apply bind_Ret_inv in H as ([[a0 st1] w1] & _ & H). apply bind_Ret_inv in H as (st2 & H & E).
  injection E as -> -> ->. apply setup_stack_words in H as (th & ? & Hw). exists th. split; [done|]. intros. by apply Hw.
Qed.

Lemma kernel_thread_stack r name start arg st w a st' w' :
  ProcCreateKernelThread r fuel name start arg st w = Ret (a, st', w') ->
  exists th, thread (psys st') !! a = Some th /\
    (0 <= kStackBase th -> kStackBase th + PROC_KSTACK_SIZE < 4294967296 ->
     kStackPointer th = kStackBase th + PROC_KSTACK_SIZE - 36 /\
     words_at (kstacks st') (kStackPointer th) (kernel_frame r start arg)).
Proof.
  unfold ProcCreateKernelThread. intros H. apply bind_Ret_inv in H as ([[a0 st1] w1] & _ & H). apply bind_Ret_inv in H as (st2 & H & E).
  injection E as -> -> ->. apply setup_stack_words in H as (th & ? & Hw). exists th. split; [done|]. intros. by apply Hw.
Qed.

(** A stack that the processor's memory holds and that nobody else uses while
    the switch is made. *)
Record idle_stack (c : cpu) (oldp : Z) (m : gmap Z Z) (th : ProcThread) : Prop := {
  is_range : 0 <= kStackBase th /\ kStackBase th + PROC_KSTACK_SIZE < 4294967296 /\ kStackBase th mod 4 = 0;
  is_held : forall a, kStackBase th <= a < kStackBase th + PROC_KSTACK_SIZE -> ram c !! a = m !! a;
  is_apart : reg_of ESP c <= kStackBase th \/ kStackBase th + PROC_KSTACK_SIZE <= reg_of ESP c - 16;
  is_oldp : oldp < kStackBase th \/ kStackBase th + PROC_KSTACK_SIZE <= oldp
}.

Lemma idle_stack_words c oldp m th sp ws : idle_stack c oldp m th ->
  kStackBase th <= sp -> sp + 4 * zlen ws <= kStackBase th + PROC_KSTACK_SIZE -> words_at m sp ws ->
  words_at (swap_saves c oldp) sp ws.
Proof.
  intros [_ Hh Ha Ho] Hs He Hw i w Hi. pose proof (zget_range _ _ _ Hi). rewrite swap_saves_other by lia. rewrite Hh by lia. by apply Hw.
Qed.

(** C13: the switch to a new user thread ends in user mode at its start address,
    with its stack pointer, interrupts enabled and every other register zero:
    nothing of the kernel's registers is left. *)
Theorem new_user_thread_enters name par start stack st w a st' w' th c oldp ret :
  ProcCreateUserThread (place SchedCode.ProcIntUserThreadEntry 0) fuel name par start stack st w = Ret (a, st', w') ->
  thread (psys st') !! a = Some th -> idle_stack c oldp (kstacks st') th ->
  swap_call c (kStackPointer th) oldp ret -> s_cs (sregs c) = 0x08 -> locate start = None ->
  run 22 c = Ret (Goes (mkCpu (mkGpr 0 0 0 0 stack 0 0 0) (mkSegs 0x1B 0x23 0x23 0x28 0x28 0x23) 0x202 (ctl c) start
    (swap_saves c oldp))).
Proof.
  intros Hc Hth Hi Hs Hcs Hl. apply user_thread_stack in Hc as (th' & Hth' & Hst). rewrite Hth in Hth'. injection Hth' as <-.
  pose proof (is_range _ _ _ _ Hi) as (Hb & Ht & Hm). specialize (Hst Hb Ht) as [Hsp Hw]. unfold PROC_KSTACK_SIZE in *.
  apply (idle_stack_words _ _ _ _ _ _ Hi) in Hw; [|lia|unfold zlen; simpl; unfold PROC_KSTACK_SIZE; lia].
  set (sp := kStackPointer th) in *.
  change 22%nat with (12 + 10)%nat. erewrite swap_runs; [|exact Hs|zlia|lia|lia|].
  2:{ intros i v Hv. apply Hw. pose proof (zget_range _ _ _ Hv) as Hr. unfold zlen in Hr. simpl in Hr.
      assert (i = 0 \/ i = 1 \/ i = 2 \/ i = 3 \/ i = 4) as [->|[->|[->|[->| ->]]]] by lia; exact Hv. }
  pose proof (words_lookup _ _ _ 7 _ (sp + 28) Hw eq_refl ltac:(lia)) as A7.
  pose proof (words_lookup _ _ _ 8 _ (sp + 32) Hw eq_refl ltac:(lia)) as A8.
  pose proof (words_lookup _ _ _ 9 _ (sp + 36) Hw eq_refl ltac:(lia)) as A9.
  pose proof (words_lookup _ _ _ 10 _ (sp + 40) Hw eq_refl ltac:(lia)) as A10.
  pose proof (words_lookup _ _ _ 11 _ (sp + 44) Hw eq_refl ltac:(lia)) as A11. clear Hw.
  unfold swapped. set (m := swap_saves c oldp) in *. 
  destruct (sregs c) as [c0 d0 e0 f0 g0 s0] eqn:Es. simpl in Hcs. subst c0.
  instruction SchedCode.ProcIntUserThreadEntry 0%nat.
  instruction SchedCode.ProcIntUserThreadEntry 1%nat.
  instruction SchedCode.ProcIntUserThreadEntry 2%nat.
  instruction SchedCode.ProcIntUserThreadEntry 3%nat.
  instruction SchedCode.ProcIntUserThreadEntry 4%nat.
  instruction SchedCode.ProcIntUserThreadEntry 5%nat.
  instruction SchedCode.ProcIntUserThreadEntry 6%nat.
  instruction SchedCode.ProcIntUserThreadEntry 7%nat.
  instruction SchedCode.ProcIntUserThreadEntry 8%nat.
  rewrite !low16_read by lia.
  erewrite (run_step _ SchedCode.ProcIntUserThreadEntry 9) by reflexivity. cbn [exec with_pc]. unfold iret, pop, reg_of. simpl.
  repeat (memory_step; simpl; wrap; displacement). by apply run_out.
Qed.

(** The switch to a new kernel thread calls its function: the argument is
    where a C function looks for it and the return address is
    ProcIntKernelThreadReturn. When the function returns, ProcExitThread is
    called with its result. *)
Theorem new_kernel_thread_runs name start arg st w a st' w' th c oldp ret :
  ProcCreateKernelThread (place SchedCode.ProcIntKernelThreadReturn 0) fuel name start arg st w = Ret (a, st', w') ->
  thread (psys st') !! a = Some th -> idle_stack c oldp (kstacks st') th ->
  swap_call c (kStackPointer th) oldp ret -> locate start = None ->
  exists c', run 12 c = Ret (Goes c') /\ pc c' = start /\ ram c' = swap_saves c oldp /\
    ram c' !! reg_of ESP c' = Some (place SchedCode.ProcIntKernelThreadReturn 0) /\
    ram c' !! (reg_of ESP c' + 4) = Some arg /\
    forall c2 exitCode, pc c2 = place SchedCode.ProcIntKernelThreadReturn 0 -> reg_of ESP c2 = reg_of ESP c' + 4 ->
      reg_of EAX c2 = exitCode ->
      exists c3, run 2 c2 = Ret (Goes c3) /\ pc c3 = place SchedCode.ProcExitThread 0 /\
        ram c3 !! (reg_of ESP c3 + 4) = Some exitCode.
Proof.
  intros Hc Hth Hi Hs Hl. apply kernel_thread_stack in Hc as (th' & Hth' & Hst). rewrite Hth in Hth'. injection Hth' as <-.
  pose proof (is_range _ _ _ _ Hi) as (Hb & Ht & Hm). specialize (Hst Hb Ht) as [Hsp Hw]. unfold PROC_KSTACK_SIZE in *.
  apply (idle_stack_words _ _ _ _ _ _ Hi) in Hw; [|lia|unfold zlen; simpl; unfold PROC_KSTACK_SIZE; lia].
  set (sp := kStackPointer th) in *. eexists. split.
  { change 12%nat with (12 + 0)%nat. erewrite swap_runs; [|exact Hs|zlia|lia|lia|].
    2:{ intros i v Hv. apply Hw. pose proof (zget_range _ _ _ Hv) as Hr. unfold zlen in Hr. simpl in Hr.
        assert (i = 0 \/ i = 1 \/ i = 2 \/ i = 3 \/ i = 4) as [->|[->|[->|[->| ->]]]] by lia; exact Hv. }
    apply run_out, Hl. }
  unfold swapped, reg_of. simpl. split_and!; [done..| | |].
  - apply (words_lookup _ _ _ 7 _ (sp + 28) Hw eq_refl). lia.
  - apply (words_lookup _ _ _ 8 _ (sp + 28 + 4) Hw eq_refl). lia.
  - intros c2 exitCode Hpc Hsp2 Hax. destruct c2 as [[x0 x1 x2 x3 sp2 bp si di] sg f ct p m]. simpl in *. subst p sp2 x0.
    eexists. split; [|split].
    + instruction SchedCode.ProcIntKernelThreadReturn 0%nat. instruction SchedCode.ProcIntKernelThreadReturn 1%nat.
      apply run_out. simpl. by apply locate_extern.
    + done.
    + simpl. find_word.
Qed.
End NewThreads.

(** ** The idle thread *)

(** It waits with interrupts enabled; an interrupt that returns lets it call
    ProcDoSchedule with interrupts disabled, and when that returns it waits
    again, on the same stack. *)
Theorem idle_thread_cycle c :
  pc c = place SchedCode.ProcIntIdleThread 0 -> stack_at (reg_of ESP c) 4 4 ->
  exists w, run 3 c = Ret (Waits w) /\ Z.land (fl w) IF = IF /\ gprs w = gprs c /\ ram w = ram c /\
  forall w', pc w' = pc w -> reg_of ESP w' = reg_of ESP c ->
  exists d, run 2 w' = Ret (Goes d) /\ pc d = place SchedCode.ProcDoSchedule 0 /\ Z.land (fl d) IF = 0 /\
    reg_of ESP d = reg_of ESP c - 4 /\
  forall r, ram d !! (reg_of ESP c - 4) = Some (pc r) -> reg_of ESP r = reg_of ESP c ->
  exists w2, run 4 r = Ret (Waits w2) /\ pc w2 = pc w /\ Z.land (fl w2) IF = IF /\ reg_of ESP w2 = reg_of ESP c.
Proof.
  intros Hpc (Ha & Hlo & Hhi). destruct c as [[x0 x1 x2 x3 sp bp si di] sg f ct p m]. unfold reg_of in *. simpl in *. subst p.
  eexists. split; [|split; [|split; [|split]]].
  { instruction SchedCode.ProcIntIdleThread 0%nat. instruction SchedCode.ProcIntIdleThread 1%nat.
    instruction SchedCode.ProcIntIdleThread 2%nat. reflexivity. }
  { apply flag_set. }
  { done. }
  { done. }
  intros [[y0 y1 y2 y3 sp2 bp2 si2 di2] sg2 f2 ct2 p2 m2]. simpl. intros -> ->. eexists. split; [|split; [|split; [|split]]].
  { instruction SchedCode.ProcIntIdleThread 3%nat. instruction SchedCode.ProcIntIdleThread 4%nat.
    apply run_out. by apply locate_extern. }
  { done. }
  { apply flag_clear. }
  { done. }
  intros [[z0 z1 z2 z3 sp3 bp3 si3 di3] sg3 f3 ct3 p3 m3]. simpl. rewrite lookup_insert_eq. intros [= <-] ->.
  eexists. split; [|split; [|split]].
  { instruction SchedCode.ProcIntIdleThread 5%nat. instruction SchedCode.ProcIntIdleThread 0%nat.
    instruction SchedCode.ProcIntIdleThread 1%nat. instruction SchedCode.ProcIntIdleThread 2%nat. reflexivity. }
  { done. }
  { apply flag_set. }
  { done. }
Qed.
End SchedAsm.

(** ** At a small machine *)

Definition func_index (f : SchedCode.func) : nat :=
  match f with
  | SchedCode.ProcIntSchedulerSwap => 0 | SchedCode.ProcIntUserThreadEntry => 1
  | SchedCode.ProcIntKernelThreadReturn => 2 | SchedCode.ProcIntIdleThread => 3
  | SchedCode.ProcDoSchedule => 4 | SchedCode.ProcExitThread => 5
  end.
Definition func_of (n : nat) : option SchedCode.func :=
  [SchedCode.ProcIntSchedulerSwap; SchedCode.ProcIntUserThreadEntry; SchedCode.ProcIntKernelThreadReturn;
   SchedCode.ProcIntIdleThread; SchedCode.ProcDoSchedule; SchedCode.ProcExitThread] !! n.

Definition small_layout : Layout SchedCode.code.
Proof. refine (numbered_layout SchedCode.code func_index func_of 0xC0110000 _ _ _ _); [lia|by intros []|intros []; simpl; lia|intros []; simpl; lia]. Defined.

(** A thread with its stack at [sp] that calls ProcIntSchedulerSwap(new, oldp). *)
Definition calling (m : gmap Z Z) (sp new oldp ret b : Z) : cpu :=
  mkCpu (mkGpr 1 2 3 b sp (b + 1) (b + 2) (b + 3)) (mkSegs 0x08 0x10 0x10 0 0 0x10) 2 (mkCtrl 0x80050033 0 (0, 0))
    (place (Layout := small_layout) SchedCode.ProcIntSchedulerSwap 0)
    (store_words m sp [ret; new; oldp]).

(** Words of a concrete memory. *)
Definition words_check (m : gmap Z Z) (a : Z) (ws : list Z) : bool :=
  bool_decide (imap (fun i _ => m !! (a + 4 * Z.of_nat i)) ws = Some <$> ws).

Lemma words_check_sound m a ws : words_check m a ws = true -> words_at m a ws.
Proof.
  unfold words_check, words_at, zget. rewrite bool_decide_eq_true. intros H i w Hi. destruct (Z.ltb_spec i 0); [done|].
  assert (imap (fun i _ => m !! (a + 4 * Z.of_nat i)) ws !! Z.to_nat i = (Some <$> ws) !! Z.to_nat i) as E by (by rewrite H).
  rewrite list_lookup_imap, list_lookup_fmap, Hi in E. simpl in E. injection E as E. by rewrite Z2Nat.id in E by lia.
Qed.

Lemma calling_ok m sp new oldp ret b :
  stack_at sp 16 12 -> is_u32 oldp /\ oldp mod 4 = 0 -> oldp < sp \/ sp + 12 <= oldp ->
  words_check (store_words m sp [ret; new; oldp]) sp [ret; new; oldp] = true ->
  swap_call (L := small_layout) (calling m sp new oldp ret b) new oldp ret.
Proof. intros H1 H2 H3 H4. split; [done|done|by apply words_check_sound|done|done]. Qed.

Definition leaving : cpu := calling ∅ 0xC0201F00 0xC0301F00 0xC0401000 0xC0105000 10.
Definition coming_back : cpu :=
  calling (swap_saves leaving 0xC0401000) 0xC0301F00 0xC0201EF0 0xC0402000 0xC0106000 20.

Lemma switched_out_thread_resumes_witness :
  exists c', run (P := plain_processor) (L := small_layout) (12 + 0) coming_back =
      run (P := plain_processor) (L := small_layout) 0 c' /\
    pc c' = 0xC0105000 /\ reg_of ESP c' = reg_of ESP leaving + 12 /\ reg_of EBX c' = 10.
Proof.
  destruct (switched_out_thread_resumes (P := plain_processor) (L := small_layout) 0 leaving coming_back 0xC0301F00 0xC0401000 0xC0105000
    0xC0402000 0xC0106000) as (c' & ? & ? & ? & ? & _).
  - apply calling_ok; [by repeat split|by repeat split|right; done|vm_compute; reflexivity].
  - right. done.
  - intros a Ha. change (reg_of ESP leaving) with 0xC0201F00 in Ha. apply store_words_frame; simpl; lia.
  - reflexivity.
  - apply calling_ok; [by repeat split|by repeat split|right; done|vm_compute; reflexivity].
  - right. done.
  - right. done.
  - exists c'. by split_and!.
Defined.

(** Process 100 and its first threads, whose stack is page 1. *)
Definition one_process : procs :=
  set_psys blank_procs (set_process (psys blank_procs) (<[100 := kernel_process 5]> ∅)).

Definition user_start : outcome (Z * procs * gset Z) :=
  ProcCreateUserThread (place (Layout := small_layout) SchedCode.ProcIntUserThreadEntry 0) 5 1 100 0x8000 0xBFFF0000
    one_process ({[100]} : gset Z).
Definition kernel_start : outcome (Z * procs * gset Z) :=
  ProcCreateKernelThread (place (Layout := small_layout) SchedCode.ProcIntKernelThreadReturn 0) 5 1 0xC0104000 77
    one_process ({[100]} : gset Z).

Definition stacks_of (r : outcome (Z * procs * gset Z)) : gmap Z Z :=
  match r with Ret (_, st, _) => kstacks st | _ => ∅ end.
Definition thread_of (r : outcome (Z * procs * gset Z)) : option ProcThread :=
  match r with Ret (a, st, _) => thread (psys st) !! a | _ => None end.

(** Another thread, with its stack elsewhere, switches to the new one. *)
Definition starting (r : outcome (Z * procs * gset Z)) (new : Z) : cpu :=
  calling (stacks_of r) 0xC0201F00 new 0xC0401000 0xC0105000 10.

Lemma starting_call r new : is_u32 new -> swap_call (L := small_layout) (starting r new) new 0xC0401000 0xC0105000.
Proof.
  intros Hn. apply calling_ok; [by repeat split|by repeat split|right; done|]. unfold words_check. apply bool_decide_eq_true.
  change (store_words (stacks_of r) 0xC0201F00 [0xC0105000; new; 0xC0401000]) with
    (<[0xC0201F08 := 0xC0401000]> (<[0xC0201F04 := new]> (<[0xC0201F00 := 0xC0105000]> (stacks_of r)))).
  change (0xC0201F00 + 4 * Z.of_nat 0) with 0xC0201F00. simpl.
  rewrite !(lookup_insert_ne _ 0xC0201F08), (lookup_insert_ne _ 0xC0201F04), !lookup_insert_eq by done. done.
Qed.

Lemma starting_stack r new th : kStackBase th = 0xC0001000 -> idle_stack (starting r new) 0xC0401000 (stacks_of r) th.
Proof.
  intros Hb. split; unfold PROC_KSTACK_SIZE; rewrite Hb; [done| |right; done|right; done].
  intros a Ha. apply store_words_frame; simpl; lia.
Qed.

Lemma new_user_thread_enters_witness :
  exists a st' w' m, user_start = Ret (a, st', w') /\
    run (P := plain_processor) (L := small_layout) 22 (starting user_start 0xC0001FD0) =
      Ret (Goes (mkCpu (mkGpr 0 0 0 0 0xBFFF0000 0 0 0) (mkSegs 0x1B 0x23 0x23 0x28 0x28 0x23) 0x202
        (mkCtrl 0x80050033 0 (0, 0)) 0x8000 m)).
Proof.
  assert (kStackBase <$> thread_of user_start = Some 0xC0001000) as Hb by (vm_compute; reflexivity).
  assert (kStackPointer <$> thread_of user_start = Some 0xC0001FD0) as Hp by (vm_compute; reflexivity).
  pose proof (starting_stack user_start 0xC0001FD0) as Hs. pose proof (starting_call user_start 0xC0001FD0) as Hc.
  destruct user_start as [[[a st'] w']| | |] eqn:E; [|discriminate Hb..]. simpl in Hb, Hp.
  destruct (thread (psys st') !! a) as [th|] eqn:Et; [|discriminate Hb]. injection Hb as Hb. injection Hp as Hp.
  exists a, st', w', (swap_saves (starting (Ret (a, st', w')) 0xC0001FD0) 0xC0401000). split; [done|].
  apply (new_user_thread_enters (P := plain_processor) (L := small_layout) 5 1 100 0x8000 0xBFFF0000 one_process {[100]} a st' w' th
    (starting (Ret (a, st', w')) 0xC0001FD0) 0xC0401000 0xC0105000 E Et).
  - by apply Hs.
  - rewrite Hp. by apply Hc.
  - reflexivity.
  - reflexivity.
Defined.

Lemma new_kernel_thread_runs_witness :
  exists a st' w' c', kernel_start = Ret (a, st', w') /\
    run (P := plain_processor) (L := small_layout) 12 (starting kernel_start 0xC0001FDC) = Ret (Goes c') /\
    pc c' = 0xC0104000 /\ ram c' !! (reg_of ESP c' + 4) = Some 77.
Proof.
  assert (kStackBase <$> thread_of kernel_start = Some 0xC0001000) as Hb by (vm_compute; reflexivity).
  assert (kStackPointer <$> thread_of kernel_start = Some 0xC0001FDC) as Hp by (vm_compute; reflexivity).
  pose proof (starting_stack kernel_start 0xC0001FDC) as Hs. pose proof (starting_call kernel_start 0xC0001FDC) as Hc.
  destruct kernel_start as [[[a st'] w']| | |] eqn:E; [|discriminate Hb..]. simpl in Hb, Hp.
  destruct (thread (psys st') !! a) as [th|] eqn:Et; [|discriminate Hb]. injection Hb as Hb. injection Hp as Hp.
  destruct (new_kernel_thread_runs (P := plain_processor) (L := small_layout) 5 1 0xC0104000 77 one_process {[100]} a st' w' th
    (starting (Ret (a, st', w')) 0xC0001FDC) 0xC0401000 0xC0105000 E Et) as (c' & ? & ? & ? & ? & ? & _).
  - by apply Hs.
  - rewrite Hp. by apply Hc.
  - reflexivity.
  - exists a, st', w', c'. by split_and!.
Defined.

Lemma idle_thread_cycle_witness :
  exists w, run (P := plain_processor) (L := small_layout) 3
      (with_pc (place (Layout := small_layout) SchedCode.ProcIntIdleThread 0) leaving) = Ret (Waits w) /\ Z.land (fl w) IF = IF.
Proof.
  destruct (idle_thread_cycle (P := plain_processor) (L := small_layout)
    (with_pc (place (Layout := small_layout) SchedCode.ProcIntIdleThread 0) leaving)) as (w & ? & ? & _).
  - reflexivity.
  - by repeat split.
  - by exists w.
Defined.
