(* ===== verification/IntrAsm.v ===== *)
(** * Interrupt entry and exit (src/interruptAsm.s)

    The entry points of the vectors, the common part that saves and restores
    the registers around [IntrHandler], and LIDT, as programs of Asm.v; what
    the processor does when it takes an interrupt through a gate of
    Interrupt.v. *)
From S2P Require Import Prelude Physical Region Sched Signal Interrupt Asm SchedAsm.

Module IntrCode.
(** [Isr v] is the entry of vector [v]; there are none for 48 to 65. *)
Inductive func := Isr (v : fin 67) | IntrCommonEntry | lidt | IntrHandler.

(** Vectors for which the processor pushes an error code. *)
Definition with_error (v : nat) : bool := bool_decide (v ∈ [8; 10; 11; 12; 13; 14; 17]%nat).

Definition isr_code (v : nat) : list (instr func) :=
  if with_error v then [PUSH (I (Z.of_nat v)); JMPTO IntrCommonEntry]
  else [PUSH (I 0); PUSH (I (Z.of_nat v)); JMPTO IntrCommonEntry].

Definition common_code : list (instr func) := [
  (* push registers *)
  PUSHSEG GS; PUSHSEG FS; PUSHSEG ES; PUSHSEG DS; PUSHAD;
  (* kernel segments *)
  MOV16 (R EAX) (I 0x10); MOVSEG DS EAX; MOVSEG ES EAX;
  CLD;
  CALL IntrHandler;
  (* pop registers *)
  POPAD; POPSEG DS; POPSEG ES; POPSEG FS; POPSEG GS;
  (* pop interrupt info *)
  ADD ESP 8;
  IRETD].

Definition lidt_code : list (instr func) := [
  MOV16 (R EAX) (M (At ESP 4)); MOV16 (M (At ESP 6)) (R EAX);
  LIDT (At ESP 6);
  RETN 0].

(** The vectors with an entry point. *)
Definition has_entry (v : nat) : bool := (v <? 48)%nat || (v =? 66)%nat.

Definition code (f : func) : list (instr func) :=
  match f with
  | Isr v => if has_entry v then isr_code v else []
  | IntrCommonEntry => common_code
  | lidt => lidt_code
  | IntrHandler => []
  end.
End IntrCode.

Section IntrAsm.
Context {P : Processor} {L : Layout IntrCode.code}.
Implicit Types (c : cpu) (v : fin 67).

(** The ISR address list. *)
Definition IntrISRList : list Z := (fun n => match decide (n < 67)%nat with left H => place (IntrCode.Isr (nat_to_fin H)) 0 | right _ => 0 end) <$> seq 0 48.

(** ** Taking an interrupt *)

Definition gate_offset (g : IntrGateStruct) : Z := offLow g + offHigh g * 65536.

Definition push_word_of_selector (s : Z) (c : cpu) : outcome cpu :=
  push (pushed_selector (default 0 (ram c !! u32 (reg_of ESP c - 4))) s) c.

(** Through an interrupt gate: from user mode the stack is the one in the
    task state segment; IF, TF, NT, RF and VM are cleared. *)
Definition take_interrupt (esp0 : Z) (g : IntrGateStruct) (err : option Z) (c : cpu) : outcome cpu :=
  c1 ← (if s_cs (sregs c) mod 4 =? 3 then
          let c0 := with_sregs (set_sreg SS 0x10 (sregs c)) (put_reg ESP esp0 c) in
          c1 ← push_word_of_selector (s_ss (sregs c)) c0; push (reg_of ESP c) c1
        else Ret c);
  c2 ← push (fl c) c1;
  c3 ← push_word_of_selector (s_cs (sregs c)) c2;
  c4 ← push (pc c) c3;
  c5 ← (match err with Some e => push e c4 | None => Ret c4 end);
  Ret (with_pc (gate_offset g) (with_flags (Z.land (fl c) (Z.lnot 0x34300))
    (with_sregs (set_sreg CS (destSegment g) (sregs c5)) c5))).

(** The words of an IntrContext: the registers, the unused stack pointer, the
    selectors, the interrupt's number and error, where it came from. *)
Definition context_words (i : IntrContext) (spare : Z) (sel : list Z) (num err : Z) (user : list Z) : list Z :=
  [edi i; esi i; ebp i; spare; ebx i; edx i; ecx i; eax i] ++ sel ++ [num; err; eip i; cs i; eflags i] ++ user.

Lemma gate_offset_entry info v : gate_offset (gate (place (IntrCode.Isr v) 0) info) = place (IntrCode.Isr v) 0.
Proof.
  unfold gate_offset, gate. simpl. assert (is_u32 (place (IntrCode.Isr v) 0)) by (apply place_range; lia).
  replace (Z.land (place (IntrCode.Isr v) 0) 0xFFFF) with (place (IntrCode.Isr v) 0 mod 65536) by (by rewrite <- (Z.land_ones _ 16)).
  rewrite Z.shiftr_div_pow2 by lia. change (2 ^ 16) with 65536. zlia.
Qed.

Lemma gate_of_IntrISRList n v : (v < 48)%nat -> n = Z.of_nat v -> zget IntrISRList n = Some (place (IntrCode.Isr v) 0).
Proof.
  intros Hv ->. unfold zget, IntrISRList. destruct (Z.ltb_spec (Z.of_nat v) 0); [lia|].
  rewrite Nat2Z.id, list_lookup_fmap, lookup_seq_lt by done.
  simpl. case_decide as Hd; [|lia]. do 3 f_equal. apply fin_to_nat_inj. by rewrite fin_to_nat_to_fin.
Qed.

(** ** Saving the registers *)

(** A pushed selector is some word with the selector in its low half. *)
Lemma push_selector_word s c sp : reg_of ESP c = sp -> stack_at sp 4 0 -> 0 <= s < 65536 ->
  exists w, w mod 65536 = s /\
    push_word_of_selector s c = Ret (with_ram (<[sp - 4 := w]> (ram c)) (put_reg ESP (sp - 4) c)).
Proof.
  intros Hsp (Ha & Hlo & Hhi) Hs. eexists. split; [by apply pushed_selector_low|]. unfold push_word_of_selector, push.
  rewrite Hsp. wrap. memory_step. simpl. done.
Qed.

Lemma pushseg_step f i s a x d b sp bp si di sg fl0 ct m :
  IntrCode.code f !! i = Some (PUSHSEG s) -> stack_at sp 4 0 -> 0 <= get_sreg s sg < 65536 ->
  exists w, w mod 65536 = get_sreg s sg /\ forall n,
    run (S n) (mkCpu (mkGpr a x d b sp bp si di) sg fl0 ct (place f i) m) =
    run n (mkCpu (mkGpr a x d b (sp - 4) bp si di) sg fl0 ct (place f (S i)) (<[sp - 4 := w]> m)).
Proof.
  intros Hi Hst Hs.
  destruct (push_selector_word (get_sreg s sg) (mkCpu (mkGpr a x d b sp bp si di) sg fl0 ct (place f (S i)) m) sp eq_refl Hst Hs) as (w & Hw & E).
  exists w. split; [exact Hw|]. intros n. erewrite run_step by first [reflexivity|eassumption]. simpl. unfold goes.
  change (push_selector s ?c) with (push_word_of_selector (get_sreg s (sregs c)) c). simpl in E |- *. rewrite E. done.
Qed.

(** Selectors have 16 bits. *)
Definition selectors_ok (s : segs) : Prop := forall r, 0 <= get_sreg r s < 65536.

(** The stack below [q] after the common entry's pushes: the call's return
    address, the general registers, the selectors. *)
Definition saved (c : cpu) (q ds es fs gs : Z) : gmap Z Z :=
  <[q - 52 := place IntrCode.IntrCommonEntry 10]>
  (<[q - 48 := reg_of EDI c]> (<[q - 44 := reg_of ESI c]> (<[q - 40 := reg_of EBP c]> (<[q - 36 := q - 16]>
  (<[q - 32 := reg_of EBX c]> (<[q - 28 := reg_of EDX c]> (<[q - 24 := reg_of ECX c]> (<[q - 20 := reg_of EAX c]>
  (<[q - 16 := ds]> (<[q - 12 := es]> (<[q - 8 := fs]> (<[q - 4 := gs]> (ram c))))))))))))).

Lemma common_entry c q : pc c = place IntrCode.IntrCommonEntry 0 -> reg_of ESP c = q -> stack_at q 52 0 -> selectors_ok (sregs c) ->
  exists g sg ds es fs gs,
    (forall n, run (10 + n) c =
       run n (mkCpu g sg (Z.land (fl c) (Z.lnot 0x400)) (ctl c) (place IntrCode.IntrHandler 0) (saved c q ds es fs gs))) /\
    r_esp g = q - 52 /\ s_ds sg = 0x10 /\ s_es sg = 0x10 /\ s_cs sg = s_cs (sregs c) /\ s_ss sg = s_ss (sregs c) /\
    (fun w => w mod 65536) <$> [ds; es; fs; gs] = [s_ds (sregs c); s_es (sregs c); s_fs (sregs c); s_gs (sregs c)].
Proof.
  intros Hpc Hsp (Ha & Hlo & Hhi) Hsel. destruct c as [[a x d b sp bp si di] [c0 d0 e0 f0 g0 s0] f ct p m].
  unfold saved, reg_of in *. simpl in *. subst p sp.
  set (sg := mkSegs c0 d0 e0 f0 g0 s0) in *.
  destruct (pushseg_step IntrCode.IntrCommonEntry 0 GS a x d b q bp si di sg f ct m) as (gs & Hgs & E1);
    [done|split_and!; lia|apply (Hsel GS)|].
  destruct (pushseg_step IntrCode.IntrCommonEntry 1 FS a x d b (q - 4) bp si di sg f ct (<[q - 4 := gs]> m)) as (fs & Hfs & E2);
    [done|split_and!; zlia|apply (Hsel FS)|].
  replace (q - 4 - 4) with (q - 8) in E2 by lia.
  destruct (pushseg_step IntrCode.IntrCommonEntry 2 ES a x d b (q - 8) bp si di sg f ct (<[q - 8 := fs]> (<[q - 4 := gs]> m)))
    as (es & Hes & E3); [done|split_and!; zlia|apply (Hsel ES)|].
  replace (q - 8 - 4) with (q - 12) in E3 by lia.
  destruct (pushseg_step IntrCode.IntrCommonEntry 3 DS a x d b (q - 12) bp si di sg f ct
    (<[q - 12 := es]> (<[q - 8 := fs]> (<[q - 4 := gs]> m)))) as (ds & Hds & E4); [done|split_and!; zlia|apply (Hsel DS)|].
  replace (q - 12 - 4) with (q - 16) in E4 by lia.
  do 2 eexists. exists ds, es, fs, gs. split.
  { intros n. change (10 + n)%nat with (S (S (S (S (6 + n))))). rewrite E1, E2, E3, E4. unfold sg.
    instruction IntrCode.IntrCommonEntry 4%nat.
    instruction IntrCode.IntrCommonEntry 5%nat.
    instruction IntrCode.IntrCommonEntry 6%nat.
    instruction IntrCode.IntrCommonEntry 7%nat.
    instruction IntrCode.IntrCommonEntry 8%nat.
    instruction IntrCode.IntrCommonEntry 9%nat.
    reflexivity. }
  simpl. rewrite ?low16_read by lia. split_and!; try done. unfold sg in *. simpl in *. by rewrite Hds, Hes, Hfs, Hgs.
Qed.

(** ** Restoring them *)

(** The processor behind the IRETD of the common entry, for a context that
    the handler left. *)
Definition resumed (i : IntrContext) (sel : segs) (sp : Z) (c : cpu) : cpu :=
  mkCpu (mkGpr (eax i) (ecx i) (edx i) (ebx i) sp (ebp i) (esi i) (edi i)) sel (eflags i) (ctl c) (eip i) (ram c).

Definition selectors_of (i : IntrContext) (sel : list Z) (ss : Z) : segs :=
  match sel with
  | [ds; es; fs; gs] => mkSegs (cs i mod 65536) (ds mod 65536) (es mod 65536) (fs mod 65536) (gs mod 65536) ss
  | _ => mkSegs (cs i mod 65536) 0 0 0 0 ss
  end.

(** The handler returned with the context [i] on the stack at [sp]. *)
Record handled (c : cpu) (sp : Z) (i : IntrContext) (spare : Z) (sel : list Z) (num err : Z) (user : list Z) : Prop := {
  h_pc : pc c = place IntrCode.IntrCommonEntry 10;
  h_sp : reg_of ESP c = sp;
  h_stack : sp mod 4 = 0 /\ 0 <= sp /\ sp + 68 + 4 * zlen user < 4294967296;
  h_sel : length sel = 4%nat;
  h_words : words_at (ram c) sp (context_words i spare sel num err user)
}.

(** IntrCommonEntry gives every register the value that the handler left in
    its context; the stack pointer is the one behind the frame in kernel mode,
    that of the context in user mode. *)
Lemma common_exit n c sp i spare ds es fs gs num err user :
  handled c sp i spare [ds; es; fs; gs] num err user ->
  s_cs (sregs c) = 0x08 ->
  (user = [] -> cs i mod 4 = 0 ->
   run (7 + n) c = run n (resumed i (selectors_of i [ds; es; fs; gs] (s_ss (sregs c))) (sp + 68) c)) /\
  (forall ssw, user = [esp i; ssw] -> cs i mod 4 = 3 ->
   run (7 + n) c = run n (resumed i (selectors_of i [ds; es; fs; gs] (ssw mod 65536)) (esp i) c)).
Proof.
  intros [Hpc Hsp (Ha & Hlo & Htop) _ Hw] Hcs. pose proof (zlen_nonneg user).
  destruct i as [idi isi ibp ibx idx icx iax iip ics ifl isp]. unfold context_words in Hw. cbn [edi esi ebp ebx edx ecx eax eip cs eflags esp app] in Hw.
  pose proof (words_lookup _ _ _ 0 _ sp Hw eq_refl ltac:(lia)) as A0.
  pose proof (words_lookup _ _ _ 1 _ (sp + 4) Hw eq_refl ltac:(lia)) as A1.
  pose proof (words_lookup _ _ _ 2 _ (sp + 8) Hw eq_refl ltac:(lia)) as A2.
  pose proof (words_lookup _ _ _ 3 _ (sp + 12) Hw eq_refl ltac:(lia)) as A3.
  pose proof (words_lookup _ _ _ 4 _ (sp + 16) Hw eq_refl ltac:(lia)) as A4.
  pose proof (words_lookup _ _ _ 5 _ (sp + 20) Hw eq_refl ltac:(lia)) as A5.
  pose proof (words_lookup _ _ _ 6 _ (sp + 24) Hw eq_refl ltac:(lia)) as A6.
  pose proof (words_lookup _ _ _ 7 _ (sp + 28) Hw eq_refl ltac:(lia)) as A7.
  pose proof (words_lookup _ _ _ 8 _ (sp + 32) Hw eq_refl ltac:(lia)) as A8.
  pose proof (words_lookup _ _ _ 9 _ (sp + 36) Hw eq_refl ltac:(lia)) as A9.
  pose proof (words_lookup _ _ _ 10 _ (sp + 40) Hw eq_refl ltac:(lia)) as A10.
  pose proof (words_lookup _ _ _ 11 _ (sp + 44) Hw eq_refl ltac:(lia)) as A11.
  pose proof (words_lookup _ _ _ 14 _ (sp + 56) Hw eq_refl ltac:(lia)) as A14.
  pose proof (words_lookup _ _ _ 15 _ (sp + 60) Hw eq_refl ltac:(lia)) as A15.
  pose proof (words_lookup _ _ _ 16 _ (sp + 64) Hw eq_refl ltac:(lia)) as A16.
  destruct c as [[a x d b sp0 bp si di] [c0 d0 e0 f0 g0 s0] f ct p m]. unfold reg_of, resumed, selectors_of in *. simpl in *. subst p sp0 c0.
  split.
  - intros -> Hc. clear Hw.
    instruction IntrCode.IntrCommonEntry 10%nat. instruction IntrCode.IntrCommonEntry 11%nat.
    instruction IntrCode.IntrCommonEntry 12%nat. instruction IntrCode.IntrCommonEntry 13%nat.
    instruction IntrCode.IntrCommonEntry 14%nat. instruction IntrCode.IntrCommonEntry 15%nat.
    erewrite (run_step _ IntrCode.IntrCommonEntry 16) by reflexivity. cbn [exec with_pc]. unfold iret, pop, reg_of. simpl.
    repeat (memory_step; simpl; wrap; displacement). rewrite Hc. simpl. done.
  - intros ssw -> Hc. unfold zlen in Htop. simpl in Htop.
    pose proof (words_lookup _ _ _ 17 _ (sp + 68) Hw eq_refl ltac:(lia)) as A17.
    pose proof (words_lookup _ _ _ 18 _ (sp + 72) Hw eq_refl ltac:(lia)) as A18. clear Hw.
    instruction IntrCode.IntrCommonEntry 10%nat. instruction IntrCode.IntrCommonEntry 11%nat.
    instruction IntrCode.IntrCommonEntry 12%nat. instruction IntrCode.IntrCommonEntry 13%nat.
    instruction IntrCode.IntrCommonEntry 14%nat. instruction IntrCode.IntrCommonEntry 15%nat.
    erewrite (run_step _ IntrCode.IntrCommonEntry 16) by reflexivity. cbn [exec with_pc]. unfold iret, pop, reg_of. simpl.
    repeat (memory_step; simpl; wrap; displacement). rewrite Hc. simpl.
    repeat (memory_step; simpl; wrap; displacement). done.
Qed.

(** ** From the interrupt to the common entry *)

Definition from_user (c : cpu) : bool := s_cs (sregs c) mod 4 =? 3.
Definition frame_top (esp0 : Z) (c : cpu) : Z := if from_user c then esp0 else reg_of ESP c.
(** Where the interrupt's number is on the stack. *)
Definition frame_number (esp0 : Z) (c : cpu) : Z := frame_top esp0 c - (if from_user c then 28 else 20).

(** The stack pointer and selector of user mode. *)
Definition user_words (c : cpu) (ssw : Z) : list Z := if from_user c then [reg_of ESP c; ssw] else [].

Definition kernel_segs (c : cpu) : segs :=
  set_sreg CS 0x08 (if from_user c then set_sreg SS 0x10 (sregs c) else sregs c).

Lemma push_ok y a x d b sp bp si di sg f ct p m : stack_at sp 4 0 ->
  push y (mkCpu (mkGpr a x d b sp bp si di) sg f ct p m) =
  Ret (mkCpu (mkGpr a x d b (sp - 4) bp si di) sg f ct p (<[sp - 4 := y]> m)).
Proof. intros (Ha & Hlo & Hhi). unfold push, reg_of. simpl. wrap. memory_step. done. Qed.

Ltac find_words :=
  repeat (apply words_at_cons; [displacement; first [find_word | apply lookup_insert_eq]|]); apply words_at_nil.

(** The hardware's part of the frame: everything but the number, and the
    error where the processor does not push one. *)
Lemma take_interrupt_frame esp0 g err c :
  stack_at (frame_top esp0 c) 128 0 -> selectors_ok (sregs c) -> destSegment g = 0x08 ->
  exists c1 csw ssw, take_interrupt esp0 g err c = Ret c1 /\ csw mod 65536 = s_cs (sregs c) /\ ssw mod 65536 = s_ss (sregs c) /\
    pc c1 = gate_offset g /\ Z.land (fl c1) IF = 0 /\ sregs c1 = kernel_segs c /\ ctl c1 = ctl c /\
    gprs c1 = set_reg ESP (frame_number esp0 c + match err with Some _ => 4 | None => 8 end) (gprs c) /\
    words_at (ram c1) (frame_number esp0 c + 8) ([pc c; csw; fl c] ++ user_words c ssw) /\
    (forall e, err = Some e -> ram c1 !! (frame_number esp0 c + 4) = Some e) /\
    (forall a, a < frame_number esp0 c + 4 \/ frame_top esp0 c <= a -> ram c1 !! a = ram c !! a).
Proof.
  intros Hst Hsel Hg. unfold take_interrupt, frame_number, user_words, kernel_segs, frame_top, from_user in *.
  pose proof (Hsel CS) as HCS. pose proof (Hsel SS) as HSS.
  destruct c as [[a x d b sp bp si di] [c0 d0 e0 f0 g0 s0] f ct p m]. simpl in *.
  assert (forall k, Z.land (Z.land k (Z.lnot 0x34300)) IF = 0) as HIF.
  { intros k. apply Z.bits_inj'. intros i Hi. rewrite !Z.land_spec, Z.lnot_spec, Z.bits_0 by done. destruct (Z.testbit k i); [|done]. simpl.
    destruct (decide (i = 9)) as [->|Hn]; [done|]. replace (Z.testbit IF i) with false; [by rewrite andb_false_r|].
    symmetry. change IF with (2 ^ 9). apply Z.pow2_bits_false. lia. }
  destruct (c0 mod 4 =? 3) eqn:Hu; destruct Hst as (Ha & Hlo & Hhi).
  - destruct (push_selector_word s0 (mkCpu (mkGpr a x d b esp0 bp si di) (mkSegs c0 d0 e0 f0 g0 0x10) f ct p m) esp0) as (ssw & Hss & E1);
      [done|split_and!; lia|done|]. simpl in E1.
    destruct (push_selector_word c0 (mkCpu (mkGpr a x d b (esp0 - 12) bp si di) (mkSegs c0 d0 e0 f0 g0 0x10) f ct p
      (<[esp0 - 12 := f]> (<[esp0 - 8 := sp]> (<[esp0 - 4 := ssw]> m)))) (esp0 - 12)) as (csw & Hcs & E2); [done|split_and!; zlia|done|].
    simpl in E2. replace (esp0 - 12 - 4) with (esp0 - 16) in E2 by lia.
    destruct err as [e|]; eexists _, csw, ssw; (split; [|split; [exact Hcs|split; [exact Hss|]]]).
    1, 3: simpl; rewrite E1; simpl; rewrite push_ok by (split_and!; zlia); displacement; simpl; rewrite push_ok by (split_and!; zlia);
      displacement; simpl; rewrite E2; simpl; rewrite push_ok by (split_and!; zlia); displacement; simpl.
    { rewrite push_ok by (split_and!; zlia). displacement. simpl. reflexivity. }
    { reflexivity. }
    all: simpl; rewrite Hg; split_and!; [done|apply HIF|done|done|f_equal; lia|find_words| |intros z Hz; by rewrite !lookup_insert_ne by lia].
    { intros z [= <-]. find_word. }
    { done. }
  - destruct (push_selector_word c0 (mkCpu (mkGpr a x d b (sp - 4) bp si di) (mkSegs c0 d0 e0 f0 g0 s0) f ct p (<[sp - 4 := f]> m)) (sp - 4))
      as (csw & Hcs & E2); [done|split_and!; unfold reg_of in *; simpl in *; zlia|done|].
    unfold reg_of in *. simpl in *. replace (sp - 4 - 4) with (sp - 8) in E2 by lia.
    destruct err as [e|]; eexists _, csw, s0; (split; [|split; [exact Hcs|split; [by apply Z.mod_small|]]]).
    1, 3: simpl; rewrite push_ok by (split_and!; zlia); simpl; rewrite E2; simpl; rewrite push_ok by (split_and!; zlia); displacement; simpl.
    { rewrite push_ok by (split_and!; zlia). displacement. simpl. reflexivity. }
    { reflexivity. }
    all: simpl; rewrite Hg; split_and!; [done|apply HIF|done|done|f_equal; lia|find_words| |intros z Hz; by rewrite !lookup_insert_ne by lia].
    { intros z [= <-]. find_word. }
    { done. }
Qed.

(** The entry point of a vector completes the frame. *)
Lemma isr_runs v c q err : IntrCode.has_entry v = true -> pc c = place (IntrCode.Isr v) 0 -> stack_at q 0 8 ->
  reg_of ESP c = q + match err with Some _ => 4 | None => 8 end ->
  (forall e, err = Some e -> ram c !! (q + 4) = Some e) -> (is_Some err <-> IntrCode.with_error v = true) ->
  exists k m, (forall n, run (k + n) c = run n (with_pc (place IntrCode.IntrCommonEntry 0) (with_ram m (put_reg ESP q c)))) /\
    m !! q = Some (Z.of_nat v) /\ m !! (q + 4) = Some (default 0 err) /\
    (forall a, a < q \/ q + 8 <= a -> m !! a = ram c !! a).
Proof.
  intros Hv Hpc (Ha & Hlo & Hhi) Hsp He Hwe.
  assert (IntrCode.code (IntrCode.Isr v) = IntrCode.isr_code v) as Hcode.
  { simpl. by rewrite Hv. }
  destruct c as [[a x d b sp bp si di] sg f ct p m]. unfold reg_of in *. simpl in Hpc, Hsp, He. subst p.
  unfold IntrCode.isr_code in Hcode. destruct err as [e|].
  - rewrite (proj1 Hwe) in Hcode by eauto. subst sp. exists 2%nat, (<[q := Z.of_nat v]> m). split; [|split_and!].
    + intros n. change (2 + n)%nat with (S (S n)).
      erewrite (run_step _ (IntrCode.Isr v) 0); [|done|by rewrite Hcode]. simpl. semantics. wrap. displacement. memory_step. simpl.
      erewrite (run_step _ (IntrCode.Isr v) 1); [|done|by rewrite Hcode]. simpl. unfold put_reg. simpl. done.
    + apply lookup_insert_eq.
    + rewrite lookup_insert_ne by lia. by apply He.
    + intros z Hz. rewrite lookup_insert_ne by lia. done.
  - destruct (IntrCode.with_error v); [by destruct Hwe as [_ [? ?]]|]. subst sp.
    exists 3%nat, (<[q := Z.of_nat v]> (<[q + 4 := 0]> m)). split; [|split_and!].
    + intros n. change (3 + n)%nat with (S (S (S n))).
      erewrite (run_step _ (IntrCode.Isr v) 0); [|done|by rewrite Hcode]. simpl. semantics. wrap. displacement. memory_step. simpl.
      erewrite (run_step _ (IntrCode.Isr v) 1); [|done|by rewrite Hcode]. simpl. semantics. wrap. displacement. memory_step. simpl.
      erewrite (run_step _ (IntrCode.Isr v) 2); [|done|by rewrite Hcode]. simpl. unfold put_reg. simpl. displacement. done.
    + apply lookup_insert_eq.
    + find_word.
    + intros z Hz. rewrite !lookup_insert_ne by lia. done.
Qed.

(** The context of an interrupt: the registers of the interrupted code. *)
Definition context_of (c : cpu) (csw : Z) : IntrContext :=
  mkIntr (reg_of EDI c) (reg_of ESI c) (reg_of EBP c) (reg_of EBX c) (reg_of EDX c) (reg_of ECX c) (reg_of EAX c)
    (pc c) csw (fl c) (reg_of ESP c).

(** The context lies at [sp]: general registers, selectors, number, error, and
    what the processor pushed. *)
Definition context_at (m : gmap Z Z) (sp esp0 : Z) (v : nat) (err : option Z) (c : cpu) (spare csw ssw : Z) (sel : list Z) : Prop :=
  words_at m sp (context_words (context_of c csw) spare sel (Z.of_nat v) (default 0 err) (user_words c ssw)) /\
  sp = frame_number esp0 c - 48 /\ csw mod 65536 = s_cs (sregs c) /\ ssw mod 65536 = s_ss (sregs c) /\
  ((fun w => w mod 65536) <$> sel) = [s_ds (sregs c); s_es (sregs c); s_fs (sregs c); s_gs (sregs c)].

(** The machine in code that vector [v] interrupts. *)
Record interruptible (v : nat) (err : option Z) (esp0 : Z) (c : cpu) : Prop := {
  in_vector : IntrCode.has_entry v = true;
  in_error : is_Some err <-> IntrCode.with_error v = true;
  in_mode : from_user c = true \/ s_cs (sregs c) = 0x08;
  in_stack : stack_at (frame_top esp0 c) 128 0;
  in_top : frame_top esp0 c < 4294967296;
  in_selectors : selectors_ok (sregs c)
}.

(** C15: an interrupt of any vector that has an entry point (0 to 47, and 66 for
    system calls), in kernel or user mode, ends in a call of IntrHandler with interrupts disabled, kernel segments and the IntrContext
    of the interrupted code as its argument; memory above the frame and below
    the stack is as it was. *)
Theorem interrupt_builds_context v err esp0 info c :
  interruptible v err esp0 c ->
  exists c1 c2 k spare csw ssw sel, take_interrupt esp0 (gate (place (IntrCode.Isr v) 0) info) err c = Ret c1 /\
    (forall n, run (k + n) c1 = run n c2) /\ pc c2 = place IntrCode.IntrHandler 0 /\ Z.land (fl c2) IF = 0 /\
    s_cs (sregs c2) = 0x08 /\ s_ds (sregs c2) = 0x10 /\ s_es (sregs c2) = 0x10 /\ s_ss (sregs c2) = s_ss (kernel_segs c) /\
    ram c2 !! reg_of ESP c2 = Some (place IntrCode.IntrCommonEntry 10) /\
    context_at (ram c2) (reg_of ESP c2 + 4) esp0 v err c spare csw ssw sel /\
    (forall a, a < reg_of ESP c2 \/ frame_top esp0 c <= a -> ram c2 !! a = ram c !! a).
Proof.
  intros [Hv He Hm (Ha & Hlo & Hhi) Htop Hsel].
  destruct (take_interrupt_frame esp0 (gate (place (IntrCode.Isr v) 0) info) err c) as
    (c1 & csw & ssw & E1 & Hcs & Hss & Hpc & HIF & Hsg & Hct & Hg & Hw & Herr & Hkeep); [done..|].
  rewrite gate_offset_entry in Hpc. set (q := frame_number esp0 c) in *.
  assert (100 <= q /\ q mod 4 = 0 /\ q + 20 <= frame_top esp0 c) as (Hq & Hqa & Hqt)
    by (unfold q, frame_number; destruct (from_user c); zlia).
  assert (reg_of ESP c1 = q + match err with Some _ => 4 | None => 8 end) as Hsp.
  { unfold reg_of. rewrite Hg. by destruct (gprs c). }
  destruct (isr_runs v c1 q err Hv Hpc) as (k & m & Hrun & Hnum & Herr' & Hm'); [split_and!; lia|done|done|done|].
  set (c1' := with_pc _ _) in Hrun.
  assert (sregs c1' = kernel_segs c /\ fl c1' = fl c1 /\ ram c1' = m /\ gprs c1' = set_reg ESP q (gprs c) /\ pc c1' = place IntrCode.IntrCommonEntry 0)
    as (Hsg' & Hfl' & Hm1 & Hg' & Hpc').
  { unfold c1'. destruct c1 as [g1 ? ? ? ? ?]. simpl in *. subst g1. rewrite Hsg. split_and!; try done. by destruct (gprs c). }
  destruct (common_entry c1' q) as (g & sg & ds & es & fs & gs & Hrun2 & Hg2 & Hds & Hes & Hcs2 & Hss2 & Hsel2).
  { done. }
  { unfold reg_of. rewrite Hg'. by destruct (gprs c). }
  { split_and!; lia. }
  { rewrite Hsg'. unfold kernel_segs. destruct (sregs c) as [s1 s2 s3 s4 s5 s6] eqn:Es. intros r. specialize (Hsel r).
    destruct (from_user c), r; simpl in *; try lia; done. }
  rewrite Hfl' in Hrun2.
  assert (forall r, r <> ESP -> reg_of r c1' = reg_of r c) as Hregs.
  { intros r Hr. unfold reg_of. rewrite Hg'. by destruct (gprs c), r. }
  assert (forall a, q <= a -> saved c1' q ds es fs gs !! a = m !! a) as Hup.
  { intros a Ha'. unfold saved. rewrite Hm1, !lookup_insert_ne by lia. done. }
  exists c1. eexists. exists (k + 10)%nat, (q - 16), csw, ssw, [ds; es; fs; gs]. split; [exact E1|]. split.
  { intros n. rewrite <- Nat.add_assoc, Hrun. apply Hrun2. }
  unfold reg_of. cbn [pc fl sregs gprs get_reg ram]. rewrite Hg2.
  split; [done|]. split.
  { rewrite <- Z.land_assoc, (Z.land_comm (Z.lnot 0x400)), Z.land_assoc, HIF. apply Z.land_0_l. }
  split; [rewrite Hcs2, Hsg'; unfold kernel_segs; by destruct (from_user c), (sregs c)|]. split; [done|]. split; [done|].
  split; [by rewrite Hss2, Hsg'|].
  split; [unfold saved; apply lookup_insert_eq|]. split; [unfold context_at; split_and!|].
  - unfold context_words, context_of. cbn [edi esi ebp ebx edx ecx eax eip cs eflags esp app].
    pose proof (Hregs EDI ltac:(done)) as R1. pose proof (Hregs ESI ltac:(done)) as R2. pose proof (Hregs EBP ltac:(done)) as R3.
    pose proof (Hregs EBX ltac:(done)) as R4. pose proof (Hregs EDX ltac:(done)) as R5. pose proof (Hregs ECX ltac:(done)) as R6.
    pose proof (Hregs EAX ltac:(done)) as R7. rewrite <- R1, <- R2, <- R3, <- R4, <- R5, <- R6, <- R7.
    do 12 (apply words_at_cons; [displacement; unfold saved; first [find_word | apply lookup_insert_eq]|]). displacement.
    replace (q - 48 + 4 + 4 + 4 + 4 + 4 + 4 + 4 + 4 + 4 + 4 + 4 + 4) with q by lia.
    eapply words_at_ext; [exact Hup|]. apply words_at_cons; [done|]. apply words_at_cons; [done|]. displacement.
    eapply (words_at_ext (ram c1)); [|exact Hw]. intros z Hz. apply Hm'. lia.
  - lia.
  - done.
  - done.
  - rewrite Hsel2, Hsg'. unfold kernel_segs. by destruct (from_user c), (sregs c).
  - intros a Hra. unfold saved. rewrite !lookup_insert_ne by lia. rewrite Hm1, Hm' by lia. apply Hkeep. lia.
Qed.

(** ** There and back *)

(** C14: an interrupt of any vector that has an entry point (0 to 47, and 66 for
    system calls), in kernel or user mode, reaches the handler, and when the
    handler returns and leaves the context as it was, the interrupted code
    goes on with all of its registers, selectors, flags and its stack
    pointer, at the instruction where it was interrupted. *)
Theorem interrupt_transparent v err esp0 info c :
  interruptible v err esp0 c ->
  exists c1 c2 k, take_interrupt esp0 (gate (place (IntrCode.Isr v) 0) info) err c = Ret c1 /\
    (forall n, run (k + n) c1 = run n c2) /\ pc c2 = place IntrCode.IntrHandler 0 /\
    ram c2 !! reg_of ESP c2 = Some (place IntrCode.IntrCommonEntry 10) /\
  forall c3, pc c3 = place IntrCode.IntrCommonEntry 10 -> reg_of ESP c3 = reg_of ESP c2 + 4 ->
    s_cs (sregs c3) = 0x08 -> s_ss (sregs c3) = s_ss (sregs c2) ->
    (forall a, reg_of ESP c2 + 4 <= a < frame_top esp0 c -> ram c3 !! a = ram c2 !! a) ->
    exists c4, (forall n, run (7 + n) c3 = run n c4) /\ gprs c4 = gprs c /\ sregs c4 = sregs c /\ fl c4 = fl c /\ pc c4 = pc c /\
      ram c4 = ram c3.
Proof.
  intros Hi. destruct (interrupt_builds_context v err esp0 info c Hi) as
    (c1 & c2 & k & spare & csw & ssw & sel & E1 & Hrun & Hpc & _ & _ & _ & _ & Hss2 & Hret & (Hw & Hsp & Hcs & Hss & Hsel) & _).
  exists c1, c2, k. split_and!; [done..|]. intros c3 Hpc3 Hsp3 Hcs3 Hss3 Hkeep.
  destruct Hi as [Hv _ Hm (Ha & Hlo & Hhi) Htop Hselc].
  destruct sel as [|ds [|es [|fs [|gs [|]]]]]; try discriminate Hsel. injection Hsel as Hds Hes Hfs Hgs.
  assert (handled c3 (reg_of ESP c3) (context_of c csw) spare [ds; es; fs; gs] (Z.of_nat v) (default 0 err) (user_words c ssw)) as Hh.
  { unfold frame_number in Hsp. assert (frame_top esp0 c = reg_of ESP c3 + 68 + 4 * zlen (user_words c ssw)) as Htop'.
    { unfold user_words, zlen. revert Hsp. destruct (from_user c); cbn [length]; lia. }
    split; [done|done| |done|].
    - revert Hsp. destruct (from_user c); intros Hsp; split_and!; zlia || lia.
    - intros i w Hiw. pose proof (zget_range _ _ _ Hiw) as Hr. rewrite Hsp3, Hkeep; [by apply Hw|].
      assert (zlen (context_words (context_of c csw) spare [ds; es; fs; gs] (Z.of_nat v) (default 0 err) (user_words c ssw)) =
        17 + zlen (user_words c ssw)) as Hlen by (unfold zlen; simpl; lia). lia. }
  exists (resumed (context_of c csw) (sregs c) (reg_of ESP c) c3). split.
  - intros n. destruct (common_exit n c3 _ _ _ _ _ _ _ _ _ _ Hh Hcs3) as [Hk Hu]. unfold user_words, kernel_segs, from_user in *.
    destruct (sregs c) as [c0 d0 e0 f0 g0 s0] eqn:Es. simpl in Hcs, Hss, Hds, Hes, Hfs, Hgs, Hss2, Hm. 
    destruct (c0 mod 4 =? 3) eqn:Hmode.
    + cbn [s_cs] in Hu. rewrite Hmode in Hu. rewrite (Hu ssw); [|done|simpl; zlia]. unfold selectors_of. simpl. by rewrite Hcs, Hss, Hds, Hes, Hfs, Hgs.
    + destruct Hm as [Hm|Hm]; [simpl in Hm; congruence|]. cbn [s_cs] in Hk. rewrite Hmode in Hk. rewrite Hk; [|done|simpl; zlia]. unfold selectors_of. simpl.
      rewrite Hcs, Hds, Hes, Hfs, Hgs, Hss3, Hss2. unfold frame_number, frame_top, from_user in Hsp. rewrite Es in Hsp. cbn [s_cs] in Hsp.
      rewrite Hmode in Hsp. unfold reg_of in *. cbn [get_reg] in *. by replace (r_esp (gprs c3) + 68) with (r_esp (gprs c)) by lia.
  - unfold resumed, context_of, reg_of. destruct c as [[a x d b sp bp si di] sg f ct p m]. by split_and!.
Qed.

(** ** LIDT *)

Lemma word_split x : 0 <= x < 4294967296 -> x mod 65536 + x / 65536 * 65536 = x.
Proof. zlia. Qed.

(** lidt(length, ptr), whose first argument is the low half of a word, loads
    the descriptor table register with the length and the pointer, and returns. *)
Theorem lidt_loads n c sp ret w ptr :
  pc c = place IntrCode.lidt 0 -> reg_of ESP c = sp -> stack_at sp 0 16 -> words_at (ram c) sp [ret; w; ptr] ->
  is_u32 w -> is_u32 (reg_of EAX c) ->
  exists c', run (4 + n) c = run n c' /\ idtr (ctl c') = (w mod 65536, ptr) /\ pc c' = ret /\ reg_of ESP c' = u32 (sp + 4) /\
    (forall r, r <> EAX -> r <> ESP -> reg_of r c' = reg_of r c) /\ forall a, a <> sp + 4 -> ram c' !! a = ram c !! a.
Proof.
  intros Hpc Hsp (Ha & Hlo & Hhi) Hw Hw32 Hax. destruct c as [[a x d b sp0 bp si di] sg f ct p m]. unfold reg_of in *. simpl in *. subst p sp0.
  pose proof (words_lookup _ _ _ 0 _ sp Hw eq_refl ltac:(lia)) as A0.
  pose proof (words_lookup _ _ _ 1 _ (sp + 4) Hw eq_refl ltac:(lia)) as A1.
  pose proof (words_lookup _ _ _ 2 _ (sp + 8) Hw eq_refl ltac:(lia)) as A2. clear Hw.
  set (v := w mod 65536). assert (0 <= v < 65536) as Hv by (unfold v; zlia).
  assert (load_part 2 m (sp + 4) = Ret v) as L1.
  { unfold load_part. wrap. replace ((sp + 4) mod 4) with 0 by zlia. simpl. rewrite Z.sub_0_r. memory_step. simpl. by rewrite Z.div_1_r. }
  set (w2 := v + v * 65536).
  set (y := a / 65536 * 65536 + v mod 65536).
  assert (y mod 65536 = v) as Hy by (unfold y; zlia).
  assert (store_part 2 m (sp + 6) y = Ret (<[sp + 4 := w2]> m)) as S1.
  { unfold store_part. wrap. replace ((sp + 6) mod 4) with 2 by zlia. simpl. replace (sp + 6 - 2) with (sp + 4) by lia. memory_step. simpl.
    memory_step. do 2 f_equal. unfold put_part.
    change (2 ^ (8 * 2)) with 65536. change (2 ^ (8 * (2 + 2))) with 4294967296. rewrite Hy. unfold w2, v. unfold is_u32 in *. zlia. }
  assert (load_part 2 (<[sp + 4 := w2]> m) (sp + 6) = Ret v) as L2.
  { unfold load_part. wrap. replace ((sp + 6) mod 4) with 2 by zlia. simpl. replace (sp + 6 - 2) with (sp + 4) by lia. memory_step. simpl.
    f_equal. change (Z.pow_pos 2 16) with 65536. unfold w2. zlia. }
  eexists. split.
  { erewrite (run_step _ IntrCode.lidt 0) by reflexivity. simpl. semantics. wrap. rewrite L1. simpl. fold y.
    erewrite (run_step _ IntrCode.lidt 1) by reflexivity. simpl. semantics. wrap. rewrite S1. simpl.
    erewrite (run_step _ IntrCode.lidt 2) by reflexivity. simpl. semantics. wrap. rewrite L2. simpl. displacement. memory_step. simpl.
    erewrite (run_step _ IntrCode.lidt 3) by reflexivity. simpl. semantics. wrap. displacement. memory_step. simpl. reflexivity. }
  simpl. split_and!; try done.
  - wrap. lia.
  - intros [] ? ?; done.
  - intros z Hz. by rewrite lookup_insert_ne by lia.
Qed.
End IntrAsm.

(** ** At a small machine *)

Definition intr_index (f : IntrCode.func) : nat :=
  match f with
  | IntrCode.Isr v => v | IntrCode.IntrCommonEntry => 67 | IntrCode.lidt => 68 | IntrCode.IntrHandler => 69
  end.
Definition intr_of (n : nat) : option IntrCode.func :=
  match decide (n < 67)%nat with
  | left H => Some (IntrCode.Isr (nat_to_fin H))
  | right _ => [IntrCode.IntrCommonEntry; IntrCode.lidt; IntrCode.IntrHandler] !! (n - 67)%nat
  end.

Definition small_intr_layout : Layout IntrCode.code.
Proof.
  refine (numbered_layout IntrCode.code intr_index intr_of 0xC0110000 _ _ _ _).
  - lia.
  - intros [v| | |]; try reflexivity. unfold intr_of, intr_index. pose proof (fin_to_nat_lt v).
    destruct (decide (v < 67)%nat); [|lia]. do 2 f_equal. apply fin_to_nat_inj. by rewrite fin_to_nat_to_fin.
  - intros [v| | |]; simpl; [pose proof (fin_to_nat_lt v)|..]; lia.
  - intros [v| | |]; simpl; try lia. destruct (IntrCode.has_entry v); [|simpl; lia]. unfold IntrCode.isr_code. destruct (IntrCode.with_error v); simpl; lia.
Defined.

(** A user program and the kernel, both with their registers in use. *)
Definition user_program : cpu :=
  mkCpu (mkGpr 1 2 3 4 0xBFFF0000 6 7 8) (mkSegs 0x1B 0x23 0x23 0x28 0x28 0x23) 0x202 (mkCtrl 0x80050033 0 (0, 0)) 0x8000 ∅.
Definition in_kernel : cpu :=
  mkCpu (mkGpr 1 2 3 4 0xC0201F00 6 7 8) (mkSegs 0x08 0x10 0x10 0x28 0x28 0x10) 0x202 (mkCtrl 0x80050033 0 (0, 0)) 0xC0108000 ∅.

Lemma user_interruptible : interruptible 14 (Some 6) 0xC0002000 user_program.
Proof.
  split.
  - reflexivity.
  - split; [done|by eexists].
  - by left.
  - by repeat split.
  - done.
  - intros []; simpl; lia.
Qed.
Lemma system_call_interruptible : interruptible 66 None 0xC0002000 user_program.
Proof.
  split.
  - reflexivity.
  - split; [by intros [? [=]]|done].
  - by left.
  - by repeat split.
  - done.
  - intros []; simpl; lia.
Qed.
Lemma kernel_interruptible : interruptible 32 None 0 in_kernel.
Proof.
  split.
  - reflexivity.
  - split; [by intros [? [=]]|done].
  - by right.
  - by repeat split.
  - done.
  - intros []; simpl; lia.
Qed.

Lemma interrupt_builds_context_witness :
  exists c1 c2 k, take_interrupt (P := plain_processor) 0xC0002000
      (gate (place (Layout := small_intr_layout) (IntrCode.Isr 14) 0) INTR_KERNEL_GATE) (Some 6) user_program = Ret c1 /\
    run (P := plain_processor) (L := small_intr_layout) (k + 0) c1 = run (P := plain_processor) (L := small_intr_layout) 0 c2 /\
    ram c2 !! (reg_of ESP c2 + 52) = Some 14.
Proof.
  destruct (interrupt_builds_context (P := plain_processor) (L := small_intr_layout) 14 (Some 6) 0xC0002000 INTR_KERNEL_GATE user_program
    user_interruptible) as (c1 & c2 & k & spare & csw & ssw & sel & E & Hr & _ & _ & _ & _ & _ & _ & _ & Hw & _).
  exists c1, c2, k. split; [exact E|]. split; [apply Hr|]. destruct Hw as (Hw & _ & _ & _ & Hsel).
  destruct sel as [|ds [|es [|fs [|gs [|]]]]]; try discriminate Hsel.
  replace (reg_of ESP c2 + 52) with (reg_of ESP c2 + 4 + 4 * 12) by lia. by apply (Hw 12).
Defined.

(** A system call of a user program, and a timer interrupt of the kernel. *)
Lemma interrupt_transparent_witness :
  (exists c1 c2 k, take_interrupt (P := plain_processor) 0xC0002000
      (gate (place (Layout := small_intr_layout) (IntrCode.Isr 66) 0) INTR_USER_GATE) None user_program = Ret c1 /\
    run (P := plain_processor) (L := small_intr_layout) (k + 0) c1 = run (P := plain_processor) (L := small_intr_layout) 0 c2 /\
    ram c2 !! reg_of ESP c2 = Some (place (Layout := small_intr_layout) IntrCode.IntrCommonEntry 10)) /\
  exists c1 c2 k, take_interrupt (P := plain_processor) 0
      (gate (place (Layout := small_intr_layout) (IntrCode.Isr 32) 0) INTR_KERNEL_GATE) None in_kernel = Ret c1 /\
    run (P := plain_processor) (L := small_intr_layout) (k + 0) c1 = run (P := plain_processor) (L := small_intr_layout) 0 c2 /\
    ram c2 !! reg_of ESP c2 = Some (place (Layout := small_intr_layout) IntrCode.IntrCommonEntry 10).
Proof.
  split.
  - destruct (interrupt_transparent (P := plain_processor) (L := small_intr_layout) 66 None 0xC0002000 INTR_USER_GATE user_program
      system_call_interruptible) as (c1 & c2 & k & E & Hr & _ & Hm & _).
    exists c1, c2, k. split; [exact E|]. split; [apply Hr|exact Hm].
  - destruct (interrupt_transparent (P := plain_processor) (L := small_intr_layout) 32 None 0 INTR_KERNEL_GATE in_kernel
      kernel_interruptible) as (c1 & c2 & k & E & Hr & _ & Hm & _).
    exists c1, c2, k. split; [exact E|]. split; [apply Hr|exact Hm].
Defined.

Definition loading_idt : cpu :=
  mkCpu (mkGpr 1 2 3 4 0xC0201F00 6 7 8) (mkSegs 0x08 0x10 0x10 0 0 0x10) 2 (mkCtrl 0x80050033 0 (0, 0))
    (place (Layout := small_intr_layout) IntrCode.lidt 0)
    (store_words ∅ 0xC0201F00 [0xC0105000; 0x218; 0xC0130000]).

Lemma lidt_loads_witness :
  exists c', run (P := plain_processor) (L := small_intr_layout) (4 + 0) loading_idt =
      run (P := plain_processor) (L := small_intr_layout) 0 c' /\ idtr (ctl c') = (0x218, 0xC0130000).
Proof.
  destruct (lidt_loads (P := plain_processor) (L := small_intr_layout) 0 loading_idt 0xC0201F00 0xC0105000 0x218 0xC0130000)
    as (c' & ? & ? & _); [done|done|by repeat split|apply words_check_sound; vm_compute; reflexivity|done|done|].
  by exists c'.
Defined.
