(* ===== verification/CpuAsm.v ===== *)
(** * Finding out about the processor (src/cpuAsm.s)

    CpuInit as a program of Asm.v. The variables of the file are the words
    from [data] on, in their order; [CpuTmpFxSave] is the buffer for FXSAVE,
    [Cpu386ErrMsg] the message of the panic. *)
From S2P Require Import Prelude Physical Region Sched Signal Asm SchedAsm.

Module CpuCode.
Inductive func := CpuInit | Panic.

Section Code.
Context (data CpuTmpFxSave Cpu386ErrMsg : Z).

Definition CpuHasCpuId : Z := data.
Definition CpuIdVendor : Z := data + 4.
Definition CpuIdHighest : Z := data + 20.
Definition CpuIdSignature : Z := data + 24.
Definition CpuFeaturesEDX : Z := data + 28.
Definition CpuFeaturesECX : Z := data + 32.
Definition CpuHasDenormalsAreZero : Z := data + 36.

Definition identify_code : list (instr func) := [
  PUSH (R EBX);
  (* test for Intel 486: flip AC *)
  PUSHFD; POP EAX; MOV (R ECX) (R EAX); XOR EAX (I 0x40000); PUSH (R EAX); POPFD;
  PUSHFD; POP EAX; XOR EAX (R ECX); JNZ 0;
  PUSH (I Cpu386ErrMsg); CALL Panic;
  LABEL 0 (* using486: test for CPUID, flip ID *);
  PUSH (R ECX); POPFD; MOV (R EAX) (R ECX); XOR EAX (I 0x200000); PUSH (R EAX); POPFD;
  PUSHFD; POP EAX; XOR EAX (R ECX); JZ 1;
  MOV (M (Abs CpuHasCpuId)) (I 1);
  XOR EAX (R EAX); CPUID;
  MOV (M (Abs CpuIdHighest)) (R EAX); MOV (M (Abs CpuIdVendor)) (R EBX);
  MOV (M (Abs (CpuIdVendor + 4))) (R EDX); MOV (M (Abs (CpuIdVendor + 8))) (R ECX);
  MOV (R EAX) (I 1); CPUID;
  MOV (M (Abs CpuIdSignature)) (R EAX); MOV (M (Abs CpuFeaturesEDX)) (R EDX);
  MOV (M (Abs CpuFeaturesECX)) (R ECX)].

Definition fpu_code : list (instr func) := [
  LABEL 1 (* postIdentify *);
  MOV (R EAX) (M (Abs CpuFeaturesEDX)); AND EAX 1; JNZ 3;
  MOV (R ECX) (M (Abs CpuHasCpuId)); TEST ECX (R ECX); JNZ 3;
  (* try to detect an FPU manually *)
  MOVFROMCR0 ECX; AND ECX 0xFFFFFFF3; MOVTOCR0 ECX;
  PUSH (I 0xDEADBEEF); FNINIT; FNSTSW (At ESP 0);
  XOR EAX (R EAX); POP ECX; TEST ECX (R ECX); SETZ EAX;
  LABEL 2 (* hasFPU *);
  MOV (M (Abs CpuFeaturesEDX)) (I 1); MOV (R EAX) (I 1); RETN 0;
  LABEL 3 (* afterProbe *);
  MOVFROMCR0 ECX; OR ECX (I 0x50020); AND ECX 0x9FFFFFF1;
  TEST EAX (R EAX); JZ 4;
  OR ECX (I 2); FNINIT; JMP 5;
  LABEL 4 (* noFPU *);
  OR ECX (I 4);
  LABEL 5 (* postSetupFPU *);
  MOVTOCR0 ECX].

Definition extension_code : list (instr func) := [
  MOV (R EDX) (M (Abs CpuFeaturesEDX)); XOR ECX (R ECX);
  TEST EDX (I (Z.shiftl 1 3)); JZ 6; OR ECX (I 0x10);
  LABEL 6 (* noPSE *); TEST EDX (I (Z.shiftl 1 7)); JZ 7; OR ECX (I 0x40);
  LABEL 7 (* noMachineCheck *); TEST EDX (I (Z.shiftl 1 13)); JZ 8; OR ECX (I 0x80);
  LABEL 8 (* noPageGlobal *); TEST EDX (I (Z.shiftl 1 24)); JZ 9; TEST EDX (I (Z.shiftl 1 25)); JZ 9; OR ECX (I 0x600);
  LABEL 9 (* noSSE *); TEST ECX (R ECX); JZ 10;
  MOVFROMCR4 EAX; OR EAX (R ECX); MOVTOCR4 EAX;
  TEST ECX (I 0x600); JZ 10;
  FXSAVE (Abs CpuTmpFxSave); TEST16 (Abs (CpuTmpFxSave + 0x1C)) (Z.shiftl 1 6); SETNZ (Abs CpuHasDenormalsAreZero);
  LABEL 10 (* postCPUExtend *);
  POP EBX; RETN 0].

Definition code (f : func) : list (instr func) :=
  match f with CpuInit => identify_code ++ fpu_code ++ extension_code | Panic => [] end.
End Code.
End CpuCode.

(** ** Flags that can be toggled *)

Section Toggle.
Context {P : Processor}.

(** Every processor lets POPFD set the status flags. *)
Definition status_popped : Prop := forall i, 0 <= i -> Z.testbit STATUS i = true -> Z.testbit popf_mask i = true.

(** Two flag registers that differ only where POPFD can change them. *)
Definition fixed_alike (f g : Z) : Prop := forall i, 0 <= i -> Z.testbit popf_mask i = false -> Z.testbit f i = Z.testbit g i.

Lemma fixed_after f r : status_popped -> fixed_alike (flags_after r f) f.
Proof.
  intros Hs i Hi Hm. apply flags_after_other; [done|]. destruct (Z.testbit STATUS i) eqn:E; [|done]. by rewrite Hs in Hm.
Qed.

Lemma fixed_popf f image : fixed_alike (popf image f) f.
Proof.
  intros i Hi Hm. unfold popf. rewrite Z.lor_spec, !Z.land_spec, Z.lnot_spec, Hm by done. simpl. by rewrite andb_true_r, andb_false_r, orb_false_r.
Qed.

Lemma fixed_trans f g h : fixed_alike f g -> fixed_alike g h -> fixed_alike f h.
Proof. intros H1 H2 i Hi Hm. by rewrite H1, H2. Qed.

(** The test of CpuInit: flip a flag, and look whether it stays flipped. *)
Lemma toggle_test f0 old k : k = 18 \/ k = 21 -> fixed_alike old f0 ->
  (Z.lxor (pushf_image (popf (Z.lxor (pushf_image f0) (2 ^ k)) old)) (pushf_image f0) =? 0) = negb (Z.testbit popf_mask k).
Proof.
  intros Hk Hf. assert (0 <= k /\ Z.testbit 0xFCFFFF k = true) as [Hk0 Hkm] by (destruct Hk as [-> | ->]; split; [lia|done|lia|done]).
  destruct (Z.testbit popf_mask k) eqn:Em; simpl.
  - apply Z.eqb_neq. intros H0. assert (Z.testbit (Z.lxor (pushf_image (popf (Z.lxor (pushf_image f0) (2 ^ k)) old)) (pushf_image f0)) k = false) as Ht
      by (rewrite H0; apply Z.bits_0). unfold pushf_image, popf in Ht.
    rewrite !Z.lxor_spec, !Z.land_spec, !Z.lor_spec, !Z.land_spec, !Z.lxor_spec, !Z.land_spec, Z.lnot_spec, Em, Hkm in Ht by done.
    rewrite Z.pow2_bits_true in Ht by done. destruct (Z.testbit f0 k), (Z.testbit old k); done.
  - apply Z.eqb_eq, Z.bits_inj'. intros i Hi. unfold pushf_image, popf.
    rewrite !Z.lxor_spec, !Z.land_spec, !Z.lor_spec, !Z.land_spec, !Z.lxor_spec, !Z.land_spec, Z.lnot_spec, Z.bits_0 by done.
    destruct (Z.testbit 0xFCFFFF i) eqn:Ei; [|by rewrite !andb_false_r]. rewrite !andb_true_r.
    destruct (Z.testbit popf_mask i) eqn:Emi; simpl.
    + assert (i <> k) by (intros ->; congruence). rewrite Z.pow2_bits_false by lia. rewrite xorb_false_r, andb_false_r, andb_true_r. simpl. apply xorb_nilpotent.
    + rewrite andb_true_r, andb_false_r, orb_false_r, Hf by done. apply xorb_nilpotent.
Qed.
End Toggle.

Section CpuInit.
Context {P : Processor} (data tmp msg : Z) {L : Layout (CpuCode.code data tmp msg)}.
Local Abbreviation CpuInit := CpuCode.CpuInit.

(** A step that may use the variables. *)
Ltac cpu_step i :=
  eapply (reaches_step CpuInit i); [reflexivity|reflexivity|
    simpl; semantics;
    unfold CpuCode.CpuHasCpuId, CpuCode.CpuIdVendor, CpuCode.CpuIdHighest, CpuCode.CpuIdSignature, CpuCode.CpuFeaturesEDX,
      CpuCode.CpuFeaturesECX, CpuCode.CpuHasDenormalsAreZero;
    wrap; displacement; repeat (memory_step; simpl; semantics; wrap; displacement); reflexivity|].

(** ** The two tests *)

(** Up to the first branch: on to the second test from the 486 on, else to
    the panic. The flags that POPFD cannot change are as before. *)
Lemma test_486 a x d b sp bp si di sg f ct m :
  status_popped -> stack_at sp 8 0 ->
  exists r f' w, fixed_alike f' f /\
    reaches (mkCpu (mkGpr a x d b sp bp si di) sg f ct (place CpuInit 0) m)
      (mkCpu (mkGpr r (pushf_image f) d b (sp - 4) bp si di) sg f' ct
        (place CpuInit (if Z.testbit popf_mask 18 then 13 else 11)) (<[sp - 8 := w]> (<[sp - 4 := b]> m))).
Proof.
  intros Hst (Ha & Hlo & Hhi). do 3 eexists. split; cycle 1.
  - step CpuInit 0%nat; step CpuInit 1%nat; step CpuInit 2%nat; step CpuInit 3%nat; step CpuInit 4%nat;
    step CpuInit 5%nat; step CpuInit 6%nat; step CpuInit 7%nat; step CpuInit 8%nat; step CpuInit 9%nat.
    eapply (branch_nonzero CpuInit 10); [reflexivity..| |].
    { cbn [fl]. rewrite zero_flag_after. change 262144 with (2 ^ 18). apply toggle_test; [by left|by apply fixed_after]. }
    replace (if negb (Z.testbit popf_mask 18) then 11%nat else 13%nat) with (if Z.testbit popf_mask 18 then 13%nat else 11%nat)
      by (by destruct (Z.testbit popf_mask 18)).
    cbn [with_pc]. rewrite !insert_insert_eq. apply reaches_refl.
  - eapply fixed_trans; [by apply fixed_after|]. eapply fixed_trans; [apply fixed_popf|]. by apply fixed_after.
Qed.

(** The second test, from the label using486. *)
Lemma test_cpuid a f0 d b sp bp si di sg f ct m :
  status_popped -> stack_at sp 4 4 -> fixed_alike f f0 ->
  exists r f' w, fixed_alike f' f0 /\
    reaches (mkCpu (mkGpr a (pushf_image f0) d b sp bp si di) sg f ct (place CpuInit 13) m)
      (mkCpu (mkGpr r (pushf_image f0) d b sp bp si di) sg f' ct
        (place CpuInit (if Z.testbit popf_mask 21 then 24 else 36)) (<[sp - 4 := w]> m)).
Proof.
  intros Hst (Ha & Hlo & Hhi) Hf. do 3 eexists. split; cycle 1.
  - step CpuInit 13%nat; step CpuInit 14%nat; step CpuInit 15%nat; step CpuInit 16%nat; step CpuInit 17%nat; step CpuInit 18%nat;
    step CpuInit 19%nat; step CpuInit 20%nat; step CpuInit 21%nat; step CpuInit 22%nat.
    eapply (branch_zero CpuInit 23); [reflexivity..| |].
    { cbn [fl]. rewrite zero_flag_after. change 2097152 with (2 ^ 21). apply toggle_test; [by right|].
      eapply fixed_trans; [by apply fixed_after|]. eapply fixed_trans; [apply fixed_popf|done]. }
    replace (if negb (Z.testbit popf_mask 21) then 36%nat else 24%nat) with (if Z.testbit popf_mask 21 then 24%nat else 36%nat)
      by (by destruct (Z.testbit popf_mask 21)).
    cbn [with_pc]. rewrite !insert_insert_eq. apply reaches_refl.
  - eapply fixed_trans; [by apply fixed_after|]. eapply fixed_trans; [apply fixed_popf|].
    eapply fixed_trans; [by apply fixed_after|]. by eapply fixed_trans; [apply fixed_popf|].
Qed.

(** ** CPUID *)

Definition data_ok : Prop := data mod 4 = 0 /\ 0 <= data /\ data + 40 < 4294967296.

(** What the two leaves leave in the variables. *)
Definition identified (m : gmap Z Z) : gmap Z Z :=
  let '(highest, vb, vc, vd) := cpuid_of 0 in
  let '(signature, _, fc, fd) := cpuid_of 1 in
  <[data + 32 := fc]> (<[data + 28 := fd]> (<[data + 24 := signature]> (<[data + 12 := vc]> (<[data + 8 := vd]>
  (<[data + 4 := vb]> (<[data + 20 := highest]> (<[data := 1]> m))))))).

Lemma identify a x d b sp bp si di sg f ct m :
  data_ok -> exists a' x' d' b' f',
    reaches (mkCpu (mkGpr a x d b sp bp si di) sg f ct (place CpuInit 24) m)
      (mkCpu (mkGpr a' x' d' b' sp bp si di) sg f' ct (place CpuInit 36) (identified m)).
Proof.
  intros (Ha & Hlo & Hhi). unfold identified. destruct (cpuid_of 0) as [[[highest vb] vc] vd] eqn:E0.
  destruct (cpuid_of 1) as [[[signature u] fc] fd] eqn:E1. do 5 eexists.
  cpu_step 24%nat. cpu_step 25%nat. rewrite Z.lxor_nilpotent.
  eapply (reaches_step CpuInit 26); [reflexivity|reflexivity| |].
  { cbn [exec with_pc]. unfold reg_of. cbn [gprs get_reg r_eax]. rewrite E0. semantics. reflexivity. }
  cpu_step 27%nat. cpu_step 28%nat. cpu_step 29%nat. cpu_step 30%nat. cpu_step 31%nat.
  eapply (reaches_step CpuInit 32); [reflexivity|reflexivity| |].
  { cbn [exec with_pc]. unfold reg_of. cbn [gprs get_reg r_eax]. rewrite E1. semantics. reflexivity. }
  cpu_step 33%nat. cpu_step 34%nat. cpu_step 35%nat. apply reaches_refl.
Qed.

(** ** The floating point unit *)

(** CR0 with the FPU's bits: MP with one, EM without. *)
Definition fpu_cr0 (cr0 : Z) (hasFpu : bool) : Z :=
  Z.lor (Z.land (Z.lor cr0 0x50020) 0x9FFFFFF1) (if hasFpu then 2 else 4).

(** Past the probe: an FPU that CPUID reports, or no FPU on a processor with CPUID. *)
Lemma fpu_setup a x d b sp bp si di sg f ct m features hasCpuId :
  data_ok -> m !! (data + 28) = Some features -> m !! data = Some hasCpuId ->
  Z.land features 1 <> 0 \/ Z.land hasCpuId hasCpuId <> 0 ->
  exists a' x' f',
    reaches (mkCpu (mkGpr a x d b sp bp si di) sg f ct (place CpuInit 36) m)
      (mkCpu (mkGpr a' x' d b sp bp si di) sg f' (mkCtrl (fpu_cr0 (c_cr0 ct) (negb (Z.land features 1 =? 0))) (c_cr4 ct) (idtr ct))
         (place CpuInit 70) m).
Proof.
  intros (Ha & Hlo & Hhi) Hf Hc Hor. unfold fpu_cr0.
  assert (forall e x0 f0, e = Z.land features 1 -> exists a' x' f',
    reaches (mkCpu (mkGpr e x0 d b sp bp si di) sg f0 ct (place CpuInit 57) m)
      (mkCpu (mkGpr a' x' d b sp bp si di) sg f' (mkCtrl (fpu_cr0 (c_cr0 ct) (negb (Z.land features 1 =? 0))) (c_cr4 ct) (idtr ct))
         (place CpuInit 70) m)) as Htail.
  { intros e x0 f0 ->. unfold fpu_cr0. destruct (Z.land features 1 =? 0) eqn:E; do 3 eexists.
    - cpu_step 57%nat. cpu_step 58%nat. cpu_step 59%nat. cpu_step 60%nat. cpu_step 61%nat.
      eapply (branch_zero CpuInit 62); [reflexivity..|cbn [fl]; rewrite zero_flag_after, Z.land_diag; exact E|]. cbn [with_pc].
      cpu_step 66%nat. cpu_step 67%nat. cpu_step 68%nat. cpu_step 69%nat. apply reaches_refl.
    - cpu_step 57%nat. cpu_step 58%nat. cpu_step 59%nat. cpu_step 60%nat. cpu_step 61%nat.
      eapply (branch_zero CpuInit 62); [reflexivity..|cbn [fl]; rewrite zero_flag_after, Z.land_diag; exact E|]. cbn [with_pc].
      cpu_step 63%nat. cpu_step 64%nat. cpu_step 65%nat. cpu_step 68%nat. cpu_step 69%nat. apply reaches_refl. }
  destruct (Z.land features 1 =? 0) eqn:E.
  - destruct Hor as [Hor|Hor]; [by apply Z.eqb_eq in E|].
    edestruct Htail as (a' & x' & f' & Hr); [reflexivity|]. do 3 eexists.
    cpu_step 36%nat. cpu_step 37%nat. cpu_step 38%nat.
    eapply (branch_nonzero CpuInit 39); [reflexivity..|cbn [fl]; rewrite zero_flag_after; exact E|]. cbn [with_pc].
    cpu_step 40%nat. cpu_step 41%nat.
    eapply (branch_nonzero CpuInit 42); [reflexivity..|cbn [fl]; rewrite zero_flag_after; by apply Z.eqb_neq|]. cbn [with_pc].
    exact Hr.
  - edestruct Htail as (a' & x' & f' & Hr); [reflexivity|]. do 3 eexists.
    cpu_step 36%nat. cpu_step 37%nat. cpu_step 38%nat.
    eapply (branch_nonzero CpuInit 39); [reflexivity..|cbn [fl]; rewrite zero_flag_after; exact E|]. cbn [with_pc].
    exact Hr.
Qed.

(** The probe on a processor without CPUID: whatever FNSTSW stores, an FPU is
    reported, and RETN takes the saved EBX for the return address. *)
Lemma fpu_probe a x d b sp bp si di sg f ct m features hasCpuId top :
  data_ok -> m !! (data + 28) = Some features -> m !! data = Some hasCpuId ->
  Z.land features 1 = 0 -> Z.land hasCpuId hasCpuId = 0 ->
  stack_at sp 4 5 -> m !! sp = Some top -> sp < data + 28 - 3 \/ data + 28 + 4 <= sp - 4 ->
  exists a' x' f' ct' w,
    reaches (mkCpu (mkGpr a x d b sp bp si di) sg f ct (place CpuInit 36) m)
      (mkCpu (mkGpr a' x' d b (sp + 4) bp si di) sg f' ct' top (<[data + 28 := 1]> (<[sp - 4 := w]> m))).
Proof.
  intros (Ha & Hlo & Hhi) Hf Hc H0 H1 (Hs & Hsl & Hsh) Htop Hap. do 5 eexists.
  cpu_step 36%nat. cpu_step 37%nat. cpu_step 38%nat.
  eapply (branch_nonzero CpuInit 39); [reflexivity..|cbn [fl]; rewrite zero_flag_after, H0; reflexivity|]. cbn [with_pc].
  cpu_step 40%nat. cpu_step 41%nat.
  eapply (branch_nonzero CpuInit 42); [reflexivity..|cbn [fl]; rewrite zero_flag_after, H1; reflexivity|]. cbn [with_pc].
  cpu_step 43%nat. cpu_step 44%nat. cpu_step 45%nat. cpu_step 46%nat. cpu_step 47%nat.
  eapply (reaches_step CpuInit 48); [reflexivity|reflexivity| |].
  { simpl. semantics. unfold load_part, store_part. wrap. displacement. replace ((sp - 4) mod 4) with 0 by zlia. simpl. rewrite Z.sub_0_r.
    repeat (memory_step; simpl). reflexivity. }
  rewrite insert_insert_eq.
  cpu_step 49%nat. cpu_step 50%nat. cpu_step 51%nat. cpu_step 52%nat. cpu_step 53%nat. cpu_step 54%nat. cpu_step 55%nat. cpu_step 56%nat.
  apply reaches_refl.
Qed.

(** ** Extensions *)

Lemma land_feature d n : 0 <= n -> (Z.land d (Z.shiftl 1 n) =? 0) = negb (Z.testbit d n).
Proof.
  intros Hn. rewrite Z.shiftl_1_l. assert (Z.land d (2 ^ n) = if Z.testbit d n then 2 ^ n else 0) as ->.
  { apply Z.bits_inj'. intros i Hi. rewrite Z.land_spec. destruct (decide (i = n)) as [->|Hne].
    - rewrite Z.pow2_bits_true, andb_true_r by done. destruct (Z.testbit d n); [by rewrite Z.pow2_bits_true|by rewrite Z.bits_0].
    - rewrite Z.pow2_bits_false, andb_false_r by lia. destruct (Z.testbit d n); [by rewrite Z.pow2_bits_false by lia|by rewrite Z.bits_0]. }
  destruct (Z.testbit d n); [|done]. simpl. apply Z.eqb_neq. pose proof (Z.pow_pos_nonneg 2 n). lia.
Qed.

(** One feature: TEST, JZ, OR. *)
Lemma feature i n v l a x d b sp bp si di sg f ct m :
  0 <= n -> CpuCode.code data tmp msg CpuInit !! i = Some (TEST EDX (I (Z.shiftl 1 n))) ->
  CpuCode.code data tmp msg CpuInit !! S i = Some (JZ l) -> CpuCode.code data tmp msg CpuInit !! S (S i) = Some (OR ECX (I v)) ->
  label_index l (CpuCode.code data tmp msg CpuInit) = Some (S (S (S i))) ->
  exists f', reaches (mkCpu (mkGpr a x d b sp bp si di) sg f ct (place CpuInit i) m)
    (mkCpu (mkGpr a (if Z.testbit d n then Z.lor x v else x) d b sp bp si di) sg f' ct (place CpuInit (S (S (S i)))) m).
Proof.
  intros Hn H1 H2 H3 Hl.
  destruct (Z.testbit d n) eqn:E; eexists.
  - eapply (reaches_step CpuInit i); [reflexivity|exact H1|simpl; semantics; reflexivity|].
    eapply (branch_zero CpuInit (S i)); [reflexivity|exact H2|exact Hl|cbn [fl]; rewrite zero_flag_after, land_feature, E by done; reflexivity|].
    cbn [with_pc negb]. eapply (reaches_step CpuInit (S (S i))); [reflexivity|exact H3|simpl; semantics; reflexivity|]. apply reaches_refl.
  - eapply (reaches_step CpuInit i); [reflexivity|exact H1|simpl; semantics; reflexivity|].
    eapply (branch_zero CpuInit (S i)); [reflexivity|exact H2|exact Hl|cbn [fl]; rewrite zero_flag_after, land_feature, E by done; reflexivity|].
    cbn [with_pc negb]. apply reaches_refl.
Qed.

(** The bits of CR4 for the features: PSE, MCE, PGE, and OSFXSR with
    OSXMMEXCPT when both FXSR and SSE are there. *)
Definition has_sse (d : Z) : bool := Z.testbit d 24 && Z.testbit d 25.
Definition cr4_bits (d : Z) : Z :=
  let x1 := if Z.testbit d 3 then Z.lor 0 0x10 else 0 in
  let x2 := if Z.testbit d 7 then Z.lor x1 0x40 else x1 in
  let x3 := if Z.testbit d 13 then Z.lor x2 0x80 else x2 in
  if has_sse d then Z.lor x3 0x600 else x3.

Lemma cr4_bits_sse d : (Z.land (cr4_bits d) 0x600 =? 0) = negb (has_sse d).
Proof. unfold cr4_bits. destruct (Z.testbit d 3), (Z.testbit d 7), (Z.testbit d 13), (has_sse d); reflexivity. Qed.

Lemma extensions a x d0 b sp bp si di sg f ct m d :
  data_ok -> m !! (data + 28) = Some d ->
  exists f', reaches (mkCpu (mkGpr a x d0 b sp bp si di) sg f ct (place CpuInit 70) m)
    (mkCpu (mkGpr a (cr4_bits d) d b sp bp si di) sg f' ct (place CpuInit 89) m).
Proof.
  intros (Ha & Hlo & Hhi) Hd. unfold cr4_bits, has_sse.
  set (x1 := if Z.testbit d 3 then _ else _). set (x2 := if Z.testbit d 7 then _ else _). set (x3 := if Z.testbit d 13 then _ else _).
  destruct (feature 72 3 0x10 6 a 0 d b sp bp si di sg (flags_after 0 f) ct m) as (f1 & R1); [done..|].
  destruct (feature 76 7 0x40 7 a x1 d b sp bp si di sg f1 ct m) as (f2 & R2); [done..|].
  destruct (feature 80 13 0x80 8 a x2 d b sp bp si di sg f2 ct m) as (f3 & R3); [done..|].
  fold x1 in R1. fold x2 in R2. fold x3 in R3. clearbody x1 x2 x3.
  assert (forall f0, exists f', reaches (mkCpu (mkGpr a x3 d b sp bp si di) sg f0 ct (place CpuInit 84) m)
    (mkCpu (mkGpr a (if Z.testbit d 24 && Z.testbit d 25 then Z.lor x3 0x600 else x3) d b sp bp si di) sg f' ct (place CpuInit 89) m)) as R4.
  { intros f0. destruct (Z.testbit d 24) eqn:E24; [destruct (Z.testbit d 25) eqn:E25|]; eexists; cbn [andb].
    - cpu_step 84%nat. eapply (branch_zero CpuInit 85); [reflexivity..|cbn [fl]; rewrite zero_flag_after, land_feature, E24 by done; reflexivity|].
      cbn [with_pc negb]. cpu_step 86%nat.
      eapply (branch_zero CpuInit 87); [reflexivity..|cbn [fl]; rewrite zero_flag_after, land_feature, E25 by done; reflexivity|].
      cbn [with_pc negb]. cpu_step 88%nat. apply reaches_refl.
    - cpu_step 84%nat. eapply (branch_zero CpuInit 85); [reflexivity..|cbn [fl]; rewrite zero_flag_after, land_feature, E24 by done; reflexivity|].
      cbn [with_pc negb]. cpu_step 86%nat.
      eapply (branch_zero CpuInit 87); [reflexivity..|cbn [fl]; rewrite zero_flag_after, land_feature, E25 by done; reflexivity|].
      cbn [with_pc negb]. apply reaches_refl.
    - cpu_step 84%nat. eapply (branch_zero CpuInit 85); [reflexivity..|cbn [fl]; rewrite zero_flag_after, land_feature, E24 by done; reflexivity|].
      cbn [with_pc negb]. apply reaches_refl. }
  destruct (R4 f3) as (f4 & R5). exists f4.
  cpu_step 70%nat. cpu_step 71%nat. rewrite Z.lxor_nilpotent.
  eapply reaches_trans; [exact R1|]. cpu_step 75%nat. eapply reaches_trans; [exact R2|]. cpu_step 79%nat.
  eapply reaches_trans; [exact R3|]. cpu_step 83%nat. exact R5.
Qed.

(** ** The end *)

Definition tmp_ok : Prop := tmp mod 16 = 0 /\ 0 <= tmp /\ tmp + 512 < 4294967296 /\ length fxsave_of = 128%nat.

Lemma fxsave_stores ws : forall m a, a mod 4 = 0 -> 0 <= a -> a + 4 * Z.of_nat (length ws) < 4294967296 ->
  fxsave_words ws m a = Ret (store_words m a ws).
Proof.
  induction ws as [|w ws IH]; intros m a Ha H0 Hhi; [done|]. cbn [fxsave_words store_words length] in *. memory_step. simpl.
  rewrite wrap_id by (unfold is_u32; lia). apply IH; [zlia|lia|lia].
Qed.

(** MXCSR_MASK has the bit of denormals-are-zero. *)
Definition mask_has_daz : bool := Z.testbit (default 0 (fxsave_of !! 7%nat)) 6.

Lemma finish a x d0 b sp bp si di sg f ct m d daz ret :
  data_ok -> tmp_ok -> data + 40 <= tmp \/ tmp + 512 <= data ->
  sp mod 4 = 0 -> 0 <= sp -> sp + 8 < 4294967296 -> sp + 8 <= data \/ data + 40 <= sp -> sp + 8 <= tmp \/ tmp + 512 <= sp ->
  m !! sp = Some b -> m !! (sp + 4) = Some ret -> m !! (data + 36) = Some daz -> 0 <= x -> 
  exists a' f' m', reaches (mkCpu (mkGpr a x d0 d sp bp si di) sg f ct (place CpuInit 89) m)
      (mkCpu (mkGpr a' x d0 b (sp + 8) bp si di) sg f' (mkCtrl (c_cr0 ct) (Z.lor (c_cr4 ct) x) (idtr ct)) ret m') /\
    m' !! (data + 36) = Some (if Z.land x 0x600 =? 0 then daz else put_part 1 0 daz (if mask_has_daz then 1 else 0)) /\
    forall z, z <> data + 36 -> z < tmp \/ tmp + 512 <= z -> m' !! z = m !! z.
Proof.
  intros (Ha & Hlo & Hhi) (Hta & Htl & Hth & Hlen) Hdt Hsa Hsl Hsh Hsd Hst Hb Hret Hdaz Hx.
  assert (forall a0 f0 ct0 m0, m0 !! sp = Some b -> m0 !! (sp + 4) = Some ret ->
    reaches (mkCpu (mkGpr a0 x d0 d sp bp si di) sg f0 ct0 (place CpuInit 100) m0)
      (mkCpu (mkGpr a0 x d0 b (sp + 8) bp si di) sg f0 ct0 ret m0)) as Hend.
  { intros a0 f0 ct0 m0 H1 H2. cpu_step 100%nat. cpu_step 101%nat. cpu_step 102%nat. apply reaches_refl. }
  destruct (decide (x = 0)) as [->|Hx0]; [|destruct (Z.land x 0x600 =? 0) eqn:E600].
  - do 3 eexists. split; [|split; [exact Hdaz|done]]. cpu_step 89%nat. cpu_step 90%nat.
    eapply (branch_zero CpuInit 91); [reflexivity..|cbn [fl]; rewrite zero_flag_after; reflexivity|]. cbn [with_pc].
    rewrite Z.lor_0_r. destruct ct. by apply Hend.
  - do 3 eexists. split; [|split; [exact Hdaz|done]]. cpu_step 89%nat. cpu_step 90%nat.
    eapply (branch_zero CpuInit 91); [reflexivity..|cbn [fl]; rewrite zero_flag_after, Z.land_diag; by apply Z.eqb_neq|]. cbn [with_pc].
    cpu_step 92%nat. cpu_step 93%nat. cpu_step 94%nat. cpu_step 95%nat.
    eapply (branch_zero CpuInit 96); [reflexivity..|cbn [fl]; rewrite zero_flag_after; exact E600|]. cbn [with_pc]. by apply Hend.
  - set (m1 := store_words m tmp fxsave_of).
    assert (forall z, z < tmp \/ tmp + 512 <= z -> m1 !! z = m !! z) as Hm1.
    { intros z Hz. apply store_words_frame; rewrite ?Hlen; lia. }
    destruct (fxsave_of !! 7%nat) as [w7|] eqn:E7; [|apply lookup_ge_None in E7; lia].
    assert (m1 !! (tmp + 28) = Some w7) as Hw7.
    { replace (tmp + 28) with (tmp + 4 * Z.of_nat 7) by lia. apply store_words_lookup; [lia|rewrite Hlen; lia|done]. }
    set (v := put_part 1 0 daz (if mask_has_daz then 1 else 0)).
    exists (Z.lor (c_cr4 ct) x). eexists _, (<[data + 36 := v]> m1). split; [|split; [apply lookup_insert_eq|]].
    + cpu_step 89%nat. cpu_step 90%nat.
      eapply (branch_zero CpuInit 91); [reflexivity..|cbn [fl]; rewrite zero_flag_after, Z.land_diag; by apply Z.eqb_neq|]. cbn [with_pc].
      cpu_step 92%nat. cpu_step 93%nat. cpu_step 94%nat. cpu_step 95%nat.
      eapply (branch_zero CpuInit 96); [reflexivity..|cbn [fl]; rewrite zero_flag_after; exact E600|]. cbn [with_pc].
      eapply (reaches_step CpuInit 97); [reflexivity|reflexivity| |].
      { simpl. semantics. rewrite fxsave_stores by (rewrite ?Hlen; zlia). simpl. fold m1. reflexivity. }
      eapply (reaches_step CpuInit 98); [reflexivity|reflexivity| |].
      { simpl. semantics. unfold load_part. wrap. replace ((tmp + 28) mod 4) with 0 by zlia. simpl. rewrite Z.sub_0_r. memory_step. simpl.
        reflexivity. }
      eapply (reaches_step CpuInit 99); [reflexivity|reflexivity| |].
      { simpl. semantics. rewrite zero_flag_after. unfold store_part, CpuCode.CpuHasDenormalsAreZero. wrap.
        replace ((data + 36) mod 4) with 0 by zlia. simpl. rewrite Z.sub_0_r.
        assert (m1 !! (data + 36) = Some daz) as Hdaz1 by (rewrite Hm1; [done|lia]). memory_step. simpl. memory_step. simpl.
        rewrite Z.div_1_r. reflexivity. }
      replace (put_part 1 0 daz _) with v; [|unfold v, mask_has_daz; rewrite E7; cbn [default from_option id]].
      { apply Hend; rewrite lookup_insert_ne by lia; (rewrite Hm1; [done|lia]). }
      rewrite land_feature, Z.mod_pow2_bits_low by lia. by destruct (Z.testbit w7 6).
    + intros z Hz Ht. rewrite lookup_insert_ne by lia. by apply Hm1.
Qed.

(** ** CpuInit *)

(** CpuInit is called, with its variables as the loader left them. *)
Record cpu_init_call (c : cpu) (ret : Z) : Prop := {
  ci_pc : pc c = place CpuInit 0;
  ci_data : data_ok;
  ci_tmp : tmp_ok;
  ci_apart : data + 40 <= tmp \/ tmp + 512 <= data;
  ci_stack : stack_at (reg_of ESP c) 12 5;
  ci_stack_data : reg_of ESP c + 4 <= data \/ data + 40 <= reg_of ESP c - 12;
  ci_stack_tmp : reg_of ESP c + 4 <= tmp \/ tmp + 512 <= reg_of ESP c - 12;
  ci_ret : ram c !! reg_of ESP c = Some ret;
  ci_vars : ram c !! data = Some 0 /\ ram c !! (data + 28) = Some 0 /\ ram c !! (data + 36) = Some 0;
  ci_flags : status_popped
}.

(** The run of CpuInit on a processor with CPUID. *)
Lemma CpuInit_returns c ret highest vb vc vd signature u fc fd :
  cpu_init_call c ret -> locate ret = None -> Z.testbit popf_mask 18 = true -> Z.testbit popf_mask 21 = true ->
  cpuid_of 0 = (highest, vb, vc, vd) -> cpuid_of 1 = (signature, u, fc, fd) ->
  exists n c', run n c = Ret (Goes c') /\ pc c' = ret /\ reg_of ESP c' = reg_of ESP c + 4 /\
    reg_of EBX c' = reg_of EBX c /\ reg_of ESI c' = reg_of ESI c /\ reg_of EDI c' = reg_of EDI c /\ reg_of EBP c' = reg_of EBP c /\
    c_cr0 (ctl c') = fpu_cr0 (c_cr0 (ctl c)) (negb (Z.land fd 1 =? 0)) /\ c_cr4 (ctl c') = Z.lor (c_cr4 (ctl c)) (cr4_bits fd) /\
    words_at (ram c') data [1; vb; vd; vc] /\ words_at (ram c') (data + 20) [highest; signature; fd; fc;
      if has_sse fd && mask_has_daz then 1 else 0].
Proof.
  intros [Hpc Hd Ht Hdt (Ha & Hlo & Hhi) Hsd Hst Hret (Hv0 & Hv28 & Hv36) Hf] Hl H18 H21 E0 E1.
  destruct c as [[a x d b sp bp si di] sg f ct p m]. unfold reg_of in *. cbn [gprs get_reg r_esp r_ebx r_ebp r_esi r_edi pc ram ctl] in *. subst p.
  destruct (test_486 a x d b sp bp si di sg f ct m Hf) as (r1 & f1 & w1 & Hf1 & R1); [split_and!; lia|]. rewrite H18 in R1.
  destruct (test_cpuid r1 f d b (sp - 4) bp si di sg f1 ct (<[sp - 8 := w1]> (<[sp - 4 := b]> m)) Hf) as (r2 & f2 & w2 & Hf2 & R2);
    [split_and!; zlia|done|]. rewrite H21 in R2. replace (sp - 4 - 4) with (sp - 8) in R2 by lia. rewrite insert_insert_eq in R2.
  set (m2 := <[sp - 8 := w2]> _) in R2.
  destruct (identify r2 (pushf_image f) d b (sp - 4) bp si di sg f2 ct m2 Hd) as (a3 & x3 & d3 & b3 & f3 & R3).
  assert (identified m2 = <[data + 32 := fc]> (<[data + 28 := fd]> (<[data + 24 := signature]> (<[data + 12 := vc]> (<[data + 8 := vd]>
    (<[data + 4 := vb]> (<[data + 20 := highest]> (<[data := 1]> m2)))))))) as Hm3 by (unfold identified; by rewrite E0, E1).
  set (m3 := identified m2) in *.
  destruct (fpu_setup a3 x3 d3 b3 (sp - 4) bp si di sg f3 ct m3 fd 1 Hd) as (a4 & x4 & f4 & R4);
    [rewrite Hm3; find_word|rewrite Hm3; find_word|by right|].
  set (ct4 := mkCtrl _ _ _) in R4.
  destruct (extensions a4 x4 d3 b3 (sp - 4) bp si di sg f4 ct4 m3 fd Hd) as (f5 & R5); [rewrite Hm3; find_word|].
  assert (forall z, z < data \/ data + 36 <= z -> m3 !! z = m2 !! z) as Hout.
  { intros z Hz. rewrite Hm3, !lookup_insert_ne by lia. done. }
  destruct (finish a4 (cr4_bits fd) fd b (sp - 4) bp si di sg f5 ct4 m3 b3 0 ret Hd Ht Hdt) as (a6 & f6 & m6 & R6 & Hdaz & Hkeep).
  { zlia. } { lia. } { lia. } { lia. } { lia. }
  { rewrite Hout by lia. unfold m2. find_word. }
  { rewrite Hout by lia. unfold m2. replace (sp - 4 + 4) with sp by lia. find_word. }
  { rewrite Hout by lia. unfold m2. find_word. }
  { unfold cr4_bits. destruct (Z.testbit fd 3), (Z.testbit fd 7), (Z.testbit fd 13), (has_sse fd); done. }
  eassert (reaches _ _) as R.
  { eapply reaches_trans; [exact R1|]. eapply reaches_trans; [exact R2|]. eapply reaches_trans; [exact R3|].
    eapply reaches_trans; [exact R4|]. eapply reaches_trans; [exact R5|]. exact R6. }
  apply reaches_out in R as (n & Hn); [|exact Hl]. exists n. eexists. split; [exact Hn|].
  cbn [pc gprs ctl c_cr0 c_cr4 r_esp r_ebx r_esi r_edi r_ebp ram ct4]. destruct Ht as (Hta & Htl & Hth & Hlen). destruct Hd as (Hda & Hdl & Hdh).
  assert (forall k v, m3 !! k = Some v -> data <= k < data + 36 -> m6 !! k = Some v) as Hm6.
  { intros k v Hk Hr. rewrite Hkeep by lia. done. }
  split_and!; try done; try lia.
  - repeat (apply words_at_cons; [displacement; apply Hm6; [rewrite Hm3; find_word|lia]|]). apply words_at_nil.
  - do 4 (apply words_at_cons; [displacement; apply Hm6; [rewrite Hm3; find_word|lia]|]). apply words_at_cons; [|apply words_at_nil].
    displacement. rewrite Hdaz, cr4_bits_sse. f_equal. destruct (has_sse fd); [|done]. cbn [negb andb]. destruct mask_has_daz; reflexivity.
Qed.

(** CpuInit as its caller sees it: entered with the processor in the state
    [c], and expected back at [ret] with the features and whether denormals
    can be zero in its variables. Panic does not return. *)
Definition CpuInit_call (fuel : nat) (c : cpu) (ret : Z) : outcome (Z * bool) :=
  r ← run fuel c;
  match r with
  | Goes c' =>
      if pc c' =? ret then
        edx ← load (ram c') (data + 28);
        daz ← load_part 1 (ram c') (data + 36);
        Ret (edx, truth daz)
      else if pc c' =? place CpuCode.Panic 0 then Panic "CpuInit: You are running a 386 processor which Chaff does not support."
      else Fault
  | Waits _ => Fault
  end.

Lemma features_read n c c' ret highest signature fd fc (daz : bool) :
  data_ok -> run n c = Ret (Goes c') -> pc c' = ret ->
  words_at (ram c') (data + 20) [highest; signature; fd; fc; if daz then 1 else 0] ->
  forall k, CpuInit_call (n + k) c ret = Ret (fd, daz).
Proof.
  intros (Ha & Hlo & Hhi) Hn Hp Hw k. unfold CpuInit_call. rewrite (run_more _ _ _ _ Hn). cbn [mbind outcome_bind].
  rewrite Hp, Z.eqb_refl. pose proof (Hw 2 fd eq_refl) as H2. pose proof (Hw 4 _ eq_refl) as H4.
  replace (data + 20 + 4 * 2) with (data + 28) in H2 by lia. replace (data + 20 + 4 * 4) with (data + 36) in H4 by lia.
  rewrite (load_ok _ (data + 28) _ ltac:(unfold is_u32; lia) ltac:(zlia) H2). cbn [mbind outcome_bind]. unfold load_part.
  assert (u32 (data + 36) = data + 36) as Hu by (unfold u32; zlia).
  assert ((data + 36) mod 4 = 0) as Hm by zlia. rewrite Hu, Hm. cbn [Z.add Z.leb Z.compare Pos.compare Pos.compare_cont]. rewrite Z.sub_0_r.
  rewrite (load_ok _ (data + 36) _ ltac:(unfold is_u32; lia) Hm H4). by destruct daz.
Qed.

(** C31: on a processor with CPUID (one whose flag 21 can be changed), CpuInit
    returns to its caller with EBX, ESI, EDI, EBP and the stack as they were,
    the vendor, signature and features of CPUID in its variables, CR0 and CR4
    set up for the FPU and the extensions that are there; so its caller finds
    the features of CPUID, and denormals that can be zero only with SSE. *)
Theorem CpuInit_identifies c ret highest vb vc vd signature u fc fd :
  cpu_init_call c ret -> locate ret = None -> Z.testbit popf_mask 18 = true -> Z.testbit popf_mask 21 = true ->
  cpuid_of 0 = (highest, vb, vc, vd) -> cpuid_of 1 = (signature, u, fc, fd) ->
  exists n c', run n c = Ret (Goes c') /\ pc c' = ret /\ reg_of ESP c' = reg_of ESP c + 4 /\
    reg_of EBX c' = reg_of EBX c /\ reg_of ESI c' = reg_of ESI c /\ reg_of EDI c' = reg_of EDI c /\ reg_of EBP c' = reg_of EBP c /\
    c_cr0 (ctl c') = fpu_cr0 (c_cr0 (ctl c)) (negb (Z.land fd 1 =? 0)) /\ c_cr4 (ctl c') = Z.lor (c_cr4 (ctl c)) (cr4_bits fd) /\
    words_at (ram c') data [1; vb; vd; vc] /\ words_at (ram c') (data + 20) [highest; signature; fd; fc;
      if has_sse fd && mask_has_daz then 1 else 0] /\
    forall k, CpuInit_call (n + k) c ret = Ret (fd, has_sse fd && mask_has_daz).
Proof.
  intros Hc Hl H18 H21 E0 E1. pose proof (ci_data _ _ Hc) as Hd.
  destruct (CpuInit_returns c ret highest vb vc vd signature u fc fd) as (n & c' & Hn & Hp & H); [done..|].
  exists n, c'. split; [exact Hn|]. split; [exact Hp|]. do 8 (split; [apply H|]). split; [apply H|].
  destruct H as (_ & _ & _ & _ & _ & _ & _ & _ & Hw). intros k. by apply (features_read n c c' ret highest signature fd fc).
Qed.

(** A 386, whose flag 18 cannot be changed, is refused with a panic. *)
Theorem CpuInit_refuses_386 c ret :
  cpu_init_call c ret -> Z.testbit popf_mask 18 = false ->
  exists n c', run n c = Ret (Goes c') /\ pc c' = place CpuCode.Panic 0 /\ ram c' !! (reg_of ESP c' + 4) = Some msg.
Proof.
  intros [Hpc Hd Ht Hdt (Ha & Hlo & Hhi) Hsd Hst Hret (Hv0 & Hv28 & Hv36) Hf] H18.
  destruct c as [[a x d b sp bp si di] sg f ct p m]. unfold reg_of in *. cbn [gprs get_reg r_esp r_ebx r_ebp r_esi r_edi pc ram ctl] in *. subst p.
  destruct (test_486 a x d b sp bp si di sg f ct m Hf) as (r1 & f1 & w1 & Hf1 & R1); [split_and!; lia|]. rewrite H18 in R1.
  eassert (reaches _ _) as R.
  { eapply reaches_trans; [exact R1|]. cpu_step 11%nat. cpu_step 12%nat. apply reaches_refl. }
  apply reaches_out in R as (n & Hn); [|by apply locate_extern]. exists n. eexists. split; [exact Hn|]. split; [done|].
  cbn [ram gprs r_esp]. find_word.
Qed.

(** A 486 without CPUID never gets back to the caller: the manual test for an
    FPU ends in a return that takes the saved EBX for the return address, with
    an FPU reported whatever the test found. *)
Theorem CpuInit_without_cpuid_is_lost c ret :
  cpu_init_call c ret -> Z.testbit popf_mask 18 = true -> Z.testbit popf_mask 21 = false -> locate (reg_of EBX c) = None ->
  exists n c', run n c = Ret (Goes c') /\ pc c' = reg_of EBX c /\ reg_of ESP c' = reg_of ESP c /\
    ram c' !! (data + 28) = Some 1.
Proof.
  intros [Hpc Hd Ht Hdt (Ha & Hlo & Hhi) Hsd Hst Hret (Hv0 & Hv28 & Hv36) Hf] H18 H21 Hl.
  destruct c as [[a x d b sp bp si di] sg f ct p m]. unfold reg_of in *. cbn [gprs get_reg r_esp r_ebx r_ebp r_esi r_edi pc ram ctl] in *. subst p.
  destruct (test_486 a x d b sp bp si di sg f ct m Hf) as (r1 & f1 & w1 & Hf1 & R1); [split_and!; lia|]. rewrite H18 in R1.
  destruct (test_cpuid r1 f d b (sp - 4) bp si di sg f1 ct (<[sp - 8 := w1]> (<[sp - 4 := b]> m)) Hf) as (r2 & f2 & w2 & Hf2 & R2);
    [split_and!; zlia|done|]. rewrite H21 in R2. replace (sp - 4 - 4) with (sp - 8) in R2 by lia. rewrite insert_insert_eq in R2.
  set (m2 := <[sp - 8 := w2]> _) in R2.
  destruct (fpu_probe r2 (pushf_image f) d b (sp - 4) bp si di sg f2 ct m2 0 0 b Hd) as (a3 & x3 & f3 & ct3 & w3 & R3);
    [unfold m2; find_word|unfold m2; find_word|done|done|split_and!; zlia|unfold m2; find_word|lia|].
  eassert (reaches _ _) as R.
  { eapply reaches_trans; [exact R1|]. eapply reaches_trans; [exact R2|]. exact R3. }
  apply reaches_out in R as (n & Hn); [|exact Hl]. exists n. eexists. split; [exact Hn|]. cbn [pc gprs r_esp ram].
  split_and!; [done|lia|apply lookup_insert_eq].
Qed.
End CpuInit.

(** ** At small machines *)

Definition cpu_index (f : CpuCode.func) : nat := match f with CpuCode.CpuInit => 0 | CpuCode.Panic => 1 end.
Definition cpu_of (n : nat) : option CpuCode.func := [CpuCode.CpuInit; CpuCode.Panic] !! n.

Definition small_cpu_layout : Layout (CpuCode.code 0xC0120000 0xC0121000 0xC0122000).
Proof.
  refine (numbered_layout _ cpu_index cpu_of 0xC0110000 _ _ _ _); [lia|by intros []|intros []; simpl; lia|intros []; simpl; lia].
Defined.

(** kMain calls CpuInit, its EBX holding the multiboot information's address. *)
Definition at_cpu_init : cpu :=
  mkCpu (mkGpr 1 2 3 0xC0010000 0xC0130F00 6 7 8) (mkSegs 0x08 0x10 0x10 0x10 0x10 0x10) 0x2 (mkCtrl 0x80000011 0 (0, 0))
    (place (Layout := small_cpu_layout) CpuCode.CpuInit 0)
    (<[0xC0130F00 := 0xC0105000]> (<[0xC0120000 := 0]> (<[0xC012001C := 0]> (<[0xC0120024 := 0]> ∅)))).

Lemma status_bits i : 0 <= i -> Z.testbit STATUS i = true -> i = 0 \/ i = 2 \/ i = 4 \/ i = 6 \/ i = 7 \/ i = 11.
Proof.
  intros Hi Ht. destruct (Z.ltb_spec i 12) as [Hl|Hl].
  - assert (i = 0 \/ i = 1 \/ i = 2 \/ i = 3 \/ i = 4 \/ i = 5 \/ i = 6 \/ i = 7 \/ i = 8 \/ i = 9 \/ i = 10 \/ i = 11) as Hc by lia.
    repeat (destruct Hc as [Hc|Hc]; [subst i; first [discriminate Ht|tauto]|]). subst i. tauto.
  - rewrite (Z.bits_above_log2 STATUS i) in Ht; [done|done|]. change (Z.log2 STATUS) with 11. lia.
Qed.

Lemma at_cpu_init_ok mask : (forall i, i = 0 \/ i = 2 \/ i = 4 \/ i = 6 \/ i = 7 \/ i = 11 -> Z.testbit mask i = true) ->
  cpu_init_call (P := processor_with mask) 0xC0120000 0xC0121000 0xC0122000 (L := small_cpu_layout) at_cpu_init 0xC0105000.
Proof.
  intros Hm. split; try (by repeat split); try (by left); try (by right).
  intros i Hi Hs. simpl. by apply Hm, status_bits.
Qed.

Lemma CpuInit_identifies_witness :
  exists n c', run (P := plain_processor) (L := small_cpu_layout) n at_cpu_init = Ret (Goes c') /\ pc c' = 0xC0105000 /\
    c_cr0 (ctl c') = fpu_cr0 0x80000011 true /\ reg_of EBX c' = 0xC0010000 /\
    CpuInit_call (P := plain_processor) 0xC0120000 0xC0121000 0xC0122000 (L := small_cpu_layout) n at_cpu_init 0xC0105000 = Ret (0x008003BF, false).
Proof.
  destruct (CpuInit_identifies (P := plain_processor) 0xC0120000 0xC0121000 0xC0122000 (L := small_cpu_layout) at_cpu_init 0xC0105000
    1 0x756E6547 0x6C65746E 0x49656E69 0x00000543 0 0 0x008003BF) as (n & c' & H1 & H2 & _ & H3 & _ & _ & _ & H4 & _ & _ & _ & H5).
  - apply at_cpu_init_ok. intros i [->|[->|[->|[->|[->| ->]]]]]; reflexivity.
  - reflexivity.
  - reflexivity.
  - reflexivity.
  - reflexivity.
  - reflexivity.
  - exists n, c'. specialize (H5 O). rewrite Nat.add_0_r in H5. by split_and!.
Defined.

Lemma CpuInit_refuses_386_witness :
  exists n c', run (P := processor_with 0x4FD5) (L := small_cpu_layout) n at_cpu_init = Ret (Goes c') /\
    pc c' = place (Layout := small_cpu_layout) CpuCode.Panic 0.
Proof.
  destruct (CpuInit_refuses_386 (P := processor_with 0x4FD5) 0xC0120000 0xC0121000 0xC0122000 (L := small_cpu_layout) at_cpu_init 0xC0105000)
    as (n & c' & H1 & H2 & _).
  - apply at_cpu_init_ok. intros i [->|[->|[->|[->|[->| ->]]]]]; reflexivity.
  - reflexivity.
  - by exists n, c'.
Defined.

Lemma CpuInit_without_cpuid_is_lost_witness :
  exists n c', run (P := processor_with 0x44FD5) (L := small_cpu_layout) n at_cpu_init = Ret (Goes c') /\ pc c' = 0xC0010000.
Proof.
  destruct (CpuInit_without_cpuid_is_lost (P := processor_with 0x44FD5) 0xC0120000 0xC0121000 0xC0122000 (L := small_cpu_layout) at_cpu_init
    0xC0105000) as (n & c' & H1 & H2 & _).
  - apply at_cpu_init_ok. intros i [->|[->|[->|[->|[->| ->]]]]]; reflexivity.
  - reflexivity.
  - reflexivity.
  - reflexivity.
  - by exists n, c'.
Defined.
