(* ===== verification/KMain.v ===== *)
(** * The kernel's entry (src/kMain.c)

    kMain calls the initialisers of the components in order; here their models
    are put together over one state. Besides kMain itself this is
    CpuInitLate of src/cpu.c, IoBlockCacheInit of src/io/bcache.c and the slab
    caches that ProcInit makes, with the slab allocator on the physical pages
    that MemManagerInit leaves and CpuInit as the machine code of CpuAsm.v. KMainSpec.v shows that the kernel boots. *)
From S2P Require Import Prelude Asm CpuAsm CList Utils Physical PageMap PageFault Region UserPage MemInit Sched Signal Timer Fs.
From S2P Require Import Mount DevFs Process Slab SlabSpec Interrupt.

(** ** The sizes of the objects in the slab caches *)

Definition sizeof_HashItem : Z := 16.                    (* four words *)
Definition sizeof_SecContext : Z := 24.                  (* six ids *)
Definition sizeof_ProcSigaction : Z := 12.

(** pid, hItem, parent, three ListHeads, zombie, name, exitCode, memContext,
    ioContext, secContext, sigHandlers, sigPending, alarmPtr. *)
Definition sizeof_ProcProcess : Z :=
  4 + sizeof_HashItem + 4 + 3 * 8 + 4 + 4 + 4 + 4 + 4 + sizeof_SecContext + SIG_MAX * sizeof_ProcSigaction + 4 + 4.

(** tid, hItem, parent, threadSibling, exitCode, name, state, waitMode,
    schedQueueEntry, schedInterrupted, kStackPointer, kStackBase,
    tlsDescriptor, fpuState, fpuSwitches, sigPending, sigBlocked, waitQueue. *)
Definition sizeof_ProcThread : Z :=
  4 + sizeof_HashItem + 4 + 8 + 4 + 4 + 4 + 4 + 8 + 4 + 4 + 4 + 8 + 4 + 4 + 4 + 4 + 8.

(** offset, listItem, hItem, state, waitingThreads, refCount, address. *)
Definition sizeof_IoBlock : Z := 8 + 8 + sizeof_HashItem + 4 + 8 + 4 + 4.

(** ** Memory as the components share it *)

(** The slab allocator on the physical pages, the bytes of memory, and the
    caches of cpu.c, process.c and bcache.c. *)
Record world := mkWorld {
  wslabs : slabs phys; wbytes : gmap Z Z;
  fpuStateCache : Z; cacheProcess : Z; cacheThread : Z; blockHeadCache : Z
}.

Definition set_wslabs (w : world) s := mkWorld s (wbytes w) (fpuStateCache w) (cacheProcess w) (cacheThread w) (blockHeadCache w).
Definition set_wbytes (w : world) m := mkWorld (wslabs w) m (fpuStateCache w) (cacheProcess w) (cacheThread w) (blockHeadCache w).
Definition set_fpuStateCache (w : world) a := mkWorld (wslabs w) (wbytes w) a (cacheProcess w) (cacheThread w) (blockHeadCache w).
Definition set_cacheProcess (w : world) a := mkWorld (wslabs w) (wbytes w) (fpuStateCache w) a (cacheThread w) (blockHeadCache w).
Definition set_cacheThread (w : world) a := mkWorld (wslabs w) (wbytes w) (fpuStateCache w) (cacheProcess w) a (blockHeadCache w).
Definition set_blockHeadCache (w : world) a := mkWorld (wslabs w) (wbytes w) (fpuStateCache w) (cacheProcess w) (cacheThread w) a.

(** Memory contexts and descriptor tables, which nothing here uses. *)
Class ContextOps := {
  co_MemContextClone : sys -> world -> outcome (Z * MemContext * world);
  co_free_pages : MemContext -> world -> outcome world;
  co_IoContextClone : Z -> world -> outcome (Z * world);
  co_IoContextDeleteReference : Z -> world -> outcome world
}.

(** MemSlabAlloc's nesting: headers of large slabs, and no more. *)
Definition slab_fuel : nat := 2.

Definition with_slabs (w : world) (r : outcome (Z * slabs phys)) : outcome (Z * world) :=
  '(a, s) ← r; Ret (a, set_wslabs w s).

(** The bytes of a new object: what is in memory there. *)
Definition expose (m : gmap Z Z) (a n : Z) : gmap Z Z :=
  foldr (fun i m' => match m' !! (a + i) with Some _ => m' | None => <[a + i := 0]> m' end) m (seqZ 0 n).

Definition kalloc_bytes (m : gmap Z Z) (n : Z) (s : slabs phys) : outcome (Z * gmap Z Z * slabs phys) :=
  '(a, s1) ← MemKAlloc slab_fuel n s;
  Ret (a, if a =? 0 then m else expose m a n, s1).

Definition world_StrDup (s maxLen : Z) (w : world) : outcome (Z * world) :=
  '(a, m, sl) ← StrDup kalloc_bytes (wbytes w) s maxLen (wslabs w);
  Ret (a, set_wbytes (set_wslabs w sl) m).

#[export] Instance world_env {CO : ContextOps} : ProcEnv world := {|
  pe_alloc_process w := with_slabs w (MemSlabZAlloc slab_fuel (cacheProcess w) (wslabs w));
  pe_alloc_thread w := with_slabs w (MemSlabZAlloc slab_fuel (cacheThread w) (wslabs w));
  pe_free_process p w := s ← MemSlabFree (cacheProcess w) p (wslabs w); Ret (set_wslabs w s);
  pe_free_thread t w := s ← MemSlabFree (cacheThread w) t (wslabs w); Ret (set_wslabs w s);
  pe_StrDup := world_StrDup;
  pe_MemKFree a w := s ← MemKFree a (wslabs w); Ret (set_wslabs w s);
  pe_MemPhysicalAlloc n z w :=
    '(p, ph) ← sp_alloc n z (spages (wslabs w)); Ret (p, set_wslabs w (set_spages (wslabs w) ph));
  pe_MemPhysicalFree p n w := ph ← sp_free p n (spages (wslabs w)); Ret (set_wslabs w (set_spages (wslabs w) ph));
  pe_MemContextClone := co_MemContextClone;
  pe_free_pages := co_free_pages;
  pe_IoContextClone := co_IoContextClone;
  pe_IoContextDeleteReference := co_IoContextDeleteReference
|}.

Definition sizeof_IntrDispatchEntry : Z := 12.

#[export] Instance world_intr_mem : IntrMem world := {|
  im_alloc w := with_slabs w (MemKAlloc slab_fuel sizeof_IntrDispatchEntry (wslabs w));
  im_free a w := s ← MemKFree a (wslabs w); Ret (set_wslabs w s)
|}.

(** ** What the processor, the linker and the boot loader fix *)

(** The addresses of code and data, the processor with the code of cpuAsm.s
    and its state when kMain calls CpuInit, the clock's registers and what the
    stack held. *)
Record machine_image := mkImage {
  im_layout : layout;
  im_ProcKernelProcess : Z; im_MemKernelContext : Z; im_rootCache : Z;
  im_IntrISRList : list Z; im_Isr66 : Z; im_IntrDispatchTable : Z; im_TimerInterrupt : Z;
  im_ProcIntKernelThreadReturn : Z; im_ProcIntIdleThread : Z; im_ProcIntReaperThread : Z;
  im_kernel : Z; im_idle : Z; im_reaper : Z;
  im_fsTypeHead : Z; im_devfs_type : Z;
  im_processor : Processor; im_cpu_data : Z; im_cpu_tmp : Z; im_cpu_msg : Z;
  im_cpu_code : Layout (CpuCode.code im_cpu_data im_cpu_tmp im_cpu_msg); im_at_CpuInit : cpu; im_after_CpuInit : Z;
  im_cmos_reads : list Z; im_cmos : Z -> Z; im_garbage : Z
}.

(** The state that the initialisers work on. *)
Record kernel (D : Type) := mkKernel {
  k_idt : list IntrGateStruct; k_intr : intr; k_boot : boot; k_world : world; k_procs : procs; k_vfs : vfs (devfs D)
}.
Arguments mkKernel {D}. Arguments k_idt {D}. Arguments k_intr {D}. Arguments k_boot {D}. Arguments k_world {D}.
Arguments k_procs {D}. Arguments k_vfs {D}.

Definition MULTIBOOT_BOOTLOADER_MAGIC : Z := 0x2BADB002.
Definition SCREEN : Z := 0xC00B8000.
Definition SCREEN_BYTES : Z := 0xFA0.

Section Boot.
Context {CO : ContextOps} {D : Type} (im : machine_image) (fuel : nat).

(** The processor after CpuInit; the threads are set by ProcInit. *)
Definition machine_of (CpuFeaturesEDX : Z) (daz : bool) (idle reaper : Z) : Machine :=
  {| ProcKernelProcess := im_ProcKernelProcess im; ProcIdleThread := idle; reaperThread := reaper;
     MemKernelContext := im_MemKernelContext im; CpuFeaturesEDX := CpuFeaturesEDX; CpuHasDenormalsAreZero := daz |}.

Definition create_cache (size : Z) (w : world) : outcome (Z * world) :=
  with_slabs w (MemSlabCreate (im_rootCache im) slab_fuel size 0 (wslabs w)).

(** ** The initialisers that are not in a file of their own *)

(** The machine code of CpuInit from kMain's call on. *)
Definition CpuInit : outcome (Z * bool) :=
  CpuInit_call (P := im_processor im) (im_cpu_data im) (im_cpu_tmp im) (im_cpu_msg im) (L := im_cpu_code im) fuel
    (im_at_CpuInit im) (im_after_CpuInit im).

Definition CpuInitLate {K : Machine} (w : world) : outcome world :=
  '(c, w1) ← create_cache (if CpuHasFxSave then CPU_EXTRA_FXSAVE else CPU_EXTRA_FPU) w;
  Ret (set_fpuStateCache w1 c).

Definition IoBlockCacheInit (w : world) : outcome world :=
  '(c, w1) ← create_cache sizeof_IoBlock w; Ret (set_blockHeadCache w1 c).

(** The first two statements of ProcInit. *)
Definition process_caches (w : world) : outcome world :=
  '(c, w1) ← create_cache sizeof_ProcProcess w;
  '(t, w2) ← create_cache sizeof_ProcThread (set_cacheProcess w1 c);
  Ret (set_cacheThread w2 t).

(** MemManagerInit and MemSlabInit: the static caches are as the linker left
    them, the pages those of the new page state table. *)
Definition init_memory (features mBootInfo : Z) (st : boot) (w : world) : outcome (boot * world) :=
  b ← MemManagerInit (fun a => wbytes w !! a) fuel (im_layout im) (im_garbage im) features mBootInfo st;
  s ← MemSlabInit (im_rootCache im) slab_fuel (slab_start (im_rootCache im) (physical (memory b)));
  Ret (b, set_wslabs w s).

(** TimerInit with the registration of its handler. *)
Definition init_timer (st : intr) (t : timer) (w : world) : outcome (intr * timer * world) :=
  '(registered, st1, w1) ← IntrRegister (im_IntrDispatchTable im) 0 0 (im_TimerInterrupt im) st w;
  now ← TimerGetCMOSTime (im_cmos_reads im) (im_cmos im);
  t1 ← TimerInit registered now t;
  Ret (st1, t1, w1).

(** ProcInit with its caches; the result has the idle thread and the reaper. *)
Definition init_processes {K : Machine} (st : procs) (w : world) : outcome (Z * Z * procs * world) :=
  w1 ← process_caches w;
  ProcInit (im_ProcIntKernelThreadReturn im) fuel (im_kernel im) (im_idle im) (im_ProcIntIdleThread im)
    (im_reaper im) (im_ProcIntReaperThread im) st w1.

(** The pages that MemFreeInitPages gives back. *)
Definition free_init_pages (w : world) : outcome world :=
  ph ← MemFreeInitPages (im_layout im) (spages (wslabs w));
  Ret (set_wslabs w (set_spages (wslabs w) ph)).

(** ** kMain *)

(** The result is the state when the first thread runs: kMain never returns. *)
Definition kMain (mBootCode mBootInfo : Z) (k : kernel D) : outcome (kernel D * Machine) :=
  if negb (mBootCode =? MULTIBOOT_BOOTLOADER_MAGIC) then Panic "kMain: OS must be loaded by a multiboot bootloader"
  else
    m ← memset (wbytes (k_world k)) SCREEN 0 SCREEN_BYTES;
    '(idt, i1) ← IntrInit (im_IntrISRList im) (im_Isr66 im) (k_intr k);
    '(features, daz) ← CpuInit;
    '(b, w1) ← init_memory features mBootInfo (k_boot k) (set_wbytes (k_world k) m);
    w2 ← CpuInitLate (K := machine_of features daz 0 0) w1;
    '(i2, t, w3) ← init_timer i1 (ptimer (k_procs k)) w2;
    '(idle, reaper, p, w4) ← init_processes (K := machine_of features daz 0 0) (set_ptimer (k_procs k) t) w3;
    w5 ← IoBlockCacheInit w4;
    v ← IoDevFsInit fuel (im_fsTypeHead im) (im_devfs_type im) (k_vfs k);
    w6 ← free_init_pages w5;
    let K := machine_of features daz idle reaper in
    s ← ProcIntSelfExit (K := K) (psys p);
    Ret (mkKernel idt i2 b w6 (set_psys p s) v, K).
End Boot.
