(* ===== verification/KMainSpec.v ===== *)
(** * The kernel boots

    The state that kMain leaves: the idle thread runs, the reaper waits to be
    woken, the allocators keep their invariants after the init pages are
    given back, the timer's handler is installed and devfs is registered.
    First what the initialisers need of the allocators, then threads, then
    the boot as a whole. *)
From Stdlib Require Import FunctionalExtensionality.
From S2P Require Import Prelude Utils Physical PageMap PageFault Region UserPage MemInit InitSpec BootSpec Sched Signal Timer Tls.
From S2P Require Import Fs Mount DevFs Process Slab SlabInv SlabSpec SlabPhys Interrupt KMain CList.

(** ** The allocator between two initialisers *)

Section Memory.
Context (rc : Z).

(** The allocator's invariant with [n] requests for pages certain to be met,
    the objects [L] in use (by cache), and the pages [R] in use elsewhere. *)
Definition slabs_ok (n : nat) (L : Z -> Z -> Prop) (R : Z -> Prop) (s : slabs phys) : Prop :=
  exists fr, slab_inv rc s fr /\ kalloc_ok s /\ is_Some (caches s !! rc) /\
    (exists cb, shape_of s (rootSlabCache s) = Some cb /\ is_large cb = false) /\
    (n <= room (spages s))%nat /\ (forall q x, L q x -> live s fr q x) /\ avoids R s.

(** Caches stay what they are. *)
Definition caches_kept (s s' : slabs phys) : Prop := forall q d, shape_of s q = Some d -> shape_of s' q = Some d.

#[export] Instance caches_kept_preorder : PreOrder caches_kept.
Proof. split; [by intros s q d|]. intros s1 s2 s3 H1 H2 q d H. by apply H2, H1. Qed.

Lemma kept_some s s' k : caches_kept s s' -> is_Some (caches s !! k) -> is_Some (caches s' !! k).
Proof.
  intros H [c Hc]. assert (shape_of s' k = Some (shape c)) as E by (apply H; unfold shape_of; by rewrite Hc).
  unfold shape_of in E. destruct (caches s' !! k); [by eexists|done].
Qed.

Lemma kept_kalloc s s' : caches_kept s s' -> kAllocCache s' = kAllocCache s -> kalloc_ok s -> kalloc_ok s'.
Proof.
  intros H E [Hl Hk]. split; [by rewrite E|]. intros i k. rewrite E. intros Hi. destruct (Hk i k Hi) as (c & Hc & Hs).
  exists c. split; [by apply H|done].
Qed.

Lemma extends_kept s s' : extends s s' -> caches_kept s s'.
Proof. intros X q d H. by rewrite (x_shape _ _ X). Qed.

(** *** Caches *)

Lemma create_cache_ok n L R s size :
  slabs_ok (2 + n) L R s -> 0 < size -> 0 < align_size size < 8 * PAGE_SIZE ->
  exists k s', MemSlabCreate rc slab_fuel size 0 s = Ret (k, s') /\ slabs_ok n L R s' /\ caches_kept s s' /\
    is_Some (caches s' !! k).
Proof.
  intros (fr & I & Hka & Hrc & Hcb & Hn & HL & HR) Hs Ha.
  destruct (MemSlabCreate_ok rc 0 s fr size 0) as (k & s' & fr' & E & I' & _ & Hk & Hm & _ & Er & Ek & Hroom & Hlive & Hav);
    [done|done|lia|done|lia|lia|by intros _|].
  exists k, s'. split; [exact E|]. split_and!; [|exact Hm|].
  - exists fr'. split_and!; [done|by eapply kept_kalloc|by eapply kept_some| |lia|auto|auto].
    destruct Hcb as (cb & Hcb & Hl). exists cb. split; [|done]. rewrite Er. by apply Hm.
  - unfold shape_of in Hk. destruct (caches s' !! k); [by eexists|done].
Qed.

(** *** Objects *)

(** The allocator after an allocation of object [x] of cache [k]. *)
Lemma allocated_ok n L R s fr k x s' fr' :
  slab_inv rc s fr -> kalloc_ok s -> is_Some (caches s !! rc) ->
  (exists cb, shape_of s (rootSlabCache s) = Some cb /\ is_large cb = false) ->
  (2 + n <= room (spages s))%nat -> (forall q y, L q y -> live s fr q y) -> avoids R s ->
  allocated rc 2 s fr k x s' fr' ->
  slabs_ok n (fun q y => L q y \/ (q = k /\ y = x)) R s' /\ caches_kept s s' /\ (forall q, ~ L q x).
Proof.
  intros I Hka Hrc (cb & Hcb & Hl) Hn HL HR (Hroom & I' & X & Hf & Hx & _ & Hmono & _).
  pose proof (extends_kept _ _ X) as Hk. split_and!; [|exact Hk|].
  - exists fr'. split_and!; [done|by eapply kept_kalloc, Hka; [|apply X]|by eapply kept_some| |lia| |by eapply extends_avoids].
    + exists cb. split; [|done]. rewrite (x_root _ _ X). by apply Hk.
    + intros q y [Hy|[-> ->]]; [by apply Hmono, HL|done].
  - intros q Hq. by apply (Hf q), HL.
Qed.

(** An object in use is in the direct map, on none of the pages [R]. *)
Lemma live_place n (L : Z -> Z -> Prop) R s q x : slabs_ok n L R s -> L q x -> x <> 0 /\ ~ R (page_of x).
Proof.
  intros (fr & I & _ & _ & _ & _ & HL & [_ HR]) Hx. pose proof (HL _ _ Hx) as Hlive.
  pose proof Hlive as (a & t & c & Ha & <- & Hc & Hin & _). destruct (live_bounds rc s fr _ x c I Hlive Hc) as (B & _).
  split; [lia|]. destruct I as [G _]. destruct (g_slab _ _ _ G _ _ Ha) as (d & Hd & Hok). rewrite Hc in Hd. injection Hd as <-.
  destruct (so_mem _ _ _ _ _ Hok) as [M1 M2]. pose proof (g_cache _ _ _ G _ _ Hc) as K.
  intros HRx. apply (HR a t c Ha Hc (page_of x)); [|exact HRx].
  apply (in_slab_bounds _ _ _ K M1 M2 Hin). destruct K. lia.
Qed.

Lemma zalloc_ok n L R s k :
  slabs_ok (2 + n) L R s -> is_Some (caches s !! k) ->
  exists x s', MemSlabZAlloc slab_fuel k s = Ret (x, s') /\ slabs_ok n (fun q y => L q y \/ (q = k /\ y = x)) R s' /\
    caches_kept s s' /\ (forall q, ~ L q x).
Proof.
  intros (fr & I & Hka & Hrc & Hcb & Hn & HL & HR) [c Hc].
  destruct (MemSlabAlloc_allocated rc 0 s fr k c I Hc) as (x & s1 & fr1 & E & A); [lia|].
  destruct (allocated_ok n L R s fr k x s1 fr1 I Hka Hrc Hcb Hn HL HR A) as (H1 & H2 & H3).
  destruct (live_place n _ R s1 k x H1) as [Hx _]; [by right|].
  unfold MemSlabZAlloc. change slab_fuel with 2%nat. rewrite E. cbn [mbind outcome_bind].
  apply Z.eqb_neq in Hx as Hx'. rewrite Hx'. cbn [negb].
  destruct A as (_ & I1 & X & _ & Hl & _). assert (shape_of s1 k = Some (shape c)) as Hsh by (apply H2; unfold shape_of; by rewrite Hc).
  destruct (live_bounds rc s1 fr1 k x _ I1 Hl Hsh) as (B1 & B2 & B3 & B4).
  unfold shape_of in Hsh. apply fmap_Some in Hsh as (c1 & Hc1 & Es). rewrite Hc1. cbn [or_fault mbind outcome_bind].
  assert (objectSize (shape c) = objectSize c1) as Eo by (by rewrite Es). rewrite Eo in *.
  eexists x, _. split; [reflexivity|]. split_and!; [|by intros q d Hd; apply H2|done].
  destruct H1 as (fr1' & J1 & J2 & J3 & J4 & J5 & J6 & J7).
  exists fr1'. split_and!; try done.
  apply (inv_write rc s1 fr1' k x (shape c1)); [done|apply J6; by right|unfold shape_of; by rewrite Hc1|].
  intros y Hy. cbn [objectSize shape] in Hy. apply fill_words_frame; rewrite ?Z2Nat.id; lia.
Qed.

Lemma kalloc_ok_bytes n L R s bytes :
  slabs_ok (2 + n) L R s -> 0 < bytes <= 8192 ->
  exists x s', MemKAlloc slab_fuel bytes s = Ret (x, s') /\ x <> 0 /\ slabs_ok n L R s' /\ caches_kept s s'.
Proof.
  intros (fr & I & Hka & Hrc & Hcb & Hn & HL & HR) Hb.
  destruct (kalloc_index_best bytes Hb) as (H1 & _). pose proof Hka as [Hlen Hk].
  destruct (lookup_lt_is_Some_2 (kAllocCache s) (Z.to_nat (kalloc_index bytes))) as [k Ek]; [lia|].
  destruct (Hk _ _ Ek) as (c & Hc & _). unfold shape_of in Hc. apply fmap_Some in Hc as (c0 & Hc0 & ->).
  destruct (MemSlabAlloc_allocated rc 0 s fr k c0 I Hc0) as (x & s1 & fr1 & E & A); [lia|].
  destruct (allocated_ok n L R s fr k x s1 fr1 I Hka Hrc Hcb Hn HL HR A) as (H2 & H3 & _).
  exists x, s1. split_and!; [|by eapply (live_place _ _ _ _ k x H2); right| |done].
  - unfold MemKAlloc. change (Z.shiftl 8 10) with 8192. destruct (Z.eqb_spec bytes 0); [lia|]. destruct (Z.ltb_spec 8192 bytes); [lia|].
    cbn [orb]. assert (zget (kAllocCache s) (kalloc_index bytes) = Some k) as -> by (unfold zget; by destruct (Z.ltb_spec (kalloc_index bytes) 0); [lia|]).
    exact E.
  - destruct H2 as (fr2 & J1 & J2 & J3 & J4 & J5 & J6 & J7). exists fr2. split_and!; auto.
Qed.

(** *** Pages *)

Lemma page_ok n L R s :
  slabs_ok (1 + n) L R s ->
  exists pg p', sp_alloc 1 MEM_KERNEL (spages s) = Ret (pg, p') /\ 0 <= pg < 0x30000 /\ ~ R pg /\
    slabs_ok n L (fun i => R i \/ i = pg) (set_spages s p') /\ caches_kept s (set_spages s p').
Proof.
  intros (fr & I & Hka & Hrc & Hcb & Hn & HL & HR).
  destruct (law_sp_alloc 1 MEM_KERNEL (spages s)) as (pg & p' & E & Hroom & H0 & H1 & Hnew & Hheld & Hget); [lia|by right|lia|].
  rewrite max_page in H1. exists pg, p'. split; [exact E|]. split; [lia|]. split; [intros Hpg; apply (Hnew pg); [lia|]; by apply HR|].
  split; [|by intros q d]. exists fr. split_and!; try done; [|cbn [spages set_spages]; lia|].
  - apply inv_more_pages; [done|intros i Hi; apply Hheld; by left|done].
  - destruct HR as [R1 R2]. split.
    + intros i [Hi| ->]; apply Hheld; [by left; apply R1|right; lia].
    + intros a t c Ha Hc i Hi [HRi| ->]; [by apply (R2 a t c Ha Hc i Hi)|].
      apply (Hnew pg); [lia|]. destruct I as [G _]. destruct (g_slab _ _ _ G _ _ Ha) as (d & Hd & Hok).
      change (shape_of (set_spages s p') (scache t)) with (shape_of s (scache t)) in Hc. rewrite Hc in Hd. injection Hd as <-.
      by apply (so_pages _ _ _ _ _ Hok).
Qed.

Lemma slabs_ok_weaken n n' (L L' : Z -> Z -> Prop) (R R' : Z -> Prop) s :
  slabs_ok n L R s -> (n' <= n)%nat -> (forall q x, L' q x -> L q x) -> (forall i, R' i -> R i) -> slabs_ok n' L' R' s.
Proof.
  intros (fr & I & Hka & Hrc & Hcb & Hn & HL & [HR1 HR2]) H1 H2 H3. exists fr. split_and!; auto; [lia|].
  split; [auto|]. intros a t c Ha Hc i Hi Hri. by apply (HR2 a t c Ha Hc i Hi), H3.
Qed.
End Memory.

(** ** Names *)

Definition readable (m : gmap Z Z) (a n : Z) : Prop := forall i, 0 <= i < n -> is_Some (m !! (a + i)).

(** No byte goes away. *)
Definition grows (m m' : gmap Z Z) : Prop := forall a, is_Some (m !! a) -> is_Some (m' !! a).

Lemma grows_insert m a b : grows m (<[a := b]> m).
Proof. intros x Hx. destruct (decide (a = x)) as [->|]; [rewrite lookup_insert_eq; by eexists|by rewrite lookup_insert_ne]. Qed.

Lemma expose_spec m a n :
  grows m (expose m a n) /\ readable (expose m a n) a n.
Proof.
  unfold expose, readable. assert (forall l, grows m (foldr (fun i m' => match m' !! (a + i) with Some _ => m' | None => <[a + i := 0]> m' end) m l) /\
    forall i, i ∈ l -> is_Some (foldr (fun i m' => match m' !! (a + i) with Some _ => m' | None => <[a + i := 0]> m' end) m l !! (a + i))) as H.
  { induction l as [|j l [IH1 IH2]]; simpl; [split; [by intros x|by intros i Hi%not_elem_of_nil]|].
    set (m1 := foldr _ m l) in *. destruct (m1 !! (a + j)) as [v|] eqn:Ej.
    - split; [done|]. intros i [->|Hi]%elem_of_cons; [by eexists|by apply IH2].
    - split; [intros x Hx; by apply grows_insert, IH1|]. intros i [->|Hi]%elem_of_cons; [rewrite lookup_insert_eq; by eexists|].
      by apply grows_insert, IH2. }
  destruct (H (seqZ 0 n)) as [H1 H2]. split; [done|]. intros i Hi. apply H2, elem_of_seqZ. lia.
Qed.

Lemma StrLen_loop_bound k : forall m s,
  readable m s (Z.of_nat k) -> exists e, StrLen_loop k m s = Ret e /\ s <= e <= s + Z.of_nat k.
Proof.
  induction k as [|k IH]; intros m s Hr; simpl.
  - exists s. split; [done|lia].
  - destruct (Hr 0) as [b Hb]; [lia|]. rewrite Z.add_0_r in Hb. unfold loadc, load8. rewrite Hb. cbn [or_fault mbind outcome_bind].
    destruct (s8 b =? 0); [exists s; split; [done|lia]|]. destruct (IH m (s + 1)) as (e & -> & He).
    { intros i Hi. replace (s + 1 + i) with (s + (i + 1)) by lia. apply Hr. lia. }
    exists e. split; [done|lia].
Qed.

Lemma StrLen_bound m s n : 0 <= n -> readable m s n -> exists len, StrLen m s n = Ret len /\ 0 <= len <= n.
Proof.
  intros Hn Hr. unfold StrLen. destruct (StrLen_loop_bound (Z.to_nat n) m s) as (e & -> & He); [by rewrite Z2Nat.id|].
  exists (e - s). split; [done|lia].
Qed.

Lemma copy_forward_returns k : forall m d s,
  readable m s (Z.of_nat k) -> readable m d (Z.of_nat k) -> exists m', copy_forward k m d s = Ret m' /\ grows m m'.
Proof.
  induction k as [|k IH]; intros m d s Hs Hd; simpl; [exists m; split; [done|by intros x]|].
  destruct (Hs 0) as [b Hb]; [lia|]. destruct (Hd 0) as [b' Hb']; [lia|]. rewrite Z.add_0_r in Hb, Hb'.
  unfold loadc, load8, store8, load8. rewrite Hb. cbn [or_fault mbind outcome_bind]. rewrite Hb'. cbn [or_fault mbind outcome_bind].
  match goal with |- context [copy_forward k ?m1 _ _] => destruct (IH m1 (d + 1) (s + 1)) as (m' & -> & Hg) end.
  - intros i Hi. apply grows_insert. replace (s + 1 + i) with (s + (i + 1)) by lia. apply Hs. lia.
  - intros i Hi. apply grows_insert. replace (d + 1 + i) with (d + (i + 1)) by lia. apply Hd. lia.
  - exists m'. split; [done|]. intros x Hx. by apply Hg, grows_insert.
Qed.

(** ** Threads *)

Definition same_caches (w w' : world) : Prop :=
  fpuStateCache w' = fpuStateCache w /\ cacheProcess w' = cacheProcess w /\ cacheThread w' = cacheThread w /\
  blockHeadCache w' = blockHeadCache w.

Lemma StrDup_ok rc n L R w s :
  slabs_ok rc (2 + n) L R (wslabs w) -> readable (wbytes w) s 256 ->
  exists a w', world_StrDup s 255 w = Ret (a, w') /\ slabs_ok rc n L R (wslabs w') /\
    caches_kept (wslabs w) (wslabs w') /\ grows (wbytes w) (wbytes w') /\ same_caches w w'.
Proof.
  intros Hok Hr. unfold world_StrDup, StrDup. destruct (StrLen_bound (wbytes w) s 255) as (len & -> & Hlen); [lia|intros i Hi; apply Hr; lia|].
  cbn [mbind outcome_bind]. assert (u32 (len + 1) = len + 1) as -> by u32_lia.
  destruct (kalloc_ok_bytes rc n L R (wslabs w) (len + 1) Hok) as (x & s' & E & Hx & Hok' & Hk); [lia|].
  unfold kalloc_bytes. rewrite E. cbn [mbind outcome_bind]. destruct (Z.eqb_spec x 0); [done|].
  destruct (expose_spec (wbytes w) x (len + 1)) as [Hg Hxr]. set (m1 := expose _ _ _) in *.
  destruct (copy_forward_returns (Z.to_nat (len + 1)) m1 x s) as (m2 & E2 & Hg2); rewrite ?Z2Nat.id by lia;
    [intros i Hi; apply Hg, Hr; lia|done|]. unfold memcpy. rewrite E2. cbn [mbind outcome_bind].
  destruct (Hg2 (x + (len + 1) - 1)) as [b Hb].
  { replace (x + (len + 1) - 1) with (x + len) by lia. apply Hxr. lia. }
  unfold store8, load8. rewrite Hb. cbn [or_fault mbind outcome_bind]. eexists x, _. split; [reflexivity|].
  split_and!; [done|done| |done..]. intros a Ha. by apply grows_insert, Hg2, Hg.
Qed.

Section Threads.
Context {K : Machine} {CO : ContextOps} (rc e : Z) (fuel : nat).

(** The thread record and the stack that ProcCreateKernelThread makes. *)
Definition new_thread (id base nm : Z) : ProcThread :=
  mkThread id ProcKernelProcess 0 PTS_STARTUP PWM_NONE 0 base PROC_NULL_TLS_DESCRIPTOR None 0 0 0 nm (base + 4060).
Definition new_stack (m : gmap Z Z) (base start arg : Z) : gmap Z Z :=
  store_words (zero_stack m base) (base + 4060) (kernel_frame e start arg).

Lemma direct_map page : 0 <= page < 0x30000 -> MemPhys2Virt page = 0xC0000000 + page * 4096.
Proof. intros H. unfold MemPhys2Virt, KERNEL_VIRTUAL_BASE, PAGE_SIZE. u32_lia. Qed.

Lemma kernel_thread_made n L R name start arg st w pp :
  slabs_ok rc (5 + n) L R (wslabs w) -> is_Some (caches (wslabs w) !! cacheThread w) -> readable (wbytes w) name 256 ->
  process (psys st) !! ProcKernelProcess = Some pp -> hTableThread st !! threadNextID st = None -> (0 < fuel)%nat ->
  exists a page nm st' w', ProcCreateKernelThread e fuel name start arg st w = Ret (a, st', w') /\
    0 <= page < 0x30000 /\ ~ R page /\ (forall q, ~ L q a) /\ a <> 0 /\ ~ R (page_of a) /\
    psys st' = set_thread (set_process (psys st) (<[ProcKernelProcess := set_threads pp (threads pp ++ [a])]> (process (psys st))))
                 (<[a := new_thread (threadNextID st) (MemPhys2Virt page) nm]> (thread (psys st))) /\
    kstacks st' = new_stack (kstacks st) (MemPhys2Virt page) start arg /\
    hTableThread st' = <[threadNextID st := a]> (hTableThread st) /\ threadNextID st' = u32 (threadNextID st + 1) /\
    hTableProcess st' = hTableProcess st /\ ptimer st' = ptimer st /\
    slabs_ok rc n (fun q y => L q y \/ (q = cacheThread w /\ y = a)) (fun i => R i \/ i = page) (wslabs w') /\
    caches_kept (wslabs w) (wslabs w') /\ grows (wbytes w) (wbytes w') /\ same_caches w w'.
Proof.
  intros Hok Hc Hn Hp Hid Hf. unfold ProcCreateKernelThread, ProcCreateRawThread. cbn [pe_alloc_thread pe_StrDup pe_MemPhysicalAlloc world_env].
  destruct (zalloc_ok rc (3 + n) L R (wslabs w) (cacheThread w) Hok Hc) as (a & s1 & E1 & Hok1 & Hk1 & Ha).
  rewrite E1. cbn [with_slabs mbind outcome_bind]. destruct fuel as [|f]; [lia|]. cbn [alloc_id]. rewrite Hid. cbn [mbind outcome_bind].
  unfold upd_process, get_process. cbn [psys set_thread_ids]. rewrite Hp. cbn [or_fault mbind outcome_bind].
  destruct (live_place rc _ _ _ _ (cacheThread w) a Hok1) as [Ha0 HaR]; [by right|].
  destruct (StrDup_ok rc (1 + n) _ R (set_wslabs w s1) name Hok1 Hn) as (nm & w2 & E2 & Hok2 & Hk2 & Hg2 & Hs2).
  rewrite E2. cbn [mbind outcome_bind].
  destruct (page_ok rc n _ R (wslabs w2) Hok2) as (pg & p' & E3 & Hpg & HR & Hok3 & Hk3). rewrite E3. cbn [mbind outcome_bind].
  pose proof (direct_map pg Hpg) as Hb. set (base := MemPhys2Virt pg) in *.
  unfold setup_stack, upd_thread. cbn [psys set_kstacks set_psys set_thread thread set_process]. rewrite !lookup_insert_eq.
  cbn [or_fault mbind outcome_bind thread process set_thread kStackBase]. rewrite insert_insert_eq.
  assert (u32 (base + PROC_KSTACK_SIZE - 4 * zlen (kernel_frame e start arg)) = base + 4060) as ->.
  { change (zlen (kernel_frame e start arg)) with 9. unfold PROC_KSTACK_SIZE, u32. rewrite Z.mod_small; lia. }
  eexists a, pg, nm, _, _. split; [reflexivity|]. split_and!; try done; try lia.
  intros q d Hq. by apply Hk3, Hk2, Hk1.
Qed.

(** *** Stacks *)

Lemma store_words_range m a ws x :
  0 <= a -> a + 4 * Z.of_nat (length ws) < 4294967296 -> ~ (a <= x < a + 4 * Z.of_nat (length ws)) ->
  store_words m a ws !! x = m !! x.
Proof. intros. apply store_words_frame; lia. Qed.

(** The frame is on the new stack, and nothing below or above it changes. *)
Lemma new_stack_spec m page start arg :
  0 <= page < 0x30000 ->
  (forall i v, kernel_frame e start arg !! i = Some v ->
     new_stack m (MemPhys2Virt page) start arg !! (MemPhys2Virt page + 4060 + 4 * Z.of_nat i) = Some v) /\
  (forall x, ~ (MemPhys2Virt page <= x < MemPhys2Virt page + 4096) -> new_stack m (MemPhys2Virt page) start arg !! x = m !! x).
Proof.
  intros Hp. pose proof (direct_map page Hp) as Hb. set (base := MemPhys2Virt page) in *. unfold new_stack.
  assert (length (kernel_frame e start arg) = 9%nat) as Hl by done. split.
  - intros i v Hv. apply store_words_lookup; [lia|rewrite Hl; lia|done].
  - intros x Hx. rewrite store_words_range by (rewrite ?Hl; lia). unfold zero_stack. apply store_words_range; [lia|..];
      rewrite length_replicate; unfold PROC_KSTACK_SIZE; change (Z.to_nat (4096 / 4)) with 1024%nat; lia.
Qed.

(** A thread that is ready to be started at an address. *)
Definition startable (st : procs) (t start arg : Z) : Prop :=
  exists th, thread (psys st) !! t = Some th /\ state th = PTS_STARTUP /\ parent th = ProcKernelProcess /\ fpuSwitches th = 0 /\
    forall i v, kernel_frame e start arg !! i = Some v -> kstacks st !! (kStackPointer th + 4 * Z.of_nat i) = Some v.
End Threads.

(** ** The initialisers *)

Section Boot.
Context {CO : ContextOps} (im : machine_image) (fuel : nat).
#[local] Abbreviation rc := (im_rootCache im).
#[local] Abbreviation e := (im_ProcIntKernelThreadReturn im).

(** A new cache, in the world. *)
Lemma create_cache_made n L R size w :
  slabs_ok rc (2 + n) L R (wslabs w) -> 0 < size -> 0 < align_size size < 8 * PAGE_SIZE ->
  exists k w', create_cache im size w = Ret (k, w') /\ slabs_ok rc n L R (wslabs w') /\
    caches_kept (wslabs w) (wslabs w') /\ is_Some (caches (wslabs w') !! k) /\
    wbytes w' = wbytes w /\ same_caches w w'.
Proof.
  intros Hok Hs Ha. unfold create_cache, with_slabs.
  destruct (create_cache_ok rc n L R (wslabs w) size Hok Hs Ha) as (k & s' & E & Hok' & Hk & Hc). rewrite E.
  exists k, (set_wslabs w s'). by split_and!.
Qed.

Lemma align_size_u32 size : 0 <= size < 0xF0000000 -> size mod 4 = 0 -> align_size size = size.
Proof. intros Hs Hm. rewrite align_size_div. unfold u32. zlia. Qed.

Lemma CpuInitLate_ok {K : Machine} n L R w :
  slabs_ok rc (2 + n) L R (wslabs w) ->
  exists w', CpuInitLate im w = Ret w' /\ slabs_ok rc n L R (wslabs w') /\ wbytes w' = wbytes w /\
    is_Some (caches (wslabs w') !! fpuStateCache w').
Proof.
  intros Hok. unfold CpuInitLate.
  destruct (create_cache_made n L R (if CpuHasFxSave then CPU_EXTRA_FXSAVE else CPU_EXTRA_FPU) w Hok) as (k & w' & E & Hok' & Hk & Hc & Hb & _);
    [by destruct CpuHasFxSave|by destruct CpuHasFxSave|]. rewrite E. eexists. by split_and!.
Qed.

Lemma IoBlockCacheInit_ok n L R w :
  slabs_ok rc (2 + n) L R (wslabs w) ->
  exists w', IoBlockCacheInit im w = Ret w' /\ slabs_ok rc n L R (wslabs w') /\
    is_Some (caches (wslabs w') !! blockHeadCache w').
Proof.
  intros Hok. unfold IoBlockCacheInit.
  destruct (create_cache_made n L R sizeof_IoBlock w Hok) as (k & w' & E & Hok' & Hk & Hc & _); [done|done|].
  rewrite E. eexists. by split_and!.
Qed.

Lemma process_caches_ok n L R w :
  slabs_ok rc (4 + n) L R (wslabs w) ->
  exists w', process_caches im w = Ret w' /\ slabs_ok rc n L R (wslabs w') /\ wbytes w' = wbytes w /\
    is_Some (caches (wslabs w') !! cacheProcess w') /\ is_Some (caches (wslabs w') !! cacheThread w').
Proof.
  intros Hok. unfold process_caches.
  destruct (create_cache_made (2 + n) L R sizeof_ProcProcess w Hok) as (c & w1 & E1 & Hok1 & _ & Hc & Hb1 & _); [done|done|].
  rewrite E1. cbn [mbind outcome_bind].
  destruct (create_cache_made n L R sizeof_ProcThread (set_cacheProcess w1 c) Hok1) as (t & w2 & E2 & Hok2 & Hk2 & Ht & Hb2 & Hs2); [done|done|].
  rewrite E2. eexists. split; [reflexivity|]. split_and!; [done|simpl; rewrite Hb2; exact Hb1|eapply kept_some; [exact Hk2|]|done].
  destruct Hs2 as (_ & E & _). simpl in *. by rewrite E.
Qed.

Lemma dom_pair {A} (a b : Z) (x y : A) : dom (<[b := y]> (<[a := x]> (∅ : gmap Z A))) = ({[a; b]} : gset Z).
Proof. rewrite !dom_insert_L, dom_empty_L. set_solver. Qed.

(** The system before ProcInit: static data is zero. *)
Record unstarted (st : procs) : Prop := {
  u_threads : thread (psys st) = ∅; u_table : hTableThread st = ∅; u_next : threadNextID st = 0;
  u_queue : threadQueue (psys st) = []; u_fpu : fpuCurrent (fpu (psys st)) = 0
}.

Lemma init_processes_ok {K : Machine} n L R st w :
  slabs_ok rc (14 + n) L R (wslabs w) -> unstarted st -> (0 < fuel)%nat ->
  readable (wbytes w) (im_idle im) 256 -> readable (wbytes w) (im_reaper im) 256 ->
  exists idle reaper p w', init_processes im fuel st w = Ret (idle, reaper, p, w') /\
    slabs_ok rc n L R (wslabs w') /\ ~ R (page_of idle) /\ idle <> 0 /\ idle <> reaper /\
    startable e p idle (im_ProcIntIdleThread im) 0 /\ startable e p reaper (im_ProcIntReaperThread im) 0 /\
    dom (thread (psys p)) = {[idle; reaper]} /\ hTableThread p = <[1 := reaper]> {[0 := idle]} /\
    hTableProcess p !! 0 = Some (default ProcKernelProcess (hTableProcess st !! 0)) /\
    ProcCurrProcess (psys p) = ProcKernelProcess /\ ProcCurrThread (psys p) = ProcCurrThread (psys st) /\
    threadQueue (psys p) = [] /\ fpu (psys p) = fpu (psys st) /\ ptimer p = ptimer st /\
    (exists pr, process (psys p) !! ProcKernelProcess = Some pr /\ threads pr = [idle; reaper] /\ memContext pr = MemKernelContext).
Proof.
  intros Hok [U1 U2 U3 U4 U5] Hf Hi Hr. unfold init_processes.
  destruct (process_caches_ok (10 + n) L R w Hok) as (w1 & E1 & Hok1 & Hb1 & _ & Hct). rewrite E1. cbn [mbind outcome_bind].
  unfold ProcInit. set (st1 := set_psys _ (set_current _ _ _)).
  assert (process (psys st1) !! ProcKernelProcess = Some (kernel_process (im_kernel im))) as Hp1 by (unfold st1; apply lookup_insert_eq).
  destruct (kernel_thread_made rc e fuel (5 + n) L R (im_idle im) (im_ProcIntIdleThread im) 0 st1 w1 (kernel_process (im_kernel im)) Hok1 Hct)
    as (idle & pg & nm & st2 & w2 & E2 & Hpg & HRp & Hli & Hi0 & HRi & Hs2 & Hk2 & Ht2 & Hn2 & Hh2 & Htm2 & Hok2 & Hkept2 & Hg2 & _ & _ & Hc2 & _);
    [by rewrite Hb1|exact Hp1|simpl; by rewrite U2|done|].
  rewrite E2. cbn [mbind outcome_bind].
  destruct (kernel_thread_made rc e fuel n _ _ (im_reaper im) (im_ProcIntReaperThread im) 0 st2 w2
    (set_threads (kernel_process (im_kernel im)) [idle]) Hok2)
    as (reaper & pg2 & nm2 & st3 & w3 & E3 & Hpg2 & HRp2 & Hlr & _ & _ & Hs3 & Hk3 & Ht3 & Hn3 & Hh3 & Htm3 & Hok3 & _).
  { rewrite Hc2. by eapply kept_some. }
  { intros i Hi'. apply Hg2. rewrite Hb1. by apply Hr. }
  { rewrite Hs2. simpl. apply lookup_insert_eq. }
  { rewrite Ht2, Hn2. simpl. rewrite U2, U3. done. }
  { done. }
  rewrite E3. cbn [mbind outcome_bind].
  assert (idle <> reaper) as Hne.
  { intros E. apply (Hlr (cacheThread w1)). right. split; [reflexivity|exact (eq_sym E)]. }
  assert (pg <> pg2) as Hpn.
  { intros E. apply HRp2. right. exact (eq_sym E). }
  pose proof (direct_map pg Hpg) as Hd. pose proof (direct_map pg2 Hpg2) as Hd2.
  destruct (new_stack_spec e (kstacks st1) pg (im_ProcIntIdleThread im) 0 Hpg) as [F1 _].
  destruct (new_stack_spec e (kstacks st2) pg2 (im_ProcIntReaperThread im) 0 Hpg2) as [F2 F3].
  assert (startable e st3 idle (im_ProcIntIdleThread im) 0) as Hidle.
  { eexists. rewrite Hs3. cbn [thread set_thread]. rewrite lookup_insert_ne by congruence. rewrite Hs2. split; [apply lookup_insert_eq|].
    split_and!; [reflexivity..|]. intros i v Hv. cbn [kStackPointer new_thread]. rewrite Hk3, F3, Hk2; [by apply F1|].
    apply lookup_lt_Some in Hv. change (length _) with 9%nat in Hv. lia. }
  assert (startable e st3 reaper (im_ProcIntReaperThread im) 0) as Hreaper.
  { eexists. rewrite Hs3. split; [apply lookup_insert_eq|].
    split_and!; [reflexivity..|]. intros i v Hv. cbn [kStackPointer new_thread]. rewrite Hk3. by apply F2. }
  exists idle, reaper, st3, w3. split; [reflexivity|].
  split; [eapply slabs_ok_weaken; [exact Hok3|lia|by left; left|by left; left]|].
  split; [exact HRi|]. split; [exact Hi0|]. split; [exact Hne|]. split; [exact Hidle|]. split; [exact Hreaper|]. clear Hidle Hreaper F1 F2 F3.
  split; [rewrite Hs3; cbn [thread set_thread]; rewrite Hs2; cbn [thread set_thread]; change (thread (psys st1)) with (thread (psys st)); rewrite U1; apply dom_pair|].
  split; [rewrite Ht3, Hn2, Ht2; change (hTableThread st1) with (hTableThread st); change (threadNextID st1) with (threadNextID st);
          rewrite U2, U3; reflexivity|].
  split; [rewrite Hh3, Hh2; unfold st1; cbn [hTableProcess set_psys set_process_ids]; destruct (hTableProcess st !! 0) eqn:E0;
          [exact E0|apply lookup_insert_eq]|].
  rewrite Htm3, Htm2, Hs3. cbn [ProcCurrProcess ProcCurrThread threadQueue fpu set_thread set_process].
  rewrite Hs2. cbn [ProcCurrProcess ProcCurrThread threadQueue fpu set_thread set_process process].
  split; [reflexivity|]. split; [reflexivity|]. split; [exact U4|]. split; [reflexivity|]. split; [reflexivity|].
  eexists. rewrite lookup_insert_eq. split; [reflexivity|]. split; reflexivity.
Qed.

(** *** The page state table *)

(** The zones that boot sets up end in [8 * n] pages that are not taken. *)
Definition free_tails (P : Z -> bool) (total : Z) (n : nat) : Prop :=
  8 * Z.of_nat n < Z.min total 0x1000 /\
  (forall i, Z.min total 0x1000 - 8 * Z.of_nat n <= i < Z.min total 0x1000 -> P i = false) /\
  (0x1000 < total -> 0x1000 + 8 * Z.of_nat n <= total /\ forall i, total - 8 * Z.of_nat n <= i < total -> P i = false).

Lemma fresh_zone_room tbl s hi (n : nat) :
  0 <= s < hi -> hi <= zlen tbl -> hi <= 0x30000 -> 8 * Z.of_nat n <= hi - s ->
  (forall i, hi - 8 * Z.of_nat n <= i < hi -> is_free tbl i = true) -> (n <= zone_room tbl (mkZone s s hi))%nat.
Proof.
  intros H1 H2 H3 H4 Hf. unfold zone_room.
  rewrite (proj2 (zone_sane_spec tbl (mkZone s s hi))) by (simpl; lia). unfold zone_tail. cbn [end_ headPtr].
  assert (8 * n <= free_below tbl (Z.to_nat (hi - s)) hi)%nat as H by (apply free_below_at_least; [lia|intros i Hi; apply Hf; lia]).
  apply Nat.div_le_lower_bound; lia.
Qed.

Lemma boot_room (p : phys) P total n :
  marked (MemPageStateTable p) total P -> zones p = boot_zones total -> 0 < total <= 0x30000 -> free_tails P total n ->
  (n <= phys_room p)%nat.
Proof.
  intros [Hl Hm] Hz Ht (T0 & T1 & T2).
  assert (forall i, 0 <= i < total -> P i = false -> is_free (MemPageStateTable p) i = true) as Hf.
  { intros i Hi HP. unfold is_free. by rewrite (Hm i Hi), HP. }
  unfold phys_room. rewrite Hz. unfold boot_zones. destruct (Z.leb_spec total 0x1000) as [Hs|Hs].
  - simpl. apply fresh_zone_room; [lia..|]. intros i Hi. apply Hf; [lia|]. apply T1. lia.
  - destruct (Z.leb_spec total 0x30000); [|lia]. cbn [Physical.start end_].
    destruct (Z.ltb_spec 0x1000 total); [|lia].
    destruct (T2 Hs) as [T3 T4]. cbn [Z.leb Z.compare Pos.compare Pos.compare_cont]. apply Nat.min_glb; apply fresh_zone_room; try lia;
      intros i Hi; apply Hf; first [lia | apply T1; lia | apply T4; lia].
Qed.

Lemma marked_held_pages (p : phys) P total i :
  marked (MemPageStateTable p) total P -> 0 <= i < total -> P i = true -> phys_held p i.
Proof. intros [_ Hm] Hi HP. eexists. split; [by apply Hm|]. by rewrite HP. Qed.

(** *** Giving the init pages back *)

Lemma free_loop_returns (k : nat) : forall pg p,
  (forall i, pg <= i < pg + Z.of_nat k -> is_Some (zget (MemPageStateTable p) i)) ->
  exists p', free_loop k pg p = Ret p' /\ forall i, sp_get i p' = sp_get i p.
Proof.
  induction k as [|k IH]; intros pg p Hs; cbn [free_loop]; [by exists p|].
  destruct (Hs pg) as [q Hq]; [lia|]. rewrite Hq. cbn [or_fault mbind outcome_bind].
  set (p1 := set_free _ _). destruct (IH (pg + 1) p1) as (p' & -> & Hg).
  { intros i Hi. unfold p1. simpl. rewrite zget_zset. destruct (_ && _); [by eexists|]. apply Hs. lia. }
  exists p'. split; [done|]. intros i. rewrite Hg. cbn [sp_get phys_slab_pages]. unfold p1. cbn [MemPageStateTable set_free set_table].
  rewrite zget_zset. destruct (Z.eqb_spec pg i) as [<-|]; [|done]. destruct (_ && _); [|done]. by rewrite Hq.
Qed.

Definition init_page (i : Z) : Prop := init_start_page (im_layout im) <= i < end_page (im_layout im).

Lemma free_init_pages_ok n L (R : Z -> Prop) w :
  slabs_ok rc n L R (wslabs w) -> (forall i, init_page i -> R i) -> ~ init_page (page_of rc) ->
  init_start_page (im_layout im) <= end_page (im_layout im) ->
  exists w', free_init_pages im w = Ret w' /\ cacheThread w' = cacheThread w /\
    (exists fr, slab_inv rc (wslabs w') fr) /\ kalloc_ok (wslabs w') /\
    forall i, phys_held (spages (wslabs w')) i <-> phys_held (spages (wslabs w)) i /\ ~ init_page i.
Proof.
  intros (fr & I & Hka & _ & _ & _ & _ & [HR1 HR2]) HR Hrc Hle. unfold free_init_pages, MemFreeInitPages, MemPhysicalFree.
  set (k := end_page _ - init_start_page _).
  destruct (free_loop_returns (Z.to_nat k) (init_start_page (im_layout im)) (spages (wslabs w))) as (p' & E & Hg).
  { intros i Hi. destruct (HR1 i) as (q & Hq & _); [apply HR; unfold init_page; lia|]. by eexists. }
  rewrite E. eexists. split; [reflexivity|]. pose proof (free_loop_held _ _ _ _ E) as Hh.
  assert (forall i, phys_held p' i <-> phys_held (spages (wslabs w)) i /\ ~ init_page i) as Hh'.
  { intros i. rewrite Hh. unfold init_page. rewrite Z2Nat.id by lia. split; intros [? Hn]; (split; [done|lia]). }
  split_and!; [done| |exact Hka|exact Hh'].
  exists fr. apply (inv_fewer_pages rc init_page); [exact I| |exact Hrc|exact Hh'|exact Hg].
  split; [intros i Hi; by apply HR1, HR|]. intros a s c Ha Hc i Hi Hin. by apply (HR2 a s c Ha Hc i Hi), HR.
Qed.

(** *** Memory *)

(** Memory after the screen was wiped. *)
Definition wiped (m : gmap Z Z) (a : Z) : option Z :=
  if (SCREEN <=? a) && (a <? SCREEN + SCREEN_BYTES) then Some 0 else m !! a.

Lemma wipe_screen m :
  Utils.writable m SCREEN SCREEN_BYTES ->
  exists m', memset m SCREEN 0 SCREEN_BYTES = Ret m' /\ (fun a => m' !! a) = wiped m /\ grows m m'.
Proof.
  intros Hw. destruct (memset_fills m SCREEN 0 SCREEN_BYTES) as (m' & E & F); [unfold SCREEN_BYTES; lia|done|done|].
  exists m'. split; [done|]. assert (forall a, m' !! a = wiped m a) as Ha by (intros a; by rewrite F).
  split; [by apply functional_extensionality|]. intros a Hs. rewrite Ha. unfold wiped. destruct (_ && _); [by eexists|done].
Qed.

Section Pages.
Context (es : list multiboot_mmap_entry) (mods : list multiboot_mod_list) (info : multiboot_info).
Context (features mBootInfo total t : Z) (st : boot) (m : gmap Z Z).

(** The pages that are in use when MemManagerInit is done. *)
Definition used_page (i : Z) : bool := taken (im_layout im) es mods total t (table_end total t) i.

(** What MemManagerInit finds; room for [n] requests is left. *)
Record bootable (n : nat) : Prop := {
  ba_boot : boot_ok (wiped m) fuel (im_layout im) info es mods (im_garbage im) features mBootInfo total t st;
  ba_garbage : is_u32 (im_garbage im);
  ba_total : end_page (im_layout im) <= total <= 0x30000;
  ba_table : table_end total t <= total;
  ba_fit : regions_fit total es;
  ba_tails : free_tails used_page total n;
  ba_root : 0 <= page_of rc < total /\ used_page (page_of rc) = true
}.

Lemma init_memory_ok n w :
  bootable (24 + n) -> (fun a => wbytes w !! a) = wiped m ->
  exists b w', init_memory im fuel features mBootInfo st w = Ret (b, w') /\
    MemManagerInit (wiped m) fuel (im_layout im) (im_garbage im) features mBootInfo st = Ret b /\
    slabs_ok rc n (fun _ _ => False) (fun i => 0 <= i < total /\ used_page i = true) (wslabs w') /\ wbytes w' = wbytes w.
Proof.
  intros [B1 B2 B3 B4 B5 B6 [B7 B8]] Hm. unfold init_memory. rewrite Hm.
  destruct (manager_result _ _ _ _ _ _ _ _ _ _ _ _ B1 B2 ltac:(lia) B4 B5) as (b & E & _ & _ & Hmark & _ & Hz & _).
  rewrite E. cbn [mbind outcome_bind]. set (p := physical (MemInit.memory b)) in *.
  assert ((24 + n <= phys_room p)%nat) as Hroom.
  { apply (boot_room p used_page total); [done|done| |done]. pose proof (bo_layout _ _ _ _ _ _ _ _ _ _ _ _ B1) as (_ & _ & Hl). lia. }
  assert (forall i, 0 <= i < total /\ used_page i = true -> phys_held p i) as Hheld.
  { intros i [Hi Hu]. by apply (marked_held_pages p used_page total). }
  destruct (MemSlabInit_ok rc p) as (s & fr & Es & I & Hka & Hr & Hrc & Hcb & Hav); [by apply Hheld|cbn [room phys_slab_laws]; lia|].
  change slab_fuel with 2%nat. rewrite Es. eexists b, _. split; [reflexivity|]. split; [reflexivity|]. split; [|reflexivity].
  exists fr. split_and!; [exact I|exact Hka|exact Hrc|exact Hcb| |by intros q x []|by apply Hav].
  cbn [wslabs set_wslabs]. change (room p) with (phys_room p) in Hr. lia.
Qed.
End Pages.

(** *** The timer *)

Lemma wait_update_returns reads : Exists (fun a => truth (Z.land a 0x80) = false) reads -> wait_update reads = Ret tt.
Proof. induction 1 as [a l H|a l H IH]; simpl; [by rewrite H|]. destruct (truth _); [exact IH|done]. Qed.

Lemma table_init_entry (T : Z) (code_of : exception -> Z) n :
  (n < 0x30)%nat ->
  table_init T code_of !! entry_at T (Z.of_nat n) = Some (mkEntry (match exception_table !! n with Some x => code_of x | None => 0 end) 0 0).
Proof.
  intros Hn. unfold table_init. apply elem_of_list_to_map_1.
  - rewrite <- list_fmap_compose. apply NoDup_fmap_2; [|apply NoDup_seq]. intros x y. unfold compose, entry_at. simpl. lia.
  - apply list_elem_of_fmap. exists n. split; [done|]. apply elem_of_seq. lia.
Qed.

Lemma init_timer_ok code_of st tm w :
  dispatch st = table_init (im_IntrDispatchTable im) code_of ->
  Exists (fun a => truth (Z.land a 0x80) = false) (im_cmos_reads im) ->
  exists st' tm', init_timer im st tm w = Ret (st', tm', w) /\
    dispatch st' !! entry_at (im_IntrDispatchTable im) 0x20 = Some (mkEntry (im_TimerInterrupt im) 0 0) /\
    mask21 st' = u8 (clear_bits (mask21 st) 1) /\ maskA1 st' = maskA1 st /\
    port40 (io tm') = [Z.land PIT_RELOADVAL 0xFF; Z.shiftr PIT_RELOADVAL 8] /\ currentTime tm' = startupTime tm'.
Proof.
  intros Hd Hr. unfold init_timer, IntrRegister. cbn [Z.ltb Z.compare orb]. rewrite Hd.
  change (0x20 + 0) with (Z.of_nat 0x20). rewrite table_init_entry by lia. cbn [or_fault mbind outcome_bind].
  change (exception_table !! 32%nat) with (@None exception). cbn [ihandler Z.eqb negb].
  unfold TimerGetCMOSTime. rewrite wait_update_returns by done. cbn [mbind outcome_bind TimerInit negb].
  eexists _, _. split; [reflexivity|]. split_and!; try reflexivity. simpl. apply lookup_insert_eq.
Qed.

(** *** Devfs *)

Lemma devfs_registered {D} head fl type ty (v : vfs (devfs D)) :
  fstypes v !! type = Some ty -> 0 < type < 4294967292 -> rep (fsnodes v) head [] -> rep (fsnodes v) (type + fsTypes_off) [] ->
  type + fsTypes_off <> head -> (0 < fl)%nat ->
  exists v', IoDevFsInit fl head type v = Ret v' /\ rep (fsnodes v') head [type + fsTypes_off].
Proof.
  intros Ht Hty Hh Hs Hne Hf. unfold IoDevFsInit.
  destruct (IoFilesystemRegister_forgets head fl type ty v [] Ht Hty Hh Hs) as (v' & E & Hr & _);
    [by intros ?%list_elem_of_singleton|by intros x Hx%not_elem_of_nil|done|done|].
  rewrite E. by exists v'.
Qed.

Lemma IntrInit_masks isrs isr66 st idt st' :
  IntrInit isrs isr66 st = Ret (idt, st') -> dispatch st' = dispatch st /\ mask21 st' = 0xFB /\ maskA1 st' = 0xFF.
Proof.
  unfold IntrInit. intros H. destruct (set_gates 3 0 _ _ _) as [i1| | |]; [|done..]. cbn [mbind outcome_bind] in H.
  destruct (set_gates 3 3 _ _ _) as [i2| | |]; [|done..]. cbn [mbind outcome_bind] in H.
  destruct (set_gates 42 6 _ _ _) as [i3| | |]; [|done..]. cbn [mbind outcome_bind] in H. by ret_inv.
Qed.

(** *** The first switch *)

(** With an empty queue the idle thread takes over. *)
Lemma first_switch {K : Machine} s th :
  threadQueue s = [] -> ProcCurrThread s <> ProcIdleThread -> thread s !! ProcIdleThread = Some th ->
  parent th = ProcKernelProcess -> fpuSwitches th = 0 -> fpuCurrent (fpu s) = 0 -> ProcIdleThread <> 0 ->
  exists s', ProcIntSelfExit s = Ret s' /\ ProcCurrThread s' = ProcIdleThread /\ ProcCurrProcess s' = ProcKernelProcess /\
    threadQueue s' = [] /\ thread s' = thread s /\ process s' = process s /\ TssESP0 s' = 0 /\
    (cr0_ts (fpu s') = CpuHasFpu || cr0_ts (fpu s)).
Proof.
  intros Hq Hne Ht Hp Hf Hfpu H0. apply Z.eqb_neq in Hne as Hne'. apply Z.eqb_neq in H0 as H0'.
  unfold ProcIntSelfExit, ProcDoSchedule, next_thread. rewrite Hq. cbv zeta iota beta. simpl. rewrite Hne', Ht. simpl.
  rewrite Hp, Z.eqb_refl. simpl. unfold CpuTaskSwitched. destruct CpuHasFpu; simpl.
  - rewrite Hfpu, H0'. simpl. rewrite Ht. simpl. rewrite Hf. simpl. rewrite Z.eqb_sym, Hne'. eexists. split; [reflexivity|]. by split_and!.
  - rewrite Z.eqb_sym, Hne'. eexists. split; [reflexivity|]. simpl. by split_and!.
Qed.
End Boot.

(** ** The theorem *)

Section Kernel.
Context {CO : ContextOps} {D : Type} (im : machine_image) (fuel : nat).
Context (es : list multiboot_mmap_entry) (mods : list multiboot_mod_list) (info : multiboot_info).
Context (features : Z) (daz : bool) (mBootInfo total t : Z) (k : kernel D) (code_of : exception -> Z) (devfsType : IoFilesystemType (devfs D)).

#[local] Abbreviation st := (k_boot k).
#[local] Abbreviation m := (wbytes (k_world k)).
#[local] Abbreviation used := (used_page im es mods total t).

(** What the boot loader, the linker and the processor provide: the memory
    map with room for 42 requests at the ends of the zones, the static data,
    a clock that ends its update, and a processor that CpuInit accepts. *)
Record loaded : Prop := {
  lo_bootable : bootable im fuel es mods info features mBootInfo total t st m 42;
  lo_screen : Utils.writable m SCREEN SCREEN_BYTES;
  lo_cpu : CpuInit im fuel = Ret (features, daz);
  lo_isrs : length (im_IntrISRList im) = 48%nat /\ (forall a, a ∈ im_IntrISRList im -> is_u32 a) /\ is_u32 (im_Isr66 im);
  lo_init : 0xA0 <= init_start_page (im_layout im) <= end_page (im_layout im);
  lo_root : ~ init_page im (page_of (im_rootCache im));
  lo_dummy : 0 <= page_of (ProcCurrThread (psys (k_procs k))) < total /\ used (page_of (ProcCurrThread (psys (k_procs k)))) = true;
  lo_names : readable m (im_idle im) 256 /\ readable m (im_reaper im) 256;
  lo_dispatch : dispatch (k_intr k) = table_init (im_IntrDispatchTable im) code_of;
  lo_clock : Exists (fun a => truth (Z.land a 0x80) = false) (im_cmos_reads im);
  lo_procs : unstarted (k_procs k);
  lo_type : fstypes (k_vfs k) !! im_devfs_type im = Some devfsType /\ 0 < im_devfs_type im < 4294967292;
  lo_nodes : rep (fsnodes (k_vfs k)) (im_fsTypeHead im) [] /\ rep (fsnodes (k_vfs k)) (im_devfs_type im + fsTypes_off) [] /\
             im_devfs_type im + fsTypes_off <> im_fsTypeHead im;
  lo_fuel : (0 < fuel)%nat
}.

(** What runs when kMain is done. *)
Record running (k' : kernel D) (K : Machine) : Prop := {
  ru_gates : exists i, IntrInit (im_IntrISRList im) (im_Isr66 im) (k_intr k) = Ret (k_idt k', i);
  ru_memory : MemManagerInit (wiped m) fuel (im_layout im) (im_garbage im) features mBootInfo st = Ret (k_boot k');
  ru_slabs : (exists fr, slab_inv (im_rootCache im) (wslabs (k_world k')) fr) /\ kalloc_ok (wslabs (k_world k'));
  ru_init_pages : forall i, init_page im i -> ~ phys_held (spages (wslabs (k_world k'))) i;
  ru_kernel_pages : forall i, 0 <= i < total -> used i = true -> ~ init_page im i -> phys_held (spages (wslabs (k_world k'))) i;
  ru_timer : dispatch (k_intr k') !! entry_at (im_IntrDispatchTable im) 0x20 = Some (mkEntry (im_TimerInterrupt im) 0 0) /\
             mask21 (k_intr k') = 0xFA /\ maskA1 (k_intr k') = 0xFF;
  ru_threads : ProcCurrThread (psys (k_procs k')) = @ProcIdleThread K /\ ProcCurrProcess (psys (k_procs k')) = im_ProcKernelProcess im /\
               threadQueue (psys (k_procs k')) = [] /\ dom (thread (psys (k_procs k'))) = {[@ProcIdleThread K; @reaperThread K]} /\
               hTableThread (k_procs k') = <[1 := @reaperThread K]> {[0 := @ProcIdleThread K]};
  ru_idle : startable (K := K) (im_ProcIntKernelThreadReturn im) (k_procs k') (@ProcIdleThread K) (im_ProcIntIdleThread im) 0;
  ru_reaper : startable (K := K) (im_ProcIntKernelThreadReturn im) (k_procs k') (@reaperThread K) (im_ProcIntReaperThread im) 0;
  ru_devfs : rep (fsnodes (k_vfs k')) (im_fsTypeHead im) [im_devfs_type im + fsTypes_off]
}.

Lemma kernel_page_used i :
  loaded -> init_page im i -> 0 <= i < total /\ used i = true.
Proof.
  intros Hl Hi. pose proof (lo_init Hl). destruct (ba_total _ _ _ _ _ _ _ _ _ _ _ _ (lo_bootable Hl)) as [Ht _].
  unfold init_page in Hi. split; [lia|]. unfold used_page, taken, BootSpec.range.
  destruct (Z.leb_spec 0xA0 i); [|lia]. destruct (Z.ltb_spec i (0xA0 + (end_page (im_layout im) - 0xA0))); [|lia].
  simpl. by rewrite orb_true_r.
Qed.

(** A kernel started by something that is no multiboot loader panics. *)
Theorem kMain_refuses mBootCode :
  mBootCode <> MULTIBOOT_BOOTLOADER_MAGIC ->
  kMain im fuel mBootCode mBootInfo k = Panic "kMain: OS must be loaded by a multiboot bootloader".
Proof. intros H. unfold kMain. apply Z.eqb_neq in H. by rewrite H. Qed.

(** C11: the kernel boots: on a machine that is loaded as above kMain gets through
    all initialisers and ends in the idle thread, which is alone with the
    reaper; the slab allocator is in order on the page allocator's pages also
    after the init pages were given back, the gates are set, the timer's
    handler is installed as the only one with its interrupt unmasked, and
    devfs is the registered filesystem type. *)
Theorem kMain_boots :
  loaded -> exists k' K, kMain im fuel MULTIBOOT_BOOTLOADER_MAGIC mBootInfo k = Ret (k', K) /\ running k' K.
Proof.
  intros Hl. pose proof Hl as [L1 L2 L3 (L4 & L4' & L4'') L5 L6 L7 [L8 L9] L10 L11 L12 [L13 L13'] (L14 & L15 & L16) L17].
  pose proof L12 as [U1 U2 U3 U4 U5]. unfold kMain. cbn [Z.eqb negb MULTIBOOT_BOOTLOADER_MAGIC Pos.eqb].
  destruct (wipe_screen m L2) as (m' & Em & Hwm & Hgm). rewrite Em. cbn [mbind outcome_bind].
  destruct (IntrInit_gates (im_IntrISRList im) (im_Isr66 im) (k_intr k) L4 L4' L4'') as (idt & i1 & Eg & _).
  rewrite Eg. cbn [mbind outcome_bind]. destruct (IntrInit_masks _ _ _ _ _ Eg) as (Hd1 & Hm1 & Hm2). rewrite L3. cbn [mbind outcome_bind].
  destruct (init_memory_ok im fuel es mods info features mBootInfo total t st m 18 (set_wbytes (k_world k) m') L1 Hwm) as (b & w1 & Eb & Eb' & Hok1 & Hb1).
  rewrite Eb. cbn [mbind outcome_bind].
  destruct (CpuInitLate_ok (K := machine_of im features daz 0 0) im 16 _ _ w1 Hok1) as (w2 & E2 & Hok2 & Hb2 & _). rewrite E2. cbn [mbind outcome_bind].
  destruct (init_timer_ok im code_of i1 (ptimer (k_procs k)) w2) as (i2 & tm & E3 & Ht1 & Ht2 & Ht3 & _); [by rewrite Hd1|done|].
  rewrite E3. cbn [mbind outcome_bind].
  destruct (init_processes_ok (K := machine_of im features daz 0 0) im fuel 2 _ _ (set_ptimer (k_procs k) tm) w2 Hok2)
    as (idle & reaper & p & w3 & E4 & Hok3 & HRi & Hi0 & Hne & Si & Sr & Hdom & Hht & _ & Hcp & Hct & Hq & Hfp & _); [by split|done|..].
  { rewrite Hb2, Hb1. intros i Hi. by apply Hgm, L8. }
  { rewrite Hb2, Hb1. intros i Hi. by apply Hgm, L9. }
  rewrite E4. cbn [mbind outcome_bind].
  destruct (IoBlockCacheInit_ok im 0 _ _ w3 Hok3) as (w4 & E5 & Hok4 & _). rewrite E5. cbn [mbind outcome_bind].
  destruct (devfs_registered (im_fsTypeHead im) fuel (im_devfs_type im) devfsType (k_vfs k)) as (v & E6 & Hrep); [done..|].
  rewrite E6. cbn [mbind outcome_bind].
  destruct (free_init_pages_ok im 0 _ _ w4 Hok4) as (w5 & E7 & _ & I5 & Hka5 & Hh5); [by intros i; apply kernel_page_used|done|lia|].
  rewrite E7. cbn [mbind outcome_bind].
  assert (ProcCurrThread (psys p) <> idle) as Hdummy by (intros E; apply HRi; rewrite <- E, Hct; exact L7).
  pose proof Si as (th & Hth & _ & Hpar & Hsw & _).
  destruct (first_switch (K := machine_of im features daz idle reaper) (psys p) th) as (s' & E8 & F1 & F2 & F3 & F4 & F5 & _);
    [done|done|done|done|done|by rewrite Hfp|done|].
  rewrite E8. cbn [mbind outcome_bind].
  exists (mkKernel idt i2 b w5 (set_psys p s') v), (machine_of im features daz idle reaper). split; [reflexivity|].
  split; cbn [k_idt k_intr k_boot k_world k_procs k_vfs].
  - by exists i1.
  - exact Eb'.
  - done.
  - intros i Hi Hh. by apply Hh5 in Hh as [_ []].
  - intros i Hi Hu Hn. apply Hh5. split; [|exact Hn]. destruct Hok4 as (fr & _ & _ & _ & _ & _ & _ & [HR _]). by apply HR.
  - split; [exact Ht1|]. rewrite Ht2, Hm1, Ht3, Hm2. by vm_compute.
  - split; [exact F1|]. split; [exact F2|]. split; [exact F3|]. split; [cbn [psys set_psys]; rewrite F4; exact Hdom|exact Hht].
  - destruct Si as (x & Hx & Hs). exists x. cbn [psys set_psys kstacks]. rewrite F4. done.
  - destruct Sr as (x & Hx & Hs). exists x. cbn [psys set_psys kstacks]. rewrite F4. done.
  - exact Hrep.
Qed.
End Kernel.
