(* ===== verification/KMainMachine.v ===== *)
(** * A small machine that runs the kernel

    The machine with 4 MB of BootMachine.v and the processor of CpuAsm.v, with
    the memory, the tables and the static data that kMain needs, at which the
    theorem of KMainSpec.v is used. *)
From S2P Require Import Prelude Asm CpuAsm CList Utils Physical PageMap PageFault Region UserPage MemInit InitSpec BootSpec.
From S2P Require Import BootMachine Sched Signal Timer Fs Mount DevFs Process Small Slab SlabInv SlabSpec SlabPhys Interrupt.
From S2P Require Import KMain KMainSpec.

(** The bytes [l] from address [a] on. *)
Fixpoint bytes_at (a : Z) (l : list Z) (m : gmap Z Z) : gmap Z Z :=
  match l with [] => m | b :: l' => <[a := b]> (bytes_at (a + 1) l' m) end.

Lemma bytes_at_grows l : forall a m, grows m (bytes_at a l m).
Proof. induction l as [|b l IH]; intros a m x Hx; simpl; [done|]. by apply grows_insert, IH. Qed.

Lemma bytes_at_readable l : forall a m i, a <= i < a + zlen l -> is_Some (bytes_at a l m !! i).
Proof.
  induction l as [|b l IH]; intros a m i Hi; [change (zlen []) with 0 in Hi; lia|]. simpl.
  destruct (decide (a = i)) as [->|Hne]; [rewrite lookup_insert_eq; by eexists|]. rewrite lookup_insert_ne by done.
  apply IH. change (zlen (b :: l)) with (Z.of_nat (S (length l))) in Hi. unfold zlen. lia.
Qed.

(** The boot loader's tables, the screen, and the strings "idle" and "reaper"
    with what follows them. *)
Definition b_strings : list Z := [105; 100; 108; 101; 0] ++ [114; 101; 97; 112; 101; 114; 0] ++ replicate 256 0.
Definition b_memory : gmap Z Z :=
  bytes_at 0xC0001000 (m_bytes 0x400000) (bytes_at 0xC00B8000 (replicate 4000 32) (bytes_at 0xC0140000 b_strings ∅)).

Definition b_image : machine_image :=
  {| im_layout := m_layout; im_ProcKernelProcess := 0xC0130000; im_MemKernelContext := 0xC0131000; im_rootCache := 0xC0132000;
     im_IntrISRList := replicate 48 0xC0150000; im_Isr66 := 0xC0150100; im_IntrDispatchTable := 0xC0133000;
     im_TimerInterrupt := 0xC0111000; im_ProcIntKernelThreadReturn := 0xC0112000; im_ProcIntIdleThread := 0xC0113000;
     im_ProcIntReaperThread := 0xC0114000; im_kernel := 0xC0140010; im_idle := 0xC0140000; im_reaper := 0xC0140005;
     im_fsTypeHead := 0xC0135000; im_devfs_type := 0xC0136000; 
     im_processor := plain_processor; im_cpu_data := 0xC0120000; im_cpu_tmp := 0xC0121000; im_cpu_msg := 0xC0122000;
     im_cpu_code := small_cpu_layout; im_at_CpuInit := at_cpu_init; im_after_CpuInit := 0xC0105000;
     im_cmos_reads := [0x80; 0x26]; im_cmos := fun r => if r =? 0xB then 2 else 1; im_garbage := 0 |}.

#[local] Instance b_contexts : ContextOps :=
  {| co_MemContextClone _ _ := Fault; co_free_pages _ _ := Fault; co_IoContextClone _ _ := Fault;
     co_IoContextDeleteReference _ _ := Fault |}.

Definition b_type : IoFilesystemType (devfs unit) := mkFsType [100; 101; 118; 102; 115] 0 (fun _ _ => Fault).
Definition b_vfs : vfs (devfs unit) :=
  mkVfs (<[0xC0135000 := mkListHead 0xC0135000 0xC0135000]> (<[0xC0136004 := mkListHead 0xC0136004 0xC0136004]> ∅))
    (<[0xC0136000 := b_type]> ∅) ∅ 0 ∅.

(** dummyInitThread is at 0xC0134000. *)
Definition b_procs : procs :=
  mkProcs (mkSys ∅ ∅ ∅ [] 0xC0134000 0xC0130000 0 0 20 0 0 (mkFpu false 0 [])) ∅ ∅ 0 0 [] ∅
    (mkTimerState 0 0 0 [] [] (mkPorts 0 [] [] [])).

Definition b_code (_ : exception) : Z := 0xC0115000.
Definition b_world : world := mkWorld (slab_start 0xC0132000 (mkPhys [] [] 0 0)) b_memory 0 0 0 0.
Definition b_kernel : kernel unit :=
  mkKernel [] (mkIntrState (table_init 0xC0133000 b_code) 0 0 []) m_start b_world b_procs b_vfs.

Lemma b_boot : boot_ok (wiped b_memory) 100 m_layout m_info (m_map 0x400000) [] 0 0x8003BF 0xC0001000 0x400 0x200 m_start.
Proof.
  split; [split|..].
  - vm_compute. repeat split; congruence.
  - reflexivity.
  - simpl. lia.
  - exact m_layout_ok.
  - apply m_entries. lia.
  - done.
  - vm_compute. reflexivity.
  - reflexivity.
  - vm_compute. reflexivity.
  - reflexivity.
Qed.

Lemma b_tails : free_tails (used_page b_image (m_map 0x400000) [] 0x400 0x200) 0x400 42.
Proof.
  split; [lia|]. split; [|lia].
  assert (forallb (fun i => negb (used_page b_image (m_map 0x400000) [] 0x400 0x200 i)) (seqZ (0x400 - 336) 336) = true) as H by (vm_compute; reflexivity).
  intros i Hi. rewrite forallb_forall in H. apply negb_true_iff, H, list_elem_of_In, elem_of_seqZ. lia.
Qed.

Lemma b_loaded : loaded b_image 100 (m_map 0x400000) [] m_info 0x8003BF false 0xC0001000 0x400 0x200 b_kernel b_code b_type.
Proof.
  split.
  - split; [exact b_boot|by unfold is_u32|simpl; lia|vm_compute; discriminate|apply m_fit; lia|exact b_tails|vm_compute; intuition discriminate].
  - intros a Ha. apply bytes_at_grows, bytes_at_readable. exact Ha.
  - reflexivity.
  - split_and!; [reflexivity| |by unfold is_u32]. intros a [-> _]%elem_of_replicate. by unfold is_u32.
  - simpl. lia.
  - unfold init_page. vm_compute. intuition discriminate.
  - vm_compute. intuition discriminate.
  - split; intros i Hi; apply bytes_at_grows, bytes_at_grows, bytes_at_readable; change (zlen b_strings) with 268;
      cbn [im_idle im_reaper b_image]; lia.
  - reflexivity.
  - right. left. reflexivity.
  - by split.
  - split; [reflexivity|]. cbn. lia.
  - split; [|split]; [split; [apply NoDup_singleton|split; reflexivity]..|discriminate].
  - lia.
Qed.

Lemma kMain_refuses_witness : kMain b_image 100 0 0xC0001000 b_kernel = Panic "kMain: OS must be loaded by a multiboot bootloader".
Proof. apply (kMain_refuses b_image 100 0xC0001000 b_kernel 0). discriminate. Defined.

(** The machine boots into its idle thread. *)
Lemma kMain_boots_witness :
  exists k' K, kMain b_image 100 0x2BADB002 0xC0001000 b_kernel = Ret (k', K) /\
    ProcCurrThread (psys (k_procs k')) = @ProcIdleThread K /\ threadQueue (psys (k_procs k')) = [].
Proof.
  destruct (kMain_boots b_image 100 (m_map 0x400000) [] m_info 0x8003BF false 0xC0001000 0x400 0x200 b_kernel b_code b_type b_loaded) as (k' & K & E & R).
  exists k', K. split; [exact E|]. destruct (ru_threads _ _ _ _ _ _ _ _ _ _ _ R) as (H1 & _ & H2 & _). split; [exact H1|exact H2].
Defined.
